(* ===== verification/_CoqProject ===== *)
-Q . S2P
Prelude.v
Byteorder.v
Ccsds.v
Crc16.v
Bitman.v
Ecss.v
Gresb.v
Rmap.v
RmapHeap.v
CString.v
Fields.v
Pus.v
Sys.v
NetConn.v
NetRecv.v
Net.v
NetSpec.v
NetStart.v
NetConc.v
NetConcInv.v
NetConcSafe.v
NetConcSpec.v
Locks.v
Threads.v
NetSafe.v
Spw.v
SpwSpec.v
SpwLife.v
Bridge.v
SpwConc.v
SpwConcInv.v
SpwConcSafe.v
SpwConcProps.v
SpwConcSpec.v
SpwConcEnd.v
Options.v
OptionsSpec.v
Debug.v
DebugSpec.v
Kbd.v
Main.v
Signals.v
