(* ===== verification/Prelude.v ===== *)
(** * spw_bridge: verification library

    spw_bridge relays packets between TCP/UDP clients and a SpaceWire link.
    A poll thread per network service frames what its clients write
    (src/net.c, with the packet formats of src/gresb.c, src/rmap.c and
    src/ecss/) and hands it to the SpaceWire side (src/spw.c); a thread per
    channel of the SpaceWire side hands every received packet to a sink, which
    checks it and forwards it to the clients of the services, or in monitor mode
    copies it to the other channel. src/spw_bridge.c parses the options into the
    configuration all parts share.

    ** Parts and files

    Foundations
    - [Prelude]: machine integers with explicit wrap-around, buffers and
      pointers with checked accesses, shared lemmas and tactics.
    - [CString]: C strings, [strtol], [strtoul], [strtok], decimal numbers.
    - [Byteorder] (src/byteorder.h): the conversions between the order of the
      processor and a fixed order, for both kinds of processors.

    Packet formats
    - [Ccsds] (src/ecss/ccsds_pkt.c, .h): the accessors of the CCSDS primary
      header, on the octets a packet pointer points to.
    - [Crc16] (src/ecss/crc16.c): the lookup tables as state, their
      initialisers, the bytewise and the sliced CRC16 routines.
    - [Bitman] (src/ecss/bitman.c): [putbits8] and [bitcpy].
    - [Ecss] (src/ecss/ecss_pkt.c, .h, ecss_pkt_cfg.h): the secondary headers of
      PUS packets, the time stamps, sizes and checks.
    - [Fields] (src/ecss/ecss_pkt.h, ecss_pkt_cfg.h): the type codes of packet
      fields, and the tables of services and fields.
    - [Gresb] (src/gresb.c, .h): the GRESB envelope and the port numbers.
    - [Rmap] (src/rmap.c, .h): the packet structure and its setters, the header
      writer [rmap_build_hdr], the parser [rmap_pkt_from_buffer], the debug
      decoder [rmap_parse_pkt] and the CRC-8.
    - [RmapHeap]: the functions of rmap.c that allocate and free, on a memory of
      blocks.
    - [Pus]: [pus_pkt_crc_valid] of src/spw_bridge.c and [check_pus_sequence]
      of src/net.c.

    The network side (src/net.c)
    - [Sys]: [struct bridge_cfg], [struct net_service] and [struct net_state] as
      records, and what net.c asks of the operating system.
    - [NetConn]: accepting, connecting, binding and dropping connections, and
      the list of datagram clients.
    - [NetRecv]: [recv_exact] with its deadline and the receive functions, one
      per framing.
    - [Net]: [send_all], the loops over the clients, the handlers
      ([net_to_spw], [gresb_tx_to_spw], [gresb_rx_discard],
      [rmap_net_to_spw]), the sink [net_pkt_sink] with [net_forward_to_clients]
      and [rmap_reply_to_clients], and one round of [poll_socket].
    - [NetSpec]: what the definitions of [Net] deliver.
    - [NetStart]: [net_start], [net_stop] and [net_release].
    - [NetSafe]: the invariant of the network side, which [net_start]
      establishes and every handler, accepted connection and sink preserves.

    The SpaceWire side (src/spw.c)
    - [Spw]: [struct spw_state], the polling threads, sending, monitor mode,
      setup and shutdown, over the STAR API.
    - [SpwSpec]: what a send and an iteration of a polling thread do.
    - [SpwLife]: setup and shutdown.
    - [Bridge]: both sides together.

    The threads
    - [Locks]: a language for the control flow of threads that lock, call, can be
      cancelled and end the process, with a check of such programs that is sound
      for every interleaving.
    - [Threads] (src/net.c, src/spw.c, [main]): the functions of both sides that run
      in threads, reduced to that language, and the shutdown.
    - [SpwConc] (src/spw.c): the functions of [Spw] that threads share, step by
      step, for any number of threads; [SpwConcInv] is the invariant of their
      configurations (which thread owns which operation, buffer and item),
      [SpwConcSafe] the proof that every step keeps it, [SpwConcProps] that every
      event does; [SpwConcSpec] and [SpwConcEnd] are the contracts.
    - [NetConc] (src/net.c): the functions of [NetConn] and [Net] that share the
      tables of the services, step by step, for any number of threads of a
      server; [NetConcInv] says what a step does to the tables and to its thread,
      [NetConcSafe] which descriptor is whose in every run; [NetConcSpec] is the
      contract.

    The program (src/spw_bridge.c)
    - [Options], [OptionsSpec]: the initial configuration, the option handlers
      and [parse_options].
    - [Debug], [DebugSpec]: [pus_debug_print], and [spw_debug_print] of spw.c.
    - [Kbd] (src/kbd.c): the keyboard thread, [kbd_start] excepted, and
      [kbd_stop].
    - [Main]: [kbd_start] and [main], with the threads of both sides and of the
      keyboard taking turns between its calls.
    - [Signals]: the signal actions, and where in [main] which signal does what.

    ** How the program is modelled

    A buffer is the list of its octets and a pointer argument is [NULL] or a
    buffer; a load or store out of bounds gives [None]. A function of the
    packet libraries is a function into [option], so that a result [Some _]
    says that the function is free of out-of-bounds accesses; operations on a
    [struct] return the new one. [malloc] is an argument that says whether it
    succeeds. In [RmapHeap] the packets of rmap.c are blocks of a memory, with
    pointers to their buffers; the allocator is the class [RmapHeap.Allocator],
    and a freed block, an octet that was not written or a second [free] are undefined
    behaviour there.

    net.c runs in a monad [Sys.M] over a [Sys.world]: the state of the
    subsystem, the octets waiting on every open socket, the mutexes the thread
    holds, and a log of what was done (octets sent, descriptors closed, packets
    and commands handed to the SpaceWire side, messages). A computation
    returns, ends the process, or is stuck: an access out of bounds, or a mutex
    locked twice or unlocked without being held. What system calls answer
    (how many octets a [recv] or [send] takes, errors, signals, time-outs, the
    clock, failing allocations, what is ready) is an instance of the class
    [Sys.Kernel], a function of the number of the call; a theorem for every
    instance holds for every behaviour of the operating system. [KernelLive]
    (signals do not interrupt [send] forever) is the one assumption termination
    needs, and [NetRecv.KernelGood] describes the cooperative network that
    the completeness theorems assume.

    spw.c runs in a monad [Spw.SM] over a [Spw.sworld]: the state behind
    [cfg->spw], the transfer operations with the ones the API has freed, the
    packet buffers and addresses in use, the mutex of the operations, the world
    of the network side and a log. The STAR API is not part of the repository: the
    class [Spw.Star] is an arbitrary sequence of answers (the devices, the
    channels, whether an allocation succeeds, how a transfer ends, the octets
    received, and whether another thread has asked for the shutdown). Using a
    handle that was disposed is stuck; the log has the channels opened, the
    transmissions submitted and the status each has ended with. The calls net.c makes into spw.c
    are actions of its log, and [Spw.replay] runs them; the sink spw.c calls is the
    function of net.c itself. An iteration of [poll_spw] is [Spw.poll_round], and
    the number of iterations is an argument of every theorem about the threads.

    The options run on what [getopt] has found, a list of letters and arguments;
    the resolver is the class [Options.Resolver].

    [Main.bridge_main] composes all of this in the order of [main]. Its schedule
    says what happens in the phases in between, as a list of
    [Main.event]s: an accepted connection, a round of a poll thread together with
    the transmissions it causes, an iteration of a polling thread with its sink, a
    step of the keyboard thread. A theorem for every schedule holds for every
    order of these rounds. Until [spw_setup_device] has stored it, [cfg->spw] has no
    value, and a round of a poll thread that reads it is undefined, unless the memory
    happens to hold null ([Main.early_event]).

    What happens inside these rounds is the subject of three finer models. In
    [SpwConc] a step of a thread is one access to the state of spw.c or one call
    of the API, the threads are in any place of their functions, and [net_stop]
    cancels the network threads where they make a call; the network side is
    any computation that keeps [NetSafe.net_ok]. [SpwConc.send_steps] and
    [SpwConc.poll_steps] tie the steps to the functions of [Spw]: a thread that
    is not disturbed computes exactly them. [NetConc] does the same for the tables
    of net.c: a step is one access to a table, one call that concerns a
    descriptor, or one operation on a mutex, and what a handler finds on its
    connection is part of the event that runs it; [accept] returns any number that
    is not open, or, in the runs called fresh, any number nobody refers to any
    more. [NetConc.undisturbed_threads] ties the steps to the functions of
    [NetConn] and [Net]. In [Threads] the control flow of all
    functions of both sides is left, with a choice for every condition on data:
    what can be said about the mutexes, the cancellation and the end of the
    threads, for the whole process and every configuration. A wait for a packet can
    be for ever in [Threads] and in [SpwConc]: in the former the device may fall
    silent at any time, in the latter the answer to a wait is an event that need not
    come; in both it is the shutdown that has to end the wait.

    ** What the theorems show

    - Packet formats: the getters and setters of the CCSDS and PUS headers
      implement the headers of the standards; all CRC routines agree with a
      bit-serial reference; GRESB envelopes round-trip; RMAP packets built by a
      sequence of setters that sets a valid command satisfy an invariant, if the
      allocations succeed, the writer writes exactly the announced octets, the parser
      recovers all fields but the header CRC, and whatever octets arrive it
      reads inside the buffer only. The memory of these packets refines their
      values: nothing is lost or freed twice on any path, except that a setter
      of a path that is called twice loses the first one.
    - Framing: for every kernel a receive function returns the next packet of
      the stream or the connection is gone; with a cooperative kernel, which does not
      split headers, a sequence of packets is received as that sequence. The
      class [NetRecv.Framing] is the interface: the theorems on whole streams
      are proved against it.
    - Forwarding: every packet reaches SpaceWire at most once, unchanged, and in
      order, never in monitor mode; every client of a service in the polled range gets
      whole packets only, or is dropped; RMAP replies reach the RMAP clients only,
      and a read reply with data overflows a buffer.
    - The link: what net.c hands over is transmitted once and in order and leaves
      no operation behind; what the device delivers goes through the sink once
      and in order; in monitor mode each channel is copied to the other.
      [Bridge.bridge_stream_transmitted] joins both sides, from the octets a
      client has written to the transmissions on the channel.
    - Tables: the connection tables and the datagram clients are well formed in
      every reachable state.
    - Life cycle: what [net_start] starts, [net_stop] stops; what
      [spw_setup_device] opens is open, and the three steps of the shutdown
      dispose every operation that is in a slot, once; [Main.bridge_main_safe] says
      under which conditions a schedule of whole rounds does nothing undefined, and what
      is released at the end; [Kbd.kbd_restores] is about the terminal.
    - Interleavings: whatever the order of the steps of the threads, no operation,
      buffer or item is used that is gone, two threads never work on the same one,
      the packets submitted to the link are whole and in the order of their thread, and
      the shutdown ends after a bounded number of steps, without an answer of the
      device, with every operation released that no cancelled thread held.
      The tables of net.c are only changed under their mutex, which is given
      back after a bounded number of steps; in the fresh runs every descriptor stays
      with its service, none is lost, and the tables list the open connections;
      in the others a thread may use the number of a connection of another service.
      Mutexes are taken one at a time and given back by their owner; without
      the sniffer port the shutdown can be completed from every state, even if the
      device is silent, and with it there is a run that hangs.
    - Signals: main comes behind [pause] by a handled signal that is delivered to it
      only, and then has the calls of the shutdown before it.
    - Options: for every list of options the result has every member in its
      range, and nothing is stored out of bounds.
    - Defects: a number of theorems state where the code does not do what it
      means to (among them a heap overflow on RMAP read replies, connections
      that are never served, datagrams that are never consumed, a sequence
      check that never reports, a printout that reads behind short packets,
      packets that go to the client of another service, a shutdown that hangs, a
      failed transmission that goes unnoticed); the manifest lists them as findings.

    ** Bounds and fuel

    Loops over buffers recurse on the buffer or on the count of the C loop.
    [NetRecv.recv_loop] runs on the number of octets requested (every round
    that goes on takes at least one), [Net.send_loop] on the number of octets
    times one more than the longest run of interruptions, [Net.discard_loop] on
    the octets of the stream, the tokens of [CString.tokens] on the length of the
    string; that the fuel is enough is part of the theorems,
    since running out of it is stuck. An iteration of [poll_spw] with its
    transmission has fewer steps than the 40 of [SpwConc.poll_steps];
    [SpwConcEnd.work] counts the steps that are left of a shutdown,
    [NetConcInv.work] those to the end of a section under a mutex.

    ** Not modelled

    The debug printouts inside net.c and spw.c are log entries (what they print
    is in [Debug], without the time stamp); the [DBG] messages of rmap.c are
    modelled as in a verbose build. Time-outs of sockets and the parsing of
    addresses configure the kernel. In [Main] threads run one at a time from round
    to round, and the transmissions a round of a poll thread causes follow its
    handlers; the interleavings inside the rounds are those of [SpwConc] for the
    state of spw.c, of [NetConc] for the tables of net.c, and of [Threads] for the
    mutexes. [NetConc] is about a server in a stream mode: a client has one
    connection, with the loss of which it ends, and the datagram clients are one
    list under one mutex. A C data race is an interleaving of loads and stores
    here, although the language leaves it undefined. That the API cancels a
    transmission, which nobody asks it to, is excluded in [SpwConc]; in [Spw] the
    process ends then. A send that fails after its submission is seen in the status of
    the log; the link itself is not modelled. In [Main] [pause] returns at some time;
    when is the subject of [Signals]. In [Threads] and [Signals] a call may cover
    others: the first looks at the mutexes, the cancellation and the wait for a packet,
    the second at the order of the calls of [main]. [crc_init_lookup_table] is left out there, its table is
    the one of [Crc16]. The text of the usage, [gresb_destroy_host_data_pkt], which
    only calls [free], and what is compiled under [#if 0] or USE_BUILTIN_BSWAP are
    left out too. That an [fd_set] holds descriptors below FD_SETSIZE only is
    checked where connections are accepted; the sockets of the client and of the
    datagram mode are stored without a check, which is undefined beyond it
    ([NetStart.beyond_set]). *)

From stdpp Require Import base tactics option list list_numbers.
From Stdlib Require Import ZArith Lia Bool.
From Stdlib Require Zbitwise.

Local Open Scope Z_scope.

(** ** Machine integers *)

(** A C unsigned integer is a [Z] kept in range by an explicit wrap. *)

Definition u8 (x : Z) : Z := x mod 256.
Definition u16 (x : Z) : Z := x mod 65536.
Definition u32 (x : Z) : Z := x mod 4294967296.
Definition u64 (x : Z) : Z := x mod 18446744073709551616.

Definition is_byte (x : Z) : Prop := 0 <= x < 256.
Definition is_u16 (x : Z) : Prop := 0 <= x < 65536.

Definition bytes (l : list Z) : Prop := Forall is_byte l.

#[export] Instance is_byte_dec x : Decision (is_byte x).
Proof. unfold is_byte. apply _. Defined.

#[export] Instance is_u16_dec x : Decision (is_u16 x).
Proof. unfold is_u16. apply _. Defined.

#[export] Instance bytes_dec l : Decision (bytes l).
Proof. unfold bytes. apply _. Defined.

(** ** Buffers and pointers

    A buffer is the list of its bytes. Reading or writing outside of it is
    undefined behaviour in C: the access functions answer [None], and [None]
    propagates through [mbind], so that a result [Some _] of a translated
    function says that the execution is free of out-of-bounds accesses. *)

Definition zlen {A} (l : list A) : Z := Z.of_nat (length l).

Definition rd (b : list Z) (i : Z) : option Z :=
  if 0 <=? i then b !! Z.to_nat i else None.

Definition wr (b : list Z) (i v : Z) : option (list Z) :=
  if (0 <=? i) && (i <? zlen b) then Some (<[Z.to_nat i := u8 v]> b) else None.

(** [n] bytes from offset [off] (the source side of a [memcpy]) *)
Definition rdn (b : list Z) (off n : Z) : option (list Z) :=
  if (0 <=? off) && (0 <=? n) && (off + n <=? zlen b)
  then Some (take (Z.to_nat n) (drop (Z.to_nat off) b)) else None.

(** overwrite [length d] bytes from offset [off] (the destination side) *)
Definition wrn (b : list Z) (off : Z) (d : list Z) : option (list Z) :=
  if (0 <=? off) && (off + zlen d <=? zlen b)
  then Some (take (Z.to_nat off) b ++ d ++ drop (Z.to_nat off + length d) b)
  else None.

(** A pointer argument: [NULL], or the memory it points to. *)
Inductive ptr : Type :=
| NULL
| At (b : list Z).

Definition load (p : ptr) (i : Z) : option Z :=
  match p with NULL => None | At b => rd b i end.

Definition store (p : ptr) (i v : Z) : option ptr :=
  match p with NULL => None | At b => b' ← wr b i v; Some (At b') end.

Declare Scope cmem_scope.
Delimit Scope cmem_scope with cmem.
Notation "p .[ i ]" := (load p i)
  (at level 1, left associativity, format "p .[ i ]") : cmem_scope.
Notation "p .[ i <- v ]" := (store p i v)
  (at level 1, left associativity, format "p .[ i  <-  v ]") : cmem_scope.

#[export] Instance ptr_eq_dec : EqDecision ptr.
Proof. solve_decision. Defined.

(** C truth values *)
Definition c_true (x : Z) : bool := negb (x =? 0).

(** ** Lemmas on integers *)

Create HintDb cint.

Lemma u8_byte x : is_byte (u8 x).
Proof. apply Z.mod_pos_bound. lia. Qed.

Lemma u8_small x : is_byte x -> u8 x = x.
Proof. apply Z.mod_small. Qed.

Lemma u16_range x : is_u16 (u16 x).
Proof. apply Z.mod_pos_bound. lia. Qed.

Lemma u16_small x : is_u16 x -> u16 x = x.
Proof. apply Z.mod_small. Qed.

Lemma u32_small x : 0 <= x < 4294967296 -> u32 x = x.
Proof. apply Z.mod_small. Qed.

#[export] Hint Resolve u8_byte u16_range : cint.

(** Shifts and masks as arithmetic: with these a goal over single bytes is
    linear arithmetic with [/] and [mod], which [lia] decides. *)

Lemma shiftl_mul x k : 0 <= k -> Z.shiftl x k = x * 2 ^ k.
Proof. apply Z.shiftl_mul_pow2. Qed.

Lemma shiftr_div x k : 0 <= k -> Z.shiftr x k = x / 2 ^ k.
Proof. apply Z.shiftr_div_pow2. Qed.

Lemma land_mask x m k : 0 <= k -> m = Z.ones k -> Z.land x m = x mod 2 ^ k.
Proof. intros ? ->. by apply Z.land_ones. Qed.

Lemma testbit_high x k i : 0 <= x < 2 ^ k -> k <= i -> Z.testbit x i = false.
Proof.
  intros Hx Hk. destruct (decide (k < 0)).
  { rewrite Z.pow_neg_r in Hx by done. lia. }
  rewrite <- (Z.mod_small x (2 ^ k)) by done. apply Z.mod_pow2_bits_high. lia.
Qed.

Lemma shiftl_land_low hi lo k :
  0 <= lo < 2 ^ k -> Z.land (Z.shiftl hi k) lo = 0.
Proof.
  intros Hlo. apply Z.bits_inj'. intros i Hi. rewrite Z.land_spec, Z.bits_0.
  destruct (decide (i < k)).
  - by rewrite Z.shiftl_spec_low.
  - rewrite (testbit_high lo k i) by lia. by rewrite andb_false_r.
Qed.

Lemma lor_add hi lo k :
  0 <= k -> 0 <= lo < 2 ^ k -> Z.lor (Z.shiftl hi k) lo = hi * 2 ^ k + lo.
Proof.
  intros Hk Hlo. rewrite <- Z.shiftl_mul_pow2 by done.
  pose proof (Zbitwise.Z.add_lor_land (Z.shiftl hi k) lo) as H.
  rewrite (shiftl_land_low hi lo k Hlo) in H. lia.
Qed.

Lemma testbit_range x k : 0 <= x -> 0 <= k ->
  (forall i, k <= i -> Z.testbit x i = false) -> x < 2 ^ k.
Proof.
  intros Hx Hk H. destruct (decide (x < 2 ^ k)); [done|]. exfalso.
  assert (0 < 2 ^ k) by (apply Z.pow_pos_nonneg; lia).
  assert (k <= Z.log2 x) by (apply Z.log2_le_pow2; lia).
  specialize (H (Z.log2 x) ltac:(done)). rewrite Z.bit_log2 in H by lia. done.
Qed.

Lemma lxor_range x y k : 0 <= k -> 0 <= x < 2 ^ k -> 0 <= y < 2 ^ k ->
  0 <= Z.lxor x y < 2 ^ k.
Proof.
  intros Hk Hx Hy. assert (0 <= Z.lxor x y) by (apply Z.lxor_nonneg; lia).
  split; [done|]. apply testbit_range; [done|done|].
  intros i Hi. by rewrite Z.lxor_spec, (testbit_high x k), (testbit_high y k).
Qed.

Lemma lxor_byte x y : is_byte x -> is_byte y -> is_byte (Z.lxor x y).
Proof. apply (lxor_range x y 8). lia. Qed.

Lemma lxor_u16 x y : is_u16 x -> is_u16 y -> is_u16 (Z.lxor x y).
Proof. apply (lxor_range x y 16). lia. Qed.

(** big-endian pairs of octets *)
Lemma land_ff lo : is_byte lo -> Z.land lo 0xff = lo.
Proof. intros. rewrite (land_mask lo 0xff 8) by done. by apply Z.mod_small. Qed.

Lemma be16_lor hi lo : is_byte lo -> Z.lor (Z.shiftl hi 8) lo = hi * 256 + lo.
Proof. intros. by apply (lor_add hi lo 8). Qed.

(** linear arithmetic with [/] and [mod] by constants *)
Ltac dlia := Z.div_mod_to_equations; lia.

(** A boolean property checked on all 256 byte values holds of every byte. *)
Lemma byte_ind (P : Z -> bool) :
  forallb P (seqZ 0 256) = true -> forall b, is_byte b -> P b = true.
Proof.
  intros H b Hb. rewrite forallb_forall in H. apply H.
  apply list_elem_of_In, elem_of_seqZ. unfold is_byte in Hb. lia.
Qed.

Lemma range_ind2 n m (P : Z -> Z -> bool) :
  forallb (fun a => forallb (P a) (seqZ 0 m)) (seqZ 0 n) = true ->
  forall a b, 0 <= a < n -> 0 <= b < m -> P a b = true.
Proof.
  intros H a b Ha Hb. rewrite forallb_forall in H.
  assert (Hin : In a (seqZ 0 n)) by (apply list_elem_of_In, elem_of_seqZ; lia).
  specialize (H a Hin). rewrite forallb_forall in H. apply H.
  apply list_elem_of_In, elem_of_seqZ. lia.
Qed.

(** [by_bytes]: an equation between functions of one byte, by evaluation on
    all 256 values; [by_range2 n m]: of two bounded integers. *)
Ltac by_bytes :=
  lazymatch goal with
  | |- forall b, is_byte b -> @?L b = @?R b =>
      let b := fresh "b" in let Hb := fresh "Hb" in
      intros b Hb; apply Z.eqb_eq;
      refine (byte_ind (fun b => L b =? R b) _ b Hb);
      vm_cast_no_check (eq_refl true)
  end.

Ltac by_range2 n m :=
  lazymatch goal with
  | |- forall a b, _ -> _ -> @?L a b = @?R a b =>
      let a := fresh "a" in let b := fresh "b" in
      let Ha := fresh "Ha" in let Hb := fresh "Hb" in
      intros a b Ha Hb; apply Z.eqb_eq;
      refine (range_ind2 n m (fun a b => L a b =? R a b) _ a b Ha Hb);
      vm_cast_no_check (eq_refl true)
  end.

(** ** Lemmas on buffers *)

Create HintDb cbuf.

Create Rewrite HintDb crd.

Lemma zlen_nonneg {A} (l : list A) : 0 <= zlen l.
Proof. unfold zlen. lia. Qed.

Lemma zlen_nil {A} : zlen ([] : list A) = 0.
Proof. done. Qed.

Lemma zlen_cons {A} (x : A) l : zlen (x :: l) = zlen l + 1.
Proof. unfold zlen. simpl. lia. Qed.

Lemma zlen_app {A} (l k : list A) : zlen (l ++ k) = zlen l + zlen k.
Proof. unfold zlen. rewrite length_app. lia. Qed.

Lemma zlen_map {A B} (f : A -> B) l : zlen (map f l) = zlen l.
Proof. unfold zlen. by rewrite length_map. Qed.

Lemma zlen_take {A} (l : list A) n :
  0 <= n <= zlen l -> zlen (take (Z.to_nat n) l) = n.
Proof. unfold zlen. rewrite length_take. lia. Qed.

Lemma zlen_drop {A} (l : list A) n :
  0 <= n <= zlen l -> zlen (drop (Z.to_nat n) l) = zlen l - n.
Proof. unfold zlen. rewrite length_drop. lia. Qed.

Create Rewrite HintDb zlen.

#[export] Hint Rewrite @zlen_nil @zlen_cons @zlen_app @zlen_map : zlen.

(** Arithmetic on lengths: normalise every [zlen] and call [lia]. *)
Ltac zl :=
  autorewrite with zlen in *;
  repeat match goal with
  | |- context [zlen ?l] =>
      lazymatch goal with
      | _ : 0 <= zlen l |- _ => fail
      | _ => pose proof (zlen_nonneg l)
      end
  | H : context [zlen ?l] |- _ =>
      lazymatch goal with
      | _ : 0 <= zlen l |- _ => fail
      | _ => pose proof (zlen_nonneg l)
      end
  end; lia.

Lemma zlen_0_nil {A} (l : list A) : zlen l = 0 -> l = [].
Proof. destruct l; [done|]. zl. Qed.

Lemma rd_in b i : 0 <= i < zlen b -> exists x, rd b i = Some x.
Proof.
  intros Hi. unfold rd, zlen in *. rewrite (proj2 (Z.leb_le 0 i)) by lia.
  apply lookup_lt_is_Some. lia.
Qed.

Lemma rd_Some b i x : rd b i = Some x -> 0 <= i < zlen b.
Proof.
  unfold rd, zlen. destruct (Z.leb_spec 0 i); [|done].
  intros ?%lookup_lt_Some. lia.
Qed.

Lemma rd_out b i : zlen b <= i -> rd b i = None.
Proof.
  unfold rd, zlen. destruct (Z.leb_spec 0 i); [|done]. intros.
  apply lookup_ge_None. lia.
Qed.

Lemma rd_bytes b i x : bytes b -> rd b i = Some x -> is_byte x.
Proof.
  unfold rd. destruct (0 <=? i); [|done]. intros Hb Hx.
  by eapply Forall_lookup_1 in Hb.
Qed.

Lemma rd_cons x b i :
  rd (x :: b) i = if i =? 0 then Some x else rd b (i - 1).
Proof.
  unfold rd. destruct (Z.eqb_spec i 0) as [->|]; [done|].
  destruct (Z.leb_spec 0 i), (Z.leb_spec 0 (i - 1)); try lia; try done.
  replace (Z.to_nat i) with (S (Z.to_nat (i - 1))) by lia. done.
Qed.

Lemma rd_nil i : rd [] i = None.
Proof. unfold rd. by destruct (0 <=? i). Qed.

Lemma rd_app_l a b i : i < zlen a -> rd (a ++ b) i = rd a i.
Proof.
  intros Hi. unfold rd, zlen in *. destruct (Z.leb_spec 0 i); [|done].
  rewrite lookup_app_l; [done|lia].
Qed.

Lemma rd_app_r a b i : zlen a <= i -> rd (a ++ b) i = rd b (i - zlen a).
Proof.
  intros Hi. unfold rd, zlen in *. destruct (Z.leb_spec 0 i); [|lia].
  rewrite lookup_app_r by lia. rewrite (proj2 (Z.leb_le _ _)) by lia.
  f_equal. lia.
Qed.

Lemma rd_ext a b : (forall i, rd a i = rd b i) -> a = b.
Proof.
  intros H. apply list_eq. intros i. specialize (H (Z.of_nat i)).
  unfold rd in H. rewrite (proj2 (Z.leb_le _ _)) in H by lia.
  by rewrite Nat2Z.id in H.
Qed.

Lemma rd_take b n i :
  i < n -> rd (take (Z.to_nat n) b) i = rd b i.
Proof.
  intros. unfold rd. destruct (Z.leb_spec 0 i); [|done].
  rewrite lookup_take_lt; [done|lia].
Qed.

Lemma rd_drop b n i :
  0 <= n -> 0 <= i -> rd (drop (Z.to_nat n) b) i = rd b (n + i).
Proof.
  intros. unfold rd. rewrite !(proj2 (Z.leb_le _ _)) by lia.
  rewrite lookup_drop. f_equal. lia.
Qed.

Lemma wr_in b i v :
  0 <= i < zlen b -> wr b i v = Some (<[Z.to_nat i := u8 v]> b).
Proof.
  intros. unfold wr. rewrite (proj2 (Z.leb_le _ _)), (proj2 (Z.ltb_lt _ _)) by lia.
  done.
Qed.

Lemma wr_Some b i v b' :
  wr b i v = Some b' -> 0 <= i < zlen b /\ b' = <[Z.to_nat i := u8 v]> b.
Proof.
  unfold wr. destruct (Z.leb_spec 0 i), (Z.ltb_spec i (zlen b)); simpl; naive_solver.
Qed.

Lemma wr_out b i v : zlen b <= i -> wr b i v = None.
Proof.
  intros. unfold wr. rewrite (proj2 (Z.ltb_ge _ _)) by lia. by rewrite andb_false_r.
Qed.

Lemma zlen_wr b i v b' : wr b i v = Some b' -> zlen b' = zlen b.
Proof. intros [_ ->]%wr_Some. unfold zlen. by rewrite length_insert. Qed.

Lemma bytes_wr b i v b' : bytes b -> wr b i v = Some b' -> bytes b'.
Proof.
  intros Hb [_ ->]%wr_Some. apply Forall_insert; [done|]. apply u8_byte.
Qed.

Lemma rd_wr_eq b i v b' : wr b i v = Some b' -> rd b' i = Some (u8 v).
Proof.
  intros [Hi ->]%wr_Some. unfold rd, zlen in *.
  rewrite (proj2 (Z.leb_le _ _)) by lia. apply list_lookup_insert_eq. lia.
Qed.

Lemma rd_wr_ne b i j v b' : wr b i v = Some b' -> i <> j -> rd b' j = rd b j.
Proof.
  intros [Hi ->]%wr_Some Hne. unfold rd, zlen in *.
  destruct (Z.leb_spec 0 j); [|done]. apply list_lookup_insert_ne. lia.
Qed.

Lemma wr_cons x b i v :
  wr (x :: b) i v =
    if i =? 0 then Some (u8 v :: b) else b' ← wr b (i - 1) v; Some (x :: b').
Proof.
  unfold wr. rewrite zlen_cons. destruct (Z.eqb_spec i 0) as [->|].
  - rewrite (proj2 (Z.ltb_lt _ _)) by zl. done.
  - destruct (Z.leb_spec 0 i), (Z.leb_spec 0 (i - 1)); try lia; try done; simpl.
    destruct (Z.ltb_spec i (zlen b + 1)), (Z.ltb_spec (i - 1) (zlen b)); try lia;
      simpl; [|done].
    by replace (Z.to_nat i) with (S (Z.to_nat (i - 1))) by lia.
Qed.

Lemma rdn_in b off n :
  0 <= off -> 0 <= n -> off + n <= zlen b ->
  rdn b off n = Some (take (Z.to_nat n) (drop (Z.to_nat off) b)).
Proof.
  intros. unfold rdn. by rewrite !(proj2 (Z.leb_le _ _)) by lia.
Qed.

Lemma rdn_app a d c :
  rdn (a ++ d ++ c) (zlen a) (zlen d) = Some d.
Proof.
  rewrite rdn_in by zl. unfold zlen. rewrite !Nat2Z.id, drop_app_length, take_app_length.
  done.
Qed.

Lemma zlen_rdn b off n l : rdn b off n = Some l -> zlen l = n.
Proof.
  unfold rdn. destruct (Z.leb_spec 0 off), (Z.leb_spec 0 n),
    (Z.leb_spec (off + n) (zlen b)); simpl; intros; simplify_eq.
  rewrite zlen_take; [done|]. rewrite zlen_drop; lia.
Qed.

Lemma wrn_in b off d :
  0 <= off -> off + zlen d <= zlen b ->
  wrn b off d = Some (take (Z.to_nat off) b ++ d ++ drop (Z.to_nat off + length d) b).
Proof.
  intros. unfold wrn. by rewrite !(proj2 (Z.leb_le _ _)) by lia.
Qed.

Lemma bytes_app l k : bytes (l ++ k) <-> bytes l /\ bytes k.
Proof. apply Forall_app. Qed.

Lemma bytes_cons x l : bytes (x :: l) <-> is_byte x /\ bytes l.
Proof. apply Forall_cons. Qed.

(** octets of a concrete list, by evaluation *)
Lemma bytes_check l : forallb (fun x => (0 <=? x) && (x <? 256)) l = true -> bytes l.
Proof.
  intros H. apply Forall_forall. intros x Hx. rewrite forallb_forall in H.
  apply list_elem_of_In, H in Hx. rewrite andb_true_iff, Z.leb_le, Z.ltb_lt in Hx.
  exact Hx.
Qed.

#[export] Hint Resolve rd_bytes bytes_wr : cbuf.
#[export] Hint Rewrite rd_cons rd_nil wr_cons : crd.
