(* ===== verification/Byteorder.v ===== *)
(** * Byte order (src/byteorder.h)

    The conversions between the order of the processor and a fixed order, for
    both kinds of processors the header knows.  Memory is a list of octets; a
    processor is the order in which it loads and stores the octets of an integer.
    The functions that swap in place work on an address of that memory.  The
    header is compiled without USE_BUILTIN_BSWAP, which nothing defines. *)

From stdpp Require Import base tactics option list list_numbers.
From Stdlib Require Import ZArith Lia Bool.
From S2P Require Import Prelude.

Local Open Scope Z_scope.

(** ** Processors *)

(** [__sparc__] is the one, [__i386__], [__x86_64__], [__aarch64__] and [__arm__]
    the other *)
Inductive cpu : Type := CpuBig | CpuLittle.

#[export] Instance cpu_eq_dec : EqDecision cpu.
Proof. solve_decision. Defined.

(** the integer the octets [l] are, the most significant one first *)
Fixpoint be_value (l : list Z) : Z :=
  match l with [] => 0 | x :: l => x * 256 ^ zlen l + be_value l end.

(** [n] octets of [x], the most significant one first *)
Fixpoint be_octets (n : nat) (x : Z) : list Z :=
  match n with O => [] | S n => be_octets n (x / 256) ++ [x mod 256] end.

Definition order (e : cpu) (l : list Z) : list Z := match e with CpuBig => l | CpuLittle => rev l end.

(** loading and storing an integer of [n] octets at the address [a] *)
Definition load_int (e : cpu) (n : nat) (m : list Z) (a : Z) : option Z :=
  l ← rdn m a (Z.of_nat n); Some (be_value (order e l)).
Definition store_int (e : cpu) (n : nat) (m : list Z) (a x : Z) : option (list Z) :=
  wrn m a (order e (be_octets n x)).

(** ** Swapping *)

(** the operands are promoted to [int], and [unsigned long]: nothing is shifted out *)
Definition ___constant_swab16 (x : Z) : Z :=
  u16 (Z.lor (Z.shiftl (Z.land (u16 x) 0x00ff) 8) (Z.shiftr (Z.land (u16 x) 0xff00) 8)).

Definition ___constant_swab32 (x : Z) : Z :=
  u32 (Z.lor (u32 (Z.shiftl (Z.land (u32 x) 0x000000ff) 24))
      (Z.lor (u32 (Z.shiftl (Z.land (u32 x) 0x0000ff00) 8))
      (Z.lor (Z.shiftr (Z.land (u32 x) 0x00ff0000) 8)
             (Z.shiftr (Z.land (u32 x) 0xff000000) 24)))).

Definition __fswab16 (val : Z) : Z := ___constant_swab16 (u16 val).
Definition __fswab32 (val : Z) : Z := ___constant_swab32 (u32 val).

(** [const]: [__builtin_constant_p], which depends on the compiler *)
Definition __swab16 (const : bool) (x : Z) : Z := if const then ___constant_swab16 x else __fswab16 x.
Definition __swab32 (const : bool) (x : Z) : Z := if const then ___constant_swab32 x else __fswab32 x.

Section cpu.
Variable e : cpu.
Variable const : bool.

Definition __swab16p (m : list Z) (p : Z) : option Z := x ← load_int e 2 m p; Some (__swab16 const x).
Definition __swab32p (m : list Z) (p : Z) : option Z := x ← load_int e 4 m p; Some (__swab32 const x).

Definition __swab16s (m : list Z) (p : Z) : option (list Z) :=
  x ← __swab16p m p; store_int e 2 m p x.
Definition __swab32s (m : list Z) (p : Z) : option (list Z) :=
  x ← __swab32p m p; store_int e 4 m p x.

(** ** Conversions *)

Definition cpu_to_le16 (x : Z) : Z :=
  match e with CpuBig => u16 (__swab16 const x) | CpuLittle => u16 x end.
Definition cpu_to_le32 (x : Z) : Z :=
  match e with CpuBig => u32 (__swab32 const x) | CpuLittle => u32 x end.
Definition cpu_to_be16 (x : Z) : Z :=
  match e with CpuBig => u16 x | CpuLittle => u16 (__swab16 const x) end.
Definition cpu_to_be32 (x : Z) : Z :=
  match e with CpuBig => u32 x | CpuLittle => u32 (__swab32 const x) end.

Definition le16_to_cpu (x : Z) : Z :=
  match e with CpuBig => __swab16 const (u16 x) | CpuLittle => u16 x end.
Definition le32_to_cpu (x : Z) : Z :=
  match e with CpuBig => __swab32 const (u32 x) | CpuLittle => u32 x end.
Definition be16_to_cpu (x : Z) : Z :=
  match e with CpuBig => u16 x | CpuLittle => __swab16 const (u16 (u16 x)) end.
Definition be32_to_cpu (x : Z) : Z :=
  match e with CpuBig => u32 x | CpuLittle => __swab32 const (u32 (u32 x)) end.

(** in place; where nothing is to be swapped the argument is not looked at *)
Definition cpu_to_le16s (m : list Z) (p : Z) : option (list Z) :=
  match e with CpuBig => __swab16s m p | CpuLittle => Some m end.
Definition cpu_to_le32s (m : list Z) (p : Z) : option (list Z) :=
  match e with CpuBig => __swab32s m p | CpuLittle => Some m end.
Definition cpu_to_be16s (m : list Z) (p : Z) : option (list Z) :=
  match e with CpuBig => Some m | CpuLittle => __swab16s m p end.
Definition cpu_to_be32s (m : list Z) (p : Z) : option (list Z) :=
  match e with CpuBig => Some m | CpuLittle => __swab32s m p end.
Definition le16_to_cpus (m : list Z) (p : Z) : option (list Z) :=
  match e with CpuBig => __swab16s m p | CpuLittle => Some m end.
Definition le32_to_cpus (m : list Z) (p : Z) : option (list Z) :=
  match e with CpuBig => __swab32s m p | CpuLittle => Some m end.
Definition be16_to_cpus (m : list Z) (p : Z) : option (list Z) :=
  match e with CpuBig => Some m | CpuLittle => __swab16s m p end.
Definition be32_to_cpus (m : list Z) (p : Z) : option (list Z) :=
  match e with CpuBig => Some m | CpuLittle => __swab32s m p end.
End cpu.

(** ** Octets and values *)

Lemma be_value_snoc l x : be_value (l ++ [x]) = be_value l * 256 + x.
Proof.
  induction l as [|y l IH]; simpl; [change (zlen (@nil Z)) with 0; lia|].
  rewrite IH, zlen_app. change (zlen [x]) with 1.
  rewrite Z.pow_add_r by (pose proof (zlen_nonneg l); lia). lia.
Qed.

Lemma length_be_octets n x : length (be_octets n x) = n.
Proof. revert x. induction n; intros x; simpl; [done|]. rewrite length_app, IHn. simpl. lia. Qed.

Lemma bytes_be_octets n x : bytes (be_octets n x).
Proof.
  revert x. induction n; intros x; simpl; [constructor|]. apply bytes_app. split; [done|].
  constructor; [apply u8_byte|constructor].
Qed.

Lemma be_value_octets n x : be_value (be_octets n x) = x mod 256 ^ Z.of_nat n.
Proof.
  revert x. induction n; intros x; [by rewrite Z.mod_1_r|]. cbn [be_octets].
  rewrite be_value_snoc, IHn, Nat2Z.inj_succ. rewrite Z.pow_succ_r by lia.
  assert (0 < 256 ^ Z.of_nat n) by (apply Z.pow_pos_nonneg; lia). rewrite Z.rem_mul_r by lia. lia.
Qed.

Lemma be_octets_value l : bytes l -> be_octets (length l) (be_value l) = l.
Proof.
  induction l as [|x l IH] using rev_ind; intros H; [done|].
  apply bytes_app in H as [Hl Hx]. apply bytes_cons in Hx as [Hx _]. unfold is_byte in Hx.
  rewrite length_app, Nat.add_comm. cbn [length Nat.add be_octets]. rewrite be_value_snoc.
  rewrite Z.div_add_l, Z.div_small, Z.add_0_r, IH by (done || lia).
  by rewrite Z.add_comm, Z.mod_add, Z.mod_small by lia.
Qed.

Lemma be_value_range l : bytes l -> 0 <= be_value l < 256 ^ zlen l.
Proof.
  intros H. rewrite <- (be_octets_value l H) at 1 2. rewrite be_value_octets.
  unfold zlen. apply Z.mod_pos_bound, Z.pow_pos_nonneg; lia.
Qed.

(** ** What the swaps are *)

Lemma land_shift_byte x k : 0 <= k -> Z.land x (Z.shiftl 255 k) = Z.shiftl ((x / 2 ^ k) mod 256) k.
Proof.
  intros Hk. change 255 with (Z.ones 8). change 256 with (2 ^ 8). apply Z.bits_inj'. intros i Hi. rewrite Z.land_spec.
  destruct (decide (i < k)); [rewrite !Z.shiftl_spec_low, andb_false_r by lia; done|].
  rewrite !Z.shiftl_spec by lia.
  destruct (decide (i - k < 8)).
  - rewrite (Z.mod_pow2_bits_low _ 8) by lia. rewrite Z.div_pow2_bits by lia.
    replace (i - k + k) with i by lia. rewrite Z.testbit_ones_nonneg by lia.
    rewrite (proj2 (Z.ltb_lt _ _)) by lia. by rewrite andb_true_r.
  - rewrite (Z.mod_pow2_bits_high _ 8) by lia. rewrite Z.testbit_ones_nonneg by lia.
    rewrite (proj2 (Z.ltb_ge _ _)) by lia. by rewrite andb_false_r.
Qed.

(** the 16-bit swap in octets *)
Lemma swab16_value hi lo : is_byte hi -> is_byte lo ->
  ___constant_swab16 (hi * 256 + lo) = lo * 256 + hi.
Proof.
  intros Hhi Hlo. unfold is_byte in *. unfold ___constant_swab16. rewrite (u16_small (_ * _ + _)) by (unfold is_u16; lia).
  change 0xff00 with (Z.shiftl 255 8). rewrite land_shift_byte, Z.shiftr_shiftl_l, Z.sub_diag, Z.shiftl_0_r by lia.
  rewrite (land_mask _ 0x00ff 8) by done. rewrite be16_lor by (apply u8_byte).
  change (2 ^ 8) with 256.
  replace ((hi * 256 + lo) mod 256) with lo by dlia.
  replace ((hi * 256 + lo) / 256 mod 256) with hi by dlia.
  apply u16_small. unfold is_u16. lia.
Qed.

Lemma swab32_value a b c d : is_byte a -> is_byte b -> is_byte c -> is_byte d ->
  ___constant_swab32 (be_value [a; b; c; d]) = be_value [d; c; b; a].
Proof.
  intros Ha Hb Hc Hd. unfold is_byte in *.
  assert (V : forall x y z t, be_value [x; y; z; t] = x * 16777216 + y * 65536 + z * 256 + t).
  { intros. unfold be_value, zlen. cbn [length]. change (256 ^ Z.of_nat 3) with 16777216.
    change (256 ^ Z.of_nat 2) with 65536. change (256 ^ Z.of_nat 1) with 256.
    change (256 ^ Z.of_nat 0) with 1. lia. }
  unfold ___constant_swab32. rewrite (u32_small (be_value [a; b; c; d])) by (rewrite V; lia).
  rewrite (land_mask _ 0xff 8) by done.
  change 0xff00 with (Z.shiftl 255 8). change 0xff0000 with (Z.shiftl 255 16).
  change 0xff000000 with (Z.shiftl 255 24). rewrite !land_shift_byte by lia.
  rewrite !Z.shiftr_shiftl_l by lia.
  rewrite Z.shiftl_shiftl by lia. change (16 - 8) with 8. change (24 - 24) with 0. change (8 + 8) with 16. rewrite Z.shiftl_0_r.
  rewrite !V. change (2 ^ 8) with 256. change (2 ^ 16) with 65536. change (2 ^ 24) with 16777216.
  replace ((a * 16777216 + b * 65536 + c * 256 + d) mod 256) with d by dlia.
  replace ((a * 16777216 + b * 65536 + c * 256 + d) / 256 mod 256) with c by dlia.
  replace ((a * 16777216 + b * 65536 + c * 256 + d) / 65536 mod 256) with b by dlia.
  replace ((a * 16777216 + b * 65536 + c * 256 + d) / 16777216 mod 256) with a by dlia.
  rewrite be16_lor by done.
  rewrite (u32_small (Z.shiftl c 16)) by (rewrite shiftl_mul; lia).
  rewrite (u32_small (Z.shiftl d 24)) by (rewrite shiftl_mul; lia).
  rewrite (lor_add c _ 16), (lor_add d _ 24) by lia. rewrite u32_small; lia.
Qed.

(** known octets *)
Ltac octs := unfold bytes; repeat first [assumption | apply Forall_nil_2 | apply Forall_cons_2].

(** every integer of two or four octets *)
Lemma u16_octets x : is_u16 x -> exists a b, is_byte a /\ is_byte b /\ x = be_value [a; b].
Proof.
  intros Hx. pose proof (bytes_be_octets 2 x) as H. pose proof (be_value_octets 2 x) as V.
  rewrite Z.mod_small in V by exact Hx. rewrite <- V.
  cbn [be_octets app] in *. rewrite !bytes_cons in H.
  destruct H as (Ha & Hb & _). eauto 6.
Qed.

Lemma u32_octets x : 0 <= x < 4294967296 ->
  exists a b c d, is_byte a /\ is_byte b /\ is_byte c /\ is_byte d /\ x = be_value [a; b; c; d].
Proof.
  intros Hx. pose proof (bytes_be_octets 4 x) as H. pose proof (be_value_octets 4 x) as V.
  rewrite Z.mod_small in V by exact Hx. rewrite <- V.
  cbn [be_octets app] in *. rewrite !bytes_cons in H. destruct H as (Ha & Hb & Hc & Hd & _). eauto 12.
Qed.

Lemma value16_range a b : is_byte a -> is_byte b -> is_u16 (be_value [a; b]).
Proof. intros Ha Hb. apply (be_value_range [a; b]). octs. Qed.

Lemma value32_range a b c d : is_byte a -> is_byte b -> is_byte c -> is_byte d ->
  0 <= be_value [a; b; c; d] < 4294967296.
Proof. intros Ha Hb Hc Hd. apply (be_value_range [a; b; c; d]). octs. Qed.

Lemma value16 a b : be_value [a; b] = a * 256 + b.
Proof. unfold be_value, zlen. simpl. lia. Qed.

Lemma swab16_octets const a b : is_byte a -> is_byte b ->
  __swab16 const (be_value [a; b]) = be_value [b; a].
Proof.
  intros Ha Hb. unfold __swab16, __fswab16. rewrite u16_small by now apply value16_range.
  rewrite !value16, swab16_value by done. by destruct const.
Qed.

Lemma swab32_octets const a b c d : is_byte a -> is_byte b -> is_byte c -> is_byte d ->
  __swab32 const (be_value [a; b; c; d]) = be_value [d; c; b; a].
Proof.
  intros Ha Hb Hc Hd. unfold __swab32, __fswab32. rewrite u32_small by now apply value32_range.
  rewrite swab32_value by done. by destruct const.
Qed.

(** the conversion between the order of the processor and a fixed order, on octets *)
Lemma to_be16 e const a b : is_byte a -> is_byte b ->
  cpu_to_be16 e const (be_value [a; b]) = be_value (order e [a; b]) /\
  cpu_to_le16 e const (be_value [a; b]) = be_value (rev (order e [a; b])) /\
  be16_to_cpu e const (be_value [a; b]) = be_value (order e [a; b]) /\
  le16_to_cpu e const (be_value [a; b]) = be_value (rev (order e [a; b])).
Proof.
  intros Ha Hb. unfold cpu_to_be16, cpu_to_le16, be16_to_cpu, le16_to_cpu.
  rewrite !(u16_small (be_value [a; b])) by now apply value16_range.
  rewrite !swab16_octets by done. rewrite (u16_small (be_value [b; a])) by now apply value16_range.
  by destruct e.
Qed.

Lemma to_be32 e const a b c d : is_byte a -> is_byte b -> is_byte c -> is_byte d ->
  cpu_to_be32 e const (be_value [a; b; c; d]) = be_value (order e [a; b; c; d]) /\
  cpu_to_le32 e const (be_value [a; b; c; d]) = be_value (rev (order e [a; b; c; d])) /\
  be32_to_cpu e const (be_value [a; b; c; d]) = be_value (order e [a; b; c; d]) /\
  le32_to_cpu e const (be_value [a; b; c; d]) = be_value (rev (order e [a; b; c; d])).
Proof.
  intros Ha Hb Hc Hd. unfold cpu_to_be32, cpu_to_le32, be32_to_cpu, le32_to_cpu.
  rewrite !(u32_small (be_value [a; b; c; d])) by now apply value32_range.
  rewrite !swab32_octets by done. rewrite (u32_small (be_value [d; c; b; a])) by now apply value32_range.
  by destruct e.
Qed.

Lemma bytes_rdn m p n l : bytes m -> rdn m p n = Some l -> bytes l.
Proof.
  unfold rdn. destruct (_ && _); [|done]. intros Hm ?; simplify_eq.
  by apply Forall_take, Forall_drop.
Qed.

Lemma bytes2 m p l : bytes m -> rdn m p 2 = Some l -> exists a b, is_byte a /\ is_byte b /\ l = [a; b].
Proof.
  intros Hm Hl. pose proof (bytes_rdn _ _ _ _ Hm Hl) as Hb. pose proof (zlen_rdn _ _ _ _ Hl) as Hz.
  destruct l as [|a [|b [|c l]]]; try done; [|zl]. rewrite !bytes_cons in Hb. destruct Hb as (? & ? & _). eauto 6.
Qed.

Lemma bytes4 m p l : bytes m -> rdn m p 4 = Some l ->
  exists a b c d, is_byte a /\ is_byte b /\ is_byte c /\ is_byte d /\ l = [a; b; c; d].
Proof.
  intros Hm Hl. pose proof (bytes_rdn _ _ _ _ Hm Hl) as Hb. pose proof (zlen_rdn _ _ _ _ Hl) as Hz.
  destruct l as [|a [|b [|c [|d [|f l]]]]]; try done; [|zl]. rewrite !bytes_cons in Hb. destruct Hb as (? & ? & ? & ? & _). eauto 12.
Qed.

Lemma wrn_rdn m p n l : rdn m p n = Some l -> wrn m p l = Some m.
Proof.
  intros H. pose proof (zlen_rdn _ _ _ _ H) as Hn. unfold rdn in H.
  destruct (Z.leb_spec 0 p), (Z.leb_spec 0 n), (Z.leb_spec (p + n) (zlen m)); simpl in H; simplify_eq H.
  intros E. rewrite wrn_in by lia. f_equal. subst l.
  replace (length _) with (Z.to_nat n) by (unfold zlen in Hn; lia).
  by rewrite <- drop_drop, !take_drop.
Qed.

Lemma order_order e l : order e (order e l) = l.
Proof. destruct e; [done|]. apply rev_involutive. Qed.

(** storing what was loaded *)
Lemma store_load e n m p l : bytes l -> rdn m p (Z.of_nat n) = Some l ->
  load_int e n m p = Some (be_value (order e l)) /\ store_int e n m p (be_value (order e l)) = Some m.
Proof.
  intros Hb H. unfold load_int, store_int. rewrite H. split; [done|].
  assert (Ho : bytes (order e l)) by (destruct e; [done|]; by apply Forall_rev).
  replace n with (length (order e l)).
  - rewrite be_octets_value, order_order by done. by eapply wrn_rdn.
  - pose proof (zlen_rdn _ _ _ _ H). unfold zlen in *. destruct e; simpl; rewrite ?length_rev; lia.
Qed.

(** ** The header *)

(** On both kinds of processors a value converted to a fixed order and stored
    is, octet for octet, the value in that order, the most significant octet first or
    last, and the octets of such a value, loaded and converted, are the value; all
    other octets of the memory stay as they are. *)
Theorem byteorder_wire e const m p x y l k :
  is_u16 x -> 0 <= y < 4294967296 ->
  bytes m -> rdn m p 2 = Some l -> rdn m p 4 = Some k ->
  store_int e 2 m p (cpu_to_be16 e const x) = wrn m p (be_octets 2 x) /\
  store_int e 2 m p (cpu_to_le16 e const x) = wrn m p (rev (be_octets 2 x)) /\
  store_int e 4 m p (cpu_to_be32 e const y) = wrn m p (be_octets 4 y) /\
  store_int e 4 m p (cpu_to_le32 e const y) = wrn m p (rev (be_octets 4 y)) /\
  be16_to_cpu e const <$> load_int e 2 m p = Some (be_value l) /\
  le16_to_cpu e const <$> load_int e 2 m p = Some (be_value (rev l)) /\
  be32_to_cpu e const <$> load_int e 4 m p = Some (be_value k) /\
  le32_to_cpu e const <$> load_int e 4 m p = Some (be_value (rev k)).
Proof.
  intros Hx Hy Hm Hl Hk.
  destruct (u16_octets x Hx) as (a & b & Ha & Hb & ->).
  destruct (u32_octets y Hy) as (c & d & f & g & Hc & Hd & Hf & Hg & ->).
  destruct (bytes2 m p l Hm Hl) as (h & i & Hh & Hi & ->).
  destruct (bytes4 m p k Hm Hk) as (n & o & q & r & Hn & Ho & Hq & Hr & ->).
  pose proof (to_be16 e const a b Ha Hb) as (W1 & W2 & _ & _).
  pose proof (to_be32 e const c d f g Hc Hd Hf Hg) as (W3 & W4 & _ & _).
  unfold store_int, load_int. change (Z.of_nat 2) with 2. change (Z.of_nat 4) with 4. rewrite W1, W2, W3, W4, Hl, Hk.
  destruct e; cbn [order rev app mbind option_bind fmap option_fmap option_map];
    rewrite ?(be_octets_value [_; _]), ?(be_octets_value [_; _; _; _]) by (octs);
    cbn [rev app].
  all: pose proof (to_be16 CpuBig const h i Hh Hi) as (_ & _ & R1 & R2).
  all: pose proof (to_be16 CpuLittle const i h Hi Hh) as (_ & _ & R3 & R4).
  all: pose proof (to_be32 CpuBig const n o q r Hn Ho Hq Hr) as (_ & _ & R5 & R6).
  all: pose proof (to_be32 CpuLittle const r q o n Hr Hq Ho Hn) as (_ & _ & R7 & R8).
  all: by rewrite ?R1, ?R2, ?R3, ?R4, ?R5, ?R6, ?R7, ?R8.
Qed.

(** the in-place functions, on a value that is loaded *)
Lemma in_place16 e const m p a b : is_byte a -> is_byte b -> rdn m p 2 = Some (order e [a; b]) ->
  __swab16s e const m p = store_int e 2 m p (be_value [b; a]) /\
  Some m = store_int e 2 m p (be_value [a; b]).
Proof.
  intros Ha Hb H. assert (Ho : bytes (order e [a; b])) by (destruct e; octs).
  destruct (store_load e 2 m p _ Ho H) as [L S]. rewrite order_order in L, S.
  unfold __swab16s, __swab16p. rewrite L. cbn [mbind option_bind].
  by rewrite swab16_octets.
Qed.

Lemma in_place32 e const m p a b c d : is_byte a -> is_byte b -> is_byte c -> is_byte d ->
  rdn m p 4 = Some (order e [a; b; c; d]) ->
  __swab32s e const m p = store_int e 4 m p (be_value [d; c; b; a]) /\
  Some m = store_int e 4 m p (be_value [a; b; c; d]).
Proof.
  intros Ha Hb Hc Hd H. assert (Ho : bytes (order e [a; b; c; d])) by (destruct e; octs).
  destruct (store_load e 4 m p _ Ho H) as [L S]. rewrite order_order in L, S.
  unfold __swab32s, __swab32p. rewrite L. cbn [mbind option_bind].
  by rewrite swab32_octets.
Qed.

(** The functions that convert in place do what loading, converting and storing
    does, on both kinds of processors (octets that are in the order asked for stay, the
    others are exchanged), and every conversion is undone by the one in the other
    direction. *)
Theorem byteorder_in_place e const m p l k :
  bytes m -> rdn m p 2 = Some l -> rdn m p 4 = Some k ->
  let in_place (n : nat) (f : Z -> Z) := x ← load_int e n m p; store_int e n m p (f x) in
  (cpu_to_be16s e const m p = in_place 2%nat (cpu_to_be16 e const) /\
   cpu_to_le16s e const m p = in_place 2%nat (cpu_to_le16 e const) /\
   be16_to_cpus e const m p = in_place 2%nat (be16_to_cpu e const) /\
   le16_to_cpus e const m p = in_place 2%nat (le16_to_cpu e const) /\
   cpu_to_be32s e const m p = in_place 4%nat (cpu_to_be32 e const) /\
   cpu_to_le32s e const m p = in_place 4%nat (cpu_to_le32 e const) /\
   be32_to_cpus e const m p = in_place 4%nat (be32_to_cpu e const) /\
   le32_to_cpus e const m p = in_place 4%nat (le32_to_cpu e const)) /\
  (forall x, is_u16 x ->
     be16_to_cpu e const (cpu_to_be16 e const x) = x /\ cpu_to_be16 e const (be16_to_cpu e const x) = x /\
     le16_to_cpu e const (cpu_to_le16 e const x) = x /\ cpu_to_le16 e const (le16_to_cpu e const x) = x) /\
  (forall x, 0 <= x < 4294967296 ->
     be32_to_cpu e const (cpu_to_be32 e const x) = x /\ cpu_to_be32 e const (be32_to_cpu e const x) = x /\
     le32_to_cpu e const (cpu_to_le32 e const x) = x /\ cpu_to_le32 e const (le32_to_cpu e const x) = x).
Proof.
  intros Hm Hl Hk in_place. split; [|split; intros x Hx].
  - unfold in_place, load_int. change (Z.of_nat 2) with 2. change (Z.of_nat 4) with 4. rewrite Hl, Hk.
    destruct (bytes2 m p l Hm Hl) as (a & b & Ha & Hb & ->).
    destruct (bytes4 m p k Hm Hk) as (c & d & f & g & Hc & Hd & Hf & Hg & ->).
    destruct e; cbn [order rev app mbind option_bind cpu_to_be16s cpu_to_le16s be16_to_cpus le16_to_cpus
                     cpu_to_be32s cpu_to_le32s be32_to_cpus le32_to_cpus].
    + destruct (to_be16 CpuBig const a b Ha Hb) as (-> & -> & -> & ->).
      destruct (to_be32 CpuBig const c d f g Hc Hd Hf Hg) as (-> & -> & -> & ->).
      destruct (in_place16 CpuBig const m p a b Ha Hb Hl) as [-> ?].
      by destruct (in_place32 CpuBig const m p c d f g Hc Hd Hf Hg Hk) as [-> ?].
    + destruct (to_be16 CpuLittle const b a Hb Ha) as (-> & -> & -> & ->).
      destruct (to_be32 CpuLittle const g f d c Hg Hf Hd Hc) as (-> & -> & -> & ->).
      destruct (in_place16 CpuLittle const m p b a Hb Ha Hl) as [-> ?].
      by destruct (in_place32 CpuLittle const m p g f d c Hg Hf Hd Hc Hk) as [-> ?].
  - destruct (u16_octets x Hx) as (a & b & Ha & Hb & ->).
    pose proof (to_be16 e const a b Ha Hb) as (V1 & V2 & V3 & V4). rewrite V1, V2, V3, V4.
    destruct e; cbn [order rev app] in *; rewrite ?V1, ?V2, ?V3, ?V4.
    + destruct (to_be16 CpuBig const b a Hb Ha) as (_ & -> & _ & ->). done.
    + destruct (to_be16 CpuLittle const b a Hb Ha) as (-> & _ & -> & _). done.
  - destruct (u32_octets x Hx) as (a & b & c & d & Ha & Hb & Hc & Hd & ->).
    pose proof (to_be32 e const a b c d Ha Hb Hc Hd) as (V1 & V2 & V3 & V4). rewrite V1, V2, V3, V4.
    destruct e; cbn [order rev app] in *; rewrite ?V1, ?V2, ?V3, ?V4.
    + destruct (to_be32 CpuBig const d c b a Hd Hc Hb Ha) as (_ & -> & _ & ->). done.
    + destruct (to_be32 CpuLittle const d c b a Hd Hc Hb Ha) as (-> & _ & -> & _). done.
Qed.

(** the length field of a FEE packet, as src/net.c reads it (line 724): the
    expression of [NetRecv.recv_fee_packet], on every processor *)
Lemma fee_data_len e const hdr b2 b3 : bytes hdr -> rd hdr 2 = Some b2 -> rd hdr 3 = Some b3 ->
  be16_to_cpu e const <$> load_int e 2 hdr 2 = Some (Z.lor (Z.shiftl b2 8) b3).
Proof.
  intros Hb H2 H3. pose proof (rd_bytes _ _ _ Hb H2) as B2. pose proof (rd_bytes _ _ _ Hb H3) as B3.
  pose proof (rd_Some _ _ _ H3). unfold load_int. rewrite rdn_in by lia.
  assert (E : take (Z.to_nat (Z.of_nat 2)) (drop (Z.to_nat 2) hdr) = [b2; b3]).
  { change (rd hdr 2) with (hdr !! 2%nat) in H2. change (rd hdr 3) with (hdr !! 3%nat) in H3.
    destruct hdr as [|? [|? [|? [|? ?]]]]; try done.
    cbn in H2, H3 |- *. simplify_eq. done. }
  rewrite E. cbn [mbind option_bind fmap option_fmap option_map]. rewrite be16_lor by done. f_equal.
  rewrite <- value16. destruct e; cbn [order rev app].
  - by destruct (to_be16 CpuBig const b2 b3 B2 B3) as (_ & _ & -> & _).
  - by destruct (to_be16 CpuLittle const b3 b2 B3 B2) as (_ & _ & -> & _).
Qed.

(** ** Witnesses *)

Definition ex_memory : list Z := [1; 2; 3; 4; 5; 6].

Lemma byteorder_wire_witness :
  store_int CpuLittle 2 ex_memory 1 (cpu_to_be16 CpuLittle false 0xabcd) = Some [1; 0xab; 0xcd; 4; 5; 6].
Proof.
  destruct (byteorder_wire CpuLittle false ex_memory 1 0xabcd 0x01020304 [2; 3] [2; 3; 4; 5])
    as (-> & _); [by vm_compute|done|by apply bytes_check|done..].
Defined.

Lemma byteorder_in_place_witness : cpu_to_be32s CpuLittle true ex_memory 2 = Some [1; 2; 6; 5; 4; 3].
Proof.
  destruct (byteorder_in_place CpuLittle true ex_memory 2 [3; 4] [3; 4; 5; 6])
    as ((_ & _ & _ & _ & -> & _) & _); [by apply bytes_check|done..].
Defined.
