(* ===== verification/Ccsds.v ===== *)
(** * CCSDS space packet primary header (src/ecss/ccsds_pkt.c, ccsds_pkt.h)

    The field accessors of the six-byte primary header, over a packet pointer.
    A getter answers [None] when the C code would read outside of the buffer;
    a setter answers the updated packet.  [spp_hdr] is the abstract header of
    CCSDS 133.0-B-2 4.1.3, [spp_decode] and [spp_encode] its wire format; the
    theorems say that the accessors implement it. *)

From stdpp Require Import base tactics option list list_numbers.
From Stdlib Require Import ZArith Lia Bool.
From S2P Require Import Prelude.

Local Open Scope Z_scope.
Local Open Scope cmem_scope.

Definition SPP_PKT_HDR_LEN : Z := 6.
Definition SPP_PKT_VER_OFFSET : Z := 0x00.
Definition SPP_PKT_VER_SHIFT : Z := 0x05.
Definition SPP_PKT_VER_MASK : Z := 0xe0.
Definition SPP_PKT_TYPE_OFFSET : Z := 0x00.
Definition SPP_PKT_TYPE_SHIFT : Z := 0x04.
Definition SPP_PKT_TYPE_MASK : Z := 0x10.
Definition SPP_PKT_TYPE_IS_TM : Z := 0x00.
Definition SPP_PKT_TYPE_IS_TC : Z := 0x01.
Definition SPP_2ND_HDR_FLAG_OFFSET : Z := 0x00.
Definition SPP_2ND_HDR_FLAG_SHIFT : Z := 0x03.
Definition SPP_2ND_HDR_FLAG_MASK : Z := 0x0f.
Definition SPP_APID_OFFSET_1 : Z := 0x00.
Definition SPP_APID_OFFSET_2 : Z := 0x01.
Definition SPP_APID_OFFSET_1_MASK : Z := 0x07.
Definition SPP_SEQ_FLAGS_OFFSET : Z := 0x02.
Definition SPP_SEQ_FLAGS_SHIFT : Z := 0x06.
Definition SPP_SEQ_FLAGS_MASK : Z := 0xc0.
Definition SPP_SEQ_FLAG_UNSEG : Z := 0x03.
Definition SPP_SEQ_CNT_OFFSET_1 : Z := 0x02.
Definition SPP_SEQ_CNT_OFFSET_2 : Z := 0x03.
Definition SPP_SEQ_CNT_OFFSET_1_MASK : Z := 0x3f.
Definition SPP_LEN_LO_OFFSET : Z := 0x05.
Definition SPP_LEN_HI_OFFSET : Z := 0x04.

(** ** Accessors *)

Definition ccsds_get_hdr_size : Z := SPP_PKT_HDR_LEN.

(** the payload pointer, as the offset into the packet; [None] is [NULL] *)
Definition ccsds_get_payload (pkt : ptr) : option Z :=
  match pkt with NULL => None | At _ => Some SPP_PKT_HDR_LEN end.

Definition ccsds_get_pkt_version (pkt : ptr) : option Z :=
  match pkt with
  | NULL => Some (u8 (-1))
  | At _ => b ← pkt.[SPP_PKT_VER_OFFSET]; Some (Z.shiftr b SPP_PKT_VER_SHIFT)
  end.

Definition ccsds_set_pkt_version (pkt : ptr) (v : Z) : option ptr :=
  match pkt with
  | NULL => Some NULL
  | At _ =>
      b ← pkt.[SPP_PKT_VER_OFFSET];
      let b := Z.land b (u8 (Z.lnot SPP_PKT_VER_MASK)) in
      let b := u8 (Z.lor b (Z.shiftl v SPP_PKT_VER_SHIFT)) in
      pkt.[SPP_PKT_VER_OFFSET <- b]
  end.

Definition ccsds_get_data_len (pkt : ptr) : option Z :=
  match pkt with
  | NULL => Some 0
  | At _ =>
      hi ← pkt.[SPP_LEN_HI_OFFSET];
      lo ← pkt.[SPP_LEN_LO_OFFSET];
      let len := u16 (Z.lor (Z.shiftl hi 8) (Z.land lo 0xff)) in
      Some (u16 (len + 1))
  end.

Definition ccsds_set_data_len (pkt : ptr) (len : Z) : option ptr :=
  match pkt with
  | NULL => Some NULL
  | At _ =>
      let len := u16 (len - 1) in
      pkt1 ← pkt.[SPP_LEN_HI_OFFSET <- u8 (Z.shiftr len 8)];
      pkt1.[SPP_LEN_LO_OFFSET <- u8 (Z.land len 0xff)]
  end.

Definition ccsds_get_pkt_type (pkt : ptr) : option Z :=
  match pkt with
  | NULL => Some (u8 (-1))
  | At _ =>
      t ← pkt.[SPP_PKT_TYPE_OFFSET];
      Some (Z.shiftr (Z.land t SPP_PKT_TYPE_MASK) SPP_PKT_TYPE_SHIFT)
  end.

Definition ccsds_set_pkt_type (pkt : ptr) (t : Z) : option ptr :=
  match pkt with
  | NULL => Some NULL
  | At _ =>
      let t := if c_true t then 1 else t in
      b ← pkt.[SPP_PKT_TYPE_OFFSET];
      let b := Z.land b (u8 (Z.lnot SPP_PKT_TYPE_MASK)) in
      let b := u8 (Z.lor b (Z.shiftl t SPP_PKT_TYPE_SHIFT)) in
      pkt.[SPP_PKT_TYPE_OFFSET <- b]
  end.

Definition ccsds_get_2nd_hdr_flag (pkt : ptr) : option Z :=
  match pkt with
  | NULL => Some (u8 (-1))
  | At _ =>
      t ← pkt.[SPP_2ND_HDR_FLAG_OFFSET];
      Some (Z.shiftr (Z.land t SPP_2ND_HDR_FLAG_MASK) SPP_2ND_HDR_FLAG_SHIFT)
  end.

Definition ccsds_set_2nd_hdr_flag (pkt : ptr) (t : Z) : option ptr :=
  match pkt with
  | NULL => Some NULL
  | At _ =>
      let t := if c_true t then 1 else t in
      b ← pkt.[SPP_2ND_HDR_FLAG_OFFSET];
      let b := Z.land b (u8 (Z.lnot SPP_2ND_HDR_FLAG_MASK)) in
      let b := u8 (Z.lor b (Z.shiftl t SPP_2ND_HDR_FLAG_SHIFT)) in
      pkt.[SPP_2ND_HDR_FLAG_OFFSET <- b]
  end.

Definition ccsds_get_apid (pkt : ptr) : option Z :=
  match pkt with
  | NULL => Some (u16 (-1))
  | At _ =>
      hi ← pkt.[SPP_APID_OFFSET_1];
      let hi := Z.land hi SPP_APID_OFFSET_1_MASK in
      lo ← pkt.[SPP_APID_OFFSET_2];
      Some (u16 (Z.lor (Z.shiftl hi 8) (Z.land lo 0xff)))
  end.

Definition ccsds_set_apid (pkt : ptr) (a : Z) : option ptr :=
  match pkt with
  | NULL => Some NULL
  | At _ =>
      if a >? Z.shiftl 1 11 - 1 then Some pkt else
      b ← pkt.[SPP_APID_OFFSET_1];
      let b := Z.land b (u8 (Z.lnot SPP_APID_OFFSET_1_MASK)) in
      let b := u8 (Z.lor b (Z.land (Z.shiftr a 8) SPP_APID_OFFSET_1_MASK)) in
      pkt1 ← pkt.[SPP_APID_OFFSET_1 <- b];
      pkt1.[SPP_APID_OFFSET_2 <- u8 (Z.land a 0xff)]
  end.

Definition ccsds_get_seq_flags (pkt : ptr) : option Z :=
  match pkt with
  | NULL => Some (u8 (-1))
  | At _ =>
      t ← pkt.[SPP_SEQ_FLAGS_OFFSET];
      Some (Z.shiftr (Z.land t SPP_SEQ_FLAGS_MASK) SPP_SEQ_FLAGS_SHIFT)
  end.

Definition ccsds_set_seq_flags (pkt : ptr) (t : Z) : option ptr :=
  match pkt with
  | NULL => Some NULL
  | At _ =>
      if t >? SPP_SEQ_FLAG_UNSEG then Some pkt else
      b ← pkt.[SPP_SEQ_FLAGS_OFFSET];
      let b := Z.land b (u8 (Z.lnot SPP_SEQ_FLAGS_MASK)) in
      let b := u8 (Z.lor b (Z.shiftl t SPP_SEQ_FLAGS_SHIFT)) in
      pkt.[SPP_SEQ_FLAGS_OFFSET <- b]
  end.

Definition ccsds_get_seq_cnt (pkt : ptr) : option Z :=
  match pkt with
  | NULL => Some (u16 (-1))
  | At _ =>
      hi ← pkt.[SPP_SEQ_CNT_OFFSET_1];
      let hi := Z.land hi SPP_SEQ_CNT_OFFSET_1_MASK in
      lo ← pkt.[SPP_SEQ_CNT_OFFSET_2];
      Some (u16 (Z.lor (Z.shiftl hi 8) (Z.land lo 0xff)))
  end.

Definition ccsds_set_seq_cnt (pkt : ptr) (c : Z) : option ptr :=
  match pkt with
  | NULL => Some NULL
  | At _ =>
      if c >? Z.shiftl 1 14 - 1 then Some pkt else
      b ← pkt.[SPP_SEQ_CNT_OFFSET_1];
      let b := Z.land b (u8 (Z.lnot SPP_SEQ_CNT_OFFSET_1_MASK)) in
      let b := u8 (Z.lor b (Z.land (Z.shiftr c 8) SPP_SEQ_CNT_OFFSET_1_MASK)) in
      pkt1 ← pkt.[SPP_SEQ_CNT_OFFSET_1 <- b];
      pkt1.[SPP_SEQ_CNT_OFFSET_2 <- u8 (Z.land c 0xff)]
  end.

(** ** The abstract header *)

Record spp_hdr : Type := mk_spp {
  spp_ver : Z;      (* 3 bits *)
  spp_type : Z;     (* 1 bit, 0: TM, 1: TC *)
  spp_sec : Z;      (* 1 bit *)
  spp_apid : Z;     (* 11 bits *)
  spp_flags : Z;    (* 2 bits *)
  spp_cnt : Z;      (* 14 bits *)
  spp_len : Z       (* 16-bit length field, the data field size minus one *)
}.

Definition spp_wf (h : spp_hdr) : Prop :=
  0 <= spp_ver h < 8 /\ 0 <= spp_type h < 2 /\ 0 <= spp_sec h < 2 /\
  0 <= spp_apid h < 2048 /\ 0 <= spp_flags h < 4 /\ 0 <= spp_cnt h < 16384 /\
  0 <= spp_len h < 65536.

(** the wire format, as arithmetic on the six octets *)
Definition spp_decode (b : list Z) : option spp_hdr :=
  match b with
  | b0 :: b1 :: b2 :: b3 :: b4 :: b5 :: _ =>
      Some (mk_spp (b0 / 32) (b0 / 16 mod 2) (b0 / 8 mod 2)
                   (b0 mod 8 * 256 + b1) (b2 / 64) (b2 mod 64 * 256 + b3)
                   (b4 * 256 + b5))
  | _ => None
  end.

Definition spp_encode (h : spp_hdr) : list Z :=
  [spp_ver h * 32 + spp_type h * 16 + spp_sec h * 8 + spp_apid h / 256;
   spp_apid h mod 256;
   spp_flags h * 64 + spp_cnt h / 256; spp_cnt h mod 256;
   spp_len h / 256; spp_len h mod 256].

(** building a header field by field, the secondary header flag before the
    APID *)
Definition spp_build (pkt : ptr) (h : spp_hdr) : option ptr :=
  p ← ccsds_set_pkt_version pkt (spp_ver h);
  p ← ccsds_set_pkt_type p (spp_type h);
  p ← ccsds_set_2nd_hdr_flag p (spp_sec h);
  p ← ccsds_set_apid p (spp_apid h);
  p ← ccsds_set_seq_flags p (spp_flags h);
  p ← ccsds_set_seq_cnt p (spp_cnt h);
  ccsds_set_data_len p (u16 (spp_len h + 1)).

(** [m] writes the header [h'] over the buffer [b] and leaves everything
    after the six header octets alone *)
Definition sets (m : option ptr) (b : list Z) (h' : spp_hdr) : Prop :=
  exists b', m = Some (At b') /\ bytes b' /\ spp_decode b' = Some h' /\
    drop 6 b' = drop 6 b.

(** ** Field arithmetic *)

Lemma ver_field : forall b, is_byte b -> Z.shiftr b 5 = b / 32.
Proof. by_bytes. Qed.

Lemma type_field : forall b, is_byte b -> Z.shiftr (Z.land b 0x10) 4 = b / 16 mod 2.
Proof. by_bytes. Qed.

Lemma sec_field : forall b, is_byte b -> Z.shiftr (Z.land b 0x0f) 3 = b / 8 mod 2.
Proof. by_bytes. Qed.

Lemma flags_field : forall b, is_byte b -> Z.shiftr (Z.land b 0xc0) 6 = b / 64.
Proof. by_bytes. Qed.

Lemma be16_field hi lo : is_byte hi -> is_byte lo ->
  u16 (Z.lor (Z.shiftl hi 8) (Z.land lo 0xff)) = hi * 256 + lo.
Proof.
  intros Hhi Hlo. rewrite land_ff, be16_lor by done. apply u16_small.
  unfold is_byte, is_u16 in *. lia.
Qed.

(** the high octet masked to its [k] low bits *)
Lemma be_masked hi lo m k : 0 <= k <= 8 -> m = Z.ones k -> is_byte lo ->
  u16 (Z.lor (Z.shiftl (Z.land hi m) 8) (Z.land lo 0xff)) = hi mod 2 ^ k * 256 + lo.
Proof.
  intros Hk Hm Hlo. rewrite (land_mask hi m k) by lia. apply be16_field; [|done].
  pose proof (Z.mod_pos_bound hi (2 ^ k) ltac:(lia)).
  pose proof (Z.pow_le_mono_r 2 k 8). unfold is_byte. lia.
Qed.

Lemma ver_insert : forall b v, 0 <= b < 256 -> 0 <= v < 8 ->
  u8 (u8 (Z.lor (Z.land b (u8 (Z.lnot 0xe0))) (Z.shiftl v 5))) = v * 32 + b mod 32.
Proof. by_range2 256 8. Qed.

Lemma type_insert : forall b t, 0 <= b < 256 -> 0 <= t < 2 ->
  u8 (u8 (Z.lor (Z.land b (u8 (Z.lnot 0x10))) (Z.shiftl t 4))) =
  b / 32 * 32 + t * 16 + b mod 16.
Proof. by_range2 256 2. Qed.

Lemma sec_insert : forall b t, 0 <= b < 256 -> 0 <= t < 2 ->
  u8 (u8 (Z.lor (Z.land b (u8 (Z.lnot 0x0f))) (Z.shiftl t 3))) = b / 16 * 16 + t * 8.
Proof. by_range2 256 2. Qed.

Lemma apid_insert : forall b a, 0 <= b < 256 -> 0 <= a < 8 ->
  u8 (u8 (Z.lor (Z.land b (u8 (Z.lnot 0x07))) (Z.land a 0x07))) = b / 8 * 8 + a.
Proof. by_range2 256 8. Qed.

Lemma flags_insert : forall b t, 0 <= b < 256 -> 0 <= t < 4 ->
  u8 (u8 (Z.lor (Z.land b (u8 (Z.lnot 0xc0))) (Z.shiftl t 6))) = t * 64 + b mod 64.
Proof. by_range2 256 4. Qed.

Lemma cnt_insert : forall b c, 0 <= b < 256 -> 0 <= c < 64 ->
  u8 (u8 (Z.lor (Z.land b (u8 (Z.lnot 0x3f))) (Z.land c 0x3f))) = b / 64 * 64 + c.
Proof. by_range2 256 64. Qed.

Lemma low_byte a : u8 (u8 (Z.land a 0xff)) = a mod 256.
Proof.
  rewrite (land_mask a 0xff 8) by done. change (2 ^ 8) with 256.
  unfold u8. by rewrite !Z.mod_mod by lia.
Qed.

Lemma high_byte x : 0 <= x < 65536 -> u8 (u8 (Z.shiftr x 8)) = x / 256.
Proof.
  intros. rewrite shiftr_div by lia. change (2 ^ 8) with 256.
  rewrite (u8_small (x / 256)) by (unfold is_byte; dlia).
  apply u8_small. unfold is_byte. dlia.
Qed.

(** ** Shape of a decodable buffer *)

Lemma spp_decode_inv b h : spp_decode b = Some h ->
  exists b0 b1 b2 b3 b4 b5 r, b = b0 :: b1 :: b2 :: b3 :: b4 :: b5 :: r.
Proof.
  destruct b as [|b0 [|b1 [|b2 [|b3 [|b4 [|b5 r]]]]]]; try done. eauto 10.
Qed.

Lemma spp_decode_len b : 6 <= zlen b -> exists h, spp_decode b = Some h.
Proof.
  unfold zlen. destruct b as [|b0 [|b1 [|b2 [|b3 [|b4 [|b5 r]]]]]]; simpl; try lia. eauto.
Qed.

Lemma spp_decode_wf b h : bytes b -> spp_decode b = Some h -> spp_wf h.
Proof.
  intros Hb Hd. destruct (spp_decode_inv _ _ Hd) as (b0&b1&b2&b3&b4&b5&r&->).
  simpl in Hd. simplify_eq. unfold bytes in Hb. decompose_Forall.
  unfold is_byte, spp_wf in *. simpl. repeat split; dlia.
Qed.

(** Open a decodable buffer into its six octets and evaluate the accesses. *)
Ltac open_hdr :=
  lazymatch goal with
  | Hb : bytes ?b, Hd : spp_decode ?b = Some ?h |- _ =>
      let b0 := fresh "b0" in let b1 := fresh "b1" in let b2 := fresh "b2" in
      let b3 := fresh "b3" in let b4 := fresh "b4" in let b5 := fresh "b5" in
      let r := fresh "r" in
      destruct (spp_decode_inv _ _ Hd) as (b0 & b1 & b2 & b3 & b4 & b5 & r & ->);
      simpl in Hd; injection Hd as <-; unfold bytes in Hb;
      repeat lazymatch goal with
      | H : Forall is_byte (_ :: _) |- _ => apply Forall_cons in H as [? H]
      end
  end.

Ltac eval_mem :=
  repeat (progress (unfold load, store; autorewrite with crd; simpl)).

Ltac shr8 := rewrite shiftr_div by lia; change (2 ^ 8) with 256.

Ltac solve_sets :=
  eexists; split; [reflexivity|]; split;
  [repeat (apply Forall_cons; split; [first [done | apply u8_byte]|]); done|];
  split; [|reflexivity]; simpl; f_equal; f_equal.

Lemma set_version_sets b h v : bytes b -> spp_decode b = Some h -> 0 <= v < 8 ->
  sets (ccsds_set_pkt_version (At b) v) b
    (mk_spp v (spp_type h) (spp_sec h) (spp_apid h) (spp_flags h) (spp_cnt h) (spp_len h)).
Proof.
  intros Hb Hd Hv. open_hdr. unfold ccsds_set_pkt_version, sets. eval_mem. solve_sets.
  all: unfold SPP_PKT_VER_MASK, SPP_PKT_VER_SHIFT; rewrite ver_insert by done.
  all: unfold is_byte in *; dlia.
Qed.

Lemma set_type_sets b h t : bytes b -> spp_decode b = Some h -> 0 <= t ->
  sets (ccsds_set_pkt_type (At b) t) b
    (mk_spp (spp_ver h) (if c_true t then 1 else 0) (spp_sec h) (spp_apid h)
            (spp_flags h) (spp_cnt h) (spp_len h)).
Proof.
  intros Hb Hd Ht. open_hdr. unfold ccsds_set_pkt_type, sets. eval_mem. solve_sets.
  all: unfold SPP_PKT_TYPE_MASK, SPP_PKT_TYPE_SHIFT, c_true;
    destruct (Z.eqb_spec t 0) as [->|]; simpl; rewrite type_insert by done.
  all: unfold is_byte in *; dlia.
Qed.

Lemma set_2nd_hdr_flag_sets b h t : bytes b -> spp_decode b = Some h -> 0 <= t ->
  sets (ccsds_set_2nd_hdr_flag (At b) t) b
    (mk_spp (spp_ver h) (spp_type h) (if c_true t then 1 else 0)
            (spp_apid h mod 256) (spp_flags h) (spp_cnt h) (spp_len h)).
Proof.
  intros Hb Hd Ht. open_hdr. unfold ccsds_set_2nd_hdr_flag, sets. eval_mem. solve_sets.
  all: unfold SPP_2ND_HDR_FLAG_MASK, SPP_2ND_HDR_FLAG_SHIFT, c_true;
    destruct (Z.eqb_spec t 0) as [->|]; simpl; rewrite sec_insert by done.
  all: unfold is_byte in *; dlia.
Qed.

Lemma set_apid_sets b h a : bytes b -> spp_decode b = Some h -> 0 <= a < 2048 ->
  sets (ccsds_set_apid (At b) a) b
    (mk_spp (spp_ver h) (spp_type h) (spp_sec h) a (spp_flags h) (spp_cnt h) (spp_len h)).
Proof.
  intros Hb Hd Ha. open_hdr. unfold ccsds_set_apid, sets.
  change (Z.shiftl 1 11 - 1) with 2047. destruct (Z.gtb_spec a 2047); [lia|]. eval_mem. solve_sets.
  all: unfold SPP_APID_OFFSET_1_MASK, is_byte in *; shr8; rewrite apid_insert, ?low_byte by dlia.
  all: dlia.
Qed.

Lemma set_flags_sets b h t : bytes b -> spp_decode b = Some h -> 0 <= t < 4 ->
  sets (ccsds_set_seq_flags (At b) t) b
    (mk_spp (spp_ver h) (spp_type h) (spp_sec h) (spp_apid h) t (spp_cnt h) (spp_len h)).
Proof.
  intros Hb Hd Ht. open_hdr. unfold ccsds_set_seq_flags, sets, SPP_SEQ_FLAG_UNSEG.
  destruct (Z.gtb_spec t 3); [lia|]. eval_mem. solve_sets.
  all: unfold SPP_SEQ_FLAGS_MASK, SPP_SEQ_FLAGS_SHIFT; rewrite flags_insert by done.
  all: unfold is_byte in *; dlia.
Qed.

Lemma set_cnt_sets b h c : bytes b -> spp_decode b = Some h -> 0 <= c < 16384 ->
  sets (ccsds_set_seq_cnt (At b) c) b
    (mk_spp (spp_ver h) (spp_type h) (spp_sec h) (spp_apid h) (spp_flags h) c (spp_len h)).
Proof.
  intros Hb Hd Hc. open_hdr. unfold ccsds_set_seq_cnt, sets.
  change (Z.shiftl 1 14 - 1) with 16383. destruct (Z.gtb_spec c 16383); [lia|]. eval_mem. solve_sets.
  all: unfold SPP_SEQ_CNT_OFFSET_1_MASK, is_byte in *; shr8; rewrite cnt_insert, ?low_byte by dlia.
  all: dlia.
Qed.

Lemma set_len_sets b h n : bytes b -> spp_decode b = Some h ->
  sets (ccsds_set_data_len (At b) n) b
    (mk_spp (spp_ver h) (spp_type h) (spp_sec h) (spp_apid h) (spp_flags h) (spp_cnt h)
            (u16 (n - 1))).
Proof.
  intros Hb Hd. open_hdr. unfold ccsds_set_data_len, sets. eval_mem. solve_sets.
  pose proof (u16_range (n - 1)) as Hu. unfold is_u16 in Hu.
  rewrite high_byte, low_byte by done. dlia.
Qed.

Lemma spp_decode_encode h r : spp_wf h -> spp_decode (spp_encode h ++ r) = Some h.
Proof.
  intros (?&?&?&?&?&?&?). destruct h; simpl in *. f_equal. f_equal; dlia.
Qed.

Lemma spp_encode_decode b h : bytes b -> spp_decode b = Some h -> b = spp_encode h ++ drop 6 b.
Proof.
  intros Hb Hd. open_hdr. unfold is_byte in *. unfold spp_encode. simpl.
  repeat (f_equal; try dlia).
Qed.

Lemma spp_encode_bytes h : spp_wf h -> bytes (spp_encode h).
Proof.
  intros (?&?&?&?&?&?&?). destruct h; simpl in *.
  unfold bytes, spp_encode. simpl.
  repeat (apply Forall_cons; split; [unfold is_byte; dlia|]). done.
Qed.

(** Chaining setters: the continuation runs on the updated buffer. *)
Lemma sets_bind m (k : ptr -> option ptr) b h1 h2 :
  sets m b h1 ->
  (forall b1, bytes b1 -> spp_decode b1 = Some h1 -> sets (k (At b1)) b1 h2) ->
  sets (m ≫= k) b h2.
Proof.
  intros (b1 & -> & Hb1 & Hd1 & Hr1) Hk.
  destruct (Hk b1 Hb1 Hd1) as (b2 & Hm & Hb2 & Hd2 & Hr2).
  exists b2. simpl. rewrite Hm. split_and!; [done..|]. by rewrite Hr2.
Qed.

Lemma getters_decode b h : bytes b -> spp_decode b = Some h ->
  ccsds_get_pkt_version (At b) = Some (spp_ver h) /\
  ccsds_get_pkt_type (At b) = Some (spp_type h) /\
  ccsds_get_2nd_hdr_flag (At b) = Some (spp_sec h) /\
  ccsds_get_apid (At b) = Some (spp_apid h) /\
  ccsds_get_seq_flags (At b) = Some (spp_flags h) /\
  ccsds_get_seq_cnt (At b) = Some (spp_cnt h) /\
  ccsds_get_data_len (At b) = Some (u16 (spp_len h + 1)).
Proof.
  intros Hb Hd. repeat apply conj; open_hdr;
    unfold ccsds_get_pkt_version, ccsds_get_pkt_type, ccsds_get_2nd_hdr_flag,
      ccsds_get_apid, ccsds_get_seq_flags, ccsds_get_seq_cnt, ccsds_get_data_len;
    eval_mem; apply (f_equal Some).
  - by apply ver_field.
  - by apply type_field.
  - by apply sec_field.
  - by apply (be_masked _ _ _ 3).
  - by apply flags_field.
  - by apply (be_masked _ _ _ 6).
  - by rewrite be16_field.
Qed.

(** ** Properties *)

(** The length getter returns 0 for the largest packet, whose length field is
    0xffff; its comments reserve 0 for an error. *)
Theorem ccsds_data_len_zero b : bytes b -> 6 <= zlen b -> rd b 4 = Some 0xff -> rd b 5 = Some 0xff ->
  ccsds_get_data_len (At b) = Some 0.
Proof. intros Hb Hl H4 H5. unfold ccsds_get_data_len. simpl. unfold SPP_LEN_HI_OFFSET, SPP_LEN_LO_OFFSET. by rewrite H4, H5. Qed.

Lemma ccsds_data_len_zero_witness : ccsds_get_data_len (At [8; 1; 0xc0; 0; 0xff; 0xff]) = Some 0.
Proof. apply ccsds_data_len_zero; [by apply bytes_check|done|reflexivity|reflexivity]. Defined.

(** C40: on a buffer of at least six octets every getter of the primary header
    reads inside the buffer and returns the field of CCSDS 133.0-B-2; the data
    length getter returns the length field plus one, modulo 2^16, so that for the
    length field 0xffff of a packet of maximal length it returns 0, which its comment
    says means an error ([ccsds_data_len_zero]). *)
Theorem ccsds_get_refines b :
  bytes b -> 6 <= zlen b ->
  exists h, spp_decode b = Some h /\ spp_wf h /\
    ccsds_get_pkt_version (At b) = Some (spp_ver h) /\
    ccsds_get_pkt_type (At b) = Some (spp_type h) /\
    ccsds_get_2nd_hdr_flag (At b) = Some (spp_sec h) /\
    ccsds_get_apid (At b) = Some (spp_apid h) /\
    ccsds_get_seq_flags (At b) = Some (spp_flags h) /\
    ccsds_get_seq_cnt (At b) = Some (spp_cnt h) /\
    ccsds_get_data_len (At b) = Some (u16 (spp_len h + 1)).
Proof.
  intros Hb Hlen. destruct (spp_decode_len b Hlen) as [h Hd].
  exists h. split; [done|]. split; [by eapply spp_decode_wf|]. by apply getters_decode.
Qed.

Lemma ccsds_get_refines_witness :
  exists h, spp_decode [0x1a; 0x34; 0xc5; 0x67; 0x00; 0x0f] = Some h /\ spp_wf h /\
    ccsds_get_apid (At [0x1a; 0x34; 0xc5; 0x67; 0x00; 0x0f]) = Some (spp_apid h) /\
    spp_apid h = 0x234.
Proof.
  destruct (ccsds_get_refines [0x1a; 0x34; 0xc5; 0x67; 0x00; 0x0f])
    as (h & Hd & Hwf & _ & _ & _ & Ha & _).
  - vm_compute. repeat constructor; discriminate.
  - vm_compute. discriminate.
  - exists h. repeat (split; [assumption|]). vm_compute in Hd. injection Hd as <-. reflexivity.
Defined.

(** filling a header field by field, the secondary header flag before the
    APID, yields exactly the octets of the standard, whatever the buffer held,
    and the octets after the header are not touched. *)
Theorem ccsds_build_encodes b h :
  bytes b -> 6 <= zlen b -> spp_wf h ->
  spp_build (At b) h = Some (At (spp_encode h ++ drop 6 b)).
Proof.
  intros Hb Hlen Hwf. pose proof Hwf as (?&?&?&?&?&?&?).
  destruct (spp_decode_len b Hlen) as [h0 Hd].
  assert (Hone : forall t, 0 <= t < 2 -> (if c_true t then 1 else 0) = t).
  { intros t Ht. unfold c_true. destruct (Z.eqb_spec t 0); simpl; lia. }
  assert (Hs : sets (spp_build (At b) h) b h).
  { unfold spp_build.
    eapply sets_bind; [by apply set_version_sets|]. clear Hb Hd. intros b1 Hb Hd.
    eapply sets_bind; [apply set_type_sets; [done..|lia]|]. clear Hb Hd. intros b2 Hb Hd.
    eapply sets_bind; [apply set_2nd_hdr_flag_sets; [done..|lia]|]. clear Hb Hd. intros b3 Hb Hd.
    eapply sets_bind; [apply set_apid_sets; [done..|lia]|]. clear Hb Hd. intros b4 Hb Hd.
    eapply sets_bind; [apply set_flags_sets; [done..|lia]|]. clear Hb Hd. intros b5 Hb Hd.
    eapply sets_bind; [apply set_cnt_sets; [done..|lia]|]. clear Hb Hd. intros b6 Hb Hd.
    pose proof (set_len_sets b6 _ (u16 (spp_len h + 1)) Hb Hd) as Hl.
    cbn [spp_ver spp_type spp_sec spp_apid spp_flags spp_cnt] in Hl.
    rewrite !Hone in Hl by lia.
    assert (Hu : u16 (u16 (spp_len h + 1) - 1) = spp_len h) by (unfold u16; dlia).
    rewrite Hu in Hl. destruct h; exact Hl. }
  destruct Hs as (b' & -> & Hb' & Hd' & Hr). do 2 f_equal.
  rewrite (spp_encode_decode b' h Hb' Hd'). by rewrite Hr.
Qed.

Lemma ccsds_build_encodes_witness :
  let h := mk_spp 0 1 1 0x234 3 0x567 15 in
  spp_build (At [9; 9; 9; 9; 9; 9; 77]) h = Some (At (spp_encode h ++ [77])).
Proof.
  apply (ccsds_build_encodes [9; 9; 9; 9; 9; 9; 77] (mk_spp 0 1 1 0x234 3 0x567 15)).
  - vm_compute. repeat constructor; discriminate.
  - vm_compute. discriminate.
  - unfold spp_wf. simpl. lia.
Defined.

(** [ccsds_set_2nd_hdr_flag] clears the three high bits of the APID that
    share its octet: its mask is 0x0f and not 0x08.  The flag itself and every
    other field are written correctly. *)
Theorem ccsds_set_2nd_hdr_flag_clobbers_apid b h t :
  bytes b -> spp_decode b = Some h -> 0 <= t < 256 ->
  exists b', ccsds_set_2nd_hdr_flag (At b) t = Some (At b') /\
    ccsds_get_2nd_hdr_flag (At b') = Some (if c_true t then 1 else 0) /\
    ccsds_get_apid (At b') = Some (spp_apid h mod 256) /\
    ccsds_get_seq_cnt (At b') = ccsds_get_seq_cnt (At b) /\
    drop 6 b' = drop 6 b.
Proof.
  intros Hb Hd Ht.
  destruct (set_2nd_hdr_flag_sets b h t Hb Hd ltac:(lia)) as (b' & Hm & Hb' & Hd' & Hr).
  destruct (getters_decode b' _ Hb' Hd') as (_ & _ & Hsec & Hapid & _ & Hcnt & _).
  destruct (getters_decode b h Hb Hd) as (_ & _ & _ & _ & _ & Hcnt0 & _).
  exists b'. by rewrite Hsec, Hapid, Hcnt, Hcnt0.
Qed.

Lemma ccsds_set_2nd_hdr_flag_clobbers_apid_witness :
  exists b', ccsds_set_2nd_hdr_flag (At [0x07; 0xff; 0; 0; 0; 0]) 1 = Some (At b') /\
    ccsds_get_apid (At [0x07; 0xff; 0; 0; 0; 0]) = Some 2047 /\
    ccsds_get_apid (At b') = Some 255.
Proof.
  destruct (ccsds_set_2nd_hdr_flag_clobbers_apid [0x07; 0xff; 0; 0; 0; 0]
              (mk_spp 0 0 0 2047 0 0 0) 1) as (b' & Hm & _ & Ha & _).
  - vm_compute. repeat constructor; discriminate.
  - reflexivity.
  - lia.
  - exists b'. split; [exact Hm|]. split; [reflexivity|]. rewrite Ha. reflexivity.
Defined.
