(* ===== verification/Crc16.v ===== *)
(** * CRC16-CCITT-FALSE, per byte and sliced (src/ecss/crc16.c)

    The lookup tables are the state of the component: [crc16_sliced_LUT] is a
    static array of eight rows of 256 entries, zero at program start, filled
    by [crc_init_lookup_table] (row 0, what the bridge uses) or by
    [crc16_init_sliced_lookup_table] (all rows).  The CRC routines are
    translated over that state; [crc16_ref] is the bit-serial definition of
    the CRC, which the theorems compare them with. *)

From stdpp Require Import base tactics option list list_numbers.
From Stdlib Require Import ZArith Lia Bool.
From S2P Require Import Prelude.

Local Open Scope Z_scope.

(** ** Tables *)

Definition SLICES : nat := 8.

Definition lut : Type := list (list Z).

Definition lut_zero : lut := replicate SLICES (replicate 256 0).

(** [crc16_sliced_LUT[k][i]] *)
Definition lut_at (L : lut) (k i : Z) : option Z :=
  if 0 <=? k then row ← L !! Z.to_nat k; rd row i else None.

Definition lut_set (L : lut) (k i : nat) (v : Z) : lut :=
  alter (fun row => <[i := u16 v]> row) k L.

Definition bit_on (i k : Z) : bool := c_true (Z.land i (Z.shiftl 1 k)).

(** the loop body of [crc_init_lookup_table] for one index *)
Definition crc_init_entry (i : Z) : Z :=
  let S := 0 in
  let S := if bit_on i 0 then Z.lxor S 0x1021 else S in
  let S := if bit_on i 1 then Z.lxor S 0x2042 else S in
  let S := if bit_on i 2 then Z.lxor S 0x4084 else S in
  let S := if bit_on i 3 then Z.lxor S 0x8108 else S in
  let S := if bit_on i 4 then Z.lxor S 0x1231 else S in
  let S := if bit_on i 5 then Z.lxor S 0x2462 else S in
  let S := if bit_on i 6 then Z.lxor S 0x48C4 else S in
  if bit_on i 7 then Z.lxor S 0x9188 else S.

Definition crc_init_lookup_table (L : lut) : lut :=
  foldl (fun L i => lut_set L 0 i (crc_init_entry (Z.of_nat i))) L (seq 0 256).

(** the inner loop over [k] of the sliced initialisation, for one [n] *)
Definition slice_column (L : lut) (n : nat) : option lut :=
  c0 ← lut_at L 0 (Z.of_nat n);
  st ← foldl
    (fun st k =>
       '(crc, L) ← st;
       t ← lut_at L 0 (Z.land (Z.shiftr crc 8) 0xff);
       let crc := u16 (Z.lxor t (Z.shiftl crc 8)) in
       Some (crc, lut_set L k n crc))
    (Some (c0, L)) (seq 1 (SLICES - 1));
  Some st.2.

Definition crc16_init_sliced_lookup_table (L : lut) : option lut :=
  let L := crc_init_lookup_table L in
  L ← foldl (fun L n => L ← L; c ← lut_at L 0 (Z.of_nat n); Some (lut_set L 0 n c))
        (Some L) (seq 0 256);
  foldl (fun L n => L ← L; slice_column L n) (Some L) (seq 0 256).

(** ** Per-byte CRC *)

Definition crc16 (L : lut) (b crc : Z) : option Z :=
  let idx := Z.land (Z.lxor (Z.shiftr crc 8) b) 0x00FF in
  t ← lut_at L 0 idx;
  Some (Z.lxor (Z.land (Z.shiftl crc 8) 0xFF00) t).

Fixpoint crc16_loop (L : lut) (p : list Z) (i : Z) (n : nat) (S : Z) : option Z :=
  match n with
  | O => Some S
  | Datatypes.S n' =>
      b ← rd p i;
      S' ← crc16 L b S;
      crc16_loop L p (i + 1) n' S'
  end.

Definition crc16_buf (L : lut) (buf : ptr) (len : Z) : option Z :=
  match buf with
  | NULL => Some 0xffff
  | At p => if len =? 0 then Some 0xffff else crc16_loop L p 0 (Z.to_nat len) 0xffff
  end.

(** ** Sliced CRC

    [next] is the address of the next byte and [l] the bytes that are left.
    Loading a word from an address that is not a multiple of its size is
    undefined. *)

Definition crc_step_sliced (L : lut) (b crc : Z) : option Z :=
  t ← lut_at L 0 (Z.land (Z.lxor (Z.shiftr crc 8) b) 0xff);
  Some (u16 (Z.lxor t (Z.shiftl crc 8))).

(** [while (len && ((uintptr_t)next & 0x7) != 0)] *)
Fixpoint crc_head (L : lut) (next : Z) (l : list Z) (crc : Z) : option (Z * list Z * Z) :=
  match l with
  | [] => Some (next, l, crc)
  | b :: r =>
      if c_true (Z.land next 0x7)
      then crc ← crc_step_sliced L b crc; crc_head L (next + 1) r crc
      else Some (next, l, crc)
  end.

(** [while (len)] *)
Fixpoint crc_tail (L : lut) (l : list Z) (crc : Z) : option Z :=
  match l with
  | [] => Some crc
  | b :: r => crc ← crc_step_sliced L b crc; crc_tail L r crc
  end.

(** a little-endian word *)
Definition le_load (l : list Z) : Z :=
  foldr (fun b acc => Z.lor b (Z.shiftl acc 8)) 0 l.

Definition load_word (next : Z) (l : list Z) : option Z :=
  if next mod zlen l =? 0 then Some (le_load l) else None.

Definition byte_of (n sh : Z) : Z := Z.land (Z.shiftr n sh) 0xff.

Fixpoint slice2_main (L : lut) (next : Z) (l : list Z) (crc : Z) : option Z :=
  match l with
  | b0 :: b1 :: r =>
      n ← load_word next [b0; b1];
      let idx0 := Z.lxor (byte_of n 0) (byte_of crc 8) in
      let idx1 := Z.lxor (byte_of n 8) (byte_of crc 0) in
      t1 ← lut_at L 1 idx0;
      t0 ← lut_at L 0 idx1;
      slice2_main L (next + 2) r (Z.lxor t1 t0)
  | _ => crc_tail L l crc
  end.

Fixpoint slice4_main (L : lut) (next : Z) (l : list Z) (crc : Z) : option Z :=
  match l with
  | b0 :: b1 :: b2 :: b3 :: r =>
      n ← load_word next [b0; b1; b2; b3];
      let idx0 := Z.lxor (byte_of n 0) (byte_of crc 8) in
      let idx1 := Z.lxor (byte_of n 8) (byte_of crc 0) in
      let idx2 := byte_of n 16 in
      let idx3 := byte_of n 24 in
      t3 ← lut_at L 3 idx0;
      t2 ← lut_at L 2 idx1;
      t1 ← lut_at L 1 idx2;
      t0 ← lut_at L 0 idx3;
      slice4_main L (next + 4) r (Z.lxor (Z.lxor (Z.lxor t3 t2) t1) t0)
  | _ => crc_tail L l crc
  end.

Fixpoint slice8_main (L : lut) (next : Z) (l : list Z) (crc : Z) : option Z :=
  match l with
  | b0 :: b1 :: b2 :: b3 :: b4 :: b5 :: b6 :: b7 :: r =>
      n ← load_word next [b0; b1; b2; b3; b4; b5; b6; b7];
      let idx0 := Z.lxor (byte_of n 0) (byte_of crc 8) in
      let idx1 := Z.lxor (byte_of n 8) (byte_of crc 0) in
      let idx2 := byte_of n 16 in
      let idx3 := byte_of n 24 in
      let idx4 := byte_of n 32 in
      let idx5 := byte_of n 40 in
      let idx6 := byte_of n 48 in
      let idx7 := byte_of n 56 in
      t7 ← lut_at L 7 idx0;
      t6 ← lut_at L 6 idx1;
      t5 ← lut_at L 5 idx2;
      t4 ← lut_at L 4 idx3;
      t3 ← lut_at L 3 idx4;
      t2 ← lut_at L 2 idx5;
      t1 ← lut_at L 1 idx6;
      t0 ← lut_at L 0 idx7;
      slice8_main L (next + 8) r
        (Z.lxor (Z.lxor (Z.lxor (Z.lxor (Z.lxor (Z.lxor (Z.lxor t7 t6) t5) t4) t3) t2) t1) t0)
  | _ => crc_tail L l crc
  end.

Definition crc16_slice2 (L : lut) (addr : Z) (buf : list Z) (len : Z) : option Z :=
  l ← rdn buf 0 len;
  '(next, l, crc) ← crc_head L addr l 0xffff;
  slice2_main L next l crc.

Definition crc16_slice4 (L : lut) (addr : Z) (buf : list Z) (len : Z) : option Z :=
  l ← rdn buf 0 len;
  '(next, l, crc) ← crc_head L addr l 0xffff;
  slice4_main L next l crc.

Definition crc16_slice8 (L : lut) (addr : Z) (buf : list Z) (len : Z) : option Z :=
  l ← rdn buf 0 len;
  '(next, l, crc) ← crc_head L addr l 0xffff;
  slice8_main L next l crc.

(** ** The bit-serial reference: polynomial 0x1021, initial value 0xffff, no
    reflection, no final exclusive or *)

Definition crc_shift (x : Z) : Z :=
  if Z.testbit x 15 then Z.lxor (u16 (2 * x)) 0x1021 else u16 (2 * x).

Definition crc_byte_ref (crc b : Z) : Z :=
  Nat.iter 8 crc_shift (Z.lxor crc (Z.shiftl b 8)).

Definition crc16_ref (bs : list Z) : Z := foldl crc_byte_ref 0xffff bs.

(** the tables after each initialisation, evaluated once *)
Definition LUT1 : lut := Eval vm_compute in crc_init_lookup_table lut_zero.

Definition LUT8 : lut := Eval vm_compute in
  default [] (crc16_init_sliced_lookup_table lut_zero).

(** ** Interface of the tables

    What an initialisation promises to the CRC routines. [crcA x] is one step
    of the CRC register with a zero input octet. *)

Definition crc_step (S b : Z) : Z :=
  Z.lxor (Z.land (Z.shiftl S 8) 0xff00) (crc_init_entry (Z.lxor (Z.shiftr S 8) b)).

Definition crcA (x : Z) : Z := crc_step x 0.

Class ByteTable (L : lut) : Prop :=
  byte_table : forall i, is_byte i -> lut_at L 0 i = Some (crc_init_entry i).

Class SlicedTable (L : lut) : Prop :=
  sliced_table : forall k i, 0 <= k < 8 -> is_byte i ->
    lut_at L k i = Some (Nat.iter (Z.to_nat k) crcA (crc_init_entry i)).

Definition opt_eqb (o : option Z) (x : Z) : bool :=
  match o with Some y => y =? x | None => false end.

Lemma opt_eqb_eq o x : opt_eqb o x = true -> o = Some x.
Proof. destruct o; simpl; [|done]. by intros ->%Z.eqb_eq. Qed.

#[export] Instance LUT1_byte : ByteTable LUT1.
Proof.
  intros i Hi. apply opt_eqb_eq.
  refine (byte_ind (fun i => opt_eqb (lut_at LUT1 0 i) (crc_init_entry i)) _ i Hi).
  vm_cast_no_check (eq_refl true).
Qed.

#[export] Instance LUT8_sliced : SlicedTable LUT8.
Proof.
  intros k i Hk Hi. apply opt_eqb_eq.
  refine (range_ind2 8 256 (fun k i => opt_eqb (lut_at LUT8 k i)
    (Nat.iter (Z.to_nat k) crcA (crc_init_entry i))) _ k i Hk Hi).
  vm_cast_no_check (eq_refl true).
Qed.

#[export] Instance sliced_byte L `{!SlicedTable L} : ByteTable L.
Proof. intros i Hi. by apply (sliced_table 0). Qed.

(** ** The CRC step *)

Lemma entry_u16 i : is_byte i -> is_u16 (crc_init_entry i).
Proof.
  intros Hi. pose proof (byte_ind (fun i => bool_decide (is_u16 (crc_init_entry i)))
    ltac:(vm_cast_no_check (eq_refl true)) i Hi) as H.
  by apply bool_decide_eq_true in H.
Qed.

(** the bit-serial step is linear, so that it is enough to look at octets *)
Lemma u16_lxor x y : u16 (Z.lxor x y) = Z.lxor (u16 x) (u16 y).
Proof.
  unfold u16. change 65536 with (2 ^ 16). rewrite <- !Z.land_ones by lia.
  apply Z.bits_inj'. intros i Hi. rewrite !Z.lxor_spec, !Z.land_spec, Z.lxor_spec.
  by destruct (Z.testbit x i), (Z.testbit y i), (Z.testbit (Z.ones 16) i).
Qed.

Lemma lxor_shuffle a b c d : Z.lxor (Z.lxor a b) (Z.lxor c d) = Z.lxor (Z.lxor a c) (Z.lxor b d).
Proof. rewrite !Z.lxor_assoc. f_equal. rewrite <- !Z.lxor_assoc. f_equal. apply Z.lxor_comm. Qed.

Lemma crc_shift_lxor x y : crc_shift (Z.lxor x y) = Z.lxor (crc_shift x) (crc_shift y).
Proof.
  assert (E : forall z, crc_shift z = Z.lxor (u16 (2 * z)) (if Z.testbit z 15 then 0x1021 else 0)).
  { intros z. unfold crc_shift. destruct (Z.testbit z 15); [done|]. by rewrite Z.lxor_0_r. }
  rewrite !E, lxor_shuffle. f_equal.
  - rewrite <- u16_lxor. f_equal. rewrite !(Z.mul_comm 2). change 2 with (2 ^ 1).
    by rewrite <- !Z.shiftl_mul_pow2, Z.shiftl_lxor by lia.
  - rewrite Z.lxor_spec. by destruct (Z.testbit x 15), (Z.testbit y 15).
Qed.

Lemma crc_shifts_lxor n x y : Nat.iter n crc_shift (Z.lxor x y) = Z.lxor (Nat.iter n crc_shift x) (Nat.iter n crc_shift y).
Proof. induction n as [|n IH]; [done|]. simpl. by rewrite IH, crc_shift_lxor. Qed.

Lemma iter8_high h : is_byte h -> Nat.iter 8 crc_shift (Z.shiftl h 8) = crc_init_entry h.
Proof.
  intros Hh. apply Z.eqb_eq.
  refine (byte_ind (fun h => Nat.iter 8 crc_shift (Z.shiftl h 8) =? crc_init_entry h) _ h Hh).
  vm_cast_no_check (eq_refl true).
Qed.

Lemma iter8_low l : is_byte l -> Nat.iter 8 crc_shift l = Z.shiftl l 8.
Proof.
  intros Hl. apply Z.eqb_eq.
  refine (byte_ind (fun l => Nat.iter 8 crc_shift l =? Z.shiftl l 8) _ l Hl).
  vm_cast_no_check (eq_refl true).
Qed.

Lemma entry_lxor i j : is_byte i -> is_byte j ->
  crc_init_entry (Z.lxor i j) = Z.lxor (crc_init_entry i) (crc_init_entry j).
Proof.
  intros Hi Hj. rewrite <- !iter8_high by (done || by apply lxor_byte).
  by rewrite <- crc_shifts_lxor, Z.shiftl_lxor.
Qed.

(** only the entry of 0 ends in eight zeros *)
Lemma entry_low_zero h : is_byte h -> Z.land (crc_init_entry h) 0xff = 0 -> h = 0.
Proof.
  intros Hh H. pose proof (byte_ind (fun h => negb (Z.land (crc_init_entry h) 0xff =? 0) || (h =? 0))
    ltac:(vm_cast_no_check (eq_refl true)) h Hh) as E. simpl in E. rewrite H in E. by apply Z.eqb_eq in E.
Qed.

(** the upper and the lower octet of a register *)
Lemma register_split x : is_u16 x -> x = Z.lxor (Z.shiftl (Z.shiftr x 8) 8) (Z.land x 0xff).
Proof.
  intros Hx. change 0xff with (Z.ones 8). apply Z.bits_inj'. intros i Hi.
  rewrite Z.lxor_spec, Z.land_spec, Z.testbit_ones_nonneg by lia. destruct (Z.ltb_spec i 8).
  - by rewrite Z.shiftl_spec_low, andb_true_r, xorb_false_l by lia.
  - rewrite Z.shiftl_spec, Z.shiftr_spec, andb_false_r, xorb_false_r by lia. f_equal. lia.
Qed.

Lemma shl_low x : Z.land (Z.shiftl x 8) 0xff00 = Z.shiftl (Z.land x 0xff) 8.
Proof. change 0xff00 with (Z.shiftl 0xff 8). symmetry. apply Z.shiftl_land. Qed.

Lemma register_low x : is_byte (Z.land x 0xff).
Proof. change 0xff with (Z.ones 8). rewrite Z.land_ones by lia. unfold is_byte. change (2 ^ 8) with 256. dlia. Qed.

Lemma hi_byte S : is_u16 S -> is_byte (Z.shiftr S 8).
Proof.
  unfold is_u16, is_byte. intros. rewrite shiftr_div by lia. change (2 ^ 8) with 256. dlia.
Qed.

Lemma shl_u16 S : Z.land (Z.shiftl S 8) 0xff00 = u16 (Z.shiftl S 8).
Proof.
  unfold u16. change 65536 with (2 ^ 16). rewrite <- Z.land_ones by lia.
  apply Z.bits_inj'. intros i Hi. rewrite !Z.land_spec.
  destruct (decide (i < 8)); [by rewrite Z.shiftl_spec_low|]. f_equal.
  change 0xff00 with (Z.shiftl (Z.ones 8) 8). rewrite Z.shiftl_spec by lia.
  rewrite !Z.testbit_ones_nonneg by lia.
  destruct (Z.ltb_spec (i - 8) 8), (Z.ltb_spec i 16); lia || done.
Qed.

Lemma crc_step_u16 S b : is_u16 S -> is_byte b -> is_u16 (crc_step S b).
Proof.
  intros HS Hb. apply lxor_u16; [rewrite shl_u16; apply u16_range|].
  apply entry_u16, lxor_byte; [by apply hi_byte|done].
Qed.

Lemma land_low x : is_byte x -> Z.land x 0x00ff = x.
Proof. apply land_ff. Qed.

Lemma crc16_step L `{!ByteTable L} b S :
  is_byte b -> is_u16 S -> crc16 L b S = Some (crc_step S b).
Proof.
  intros Hb HS. unfold crc16, crc_step.
  assert (is_byte (Z.lxor (Z.shiftr S 8) b)) by (apply lxor_byte; [by apply hi_byte|done]).
  rewrite land_low, byte_table by done. done.
Qed.

Lemma crc_step_sliced_step L `{!ByteTable L} b S :
  is_byte b -> is_u16 S -> crc_step_sliced L b S = Some (crc_step S b).
Proof.
  intros Hb HS. unfold crc_step_sliced, crc_step.
  assert (is_byte (Z.lxor (Z.shiftr S 8) b)) by (apply lxor_byte; [by apply hi_byte|done]).
  rewrite land_low, byte_table by done. simpl. f_equal.
  rewrite shl_u16. unfold u16. change 65536 with (2 ^ 16).
  rewrite <- !Z.land_ones by lia. rewrite Z.lxor_comm.
  apply Z.bits_inj'. intros i Hi. rewrite !Z.land_spec, !Z.lxor_spec, !Z.land_spec.
  rewrite Z.testbit_ones_nonneg by lia. destruct (Z.ltb_spec i 16).
  - by rewrite !andb_true_r.
  - rewrite !andb_false_r. rewrite (testbit_high (crc_init_entry _) 16); [done| |lia].
    by apply entry_u16.
Qed.

Lemma crc_steps_u16 bs S : bytes bs -> is_u16 S -> is_u16 (foldl crc_step S bs).
Proof.
  intros Hbs. revert S. induction Hbs as [|b bs Hb Hbs IH]; intros S HS; simpl; [done|].
  apply IH. by apply crc_step_u16.
Qed.

(** The table step is eight bit-serial steps. *)
Lemma iter8_entry : forall x, is_u16 x ->
  Nat.iter 8 crc_shift x =
  Z.lxor (Z.land (Z.shiftl x 8) 0xff00) (crc_init_entry (Z.shiftr x 8)).
Proof.
  intros x Hx. rewrite (register_split x Hx) at 1. rewrite crc_shifts_lxor, iter8_high by (by apply hi_byte).
  rewrite iter8_low by apply register_low. by rewrite shl_low, Z.lxor_comm.
Qed.

Lemma shl8_u16 b : is_byte b -> is_u16 (Z.shiftl b 8).
Proof.
  unfold is_byte, is_u16. rewrite shiftl_mul by lia. change (2 ^ 8) with 256. lia.
Qed.

Lemma crc_byte_ref_step S b : is_u16 S -> is_byte b -> crc_byte_ref S b = crc_step S b.
Proof.
  intros HS Hb. unfold crc_byte_ref, crc_step.
  rewrite iter8_entry by (apply lxor_u16; [done|by apply shl8_u16]).
  rewrite Z.shiftr_lxor, Z.shiftl_lxor, Z.shiftr_shiftl_l by lia. f_equal.
  - apply Z.bits_inj'. intros i Hi. rewrite !Z.land_spec, Z.lxor_spec, Z.shiftl_spec by lia.
    change 0xff00 with (Z.shiftl (Z.ones 8) 8).
    destruct (decide (i < 8)).
    { rewrite (Z.shiftl_spec_low (Z.ones 8)) by lia. by rewrite !andb_false_r. }
    rewrite (Z.shiftl_spec (Z.ones 8)), Z.testbit_ones_nonneg by lia.
    destruct (Z.ltb_spec (i - 8) 8); [|by rewrite !andb_false_r].
    rewrite (Z.shiftl_spec (Z.shiftl b 8)) by lia.
    rewrite (Z.shiftl_spec_low b) by lia. by rewrite xorb_false_r.
Qed.

Lemma crc_ref_steps bs S : bytes bs -> is_u16 S -> foldl crc_byte_ref S bs = foldl crc_step S bs.
Proof.
  intros Hbs. revert S. induction Hbs as [|b bs Hb Hbs IH]; intros S HS; simpl; [done|].
  rewrite crc_byte_ref_step by done. apply IH. by apply crc_step_u16.
Qed.

Lemma crc16_loop_steps L `{!ByteTable L} pre bs r S :
  bytes bs -> is_u16 S ->
  crc16_loop L (pre ++ bs ++ r) (zlen pre) (length bs) S = Some (foldl crc_step S bs).
Proof.
  intros Hbs. revert pre S. induction Hbs as [|b bs Hb Hbs IH]; intros pre S HS; [done|].
  cbn [length crc16_loop]. rewrite rd_app_r by lia.
  rewrite Z.sub_diag. simpl. rewrite crc16_step by done. simpl.
  specialize (IH (pre ++ [b]) (crc_step S b) ltac:(by apply crc_step_u16)).
  rewrite <- (app_assoc pre) in IH. rewrite zlen_app in IH. simpl in IH. exact IH.
Qed.

(** the functional value of [crc16_buf] on the first [len] bytes *)
Lemma crc16_buf_steps L `{!ByteTable L} bs r :
  bytes bs ->
  crc16_buf L (At (bs ++ r)) (zlen bs) = Some (foldl crc_step 0xffff bs).
Proof.
  intros Hbs. unfold crc16_buf. destruct (Z.eqb_spec (zlen bs) 0) as [H0|].
  - by rewrite (zlen_0_nil bs H0).
  - pose proof (crc16_loop_steps L [] bs r 0xffff Hbs) as H. simpl in H.
    unfold zlen at 1. rewrite Nat2Z.id. apply H. unfold is_u16. lia.
Qed.

(** ** Sliced steps *)

Lemma land_lxor_distr a b m : Z.land (Z.lxor a b) m = Z.lxor (Z.land a m) (Z.land b m).
Proof.
  apply Z.bits_inj'. intros i Hi. rewrite Z.land_spec, !Z.lxor_spec, !Z.land_spec.
  by destruct (Z.testbit a i), (Z.testbit b i), (Z.testbit m i).
Qed.

Lemma crcA_lxor x y : is_u16 x -> is_u16 y -> crcA (Z.lxor x y) = Z.lxor (crcA x) (crcA y).
Proof.
  intros Hx Hy. unfold crcA, crc_step.
  rewrite !Z.lxor_0_r, Z.shiftl_lxor, Z.shiftr_lxor, land_lxor_distr.
  rewrite entry_lxor by (by apply hi_byte).
  apply Z.bits_inj'. intros i Hi. rewrite !Z.lxor_spec.
  by repeat destruct (Z.testbit _ i).
Qed.

Lemma crc_step_A S b : is_u16 S -> is_byte b -> crc_step S b = crcA (Z.lxor S (Z.shiftl b 8)).
Proof.
  intros HS Hb. rewrite <- crc_byte_ref_step by done. unfold crc_byte_ref.
  rewrite iter8_entry by (apply lxor_u16; [done|by apply shl8_u16]).
  unfold crcA, crc_step. by rewrite Z.lxor_0_r.
Qed.

Lemma crcA_u16 x : is_u16 x -> is_u16 (crcA x).
Proof. intros. apply crc_step_u16; [done|]. unfold is_byte. lia. Qed.

Definition An (n : nat) (x : Z) : Z := Nat.iter n crcA x.

Lemma An_S n x : An (S n) x = An n (crcA x).
Proof. unfold An. by rewrite Nat.iter_succ_r. Qed.

Lemma An_u16 n x : is_u16 x -> is_u16 (An n x).
Proof. intros. unfold An. induction n; simpl; [done|]. by apply crcA_u16. Qed.

Lemma An_lxor n x y : is_u16 x -> is_u16 y -> An n (Z.lxor x y) = Z.lxor (An n x) (An n y).
Proof.
  intros Hx Hy. unfold An. induction n as [|n IH]; simpl; [done|].
  rewrite IH. apply crcA_lxor; by apply (An_u16 n).
Qed.

(** what the octets [bs] contribute to the register *)
Fixpoint contrib (bs : list Z) : Z :=
  match bs with
  | [] => 0
  | b :: r => Z.lxor (An (S (length r)) (Z.shiftl b 8)) (contrib r)
  end.

Lemma steps_contrib bs S : bytes bs -> is_u16 S ->
  foldl crc_step S bs = Z.lxor (An (length bs) S) (contrib bs).
Proof.
  intros Hbs. revert S. induction Hbs as [|b bs Hb Hbs IH]; intros S HS.
  - simpl. by rewrite Z.lxor_0_r.
  - cbn [foldl length contrib]. rewrite IH by (by apply crc_step_u16).
    rewrite crc_step_A by done. rewrite <- An_S.
    rewrite An_lxor by (done || by apply shl8_u16).
    by rewrite <- Z.lxor_assoc.
Qed.

Lemma crcA_low lo : is_byte lo -> crcA lo = Z.shiftl lo 8.
Proof. revert lo. by_bytes. Qed.

Lemma crcA_high i : is_byte i -> crcA (Z.shiftl i 8) = crc_init_entry i.
Proof. revert i. by_bytes. Qed.

Lemma u16_split S : is_u16 S ->
  S = Z.lxor (Z.shiftl (byte_of S 8) 8) (byte_of S 0).
Proof.
  intros HS. apply Z.bits_inj'. intros i Hi. unfold byte_of.
  change 0xff with (Z.ones 8). rewrite Z.lxor_spec, Z.land_spec, Z.shiftr_0_r.
  destruct (decide (i < 8)).
  - rewrite Z.shiftl_spec_low, Z.testbit_ones_nonneg by lia.
    destruct (Z.ltb_spec i 8); [|lia]. by rewrite andb_true_r, xorb_false_l.
  - rewrite Z.shiftl_spec, Z.land_spec, Z.shiftr_spec, !Z.testbit_ones_nonneg by lia.
    replace (i - 8 + 8) with i by lia. destruct (Z.ltb_spec i 8); [lia|].
    rewrite andb_false_r, xorb_false_r. destruct (Z.ltb_spec (i - 8) 8).
    + by rewrite andb_true_r.
    + rewrite andb_false_r. by apply (testbit_high S 16); [|lia].
Qed.

Lemma byte_of_byte n k : is_byte (byte_of n k).
Proof.
  unfold byte_of. rewrite (land_mask _ 0xff 8) by done. apply Z.mod_pos_bound. lia.
Qed.

(** a row of the sliced tables as a power of [crcA] *)
Lemma sliced_An L `{!SlicedTable L} k i : 0 <= k < 8 -> is_byte i ->
  lut_at L k i = Some (An (S (Z.to_nat k)) (Z.shiftl i 8)).
Proof.
  intros Hk Hi. rewrite sliced_table by done. by rewrite An_S, crcA_high.
Qed.

(** the first two octets absorb the register *)
Lemma absorb S b0 b1 n : is_u16 S -> is_byte b0 -> is_byte b1 ->
  Z.lxor (An (Datatypes.S (Datatypes.S n)) S)
    (Z.lxor (An (Datatypes.S (Datatypes.S n)) (Z.shiftl b0 8)) (An (Datatypes.S n) (Z.shiftl b1 8))) =
  Z.lxor (An (Datatypes.S (Datatypes.S n)) (Z.shiftl (Z.lxor b0 (byte_of S 8)) 8))
         (An (Datatypes.S n) (Z.shiftl (Z.lxor b1 (byte_of S 0)) 8)).
Proof.
  intros HS H0 H1. rewrite !Z.shiftl_lxor.
  pose proof (byte_of_byte S 8) as Hh. pose proof (byte_of_byte S 0) as Hl.
  assert (is_u16 (byte_of S 0)) by (unfold is_byte, is_u16 in *; lia).
  rewrite (u16_split S HS) at 1.
  rewrite !An_lxor by (done || by apply shl8_u16).
  rewrite (An_S _ (byte_of S 0)), crcA_low by done.
  apply Z.bits_inj'. intros i Hi. rewrite !Z.lxor_spec.
  by repeat destruct (Z.testbit _ i).
Qed.

Lemma byte_of_cons0 b acc : is_byte b -> byte_of (Z.lor b (Z.shiftl acc 8)) 0 = b.
Proof.
  intros Hb. unfold byte_of. rewrite Z.shiftr_0_r, Z.lor_comm, be16_lor by done.
  rewrite (land_mask _ 0xff 8) by done. change (2 ^ 8) with 256.
  unfold is_byte in Hb. dlia.
Qed.

Lemma byte_of_cons b acc k : is_byte b -> 8 <= k ->
  byte_of (Z.lor b (Z.shiftl acc 8)) k = byte_of acc (k - 8).
Proof.
  intros Hb Hk. unfold byte_of. f_equal. rewrite Z.shiftr_lor.
  replace (Z.shiftr b k) with 0.
  - rewrite Z.lor_0_l, Z.shiftr_shiftl_r by lia. done.
  - symmetry. apply Z.bits_inj'. intros i Hi. rewrite Z.shiftr_spec, Z.bits_0 by done.
    by apply (testbit_high b 8); [|lia].
Qed.

Lemma crc_tail_steps L `{!ByteTable L} l S :
  bytes l -> is_u16 S -> crc_tail L l S = Some (foldl crc_step S l).
Proof.
  intros Hl. revert S. induction Hl as [|b l Hb Hl IH]; intros S HS; simpl; [done|].
  rewrite crc_step_sliced_step by done. simpl. apply IH. by apply crc_step_u16.
Qed.

(** the head loop stops on a dword boundary or with no bytes left *)
Lemma crc_head_steps L `{!ByteTable L} l : forall next S, bytes l -> is_u16 S ->
  exists l1 l2, l = l1 ++ l2 /\
    crc_head L next l S = Some (next + zlen l1, l2, foldl crc_step S l1) /\
    (l2 = [] \/ (next + zlen l1) mod 8 = 0).
Proof.
  induction l as [|b l IH]; intros next S Hl HS.
  - exists [], []. simpl. rewrite Z.add_0_r. auto.
  - apply bytes_cons in Hl as [Hb Hl]. cbn [crc_head]. unfold c_true.
    rewrite (land_mask next 0x7 3) by done. change (2 ^ 3) with 8.
    destruct (Z.eqb_spec (next mod 8) 0) as [E|E]; simpl.
    + exists [], (b :: l). rewrite Z.add_0_r. auto.
    + rewrite crc_step_sliced_step by done. simpl.
      destruct (IH (next + 1) (crc_step S b) Hl) as (l1 & l2 & -> & H1 & H2);
        [by apply crc_step_u16|].
      exists (b :: l1), l2. simpl. split; [done|]. rewrite zlen_cons.
      replace (next + (zlen l1 + 1)) with (next + 1 + zlen l1) by lia. auto.
Qed.

Lemma load_word_ok next l w : zlen l = w -> next mod w = 0 -> load_word next l = Some (le_load l).
Proof. intros <- H. unfold load_word. by rewrite H. Qed.

Ltac le_bytes :=
  repeat first
    [ rewrite byte_of_cons0 by done
    | rewrite byte_of_cons by (first [done | lia]);
      let x := fresh in match goal with |- context [byte_of _ (?a - 8)] =>
        let v := eval vm_compute in (a - 8) in change (a - 8) with v end ].

Ltac open_bytes :=
  repeat match goal with H : bytes (_ :: _) |- _ => apply bytes_cons in H as [? H] end.

Ltac sliced_rows :=
  repeat (rewrite sliced_An by (first [lia | apply lxor_byte; auto using byte_of_byte | auto]); cbn [mbind option_bind]).


Lemma length_ind (P : list Z -> Prop) :
  (forall l, (forall k, (length k < length l)%nat -> P k) -> P l) -> forall l, P l.
Proof. intros H l. induction l as [l IH] using (well_founded_induction (Wf_nat.well_founded_ltof _ length)). by apply H. Qed.

Ltac bts := repeat first [assumption | apply Forall_nil_2 | apply bytes_cons; split].

Lemma block_steps S b0 b1 l : is_u16 S -> is_byte b0 -> is_byte b1 -> bytes l ->
  foldl crc_step S (b0 :: b1 :: l) =
  Z.lxor (Z.lxor (An (2 + length l) (Z.shiftl (Z.lxor b0 (byte_of S 8)) 8))
                 (An (1 + length l) (Z.shiftl (Z.lxor b1 (byte_of S 0)) 8)))
         (contrib l).
Proof.
  intros HS H0 H1 Hl. rewrite steps_contrib by bts.
  cbn [length contrib]. pose proof (absorb S b0 b1 (length l) HS H0 H1) as Ha.
  cbn [Nat.add]. rewrite <- Ha. rewrite !Z.lxor_assoc. done.
Qed.

(** One block of a sliced loop: load, look up, and hand over to the
    induction hypothesis. *)
Ltac slice_block w IH :=
  lazymatch goal with
  | Ha : _ \/ ?next mod w = 0, HS : is_u16 ?S |- _ =>
      destruct Ha as [|Ha]; [done|];
      rewrite (load_word_ok _ _ w) by done;
      cbn [mbind option_bind le_load foldr]; open_bytes; le_bytes; sliced_rows;
      rewrite IH;
        [ 
        | cbn [length]; lia | done
        | repeat first [apply An_u16, shl8_u16 | apply lxor_u16];
          first [assumption | apply lxor_byte; auto using byte_of_byte]
        | right; dlia ]
  end.

Lemma slice2_steps L `{!SlicedTable L} l : forall next S, bytes l -> is_u16 S ->
  (l = [] \/ next mod 2 = 0) -> slice2_main L next l S = Some (foldl crc_step S l).
Proof.
  induction l as [l IH] using length_ind. intros next S Hl HS Ha.
  destruct l as [|b0 [|b1 r]]; [exact (crc_tail_steps L _ S Hl HS)..|].
  cbn [slice2_main]. slice_block 2 IH.
  change (b0 :: b1 :: r) with ([b0; b1] ++ r). rewrite foldl_app. f_equal.
  rewrite block_steps by bts. cbn [length contrib]. by rewrite Z.lxor_0_r.
Qed.

Lemma slice4_steps L `{!SlicedTable L} l : forall next S, bytes l -> is_u16 S ->
  (l = [] \/ next mod 4 = 0) -> slice4_main L next l S = Some (foldl crc_step S l).
Proof.
  induction l as [l IH] using length_ind. intros next S Hl HS Ha.
  destruct l as [|b0 [|b1 [|b2 [|b3 r]]]]; [exact (crc_tail_steps L _ S Hl HS)..|].
  cbn [slice4_main]. slice_block 4 IH.
  change (b0 :: b1 :: b2 :: b3 :: r) with ([b0; b1; b2; b3] ++ r). rewrite foldl_app. f_equal.
  rewrite block_steps by bts.
  cbn [length contrib]. by rewrite Z.lxor_0_r, <- !Z.lxor_assoc.
Qed.

Lemma slice8_steps L `{!SlicedTable L} l : forall next S, bytes l -> is_u16 S ->
  (l = [] \/ next mod 8 = 0) -> slice8_main L next l S = Some (foldl crc_step S l).
Proof.
  induction l as [l IH] using length_ind. intros next S Hl HS Ha.
  destruct l as [|b0 [|b1 [|b2 [|b3 [|b4 [|b5 [|b6 [|b7 r]]]]]]]];
    [exact (crc_tail_steps L _ S Hl HS)..|].
  cbn [slice8_main]. slice_block 8 IH.
  change (b0 :: b1 :: b2 :: b3 :: b4 :: b5 :: b6 :: b7 :: r)
    with ([b0; b1; b2; b3; b4; b5; b6; b7] ++ r). rewrite foldl_app. f_equal.
  rewrite block_steps by bts.
  cbn [length contrib]. by rewrite Z.lxor_0_r, <- !Z.lxor_assoc.
Qed.

(** ** Injectivity: the register and the octet can be recovered *)

Lemma crcA_kernel x : is_u16 x -> crcA x = 0 -> x = 0.
Proof.
  intros Hx H0. unfold crcA, crc_step in H0. rewrite Z.lxor_0_r, shl_low in H0. apply Z.lxor_eq in H0.
  assert (Hh : Z.shiftr x 8 = 0).
  { apply entry_low_zero; [by apply hi_byte|]. rewrite <- H0. apply Z.bits_inj'. intros i Hi.
    change 0xff with (Z.ones 8). rewrite Z.land_spec, Z.testbit_ones_nonneg, Z.bits_0 by lia.
    destruct (Z.ltb_spec i 8); [by rewrite Z.shiftl_spec_low|apply andb_false_r]. }
  rewrite Hh in H0. change (crc_init_entry 0) with 0 in H0. rewrite (register_split x Hx), Hh.
  rewrite shiftl_mul in H0 by lia. change (Z.shiftl 0 8) with 0. rewrite Z.lxor_0_l. lia.
Qed.

Lemma crcA_inj x y : is_u16 x -> is_u16 y -> crcA x = crcA y -> x = y.
Proof.
  intros Hx Hy H. apply Z.lxor_eq, crcA_kernel; [by apply lxor_u16|].
  by rewrite crcA_lxor, H, Z.lxor_nilpotent.
Qed.

Lemma lxor_cancel_r x y z : Z.lxor x z = Z.lxor y z -> x = y.
Proof.
  intros H. apply (f_equal (fun t => Z.lxor t z)) in H.
  by rewrite !Z.lxor_assoc, Z.lxor_nilpotent, !Z.lxor_0_r in H.
Qed.

Lemma crc_step_inj_reg S1 S2 b : is_u16 S1 -> is_u16 S2 -> is_byte b ->
  crc_step S1 b = crc_step S2 b -> S1 = S2.
Proof.
  intros H1 H2 Hb. rewrite !crc_step_A by done.
  intros ?%crcA_inj; [by eapply lxor_cancel_r|..]; by apply lxor_u16, shl8_u16.
Qed.

Lemma crc_step_inj_byte S b1 b2 : is_u16 S -> is_byte b1 -> is_byte b2 ->
  crc_step S b1 = crc_step S b2 -> b1 = b2.
Proof.
  intros HS H1 H2. rewrite !crc_step_A by done.
  intros H%crcA_inj; [|by apply lxor_u16, shl8_u16..].
  rewrite !(Z.lxor_comm S) in H. apply lxor_cancel_r in H.
  rewrite !shiftl_mul in H by lia. lia.
Qed.

Lemma crc_steps_inj_reg l S1 S2 : bytes l -> is_u16 S1 -> is_u16 S2 ->
  foldl crc_step S1 l = foldl crc_step S2 l -> S1 = S2.
Proof.
  intros Hl. revert S1 S2. induction Hl as [|b l Hb Hl IH]; intros S1 S2 H1 H2 H; [done|].
  simpl in H. apply IH in H; [|by apply crc_step_u16..]. by eapply crc_step_inj_reg.
Qed.

(** appending the register drives it to zero *)
Lemma crc_steps_residue S : is_u16 S ->
  foldl crc_step S [Z.shiftr S 8; Z.land S 0xff] = 0.
Proof.
  intros HS. cbn [foldl]. unfold crc_step. rewrite Z.lxor_nilpotent. change (crc_init_entry 0) with 0.
  rewrite Z.lxor_0_r, !shl_low. rewrite Z.shiftr_shiftl_l by lia. rewrite Z.shiftl_0_r, Z.lxor_nilpotent.
  change (crc_init_entry 0) with 0. rewrite Z.lxor_0_r.
  assert (E : Z.land (Z.shiftl (Z.land S 0xff) 8) 0xff = 0); [|by rewrite E].
  change 0xff with (Z.ones 8) at 2. rewrite Z.land_ones, shiftl_mul by lia. change (2 ^ 8) with 256. apply Z_mod_mult.
Qed.

Lemma crc16_ref_steps bs : bytes bs -> crc16_ref bs = foldl crc_step 0xffff bs.
Proof. intros. apply crc_ref_steps; [done|]. unfold is_u16. lia. Qed.

Lemma crc16_ref_u16 bs : bytes bs -> is_u16 (crc16_ref bs).
Proof. intros. rewrite crc16_ref_steps by done. apply crc_steps_u16; [done|]. unfold is_u16. lia. Qed.

Lemma mod8_down x w : x mod 8 = 0 -> In w [2; 4; 8] -> x mod w = 0.
Proof. simpl. intros Hx [<-|[<-|[<-|[]]]]; dlia. Qed.

(** ** Properties *)

(** With the table built by [crc_init_lookup_table], [crc16_buf] computes
    the bit-serial CRC16-CCITT-FALSE of the first [len] octets of the buffer,
    and reads nothing else. *)
Theorem crc16_buf_correct bs r :
  bytes bs ->
  crc16_buf (crc_init_lookup_table lut_zero) (At (bs ++ r)) (zlen bs) = Some (crc16_ref bs).
Proof.
  intros Hbs. rewrite crc16_ref_steps by done.
  replace (crc_init_lookup_table lut_zero) with LUT1 by (vm_compute; reflexivity).
  apply (crc16_buf_steps LUT1 bs r Hbs).
Qed.

Lemma crc16_buf_correct_witness :
  crc16_buf (crc_init_lookup_table lut_zero) (At ([49;50;51;52;53;54;55;56;57] ++ [1])) 9
  = Some 0x29B1.
Proof.
  pose proof (crc16_buf_correct [49;50;51;52;53;54;55;56;57] [1]) as H.
  etransitivity; [apply H; vm_compute; repeat constructor; discriminate|].
  vm_compute. reflexivity.
Defined.

(** C31: after [crc16_init_sliced_lookup_table], the sliced routines by 2, 4
    and 8 octets agree with the bit-serial CRC for every length and every
    alignment of the buffer, and load words at aligned addresses only. *)
Theorem crc16_slices_correct L addr bs r :
  crc16_init_sliced_lookup_table lut_zero = Some L -> bytes bs ->
  crc16_slice2 L addr (bs ++ r) (zlen bs) = Some (crc16_ref bs) /\
  crc16_slice4 L addr (bs ++ r) (zlen bs) = Some (crc16_ref bs) /\
  crc16_slice8 L addr (bs ++ r) (zlen bs) = Some (crc16_ref bs).
Proof.
  intros HL Hbs.
  assert (L = LUT8) as -> by (revert HL; vm_compute; congruence).
  rewrite crc16_ref_steps by done.
  assert (Hff : is_u16 0xffff) by (unfold is_u16; lia).
  destruct (crc_head_steps LUT8 bs addr 0xffff Hbs Hff) as (l1 & l2 & -> & Hh & Ha).
  apply bytes_app in Hbs as [Hb1 Hb2].
  pose proof (crc_steps_u16 l1 0xffff Hb1 Hff) as HS.
  unfold crc16_slice2, crc16_slice4, crc16_slice8.
  pose proof (rdn_app [] (l1 ++ l2) r) as Hr. simpl app in Hr.
  change (zlen (@nil Z)) with 0 in Hr. rewrite Hr. cbn [mbind option_bind].
  rewrite Hh. cbn [mbind option_bind]. rewrite foldl_app.
  assert (Hw : forall w, In w [2; 4; 8] -> l2 = [] \/ (addr + zlen l1) mod w = 0).
  { intros w Hw. destruct Ha as [->|Ha]; [by left|right]. by apply mod8_down. }
  repeat apply conj.
  - apply (slice2_steps LUT8 l2); [exact Hb2|exact HS|apply Hw; simpl; auto].
  - apply (slice4_steps LUT8 l2); [exact Hb2|exact HS|apply Hw; simpl; auto].
  - apply (slice8_steps LUT8 l2); [exact Hb2|exact HS|apply Hw; simpl; auto].
Qed.

Lemma crc16_slices_correct_witness :
  exists L, crc16_init_sliced_lookup_table lut_zero = Some L /\
    crc16_slice8 L 5 ([49;50;51;52;53;54;55;56;57;58;59;60;61;62;63] ++ []) 15
    = Some (crc16_ref [49;50;51;52;53;54;55;56;57;58;59;60;61;62;63]).
Proof.
  exists LUT8. split; [vm_compute; reflexivity|].
  apply (crc16_slices_correct LUT8 5 [49;50;51;52;53;54;55;56;57;58;59;60;61;62;63] []).
  - vm_compute. reflexivity.
  - vm_compute. repeat constructor; discriminate.
Defined.
