(* ===== verification/Bitman.v ===== *)
(** * Bit streams (src/ecss/bitman.c)

    [bitcpy] copies bits between buffers of octets, most significant bit first,
    with [putbits8] for up to eight bits.  A pointer argument into the middle
    of an object is the object and the offset of the pointer. A shift by a
    negative number of bits is undefined, as an access out of bounds is. *)

From stdpp Require Import base tactics option list list_numbers.
From Stdlib Require Import ZArith Lia Bool.
From S2P Require Import Prelude.

Local Open Scope Z_scope.
Local Open Scope cmem_scope.

(** [0xff >> n] *)
Definition mask8 (n : Z) : option Z := if 0 <=? n then Some (Z.shiftr 0xff n) else None.

(** the source bits, right-aligned *)
Definition fetch8 (src : ptr) (base s_off nbits : Z) : option Z :=
  let p := base + Z.shiftr s_off 3 in
  let bits := Z.land s_off 0x7 in
  let end_ := bits + nbits in
  if end_ <=? 8 then
    x ← src.[p];
    let tmp := u8 (Z.shiftr x (8 - nbits - bits)) in
    m ← mask8 (8 - nbits);
    Some (Z.land tmp m)
  else
    let nb := nbits + bits - 8 in
    x ← src.[p];
    m ← mask8 bits;
    let tmp := u8 (Z.shiftl (Z.land x m) nb) in
    y ← src.[p + 1];
    m ← mask8 (8 - nb);
    Some (u8 (Z.lor tmp (Z.land (Z.shiftr y (8 - nb)) m))).

(** into the destination *)
Definition place8 (dst : ptr) (base d_off nbits tmp : Z) : option ptr :=
  let p := base + Z.shiftr d_off 3 in
  let bits := Z.land d_off 0x7 in
  let end_ := bits + nbits in
  if end_ <=? 8 then
    m ← mask8 (8 - nbits);
    x ← dst.[p];
    let x := Z.land x (u8 (Z.lnot (Z.shiftl m (8 - end_)))) in
    let x := u8 (Z.lor x (Z.shiftl tmp (8 - end_))) in
    dst.[p <- x]
  else
    m ← mask8 bits;
    x ← dst.[p];
    let x := Z.land x (u8 (Z.lnot m)) in
    let x := u8 (Z.lor x (Z.shiftr tmp bits)) in
    dst ← dst.[p <- x];
    m ← mask8 (nbits - bits);
    y ← dst.[p + 1];
    let y := Z.land y (u8 (Z.lnot (Z.shiftl m (8 - bits)))) in
    let y := u8 (Z.lor y (Z.shiftl tmp (8 - bits))) in
    dst.[p + 1 <- y].

Definition putbits8 (dst : ptr) (dbase d_off : Z) (src : ptr) (sbase s_off nbits : Z) : option ptr :=
  if nbits =? 0 then Some dst else
  tmp ← fetch8 src sbase s_off nbits;
  place8 dst dbase d_off nbits tmp.

(** the loop of lead-in bits; every round takes a bit *)
Fixpoint lead_in (fuel : nat) (dst : ptr) (dbase d_off : Z) (src : ptr) (sbase s_off c : Z)
  : option (ptr * Z * Z) :=
  if c =? 0 then Some (dst, d_off, s_off) else
  match fuel with
  | O => None
  | S fuel =>
      let n := if c <? 8 then c else 8 in
      dst ← putbits8 dst dbase d_off src sbase s_off n;
      lead_in fuel dst dbase (d_off + n) src sbase (s_off + n) (c - n)
  end.

Definition bitcpy (dst : ptr) (dbase d_off : Z) (src : ptr) (sbase s_off nbits : Z)
  : option (Z * ptr) :=
  match dst, src with
  | NULL, _ => Some (-1, dst)
  | _, NULL => Some (-1, dst)
  | At _, At s =>
      if nbits =? 0 then Some (0, dst) else
      let c :=
        if c_true (Z.land (Z.lor d_off s_off) 7) then
          if nbits <? 8 then nbits
          else if c_true (Z.land (Z.lxor d_off s_off) 7) then nbits
          else 8 - Z.land d_off 7
        else 0 in
      let nbits := nbits - c in
      '(dst, d_off, s_off) ← lead_in (Z.to_nat c) dst dbase d_off src sbase s_off c;
      let c := nbits / 8 in
      let b := c * 8 in
      x ← rdn s (sbase + s_off / 8) c;
      d ← (match dst with NULL => None | At d => wrn d (dbase + d_off / 8) x end);
      let d_off := d_off + b in
      let s_off := s_off + b in
      let nbits := nbits - b in
      d ← putbits8 (At d) dbase d_off src sbase s_off nbits;
      Some (0, d)
  end.

(** ** Specification *)

(** bit [n] of the stream that starts at octet [base] *)
Definition bit_at (b : list Z) (base n : Z) : bool :=
  match rd b (base + n / 8) with Some x => Z.testbit x (7 - n mod 8) | None => false end.

(** [nbits] bits of [d'] are those of [s], the others are those of [d] *)
Definition copied (d d' : list Z) (dbase d_off : Z) (s : list Z) (sbase s_off nbits : Z) : Prop :=
  bytes d' /\ length d' = length d /\
  forall n, - 8 * dbase <= n -> bit_at d' dbase n =
    if (d_off <=? n) && (n <? d_off + nbits) then bit_at s sbase (s_off + (n - d_off))
    else bit_at d dbase n.

(** The last bits, fewer than eight, do not cross an octet of the destination
    where the code is not prepared for it: the offsets can be aligned (the first
    case), or the copy ends inside the octet its last part begins in. *)
Definition tail_fits (d_off s_off nbits : Z) : Prop :=
  (d_off mod 8 = s_off mod 8 /\ 8 <= nbits) \/ nbits mod 8 = 0 \/
  d_off mod 8 + nbits mod 8 <= 8.

(** ** Octets as bits *)

Lemma mask8_in n : 0 <= n <= 8 -> mask8 n = Some (Z.ones (8 - n)).
Proof.
  intros Hn. unfold mask8. rewrite (proj2 (Z.leb_le _ _)) by lia. f_equal.
  assert (n = 0 \/ n = 1 \/ n = 2 \/ n = 3 \/ n = 4 \/ n = 5 \/ n = 6 \/ n = 7 \/ n = 8) by lia.
  repeat destruct H as [->|H]; try done. by subst.
Qed.

Lemma u8_bit x i : Z.testbit (u8 x) i = (i <? 8) && Z.testbit x i.
Proof.
  unfold u8. change 256 with (2 ^ 8). destruct (Z.ltb_spec i 8) as [Hi|Hi]; simpl.
  - destruct (Z.le_gt_cases 0 i); [by apply Z.mod_pow2_bits_low|by rewrite !Z.testbit_neg_r].
  - apply Z.mod_pow2_bits_high. lia.
Qed.

Lemma byte_bit_high x i : is_byte x -> 8 <= i -> Z.testbit x i = false.
Proof. intros Hx Hi. apply (testbit_high x 8); [done|done]. Qed.

Lemma ones_bit n i : 0 <= n -> 0 <= i -> Z.testbit (Z.ones n) i = (i <? n).
Proof. intros Hn Hi. rewrite Z.testbit_ones by done. by rewrite (proj2 (Z.leb_le 0 i)). Qed.

Lemma land7 x : Z.land x 7 = x mod 8.
Proof. by apply (land_mask x 7 3). Qed.

Lemma shiftr3 x : Z.shiftr x 3 = x / 8.
Proof. by apply shiftr_div. Qed.


(** the bits of the octet a stream offset points to, and of the next one *)
Lemma bit_at_here s base off k x : rd s (base + off / 8) = Some x -> 0 <= off mod 8 + k < 8 ->
  bit_at s base (off + k) = Z.testbit x (7 - (off mod 8 + k)).
Proof.
  intros Hx Hk. unfold bit_at.
  replace ((off + k) / 8) with (off / 8) by dlia. rewrite Hx. f_equal. dlia.
Qed.

Lemma bit_at_next s base off k y : rd s (base + off / 8 + 1) = Some y -> 8 <= off mod 8 + k < 16 ->
  bit_at s base (off + k) = Z.testbit y (15 - (off mod 8 + k)).
Proof.
  intros Hy Hk. unfold bit_at.
  replace (base + (off + k) / 8) with (base + off / 8 + 1) by dlia. rewrite Hy. f_equal. dlia.
Qed.

Lemma fetch8_bits s base s_off nbits :
  bytes s -> 0 <= base -> 0 <= s_off -> 0 < nbits <= 8 -> 8 * base + s_off + nbits <= 8 * zlen s ->
  exists t, fetch8 (At s) base s_off nbits = Some t /\ is_byte t /\
    forall j, 0 <= j -> Z.testbit t j = (j <? nbits) && bit_at s base (s_off + (nbits - 1 - j)).
Proof.
  intros Hs Hb Ho Hn Hl. unfold fetch8. rewrite land7, shiftr3. simpl load.
  destruct (rd_in s (base + s_off / 8)) as [x Hx]; [dlia|]. rewrite Hx.
  pose proof (rd_bytes _ _ _ Hs Hx) as Bx.
  assert (Hr : 0 <= s_off mod 8 < 8) by dlia. revert Hr.
  pose proof (bit_at_here s base s_off) as Hhere. pose proof (bit_at_next s base s_off) as Hnext.
  assert (Hy : s_off mod 8 + nbits > 8 -> exists y, rd s (base + s_off / 8 + 1) = Some y).
  { intros. apply rd_in. dlia. }
  set (r := s_off mod 8) in *. clearbody r. intros Hr.
  destruct (Z.leb_spec (r + nbits) 8) as [Hc|Hc].
  - cbn [mbind option_bind]. rewrite mask8_in by lia. cbn [mbind option_bind].
    eexists. split; [reflexivity|]. replace (8 - (8 - nbits)) with nbits by lia. split.
    { rewrite Z.land_ones by lia. pose proof (Z.mod_pos_bound (u8 (Z.shiftr x (8 - nbits - r))) (2 ^ nbits)).
      pose proof (Z.pow_le_mono_r 2 nbits 8). unfold is_byte. lia. }
    intros j Hj. rewrite Z.land_spec, u8_bit, ones_bit, Z.shiftr_spec by lia.
    destruct (Z.ltb_spec j nbits); [|by rewrite andb_false_r].
    rewrite (Hhere _ x Hx) by lia. rewrite andb_true_r, (proj2 (Z.ltb_lt _ _)) by lia. simpl. f_equal. lia.
  - destruct Hy as [y Hy]; [lia|]. rewrite Hy. cbn [mbind option_bind]. rewrite !mask8_in by lia.
    cbn [mbind option_bind]. eexists. split; [reflexivity|]. split; [apply u8_byte|].
    intros j Hj. rewrite u8_bit, Z.lor_spec, u8_bit, !Z.land_spec, Z.shiftl_spec, Z.shiftr_spec by lia.
    rewrite Z.land_spec, (ones_bit (8 - (8 - (nbits + r - 8)))) by lia.
    destruct (Z.ltb_spec j nbits) as [H1|H1].
    + rewrite (proj2 (Z.ltb_lt j 8)) by lia. simpl.
      destruct (Z.ltb_spec j (8 - (8 - (nbits + r - 8)))) as [H2|H2].
      * rewrite (Z.testbit_neg_r x) by lia. simpl. rewrite andb_true_r.
        rewrite (Hnext _ y Hy) by lia. f_equal. lia.
      * rewrite andb_false_r, orb_false_r, ones_bit, (proj2 (Z.ltb_lt _ _)), andb_true_r by lia.
        rewrite (Hhere _ x Hx) by lia. f_equal. lia.
    + destruct (Z.ltb_spec j 8); [|done]. simpl.
      rewrite (proj2 (Z.ltb_ge j _)), andb_false_r, orb_false_r, ones_bit by lia.
      by rewrite (proj2 (Z.ltb_ge _ _)), andb_false_r by lia.
Qed.

Lemma bit_at_wr d d' q v base n : wr d q v = Some d' ->
  bit_at d' base n = if base + n / 8 =? q then Z.testbit (u8 v) (7 - n mod 8) else bit_at d base n.
Proof.
  intros Hw. unfold bit_at. destruct (Z.eqb_spec (base + n / 8) q) as [->|Hne].
  - by rewrite (rd_wr_eq _ _ _ _ Hw).
  - by rewrite (rd_wr_ne _ _ _ _ _ Hw) by done.
Qed.

(** the octet after its bits [lo .. lo+n-1] were cleared and [t] was inserted *)
Definition inserted (x n lo t : Z) : Z :=
  u8 (Z.lor (Z.land x (u8 (Z.lnot (Z.shiftl (Z.ones n) lo)))) (Z.shiftl t lo)).

Lemma inserted_bit x n lo t i : 0 <= n -> 0 <= lo -> 0 <= i < 8 ->
  (forall j, n <= j < 8 - lo -> Z.testbit t j = false) ->
  Z.testbit (inserted x n lo t) i =
  if (lo <=? i) && (i <? lo + n) then Z.testbit t (i - lo) else Z.testbit x i.
Proof.
  intros Hn Hlo Hi Ht. unfold inserted.
  rewrite u8_bit, Z.lor_spec, Z.land_spec, u8_bit, Z.lnot_spec, !Z.shiftl_spec by lia.
  rewrite (proj2 (Z.ltb_lt i 8)) by lia. simpl.
  destruct (Z.leb_spec lo i) as [H1|H1]; simpl.
  - rewrite ones_bit by lia. destruct (Z.ltb_spec i (lo + n)).
    + rewrite (proj2 (Z.ltb_lt (i - lo) n)) by lia. simpl. by rewrite andb_false_r.
    + rewrite (proj2 (Z.ltb_ge (i - lo) n)) by lia. simpl. rewrite andb_true_r, (Ht (i - lo)) by lia.
      by rewrite orb_false_r.
  - rewrite !(Z.testbit_neg_r _ (i - lo)) by lia. simpl. by rewrite andb_true_r, orb_false_r.
Qed.

(** the first octet of two: its low bits give way to the high bits of [t] *)
Lemma inserted_high_bit x r t i : 0 < r < 8 -> is_byte t -> 0 <= i < 8 ->
  Z.testbit (u8 (Z.lor (Z.land x (u8 (Z.lnot (Z.ones (8 - r))))) (Z.shiftr t r))) i =
  if i <? 8 - r then Z.testbit t (i + r) else Z.testbit x i.
Proof.
  intros Hr Ht Hi. rewrite u8_bit, Z.lor_spec, Z.land_spec, u8_bit, Z.lnot_spec, Z.shiftr_spec by lia.
  rewrite ones_bit, (proj2 (Z.ltb_lt i 8)) by lia. simpl. destruct (Z.ltb_spec i (8 - r)); simpl.
  - by rewrite andb_false_r.
  - by rewrite andb_true_r, (byte_bit_high t (i + r)), orb_false_r by (done || lia).
Qed.

Lemma place8_bits d base d_off nbits t :
  bytes d -> 0 <= base -> 0 <= d_off -> 0 < nbits <= 8 -> 8 * base + d_off + nbits <= 8 * zlen d ->
  is_byte t -> (forall j, nbits <= j -> Z.testbit t j = false) ->
  d_off mod 8 + nbits <= 8 \/ nbits = 8 ->
  exists d', place8 (At d) base d_off nbits t = Some (At d') /\ bytes d' /\ length d' = length d /\
    forall n, - 8 * base <= n -> bit_at d' base n =
      if (d_off <=? n) && (n <? d_off + nbits) then Z.testbit t (nbits - 1 - (n - d_off))
      else bit_at d base n.
Proof.
  intros Hd Hb Ho Hn Hl Ht Hth Hfit. unfold place8. rewrite land7, shiftr3.
  set (q := base + d_off / 8). set (r := d_off mod 8). simpl load.
  assert (Hr : 0 <= r < 8) by (unfold r; dlia).
  assert (Hq : 0 <= q < zlen d) by (unfold q; dlia).
  destruct (rd_in d q Hq) as [x Hx]. rewrite Hx.
  assert (Hbx : forall n, base + n / 8 = q -> bit_at d base n = Z.testbit x (7 - n mod 8)).
  { intros n Hn'. unfold bit_at. by rewrite Hn', Hx. }
  destruct (Z.leb_spec (r + nbits) 8) as [Hc|Hc].
  - rewrite mask8_in by lia. cbn [mbind option_bind store].
    replace (8 - (8 - nbits)) with nbits by lia. fold (inserted x nbits (8 - (r + nbits)) t).
    destruct (wr d q (inserted x nbits (8 - (r + nbits)) t)) as [d'|] eqn:Ew.
    2: { by rewrite wr_in in Ew. }
    exists d'. split; [done|]. split; [by eapply bytes_wr|].
    split; [by apply zlen_wr in Ew; unfold zlen in Ew; lia|].
    intros n Hge. rewrite (bit_at_wr _ _ _ _ base n Ew).
    destruct (Z.eqb_spec (base + n / 8) q) as [E|E].
    + unfold inserted. rewrite u8_small by apply u8_byte. fold (inserted x nbits (8 - (r + nbits)) t).
      rewrite inserted_bit by (dlia || (intros; apply Hth; lia)). rewrite <- (Hbx n E).
      assert (Ei : (8 - (r + nbits) <=? 7 - n mod 8) && (7 - n mod 8 <? 8 - (r + nbits) + nbits)
        = (d_off <=? n) && (n <? d_off + nbits)) by (unfold q, r in *; dlia).
      rewrite Ei. destruct ((d_off <=? n) && (n <? d_off + nbits)); [|done]. f_equal. unfold q, r in *. dlia.
    + assert (Ei : (d_off <=? n) && (n <? d_off + nbits) = false) by (unfold q, r in *; dlia).
      by rewrite Ei.
  - destruct Hfit as [| ->]; [lia|].
    assert (Hr0 : 0 < r) by lia. rewrite !mask8_in by lia. cbn [mbind option_bind store].
    match goal with |- context [wr d q ?v] => set (v0 := v) end.
    destruct (wr d q v0) as [d1|] eqn:E1; [|by rewrite wr_in in E1].
    cbn [mbind option_bind load store].
    assert (Hq1 : 0 <= q + 1 < zlen d1) by (rewrite (zlen_wr _ _ _ _ E1); unfold q, r in *; dlia).
    destruct (rd_in d1 (q + 1) Hq1) as [y Hy]. rewrite Hy. cbn [mbind option_bind].
    replace (8 - (8 - r)) with r by lia. fold (inserted y r (8 - r) t).
    destruct (wr d1 (q + 1) (inserted y r (8 - r) t)) as [d'|] eqn:E2; [|by rewrite wr_in in E2].
    exists d'. split; [done|]. split; [eapply bytes_wr; [|exact E2]; by eapply bytes_wr|].
    split. { apply zlen_wr in E1, E2. unfold zlen in *. lia. }
    intros n Hge. rewrite (bit_at_wr _ _ _ _ base n E2), (bit_at_wr _ _ _ _ base n E1).
    rewrite (rd_wr_ne _ _ (q + 1) _ _ E1) in Hy by lia.
    destruct (Z.eqb_spec (base + n / 8) (q + 1)) as [E|E]; [|destruct (Z.eqb_spec (base + n / 8) q) as [E'|E']].
    + unfold inserted. rewrite u8_small by apply u8_byte. fold (inserted y r (8 - r) t).
      rewrite inserted_bit by (dlia || (intros; lia)).
      assert (Hby : bit_at d base n = Z.testbit y (7 - n mod 8)) by (unfold bit_at; by rewrite E, Hy).
      rewrite Hby.
      assert (Ei : (8 - r <=? 7 - n mod 8) && (7 - n mod 8 <? 8 - r + r)
        = (d_off <=? n) && (n <? d_off + 8)) by (unfold q, r in *; dlia).
      rewrite Ei. destruct ((d_off <=? n) && (n <? d_off + 8)); [|done]. f_equal. unfold q, r in *. dlia.
    + unfold v0. rewrite u8_small by apply u8_byte. rewrite inserted_high_bit by (done || dlia).
      rewrite <- (Hbx n E').
      assert (Ei : (7 - n mod 8 <? 8 - r) = (d_off <=? n) && (n <? d_off + 8)) by (unfold q, r in *; dlia).
      rewrite Ei. destruct ((d_off <=? n) && (n <? d_off + 8)); [|done]. f_equal. unfold q, r in *. dlia.
    + assert (Ei : (d_off <=? n) && (n <? d_off + 8) = false) by (unfold q, r in *; dlia).
      by rewrite Ei.
Qed.

(** one call moves up to eight bits *)
Lemma putbits8_copied d dbase d_off s sbase s_off nbits :
  bytes d -> bytes s -> 0 <= dbase -> 0 <= sbase -> 0 <= d_off -> 0 <= s_off -> 0 <= nbits <= 8 ->
  8 * dbase + d_off + nbits <= 8 * zlen d -> 8 * sbase + s_off + nbits <= 8 * zlen s ->
  d_off mod 8 + nbits <= 8 \/ nbits = 8 ->
  exists d', putbits8 (At d) dbase d_off (At s) sbase s_off nbits = Some (At d') /\
    copied d d' dbase d_off s sbase s_off nbits.
Proof.
  intros Hd Hs Hdb Hsb Hdo Hso Hn Hld Hls Hfit. unfold putbits8.
  destruct (Z.eqb_spec nbits 0) as [->|Hne].
  { exists d. split; [done|]. split; [done|]. split; [done|]. intros n _.
    assert (E : (d_off <=? n) && (n <? d_off + 0) = false) by lia. by rewrite E. }
  destruct (fetch8_bits s sbase s_off nbits) as (t & Ht & Bt & Hbits); try done; try lia.
  rewrite Ht. cbn [mbind option_bind].
  destruct (place8_bits d dbase d_off nbits t) as (d' & Hp & Bd' & Hl & Hc); try done; try lia.
  { intros j Hj. rewrite Hbits by lia. by rewrite (proj2 (Z.ltb_ge _ _)). }
  exists d'. split; [done|]. split; [done|]. split; [done|]. intros n Hge. rewrite Hc by done.
  destruct (Z.leb_spec d_off n) as [H1|H1]; simpl; [|done].
  destruct (Z.ltb_spec n (d_off + nbits)) as [H2|H2]; [|done].
  rewrite Hbits, (proj2 (Z.ltb_lt _ _)) by lia. simpl. f_equal. lia.
Qed.

Lemma copied_trans d d1 d2 dbase d_off s sbase s_off n m : 0 <= dbase -> 0 <= d_off -> 0 <= n -> 0 <= m ->
  copied d d1 dbase d_off s sbase s_off n -> copied d1 d2 dbase (d_off + n) s sbase (s_off + n) m ->
  copied d d2 dbase d_off s sbase s_off (n + m).
Proof.
  intros Hb Ho Hn Hm (A1 & A2 & A3) (B1 & B2 & B3). split; [done|]. split; [congruence|].
  intros k Hk. rewrite B3, A3 by done.
  destruct (Z.leb_spec (d_off + n) k), (Z.ltb_spec k (d_off + n + m)), (Z.leb_spec d_off k),
    (Z.ltb_spec k (d_off + n)), (Z.ltb_spec k (d_off + (n + m))); simpl; try lia; try done.
  f_equal. lia.
Qed.

Lemma copied_0 d dbase d_off s sbase s_off : bytes d -> copied d d dbase d_off s sbase s_off 0.
Proof.
  intros Hd. split; [done|]. split; [done|]. intros n _.
  assert (E : (d_off <=? n) && (n <? d_off + 0) = false) by lia. by rewrite E.
Qed.

Lemma lead_in_copied s sbase dbase fuel : bytes s -> 0 <= dbase -> 0 <= sbase ->
  forall d d_off s_off c, bytes d -> 0 <= d_off -> 0 <= s_off -> 0 <= c -> (Z.to_nat c <= fuel)%nat ->
  8 * dbase + d_off + c <= 8 * zlen d -> 8 * sbase + s_off + c <= 8 * zlen s ->
  c mod 8 = 0 \/ d_off mod 8 + c mod 8 <= 8 ->
  exists d', lead_in fuel (At d) dbase d_off (At s) sbase s_off c = Some (At d', d_off + c, s_off + c) /\
    copied d d' dbase d_off s sbase s_off c.
Proof.
  intros Hs Hdb Hsb. induction fuel as [|fuel IH]; intros d d_off s_off c Hd Hdo Hso Hc Hf Hld Hls Hfit;
    cbn [lead_in]; destruct (Z.eqb_spec c 0) as [->|Hne]; try lia;
    try (exists d; rewrite !Z.add_0_r; split; [done|by apply copied_0]).
  set (n := if c <? 8 then c else 8).
  assert (Hn : 0 < n <= 8 /\ n <= c /\ (n = 8 \/ n = c)).
  { unfold n. destruct (Z.ltb_spec c 8); dlia. }
  assert (Hn2 : d_off mod 8 + n <= 8 \/ n = 8).
  { unfold n. destruct (Z.ltb_spec c 8); dlia. }
  clearbody n.
  destruct (putbits8_copied d dbase d_off s sbase s_off n) as (d1 & Hp & Hc1); try done; try lia.
  rewrite Hp. cbn [mbind option_bind]. pose proof Hc1 as (Bd1 & Hl1 & _).
  assert (Hz : zlen d1 = zlen d) by (unfold zlen; lia).
  destruct (IH d1 (d_off + n) (s_off + n) (c - n)) as (d2 & Hr & Hc2); try done; try lia.
  { destruct Hn as (_ & _ & [-> | ->]); [|left; by rewrite Z.sub_diag].
    destruct Hfit; [left; dlia|right]. dlia. }
  exists d2. split.
  { rewrite Hr. by replace (d_off + n + (c - n)) with (d_off + c) by lia;
      replace (s_off + n + (c - n)) with (s_off + c) by lia. }
  replace c with (n + (c - n)) at 1 by lia. by apply (copied_trans d d1); try lia.
Qed.

(** the octets of the main block *)
Lemma rd_rdn s off k x i : rdn s off k = Some x -> 0 <= i < k -> rd x i = rd s (off + i).
Proof.
  unfold rdn. destruct (Z.leb_spec 0 off), (Z.leb_spec 0 k), (Z.leb_spec (off + k) (zlen s)); simpl;
    intros Hx Hi; simplify_eq.
  rewrite rd_take by lia. by apply rd_drop; lia.
Qed.

Lemma rd_wrn d off x d' i : wrn d off x = Some d' ->
  rd d' i = if (off <=? i) && (i <? off + zlen x) then rd x (i - off) else rd d i.
Proof.
  unfold wrn. destruct (Z.leb_spec 0 off), (Z.leb_spec (off + zlen x) (zlen d)); simpl;
    intros Hw; simplify_eq. pose proof (zlen_nonneg x).
  destruct (Z.leb_spec off i); simpl.
  - rewrite rd_app_r by (rewrite zlen_take; lia). rewrite zlen_take by lia.
    destruct (Z.ltb_spec i (off + zlen x)).
    + by rewrite rd_app_l by lia.
    + rewrite rd_app_r by lia.
      replace (Z.to_nat off + length x)%nat with (Z.to_nat (off + zlen x)) by (unfold zlen; lia).
      rewrite rd_drop by lia. f_equal. lia.
  - rewrite rd_app_l by (rewrite zlen_take; lia). by rewrite rd_take by lia.
Qed.

Lemma wrn_bytes d off x d' : bytes d -> bytes x -> wrn d off x = Some d' ->
  bytes d' /\ length d' = length d.
Proof.
  unfold wrn. intros Hd Hx. destruct (Z.leb_spec 0 off), (Z.leb_spec (off + zlen x) (zlen d)); simpl;
    intros Hw; simplify_eq. split.
  - rewrite !bytes_app. split; [by apply Forall_take|]. split; [done|by apply Forall_drop].
  - unfold zlen in *. rewrite !length_app, length_take, length_drop. lia.
Qed.

Lemma rdn_bytes s off k x : bytes s -> rdn s off k = Some x -> bytes x.
Proof.
  unfold rdn. intros Hs. destruct (_ && _); intros; simplify_eq. by apply Forall_take, Forall_drop.
Qed.

Lemma memcpy_copied d dbase d_off s sbase s_off k x d' :
  bytes d -> bytes s -> d_off mod 8 = 0 -> s_off mod 8 = 0 ->
  rdn s (sbase + s_off / 8) k = Some x -> wrn d (dbase + d_off / 8) x = Some d' ->
  copied d d' dbase d_off s sbase s_off (k * 8).
Proof.
  intros Hd Hs Ed Es Hx Hw. pose proof (zlen_rdn _ _ _ _ Hx) as Hl.
  destruct (wrn_bytes d _ x d' Hd (rdn_bytes _ _ _ _ Hs Hx) Hw) as [Bd' Hld].
  split; [done|]. split; [done|]. intros n _. unfold bit_at at 1. rewrite (rd_wrn _ _ _ _ _ Hw), Hl.
  assert (Ei : (dbase + d_off / 8 <=? dbase + n / 8) && (dbase + n / 8 <? dbase + d_off / 8 + k)
    = (d_off <=? n) && (n <? d_off + k * 8)) by dlia.
  rewrite Ei. destruct ((d_off <=? n) && (n <? d_off + k * 8)) eqn:E; [|done].
  rewrite (rd_rdn _ _ _ _ _ Hx) by dlia. unfold bit_at.
  replace (sbase + s_off / 8 + (dbase + n / 8 - (dbase + d_off / 8)))
    with (sbase + (s_off + (n - d_off)) / 8) by dlia.
  by replace ((s_off + (n - d_off)) mod 8) with (n mod 8) by dlia.
Qed.

(** ** The copy *)

Lemma or_aligned a b : c_true (Z.land (Z.lor a b) 7) = negb ((a mod 8 =? 0) && (b mod 8 =? 0)).
Proof.
  unfold c_true. f_equal. rewrite Z.land_lor_distr_l, !land7. apply eq_true_iff_eq.
  by rewrite Z.eqb_eq, Z.lor_eq_0_iff, andb_true_iff, !Z.eqb_eq.
Qed.

Lemma xor_aligned a b : c_true (Z.land (Z.lxor a b) 7) = negb (a mod 8 =? b mod 8).
Proof.
  unfold c_true. f_equal.
  assert (E : Z.land (Z.lxor a b) 7 = Z.lxor (Z.land a 7) (Z.land b 7)).
  { apply Z.bits_inj'. intros i _. rewrite !Z.land_spec, !Z.lxor_spec, !Z.land_spec.
    by destruct (Z.testbit a i), (Z.testbit b i), (Z.testbit 7 i). }
  rewrite E, !land7. apply eq_true_iff_eq. by rewrite !Z.eqb_eq, Z.lxor_eq_0_iff.
Qed.

(** the number of bits in front of the main block *)
Definition lead_bits (d_off s_off nbits : Z) : Z :=
  if c_true (Z.land (Z.lor d_off s_off) 7) then
    if nbits <? 8 then nbits
    else if c_true (Z.land (Z.lxor d_off s_off) 7) then nbits
    else 8 - Z.land d_off 7
  else 0.

Lemma lead_bits_spec d_off s_off nbits : 0 <= nbits -> tail_fits d_off s_off nbits ->
  let c := lead_bits d_off s_off nbits in
  0 <= c <= nbits /\ (c mod 8 = 0 \/ d_off mod 8 + c mod 8 <= 8) /\
  (c = nbits \/ (d_off + c) mod 8 = 0 /\ (s_off + c) mod 8 = 0).
Proof.
  intros Hn Hf. cbv zeta. unfold lead_bits. rewrite or_aligned, xor_aligned, land7. unfold tail_fits in Hf.
  destruct (Z.eqb_spec (d_off mod 8) 0), (Z.eqb_spec (s_off mod 8) 0), (Z.ltb_spec nbits 8),
    (Z.eqb_spec (d_off mod 8) (s_off mod 8)); cbn [negb andb]; dlia.
Qed.

(** the aligned rest: whole octets, then the tail *)
Lemma rest_copied d dbase d_off s sbase s_off n :
  bytes d -> bytes s -> 0 <= dbase -> 0 <= sbase -> 0 <= d_off -> 0 <= s_off -> 0 <= n ->
  8 * dbase + d_off + n <= 8 * zlen d -> 8 * sbase + s_off + n <= 8 * zlen s ->
  n = 0 \/ d_off mod 8 = 0 /\ s_off mod 8 = 0 ->
  exists x d1 d', rdn s (sbase + s_off / 8) (n / 8) = Some x /\
    wrn d (dbase + d_off / 8) x = Some d1 /\
    putbits8 (At d1) dbase (d_off + n / 8 * 8) (At s) sbase (s_off + n / 8 * 8) (n - n / 8 * 8) = Some (At d') /\
    copied d d' dbase d_off s sbase s_off n.
Proof.
  intros Hd Hs Hdb Hsb Hdo Hso Hn Hld Hls Hal.
  assert (Hx : exists x, rdn s (sbase + s_off / 8) (n / 8) = Some x).
  { eexists. apply rdn_in; dlia. }
  destruct Hx as [x Hx]. pose proof (zlen_rdn _ _ _ _ Hx) as Hlx.
  assert (Hw : exists d1, wrn d (dbase + d_off / 8) x = Some d1).
  { eexists. apply wrn_in; dlia. }
  destruct Hw as [d1 Hw]. destruct (wrn_bytes d _ x d1 Hd (rdn_bytes _ _ _ _ Hs Hx) Hw) as [Bd1 Hl1].
  assert (Hz : zlen d1 = zlen d) by (unfold zlen; lia).
  assert (Hc1 : copied d d1 dbase d_off s sbase s_off (n / 8 * 8)).
  { destruct Hal as [-> |[? ?]]; [|by eapply memcpy_copied].
    apply zlen_0_nil in Hlx as ->. unfold wrn in Hw. destruct (_ && _); simplify_eq.
    simpl. rewrite Nat.add_0_r, take_drop. by apply copied_0. }
  destruct (putbits8_copied d1 dbase (d_off + n / 8 * 8) s sbase (s_off + n / 8 * 8) (n - n / 8 * 8))
    as (d' & Hp & Hc2); try done; try dlia.
  exists x, d1, d'. split; [done|]. split; [done|]. split; [done|].
  replace n with (n / 8 * 8 + (n - n / 8 * 8)) by lia.
  apply (copied_trans d d1); (done || dlia).
Qed.

(** C39: bitcpy copies exactly the requested bits: it returns 0, accesses both
    buffers in bounds only, the bits of the destination range are those of the
    source range, every other bit keeps its value. This holds wherever the last
    bits do not cross an octet of the destination that the code does not
    handle ([tail_fits]); see [bitcpy_short_crossing]. *)
Theorem bitcpy_correct d dbase d_off s sbase s_off nbits :
  bytes d -> bytes s -> 0 <= dbase -> 0 <= sbase -> 0 <= d_off -> 0 <= s_off -> 0 <= nbits ->
  8 * dbase + d_off + nbits <= 8 * zlen d -> 8 * sbase + s_off + nbits <= 8 * zlen s ->
  tail_fits d_off s_off nbits ->
  exists d', bitcpy (At d) dbase d_off (At s) sbase s_off nbits = Some (0, At d') /\
    copied d d' dbase d_off s sbase s_off nbits.
Proof.
  intros Hd Hs Hdb Hsb Hdo Hso Hn Hld Hls Hf. unfold bitcpy. fold (lead_bits d_off s_off nbits).
  destruct (Z.eqb_spec nbits 0) as [-> |Hne]; [exists d; split; [done|by apply copied_0]|].
  destruct (lead_bits_spec d_off s_off nbits Hn Hf) as (Hc & Hcf & Hal).
  set (c := lead_bits d_off s_off nbits) in *. clearbody c. cbv zeta.
  destruct (lead_in_copied s sbase dbase (Z.to_nat c) Hs Hdb Hsb d d_off s_off c)
    as (d0 & Hr & Hc0); try done; try lia.
  rewrite Hr. cbn [mbind option_bind]. pose proof Hc0 as (Bd0 & Hl0 & _).
  destruct (rest_copied d0 dbase (d_off + c) s sbase (s_off + c) (nbits - c))
    as (x & d1 & d' & Hx & Hw & Hp & Hc1); try done; try (unfold zlen in *; lia).
  rewrite Hx. cbn [mbind option_bind]. rewrite Hw. cbn [mbind option_bind]. rewrite Hp.
  exists d'. split; [done|]. replace nbits with (c + (nbits - c)) by lia.
  by apply (copied_trans d d0); try lia.
Qed.

Lemma bitcpy_correct_witness :
  exists d', bitcpy (At [0; 0; 0; 0]) 1 3 (At [0xab; 0xcd; 0xef]) 0 3 17 = Some (0, At d') /\
    copied [0; 0; 0; 0] d' 1 3 [0xab; 0xcd; 0xef] 0 3 17.
Proof.
  apply bitcpy_correct; try (apply bytes_check; reflexivity); try (unfold zlen; simpl length; lia).
  left. split; [reflexivity|lia].
Defined.

(** A copy of fewer than eight bits into two octets, with fewer bits than the
    destination offset within the octet, makes the code shift by a negative
    number of bits: its behaviour is undefined. *)
Theorem bitcpy_short_crossing d dbase d_off s sbase s_off nbits :
  0 < nbits < d_off mod 8 -> 8 < d_off mod 8 + nbits ->
  bitcpy (At d) dbase d_off (At s) sbase s_off nbits = None.
Proof.
  intros Hn Hc. unfold bitcpy. fold (lead_bits d_off s_off nbits).
  rewrite (proj2 (Z.eqb_neq _ _)) by lia.
  assert (E : lead_bits d_off s_off nbits = nbits).
  { unfold lead_bits. rewrite or_aligned, (proj2 (Z.eqb_neq (d_off mod 8) 0)), (proj2 (Z.ltb_lt nbits 8)) by dlia.
    done. }
  rewrite E. destruct (Z.to_nat nbits) as [|f] eqn:Ef; [lia|]. cbn [lead_in].
  rewrite (proj2 (Z.eqb_neq nbits 0)), (proj2 (Z.ltb_lt nbits 8)) by dlia. cbv zeta.
  unfold putbits8. rewrite (proj2 (Z.eqb_neq nbits 0)) by lia.
  destruct (fetch8 (At s) sbase s_off nbits) as [t|]; cbn [mbind option_bind]; [|done].
  unfold place8. rewrite land7. cbv zeta. rewrite (proj2 (Z.leb_gt (d_off mod 8 + nbits) 8)) by lia.
  destruct (mask8 (d_off mod 8)); cbn [mbind option_bind]; [|done].
  destruct (load _ _); cbn [mbind option_bind]; [|done].
  destruct (store _ _ _); cbn [mbind option_bind]; [|done].
  unfold mask8. by rewrite (proj2 (Z.leb_gt 0 (nbits - d_off mod 8))) by lia.
Qed.

Lemma bitcpy_short_crossing_witness : bitcpy (At [0; 0]) 0 6 (At [0xff]) 0 0 5 = None.
Proof. apply bitcpy_short_crossing; vm_compute; [split|]; reflexivity. Defined.

(** with more bits than that it stores the wrong ones: of seven one bits copied
    to the bits 3 to 9, bit 3 stays clear, and bit 10 is set *)
Example bitcpy_crossing_wrong : bitcpy (At [0; 0]) 0 3 (At [0xfe]) 0 0 7 = Some (0, At [0x0f; 0xe0]).
Proof. vm_compute. reflexivity. Qed.
