(* ===== verification/Ecss.v ===== *)
(** * PUS packets (src/ecss/ecss_pkt.c, ecss_pkt.h, ecss_pkt_cfg.h)

    The accessors of the secondary header that follows the CCSDS primary
    header, in the configuration of ecss_pkt_cfg.h (PUS C, timestamps of six
    octets).  A setter answers its return value and the packet; a result of
    [None] is an access out of bounds or through a null pointer.  [tm_hdr] and
    [tc_hdr] are the abstract secondary headers of ECSS-E-ST-70-41C 7.4.3 and
    7.4.4, [tm_encode] and [tc_encode] their wire format. *)

From stdpp Require Import base tactics option list list_numbers.
From Stdlib Require Import ZArith Lia Bool.
From S2P Require Import Prelude Ccsds Bitman.

Local Open Scope Z_scope.
Local Open Scope cmem_scope.

Definition CHAR_BIT : Z := 8.

Definition PUS_ECSS_VER_OFFSET : Z := 0x00.
Definition PUS_ECSS_VER_MASK : Z := 0xf0.
Definition PUS_ECSS_VER_SHIFT : Z := 0x04.
Definition PUS_ECSS_TREF_OFFSET : Z := 0x00.
Definition PUS_ECSS_TREF_MASK : Z := 0x0f.
Definition PUS_ECSS_TREF_SHIFT : Z := 0x00.
Definition PUS_A_VERSION : Z := 0x01.
Definition PUS_C_VERSION : Z := 0x02.
Definition PUS_ECSS_ACK_OFFSET : Z := 0x00.
Definition PUS_ECSS_ACK_MASK : Z := 0x0f.
Definition PUS_ECSS_ACK_SHIFT : Z := 0x00.
Definition PUS_ACK_PKT_ACCEPT : Z := 0x1.
Definition PUS_ACK_EXEC_START : Z := 0x2.
Definition PUS_ACK_EXEC_PROGR : Z := 0x4.
Definition PUS_ACK_EXEC_COMPL : Z := 0x8.
Definition PUS_ECSS_ST_OFFSET : Z := 0x01.
Definition PUS_ECSS_SST_OFFSET : Z := 0x02.
Definition PUS_ECSS_TCNT_OFFSET : Z := 0x03.
Definition PUS_ECSS_DESTID_OFFSET : Z := 0x05.
Definition PUS_ECSS_TIME_OFFSET : Z := 0x07.
Definition PUS_ECSS_SRCID_OFFSET : Z := 0x03.
Definition PUS_C_SRCID_BITS : Z := 2 * CHAR_BIT.
Definition PUS_ECSS_CRC_LEN : Z := 2.
Definition PUS_C_TC_SPARE_BITS : Z := 0.
Definition PUS_C_TM_SPARE_BITS : Z := 0.
Definition PUS_C_TM_TIME_OCTETS : Z := 6.
Definition AP_PKT_SIZE_MAX : Z := 4096.

(** [x] rounded up to a multiple of [mask + 1]; a [size_t] *)
Definition ALIGN_MASK (x mask : Z) : Z := Z.land (u64 (x + mask)) (u64 (Z.lnot mask)).

Definition ecss_pus_version_valid (v : Z) : bool := (v =? PUS_A_VERSION) || (v =? PUS_C_VERSION).

(** ** The secondary header *)

Definition ecss_get_pkt_version (pkt : ptr) : option Z :=
  f ← ccsds_get_2nd_hdr_flag pkt;
  if negb (c_true f) then Some (u8 (-1)) else
  p ← ccsds_get_payload pkt;
  x ← pkt.[p + PUS_ECSS_VER_OFFSET];
  let b := Z.land x PUS_ECSS_VER_MASK in
  Some (Z.shiftr b PUS_ECSS_VER_SHIFT).

Definition ecss_set_pkt_version (pkt : ptr) (v : Z) : option (Z * ptr) :=
  f ← ccsds_get_2nd_hdr_flag pkt;
  if negb (c_true f) then Some (-1, pkt) else
  if negb (ecss_pus_version_valid v) then Some (-1, pkt) else
  p ← ccsds_get_payload pkt;
  b ← pkt.[p + PUS_ECSS_VER_OFFSET];
  let b := Z.land b (u8 (Z.lnot PUS_ECSS_VER_MASK)) in
  let b := u8 (Z.lor b (Z.shiftl v PUS_ECSS_VER_SHIFT)) in
  pkt ← pkt.[p + PUS_ECSS_VER_OFFSET <- b];
  Some (0, pkt).

Definition ecss_get_sc_time_ref_status (pkt : ptr) : option Z :=
  f ← ccsds_get_2nd_hdr_flag pkt;
  if negb (c_true f) then Some (u8 (-1)) else
  t ← ccsds_get_pkt_type pkt;
  if negb (t =? SPP_PKT_TYPE_IS_TM) then Some (u8 (-1)) else
  p ← ccsds_get_payload pkt;
  x ← pkt.[p + PUS_ECSS_TREF_OFFSET];
  let b := Z.land x PUS_ECSS_TREF_MASK in
  Some (Z.shiftr b PUS_ECSS_TREF_SHIFT).

Definition ecss_set_sc_time_ref_status (pkt : ptr) (ref : Z) : option (Z * ptr) :=
  f ← ccsds_get_2nd_hdr_flag pkt;
  if negb (c_true f) then Some (-1, pkt) else
  t ← ccsds_get_pkt_type pkt;
  if negb (t =? SPP_PKT_TYPE_IS_TM) then Some (-1, pkt) else
  p ← ccsds_get_payload pkt;
  b ← pkt.[p + PUS_ECSS_TREF_OFFSET];
  let b := Z.land b (u8 (Z.lnot PUS_ECSS_TREF_MASK)) in
  let b := u8 (Z.lor b (Z.shiftl ref PUS_ECSS_TREF_SHIFT)) in
  pkt ← pkt.[p + PUS_ECSS_TREF_OFFSET <- b];
  Some (0, pkt).

Definition ecss_get_ack_flags (pkt : ptr) : option Z :=
  f ← ccsds_get_2nd_hdr_flag pkt;
  if negb (c_true f) then Some (u8 (-1)) else
  t ← ccsds_get_pkt_type pkt;
  if negb (t =? SPP_PKT_TYPE_IS_TC) then Some (u8 (-1)) else
  p ← ccsds_get_payload pkt;
  x ← pkt.[p + PUS_ECSS_ACK_OFFSET];
  let b := Z.land x PUS_ECSS_ACK_MASK in
  Some (Z.shiftr b PUS_ECSS_ACK_SHIFT).

Definition ecss_set_ack_flags (pkt : ptr) (a : Z) : option (Z * ptr) :=
  f ← ccsds_get_2nd_hdr_flag pkt;
  if negb (c_true f) then Some (-1, pkt) else
  t ← ccsds_get_pkt_type pkt;
  if negb (t =? SPP_PKT_TYPE_IS_TC) then Some (-1, pkt) else
  if c_true (Z.land a (Z.lnot PUS_ECSS_ACK_MASK)) then Some (-1, pkt) else
  p ← ccsds_get_payload pkt;
  b ← pkt.[p + PUS_ECSS_ACK_OFFSET];
  let b := Z.land b (u8 (Z.lnot PUS_ECSS_ACK_MASK)) in
  let b := u8 (Z.lor b (Z.shiftl a PUS_ECSS_ACK_SHIFT)) in
  pkt ← pkt.[p + PUS_ECSS_ACK_OFFSET <- b];
  Some (0, pkt).

Definition ecss_get_service_type (pkt : ptr) : option Z :=
  match pkt with
  | NULL => Some 0
  | At _ => p ← ccsds_get_payload pkt; pkt.[p + PUS_ECSS_ST_OFFSET]
  end.

Definition ecss_set_service_type (pkt : ptr) (st : Z) : option (Z * ptr) :=
  match pkt with
  | NULL => Some (-1, pkt)
  | At _ =>
      f ← ccsds_get_2nd_hdr_flag pkt;
      if negb (c_true f) then Some (-1, pkt) else
      if negb (c_true st) then Some (-1, pkt) else
      p ← ccsds_get_payload pkt;
      pkt ← pkt.[p + PUS_ECSS_ST_OFFSET <- st];
      Some (0, pkt)
  end.

Definition ecss_get_sub_service_type (pkt : ptr) : option Z :=
  f ← ccsds_get_2nd_hdr_flag pkt;
  if negb (c_true f) then Some 0 else
  p ← ccsds_get_payload pkt;
  pkt.[p + PUS_ECSS_SST_OFFSET].

Definition ecss_set_sub_service_type (pkt : ptr) (sst : Z) : option (Z * ptr) :=
  f ← ccsds_get_2nd_hdr_flag pkt;
  if negb (c_true f) then Some (-1, pkt) else
  if negb (c_true sst) then Some (-1, pkt) else
  p ← ccsds_get_payload pkt;
  pkt ← pkt.[p + PUS_ECSS_SST_OFFSET <- sst];
  Some (0, pkt).

Definition ecss_get_msg_type_cntr (pkt : ptr) : option Z :=
  f ← ccsds_get_2nd_hdr_flag pkt;
  if negb (c_true f) then Some 0 else
  v ← ecss_get_pkt_version pkt;
  if negb (v =? PUS_C_VERSION) then Some 0 else
  t ← ccsds_get_pkt_type pkt;
  if negb (t =? SPP_PKT_TYPE_IS_TM) then Some 0 else
  p ← ccsds_get_payload pkt;
  hi ← pkt.[p + PUS_ECSS_TCNT_OFFSET + 0];
  let c := u16 (Z.shiftl (Z.land hi 0xff) 8) in
  lo ← pkt.[p + PUS_ECSS_TCNT_OFFSET + 1];
  Some (u16 (Z.lor c (Z.land lo 0xff))).

Definition ecss_set_msg_type_cntr (pkt : ptr) (tcntr : Z) : option (Z * ptr) :=
  f ← ccsds_get_2nd_hdr_flag pkt;
  if negb (c_true f) then Some (-1, pkt) else
  v ← ecss_get_pkt_version pkt;
  if negb (v =? PUS_C_VERSION) then Some (-1, pkt) else
  t ← ccsds_get_pkt_type pkt;
  if negb (t =? SPP_PKT_TYPE_IS_TM) then Some (-1, pkt) else
  p ← ccsds_get_payload pkt;
  pkt ← pkt.[p + PUS_ECSS_TCNT_OFFSET + 0 <- u8 (Z.shiftr tcntr 8)];
  pkt ← pkt.[p + PUS_ECSS_TCNT_OFFSET + 1 <- u8 (Z.land tcntr 0xff)];
  Some (0, pkt).

Definition ecss_get_destination_id (pkt : ptr) : option Z :=
  let off := PUS_ECSS_DESTID_OFFSET in
  f ← ccsds_get_2nd_hdr_flag pkt;
  if negb (c_true f) then Some (u16 (-1)) else
  t ← ccsds_get_pkt_type pkt;
  if negb (t =? SPP_PKT_TYPE_IS_TM) then Some (u16 (-1)) else
  p ← ccsds_get_payload pkt;
  hi ← pkt.[p + off + 0];
  let d := u16 (Z.shiftl (Z.land hi 0xff) 8) in
  lo ← pkt.[p + off + 1];
  Some (u16 (Z.lor d (Z.land lo 0xff))).

(** on error the function returns [(uint16_t) -1], as an [int] *)
Definition ecss_set_destination_id (pkt : ptr) (dest_id : Z) : option (Z * ptr) :=
  let off := PUS_ECSS_DESTID_OFFSET in
  f ← ccsds_get_2nd_hdr_flag pkt;
  if negb (c_true f) then Some (u16 (-1), pkt) else
  t ← ccsds_get_pkt_type pkt;
  if negb (t =? SPP_PKT_TYPE_IS_TM) then Some (u16 (-1), pkt) else
  p ← ccsds_get_payload pkt;
  pkt ← pkt.[p + off + 0 <- u8 (Z.land (Z.shiftr dest_id 8) 0xff)];
  pkt ← pkt.[p + off + 1 <- u8 (Z.land dest_id 0xff)];
  Some (0, pkt).

Definition ecss_get_timestamp (pkt ts : ptr) : option (Z * ptr) :=
  f ← ccsds_get_2nd_hdr_flag pkt;
  if negb (c_true f) then Some (-1, ts) else
  match ts with
  | NULL => Some (-1, ts)
  | At _ =>
      t ← ccsds_get_pkt_type pkt;
      if negb (t =? SPP_PKT_TYPE_IS_TM) then Some (-1, ts) else
      p ← ccsds_get_payload pkt;
      let s_off := PUS_ECSS_TIME_OFFSET * CHAR_BIT in
      let sz := PUS_C_TM_TIME_OCTETS * CHAR_BIT in
      let d_off := u64 (ALIGN_MASK sz 7 - sz) in
      '(_, ts) ← bitcpy ts 0 d_off pkt p s_off sz;
      Some (0, ts)
  end.

Definition ecss_set_timestamp (pkt ts : ptr) : option (Z * ptr) :=
  f ← ccsds_get_2nd_hdr_flag pkt;
  if negb (c_true f) then Some (-1, pkt) else
  match ts with
  | NULL => Some (-1, pkt)
  | At _ =>
      t ← ccsds_get_pkt_type pkt;
      if negb (t =? SPP_PKT_TYPE_IS_TM) then Some (-1, pkt) else
      p ← ccsds_get_payload pkt;
      let d_off := PUS_ECSS_TIME_OFFSET * CHAR_BIT in
      let sz := PUS_C_TM_TIME_OCTETS * CHAR_BIT in
      let s_off := u64 (Z.land (u64 (sz + (CHAR_BIT - 1))) (u64 (Z.lnot (CHAR_BIT - 1))) - sz) in
      '(_, pkt) ← bitcpy pkt p d_off ts 0 s_off sz;
      Some (0, pkt)
  end.

Definition ecss_get_source_id (pkt : ptr) : option Z :=
  let off := PUS_ECSS_SRCID_OFFSET in
  f ← ccsds_get_2nd_hdr_flag pkt;
  if negb (c_true f) then Some (u16 (-1)) else
  t ← ccsds_get_pkt_type pkt;
  if negb (t =? SPP_PKT_TYPE_IS_TC) then Some (u16 (-1)) else
  p ← ccsds_get_payload pkt;
  hi ← pkt.[p + off + 0];
  let d := u16 (Z.shiftl (Z.land hi 0xff) 8) in
  lo ← pkt.[p + off + 1];
  Some (u16 (Z.lor d (Z.land lo 0xff))).

Definition ecss_set_source_id (pkt : ptr) (src_id : Z) : option (Z * ptr) :=
  let off := PUS_ECSS_SRCID_OFFSET in
  f ← ccsds_get_2nd_hdr_flag pkt;
  if negb (c_true f) then Some (u16 (-1), pkt) else
  t ← ccsds_get_pkt_type pkt;
  if negb (t =? SPP_PKT_TYPE_IS_TC) then Some (u16 (-1), pkt) else
  p ← ccsds_get_payload pkt;
  pkt ← pkt.[p + off + 0 <- u8 (Z.land (Z.shiftr src_id 8) 0xff)];
  pkt ← pkt.[p + off + 1 <- u8 (Z.land (Z.shiftr src_id 0) 0xff)];
  Some (0, pkt).

(** ** Sizes *)

Definition ecss_get_pkt_2nd_hdr_size (tmtc : Z) : Z :=
  if tmtc >? 1 then 0 else
  let sz :=
    if tmtc =? SPP_PKT_TYPE_IS_TC then
      PUS_ECSS_SRCID_OFFSET * CHAR_BIT + PUS_C_SRCID_BITS + PUS_C_TC_SPARE_BITS
    else PUS_ECSS_TIME_OFFSET * CHAR_BIT + PUS_C_TM_TIME_OCTETS * CHAR_BIT + PUS_C_TM_SPARE_BITS in
  let sz := ALIGN_MASK sz 7 in
  sz / CHAR_BIT.

Definition ecss_get_pkt_hdr_size (tmtc : Z) : Z :=
  if tmtc >? 1 then 0 else SPP_PKT_HDR_LEN + ecss_get_pkt_2nd_hdr_size tmtc.

(** the payload pointer as an offset into the packet; [Some None] is [NULL] *)
Definition ecss_get_payload (pkt : ptr) : option (option Z) :=
  match pkt with
  | NULL => Some None
  | At _ =>
      t ← ccsds_get_pkt_type pkt;
      let off := ecss_get_pkt_hdr_size t in
      if negb (c_true off) then Some None else Some (Some off)
  end.

Definition ecss_get_payload_offset (pkt : ptr) : option Z :=
  match pkt with
  | NULL => Some 0
  | At _ =>
      t ← ccsds_get_pkt_type pkt;
      let off := ecss_get_pkt_hdr_size t in
      Some (u64 (Z.shiftl off 3))
  end.

Definition ecss_get_pkt_accept_ack (pkt : ptr) : option Z :=
  a ← ecss_get_ack_flags pkt;
  if a =? u8 (-1) then Some 0 else
  if c_true (Z.land a PUS_ACK_PKT_ACCEPT) then Some 1 else Some 0.

Definition ecss_get_exec_start_ack (pkt : ptr) : option Z :=
  a ← ecss_get_ack_flags pkt;
  if a =? u8 (-1) then Some 0 else
  if c_true (Z.land a PUS_ACK_EXEC_START) then Some 1 else Some 0.

Definition ecss_get_exec_progr_ack (pkt : ptr) : option Z :=
  a ← ecss_get_ack_flags pkt;
  if a =? u8 (-1) then Some 0 else
  if c_true (Z.land a PUS_ACK_EXEC_PROGR) then Some 1 else Some 0.

Definition ecss_get_exec_compl_ack (pkt : ptr) : option Z :=
  a ← ecss_get_ack_flags pkt;
  if a =? u8 (-1) then Some 0 else
  if c_true (Z.land a PUS_ACK_EXEC_COMPL) then Some 1 else Some 0.

(** the CRC check is compiled out *)
Definition ecss_is_pkt_valid (pkt : ptr) : option Z :=
  v ← ccsds_get_pkt_version pkt;
  if c_true v then Some 0 else
  f ← ccsds_get_2nd_hdr_flag pkt;
  if c_true f then
    w ← ecss_get_pkt_version pkt;
    if negb (ecss_pus_version_valid w) then Some 0 else Some 1
  else Some 1.

Definition ecss_get_pkt_size (pkt : ptr) : option Z :=
  v ← ecss_is_pkt_valid pkt;
  if negb (c_true v) then Some 0 else
  let sz := ccsds_get_hdr_size in
  n ← ccsds_get_data_len pkt;
  Some (sz + n).

Definition ecss_get_pld_size (pkt : ptr) : option Z :=
  v ← ecss_is_pkt_valid pkt;
  if negb (c_true v) then Some 0 else
  n ← ccsds_get_data_len pkt;
  t ← ccsds_get_pkt_type pkt;
  Some (u64 (n - ecss_get_pkt_2nd_hdr_size t)).

Definition eccs_get_max_pld_size (tmtc : Z) : Z :=
  u64 (AP_PKT_SIZE_MAX - ecss_get_pkt_2nd_hdr_size tmtc - PUS_ECSS_CRC_LEN).

(** ** The abstract secondary headers *)

Record tm_hdr : Type := mk_tm {
  tm_ver : Z;         (* 4 bits *)
  tm_tref : Z;        (* 4 bits *)
  tm_st : Z;          (* 8 bits *)
  tm_sst : Z;         (* 8 bits *)
  tm_cnt : Z;         (* 16 bits *)
  tm_dest : Z;        (* 16 bits *)
  tm_time : list Z    (* six octets *)
}.

Record tc_hdr : Type := mk_tc {
  tc_ver : Z;         (* 4 bits *)
  tc_ack : Z;         (* 4 bits *)
  tc_st : Z;          (* 8 bits *)
  tc_sst : Z;         (* 8 bits *)
  tc_src : Z          (* 16 bits *)
}.

Definition be16_octets (x : Z) : list Z := [x / 256; x mod 256].

Definition tm_encode (h : tm_hdr) : list Z :=
  [tm_ver h * 16 + tm_tref h; tm_st h; tm_sst h] ++ be16_octets (tm_cnt h) ++
  be16_octets (tm_dest h) ++ tm_time h.

Definition tc_encode (h : tc_hdr) : list Z :=
  [tc_ver h * 16 + tc_ack h; tc_st h; tc_sst h] ++ be16_octets (tc_src h).

Definition tm_wf (h : tm_hdr) : Prop :=
  tm_ver h = 2 /\ 0 <= tm_tref h < 16 /\ 0 < tm_st h < 256 /\ 0 < tm_sst h < 256 /\
  is_u16 (tm_cnt h) /\ is_u16 (tm_dest h) /\ bytes (tm_time h) /\ length (tm_time h) = 6%nat.

Definition tc_wf (h : tc_hdr) : Prop :=
  (tc_ver h = 1 \/ tc_ver h = 2) /\ 0 <= tc_ack h < 16 /\ 0 < tc_st h < 256 /\
  0 < tc_sst h < 256 /\ is_u16 (tc_src h).

(** the next setter, if the last one returned 0 *)
Definition and_then (m : option (Z * ptr)) (f : ptr -> option (Z * ptr)) : option (Z * ptr) :=
  '(r, pkt) ← m; if r =? 0 then f pkt else Some (r, pkt).

(** every field of a header set, one after the other *)
Definition tm_build (pkt : ptr) (h : tm_hdr) : option (Z * ptr) :=
  and_then (ecss_set_pkt_version pkt (tm_ver h)) (fun pkt =>
  and_then (ecss_set_sc_time_ref_status pkt (tm_tref h)) (fun pkt =>
  and_then (ecss_set_service_type pkt (tm_st h)) (fun pkt =>
  and_then (ecss_set_sub_service_type pkt (tm_sst h)) (fun pkt =>
  and_then (ecss_set_msg_type_cntr pkt (tm_cnt h)) (fun pkt =>
  and_then (ecss_set_destination_id pkt (tm_dest h)) (fun pkt =>
  ecss_set_timestamp pkt (At (tm_time h)))))))).

Definition tc_build (pkt : ptr) (h : tc_hdr) : option (Z * ptr) :=
  and_then (ecss_set_pkt_version pkt (tc_ver h)) (fun pkt =>
  and_then (ecss_set_ack_flags pkt (tc_ack h)) (fun pkt =>
  and_then (ecss_set_service_type pkt (tc_st h)) (fun pkt =>
  and_then (ecss_set_sub_service_type pkt (tc_sst h)) (fun pkt =>
  ecss_set_source_id pkt (tc_src h))))).

(** every field read back *)
Definition tm_fields (pkt ts : ptr) : option (tm_hdr * ptr) :=
  v ← ecss_get_pkt_version pkt; r ← ecss_get_sc_time_ref_status pkt;
  st ← ecss_get_service_type pkt; sst ← ecss_get_sub_service_type pkt;
  c ← ecss_get_msg_type_cntr pkt; d ← ecss_get_destination_id pkt;
  '(_, ts) ← ecss_get_timestamp pkt ts;
  match ts with NULL => None | At b => Some (mk_tm v r st sst c d (take 6 b), At (drop 6 b)) end.

Definition tc_fields (pkt : ptr) : option tc_hdr :=
  v ← ecss_get_pkt_version pkt; a ← ecss_get_ack_flags pkt;
  st ← ecss_get_service_type pkt; sst ← ecss_get_sub_service_type pkt;
  s ← ecss_get_source_id pkt;
  Some (mk_tc v a st sst s).

(** ** Field arithmetic *)

Lemma nibble_hi : forall b, is_byte b -> Z.shiftr (Z.land b 0xf0) 4 = b / 16.
Proof. by_bytes. Qed.

Lemma nibble_lo : forall b, is_byte b -> Z.shiftr (Z.land b 0x0f) 0 = b mod 16.
Proof. by_bytes. Qed.

Lemma nibble_hi_insert : forall b v, 0 <= b < 256 -> 0 <= v < 16 ->
  u8 (u8 (Z.lor (Z.land b (u8 (Z.lnot 0xf0))) (Z.shiftl v 4))) = v * 16 + b mod 16.
Proof. by_range2 256 16. Qed.

Lemma nibble_lo_insert : forall b v, 0 <= b < 256 -> 0 <= v < 256 ->
  u8 (u8 (Z.lor (Z.land b (u8 (Z.lnot 0x0f))) (Z.shiftl v 0))) =
  Z.lor (b / 16) (v / 16) * 16 + v mod 16.
Proof. by_range2 256 256. Qed.

Lemma ack_check : forall v, is_byte v -> Z.b2z (c_true (Z.land v (Z.lnot 0x0f))) = Z.b2z (15 <? v).
Proof. by_bytes. Qed.

Lemma high_octet x : is_u16 x -> u8 (u8 (Z.land (Z.shiftr x 8) 0xff)) = x / 256.
Proof.
  intros Hx. unfold is_u16 in Hx. rewrite low_byte, shiftr_div by lia. change (2 ^ 8) with 256. dlia.
Qed.

Lemma be16_read hi lo : is_byte hi -> is_byte lo ->
  u16 (Z.lor (u16 (Z.shiftl (Z.land hi 0xff) 8)) (Z.land lo 0xff)) = hi * 256 + lo.
Proof.
  intros Hh Hl. rewrite (land_ff hi) by done. rewrite (u16_small (Z.shiftl hi 8)).
  - by apply be16_field.
  - rewrite shiftl_mul by lia. unfold is_u16, is_byte in *. change (2 ^ 8) with 256. lia.
Qed.

(** an aligned copy of whole octets *)
Lemma bitcpy_octets d dbase a s sbase b n : 0 <= a -> 0 <= b -> 0 < n ->
  bitcpy (At d) dbase (8 * a) (At s) sbase (8 * b) (8 * n) =
  (x ← rdn s (sbase + b) n; d ← wrn d (dbase + a) x; Some (0, At d)).
Proof.
  intros Ha Hb Hn. unfold bitcpy. fold (lead_bits (8 * a) (8 * b) (8 * n)).
  assert (E : lead_bits (8 * a) (8 * b) (8 * n) = 0).
  { unfold lead_bits. rewrite or_aligned, !(Z.mul_comm 8), !Z.mod_mul by lia. done. }
  rewrite E, (proj2 (Z.eqb_neq _ _)) by lia. cbv zeta. rewrite Z.sub_0_r.
  change (lead_in (Z.to_nat 0) (At d) dbase (8 * a) (At s) sbase (8 * b) 0) with (Some (At d, 8 * a, 8 * b)).
  cbn [mbind option_bind].
  replace (8 * n / 8) with n by dlia. replace (8 * a / 8) with a by dlia. replace (8 * b / 8) with b by dlia.
  destruct (rdn s (sbase + b) n) as [x|]; cbn [mbind option_bind]; [|done].
  destruct (wrn d (dbase + a) x) as [d'|]; cbn [mbind option_bind]; [|done].
  replace (8 * n - n * 8) with 0 by lia. done.
Qed.

(** ** Packets with a secondary header *)

(** the octets of a packet: the primary header, then the rest *)
Definition prim (b : list Z) (ty : Z) : Prop :=
  exists h, bytes b /\ length b = 6%nat /\ spp_decode b = Some h /\ spp_sec h = 1 /\ spp_type h = ty.

Lemma prim_open b ty : prim b ty -> exists b0 b1 b2 b3 b4 b5, b = [b0; b1; b2; b3; b4; b5] /\
  bytes b /\ b0 / 8 mod 2 = 1 /\ b0 / 16 mod 2 = ty.
Proof.
  intros (h & Hb & Hl & Hd & Hs & Ht). do 6 (destruct b as [|? b]; [done|]). destruct b; [|done].
  simpl in Hd. simplify_eq. simpl in *. eauto 12.
Qed.

Lemma prim_flag b ty r : prim b ty -> ccsds_get_2nd_hdr_flag (At (b ++ r)) = Some 1.
Proof.
  intros (b0 & b1 & b2 & b3 & b4 & b5 & -> & Hb & Hs & Ht)%prim_open. apply bytes_cons in Hb as [H0 _].
  unfold ccsds_get_2nd_hdr_flag. simpl app. eval_mem. f_equal.
  unfold SPP_2ND_HDR_FLAG_MASK, SPP_2ND_HDR_FLAG_SHIFT. by rewrite sec_field.
Qed.

Lemma prim_type b ty r : prim b ty -> ccsds_get_pkt_type (At (b ++ r)) = Some ty.
Proof.
  intros (b0 & b1 & b2 & b3 & b4 & b5 & -> & Hb & Hs & Ht)%prim_open. apply bytes_cons in Hb as [H0 _].
  unfold ccsds_get_pkt_type. simpl app. eval_mem. f_equal.
  unfold SPP_PKT_TYPE_MASK, SPP_PKT_TYPE_SHIFT. by rewrite type_field.
Qed.

Lemma prim_zlen b ty : prim b ty -> zlen b = 6.
Proof. intros (h & _ & Hl & _). unfold zlen. by rewrite Hl. Qed.

Lemma load_sec b ty r k : prim b ty -> 0 <= k -> load (At (b ++ r)) (SPP_PKT_HDR_LEN + k) = rd r k.
Proof.
  intros Hp Hk. simpl. unfold SPP_PKT_HDR_LEN. rewrite rd_app_r by (rewrite (prim_zlen _ _ Hp); lia).
  f_equal. rewrite (prim_zlen _ _ Hp). lia.
Qed.

Lemma wr_app_r a b i v : zlen a <= i -> wr (a ++ b) i v = (b' ← wr b (i - zlen a) v; Some (a ++ b')).
Proof.
  intros Hi. pose proof (zlen_nonneg a). unfold wr. rewrite zlen_app.
  rewrite (proj2 (Z.leb_le 0 i)), (proj2 (Z.leb_le 0 (i - zlen a))) by lia. simpl.
  destruct (Z.ltb_spec i (zlen a + zlen b)), (Z.ltb_spec (i - zlen a) (zlen b)); try lia; [|done].
  simpl. f_equal. rewrite insert_app_r_alt by (unfold zlen in *; lia). f_equal. f_equal. unfold zlen. lia.
Qed.

Lemma store_sec b ty r k v : prim b ty -> 0 <= k ->
  store (At (b ++ r)) (SPP_PKT_HDR_LEN + k) v = (r' ← wr r k v; Some (At (b ++ r'))).
Proof.
  intros Hp Hk. pose proof (prim_zlen _ _ Hp). simpl. unfold SPP_PKT_HDR_LEN.
  rewrite wr_app_r by lia. replace (6 + k - zlen b) with k by lia. by destruct (wr r k v).
Qed.

(** ** Setters and getters on the secondary header *)

(** [on_sec m b r f]: the accessor [m] of the packet [b ++ r] does [f] to the
    octets [r] behind the primary header *)
Definition sets_sec (m : option (Z * ptr)) (b : list Z) (f : option (list Z)) : Prop :=
  m = (r ← f; Some (0, At (b ++ r))).

Ltac macros :=
  unfold PUS_ECSS_VER_OFFSET, PUS_ECSS_VER_MASK, PUS_ECSS_VER_SHIFT, PUS_ECSS_TREF_OFFSET,
    PUS_ECSS_TREF_MASK, PUS_ECSS_TREF_SHIFT, PUS_ECSS_ACK_OFFSET, PUS_ECSS_ACK_MASK,
    PUS_ECSS_ACK_SHIFT, PUS_ECSS_ST_OFFSET, PUS_ECSS_SST_OFFSET, PUS_ECSS_TCNT_OFFSET,
    PUS_ECSS_DESTID_OFFSET, PUS_ECSS_TIME_OFFSET, PUS_ECSS_SRCID_OFFSET,
    SPP_PKT_TYPE_IS_TM, SPP_PKT_TYPE_IS_TC, PUS_C_VERSION in *.

Ltac sums :=
  change (3 + 0) with 3; change (3 + 1) with 4; change (5 + 0) with 5; change (5 + 1) with 6.

(** [sec Hp] evaluates the checks of an accessor of a packet that satisfies
    [prim] by [Hp], and turns its accesses into accesses of the octets behind
    the primary header; [sec_all] goes through the accesses. *)
Ltac sec Hp :=
  unfold sets_sec; macros;
  rewrite ?(prim_flag _ _ _ Hp); cbn [mbind option_bind];
  rewrite ?(prim_type _ _ _ Hp); cbn [mbind option_bind ccsds_get_payload];
  cbn beta iota delta [negb c_true Z.eqb Pos.eqb];
  rewrite <- ?Z.add_assoc; sums; rewrite ?(load_sec _ _ _ _ Hp), ?(store_sec _ _ _ _ _ Hp) by done.

Ltac sec_step Hp :=
  match goal with
  | |- context [rd ?r ?k] => destruct (rd r k) as [?|]
  | |- context [wr ?r ?k ?v] => destruct (wr r k v) as [?|]
  end; cbn [mbind option_bind]; [|done];
  rewrite <- ?Z.add_assoc; sums; rewrite ?(load_sec _ _ _ _ Hp), ?(store_sec _ _ _ _ _ Hp) by done.

Ltac sec_all Hp := sec Hp; repeat (sec_step Hp); try done.

Lemma version_sec b ty r : prim b ty ->
  ecss_get_pkt_version (At (b ++ r)) = (x ← rd r 0; Some (Z.shiftr (Z.land x 0xf0) 4)).
Proof. intros Hp. unfold ecss_get_pkt_version. sec_all Hp. Qed.

Lemma set_version_sec b ty r v : prim b ty -> v = 1 \/ v = 2 ->
  sets_sec (ecss_set_pkt_version (At (b ++ r)) v) b
    (x ← rd r 0; wr r 0 (u8 (Z.lor (Z.land x (u8 (Z.lnot 0xf0))) (Z.shiftl v 4)))).
Proof. intros Hp [-> | ->]; unfold ecss_set_pkt_version; sec_all Hp. Qed.

Lemma tref_sec b r : prim b 0 ->
  ecss_get_sc_time_ref_status (At (b ++ r)) = (x ← rd r 0; Some (Z.shiftr (Z.land x 0x0f) 0)).
Proof. intros Hp. unfold ecss_get_sc_time_ref_status. sec_all Hp. Qed.

Lemma set_tref_sec b r v : prim b 0 ->
  sets_sec (ecss_set_sc_time_ref_status (At (b ++ r)) v) b
    (x ← rd r 0; wr r 0 (u8 (Z.lor (Z.land x (u8 (Z.lnot 0x0f))) (Z.shiftl v 0)))).
Proof. intros Hp. unfold ecss_set_sc_time_ref_status. sec_all Hp. Qed.

Lemma ack_sec b r : prim b 1 ->
  ecss_get_ack_flags (At (b ++ r)) = (x ← rd r 0; Some (Z.shiftr (Z.land x 0x0f) 0)).
Proof. intros Hp. unfold ecss_get_ack_flags. sec_all Hp. Qed.

Lemma set_ack_sec b r v : prim b 1 -> 0 <= v < 16 ->
  sets_sec (ecss_set_ack_flags (At (b ++ r)) v) b
    (x ← rd r 0; wr r 0 (u8 (Z.lor (Z.land x (u8 (Z.lnot 0x0f))) (Z.shiftl v 0)))).
Proof.
  intros Hp Hv. unfold ecss_set_ack_flags.
  assert (E : c_true (Z.land v (Z.lnot PUS_ECSS_ACK_MASK)) = false).
  { pose proof (ack_check v ltac:(unfold is_byte; lia)) as H. unfold PUS_ECSS_ACK_MASK.
    rewrite (proj2 (Z.ltb_ge 15 v)) in H by lia. by destruct (c_true _). }
  rewrite E. sec_all Hp.
Qed.

Lemma st_sec b ty r : prim b ty -> ecss_get_service_type (At (b ++ r)) = rd r 1.
Proof. intros Hp. unfold ecss_get_service_type. sec_all Hp. Qed.

Lemma c_true_pos x : 0 < x -> c_true x = true.
Proof. intros. unfold c_true. by rewrite (proj2 (Z.eqb_neq _ _)) by lia. Qed.

Lemma set_st_sec b ty r v : prim b ty -> 0 < v ->
  sets_sec (ecss_set_service_type (At (b ++ r)) v) b (wr r 1 v).
Proof. intros Hp Hv. unfold ecss_set_service_type. rewrite (c_true_pos v) by done. sec_all Hp. Qed.

Lemma sst_sec b ty r : prim b ty -> ecss_get_sub_service_type (At (b ++ r)) = rd r 2.
Proof. intros Hp. unfold ecss_get_sub_service_type. sec_all Hp. Qed.

Lemma set_sst_sec b ty r v : prim b ty -> 0 < v ->
  sets_sec (ecss_set_sub_service_type (At (b ++ r)) v) b (wr r 2 v).
Proof. intros Hp Hv. unfold ecss_set_sub_service_type. rewrite (c_true_pos v) by done. sec_all Hp. Qed.

Definition be16_at (r : list Z) (k : Z) : option Z :=
  hi ← rd r k; lo ← rd r (k + 1);
  Some (u16 (Z.lor (u16 (Z.shiftl (Z.land hi 0xff) 8)) (Z.land lo 0xff))).

Lemma cnt_sec b r : prim b 0 -> ecss_get_pkt_version (At (b ++ r)) = Some 2 ->
  ecss_get_msg_type_cntr (At (b ++ r)) = be16_at r 3.
Proof. intros Hp Hv. unfold ecss_get_msg_type_cntr, be16_at. rewrite Hv. sec_all Hp. Qed.

Lemma set_cnt_sec b r v : prim b 0 -> ecss_get_pkt_version (At (b ++ r)) = Some 2 ->
  sets_sec (ecss_set_msg_type_cntr (At (b ++ r)) v) b
    (r ← wr r 3 (u8 (Z.shiftr v 8)); wr r 4 (u8 (Z.land v 0xff))).
Proof. intros Hp Hv. unfold ecss_set_msg_type_cntr. rewrite Hv. sec_all Hp. Qed.

Lemma dest_sec b r : prim b 0 -> ecss_get_destination_id (At (b ++ r)) = be16_at r 5.
Proof. intros Hp. unfold ecss_get_destination_id, be16_at. sec_all Hp. Qed.

Lemma set_dest_sec b r v : prim b 0 ->
  sets_sec (ecss_set_destination_id (At (b ++ r)) v) b
    (r ← wr r 5 (u8 (Z.land (Z.shiftr v 8) 0xff)); wr r 6 (u8 (Z.land v 0xff))).
Proof. intros Hp. unfold ecss_set_destination_id. sec_all Hp. Qed.

Lemma src_sec b r : prim b 1 -> ecss_get_source_id (At (b ++ r)) = be16_at r 3.
Proof. intros Hp. unfold ecss_get_source_id, be16_at. sec_all Hp. Qed.

Lemma set_src_sec b r v : prim b 1 ->
  sets_sec (ecss_set_source_id (At (b ++ r)) v) b
    (r ← wr r 3 (u8 (Z.land (Z.shiftr v 8) 0xff)); wr r 4 (u8 (Z.land v 0xff))).
Proof. intros Hp. unfold ecss_set_source_id. rewrite Z.shiftr_0_r. sec_all Hp. Qed.

Lemma ts_offset : u64 (ALIGN_MASK (PUS_C_TM_TIME_OCTETS * CHAR_BIT) 7 - PUS_C_TM_TIME_OCTETS * CHAR_BIT) = 0.
Proof. reflexivity. Qed.

Lemma rdn_sec b ty r k n : prim b ty -> 0 <= k -> 0 <= n -> rdn (b ++ r) (6 + k) n = rdn r k n.
Proof.
  intros Hp Hk Hn. pose proof (prim_zlen _ _ Hp) as Hl. unfold rdn. rewrite zlen_app, Hl.
  rewrite !(proj2 (Z.leb_le 0 _)) by lia. simpl.
  destruct (Z.leb_spec (6 + k + n) (6 + zlen r)), (Z.leb_spec (k + n) (zlen r)); try lia; [|done].
  f_equal. f_equal. rewrite drop_app_ge by (unfold zlen in Hl; lia). f_equal. unfold zlen in Hl. lia.
Qed.

Lemma wrn_sec b ty r k d : prim b ty -> 0 <= k ->
  wrn (b ++ r) (6 + k) d = (r' ← wrn r k d; Some (b ++ r')).
Proof.
  intros Hp Hk. pose proof (prim_zlen _ _ Hp) as Hl. unfold wrn. rewrite zlen_app, Hl.
  rewrite !(proj2 (Z.leb_le 0 _)) by lia. simpl.
  destruct (Z.leb_spec (6 + k + zlen d) (6 + zlen r)), (Z.leb_spec (k + zlen d) (zlen r)); try lia; [|done].
  simpl. f_equal. unfold zlen in Hl.
  rewrite take_app_ge, drop_app_ge by lia.
  replace (Z.to_nat (6 + k) - length b)%nat with (Z.to_nat k) by lia.
  replace (Z.to_nat (6 + k) + length d - length b)%nat with (Z.to_nat k + length d)%nat by lia.
  by rewrite <- app_assoc.
Qed.

Lemma timestamp_sec b r t : prim b 0 ->
  ecss_get_timestamp (At (b ++ r)) (At t) = (x ← rdn r 7 6; t ← wrn t 0 x; Some (0, At t)).
Proof.
  intros Hp. unfold ecss_get_timestamp. rewrite ts_offset. sec Hp.
  pose proof (bitcpy_octets t 0 0 (b ++ r) 6 7 6 ltac:(lia) ltac:(lia) ltac:(lia)) as E.
  change (8 * 0) with 0 in E. unfold SPP_PKT_HDR_LEN. change (7 * CHAR_BIT) with (8 * 7).
  change (PUS_C_TM_TIME_OCTETS * CHAR_BIT) with (8 * 6). rewrite E, (rdn_sec _ _ _ _ _ Hp) by lia.
  destruct (rdn r 7 6); [|done]. cbn [mbind option_bind]. by destruct (wrn t _ _).
Qed.

Lemma set_timestamp_sec b r t : prim b 0 ->
  sets_sec (ecss_set_timestamp (At (b ++ r)) (At t)) b (x ← rdn t 0 6; wrn r 7 x).
Proof.
  intros Hp. unfold ecss_set_timestamp. change (CHAR_BIT - 1) with 7.
  fold (ALIGN_MASK (PUS_C_TM_TIME_OCTETS * CHAR_BIT) 7). rewrite ts_offset. sec Hp.
  pose proof (bitcpy_octets (b ++ r) 6 7 t 0 0 6 ltac:(lia) ltac:(lia) ltac:(lia)) as E.
  change (8 * 0) with 0 in E. unfold SPP_PKT_HDR_LEN. change (7 * CHAR_BIT) with (8 * 7).
  change (PUS_C_TM_TIME_OCTETS * CHAR_BIT) with (8 * 6). rewrite E. change (0 + 0) with 0.
  destruct (rdn t 0 6) as [x|]; [|done]. cbn [mbind option_bind]. rewrite (wrn_sec _ _ _ _ _ Hp) by lia.
  by destruct (wrn r 7 x).
Qed.

(** ** Whole headers *)

Lemma and_then_sec m b (f : option (list Z)) r k : sets_sec m b f -> f = Some r ->
  and_then m k = k (At (b ++ r)).
Proof. intros -> ->. done. Qed.

Lemma time_open (t : list Z) : length t = 6%nat -> exists t0 t1 t2 t3 t4 t5, t = [t0; t1; t2; t3; t4; t5].
Proof. intros H. do 6 (destruct t as [|? t]; [done|]). destruct t; [|done]. eauto 10. Qed.

Lemma first_version b ty x r : prim b ty -> is_byte x ->
  ecss_get_pkt_version (At (b ++ x :: r)) = Some (x / 16).
Proof. intros Hp Hx. rewrite (version_sec b ty) by done. simpl. f_equal. by apply nibble_hi. Qed.

Lemma step_version b ty x r v k : prim b ty -> is_byte x -> v = 1 \/ v = 2 ->
  and_then (ecss_set_pkt_version (At (b ++ x :: r)) v) k = k (At (b ++ (v * 16 + x mod 16) :: r)).
Proof.
  intros Hp Hx Hv. eapply and_then_sec; [by eapply set_version_sec|]. simpl. autorewrite with crd. simpl.
  rewrite nibble_hi_insert by (unfold is_byte in *; lia). done.
Qed.

Lemma low_insert x v : is_byte x -> 0 <= v < 16 ->
  u8 (u8 (Z.lor (Z.land x (u8 (Z.lnot 0x0f))) (Z.shiftl v 0))) = x / 16 * 16 + v.
Proof.
  intros Hx Hv. rewrite nibble_lo_insert by (unfold is_byte in *; lia).
  replace (v / 16) with 0 by dlia. rewrite Z.lor_0_r. f_equal. dlia.
Qed.

Lemma step_tref b x r v k : prim b 0 -> is_byte x -> 0 <= v < 16 ->
  and_then (ecss_set_sc_time_ref_status (At (b ++ x :: r)) v) k = k (At (b ++ (x / 16 * 16 + v) :: r)).
Proof.
  intros Hp Hx Hv. eapply and_then_sec; [by eapply set_tref_sec|]. simpl. autorewrite with crd. simpl.
  by rewrite low_insert.
Qed.

Lemma step_ack b x r v k : prim b 1 -> is_byte x -> 0 <= v < 16 ->
  and_then (ecss_set_ack_flags (At (b ++ x :: r)) v) k = k (At (b ++ (x / 16 * 16 + v) :: r)).
Proof.
  intros Hp Hx Hv. eapply and_then_sec; [by eapply set_ack_sec|]. simpl. autorewrite with crd. simpl.
  by rewrite low_insert.
Qed.

Lemma step_st b ty x y r v k : prim b ty -> 0 < v < 256 ->
  and_then (ecss_set_service_type (At (b ++ x :: y :: r)) v) k = k (At (b ++ x :: v :: r)).
Proof.
  intros Hp Hv. eapply and_then_sec; [eapply set_st_sec; [done|lia]|]. autorewrite with crd. simpl.
  by rewrite u8_small by (unfold is_byte; lia).
Qed.

Lemma step_sst b ty x y z r v k : prim b ty -> 0 < v < 256 ->
  and_then (ecss_set_sub_service_type (At (b ++ x :: y :: z :: r)) v) k = k (At (b ++ x :: y :: v :: r)).
Proof.
  intros Hp Hv. eapply and_then_sec; [eapply set_sst_sec; [done|lia]|]. autorewrite with crd. simpl.
  by rewrite u8_small by (unfold is_byte; lia).
Qed.

Lemma be16_write v : is_u16 v ->
  u8 (u8 (Z.shiftr v 8)) = v / 256 /\ u8 (u8 (Z.land (Z.shiftr v 8) 0xff)) = v / 256 /\
  u8 (u8 (Z.land v 0xff)) = v mod 256.
Proof. intros Hv. split; [by apply high_byte|]. split; [by apply high_octet|apply low_byte]. Qed.

Lemma be16_at_octets pre v r k : is_u16 v -> k = zlen pre ->
  be16_at (pre ++ v / 256 :: v mod 256 :: r) k = Some v.
Proof.
  intros Hv ->. unfold be16_at. rewrite !rd_app_r by lia. rewrite Z.sub_diag.
  replace (zlen pre + 1 - zlen pre) with 1 by lia. simpl. rewrite be16_read by (unfold is_u16, is_byte in *; dlia).
  f_equal. dlia.
Qed.

Lemma wrn_app a d c x : zlen d = zlen x -> wrn (a ++ d ++ c) (zlen a) x = Some (a ++ x ++ c).
Proof.
  intros Hl. rewrite wrn_in by zl. f_equal. unfold zlen in *. rewrite Nat2Z.id, take_app_length. f_equal.
  f_equal. rewrite drop_app_ge by lia. replace (length a + length x - length a)%nat with (length d) by lia.
  apply drop_app_length.
Qed.

Lemma rdn_all t n : zlen t = n -> rdn t 0 n = Some t.
Proof. intros <-. rewrite <- (app_nil_r t) at 1. apply (rdn_app [] t []). Qed.

(** the octets of a telemetry header before its timestamp *)
Definition tm_front (h : tm_hdr) : list Z :=
  [tm_ver h * 16 + tm_tref h; tm_st h; tm_sst h] ++ be16_octets (tm_cnt h) ++ be16_octets (tm_dest h).

Lemma tm_encode_split h r : tm_encode h ++ r = tm_front h ++ tm_time h ++ r.
Proof. unfold tm_encode, tm_front. by rewrite <- !app_assoc. Qed.

Lemma tm_build_run b old r h : prim b 0 -> bytes old -> length old = 13%nat -> tm_wf h ->
  tm_build (At (b ++ old ++ r)) h = Some (0, At (b ++ tm_encode h ++ r)).
Proof.
  intros Hp Ho Hl (Ev & Ht & Hst & Hsst & Hc & Hd & Hb & Hlt). rewrite tm_encode_split.
  destruct h as [ve tr st sst cn de ti]; simpl in *. subst ve.
  destruct (be16_write cn Hc) as (Hc1 & _ & Hc2). destruct (be16_write de Hd) as (_ & Hd1 & Hd2).
  do 7 (destruct old as [|? old]; [done|]). apply bytes_cons in Ho as [Hz Ho].
  simpl app. unfold tm_build. cbn [tm_ver tm_tref tm_st tm_sst tm_cnt tm_dest tm_time].
  rewrite (step_version _ 0) by auto. rewrite step_tref by (done || (unfold is_byte in *; dlia)).
  rewrite (step_st _ 0), (step_sst _ 0) by done.
  replace ((2 * 16 + z mod 16) / 16 * 16 + tr) with (2 * 16 + tr) by dlia.
  erewrite (and_then_sec (ecss_set_msg_type_cntr _ _)).
  2: { apply set_cnt_sec; [done|]. rewrite (first_version b 0) by (done || (unfold is_byte; lia)). f_equal. dlia. }
  2: { autorewrite with crd. simpl. autorewrite with crd. simpl. rewrite Hc1, Hc2. reflexivity. }
  erewrite (and_then_sec (ecss_set_destination_id _ _)).
  2: by apply set_dest_sec.
  2: { autorewrite with crd. simpl. autorewrite with crd. simpl. rewrite Hd1, Hd2. reflexivity. }
  etransitivity; [by apply set_timestamp_sec|]. rewrite rdn_all by (unfold zlen; lia). cbn [mbind option_bind].
  pose proof (wrn_app [2 * 16 + tr; st; sst; cn / 256; cn mod 256; de / 256; de mod 256] old r ti) as E.
  simpl app in E. change (zlen [2 * 16 + tr; st; sst; cn / 256; cn mod 256; de / 256; de mod 256]) with 7 in E.
  rewrite E by (simpl in Hl; unfold zlen; lia). done.
Qed.

Lemma tm_fields_run b r h ts : prim b 0 -> tm_wf h -> (6 <= length ts)%nat ->
  tm_fields (At (b ++ tm_encode h ++ r)) (At ts) = Some (h, At (drop 6 ts)).
Proof.
  intros Hp (Ev & Ht & Hst & Hsst & Hc & Hd & Hb & Hlt) Hts. rewrite tm_encode_split.
  destruct h as [ve tr st sst cn de ti]; simpl in *. subst ve.
  assert (Hv : forall q, ecss_get_pkt_version (At (b ++ 2 * 16 + tr :: q)) = Some 2).
  { intros q. rewrite (first_version b 0) by (done || (unfold is_byte; lia)). f_equal. dlia. }
  unfold tm_fields. rewrite Hv. cbn [mbind option_bind].
  rewrite tref_sec, (st_sec b 0), (sst_sec b 0), cnt_sec, dest_sec, timestamp_sec by done.
  simpl app.
  pose proof (be16_at_octets [2 * 16 + tr; st; sst] cn (de / 256 :: de mod 256 :: ti ++ r) 3 Hc eq_refl) as E1.
  pose proof (be16_at_octets [2 * 16 + tr; st; sst; cn / 256; cn mod 256] de (ti ++ r) 5 Hd eq_refl) as E2.
  pose proof (rdn_app [2 * 16 + tr; st; sst; cn / 256; cn mod 256; de / 256; de mod 256] ti r) as E3.
  change (zlen [2 * 16 + tr; st; sst; cn / 256; cn mod 256; de / 256; de mod 256]) with 7 in E3.
  replace (zlen ti) with 6 in E3 by (unfold zlen; lia).
  simpl app in E1, E2, E3. rewrite E1, E2, E3. autorewrite with crd. simpl. autorewrite with crd. simpl.
  pose proof (wrn_app [] (take 6 ts) (drop 6 ts) ti) as E4. simpl app in E4. rewrite take_drop in E4.
  change (zlen []) with 0 in E4. rewrite E4 by (unfold zlen; rewrite length_take; lia).
  cbn [mbind option_bind]. rewrite nibble_lo by (unfold is_byte; lia).
  rewrite take_app_length', drop_app_length' by lia. f_equal. f_equal. f_equal. dlia.
Qed.

(** C36: the setters of the secondary header write its wire format: on a
    telemetry packet they turn the thirteen octets behind the primary header,
    whatever these were, into the encoding of the header, in the order of
    [tm_build], all return 0 and touch nothing else; the getters read every
    field back from the encoding, the timestamp into the caller's buffer. *)
Theorem ecss_tm_roundtrip b old r h ts : prim b 0 -> bytes old -> length old = 13%nat -> tm_wf h ->
  (6 <= length ts)%nat ->
  tm_build (At (b ++ old ++ r)) h = Some (0, At (b ++ tm_encode h ++ r)) /\
  tm_fields (At (b ++ tm_encode h ++ r)) (At ts) = Some (h, At (drop 6 ts)).
Proof. intros. split; [by apply tm_build_run|by apply tm_fields_run]. Qed.

Definition ex_prim (ty : Z) : list Z := [8 + ty * 16; 0x7f; 0xc0; 0; 0; 18].

Lemma ex_prim_ok ty : ty = 0 \/ ty = 1 -> prim (ex_prim ty) ty.
Proof.
  intros [-> | ->]; eexists; (split; [apply bytes_check; reflexivity|]); repeat split.
Qed.

Definition ex_tm : tm_hdr := mk_tm 2 5 3 25 0x1234 0xabcd [1; 2; 3; 4; 5; 6].

Lemma ecss_tm_roundtrip_witness :
  tm_build (At (ex_prim 0 ++ repeat 0xff 13 ++ [7; 8])) ex_tm =
    Some (0, At (ex_prim 0 ++ tm_encode ex_tm ++ [7; 8])) /\
  tm_fields (At (ex_prim 0 ++ tm_encode ex_tm ++ [7; 8])) (At [0; 0; 0; 0; 0; 0; 9]) = Some (ex_tm, At [9]).
Proof.
  apply (ecss_tm_roundtrip (ex_prim 0) (repeat 0xff 13) [7; 8] ex_tm [0; 0; 0; 0; 0; 0; 9]).
  - apply ex_prim_ok. by left.
  - apply bytes_check. reflexivity.
  - reflexivity.
  - unfold tm_wf, is_u16. simpl. repeat (split; [done || lia|]). split; [apply bytes_check|]; reflexivity.
  - simpl. lia.
Defined.

(** the same for a telecommand, whose secondary header has five octets *)
Theorem ecss_tc_roundtrip b old r h : prim b 1 -> bytes old -> length old = 5%nat -> tc_wf h ->
  tc_build (At (b ++ old ++ r)) h = Some (0, At (b ++ tc_encode h ++ r)) /\
  tc_fields (At (b ++ tc_encode h ++ r)) = Some h.
Proof.
  intros Hp Ho Hl (Ev & Ht & Hst & Hsst & Hs).
  destruct h as [ve ak st sst sr]; simpl in Ev, Ht, Hst, Hsst, Hs.
  destruct (be16_write sr Hs) as (_ & Hs1 & Hs2). split.
  - do 5 (destruct old as [|? old]; [done|]). destruct old; [|done]. apply bytes_cons in Ho as [Hz Ho].
    unfold tc_encode, tc_build. cbn [tc_ver tc_ack tc_st tc_sst tc_src]. simpl app.
    rewrite (step_version _ 1) by done. rewrite step_ack by (done || (unfold is_byte in *; dlia)).
    rewrite (step_st _ 1), (step_sst _ 1) by done.
    replace ((ve * 16 + z mod 16) / 16 * 16 + ak) with (ve * 16 + ak) by dlia.
    etransitivity; [by apply set_src_sec|]. autorewrite with crd. simpl. autorewrite with crd. simpl.
    by rewrite Hs1, Hs2.
  - unfold tc_fields, tc_encode. cbn [tc_ver tc_ack tc_st tc_sst tc_src]. simpl app.
    pose proof (be16_at_octets [ve * 16 + ak; st; sst] sr r 3 Hs eq_refl) as E1. simpl app in E1.
    rewrite (first_version b 1), ack_sec, (st_sec b 1), (sst_sec b 1), src_sec
      by (done || (unfold is_byte; lia)). rewrite E1.
    autorewrite with crd. simpl. autorewrite with crd. simpl. rewrite nibble_lo by (unfold is_byte; lia).
    f_equal. f_equal; dlia.
Qed.

Lemma ecss_tc_roundtrip_witness :
  let h := mk_tc 1 9 17 1 77 in
  tc_build (At (ex_prim 1 ++ repeat 0xff 5 ++ [7])) h = Some (0, At (ex_prim 1 ++ tc_encode h ++ [7])) /\
  tc_fields (At (ex_prim 1 ++ tc_encode h ++ [7])) = Some h.
Proof.
  intros h. apply (ecss_tc_roundtrip (ex_prim 1) (repeat 0xff 5) [7] h).
  - apply ex_prim_ok. by right.
  - apply bytes_check. reflexivity.
  - reflexivity.
  - unfold tc_wf, is_u16. simpl. repeat split; (by left) || lia.
Defined.

(** ** Errors *)

(** On a telecommand the accessors of telemetry fields answer their error value
    and leave the packet alone, and the other way round.  The setters of the
    destination and of the source return 65535, not a negative number. *)
Theorem ecss_wrong_type b r ts v : 
  (prim b 1 ->
     ecss_get_sc_time_ref_status (At (b ++ r)) = Some 255 /\
     ecss_get_destination_id (At (b ++ r)) = Some 65535 /\
     ecss_get_timestamp (At (b ++ r)) ts = Some (-1, ts) /\
     ecss_set_sc_time_ref_status (At (b ++ r)) v = Some (-1, At (b ++ r)) /\
     ecss_set_timestamp (At (b ++ r)) ts = Some (-1, At (b ++ r)) /\
     ecss_set_destination_id (At (b ++ r)) v = Some (65535, At (b ++ r))) /\
  (prim b 0 ->
     ecss_get_ack_flags (At (b ++ r)) = Some 255 /\
     ecss_get_source_id (At (b ++ r)) = Some 65535 /\
     ecss_set_ack_flags (At (b ++ r)) v = Some (-1, At (b ++ r)) /\
     ecss_set_source_id (At (b ++ r)) v = Some (65535, At (b ++ r))).
Proof.
  split; intros Hp.
  - unfold ecss_get_sc_time_ref_status, ecss_get_destination_id, ecss_get_timestamp,
      ecss_set_sc_time_ref_status, ecss_set_timestamp, ecss_set_destination_id.
    rewrite (prim_flag _ _ _ Hp). cbn [mbind option_bind]. rewrite (prim_type _ _ _ Hp).
    by destruct ts.
  - unfold ecss_get_ack_flags, ecss_get_source_id, ecss_set_ack_flags, ecss_set_source_id.
    rewrite (prim_flag _ _ _ Hp). cbn [mbind option_bind]. by rewrite (prim_type _ _ _ Hp).
Qed.

Lemma ecss_wrong_type_witness :
  (0 < 1 -> ecss_set_destination_id (At (ex_prim 1 ++ [])) 5 = Some (65535, At (ex_prim 1 ++ []))).
Proof.
  intros _. destruct (ecss_wrong_type (ex_prim 1) [] NULL 5) as [H _].
  apply H. apply ex_prim_ok. by right.
Defined.

(** A time reference status of more than four bits is not masked: it changes
    the PUS version in the other half of the octet. *)
Theorem ecss_set_tref_clobbers_version b x r v : prim b 0 -> is_byte x -> is_byte v ->
  exists x', ecss_set_sc_time_ref_status (At (b ++ x :: r)) v = Some (0, At (b ++ x' :: r)) /\
    ecss_get_pkt_version (At (b ++ x' :: r)) = Some (Z.lor (x / 16) (v / 16)).
Proof.
  intros Hp Hx Hv. unfold is_byte in *.
  assert (Hr : 0 <= Z.lor (x / 16) (v / 16) < 16).
  { split; [apply Z.lor_nonneg; dlia|]. apply (testbit_range _ 4); [apply Z.lor_nonneg; dlia|lia|].
    intros i Hi. rewrite Z.lor_spec, !(testbit_high _ 4) by dlia. done. }
  exists (Z.lor (x / 16) (v / 16) * 16 + v mod 16). split.
  - etransitivity; [by apply set_tref_sec|]. simpl. autorewrite with crd. simpl.
    by rewrite nibble_lo_insert.
  - rewrite (first_version b 0) by (done || (unfold is_byte; dlia)). f_equal. dlia.
Qed.

Lemma ecss_set_tref_clobbers_version_witness :
  exists x', ecss_set_sc_time_ref_status (At (ex_prim 0 ++ [0x20])) 0x10 = Some (0, At (ex_prim 0 ++ [x'])) /\
    ecss_get_pkt_version (At (ex_prim 0 ++ [x'])) = Some 3.
Proof.
  apply (ecss_set_tref_clobbers_version (ex_prim 0) 0x20 [] 0x10); [apply ex_prim_ok; by left|done|done].
Defined.

(** ** Sizes of packets *)

(** size of the secondary header by packet type *)
Definition sec_size (ty : Z) : Z := if ty =? 1 then 5 else 13.

(** the checks of [ecss_is_pkt_valid] *)
Definition pus_valid (h : spp_hdr) (v : Z) : bool :=
  (spp_ver h =? 0) && ((spp_sec h =? 0) || (v =? 1) || (v =? 2)).

Lemma spp_access b h : bytes b -> spp_decode b = Some h ->
  ccsds_get_pkt_version (At b) = Some (spp_ver h) /\ ccsds_get_2nd_hdr_flag (At b) = Some (spp_sec h) /\
  ccsds_get_pkt_type (At b) = Some (spp_type h) /\ ccsds_get_data_len (At b) = Some (u16 (spp_len h + 1)).
Proof.
  intros Hb Hd. open_hdr.
  unfold ccsds_get_pkt_version, ccsds_get_2nd_hdr_flag, ccsds_get_pkt_type, ccsds_get_data_len,
    SPP_PKT_VER_SHIFT, SPP_2ND_HDR_FLAG_MASK, SPP_2ND_HDR_FLAG_SHIFT, SPP_PKT_TYPE_MASK, SPP_PKT_TYPE_SHIFT.
  eval_mem. by rewrite ver_field, sec_field, type_field, be16_field.
Qed.

Lemma ecss_sizes_run b h x r : bytes (b ++ x :: r) -> length b = 6%nat -> spp_decode b = Some h ->
  let pkt := At (b ++ x :: r) in let v := pus_valid h (x / 16) in
  ecss_is_pkt_valid pkt = Some (Z.b2z v) /\
  ecss_get_pkt_size pkt = Some (if v then 6 + u16 (spp_len h + 1) else 0) /\
  ecss_get_pld_size pkt = Some (if v then u64 (u16 (spp_len h + 1) - sec_size (spp_type h)) else 0) /\
  ecss_get_payload pkt = Some (Some (6 + sec_size (spp_type h))) /\
  ecss_get_payload_offset pkt = Some (8 * (6 + sec_size (spp_type h))).
Proof.
  intros Hb Hl Hd pkt v.
  assert (Hd' : spp_decode (b ++ x :: r) = Some h).
  { do 6 (destruct b as [|? b]; [done|]). destruct b; [|done]. exact Hd. }
  destruct (spp_access _ _ Hb Hd') as (Ev & Ef & Et & El). fold pkt in Ev, Ef, Et, El.
  assert (Hx : is_byte x) by (apply bytes_app in Hb as [_ Hb]; by apply bytes_cons in Hb as [? _]).
  assert (Hsec : spp_sec h = 0 \/ spp_sec h = 1).
  { destruct (spp_decode_wf _ _ Hb Hd') as (_ & _ & ? & _). lia. }
  assert (Hty : spp_type h = 0 \/ spp_type h = 1).
  { destruct (spp_decode_wf _ _ Hb Hd') as (_ & ? & _). lia. }
  assert (Hval : ecss_is_pkt_valid pkt = Some (Z.b2z v)).
  { unfold ecss_is_pkt_valid. rewrite Ev. cbn [mbind option_bind]. unfold v, pus_valid, c_true.
    destruct (spp_ver h =? 0); cbn [negb andb]; [|done]. rewrite Ef. cbn [mbind option_bind].
    destruct Hsec as [E|E]; rewrite E; cbn [negb Z.eqb orb]; [done|].
    unfold pkt. rewrite (first_version b (spp_type h)); [|exists h; repeat split; try done; by apply bytes_app in Hb as [? _]|done].
    cbn [mbind option_bind]. unfold ecss_pus_version_valid, PUS_A_VERSION, PUS_C_VERSION.
    by destruct ((x / 16 =? 1) || (x / 16 =? 2)). }
  assert (Hhdr : ecss_get_pkt_hdr_size (spp_type h) = 6 + sec_size (spp_type h)
    /\ ecss_get_pkt_2nd_hdr_size (spp_type h) = sec_size (spp_type h)).
  { destruct Hty as [-> | ->]; split; reflexivity. }
  destruct Hhdr as [Hhdr H2nd]. split; [done|].
  unfold ecss_get_pkt_size, ecss_get_pld_size, ecss_get_payload, ecss_get_payload_offset.
  fold pkt. rewrite Hval. cbn [mbind option_bind]. unfold pkt at 3 4. cbv iota. fold pkt. rewrite El, Et.
  cbn [mbind option_bind]. rewrite Hhdr, H2nd.
  split; [by destruct v|]. split; [by destruct v|]. by destruct Hty as [-> | ->].
Qed.

(** Ecss_is_pkt_valid accepts a packet exactly if the CCSDS version is 0 and
    the version nibble of a secondary header, where there is one, is that of
    PUS A or C. The size of a valid packet is that of its primary header and
    data field (whose length is read modulo 2^16), its payload starts behind
    the secondary header of its type, and the payload size is the rest, modulo
    2^64; the sizes of an invalid packet are 0. *)
Theorem ecss_sizes b h x r : bytes (b ++ x :: r) -> length b = 6%nat -> spp_decode b = Some h ->
  let pkt := At (b ++ x :: r) in let v := pus_valid h (x / 16) in
  ecss_is_pkt_valid pkt = Some (Z.b2z v) /\
  ecss_get_pkt_size pkt = Some (if v then 6 + u16 (spp_len h + 1) else 0) /\
  ecss_get_pld_size pkt = Some (if v then u64 (u16 (spp_len h + 1) - sec_size (spp_type h)) else 0) /\
  ecss_get_payload pkt = Some (Some (6 + sec_size (spp_type h))) /\
  ecss_get_payload_offset pkt = Some (8 * (6 + sec_size (spp_type h))).
Proof. apply ecss_sizes_run. Qed.

Lemma ecss_sizes_witness :
  let pkt := At (ex_prim 1 ++ 0x20 :: [1; 2]) in
  ecss_is_pkt_valid pkt = Some 1 /\ ecss_get_pkt_size pkt = Some 25 /\
  ecss_get_pld_size pkt = Some 14 /\ ecss_get_payload pkt = Some (Some 11) /\
  ecss_get_payload_offset pkt = Some 88.
Proof.
  assert (Hb : bytes (ex_prim 1 ++ 0x20 :: [1; 2])) by (apply bytes_check; reflexivity).
  exact (ecss_sizes (ex_prim 1) (mk_spp 0 1 1 127 3 0 18) 0x20 [1; 2] Hb eq_refl eq_refl).
Defined.

(** A valid packet whose data field is shorter than the secondary header of its
    type (a packet without a secondary header, or a truncated one) has a
    payload size close to 2^64. *)
Theorem ecss_pld_size_wraps b h x r : bytes (b ++ x :: r) -> length b = 6%nat -> spp_decode b = Some h ->
  pus_valid h (x / 16) = true -> u16 (spp_len h + 1) < sec_size (spp_type h) ->
  exists n, ecss_get_pld_size (At (b ++ x :: r)) = Some n /\ 2 ^ 64 - 13 <= n.
Proof.
  intros Hb Hl Hd Hv Hs. destruct (ecss_sizes_run b h x r Hb Hl Hd) as (_ & _ & Hp & _).
  rewrite Hv in Hp. eexists. split; [exact Hp|].
  pose proof (u16_range (spp_len h + 1)) as Hr. unfold is_u16 in Hr. unfold u64.
  assert (0 < sec_size (spp_type h) <= 13) by (unfold sec_size; destruct (_ =? _); lia).
  set (d := u16 (spp_len h + 1) - sec_size (spp_type h)) in *.
  rewrite <- (Z.mod_unique d 18446744073709551616 (-1) (d + 18446744073709551616)); lia.
Qed.

Lemma ecss_pld_size_wraps_witness :
  exists n, ecss_get_pld_size (At ([0; 1; 0xc0; 0; 0; 3] ++ 0 :: [0; 0; 0])) = Some n /\ 2 ^ 64 - 13 <= n.
Proof.
  apply (ecss_pld_size_wraps [0; 1; 0xc0; 0; 0; 3] (mk_spp 0 0 0 1 3 0 3) 0 [0; 0; 0]);
    (apply bytes_check; reflexivity) || reflexivity.
Defined.

(** The maximum payload size does not leave room for the primary header: a
    packet with that much payload and a CRC is six octets longer than
    [AP_PKT_SIZE_MAX]. *)
Theorem eccs_max_pld_too_large t : t = 0 \/ t = 1 ->
  ecss_get_pkt_hdr_size t + eccs_get_max_pld_size t + PUS_ECSS_CRC_LEN = AP_PKT_SIZE_MAX + 6.
Proof. by intros [-> | ->]. Qed.

Lemma eccs_max_pld_too_large_witness :
  ecss_get_pkt_hdr_size 0 + eccs_get_max_pld_size 0 + PUS_ECSS_CRC_LEN = 4102.
Proof. apply (eccs_max_pld_too_large 0). by left. Defined.
