(* ===== verification/Gresb.v ===== *)
(** * GRESB packets (src/gresb.c, src/gresb.h)

    Both packet structures are four header octets followed by the data: an
    octet ([protocol], or the bit field [reserved:6, truncated:1, eeop:1] from
    the least significant bit, as GCC lays it out on the little-endian hosts of
    the bridge) and the data size as a 24-bit big-endian number. *)

From stdpp Require Import base tactics option list list_numbers.
From Stdlib Require Import ZArith Lia Bool.
From S2P Require Import Prelude.

Local Open Scope Z_scope.
Local Open Scope cmem_scope.

Definition GRESB_VLINK_MAX : Z := 5.
Definition GRESB_VLINK_PORT_BASE : Z := 3000.
Definition GRESB_VLINK_TX (link : Z) : Z := GRESB_VLINK_PORT_BASE + 2 * link.
Definition GRESB_VLINK_RX (link : Z) : Z := GRESB_VLINK_PORT_BASE + (2 * link + 1).
Definition GRESB_SNIFF_PORT : Z := 3064.

Definition GRESB_FROM_HOST_DATA : Z := 0.
Definition GRESB_FROM_HOST_SET_CFG : Z := 1.
Definition GRESB_FROM_HOST_GET_CFG : Z := 2.
Definition GRESB_FROM_HOST_SEND_TIME : Z := 3.

(** [sizeof(struct host_to_gresb_pkt)], the flexible array not counted *)
Definition GRESB_HDR_SIZE : Z := 4.

(** offsets of the members *)
Definition off_protocol : Z := 0.
Definition off_size (i : Z) : Z := 1 + i.
Definition off_data : Z := 4.

(** ** Host packets *)

Definition gresb_host_pkt_set_protocol (pkt : ptr) (protocol : Z) : option (Z * ptr) :=
  match pkt with
  | NULL => Some (-1, NULL)
  | At _ =>
      if (protocol =? GRESB_FROM_HOST_DATA) || (protocol =? GRESB_FROM_HOST_SET_CFG) ||
         (protocol =? GRESB_FROM_HOST_GET_CFG) || (protocol =? GRESB_FROM_HOST_SEND_TIME)
      then p ← pkt.[off_protocol <- protocol]; Some (0, p)
      else Some (-1, pkt)
  end.

Definition gresb_host_pkt_set_data_size (pkt : ptr) (size : Z) : option (Z * ptr) :=
  match pkt with
  | NULL => Some (-1, NULL)
  | At _ =>
      protocol ← pkt.[off_protocol];
      if negb (protocol =? GRESB_FROM_HOST_DATA) then Some (-1, pkt) else
      p ← pkt.[off_size 0 <- Z.land (Z.shiftr size 16) 0xff];
      p ← p.[off_size 1 <- Z.land (Z.shiftr size 8) 0xff];
      p ← p.[off_size 2 <- Z.land (Z.shiftr size 0) 0xff];
      Some (0, p)
  end.

(** the three size octets of either packet *)
Definition size_octets (pkt : ptr) : option Z :=
  s0 ← pkt.[off_size 0];
  s1 ← pkt.[off_size 1];
  s2 ← pkt.[off_size 2];
  let n := Z.land (Z.shiftl s0 16) 0xff0000 in
  let n := Z.lor n (Z.land (Z.shiftl s1 8) 0x00ff00) in
  Some (Z.lor n (Z.land (Z.shiftl s2 0) 0x0000ff)).

Definition gresb_host_pkt_get_data_size (pkt : ptr) : option Z :=
  protocol ← pkt.[off_protocol];
  if protocol =? GRESB_FROM_HOST_DATA then size_octets pkt else Some 0.

Definition gresb_pkt_get_data_size (pkt : ptr) : option Z := size_octets pkt.

(** [blk] is what [malloc(sizeof(struct host_to_gresb_pkt) + len)] returned:
    [NULL], or a block of that size with indeterminate contents. *)
Definition gresb_create_host_data_pkt (blk : ptr) (data : ptr) (len : Z) : option ptr :=
  match blk with
  | NULL => Some NULL
  | At _ =>
      '(_, p) ← gresb_host_pkt_set_protocol blk GRESB_FROM_HOST_DATA;
      '(_, p) ← gresb_host_pkt_set_data_size p len;
      match data, p with
      | At d, At b => d ← rdn d 0 len; b ← wrn b off_data d; Some (At b)
      | _, _ => Some p
      end
  end.

Definition gresb_get_host_data_pkt_size (buf : ptr) : option Z :=
  match buf with
  | NULL => Some 0
  | At _ => n ← gresb_host_pkt_get_data_size buf; Some (GRESB_HDR_SIZE + n)
  end.

(** ** Packets from the GRESB *)

(** the data pointer, as the offset into the packet; [None] is [NULL] *)
Definition gresb_get_spw_data (buf : ptr) : option Z :=
  match buf with NULL => None | At _ => Some off_data end.

Definition gresb_get_spw_data_size (buf : ptr) : option Z :=
  match buf with NULL => Some 0 | At _ => gresb_pkt_get_data_size buf end.

Definition gresb_get_spw_pkt_truncated (buf : ptr) : option Z :=
  match buf with
  | NULL => Some 0
  | At _ => b ← buf.[0]; Some (Z.land (Z.shiftr b 6) 1)
  end.

Definition gresb_get_spw_pkt_eeop (buf : ptr) : option Z :=
  match buf with
  | NULL => Some 0
  | At _ => b ← buf.[0]; Some (Z.land (Z.shiftr b 7) 1)
  end.

(** ** Virtual link ports; [link] is a [uint32_t] *)

Definition gresb_get_virtual_link_tx_port (link : Z) : Z :=
  if link >? GRESB_VLINK_MAX then -1 else GRESB_VLINK_TX link.

Definition gresb_get_virtual_link_rx_port (link : Z) : Z :=
  if link >? GRESB_VLINK_MAX then -1 else GRESB_VLINK_RX link.

(** ** The wire format *)

Definition be24 (n : Z) : list Z := [n / 65536 mod 256; n / 256 mod 256; n mod 256].

(** the packet the standard asks for *)
Definition gresb_frame (d : list Z) : list Z := 0 :: be24 (zlen d) ++ d.

(** ** Lemmas *)

Lemma be24_bytes n : bytes (be24 n).
Proof.
  unfold be24, bytes. repeat (apply Forall_cons; split; [apply Z.mod_pos_bound; lia|]). done.
Qed.

Lemma be24_value n : n / 65536 mod 256 * 65536 + n / 256 mod 256 * 256 + n mod 256 = n mod 16777216.
Proof. dlia. Qed.

Lemma octet_at n k : 0 <= k -> u8 (Z.land (Z.shiftr n k) 0xff) = n / 2 ^ k mod 256.
Proof.
  intros. rewrite (land_mask _ 0xff 8), shiftr_div by done. change (2 ^ 8) with 256.
  unfold u8. by rewrite Z.mod_mod by lia.
Qed.

Lemma size_combine a b c : is_byte a -> is_byte b -> is_byte c ->
  Z.lor (Z.lor (Z.land (Z.shiftl a 16) 0xff0000) (Z.land (Z.shiftl b 8) 0x00ff00))
        (Z.land (Z.shiftl c 0) 0x0000ff) = a * 65536 + b * 256 + c.
Proof.
  intros Ha Hb Hc.
  assert (Hm : forall x k, is_byte x -> 0 <= k ->
    Z.land (Z.shiftl x k) (Z.shiftl 0xff k) = Z.shiftl x k).
  { intros x k Hx Hk. rewrite <- Z.shiftl_land, land_ff by done. done. }
  change 0xff0000 with (Z.shiftl 0xff 16). change 0x00ff00 with (Z.shiftl 0xff 8).
  rewrite !Hm by (done || lia). rewrite Z.shiftl_0_r, ?land_ff by done.
  change (Z.shiftl a 16) with (Z.shiftl a (8 + 8)).
  rewrite <- (Z.shiftl_shiftl a 8 8) by lia. rewrite <- Z.shiftl_lor.
  rewrite !be16_lor by done. lia.
Qed.

Lemma size_octets_eval p0 s0 s1 s2 r : is_byte s0 -> is_byte s1 -> is_byte s2 ->
  size_octets (At (p0 :: s0 :: s1 :: s2 :: r)) = Some (s0 * 65536 + s1 * 256 + s2).
Proof.
  intros H0 H1 H2. unfold size_octets, load, off_size.
  repeat (autorewrite with crd; simpl). by rewrite size_combine.
Qed.

Lemma size_octets_be24 p0 n r :
  size_octets (At (p0 :: be24 n ++ r)) = Some (n mod 16777216).
Proof.
  unfold be24. simpl app.
  rewrite size_octets_eval by (apply Z.mod_pos_bound; lia). by rewrite be24_value.
Qed.

Lemma wrn_tail a b d : zlen b = zlen d -> wrn (a ++ b) (zlen a) d = Some (a ++ d).
Proof.
  intros Hl. rewrite wrn_in by zl. unfold zlen in *. rewrite Nat2Z.id, take_app_length.
  rewrite drop_ge; [by rewrite app_nil_r|]. rewrite length_app. lia.
Qed.

Lemma create_frame blk d r :
  zlen blk = GRESB_HDR_SIZE + zlen d ->
  gresb_create_host_data_pkt (At blk) (At (d ++ r)) (zlen d) = Some (At (gresb_frame d)).
Proof.
  intros Hl. unfold GRESB_HDR_SIZE in Hl.
  destruct blk as [|c0 [|c1 [|c2 [|c3 t]]]]; try (exfalso; zl).
  unfold gresb_create_host_data_pkt, gresb_host_pkt_set_protocol,
    gresb_host_pkt_set_data_size, store, load, off_size, off_protocol.
  repeat (autorewrite with crd; simpl).
  pose proof (rdn_app [] d r) as Hr. simpl app in Hr. change (zlen (@nil Z)) with 0 in Hr.
  rewrite Hr. simpl. rewrite !octet_at by lia.
  pose proof (wrn_tail [u8 0; zlen d / 2 ^ 16 mod 256; zlen d / 2 ^ 8 mod 256; zlen d / 2 ^ 0 mod 256] t d
    ltac:(zl)) as Hw. simpl app in Hw. change (zlen [_; _; _; _]) with off_data in Hw.
  change (u8 GRESB_FROM_HOST_DATA) with (u8 0). rewrite Hw. simpl. unfold gresb_frame, be24. change (2 ^ 16) with 65536.
  change (2 ^ 8) with 256. change (2 ^ 0) with 1. by rewrite Z.div_1_r.
Qed.

Lemma host_size_frame d :
  gresb_get_host_data_pkt_size (At (gresb_frame d)) = Some (GRESB_HDR_SIZE + zlen d mod 16777216).
Proof.
  unfold gresb_get_host_data_pkt_size, gresb_host_pkt_get_data_size, gresb_frame.
  rewrite size_octets_be24. auto.
Qed.

Lemma zlen_frame_gresb d : zlen (gresb_frame d) = GRESB_HDR_SIZE + zlen d.
Proof. unfold gresb_frame, be24, GRESB_HDR_SIZE. zl. Qed.

(** ** Properties *)

(** for every SpaceWire packet [d], whatever its length, the packet made
    for the host is the protocol octet 0, the length as 24 big-endian bits and
    the data; the sizes read back from it are the length modulo 2^24, so they
    are the length itself exactly when the packet is shorter than 2^24. *)
Theorem gresb_create_correct blk d r :
  zlen blk = GRESB_HDR_SIZE + zlen d ->
  exists p, gresb_create_host_data_pkt (At blk) (At (d ++ r)) (zlen d) = Some p /\
    p = At (gresb_frame d) /\
    gresb_get_host_data_pkt_size p = Some (GRESB_HDR_SIZE + zlen d mod 16777216) /\
    gresb_get_spw_data_size p = Some (zlen d mod 16777216).
Proof.
  intros Hl. exists (At (gresb_frame d)). rewrite create_frame by done.
  unfold gresb_get_host_data_pkt_size, gresb_host_pkt_get_data_size, gresb_get_spw_data_size,
    gresb_pkt_get_data_size, gresb_frame.
  rewrite size_octets_be24. auto.
Qed.

Lemma gresb_create_correct_witness :
  exists p, gresb_create_host_data_pkt (At [9;9;9;9;9;9]) (At ([1;2] ++ [3])) 2 = Some p /\
    p = At [0;0;0;2;1;2] /\ gresb_get_host_data_pkt_size p = Some 6.
Proof.
  destruct (gresb_create_correct [9;9;9;9;9;9] [1;2] [3] eq_refl) as (p & Hc & Hp & Hs & _).
  exists p. split; [exact Hc|]. split; [exact Hp|exact Hs].
Defined.

(** C25: The GRESB envelope is transparent: unwrapping what
    [gresb_create_host_data_pkt] made, with the size and data accessors of the
    other direction, gives back the SpaceWire packet, for every packet of less
    than 2^24 octets. *)
Theorem gresb_roundtrip blk d r p :
  zlen blk = GRESB_HDR_SIZE + zlen d -> zlen d < 16777216 ->
  gresb_create_host_data_pkt (At blk) (At (d ++ r)) (zlen d) = Some (At p) ->
  exists n off, gresb_get_spw_data_size (At p) = Some n /\
    gresb_get_spw_data (At p) = Some off /\ rdn p off n = Some d /\
    gresb_get_spw_pkt_truncated (At p) = Some 0 /\ gresb_get_spw_pkt_eeop (At p) = Some 0.
Proof.
  intros Hl Hd. rewrite create_frame by done. intros [= <-].
  exists (zlen d), off_data. unfold gresb_get_spw_data_size, gresb_pkt_get_data_size, gresb_frame.
  rewrite size_octets_be24, Z.mod_small by zl.
  split; [done|]. split; [done|]. split; [|done].
  pose proof (rdn_app (0 :: be24 (zlen d)) d []) as H. rewrite app_nil_r in H. exact H.
Qed.

Lemma gresb_roundtrip_witness :
  exists n off, gresb_get_spw_data_size (At [0;0;0;2;1;2]) = Some n /\
    gresb_get_spw_data (At [0;0;0;2;1;2]) = Some off /\ rdn [0;0;0;2;1;2] off n = Some [1;2] /\
    gresb_get_spw_pkt_truncated (At [0;0;0;2;1;2]) = Some 0 /\
    gresb_get_spw_pkt_eeop (At [0;0;0;2;1;2]) = Some 0.
Proof.
  apply (gresb_roundtrip [9;9;9;9;9;9] [1;2] [] [0;0;0;2;1;2]); vm_compute; reflexivity.
Defined.

(** the virtual link ports are pairwise distinct over links and
    directions, even for transmit and odd for receive, never the sniffer port,
    and an unknown link is refused in both directions. *)
Theorem gresb_ports_distinct l1 l2 :
  0 <= l1 <= GRESB_VLINK_MAX -> 0 <= l2 ->
  (gresb_get_virtual_link_tx_port l1 = gresb_get_virtual_link_tx_port l2 <-> l1 = l2) /\
  (gresb_get_virtual_link_rx_port l1 = gresb_get_virtual_link_rx_port l2 <-> l1 = l2) /\
  gresb_get_virtual_link_tx_port l1 <> gresb_get_virtual_link_rx_port l2 /\
  gresb_get_virtual_link_tx_port l1 mod 2 = 0 /\
  gresb_get_virtual_link_rx_port l1 mod 2 = 1 /\
  3000 <= gresb_get_virtual_link_tx_port l1 <= 3010 /\
  3001 <= gresb_get_virtual_link_rx_port l1 <= 3011 /\
  gresb_get_virtual_link_tx_port l1 <> GRESB_SNIFF_PORT /\
  (GRESB_VLINK_MAX < l2 ->
   gresb_get_virtual_link_tx_port l2 = -1 /\ gresb_get_virtual_link_rx_port l2 = -1).
Proof.
  unfold gresb_get_virtual_link_tx_port, gresb_get_virtual_link_rx_port, GRESB_VLINK_TX,
    GRESB_VLINK_RX, GRESB_VLINK_PORT_BASE, GRESB_SNIFF_PORT, GRESB_VLINK_MAX.
  intros H1 H2. destruct (Z.gtb_spec l1 5), (Z.gtb_spec l2 5); try lia; repeat split; dlia.
Qed.

Lemma gresb_ports_distinct_witness :
  gresb_get_virtual_link_tx_port 3 <> gresb_get_virtual_link_rx_port 2 /\
  gresb_get_virtual_link_tx_port 3 = 3006.
Proof.
  destruct (gresb_ports_distinct 3 2) as (_ & _ & H & _).
  - unfold GRESB_VLINK_MAX. lia.
  - lia.
  - split; [exact H|reflexivity].
Defined.
