(* ===== verification/Rmap.v ===== *)
(** * RMAP packets (src/rmap.c, src/rmap.h)

    The packet structure, its setters, the header writer, the parser of a
    received buffer, the debug decoder and the CRC-8.  A [struct rmap_pkt *]
    is an [option rmap_pkt] ([None] is [NULL]); an allocation that can fail is
    a boolean argument that says whether it succeeds.  The one-octet
    instruction union is kept as the octet; its bit fields are laid out from
    the least significant bit, as in the little-endian branch of rmap.h. *)

From Stdlib Require Import String List.
From stdpp Require Import base tactics option list list_numbers.
From Stdlib Require Import ZArith Lia Bool.
From S2P Require Import Prelude.

Local Open Scope Z_scope.
Local Open Scope cmem_scope.

(** ** Constants of rmap.h *)

Definition RMAP_CMD_BIT_WRITE : Z := 0x8.
Definition RMAP_CMD_BIT_VERIFY : Z := 0x4.
Definition RMAP_CMD_BIT_REPLY : Z := 0x2.
Definition RMAP_CMD_BIT_INC : Z := 0x1.
Definition RMAP_READ_ADDR_SINGLE : Z := 0x2.
Definition RMAP_READ_ADDR_INC : Z := 0x3.
Definition RMAP_READ_MODIFY_WRITE_ADDR_INC : Z := 0x7.
Definition RMAP_WRITE_ADDR_SINGLE : Z := 0x8.
Definition RMAP_WRITE_ADDR_INC : Z := 0x9.
Definition RMAP_WRITE_ADDR_SINGLE_REPLY : Z := 0xa.
Definition RMAP_WRITE_ADDR_INC_REPLY : Z := 0xb.
Definition RMAP_WRITE_ADDR_SINGLE_VERIFY : Z := 0xc.
Definition RMAP_WRITE_ADDR_INC_VERIFY : Z := 0xd.
Definition RMAP_WRITE_ADDR_SINGLE_VERIFY_REPLY : Z := 0xe.
Definition RMAP_WRITE_ADDR_INC_VERIFY_REPLY : Z := 0xf.
Definition RMAP_PROTOCOL_ID : Z := 0x01.
Definition RMAP_HDR_MIN_SIZE_WRITE_CMD : Z := 15.
Definition RMAP_HDR_MIN_SIZE_WRITE_REP : Z := 7.
Definition RMAP_HDR_MIN_SIZE_READ_CMD : Z := RMAP_HDR_MIN_SIZE_WRITE_CMD.
Definition RMAP_HDR_MIN_SIZE_READ_REP : Z := 11.
Definition RMAP_DEST_ADDRESS : Z := 0x00.
Definition RMAP_PROTOCOL_ID_OFFSET : Z := 0x01.
Definition RMAP_INSTRUCTION : Z := 0x02.
Definition RMAP_CMD_DESTKEY : Z := 0x03.
Definition RMAP_REPLY_STATUS : Z := RMAP_CMD_DESTKEY.
Definition RMAP_REPLY_ADDR_START : Z := 0x04.
Definition RMAP_SRC_ADDR : Z := 0x04.
Definition RMAP_TRANS_ID_BYTE0 : Z := 0x05.
Definition RMAP_TRANS_ID_BYTE1 : Z := 0x06.
Definition RMAP_ADDR_BYTE0 : Z := 0x08.
Definition RMAP_ADDR_BYTE1 : Z := 0x09.
Definition RMAP_ADDR_BYTE2 : Z := 0x0a.
Definition RMAP_ADDR_BYTE3 : Z := 0x0b.
Definition RMAP_ADDR_EXTRA_OFFSET : Z := 4.
Definition RMAP_DATALEN_BYTE0 : Z := 0x08.
Definition RMAP_DATALEN_BYTE1 : Z := 0x09.
Definition RMAP_DATALEN_BYTE2 : Z := 0x0a.
Definition RMAP_HEADER_CRC : Z := 0x0b.
Definition RMAP_DATA_START : Z := 0x0c.
Definition RMAP_MAX_PATH_LEN : Z := 15.
Definition RMAP_MAX_REPLY_PATH_LEN : Z := 12.
Definition RMAP_MAX_DATA_LEN : Z := 0xFFFFFF.

(** ** The instruction octet *)

Definition ri_reply_addr_len (i : Z) : Z := Z.land i 3.
Definition ri_cmd (i : Z) : Z := Z.land (Z.shiftr i 2) 0xf.
Definition ri_cmd_resp (i : Z) : Z := Z.land (Z.shiftr i 6) 1.

Definition set_ri_reply_addr_len (i v : Z) : Z :=
  Z.lor (Z.land i (u8 (Z.lnot 3))) (Z.land v 3).
Definition set_ri_cmd (i v : Z) : Z :=
  Z.lor (Z.land i (u8 (Z.lnot (Z.shiftl 0xf 2)))) (Z.shiftl (Z.land v 0xf) 2).
Definition set_ri_cmd_resp (i v : Z) : Z :=
  Z.lor (Z.land i (u8 (Z.lnot (Z.shiftl 1 6)))) (Z.shiftl (Z.land v 1) 6).

(** ** The packet structure *)

Record rmap_pkt : Type := mk_rmap {
  path : ptr; (* path to the target *)
  path_len : Z;
  dst : Z; (* target logical address *)
  proto_id : Z;
  instruction : Z; (* [ri] is a view of this octet *)
  key : Z; (* [key] or [status] *)
  src : Z; (* initiator logical address *)
  rpath : ptr; (* reply path *)
  rpath_len : Z;
  tr_id : Z;
  addr : Z;
  data : ptr;
  data_len : Z;
  hdr_crc : Z;
  data_crc : Z
}.

Definition with_path (p : rmap_pkt) (v_path : ptr) : rmap_pkt :=
  mk_rmap v_path (path_len p) (dst p) (proto_id p) (instruction p) (key p) (src p) (rpath p) (rpath_len p) (tr_id p) (addr p) (data p) (data_len p) (hdr_crc p) (data_crc p).

Definition with_path_len (p : rmap_pkt) (v_path_len : Z) : rmap_pkt :=
  mk_rmap (path p) v_path_len (dst p) (proto_id p) (instruction p) (key p) (src p) (rpath p) (rpath_len p) (tr_id p) (addr p) (data p) (data_len p) (hdr_crc p) (data_crc p).

Definition with_dst (p : rmap_pkt) (v_dst : Z) : rmap_pkt :=
  mk_rmap (path p) (path_len p) v_dst (proto_id p) (instruction p) (key p) (src p) (rpath p) (rpath_len p) (tr_id p) (addr p) (data p) (data_len p) (hdr_crc p) (data_crc p).

Definition with_proto_id (p : rmap_pkt) (v_proto_id : Z) : rmap_pkt :=
  mk_rmap (path p) (path_len p) (dst p) v_proto_id (instruction p) (key p) (src p) (rpath p) (rpath_len p) (tr_id p) (addr p) (data p) (data_len p) (hdr_crc p) (data_crc p).

Definition with_instruction (p : rmap_pkt) (v_instruction : Z) : rmap_pkt :=
  mk_rmap (path p) (path_len p) (dst p) (proto_id p) v_instruction (key p) (src p) (rpath p) (rpath_len p) (tr_id p) (addr p) (data p) (data_len p) (hdr_crc p) (data_crc p).

Definition with_key (p : rmap_pkt) (v_key : Z) : rmap_pkt :=
  mk_rmap (path p) (path_len p) (dst p) (proto_id p) (instruction p) v_key (src p) (rpath p) (rpath_len p) (tr_id p) (addr p) (data p) (data_len p) (hdr_crc p) (data_crc p).

Definition with_src (p : rmap_pkt) (v_src : Z) : rmap_pkt :=
  mk_rmap (path p) (path_len p) (dst p) (proto_id p) (instruction p) (key p) v_src (rpath p) (rpath_len p) (tr_id p) (addr p) (data p) (data_len p) (hdr_crc p) (data_crc p).

Definition with_rpath (p : rmap_pkt) (v_rpath : ptr) : rmap_pkt :=
  mk_rmap (path p) (path_len p) (dst p) (proto_id p) (instruction p) (key p) (src p) v_rpath (rpath_len p) (tr_id p) (addr p) (data p) (data_len p) (hdr_crc p) (data_crc p).

Definition with_rpath_len (p : rmap_pkt) (v_rpath_len : Z) : rmap_pkt :=
  mk_rmap (path p) (path_len p) (dst p) (proto_id p) (instruction p) (key p) (src p) (rpath p) v_rpath_len (tr_id p) (addr p) (data p) (data_len p) (hdr_crc p) (data_crc p).

Definition with_tr_id (p : rmap_pkt) (v_tr_id : Z) : rmap_pkt :=
  mk_rmap (path p) (path_len p) (dst p) (proto_id p) (instruction p) (key p) (src p) (rpath p) (rpath_len p) v_tr_id (addr p) (data p) (data_len p) (hdr_crc p) (data_crc p).

Definition with_addr (p : rmap_pkt) (v_addr : Z) : rmap_pkt :=
  mk_rmap (path p) (path_len p) (dst p) (proto_id p) (instruction p) (key p) (src p) (rpath p) (rpath_len p) (tr_id p) v_addr (data p) (data_len p) (hdr_crc p) (data_crc p).

Definition with_data (p : rmap_pkt) (v_data : ptr) : rmap_pkt :=
  mk_rmap (path p) (path_len p) (dst p) (proto_id p) (instruction p) (key p) (src p) (rpath p) (rpath_len p) (tr_id p) (addr p) v_data (data_len p) (hdr_crc p) (data_crc p).

Definition with_data_len (p : rmap_pkt) (v_data_len : Z) : rmap_pkt :=
  mk_rmap (path p) (path_len p) (dst p) (proto_id p) (instruction p) (key p) (src p) (rpath p) (rpath_len p) (tr_id p) (addr p) (data p) v_data_len (hdr_crc p) (data_crc p).

Definition with_hdr_crc (p : rmap_pkt) (v_hdr_crc : Z) : rmap_pkt :=
  mk_rmap (path p) (path_len p) (dst p) (proto_id p) (instruction p) (key p) (src p) (rpath p) (rpath_len p) (tr_id p) (addr p) (data p) (data_len p) v_hdr_crc (data_crc p).

Definition with_data_crc (p : rmap_pkt) (v_data_crc : Z) : rmap_pkt :=
  mk_rmap (path p) (path_len p) (dst p) (proto_id p) (instruction p) (key p) (src p) (rpath p) (rpath_len p) (tr_id p) (addr p) (data p) (data_len p) (hdr_crc p) v_data_crc.

#[export] Instance rmap_pkt_eq_dec : EqDecision rmap_pkt.
Proof. solve_decision. Defined.

(** ** Construction *)

Definition rmap_validate_cmd_code (cmd : Z) : Z :=
  if (cmd =? RMAP_READ_ADDR_SINGLE) || (cmd =? RMAP_READ_ADDR_INC) ||
     (cmd =? RMAP_READ_MODIFY_WRITE_ADDR_INC) || (cmd =? RMAP_WRITE_ADDR_SINGLE) ||
     (cmd =? RMAP_WRITE_ADDR_INC) || (cmd =? RMAP_WRITE_ADDR_SINGLE_REPLY) ||
     (cmd =? RMAP_WRITE_ADDR_INC_REPLY) || (cmd =? RMAP_WRITE_ADDR_SINGLE_VERIFY) ||
     (cmd =? RMAP_WRITE_ADDR_INC_VERIFY) || (cmd =? RMAP_WRITE_ADDR_SINGLE_VERIFY_REPLY) ||
     (cmd =? RMAP_WRITE_ADDR_INC_VERIFY_REPLY)
  then 0 else -1.

Definition rmap_get_min_hdr_size (pkt : rmap_pkt) : Z :=
  let cmd := ri_cmd (instruction pkt) in
  if (cmd =? RMAP_READ_ADDR_SINGLE) || (cmd =? RMAP_READ_ADDR_INC) ||
     (cmd =? RMAP_READ_MODIFY_WRITE_ADDR_INC)
  then if c_true (ri_cmd_resp (instruction pkt))
       then RMAP_HDR_MIN_SIZE_READ_CMD else RMAP_HDR_MIN_SIZE_READ_REP
  else
  if (cmd =? RMAP_WRITE_ADDR_SINGLE) || (cmd =? RMAP_WRITE_ADDR_INC) ||
     (cmd =? RMAP_WRITE_ADDR_SINGLE_REPLY) || (cmd =? RMAP_WRITE_ADDR_INC_REPLY) ||
     (cmd =? RMAP_WRITE_ADDR_SINGLE_VERIFY) || (cmd =? RMAP_WRITE_ADDR_INC_VERIFY) ||
     (cmd =? RMAP_WRITE_ADDR_SINGLE_VERIFY_REPLY) || (cmd =? RMAP_WRITE_ADDR_INC_VERIFY_REPLY)
  then if c_true (ri_cmd_resp (instruction pkt))
       then RMAP_HDR_MIN_SIZE_WRITE_CMD else RMAP_HDR_MIN_SIZE_WRITE_REP
  else -1.

(** [calloc]ed, so every other member is zero *)
Definition rmap_create_packet (alloc : bool) : option rmap_pkt :=
  if alloc
  then Some (mk_rmap NULL 0 0 RMAP_PROTOCOL_ID 0 0 0 NULL 0 0 0 NULL 0 0 0)
  else None.

Definition rmap_set_dst (pkt : option rmap_pkt) (a : Z) : option rmap_pkt :=
  match pkt with None => None | Some p => Some (with_dst p a) end.

Definition rmap_set_src (pkt : option rmap_pkt) (a : Z) : option rmap_pkt :=
  match pkt with None => None | Some p => Some (with_src p a) end.

Definition rmap_set_key (pkt : option rmap_pkt) (k : Z) : option rmap_pkt :=
  match pkt with None => None | Some p => Some (with_key p k) end.

Definition rmap_set_tr_id (pkt : option rmap_pkt) (id : Z) : option rmap_pkt :=
  match pkt with None => None | Some p => Some (with_tr_id p id) end.

Definition rmap_set_data_addr (pkt : option rmap_pkt) (a : Z) : option rmap_pkt :=
  match pkt with None => None | Some p => Some (with_addr p a) end.

Definition rmap_set_data_len (pkt : option rmap_pkt) (len : Z) : Z * option rmap_pkt :=
  match pkt with
  | None => (-1, None)
  | Some p =>
      if len >? RMAP_MAX_DATA_LEN then (-1, pkt) else (0, Some (with_data_len p (u32 len)))
  end.

Definition rmap_set_cmd (pkt : option rmap_pkt) (cmd : Z) : Z * option rmap_pkt :=
  match pkt with
  | None => (-1, None)
  | Some p =>
      if c_true (rmap_validate_cmd_code cmd) then (-1, pkt) else
      let p := with_instruction p (set_ri_cmd (instruction p) (u8 (Z.land cmd 0xF))) in
      let p := with_instruction p (set_ri_cmd_resp (instruction p) 1) in
      (0, Some p)
  end.

(** The outer [option] is undefined behaviour: reading [rpath] out of bounds. *)
Definition rmap_set_reply_path (alloc : bool) (pkt : option rmap_pkt) (rp : ptr) (len : Z)
  : option (Z * option rmap_pkt) :=
  match pkt with
  | None => Some (-1, None)
  | Some p =>
      if bool_decide (rp = NULL) && c_true len then Some (-1, pkt) else
      if len >? RMAP_MAX_REPLY_PATH_LEN then Some (-1, pkt) else
      if c_true (Z.land len 0x3) then Some (-1, pkt) else
      let p := with_rpath_len p len in
      let set_words p :=
        with_instruction p (set_ri_reply_addr_len (instruction p) (u8 (Z.shiftr len 2))) in
      if c_true len then
        if alloc then
          match rp with
          | NULL => None
          | At b => d ← rdn b 0 len; Some (0, Some (set_words (with_rpath p (At d))))
          end
        else Some (-1, Some (with_rpath p NULL))
      else Some (0, Some (set_words p))
  end.

Definition rmap_set_dest_path (alloc : bool) (pkt : option rmap_pkt) (pa : ptr) (len : Z)
  : option (Z * option rmap_pkt) :=
  match pkt with
  | None => Some (-1, None)
  | Some p =>
      if bool_decide (pa = NULL) && c_true len then Some (-1, pkt) else
      if len >? RMAP_MAX_PATH_LEN then Some (-1, pkt) else
      let p := with_path_len p len in
      if alloc then
        match pa with
        | NULL => Some (0, Some (with_path p (At [])))
        | At b => d ← rdn b 0 len; Some (0, Some (with_path p (At d)))
        end
      else Some (-1, Some (with_path p NULL))
  end.

(** ** Header writer *)

(** [hdr[n++] = v] *)
Definition put (st : ptr * Z) (v : Z) : option (ptr * Z) :=
  h ← store st.1 st.2 v; Some (h, st.2 + 1).

Fixpoint put_path (pa : ptr) (i : Z) (cnt : nat) (st : ptr * Z) : option (ptr * Z) :=
  match cnt with
  | O => Some st
  | S cnt' => v ← pa.[i]; st ← put st v; put_path pa (i + 1) cnt' st
  end.

(** the writer proper, from the routing path to the data length *)
Definition build_hdr_fields (p : rmap_pkt) (st : ptr * Z) : option (ptr * Z) :=
  st ← put_path (path p) 0 (Z.to_nat (path_len p)) st;
  st ← put st (dst p);
  st ← put st (proto_id p);
  st ← put st (instruction p);
  st ← put st (key p);
  st ← put_path (rpath p) 0 (Z.to_nat (rpath_len p)) st;
  st ← put st (src p);
  st ← put st (u8 (Z.shiftr (tr_id p) 8));
  st ← put st (u8 (tr_id p));
  let put_len st :=
    st ← put st (u8 (Z.shiftr (data_len p) 16));
    st ← put st (u8 (Z.shiftr (data_len p) 8));
    put st (u8 (data_len p)) in
  if c_true (ri_cmd_resp (instruction p)) then
    st ← put st 0x0;
    st ← put st (u8 (Z.shiftr (addr p) 24));
    st ← put st (u8 (Z.shiftr (addr p) 16));
    st ← put st (u8 (Z.shiftr (addr p) 8));
    st ← put st (u8 (addr p));
    put_len st
  else if negb (c_true (ri_cmd_resp (instruction p))) &&
          c_true (Z.land (ri_cmd (instruction p)) RMAP_CMD_BIT_WRITE)
  then Some st
  else st ← put st 0x0; put_len st.

Definition rmap_build_hdr (pkt : option rmap_pkt) (hdr : ptr) : option (Z * ptr) :=
  match pkt, hdr with
  | None, _ => Some (-1, hdr)
  | Some p, NULL =>
      let n := rmap_get_min_hdr_size p in
      let n := n + path_len p in
      let n := n + rpath_len p in
      Some (n, NULL)
  | Some p, At _ =>
      st ← build_hdr_fields p (hdr, 0);
      Some (st.2, st.1)
  end.

(** ** CRC-8 *)

Definition crc8_lt : list Z :=
  [0x00; 0x91; 0xe3; 0x72; 0x07; 0x96; 0xe4; 0x75;
   0x0e; 0x9f; 0xed; 0x7c; 0x09; 0x98; 0xea; 0x7b;
   0x1c; 0x8d; 0xff; 0x6e; 0x1b; 0x8a; 0xf8; 0x69;
   0x12; 0x83; 0xf1; 0x60; 0x15; 0x84; 0xf6; 0x67;
   0x38; 0xa9; 0xdb; 0x4a; 0x3f; 0xae; 0xdc; 0x4d;
   0x36; 0xa7; 0xd5; 0x44; 0x31; 0xa0; 0xd2; 0x43;
   0x24; 0xb5; 0xc7; 0x56; 0x23; 0xb2; 0xc0; 0x51;
   0x2a; 0xbb; 0xc9; 0x58; 0x2d; 0xbc; 0xce; 0x5f;
   0x70; 0xe1; 0x93; 0x02; 0x77; 0xe6; 0x94; 0x05;
   0x7e; 0xef; 0x9d; 0x0c; 0x79; 0xe8; 0x9a; 0x0b;
   0x6c; 0xfd; 0x8f; 0x1e; 0x6b; 0xfa; 0x88; 0x19;
   0x62; 0xf3; 0x81; 0x10; 0x65; 0xf4; 0x86; 0x17;
   0x48; 0xd9; 0xab; 0x3a; 0x4f; 0xde; 0xac; 0x3d;
   0x46; 0xd7; 0xa5; 0x34; 0x41; 0xd0; 0xa2; 0x33;
   0x54; 0xc5; 0xb7; 0x26; 0x53; 0xc2; 0xb0; 0x21;
   0x5a; 0xcb; 0xb9; 0x28; 0x5d; 0xcc; 0xbe; 0x2f;
   0xe0; 0x71; 0x03; 0x92; 0xe7; 0x76; 0x04; 0x95;
   0xee; 0x7f; 0x0d; 0x9c; 0xe9; 0x78; 0x0a; 0x9b;
   0xfc; 0x6d; 0x1f; 0x8e; 0xfb; 0x6a; 0x18; 0x89;
   0xf2; 0x63; 0x11; 0x80; 0xf5; 0x64; 0x16; 0x87;
   0xd8; 0x49; 0x3b; 0xaa; 0xdf; 0x4e; 0x3c; 0xad;
   0xd6; 0x47; 0x35; 0xa4; 0xd1; 0x40; 0x32; 0xa3;
   0xc4; 0x55; 0x27; 0xb6; 0xc3; 0x52; 0x20; 0xb1;
   0xca; 0x5b; 0x29; 0xb8; 0xcd; 0x5c; 0x2e; 0xbf;
   0x90; 0x01; 0x73; 0xe2; 0x97; 0x06; 0x74; 0xe5;
   0x9e; 0x0f; 0x7d; 0xec; 0x99; 0x08; 0x7a; 0xeb;
   0x8c; 0x1d; 0x6f; 0xfe; 0x8b; 0x1a; 0x68; 0xf9;
   0x82; 0x13; 0x61; 0xf0; 0x85; 0x14; 0x66; 0xf7;
   0xa8; 0x39; 0x4b; 0xda; 0xaf; 0x3e; 0x4c; 0xdd;
   0xa6; 0x37; 0x45; 0xd4; 0xa1; 0x30; 0x42; 0xd3;
   0xb4; 0x25; 0x57; 0xc6; 0xb3; 0x22; 0x50; 0xc1;
   0xba; 0x2b; 0x59; 0xc8; 0xbd; 0x2c; 0x5e; 0xcf].

Fixpoint rmap_crc8_loop (b : list Z) (i : Z) (n : nat) (crc8 : Z) : option Z :=
  match n with
  | O => Some crc8
  | S n' =>
      v ← rd b i;
      crc8 ← rd crc8_lt (Z.lxor crc8 v);
      rmap_crc8_loop b (i + 1) n' crc8
  end.

Definition rmap_crc8 (buf : ptr) (len : Z) : option Z :=
  match buf with
  | NULL => Some 0
  | At b => rmap_crc8_loop b 0 (Z.to_nat len) 0
  end.

(** ** Multi-octet fields of a received buffer *)

Definition get_be16 (b : list Z) (i : Z) : option Z :=
  x ← rd b i; y ← rd b (i + 1); Some (Z.lor (u16 (Z.shiftl x 8)) y).

Definition get_be24 (b : list Z) (i : Z) : option Z :=
  x ← rd b i; y ← rd b (i + 1); z ← rd b (i + 2);
  Some (Z.lor (Z.lor (u32 (Z.shiftl x 16)) (u32 (Z.shiftl y 8))) z).

Definition get_be32 (b : list Z) (i : Z) : option Z :=
  x ← rd b i; y ← rd b (i + 1); z ← rd b (i + 2); w ← rd b (i + 3);
  Some (Z.lor (Z.lor (Z.lor (u32 (Z.shiftl x 24)) (u32 (Z.shiftl y 16)))
                     (u32 (Z.shiftl z 8))) w).

(** ** Parser *)

(** the allocations of the parser: whether each succeeds *)
Record allocs : Type := mk_allocs { al_pkt : bool; al_rpath : bool; al_data : bool }.

(** [for (i = 0; i < n; i++) dst[i] = buf[off + i]] into a fresh [dst] *)
Fixpoint copy_from (b : list Z) (off : Z) (n : nat) : option (list Z) :=
  match n with
  | O => Some []
  | S n' => v ← rd b off; l ← copy_from b (off + 1) n'; Some (v :: l)
  end.

(** reply path: [None] undefined, [Some None] the error exit *)
Definition from_buffer_rpath (al : allocs) (min_hdr_size : Z) (p : rmap_pkt)
    (b : list Z) (len : Z) : option (option (rmap_pkt * Z)) :=
  if c_true (ri_cmd_resp (instruction p)) then
    let p := with_rpath_len p (u8 (Z.shiftl (ri_reply_addr_len (instruction p)) 2)) in
    if len <? min_hdr_size + rpath_len p then Some None else
    if negb (al_rpath al) then Some None else
    d ← copy_from b RMAP_REPLY_ADDR_START (Z.to_nat (rpath_len p));
    Some (Some (with_rpath p (At d), rpath_len p))
  else Some (Some (p, 0)).

(** source, transaction id, address, data length and header CRC *)
Definition from_buffer_fields (p : rmap_pkt) (b : list Z) (n len : Z)
  : option (rmap_pkt * Z) :=
  v ← rd b (RMAP_SRC_ADDR + n);
  t ← get_be16 b (RMAP_TRANS_ID_BYTE0 + n);
  let p := with_tr_id (with_src p v) t in
  '(p, n) ← (if c_true (ri_cmd_resp (instruction p)) then
               a ← get_be32 b (RMAP_ADDR_BYTE0 + n); Some (with_addr p a, n + 4)
             else Some (p, n));
  p ← (if negb (negb (c_true (ri_cmd_resp (instruction p))) &&
                c_true (Z.land (ri_cmd (instruction p)) RMAP_CMD_BIT_WRITE))
       then l ← get_be24 b (RMAP_DATALEN_BYTE0 + n); Some (with_data_len p l)
       else Some p);
  p ← (if len >? RMAP_HEADER_CRC
       then c ← rd b RMAP_HEADER_CRC; Some (with_hdr_crc p c) else Some p);
  Some (p, n).

Definition from_buffer_data (al : allocs) (p : rmap_pkt) (b : list Z) (n len : Z)
  : option (option rmap_pkt) :=
  if c_true (data_len p) then
    if len <? RMAP_DATA_START + n + data_len p then Some None else
    if negb (al_data al) then Some None else
    d ← copy_from b (RMAP_DATA_START + n) (Z.to_nat (data_len p));
    let p := with_data p (At d) in
    p ← (if len >? RMAP_DATA_START + n + data_len p
         then c ← rd b (RMAP_DATA_START + n + data_len p); Some (with_data_crc p c)
         else Some p);
    Some (Some p)
  else Some (Some p).

(** [cnt] is [non_rmap_pkt_err_cnt]; the result is the counter and the packet *)
Definition rmap_pkt_from_buffer (al : allocs) (cnt : Z) (buf : ptr) (len : Z)
  : option (Z * option rmap_pkt) :=
  match buf with
  | NULL => Some (cnt, None)
  | At b =>
      if len <? RMAP_HDR_MIN_SIZE_WRITE_REP then Some (cnt, None) else
      pid ← rd b RMAP_PROTOCOL_ID_OFFSET;
      if negb (pid =? RMAP_PROTOCOL_ID) then Some (u64 (cnt + 1), None) else
      match rmap_create_packet (al_pkt al) with
      | None => Some (cnt, None)
      | Some p =>
          v0 ← rd b RMAP_DEST_ADDRESS;
          v2 ← rd b RMAP_INSTRUCTION;
          v3 ← rd b RMAP_CMD_DESTKEY;
          let p := with_key (with_instruction (with_proto_id (with_dst p v0) pid) v2) v3 in
          let min_hdr_size := rmap_get_min_hdr_size p in
          if min_hdr_size <? 0 then Some (cnt, None) else
          if len <? min_hdr_size then Some (cnt, None) else
          r ← from_buffer_rpath al min_hdr_size p b len;
          match r with
          | None => Some (cnt, None)
          | Some (p, n) =>
              '(p, n) ← from_buffer_fields p b n len;
              r ← from_buffer_data al p b n len;
              Some (cnt, r)
          end
      end
  end.

Definition rmap_get_non_rmap_pckt_cnt_err (cnt : Z) : Z := cnt.
Definition rmap_clear_non_rmap_pckt_cnt_err (cnt : Z) : Z := 0.

(** ** Debug decoder

    [DBG] is [printf] in a verbose build: a call is the format string and the
    values of its arguments. *)

Record dbg : Type := DBG { fmt : string; args : list Z }.

Definition RMAP_STATUS_SUCCESS : Z := 0x0.

Definition status_text (status : Z) : dbg :=
  match status with
  | 0x0 => DBG "Command executed successfully" []
  | 0x1 => DBG "General error code" []
  | 0x2 => DBG "Unused RMAP Packet Type or Command Code" []
  | 0x3 => DBG "Invalid key" []
  | 0x4 => DBG "Invalid Data CRC" []
  | 0x5 => DBG "Early EOP" []
  | 0x6 => DBG "Too much data" []
  | 0x7 => DBG "EEP" []
  | 0x8 => DBG "Reserved" []
  | 0x9 => DBG "Verify buffer overrun" []
  | 0xa => DBG "RMAP Command not implemented or not authorised" []
  | 0xb => DBG "RMW Data Length error" []
  | 0xc => DBG "Invalid Target Logical Address" []
  | _ => DBG "Reserved unused error code %d" [status]
  end.

Definition rmap_check_status (status : Z) : Z * list dbg :=
  (status, [DBG "\tStatus: " []; status_text status; DBG "\n" []]).

(** [for (i = 0; i < n; i++) DBG("%02x:", pkt[off + i])] *)
Definition dbg_bytes (b : list Z) (off : Z) (n : Z) : option (list dbg) :=
  l ← copy_from b off (Z.to_nat n); Some (map (fun v => DBG "%02x:" [v]) l).

Definition rmap_cmd_fields (b : list Z) : option (Z * Z * Z) :=
  i ← rd b RMAP_INSTRUCTION;
  let rpath_len := Z.shiftl (ri_reply_addr_len i) 2 in
  a ← get_be32 b (RMAP_ADDR_BYTE0 + rpath_len);
  l ← get_be24 b (RMAP_DATALEN_BYTE0 + RMAP_ADDR_EXTRA_OFFSET + rpath_len);
  Some (rpath_len, a, l).

Definition rmap_process_write_cmd (b : list Z) (len : Z) : option (list dbg) :=
  '(rpath_len, a, l) ← rmap_cmd_fields b;
  let data_off := RMAP_DATA_START + RMAP_ADDR_EXTRA_OFFSET + rpath_len in
  out ← (if len >? data_off then
           let l := if l >? len - data_off then u32 (len - data_off) else l in
           dbg_bytes b data_off l
         else Some []);
  Some ([DBG "CMD WR to %08x size %u bytes: " [a; l]] ++ out ++ [DBG "\b \n" []]).

Definition rmap_process_read_cmd (b : list Z) : option (list dbg) :=
  '(_, a, l) ← rmap_cmd_fields b;
  Some [DBG "CMD RD from %08x size %u bytes\n" [a; l]].

Definition rmap_process_rmw_cmd (b : list Z) (len : Z) : option (list dbg) :=
  '(rpath_len, a, l) ← rmap_cmd_fields b;
  let data_off := RMAP_DATA_START + RMAP_ADDR_EXTRA_OFFSET + rpath_len in
  out ← (if len >? data_off then
           let l := if l >? len - data_off then u32 (len - data_off) else l in
           d ← dbg_bytes b data_off (l / 2);
           m ← dbg_bytes b (data_off + l / 2) (l - l / 2);
           Some ([DBG "data: " []] ++ d ++ [DBG "\b \n" []; DBG "mask: " []] ++ m ++
                 [DBG "\b \n" []])
         else Some []);
  Some ([DBG "CMD RMW at %08x length %u bytes: " [a; l]] ++ out).

Definition rmap_process_read_reply (b : list Z) (len : Z) : option (list dbg) :=
  if len <? RMAP_DATALEN_BYTE2 + 1
  then Some [DBG "RD reply too short (%zu bytes)\n" [len]] else
  l ← get_be24 b RMAP_DATALEN_BYTE0;
  out ← (if len >? RMAP_DATA_START then
           let l := if l >? len - RMAP_DATA_START then u32 (len - RMAP_DATA_START) else l in
           dbg_bytes b RMAP_DATA_START l
         else Some []);
  Some ([DBG "RD reply size %u bytes: " [l]] ++ out ++ [DBG "\b \n" []]).

Definition rmap_parse_cmd_pkt (b : list Z) (len : Z) : option (list dbg) :=
  i ← rd b RMAP_INSTRUCTION;
  let title t body := out ← body; Some (DBG t [] :: out) in
  match ri_cmd i with
  | 0x2 => title "Read single address\n"%string (rmap_process_read_cmd b)
  | 0x3 => title "Read incrementing address\n"%string (rmap_process_read_cmd b)
  | 0x7 => title "RMW incrementing address\n"%string (rmap_process_rmw_cmd b len)
  | 0x8 => title "Write single address\n"%string (rmap_process_write_cmd b len)
  | 0x9 => title "Write incrementing address\n"%string (rmap_process_write_cmd b len)
  | 0xa => title "Write single address reply\n"%string (rmap_process_write_cmd b len)
  | 0xb => title "Write incrementing address reply\n"%string (rmap_process_write_cmd b len)
  | 0xc => title "Write single address verify\n"%string (rmap_process_write_cmd b len)
  | 0xd => title "Write incrementing address verify\n"%string (rmap_process_write_cmd b len)
  | 0xe => title "Write single address verify reply\n"%string (rmap_process_write_cmd b len)
  | 0xf => title "Write incrementing address verify reply\n"%string
             (rmap_process_write_cmd b len)
  | c => Some [DBG "decoding of instruction 0x%02X not implemented\n" [c]]
  end.

Definition rmap_parse_reply_pkt (b : list Z) (len : Z) : option (list dbg) :=
  i ← rd b RMAP_INSTRUCTION;
  out ← match ri_cmd i with
        | 0x2 => o ← rmap_process_read_reply b len;
                 Some (DBG "Read single address reply\n" [] :: o)
        | 0x3 => o ← rmap_process_read_reply b len;
                 Some (DBG "Read incrementing address reply\n" [] :: o)
        | 0x7 => o ← rmap_process_read_reply b len;
                 Some (DBG "RMW incrementing address reply\n" [] :: o)
        | 0xa => Some [DBG "Write single address reply\n" []]
        | 0xb => Some [DBG "Write incrementing address reply\n" []]
        | 0xe => Some [DBG "Write single address verify reply\n" []]
        | 0xf => Some [DBG "Write incrementing address verify reply\n" []]
        | c => Some [DBG "decoding of instruction 0x%02X not implemented\n" [c]]
        end;
  Some (DBG "\tInstruction: " [] :: out).

Definition rmap_parse_pkt (b : list Z) (len : Z) : option (list dbg) :=
  if len <? RMAP_REPLY_STATUS + 1
  then Some [DBG "RMAP parse: packet too short (%zu bytes)\n" [len]] else
  pid ← rd b RMAP_PROTOCOL_ID_OFFSET;
  if negb (pid =? RMAP_PROTOCOL_ID)
  then Some [DBG "\nNot an RMAP packet, got %x but expected %x\n" [pid; RMAP_PROTOCOL_ID]] else
  i ← rd b RMAP_INSTRUCTION;
  if c_true (ri_cmd_resp i) then
    let rpath_len := Z.shiftl (ri_reply_addr_len i) 2 in
    if len <? RMAP_DATA_START + RMAP_ADDR_EXTRA_OFFSET + rpath_len
    then Some [DBG "RMAP command too short (%zu bytes)\n" [len]] else
    out ← rmap_parse_cmd_pkt b len;
    Some (DBG "This is a command packet\n" [] :: out)
  else
    if len <? RMAP_HDR_MIN_SIZE_WRITE_REP + 1
    then Some [DBG "This is a reply packet\n" []; DBG "RMAP reply too short (%zu bytes)\n" [len]]
    else
      status ← rd b RMAP_REPLY_STATUS;
      let '(st, out) := rmap_check_status status in
      out' ← (if negb (c_true st) then rmap_parse_reply_pkt b len else Some []);
      Some (DBG "This is a reply packet\n" [] :: out ++ out').

(** ** Specification of the header *)

Definition path_bytes (pa : ptr) (n : Z) : list Z :=
  match pa with NULL => [] | At d => take (Z.to_nat n) d end.

Definition be24_bytes (x : Z) : list Z := [x / 65536 mod 256; x / 256 mod 256; x mod 256].
Definition be32_bytes (x : Z) : list Z := x / 16777216 mod 256 :: be24_bytes x.

Definition is_cmd (p : rmap_pkt) : bool := c_true (ri_cmd_resp (instruction p)).
Definition is_write (p : rmap_pkt) : bool :=
  c_true (Z.land (ri_cmd (instruction p)) RMAP_CMD_BIT_WRITE).
Definition valid_cmd (p : rmap_pkt) : Prop :=
  rmap_validate_cmd_code (ri_cmd (instruction p)) = 0.

(** the header from the target logical address on, without header CRC *)
Definition hdr_spec (p : rmap_pkt) : list Z :=
  [dst p; proto_id p; instruction p; key p] ++ path_bytes (rpath p) (rpath_len p) ++
  [src p; tr_id p / 256; tr_id p mod 256] ++
  (if is_cmd p then [0] ++ be32_bytes (addr p) ++ be24_bytes (data_len p)
   else if is_write p then [] else [0] ++ be24_bytes (data_len p)).

Definition path_wf (pa : ptr) (n : Z) : Prop :=
  0 <= n < 256 /\ zlen (path_bytes pa n) = n /\ bytes (path_bytes pa n).

(** what the setters maintain *)
Record rmap_wf (p : rmap_pkt) : Prop := {
  wf_path : path_wf (path p) (path_len p);
  wf_rpath : path_wf (rpath p) (rpath_len p);
  wf_words : rpath_len p = 4 * ri_reply_addr_len (instruction p);
  wf_octets : bytes [dst p; proto_id p; instruction p; key p; src p];
  wf_tr_id : is_u16 (tr_id p);
  wf_addr : 0 <= addr p < 4294967296;
  wf_data_len : 0 <= data_len p <= RMAP_MAX_DATA_LEN
}.

(** ** Lemmas: loads *)

Lemma copy_from_in b off n :
  0 <= off -> off + Z.of_nat n <= zlen b ->
  copy_from b off n = Some (take n (drop (Z.to_nat off) b)).
Proof.
  revert off. induction n as [|n IH]; intros off H0 Hn; simpl.
  { by rewrite take_0. }
  destruct (rd_in b off) as [x Hx]; [lia|]. rewrite Hx; simpl.
  rewrite IH by lia. simpl. f_equal.
  unfold rd in Hx. rewrite (proj2 (Z.leb_le _ _)) in Hx by lia.
  rewrite (drop_S _ _ _ Hx). simpl. do 3 f_equal. lia.
Qed.

Lemma get_be16_bytes b i :
  bytes b -> 0 <= i -> i + 2 <= zlen b ->
  exists v, get_be16 b i = Some v /\ is_u16 v.
Proof.
  intros Hb Hi Hl. unfold get_be16.
  destruct (rd_in b i) as [x Hx]; [lia|]. destruct (rd_in b (i + 1)) as [y Hy]; [lia|].
  rewrite Hx; simpl. rewrite Hy; simpl. eexists; split; [done|].
  pose proof (rd_bytes _ _ _ Hb Hx). pose proof (rd_bytes _ _ _ Hb Hy).
  unfold is_byte, u16, is_u16 in *. rewrite Z.mod_small, be16_lor; try done.
  - lia.
  - rewrite shiftl_mul by lia. lia.
Qed.

Lemma be24_lor x y z :
  is_byte x -> is_byte y -> is_byte z ->
  Z.lor (Z.lor (u32 (Z.shiftl x 16)) (u32 (Z.shiftl y 8))) z = x * 65536 + y * 256 + z.
Proof.
  intros Hx Hy Hz. unfold is_byte in *.
  rewrite !u32_small by (rewrite shiftl_mul by lia; lia).
  rewrite (lor_add x (Z.shiftl y 8) 16) by (rewrite ?shiftl_mul by lia; lia).
  replace (x * 2 ^ 16 + Z.shiftl y 8) with (Z.shiftl (x * 256 + y) 8)
    by (rewrite !shiftl_mul by lia; lia).
  rewrite be16_lor by done. lia.
Qed.

Lemma be32_lor x y z w :
  is_byte x -> is_byte y -> is_byte z -> is_byte w ->
  Z.lor (Z.lor (Z.lor (u32 (Z.shiftl x 24)) (u32 (Z.shiftl y 16))) (u32 (Z.shiftl z 8))) w
  = x * 16777216 + y * 65536 + z * 256 + w.
Proof.
  intros Hx Hy Hz Hw. rewrite <- !Z.lor_assoc, (Z.lor_assoc (u32 (Z.shiftl y 16))).
  rewrite be24_lor by done. unfold is_byte in *.
  rewrite u32_small by (rewrite shiftl_mul by lia; lia).
  rewrite (lor_add x _ 24) by lia. lia.
Qed.

Lemma get_be24_bytes b i :
  bytes b -> 0 <= i -> i + 3 <= zlen b ->
  exists v, get_be24 b i = Some v /\ 0 <= v <= RMAP_MAX_DATA_LEN.
Proof.
  intros Hb Hi Hl. unfold get_be24.
  destruct (rd_in b i) as [x Hx]; [lia|]. destruct (rd_in b (i + 1)) as [y Hy]; [lia|].
  destruct (rd_in b (i + 2)) as [z Hz]; [lia|].
  rewrite Hx; simpl. rewrite Hy; simpl. rewrite Hz; simpl. eexists; split; [done|].
  apply rd_bytes in Hx, Hy, Hz; try done. rewrite be24_lor by done.
  unfold is_byte, RMAP_MAX_DATA_LEN in *. lia.
Qed.

Lemma get_be32_bytes b i :
  bytes b -> 0 <= i -> i + 4 <= zlen b ->
  exists v, get_be32 b i = Some v /\ 0 <= v < 4294967296.
Proof.
  intros Hb Hi Hl. unfold get_be32.
  destruct (rd_in b i) as [x Hx]; [lia|]. destruct (rd_in b (i + 1)) as [y Hy]; [lia|].
  destruct (rd_in b (i + 2)) as [z Hz]; [lia|]. destruct (rd_in b (i + 3)) as [w Hw]; [lia|].
  rewrite Hx; simpl. rewrite Hy; simpl. rewrite Hz; simpl. rewrite Hw; simpl.
  eexists; split; [done|].
  apply rd_bytes in Hx, Hy, Hz, Hw; try done. rewrite be32_lor by done.
  unfold is_byte in *. lia.
Qed.

(** ** Lemmas: the header writer *)

(** [f] writes [out] at the write position and leaves the rest alone *)
Definition emits (f : ptr * Z -> option (ptr * Z)) (out : list Z) : Prop :=
  forall pre post, zlen out <= zlen post ->
  f (At (pre ++ post), zlen pre)
  = Some (At ((pre ++ out) ++ drop (length out) post), zlen (pre ++ out)).

Lemma emits_ret : emits Some [].
Proof. intros pre post _. simpl. by rewrite app_nil_r. Qed.

Lemma emits_bind f g o1 o2 :
  emits f o1 -> emits g o2 -> emits (fun st => st ← f st; g st) (o1 ++ o2).
Proof.
  intros Hf Hg pre post Hl. rewrite zlen_app in Hl. pose proof (zlen_nonneg o2).
  rewrite Hf by lia. simpl. rewrite Hg.
  - by rewrite (app_assoc pre), drop_drop, length_app.
  - unfold zlen in *. rewrite length_drop. lia.
Qed.

Lemma emits_put v w : w = u8 v -> emits (fun st => put st v) [w].
Proof.
  intros -> pre post Hl. unfold put, store; simpl.
  destruct post as [|x post]; [zl|].
  rewrite wr_in by zl. simpl. unfold zlen at 1. rewrite Nat2Z.id.
  rewrite insert_app_r_alt, Nat.sub_diag by lia. simpl.
  by rewrite <- app_assoc, zlen_app, drop_0.
Qed.

Lemma emits_put_path pa n i :
  0 <= i -> i + Z.of_nat n = zlen (path_bytes pa (i + Z.of_nat n)) ->
  bytes (path_bytes pa (i + Z.of_nat n)) ->
  emits (put_path pa i n) (drop (Z.to_nat i) (path_bytes pa (i + Z.of_nat n))).
Proof.
  revert i. induction n as [|n IH]; intros i Hi Hl Hb.
  { rewrite (drop_ge).
    - apply emits_ret.
    - unfold zlen in Hl. lia. }
  simpl put_path. destruct pa as [|b]; [unfold path_bytes in Hl; zl|].
  assert (Hx : exists x, rd b i = Some x).
  { apply rd_in. simpl in Hl. unfold zlen in *. rewrite length_take in Hl. lia. }
  destruct Hx as [x Hx]. unfold load. rewrite Hx. simpl mbind.
  assert (Hd : drop (Z.to_nat i) (path_bytes (At b) (i + Z.of_nat (S n)))
             = [x] ++ drop (Z.to_nat (i + 1)) (path_bytes (At b) (i + 1 + Z.of_nat n))).
  { replace (i + 1 + Z.of_nat n) with (i + Z.of_nat (S n)) by lia.
    replace (Z.to_nat (i + 1)) with (S (Z.to_nat i)) by lia.
    simpl path_bytes. erewrite drop_S; [done|].
    rewrite lookup_take_lt by lia. unfold rd in Hx. by rewrite (proj2 (Z.leb_le _ _)) in Hx. }
  rewrite Hd. apply (emits_bind (fun st => put st x) (put_path (At b) (i + 1) n)).
  - apply emits_put. rewrite u8_small; [done|].
    assert (Hin : x ∈ path_bytes (At b) (i + Z.of_nat (S n))).
    { apply list_elem_of_In. rewrite <- (take_drop (Z.to_nat i)), Hd. apply in_app_iff. right. left. done. }
    unfold bytes in Hb. rewrite Forall_forall in Hb. by apply Hb.
  - apply IH; [lia| |]; by replace (i + 1 + Z.of_nat n) with (i + Z.of_nat (S n)) by lia.
Qed.

Lemma emits_path pa n :
  path_wf pa n -> emits (put_path pa 0 (Z.to_nat n)) (path_bytes pa n).
Proof.
  intros (Hn & Hl & Hb).
  pose proof (emits_put_path pa (Z.to_nat n) 0) as H.
  rewrite !Z.add_0_l, Z2Nat.id in H by lia. apply H; [done|lia|done].
Qed.

Lemma u8_div x k : 0 <= k -> u8 (Z.shiftr x k) = x / 2 ^ k mod 256.
Proof. intros. unfold u8. by rewrite shiftr_div. Qed.

Lemma emits_ext f g out : (forall st, f st = g st) -> emits f out -> emits g out.
Proof. intros Hfg Hf pre post Hl. rewrite <- Hfg. by apply Hf. Qed.

(** a chain of writes, one octet at a time *)
Ltac emit :=
  lazymatch goal with
  | |- emits (fun st => put st _) [_] => apply emits_put
  | |- emits (fun st => _ ← put st _; _) (_ :: _) =>
      refine (emits_bind (fun st => put st _) _ [_] _ _ _); [apply emits_put|]
  end.

Lemma emits_be24 l :
  emits (fun st => st ← put st (u8 (Z.shiftr l 16)); st ← put st (u8 (Z.shiftr l 8));
                   put st (u8 l)) (be24_bytes l).
Proof.
  unfold be24_bytes.
  repeat emit; rewrite ?u8_div by done; unfold u8; by rewrite Zmod_mod.
Qed.

Lemma emits_be32 a g out :
  emits g out ->
  emits (fun st => st ← put st (u8 (Z.shiftr a 24)); st ← put st (u8 (Z.shiftr a 16));
                   st ← put st (u8 (Z.shiftr a 8)); st ← put st (u8 a); g st)
        (be32_bytes a ++ out).
Proof.
  intros Hg. unfold be32_bytes, be24_bytes; simpl.
  repeat (emit; [rewrite ?u8_div by done; unfold u8; by rewrite Zmod_mod|]). exact Hg.
Qed.

Lemma build_hdr_fields_emits p :
  rmap_wf p -> emits (build_hdr_fields p) (path_bytes (path p) (path_len p) ++ hdr_spec p).
Proof.
  intros [Hp Hr _ Ho Ht _ _]. unfold bytes in Ho. rewrite !Forall_cons in Ho.
  destruct Ho as (H1 & H2 & H3 & H4 & H5 & _).
  unfold build_hdr_fields, hdr_spec.
  apply emits_bind; [by apply emits_path|].
  do 4 (simpl app; emit; [symmetry; by apply u8_small|]).
  apply emits_bind; [by apply emits_path|].
  simpl app; emit; [symmetry; by apply u8_small|].
  emit. { rewrite u8_div by done. unfold u8, is_u16 in *. rewrite Zmod_mod.
          symmetry. apply Z.mod_small. simpl. dlia. }
  emit. { unfold u8. by rewrite Zmod_mod. }
  unfold is_cmd, is_write. destruct (c_true (ri_cmd_resp (instruction p))); simpl negb; simpl andb.
  - emit; [done|]. apply emits_be32, emits_be24.
  - destruct (c_true (Z.land (ri_cmd (instruction p)) RMAP_CMD_BIT_WRITE)); cbv iota.
    + apply emits_ret.
    + emit; [done|]. apply emits_be24.
Qed.

Lemma rmap_build_hdr_spec p b :
  rmap_wf p -> let h := path_bytes (path p) (path_len p) ++ hdr_spec p in
  zlen h <= zlen b ->
  rmap_build_hdr (Some p) (At b) = Some (zlen h, At (h ++ drop (length h) b)).
Proof.
  intros Hwf h Hl. unfold rmap_build_hdr.
  assert (H : build_hdr_fields p (At b, 0) = Some (At (h ++ drop (length h) b), zlen h))
    by exact (build_hdr_fields_emits p Hwf [] b Hl).
  by rewrite H.
Qed.

(** ** Lemmas: the instruction octet *)

Lemma ri_cmd_range i : is_byte i -> 0 <= ri_cmd i < 16.
Proof.
  intros. unfold ri_cmd. rewrite (land_mask _ _ 4) by done.
  apply Z.mod_pos_bound. done.
Qed.

Lemma ri_words_range i : is_byte i -> 0 <= ri_reply_addr_len i < 4.
Proof.
  intros. unfold ri_reply_addr_len. rewrite (land_mask _ _ 2) by done.
  apply Z.mod_pos_bound. done.
Qed.

(** setting a field sets it and leaves the other two alone *)
Definition set_cmd_ok (i v : Z) : bool :=
  let j := set_ri_cmd i v in
  bool_decide (is_byte j) && (ri_cmd j =? v) && (ri_cmd_resp j =? ri_cmd_resp i) &&
  (ri_reply_addr_len j =? ri_reply_addr_len i).

Definition set_resp_ok (i v : Z) : bool :=
  let j := set_ri_cmd_resp i v in
  bool_decide (is_byte j) && (ri_cmd j =? ri_cmd i) && (ri_cmd_resp j =? v) &&
  (ri_reply_addr_len j =? ri_reply_addr_len i).

Definition set_words_ok (i v : Z) : bool :=
  let j := set_ri_reply_addr_len i v in
  bool_decide (is_byte j) && (ri_cmd j =? ri_cmd i) && (ri_cmd_resp j =? ri_cmd_resp i) &&
  (ri_reply_addr_len j =? v).

Lemma instruction_set_ok :
  (forall i v, 0 <= i < 256 -> 0 <= v < 16 -> set_cmd_ok i v = true) /\
  (forall i v, 0 <= i < 256 -> 0 <= v < 2 -> set_resp_ok i v = true) /\
  (forall i v, 0 <= i < 256 -> 0 <= v < 4 -> set_words_ok i v = true).
Proof.
  split; [|split]; intros i v Hi Hv;
    [refine (range_ind2 256 16 set_cmd_ok _ i v Hi Hv)
    |refine (range_ind2 256 2 set_resp_ok _ i v Hi Hv)
    |refine (range_ind2 256 4 set_words_ok _ i v Hi Hv)];
    vm_cast_no_check (eq_refl true).
Qed.

Ltac instr H :=
  let H' := fresh in
  pose proof H as H'; unfold set_cmd_ok, set_resp_ok, set_words_ok in H';
  rewrite !andb_true_iff, !Z.eqb_eq, bool_decide_eq_true in H'; clear H;
  destruct H' as (((? & ?) & ?) & ?).

Lemma set_ri_cmd_eqs i v :
  is_byte i -> 0 <= v < 16 ->
  is_byte (set_ri_cmd i v) /\ ri_cmd (set_ri_cmd i v) = v /\
  ri_cmd_resp (set_ri_cmd i v) = ri_cmd_resp i /\
  ri_reply_addr_len (set_ri_cmd i v) = ri_reply_addr_len i.
Proof. intros Hi Hv. pose proof (proj1 instruction_set_ok i v Hi Hv) as H. by instr H. Qed.

Lemma set_ri_cmd_resp_eqs i v :
  is_byte i -> 0 <= v < 2 ->
  is_byte (set_ri_cmd_resp i v) /\ ri_cmd (set_ri_cmd_resp i v) = ri_cmd i /\
  ri_cmd_resp (set_ri_cmd_resp i v) = v /\
  ri_reply_addr_len (set_ri_cmd_resp i v) = ri_reply_addr_len i.
Proof.
  intros Hi Hv. pose proof (proj1 (proj2 instruction_set_ok) i v Hi Hv) as H. by instr H.
Qed.

Lemma set_ri_words_eqs i v :
  is_byte i -> 0 <= v < 4 ->
  is_byte (set_ri_reply_addr_len i v) /\ ri_cmd (set_ri_reply_addr_len i v) = ri_cmd i /\
  ri_cmd_resp (set_ri_reply_addr_len i v) = ri_cmd_resp i /\
  ri_reply_addr_len (set_ri_reply_addr_len i v) = v.
Proof.
  intros Hi Hv. pose proof (proj2 (proj2 instruction_set_ok) i v Hi Hv) as H. by instr H.
Qed.

(** ** The setters as operations *)

Inductive rmap_op : Type :=
| OpDst (a : Z)
| OpSrc (a : Z)
| OpKey (k : Z)
| OpTrId (id : Z)
| OpDataAddr (a : Z)
| OpDataLen (len : Z)
| OpCmd (cmd : Z)
| OpReplyPath (rp : ptr) (len : Z)
| OpDestPath (pa : ptr) (len : Z).

(** one call on a packet, with every allocation succeeding *)
Definition run_op (o : rmap_op) (pkt : option rmap_pkt) : option (option rmap_pkt) :=
  match o with
  | OpDst a => Some (rmap_set_dst pkt a)
  | OpSrc a => Some (rmap_set_src pkt a)
  | OpKey k => Some (rmap_set_key pkt k)
  | OpTrId id => Some (rmap_set_tr_id pkt id)
  | OpDataAddr a => Some (rmap_set_data_addr pkt a)
  | OpDataLen len => Some (rmap_set_data_len pkt len).2
  | OpCmd cmd => Some (rmap_set_cmd pkt cmd).2
  | OpReplyPath rp len => r ← rmap_set_reply_path true pkt rp len; Some r.2
  | OpDestPath pa len => r ← rmap_set_dest_path true pkt pa len; Some r.2
  end.

Fixpoint run_ops (ops : list rmap_op) (pkt : option rmap_pkt) : option (option rmap_pkt) :=
  match ops with
  | [] => Some pkt
  | o :: ops => pkt ← run_op o pkt; run_ops ops pkt
  end.

(** the arguments have their C types, and a path pointer that is not [NULL]
    points to at least the announced number of octets *)
Definition path_arg (pa : ptr) (len : Z) : Prop :=
  0 <= len < 256 /\ match pa with NULL => True | At d => bytes d /\ len <= zlen d end.

Definition op_typed (o : rmap_op) : Prop :=
  match o with
  | OpDst a | OpSrc a | OpKey a | OpCmd a => is_byte a
  | OpTrId id => is_u16 id
  | OpDataAddr a => 0 <= a < 4294967296
  | OpDataLen len => 0 <= len < 18446744073709551616
  | OpReplyPath pa len | OpDestPath pa len => path_arg pa len
  end.

Definition sets_cmd (o : rmap_op) : bool :=
  match o with OpCmd c => rmap_validate_cmd_code c =? 0 | _ => false end.

(** the invariant of a packet under construction; [c]: a command code was set *)
Definition built (c : bool) (p : rmap_pkt) : Prop :=
  rmap_wf p /\ proto_id p = RMAP_PROTOCOL_ID /\
  (c = true -> valid_cmd p /\ ri_cmd_resp (instruction p) = 1).

Lemma path_wf_copy d len l :
  0 <= len < 256 -> bytes d -> rdn d 0 len = Some l -> path_wf (At l) len.
Proof.
  intros Hlen Hd H. pose proof (zlen_rdn _ _ _ _ H) as Hl.
  assert (Hb : bytes l).
  { unfold rdn in H. case_match; [|done]. injection H as <-. by apply Forall_take, Forall_drop. }
  unfold path_wf, path_bytes.
  rewrite take_ge by (unfold zlen in Hl; lia). done.
Qed.

Lemma path_wf_0 pa : path_wf pa 0.
Proof. destruct pa; (split; [done|]); split; done || apply Forall_nil_2. Qed.

Lemma path_copy_ok pa len :
  path_arg pa len -> bool_decide (pa = NULL) && c_true len = false ->
  exists pa', path_wf pa' len /\
    match pa with NULL => Some (At []) | At d => l ← rdn d 0 len; Some (At l) end = Some pa'.
Proof.
  intros [Hlen Hp] Hn. destruct pa as [|d].
  - simpl in Hn. exists (At []). split; [|done].
    apply negb_false_iff, Z.eqb_eq in Hn. subst. apply path_wf_0.
  - destruct Hp as [Hd Hl]. rewrite rdn_in by lia. eexists. split; [|done].
    eapply path_wf_copy; [done|done|]. rewrite rdn_in by lia. done.
Qed.

Lemma valid_cmd_range cmd : rmap_validate_cmd_code cmd = 0 -> 0 <= cmd < 16.
Proof.
  unfold rmap_validate_cmd_code. intros H.
  destruct (_ || _) eqn:E in H; [|done]. rewrite !orb_true_iff, !Z.eqb_eq in E.
  unfold RMAP_READ_ADDR_SINGLE, RMAP_READ_ADDR_INC, RMAP_READ_MODIFY_WRITE_ADDR_INC,
    RMAP_WRITE_ADDR_SINGLE, RMAP_WRITE_ADDR_INC, RMAP_WRITE_ADDR_SINGLE_REPLY,
    RMAP_WRITE_ADDR_INC_REPLY, RMAP_WRITE_ADDR_SINGLE_VERIFY, RMAP_WRITE_ADDR_INC_VERIFY,
    RMAP_WRITE_ADDR_SINGLE_VERIFY_REPLY, RMAP_WRITE_ADDR_INC_VERIFY_REPLY in E. lia.
Qed.

Lemma rmap_set_cmd_built c p cmd :
  built c p -> is_byte cmd ->
  exists p', rmap_set_cmd (Some p) cmd = (rmap_validate_cmd_code cmd, Some p') /\
  built (c || (rmap_validate_cmd_code cmd =? 0)) p'.
Proof.
  intros (Hwf & Hid & Hc) Hb. unfold rmap_set_cmd.
  destruct (c_true (rmap_validate_cmd_code cmd)) eqn:E.
  - unfold c_true in E. apply negb_true_iff in E. rewrite E, orb_false_r.
    exists p. split; [|done]. unfold rmap_validate_cmd_code in *. by destruct (_ || _).
  - apply negb_false_iff, Z.eqb_eq in E. pose proof (valid_cmd_range _ E) as Hr.
    rewrite E. eexists. split; [done|]. destruct Hwf as [? ? Hw Ho ? ? ?].
    unfold bytes in Ho. rewrite !Forall_cons in Ho. destruct Ho as (? & ? & Hi & ? & ? & _).
    assert (Hu : u8 (Z.land cmd 0xF) = cmd).
    { rewrite (land_mask _ _ 4), Z.mod_small by done. by apply u8_small. }
    rewrite Hu. destruct (set_ri_cmd_eqs _ cmd Hi Hr) as (Hb1 & E1 & _ & W1).
    destruct (set_ri_cmd_resp_eqs _ 1 Hb1) as (Hb2 & E2 & R2 & W2); [done|].
    split; [|split; [done|]].
    + split; simpl; try done.
      * rewrite Hw. lia.
      * unfold bytes. repeat (apply Forall_cons_2; [done|]). apply Forall_nil_2.
    + intros _. unfold valid_cmd; simpl. split; [congruence|done].
Qed.

Lemma rmap_set_reply_path_built c p rp len :
  built c p -> path_arg rp len ->
  exists r p', rmap_set_reply_path true (Some p) rp len = Some (r, Some p') /\ built c p'.
Proof.
  intros Hbt Ha. pose proof Hbt as (Hwf & Hid & Hc). unfold rmap_set_reply_path.
  destruct (bool_decide (rp = NULL) && c_true len) eqn:En; [eauto|].
  destruct (Z.gtb_spec len RMAP_MAX_REPLY_PATH_LEN) as [|Hmax]; [eauto|].
  destruct (c_true (Z.land len 0x3)) eqn:E3; [eauto|].
  destruct (path_copy_ok rp len Ha En) as (pa' & Hpa & Hcopy).
  destruct Ha as [Hlen Hrp]. unfold RMAP_MAX_REPLY_PATH_LEN in Hmax.
  apply negb_false_iff, Z.eqb_eq in E3. rewrite (land_mask _ _ 2) in E3 by done.
  assert (Hsh : u8 (Z.shiftr len 2) = len / 4 /\ 0 <= len / 4 < 4).
  { rewrite shiftr_div by done. change (2 ^ 2) with 4 in *. unfold u8. split; [|dlia].
    apply Z.mod_small. dlia. }
  destruct Hsh as [-> Hq]. change (2 ^ 2) with 4 in E3.
  assert (Hset : forall pa, path_wf pa len -> built c
    (with_instruction (with_rpath (with_rpath_len p len) pa)
       (set_ri_reply_addr_len (instruction p) (len / 4)))).
  { intros pa Hw. destruct Hwf as [? ? ? Ho ? ? ?].
    unfold bytes in Ho. rewrite !Forall_cons in Ho. destruct Ho as (? & ? & Hi & ? & ? & _).
    destruct (set_ri_words_eqs _ (len / 4) Hi Hq) as (Hb1 & E1 & R1 & W1).
    split; [|split; [done|]].
    - split; simpl; try done.
      + rewrite W1. dlia.
      + unfold bytes. repeat (apply Forall_cons_2; [done|]). apply Forall_nil_2.
    - intros Hct. unfold valid_cmd in *; simpl. rewrite E1, R1. auto. }
  destruct (c_true len) eqn:El.
  - destruct rp as [|d]; [done|]. simpl in Hcopy.
    destruct (rdn d 0 len) as [l|]; simpl in *; [|done]. simplify_eq.
    eexists _, _. split; [done|]. by apply Hset.
  - apply negb_false_iff, Z.eqb_eq in El. eexists _, _. split; [done|].
    refine (Hset (rpath p) _). rewrite El. apply path_wf_0.
Qed.

Lemma rmap_set_dest_path_built c p pa len :
  built c p -> path_arg pa len ->
  exists r p', rmap_set_dest_path true (Some p) pa len = Some (r, Some p') /\ built c p'.
Proof.
  intros Hbt Ha. pose proof Hbt as (Hwf & Hid & Hc). unfold rmap_set_dest_path.
  destruct (bool_decide (pa = NULL) && c_true len) eqn:En; [eauto|].
  destruct (Z.gtb_spec len RMAP_MAX_PATH_LEN); [eauto|].
  destruct (path_copy_ok pa len Ha En) as (pa' & Hpa & Hcopy).
  assert (Hset : built c (with_path (with_path_len p len) pa')).
  { destruct Hwf. split; [split; done|split; [done|]]. exact Hc. }
  destruct pa as [|d]; simpl in Hcopy; simplify_eq; [eauto|].
  destruct (rdn d 0 len) as [l|]; simpl in *; simplify_eq. eauto.
Qed.

Lemma run_op_built c p o :
  built c p -> op_typed o ->
  exists p', run_op o (Some p) = Some (Some p') /\ built (c || sets_cmd o) p'.
Proof.
  intros Hbt Ho. destruct o as [a|a|a|id|a|len|cmd|rp len|pa len]; simpl in Ho; simpl sets_cmd;
    rewrite ?orb_false_r.
  7: { destruct (rmap_set_cmd_built c p cmd Hbt Ho) as (p' & Hs & Hb').
       exists p'. unfold run_op. by rewrite Hs. }
  7: { destruct (rmap_set_reply_path_built c p rp len Hbt Ho) as (r & p' & Hs & Hb').
       exists p'. unfold run_op. by rewrite Hs. }
  7: { destruct (rmap_set_dest_path_built c p pa len Hbt Ho) as (r & p' & Hs & Hb').
       exists p'. unfold run_op. by rewrite Hs. }
  all: destruct Hbt as ([? ? ? Hoct ? ? ?] & ? & ?); unfold bytes in Hoct;
    rewrite !Forall_cons in Hoct; destruct Hoct as (? & ? & ? & ? & ? & _).
  6: { unfold run_op, rmap_set_data_len. destruct (Z.gtb_spec len RMAP_MAX_DATA_LEN) as [|Hm].
       { exists p. split; [done|]. split; [|done]. split; try done.
         unfold bytes. repeat (apply Forall_cons_2; [done|]). apply Forall_nil_2. }
       eexists. split; [done|]. split; [|done].
       split; simpl; try done.
       - unfold bytes. repeat (apply Forall_cons_2; [done|]). apply Forall_nil_2.
       - unfold RMAP_MAX_DATA_LEN in *. rewrite u32_small; lia. }
  all: eexists; split; [done|]; split; [|done]; split; simpl; try done;
    unfold bytes; repeat (apply Forall_cons_2; [done|]); apply Forall_nil_2.
Qed.

Lemma run_ops_built c p ops :
  built c p -> Forall op_typed ops ->
  exists p', run_ops ops (Some p) = Some (Some p') /\ built (c || existsb sets_cmd ops) p'.
Proof.
  intros Hb Ho. revert c p Hb. induction Ho as [|o ops Ho _ IH]; intros c p Hb; simpl.
  { exists p. by rewrite orb_false_r. }
  destruct (run_op_built c p o Hb Ho) as (p1 & -> & H1). simpl.
  destruct (IH _ _ H1) as (p2 & -> & H2). exists p2. by rewrite orb_assoc.
Qed.

Lemma rmap_create_built p : rmap_create_packet true = Some p -> built false p.
Proof.
  intros [= <-]. split; [|done]. split; simpl; try done; try apply path_wf_0.
  unfold bytes. repeat (apply Forall_cons_2; [done|]). apply Forall_nil_2.
Qed.

(** the size query answers the number of octets the writer writes *)
Lemma hdr_size p :
  rmap_wf p -> valid_cmd p ->
  rmap_get_min_hdr_size p + path_len p + rpath_len p
  = zlen (path_bytes (path p) (path_len p) ++ hdr_spec p).
Proof.
  intros [(_ & Hp & _) (_ & Hr & _) _ _ _ _ _] Hc.
  rewrite zlen_app, Hp. unfold hdr_spec. rewrite !zlen_app, Hr.
  enough (rmap_get_min_hdr_size p
    = 7 + zlen (if is_cmd p then [0] ++ be32_bytes (addr p) ++ be24_bytes (data_len p)
                else if is_write p then [] else [0] ++ be24_bytes (data_len p))) as ->.
  { change (zlen [dst p; proto_id p; instruction p; key p]) with 4.
    change (zlen [src p; tr_id p / 256; tr_id p mod 256]) with 3. lia. }
  unfold rmap_get_min_hdr_size, is_cmd, is_write, valid_cmd in *.
  pose proof (valid_cmd_range _ Hc) as Hrange. revert Hc Hrange.
  generalize (ri_cmd (instruction p)) as k, (ri_cmd_resp (instruction p)) as r.
  intros r k Hk Hr'. change (zlen (be32_bytes ?a)) with 4.
  assert (Hcases : In r (seqZ 0 16)) by (apply list_elem_of_In, elem_of_seqZ; lia).
  destruct (c_true k); simpl in Hcases;
    repeat (destruct Hcases as [<-|Hcases]; [try done; exfalso; revert Hk; vm_compute; done|]);
    done.
Qed.

(** ** Lemmas: the parser on arbitrary buffers *)

Lemma ri_resp_range i : ri_cmd_resp i = 0 \/ ri_cmd_resp i = 1.
Proof.
  unfold ri_cmd_resp. rewrite (land_mask _ 1 1) by done.
  pose proof (Z.mod_pos_bound (Z.shiftr i 6) (2 ^ 1)). lia.
Qed.

(** [rmap_get_min_hdr_size] by the two bits that matter *)
Lemma min_hdr_size_cases p :
  (rmap_get_min_hdr_size p = -1 /\ rmap_validate_cmd_code (ri_cmd (instruction p)) = -1) \/
  (valid_cmd p /\ is_cmd p = true /\ rmap_get_min_hdr_size p = 15) \/
  (valid_cmd p /\ is_cmd p = false /\
   (rmap_get_min_hdr_size p = 11 \/ (is_write p = true /\ rmap_get_min_hdr_size p = 7))).
Proof.
  unfold rmap_get_min_hdr_size, is_cmd, is_write, valid_cmd.
  destruct (rmap_validate_cmd_code (ri_cmd (instruction p)) =? 0) eqn:Hv.
  - apply Z.eqb_eq in Hv. rewrite Hv. pose proof (valid_cmd_range _ Hv) as Hr. revert Hv Hr.
    generalize (ri_cmd (instruction p)) as k, (ri_cmd_resp (instruction p)) as r.
    intros k r Hk Hr. right.
    assert (Hcases : In k (seqZ 0 16)) by (apply list_elem_of_In, elem_of_seqZ; lia).
    destruct (c_true r); simpl in Hcases;
      repeat (destruct Hcases as [<-|Hcases];
        [first [exfalso; revert Hk; vm_compute; done | left; done | right; vm_compute; tauto]|]);
      done.
  - apply Z.eqb_neq in Hv. left. revert Hv. unfold rmap_validate_cmd_code.
    destruct (_ || _) eqn:E; [done|]. intros _. split; [|done].
    rewrite !orb_false_iff in E. destruct E as ((((((((((-> & ->) & ->) & ->) & ->) & ->) & ->) & ->)
      & ->) & ->) & ->). done.
Qed.

(** what a decoded packet looks like, [len] octets having been received *)
Record decoded (p : rmap_pkt) (len : Z) : Prop := {
  dec_path : path p = NULL /\ path_len p = 0;
  dec_proto : proto_id p = RMAP_PROTOCOL_ID;
  dec_valid : valid_cmd p;
  dec_octets : bytes [dst p; proto_id p; instruction p; key p; src p];
  dec_tr_id : is_u16 (tr_id p);
  dec_addr : 0 <= addr p < 4294967296;
  dec_len : 0 <= data_len p <= RMAP_MAX_DATA_LEN;
  dec_rpath : if is_cmd p then path_wf (rpath p) (rpath_len p) /\
                rpath_len p = 4 * ri_reply_addr_len (instruction p)
              else rpath p = NULL /\ rpath_len p = 0;
  dec_data : (data_len p = 0 /\ data p = NULL) \/
             (exists d, data p = At d /\ zlen d = data_len p /\ bytes d);
  dec_fits : data_len p = 0 \/ RMAP_DATA_START + (if is_cmd p then 4 else 0) +
    rpath_len p + data_len p <= len
}.

Lemma from_buffer_fields_safe p b n len :
  bytes b -> len <= zlen b -> 0 <= n <= 12 ->
  (is_cmd p = true -> 15 + n <= len) ->
  (is_cmd p = false -> n = 0 /\ (11 <= len \/ (is_write p = true /\ 7 <= len))) ->
  data_len p = 0 -> addr p = 0 ->
  exists s t a l c, from_buffer_fields p b n len =
    Some (with_hdr_crc (with_data_len (with_addr (with_tr_id (with_src p s) t) a) l) c,
          if is_cmd p then n + 4 else n) /\
    is_byte s /\ is_u16 t /\ 0 <= a < 4294967296 /\ 0 <= l <= RMAP_MAX_DATA_LEN.
Proof.
  intros Hb Hl Hn Hc Hr Hd0 Ha0. unfold from_buffer_fields, is_cmd, is_write in *.
  assert (Hlen : 7 + n <= len).
  { destruct (c_true _); [specialize (Hc eq_refl); lia|]. destruct (Hr eq_refl) as [-> []]; lia. }
  unfold RMAP_SRC_ADDR, RMAP_TRANS_ID_BYTE0.
  destruct (rd_in b (4 + n)) as [s Hs]; [lia|]. rewrite Hs; simpl.
  destruct (get_be16_bytes b (5 + n)) as (t & Ht & Htr); [done|lia|lia|]. rewrite Ht; simpl.
  pose proof (rd_bytes _ _ _ Hb Hs) as Hsb.
  assert (Hcrc : exists c, (if len >? RMAP_HEADER_CRC then rd b RMAP_HEADER_CRC else Some (hdr_crc p)) = Some c).
  { unfold RMAP_HEADER_CRC. destruct (Z.gtb_spec len 0x0b); [|eauto]. apply rd_in. lia. }
  destruct Hcrc as [c Hcrc].
  assert (Hcrc' : forall q, hdr_crc q = hdr_crc p ->
    (if len >? RMAP_HEADER_CRC then c ← rd b RMAP_HEADER_CRC; Some (with_hdr_crc q c) else Some q)
    = Some (with_hdr_crc q c)).
  { intros q Hq. destruct (len >? RMAP_HEADER_CRC).
    - by rewrite Hcrc.
    - simplify_eq. rewrite <- Hq. by destruct q. }
  destruct (c_true (ri_cmd_resp (instruction p))) eqn:Er; simpl.
  - specialize (Hc eq_refl). unfold RMAP_ADDR_BYTE0, RMAP_DATALEN_BYTE0.
    destruct (get_be32_bytes b (8 + n)) as (a & Ha & Har); [done|lia|lia|]. rewrite Ha; simpl.
    rewrite Er. simpl.
    destruct (get_be24_bytes b (8 + (n + 4))) as (l & Hll & Hlr); [done|lia|lia|].
    rewrite Hll; simpl. rewrite Hcrc' by done. simpl. by exists s, t, a, l, c.
  - destruct (Hr eq_refl) as [-> Hlr]. rewrite Er. simpl.
    destruct (c_true (Z.land (ri_cmd (instruction p)) RMAP_CMD_BIT_WRITE)); simpl.
    + rewrite Hcrc' by done. simpl. exists s, t, 0, 0, c. split; [|done].
      destruct p; simpl in *; by subst.
    + unfold RMAP_DATALEN_BYTE0.
      destruct (get_be24_bytes b (8 + 0)) as (l & Hll & Hlr'); [done|lia| |].
      { destruct Hlr as [|[]]; [lia|done]. }
      rewrite Hll; simpl. rewrite Hcrc' by done. simpl. exists s, t, 0, l, c. split; [|done].
      destruct p; simpl in *; by subst.
Qed.

Lemma from_buffer_data_safe al p b n len :
  bytes b -> len <= zlen b -> 0 <= n -> 0 <= data_len p -> data p = NULL ->
  exists r, from_buffer_data al p b n len = Some r /\
    (forall q, r = Some q -> exists d c, q = with_data_crc (with_data p d) c /\
       ((data_len p = 0 /\ d = NULL) \/
        (exists l, d = At l /\ zlen l = data_len p /\ bytes l)) /\
       (data_len p = 0 \/ RMAP_DATA_START + n + data_len p <= len)).
Proof.
  intros Hb Hl Hn Hd0 HdN. unfold from_buffer_data, RMAP_DATA_START.
  destruct (c_true (data_len p)) eqn:Ed.
  2: { apply negb_false_iff, Z.eqb_eq in Ed. eexists. split; [done|]. intros q [= <-].
       exists NULL, (data_crc p). split; [|tauto]. rewrite <- HdN. by destruct p. }
  destruct (Z.ltb_spec len (12 + n + data_len p)) as [|Hge]; [by eexists|].
  destruct (al_data al); simpl; [|by eexists].
  rewrite copy_from_in by lia. simpl.
  set (d := take _ _).
  assert (Hdl : zlen d = data_len p).
  { unfold d. rewrite zlen_take; [lia|]. rewrite zlen_drop by lia. lia. }
  assert (Hdb : bytes d) by (by apply Forall_take, Forall_drop).
  destruct (Z.gtb_spec len (12 + n + data_len p)).
  - destruct (rd_in b (12 + n + data_len p)) as [c ->]; [lia|]. simpl. eexists. split; [done|].
    intros q [= <-]. exists (At d), c. split; [done|]. split; [|lia]. right. eauto.
  - simpl. eexists. split; [done|]. intros q [= <-]. exists (At d), (data_crc p).
    split; [by destruct p|]. split; [|lia]. right. eauto.
Qed.

Lemma rpath_shift i : is_byte i ->
  Z.shiftl (ri_reply_addr_len i) 2 = 4 * ri_reply_addr_len i /\
  u8 (Z.shiftl (ri_reply_addr_len i) 2) = 4 * ri_reply_addr_len i.
Proof.
  intros Hi. pose proof (ri_words_range i Hi). rewrite shiftl_mul by lia.
  split; [lia|]. rewrite u8_small; unfold is_byte; lia.
Qed.

Lemma from_buffer_rpath_safe al m p b len :
  bytes b -> len <= zlen b -> is_byte (instruction p) -> m = rmap_get_min_hdr_size p ->
  valid_cmd p -> m <= len -> rpath p = NULL -> rpath_len p = 0 ->
  exists r, from_buffer_rpath al m p b len = Some r /\
    (forall q n, r = Some (q, n) ->
       exists rp, q = with_rpath (with_rpath_len p n) rp /\ 0 <= n <= 12 /\
       (if is_cmd p then path_wf rp n /\ n = 4 * ri_reply_addr_len (instruction p) /\ 15 + n <= len
        else rp = NULL /\ n = 0)).
Proof.
  intros Hb Hl Hi -> Hv Hm Hrp Hrl. unfold from_buffer_rpath, is_cmd.
  destruct (rpath_shift _ Hi) as [_ E]. pose proof (ri_words_range _ Hi) as Hw.
  destruct (c_true (ri_cmd_resp (instruction p))) eqn:Er.
  2: { eexists. split; [done|]. intros q n [= <- <-]. exists NULL.
       split; [by destruct p; simpl in *; subst|]. split; [lia|done]. }
  simpl rpath_len. rewrite E.
  destruct (min_hdr_size_cases p) as [[_ Hx]|[(_ & _ & Hx)|(_ & Hx & _)]];
    [unfold valid_cmd in Hv; congruence| |unfold is_cmd in Hx; congruence].
  rewrite Hx. destruct (Z.ltb_spec len (15 + 4 * ri_reply_addr_len (instruction p))); [by eexists|].
  destruct (al_rpath al); simpl; [|by eexists].
  unfold RMAP_REPLY_ADDR_START. rewrite copy_from_in by lia. simpl.
  set (d := take _ _).
  assert (Hdl : zlen d = 4 * ri_reply_addr_len (instruction p)).
  { unfold d. rewrite zlen_take; [lia|]. pose proof (zlen_drop b 4). simpl in *. lia. }
  assert (Hdb : bytes d) by (by apply Forall_take, Forall_drop).
  eexists. split; [done|]. intros q n [= <- <-]. exists (At d).
  split; [done|]. split; [lia|]. split; [|lia]. unfold path_wf, path_bytes.
  rewrite take_ge by (unfold zlen in *; lia). split; [lia|done].
Qed.

(** whatever the octets received, the parser reads inside the buffer, and what
    it returns is a well-formed packet *)
Lemma from_buffer_safe al cnt b len :
  bytes b -> len <= zlen b ->
  exists cnt' r, rmap_pkt_from_buffer al cnt (At b) len = Some (cnt', r) /\
    (forall p, r = Some p -> cnt' = cnt /\ decoded p len).
Proof.
  intros Hb Hl. unfold rmap_pkt_from_buffer.
  destruct (Z.ltb_spec len RMAP_HDR_MIN_SIZE_WRITE_REP) as [|Hlen]; [by eexists _, _|].
  unfold RMAP_HDR_MIN_SIZE_WRITE_REP in Hlen.
  unfold RMAP_PROTOCOL_ID_OFFSET, RMAP_DEST_ADDRESS, RMAP_INSTRUCTION, RMAP_CMD_DESTKEY.
  destruct (rd_in b 1) as [pid Hpid]; [lia|]. rewrite Hpid; simpl.
  destruct (Z.eqb_spec pid RMAP_PROTOCOL_ID) as [->|]; simpl; [|by eexists _, _].
  destruct (rmap_create_packet (al_pkt al)) as [p0|] eqn:Hp0; [|by eexists _, _].
  unfold rmap_create_packet in Hp0. destruct (al_pkt al); simplify_eq.
  destruct (rd_in b 0) as [v0 Hv0]; [lia|]. destruct (rd_in b 2) as [v2 Hv2]; [lia|].
  destruct (rd_in b 3) as [v3 Hv3]; [lia|]. rewrite Hv0; simpl. rewrite Hv2; simpl.
  rewrite Hv3; simpl. apply rd_bytes in Hv0, Hv2, Hv3; try done.
  set (p := with_key _ v3).
  destruct (Z.ltb_spec (rmap_get_min_hdr_size p) 0) as [|Hm0]; [by eexists _, _|].
  destruct (Z.ltb_spec len (rmap_get_min_hdr_size p)) as [|Hm]; [by eexists _, _|].
  assert (Hv : valid_cmd p).
  { destruct (min_hdr_size_cases p) as [[Hx _]|[(Hx & _)|(Hx & _)]]; [lia|done|done]. }
  destruct (from_buffer_rpath_safe al _ p b len Hb Hl Hv2 eq_refl Hv Hm eq_refl eq_refl)
    as (r & Hr & Hrq). rewrite Hr; simpl.
  destruct r as [[q n]|]; [|by eexists _, _].
  destruct (Hrq q n eq_refl) as (rp & Hq & Hn & Hcase). clear Hrq.
  assert (Hic : is_cmd q = is_cmd p) by by subst q.
  assert (Hiw : is_write q = is_write p) by by subst q.
  assert (Hq0 : data_len q = 0 /\ addr q = 0) by by subst q. destruct Hq0 as [Hq0 Hq1].
  destruct (from_buffer_fields_safe q b n len) as (s & t & a & l & c & Hf & Hs & Ht & Ha & Hll);
    try done.
  { rewrite Hic. intros Hc. rewrite Hc in Hcase. lia. }
  { rewrite Hic, Hiw. intros Hc. rewrite Hc in Hcase. split; [lia|].
    destruct (min_hdr_size_cases p) as [[Hx _]|[(_ & Hx & _)|(_ & _ & [Hx|[Hx Hy]])]];
      [lia|congruence|left; lia|right; split; [done|lia]]. }
  rewrite Hf; simpl.
  match goal with |- context [from_buffer_data al ?q' b ?n' len] =>
    destruct (from_buffer_data_safe al q' b n' len) as (r & Hd & Hrq) end; try done.
  { destruct (is_cmd q); lia. }
  { simpl. lia. }
  { simpl. by subst q. }
  rewrite Hd; simpl. eexists _, _. split; [done|]. intros p' ->. split; [done|].
  destruct (Hrq p' eq_refl) as (d & dc & -> & Hdd & Hfit). clear Hrq Hd Hf Hr.
  rewrite Hic in Hfit. subst q. split; simpl; try done.
  - unfold bytes. repeat (apply Forall_cons_2; [done|]). apply Forall_nil_2.
  - change (is_cmd (with_data_crc _ dc)) with (is_cmd p). destruct (is_cmd p); [|done]. tauto.
  - change (is_cmd (with_data_crc _ dc)) with (is_cmd p). simpl in Hfit.
    destruct (is_cmd p); lia.
Qed.

(** ** Lemmas: the debug decoder *)

Lemma dbg_bytes_in b off n :
  0 <= off -> off + n <= zlen b -> exists l, dbg_bytes b off n = Some l.
Proof.
  intros Ho Hn. unfold dbg_bytes. pose proof (zlen_nonneg b).
  destruct (decide (0 <= n)).
  - rewrite copy_from_in by lia. by eexists.
  - replace (Z.to_nat n) with O by lia. by eexists.
Qed.

Lemma clamp_data_len l len off :
  0 <= l <= RMAP_MAX_DATA_LEN -> off < len ->
  exists k, (if l >? len - off then u32 (len - off) else l) = k /\ 0 <= k /\ off + k <= len.
Proof.
  unfold RMAP_MAX_DATA_LEN. intros Hl Ho. eexists. split; [done|].
  destruct (Z.gtb_spec l (len - off)); [rewrite u32_small; lia|lia].
Qed.

Lemma rmap_cmd_fields_in b len i :
  bytes b -> len <= zlen b -> rd b 2 = Some i -> 16 + 4 * ri_reply_addr_len i <= len ->
  exists a l, rmap_cmd_fields b = Some (4 * ri_reply_addr_len i, a, l) /\
    0 <= l <= RMAP_MAX_DATA_LEN.
Proof.
  intros Hb Hl Hi Hlen. unfold rmap_cmd_fields, RMAP_INSTRUCTION. rewrite Hi; simpl.
  pose proof (rd_bytes _ _ _ Hb Hi) as Hib. pose proof (ri_words_range i Hib).
  destruct (rpath_shift i Hib) as [-> _].
  unfold RMAP_ADDR_BYTE0, RMAP_DATALEN_BYTE0, RMAP_ADDR_EXTRA_OFFSET.
  destruct (get_be32_bytes b (8 + 4 * ri_reply_addr_len i)) as (a & -> & _); [done|lia|lia|].
  destruct (get_be24_bytes b (8 + 4 + 4 * ri_reply_addr_len i)) as (l & Hx & ?); [done|lia|lia|].
  simpl in *. rewrite Hx. simpl. by exists a, l.
Qed.

Lemma rmap_parse_cmd_pkt_in b len i :
  bytes b -> len <= zlen b -> rd b 2 = Some i -> 16 + 4 * ri_reply_addr_len i <= len ->
  exists out, rmap_parse_cmd_pkt b len = Some out.
Proof.
  intros Hb Hl Hi Hlen. pose proof (ri_words_range i (rd_bytes _ _ _ Hb Hi)).
  destruct (rmap_cmd_fields_in b len i Hb Hl Hi Hlen) as (a & l & Hf & Hlr).
  assert (Hw : exists o, rmap_process_write_cmd b len = Some o).
  { unfold rmap_process_write_cmd, RMAP_DATA_START, RMAP_ADDR_EXTRA_OFFSET. rewrite Hf; simpl.
    destruct (Z.gtb_spec len (12 + 4 + 4 * ri_reply_addr_len i)) as [Hgt|].
    - destruct (clamp_data_len l len _ Hlr Hgt) as (k & -> & Hk & Hfit).
      destruct (dbg_bytes_in b (12 + 4 + 4 * ri_reply_addr_len i) k) as [o ->]; [lia|lia|].
      by eexists.
    - by eexists. }
  assert (Hr : exists o, rmap_process_read_cmd b = Some o).
  { unfold rmap_process_read_cmd. rewrite Hf. by eexists. }
  assert (Hm : exists o, rmap_process_rmw_cmd b len = Some o).
  { unfold rmap_process_rmw_cmd, RMAP_DATA_START, RMAP_ADDR_EXTRA_OFFSET. rewrite Hf; simpl.
    destruct (Z.gtb_spec len (12 + 4 + 4 * ri_reply_addr_len i)) as [Hgt|].
    - destruct (clamp_data_len l len _ Hlr Hgt) as (k & -> & Hk & Hfit).
      destruct (dbg_bytes_in b (12 + 4 + 4 * ri_reply_addr_len i) (k / 2)) as [o ->]; [lia|dlia|].
      destruct (dbg_bytes_in b (12 + 4 + 4 * ri_reply_addr_len i + k / 2) (k - k / 2))
        as [o' Ho']; [dlia|lia|]. simpl in *. rewrite Ho'. by eexists.
    - by eexists. }
  unfold rmap_parse_cmd_pkt, RMAP_INSTRUCTION. rewrite Hi; simpl.
  destruct Hw as [w ->], Hr as [r ->], Hm as [m ->]. simpl.
  repeat case_match; by eexists.
Qed.

Lemma rmap_process_read_reply_in b len :
  bytes b -> len <= zlen b -> exists out, rmap_process_read_reply b len = Some out.
Proof.
  intros Hb Hl. unfold rmap_process_read_reply, RMAP_DATALEN_BYTE2, RMAP_DATALEN_BYTE0,
    RMAP_DATA_START.
  destruct (Z.ltb_spec len (0x0a + 1)); [by eexists|].
  destruct (get_be24_bytes b 8) as (l & -> & Hlr); [done|lia|lia|]. simpl.
  destruct (Z.gtb_spec len 12) as [Hgt|]; [|by eexists].
  destruct (clamp_data_len l len 12 Hlr Hgt) as (k & -> & Hk & Hfit).
  destruct (dbg_bytes_in b 12 k) as [o ->]; [lia|lia|]. by eexists.
Qed.

Lemma rmap_parse_pkt_in b len :
  bytes b -> len <= zlen b -> exists out, rmap_parse_pkt b len = Some out.
Proof.
  intros Hb Hl. unfold rmap_parse_pkt, RMAP_REPLY_STATUS, RMAP_CMD_DESTKEY,
    RMAP_PROTOCOL_ID_OFFSET, RMAP_INSTRUCTION, RMAP_DATA_START, RMAP_ADDR_EXTRA_OFFSET,
    RMAP_HDR_MIN_SIZE_WRITE_REP.
  destruct (Z.ltb_spec len (3 + 1)); [by eexists|].
  destruct (rd_in b 1) as [pid ->]; [lia|]. simpl.
  destruct (negb (pid =? RMAP_PROTOCOL_ID)); [by eexists|].
  destruct (rd_in b 2) as [i Hi]; [lia|]. rewrite Hi; simpl.
  destruct (rpath_shift i (rd_bytes _ _ _ Hb Hi)) as [-> _].
  destruct (c_true (ri_cmd_resp i)).
  - destruct (Z.ltb_spec len (12 + 4 + 4 * ri_reply_addr_len i)); [by eexists|].
    destruct (rmap_parse_cmd_pkt_in b len i Hb Hl Hi) as [o ->]; [lia|]. by eexists.
  - destruct (Z.ltb_spec len (7 + 1)); [by eexists|].
    destruct (rd_in b 3) as [st ->]; [lia|]. simpl.
    destruct (negb (c_true st)); [|by eexists].
    destruct (rmap_process_read_reply_in b len Hb Hl) as [o Ho].
    assert (Hp : exists o, rmap_parse_reply_pkt b len = Some o).
    { unfold rmap_parse_reply_pkt, RMAP_INSTRUCTION. rewrite Hi; simpl. rewrite Ho. simpl.
      repeat case_match; by eexists. }
    destruct Hp as [o' ->]. by eexists.
Qed.

(** ** Lemmas: decoding a built packet *)

(** a packet on the wire behind the target path: header, header CRC, and the
    data with its CRC if there is any *)
Definition frame (p : rmap_pkt) (hc : Z) (d : list Z) (dc : Z) : list Z :=
  hdr_spec p ++ [hc] ++ match d with [] => [] | _ => d ++ [dc] end.

(** [q] has what the frame of [p] carries: the fields of its header, the data [d] and
    the data CRC; a reply has neither a reply path nor an address *)
Record carried (p : rmap_pkt) (d : list Z) (dc : Z) (q : rmap_pkt) : Prop := {
  ca_dst : dst q = dst p;
  ca_proto : proto_id q = proto_id p;
  ca_instruction : instruction q = instruction p;
  ca_key : key q = key p;
  ca_src : src q = src p;
  ca_tr_id : tr_id q = tr_id p;
  ca_rpath : is_cmd p = true -> rpath q = At (path_bytes (rpath p) (rpath_len p)) /\ rpath_len q = rpath_len p;
  ca_addr : is_cmd p = true -> addr q = addr p;
  ca_data : data q = match d with [] => NULL | _ => At d end;
  ca_data_len : data_len q = zlen d;
  ca_data_crc : d <> [] -> data_crc q = dc
}.

Lemma rd_skip (a r l : list Z) i k :
  0 <= k -> i = zlen a + zlen r + k -> rd (a ++ r ++ l) i = rd l k.
Proof.
  intros Hk ->. rewrite app_assoc, rd_app_r by zl. f_equal. zl.
Qed.

Lemma be24_id x : 0 <= x <= RMAP_MAX_DATA_LEN ->
  x / 65536 mod 256 * 65536 + x / 256 mod 256 * 256 + x mod 256 = x.
Proof. unfold RMAP_MAX_DATA_LEN. intros. dlia. Qed.

Lemma be32_id x : 0 <= x < 4294967296 ->
  x / 16777216 mod 256 * 16777216 + x / 65536 mod 256 * 65536 + x / 256 mod 256 * 256 + x mod 256
  = x.
Proof. intros. dlia. Qed.

Lemma mod_byte x : is_byte (x mod 256).
Proof. apply Z.mod_pos_bound. done. Qed.

#[local] Hint Resolve mod_byte : cint.

Lemma rd_after (a l : list Z) i k : 0 <= k -> i = zlen a + k -> rd (a ++ l) i = rd l k.
Proof. intros Hk ->. rewrite rd_app_r by lia. f_equal. lia. Qed.

Lemma get_be24_be pre x post i :
  0 <= x <= RMAP_MAX_DATA_LEN -> i = zlen pre ->
  get_be24 (pre ++ be24_bytes x ++ post) i = Some x.
Proof.
  intros Hx ->. unfold get_be24.
  rewrite (rd_after pre _ (zlen pre) 0), (rd_after pre _ (zlen pre + 1) 1), (rd_after pre _ (zlen pre + 2) 2) by lia.
  unfold be24_bytes. simpl app. rewrite !rd_cons; simpl.
  rewrite be24_lor by auto with cint. by rewrite be24_id.
Qed.

Lemma get_be32_be pre x post i :
  0 <= x < 4294967296 -> i = zlen pre ->
  get_be32 (pre ++ be32_bytes x ++ post) i = Some x.
Proof.
  intros Hx ->. unfold get_be32.
  rewrite (rd_after pre _ (zlen pre) 0), (rd_after pre _ (zlen pre + 1) 1), (rd_after pre _ (zlen pre + 2) 2),
    (rd_after pre _ (zlen pre + 3) 3) by lia.
  unfold be32_bytes, be24_bytes. simpl app. rewrite !rd_cons; simpl.
  rewrite be32_lor by auto with cint. by rewrite be32_id.
Qed.

Lemma get_be16_be pre x post i :
  is_u16 x -> i = zlen pre ->
  get_be16 (pre ++ [x / 256; x mod 256] ++ post) i = Some x.
Proof.
  intros Hx ->. unfold get_be16, is_u16 in *.
  rewrite (rd_after pre _ (zlen pre) 0), (rd_after pre _ (zlen pre + 1) 1) by lia.
  simpl app. rewrite !rd_cons; simpl. f_equal.
  rewrite u16_small by (unfold is_u16; rewrite shiftl_mul by lia; dlia).
  rewrite be16_lor by apply mod_byte. dlia.
Qed.

Lemma get_be24_in b pre x post i :
  b = pre ++ be24_bytes x ++ post -> i = zlen pre ->
  0 <= x <= RMAP_MAX_DATA_LEN -> get_be24 b i = Some x.
Proof. intros -> Hi Hx. by apply get_be24_be. Qed.

Lemma get_be32_in b pre x post i :
  b = pre ++ be32_bytes x ++ post -> i = zlen pre ->
  0 <= x < 4294967296 -> get_be32 b i = Some x.
Proof. intros -> Hi Hx. by apply get_be32_be. Qed.

Lemma get_be16_in b pre x post i :
  b = pre ++ [x / 256; x mod 256] ++ post -> i = zlen pre -> is_u16 x -> get_be16 b i = Some x.
Proof. intros -> Hi Hx. by apply get_be16_be. Qed.

Lemma rd_in_at b pre x post i : b = pre ++ x :: post -> i = zlen pre -> rd b i = Some x.
Proof.
  intros -> ->. rewrite (rd_after pre _ (zlen pre) 0) by lia. by rewrite rd_cons.
Qed.

(** reassociation of explicit concatenations *)
Ltac assoc := rewrite <- ?app_assoc; simpl; rewrite <- ?app_assoc; reflexivity.

Definition head4 (p : rmap_pkt) : list Z := [dst p; proto_id p; instruction p; key p].
Definition tail3 (p : rmap_pkt) : list Z := [src p; tr_id p / 256; tr_id p mod 256].

Section frame_fields.
Context (p q : rmap_pkt) (hc : Z) (d : list Z) (dc : Z).
Context (Hwf : rmap_wf p) (Hi : instruction q = instruction p).
Context (Hq : data_len q = 0 /\ addr q = 0 /\ hdr_crc q = 0).
Context (Hd : zlen d = data_len p).
Context (Hnod : is_cmd p = false -> is_write p = true -> d = []).

Let R := path_bytes (rpath p) (rpath_len p).
Let F := frame p hc d dc.

Lemma frame_src : rd F (RMAP_SRC_ADDR + zlen R) = Some (src p).
Proof using Type.
  eapply (rd_in_at _ (head4 p ++ R)).
  - unfold F, frame, hdr_spec. assoc.
  - unfold head4, RMAP_SRC_ADDR. zl.
Qed.

Lemma frame_tr_id : get_be16 F (RMAP_TRANS_ID_BYTE0 + zlen R) = Some (tr_id p).
Proof using Hwf.
  eapply (get_be16_in _ (head4 p ++ R ++ [src p])).
  - unfold F, frame, hdr_spec. assoc.
  - unfold head4, RMAP_TRANS_ID_BYTE0. zl.
  - apply Hwf.
Qed.

Lemma frame_addr :
  is_cmd p = true -> get_be32 F (RMAP_ADDR_BYTE0 + zlen R) = Some (addr p).
Proof using Hwf.
  intros Hc. eapply (get_be32_in _ (head4 p ++ R ++ tail3 p ++ [0])).
  - unfold F, frame, hdr_spec. rewrite Hc. unfold tail3. assoc.
  - unfold head4, tail3, RMAP_ADDR_BYTE0. zl.
  - apply Hwf.
Qed.

Lemma frame_data_len_cmd :
  is_cmd p = true -> get_be24 F (RMAP_DATALEN_BYTE0 + (zlen R + 4)) = Some (data_len p).
Proof using Hwf.
  intros Hc. eapply (get_be24_in _ (head4 p ++ R ++ tail3 p ++ [0] ++ be32_bytes (addr p))).
  - unfold F, frame, hdr_spec. rewrite Hc. unfold tail3. assoc.
  - unfold head4, tail3, be32_bytes, be24_bytes, RMAP_DATALEN_BYTE0. zl.
  - apply Hwf.
Qed.

Lemma frame_data_len_reply :
  is_cmd p = false -> is_write p = false ->
  get_be24 F (RMAP_DATALEN_BYTE0 + zlen R) = Some (data_len p).
Proof using Hwf.
  intros Hc Hw. eapply (get_be24_in _ (head4 p ++ R ++ tail3 p ++ [0])).
  - unfold F, frame, hdr_spec. rewrite Hc, Hw. unfold tail3. assoc.
  - unfold head4, tail3, RMAP_DATALEN_BYTE0. zl.
  - apply Hwf.
Qed.

Lemma frame_hdr_crc :
  (if zlen F >? RMAP_HEADER_CRC then c ← rd F RMAP_HEADER_CRC; Some c else Some 0)
  = Some (default 0 (rd F RMAP_HEADER_CRC)).
Proof using Type.
  unfold RMAP_HEADER_CRC. destruct (Z.gtb_spec (zlen F) 0x0b).
  - destruct (rd_in F 0x0b) as [c ->]; [lia|done].
  - by rewrite rd_out.
Qed.

Lemma frame_fields_ok :
  from_buffer_fields q F (zlen R) (zlen F) =
  Some (with_hdr_crc (with_data_len (with_addr (with_tr_id (with_src q (src p)) (tr_id p))
          (if is_cmd p then addr p else 0)) (zlen d)) (default 0 (rd F RMAP_HEADER_CRC)),
        zlen R + if is_cmd p then 4 else 0).
Proof using All.
  unfold from_buffer_fields. rewrite frame_src; simpl. rewrite frame_tr_id; simpl.
  destruct Hq as (Hq0 & Hq1 & Hq2).
  assert (Hcrc : forall r : rmap_pkt, hdr_crc r = 0 ->
    (if zlen F >? RMAP_HEADER_CRC then c ← rd F RMAP_HEADER_CRC; Some (with_hdr_crc r c)
     else Some r) = Some (with_hdr_crc r (default 0 (rd F RMAP_HEADER_CRC)))).
  { intros r Hr. pose proof frame_hdr_crc as Hf. destruct (zlen F >? RMAP_HEADER_CRC).
    - destruct (rd F RMAP_HEADER_CRC); [done|discriminate Hf].
    - injection Hf as <-. rewrite <- Hr. by destruct r. }
  rewrite Hi. pose proof frame_addr as Ha. pose proof frame_data_len_cmd as Hl.
  pose proof frame_data_len_reply as Hlr. unfold is_cmd, is_write in *.
  destruct (c_true (ri_cmd_resp (instruction p))) eqn:Er; simpl.
  - rewrite Ha by done. simpl. rewrite Hi, Er. simpl. rewrite Hl by done. simpl.
    rewrite Hcrc by done. simpl. by rewrite Hd.
  - rewrite Hi, Er. simpl.
    destruct (c_true (Z.land (ri_cmd (instruction p)) RMAP_CMD_BIT_WRITE)); simpl.
    + rewrite Hcrc by done. simpl. rewrite Z.add_0_r, (Hnod eq_refl eq_refl).
      destruct q; simpl in *; by subst.
    + rewrite Hlr by done. simpl. rewrite Hcrc by done. simpl. rewrite Z.add_0_r, Hd.
      destruct q; simpl in *; by subst.
Qed.
End frame_fields.

Lemma copy_from_at b pre d post i n :
  b = pre ++ d ++ post -> i = zlen pre -> n = length d -> copy_from b i n = Some d.
Proof.
  intros -> -> ->. rewrite copy_from_in by (unfold zlen; rewrite ?length_app; lia).
  unfold zlen. by rewrite Nat2Z.id, drop_app_length, take_app_length.
Qed.

Lemma zlen_hdr_spec p :
  path_wf (rpath p) (rpath_len p) ->
  zlen (hdr_spec p) =
  7 + rpath_len p + (if is_cmd p then 8 else if is_write p then 0 else 4).
Proof.
  intros (_ & Hr & _). unfold hdr_spec. rewrite !zlen_app, Hr.
  destruct (is_cmd p), (is_write p); unfold be32_bytes, be24_bytes; zl.
Qed.

Lemma frame_data_ok p q hc d dc n :
  rmap_wf p -> (is_cmd p = false -> rpath_len p = 0) ->
  (is_cmd p = false -> is_write p = true -> d = []) ->
  data_len q = zlen d -> data q = NULL -> data_crc q = 0 ->
  n = rpath_len p + (if is_cmd p then 4 else 0) ->
  from_buffer_data (mk_allocs true true true) q (frame p hc d dc) n (zlen (frame p hc d dc))
  = Some (Some (with_data_crc (with_data q (match d with [] => NULL | _ => At d end))
                  (match d with [] => 0 | _ => dc end))).
Proof.
  intros Hwf Hrep Hnod Hdl Hdn Hdc ->. unfold from_buffer_data. rewrite Hdl.
  destruct d as [|x d'].
  { simpl. do 2 f_equal. destruct q; simpl in *; by subst. }
  set (d := x :: d') in *.
  assert (Hpos : 0 < zlen d) by (unfold d; zl).
  unfold c_true. rewrite (proj2 (Z.eqb_neq _ _)) by lia. simpl negb. cbv iota.
  assert (Hf : frame p hc d dc = (hdr_spec p ++ [hc]) ++ d ++ [dc])
    by (unfold frame, d; assoc).
  assert (Hh : zlen (hdr_spec p ++ [hc])
             = RMAP_DATA_START + (rpath_len p + if is_cmd p then 4 else 0)).
  { rewrite zlen_app, zlen_hdr_spec by apply Hwf. unfold RMAP_DATA_START.
    destruct (is_cmd p) eqn:Hc; [zl|]. destruct (is_write p) eqn:Hw.
    - discriminate (Hnod eq_refl eq_refl).
    - zl. }
  assert (Hlen : zlen (frame p hc d dc) = zlen (hdr_spec p ++ [hc]) + zlen d + 1)
    by (rewrite Hf, !(zlen_app (_ ++ _)), (zlen_app d); zl).
  rewrite Hlen, <- Hh. rewrite (proj2 (Z.ltb_ge _ _)) by lia. simpl negb. cbv iota.
  rewrite (copy_from_at _ _ _ _ _ _ Hf eq_refl) by (unfold zlen; lia). simpl mbind.
  rewrite Hdl, Z.gtb_ltb, (proj2 (Z.ltb_lt _ _)) by lia.
  rewrite (rd_in_at (frame p hc d dc) ((hdr_spec p ++ [hc]) ++ d) dc []).
  - done.
  - rewrite Hf. apply app_assoc.
  - symmetry. apply (zlen_app (hdr_spec p ++ [hc])).
Qed.

Lemma zlen_frame p hc d dc :
  rmap_wf p -> zlen (frame p hc d dc) =
  8 + rpath_len p + (if is_cmd p then 8 else if is_write p then 0 else 4) +
  (match d with [] => 0 | _ => zlen d + 1 end).
Proof.
  intros Hwf. unfold frame. rewrite zlen_app, zlen_hdr_spec by apply Hwf.
  destruct d; zl.
Qed.

Lemma frame_rpath_ok p q hc d dc :
  rmap_wf p -> instruction q = instruction p -> (is_cmd p = false -> rpath_len p = 0) ->
  rpath q = NULL -> rpath_len q = 0 ->
  let F := frame p hc d dc in
  from_buffer_rpath (mk_allocs true true true) (rmap_get_min_hdr_size q) q F (zlen F) =
  Some (if is_cmd p && (zlen F <? rmap_get_min_hdr_size q + rpath_len p) then None else
        Some (with_rpath (with_rpath_len q (rpath_len p))
          (if is_cmd p then At (path_bytes (rpath p) (rpath_len p)) else NULL), rpath_len p)).
Proof.
  intros Hwf Hi Hrep Hq1 Hq2 F. unfold from_buffer_rpath. rewrite Hi.
  pose proof (wf_octets _ Hwf) as Ho. unfold bytes in Ho. rewrite !Forall_cons in Ho.
  destruct (rpath_shift (instruction p)) as [_ Hsh]; [tauto|]. rewrite Hsh.
  rewrite <- (wf_words _ Hwf). unfold is_cmd in *.
  destruct (c_true (ri_cmd_resp (instruction p))).
  - simpl. destruct (_ <? _); [done|]. simpl.
    rewrite (copy_from_at F (head4 p) (path_bytes (rpath p) (rpath_len p)) (drop (length (head4 p) + length (path_bytes (rpath p) (rpath_len p))) F)); [done| |done|].
    + unfold F, frame, hdr_spec. fold (head4 p). rewrite <- !app_assoc.
      by rewrite drop_app_add, drop_app_length.
    + destruct (wf_rpath _ Hwf) as (_ & Hl & _). unfold zlen in Hl. lia.
  - specialize (Hrep eq_refl). rewrite Hrep in *. do 2 f_equal. simpl.
    destruct q; simpl in *; by subst.
Qed.

Lemma parse_frame_run p hc d dc cnt :
  rmap_wf p -> proto_id p = RMAP_PROTOCOL_ID -> valid_cmd p ->
  (is_cmd p = false -> rpath_len p = 0) ->
  (is_cmd p = false -> is_write p = true -> d = []) ->
  zlen d = data_len p ->
  rmap_pkt_from_buffer (mk_allocs true true true) cnt
    (At (frame p hc d dc)) (zlen (frame p hc d dc))
  = Some (cnt, Some (mk_rmap NULL 0 (dst p) RMAP_PROTOCOL_ID (instruction p) (key p) (src p)
      (if is_cmd p then At (path_bytes (rpath p) (rpath_len p)) else NULL)
      (if is_cmd p then rpath_len p else 0)
      (tr_id p) (if is_cmd p then addr p else 0)
      (match d with [] => NULL | _ => At d end) (zlen d)
      (default 0 (rd (frame p hc d dc) RMAP_HEADER_CRC))
      (match d with [] => 0 | _ => dc end))).
Proof.
  intros Hwf Hid Hv Hrep Hnod Hd. unfold rmap_pkt_from_buffer.
  pose proof (zlen_frame p hc d dc Hwf) as Hlen.
  pose proof (wf_rpath _ Hwf) as (Hrl & HR & _). pose proof (zlen_nonneg d) as Hdn.
  set (F := frame p hc d dc) in *.
  assert (H8 : 7 <= zlen F /\ (is_cmd p = true -> 15 + rpath_len p <= zlen F) /\
    (is_cmd p = false -> is_write p = false -> 11 <= zlen F)).
  { rewrite Hlen. destruct d, (is_cmd p), (is_write p); split; try split; intros; zl. }
  destruct H8 as (H7 & Hc15 & Hr11).
  unfold RMAP_HDR_MIN_SIZE_WRITE_REP. rewrite (proj2 (Z.ltb_ge _ _)) by lia.
  assert (Hh : exists t, F = dst p :: proto_id p :: instruction p :: key p :: t)
    by (eexists; unfold F, frame, hdr_spec; assoc). destruct Hh as [t Ht].
  assert (Hrd : rd F 0 = Some (dst p) /\ rd F 1 = Some (proto_id p) /\
     rd F 2 = Some (instruction p) /\ rd F 3 = Some (key p)).
  { rewrite Ht. rewrite !rd_cons. done. }
  destruct Hrd as (R0 & R1 & R2 & R3).
  unfold RMAP_PROTOCOL_ID_OFFSET, RMAP_DEST_ADDRESS, RMAP_INSTRUCTION, RMAP_CMD_DESTKEY.
  rewrite R1, R0, R2, R3. cbn [mbind option_bind]. rewrite Hid.
  cbn [RMAP_PROTOCOL_ID Z.eqb negb Pos.eqb rmap_create_packet al_pkt].
  set (q := with_key _ _).
  assert (Hm : rmap_get_min_hdr_size q = rmap_get_min_hdr_size p) by done.
  assert (Hms : (rmap_get_min_hdr_size p <? 0) = false /\
    (zlen F <? rmap_get_min_hdr_size p) = false /\
    (is_cmd p && (zlen F <? rmap_get_min_hdr_size p + rpath_len p)) = false).
  { rewrite !Z.ltb_ge, andb_false_iff, Z.ltb_ge.
    destruct (min_hdr_size_cases p) as [[_ Hx]|[(_ & Hx & Hy)|(_ & Hx & Hy)]].
    - unfold valid_cmd in Hv. congruence.
    - specialize (Hc15 Hx). lia.
    - destruct Hy as [Hy|[Hw Hy]]; rewrite Hx, Hy; [|lia].
      split; [lia|]. split; [|tauto]. destruct (is_write p) eqn:Hw; [|by apply Hr11].
      exfalso. revert Hw Hy. clear -Hv Hx.
      unfold is_write, is_cmd, rmap_get_min_hdr_size, valid_cmd in *.
      pose proof (valid_cmd_range _ Hv) as Hr. rewrite Hx. revert Hv Hr.
      generalize (ri_cmd (instruction p)) as k. intros k Hk Hr.
      assert (Hcases : In k (seqZ 0 16)) by (apply list_elem_of_In, elem_of_seqZ; lia).
      simpl in Hcases. revert Hk. clear -Hcases.
      repeat (destruct Hcases as [<-|Hcases]; [vm_compute; done|]). done. }
  destruct Hms as (Hm0 & Hm1 & Hm2). rewrite Hm, Hm0, Hm1, <- Hm.
  unfold F. rewrite (frame_rpath_ok p q hc d dc Hwf eq_refl Hrep eq_refl eq_refl). fold F.
  rewrite Hm, Hm2. cbn [mbind option_bind].
  rewrite <- HR at 3. unfold F.
  rewrite (frame_fields_ok p _ hc d dc Hwf); try done. cbn [mbind option_bind].
  rewrite (frame_data_ok p); try done; [|by rewrite HR].
  cbn [mbind option_bind]. unfold q. simpl. do 3 f_equal.
  destruct (is_cmd p); [done|]. by rewrite Hrep.
Qed.

(** the field [hdr_crc] is the octet at a fixed offset *)
Lemma parse_frame p hc d dc cnt :
  rmap_wf p -> proto_id p = RMAP_PROTOCOL_ID -> valid_cmd p ->
  (is_cmd p = false -> rpath_len p = 0) ->
  (is_cmd p = false -> is_write p = true -> d = []) ->
  zlen d = data_len p ->
  exists q, rmap_pkt_from_buffer (mk_allocs true true true) cnt
      (At (frame p hc d dc)) (zlen (frame p hc d dc)) = Some (cnt, Some q) /\
    carried p d dc q /\ hdr_crc q = default 0 (rd (frame p hc d dc) RMAP_HEADER_CRC).
Proof.
  intros Hwf Hid Hv Hrep Hnod Hd. eexists. split; [by apply parse_frame_run|]. split; [|done].
  split; simpl; try done; [by intros ->..|by destruct d].
Qed.

(** ** The CRC-8, bit by bit

    ECSS-E-ST-50-52C: generator x^8 + x^2 + x + 1, least significant bit
    first, register preset to zero. *)

Definition crc8_shift (c : Z) : Z :=
  Z.lxor (Z.shiftr c 1) (if Z.odd c then 0xe0 else 0).

Definition crc8_byte (c : Z) : Z := Nat.iter 8 crc8_shift c.

Definition crc8_ref (l : list Z) : Z := foldl (fun c v => crc8_byte (Z.lxor c v)) 0 l.

Lemma crc8_lt_byte c : is_byte c -> rd crc8_lt c = Some (crc8_byte c) /\ is_byte (crc8_byte c).
Proof.
  intros Hc.
  assert (H : forallb (fun c => bool_decide (rd crc8_lt c = Some (crc8_byte c)) &&
                (0 <=? crc8_byte c) && (crc8_byte c <? 256)) (seqZ 0 256) = true)
    by vm_cast_no_check (eq_refl true).
  pose proof (byte_ind _ H c Hc) as Hx. cbv beta in Hx.
  rewrite !andb_true_iff, bool_decide_eq_true, Z.leb_le, Z.ltb_lt in Hx.
  unfold is_byte. tauto.
Qed.

Lemma crc8_fold_byte l c :
  bytes l -> is_byte c -> is_byte (foldl (fun c v => crc8_byte (Z.lxor c v)) c l).
Proof.
  intros Hl. revert c. induction Hl as [|v l Hv _ IH]; intros c Hc; simpl; [done|].
  apply IH, crc8_lt_byte, lxor_byte; done.
Qed.

Lemma rmap_crc8_loop_fold pre l post c :
  bytes l -> is_byte c ->
  rmap_crc8_loop (pre ++ l ++ post) (zlen pre) (length l) c
  = Some (foldl (fun c v => crc8_byte (Z.lxor c v)) c l).
Proof.
  intros Hl. revert pre c. induction Hl as [|v l Hv Hl IH]; intros pre c Hc; [done|].
  cbn [length rmap_crc8_loop].
  rewrite (rd_in_at _ pre v (l ++ post)) by done. cbn [mbind option_bind].
  destruct (crc8_lt_byte (Z.lxor c v)) as [-> Hb]; [by apply lxor_byte|].
  cbn [mbind option_bind]. replace (pre ++ (v :: l) ++ post) with ((pre ++ [v]) ++ l ++ post) by assoc.
  replace (zlen pre + 1) with (zlen (pre ++ [v])) by zl. by apply IH.
Qed.

Lemma crc8_byte_0 : crc8_byte 0 = 0.
Proof. reflexivity. Qed.

(** ** Properties *)

(** Without a command the size query of [rmap_build_hdr] does not fail: with a
    destination path of four octets it answers 3, and the writer writes 15. *)
Theorem rmap_size_without_cmd : exists p,
  run_ops [OpDestPath (At [4; 5; 6; 7]) 4] (rmap_create_packet true) = Some (Some p) /\
  rmap_build_hdr (Some p) NULL = Some (3, NULL) /\
  rmap_build_hdr (Some p) (At (replicate 14 0)) = None /\
  rmap_build_hdr (Some p) (At (replicate 15 0)) = Some (15, At [4; 5; 6; 7; 0; 1; 0; 0; 0; 0; 0; 0; 0; 0; 0]).
Proof. eexists. split; [reflexivity|]. split; [reflexivity|]. split; vm_compute; reflexivity. Qed.

(** A setter of a path that cannot allocate its copy leaves the length behind without
    the path, and the writer follows the null pointer. *)
Theorem rmap_failed_path_null a b c d buf : exists p,
  rmap_set_dest_path false (rmap_create_packet true) (At [a; b; c; d]) 4 = Some (-1, Some p) /\
  path p = NULL /\ path_len p = 4 /\ rmap_build_hdr (Some p) (At buf) = None.
Proof. eexists. split; [reflexivity|]. split; [reflexivity|]. split; vm_compute; reflexivity. Qed.

(** C22: a packet created by [rmap_create_packet] and filled by a sequence of the
    setters, with arguments of their C types, in which a valid command code is set at
    least once and every allocation succeeds, satisfies the packet invariant; for it
    [rmap_build_hdr] answers the [NULL] query with a size [n], and in every
    buffer of at least [n] octets it writes exactly the target path and the
    header, returns [n] and leaves the rest of the buffer alone: no octet is
    written beyond the size the caller was told to provide.  Neither of the two
    conditions can be left out ([rmap_size_without_cmd], [rmap_failed_path_null]). *)
Theorem rmap_build_hdr_correct (ops : list rmap_op) (buf : list Z) :
  Forall op_typed ops -> existsb sets_cmd ops = true ->
  exists p n, run_ops ops (rmap_create_packet true) = Some (Some p) /\
    rmap_wf p /\ valid_cmd p /\ is_cmd p = true /\
    rmap_build_hdr (Some p) NULL = Some (n, NULL) /\
    (n <= zlen buf ->
     rmap_build_hdr (Some p) (At buf) =
     Some (n, At (path_bytes (path p) (path_len p) ++ hdr_spec p ++ drop (Z.to_nat n) buf))).
Proof.
  intros Hty Hc.
  destruct (run_ops_built false _ ops (rmap_create_built _ eq_refl) Hty)
    as (p & Hrun & Hwf & _ & Hset).
  simpl in Hset. destruct (Hset Hc) as [Hv Hr]. pose proof (hdr_size p Hwf Hv) as Hs.
  exists p, (rmap_get_min_hdr_size p + path_len p + rpath_len p).
  split; [done|]. split; [done|]. split; [done|].
  split; [unfold is_cmd; by rewrite Hr|]. split; [done|].
  rewrite Hs. intros Hn. rewrite (rmap_build_hdr_spec p buf Hwf Hn).
  rewrite app_assoc. unfold zlen. by rewrite Nat2Z.id.
Qed.

Definition ex_ops : list rmap_op :=
  [OpDst 0x50; OpSrc 0x51; OpKey 0xab; OpCmd RMAP_READ_ADDR_INC; OpDestPath (At [4; 5]) 2;
   OpReplyPath (At [1; 2; 3; 4]) 4; OpTrId 0x1234; OpDataAddr 0xc0ffee00; OpDataLen 4096].

Lemma ex_ops_typed : Forall op_typed ex_ops.
Proof.
  unfold ex_ops. repeat apply Forall_cons_2; try apply Forall_nil_2; simpl;
    unfold is_byte, is_u16, path_arg, RMAP_READ_ADDR_INC; try lia;
    (split; [lia|]; split; [by apply bytes_check|vm_compute; discriminate]).
Qed.

Lemma rmap_build_hdr_correct_witness :
  exists p n, run_ops ex_ops (rmap_create_packet true) = Some (Some p) /\
    rmap_build_hdr (Some p) NULL = Some (n, NULL) /\
    rmap_build_hdr (Some p) (At (replicate 32 0xee)) =
    Some (n, At (path_bytes (path p) (path_len p) ++ hdr_spec p ++
                 drop (Z.to_nat n) (replicate 32 0xee))).
Proof.
  destruct (rmap_build_hdr_correct ex_ops (replicate 32 0xee)) as (p & n & Hr & _ & _ & _ & Hn & H).
  - apply ex_ops_typed.
  - reflexivity.
  - exists p, n. split; [exact Hr|]. split; [exact Hn|]. apply H.
    vm_compute in Hr. injection Hr as <-. vm_compute in Hn. injection Hn as <-.
    vm_compute. discriminate.
Defined.

(** C21: the parser inverts the writer.  For every well-formed RMAP packet [p] with a
    valid command code (replies carry no reply path, write replies no data), the
    octets behind the target path, that is the header as [rmap_build_hdr] writes it,
    a header CRC, and the data and its CRC when there is data, are decoded by
    [rmap_pkt_from_buffer], if its allocations succeed, to a packet with the logical
    addresses, the instruction, the key, the transaction id, the data, its length and
    its CRC, and for a command the reply path and the address; the non-RMAP error
    counter is unchanged.  Nothing is said of the field [hdr_crc]
    ([rmap_hdr_crc_of_command]), nor of the address of a reply, which has none. *)
Theorem rmap_parse_build (p : rmap_pkt) (hc : Z) (d : list Z) (dc cnt : Z)
  (Hwf : rmap_wf p) (Hid : proto_id p = RMAP_PROTOCOL_ID) (Hv : valid_cmd p)
  (Hrep : is_cmd p = false -> rpath_len p = 0)
  (Hnod : is_cmd p = false -> is_write p = true -> d = [])
  (Hd : zlen d = data_len p) :
  rmap_build_hdr (Some p) (At (replicate (length (path_bytes (path p) (path_len p) ++ hdr_spec p)) 0))
    = Some (path_len p + zlen (hdr_spec p),
            At (path_bytes (path p) (path_len p) ++ hdr_spec p)) /\
  exists q, rmap_pkt_from_buffer (mk_allocs true true true) cnt
      (At (hdr_spec p ++ [hc] ++ match d with [] => [] | _ => d ++ [dc] end))
      (zlen (hdr_spec p ++ [hc] ++ match d with [] => [] | _ => d ++ [dc] end))
    = Some (cnt, Some q) /\ carried p d dc q.
Proof.
  split.
  - rewrite (rmap_build_hdr_spec p) by (try done; unfold zlen; rewrite length_replicate; lia).
    rewrite drop_replicate, Nat.sub_diag. simpl. rewrite app_nil_r, zlen_app.
    by destruct (wf_path _ Hwf) as (_ & -> & _).
  - destruct (parse_frame p hc d dc cnt) as (q & Hq & Hc & _); try done. by exists q.
Qed.

Definition ex_pkt : rmap_pkt :=
  mk_rmap (At [7]) 1 0x50 1 0x6d 0xab 0x51 (At [1; 2; 3; 4]) 4 0x1234 0xc0ffee00 NULL 3 0 0.

Lemma ex_pkt_wf : rmap_wf ex_pkt.
Proof.
  split; unfold path_wf, is_u16, RMAP_MAX_DATA_LEN; simpl; try lia.
  1,2: split; [lia|]; split; [reflexivity|by apply bytes_check].
  - reflexivity.
  - by apply bytes_check.
Qed.

Lemma rmap_parse_build_witness :
  exists q, rmap_pkt_from_buffer (mk_allocs true true true) 0
      (At (hdr_spec ex_pkt ++ [0x99] ++ [10; 20; 30] ++ [0x77])) 24 = Some (0, Some q) /\
    addr q = 0xc0ffee00 /\ rpath q = At [1; 2; 3; 4] /\ data q = At [10; 20; 30] /\ data_crc q = 0x77.
Proof.
  assert (H : is_cmd ex_pkt = false -> False) by discriminate.
  destruct (rmap_parse_build ex_pkt 0x99 [10; 20; 30] 0x77 0 ex_pkt_wf eq_refl eq_refl
    (fun x => False_ind _ (H x)) (fun x _ => False_ind _ (H x)) eq_refl) as [_ (q & Hq & Hc)].
  exists q. split; [exact Hq|]. split; [exact (ca_addr _ _ _ _ Hc eq_refl)|].
  split; [exact (proj1 (ca_rpath _ _ _ _ Hc eq_refl))|].
  split; [exact (ca_data _ _ _ _ Hc)|]. apply (ca_data_crc _ _ _ _ Hc). discriminate.
Defined.

(** C19: memory safety of the RMAP receive path. Whatever octets were received
    and whatever allocations fail, as long as [len] does not exceed the
    buffer, [rmap_pkt_from_buffer] and the debug decoder [rmap_parse_pkt] only
    read inside of it, and a packet that is returned is well formed: RMAP
    protocol, valid command code, reply path and data buffers exactly as long
    as their length fields say, all of it inside the [len] octets received. *)
Theorem rmap_receive_safe (al : allocs) (cnt : Z) (b : list Z) (len : Z)
  (Hb : bytes b) (Hl : len <= zlen b) :
  (exists cnt' r, rmap_pkt_from_buffer al cnt (At b) len = Some (cnt', r) /\
    (forall p, r = Some p -> cnt' = cnt /\ decoded p len)) /\
  (exists out, rmap_parse_pkt b len = Some out).
Proof.
  split; [by apply from_buffer_safe|by apply rmap_parse_pkt_in].
Qed.

Lemma rmap_receive_safe_witness :
  exists out, rmap_parse_pkt [0x50; 1; 0x48; 0; 0; 0; 0; 0; 0; 0; 0; 0; 0; 0; 255; 0; 9; 9] 18
    = Some out.
Proof.
  refine (proj2 (rmap_receive_safe (mk_allocs true true true) 0
    [0x50; 1; 0x48; 0; 0; 0; 0; 0; 0; 0; 0; 0; 0; 0; 255; 0; 9; 9] 18 _ _)).
  - apply bytes_check. reflexivity.
  - vm_compute. discriminate.
Defined.

(** C24: [rmap_crc8] computes the CRC-8 of ECSS-E-ST-50-52C, shifted out bit by
    bit, of the first octets of a buffer; the CRC of any block followed by its
    own CRC is zero, which is the receiver's check. *)
Theorem rmap_crc8_correct (l post : list Z) (Hl : bytes l) :
  rmap_crc8 (At (l ++ post)) (zlen l) = Some (crc8_ref l) /\
  rmap_crc8 (At (l ++ [crc8_ref l])) (zlen l + 1) = Some 0.
Proof.
  assert (Hc : is_byte (crc8_ref l)) by (by apply crc8_fold_byte).
  unfold rmap_crc8. split.
  - unfold zlen. rewrite Nat2Z.id. by apply (rmap_crc8_loop_fold [] l post 0).
  - replace (Z.to_nat (zlen l + 1)) with (length (l ++ [crc8_ref l]))
      by (unfold zlen; rewrite length_app; simpl; lia).
    rewrite <- (app_nil_r (l ++ [crc8_ref l])) at 1.
    refine (eq_trans (rmap_crc8_loop_fold [] (l ++ [crc8_ref l]) [] 0 _ _) _); [|done|].
    { apply bytes_app. split; [done|]. apply bytes_cons. split; [done|apply Forall_nil_2]. }
    rewrite foldl_app. fold (crc8_ref l). simpl foldl. rewrite Z.lxor_nilpotent. done.
Qed.

Lemma rmap_crc8_correct_witness :
  rmap_crc8 (At ([0x50; 1; 0x6c; 0xab] ++ [1])) 4 = Some (crc8_ref [0x50; 1; 0x6c; 0xab]).
Proof.
  refine (proj1 (rmap_crc8_correct [0x50; 1; 0x6c; 0xab] [1] _)).
  apply bytes_check. reflexivity.
Defined.

(** the header CRC is read at the fixed offset 0x0b, which is its position
    in replies with a data length only: for a decoded command without reply
    path the field [hdr_crc] holds the least significant octet of the address,
    whatever the CRC of the header is. *)
Theorem rmap_hdr_crc_of_command (p : rmap_pkt) (hc : Z) (d : list Z) (dc cnt : Z)
  (Hwf : rmap_wf p) (Hid : proto_id p = RMAP_PROTOCOL_ID) (Hv : valid_cmd p)
  (Hcmd : is_cmd p = true) (Hr : rpath_len p = 0) (Hd : zlen d = data_len p) :
  exists q, rmap_pkt_from_buffer (mk_allocs true true true) cnt
      (At (frame p hc d dc)) (zlen (frame p hc d dc)) = Some (cnt, Some q) /\
    hdr_crc q = addr p mod 256 /\ rd (frame p hc d dc) 15 = Some hc.
Proof.
  destruct (parse_frame p hc d dc cnt) as (q & Hq & _ & Hcrc); try done; [congruence..|].
  exists q. split; [done|]. rewrite Hcrc.
  destruct (wf_rpath _ Hwf) as (_ & Hl & _). rewrite Hr in Hl. apply zlen_0_nil in Hl.
  unfold frame, hdr_spec. rewrite Hcmd, Hr, Hl.
  unfold be32_bytes, be24_bytes. split; reflexivity.
Qed.

Definition ex_cmd : rmap_pkt :=
  mk_rmap NULL 0 0x50 1 0x4c 0xab 0x51 NULL 0 0x1234 0xc0ffee55 NULL 0 0 0.

Lemma rmap_hdr_crc_of_command_witness :
  exists q, rmap_pkt_from_buffer (mk_allocs true true true) 0
      (At (frame ex_cmd 0x99 [] 0)) (zlen (frame ex_cmd 0x99 [] 0)) = Some (0, Some q) /\
    hdr_crc q = 0x55.
Proof.
  destruct (rmap_hdr_crc_of_command ex_cmd 0x99 [] 0 0) as (q & Hq & Hc & _); try reflexivity.
  - split; unfold path_wf, is_u16, RMAP_MAX_DATA_LEN; simpl; try lia.
    1,2: split; [lia|]; split; [reflexivity|apply Forall_nil_2].
    + reflexivity.
    + apply bytes_check. reflexivity.
  - exists q. split; [exact Hq|]. rewrite Hc. reflexivity.
Defined.
