(* ===== verification/RmapHeap.v ===== *)
(** * The memory of RMAP packets (src/rmap.c)

    In [Rmap] a packet is a value, and the buffers it points to are parts of it.
    Here the functions of rmap.c that allocate and free run on a memory of
    blocks: what is allocated twice, freed twice, lost, or read before it was
    written is visible.  The theorems show that they implement those of [Rmap], and
    what they leave in the memory. *)

From stdpp Require Import base tactics option list list_numbers gmap.
From Stdlib Require Import ZArith Lia Bool.
From S2P Require Import Prelude.
From S2P Require Import Rmap.

Local Open Scope Z_scope.

(** ** The memory *)

(** a [struct rmap_pkt]: its three pointers, and the other members as in [Rmap],
    with [NULL] for the pointers *)
Record obj : Type := mk_obj {
  o_path : option positive;
  o_rpath : option positive;
  o_data : option positive;
  o_val : rmap_pkt
}.

(** an allocated block; an octet that was not written yet is [None] *)
Inductive block : Type :=
| Octets (b : list (option Z))
| Packet (o : obj).

(** [non_rmap] is [non_rmap_pkt_err_cnt] *)
Record heap : Type := mk_heap { mem : gmap positive block; calls : nat; non_rmap : Z }.

(** the allocator, a function of the number of the call, the size and the memory;
    it returns blocks that are not in use *)
Class Allocator : Type := {
  new : nat -> Z -> gmap positive block -> option positive;
  new_free : forall t n m l, new t n m = Some l -> m !! l = None
}.

(** a computation; [None] is undefined behaviour *)
Definition HM (A : Type) : Type := heap -> option (A * heap).

#[export] Instance HM_ret : MRet HM := fun A a h => Some (a, h).
#[export] Instance HM_bind : MBind HM := fun A B f m h =>
  match m h with Some (a, h') => f a h' | None => None end.

Definition undefined {A} : HM A := fun _ => None.
Definition lift {A} (o : option A) : HM A := fun h => a ← o; Some (a, h).
Definition with_mem (h : heap) (m : gmap positive block) : heap := mk_heap m (calls h) (non_rmap h).

Section ops.
Context {A : Allocator}.

Definition allocate (n : Z) (b : block) : HM (option positive) := fun h =>
  match new (calls h) n (mem h) with
  | Some l => Some (Some l, mk_heap (<[l := b]> (mem h)) (S (calls h)) (non_rmap h))
  | None => Some (None, mk_heap (mem h) (S (calls h)) (non_rmap h))
  end.

Definition malloc (n : Z) : HM (option positive) := allocate n (Octets (replicate (Z.to_nat n) None)).

(** [free(NULL)] does nothing; what is not allocated cannot be freed *)
Definition free (p : option positive) : HM () := fun h =>
  match p with
  | None => Some ((), h)
  | Some l => match mem h !! l with Some _ => Some ((), with_mem h (delete l (mem h))) | None => None end
  end.

Definition load_packet (l : positive) : HM obj := fun h =>
  match mem h !! l with Some (Packet o) => Some (o, h) | _ => None end.

Definition store_packet (l : positive) (o : obj) : HM () := fun h =>
  match mem h !! l with Some (Packet _) => Some ((), with_mem h (<[l := Packet o]> (mem h))) | _ => None end.

(** [p[i] = v] *)
Definition store_octet (p : option positive) (i v : Z) : HM () := fun h =>
  match p with
  | None => None
  | Some l =>
      match mem h !! l with
      | Some (Octets b) =>
          if (0 <=? i) && (i <? zlen b)
          then Some ((), with_mem h (<[l := Octets (<[Z.to_nat i := Some v]> b)]> (mem h))) else None
      | _ => None
      end
  end.

(** [for (i = 0; i < n; i++) p[i] = buf[off + i]], and [memcpy] *)
Fixpoint copy_loop (p : option positive) (i : Z) (b : list Z) (off : Z) (n : nat) : HM () :=
  match n with
  | O => mret ()
  | S n => v ← lift (rd b (off + i)); _ ← store_octet p i v; copy_loop p (i + 1) b off n
  end.

Definition memcpy (p : option positive) (src : ptr) (n : Z) : HM () :=
  match src with
  | NULL => if c_true n then undefined else mret ()
  | At b => copy_loop p 0 b 0 (Z.to_nat n)
  end.

(** ** Creating and destroying *)

Definition obj_zero : obj := mk_obj None None None (mk_rmap NULL 0 0 0 0 0 0 NULL 0 0 0 NULL 0 0 0).
Definition with_val (o : obj) (v : rmap_pkt) : obj := mk_obj (o_path o) (o_rpath o) (o_data o) v.
Definition obj_path (o : obj) (p : option positive) : obj := mk_obj p (o_rpath o) (o_data o) (o_val o).
Definition obj_rpath (o : obj) (p : option positive) : obj := mk_obj (o_path o) p (o_data o) (o_val o).
Definition obj_data (o : obj) (p : option positive) : obj := mk_obj (o_path o) (o_rpath o) p (o_val o).

(** [pkt->member = ...] *)
Definition update (l : positive) (f : obj -> obj) : HM () := o ← load_packet l; store_packet l (f o).
Definition put (l : positive) (f : rmap_pkt -> rmap_pkt) : HM () := update l (fun o => with_val o (f (o_val o))).

(** the size of the structure, for the allocator only *)
Definition sizeof_rmap_pkt : Z := 64.

Definition rmap_create_packet : HM (option positive) :=
  pkt ← allocate sizeof_rmap_pkt (Packet obj_zero);
  _ ← match pkt with Some l => put l (fun p => with_proto_id p RMAP_PROTOCOL_ID) | None => mret () end;
  mret pkt.

Definition rmap_destroy_packet (pkt : option positive) : HM () := free pkt.

Definition rmap_erase_packet (pkt : option positive) : HM () :=
  match pkt with
  | None => undefined
  | Some l =>
      o ← load_packet l; _ ← free (o_path o);
      o ← load_packet l; _ ← free (o_rpath o);
      o ← load_packet l; _ ← free (o_data o);
      free pkt
  end.

(** ** The setters *)

Definition rmap_set (pkt : option positive) (f : rmap_pkt -> rmap_pkt) : HM () :=
  match pkt with None => mret () | Some l => put l f end.

Definition rmap_set_dst pkt (a : Z) : HM () := rmap_set pkt (fun p => with_dst p a).
Definition rmap_set_src pkt (a : Z) : HM () := rmap_set pkt (fun p => with_src p a).
Definition rmap_set_key pkt (k : Z) : HM () := rmap_set pkt (fun p => with_key p k).
Definition rmap_set_tr_id pkt (id : Z) : HM () := rmap_set pkt (fun p => with_tr_id p id).
Definition rmap_set_data_addr pkt (a : Z) : HM () := rmap_set pkt (fun p => with_addr p a).

Definition rmap_set_data_len (pkt : option positive) (len : Z) : HM Z :=
  match pkt with
  | None => mret (-1)
  | Some l =>
      if len >? RMAP_MAX_DATA_LEN then mret (-1) else _ ← put l (fun p => with_data_len p (u32 len)); mret 0
  end.

Definition rmap_set_cmd (pkt : option positive) (cmd : Z) : HM Z :=
  match pkt with
  | None => mret (-1)
  | Some l =>
      if c_true (rmap_validate_cmd_code cmd) then mret (-1) else
      _ ← put l (fun p => with_instruction p (set_ri_cmd (instruction p) (u8 (Z.land cmd 0xF))));
      _ ← put l (fun p => with_instruction p (set_ri_cmd_resp (instruction p) 1));
      mret 0
  end.

Definition rmap_set_reply_path (pkt : option positive) (rp : ptr) (len : Z) : HM Z :=
  match pkt with
  | None => mret (-1)
  | Some l =>
      if bool_decide (rp = NULL) && c_true len then mret (-1) else
      if len >? RMAP_MAX_REPLY_PATH_LEN then mret (-1) else
      if c_true (Z.land len 0x3) then mret (-1) else
      _ ← put l (fun p => with_rpath_len p len);
      let words :=
        _ ← put l (fun p => with_instruction p (set_ri_reply_addr_len (instruction p) (u8 (Z.shiftr len 2))));
        mret 0 in
      if c_true len then
        q ← malloc len;
        _ ← update l (fun o => obj_rpath o q);
        match q with
        | None => mret (-1)
        | Some _ => _ ← memcpy q rp len; words
        end
      else words
  end.

Definition rmap_set_dest_path (pkt : option positive) (pa : ptr) (len : Z) : HM Z :=
  match pkt with
  | None => mret (-1)
  | Some l =>
      if bool_decide (pa = NULL) && c_true len then mret (-1) else
      if len >? RMAP_MAX_PATH_LEN then mret (-1) else
      _ ← put l (fun p => with_path_len p len);
      q ← malloc len;
      _ ← update l (fun o => obj_path o q);
      match q with
      | None => mret (-1)
      | Some _ => _ ← memcpy q pa len; mret 0
      end
  end.

(** ** The parser *)

Definition count_non_rmap : HM () := fun h => Some ((), mk_heap (mem h) (calls h) (u64 (non_rmap h + 1))).

(** the label [error] *)
Definition from_buffer_error (pkt : option positive) : HM (option positive) :=
  match pkt with
  | None => mret None
  | Some l =>
      o ← load_packet l; _ ← free (o_data o);
      o ← load_packet l; _ ← free (o_rpath o);
      _ ← free pkt; mret None
  end.

(** the reply path; [None] leads to [error] *)
Definition from_buffer_rpath (l : positive) (b : list Z) (len min_hdr_size : Z) : HM (option Z) :=
  o ← load_packet l;
  if c_true (ri_cmd_resp (instruction (o_val o))) then
    _ ← put l (fun p => with_rpath_len p (u8 (Z.shiftl (ri_reply_addr_len (instruction p)) 2)));
    o ← load_packet l;
    let rpath_len := rpath_len (o_val o) in
    if len <? min_hdr_size + rpath_len then mret None else
    q ← malloc rpath_len;
    _ ← update l (fun o => obj_rpath o q);
    match q with
    | None => mret None
    | Some _ => _ ← copy_loop q 0 b RMAP_REPLY_ADDR_START (Z.to_nat rpath_len); mret (Some rpath_len)
    end
  else mret (Some 0).

(** the members that are no pointers *)
Definition from_buffer_fields (l : positive) (b : list Z) (n len : Z) : HM Z :=
  o ← load_packet l;
  '(p, n) ← lift (Rmap.from_buffer_fields (o_val o) b n len);
  _ ← put l (fun _ => p);
  mret n.

(** the data; [false] leads to [error] *)
Definition from_buffer_data (l : positive) (b : list Z) (n len : Z) : HM bool :=
  o ← load_packet l;
  let data_len := data_len (o_val o) in
  if c_true data_len then
    if len <? RMAP_DATA_START + n + data_len then mret false else
    q ← malloc data_len;
    _ ← update l (fun o => obj_data o q);
    match q with
    | None => mret false
    | Some _ =>
        _ ← copy_loop q 0 b (RMAP_DATA_START + n) (Z.to_nat data_len);
        _ ← (if len >? RMAP_DATA_START + n + data_len
             then c ← lift (rd b (RMAP_DATA_START + n + data_len)); put l (fun p => with_data_crc p c)
             else mret ());
        mret true
    end
  else mret true.

Definition rmap_pkt_from_buffer (buf : ptr) (len : Z) : HM (option positive) :=
  match buf with
  | NULL => from_buffer_error None
  | At b =>
      if len <? RMAP_HDR_MIN_SIZE_WRITE_REP then from_buffer_error None else
      pid ← lift (rd b RMAP_PROTOCOL_ID_OFFSET);
      if negb (pid =? RMAP_PROTOCOL_ID) then _ ← count_non_rmap; from_buffer_error None else
      pkt ← rmap_create_packet;
      match pkt with
      | None => from_buffer_error None
      | Some l =>
          v0 ← lift (rd b RMAP_DEST_ADDRESS);
          _ ← put l (fun p => with_dst p v0);
          _ ← put l (fun p => with_proto_id p pid);
          v2 ← lift (rd b RMAP_INSTRUCTION);
          _ ← put l (fun p => with_instruction p v2);
          v3 ← lift (rd b RMAP_CMD_DESTKEY);
          _ ← put l (fun p => with_key p v3);
          o ← load_packet l;
          let min_hdr_size := rmap_get_min_hdr_size (o_val o) in
          if min_hdr_size <? 0 then from_buffer_error pkt else
          if len <? min_hdr_size then from_buffer_error pkt else
          r ← from_buffer_rpath l b len min_hdr_size;
          match r with
          | None => from_buffer_error pkt
          | Some n =>
              n ← from_buffer_fields l b n len;
              ok ← from_buffer_data l b n len;
              if (ok : bool) then mret pkt else from_buffer_error pkt
          end
      end
  end.
End ops.

(** ** Owning blocks

    [owns bl F m]: the memory is [F] with the blocks [bl] besides. *)

Local Abbreviation chunks := (list (positive * block)).

Record owns (bl : chunks) (F m : gmap positive block) : Prop := {
  ow_mem : m = foldr (fun x m => <[x.1 := x.2]> m) F bl;
  ow_nodup : NoDup (map fst bl);
  ow_fresh : forall l, l ∈ map fst bl -> F !! l = None
}.

Lemma owns_nil F m : owns [] F m <-> m = F.
Proof.
  split; [by intros []|]. intros ->. split; [done|constructor|]. intros l H. by apply not_elem_of_nil in H.
Qed.

Lemma owns_outside bl F m l : owns bl F m -> l ∉ map fst bl -> m !! l = F !! l.
Proof.
  intros [-> _ _]. induction bl as [|[k b] bl IH]; [done|]. simpl. intros H%not_elem_of_cons.
  rewrite lookup_insert_ne by (intros ->; tauto). apply IH. tauto.
Qed.

Lemma owns_cons l b bl F m : owns ((l, b) :: bl) F m <->
  m !! l = Some b /\ owns bl F (delete l m) /\ F !! l = None /\ l ∉ map fst bl.
Proof.
  split.
  - intros [-> Hn Hf]. simpl in *. apply NoDup_cons in Hn as [Hl Hn].
    assert (Ho : owns bl F (foldr (fun x m => <[x.1 := x.2]> m) F bl)).
    { split; [done..|]. intros k Hk. apply Hf. by right. }
    split; [apply lookup_insert_eq|]. split; [|split; [apply Hf; by left|done]].
    rewrite delete_insert_id; [done|]. rewrite (owns_outside _ _ _ _ Ho Hl). apply Hf. by left.
  - intros (Hl & Ho & HF & Hb). destruct Ho as [Em Hn Hf]. split.
    + simpl. rewrite <- Em. by rewrite insert_delete_id.
    + simpl. by constructor.
    + intros k [->|Hk]%elem_of_cons; [done|by apply Hf].
Qed.

Lemma owns_head l b bl F m : owns ((l, b) :: bl) F m -> m !! l = Some b.
Proof. by intros [? _]%owns_cons. Qed.

Lemma owns_free l b bl F m : owns ((l, b) :: bl) F m -> owns bl F (delete l m).
Proof. by intros (_ & ? & _)%owns_cons. Qed.

Lemma owns_write l b b' bl F m : owns ((l, b) :: bl) F m -> owns ((l, b') :: bl) F (<[l := b']> m).
Proof.
  intros (Hl & Ho & HF & Hb)%owns_cons. apply owns_cons. split; [apply lookup_insert_eq|].
  split; [by rewrite delete_insert_eq|done].
Qed.

Lemma owns_none bl F m l : owns bl F m -> m !! l = None -> l ∉ map fst bl /\ F !! l = None.
Proof.
  intros Ho Hl. assert (Hn : l ∉ map fst bl).
  { intros H. destruct Ho as [-> _ _]. induction bl as [|[k b] bl IH]; [by apply not_elem_of_nil in H|].
    simpl in *. apply lookup_insert_None in Hl as [Hl Hk]. apply elem_of_cons in H as [->|H]; [done|by apply IH]. }
  split; [done|]. by rewrite <- (owns_outside _ _ _ _ Ho Hn).
Qed.

Lemma owns_new l b bl F m : owns bl F m -> m !! l = None -> owns ((l, b) :: bl) F (<[l := b]> m).
Proof.
  intros Ho Hl. destruct (owns_none _ _ _ _ Ho Hl) as [Hn HF]. apply owns_cons.
  split; [apply lookup_insert_eq|]. split; [by rewrite delete_insert_id|done].
Qed.

Lemma owns_swap x y bl F m : owns (x :: y :: bl) F m -> owns (y :: x :: bl) F m.
Proof.
  intros [-> Hn Hf]. simpl in *. apply NoDup_cons in Hn as [Hx Hn]. apply NoDup_cons in Hn as [Hy Hn].
  apply not_elem_of_cons in Hx as [Hxy Hx]. split.
  - simpl. by apply insert_insert_ne.
  - simpl. constructor; [apply not_elem_of_cons; by split|by constructor].
  - simpl. intros l Hl. apply Hf. set_solver.
Qed.

#[export] Instance owns_perm : Proper ((≡ₚ) ==> eq ==> eq ==> iff) owns.
Proof.
  assert (P : forall bl bl', bl ≡ₚ bl' -> forall F m, owns bl F m -> owns bl' F m).
  { induction 1 as [|[l b] bl bl' E IH|x y bl|]; intros F m H'; [done| |by apply owns_swap|naive_solver].
    apply owns_cons in H' as (Hl & Ho & HF & Hb). apply owns_cons. split; [done|].
    split; [by apply IH|]. split; [done|]. by rewrite <- (Permutation_map fst E). }
  intros bl bl' E F F' <- m m' <-. split; apply P; [done|by symmetry].
Qed.

Lemma owns_front xs y ys F m : owns (xs ++ y :: ys) F m <-> owns (y :: xs ++ ys) F m.
Proof. by rewrite Permutation_middle. Qed.

Lemma owns_late x xs y ys F m : owns (x :: y :: xs ++ ys) F m -> owns (x :: (xs ++ [y]) ++ ys) F m.
Proof. rewrite <- (app_assoc xs). simpl. by rewrite <- Permutation_middle. Qed.

(** ** A packet in the memory *)

(** the members that are no pointers *)
Definition strip (v : rmap_pkt) : rmap_pkt := with_data (with_rpath (with_path v NULL) NULL) NULL.

(** a pointer and the buffer it points to, every octet of which was written *)
Definition chunk (p : option positive) (v : ptr) : chunks :=
  match p, v with Some l, At d => [(l, Octets (map Some d))] | _, _ => [] end.

Lemma chunk_null p : chunk p NULL = [].
Proof. by destruct p. Qed.

Definition agrees (p : option positive) (v : ptr) : Prop :=
  match p, v with None, NULL | Some _, At _ => True | _, _ => False end.

Record rep (o : obj) (v : rmap_pkt) : Prop := {
  rep_path : agrees (o_path o) (path v);
  rep_rpath : agrees (o_rpath o) (rpath v);
  rep_data : agrees (o_data o) (data v);
  rep_val : o_val o = strip v
}.

Definition buffers (o : obj) (v : rmap_pkt) : chunks :=
  chunk (o_path o) (path v) ++ chunk (o_rpath o) (rpath v) ++ chunk (o_data o) (data v).

Definition blocks (l : positive) (o : obj) (v : rmap_pkt) : chunks := (l, Packet o) :: buffers o v.

(** the memory is [F] and the packet [v] at [l] with its buffers *)
Definition packet_at (l : positive) (v : rmap_pkt) (F m : gmap positive block) : Prop :=
  exists o, rep o v /\ owns (blocks l o v) F m.

(** ** What the operations do *)

Definition runs {B} (c : HM B) (h : heap) (Q : B -> heap -> Prop) : Prop :=
  match c h with Some (a, h') => Q a h' | None => False end.

Lemma runs_bind {B C} (c : HM B) (f : B -> HM C) h Q :
  runs c h (fun a h' => runs (f a) h' Q) -> runs (c ≫= f) h Q.
Proof. unfold runs, mbind, HM_bind. by destruct (c h) as [[a h']|]. Qed.

Lemma runs_ret {B} (a : B) h (Q : B -> heap -> Prop) : Q a h -> runs (mret a) h Q.
Proof. done. Qed.

Lemma runs_mono {B} (c : HM B) h (Q R : B -> heap -> Prop) :
  runs c h Q -> (forall a h', Q a h' -> R a h') -> runs c h R.
Proof. unfold runs. destruct (c h) as [[a h']|]; naive_solver. Qed.

Lemma runs_lift {B} (o : option B) a h (Q : B -> heap -> Prop) : o = Some a -> Q a h -> runs (lift o) h Q.
Proof. by intros ->. Qed.

(** [h'] is [h] with other blocks *)
Definition same_count (h h' : heap) : Prop := non_rmap h' = non_rmap h.

Lemma runs_load l o bl F h (Q : obj -> heap -> Prop) :
  owns ((l, Packet o) :: bl) F (mem h) -> Q o h -> runs (load_packet l) h Q.
Proof. intros Ho%owns_head HQ. unfold runs, load_packet. by rewrite Ho. Qed.

Lemma runs_update l o f bl F h (Q : () -> heap -> Prop) :
  owns ((l, Packet o) :: bl) F (mem h) ->
  (forall h', owns ((l, Packet (f o)) :: bl) F (mem h') -> same_count h h' -> Q () h') ->
  runs (update l f) h Q.
Proof.
  intros Ho HQ. unfold update. apply runs_bind. apply (runs_load l o bl F h); [done|].
  unfold runs, store_packet. rewrite (owns_head _ _ _ _ _ Ho). apply HQ; [|done]. by apply owns_write with (Packet o).
Qed.

Section alloc.
Context {A : Allocator}.

Lemma runs_allocate n b bl F h (Q : option positive -> heap -> Prop) : owns bl F (mem h) ->
  (forall h', owns bl F (mem h') -> same_count h h' -> Q None h') ->
  (forall l h', owns ((l, b) :: bl) F (mem h') -> same_count h h' -> Q (Some l) h') ->
  runs (allocate n b) h Q.
Proof using Type.
  intros Ho HN HS. unfold runs, allocate. destruct (new _ _ _) as [l|] eqn:E; [|by apply HN].
  apply HS; [|done]. apply owns_new; [done|]. by apply new_free in E.
Qed.
End alloc.

Lemma runs_free l b bl F h (Q : () -> heap -> Prop) : owns ((l, b) :: bl) F (mem h) ->
  (forall h', owns bl F (mem h') -> same_count h h' -> Q () h') -> runs (free (Some l)) h Q.
Proof.
  intros Ho HQ. unfold runs, free. rewrite (owns_head _ _ _ _ _ Ho). apply HQ; [|done]. by apply owns_free with b.
Qed.

(** a pointer of a packet, [NULL] or not *)
Lemma runs_free_chunk p v x bl F h (Q : () -> heap -> Prop) : agrees p v ->
  owns (x :: chunk p v ++ bl) F (mem h) ->
  (forall h', owns (x :: bl) F (mem h') -> same_count h h' -> Q () h') -> runs (free p) h Q.
Proof.
  intros Ha Ho HQ. destruct p as [l|], v as [|d]; try done; simpl in Ho.
  - apply (runs_free l (Octets (map Some d)) (x :: bl) F); [|done]. by apply owns_swap.
  - by apply HQ.
Qed.

Lemma runs_store l xs y ys v bl F h (Q : () -> heap -> Prop) :
  owns ((l, Octets (map Some xs ++ y :: ys)) :: bl) F (mem h) ->
  (forall h', owns ((l, Octets (map Some (xs ++ [v]) ++ ys)) :: bl) F (mem h') -> same_count h h' -> Q () h') ->
  runs (store_octet (Some l) (zlen xs) v) h Q.
Proof.
  intros Ho HQ. unfold runs, store_octet. rewrite (owns_head _ _ _ _ _ Ho).
  assert (0 <= zlen xs < zlen (map Some xs ++ y :: ys)).
  { unfold zlen. rewrite length_app, length_map. simpl. lia. }
  destruct (Z.leb_spec 0 (zlen xs)); [|lia]. destruct (Z.ltb_spec (zlen xs) (zlen (map Some xs ++ y :: ys))); [|lia]. simpl.
  apply HQ; [|done]. unfold zlen. rewrite Nat2Z.id.
  assert (E : <[length xs:=Some v]> (map Some xs ++ y :: ys) = map Some (xs ++ [v]) ++ ys).
  { rewrite <- (length_map (@Some Z) xs), insert_app_r_alt, Nat.sub_diag, map_app, <- app_assoc by done. done. }
  rewrite E. by apply owns_write with (Octets (map Some xs ++ y :: ys)).
Qed.

Lemma runs_copy n : forall l i b off d xs ys bl F h (Q : () -> heap -> Prop),
  owns ((l, Octets (map Some xs ++ ys)) :: bl) F (mem h) -> i = zlen xs -> length ys = n ->
  copy_from b (off + i) n = Some d ->
  (forall h', owns ((l, Octets (map Some (xs ++ d))) :: bl) F (mem h') -> same_count h h' -> Q () h') ->
  runs (copy_loop (Some l) i b off n) h Q.
Proof.
  induction n as [|n IH]; intros l i b off d xs ys bl F h Q Ho Hi Hn Hd HQ; cbn [copy_loop].
  - injection Hd as <-. destruct ys; [|done]. apply HQ; [|done]. by rewrite !app_nil_r in *.
  - destruct ys as [|y ys]; [done|]. injection Hn as Hn. simpl in Hd.
    apply bind_Some in Hd as (v & Hv & Hd). apply bind_Some in Hd as (d' & Hd & [= <-]).
    apply runs_bind, (runs_lift _ v); [done|]. apply runs_bind. rewrite Hi.
    apply (runs_store l xs y ys v bl F); [done|]. intros h1 Ho1 E1.
    apply (IH l _ b off d' (xs ++ [v]) ys bl F); [done| |done| |].
    + unfold zlen. rewrite length_app. simpl. lia.
    + rewrite <- Hi. replace (off + (i + 1)) with (off + i + 1) by lia. done.
    + intros h' Ho' E'. apply HQ; [|unfold same_count in *; congruence]. by rewrite <- app_assoc in Ho'.
Qed.

(** into a block that was just allocated *)
Lemma runs_fill l b off n d bl F h (Q : () -> heap -> Prop) :
  owns ((l, Octets (replicate n None)) :: bl) F (mem h) -> copy_from b off n = Some d ->
  (forall h', owns ((l, Octets (map Some d)) :: bl) F (mem h') -> same_count h h' -> Q () h') ->
  runs (copy_loop (Some l) 0 b off n) h Q.
Proof.
  intros Ho Hd HQ. apply (runs_copy n l 0 b off d [] (replicate n None) bl F); [done|done| | |done].
  - apply length_replicate.
  - by rewrite Z.add_0_r.
Qed.

(** ** The packet as a whole *)

Lemma runs_put l o v f bl F h (Q : () -> heap -> Prop) : rep o v ->
  (forall w, f (strip w) = strip (f w)) -> (forall w, path (f w) = path w /\ rpath (f w) = rpath w /\ data (f w) = data w) ->
  owns (blocks l o v ++ bl) F (mem h) ->
  (forall o' h', rep o' (f v) -> owns (blocks l o' (f v) ++ bl) F (mem h') ->
     o_path o' = o_path o /\ o_rpath o' = o_rpath o /\ o_data o' = o_data o -> same_count h h' -> Q () h') ->
  runs (put l f) h Q.
Proof.
  intros [R1 R2 R3 R4] Hs Hp Ho HQ. destruct (Hp v) as (E1 & E2 & E3).
  apply (runs_update l o (fun o => with_val o (f (o_val o))) (buffers o v ++ bl) F); [done|].
  intros h' Ho' E. apply (HQ (with_val o (f (o_val o)))); [..|done].
  - split; simpl; [by rewrite E1|by rewrite E2|by rewrite E3|by rewrite R4, Hs].
  - unfold blocks, buffers in *. simpl. by rewrite E1, E2, E3.
  - done.
Qed.

Lemma rmap_erase_runs {A : Allocator} l o v bl F h : rep o v -> owns (blocks l o v ++ bl) F (mem h) ->
  runs (rmap_erase_packet (Some l)) h (fun _ h' => owns bl F (mem h') /\ same_count h h').
Proof.
  intros [R1 R2 R3 _] Ho. unfold blocks, buffers in Ho. cbn [rmap_erase_packet].
  cbn [app] in Ho. rewrite <- !app_assoc in Ho.
  apply runs_bind. eapply runs_load; [exact Ho|]. apply runs_bind.
  eapply (runs_free_chunk _ _ _ _ F h _ R1 Ho). intros h1 Ho1 E1.
  apply runs_bind. eapply runs_load; [exact Ho1|]. apply runs_bind.
  eapply (runs_free_chunk _ _ _ _ F h1 _ R2 Ho1). intros h2 Ho2 E2.
  apply runs_bind. eapply runs_load; [exact Ho2|]. apply runs_bind.
  eapply (runs_free_chunk _ _ _ _ F h2 _ R3 Ho2). intros h3 Ho3 E3.
  apply (runs_free l (Packet o) bl F); [done|]. intros h4 Ho4 E4. split; [done|]. unfold same_count in *. congruence.
Qed.

(** the label [error], behind which nothing has set [path] *)
Lemma error_runs {A : Allocator} l o v bl F h : rep o v -> path v = NULL -> owns (blocks l o v ++ bl) F (mem h) ->
  runs (from_buffer_error (Some l)) h (fun r h' => r = None /\ owns bl F (mem h') /\ same_count h h').
Proof.
  intros [R1 R2 R3 _] Hp Ho. unfold blocks, buffers in Ho. rewrite Hp in *.
  assert (Ep : o_path o = None) by (by destruct (o_path o)). rewrite Ep in *.
  cbn [chunk app] in Ho. rewrite <- app_assoc in Ho. cbn [from_buffer_error].
  apply runs_bind. eapply runs_load; [exact Ho|]. apply runs_bind.
  assert (Ho' : owns ((l, Packet o) :: chunk (o_data o) (data v) ++ chunk (o_rpath o) (rpath v) ++ bl) F (mem h)).
  { rewrite app_assoc, (Permutation_app_comm (chunk (o_data o) _)), <- app_assoc. done. }
  eapply (runs_free_chunk _ _ _ _ F h _ R3 Ho'). intros h1 Ho1 E1.
  apply runs_bind. eapply runs_load; [exact Ho1|]. apply runs_bind.
  eapply (runs_free_chunk _ _ _ _ F h1 _ R2 Ho1). intros h2 Ho2 E2. apply runs_bind.
  apply (runs_free l (Packet o) bl F); [done|]. intros h3 Ho3 E3. split; [done|].
  split; [done|]. unfold same_count in *. congruence.
Qed.

(** ** The parser *)

Definition created : rmap_pkt := mk_rmap NULL 0 0 RMAP_PROTOCOL_ID 0 0 0 NULL 0 0 0 NULL 0 0 0.

Lemma create_runs {A : Allocator} bl F h : owns bl F (mem h) ->
  runs rmap_create_packet h (fun p h' => same_count h h' /\
    match p with
    | None => owns bl F (mem h')
    | Some l => exists o, rep o created /\ owns (blocks l o created ++ bl) F (mem h')
    end).
Proof.
  intros Ho. apply runs_bind. apply (runs_allocate _ _ bl F); [done| |].
  - intros h' Ho' E. by apply runs_bind.
  - intros l h' Ho' E. apply runs_bind.
    apply (runs_update l obj_zero (fun o => with_val o (with_proto_id (o_val o) RMAP_PROTOCOL_ID)) bl F); [done|].
    intros h2 Ho2 E2. apply runs_ret. split; [unfold same_count in *; congruence|].
    exists (with_val obj_zero created). split; [by split|done].
Qed.

Section parser.
Context {A : Allocator} (l : positive) (b : list Z) (len : Z) (bl : chunks) (F : gmap positive block).

(** a scalar member is assigned *)
Lemma scalar_runs f o v h (Q : () -> heap -> Prop) : rep o v ->
  (forall w, f (strip w) = strip (f w)) -> (forall w, path (f w) = path w /\ rpath (f w) = rpath w /\ data (f w) = data w) ->
  owns (blocks l o v ++ bl) F (mem h) ->
  (forall o' h', rep o' (f v) -> owns (blocks l o' (f v) ++ bl) F (mem h') -> same_count h h' -> Q () h') ->
  runs (put l f) h Q.
Proof using Type.
  intros R Hs Hp Ho HQ. apply (runs_put l o v f bl F h); [done..|]. intros o' h' R' Ho' _ E. by apply (HQ o' h').
Qed.

Lemma rpath_runs min o v h : rep o v -> owns (blocks l o v ++ bl) F (mem h) ->
  path v = NULL -> rpath v = NULL -> data v = NULL ->
  (forall ok, Rmap.from_buffer_rpath (mk_allocs true ok true) min v b len <> None) ->
  runs (from_buffer_rpath l b len min) h (fun r h' => same_count h h' /\
    exists ok o' v', rep o' v' /\ owns (blocks l o' v' ++ bl) F (mem h') /\ path v' = NULL /\ data v' = NULL /\
      forall al, al_rpath al = ok ->
        Rmap.from_buffer_rpath al min v b len = Some (match r with None => None | Some n => Some (v', n) end)).
Proof using Type.
  intros R Ho P1 P2 P3 Hn. unfold from_buffer_rpath, Rmap.from_buffer_rpath in *.
  assert (Ei : instruction (o_val o) = instruction v) by by rewrite (rep_val _ _ R).
  apply runs_bind. eapply runs_load; [exact Ho|]. rewrite Ei.
  destruct (c_true (ri_cmd_resp (instruction v))).
  2:{ apply runs_ret. split; [done|]. by exists true, o, v. }
  apply runs_bind. eapply (scalar_runs (fun p => with_rpath_len p (u8 (Z.shiftl (ri_reply_addr_len (instruction p)) 2))));
    [exact R|done|done|exact Ho|]. intros o1 h1 R1 Ho1 E1. apply runs_bind. eapply runs_load; [exact Ho1|].
  assert (El : rpath_len (o_val o1) = u8 (Z.shiftl (ri_reply_addr_len (instruction v)) 2)) by by rewrite (rep_val _ _ R1).
  rewrite El. set (n := u8 _) in *. cbv beta zeta in R1, Ho1. change (u8 _) with n in R1, Ho1.
  set (v1 := with_rpath_len v n) in *. change (rpath_len v1) with n in Hn |- *.
  destruct (len <? min + n) eqn:Elen.
  { apply runs_ret. split; [done|]. by exists true, o1, v1. }
  apply runs_bind. eapply runs_allocate; [exact Ho1| |].
  - intros h2 Ho2 E2. apply runs_bind. eapply (runs_update l o1 _ _ F); [exact Ho2|].
    intros h3 Ho3 E3. apply runs_ret. split; [unfold same_count in *; congruence|].
    exists false, o1, v1. split; [done|]. split; [|split; [done|split; [done|by intros al ->]]].
    destruct R1 as [_ R1 _ _]. change (rpath v1) with (rpath v) in R1. rewrite P2 in R1.
    assert (Er : o_rpath o1 = None) by (by destruct (o_rpath o1)). unfold obj_rpath in Ho3.
    rewrite <- Er in Ho3. by destruct o1.
  - intros q h2 Ho2 E2. apply runs_bind.
    assert (Hs : owns ((l, Packet o1) :: [(q, Octets (replicate (Z.to_nat n) None))] ++ bl) F (mem h2)).
    { apply owns_swap. unfold blocks, buffers in Ho2. change (path v1) with (path v) in Ho2.
      change (rpath v1) with (rpath v) in Ho2. change (data v1) with (data v) in Ho2.
      rewrite P1, P2, P3, !chunk_null in Ho2. exact Ho2. }
    eapply (runs_update l o1 _ _ F); [exact Hs|]. intros h3 Ho3 E3. apply owns_swap in Ho3.
    specialize (Hn true). cbn [al_rpath negb] in Hn.
    destruct (copy_from b RMAP_REPLY_ADDR_START (Z.to_nat n)) as [d|] eqn:Ed; [|done].
    apply runs_bind. eapply (runs_fill q b _ _ d); [exact Ho3|exact Ed|]. intros h4 Ho4 E4. apply runs_ret.
    split; [unfold same_count in *; congruence|]. exists true, (obj_rpath o1 (Some q)), (with_rpath v1 (At d)).
    destruct R1 as [R1 R2 R3 R4]. split; [by split|]. split; [|split; [done|split; [done|]]].
    + unfold blocks, buffers. cbn [path rpath data with_rpath with_rpath_len v1]. rewrite P1, P3, !chunk_null.
      by apply owns_swap.
    + intros al ->. cbn [negb]. done.
Qed.

Lemma data_runs x n o v h : rep o v -> owns (blocks l o v ++ bl) F (mem h) -> path v = NULL -> data v = NULL ->
  (forall ok, Rmap.from_buffer_data (mk_allocs true x ok) v b n len <> None) ->
  runs (from_buffer_data l b n len) h (fun r h' => same_count h h' /\
    exists ok o' v', rep o' v' /\ owns (blocks l o' v' ++ bl) F (mem h') /\ path v' = NULL /\
      forall al, al_data al = ok -> Rmap.from_buffer_data al v b n len = Some (if (r : bool) then Some v' else None)).
Proof using Type.
  intros R Ho P1 P3 Hn. unfold from_buffer_data, Rmap.from_buffer_data in *.
  assert (El : data_len (o_val o) = data_len v) by by rewrite (rep_val _ _ R).
  apply runs_bind. eapply runs_load; [exact Ho|]. rewrite El.
  destruct (c_true (data_len v)); [|apply runs_ret; split; [done|]; by exists true, o, v].
  destruct (len <? RMAP_DATA_START + n + data_len v); [apply runs_ret; split; [done|]; by exists true, o, v|].
  destruct R as [R1 R2 R3 R4]. assert (Ed0 : o_data o = None) by (rewrite P3 in R3; by destruct (o_data o)).
  apply runs_bind. eapply runs_allocate; [exact Ho| |].
  - intros h2 Ho2 E2. apply runs_bind. eapply (runs_update l o _ _ F); [exact Ho2|].
    intros h3 Ho3 E3. apply runs_ret. split; [unfold same_count in *; congruence|].
    exists false, o, v. split; [done|]. split; [|split; [done|by intros al ->]].
    unfold obj_data in Ho3. rewrite <- Ed0 in Ho3. by destruct o.
  - intros q h2 Ho2 E2. apply runs_bind. apply owns_swap in Ho2.
    eapply (runs_update l o _ _ F); [exact Ho2|]. intros h3 Ho3 E3. apply owns_swap in Ho3.
    pose proof (Hn true) as Ht. cbn [al_data negb] in Ht.
    destruct (copy_from b (RMAP_DATA_START + n) (Z.to_nat (data_len v))) as [d|] eqn:Ed; [|done].
    apply runs_bind. eapply (runs_fill q b _ _ d); [exact Ho3|exact Ed|]. intros h4 Ho4 E4.
    set (o4 := obj_data o (Some q)). set (v4 := with_data v (At d)).
    assert (R4' : rep o4 v4) by by split.
    assert (Ho4' : owns (blocks l o4 v4 ++ bl) F (mem h4)).
    { apply owns_swap in Ho4. unfold blocks, buffers in *. cbn [o4 v4 obj_data o_path o_rpath o_data path rpath data with_data] in *.
      rewrite P3, chunk_null, app_nil_r in Ho4. cbn [chunk]. rewrite (app_assoc (chunk _ _)). by apply owns_late. }
    cbn [mbind option_bind] in Ht. apply runs_bind.
    change (with_data v (At d)) with v4 in Ht |- *. change (data_len v) with (data_len v4) in Ht |- *.
    destruct (len >? RMAP_DATA_START + n + data_len v4) eqn:Ec.
    + destruct (rd b (RMAP_DATA_START + n + data_len v4)) as [c|] eqn:Erd; [|done].
      apply runs_bind, (runs_lift _ c); [done|].
      eapply (scalar_runs (fun p => with_data_crc p c)); [exact R4'|done|done|exact Ho4'|].
      intros o5 h5 R5 Ho5 E5. apply runs_ret. split; [unfold same_count in *; congruence|].
      exists true, o5, (with_data_crc v4 c). split; [done|]. split; [done|]. split; [done|]. intros al ->.
      cbn [negb mbind option_bind]. change (data_len (with_data v (At d))) with (data_len v4). by rewrite Ec, ?Erd.
    + apply runs_ret. split; [unfold same_count in *; congruence|].
      exists true, o4, v4. split; [done|]. split; [done|]. split; [done|]. intros al ->.
      cbn [negb mbind option_bind]. change (data_len (with_data v (At d))) with (data_len v4). by rewrite Ec, ?Erd.
Qed.

Lemma strip_stage v v' (c : bool) (o : option Z) (f : rmap_pkt -> Z -> rmap_pkt) :
  (forall w x, f (strip w) x = strip (f w x)) ->
  (forall w x, path (f w x) = path w /\ rpath (f w x) = rpath w /\ data (f w x) = data w) ->
  (if c then x ← o; Some (f v x) else Some v) = Some v' ->
  (if c then x ← o; Some (f (strip v) x) else Some (strip v)) = Some (strip v') /\
  path v' = path v /\ rpath v' = rpath v /\ data v' = data v.
Proof using Type.
  intros Hs Hp. destruct c; [|by intros [= <-]]. destruct o as [x|]; [|done]. cbn [mbind option_bind].
  intros [= <-]. rewrite Hs. split; [done|apply Hp].
Qed.

Lemma fields_strip v n v' n' : Rmap.from_buffer_fields v b n len = Some (v', n') ->
  Rmap.from_buffer_fields (strip v) b n len = Some (strip v', n') /\
  path v' = path v /\ rpath v' = rpath v /\ data v' = data v.
Proof using Type.
  unfold Rmap.from_buffer_fields. intros H.
  apply bind_Some in H as (s & -> & H). apply bind_Some in H as (t & -> & H). cbn [mbind option_bind].
  set (p := with_tr_id (with_src v s) t) in H.
  change (with_tr_id (with_src (strip v) s) t) with (strip p). change (instruction (strip p)) with (instruction p).
  apply bind_Some in H as ([p1 n1] & H1 & H). apply bind_Some in H as (p2 & H2 & H).
  apply bind_Some in H as (p3 & H3 & [= <- <-]).
  assert (S1 : (if c_true (ri_cmd_resp (instruction p))
      then a ← get_be32 b (RMAP_ADDR_BYTE0 + n); Some (with_addr (strip p) a, n + 4) else Some (strip p, n))
      = Some (strip p1, n1) /\ path p1 = path p /\ rpath p1 = rpath p /\ data p1 = data p).
  { destruct (c_true (ri_cmd_resp (instruction p))); [|by injection H1 as <- <-].
    apply bind_Some in H1 as (a & -> & [= <- <-]). done. }
  destruct S1 as (S1 & A1 & A2 & A3). rewrite S1. cbn [mbind option_bind].
  change (instruction (strip p1)) with (instruction p1).
  destruct (strip_stage p1 p2 _ _ with_data_len ltac:(done) ltac:(done) H2) as (S2 & B1 & B2 & B3).
  rewrite S2. cbn [mbind option_bind].
  destruct (strip_stage p2 p3 _ _ with_hdr_crc ltac:(done) ltac:(done) H3) as (S3 & C1 & C2 & C3).
  rewrite S3. cbn [mbind option_bind]. split; [done|].
  change (path v) with (path p). change (rpath v) with (rpath p). change (data v) with (data p). split; [congruence|].
  split; congruence.
Qed.


Lemma fields_runs n o v h v' n' : rep o v -> owns (blocks l o v ++ bl) F (mem h) ->
  Rmap.from_buffer_fields v b n len = Some (v', n') ->
  runs (from_buffer_fields l b n len) h (fun r h' => r = n' /\ same_count h h' /\
    exists o', rep o' v' /\ owns (blocks l o' v' ++ bl) F (mem h')).
Proof using Type.
  intros [R1 R2 R3 R4] Ho H. destruct (fields_strip _ _ _ _ H) as (Hs & E1 & E2 & E3). unfold from_buffer_fields.
  apply runs_bind. eapply runs_load; [exact Ho|]. rewrite R4. apply runs_bind, (runs_lift _ (strip v', n')); [done|].
  apply runs_bind. eapply (runs_update l o (fun o => with_val o (strip v')) _ F); [exact Ho|].
  intros h1 Ho1 C1. apply runs_ret. split; [done|]. split; [done|].
  exists (with_val o (strip v')). split; [split; simpl; [by rewrite E1|by rewrite E2|by rewrite E3|done]|].
  unfold blocks, buffers in *. simpl. by rewrite E1, E2, E3.
Qed.

(** what an end of the parser means *)
Definition parsed (h : heap) (r : option positive) (h' : heap) : Prop := exists al,
  match r with
  | None => Rmap.rmap_pkt_from_buffer al (non_rmap h) (At b) len = Some (non_rmap h', None) /\ owns bl F (mem h')
  | Some q => exists o v, Rmap.rmap_pkt_from_buffer al (non_rmap h) (At b) len = Some (non_rmap h', Some v) /\
      rep o v /\ owns (blocks q o v ++ bl) F (mem h')
  end.
End parser.

Section whole.
Context {A : Allocator} (b : list Z) (len : Z) (bl : chunks) (F : gmap positive block).

(** the header up to the key *)
Definition head_of (pid v0 v2 v3 : Z) : rmap_pkt :=
  with_key (with_instruction (with_proto_id (with_dst created v0) pid) v2) v3.

(** behind the reply path *)
Lemma rest_runs x l n o v h : rep o v -> owns (blocks l o v ++ bl) F (mem h) -> path v = NULL -> data v = NULL ->
  (forall ok, ('(p, n) ← Rmap.from_buffer_fields v b n len;
     Rmap.from_buffer_data (mk_allocs true x ok) p b n len) <> None) ->
  runs (n ← from_buffer_fields l b n len; ok ← from_buffer_data l b n len;
        if (ok : bool) then mret (Some l) else from_buffer_error (Some l)) h
    (fun r h' => same_count h h' /\ exists ok, forall al, al_data al = ok ->
       match r with
       | None => ('(p, n) ← Rmap.from_buffer_fields v b n len; Rmap.from_buffer_data al p b n len) = Some None /\
                 owns bl F (mem h')
       | Some q => exists o' v', ('(p, n) ← Rmap.from_buffer_fields v b n len; Rmap.from_buffer_data al p b n len) =
                     Some (Some v') /\ rep o' v' /\ owns (blocks q o' v' ++ bl) F (mem h')
       end).
Proof using Type.
  intros R Ho P1 P3 Hn.
  destruct (Rmap.from_buffer_fields v b n len) as [[v1 n1]|] eqn:Ef; [|by destruct (Hn true)].
  cbn [mbind option_bind] in Hn |- *. destruct (fields_strip b len _ _ _ _ Ef) as (_ & Q1 & _ & Q3).
  apply runs_bind. eapply runs_mono; [apply (fields_runs l b len bl F n o v h v1 n1 R Ho Ef)|].
  intros r1 h1 (-> & C1 & o1 & R1 & Ho1). apply runs_bind.
  eapply runs_mono; [apply (data_runs l b len bl F x n1 o1 v1 h1 R1 Ho1); [congruence..|exact Hn]|].
  intros r2 h2 (C2 & ok & o2 & v2 & R2 & Ho2 & P2 & E2). destruct r2.
  - apply runs_ret. split; [unfold same_count in *; congruence|]. exists ok. intros al Hal. exists o2, v2. auto.
  - eapply runs_mono; [by apply (error_runs l o2 v2 bl F h2)|]. intros r3 h3 (-> & Ho3 & C3).
    split; [unfold same_count in *; congruence|]. exists ok. intros al Hal. auto.
Qed.

Definition after_head (al : allocs) (cnt : Z) (v : rmap_pkt) : option (Z * option rmap_pkt) :=
  let min_hdr_size := rmap_get_min_hdr_size v in
  if min_hdr_size <? 0 then Some (cnt, None) else
  if len <? min_hdr_size then Some (cnt, None) else
  r ← Rmap.from_buffer_rpath al min_hdr_size v b len;
  match r with
  | None => Some (cnt, None)
  | Some (p, n) =>
      '(p, n) ← Rmap.from_buffer_fields p b n len;
      r ← Rmap.from_buffer_data al p b n len;
      Some (cnt, r)
  end.

Definition after_head_mem (l : positive) : HM (option positive) :=
  o ← load_packet l;
  let min_hdr_size := rmap_get_min_hdr_size (o_val o) in
  if min_hdr_size <? 0 then from_buffer_error (Some l) else
  if len <? min_hdr_size then from_buffer_error (Some l) else
  r ← from_buffer_rpath l b len min_hdr_size;
  match r with
  | None => from_buffer_error (Some l)
  | Some n =>
      n ← from_buffer_fields l b n len;
      ok ← from_buffer_data l b n len;
      if (ok : bool) then mret (Some l) else from_buffer_error (Some l)
  end.

Lemma after_head_runs l o v h : rep o v -> owns (blocks l o v ++ bl) F (mem h) ->
  path v = NULL -> rpath v = NULL -> data v = NULL -> (forall al, after_head al (non_rmap h) v <> None) ->
  runs (after_head_mem l) h (fun r h' => same_count h h' /\ exists al, al_pkt al = true /\
    match r with
    | None => after_head al (non_rmap h) v = Some (non_rmap h', None) /\ owns bl F (mem h')
    | Some q => exists o' v', after_head al (non_rmap h) v = Some (non_rmap h', Some v') /\
        rep o' v' /\ owns (blocks q o' v' ++ bl) F (mem h')
    end).
Proof using Type.
  intros R Ho P1 P2 P3 Hn. unfold after_head_mem, after_head in *.
  apply runs_bind. eapply runs_load; [exact Ho|]. rewrite (rep_val _ _ R).
  change (rmap_get_min_hdr_size (strip v)) with (rmap_get_min_hdr_size v).
  set (min := rmap_get_min_hdr_size v) in *. cbv zeta in Hn |- *.
  assert (Err : forall o v h1, rep o v -> owns (blocks l o v ++ bl) F (mem h1) -> path v = NULL -> same_count h h1 ->
    runs (from_buffer_error (Some l)) h1 (fun r h' => same_count h h' /\ r = None /\ owns bl F (mem h'))).
  { intros o1 v1 h1 R1 Ho1 Q1 C1. eapply runs_mono; [by apply (error_runs l o1 v1 bl F h1)|].
    intros r h2 (-> & Ho2 & C2). unfold same_count in *. split; [congruence|done]. }
  destruct (min <? 0).
  { eapply runs_mono; [by apply (Err o v)|]. intros r h' (C & -> & Ho'). split; [done|].
    exists (mk_allocs true true true). by rewrite C. }
  destruct (len <? min).
  { eapply runs_mono; [by apply (Err o v)|]. intros r h' (C & -> & Ho'). split; [done|].
    exists (mk_allocs true true true). by rewrite C. }
  apply runs_bind. eapply runs_mono; [apply (rpath_runs l b len bl F min o v h R Ho P1 P2 P3)|].
  { intros ok E. apply (Hn (mk_allocs true ok true)). by rewrite E. }
  intros r1 h1 (C1 & ok1 & o1 & v1 & R1 & Ho1 & Q1 & Q3 & E1). destruct r1 as [n|].
  2:{ eapply runs_mono; [by apply (Err o1 v1)|]. intros r h' (C & -> & Ho'). split; [done|].
      exists (mk_allocs true ok1 true). rewrite (E1 (mk_allocs true ok1 true) eq_refl). by rewrite C. }
  eapply runs_mono; [apply (rest_runs ok1 l n o1 v1 h1 R1 Ho1 Q1 Q3)|].
  { intros ok E. apply (Hn (mk_allocs true ok1 ok)). rewrite (E1 (mk_allocs true ok1 ok) eq_refl). cbn [mbind option_bind].
    destruct (Rmap.from_buffer_fields v1 b n len) as [[p1 n1]|]; [|done]. cbn [mbind option_bind] in *. by rewrite E. }
  intros r h' (C & ok2 & H). split; [unfold same_count in *; congruence|].
  exists (mk_allocs true ok1 ok2). split; [done|]. specialize (H (mk_allocs true ok1 ok2) eq_refl).
  rewrite (E1 (mk_allocs true ok1 ok2) eq_refl). cbn [mbind option_bind].
  destruct (Rmap.from_buffer_fields v1 b n len) as [[p1 n1]|]; cbn [mbind option_bind] in *.
  - assert (Ec : non_rmap h' = non_rmap h) by (unfold same_count in *; congruence). rewrite Ec. destruct r as [q|].
    + destruct H as (o' & v' & -> & R' & Ho'). by exists o', v'.
    + destruct H as [-> Ho']. done.
  - destruct r as [q|]; [destruct H as (? & ? & ? & _)|destruct H]; done.
Qed.

Lemma parser_value al cnt pid v0 v2 v3 : (len <? RMAP_HDR_MIN_SIZE_WRITE_REP) = false ->
  rd b RMAP_PROTOCOL_ID_OFFSET = Some pid -> negb (pid =? RMAP_PROTOCOL_ID) = false -> al_pkt al = true ->
  rd b RMAP_DEST_ADDRESS = Some v0 -> rd b RMAP_INSTRUCTION = Some v2 -> rd b RMAP_CMD_DESTKEY = Some v3 ->
  Rmap.rmap_pkt_from_buffer al cnt (At b) len = after_head al cnt (head_of pid v0 v2 v3).
Proof using Type.
  intros Hl Hp Hi Ha H0 H2 H3. unfold Rmap.rmap_pkt_from_buffer. rewrite Hl, Hp. cbn [mbind option_bind].
  rewrite Hi, Ha. cbn [Rmap.rmap_create_packet]. by rewrite H0, H2, H3.
Qed.

Lemma parser_runs h (Hb : bytes b) (Hl : len <= zlen b) : owns bl F (mem h) ->
  runs (rmap_pkt_from_buffer (At b) len) h (parsed b len bl F h).
Proof using Type.
  intros Ho. assert (S : forall al, Rmap.rmap_pkt_from_buffer al (non_rmap h) (At b) len <> None).
  { intros al. destruct (from_buffer_safe al (non_rmap h) b len Hb Hl) as (c & r & E & _). by rewrite E. }
  unfold rmap_pkt_from_buffer. pose proof (S (mk_allocs true true true)) as St.
  destruct (len <? RMAP_HDR_MIN_SIZE_WRITE_REP) eqn:El.
  { exists (mk_allocs true true true). split; [|done]. unfold Rmap.rmap_pkt_from_buffer. by rewrite El. }
  unfold Rmap.rmap_pkt_from_buffer in St. rewrite El in St.
  destruct (rd b RMAP_PROTOCOL_ID_OFFSET) as [pid|] eqn:Ep; [|done].
  cbn [mbind option_bind] in St. apply runs_bind, (runs_lift _ pid); [done|].
  destruct (negb (pid =? RMAP_PROTOCOL_ID)) eqn:Eid.
  { apply runs_bind. exists (mk_allocs true true true). split; [|done].
    unfold Rmap.rmap_pkt_from_buffer. rewrite El, Ep. cbn [mbind option_bind]. by rewrite Eid. }
  apply runs_bind. eapply runs_mono; [by apply (create_runs bl F h)|]. intros [l|] h1 [C1 H1].
  2:{ apply runs_ret. exists (mk_allocs false true true). split; [|done].
      unfold Rmap.rmap_pkt_from_buffer. rewrite El, Ep. cbn [mbind option_bind]. rewrite Eid. by rewrite C1. }
  destruct H1 as (o & R & Ho1). cbn [al_pkt Rmap.rmap_create_packet] in St.
  destruct (rd b RMAP_DEST_ADDRESS) as [v0|] eqn:E0; [|done].
  destruct (rd b RMAP_INSTRUCTION) as [v2|] eqn:E2; [|done].
  destruct (rd b RMAP_CMD_DESTKEY) as [v3|] eqn:E3; [|done]. clear St.
  apply runs_bind, (runs_lift _ v0); [done|]. apply runs_bind.
  eapply (scalar_runs l bl F (fun p => with_dst p v0)); [exact R|done|done|exact Ho1|]. intros o2 h2 R2 Ho2 C2.
  apply runs_bind. eapply (scalar_runs l bl F (fun p => with_proto_id p pid)); [exact R2|done|done|exact Ho2|].
  intros o3 h3 R3 Ho3 C3. apply runs_bind, (runs_lift _ v2); [done|]. apply runs_bind.
  eapply (scalar_runs l bl F (fun p => with_instruction p v2)); [exact R3|done|done|exact Ho3|].
  intros o4 h4 R4 Ho4 C4. apply runs_bind, (runs_lift _ v3); [done|]. apply runs_bind.
  eapply (scalar_runs l bl F (fun p => with_key p v3)); [exact R4|done|done|exact Ho4|]. intros o5 h5 R5 Ho5 C5.
  assert (C : non_rmap h5 = non_rmap h) by (unfold same_count in *; congruence).
  assert (V : forall al cnt, al_pkt al = true -> Rmap.rmap_pkt_from_buffer al cnt (At b) len = after_head al cnt (head_of pid v0 v2 v3))
    by (intros al cnt Ha; by apply parser_value).
  eapply (runs_mono (after_head_mem l)); [apply (after_head_runs l o5 _ h5 R5 Ho5); [done..|]|].
  { intros [ok1 ok2 ok3] E. apply (S (mk_allocs true ok2 ok3)). rewrite C in E. rewrite V by done. exact E. }
  intros r h' (C' & al & Hal & H). exists al. rewrite V by done. rewrite C in H. destruct r as [q|]; [|exact H].
  destruct H as (o' & v' & E & R' & Ho'). by exists o', v'.
Qed.
End whole.

(** ** The setters *)

Section setters.
Context {A : Allocator}.

Definition heap_op (op : rmap_op) (pkt : option positive) : HM () :=
  match op with
  | OpDst a => rmap_set_dst pkt a
  | OpSrc a => rmap_set_src pkt a
  | OpKey k => rmap_set_key pkt k
  | OpTrId id => rmap_set_tr_id pkt id
  | OpDataAddr a => rmap_set_data_addr pkt a
  | OpDataLen len => _ ← rmap_set_data_len pkt len; mret ()
  | OpCmd cmd => _ ← rmap_set_cmd pkt cmd; mret ()
  | OpReplyPath rp len => _ ← rmap_set_reply_path pkt rp len; mret ()
  | OpDestPath pa len => _ ← rmap_set_dest_path pkt pa len; mret ()
  end.

Fixpoint heap_ops (ops : list rmap_op) (pkt : option positive) : HM () :=
  match ops with [] => mret () | op :: ops => _ ← heap_op op pkt; heap_ops ops pkt end.
End setters.

(** the setters of [Rmap], with an allocation that may fail *)
Definition run_op_with (ok : bool) (op : rmap_op) (pkt : option rmap_pkt) : option (option rmap_pkt) :=
  match op with
  | OpReplyPath rp len => r ← Rmap.rmap_set_reply_path ok pkt rp len; Some r.2
  | OpDestPath pa len => r ← Rmap.rmap_set_dest_path ok pkt pa len; Some r.2
  | _ => run_op op pkt
  end.

Fixpoint run_ops_with (oks : list bool) (ops : list rmap_op) (pkt : option rmap_pkt) : option (option rmap_pkt) :=
  match oks, ops with
  | ok :: oks, op :: ops => pkt ← run_op_with ok op pkt; run_ops_with oks ops pkt
  | _, _ => Some pkt
  end.

(** a path is set that the packet has already *)
Definition replaces (op : rmap_op) (v : rmap_pkt) : Prop :=
  match op with OpReplyPath _ _ => rpath v <> NULL | OpDestPath _ _ => path v <> NULL | _ => False end.

Section setters.
Context {A : Allocator} (l : positive) (F : gmap positive block).

(** a call of a setter does what [Rmap] says, and loses the buffer it replaces *)
Definition op_done (op : rmap_op) (bl : chunks) (h : heap) (v : rmap_pkt) (h' : heap) : Prop :=
  same_count h h' /\ exists ok o' v' lost,
    run_op_with ok op (Some v) = Some (Some v') /\ rep o' v' /\ owns (blocks l o' v' ++ lost ++ bl) F (mem h') /\
    (lost <> [] -> replaces op v).

Lemma scalar_done f op bl o v h : rep o v -> owns (blocks l o v ++ bl) F (mem h) ->
  (forall w, f (strip w) = strip (f w)) -> (forall w, path (f w) = path w /\ rpath (f w) = rpath w /\ data (f w) = data w) ->
  (forall ok, run_op_with ok op (Some v) = Some (Some (f v))) ->
  runs (put l f) h (fun _ h' => op_done op bl h v h').
Proof using Type.
  intros R Ho Hs Hp Hop. eapply (scalar_runs l bl F f); [exact R|done|done|exact Ho|].
  intros o' h' R' Ho' C. split; [done|]. exists true, o', (f v), []. by rewrite Hop.
Qed.

Lemma skip_done op bl o v h : rep o v -> owns (blocks l o v ++ bl) F (mem h) ->
  (forall ok, run_op_with ok op (Some v) = Some (Some v)) -> op_done op bl h v h.
Proof using Type. intros R Ho Hop. split; [done|]. exists true, o, v, []. by rewrite Hop. Qed.

Lemma copy_path b n d bl q h (Q : () -> heap -> Prop) : rdn b 0 n = Some d ->
  owns ((q, Octets (replicate (Z.to_nat n) None)) :: bl) F (mem h) ->
  (forall h', owns ((q, Octets (map Some d)) :: bl) F (mem h') -> same_count h h' -> Q () h') ->
  runs (memcpy (Some q) (At b) n) h Q.
Proof using Type.
  intros Hd Ho HQ. cbn [memcpy]. eapply (runs_fill q b 0 _ d); [exact Ho| |exact HQ].
  unfold rdn in Hd. destruct ((0 <=? 0) && (0 <=? n) && (0 + n <=? zlen b)) eqn:E; [|done].
  rewrite !andb_true_iff, !Z.leb_le in E. injection Hd as <-. apply copy_from_in; lia.
Qed.

(** the packet with a new reply path or target path, which the old one gives way to *)
Lemma new_rpath o v p d bl : agrees p d -> rep o v ->
  rep (obj_rpath o p) (with_rpath v d) /\
  forall m, owns ((l, Packet (obj_rpath o p)) :: chunk p d ++ buffers o v ++ bl) F m ->
    owns (blocks l (obj_rpath o p) (with_rpath v d) ++ chunk (o_rpath o) (rpath v) ++ bl) F m.
Proof using Type.
  intros Ha [R1 R2 R3 R4]. split; [by split|]. intros m.
  unfold blocks, buffers. cbn [o_path o_rpath o_data obj_rpath path rpath data with_rpath app]. rewrite <- !app_assoc.
  by rewrite (Permutation_app_swap_app (chunk p d)), (Permutation_app_swap_app (chunk (o_rpath o) (rpath v))).
Qed.

Lemma new_path o v p d bl : agrees p d -> rep o v ->
  rep (obj_path o p) (with_path v d) /\
  forall m, owns ((l, Packet (obj_path o p)) :: chunk p d ++ buffers o v ++ bl) F m ->
    owns (blocks l (obj_path o p) (with_path v d) ++ chunk (o_path o) (path v) ++ bl) F m.
Proof using Type.
  intros Ha [R1 R2 R3 R4]. split; [by split|]. intros m.
  unfold blocks, buffers. cbn [o_path o_rpath o_data obj_path path rpath data with_path app]. rewrite <- !app_assoc.
  by rewrite (Permutation_app_swap_app (chunk (o_path o) (path v))), (Permutation_app_swap_app (chunk (o_path o) (path v))).
Qed.

Lemma chunk_lost p v : chunk p v <> [] -> v <> NULL.
Proof using Type. by destruct p, v. Qed.

Lemma reply_path_done rp len o v bl h : path_arg rp len -> rep o v -> owns (blocks l o v ++ bl) F (mem h) ->
  runs (rmap_set_reply_path (Some l) rp len) h (fun _ h' => op_done (OpReplyPath rp len) bl h v h').
Proof using Type.
  intros Ha R Ho. unfold rmap_set_reply_path. unfold op_done. cbn [run_op_with]. unfold Rmap.rmap_set_reply_path.
  assert (Skip : same_count h h /\ exists (ok : bool) o' v' lost, Some (Some v) = Some (Some v') /\ rep o' v' /\
    owns (blocks l o' v' ++ lost ++ bl) F (mem h) /\ (lost <> [] -> replaces (OpReplyPath rp len) v))
    by (split; [done|]; by exists true, o, v, []).
  destruct (bool_decide (rp = NULL) && c_true len) eqn:En; [exact Skip|].
  destruct (len >? RMAP_MAX_REPLY_PATH_LEN); [exact Skip|].
  destruct (c_true (Z.land len 0x3)); [exact Skip|]. clear Skip.
  apply runs_bind. eapply (scalar_runs l bl F (fun p => with_rpath_len p len)); [exact R|done|done|exact Ho|].
  intros o1 h1 R1 Ho1 C1. set (v1 := with_rpath_len v len) in *. cbv zeta.
  destruct (c_true len) eqn:El.
  - apply runs_bind. eapply runs_allocate; [exact Ho1| |].
    + intros h2 Ho2 C2. apply runs_bind. eapply (runs_update l o1 _ _ F); [exact Ho2|]. intros h3 Ho3 C3.
      apply runs_ret. split; [unfold same_count in *; congruence|].
      destruct (new_rpath o1 v1 None NULL bl I R1) as [R3 H3].
      exists false, (obj_rpath o1 None), (with_rpath v1 NULL), (chunk (o_rpath o1) (rpath v1)).
      split; [done|]. split; [done|]. split; [by apply H3|]. apply chunk_lost.
    + intros q h2 Ho2 C2. apply runs_bind. apply owns_swap in Ho2.
      eapply (runs_update l o1 _ _ F); [exact Ho2|]. intros h3 Ho3 C3. apply owns_swap in Ho3.
      destruct rp as [|b]; [simpl in En; congruence|]. destruct Ha as [Hlen [_ Hb]].
      assert (Ed : rdn b 0 len = Some (take (Z.to_nat len) (drop (Z.to_nat 0) b))) by (apply rdn_in; lia).
      set (d := take _ _) in Ed. apply runs_bind.
      eapply (copy_path b len d _ q); [exact Ed|exact Ho3|]. intros h4 Ho4 C4. apply owns_swap in Ho4.
      destruct (new_rpath o1 v1 (Some q) (At d) bl I R1) as [R4 H4]. apply H4 in Ho4.
      apply runs_bind. eapply (scalar_runs l _ F); [exact R4| | |exact Ho4|]; [done..|].
      intros o5 h5 R5 Ho5 C5. apply runs_ret. split; [unfold same_count in *; congruence|].
      exists true, o5. eexists _, (chunk (o_rpath o1) (rpath v1)). cbn [mbind option_bind]. rewrite Ed. cbn [mbind option_bind].
      split; [reflexivity|]. split; [exact R5|]. split; [exact Ho5|]. apply chunk_lost.
  - apply runs_bind. eapply (scalar_runs l _ F); [exact R1| | |exact Ho1|]; [done..|].
    intros o5 h5 R5 Ho5 C5. apply runs_ret. split; [unfold same_count in *; congruence|].
    exists true, o5. eexists _, []. split; [reflexivity|]. split; [exact R5|]. split; [exact Ho5|done].
Qed.

Lemma dest_path_done pa len o v bl h : path_arg pa len -> rep o v -> owns (blocks l o v ++ bl) F (mem h) ->
  runs (rmap_set_dest_path (Some l) pa len) h (fun _ h' => op_done (OpDestPath pa len) bl h v h').
Proof using Type.
  intros Ha R Ho. unfold rmap_set_dest_path. unfold op_done. cbn [run_op_with]. unfold Rmap.rmap_set_dest_path.
  assert (Skip : same_count h h /\ exists (ok : bool) o' v' lost, Some (Some v) = Some (Some v') /\ rep o' v' /\
    owns (blocks l o' v' ++ lost ++ bl) F (mem h) /\ (lost <> [] -> replaces (OpDestPath pa len) v))
    by (split; [done|]; by exists true, o, v, []).
  destruct (bool_decide (pa = NULL) && c_true len) eqn:En; [exact Skip|].
  destruct (len >? RMAP_MAX_PATH_LEN); [exact Skip|]. clear Skip.
  apply runs_bind. eapply (scalar_runs l bl F (fun p => with_path_len p len)); [exact R|done|done|exact Ho|].
  intros o1 h1 R1 Ho1 C1. set (v1 := with_path_len v len) in *. cbv zeta.
  apply runs_bind. eapply runs_allocate; [exact Ho1| |].
  - intros h2 Ho2 C2. apply runs_bind. eapply (runs_update l o1 _ _ F); [exact Ho2|]. intros h3 Ho3 C3.
    apply runs_ret. split; [unfold same_count in *; congruence|].
    destruct (new_path o1 v1 None NULL bl I R1) as [R3 H3].
    exists false, (obj_path o1 None), (with_path v1 NULL), (chunk (o_path o1) (path v1)).
    split; [done|]. split; [done|]. split; [by apply H3|]. apply chunk_lost.
  - intros q h2 Ho2 C2. apply runs_bind. apply owns_swap in Ho2.
    eapply (runs_update l o1 _ _ F); [exact Ho2|]. intros h3 Ho3 C3. apply owns_swap in Ho3.
    assert (M : exists d, runs (memcpy (Some q) pa len) h3 (fun _ h' =>
        same_count h3 h' /\ owns ((q, Octets (map Some d)) :: (l, Packet (obj_path o1 (Some q))) :: buffers o1 v1 ++ bl) F (mem h')) /\
      match pa with NULL => Some (0, Some (with_path v1 (At []))) | At b => d ← rdn b 0 len; Some (0, Some (with_path v1 (At d))) end
      = Some (0, Some (with_path v1 (At d)))).
    { destruct Ha as [Hlen Hb]. destruct pa as [|b].
      - exists []. simpl in En. split; [|done]. unfold memcpy. rewrite En. apply runs_ret. split; [done|].
        apply negb_false_iff, Z.eqb_eq in En. subst len. exact Ho3.
      - assert (Ed : rdn b 0 len = Some (take (Z.to_nat len) (drop (Z.to_nat 0) b))) by (apply rdn_in; lia).
        eexists. split; [|rewrite Ed; reflexivity]. eapply (copy_path b len _ _ q); [exact Ed|exact Ho3|]. by split. }
    destruct M as (d & M & Ev). apply runs_bind. eapply runs_mono; [exact M|]. intros _ h4 [C4 Ho4]. apply owns_swap in Ho4.
    destruct (new_path o1 v1 (Some q) (At d) bl I R1) as [R4 H4]. apply H4 in Ho4.
    apply runs_ret. split; [unfold same_count in *; congruence|].
    exists true, (obj_path o1 (Some q)). eexists _, (chunk (o_path o1) (path v1)). rewrite Ev. cbn [mbind option_bind].
    split; [reflexivity|]. split; [exact R4|]. split; [exact Ho4|]. apply chunk_lost.
Qed.

Lemma op_runs op o v bl h : op_typed op -> rep o v -> owns (blocks l o v ++ bl) F (mem h) ->
  runs (heap_op op (Some l)) h (fun _ h' => op_done op bl h v h').
Proof using Type.
  intros Ht R Ho. destruct op as [a|a|k|id|a|len|cmd|rp len|pa len]; cbn [heap_op].
  1-5: by eapply (scalar_done (fun p => _ p _)); [exact R|exact Ho|..].
  - apply runs_bind. unfold rmap_set_data_len. destruct (len >? RMAP_MAX_DATA_LEN) eqn:E.
    + apply runs_ret, runs_ret. eapply skip_done; [done..|]. intros ok. simpl. by rewrite E.
    + apply runs_bind. eapply runs_mono.
      * eapply (scalar_done (fun p => with_data_len p (u32 len)) (OpDataLen len)); [exact R|exact Ho|done|done|].
        intros ok. simpl. by rewrite E.
      * done.
  - apply runs_bind. unfold rmap_set_cmd. destruct (c_true (rmap_validate_cmd_code cmd)) eqn:E.
    + apply runs_ret, runs_ret. eapply skip_done; [done..|]. intros ok. simpl. by rewrite E.
    + apply runs_bind. eapply (scalar_runs l bl F); [exact R| | |exact Ho|]; [done..|]. intros o1 h1 R1 Ho1 C1.
      apply runs_bind. eapply (scalar_runs l bl F); [exact R1| | |exact Ho1|]; [done..|]. intros o2 h2 R2 Ho2 C2.
      apply runs_ret, runs_ret. split; [unfold same_count in *; congruence|]. exists true, o2. eexists _, [].
      split; [simpl; rewrite E; reflexivity|]. split; [exact R2|]. split; [exact Ho2|done].
  - apply runs_bind. eapply runs_mono; [by apply (reply_path_done rp len o v bl h)|]. by intros.
  - apply runs_bind. eapply runs_mono; [by apply (dest_path_done pa len o v bl h)|]. by intros.
Qed.

Definition sets_rpath (op : rmap_op) : bool := match op with OpReplyPath _ _ => true | _ => false end.
Definition sets_path (op : rmap_op) : bool := match op with OpDestPath _ _ => true | _ => false end.

Lemma run_op_with_paths ok op v v' : run_op_with ok op (Some v) = Some (Some v') ->
  (sets_rpath op = false -> rpath v' = rpath v) /\ (sets_path op = false -> path v' = path v).
Proof using Type.
  destruct op as [a|a|k|id|a|len|cmd|rp len|pa len]; simpl.
  1-5: by intros [= <-].
  - destruct (_ >? _); by intros [= <-].
  - destruct (c_true _); by intros [= <-].
  - repeat (case_match; simpl; try by intros [= <-]); try done.
    destruct (rdn _ _ _); simpl; [by intros [= <-]|done].
  - repeat (case_match; simpl; try by intros [= <-]); try done.
    destruct (rdn _ _ _); simpl; [by intros [= <-]|done].
Qed.

(** no path is set again, where [r] and [p] say that it was not set *)
Fixpoint once (r p : bool) (ops : list rmap_op) : bool :=
  match ops with
  | [] => true
  | OpReplyPath _ _ :: ops => r && once false p ops
  | OpDestPath _ _ :: ops => p && once r false ops
  | _ :: ops => once r p ops
  end.

Definition calm (ops : list rmap_op) (v : rmap_pkt) : Prop :=
  exists r p, once r p ops = true /\ (r = true -> rpath v = NULL) /\ (p = true -> path v = NULL).

Lemma calm_step ok op ops v v' : run_op_with ok op (Some v) = Some (Some v') -> calm (op :: ops) v ->
  calm ops v' /\ ~ replaces op v.
Proof using Type.
  intros [H1 H2]%run_op_with_paths (r & p & Ho & Hr & Hp).
  destruct op; cbn [once sets_rpath sets_path replaces] in *;
    try (split; [|tauto]; exists r, p; split; [done|]; by rewrite H1, H2).
  - apply andb_prop in Ho as [-> Ho]. split; [|tauto]. exists false, p. split; [done|]. split; [done|]. by rewrite H2.
  - apply andb_prop in Ho as [-> Ho]. split; [|tauto]. exists r, false. split; [done|]. split; [by rewrite H1|done].
Qed.

Lemma ops_runs ops : forall o v bl h, Forall op_typed ops -> rep o v -> owns (blocks l o v ++ bl) F (mem h) ->
  runs (heap_ops ops (Some l)) h (fun _ h' => same_count h h' /\ exists oks o' v' lost,
    length oks = length ops /\ run_ops_with oks ops (Some v) = Some (Some v') /\ rep o' v' /\
    owns (blocks l o' v' ++ lost ++ bl) F (mem h') /\ (calm ops v -> lost = [])).
Proof using Type.
  induction ops as [|op ops IH]; intros o v bl h Ht R Ho; cbn [heap_ops].
  { apply runs_ret. split; [done|]. by exists [], o, v, []. }
  inversion Ht as [|? ? Hop Hops]; subst. apply runs_bind. eapply runs_mono; [by apply (op_runs op o v bl h)|].
  intros _ h1 (C1 & ok & o1 & v1 & lost1 & E1 & R1 & Ho1 & L1).
  eapply runs_mono; [by apply (IH o1 v1 (lost1 ++ bl) h1)|].
  intros _ h2 (C2 & oks & o2 & v2 & lost2 & Hn & E2 & R2 & Ho2 & L2).
  split; [unfold same_count in *; congruence|]. exists (ok :: oks), o2, v2, (lost2 ++ lost1).
  split; [by simpl; f_equal|]. split; [simpl; rewrite E1; exact E2|]. split; [done|].
  split; [by rewrite <- app_assoc|]. intros Hc. destruct (calm_step ok op ops v v1 E1 Hc) as [Hc' Hr].
  rewrite L2 by done. destruct lost1; [done|]. destruct Hr. by apply L1.
Qed.
End setters.

(** ** The properties *)

(** C20: The parser implements the one of [Rmap], whatever octets arrive, whatever
    else is in the memory, and whichever allocations fail: it ends without
    undefined behaviour, with the result and the error count [Rmap] gives for
    these failures; when it returns a packet the memory has grown by exactly the
    structure and its buffers, every octet of which was written, and
    [rmap_erase_packet] gives it back as it was; when it returns [NULL], through
    any of its error exits, the memory is as it was before. *)
Theorem rmap_parser_memory {A : Allocator} (b : list Z) (len : Z) (h : heap)
    (Hb : bytes b) (Hl : len <= zlen b) :
  exists r h' al, rmap_pkt_from_buffer (At b) len h = Some (r, h') /\
    match r with
    | None => Rmap.rmap_pkt_from_buffer al (non_rmap h) (At b) len = Some (non_rmap h', None) /\
        mem h' = mem h
    | Some l => exists v, Rmap.rmap_pkt_from_buffer al (non_rmap h) (At b) len = Some (non_rmap h', Some v) /\
        packet_at l v (mem h) (mem h') /\
        exists h2, rmap_erase_packet (Some l) h' = Some ((), h2) /\ mem h2 = mem h
    end.
Proof.
  pose proof (parser_runs b len [] (mem h) h Hb Hl (proj2 (owns_nil _ _) eq_refl)) as H. unfold runs in H.
  destruct (rmap_pkt_from_buffer (At b) len h) as [[r h']|]; [|done]. destruct H as [al H].
  exists r, h', al. split; [done|]. destruct r as [l|].
  - destruct H as (o & v & E & R & Ho). exists v. split; [done|].
    pose proof (rmap_erase_runs l o v [] (mem h) h' R Ho) as He. rewrite app_nil_r in Ho.
    split; [by exists o|]. unfold runs in He.
    destruct (rmap_erase_packet (Some l) h') as [[[] h2]|]; [|done]. destruct He as [He _].
    exists h2. split; [done|]. by apply (proj1 (owns_nil _ _)).
  - destruct H as [E Ho]. split; [done|]. by apply (proj1 (owns_nil _ _)).
Qed.

(** C23: So do the constructor and any sequence of setters, with arguments of their
    C types and whichever allocations fail: the packet in the memory is the one of
    [Rmap], and after [rmap_erase_packet] the memory is as it was before, unless
    a path was set a second time, whose first buffer is lost then. *)
Theorem rmap_setters_memory {A : Allocator} (ops : list rmap_op) (h : heap) (Hops : Forall op_typed ops) :
  exists r h1, rmap_create_packet h = Some (r, h1) /\
    match r with
    | None => mem h1 = mem h
    | Some l => exists h2 oks v lost, heap_ops ops (Some l) h1 = Some ((), h2) /\
        run_ops_with oks ops (Rmap.rmap_create_packet true) = Some (Some v) /\ length oks = length ops /\
        (exists o, rep o v /\ owns (blocks l o v ++ lost) (mem h) (mem h2)) /\
        exists h3, rmap_erase_packet (Some l) h2 = Some ((), h3) /\ owns lost (mem h) (mem h3) /\
          (once true true ops = true -> mem h3 = mem h)
    end.
Proof.
  pose proof (create_runs [] (mem h) h (proj2 (owns_nil _ _) eq_refl)) as H. unfold runs in H.
  destruct (rmap_create_packet h) as [[r h1]|]; [|done]. exists r, h1. split; [done|].
  destruct H as [_ H]. destruct r as [l|]; [|by apply (proj1 (owns_nil _ _))]. destruct H as (o & R & Ho).
  pose proof (ops_runs l (mem h) ops o created [] h1 Hops R Ho) as H. unfold runs in H.
  destruct (heap_ops ops (Some l) h1) as [[[] h2]|]; [|done].
  destruct H as (_ & oks & o2 & v & lost & Hn & E & R2 & Ho2 & L). rewrite app_nil_r in Ho2.
  exists h2, oks, v, lost. split; [done|]. split; [done|]. split; [done|]. split; [by exists o2|].
  pose proof (rmap_erase_runs l o2 v lost (mem h) h2 R2 Ho2) as He. unfold runs in He.
  destruct (rmap_erase_packet (Some l) h2) as [[[] h3]|]; [|done]. destruct He as [He _].
  exists h3. split; [done|]. split; [done|]. intros Ho1. rewrite L in He; [by apply (proj1 (owns_nil _ _))|].
  by exists true, true.
Qed.

(** ** Examples *)

(** an allocator that has memory for [limit] calls *)
#[local] Program Definition bump_allocator (limit : nat) : Allocator :=
  {| new := fun t _ m =>
       if (t <? limit)%nat then match m !! Pos.of_succ_nat t with None => Some (Pos.of_succ_nat t) | Some _ => None end
       else None |}.
Next Obligation. intros limit t n m l H. simpl in H. repeat case_match; congruence. Qed.

Definition heap_empty : heap := mk_heap ∅ 0 0.

(** a command with a reply path of one word and two octets of data *)
Definition ex_received : list Z :=
  [0x50; 1; 0x61; 0; 1; 2; 3; 4; 0x51; 0; 7; 0; 0xc0; 0xff; 0xee; 0; 0; 0; 2; 0x99; 10; 20; 0x77].

Lemma ex_received_bytes : bytes ex_received.
Proof. by apply (bool_decide_eq_true_1 (bytes ex_received)). Qed.

Lemma ex_out_of_memory : exists h', rmap_pkt_from_buffer (A := bump_allocator 2) (At ex_received) 23 heap_empty = Some (None, h').
Proof. eexists. vm_compute. reflexivity. Qed.

(** the memory runs out at the data: the structure and the reply path are given back *)
Lemma rmap_parser_memory_witness : exists h',
  rmap_pkt_from_buffer (A := bump_allocator 2) (At ex_received) 23 heap_empty = Some (None, h') /\ mem h' = ∅.
Proof.
  destruct ex_out_of_memory as [h1 E].
  destruct (rmap_parser_memory (A := bump_allocator 2) ex_received 23 heap_empty ex_received_bytes
    ltac:(vm_compute; discriminate)) as (r & h' & al & E' & H).
  rewrite E in E'. injection E' as <- <-. exists h1. exact (conj E (proj2 H)).
Defined.

Lemma ex_ops_created : exists l h1, rmap_create_packet (A := bump_allocator 9) heap_empty = Some (Some l, h1).
Proof. do 2 eexists. vm_compute. reflexivity. Qed.

Lemma rmap_setters_memory_witness : exists l h1 h2 h3,
  rmap_create_packet (A := bump_allocator 9) heap_empty = Some (Some l, h1) /\
  heap_ops (A := bump_allocator 9) ex_ops (Some l) h1 = Some ((), h2) /\
  rmap_erase_packet (Some l) h2 = Some ((), h3) /\ mem h3 = ∅.
Proof.
  destruct ex_ops_created as (l & h1 & E).
  destruct (rmap_setters_memory (A := bump_allocator 9) ex_ops heap_empty ex_ops_typed) as (r & h' & E' & H).
  rewrite E in E'. injection E' as <- <-. destruct H as (h2 & _ & _ & _ & H1 & _ & _ & _ & h3 & H2 & _ & H3).
  exists l, h1, h2, h3. exact (conj E (conj H1 (conj H2 (H3 eq_refl)))).
Defined.

(** a path that is set twice is lost once *)
Lemma path_set_twice_lost : exists l h1 h2 h3,
  rmap_create_packet (A := bump_allocator 9) heap_empty = Some (Some l, h1) /\
  heap_ops (A := bump_allocator 9) [OpDestPath (At [1; 2]) 2; OpDestPath (At [3]) 1] (Some l) h1 = Some ((), h2) /\
  rmap_erase_packet (Some l) h2 = Some ((), h3) /\ mem h3 = {[2%positive := Octets [Some 1; Some 2]]}.
Proof.
  do 4 eexists. split; [vm_compute; reflexivity|]. split; [vm_compute; reflexivity|].
  split; [vm_compute; reflexivity|]. vm_compute. reflexivity.
Qed.
