(* ===== verification/CString.v ===== *)
(** * C strings

    What the sources use of the C library on strings: [strtol], [strtoul],
    [atoi], [strtok] with the delimiter ':', and the decimal numbers [printf]
    writes.  A C string is a [string] without its terminating null character. *)

From Stdlib Require Import String Ascii List.
From stdpp Require Import base tactics option list.
From Stdlib Require Import ZArith Lia Bool.
From S2P Require Import Prelude.

Local Open Scope Z_scope.

(** ** Characters *)

Definition code (c : ascii) : Z := Z.of_N (N_of_ascii c).

Definition is_space (c : ascii) : bool :=
  let x := code c in (x =? 32) || ((9 <=? x) && (x <=? 13)).

(** the value of a digit, of a letter from ten on *)
Definition digit_val (c : ascii) : option Z :=
  let x := code c in
  if (48 <=? x) && (x <=? 57) then Some (x - 48)
  else if (97 <=? x) && (x <=? 122) then Some (x - 87)
  else if (65 <=? x) && (x <=? 90) then Some (x - 55)
  else None.

Definition digit_in (base : Z) (c : ascii) : option Z :=
  match digit_val c with Some d => if d <? base then Some d else None | None => None end.

(** ** strtol *)

Definition LONG_MAX : Z := 9223372036854775807.
Definition LONG_MIN : Z := -9223372036854775808.
Definition ULONG_MAX : Z := 18446744073709551615.

Fixpoint skip_space (s : string) : string :=
  match s with
  | String c r => if is_space c then skip_space r else s
  | EmptyString => s
  end.

(** the sign, and what follows it *)
Definition sign (s : string) : bool * string :=
  match s with
  | String c r => if code c =? 45 then (true, r) else if code c =? 43 then (false, r) else (false, s)
  | EmptyString => (false, s)
  end.

(** "0x" in front of a hexadecimal digit *)
Definition hex_prefix (s : string) : option string :=
  match s with
  | String z (String x (String d r)) =>
      if (code z =? 48) && ((code x =? 120) || (code x =? 88)) then
        match digit_in 16 d with Some _ => Some (String d r) | None => None end
      else None
  | _ => None
  end.

(** the base a number is written in, and its digits *)
Definition base_of (base : Z) (s : string) : Z * string :=
  if (base =? 0) || (base =? 16) then
    match hex_prefix s with
    | Some r => (16, r)
    | None =>
        if base =? 16 then (16, s)
        else match s with
             | String c _ => (if code c =? 48 then 8 else 10, s)
             | EmptyString => (10, s)
             end
    end
  else (base, s).

Fixpoint digits (base : Z) (s : string) (acc : Z) : Z * string :=
  match s with
  | String c r =>
      match digit_in base c with Some d => digits base r (acc * base + d) | None => (acc, s) end
  | EmptyString => (acc, s)
  end.

(** sign, magnitude, and the rest; [None] if there is no digit *)
Definition scan (base : Z) (s : string) : option (bool * Z * string) :=
  let '(neg, r) := sign (skip_space s) in
  let '(b, r) := base_of base r in
  match r with
  | String c _ =>
      match digit_in b c with
      | Some _ => let '(n, r) := digits b r 0 in Some (neg, n, r)
      | None => None
      end
  | EmptyString => None
  end.

(** the value and the pointer to the first character that is not part of it *)
Definition strtol (s : string) (base : Z) : Z * string :=
  match scan base s with
  | None => (0, s)
  | Some (neg, n, r) => (Z.max LONG_MIN (Z.min LONG_MAX (if (neg : bool) then - n else n)), r)
  end.

Definition strtoul (s : string) (base : Z) : Z * string :=
  match scan base s with
  | None => (0, s)
  | Some (neg, n, r) =>
      (if ULONG_MAX <? n then ULONG_MAX else if (neg : bool) then u64 (- n) else n, r)
  end.

(** a [long] converted to [int] *)
Definition int_of (x : Z) : Z := (x + 2147483648) mod 4294967296 - 2147483648.

Definition atoi (s : string) : Z := int_of (strtol s 10).1.

(** ** strtok with ":" *)

Definition colon : ascii := ":"%char.

Fixpoint skip_colons (s : string) : string :=
  match s with
  | String c r => if Ascii.eqb c colon then skip_colons r else s
  | EmptyString => s
  end.

(** up to the first colon, and what follows it *)
Fixpoint cut_colon (s : string) : string * string :=
  match s with
  | String c r =>
      if Ascii.eqb c colon then (EmptyString, r)
      else let '(t, r) := cut_colon r in (String c t, r)
  | EmptyString => (EmptyString, EmptyString)
  end.

(** the token, and the string the next call with [NULL] goes on with *)
Definition strtok (s : string) : option string * string :=
  match skip_colons s with
  | EmptyString => (None, EmptyString)
  | s => let '(t, r) := cut_colon s in (Some t, r)
  end.

(** every token, as a loop over [strtok] *)
Fixpoint tokens (fuel : nat) (s : string) : list string :=
  match fuel with
  | O => []
  | S fuel => match strtok s with (None, _) => [] | (Some t, r) => t :: tokens fuel r end
  end.

(** ** Decimal numbers *)

Definition digit (d : Z) : ascii := ascii_of_N (Z.to_N (48 + d)).

Fixpoint dec_loop (fuel : nat) (n : Z) (r : string) : string :=
  match fuel with
  | O => r
  | S fuel =>
      let r := String (digit (n mod 10)) r in
      if n / 10 =? 0 then r else dec_loop fuel (n / 10) r
  end.

(** [%u] of a number below 10^20 *)
Definition dec (n : Z) : string := dec_loop 20 n EmptyString.

(** ** Lemmas *)

Lemma digit_code d : 0 <= d < 10 -> code (digit d) = 48 + d.
Proof.
  intros Hd. unfold code, digit. rewrite N_ascii_embedding by lia. lia.
Qed.

Lemma digit_in_digit d : 0 <= d < 10 -> digit_in 10 (digit d) = Some d.
Proof.
  intros Hd. unfold digit_in, digit_val. rewrite digit_code by done.
  rewrite (proj2 (Z.leb_le 48 _)), (proj2 (Z.leb_le _ 57)) by lia. simpl.
  replace (48 + d - 48) with d by lia. by rewrite (proj2 (Z.ltb_lt d 10)) by lia.
Qed.

(** the digits of a written number are read back *)
Lemma digits_dec_loop fuel : forall n r, 0 <= n < 10 ^ Z.of_nat fuel ->
  exists k, 0 <= k /\ forall a, digits 10 (dec_loop fuel n r) a = digits 10 r (a * 10 ^ k + n).
Proof.
  induction fuel as [|fuel IH]; intros n r Hn.
  { exists 0. split; [done|]. intros a. simpl in *. f_equal. lia. }
  cbn [dec_loop]. assert (Hd : 0 <= n mod 10 < 10) by (apply Z.mod_pos_bound; lia).
  destruct (Z.eqb_spec (n / 10) 0) as [E|E].
  - exists 1. split; [done|]. intros a. cbn [digits]. rewrite digit_in_digit by done. f_equal. dlia.
  - destruct (IH (n / 10) (String (digit (n mod 10)) r)) as (k & Hk & H).
    { rewrite Nat2Z.inj_succ, Z.pow_succ_r in Hn by lia. dlia. }
    exists (k + 1). split; [lia|]. intros a. rewrite H. cbn [digits]. rewrite digit_in_digit by done.
    f_equal. rewrite Z.pow_add_r by lia. dlia.
Qed.

Lemma dec_loop_head fuel : forall n r, 0 <= n ->
  exists d t, dec_loop (S fuel) n r = String (digit d) t /\ 0 <= d < 10.
Proof.
  induction fuel as [|fuel IH]; intros n r Hn; cbn [dec_loop].
  - exists (n mod 10), r. split; [by destruct (_ =? _)|]. apply Z.mod_pos_bound. lia.
  - destruct (n / 10 =? 0); [exists (n mod 10), r; split; [done|]; apply Z.mod_pos_bound; lia|].
    apply (IH (n / 10)). dlia.
Qed.

Lemma scan_dec n : 0 <= n < 10 ^ 20 -> scan 10 (dec n) = Some (false, n, EmptyString).
Proof.
  intros Hn. unfold dec. destruct (digits_dec_loop 20 n EmptyString Hn) as (k & Hk & H).
  specialize (H 0). destruct (dec_loop_head 19 n EmptyString (proj1 Hn)) as (d & t & E & Hd).
  rewrite E in *. unfold scan. cbn [skip_space].
  assert (Es : is_space (digit d) = false).
  { unfold is_space. rewrite digit_code by done. lia. }
  rewrite Es. unfold sign. rewrite digit_code by done.
  rewrite (proj2 (Z.eqb_neq (48 + d) 45)), (proj2 (Z.eqb_neq (48 + d) 43)) by lia.
  unfold base_of. simpl (_ || _). cbv iota. rewrite digit_in_digit by done. rewrite H. simpl digits.
  by replace (0 * 10 ^ k + n) with n by lia.
Qed.

Lemma atoi_dec n : 0 <= n < 2147483648 -> atoi (dec n) = n.
Proof.
  intros Hn. unfold atoi, strtol. rewrite scan_dec by lia. unfold int_of, LONG_MIN, LONG_MAX. simpl.
  rewrite Z.max_r, Z.min_r by lia. rewrite Z.mod_small by lia. lia.
Qed.

(** strings without a colon *)
Definition colon_free (s : string) : bool := negb (existsb (fun c => Ascii.eqb c colon) (list_ascii_of_string s)).

Lemma colon_free_cons c s : colon_free (String c s) = negb (Ascii.eqb c colon) && colon_free s.
Proof. unfold colon_free. cbn [list_ascii_of_string existsb]. by rewrite negb_orb. Qed.

Lemma cut_colon_app s r : colon_free s = true -> cut_colon (s ++ String colon r) = (s, r).
Proof.
  induction s as [|c s IH]; [done|]. rewrite colon_free_cons. intros [Hc Hs]%andb_true_iff.
  cbn [append cut_colon]. destruct (Ascii.eqb c colon); [done|]. by rewrite IH.
Qed.

Lemma cut_colon_all s : colon_free s = true -> cut_colon s = (s, EmptyString).
Proof.
  induction s as [|c s IH]; [done|]. rewrite colon_free_cons. intros [Hc Hs]%andb_true_iff.
  cbn [cut_colon]. destruct (Ascii.eqb c colon); [done|]. by rewrite IH.
Qed.

Lemma strtok_first c s r : colon_free (String c s) = true ->
  strtok (String c s ++ String colon r) = (Some (String c s), r).
Proof.
  intros H. pose proof H as H'. rewrite colon_free_cons in H'. apply andb_true_iff in H' as [Hc _].
  unfold strtok. cbn [append skip_colons]. destruct (Ascii.eqb c colon) eqn:E; [done|].
  pose proof (cut_colon_app (String c s) r H) as Hcut. cbn [append] in Hcut. by rewrite Hcut.
Qed.

Lemma strtok_last c s : colon_free (String c s) = true ->
  strtok (String c s) = (Some (String c s), EmptyString).
Proof.
  intros H. pose proof H as H'. rewrite colon_free_cons in H'. apply andb_true_iff in H' as [Hc _].
  unfold strtok. cbn [skip_colons]. destruct (Ascii.eqb c colon) eqn:E; [done|].
  by rewrite (cut_colon_all (String c s) H).
Qed.

Lemma digit_not_colon d : 0 <= d < 10 -> Ascii.eqb (digit d) colon = false.
Proof.
  intros Hd. apply Ascii.eqb_neq. intros E. apply (f_equal code) in E. rewrite digit_code in E by done.
  unfold colon, code in E. simpl in E. lia.
Qed.

Lemma dec_loop_colon_free fuel : forall n r, 0 <= n -> colon_free r = true ->
  colon_free (dec_loop fuel n r) = true.
Proof.
  induction fuel as [|fuel IH]; intros n r Hn Hr; [done|]. cbn [dec_loop].
  assert (H : colon_free (String (digit (n mod 10)) r) = true).
  { rewrite colon_free_cons, digit_not_colon by (apply Z.mod_pos_bound; lia). done. }
  destruct (_ =? _); [done|]. apply IH; [dlia|done].
Qed.

Lemma strtok_dec n : 0 <= n -> strtok (dec n) = (Some (dec n), EmptyString).
Proof.
  intros Hn. pose proof (dec_loop_colon_free 20 n EmptyString Hn eq_refl) as Hc.
  unfold dec in *. destruct (dec_loop_head 19 n EmptyString Hn) as (d & t & E & _).
  rewrite E in *. by apply strtok_last.
Qed.
