(* ===== verification/Fields.v ===== *)
(** * Field type codes and message types (src/ecss/ecss_pkt.h, ecss_pkt_cfg.h)

    The 32-bit code in which the packet library describes a field of a payload
    (base type, size, kind of position, mask, offset): the accessors, the
    constructors and the predicates on the entries of the field tables; and the
    configuration tables, the services, the message types and the field
    identifiers of the mission.  [sizeof (float)] is 4, [sizeof (double)] 8. *)

From Stdlib Require Import String Ascii List.
From stdpp Require Import base tactics option list list_numbers strings.
From Stdlib Require Import ZArith Lia Bool.
From S2P Require Import Prelude Ecss CString.

Local Open Scope Z_scope.

(** ** Type codes *)

Definition FIELD_TYPE_IS_INT : Z := 0.
Definition FIELD_TYPE_IS_FLOAT : Z := 1.
Definition FIELD_TYPE_IS_BITS : Z := 2.
Definition FIELD_TYPE_IS_OCT_STR : Z := 3.

Definition FIELD_SRC_DATAPOOL : Z := 0.
Definition FIELD_SRC_PKT : Z := 1.
Definition FIELD_SRC_UNUSED_1 : Z := 2.
Definition FIELD_SRC_UNUSED_2 : Z := 3.

Definition FIELD_REF_ABSOLUTE : Z := 0.
Definition FIELD_REF_GROUPREL : Z := 1.
Definition FIELD_REF_ENUMERATE : Z := 2.
Definition FIELD_REF_DEDUCED : Z := 3.

(** accessors of a code *)
Definition FIELD_TYPE_GET (t : Z) : Z := Z.land (Z.shiftr t 30) 0x00000003.
Definition FIELD_TYPE_SIZE (t : Z) : Z := Z.shiftl 1 (Z.land (Z.shiftr t 28) 0x00000003).
Definition FIELD_REF_TYPE (t : Z) : Z := Z.land (Z.shiftr t 26) 0x00000003.
Definition FIELD_MASK_BITS (t : Z) : Z := Z.land (Z.shiftr t 19) 0x0000007f.
Definition FIELD_BITS_OFFSET (t : Z) : Z := Z.land (Z.shiftr t 0) 0x0007ffff.

Definition FIELD_UNUSED : Z := 0xffffffff.

(** of an [unsigned int] that is not zero *)
Definition __builtin_clz (x : Z) : Z := 31 - Z.log2 x.

Definition ILOG2 (x : Z) : Z := if x >? 1 then 32 - __builtin_clz (u32 (x - 1)) else 0.

(** as it is stored in the [type] of an entry: a base type of 2 or 3 is shifted
    into the sign of an [int], which the conversion to [uint32_t] undoes *)
Definition FIELD_DEFINE (type size ref mask offset : Z) : Z :=
  u32 (Z.lor (Z.lor (Z.lor (Z.lor
        (Z.shiftl (Z.land type 0x00000003) 30)
        (Z.shiftl (Z.land (ILOG2 size) 0x00000003) 28))
        (Z.shiftl (Z.land ref 0x00000003) 26))
        (Z.shiftl (Z.land mask 0x0000007f) 19))
        (Z.land offset 0x0007ffff)).

(** common types with absolute offsets *)
Definition FIELD_ABS_INT8 (off : Z) : Z :=
  FIELD_DEFINE FIELD_TYPE_IS_INT 1 FIELD_REF_ABSOLUTE (CHAR_BIT * 1 - 1) off.
Definition FIELD_ABS_INT16 (off : Z) : Z :=
  FIELD_DEFINE FIELD_TYPE_IS_INT 2 FIELD_REF_ABSOLUTE (CHAR_BIT * 2 - 1) off.
Definition FIELD_ABS_INT32 (off : Z) : Z :=
  FIELD_DEFINE FIELD_TYPE_IS_INT 4 FIELD_REF_ABSOLUTE (CHAR_BIT * 4 - 1) off.
Definition FIELD_ABS_INT64 (off : Z) : Z :=
  FIELD_DEFINE FIELD_TYPE_IS_INT 8 FIELD_REF_ABSOLUTE (CHAR_BIT * 8 - 1) off.
Definition FIELD_ABS_FLOAT (off : Z) : Z :=
  FIELD_DEFINE FIELD_TYPE_IS_FLOAT 4 FIELD_REF_ABSOLUTE (CHAR_BIT * 4 - 1) off.
Definition FIELD_ABS_DOUBLE (off : Z) : Z :=
  FIELD_DEFINE FIELD_TYPE_IS_FLOAT 8 FIELD_REF_ABSOLUTE (CHAR_BIT * 8 - 1) off.

(** common types with group relative offsets *)
Definition FIELD_GREL_INT8 (off : Z) : Z :=
  FIELD_DEFINE FIELD_TYPE_IS_INT 1 FIELD_REF_GROUPREL (8 * 1 - 1) off.
Definition FIELD_GREL_INT16 (off : Z) : Z :=
  FIELD_DEFINE FIELD_TYPE_IS_INT 2 FIELD_REF_GROUPREL (8 * 2 - 1) off.
Definition FIELD_GREL_INT32 (off : Z) : Z :=
  FIELD_DEFINE FIELD_TYPE_IS_INT 4 FIELD_REF_GROUPREL (8 * 4 - 1) off.
Definition FIELD_GREL_INT64 (off : Z) : Z :=
  FIELD_DEFINE FIELD_TYPE_IS_INT 8 FIELD_REF_GROUPREL (8 * 8 - 1) off.
Definition FIELD_GREL_FLOAT (off : Z) : Z :=
  FIELD_DEFINE FIELD_TYPE_IS_FLOAT 4 FIELD_REF_GROUPREL (8 * 4 - 1) off.
Definition FIELD_GREL_DOUBLE (off : Z) : Z :=
  FIELD_DEFINE FIELD_TYPE_IS_FLOAT 8 FIELD_REF_GROUPREL (8 * 8 - 1) off.

(** common types with enumerated offsets *)
Definition FIELD_ENUM_INT8 (off : Z) : Z :=
  FIELD_DEFINE FIELD_TYPE_IS_INT 1 FIELD_REF_ENUMERATE (8 * 1 - 1) off.
Definition FIELD_ENUM_INT16 (off : Z) : Z :=
  FIELD_DEFINE FIELD_TYPE_IS_INT 2 FIELD_REF_ENUMERATE (8 * 2 - 1) off.
Definition FIELD_ENUM_INT32 (off : Z) : Z :=
  FIELD_DEFINE FIELD_TYPE_IS_INT 4 FIELD_REF_ENUMERATE (8 * 4 - 1) off.
Definition FIELD_ENUM_INT64 (off : Z) : Z :=
  FIELD_DEFINE FIELD_TYPE_IS_INT 8 FIELD_REF_ENUMERATE (8 * 8 - 1) off.
Definition FIELD_ENUM_FLOAT (off : Z) : Z :=
  FIELD_DEFINE FIELD_TYPE_IS_FLOAT 4 FIELD_REF_ENUMERATE (8 * 4 - 1) off.
Definition FIELD_ENUM_DOUBLE (off : Z) : Z :=
  FIELD_DEFINE FIELD_TYPE_IS_FLOAT 8 FIELD_REF_ENUMERATE (8 * 8 - 1) off.

(** deduced field types *)
Definition FIELD_DEDUCED_DATAPOOL : Z :=
  FIELD_DEFINE FIELD_SRC_DATAPOOL 0 FIELD_REF_DEDUCED (8 * 4 - 1) 0.
Definition FIELD_DEDUCED_PKT (n off : Z) : Z :=
  FIELD_DEFINE FIELD_SRC_PKT 4 FIELD_REF_DEDUCED (n - 1) off.

(** ** Entries *)

(** [pfe_type] is the member [type] *)
Record pkt_field_entry : Type := mk_pfe {
  pfe_st : Z;
  pfe_sst : Z;
  pfe_id : Z;
  pfe_parent : Z;
  pfe_type : Z
}.

Record pkt_disc_field_entry : Type := mk_pdfe {
  pdfe_st : Z;
  pdfe_sst : Z;
  pdfe_disc : Z;
  pdfe_id : Z;
  pdfe_type : Z
}.

(** an entry of either table *)
Class Entry (E : Type) : Type := type_of : E -> Z.

#[export] Instance pkt_field_entry_type : Entry pkt_field_entry := pfe_type.

#[export] Instance pkt_disc_field_entry_type : Entry pkt_disc_field_entry := pdfe_type.

Section entry.
Context {E : Type} {entry_type : Entry E}.

Definition FIELD_IS_ABS (entry : E) : bool := FIELD_REF_TYPE (type_of entry) =? FIELD_REF_ABSOLUTE.
Definition FIELD_IS_GREL (entry : E) : bool := FIELD_REF_TYPE (type_of entry) =? FIELD_REF_GROUPREL.
Definition FIELD_IS_ENUM (entry : E) : bool := FIELD_REF_TYPE (type_of entry) =? FIELD_REF_ENUMERATE.
Definition FIELD_IS_UNUSED (entry : E) : bool := type_of entry =? FIELD_UNUSED.
Definition FIELD_IS_DED_POOL (entry : E) : bool :=
  (FIELD_TYPE_GET (type_of entry) =? FIELD_SRC_DATAPOOL) &&
  (FIELD_REF_TYPE (type_of entry) =? FIELD_REF_DEDUCED).
Definition FIELD_IS_DED_PKT (entry : E) : bool :=
  (FIELD_TYPE_GET (type_of entry) =? FIELD_SRC_PKT) &&
  (FIELD_REF_TYPE (type_of entry) =? FIELD_REF_DEDUCED).
Definition FIELD_IS_DEDUCED (entry : E) : bool := FIELD_IS_DED_POOL entry || FIELD_IS_DED_PKT entry.
End entry.

(** ** The tables of the mission *)

Local Open Scope string_scope.

(** the [ST_] macros *)
Definition service_types : list (string * Z) :=
  [("ST_VER", 1); ("ST_HK", 3); ("ST_EVT", 5); ("ST_Mem", 6); ("ST_Time", 9); ("ST_Ldt", 13);
   ("ST_Tst", 17); ("ST_ParamMngt", 20); ("ST_Fdir", 191); ("ST_Mode", 193); ("ST_Algo", 194);
   ("ST_Aocs", 196); ("ST_Boot", 197); ("ST_Proc", 198); ("ST_Mngt", 210); ("ST_Data", 212);
   ("ST_Maint", 213)].

(** the [SST_] macros: the service, the message, its number *)
Definition subservice_types : list (string * string * Z) :=
  [("VER", "SuccAccRep", 1); ("VER", "FailedAccRep", 2); ("VER", "SuccStartRep", 3);
   ("VER", "FailedStartRep", 4); ("VER", "SuccTermRep", 7); ("VER", "FailedTermRep", 8);
   ("HK", "CreHkCmd", 1); ("HK", "DelHkCmd", 3); ("HK", "EnbHkCmd", 5); ("HK", "DisHkCmd", 6);
   ("HK", "RepStructHkCmd", 9); ("HK", "RepStructHkRep", 10); ("HK", "Rep", 25);
   ("HK", "OneShotHkCmd", 27); ("HK", "AppParaCmd", 29); ("HK", "ModHkPeriodCmd", 31);
   ("EVT", "Rep", 1); ("EVT", "EnbCmd", 5); ("EVT", "DisCmd", 6); ("EVT", "RepDisEvtCmd", 7);
   ("EVT", "DisEvtRep", 8); ("EVT", "SetEvtFilterCmd", 138); ("EVT", "SetEvtSevCmd", 140);
   ("Mem", "LoadCmd", 2); ("Mem", "DumpCmd", 5); ("Mem", "DumpRep", 6);
   ("Mem", "CheckMemCmd", 9); ("Mem", "CheckMemRep", 10); ("Mem", "LoadRawMemCmd", 11);
   ("Mem", "AbortMemDump", 12); ("Mem", "enableMemProtCmd", 15);
   ("Mem", "disableMemProtCmd", 16); ("Time", "TimeUpdt", 132); ("Ldt", "DownFirstRep", 1);
   ("Ldt", "DownInterRep", 2); ("Ldt", "DownLastRep", 3); ("Tst", "AreYouAliveCmd", 1);
   ("Tst", "AreYouAliveRep", 2); ("ParamMngt", "ReportParamValuesCmd", 1);
   ("ParamMngt", "ParamValueRep", 2); ("ParamMngt", "SetParamValueCmd", 3);
   ("Fdir", "FdCheckEnbGlobCmd", 1); ("Fdir", "FdCheckDisGlobCmd", 2);
   ("Fdir", "FdCheckEnbCmd", 3); ("Fdir", "FdCheckDisCmd", 4); ("Fdir", "FdRecovEnbGlobCmd", 5);
   ("Fdir", "FdRecovDisGlobCmd", 6); ("Fdir", "FdRecovEnbCmd", 7); ("Fdir", "FdRecovDisCmd", 8);
   ("Mode", "IaModePreOperCmd", 1); ("Mode", "IaModeStrtOperCmd", 2);
   ("Mode", "IaModeStpOperCmd", 3); ("Mode", "IaModeGotoStbyCmd", 4);
   ("Mode", "IaModeSimCmd", 5); ("Mode", "IaModeContrSwOffCmd", 6);
   ("Mode", "ResetDpuSafeCmd", 255); ("Algo", "AlgoStrtCmd", 1); ("Algo", "AlgoStopCmd", 2);
   ("Algo", "AlgoSuspCmd", 3); ("Algo", "AlgoResCmd", 4); ("Aocs", "AocsRep", 1);
   ("Aocs", "AocsCmd", 2); ("Aocs", "AocsCalCmd", 3); ("Aocs", "ModeCmd", 4);
   ("Boot", "BootRep", 1); ("Boot", "BootRepGenCmd", 2); ("Proc", "ProcStartCmd", 1);
   ("Proc", "ProcStopCmd", 2); ("Mngt", "WatchdogEnbCmd", 2); ("Mngt", "WatchdogDisCmd", 3);
   ("Mngt", "LoadRegisterCmd", 6); ("Mngt", "LoadRegisterArmCmd", 7);
   ("Mngt", "LoadRegisterDisarmCmd", 8); ("Data", "CopyCmd", 1); ("Data", "ComprCmd", 2);
   ("Data", "DecomprCmd", 3); ("Maint", "SchedSegmCmd", 1)].

(** an enumerator of an [enum], with its value if it has one *)
Definition enumerator : Type := string * option Z.

(** [PKT_FIELD_ENUMS]: the enumerators behind the first one have no value *)
Definition PKT_FIELD_ENUMS : list enumerator :=
  ("PKT_FIELD_ID_FIRST", Some 0) :: map (fun s => (s, None))
  ["PKT_PLD_IS_ARBITRARY"; "PKT_HAS_CRC"; "SuccAccRep_TcPcktVN"; "SuccAccRep_TcPcktId";
   "SuccAccRep_TcPcktSeqCtrl"; "FailedAccRep_TcPcktVN"; "FailedAccRep_TcPcktId";
   "FailedAccRep_TcPcktSeqCtrl"; "FailedAccRep_TcFailureCode"; "SuccStartRep_TcPcktVN";
   "SuccStartRep_TcPcktId"; "SuccStartRep_TcPcktSeqCtrl"; "FailedStartRep_TcPcktVN";
   "FailedStartRep_TcPcktId"; "FailedStartRep_TcPcktSeqCtrl"; "FailedStartRep_TcFailureCode";
   "SuccTermRep_TcPcktVN"; "SuccTermRep_TcPcktId"; "SuccTermRep_TcPcktSeqCtrl";
   "FailedTermRep_TcPcktVN"; "FailedTermRep_TcPcktId"; "FailedTermRep_TcPcktSeqCtrl";
   "FailedTermRep_TcFailureCode"; "CreHkCmd_SidNoCal"; "CreHkCmd_Period"; "CreHkCmd_NParam";
   "CreHkCmd_ParamId"; "CreHkCmd_NFA"; "DelHkCmd_NParam"; "DelHkCmd_SidNoCal"; "EnbHkCmd_NParam";
   "EnbHkCmd_SidNoCal"; "DisHkCmd_NParam"; "DisHkCmd_SidNoCal"; "RepStructHkCmd_NParam";
   "RepStructHkCmd_SidNoCal"; "RepStructHkRep_Sid"; "RepStructHkRep_GenStat";
   "RepStructHkRep_Period"; "RepStructHkRep_NParam"; "RepStructHkRep_ParamId";
   "RepStructHkRep_NFA"; "Rep_Sid"; "OneShotHkCmd_NParam"; "OneShotHkCmd_SidNoCal";
   "AppParaCmd_SidNoCal"; "AppParaCmd_NParam"; "AppParaCmd_ParamId"; "AppParaCmd_NFA";
   "ModHkPeriodCmd_NParam"; "ModHkPeriodCmd_SidNoCal"; "ModHkPeriodCmd_Period"; "Rep_event_id";
   "EnbCmd_NRep"; "EnbCmd_event_id"; "DisCmd_NRep"; "DisCmd_event_id"; "DisEvtRep_NRep";
   "DisEvtRep_event_id"; "SetEvtFilterCmd_event_id"; "SetEvtFilterCmd_Filter";
   "SetEvtSevCmd_event_id"; "SetEvtSevCmd_Severity"; "LoadCmd_MemoryId"; "LoadCmd_Nrep";
   "LoadCmd_StartAddress"; "LoadCmd_BlockLength"; "LoadCmd_BlockData"; "DumpCmd_MemoryId";
   "DumpCmd_Nrep"; "DumpCmd_StartAddress"; "DumpCmd_BlockLength"; "DumpRep_MemoryId";
   "DumpRep_Nrep"; "DumpRep_StartAddress"; "DumpRep_BlockLength"; "DumpRep_BlockData";
   "CheckMemCmd_MemoryId"; "CheckMemCmd_Nrep"; "CheckMemCmd_StartAddress";
   "CheckMemCmd_BlockLength"; "CheckMemRep_MemoryId"; "CheckMemRep_Nrep";
   "CheckMemRep_StartAddress"; "CheckMemRep_BlockLength"; "CheckMemRep_Checksum";
   "LoadRawMemCmd_MemoryId"; "LoadRawMemCmd_StartAddress"; "LoadRawMemCmd_bitMask";
   "LoadRawMemCmd_dataToLoad"; "enableMemProtCmd_MemoryId"; "disableMemProtCmd_MemoryId";
   "TimeUpdt_ObtTime"; "DownFirstRep_SduId"; "DownFirstRep_SduSeqNmb";
   "DownFirstRep_SduDataPartLength"; "DownFirstRep_SduDataPart"; "DownInterRep_SduId";
   "DownInterRep_SduSeqNmb"; "DownInterRep_SduDataPartLength"; "DownInterRep_SduDataPart";
   "DownLastRep_SduId"; "DownLastRep_SduSeqNmb"; "DownLastRep_SduDataPartLength";
   "DownLastRep_SduDataPart"; "ReportParamValuesCmd_N"; "ReportParamValuesCmd_ParamId";
   "ParamValueRep_N"; "ParamValueRep_ParamId"; "ParamValueRep_ParamValue"; "SetParamValueCmd_N";
   "SetParamValueCmd_ParamId"; "SetParamValueCmd_ParamValue"; "FdCheckEnbCmd_FdirId";
   "FdCheckDisCmd_FdirId"; "FdRecovEnbCmd_RpId"; "FdRecovDisCmd_RpId"; "AlgoStrtCmd_AlgoId";
   "AlgoStopCmd_AlgoId"; "AlgoSuspCmd_AlgoId"; "AlgoResCmd_AlgoId"; "AocsRep_Mode";
   "AocsRep_Channel"; "AocsRep_TimeTag"; "AocsRep_TargetLocationX"; "AocsRep_TargetLocationY";
   "AocsRep_MeasuredLocationX"; "AocsRep_MeasuredLocationY"; "AocsRep_TargetSignal";
   "AocsRep_IntegrationTime"; "AocsRep_Validity"; "AocsRep_QualityIndex"; "AocsCmd_Mode";
   "AocsCmd_Channel"; "AocsCmd_OBSID"; "AocsCmd_TargetPosXFGS1"; "AocsCmd_TargetPosYFGS1";
   "AocsCmd_TargetPosXFGS2"; "AocsCmd_TargetPosYFGS2"; "AocsCmd_MedianFilter";
   "AocsCmd_TargetSignalFGS1"; "AocsCmd_TargetSignalFGS2"; "AocsCmd_ShiftXmultFGS1";
   "AocsCmd_ShiftYmultFGS1"; "AocsCmd_ShiftXaddFGS1"; "AocsCmd_ShiftYaddFGS1";
   "AocsCmd_ShiftXmultFGS2"; "AocsCmd_ShiftYmultFGS2"; "AocsCmd_ShiftXaddFGS2";
   "AocsCmd_ShiftYaddFGS2"; "AocsCalCmd_Mode"; "AocsCalCmd_Channel"; "AocsCalCmd_OBSID";
   "AocsCalCmd_TargetPosXFGS1"; "AocsCalCmd_TargetPosYFGS1"; "AocsCalCmd_TargetPosXFGS2";
   "AocsCalCmd_TargetPosYFGS2"; "AocsCalCmd_MedianFilter"; "AocsCalCmd_DeadPixMap";
   "AocsCalCmd_RefinedImgSizeFGS1"; "AocsCalCmd_RefinedImgSizeFGS2";
   "AocsCalCmd_RebinningFactor"; "AocsCalCmd_TargetSignalFGS1"; "AocsCalCmd_TargetSignalFGS2";
   "AocsCalCmd_IterationFGS1"; "AocsCalCmd_IterationFGS2"; "AocsCalCmd_ShiftXmultFGS1";
   "AocsCalCmd_ShiftYmultFGS1"; "AocsCalCmd_ShiftXaddFGS1"; "AocsCalCmd_ShiftYaddFGS1";
   "AocsCalCmd_ShiftXmultFGS2"; "AocsCalCmd_ShiftYmultFGS2"; "AocsCalCmd_ShiftXaddFGS2";
   "AocsCalCmd_ShiftYaddFGS2"; "AocsCalCmd_StartCropVisPhot"; "AocsCalCmd_CropSizeVisPhot";
   "AocsCalCmd_StartCropNirSpec"; "AocsCalCmd_CropSizeNirSpec"; "ModeCmd_Mode";
   "BootRep_ResetEventId"; "BootRep_EvtErrCnt"; "BootRep_NoConnResetCnt"; "BootRep_ResetTime";
   "BootRep_ResetTimeSync"; "BootRep_TrapCore1"; "BootRep_TrapCore2"; "BootRep_SwTrapId";
   "BootRep_PsrCore1"; "BootRep_WimCore1"; "BootRep_PcCore1"; "BootRep_NpcCore1";
   "BootRep_FsrCore1"; "BootRep_PsrCore2"; "BootRep_WimCore2"; "BootRep_PcCore2";
   "BootRep_NpcCore2"; "BootRep_FsrCore2"; "BootRep_AhbStatusReg"; "BootRep_AhbFailingAddrReg";
   "BootRep_PcHistCore1"; "BootRep_PcHistCore2"; "BootRep_BootSpare16"; "BootRep_NErrRep";
   "BootRep_ErrTimeStamp"; "BootRep_event_id"; "BootRep_SquashCount"; "BootRep_ErrLogInfo";
   "BootRepGenCmd_DpuMemoryId"; "BootRepGenCmd_StartAddress"; "BootRepGenCmd_BlockLength";
   "ProcStartCmd_ProcId"; "ProcStopCmd_ProcId"; "LoadRegisterCmd_RegAddr";
   "LoadRegisterCmd_RegData"; "LoadRegisterCmd_VerifAddr"; "LoadRegisterCmd_VerifMask";
   "CopyCmd_SrcMemId"; "CopyCmd_SrcAddress"; "CopyCmd_DataSize"; "CopyCmd_TrgtMemId";
   "CopyCmd_TrgtAddress"; "ComprCmd_SrcAddress"; "ComprCmd_DstAddress";
   "ComprCmd_TmpWrkBufAddress"; "ComprCmd_Lgth"; "ComprCmd_CEKey"; "DecomprCmd_SrcAddress";
   "DecomprCmd_DstAddress"; "DecomprCmd_TmpWrkBufAddress"; "DecomprCmd_Lgth"; "DecomprCmd_CEKey";
   "SchedSegmCmd_ObjAddress"; "PKT_FIELD_ID_LAST"].

(** the values of the enumerators: one more than the one before *)
Fixpoint enum_values (next : Z) (l : list enumerator) : list (string * Z) :=
  match l with
  | [] => []
  | (s, v) :: l => let v := default next v in (s, v) :: enum_values (v + 1) l
  end.

(** [GEN_ENUM] of the list, and its [GEN_STRING] *)
Definition pkt_field_id : list (string * Z) := enum_values 0 PKT_FIELD_ENUMS.
Definition pkt_field_strings : list string :=
  map (fun '(s, v) => match v with None => s | Some v => s ++ " = " ++ dec v end) PKT_FIELD_ENUMS.

Local Close Scope string_scope.

(** ** The code is five fields *)

Definition field_sum (type n ref mask off : Z) : Z :=
  type * 1073741824 + n * 268435456 + ref * 67108864 + mask * 524288 + off.

(** the members of a code in their ranges *)
Definition field_wf (type n ref mask off : Z) : Prop :=
  0 <= type < 4 /\ 0 <= n < 4 /\ 0 <= ref < 4 /\ 0 <= mask < 128 /\ 0 <= off < 524288.

(** "(int)ceil(log_2((uint32_t)x)), ILOG2(0) = 0" *)
Lemma ilog2_spec x : 0 <= x <= 4294967296 -> ILOG2 x = Z.log2_up x.
Proof.
  intros Hx. unfold ILOG2, __builtin_clz. destruct (x >? 1) eqn:E.
  - apply Z.gtb_lt in E. rewrite Z.log2_up_eqn, u32_small by lia.
    replace (Z.pred x) with (x - 1) by lia. lia.
  - rewrite Z.gtb_ltb, Z.ltb_ge in E. by rewrite Z.log2_up_eqn0.
Qed.

Lemma ilog2_pow n : 0 <= n < 4 -> ILOG2 (2 ^ n) = n.
Proof.
  intros Hn. rewrite ilog2_spec.
  - apply Z.log2_up_pow2. lia.
  - assert (2 ^ n <= 2 ^ 3) by (apply Z.pow_le_mono_r; lia). lia.
Qed.

Lemma land_small x m k : 0 <= k -> m = Z.ones k -> 0 <= x < 2 ^ k -> Z.land x m = x.
Proof. intros Hk Hm Hx. rewrite (land_mask x m k) by done. by apply Z.mod_small. Qed.

Lemma field_define_sum type size n ref mask off :
  field_wf type n ref mask off -> ILOG2 size = n ->
  FIELD_DEFINE type size ref mask off = field_sum type n ref mask off.
Proof.
  intros (Ht & Hn & Hr & Hm & Ho) Hs. unfold FIELD_DEFINE, field_sum. rewrite Hs.
  rewrite !(land_small _ 3 2), (land_small _ 127 7), (land_small _ 524287 19) by (done || lia).
  rewrite <- !Z.lor_assoc.
  rewrite (lor_add mask off 19) by lia. rewrite (lor_add ref _ 26) by lia.
  rewrite (lor_add n _ 28) by lia. rewrite (lor_add type _ 30) by lia.
  rewrite u32_small by lia. lia.
Qed.

Lemma field_sum_inv type n ref mask off : field_wf type n ref mask off ->
  let t := field_sum type n ref mask off in
  FIELD_TYPE_GET t = type /\ FIELD_TYPE_SIZE t = 2 ^ n /\ FIELD_REF_TYPE t = ref /\
  FIELD_MASK_BITS t = mask /\ FIELD_BITS_OFFSET t = off.
Proof.
  intros (Ht & Hn & Hr & Hm & Ho) t.
  unfold FIELD_TYPE_GET, FIELD_TYPE_SIZE, FIELD_REF_TYPE, FIELD_MASK_BITS, FIELD_BITS_OFFSET.
  rewrite !shiftr_div by lia. rewrite !(land_mask _ 3 2), (land_mask _ 127 7), (land_mask _ 524287 19) by done.
  rewrite Z.shiftl_1_l. change (2 ^ 30) with 1073741824. change (2 ^ 28) with 268435456.
  change (2 ^ 26) with 67108864. change (2 ^ 19) with 524288. change (2 ^ 2) with 4. change (2 ^ 7) with 128.
  change (2 ^ 0) with 1. subst t. unfold field_sum. split_and!; [dlia|f_equal; dlia|dlia..].
Qed.

(** every code is the sum of its fields *)
Lemma field_split t : 0 <= t < 4294967296 -> exists type n ref mask off,
  field_wf type n ref mask off /\ t = field_sum type n ref mask off.
Proof.
  intros Ht. exists (t / 1073741824), (t / 268435456 mod 4), (t / 67108864 mod 4), (t / 524288 mod 128), (t mod 524288).
  unfold field_wf, field_sum. split_and!; dlia.
Qed.

(** What [FIELD_DEFINE] packs, the accessors give back, for every value of the
    members in its range (every bit offset within the largest payload is one), and
    every 32-bit code is what [FIELD_DEFINE] makes of its members: the encoding is
    a bijection. [ILOG2] is the logarithm rounded up, 0 for 0. *)
Theorem field_roundtrip :
  (forall type n ref mask off, field_wf type n ref mask off ->
     let t := FIELD_DEFINE type (2 ^ n) ref mask off in
     0 <= t < 4294967296 /\
     FIELD_TYPE_GET t = type /\ FIELD_TYPE_SIZE t = 2 ^ n /\ FIELD_REF_TYPE t = ref /\
     FIELD_MASK_BITS t = mask /\ FIELD_BITS_OFFSET t = off) /\
  (forall t, 0 <= t < 4294967296 ->
     FIELD_DEFINE (FIELD_TYPE_GET t) (FIELD_TYPE_SIZE t) (FIELD_REF_TYPE t) (FIELD_MASK_BITS t)
       (FIELD_BITS_OFFSET t) = t) /\
  (forall bit, 0 <= bit < CHAR_BIT * (2 ^ 16 - 1) -> field_wf 0 0 0 0 bit) /\
  (forall x, 0 <= x <= 4294967296 -> ILOG2 x = Z.log2_up x).
Proof.
  split_and!.
  - intros type n ref mask off H. cbv zeta.
    rewrite (field_define_sum _ _ n) by (done || apply ilog2_pow, H).
    split; [|by apply field_sum_inv]. unfold field_wf, field_sum in *. lia.
  - intros t Ht. destruct (field_split t Ht) as (type & n & ref & mask & off & H & ->).
    destruct (field_sum_inv _ _ _ _ _ H) as (-> & -> & -> & -> & ->).
    apply field_define_sum; [done|]. apply ilog2_pow, H.
  - intros bit Hb. unfold field_wf, CHAR_BIT in *. lia.
  - apply ilog2_spec.
Qed.

(** ** The constructors *)

(** the constructors with an offset: base type, size and reference *)
Definition field_constructors : list ((Z -> Z) * (Z * Z * Z)) :=
  [(FIELD_ABS_INT8, (FIELD_TYPE_IS_INT, 1, FIELD_REF_ABSOLUTE));
   (FIELD_ABS_INT16, (FIELD_TYPE_IS_INT, 2, FIELD_REF_ABSOLUTE));
   (FIELD_ABS_INT32, (FIELD_TYPE_IS_INT, 4, FIELD_REF_ABSOLUTE));
   (FIELD_ABS_INT64, (FIELD_TYPE_IS_INT, 8, FIELD_REF_ABSOLUTE));
   (FIELD_ABS_FLOAT, (FIELD_TYPE_IS_FLOAT, 4, FIELD_REF_ABSOLUTE));
   (FIELD_ABS_DOUBLE, (FIELD_TYPE_IS_FLOAT, 8, FIELD_REF_ABSOLUTE));
   (FIELD_GREL_INT8, (FIELD_TYPE_IS_INT, 1, FIELD_REF_GROUPREL));
   (FIELD_GREL_INT16, (FIELD_TYPE_IS_INT, 2, FIELD_REF_GROUPREL));
   (FIELD_GREL_INT32, (FIELD_TYPE_IS_INT, 4, FIELD_REF_GROUPREL));
   (FIELD_GREL_INT64, (FIELD_TYPE_IS_INT, 8, FIELD_REF_GROUPREL));
   (FIELD_GREL_FLOAT, (FIELD_TYPE_IS_FLOAT, 4, FIELD_REF_GROUPREL));
   (FIELD_GREL_DOUBLE, (FIELD_TYPE_IS_FLOAT, 8, FIELD_REF_GROUPREL));
   (FIELD_ENUM_INT8, (FIELD_TYPE_IS_INT, 1, FIELD_REF_ENUMERATE));
   (FIELD_ENUM_INT16, (FIELD_TYPE_IS_INT, 2, FIELD_REF_ENUMERATE));
   (FIELD_ENUM_INT32, (FIELD_TYPE_IS_INT, 4, FIELD_REF_ENUMERATE));
   (FIELD_ENUM_INT64, (FIELD_TYPE_IS_INT, 8, FIELD_REF_ENUMERATE));
   (FIELD_ENUM_FLOAT, (FIELD_TYPE_IS_FLOAT, 4, FIELD_REF_ENUMERATE));
   (FIELD_ENUM_DOUBLE, (FIELD_TYPE_IS_FLOAT, 8, FIELD_REF_ENUMERATE))].

(** the number of predicates that hold of a code *)
Definition kinds (t : Z) : list bool :=
  let e := mk_pfe 0 0 0 0 t in
  [FIELD_IS_ABS e; FIELD_IS_GREL e; FIELD_IS_ENUM e; FIELD_IS_DED_POOL e; FIELD_IS_DED_PKT e;
   FIELD_IS_UNUSED e].

Lemma ilog2_sizes : ILOG2 1 = 0 /\ ILOG2 2 = 1 /\ ILOG2 4 = 2 /\ ILOG2 8 = 3 /\ ILOG2 0 = 0.
Proof. by vm_compute. Qed.

(** [FIELD_UNUSED] has all bits set *)
Lemma unused_sum : FIELD_UNUSED = field_sum 3 3 3 127 524287.
Proof. done. Qed.

(** the predicates on the code of five fields that is not the one of an unused entry *)
Lemma kinds_of type n ref mask off : field_wf type n ref mask off -> type < 2 ->
  kinds (field_sum type n ref mask off) =
    [ref =? FIELD_REF_ABSOLUTE; ref =? FIELD_REF_GROUPREL; ref =? FIELD_REF_ENUMERATE;
     (type =? FIELD_SRC_DATAPOOL) && (ref =? FIELD_REF_DEDUCED);
     (type =? FIELD_SRC_PKT) && (ref =? FIELD_REF_DEDUCED); false].
Proof.
  intros H Ht. destruct (field_sum_inv _ _ _ _ _ H) as (E1 & _ & E3 & _ & _).
  unfold kinds, FIELD_IS_ABS, FIELD_IS_GREL, FIELD_IS_ENUM, FIELD_IS_DED_POOL, FIELD_IS_DED_PKT,
    FIELD_IS_UNUSED. cbn [type_of pkt_field_entry_type pfe_type]. rewrite E1, E3. repeat f_equal.
  apply Z.eqb_neq. unfold field_wf, field_sum, FIELD_UNUSED in *. lia.
Qed.

(** one constructor at an offset in its range [Ho] *)
Ltac constructor_kind Ho :=
  match goal with |- FIELD_TYPE_GET (?f _) = _ /\ _ => unfold f end;
  match goal with |- FIELD_TYPE_GET (FIELD_DEFINE ?t ?s ?r ?m ?off) = _ /\ _ =>
    let H := fresh in
    assert (H : field_wf t (ILOG2 s) r m off)
      by (split_and!; [done|done|done|done|by vm_compute|done|done|done|apply Ho..]);
    rewrite !(field_define_sum _ _ _ _ _ _ H eq_refl);
    destruct (field_sum_inv _ _ _ _ _ H) as (-> & -> & -> & -> & ->);
    rewrite kinds_of by done; split_and!; done
  end.

(** Each of the constructors for common types makes, for every bit offset, a code
    with the base type, the size, the full-width mask and the kind of position its
    name says, and exactly one of the predicates holds of an entry with that code;
    the deduced types are told apart by their source, and an unused entry is none of
    the others although its bits of the reference say "deduced". *)
Theorem field_kinds :
  Forall (fun '(f, (type, size, ref)) => forall off, 0 <= off < 524288 ->
     let t : Z := f off in
     FIELD_TYPE_GET t = type /\ FIELD_TYPE_SIZE t = size /\ FIELD_REF_TYPE t = ref /\
     Z.shiftl 1 (FIELD_MASK_BITS t + 1) = 2 ^ (8 * size) /\ FIELD_BITS_OFFSET t = off /\
     kinds t = [ref =? 0; ref =? 1; ref =? 2; false; false; false]) field_constructors /\
  kinds FIELD_DEDUCED_DATAPOOL = [false; false; false; true; false; false] /\
  (forall n off, 0 < n <= 32 -> 0 <= off < 524288 ->
     kinds (FIELD_DEDUCED_PKT n off) = [false; false; false; false; true; false] /\
     FIELD_MASK_BITS (FIELD_DEDUCED_PKT n off) = n - 1 /\
     FIELD_BITS_OFFSET (FIELD_DEDUCED_PKT n off) = off) /\
  kinds FIELD_UNUSED = [false; false; false; false; false; true].
Proof.
  split_and!; [|done| |done].
  - unfold field_constructors. repeat apply Forall_cons_2; [..|apply Forall_nil_2].
    all: intros off Ho; cbv zeta; constructor_kind Ho.
  - intros n off Hn Ho. unfold FIELD_DEDUCED_PKT.
    assert (H : field_wf FIELD_SRC_PKT (ILOG2 4) FIELD_REF_DEDUCED (n - 1) off)
      by (unfold field_wf; vm_compute ILOG2; unfold FIELD_SRC_PKT, FIELD_REF_DEDUCED; lia).
    rewrite (field_define_sum _ _ _ _ _ _ H eq_refl), kinds_of by done.
    by destruct (field_sum_inv _ _ _ _ _ H) as (_ & _ & _ & -> & ->).
Qed.

(** ** The tables *)

(** the services are numbered by octets, each differently; a message of a known
    service is one pair of octets; the fields are numbered from 0 on without a gap,
    each with a name of its own *)
Lemma mission_tables :
  NoDup (map snd service_types) /\ Forall (fun '(_, v) => is_byte v) service_types /\
  NoDup (map (fun '(s, m, v) => (s, v)) subservice_types) /\
  Forall (fun '(s, m, v) => is_byte v /\ ("ST_" ++ s)%string ∈ map fst service_types) subservice_types /\
  NoDup (map fst pkt_field_id) /\
  map snd pkt_field_id = seqZ 0 (zlen PKT_FIELD_ENUMS) /\ NoDup pkt_field_strings.
Proof.
  split_and!; try done; refine (bool_decide_unpack _ _); by vm_compute.
Qed.
