(* ===== verification/Pus.v ===== *)
(** * PUS packet checks (src/spw_bridge.c, src/net.c)

    [pus_pkt_crc_valid] is the CRC16 check of a PUS packet, and
    [check_pus_sequence] the sequence counter bookkeeping per APID.  The array
    [*seq] of the counters is the list [seq], its element count [*n] the
    integer [n]; an access beyond the array is undefined ([None]). *)

From Stdlib Require Import String List.
From stdpp Require Import base tactics option list list_numbers.
From Stdlib Require Import ZArith Lia Bool.
From S2P Require Import Prelude.
From S2P Require Import Ccsds.
From S2P Require Import Crc16.
From S2P Require Import Ecss.

Local Open Scope Z_scope.

(** ** CRC check *)

Definition pus_pkt_crc_valid (L : lut) (pkt : ptr) (len : Z) : option Z :=
  if len <=? PUS_ECSS_CRC_LEN then Some 0 else
  crc ← crc16_buf L pkt (len - PUS_ECSS_CRC_LEN);
  hi ← load pkt (len - 2);
  lo ← load pkt (len - 1);
  let check := u16 (Z.lor (u16 (Z.shiftl hi 8)) lo) in
  Some (if crc =? check then 1 else 0).

(** ** Sequence counters *)

Record pus_seq : Type := mk_seq { apid : Z; next : Z }.

Inductive seq_msg : Type :=
| SeqNoMemory (* "Error tracking PUS sequence counters" on stderr *)
| SeqError (expected received a : Z). (* the report on stdout *)

(** the first of [n] elements, from index [i], with the given [apid] *)
Fixpoint find_apid (seq : list pus_seq) (i : nat) (n : nat) (a : Z) : option nat :=
  match n with
  | O => Some i
  | S n' =>
      s ← seq !! i;
      if apid s =? a then Some i else find_apid seq (S i) n' a
  end.

(** [alloc]: whether [realloc] succeeds. The array keeps its elements up to the
    new size; the store at [i] fills the last one. *)
Definition check_pus_sequence (pus_debug alloc : bool) (pkt : ptr) (len : Z)
    (seq : list pus_seq) (n : Z) : option (list pus_seq * Z * list seq_msg) :=
  if len <? SPP_PKT_HDR_LEN then Some (seq, n, []) else
  a ← ccsds_get_apid pkt;
  sctr ← ccsds_get_seq_cnt pkt;
  i ← find_apid seq 0 (Z.to_nat n) a;
  let s' := mk_seq a (Z.land (sctr + 1) 0x3fff) in
  if Z.of_nat i =? n then
    if alloc then
      let tmp := take (Z.to_nat n) seq ++ [s'] in
      Some (<[i := s']> tmp, n, [])
    else Some (seq, n, [SeqNoMemory])
  else
    s ← seq !! i;
    let msgs := if negb (sctr =? next s) then
                  if pus_debug then [SeqError (next s) sctr a] else []
                else [] in
    Some (<[i := mk_seq (apid s) (Z.land (sctr + 1) 0x3fff)]> seq, n, msgs).

(** the checks of a connection's packets, one after the other *)
Fixpoint check_run (pus_debug : bool) (pkts : list (list Z)) (seq : list pus_seq) (n : Z)
  : option (list pus_seq * Z * list seq_msg) :=
  match pkts with
  | [] => Some (seq, n, [])
  | p :: pkts =>
      '(seq, n, m) ← check_pus_sequence pus_debug true (At p) (zlen p) seq n;
      '(seq, n, ms) ← check_run pus_debug pkts seq n;
      Some (seq, n, m ++ ms)
  end.

(** ** Lemmas *)

(** the CRC check is a zero residue of the whole packet *)
Lemma crc_valid_residue body hi lo r :
  bytes body -> body <> [] -> is_byte hi -> is_byte lo ->
  pus_pkt_crc_valid LUT1 (At (body ++ [hi; lo] ++ r)) (zlen body + 2)
  = Some (if foldl crc_step 0xffff (body ++ [hi; lo]) =? 0 then 1 else 0).
Proof.
  intros Hb Hne Hhi Hlo. unfold pus_pkt_crc_valid, PUS_ECSS_CRC_LEN.
  assert (0 < zlen body) by (destruct body; [done|]; zl).
  rewrite (proj2 (Z.leb_gt _ _)) by lia.
  replace (zlen body + 2 - 2) with (zlen body) by lia.
  rewrite (crc16_buf_steps LUT1 body ([hi; lo] ++ r) Hb). cbn [mbind option_bind load].
  rewrite (rd_app_r _ _ (zlen body)), (rd_app_r _ _ (zlen body + 2 - 1)), Z.sub_diag by lia.
  replace (zlen body + 2 - 1 - zlen body) with 1 by lia.
  change (rd ([hi; lo] ++ r) 0) with (Some hi). change (rd ([hi; lo] ++ r) 1) with (Some lo).
  cbn [mbind option_bind]. f_equal.
  assert (Hff : is_u16 0xffff) by (unfold is_u16; lia).
  pose proof (crc_steps_u16 body 0xffff Hb Hff) as HS.
  set (S := foldl crc_step 0xffff body) in *.
  assert (Hck : u16 (Z.lor (u16 (Z.shiftl hi 8)) lo) = hi * 256 + lo).
  { unfold is_byte in *. rewrite (u16_small (Z.shiftl hi 8))
      by (unfold is_u16; rewrite shiftl_mul by lia; lia).
    rewrite be16_lor by done. apply u16_small. unfold is_u16. lia. }
  rewrite Hck, foldl_app. fold S.
  set (S' := hi * 256 + lo).
  assert (HS' : is_u16 S') by (unfold S', is_u16, is_byte in *; lia).
  assert (Hres : foldl crc_step S' [hi; lo] = 0).
  { pose proof (crc_steps_residue S' HS') as Hr.
    rewrite shiftr_div, (land_mask _ _ 8) in Hr by done. change (2 ^ 8) with 256 in Hr.
    replace (S' / 256) with hi in Hr by (unfold S', is_byte in *; dlia).
    by replace (S' mod 256) with lo in Hr by (unfold S', is_byte in *; dlia). }
  destruct (Z.eqb_spec S S') as [->|Hne']; [by rewrite Hres|].
  rewrite (proj2 (Z.eqb_neq _ _)); [done|]. intros H0. apply Hne'.
  apply (crc_steps_inj_reg [hi; lo]); [|done|done|congruence].
  apply bytes_cons; split; [done|]. apply bytes_cons; split; [done|apply Forall_nil_2].
Qed.

(** a packet of at least three octets ends in two octets behind a body *)
Lemma split_crc p :
  bytes p -> 2 < zlen p ->
  exists body hi lo, p = body ++ [hi; lo] /\ bytes body /\ body <> [] /\ is_byte hi /\ is_byte lo.
Proof.
  intros Hp Hl.
  destruct (exists_last (l := p)) as (p1 & lo & ->); [by intros ->|].
  destruct (exists_last (l := p1)) as (body & hi & ->); [intros ->; zl|].
  rewrite <- app_assoc in *. exists body, hi, lo. apply bytes_app in Hp as [Hb Hp].
  simpl in Hp. apply bytes_cons in Hp as [? Hp]. apply bytes_cons in Hp as [? _].
  split; [done|]. split; [done|]. split; [intros ->; zl|done].
Qed.

Lemma crc_valid_steps p :
  bytes p -> 2 < zlen p ->
  pus_pkt_crc_valid LUT1 (At p) (zlen p)
  = Some (if foldl crc_step 0xffff p =? 0 then 1 else 0).
Proof.
  intros Hp Hl. destruct (split_crc p Hp Hl) as (body & hi & lo & -> & Hb & Hne & Hhi & Hlo).
  pose proof (crc_valid_residue body hi lo [] Hb Hne Hhi Hlo) as H. rewrite app_nil_r in H.
  by rewrite zlen_app.
Qed.

(** without a tracked element the search stops at once *)
Lemma check_untracked dbg p seq :
  bytes p -> exists seq',
  check_pus_sequence dbg true (At p) (zlen p) seq 0 = Some (seq', 0, []).
Proof.
  intros Hp. unfold check_pus_sequence, SPP_PKT_HDR_LEN.
  destruct (Z.ltb_spec (zlen p) 6) as [|Hl]; [by eexists|].
  destruct (spp_decode p) as [h|] eqn:Hd.
  - destruct (getters_decode p h Hp Hd) as (_ & _ & _ & -> & _ & -> & _).
    simpl. by eexists.
  - exfalso. do 6 (destruct p as [|? p]; [simpl in Hl; unfold zlen in Hl; simpl in Hl; lia|]).
    discriminate Hd.
Qed.

(** ** Properties *)

(** C32: the CRC check of a PUS packet is sound and detects corruption. With the
    table built by [crc_init_lookup_table]: a packet whose last two octets are
    the CRC16-CCITT-FALSE of the octets before them is accepted; whenever a
    packet is accepted, every packet that differs from it in exactly one octet,
    the CRC octets included, is rejected. *)
Theorem pus_crc_detects (body : list Z) (pre post : list Z) (x y : Z)
  (Hb : bytes body) (Hne : body <> [])
  (Hp : bytes (pre ++ x :: post)) (Hy : is_byte y) (Hxy : x <> y) (Hl : 2 < zlen pre + zlen post + 1) :
  let L := crc_init_lookup_table lut_zero in
  pus_pkt_crc_valid L (At (body ++ [Z.shiftr (crc16_ref body) 8; Z.land (crc16_ref body) 0xff]))
    (zlen body + 2) = Some 1 /\
  (pus_pkt_crc_valid L (At (pre ++ x :: post)) (zlen pre + zlen post + 1) = Some 1 ->
   pus_pkt_crc_valid L (At (pre ++ y :: post)) (zlen pre + zlen post + 1) = Some 0).
Proof.
  intros L. unfold L. clear L.
  replace (crc_init_lookup_table lut_zero) with LUT1 by (vm_compute; reflexivity).
  assert (Hff : is_u16 0xffff) by (unfold is_u16; lia). split.
  - pose proof (crc16_ref_u16 body Hb) as Hu. rewrite crc16_ref_steps in * by done.
    set (S := foldl crc_step 0xffff body) in *.
    pose proof (crc_valid_residue body (Z.shiftr S 8) (Z.land S 0xff) []) as H.
    rewrite app_nil_r, foldl_app in H. fold S in H. rewrite crc_steps_residue in H by done.
    apply H; [done|done|by apply hi_byte|]. rewrite (land_mask _ _ 8) by done.
    by apply Z.mod_pos_bound.
  - apply bytes_app in Hp as [Hpre Hp]. apply bytes_cons in Hp as [Hx Hpost].
    replace (zlen pre + zlen post + 1) with (zlen (pre ++ x :: post)) at 1 by zl.
    replace (zlen pre + zlen post + 1) with (zlen (pre ++ y :: post)) by zl.
    rewrite !crc_valid_steps; try (apply bytes_app; split; [done|by apply bytes_cons]); try zl.
    rewrite !foldl_app. simpl.
    destruct (Z.eqb_spec (foldl crc_step (crc_step (foldl crc_step 65535 pre) x) post) 0) as [E|];
      [|done].
    intros _. rewrite (proj2 (Z.eqb_neq _ _)); [done|]. intros E'. apply Hxy.
    pose proof (crc_steps_u16 pre 65535 Hpre Hff) as HS.
    apply (crc_step_inj_byte (foldl crc_step 65535 pre)); try done.
    apply (crc_steps_inj_reg post); try done; try (apply crc_step_u16; done). congruence.
Qed.

Lemma pus_crc_detects_witness :
  pus_pkt_crc_valid (crc_init_lookup_table lut_zero)
    (At ([49;50;51;52] ++ [0x36] ++ [54;55;56;57;0x29;0xB1])) 11 = Some 0.
Proof.
  refine (proj2 (pus_crc_detects [1] [49;50;51;52] [54;55;56;57;0x29;0xB1] 0x35 0x36 _ _ _ _ _ _) _).
  - apply bytes_check. reflexivity.
  - discriminate.
  - apply bytes_check. reflexivity.
  - unfold is_byte. lia.
  - lia.
  - vm_compute. reflexivity.
  - vm_compute. reflexivity.
Defined.

(** The element count of the counters is never increased, so every packet
    is treated as the first of its APID: from the initial state, no sequence of
    packets, whatever their sequence counters, ever produces a report. *)
Theorem check_pus_sequence_never_reports (dbg : bool) (pkts : list (list Z))
  (Hp : Forall bytes pkts) (seq0 : list pus_seq) :
  exists seq, check_run dbg pkts seq0 0 = Some (seq, 0, []).
Proof.
  revert seq0. induction Hp as [|p pkts Hb _ IH]; intros seq0; simpl; [by eexists|].
  destruct (check_untracked dbg p seq0 Hb) as [seq1 ->]. simpl.
  destruct (IH seq1) as [seq2 ->]. by eexists.
Qed.

(** two packets of the same APID with counters 0 and 7 *)
Lemma check_pus_sequence_never_reports_witness :
  exists seq, check_run true [[0x08; 1; 0xc0; 0; 0; 0; 0]; [0x08; 1; 0xc0; 7; 0; 0; 0]] [] 0
    = Some (seq, 0, []).
Proof.
  apply (check_pus_sequence_never_reports true
    [[0x08; 1; 0xc0; 0; 0; 0; 0]; [0x08; 1; 0xc0; 7; 0; 0; 0]]).
  repeat (apply Forall_cons_2; [apply bytes_check; reflexivity|]). apply Forall_nil_2.
Defined.
