(* ===== verification/Sys.v ===== *)
(** * The state of the network subsystem and its system calls

    What net.c keeps ([struct bridge_cfg], [struct net_state],
    [struct net_service]) and what it asks of the operating system.  The kernel
    is not part of the repository: its answers are the members of the class
    [Kernel], indexed by the number of the call, so that a theorem that holds
    for every instance holds for every behaviour of the sockets, of the memory
    allocator and of the clock.  What the bridge does to the outside is the log
    of [act]ions of the [world].

    A handler is a computation [M A] over the world: it returns, ends the
    process ([exit]), or is stuck: an access out of bounds, a mutex locked
    twice by the same thread or unlocked without being held. *)

From Stdlib Require Import String List.
From stdpp Require Import base tactics option list list_numbers gmap sets.
From Stdlib Require Import ZArith Lia Bool.
From S2P Require Import Prelude.
From S2P Require Import Pus.

Local Open Scope Z_scope.

(** ** Configuration

    [struct bridge_cfg] without the pointers to the states of the two
    subsystems; [sig_rate] is in whole Mbit/s, as the option parser reads it. *)

Inductive net_mode : Type := MODE_SERVER | MODE_CLIENT | MODE_DGRAM.

#[export] Instance net_mode_eq_dec : EqDecision net_mode.
Proof. solve_decision. Defined.

(** the functions [pkt_sink] points to *)
Inductive sink_fn : Type := NetPktSink | SpwPktSinkMonitor.

Record bridge_cfg : Type := mk_cfg {
  mode : net_mode;
  port : Z;
  rmap_port : Z;
  channel : Z;
  channel2 : Z;
  link_id : Z;
  gresb_link : Z;
  dev_num : Z;
  reset_dev : bool;
  sig_rate : Z;
  path_len : Z;
  skip_header_bytes : Z;
  pkt_throttle_usec : Z;
  interpret_pus : bool;
  interpret_fee : bool;
  interpret_rmap : bool;
  enable_monitor : bool;
  enable_rmap : bool;
  enable_gresb : bool;
  enable_sniff : bool;
  sniff_gresb : bool;
  pus_debug : bool;
  debug_short : bool;
  crc_check : bool;
  host : string;
  path : list Z; (* 256 octets, the first [path_len] of them set *)
  pkt_sink : option sink_fn
}.

(** ** Services *)

Inductive svc_id : Type := SvcData | SvcRmap | SvcGresbTx | SvcGresbRx | SvcSniff.

#[export] Instance svc_id_eq_dec : EqDecision svc_id.
Proof. solve_decision. Defined.

(** A datagram client: address and port. *)
Definition client : Type := Z * Z.

(** [conn_set] is the [fd_set]; [sock_fd = 0] means not opened. *)
Record net_service : Type := mk_svc {
  sock_fd : Z;
  conn_set : gset Z;
  nfds : Z;
  clients : list client;
  clients_cap : Z
}.

Definition svc_empty : net_service := mk_svc 0 ∅ 0 [] 0.

Record net_state : Type := mk_net {
  is_client : bool;
  client_sock : Z;
  pus_seq_tx : list pus_seq;
  pus_seq_tx_n : Z;
  pus_seq_rx : list pus_seq;
  pus_seq_rx_n : Z;
  svcs : svc_id -> net_service
}.

Definition FD_SETSIZE : Z := 1024.

(** ** Actions *)

Inductive act : Type :=
| ASend (fd : Z) (b : list Z) (* octets accepted by [send] *)
| ASendTo (fd : Z) (c : client) (b : list Z)
| AClose (fd : Z)
| ASpw (b : list Z) (* [spw_send_packet] *)
| ARmapCmd (dst : Z) (write : bool) (a : Z) (data : list Z) (* [spw_rmap_cmd] *)
| ABind (fd : Z) (host : string) (port : Z)
| AConnect (fd : Z) (host : string) (port : Z)
| AThread (s : svc_id) (accept : bool) (* a thread of net.c created *)
| ACancel (s : svc_id) (accept : bool)
| AJoin (s : svc_id) (accept : bool)
| ADebug (fn dir : string) (b : list Z) (* a debug printout of a packet *)
| AMsg (s : string) (args : list Z).

(** ** The kernel *)

(** what a call that reads a socket finds in its receive queue: at least one
    octet, a peer that has closed, nothing yet on a non-blocking call, or an
    error *)
Inductive queue : Type :=
| Queued (a : nat) (* [a + 1] octets, as far as the peer has sent them *)
| PeerClosed
| WouldBlock
| QueueError.

Inductive sent : Type :=
| Accepted (a : nat) (* [a + 1] octets, at most the length of the request *)
| Interrupted (* EINTR *)
| SendFailed.

Class Kernel : Type := {
  k_queue : nat -> queue; (* for a receiving call *)
  k_peek : nat -> queue; (* for [MSG_PEEK] and [FIONREAD] *)
  k_send : nat -> sent;
  k_sendto : nat -> bool;
  k_clock : nat -> Z * Z; (* CLOCK_MONOTONIC: seconds and nanoseconds *)
  k_malloc : nat -> bool;
  k_select : nat -> option (gset Z); (* [None]: no descriptor is ready *)
  k_socket : nat -> Z;
  k_setup : nat -> bool; (* [bind], [listen], [connect], [pthread_create] *)
  k_intr_max : nat (* signals never interrupt more calls in a row *)
}.

(** the only property of the kernel the termination of [send_all] relies on *)
Class KernelLive (K : Kernel) : Prop :=
  k_intr_bound : forall t, exists i, (i <= k_intr_max)%nat /\ k_send (t + i) <> Interrupted.

(** ** World and computations *)

(** [rx] holds, for every open connection, the octets its peer has sent or will
    send and that were not received yet; [dgq] the datagrams not received yet;
    [held] the mutexes of the thread. *)
Record world : Type := mk_world {
  tick : nat;
  rx : gmap Z (list Z);
  dgq : list (client * list Z);
  held : list svc_id;
  net : net_state;
  log : list act
}.

Definition w_tick (w : world) : world :=
  mk_world (S (tick w)) (rx w) (dgq w) (held w) (net w) (log w).
Definition w_rx (w : world) (r : gmap Z (list Z)) : world :=
  mk_world (tick w) r (dgq w) (held w) (net w) (log w).
Definition w_dgq (w : world) (q : list (client * list Z)) : world :=
  mk_world (tick w) (rx w) q (held w) (net w) (log w).
Definition w_held (w : world) (h : list svc_id) : world :=
  mk_world (tick w) (rx w) (dgq w) h (net w) (log w).
Definition w_net (w : world) (n : net_state) : world :=
  mk_world (tick w) (rx w) (dgq w) (held w) n (log w).
Definition w_log (w : world) (l : list act) : world :=
  mk_world (tick w) (rx w) (dgq w) (held w) (net w) (log w ++ l).

Inductive result (A : Type) : Type :=
| Ret (a : A) (w : world)
| Exit (w : world)
| Stuck.

Arguments Ret {A} a w.
Arguments Exit {A} w.
Arguments Stuck {A}.

Definition M (A : Type) : Type := world -> result A.

#[export] Instance M_ret : MRet M := fun A a w => Ret a w.

#[export] Instance M_bind : MBind M := fun A B f m w =>
  match m w with Ret a w' => f a w' | Exit w' => Exit w' | Stuck => Stuck end.

Definition stuck {A} : M A := fun _ => Stuck.
Definition exit_failure {A} : M A := fun w => Exit w.

(** a pure computation whose [None] is undefined behaviour *)
Definition lift {A} (o : option A) : M A :=
  match o with Some a => mret a | None => stuck end.

Definition get_net : M net_state := fun w => Ret (net w) w.
Definition put_net (n : net_state) : M () := fun w => Ret () (w_net w n).
Definition emit_act (a : act) : M () := fun w => Ret () (w_log w [a]).

(** the number of the system call *)
Definition syscall : M nat := fun w => Ret (tick w) (w_tick w).

Definition get_svc (s : svc_id) : M net_service := n ← get_net; mret (svcs n s).

Definition upd_svc (f : svc_id -> net_service) (s : svc_id) (v : net_service)
  : svc_id -> net_service := fun s' => if decide (s' = s) then v else f s'.

Definition set_svcs (n : net_state) (f : svc_id -> net_service) : net_state :=
  mk_net (is_client n) (client_sock n) (pus_seq_tx n) (pus_seq_tx_n n)
    (pus_seq_rx n) (pus_seq_rx_n n) f.

Definition put_svc (s : svc_id) (v : net_service) : M () :=
  n ← get_net; put_net (set_svcs n (upd_svc (svcs n) s v)).

Definition with_conn_set (v : net_service) (c : gset Z) : net_service :=
  mk_svc (sock_fd v) c (nfds v) (clients v) (clients_cap v).
Definition with_nfds (v : net_service) (n : Z) : net_service :=
  mk_svc (sock_fd v) (conn_set v) n (clients v) (clients_cap v).
Definition with_clients (v : net_service) (l : list client) (cap : Z) : net_service :=
  mk_svc (sock_fd v) (conn_set v) (nfds v) l cap.

(** ** Mutexes: default ones, not recursive *)

Definition lock (s : svc_id) : M () := fun w =>
  if decide (s ∈ held w) then Stuck else Ret () (w_held w (s :: held w)).

Definition unlock (s : svc_id) : M () := fun w =>
  match held w with
  | s' :: h => if decide (s' = s) then Ret () (w_held w h) else Stuck
  | [] => Stuck
  end.

(** ** Sockets *)

(** the octets a call on [fd] can see in the receive queue [q]: [inl] a result
    without data *)
Definition see (q : queue) (s : option (list Z)) : Z + list Z :=
  match s with
  | None => inl (-1) (* EBADF *)
  | Some s =>
      match q with
      | Queued a => match s with [] => inl 0 | _ => inr (take (S a) s) end
      | PeerClosed => inl 0
      | WouldBlock | QueueError => inl (-1)
      end
  end.

Section calls.
Context {K : Kernel}.

(** [recv] with [MSG_PEEK]: the result and the octets stored *)
Definition recv_peek (fd n : Z) : M (Z * list Z) := fun w =>
  match see (k_peek (tick w)) (rx w !! fd) with
  | inl e => Ret (e, []) (w_tick w)
  | inr q => let b := take (Z.to_nat n) q in Ret (zlen b, b) (w_tick w)
  end.

Definition recv (fd n : Z) : M (Z * list Z) := fun w =>
  match see (k_queue (tick w)) (rx w !! fd) with
  | inl e => Ret (e, []) (w_tick w)
  | inr q =>
      let b := take (Z.to_nat n) q in
      Ret (zlen b, b) (w_tick (w_rx w (alter (drop (length b)) fd (rx w))))
  end.

(** [recv] with [MSG_DONTWAIT]; the flag says whether [errno] is [EAGAIN] *)
Definition recv_dontwait (fd n : Z) : M (Z * list Z * bool) := fun w =>
  match recv fd n w with
  | Ret (r, b) w' =>
      Ret (r, b, match k_queue (tick w) with WouldBlock => true | _ => false end) w'
  | Exit w' => Exit w'
  | Stuck => Stuck
  end.

(** [ioctl(fd, FIONREAD, &avail)]: the return value and [avail] *)
Definition fionread (fd : Z) : M (Z * Z) := fun w =>
  match see (k_peek (tick w)) (rx w !! fd) with
  | inl e => Ret (e, 0) (w_tick w)
  | inr q => Ret (0, zlen q) (w_tick w)
  end.

(** the same on a datagram socket: the size of the next datagram *)
Definition fionread_dgram : M (Z * Z) := fun w =>
  match k_peek (tick w), dgq w with
  | QueueError, _ => Ret (-1, 0) (w_tick w)
  | Queued _, (_, b) :: _ => Ret (0, zlen b) (w_tick w)
  | _, _ => Ret (0, 0) (w_tick w)
  end.

Definition recvfrom (n : Z) : M (Z * list Z * client) := fun w =>
  match k_queue (tick w), dgq w with
  | Queued _, (c, b) :: q =>
      let b := take (Z.to_nat n) b in Ret (zlen b, b, c) (w_tick (w_dgq w q))
  | _, _ => Ret (-1, [], (0, 0)) (w_tick w)
  end.

(** the result and whether [errno] is [EINTR] *)
Definition send (fd : Z) (b : list Z) : M (Z * bool) := fun w =>
  match k_send (tick w) with
  | Accepted a => let d := take (S a) b in Ret (zlen d, false) (w_tick (w_log w [ASend fd d]))
  | Interrupted => Ret (-1, true) (w_tick w)
  | SendFailed => Ret (-1, false) (w_tick w)
  end.

Definition sendto (fd : Z) (b : list Z) (c : client) : M Z := fun w =>
  if k_sendto (tick w) then Ret (zlen b) (w_tick (w_log w [ASendTo fd c b]))
  else Ret (-1) (w_tick w).

Definition close (fd : Z) : M () := fun w =>
  Ret () (w_tick (w_log (w_rx w (delete fd (rx w))) [AClose fd])).

Definition malloc : M bool := t ← syscall; mret (k_malloc t).

Definition setup_call : M bool := t ← syscall; mret (k_setup t).

(** [select] for reading: the ready descriptors among the watched ones below
    [n]; empty on a timeout or an error *)
Definition select (n : Z) (readset : gset Z) : M (gset Z) :=
  t ← syscall;
  mret (match k_select t with
        | None => ∅
        | Some r => filter (fun fd => fd < n) (readset ∩ r)
        end).

Definition clock_gettime : M (Z * Z) := t ← syscall; mret (k_clock t).

End calls.

(** ** Reasoning: weakest preconditions

    [wp m Q w]: run from [w], [m] is not stuck, and if it returns, [Q] holds of
    the value and the world; [EX] is what holds where the process ends. *)

Definition wp {A} (m : M A) (EX : world -> Prop) (Q : A -> world -> Prop) (w : world) : Prop :=
  match m w with
  | Ret a w' => Q a w'
  | Exit w' => EX w'
  | Stuck => False
  end.

Create HintDb wp.

Lemma wp_ret {A} (a : A) EX (Q : A -> world -> Prop) w : Q a w -> wp (mret a) EX Q w.
Proof. done. Qed.

Lemma wp_bind {A B} (m : M A) (f : A -> M B) EX (Q : B -> world -> Prop) w :
  wp m EX (fun a w' => wp (f a) EX Q w') w -> wp (m ≫= f) EX Q w.
Proof. unfold wp, mbind, M_bind. by destruct (m w). Qed.

Lemma wp_mono {A} (m : M A) (EX EX' : world -> Prop) (Q Q' : A -> world -> Prop) w :
  wp m EX Q w -> (forall a w', Q a w' -> Q' a w') -> (forall w', EX w' -> EX' w') ->
  wp m EX' Q' w.
Proof. unfold wp. destruct (m w); naive_solver. Qed.

(** as [wp], but the computation may be stuck where [U] holds *)
Definition wp_unless (U : Prop) {A} (m : M A) (EX : world -> Prop) (Q : A -> world -> Prop) (w : world) : Prop :=
  m w = Stuck /\ U \/ wp m EX Q w.

Lemma wp_unless_mono (U U' : Prop) {A} (m : M A) (EX EX' : world -> Prop) (P Q : A -> world -> Prop) w :
  wp_unless U m EX P w -> (U -> U') -> (forall a w', P a w' -> Q a w') -> (forall w', EX w' -> EX' w') ->
  wp_unless U' m EX' Q w.
Proof. intros [[E H]|H] HU HQ HX; [left; split; [done|by apply HU]|right; by eapply wp_mono]. Qed.

Lemma wp_unless_next (U : Prop) {A B} (m : M A) (f : A -> M B) EX (P : A -> world -> Prop) (Q : B -> world -> Prop) w :
  wp_unless U m EX P w -> (forall a w', P a w' -> wp (f a) EX Q w') -> wp_unless U (m ≫= f) EX Q w.
Proof.
  intros [[E H]|H] Hf; [left; split; [unfold mbind, M_bind; by rewrite E|done]|right].
  apply wp_bind. by eapply wp_mono.
Qed.

Lemma wp_unless_run (U : Prop) {A B} (m : M A) (f : A -> M B) EX (Q : B -> world -> Prop) w a w' :
  m w = Ret a w' -> wp_unless U (f a) EX Q w' -> wp_unless U (m ≫= f) EX Q w.
Proof. intros E H. unfold wp_unless, wp, mbind, M_bind in *. by rewrite E. Qed.

Lemma wp_unless_lift (U : Prop) {A B} (o : option A) (f : A -> M B) a EX (Q : B -> world -> Prop) w :
  o = Some a -> wp_unless U (f a) EX Q w -> wp_unless U (lift o ≫= f) EX Q w.
Proof. intros ->. by eapply wp_unless_run. Qed.

Lemma wp_unless_not (U : Prop) {A} (m : M A) EX (Q : A -> world -> Prop) w :
  wp_unless U m EX Q w -> ~ U -> wp m EX Q w.
Proof. by intros [[_ H]|H] Hn. Qed.

Lemma wp_lift {A} (o : option A) a EX (Q : A -> world -> Prop) w :
  o = Some a -> Q a w -> wp (lift o) EX Q w.
Proof. intros -> H. exact H. Qed.

Lemma upd_svc_eq f s v : upd_svc f s v s = v.
Proof. unfold upd_svc. by rewrite decide_True. Qed.

Lemma upd_svc_ne f s s' v : s' <> s -> upd_svc f s v s' = f s'.
Proof. intros. unfold upd_svc. by rewrite decide_False. Qed.
