(* ===== verification/NetConn.v ===== *)
(** * Connections (src/net.c)

    The table of connections of a service: accepting, connecting and dropping.
    One iteration of the accept loop is [accept_step]; what [accept] returned is
    its argument.  The second half states how the table evolves. *)

From Stdlib Require Import String List.
From stdpp Require Import base tactics option list list_numbers gmap sets.
From Stdlib Require Import ZArith Lia Bool.
From S2P Require Import Prelude.
From S2P Require Import CString.
From S2P Require Import Pus.
From S2P Require Import Sys.

Local Open Scope Z_scope.

(** ** [fd_set]s of a service *)

Definition fd_clr (s : svc_id) (fd : Z) : M () :=
  v ← get_svc s; put_svc s (with_conn_set v (conn_set v ∖ {[fd]})).

(** [FD_SET] of a descriptor, which is not negative: it stores behind the set if
    the set has no place for it *)
Definition fd_set (s : svc_id) (fd : Z) : M () :=
  if FD_SETSIZE <=? fd then stuck else
  v ← get_svc s; put_svc s (with_conn_set v (conn_set v ∪ {[fd]})).

Definition fd_zero (s : svc_id) : M () :=
  v ← get_svc s; put_svc s (with_conn_set v ∅).

Definition fd_isset (s : svc_id) (fd : Z) : M bool :=
  v ← get_svc s; mret (bool_decide (fd ∈ conn_set v)).

Section conn.
Context {K : Kernel}.

(** ** Dropping *)

Definition conn_del (s : svc_id) (fd : Z) : M () :=
  _ ← lock s;
  _ ← fd_clr s fd;
  unlock s.

Definition client_exit : M () :=
  n ← get_net;
  if is_client n then
    _ ← emit_act (AMsg "Client link lost, shutting down\n" []);
    exit_failure
  else mret ().

Definition drop_msg (fd : Z) (error : bool) : M () :=
  emit_act (if error then AMsg "Connection %d error: %s\n" [fd]
            else AMsg "Connection %d closed\n" [fd]).

Definition conn_drop (s : svc_id) (fd : Z) (error : bool) : M () :=
  _ ← drop_msg fd error;
  _ ← close fd;
  _ ← conn_del s fd;
  client_exit.

Definition conn_drop_locked (s : svc_id) (fd : Z) (error : bool) : M () :=
  _ ← drop_msg fd error;
  _ ← close fd;
  _ ← fd_clr s fd;
  client_exit.

Definition rmap_drop_msg (fd : Z) (error : bool) : M () :=
  emit_act (if error then AMsg "RMAP connection %d error: %s\n" [fd]
            else AMsg "RMAP connection %d closed\n" [fd]).

Definition rmap_conn_drop (s : svc_id) (fd : Z) (error : bool) : M () :=
  _ ← rmap_drop_msg fd error;
  _ ← close fd;
  conn_del s fd.

Definition rmap_conn_drop_locked (s : svc_id) (fd : Z) (error : bool) : M () :=
  _ ← rmap_drop_msg fd error;
  _ ← close fd;
  fd_clr s fd.

(** ** Accepting and connecting *)

(** the outcome of [accept]: the new descriptor and what its peer will send *)
Inductive accepted : Type :=
| AcceptIntr
| AcceptError
| AcceptFd (fd : Z) (s : list Z).

Definition grow_nfds (s : svc_id) (fd : Z) : M () :=
  v ← get_svc s;
  if fd >? nfds v then put_svc s (with_nfds v (fd + 1)) else mret ().

Definition accept_step (s : svc_id) (a : accepted) : M () :=
  match a with
  | AcceptIntr => mret ()
  | AcceptError => emit_act (AMsg "accept" [])
  | AcceptFd fd q =>
      _ ← (fun w => Ret () (w_rx w (<[fd := q]> (rx w))));
      _ ← emit_act (AMsg "New incoming connection\n" []);
      if FD_SETSIZE <=? fd then
        _ ← emit_act (AMsg "connection refused: fd %d above FD_SETSIZE\n" [fd]);
        close fd
      else
        _ ← lock s;
        _ ← fd_set s fd;
        _ ← grow_nfds s fd;
        unlock s
  end.

(** the address of an "<address>:<port>"; [strtok] answering [NULL] would make
    [inet_addr] or [atoi] read through a null pointer *)
Definition sockaddr_from_url (url : string) : M (string * Z) :=
  ok ← malloc;
  if negb ok then _ ← emit_act (AMsg "malloc" []); exit_failure else
  let '(addr, rest) := strtok url in
  let '(prt, _) := strtok rest in
  match addr, prt with
  | Some addr, Some prt => mret (addr, u16 (atoi prt))
  | _, _ => stuck
  end.

(** [q]: what the server will send *)
Definition connect_client_socket (s : svc_id) (url : string) (q : list Z) : M Z :=
  '(addr, prt) ← sockaddr_from_url url;
  t ← syscall;
  let sockfd := k_socket t in
  if sockfd <? 0 then mret sockfd else
  ok ← setup_call;
  if negb ok then mret (-1) else
  _ ← (fun w => Ret () (w_rx w (<[sockfd := q]> (rx w))));
  _ ← emit_act (AConnect sockfd addr prt);
  _ ← fd_zero s;
  _ ← fd_set s sockfd;
  _ ← grow_nfds s sockfd;
  mret sockfd.

Definition bind_server_socket (url : string) (s : svc_id) : M Z :=
  '(addr, prt) ← sockaddr_from_url url;
  t ← syscall;
  let sockfd := k_socket t in
  _ ← fd_zero s;
  if sockfd <? 0 then
    _ ← emit_act (AMsg "Socket creation failed: %s\n" []); exit_failure
  else
  ok ← setup_call;
  if negb ok then
    _ ← close sockfd;
    _ ← emit_act (AMsg "could not bind endpoint %s: %s\n" []); exit_failure
  else
  ok ← setup_call;
  if negb ok then
    _ ← close sockfd; _ ← emit_act (AMsg "listen" []); exit_failure
  else
  _ ← emit_act (ABind sockfd addr prt);
  mret sockfd.

Definition bind_dgram_socket (url : string) : M Z :=
  '(addr, prt) ← sockaddr_from_url url;
  t ← syscall;
  let sockfd := k_socket t in
  if sockfd <? 0 then
    _ ← emit_act (AMsg "Socket creation failed: %s\n" []); exit_failure
  else
  ok ← setup_call;
  if negb ok then
    _ ← close sockfd;
    _ ← emit_act (AMsg "could not bind endpoint %s: %s\n" []); exit_failure
  else
  _ ← emit_act (ABind sockfd addr prt);
  mret sockfd.

(** ** Datagram clients *)

Fixpoint find_client (l : list client) (c : client) : bool :=
  match l with
  | [] => false
  | c' :: l => if (c'.1 =? c.1) && (c'.2 =? c.2) then true else find_client l c
  end.

Definition dgram_add_client (s : svc_id) (c : client) : M () :=
  _ ← lock s;
  v ← get_svc s;
  if find_client (clients v) c then unlock s else
  let full := zlen (clients v) =? clients_cap v in
  let cap := if full then (if c_true (clients_cap v) then clients_cap v * 2 else 4)
             else clients_cap v in
  ok ← (if full then malloc else mret true);
  if negb ok then unlock s else
  (* a store at index [nclients] of an array of [cap] elements *)
  if cap <=? zlen (clients v) then stuck else
  _ ← put_svc s (with_clients v (clients v ++ [c]) cap);
  unlock s.

Fixpoint sendto_loop (fd : Z) (b : list Z) (l : list client) : M () :=
  match l with
  | [] => mret ()
  | c :: l =>
      r ← sendto fd b c;
      _ ← (if r <? 0 then emit_act (AMsg "sendto" []) else mret ());
      sendto_loop fd b l
  end.

Definition dgram_send_all (s : svc_id) (b : list Z) : M () :=
  _ ← lock s;
  v ← get_svc s;
  _ ← sendto_loop (sock_fd v) b (clients v);
  unlock s.

End conn.

(** ** Running the operations *)

Definition svc_of (w : world) (s : svc_id) : net_service := svcs (net w) s.

Definition w_svc (w : world) (s : svc_id) (v : net_service) : world :=
  w_net w (set_svcs (net w) (upd_svc (svcs (net w)) s v)).

Definition clr_conn (v : net_service) (fd : Z) : net_service :=
  with_conn_set v (conn_set v ∖ {[fd]}).

(** the world after a connection was dropped with message [m] *)
Definition dropped (w : world) (s : svc_id) (fd : Z) (m : act) : world :=
  let w1 := w_tick (w_log (w_rx (w_log w [m]) (delete fd (rx w))) [AClose fd]) in
  w_svc w1 s (clr_conn (svc_of w s) fd).

Definition drop_act (fd : Z) (error : bool) : act :=
  if error then AMsg "Connection %d error: %s\n" [fd] else AMsg "Connection %d closed\n" [fd].

Definition rmap_drop_act (fd : Z) (error : bool) : act :=
  if error then AMsg "RMAP connection %d error: %s\n" [fd]
  else AMsg "RMAP connection %d closed\n" [fd].

Definition lost_act : act := AMsg "Client link lost, shutting down\n" [].

(** after a drop: in client mode the process ends *)
Definition after_drop (w : world) : result () :=
  if is_client (net w) then Exit (w_log w [lost_act]) else Ret () w.

Lemma lock_free (w : world) s : s ∉ held w -> lock s w = Ret () (w_held w (s :: held w)).
Proof. intros H. unfold lock. by rewrite decide_False. Qed.

Lemma unlock_held (w : world) s h :
  held w = s :: h -> unlock s w = Ret () (w_held w h).
Proof. intros H. unfold unlock. rewrite H. by rewrite decide_True. Qed.

Lemma mbind_run {A B} (m : M A) (f : A -> M B) w a w' :
  m w = Ret a w' -> (m ≫= f) w = f a w'.
Proof. intros H. unfold mbind, M_bind. by rewrite H. Qed.

Lemma w_held_id (w : world) h : held w = h -> w_held w h = w.
Proof. intros <-. by destruct w. Qed.

Lemma conn_del_run w s fd : s ∉ held w ->
  conn_del s fd w = Ret () (w_svc w s (clr_conn (svc_of w s) fd)).
Proof.
  intros H. unfold conn_del. erewrite mbind_run by (apply lock_free; exact H).
  erewrite mbind_run by reflexivity. erewrite unlock_held by reflexivity.
  by destruct w.
Qed.

Section run.
Context {K : Kernel}.

Lemma conn_drop_run w s fd e : s ∉ held w ->
  conn_drop s fd e w = after_drop (dropped w s fd (drop_act fd e)).
Proof.
  intros H. unfold conn_drop. erewrite mbind_run by reflexivity.
  erewrite mbind_run by reflexivity. erewrite mbind_run by (apply conn_del_run; exact H).
  unfold client_exit, after_drop. erewrite mbind_run by reflexivity. simpl.
  by destruct e, (is_client (net w)).
Qed.

Lemma conn_drop_locked_run w s fd e :
  conn_drop_locked s fd e w = after_drop (dropped w s fd (drop_act fd e)).
Proof.
  unfold conn_drop_locked. repeat (erewrite mbind_run by reflexivity).
  unfold client_exit, after_drop. erewrite mbind_run by reflexivity. simpl.
  by destruct e, (is_client (net w)).
Qed.

Lemma rmap_conn_drop_run w s fd e : s ∉ held w ->
  rmap_conn_drop s fd e w = Ret () (dropped w s fd (rmap_drop_act fd e)).
Proof.
  intros H. unfold rmap_conn_drop. erewrite mbind_run by reflexivity.
  erewrite mbind_run by reflexivity. rewrite conn_del_run by exact H. by destruct e.
Qed.

Lemma rmap_conn_drop_locked_run w s fd e :
  rmap_conn_drop_locked s fd e w = Ret () (dropped w s fd (rmap_drop_act fd e)).
Proof.
  unfold rmap_conn_drop_locked. repeat (erewrite mbind_run by reflexivity). by destruct e.
Qed.

(** the table after [fd] was registered *)
Definition registered (v : net_service) (fd : Z) : net_service :=
  mk_svc (sock_fd v) (conn_set v ∪ {[fd]}) (if fd >? nfds v then fd + 1 else nfds v)
    (clients v) (clients_cap v).

Definition accepted_world (w : world) (fd : Z) (q : list Z) : world :=
  w_log (w_rx w (<[fd := q]> (rx w))) [AMsg "New incoming connection\n" []].

Lemma upd_svc_twice f s v v' : upd_svc (upd_svc f s v) s v' s = v'.
Proof. apply upd_svc_eq. Qed.

Definition refused_act (fd : Z) : act :=
  AMsg "connection refused: fd %d above FD_SETSIZE\n" [fd].

(** two worlds that differ at most in how the service map is written down *)
Definition weq (w1 w2 : world) : Prop :=
  tick w1 = tick w2 /\ rx w1 = rx w2 /\ dgq w1 = dgq w2 /\ held w1 = held w2 /\
  log w1 = log w2 /\ is_client (net w1) = is_client (net w2) /\
  forall s, svc_of w1 s = svc_of w2 s.

Lemma grow_nfds_run w s fd :
  grow_nfds s fd w =
  Ret () (if fd >? nfds (svc_of w s) then w_svc w s (with_nfds (svc_of w s) (fd + 1)) else w).
Proof.
  unfold grow_nfds. erewrite mbind_run by reflexivity. fold (svc_of w s).
  by destruct (fd >? nfds (svc_of w s)).
Qed.

Lemma fd_set_run s fd w : (FD_SETSIZE <=? fd) = false ->
  fd_set s fd w = Ret () (w_svc w s (with_conn_set (svc_of w s) (conn_set (svc_of w s) ∪ {[fd]}))).
Proof. unfold fd_set. by intros ->. Qed.

Lemma accept_step_run w s fd q : s ∉ held w ->
  exists w', accept_step s (AcceptFd fd q) w = Ret () w' /\
  weq w' (if FD_SETSIZE <=? fd
          then w_tick (w_log (w_rx (w_log (accepted_world w fd q) [refused_act fd])
                 (delete fd (<[fd := q]> (rx w)))) [AClose fd])
          else w_svc (accepted_world w fd q) s (registered (svc_of w s) fd)).
Proof.
  intros H. unfold accept_step. repeat (erewrite mbind_run by reflexivity).
  destruct (FD_SETSIZE <=? fd) eqn:Efd.
  { repeat (erewrite mbind_run by reflexivity). eexists. split; [reflexivity|]. by repeat split. }
  erewrite mbind_run by (apply lock_free; exact H). erewrite mbind_run by (by apply fd_set_run).
  erewrite mbind_run by apply grow_nfds_run. cbv zeta.
  match goal with |- context [fd >? nfds (svc_of ?x s)] =>
    replace (nfds (svc_of x s)) with (nfds (svc_of w s)) by (unfold svc_of; simpl; by rewrite upd_svc_eq)
  end.
  unfold registered.
  destruct (fd >? nfds (svc_of w s)); (erewrite unlock_held by reflexivity);
    (eexists; split; [reflexivity|]); repeat (split; [reflexivity|]); intros s';
    unfold svc_of; simpl; unfold upd_svc; destruct (decide (s' = s)) as [->|]; try done;
    by rewrite ?decide_True by done.
Qed.

End run.

(** ** Reachable connection tables *)

(** what holds of the tables at all times: descriptors fit into an [fd_set], at
    most the one equal to [nfds] is beyond the polled range, every registered
    descriptor is open, and it belongs to one service only *)
Record tables_ok (w : world) : Prop := {
  tab_range : forall s fd, fd ∈ conn_set (svc_of w s) ->
    0 <= fd < FD_SETSIZE /\ fd <= nfds (svc_of w s);
  tab_open : forall s fd, fd ∈ conn_set (svc_of w s) -> is_Some (rx w !! fd);
  tab_disjoint : forall s s' fd,
    fd ∈ conn_set (svc_of w s) -> fd ∈ conn_set (svc_of w s') -> s = s'
}.

(** The steps that change the tables while the bridge runs. The kernel hands
    out descriptors that are not open; handlers drop members of their set. *)
Inductive conn_step : world -> world -> Prop :=
| step_accept w s a w' :
    (forall fd q, a = AcceptFd fd q -> 0 <= fd /\ rx w !! fd = None) ->
    s ∉ held w -> accept_step s a w = Ret () w' -> conn_step w w'
| step_drop w s fd e w' :
    fd ∈ conn_set (svc_of w s) -> s ∉ held w ->
    conn_drop s fd e w = Ret () w' -> conn_step w w'
| step_drop_locked w s fd e w' :
    fd ∈ conn_set (svc_of w s) -> conn_drop_locked s fd e w = Ret () w' -> conn_step w w'
| step_rmap_drop w s fd e w' :
    fd ∈ conn_set (svc_of w s) -> s ∉ held w ->
    rmap_conn_drop s fd e w = Ret () w' -> conn_step w w'
| step_rmap_drop_locked w s fd e w' :
    fd ∈ conn_set (svc_of w s) -> rmap_conn_drop_locked s fd e w = Ret () w' ->
    conn_step w w'.

Lemma tables_ok_weq w1 w2 : weq w1 w2 -> tables_ok w2 -> tables_ok w1.
Proof.
  intros (_ & Hr & _ & _ & _ & _ & Hs) [H1 H2 H3]. split.
  - intros s fd. rewrite Hs. apply H1.
  - intros s fd. rewrite Hs, Hr. apply H2.
  - intros s s' fd. rewrite !Hs. apply H3.
Qed.

Lemma svc_dropped w s fd m s' :
  svc_of (dropped w s fd m) s' = if decide (s' = s) then clr_conn (svc_of w s) fd else svc_of w s'.
Proof. reflexivity. Qed.

Lemma svc_accepted w s fd q v s' :
  svc_of (w_svc (accepted_world w fd q) s v) s' = if decide (s' = s) then v else svc_of w s'.
Proof. reflexivity. Qed.

Lemma dropped_ok w s fd m :
  tables_ok w -> fd ∈ conn_set (svc_of w s) -> tables_ok (dropped w s fd m).
Proof.
  intros [H1 H2 H3] Hin.
  assert (Hsub : forall s', conn_set (svc_of (dropped w s fd m) s') ⊆ conn_set (svc_of w s') /\
            nfds (svc_of (dropped w s fd m) s') = nfds (svc_of w s') /\
            fd ∉ conn_set (svc_of (dropped w s fd m) s')).
  { intros s'. rewrite svc_dropped. destruct (decide (s' = s)) as [->|Hne]; simpl.
    - split; [intros x Hx; by apply elem_of_difference in Hx as [Hx _]|].
      split; [done|]. intros Hx. apply elem_of_difference in Hx as [_ Hx].
      by apply Hx, elem_of_singleton.
    - split; [done|]. split; [done|]. intros Hin'. apply Hne. eauto. }
  split.
  - intros s' fd' Hfd'. destruct (Hsub s') as (Hs & -> & _). apply H1. by apply Hs.
  - intros s' fd' Hfd'. destruct (Hsub s') as (Hs & _ & Hn). simpl.
    rewrite lookup_delete_ne by (intros <-; done). apply (H2 s'). by apply Hs.
  - intros s1 s2 fd' Ha Hb. apply (H3 s1 s2 fd'); by apply Hsub.
Qed.

Lemma after_drop_ret w w' : after_drop w = Ret () w' -> w' = w.
Proof. unfold after_drop. destruct (is_client (net w)); congruence. Qed.

Lemma accepted_ok w s fd q :
  tables_ok w -> 0 <= fd < FD_SETSIZE -> rx w !! fd = None ->
  tables_ok (w_svc (accepted_world w fd q) s (registered (svc_of w s) fd)).
Proof.
  intros [H1 H2 H3] Hfd Hnone.
  assert (Hfresh : forall s', fd ∉ conn_set (svc_of w s')).
  { intros s' Hin. destruct (H2 s' fd Hin). congruence. }
  assert (Hmem : forall s' fd',
    fd' ∈ conn_set (svc_of (w_svc (accepted_world w fd q) s (registered (svc_of w s) fd)) s') ->
    (fd' = fd /\ s' = s) \/ (fd' <> fd /\ fd' ∈ conn_set (svc_of w s'))).
  { intros s' fd'. rewrite svc_accepted.
    destruct (decide (s' = s)) as [->|]; simpl; [|intros ?; right; split; [|done]].
    - rewrite elem_of_union, elem_of_singleton. intros [?| ->]; [|by left].
      right. split; [|done]. intros ->. by apply (Hfresh s).
    - intros ->. by apply (Hfresh s'). }
  split.
  - intros s' fd' [[-> ->]|[Hne Hin]]%Hmem; rewrite svc_accepted.
    + rewrite decide_True by done. simpl. split; [done|].
      destruct (Z.gtb_spec fd (nfds (svc_of w s))); lia.
    + destruct (H1 _ _ Hin) as [? Hle]. split; [done|].
      destruct (decide (s' = s)) as [->|]; [|done]. simpl.
      destruct (Z.gtb_spec fd (nfds (svc_of w s))); lia.
  - intros s' fd' [[-> ->]|[Hne Hin]]%Hmem; simpl.
    + rewrite lookup_insert_eq. by eexists.
    + rewrite lookup_insert_ne by done. eauto.
  - intros s1 s2 fd' [[-> ->]|[Hne Hin]]%Hmem [[Heq ->]|[Hne' Hin']]%Hmem; try done. eauto.
Qed.

Lemma conn_step_ok w w' : conn_step w w' -> tables_ok w -> tables_ok w'.
Proof.
  intros Hstep Hok. destruct Hstep as [w s a w' Ha Hl Hr|w s fd e w' Hin Hl Hr|w s fd e w' Hin Hr
    |w s fd e w' Hin Hl Hr|w s fd e w' Hin Hr].
  - destruct a as [| |fd q].
    + simpl in Hr. by injection Hr as <-.
    + simpl in Hr. injection Hr as <-. by destruct Hok.
    + destruct (Ha fd q eq_refl) as [H0 Hfree].
      destruct (accept_step_run w s fd q Hl) as (w'' & Hrun & Hweq).
      rewrite Hrun in Hr. injection Hr as <-. apply (tables_ok_weq _ _ Hweq).
      destruct (Z.leb_spec FD_SETSIZE fd).
      * destruct Hok as [T1 T2 T3]. split; [done| |done]. intros s' fd' Hin. simpl.
        destruct (decide (fd' = fd)) as [->|].
        { destruct (T1 _ _ Hin). unfold FD_SETSIZE in *. lia. }
        rewrite lookup_delete_ne, lookup_insert_ne by done. eauto.
      * by apply accepted_ok.
  - rewrite conn_drop_run in Hr by done. apply after_drop_ret in Hr as ->. by apply dropped_ok.
  - rewrite conn_drop_locked_run in Hr. apply after_drop_ret in Hr as ->. by apply dropped_ok.
  - rewrite rmap_conn_drop_run in Hr by done. injection Hr as <-. by apply dropped_ok.
  - rewrite rmap_conn_drop_locked_run in Hr. injection Hr as <-. by apply dropped_ok.
Qed.

(** ** Datagram clients *)

Definition dgram_ok (v : net_service) : Prop :=
  NoDup (clients v) /\ zlen (clients v) <= clients_cap v.

Lemma find_client_spec l c : find_client l c = true <-> c ∈ l.
Proof.
  induction l as [|[a b] l IH]; simpl.
  - split; [done|]. intros Hin%elem_of_nil. done.
  - rewrite elem_of_cons, <- IH. destruct c as [x y]; simpl.
    destruct (Z.eqb_spec a x), (Z.eqb_spec b y); simpl; subst; split; try tauto;
      intros [Hx|?]; try done; congruence.
Qed.

(** the only effect of a registration is on the client list, and it keeps the
    list free of duplicates and within the capacity of the array *)
Lemma dgram_add_client_run {K : Kernel} w s c :
  s ∉ held w -> dgram_ok (svc_of w s) ->
  exists w' v', dgram_add_client s c w = Ret () w' /\
    log w' = log w /\ rx w' = rx w /\ dgq w' = dgq w /\ held w' = held w /\
    (forall s', svc_of w' s' = if decide (s' = s) then v' else svc_of w s') /\
    conn_set v' = conn_set (svc_of w s) /\ nfds v' = nfds (svc_of w s) /\
    dgram_ok v' /\
    (clients v' = clients (svc_of w s) \/ ((c ∉ clients (svc_of w s)) /\
       clients v' = clients (svc_of w s) ++ [c])) /\
    ((forall t, k_malloc t = true) -> c ∈ clients v').
Proof.
  intros Hl [Hnd Hcap]. unfold dgram_add_client.
  erewrite mbind_run by (apply lock_free; exact Hl). erewrite mbind_run by reflexivity.
  cbn [net w_held]. fold (svc_of w s).
  assert (Hsame : forall w0, net w0 = net w -> forall s', svc_of w0 s' =
    if decide (s' = s) then svc_of w s else svc_of w s').
  { intros w0 Hw0 s'. unfold svc_of. rewrite Hw0. by destruct (decide (s' = s)) as [->|]. }
  destruct (find_client (clients (svc_of w s)) c) eqn:Hf.
  { erewrite unlock_held by reflexivity. eexists _, (svc_of w s). split; [reflexivity|].
    do 4 (split; [done|]). split; [by apply Hsame|]. do 2 (split; [done|]).
    split; [done|]. split; [by left|]. intros _. by apply find_client_spec. }
  assert (Hnin : c ∉ clients (svc_of w s)).
  { intros Hin. apply find_client_spec in Hin. congruence. }
  assert (Hnew : NoDup (clients (svc_of w s) ++ [c])).
  { apply NoDup_app. split; [done|]. split; [|apply NoDup_singleton].
    intros x Hx Hx'%list_elem_of_singleton. by subst. }
  cbv zeta. destruct (Z.eqb_spec (zlen (clients (svc_of w s))) (clients_cap (svc_of w s))) as [E|E].
  - erewrite mbind_run by reflexivity. destruct (k_malloc _) eqn:Em; cbn beta iota delta [negb].
    + pose proof (zlen_nonneg (clients (svc_of w s))) as H0.
      assert (Hgrow : zlen (clients (svc_of w s)) <
        (if c_true (clients_cap (svc_of w s)) then clients_cap (svc_of w s) * 2 else 4)).
      { unfold c_true. destruct (Z.eqb_spec (clients_cap (svc_of w s)) 0); simpl; lia. }
      rewrite (proj2 (Z.leb_gt _ _)) by done. cbv iota.
      erewrite mbind_run by reflexivity. erewrite unlock_held by reflexivity.
      eexists _, _. split; [reflexivity|]. do 4 (split; [done|]).
      split; [intros s'; reflexivity|]. do 2 (split; [done|]).
      split; [split; [done|simpl; rewrite zlen_app; unfold zlen at 2; simpl; lia]|].
      split; [by right|]. intros _. simpl. apply elem_of_app. right. by left.
    + erewrite unlock_held by reflexivity. eexists _, (svc_of w s). split; [reflexivity|].
      do 4 (split; [done|]). split; [by apply Hsame|]. do 2 (split; [done|]).
      split; [done|]. split; [by left|]. intros Hm. by rewrite Hm in Em.
  - erewrite mbind_run by reflexivity. cbn beta iota delta [negb].
    rewrite (proj2 (Z.leb_gt _ _)) by lia. cbv iota.
    erewrite mbind_run by reflexivity. erewrite unlock_held by reflexivity.
    eexists _, _. split; [reflexivity|]. do 4 (split; [done|]).
    split; [intros s'; reflexivity|]. do 2 (split; [done|]).
    split; [split; [done|simpl; rewrite zlen_app; unfold zlen at 2; simpl; lia]|].
    split; [by right|]. intros _. simpl. apply elem_of_app. right. by left.
Qed.

(** ** Properties *)

(** C29: on every state reachable from one without connections, through any
    sequence of accepted connections (also refused ones) and drops on any of
    the five services, the connection tables are sound: a registered descriptor
    is below FD_SETSIZE, so the [fd_set] operations are defined; it is open;
    it is registered with one service only; and it is at most [nfds]. *)
Theorem conn_tables_reachable (w0 w : world)
  (H0 : forall s, conn_set (svc_of w0 s) = ∅) (Hr : rtc conn_step w0 w) : tables_ok w.
Proof.
  assert (Hok : tables_ok w0).
  { assert (Hn : forall s fd, fd ∉ conn_set (svc_of w0 s)).
    { intros s fd Hin. rewrite H0 in Hin. by apply elem_of_empty in Hin. }
    split.
    - intros s fd Hin. by destruct (Hn s fd).
    - intros s fd Hin. by destruct (Hn s fd).
    - intros s s' fd Hin. by destruct (Hn s fd). }
  clear H0. induction Hr as [|w1 w2 w3 Hs _ IH]; [done|]. apply IH. by eapply conn_step_ok.
Qed.

(** a server without connections *)
Definition net0 (client : bool) : net_state := mk_net client 0 [] 0 [] 0 (fun _ => svc_empty).
Definition w0 (client : bool) : world := mk_world 0 ∅ [] [] (net0 client) [].

(** a kernel that always answers, one octet at a time *)
Definition quiet_kernel : Kernel :=
  {| k_queue := fun _ => Queued 0; k_peek := fun _ => Queued 63; k_send := fun _ => Accepted 0;
     k_sendto := fun _ => true; k_clock := fun _ => (0, 0); k_malloc := fun _ => true;
     k_select := fun _ => None; k_socket := fun _ => 3; k_setup := fun _ => true;
     k_intr_max := 0 |}.

Definition run_w {A} (r : result A) (w : world) : world :=
  match r with Ret _ w' => w' | Exit w' => w' | Stuck => w end.

(** after one and after two connections *)
Definition w_one : world := run_w (accept_step SvcData (AcceptFd 7 [1; 2]) (w0 false)) (w0 false).
Definition w_two : world := run_w (accept_step SvcRmap (AcceptFd 9 []) w_one) w_one.

Lemma conn_tables_reachable_witness : tables_ok w_two.
Proof.
  apply (conn_tables_reachable (w0 false)).
  - intros s. reflexivity.
  - apply (rtc_l _ _ w_one); [|eapply rtc_l; [|apply rtc_refl]].
    + apply (step_accept (w0 false) SvcData (AcceptFd 7 [1; 2])).
      * intros fd q [= <- <-]. split; [lia|reflexivity].
      * apply not_elem_of_nil.
      * vm_compute. reflexivity.
    + apply (step_accept _ SvcRmap (AcceptFd 9 [])).
      * intros fd q [= <- <-]. split; [lia|vm_compute; reflexivity].
      * vm_compute. apply not_elem_of_nil.
      * vm_compute. reflexivity.
Defined.

(** Dropping a connection is not atomic: [conn_drop] closes the descriptor
    before it clears the table entry. When the accept thread receives the next
    connection in between, the kernel reuses the number, and the late clearing
    removes the new connection: its descriptor is open, its data unread, and it
    is not registered with the service any more, in the server and for good. *)
Theorem conn_drop_race (w : world) (s : svc_id) (fd : Z) (e : bool) (q : list Z)
  (Hl : s ∉ held w) (Hfd : 0 <= fd < FD_SETSIZE) (Hserver : is_client (net w) = false) :
  exists w1 w2 w3, (_ ← drop_msg fd e; close fd) w = Ret () w1 /\
    accept_step s (AcceptFd fd q) w1 = Ret () w2 /\
    (fd ∈ conn_set (svc_of w2 s)) /\
    (_ ← conn_del s fd; client_exit) w2 = Ret () w3 /\
    rx w3 !! fd = Some q /\ ~ (fd ∈ conn_set (svc_of w3 s)).
Proof.
  eexists. destruct (accept_step_run (w_tick (w_log (w_rx (w_log w [drop_act fd e])
    (delete fd (rx w))) [AClose fd])) s fd q) as (w2 & Hrun & Hweq); [exact Hl|].
  rewrite (proj2 (Z.leb_gt _ _)) in Hweq by lia.
  destruct Hweq as (_ & Hrx & _ & Hh & _ & Hc & Hs).
  exists w2, (w_svc w2 s (clr_conn (svc_of w2 s) fd)).
  split; [by destruct e|]. split; [exact Hrun|].
  assert (Hl2 : s ∉ held w2) by (rewrite Hh; exact Hl).
  split; [rewrite Hs; unfold svc_of; simpl; unfold upd_svc; rewrite decide_True by done; simpl;
    apply elem_of_union; right; by apply elem_of_singleton|].
  split.
  - erewrite mbind_run by (apply conn_del_run; exact Hl2). unfold client_exit.
    erewrite mbind_run by reflexivity. simpl in Hc |- *. by rewrite Hc, Hserver.
  - simpl. rewrite Hrx. simpl. split; [apply lookup_insert_eq|].
    unfold svc_of; simpl. unfold upd_svc. rewrite decide_True by done. simpl.
    intros Hin%elem_of_difference. destruct Hin as [_ Hin]. by apply Hin, elem_of_singleton.
Qed.

Lemma conn_drop_race_witness :
  exists w1 w2 w3, (_ ← drop_msg 7 false; close 7) (w0 false) = Ret () w1 /\
    accept_step SvcData (AcceptFd 7 [1]) w1 = Ret () w2 /\
    (_ ← conn_del SvcData 7; client_exit) w2 = Ret () w3 /\
    rx w3 !! 7 = Some [1].
Proof.
  destruct (conn_drop_race (w0 false) SvcData 7 false [1])
    as (w1 & w2 & w3 & H1 & H2 & _ & H3 & H4 & _).
  - apply not_elem_of_nil.
  - unfold FD_SETSIZE. lia.
  - reflexivity.
  - exists w1, w2, w3. split; [exact H1|]. split; [exact H2|]. split; [exact H3|exact H4].
Defined.

(** Registering datagram clients never writes beyond the array, whatever
    allocations fail, and keeps the list of clients free of duplicates: for
    every history of senders, each is registered at most once, and exactly the
    senders are registered when no allocation failed. *)
Theorem dgram_clients_history {K : Kernel} (cs : list client) (w : world) (s : svc_id)
  (Hl : s ∉ held w) (Hok : dgram_ok (svc_of w s)) :
  exists w', foldl (fun r c => match r with Ret _ w => dgram_add_client s c w | r => r end)
      (Ret () w) cs = Ret () w' /\
    dgram_ok (svc_of w' s) /\ held w' = held w /\ log w' = log w /\
    (forall c, c ∈ clients (svc_of w' s) -> c ∈ clients (svc_of w s) \/ c ∈ cs) /\
    ((forall t, k_malloc t = true) ->
     forall c, c ∈ clients (svc_of w' s) <-> c ∈ clients (svc_of w s) \/ c ∈ cs).
Proof.
  revert w Hl Hok. induction cs as [|c cs IH]; intros w Hl Hok; simpl.
  { exists w. split; [done|]. split; [done|]. split; [done|]. split; [done|].
    assert (Hnil : forall c : client, c ∈ @nil client <-> False)
      by (intros; split; [apply not_elem_of_nil|done]).
    split; [tauto|]. intros _ c. rewrite Hnil. tauto. }
  destruct (dgram_add_client_run w s c Hl Hok)
    as (w1 & v1 & -> & Hlog & _ & _ & Hheld & Hsvc & _ & _ & Hok1 & Hcl & Hin).
  assert (Hs1 : svc_of w1 s = v1) by (rewrite Hsvc; by rewrite decide_True).
  destruct (IH w1) as (w2 & Hrun & Hok2 & Hh2 & Hlog2 & Hsub & Hex);
    [by rewrite Hheld|by rewrite Hs1|].
  exists w2. split; [exact Hrun|]. split; [done|]. split; [congruence|]. split; [congruence|].
  rewrite Hs1 in *.
  assert (Hv1 : forall x, x ∈ clients v1 -> x ∈ clients (svc_of w s) \/ x ∈ c :: cs).
  { intros x Hx. destruct Hcl as [Hc|[_ Hc]]; rewrite Hc in Hx; [by left|].
    apply elem_of_app in Hx as [?|Hx%list_elem_of_singleton]; [by left|]. subst. right. left. }
  split.
  - intros x Hx. destruct (Hsub x Hx) as [?|?]; [by apply Hv1|right; by right].
  - intros Hm x. rewrite (Hex Hm x). split.
    + intros [?|?]; [by apply Hv1|right; by right].
    + intros [Hx|[->|Hx]%elem_of_cons]; [left|left; by apply Hin|by right].
      destruct Hcl as [Hc|[_ Hc]]; rewrite Hc; [done|]. apply elem_of_app. by left.
Qed.

Lemma dgram_clients_history_witness :
  exists w', foldl (fun r c => match r with
        Ret _ w => dgram_add_client (K := quiet_kernel) SvcData c w | r => r end)
      (Ret () (w0 false)) [(1, 5000); (2, 5000); (1, 5000)] = Ret () w' /\
    dgram_ok (svc_of w' SvcData).
Proof.
  destruct (dgram_clients_history (K := quiet_kernel) [(1, 5000); (2, 5000); (1, 5000)] (w0 false)
    SvcData) as (w' & H & Hok & _).
  - apply not_elem_of_nil.
  - split; [apply NoDup_nil_2|reflexivity || (vm_compute; discriminate)].
  - exists w'. split; [exact H|exact Hok].
Defined.
