(* ===== verification/NetRecv.v ===== *)
(** * Receive framing (src/net.c)

    How the bridge cuts the byte stream of a connection into packets: PUS, FEE
    and GRESB packets by the length in their header, everything else by what one
    [recv] returns, and a datagram per packet in UDP mode.  A function that
    returns -1 in C answers [None], otherwise the packet. *)

From Stdlib Require Import String List.
From stdpp Require Import base tactics option list list_numbers gmap sets.
From Stdlib Require Import ZArith Lia Bool.
From S2P Require Import Prelude.
From S2P Require Import Ccsds.
From S2P Require Import Crc16.
From S2P Require Import Gresb.
From S2P Require Import Pus.
From S2P Require Import Sys.
From S2P Require Import NetConn.

Local Open Scope Z_scope.

Definition NET_RECV_TIMEOUT_S : Z := 30.
Definition FEE_DATA_PROTOCOL : Z := 0xF0.
(** [sizeof(struct fee_data_hdr)] *)
Definition FEE_HDR_SIZE : Z := 10.
Definition MAX_SPW_PACKET_SIZE : Z := 0xFFFFFF.

(** the table [main] initialises before the network is started *)
Definition bridge_lut : lut := crc_init_lookup_table lut_zero.

Definition deadline_add (ts : Z * Z) (s : Z) : Z * Z := (ts.1 + s, ts.2).

Section recv.
Context {K : Kernel}.

Definition deadline_expired (deadline : Z * Z) : M bool :=
  now ← clock_gettime;
  mret (if now.1 >? deadline.1 then true
        else if now.1 =? deadline.1 then now.2 >=? deadline.2 else false).

(** the receive loop; every round that goes on has received an octet, so [n]
    rounds are enough *)
Fixpoint recv_loop (fuel : nat) (fd n : Z) (deadline : Z * Z) (got : Z) (buf : list Z)
  : M (Z * list Z) :=
  if got <? n then
    match fuel with
    | O => stuck
    | S fuel =>
        r ← recv fd (n - got);
        if r.1 <=? 0 then mret (r.1, buf) else
        expired ← deadline_expired deadline;
        if (expired : bool) then mret (-1, buf ++ r.2) else
        recv_loop fuel fd n deadline (got + r.1) (buf ++ r.2)
    end
  else mret (got, buf).

Definition recv_exact (fd n : Z) : M (Z * list Z) :=
  now ← clock_gettime;
  recv_loop (Z.to_nat n) fd n (deadline_add now NET_RECV_TIMEOUT_S) 0 [].

(** ** PUS *)

Definition seq_act (m : seq_msg) : act :=
  match m with
  | SeqNoMemory => AMsg "Error tracking PUS sequence counters\n" []
  | SeqError e r a =>
      AMsg "  sequence error: expected %u, received %u (APID=0x%03X)\n" [e; r; a]
  end.

Fixpoint emit_all (l : list act) : M () :=
  match l with [] => mret () | a :: l => _ ← emit_act a; emit_all l end.

(** [check_pus_sequence] on the counters of the transmit direction *)
Definition check_seq_tx (cfg : bridge_cfg) (pkt : list Z) : M () :=
  alloc ← malloc;
  n ← get_net;
  '(seq, cnt, msgs) ← lift (check_pus_sequence (pus_debug cfg) alloc (At pkt) (zlen pkt)
                              (pus_seq_tx n) (pus_seq_tx_n n));
  _ ← put_net (mk_net (is_client n) (client_sock n) seq cnt
                 (pus_seq_rx n) (pus_seq_rx_n n) (svcs n));
  emit_all (map seq_act msgs).

Definition recv_pus_packet (cfg : bridge_cfg) (s : svc_id) (fd : Z) : M (option (list Z)) :=
  '(recv_bytes, small) ← recv_peek fd 6;
  if negb (recv_bytes =? 6) then _ ← conn_drop s fd (recv_bytes <? 0); mret None else
  b4 ← lift (rd small 4);
  b5 ← lift (rd small 5);
  let packet_length := Z.lor (Z.shiftl b4 8) b5 + 1 + 6 in
  ok ← malloc;
  if negb ok then _ ← conn_drop s fd true; mret None else
  '(recv_bytes, buf) ← recv_exact fd packet_length;
  if negb (recv_bytes =? packet_length)
  then _ ← conn_drop s fd (recv_bytes <? 0); mret None else
  _ ← check_seq_tx cfg buf;
  _ ← (if crc_check cfg then
         v ← lift (pus_pkt_crc_valid bridge_lut (At buf) packet_length);
         if c_true v then mret () else emit_act (AMsg "CRC error on NET->SPW packet\n" [])
       else mret ());
  mret (Some buf).

(** ** Raw *)

Definition recv_raw_packet (s : svc_id) (fd : Z) : M (option (list Z)) :=
  '(r, avail) ← fionread fd;
  if (r <? 0) || (avail =? 0) then _ ← conn_drop s fd true; mret None else
  ok ← malloc;
  if negb ok then _ ← conn_drop s fd true; mret None else
  '(recv_bytes, buf) ← recv fd avail;
  if recv_bytes <=? 0 then _ ← conn_drop s fd (recv_bytes <? 0); mret None else
  mret (Some buf).

(** ** Datagrams *)

Definition recv_dgram_packet : M (option (list Z * client)) :=
  '(r, avail) ← fionread_dgram;
  if (r <? 0) || (avail =? 0) then mret None else
  ok ← malloc;
  if negb ok then mret None else
  '(recv_bytes, buf, c) ← recvfrom avail;
  if recv_bytes <=? 0 then mret None else
  mret (Some (buf, c)).

(** ** FEE *)

Definition recv_fee_packet (s : svc_id) (fd : Z) : M (option (list Z)) :=
  '(recv_bytes, hdr) ← recv_peek fd FEE_HDR_SIZE;
  if negb (recv_bytes =? FEE_HDR_SIZE) then _ ← conn_drop s fd (recv_bytes <? 0); mret None else
  proto_id ← lift (rd hdr 1);
  if negb (proto_id =? FEE_DATA_PROTOCOL) then recv_raw_packet s fd else
  b2 ← lift (rd hdr 2);
  b3 ← lift (rd hdr 3);
  let packet_length := Z.lor (Z.shiftl b2 8) b3 + FEE_HDR_SIZE in
  ok ← malloc;
  if negb ok then _ ← conn_drop s fd true; mret None else
  '(recv_bytes, buf) ← recv_exact fd packet_length;
  if negb (recv_bytes =? packet_length)
  then _ ← conn_drop s fd (recv_bytes <? 0); mret None else
  mret (Some buf).

(** ** GRESB *)

Definition recv_gresb_packet (s : svc_id) (fd : Z) : M (option (list Z)) :=
  '(recv_bytes, hdr) ← recv_peek fd 4;
  if recv_bytes <? 4 then _ ← conn_drop s fd (recv_bytes <? 0); mret None else
  gsize ← lift (gresb_get_spw_data_size (At hdr));
  if gsize >? MAX_SPW_PACKET_SIZE then
    _ ← emit_act (AMsg "Oversized GRESB request, %zu bytes\n" [gsize]);
    _ ← conn_drop s fd false; mret None else
  let pkt_size := gsize + 4 in
  ok ← malloc;
  if negb ok then _ ← conn_drop s fd true; mret None else
  '(recv_bytes, pkt_buf) ← recv_exact fd pkt_size;
  if negb (recv_bytes =? pkt_size)
  then _ ← conn_drop s fd (recv_bytes <? 0); mret None else
  ok ← malloc;
  if negb ok then _ ← conn_drop s fd true; mret None else
  off ← lift (gresb_get_spw_data (At pkt_buf));
  buf ← lift (rdn pkt_buf off gsize);
  mret (Some buf).

End recv.

(** ** Specification of the outcomes *)

Definition is_msg (a : act) : Prop := match a with AMsg _ _ => True | _ => False end.

(** the sequence counter array of a direction is as long as its count says *)
Definition seq_ok (w : world) : Prop :=
  0 <= pus_seq_tx_n (net w) <= zlen (pus_seq_tx (net w)) /\
  0 <= pus_seq_rx_n (net w) <= zlen (pus_seq_rx (net w)).

(** nothing but messages on the console and the octets consumed from [fd] *)
Record quiet (w w' : world) (fd : Z) (rest : list Z) : Prop := {
  q_rx : rx w' = <[fd := rest]> (rx w);
  q_dgq : dgq w' = dgq w;
  q_held : held w' = held w;
  q_svcs : forall s, svc_of w' s = svc_of w s;
  q_client : is_client (net w') = is_client (net w);
  q_seq : seq_ok w -> seq_ok w';
  q_log : exists l, log w' = log w ++ l /\ Forall is_msg l
}.

(** the connection [fd] of service [s] is closed and forgotten *)
Record lost (w w' : world) (s : svc_id) (fd : Z) : Prop := {
  l_rx : rx w' = delete fd (rx w);
  l_dgq : dgq w' = dgq w;
  l_held : held w' = held w;
  l_svcs : forall s', svc_of w' s' = if decide (s' = s) then clr_conn (svc_of w s) fd else svc_of w s';
  l_client : is_client (net w') = is_client (net w);
  l_seq : seq_ok w -> seq_ok w';
  l_log : exists l, log w' = log w ++ l ++ [AClose fd] /\ Forall is_msg l
}.

(** in client mode the loss of the connection ends the process *)
Definition client_end (w : world) (s : svc_id) (fd : Z) (w' : world) : Prop :=
  is_client (net w) = true /\ exists w1, lost w w1 s fd /\ w' = w_log w1 [lost_act].

(** [P wire pkt]: the octets [wire] on the stream are a packet [pkt] *)
Definition recv_post (P : list Z -> list Z -> Prop) (w : world) (s : svc_id) (fd : Z)
    (r : option (list Z)) (w' : world) : Prop :=
  match r with
  | Some pkt => exists wire rest, rx w !! fd = Some (wire ++ rest) /\ P wire pkt /\
                  quiet w w' fd rest
  | None => lost w w' s fd /\ is_client (net w) = false
  end.

Definition octet (b : list Z) (i : Z) : Z := default 0 (rd b i).

Definition pus_frame (wire pkt : list Z) : Prop :=
  wire = pkt /\ zlen wire = octet wire 4 * 256 + octet wire 5 + 7.

Definition raw_frame (wire pkt : list Z) : Prop := wire = pkt /\ wire <> [].

Definition fee_frame (wire pkt : list Z) : Prop :=
  wire = pkt /\
  if octet wire 1 =? FEE_DATA_PROTOCOL
  then zlen wire = octet wire 2 * 256 + octet wire 3 + FEE_HDR_SIZE else wire <> [].

Definition gresb_wire (wire pkt : list Z) : Prop :=
  exists h, wire = h ++ pkt /\ zlen h = 4 /\
    zlen pkt = octet wire 1 * 65536 + octet wire 2 * 256 + octet wire 3.

(** the part of the state a receive does not touch until it is done *)
Definition adv (fd : Z) (rest : list Z) (w w' : world) : Prop :=
  rx w' = <[fd := rest]> (rx w) /\ dgq w' = dgq w /\ held w' = held w /\ net w' = net w /\
  log w' = log w.

(** ** Lemmas *)

Lemma adv_tick fd s w : rx w !! fd = Some s -> adv fd s w (w_tick w).
Proof. intros H. split; [|done]. simpl. by rewrite insert_id. Qed.

Lemma adv_trans fd r1 r2 w w1 w2 : adv fd r1 w w1 -> adv fd r2 w1 w2 -> adv fd r2 w w2.
Proof.
  intros (A1 & A2 & A3 & A4 & A5) (B1 & B2 & B3 & B4 & B5).
  split; [by rewrite B1, A1, insert_insert_eq|]. repeat split; congruence.
Qed.

Lemma adv_rx fd r w w' : adv fd r w w' -> rx w' !! fd = Some r.
Proof. intros (-> & _). apply lookup_insert_eq. Qed.

Lemma adv_quiet fd r w w' : adv fd r w w' -> quiet w w' fd r.
Proof.
  intros (A1 & A2 & A3 & A4 & A5). split; try done; unfold svc_of, seq_ok; rewrite ?A4; try done.
  exists []. by rewrite app_nil_r.
Qed.

Lemma see_open q s : 
  (exists e, see q (Some s) = inl e /\ e <= 0) \/
  (exists a, see q (Some s) = inr (take (S a) s) /\ s <> []).
Proof. destruct q as [a| | |], s as [|x s]; simpl; naive_solver lia. Qed.

Section wp.
Context {K : Kernel}.

Lemma recv_cases fd n w s : rx w !! fd = Some s -> 0 < n ->
  (exists e, recv fd n w = Ret (e, []) (w_tick w) /\ e <= 0) \/
  (exists b rest w', s = b ++ rest /\ 0 < zlen b <= n /\
     recv fd n w = Ret (zlen b, b) w' /\ adv fd rest w w').
Proof.
  intros Hs Hn. unfold recv. rewrite Hs.
  destruct (see_open (k_queue (tick w)) s) as [(e & -> & He)|(a & -> & Hne)]; [by left; eauto|].
  right. set (b := take (Z.to_nat n) (take (S a) s)).
  assert (Hb : b = take (length b) s).
  { unfold b. rewrite take_take. generalize (Z.to_nat n `min` S a)%nat as m. intros m.
    rewrite length_take. destruct (Nat.le_gt_cases m (length s)).
    - by rewrite Nat.min_l.
    - rewrite Nat.min_r by lia. by rewrite !take_ge by lia. }
  assert (Hlen : 0 < zlen b <= n).
  { unfold b, zlen. rewrite !length_take. destruct s; [done|]. simpl. lia. }
  exists b, (drop (length b) s), (w_tick (w_rx w (alter (drop (length b)) fd (rx w)))).
  split; [rewrite Hb at 1; by rewrite take_drop|]. split; [done|]. split; [done|].
  split; [|done]. simpl. apply map_eq. intros fd'. destruct (decide (fd' = fd)) as [->|Hne'].
  - by rewrite lookup_alter_eq, lookup_insert_eq, Hs.
  - by rewrite lookup_alter_ne, lookup_insert_ne by done.
Qed.

Lemma recv_loop_run deadline n fd : forall fuel w s got buf,
  rx w !! fd = Some s -> got = zlen buf -> got <= n -> (Z.to_nat (n - got) <= fuel)%nat ->
  exists r acc rest w', recv_loop fuel fd n deadline got buf w = Ret (r, buf ++ acc) w' /\
    adv fd rest w w' /\ s = acc ++ rest /\
    ((r = n /\ zlen (buf ++ acc) = n) \/ (r <= 0 /\ zlen (buf ++ acc) <= n)).
Proof.
  induction fuel as [|fuel IH]; intros w s got buf Hs Hg Hle Hf; simpl;
    destruct (Z.ltb_spec got n).
  - lia.
  - exists got, [], s, w. rewrite app_nil_r. split; [done|]. split; [|split; [done|left; lia]].
    repeat split. by rewrite insert_id.
  - destruct (recv_cases fd (n - got) w s Hs) as [(e & Hr & He)|(b & rest & w1 & -> & Hb & Hr & Ha)];
      [lia| |].
    + erewrite mbind_run by exact Hr. cbn beta iota delta [fst snd]. rewrite (proj2 (Z.leb_le _ _)) by done.
      exists e, [], s, (w_tick w). rewrite app_nil_r. split; [done|].
      split; [by apply adv_tick|]. split; [done|]. right. lia.
    + erewrite mbind_run by exact Hr. cbn beta iota delta [fst snd]. rewrite (proj2 (Z.leb_gt _ _)) by lia.
      unfold deadline_expired. erewrite mbind_run by reflexivity.
      set (ex := if _ >? _ then true else _). destruct ex.
      * exists (-1), b, rest, (w_tick w1). split; [done|].
        split; [eapply (adv_trans _ _ _ _ w1); [exact Ha|]; apply adv_tick; by eapply adv_rx|].
        split; [done|]. right. rewrite zlen_app. lia.
      * edestruct (IH (w_tick w1) rest (got + zlen b) (buf ++ b)) as (r & acc & rest' & w' & Hrun & Ha' & -> & Hc).
        { simpl. by eapply adv_rx. } { rewrite zlen_app. lia. } { lia. } { lia. }
        exists r, (b ++ acc), rest', w'. rewrite app_assoc. split; [exact Hrun|].
        split; [eapply (adv_trans _ _ _ _ (w_tick w1)); [exact Ha|exact Ha']|].
        split; [by rewrite app_assoc|exact Hc].
  - exists got, [], s, w. rewrite app_nil_r. split; [done|]. split; [|split; [done|left; lia]].
    repeat split. by rewrite insert_id.
Qed.

Lemma recv_exact_run fd n w s : rx w !! fd = Some s -> 0 <= n ->
  exists r acc rest w', recv_exact fd n w = Ret (r, acc) w' /\
    adv fd rest w w' /\ s = acc ++ rest /\
    ((r = n /\ zlen acc = n) \/ (r <= 0 /\ zlen acc <= n)).
Proof.
  intros Hs Hn. unfold recv_exact. erewrite mbind_run by reflexivity.
  edestruct (recv_loop_run (deadline_add (k_clock (tick w)) NET_RECV_TIMEOUT_S) n fd (Z.to_nat n)
    (w_tick w) s 0 []) as (r & acc & rest & w' & Hr & Ha & Hsplit & Hc); try done; try lia.
  exists r, acc, rest, w'. split; [exact Hr|]. split; [|done].
  apply (adv_trans _ s _ _ (w_tick w)); [by apply adv_tick|exact Ha].
Qed.

(** ** Rules *)

Lemma wp_run {A} (m : M A) EX (Q : A -> world -> Prop) w a w' :
  m w = Ret a w' -> Q a w' -> wp m EX Q w.
Proof. intros H ?. unfold wp. by rewrite H. Qed.

(** dropping, after octets were received and messages printed *)
Lemma dropped_lost (w0 w : world) s fd m rest :
  quiet w0 w fd rest -> is_msg m -> lost w0 (dropped w s fd m) s fd.
Proof.
  intros [A1 A2 A3 A4 A5 As (l & A6 & A7)] Hm. split; simpl; try done.
  - by rewrite A1, delete_insert_eq.
  - intros s'. rewrite svc_dropped, !A4. done.
  - exists (l ++ [m]). rewrite A6. split; [by rewrite <- !app_assoc|].
    apply Forall_app. split; [done|]. by apply Forall_cons_2.
Qed.

Lemma drop_act_msg fd e : is_msg (drop_act fd e).
Proof. by destruct e. Qed.

Lemma wp_conn_drop P (w0 w : world) s fd e rest :
  adv fd rest w0 w -> s ∉ held w0 ->
  wp (_ ← conn_drop s fd e; mret (@None (list Z))) (client_end w0 s fd)
    (recv_post P w0 s fd) w.
Proof.
  intros Ha Hl. pose proof (dropped_lost w0 w s fd _ rest (adv_quiet _ _ _ _ Ha) (drop_act_msg fd e)) as Hlost.
  destruct Ha as (_ & _ & A3 & A4 & _). apply wp_bind. unfold wp at 1.
  rewrite conn_drop_run by by rewrite A3. unfold after_drop.
  simpl. rewrite A4. destruct (is_client (net w0)) eqn:Hc.
  - split; [done|]. eauto.
  - split; [exact Hlost|done].
Qed.

Lemma wp_bind_run {A B} (m : M A) (f : A -> M B) EX (Q : B -> world -> Prop) w a w' :
  m w = Ret a w' -> wp (f a) EX Q w' -> wp (m ≫= f) EX Q w.
Proof. intros H Hf. apply wp_bind. unfold wp at 1. by rewrite H. Qed.

Lemma wp_bind_lift {A B} (o : option A) (f : A -> M B) a EX (Q : B -> world -> Prop) w :
  o = Some a -> wp (f a) EX Q w -> wp (lift o ≫= f) EX Q w.
Proof. intros -> H. exact H. Qed.

Lemma recv_peek_run fd n w s : rx w !! fd = Some s -> 0 <= n ->
  exists r b, recv_peek fd n w = Ret (r, b) (w_tick w) /\
    ((b = [] /\ r <= 0) \/
     (exists rest, s = b ++ rest /\ r = zlen b /\ zlen b <= n)).
Proof.
  intros Hs Hn. unfold recv_peek. rewrite Hs.
  destruct (see_open (k_peek (tick w)) s) as [(e & -> & He)|(a & -> & Hne)].
  { exists e, []. split; [done|]. by left. }
  eexists _, _. split; [reflexivity|]. right. rewrite take_take.
  exists (drop (Z.to_nat n `min` S a) s). split; [by rewrite take_drop|]. split; [done|].
  unfold zlen. rewrite length_take. lia.
Qed.

(** two prefixes of one stream agree where both are defined *)
Lemma octet_prefix (a b r1 r2 : list Z) i x :
  a ++ r1 = b ++ r2 -> rd a i = Some x -> i < zlen b -> octet b i = x.
Proof.
  intros He Hx Hi. pose proof (rd_Some _ _ _ Hx) as Hr. unfold octet.
  rewrite <- (rd_app_l b r2) by lia. rewrite <- He, rd_app_l by lia. by rewrite Hx.
Qed.
End wp.

(** ** Packet checks never get stuck *)

Lemma find_apid_run seq a : forall n i, (i + n <= length seq)%nat ->
  exists j, find_apid seq i n a = Some j /\ (i <= j <= i + n)%nat.
Proof.
  induction n as [|n IH]; intros i Hn; simpl; [exists i; split; [done|lia]|].
  destruct (lookup_lt_is_Some_2 seq i) as [x ->]; [lia|]. simpl.
  destruct (apid x =? a); [exists i; split; [done|lia]|].
  destruct (IH (S i)) as (j & -> & Hj); [lia|]. exists j. split; [done|lia].
Qed.

Lemma check_pus_sequence_run dbg al p seq n :
  bytes p -> 0 <= n <= zlen seq ->
  exists seq' msgs, check_pus_sequence dbg al (At p) (zlen p) seq n = Some (seq', n, msgs) /\
    n <= zlen seq'.
Proof.
  intros Hp Hn. unfold check_pus_sequence, SPP_PKT_HDR_LEN.
  destruct (Z.ltb_spec (zlen p) 6) as [|Hl]; [eexists _, _; split; [done|lia]|].
  destruct (spp_decode p) as [h|] eqn:Hd.
  2: { exfalso. do 6 (destruct p as [|? p]; [unfold zlen in Hl; simpl in Hl; lia|]). done. }
  destruct (getters_decode p h Hp Hd) as (_ & _ & _ & -> & _ & -> & _). cbn [mbind option_bind].
  destruct (find_apid_run seq (spp_apid h) (Z.to_nat n) 0) as (j & -> & Hj);
    [unfold zlen in Hn; lia|]. cbn [mbind option_bind].
  destruct (Z.eqb_spec (Z.of_nat j) n).
  - destruct al; [|eexists _, _; split; [done|lia]]. eexists _, _. split; [done|].
    unfold zlen in *. rewrite length_insert, length_app, length_take. simpl. lia.
  - destruct (lookup_lt_is_Some_2 seq j) as [x ->]; [unfold zlen in Hn; lia|].
    cbn [mbind option_bind]. eexists _, _. split; [done|].
    unfold zlen in *. rewrite length_insert. lia.
Qed.

Lemma bridge_lut_eq : bridge_lut = LUT1.
Proof. vm_compute. reflexivity. Qed.

(** console output only *)
Record chatty (w w' : world) : Prop := {
  c_rx : rx w' = rx w;
  c_dgq : dgq w' = dgq w;
  c_held : held w' = held w;
  c_svcs : forall s, svc_of w' s = svc_of w s;
  c_client : is_client (net w') = is_client (net w);
  c_seq : seq_ok w -> seq_ok w';
  c_log : exists l, log w' = log w ++ l /\ Forall is_msg l
}.

Lemma chatty_refl w : chatty w w.
Proof. split; try done. exists []. by rewrite app_nil_r. Qed.

Lemma chatty_trans w1 w2 w3 : chatty w1 w2 -> chatty w2 w3 -> chatty w1 w3.
Proof.
  intros [A1 A2 A3 A4 A5 A6 (l & A7 & A8)] [B1 B2 B3 B4 B5 B6 (k & B7 & B8)].
  split; [congruence|congruence|congruence|intros s; by rewrite B4|congruence|auto|].
  exists (l ++ k). rewrite B7, A7, app_assoc. split; [done|]. by apply Forall_app.
Qed.

Lemma chatty_msg w s l : chatty w (w_log w [AMsg s l]).
Proof.
  split; try done. exists [AMsg s l]. split; [done|]. by apply Forall_cons_2.
Qed.

Lemma chatty_tick w : chatty w (w_tick w).
Proof. split; try done. exists []. by rewrite app_nil_r. Qed.

Lemma emit_all_run l w : Forall is_msg l -> exists w', emit_all l w = Ret () w' /\ chatty w w'.
Proof.
  intros Hl. revert w. induction Hl as [|a l Ha _ IH]; intros w; simpl.
  { exists w. split; [done|apply chatty_refl]. }
  erewrite mbind_run by reflexivity. destruct (IH (w_log w [a])) as (w' & -> & Hc).
  exists w'. split; [done|]. destruct a as [| | | | | | | | | | |m ar]; try done.
  apply (chatty_trans _ _ _ (chatty_msg w m ar) Hc).
Qed.

Lemma seq_acts_msg l : Forall is_msg (map seq_act l).
Proof. induction l as [|[]]; simpl; by constructor. Qed.

Lemma quiet_chatty w w1 w2 fd rest : quiet w w1 fd rest -> chatty w1 w2 -> quiet w w2 fd rest.
Proof.
  intros [A1 A2 A3 A4 A5 A6 (l & A7 & A8)] [B1 B2 B3 B4 B5 B6 (k & B7 & B8)].
  split; [congruence|congruence|congruence|intros s; by rewrite B4|congruence|auto|].
  exists (l ++ k). rewrite B7, A7, app_assoc. split; [done|]. by apply Forall_app.
Qed.

Lemma check_seq_tx_run {K : Kernel} cfg p w :
  bytes p -> seq_ok w -> exists w', check_seq_tx cfg p w = Ret () w' /\ chatty w w'.
Proof.
  intros Hp [Ht Hr]. unfold check_seq_tx. erewrite mbind_run by reflexivity.
  erewrite mbind_run by reflexivity.
  destruct (check_pus_sequence_run (pus_debug cfg) (k_malloc (tick w)) p
    (pus_seq_tx (net w)) (pus_seq_tx_n (net w)) Hp Ht) as (seq' & msgs & E & Hs).
  cbn [net w_tick]. rewrite E. erewrite mbind_run by reflexivity. cbn beta iota.
  erewrite mbind_run by reflexivity.
  match goal with |- context [emit_all _ ?w1] =>
    destruct (emit_all_run (map seq_act msgs) w1 (seq_acts_msg msgs)) as (w' & -> & Hc) end.
  exists w'. split; [done|]. eapply chatty_trans; [|exact Hc].
  split; try done; simpl.
  - intros _. unfold seq_ok. simpl. split; [lia|exact Hr].
  - exists []. by rewrite app_nil_r.
Qed.

(** ** Soundness of the receive functions, for every kernel *)

Section sound.
Context {K : Kernel} (s : svc_id) (fd : Z) (w : world) (st : list Z).
Context (Hopen : rx w !! fd = Some st) (Hbytes : bytes st) (Hlock : s ∉ held w).

(** read exactly [n] octets or drop the connection *)
Lemma wp_exact P (k : list Z -> M (option (list Z))) n w1 :
  adv fd st w w1 -> 0 < n ->
  (forall buf rest w2, st = buf ++ rest -> zlen buf = n -> adv fd rest w w2 ->
     wp (k buf) (client_end w s fd) (recv_post P w s fd) w2) ->
  wp ('(r, buf) ← recv_exact fd n;
      if negb (r =? n) then _ ← conn_drop s fd (r <? 0); mret None else k buf)
    (client_end w s fd) (recv_post P w s fd) w1.
Proof using Hopen Hbytes Hlock.
  intros Ha Hn Hk. pose proof (adv_rx _ _ _ _ Ha) as Hs.
  destruct (recv_exact_run fd n w1 st Hs) as (r & acc & rest & w2 & Hr & Ha2 & He & Hc); [lia|].
  eapply wp_bind_run; [exact Hr|]. cbn beta iota.
  pose proof (adv_trans _ _ _ _ _ _ Ha Ha2) as Ha3.
  destruct (Z.eqb_spec r n) as [->|Hne]; simpl negb; cbv iota.
  - apply (Hk acc rest w2); [done| |done]. destruct Hc as [[_ ?]|[? _]]; [done|lia].
  - by eapply wp_conn_drop.
Qed.

Lemma wp_malloc P (m : M (option (list Z))) rest w1 :
  adv fd rest w w1 ->
  (forall w2, adv fd rest w w2 -> wp m (client_end w s fd) (recv_post P w s fd) w2) ->
  wp (ok ← malloc; if negb ok then _ ← conn_drop s fd true; mret None else m)
    (client_end w s fd) (recv_post P w s fd) w1.
Proof using Hopen Hbytes Hlock.
  intros Ha Hm. eapply wp_bind_run; [reflexivity|].
  assert (Ha2 : adv fd rest w (w_tick w1)).
  { eapply adv_trans; [exact Ha|]. apply adv_tick. by eapply adv_rx. }
  destruct (k_malloc (tick w1)); simpl negb; cbv iota; [by apply Hm|by eapply wp_conn_drop].
Qed.

(** peek at a header of [n] octets or drop the connection *)
Lemma wp_header P (bad : Z -> bool) (k : list Z -> M (option (list Z))) n :
  0 < n -> (forall r, r <= n -> bad r = false -> r = n) ->
  (forall hdr rest w1, st = hdr ++ rest -> zlen hdr = n -> adv fd st w w1 ->
     wp (k hdr) (client_end w s fd) (recv_post P w s fd) w1) ->
  wp ('(r, hdr) ← recv_peek fd n;
      if bad r then _ ← conn_drop s fd (r <? 0); mret None else k hdr)
    (client_end w s fd) (recv_post P w s fd) w.
Proof using Hopen Hbytes Hlock.
  intros Hn Hbad Hk.
  destruct (recv_peek_run fd n w st Hopen) as (r & b & Hr & Hc); [lia|].
  eapply wp_bind_run; [exact Hr|]. cbn beta iota.
  pose proof (adv_tick fd st w Hopen) as Ha.
  destruct (bad r) eqn:Eb; [by eapply wp_conn_drop|].
  destruct Hc as [[-> Hr0]|(rest & -> & -> & Hle)].
  - pose proof (Hbad r ltac:(lia) Eb). lia.
  - pose proof (Hbad (zlen b) Hle Eb). by apply (Hk b rest).
Qed.

Lemma neqb_exact n r : r <= n -> negb (r =? n) = false -> r = n.
Proof using Type. destruct (Z.eqb_spec r n); [done|discriminate]. Qed.

Lemma hdr_octet hdr rest i : st = hdr ++ rest -> 0 <= i < zlen hdr ->
  exists x, rd hdr i = Some x /\ is_byte x /\
    (forall buf r, st = buf ++ r -> i < zlen buf -> octet buf i = x).
Proof using Hopen Hbytes Hlock.
  intros He Hi. destruct (rd_in hdr i Hi) as [x Hx]. exists x. split; [done|]. split.
  - eapply rd_bytes; [|exact Hx]. rewrite He in Hbytes. by apply bytes_app in Hbytes as [].
  - intros buf r Hb Hlt. eapply octet_prefix; [|exact Hx|exact Hlt]. by rewrite <- He.
Qed.

Lemma recv_pus_sound cfg : seq_ok w ->
  wp (recv_pus_packet cfg s fd) (client_end w s fd) (recv_post pus_frame w s fd) w.
Proof using Hopen Hbytes Hlock.
  intros Hseq. unfold recv_pus_packet.
  apply (wp_header pus_frame (fun r => negb (r =? 6))); [done|by apply neqb_exact|].
  intros hdr rest w1 He Hh Ha.
  destruct (hdr_octet hdr rest 4 He) as (b4 & R4 & B4 & O4); [lia|].
  destruct (hdr_octet hdr rest 5 He) as (b5 & R5 & B5 & O5); [lia|].
  eapply wp_bind_lift; [exact R4|]. eapply wp_bind_lift; [exact R5|].
  rewrite be16_lor by done. unfold is_byte in *.
  eapply (wp_malloc pus_frame); [exact Ha|]. intros w2 Ha2.
  apply (wp_exact pus_frame); [done|lia|]. intros buf rest' w3 He3 Hl3 Ha3.
  assert (Hb3 : bytes buf) by (rewrite He3 in Hbytes; by apply bytes_app in Hbytes as []).
  assert (Hseq3 : seq_ok w3). { destruct Ha3 as (_ & _ & _ & Hn & _). unfold seq_ok. by rewrite Hn. }
  destruct (check_seq_tx_run cfg buf w3 Hb3 Hseq3) as (w4 & Hr4 & Hc4).
  eapply wp_bind_run; [exact Hr4|].
  assert (Hq : quiet w w4 fd rest') by (eapply quiet_chatty; [by apply adv_quiet|done]).
  assert (Hpost : forall w5, chatty w4 w5 -> recv_post pus_frame w s fd (Some buf) w5).
  { intros w5 Hc5. exists buf, rest'. split; [by rewrite Hopen, He3|]. split.
    - split; [done|]. rewrite (O4 buf rest'), (O5 buf rest') by (done || lia). lia.
    - by eapply quiet_chatty. }
  destruct (crc_check cfg); [|apply Hpost, chatty_refl].
  rewrite <- Hl3, bridge_lut_eq. apply wp_bind.
  eapply wp_bind_lift; [apply crc_valid_steps; [done|lia]|].
  destruct (c_true _); [apply Hpost, chatty_refl|apply Hpost, chatty_msg].
Qed.

Lemma recv_raw_sound :
  wp (recv_raw_packet s fd) (client_end w s fd) (recv_post raw_frame w s fd) w.
Proof using Hopen Hbytes Hlock.
  unfold recv_raw_packet.
  assert (Hf : exists r a, fionread fd w = Ret (r, a) (w_tick w) /\ 0 <= a).
  { unfold fionread. rewrite Hopen. destruct (see _ _); eexists _, _; (split; [reflexivity|]);
      [done|apply zlen_nonneg]. }
  destruct Hf as (r & a & Hr & Ha0). eapply wp_bind_run; [exact Hr|]. cbn beta iota.
  pose proof (adv_tick fd st w Hopen) as Ha.
  destruct ((r <? 0) || (a =? 0)) eqn:E; [by eapply wp_conn_drop|].
  apply orb_false_iff in E as [_ Ea]. apply Z.eqb_neq in Ea.
  eapply (wp_malloc raw_frame); [exact Ha|]. intros w2 Ha2.
  destruct (recv_cases fd a w2 st) as [(e & Hrv & He)|(b & rest & w3 & He & Hb & Hrv & Ha3)];
    [by eapply adv_rx|lia| |].
  - eapply wp_bind_run; [exact Hrv|]. cbn beta iota. rewrite (proj2 (Z.leb_le _ _)) by done.
    eapply wp_conn_drop; [|done]. eapply adv_trans; [exact Ha2|]. apply adv_tick. by eapply adv_rx.
  - eapply wp_bind_run; [exact Hrv|]. cbn beta iota. rewrite (proj2 (Z.leb_gt _ _)) by lia.
    exists b, rest. split; [by rewrite Hopen, He|]. split.
    + split; [done|]. intros ->. zl.
    + apply adv_quiet. by eapply adv_trans.
Qed.

Lemma recv_post_mono (P P' : list Z -> list Z -> Prop) r w' :
  (forall a b, (exists rest, st = a ++ rest) -> P a b -> P' a b) ->
  recv_post P w s fd r w' -> recv_post P' w s fd r w'.
Proof using Hopen Hbytes Hlock.
  intros HP. destruct r; [|done]. intros (wire & rest & Hw & Hp & Hq).
  exists wire, rest. split; [done|]. split; [|done]. apply HP; [|done].
  exists rest. congruence.
Qed.

End sound.

Lemma quiet_adv w w1 w2 fd st rest :
  adv fd st w w1 -> quiet w1 w2 fd rest -> quiet w w2 fd rest.
Proof.
  intros (A1 & A2 & A3 & A4 & A5) [B1 B2 B3 B4 B5 Bs B6]. split; try congruence.
  - by rewrite B1, A1, insert_insert_eq.
  - intros s'. rewrite B4. unfold svc_of. by rewrite A4.
  - intros Hs. apply Bs. unfold seq_ok. by rewrite A4.
  - by rewrite <- A5.
Qed.

Lemma lost_adv w w1 w2 s fd st : adv fd st w w1 -> lost w1 w2 s fd -> lost w w2 s fd.
Proof.
  intros (A1 & A2 & A3 & A4 & A5) [B1 B2 B3 B4 B5 Bs B6]. split; try congruence.
  - by rewrite B1, A1, delete_insert_eq.
  - intros s'. rewrite B4. unfold svc_of. by rewrite A4.
  - intros Hs. apply Bs. unfold seq_ok. by rewrite A4.
  - by rewrite <- A5.
Qed.

Lemma recv_post_adv P w w1 s fd st r w' :
  rx w !! fd = Some st -> adv fd st w w1 -> recv_post P w1 s fd r w' -> recv_post P w s fd r w'.
Proof.
  intros Ho Ha. destruct r as [pkt|]; simpl.
  - intros (wire & rest & Hw & Hp & Hq). exists wire, rest.
    rewrite (adv_rx _ _ _ _ Ha) in Hw. split; [congruence|]. split; [done|].
    by eapply quiet_adv.
  - intros [Hl Hc]. split; [by eapply lost_adv|]. destruct Ha as (_ & _ & _ & Hn & _). congruence.
Qed.

Lemma client_end_adv w w1 s fd st w' :
  adv fd st w w1 -> client_end w1 s fd w' -> client_end w s fd w'.
Proof.
  intros Ha [Hc (w2 & Hl & ->)]. pose proof Ha as (_ & _ & _ & Hn & _).
  split; [congruence|]. exists w2. split; [|done]. by eapply lost_adv.
Qed.

Section sound2.
Context {K : Kernel} (s : svc_id) (fd : Z) (w : world) (st : list Z).
Context (Hopen : rx w !! fd = Some st) (Hbytes : bytes st) (Hlock : s ∉ held w).

Lemma recv_fee_sound :
  wp (recv_fee_packet s fd) (client_end w s fd) (recv_post fee_frame w s fd) w.
Proof using Hopen Hbytes Hlock.
  unfold recv_fee_packet.
  apply (wp_header s fd w st Hopen Hbytes Hlock fee_frame (fun r => negb (r =? FEE_HDR_SIZE)));
    [done|apply neqb_exact|].
  intros hdr rest w1 He Hh Ha. unfold FEE_HDR_SIZE in *.
  destruct (hdr_octet s fd w st Hopen Hbytes Hlock hdr rest 1 He) as (b1 & R1 & B1 & O1); [lia|].
  destruct (hdr_octet s fd w st Hopen Hbytes Hlock hdr rest 2 He) as (b2 & R2 & B2 & O2); [lia|].
  destruct (hdr_octet s fd w st Hopen Hbytes Hlock hdr rest 3 He) as (b3 & R3 & B3 & O3); [lia|].
  eapply wp_bind_lift; [exact R1|].
  destruct (Z.eqb_spec b1 FEE_DATA_PROTOCOL) as [E|E]; simpl negb; cbv iota.
  2: { eapply wp_mono; [apply (recv_raw_sound s fd w1 st)| |].
       - by eapply adv_rx. - done. - destruct Ha as (_ & _ & -> & _). done.
       - intros r w' Hpost. eapply recv_post_adv in Hpost; [|exact Hopen|exact Ha].
         revert Hpost. destruct r as [pkt|]; [|done]. intros (wire & rest' & Hw & [-> Hne] & Hq).
         exists pkt, rest'. split; [done|]. split; [|done]. split; [done|].
         destruct (octet pkt 1 =? FEE_DATA_PROTOCOL) eqn:E1; [|done].
         exfalso. apply Z.eqb_eq in E1. assert (Hst : st = pkt ++ rest') by congruence.
         destruct (Z.ltb_spec 1 (zlen pkt)) as [Hlt|Hge].
         + rewrite (O1 pkt rest' Hst Hlt) in E1. done.
         + unfold octet in E1. rewrite rd_out in E1 by done. discriminate E1.
       - intros w'. by eapply client_end_adv. }
  eapply wp_bind_lift; [exact R2|]. eapply wp_bind_lift; [exact R3|].
  rewrite be16_lor by done. unfold is_byte in *.
  eapply (wp_malloc s fd w st Hopen Hbytes Hlock fee_frame); [exact Ha|]. intros w2 Ha2.
  apply (wp_exact s fd w st Hopen Hbytes Hlock fee_frame); [done|lia|].
  intros buf rest' w3 He3 Hl3 Ha3. apply wp_ret. exists buf, rest'.
  split; [by rewrite Hopen, He3|]. split; [|by apply adv_quiet]. split; [done|].
  rewrite (O1 buf rest'), (O2 buf rest'), (O3 buf rest') by (done || lia).
  rewrite (proj2 (Z.eqb_eq _ _) E). unfold FEE_HDR_SIZE. lia.
Qed.

Lemma gresb_size_octets h b1 b2 b3 :
  rd h 1 = Some b1 -> rd h 2 = Some b2 -> rd h 3 = Some b3 ->
  is_byte b1 -> is_byte b2 -> is_byte b3 ->
  gresb_get_spw_data_size (At h) = Some (b1 * 65536 + b2 * 256 + b3).
Proof using Type.
  intros R1 R2 R3 B1 B2 B3. unfold gresb_get_spw_data_size, gresb_pkt_get_data_size, size_octets.
  change (off_size 0) with 1. change (off_size 1) with 2. change (off_size 2) with 3.
  cbn [load]. rewrite R1, R2, R3. cbn [mbind option_bind]. f_equal. by apply size_combine.
Qed.

Lemma recv_gresb_sound :
  wp (recv_gresb_packet s fd) (client_end w s fd) (recv_post gresb_wire w s fd) w.
Proof using Hopen Hbytes Hlock.
  unfold recv_gresb_packet.
  apply (wp_header s fd w st Hopen Hbytes Hlock gresb_wire (fun r => r <? 4)); [done| |].
  { intros r Hr Hlt. apply Z.ltb_ge in Hlt. lia. }
  intros hdr rest w1 He Hh Ha.
  destruct (hdr_octet s fd w st Hopen Hbytes Hlock hdr rest 1 He) as (b1 & R1 & B1 & O1); [lia|].
  destruct (hdr_octet s fd w st Hopen Hbytes Hlock hdr rest 2 He) as (b2 & R2 & B2 & O2); [lia|].
  destruct (hdr_octet s fd w st Hopen Hbytes Hlock hdr rest 3 He) as (b3 & R3 & B3 & O3); [lia|].
  eapply wp_bind_lift; [by apply (gresb_size_octets hdr b1 b2 b3)|].
  unfold is_byte, MAX_SPW_PACKET_SIZE in *.
  destruct (Z.gtb_spec (b1 * 65536 + b2 * 256 + b3) 0xFFFFFF); [lia|].
  eapply (wp_malloc s fd w st Hopen Hbytes Hlock gresb_wire); [exact Ha|]. intros w2 Ha2.
  apply (wp_exact s fd w st Hopen Hbytes Hlock gresb_wire); [done|lia|].
  intros buf rest' w3 He3 Hl3 Ha3.
  eapply (wp_malloc s fd w st Hopen Hbytes Hlock gresb_wire); [exact Ha3|]. intros w4 Ha4.
  eapply wp_bind_lift; [reflexivity|]. unfold off_data.
  eapply wp_bind_lift; [apply rdn_in; lia|]. apply wp_ret.
  set (pkt := take _ (drop _ buf)).
  assert (Hsplit : buf = take 4 buf ++ pkt).
  { assert (pkt = drop 4 buf) as ->; [|symmetry; apply take_drop].
    unfold pkt. apply take_ge. unfold zlen in Hl3. rewrite length_drop. lia. }
  exists buf, rest'. split; [by rewrite Hopen, He3|]. split; [|by apply adv_quiet].
  exists (take 4 buf). split; [done|].
  assert (H4 : zlen (take 4 buf) = 4) by (apply (zlen_take buf 4); lia).
  split; [done|]. rewrite (O1 buf rest'), (O2 buf rest'), (O3 buf rest') by (done || lia).
  pose proof (f_equal zlen Hsplit) as Hz. rewrite zlen_app in Hz. lia.
Qed.

End sound2.

(** ** Completeness: cooperative kernels

    The peer sends, the allocator works, a header is never split over what a
    peek sees, and during any [W] successive calls the deadline of a transfer
    does not pass.  How the stream is cut into pieces otherwise is arbitrary. *)

Class KernelGood (K : Kernel) (W : Z) : Prop := {
  good_queue : forall t, exists a, k_queue t = Queued a;
  good_peek : forall t, exists a, k_peek t = Queued a /\ (9 <= a)%nat;
  good_malloc : forall t, k_malloc t = true;
  good_clock : forall t t', (t <= t')%nat -> Z.of_nat t' <= Z.of_nat t + W ->
    (k_clock t').1 < (k_clock t).1 + NET_RECV_TIMEOUT_S
}.

Section good.
Context {K : Kernel} (W : Z) {G : KernelGood K W}.

Lemma recv_good fd n w s : rx w !! fd = Some s -> 0 < n -> s <> [] ->
  exists b rest w', s = b ++ rest /\ 0 < zlen b <= n /\
     recv fd n w = Ret (zlen b, b) w' /\ adv fd rest w w' /\ tick w' = S (tick w).
Proof using G.
  intros Hs Hn Hne. destruct (good_queue (tick w)) as [a Ha].
  destruct (recv_cases fd n w s Hs Hn) as [(e & Hr & _)|(b & rest & w' & He & Hb & Hr & Hadv)].
  - exfalso. unfold recv in Hr. rewrite Hs, Ha in Hr. simpl in Hr. destruct s as [|x s]; [done|].
    injection Hr as _ Hb _. destruct (Z.to_nat n) eqn:E; [lia|]. discriminate Hb.
  - exists b, rest, w'. split; [done|]. split; [done|]. split; [done|]. split; [done|].
    unfold recv in Hr. rewrite Hs, Ha in Hr. destruct s as [|x s]; [done|]. simpl in Hr.
    by injection Hr as _ _ <-.
Qed.

Lemma recv_loop_good t0 fd n : forall fuel w s got buf,
  rx w !! fd = Some s -> got <= n -> n - got <= zlen s ->
  (Z.to_nat (n - got) <= fuel)%nat ->
  (t0 < tick w)%nat -> Z.of_nat (tick w) + 2 * (n - got) <= Z.of_nat t0 + W ->
  exists acc rest w',
    recv_loop fuel fd n (deadline_add (k_clock t0) NET_RECV_TIMEOUT_S) got buf w
      = Ret (n, buf ++ acc) w' /\
    s = acc ++ rest /\ zlen acc = n - got /\ adv fd rest w w'.
Proof using G.
  induction fuel as [|fuel IH]; intros w s got buf Hs Hle Hav Hf Ht Hw; simpl;
    destruct (Z.ltb_spec got n); try lia.
  1, 3: exists [], s, w; rewrite app_nil_r; replace got with n by lia; split; [done|];
    split; [done|]; split; [rewrite zlen_nil; lia|]; repeat split; by rewrite insert_id.
  destruct (recv_good fd (n - got) w s) as (b & rest & w1 & -> & Hb & Hr & Ha & Ht1);
    [done|lia|intros ->; zl|].
  erewrite mbind_run by exact Hr. cbn beta iota delta [fst snd].
  rewrite (proj2 (Z.leb_gt _ _)) by lia. unfold deadline_expired.
  erewrite mbind_run by reflexivity.
  pose proof (good_clock t0 (tick w1) ltac:(lia) ltac:(lia)) as Hc.
  unfold deadline_add, NET_RECV_TIMEOUT_S in *. cbn beta iota delta [fst snd].
  rewrite Z.gtb_ltb, (proj2 (Z.ltb_ge _ _)) by lia. rewrite (proj2 (Z.eqb_neq _ _)) by lia.
  rewrite zlen_app in Hav.
  destruct (IH (w_tick w1) rest (got + zlen b) (buf ++ b)) as (acc & rest' & w' & Hrun & -> & Hl & Ha').
  { by eapply adv_rx. } { lia. } { lia. } { lia. } { simpl. lia. } { simpl. lia. }
  exists (b ++ acc), rest', w'. rewrite app_assoc. split; [exact Hrun|].
  split; [by rewrite app_assoc|]. split; [zl|].
  eapply (adv_trans _ _ _ _ (w_tick w1)); [exact Ha|exact Ha'].
Qed.

Lemma recv_exact_good fd w wire rest :
  rx w !! fd = Some (wire ++ rest) -> 2 * zlen wire + 1 <= W ->
  exists w', recv_exact fd (zlen wire) w = Ret (zlen wire, wire) w' /\ adv fd rest w w'.
Proof using G.
  intros Hs HW. pose proof (zlen_nonneg wire) as H0.
  destruct (recv_loop_good (tick w) fd (zlen wire) (Z.to_nat (zlen wire)) (w_tick w) (wire ++ rest) 0 [])
    as (acc & rest' & w' & Hr & He & Hl & Ha); simpl; try done; try lia; try zl.
  assert (acc = wire /\ rest' = rest) as [-> ->].
  { apply app_inj_1; [unfold zlen in Hl; lia|done]. }
  exists w'. split; [unfold recv_exact; by erewrite mbind_run by reflexivity|].
  eapply adv_trans; [by apply adv_tick|exact Ha].
Qed.

Lemma wp_exact_good {B} EX (Q : B -> world -> Prop) (drop : Z -> M B) (k : list Z -> M B) fd n w wire rest :
  rx w !! fd = Some (wire ++ rest) -> n = zlen wire -> 2 * n + 1 <= W ->
  (forall w2, adv fd rest w w2 -> wp (k wire) EX Q w2) ->
  wp ('(r, buf) ← recv_exact fd n; if negb (r =? n) then drop r else k buf) EX Q w.
Proof using G.
  intros Hs -> HW Hk. destruct (recv_exact_good fd w wire rest Hs HW) as (w' & Hr & Ha).
  eapply wp_bind_run; [exact Hr|]. cbn beta iota. rewrite Z.eqb_refl. by apply Hk.
Qed.

Lemma wp_malloc_good {B} EX (Q : B -> world -> Prop) (d m : M B) w :
  wp m EX Q (w_tick w) -> wp (ok ← malloc; if negb ok then d else m) EX Q w.
Proof using G.
  intros Hm. eapply wp_bind_run; [reflexivity|]. by rewrite good_malloc.
Qed.

Lemma wp_header_good {B} EX (Q : B -> world -> Prop) (bad : Z -> bool) (d : Z -> M B)
    (k : list Z -> M B) n fd w st :
  rx w !! fd = Some st -> 0 < n <= zlen st -> n <= 10 -> bad n = false ->
  (wp (k (take (Z.to_nat n) st)) EX Q (w_tick w)) ->
  wp ('(r, hdr) ← recv_peek fd n; if bad r then d r else k hdr) EX Q w.
Proof using G.
  intros Hs Hn Hn10 Hbad Hk. destruct (good_peek (tick w)) as (a & Ha & Ha9).
  assert (Hp : recv_peek fd n w = Ret (n, take (Z.to_nat n) st) (w_tick w)).
  { unfold recv_peek. rewrite Hs, Ha. destruct st as [|x st]; [zl|].
    assert (E : see (Queued a) (Some (x :: st)) = inr (take (S a) (x :: st))) by done.
    rewrite E. set (l := x :: st) in *. cbv zeta. rewrite take_take, Nat.min_l by lia.
    by rewrite zlen_take by lia. }
  eapply wp_bind_run; [exact Hp|]. cbn beta iota. by rewrite Hbad.
Qed.

End good.

(** What one framing promises to its clients: given a packet on the stream, it
    returns the packet and leaves the octets behind it. *)
Class Framing (recvf : forall K : Kernel, svc_id -> Z -> M (option (list Z)))
    (P : list Z -> list Z -> Prop) : Prop :=
  framing : forall (K : Kernel) (W : Z), KernelGood K W ->
    forall s fd w wire pkt rest,
    rx w !! fd = Some (wire ++ rest) -> bytes wire -> P wire pkt ->
    2 * zlen wire + 1 <= W -> seq_ok w -> s ∉ held w ->
    exists w', recvf K s fd w = Ret (Some pkt) w' /\ quiet w w' fd rest /\ seq_ok w'.

Definition fee_data_frame (wire pkt : list Z) : Prop :=
  fee_frame wire pkt /\ octet wire 1 = FEE_DATA_PROTOCOL.

Lemma octet_rd b i : 0 <= i < zlen b -> rd b i = Some (octet b i).
Proof. intros Hi. unfold octet. by destruct (rd_in b i Hi) as [x ->]. Qed.

Lemma octet_byte b i : bytes b -> 0 <= i < zlen b -> is_byte (octet b i).
Proof. intros Hb Hi. eapply rd_bytes; [exact Hb|by apply octet_rd]. Qed.

Lemma rd_header wire rest n i :
  0 <= i < n -> n <= zlen wire ->
  rd (take (Z.to_nat n) (wire ++ rest)) i = Some (octet wire i).
Proof.
  intros Hi Hn. rewrite rd_take by lia. rewrite rd_app_l by lia. apply octet_rd. lia.
Qed.

Lemma wp_ret_exists {A} (m : M A) w (Q : A -> world -> Prop) :
  wp m (fun _ => False) Q w -> exists a w', m w = Ret a w' /\ Q a w'.
Proof. unfold wp. destruct (m w) as [a w'|w'|]; [eauto|done|done]. Qed.

Lemma quiet_seq_ok w w1 fd rest : adv fd rest w w1 -> seq_ok w -> seq_ok w1.
Proof. intros (_ & _ & _ & Hn & _). unfold seq_ok. by rewrite Hn. Qed.

#[export] Instance pus_framing cfg :
  Framing (fun K s fd => recv_pus_packet cfg s fd) pus_frame.
Proof.
  intros K W G s fd w wire pkt rest Ho Hb [<- Hlen] HW Hseq Hl.
  assert (H7 : 7 <= zlen wire).
  { destruct (Z.leb_spec 6 (zlen wire)).
    - pose proof (octet_byte wire 4 Hb ltac:(lia)). pose proof (octet_byte wire 5 Hb ltac:(lia)).
      unfold is_byte in *. lia.
    - assert (Hz : forall i, zlen wire <= i -> octet wire i = 0)
        by (intros i Hi; unfold octet; by rewrite rd_out).
      rewrite (Hz 5) in Hlen by lia. destruct (Z.leb_spec 5 (zlen wire)).
      + pose proof (octet_byte wire 4 Hb ltac:(lia)). unfold is_byte in *. lia.
      + rewrite (Hz 4) in Hlen by lia. lia. }
  pose proof (octet_byte wire 4 Hb ltac:(lia)) as B4.
  pose proof (octet_byte wire 5 Hb ltac:(lia)) as B5.
  edestruct (wp_ret_exists (recv_pus_packet cfg s fd) w (fun r w' =>
    r = Some wire /\ quiet w w' fd rest /\ seq_ok w')) as (r & w' & Hr & -> & Hq & Hs); [|eauto].
  unfold recv_pus_packet.
  apply (wp_header_good W _ _ (fun r => negb (r =? 6)) _ _ 6 fd w (wire ++ rest)); try done; [zl|].
  eapply wp_bind_lift; [apply rd_header; lia|]. eapply wp_bind_lift; [apply rd_header; lia|].
  rewrite be16_lor by done. apply (wp_malloc_good W).
  apply (wp_exact_good W _ _ _ _ fd _ _ wire rest); [exact Ho|lia|lia|].
  intros w2 Ha. assert (Ha2 : adv fd rest w w2) by exact Ha.
  destruct (check_seq_tx_run cfg wire w2 Hb) as (w3 & Hr3 & Hc3); [by eapply quiet_seq_ok|].
  eapply wp_bind_run; [exact Hr3|].
  assert (Hpost : forall w5, chatty w3 w5 ->
    Some wire = Some wire /\ quiet w w5 fd rest /\ seq_ok w5).
  { intros w5 Hc5. split; [done|]. pose proof (chatty_trans _ _ _ Hc3 Hc5) as Hc. split.
    - eapply quiet_chatty; [by apply adv_quiet|exact Hc].
    - apply Hc. by eapply quiet_seq_ok. }
  destruct (crc_check cfg); [|apply Hpost, chatty_refl].
  replace (octet wire 4 * 256 + octet wire 5 + 1 + 6) with (zlen wire) by lia.
  rewrite bridge_lut_eq. apply wp_bind. eapply wp_bind_lift; [apply crc_valid_steps; [done|lia]|].
  destruct (c_true _); [apply Hpost, chatty_refl|apply Hpost, chatty_msg].
Qed.

#[export] Instance fee_framing : Framing (fun K s fd => recv_fee_packet s fd) fee_data_frame.
Proof.
  intros K W G s fd w wire pkt rest Ho Hb [[<- Hlen] H1] HW Hseq Hl.
  rewrite (proj2 (Z.eqb_eq _ _) H1) in Hlen. unfold FEE_HDR_SIZE in *.
  assert (H10 : 10 <= zlen wire).
  { assert (Hz : forall i, 0 <= octet wire i).
    { intros i. unfold octet. destruct (rd wire i) as [x|] eqn:E; [|done].
      apply (rd_bytes _ _ _ Hb) in E. unfold is_byte in E. simpl. lia. }
    pose proof (Hz 2). pose proof (Hz 3). lia. }
  edestruct (wp_ret_exists (recv_fee_packet s fd) w (fun r w' =>
    r = Some wire /\ quiet w w' fd rest /\ seq_ok w')) as (r & w' & Hr & -> & Hq & Hs); [|eauto].
  unfold recv_fee_packet, FEE_HDR_SIZE.
  apply (wp_header_good W _ _ (fun r => negb (r =? 10)) _ _ 10 fd w (wire ++ rest)); try done; [zl|].
  eapply wp_bind_lift; [apply rd_header; lia|]. rewrite (proj2 (Z.eqb_eq _ _) H1).
  simpl negb. cbv iota.
  eapply wp_bind_lift; [apply rd_header; lia|]. eapply wp_bind_lift; [apply rd_header; lia|].
  rewrite be16_lor by (apply octet_byte; [done|lia]). apply (wp_malloc_good W).
  apply (wp_exact_good W _ _ _ _ fd _ _ wire rest); [exact Ho|lia|lia|].
  intros w2 Ha. assert (Ha2 : adv fd rest w w2) by exact Ha. apply wp_ret.
  split; [done|]. split; [by apply adv_quiet|by eapply quiet_seq_ok].
Qed.

#[export] Instance gresb_framing : Framing (fun K s fd => recv_gresb_packet s fd) gresb_wire.
Proof.
  intros K W G s fd w wire pkt rest Ho Hb (h & Hw & Hh & Hlen) HW Hseq Hl.
  assert (H4 : zlen wire = 4 + zlen pkt) by (rewrite Hw; zl). pose proof (zlen_nonneg pkt).
  edestruct (wp_ret_exists (recv_gresb_packet s fd) w (fun r w' =>
    r = Some pkt /\ quiet w w' fd rest /\ seq_ok w')) as (r & w' & Hr & -> & Hq & Hs); [|eauto].
  unfold recv_gresb_packet.
  apply (wp_header_good W _ _ (fun r => r <? 4) _ _ 4 fd w (wire ++ rest)); try done; [zl|].
  eapply wp_bind_lift.
  { apply (gresb_size_octets _ (octet wire 1) (octet wire 2) (octet wire 3));
      try (apply rd_header; lia); apply octet_byte; (done || lia). }
  rewrite <- Hlen.
  assert (Hmax : zlen pkt <= 0xFFFFFF).
  { pose proof (octet_byte wire 1 Hb ltac:(lia)). pose proof (octet_byte wire 2 Hb ltac:(lia)).
    pose proof (octet_byte wire 3 Hb ltac:(lia)). unfold is_byte in *. lia. }
  unfold MAX_SPW_PACKET_SIZE. rewrite Z.gtb_ltb, (proj2 (Z.ltb_ge _ _)) by lia.
  apply (wp_malloc_good W).
  apply (wp_exact_good W _ _ _ _ fd _ _ wire rest); [exact Ho|lia|lia|].
  intros w2 Ha. assert (Ha2 : adv fd rest w w2) by exact Ha.
  apply (wp_malloc_good W). eapply wp_bind_lift; [reflexivity|].
  eapply wp_bind_lift.
  { pose proof (rdn_app h pkt []) as Hrd. rewrite app_nil_r, Hh, <- Hw in Hrd. exact Hrd. }
  apply wp_ret. split; [done|]. split; [by apply adv_quiet|by eapply quiet_seq_ok].
Qed.

(** ** Streams of packets *)

Section stream.
Context {K : Kernel} (W : Z) {G : KernelGood K W}.
Context (recvf : forall K : Kernel, svc_id -> Z -> M (option (list Z))).
Context (P : list Z -> list Z -> Prop) {F : Framing recvf P}.

(** [n] packets received one after the other *)
Fixpoint recv_many (n : nat) (s : svc_id) (fd : Z) : M (list (list Z)) :=
  match n with
  | O => mret []
  | S n =>
      r ← recvf K s fd;
      match r with
      | None => mret []
      | Some p => l ← recv_many n s fd; mret (p :: l)
      end
  end.

Lemma recv_many_run s fd wires pkts : Forall2 P wires pkts ->
  Forall bytes wires -> Forall (fun x => 2 * zlen x + 1 <= W) wires ->
  forall w rest, rx w !! fd = Some (concat wires ++ rest) -> seq_ok w -> s ∉ held w ->
  exists w', recv_many (length wires) s fd w = Ret pkts w' /\
    rx w' = <[fd := rest]> (rx w) /\ (forall s', svc_of w' s' = svc_of w s') /\
    held w' = held w.
Proof using F G.
  induction 1 as [|wire pkt wires pkts HP _ IH]; intros Hb HW w rest Ho Hseq Hl; simpl in *.
  { exists w. split; [done|]. by rewrite insert_id. }
  inversion_clear Hb as [|? ? Hb1 Hbs]. inversion_clear HW as [|? ? HW1 HWs].
  rewrite <- app_assoc in Ho.
  destruct (framing K W G s fd w wire pkt (concat wires ++ rest) Ho Hb1 HP HW1 Hseq Hl)
    as (w1 & Hr & [Q1 Q2 Q3 Q4 Q5 Q6] & Hseq1).
  erewrite mbind_run by exact Hr. cbn beta iota.
  destruct (IH Hbs HWs w1 rest) as (w2 & Hr2 & Hrx2 & Hs2 & Hh2);
    [rewrite Q1; apply lookup_insert_eq|done|by rewrite Q3|].
  erewrite mbind_run by exact Hr2. exists w2. split; [done|].
  split; [by rewrite Hrx2, Q1, insert_insert_eq|]. split; [|congruence].
  intros s'. by rewrite Hs2.
Qed.
End stream.

(** ** Properties *)

(** [recv_exact], whatever the kernel does: it terminates, and either it
    returns [n] with exactly the next [n] octets of the stream, or a result
    of at most zero after no more than [n] octets; the octets received are in
    every case the next ones of the stream, and nothing else changes. *)
Theorem recv_exact_spec {K : Kernel} (w : world) (fd n : Z) (st : list Z)
  (Ho : rx w !! fd = Some st) (Hn : 0 <= n) :
  exists r buf rest w', recv_exact fd n w = Ret (r, buf) w' /\
    st = buf ++ rest /\ adv fd rest w w' /\
    ((r = n /\ zlen buf = n) \/ (r <= 0 /\ zlen buf <= n)).
Proof.
  destruct (recv_exact_run fd n w st Ho Hn) as (r & buf & rest & w' & Hr & Ha & He & Hc).
  exists r, buf, rest, w'. done.
Qed.

Lemma recv_exact_spec_witness :
  exists r buf rest w', recv_exact (K := quiet_kernel) 7 2 w_one = Ret (r, buf) w' /\
    [1; 2] = buf ++ rest /\ r = 2.
Proof.
  destruct (recv_exact_spec (K := quiet_kernel) w_one 7 2 [1; 2])
    as (r & buf & rest & w' & Hr & He & _ & Hc); [vm_compute; reflexivity|lia|].
  exists r, buf, rest, w'. split; [exact Hr|]. split; [exact He|].
  vm_compute in Hr. congruence.
Defined.

(** C17: every receive function of a stream, whatever the kernel does (short
    reads, time-outs, failing allocations, a peer that closes): it never reads
    or writes out of bounds nor locks wrongly, and either returns the next
    packet of the stream, framed by its own header, with the octets behind it
    left for the next call, or the connection has been closed, removed from the
    table of the service and nothing else was touched; in client mode the
    process ends in that case. *)
Theorem recv_sound {K : Kernel} (cfg : bridge_cfg) (w : world) (s : svc_id) (fd : Z) (st : list Z)
  (Ho : rx w !! fd = Some st) (Hb : bytes st) (Hl : s ∉ held w) (Hseq : seq_ok w) :
  wp (recv_pus_packet cfg s fd) (client_end w s fd) (recv_post pus_frame w s fd) w /\
  wp (recv_fee_packet s fd) (client_end w s fd) (recv_post fee_frame w s fd) w /\
  wp (recv_gresb_packet s fd) (client_end w s fd) (recv_post gresb_wire w s fd) w /\
  wp (recv_raw_packet s fd) (client_end w s fd) (recv_post raw_frame w s fd) w.
Proof.
  repeat apply conj.
  - by apply (recv_pus_sound s fd w st).
  - by apply (recv_fee_sound s fd w st).
  - by apply (recv_gresb_sound s fd w st).
  - by apply (recv_raw_sound s fd w st).
Qed.

(** a configuration with the members of the network side as given, and the
    other ones as the option parser leaves them by default *)
Definition ex_net_cfg (m : net_mode) (skip : Z)
    (pus fee mon rmap gresb sniff sniffg dbg crc : bool) (link : Z) : bridge_cfg :=
  mk_cfg m 1234 2345 1 0 1 link 0 false 10 0 skip 0 pus fee false mon rmap gresb sniff sniffg
    dbg false crc "0.0.0.0" (replicate 256 0) (Some NetPktSink).

Definition ex_cfg : bridge_cfg :=
  ex_net_cfg MODE_SERVER 0 true false false false false false false true true 0.

Definition w_pus (st : list Z) : world :=
  run_w (accept_step SvcData (AcceptFd 7 st) (w0 false)) (w0 false).

Lemma recv_sound_witness :
  wp (recv_pus_packet (K := quiet_kernel) ex_cfg SvcData 7)
    (client_end (w_pus [8; 1; 0xc0; 0; 0; 0; 9; 8]) SvcData 7)
    (recv_post pus_frame (w_pus [8; 1; 0xc0; 0; 0; 0; 9; 8]) SvcData 7)
    (w_pus [8; 1; 0xc0; 0; 0; 0; 9; 8]).
Proof.
  refine (proj1 (recv_sound (K := quiet_kernel) ex_cfg (w_pus [8; 1; 0xc0; 0; 0; 0; 9; 8])
    SvcData 7 [8; 1; 0xc0; 0; 0; 0; 9; 8] _ _ _ _)).
  - vm_compute. reflexivity.
  - apply bytes_check. reflexivity.
  - vm_compute. apply not_elem_of_nil.
  - vm_compute. split; split; discriminate.
Defined.

(** C18: framing by the length fields, with a kernel that shows the headers whole,
    keeps the deadline of every transfer, and with which allocations succeed
    ([KernelGood]; [pus_split_header_drops] is what a split header does): any sequence
    of PUS packets, of FEE data packets, or of GRESB packets that a peer has written
    back to back is received as exactly this sequence of packets, into however many
    pieces the octets of the packets are cut on the way and whatever follows on the
    stream. *)
Theorem framing_stream {K : Kernel} (W : Z) {G : KernelGood K W} (cfg : bridge_cfg)
  (s : svc_id) (fd : Z) (w : world) (wires pkts : list (list Z)) (rest : list Z)
  (Hb : Forall bytes wires) (HW : Forall (fun x => 2 * zlen x + 1 <= W) wires)
  (Ho : rx w !! fd = Some (concat wires ++ rest)) (Hseq : seq_ok w) (Hl : s ∉ held w) :
  (Forall2 pus_frame wires pkts -> exists w',
     recv_many (fun K s fd => recv_pus_packet cfg s fd) (length wires) s fd w = Ret pkts w' /\
     rx w' !! fd = Some rest) /\
  (Forall2 fee_data_frame wires pkts -> exists w',
     recv_many (fun K s fd => recv_fee_packet s fd) (length wires) s fd w = Ret pkts w' /\
     rx w' !! fd = Some rest) /\
  (Forall2 gresb_wire wires pkts -> exists w',
     recv_many (fun K s fd => recv_gresb_packet s fd) (length wires) s fd w = Ret pkts w' /\
     rx w' !! fd = Some rest).
Proof.
  assert (Hgen : forall recvf P, Framing recvf P -> Forall2 P wires pkts -> exists w',
    recv_many recvf (length wires) s fd w = Ret pkts w' /\ rx w' !! fd = Some rest).
  { intros recvf P F HP.
    destruct (recv_many_run W recvf P s fd wires pkts HP Hb HW w rest Ho Hseq Hl)
      as (w' & Hr & Hrx & _). exists w'. split; [exact Hr|]. rewrite Hrx. apply lookup_insert_eq. }
  repeat apply conj; apply Hgen; apply _.
Qed.

#[export] Instance quiet_kernel_good W : KernelGood quiet_kernel W.
Proof.
  split; simpl; intros; try (eexists; done); try done.
  eexists. split; [done|]. lia.
Qed.

(** two PUS packets of eight and seven octets, delivered octet by octet *)
Lemma framing_stream_witness :
  exists w', recv_many (K := quiet_kernel) (fun K s fd => recv_pus_packet ex_cfg s fd) 2 SvcData 7
      (w_pus ([8; 1; 0xc0; 0; 0; 1; 9; 8] ++ [8; 1; 0xc0; 1; 0; 0; 7] ++ [5]))
    = Ret [[8; 1; 0xc0; 0; 0; 1; 9; 8]; [8; 1; 0xc0; 1; 0; 0; 7]] w' /\ rx w' !! 7 = Some [5].
Proof.
  refine (proj1 (framing_stream (K := quiet_kernel) 100 ex_cfg SvcData 7
    (w_pus ([8; 1; 0xc0; 0; 0; 1; 9; 8] ++ [8; 1; 0xc0; 1; 0; 0; 7] ++ [5]))
    [[8; 1; 0xc0; 0; 0; 1; 9; 8]; [8; 1; 0xc0; 1; 0; 0; 7]]
    [[8; 1; 0xc0; 0; 0; 1; 9; 8]; [8; 1; 0xc0; 1; 0; 0; 7]] [5] _ _ _ _ _) _).
  - repeat (apply Forall_cons_2; [apply bytes_check; reflexivity|]). apply Forall_nil_2.
  - repeat (apply Forall_cons_2; [vm_compute; discriminate|]). apply Forall_nil_2.
  - vm_compute. reflexivity.
  - vm_compute. split; split; discriminate.
  - vm_compute. apply not_elem_of_nil.
  - repeat constructor.
Defined.

(** The header is peeked at, not waited for. When fewer than the six octets
    of a CCSDS header have arrived at the time of the call, in server mode the
    connection is closed and forgotten, although the stream may carry a complete
    packet. *)
Theorem pus_split_header_drops {K : Kernel} (cfg : bridge_cfg) (w : world) (s : svc_id) (fd : Z)
  (st : list Z) (a : nat)
  (Ho : rx w !! fd = Some st) (Hl : s ∉ held w) (Hserver : is_client (net w) = false)
  (Ha : k_peek (tick w) = Queued a) (Hshort : (a < 5)%nat) :
  exists w', recv_pus_packet cfg s fd w = Ret None w' /\ lost w w' s fd.
Proof.
  assert (Hp : exists r b, recv_peek fd 6 w = Ret (r, b) (w_tick w) /\ r <> 6).
  { unfold recv_peek. rewrite Ho, Ha. destruct st as [|x st]; [eexists _, _; by split|].
    eexists _, _. split; [reflexivity|]. unfold zlen. rewrite !length_take. lia. }
  destruct Hp as (r & b & Hp & Hr). unfold recv_pus_packet.
  erewrite mbind_run by exact Hp. cbn beta iota. rewrite (proj2 (Z.eqb_neq _ _) Hr).
  cbn beta iota delta [negb].
  exists (dropped (w_tick w) s fd (drop_act fd (r <? 0))). split.
  - erewrite mbind_run; [reflexivity|]. rewrite conn_drop_run by exact Hl.
    unfold after_drop. simpl. by rewrite Hserver.
  - eapply dropped_lost; [by eapply adv_quiet, adv_tick|apply drop_act_msg].
Qed.

(** three of the six octets have arrived, the rest is on its way *)
Definition slow_kernel : Kernel :=
  {| k_queue := fun _ => Queued 0; k_peek := fun _ => Queued 2; k_send := fun _ => Accepted 0;
     k_sendto := fun _ => true; k_clock := fun _ => (0, 0); k_malloc := fun _ => true;
     k_select := fun _ => None; k_socket := fun _ => 3; k_setup := fun _ => true;
     k_intr_max := 0 |}.

Lemma pus_split_header_drops_witness :
  exists w', recv_pus_packet (K := slow_kernel) ex_cfg SvcData 7 (w_pus [8; 1; 0xc0; 0; 0; 0; 7])
    = Ret None w' /\ lost (w_pus [8; 1; 0xc0; 0; 0; 0; 7]) w' SvcData 7.
Proof.
  apply (pus_split_header_drops (K := slow_kernel) ex_cfg (w_pus [8; 1; 0xc0; 0; 0; 0; 7])
    SvcData 7 [8; 1; 0xc0; 0; 0; 0; 7] 2).
  - vm_compute. reflexivity.
  - vm_compute. apply not_elem_of_nil.
  - reflexivity.
  - reflexivity.
  - lia.
Defined.
