(* ===== verification/Net.v ===== *)
(** * Forwarding between the network and SpaceWire (src/net.c)

    The handlers run by the polling threads for a readable descriptor, the sink
    the SpaceWire side calls for a received packet, and one iteration of the
    polling loop.  Calls into the SpaceWire side and the debug printouts are
    actions of the log. *)

From Stdlib Require Import String List.
From stdpp Require Import base tactics option list list_numbers gmap sets.
From Stdlib Require Import ZArith Lia Bool.
From S2P Require Import Prelude.
From S2P Require Import Gresb.
From S2P Require Import Rmap.
From S2P Require Import Pus.
From S2P Require Import Sys.
From S2P Require Import NetConn.
From S2P Require Import NetRecv.

Local Open Scope Z_scope.

Section net.
Context {K : Kernel}.

(** ** Sending *)

Fixpoint send_loop (fuel : nat) (fd : Z) (b : list Z) : M Z :=
  match b with
  | [] => mret 0
  | _ =>
      match fuel with
      | O => stuck
      | S fuel =>
          '(n, intr) ← send fd b;
          if n =? -1 then
            if (intr : bool) then send_loop fuel fd b
            else _ ← emit_act (AMsg "send_all" []); mret (-1)
          else send_loop fuel fd (drop (Z.to_nat n) b)
      end
  end.

(** every call takes an octet, but for the interrupted ones *)
Definition send_all (fd : Z) (b : list Z) : M Z :=
  send_loop (length b * S k_intr_max) fd b.

(** one descriptor of a loop over the connections of a service *)
Definition push_one (dropf : svc_id -> Z -> bool -> M ()) (s : svc_id) (b : list Z) (fd : Z) : M () :=
  member ← fd_isset s fd;
  if negb member then mret () else
  r ← send_all fd b;
  if r =? -1 then dropf s fd true else mret ().

Fixpoint push_loop (dropf : svc_id -> Z -> bool -> M ()) (s : svc_id) (b : list Z) (fds : list Z)
  : M () :=
  match fds with
  | [] => mret ()
  | fd :: fds => _ ← push_one dropf s b fd; push_loop dropf s b fds
  end.

(** [for (fd = 0; fd < svc->nfds; fd++)] under the lock of the service; nothing
    the loop does changes [nfds] *)
Definition push_all (dropf : svc_id -> Z -> bool -> M ()) (s : svc_id) (b : list Z) : M () :=
  _ ← lock s;
  v ← get_svc s;
  _ ← push_loop dropf s b (seqZ 0 (nfds v));
  unlock s.

(** [gresb_create_host_data_pkt] with its [malloc], and the octets that
    [gresb_get_host_data_pkt_size] covers; [None] is the failed allocation *)
Definition gresb_wrap (b : list Z) : M (option (list Z)) :=
  ok ← malloc;
  p ← lift (gresb_create_host_data_pkt
              (if (ok : bool) then At (replicate (Z.to_nat (GRESB_HDR_SIZE + zlen b)) 0) else NULL)
              (At b) (zlen b));
  match p with
  | NULL => mret None
  | At o =>
      n ← lift (gresb_get_host_data_pkt_size p);
      d ← lift (rdn o 0 n);
      mret (Some d)
  end.

Definition sniff_push (cfg : bridge_cfg) (b : list Z) : M () :=
  v ← get_svc SvcSniff;
  if negb (c_true (sock_fd v)) then mret () else
  if sniff_gresb cfg then
    out ← gresb_wrap b;
    match out with
    | None => emit_act (AMsg "Error creating GRESB packet, dropping the sniffed packet\n" [])
    | Some d => push_all conn_drop_locked SvcSniff d
    end
  else push_all conn_drop_locked SvcSniff b.

Definition gresb_push_rx_clients (cfg : bridge_cfg) (b : list Z) : M () :=
  v ← get_svc SvcGresbRx;
  if negb (bool_decide (mode cfg = MODE_SERVER)) || negb (c_true (sock_fd v)) then mret () else
  out ← gresb_wrap b;
  match out with
  | None => emit_act (AMsg "Error creating GRESB packet, dropping the SpW packet\n" [])
  | Some d => push_all conn_drop_locked SvcGresbRx d
  end.

Definition net_forward_to_clients (cfg : bridge_cfg) (b : list Z) : M () :=
  _ ← sniff_push cfg b;
  match mode cfg with
  | MODE_DGRAM =>
      if enable_gresb cfg then
        out ← gresb_wrap b;
        match out with
        | None => emit_act (AMsg "Error creating GRESB packet, dropping the SpW packet\n" [])
        | Some d => _ ← dgram_send_all SvcData d; gresb_push_rx_clients cfg b
        end
      else dgram_send_all SvcData b
  | _ =>
      if enable_gresb cfg then
        out ← gresb_wrap b;
        match out with
        | None => emit_act (AMsg "Error creating GRESB packet, dropping the SpW packet\n" [])
        | Some d => _ ← push_all conn_drop_locked SvcData d; gresb_push_rx_clients cfg b
        end
      else push_all conn_drop_locked SvcData b
  end.

(** ** Network to SpaceWire *)

Definition dbg_act (d : dbg) : act := AMsg (fmt d) (args d).

(** [rmap_parse_pkt] prints in a verbose build *)
Definition parse_rmap (b : list Z) : M () :=
  out ← lift (rmap_parse_pkt b (zlen b));
  emit_all (map dbg_act out).

(** [spw_debug_print] or [pus_debug_print]: here an action of the log, as they change
    nothing.  What they read and print is in [Debug]: the printer of PUS packets reads
    behind the end of a short packet, [DebugSpec.pus_debug_print_reads] *)
Definition debug_print (cfg : bridge_cfg) (dir : string) (b : list Z) : M () :=
  emit_act (ADebug (if enable_gresb cfg then "spw_debug_print" else "pus_debug_print") dir b).

Definition spw_send_packet (b : list Z) : M () := emit_act (ASpw b).

Definition net_to_spw (cfg : bridge_cfg) (s : svc_id) (fd : Z) : M () :=
  r ← (if decide (mode cfg = MODE_DGRAM) then
         r ← recv_dgram_packet;
         mret (match r with None => None | Some (b, c) => Some (b, Some c) end)
       else
         r ← (if interpret_pus cfg then recv_pus_packet cfg s fd
              else if interpret_fee cfg then recv_fee_packet s fd
              else if enable_gresb cfg then recv_gresb_packet s fd
              else recv_raw_packet s fd);
         mret (match r with None => None | Some b => Some (b, None) end));
  match r with
  | None => mret ()
  | Some (b, c) =>
      _ ← sniff_push cfg b;
      _ ← (match c with Some c => dgram_add_client s c | None => mret () end);
      if enable_monitor cfg then mret () else
      _ ← debug_print cfg "NET->SPW" b;
      _ ← parse_rmap b;
      spw_send_packet b
  end.

Definition gresb_tx_to_spw (cfg : bridge_cfg) (s : svc_id) (fd : Z) : M () :=
  r ← recv_gresb_packet s fd;
  match r with
  | None => mret ()
  | Some b =>
      _ ← sniff_push cfg b;
      if enable_monitor cfg then mret () else
      _ ← emit_act (ADebug "spw_debug_print" "NET->SPW" b);
      _ ← parse_rmap b;
      spw_send_packet b
  end.

(** every round that goes on has taken an octet of the stream *)
Fixpoint discard_loop (fuel : nat) (s : svc_id) (fd : Z) : M () :=
  match fuel with
  | O => stuck
  | S fuel =>
      '(n, _, again) ← recv_dontwait fd 4096;
      if n <? 0 then if (again : bool) then mret () else conn_drop s fd true
      else if n =? 0 then conn_drop s fd false
      else discard_loop fuel s fd
  end.

Definition gresb_rx_discard (s : svc_id) (fd : Z) : M () := fun w =>
  discard_loop (S (length (default [] (rx w !! fd)))) s fd w.

(** ** The simplified RMAP protocol *)

Definition rmap_net_to_spw (s : svc_id) (fd : Z) : M () :=
  '(n, tmp) ← recv_peek fd 10;
  if negb (n =? 10) then rmap_conn_drop s fd (n <? 0) else
  dst ← lift (rd tmp 0);
  op ← lift (rd tmp 1);
  a ← lift (get_be32 tmp 2);
  size ← lift (get_be32 tmp 6);
  if size >? MAX_SPW_PACKET_SIZE then
    _ ← emit_act (AMsg "Oversized RMAP request, %zu bytes\n" [size]);
    rmap_conn_drop s fd false else
  ok ← malloc;
  if negb ok then rmap_conn_drop s fd true else
  '(n, rec) ← recv_exact fd (size + 10);
  if n <=? 0 then rmap_conn_drop s fd (n <? 0) else
  if negb (n =? size + 10) then rmap_conn_drop s fd false else
  if negb (c_true op) then emit_act (ARmapCmd dst false a [])
  else
    data ← lift (rdn rec 10 size);
    emit_act (ARmapCmd dst true a data).

(** the ten octets in front of the data, then the data: a store at an index
    beyond the [n] octets of [tmp] is undefined *)
Definition pseudo_reply (pkt : rmap_pkt) (n : Z) : option (list Z) :=
  let tmp := replicate (Z.to_nat n) 0 in
  tmp ← wr tmp 0 (dst pkt);
  tmp ← wr tmp 1 (Z.land (ri_cmd (instruction pkt)) RMAP_CMD_BIT_WRITE);
  tmp ← wr tmp 2 (u8 (Z.shiftr (addr pkt) 24));
  tmp ← wr tmp 3 (u8 (Z.shiftr (addr pkt) 16));
  tmp ← wr tmp 4 (u8 (Z.shiftr (addr pkt) 8));
  tmp ← wr tmp 5 (u8 (addr pkt));
  tmp ← wr tmp 6 (u8 (Z.shiftr (data_len pkt) 24));
  tmp ← wr tmp 7 (u8 (Z.shiftr (data_len pkt) 16));
  tmp ← wr tmp 8 (u8 (Z.shiftr (data_len pkt) 8));
  tmp ← wr tmp 9 (u8 (data_len pkt));
  foldl (fun tmp i => tmp ← tmp; v ← load (data pkt) i; wr tmp (10 + i) v)
    (Some tmp) (seqZ 0 (data_len pkt)).

(** [len] octets from [off] on, as a buffer of its own *)
Definition tail_from (b : list Z) (off : Z) : list Z := drop (Z.to_nat off) b.

Definition rmap_reply_to_clients (cfg : bridge_cfg) (b : list Z) : M () :=
  ok1 ← malloc;
  ok2 ← malloc;
  ok3 ← malloc;
  let p := tail_from b (skip_header_bytes cfg) in
  '(_, pkt) ← lift (rmap_pkt_from_buffer (mk_allocs ok1 ok2 ok3) 0 (At p) (zlen p));
  match pkt with
  | None => mret ()
  | Some pkt =>
      _ ← parse_rmap p;
      let n := 1 + 1 + 4 + 4 in
      let n := if c_true (Z.land (ri_cmd (instruction pkt)) RMAP_CMD_BIT_WRITE)
               then n + data_len pkt else n in
      ok ← malloc;
      if negb ok then mret () else
      tmp ← lift (pseudo_reply pkt n);
      push_all rmap_conn_drop_locked SvcRmap tmp
  end.

(** ** SpaceWire to network *)

Definition check_seq_rx (cfg : bridge_cfg) (pkt : list Z) : M () :=
  alloc ← malloc;
  n ← get_net;
  '(seq, cnt, msgs) ← lift (check_pus_sequence (pus_debug cfg) alloc (At pkt) (zlen pkt)
                              (pus_seq_rx n) (pus_seq_rx_n n));
  _ ← put_net (mk_net (is_client n) (client_sock n) (pus_seq_tx n) (pus_seq_tx_n n)
                 seq cnt (svcs n));
  emit_all (map seq_act msgs).

Definition net_pkt_sink (cfg : bridge_cfg) (b : list Z) : M () :=
  let skip := skip_header_bytes cfg in
  if zlen b <=? skip then
    emit_act (AMsg "skip_header_bytes is %zu, dropping packet\n" [skip])
  else
    let p := tail_from b skip in
    _ ← debug_print cfg "SPW->NET" p;
    _ ← (if interpret_pus cfg && crc_check cfg then
           v ← lift (pus_pkt_crc_valid bridge_lut (At p) (zlen p));
           if c_true v then mret () else emit_act (AMsg "CRC error on SPW->NET packet\n" [])
         else mret ());
    _ ← parse_rmap p;
    x ← (if enable_rmap cfg && (zlen b >? skip + 1) then lift (rd b (skip + 1)) else mret 0);
    if x =? 0x1 then rmap_reply_to_clients cfg b else
    _ ← (if interpret_pus cfg then check_seq_rx cfg p else mret ());
    net_forward_to_clients cfg p.

(** ** Polling *)

Fixpoint serve (handle : svc_id -> Z -> M ()) (s : svc_id) (fds : list Z) : M () :=
  match fds with
  | [] => mret ()
  | fd :: fds => _ ← handle s fd; serve handle s fds
  end.

(** one iteration of [poll_socket]; [ready] is [spw_link_ready] *)
Definition poll_step (ready : bool) (handle : svc_id -> Z -> M ()) (s : svc_id) : M () :=
  if negb ready then mret () else
  _ ← lock s;
  v ← get_svc s;
  let readset := conn_set v in
  let n := nfds v in
  _ ← unlock s;
  readset ← select n readset;
  if bool_decide (readset = ∅) then mret () else
  _ ← lock s;
  v ← get_svc s;
  let readset := filter (fun fd => fd ∈ conn_set v) readset in
  _ ← unlock s;
  serve handle s (filter (fun fd => fd ∈ readset) (seqZ 0 n)).

End net.

(** ** Specification of the pushes *)

(** the octets a log says were sent on [fd] *)
Definition sent_on (fd : Z) (l : list act) : list Z :=
  concat (map (fun a => match a with
                        | ASend fd' b => if fd' =? fd then b else []
                        | _ => []
                        end) l).

Lemma sent_on_app fd l k : sent_on fd (l ++ k) = sent_on fd l ++ sent_on fd k.
Proof. unfold sent_on. by rewrite map_app, concat_app. Qed.

(** only sends, closes and messages *)
Definition push_act (a : act) : Prop :=
  match a with ASend _ _ | AClose _ | AMsg _ _ => True | _ => False end.

(** sends on descriptor [fd] and messages *)
Definition send_act (fd : Z) (a : act) : Prop :=
  match a with ASend fd' _ => fd' = fd | AMsg _ _ => True | _ => False end.

(** the state apart from the tick and the log *)
Definition same_state (w w' : world) : Prop :=
  rx w' = rx w /\ dgq w' = dgq w /\ held w' = held w /\ net w' = net w.

Lemma split_taken {A} n (l : list A) : l = take n l ++ drop (Z.to_nat (zlen (take n l))) l.
Proof.
  unfold zlen. rewrite Nat2Z.id, length_take. destruct (Nat.le_gt_cases n (length l)).
  - rewrite Nat.min_l by lia. by rewrite take_drop.
  - rewrite Nat.min_r, drop_ge, take_ge by lia. by rewrite app_nil_r.
Qed.

Section pushes.
Context {K : Kernel} {L : KernelLive K}.

(** the kernel refuses some octets for good *)
Definition send_fails : Prop := exists t, k_send t = SendFailed.

Lemma send_loop_run fd : forall n b fuel w,
  (length b <= n)%nat -> (length b * S k_intr_max <= fuel)%nat ->
  exists r w' l, send_loop fuel fd b w = Ret r w' /\ same_state w w' /\ log w' = log w ++ l /\
    Forall (send_act fd) l /\
    ((r = 0 /\ sent_on fd l = b) \/
     (r = -1 /\ send_fails /\ exists rest, rest <> [] /\ b = sent_on fd l ++ rest)).
Proof.
  induction n as [|n IH]; intros b fuel w Hn Hf.
  { destruct b; [|simpl in Hn; lia]. exists 0, w, []. destruct fuel; simpl; rewrite app_nil_r;
      repeat split; auto using Forall_nil_2. }
  destruct b as [|x b].
  { exists 0, w, []. destruct fuel; simpl; rewrite app_nil_r; repeat split; auto using Forall_nil_2. }
  destruct (k_intr_bound (tick w)) as (i & Hi & Hne).
  assert (Hf' : (i + length b * S k_intr_max < fuel)%nat) by (simpl in Hf; lia).
  clear Hf Hi. revert w fuel Hne Hf'. induction i as [i IHi] using lt_wf_ind.
  intros w fuel Hne Hf'. destruct fuel as [|fuel]; [lia|]. cbn [send_loop].
  unfold mbind, M_bind, send. destruct (k_send (tick w)) as [a| |] eqn:E.
  - set (d := take (S a) (x :: b)). set (w1 := w_tick (w_log w [ASend fd d])).
    cbn beta iota zeta. assert (Hd : 0 < zlen d) by (unfold d; simpl; zl).
    rewrite (proj2 (Z.eqb_neq _ _)) by lia.
    destruct (IH (drop (Z.to_nat (zlen d)) (x :: b)) fuel w1)
      as (r & w' & l & Hr & Hs & Hlog & Hal & Hc).
    { rewrite length_drop. simpl in *. lia. }
    { rewrite length_drop. transitivity (length b * S k_intr_max)%nat; [|lia].
      apply Nat.mul_le_mono_r. simpl. lia. }
    exists r, w', ([ASend fd d] ++ l). split; [exact Hr|].
    assert (Hso : sent_on fd ([ASend fd d] ++ l) = d ++ sent_on fd l).
    { rewrite sent_on_app. unfold sent_on at 1. simpl. by rewrite Z.eqb_refl, app_nil_r. }
    pose proof (split_taken (S a) (x :: b)) as Hsplit. fold d in Hsplit.
    split; [exact Hs|]. split; [rewrite Hlog; simpl; by rewrite <- app_assoc|].
    split; [by apply Forall_cons_2|]. rewrite Hso.
    destruct Hc as [[-> Hc]|[-> (Hsf & rest & Hrest & Hc)]].
    + left. split; [done|]. rewrite Hc. by symmetry.
    + right. split; [done|]. split; [done|]. exists rest. split; [done|].
      by rewrite <- app_assoc, <- Hc.
  - destruct i as [|i]; [by rewrite Nat.add_0_r in Hne|].
    destruct (IHi i ltac:(lia) (w_tick w) fuel) as (r & w' & l & Hr & Hs & Hrest).
    { simpl. by rewrite Nat.add_succ_r in Hne. } { lia. }
    exists r, w', l. split; [exact Hr|]. split; [exact Hs|exact Hrest].
  - exists (-1), (w_log (w_tick w) [AMsg "send_all" []]), [AMsg "send_all" []].
    split; [done|]. split; [done|]. split; [done|]. split; [by apply Forall_cons_2|].
    right. split; [done|]. split; [by exists (tick w)|]. by exists (x :: b).
Qed.

Lemma send_all_run fd b w :
  exists r w' l, send_all fd b w = Ret r w' /\ same_state w w' /\ log w' = log w ++ l /\
    Forall (send_act fd) l /\
    ((r = 0 /\ sent_on fd l = b) \/
     (r = -1 /\ send_fails /\ exists rest, rest <> [] /\ b = sent_on fd l ++ rest)).
Proof using L. by eapply send_loop_run. Qed.

(** what both drop functions have in common; [exits]: the process may end *)
Definition dropper (exits : bool) (dropf : svc_id -> Z -> bool -> M ()) : Prop :=
  forall w s fd,
  (exists m, is_msg m /\ dropf s fd true w = Ret () (dropped w s fd m)) \/
  (exits && is_client (net w) = true /\ exists w', dropf s fd true w = Exit w').

Lemma conn_dropper : dropper true conn_drop_locked.
Proof using Type.
  intros w s fd. rewrite conn_drop_locked_run. unfold after_drop. simpl.
  destruct (is_client (net w)); [right; by eauto|left]. by exists (drop_act fd true).
Qed.

Lemma rmap_dropper : dropper false rmap_conn_drop_locked.
Proof using Type.
  intros w s fd. left. exists (rmap_drop_act fd true). by rewrite rmap_conn_drop_locked_run.
Qed.

(** the fate of a connection of the service *)
Definition delivered (w w' : world) (s : svc_id) (b : list Z) (l : list act) (fd : Z) : Prop :=
  sent_on fd l = b /\ fd ∈ conn_set (svc_of w' s) /\ rx w' !! fd = rx w !! fd.

Definition failed (w' : world) (s : svc_id) (b : list Z) (l : list act) (fd : Z) : Prop :=
  (send_fails /\ exists rest, rest <> [] /\ b = sent_on fd l ++ rest) /\
  ~ (fd ∈ conn_set (svc_of w' s)) /\ rx w' !! fd = None /\ In (AClose fd) l.

Definition untouched (w w' : world) (s : svc_id) (l : list act) (fd : Z) : Prop :=
  sent_on fd l = [] /\ (fd ∈ conn_set (svc_of w' s) <-> fd ∈ conn_set (svc_of w s)) /\
  rx w' !! fd = rx w !! fd.

(** [b] was pushed to the connections of [s] among [fds], with the log [l] *)
Record pushed (w w' : world) (s : svc_id) (b : list Z) (fds : list Z) (l : list act) : Prop := {
  p_log : log w' = log w ++ l;
  p_acts : Forall push_act l;
  p_dgq : dgq w' = dgq w;
  p_held : held w' = held w;
  p_client : is_client (net w') = is_client (net w);
  p_seq : seq_ok w -> seq_ok w';
  p_other : forall s', s' <> s -> svc_of w' s' = svc_of w s';
  p_self : nfds (svc_of w' s) = nfds (svc_of w s) /\ sock_fd (svc_of w' s) = sock_fd (svc_of w s) /\
           clients (svc_of w' s) = clients (svc_of w s) /\
           clients_cap (svc_of w' s) = clients_cap (svc_of w s);
  p_members : forall fd, fd ∈ fds -> fd ∈ conn_set (svc_of w s) ->
    delivered w w' s b l fd \/ failed w' s b l fd;
  p_others : forall fd, ~ (fd ∈ fds /\ fd ∈ conn_set (svc_of w s)) -> untouched w w' s l fd
}.

Lemma sent_on_send_act fd fd' l : Forall (send_act fd) l -> fd' <> fd -> sent_on fd' l = [].
Proof using Type.
  intros Hl Hne. induction Hl as [|a l Ha _ IH]; [done|].
  rewrite (sent_on_app _ [a] l : sent_on fd' (a :: l) = _), IH, app_nil_r.
  destruct a; try done. simpl in Ha. subst. unfold sent_on. simpl.
  by rewrite (proj2 (Z.eqb_neq _ _)) by done.
Qed.

Lemma send_acts_push fd l : Forall (send_act fd) l -> Forall push_act l.
Proof using Type. intros H. eapply Forall_impl; [exact H|]. by intros []. Qed.

Lemma svc_same w w' s : same_state w w' -> svc_of w' s = svc_of w s.
Proof using Type. intros (_ & _ & _ & Hn). unfold svc_of. by rewrite Hn. Qed.

Lemma same_seq w w' : same_state w w' -> seq_ok w -> seq_ok w'.
Proof using Type. intros (_ & _ & _ & Hn). unfold seq_ok. by rewrite Hn. Qed.

Lemma push_one_run ex dropf s b fd w : dropper ex dropf ->
  wp (push_one dropf s b fd) (fun _ => ex && is_client (net w) = true)
    (fun _ w' => exists l, pushed w w' s b [fd] l) w.
Proof using L.
  intros Hdrop. unfold push_one. eapply wp_bind_run; [reflexivity|].
  fold (svc_of w s).
  assert (Hsingle : forall fd', fd' ∈ [fd] <-> fd' = fd).
  { intros fd'. apply list_elem_of_singleton. }
  destruct (decide (fd ∈ conn_set (svc_of w s))) as [Hin|Hin].
  2: { rewrite bool_decide_false by done. simpl negb. cbv iota. apply wp_ret. exists [].
       split; try done; try (intros fd'; rewrite Hsingle); try (by rewrite app_nil_r);
         try by apply Forall_nil_2.
       intros -> ?. done. }
  rewrite bool_decide_true by done. cbn beta iota delta [negb].
  destruct (send_all_run fd b w) as (r & w1 & l & Hr & Hs & Hlog & Hal & Hc).
  eapply wp_bind_run; [exact Hr|].
  pose proof Hs as (S1 & S2 & S3 & S4).
  destruct Hc as [[-> Hb]|[-> (Hsf & rest & Hrest & Hb)]].
  - simpl Z.eqb. cbv iota. apply wp_ret. exists l.
    split; try (intros fd'; rewrite Hsingle); rewrite ?(svc_same w w1 s Hs); try done.
    + by eapply send_acts_push.
    + by rewrite S4.
    + by apply same_seq.
    + intros s' _. by apply svc_same.
    + intros -> _. left. split; [done|]. rewrite (svc_same w w1 s Hs). by rewrite S1.
    + intros Hn. split; [|by rewrite (svc_same w w1 s Hs), S1].
      eapply sent_on_send_act; [done|]. intros ->. by apply Hn.
  - simpl Z.eqb. cbv iota. unfold wp.
    destruct (Hdrop w1 s fd) as [(m & Hm & ->)|(Hcl & w' & ->)]; [|by rewrite S4 in Hcl].
    exists (l ++ [m; AClose fd]).
    assert (Hsent : forall fd', sent_on fd' (l ++ [m; AClose fd]) = sent_on fd' l).
    { intros fd'. rewrite sent_on_app. destruct m; try done. apply app_nil_r. }
    split; try (intros fd'; rewrite Hsingle); try done.
    + simpl. rewrite Hlog. by rewrite <- !app_assoc.
    + apply Forall_app. split; [by eapply send_acts_push|].
      apply Forall_cons_2; [by destruct m|]. by apply Forall_cons_2.
    + simpl. by rewrite S4.
    + intros Hseq. apply (same_seq _ _ Hs) in Hseq. exact Hseq.
    + intros s' Hne. rewrite svc_dropped, decide_False by done. by apply svc_same.
    + rewrite svc_dropped, decide_True by done. simpl. by rewrite (svc_same w w1 s Hs).
    + intros -> _. right. split; [split; [done|]; exists rest; by rewrite Hsent|].
      rewrite svc_dropped, decide_True by done. simpl. rewrite S1.
      split; [|split; [apply lookup_delete_eq|]].
      * intros [_ Hx]%elem_of_difference. by apply Hx, elem_of_singleton.
      * apply in_or_app. right. right. by left.
    + intros Hn. assert (Hne : fd' <> fd) by (intros ->; by apply Hn).
      split; [rewrite Hsent; by eapply sent_on_send_act|].
      rewrite svc_dropped, decide_True by done. simpl. rewrite (svc_same w w1 s Hs), S1.
      split; [|by rewrite lookup_delete_ne by done].
      rewrite elem_of_difference, elem_of_singleton. tauto.
Qed.

Lemma push_loop_run ex dropf s b fds w : dropper ex dropf -> NoDup fds ->
  wp (push_loop dropf s b fds) (fun _ => ex && is_client (net w) = true)
    (fun _ w' => exists l, pushed w w' s b fds l) w.
Proof using L.
  intros Hdrop Hnd. revert w. induction Hnd as [|fd fds Hfd Hnd IH]; intros w; cbn [push_loop].
  { apply wp_ret. exists []. split; try done; try (by rewrite app_nil_r); try by apply Forall_nil_2.
    intros fd Hin. by apply elem_of_nil in Hin. }
  apply wp_bind. eapply wp_mono; [by apply (push_one_run ex dropf s b fd w)| |done].
  intros [] w1 (l1 & P1). eapply wp_mono; [apply IH| |].
  2: { intros w' Hcl. by rewrite (p_client _ _ _ _ _ _ P1) in Hcl. }
  intros [] w2 (l2 & P2). exists (l1 ++ l2). destruct P1 as [A1 A2 A3 A4 A5 A6 A7 A8 A9 A10].
  destruct P2 as [B1 B2 B3 B4 B5 B6 B7 B8 B9 B10].
  assert (Hone : forall fd', fd' ∈ [fd] <-> fd' = fd) by (intros; apply list_elem_of_singleton).
  assert (Hfd2 : untouched w1 w2 s l2 fd) by (apply B10; tauto).
  split; try congruence.
  - by rewrite B1, A1, app_assoc.
  - by apply Forall_app.
  - auto.
  - intros s' Hne. by rewrite B7, A7.
  - destruct A8 as (E1 & E2 & E3 & E4), B8 as (F1 & F2 & F3 & F4).
    split; [congruence|]. split; [congruence|]. split; congruence.
  - intros fd' Hin Hmem. destruct (decide (fd' = fd)) as [->|Hne].
    + destruct Hfd2 as (U1 & U2 & U3).
      destruct (A9 fd) as [(D1 & D2 & D3)|((Ds & rest & D0 & D1) & D2 & D3 & D4)]; [by apply Hone|done| |].
      * left. split; [by rewrite sent_on_app, U1, app_nil_r|]. split; [tauto|congruence].
      * right. split; [split; [done|]; exists rest; by rewrite sent_on_app, U1, app_nil_r|].
        split; [tauto|]. split; [congruence|]. apply in_or_app. by left.
    + apply elem_of_cons in Hin as [|Hin]; [done|].
      destruct (A10 fd') as (U1 & U2 & U3); [intros [?%Hone _]; done|].
      destruct (B9 fd' Hin) as [(D1 & D2 & D3)|((Ds & rest & D0 & D1) & D2 & D3 & D4)]; [tauto| |].
      * left. split; [by rewrite sent_on_app, U1|]. split; [done|congruence].
      * right. split; [split; [done|]; exists rest; by rewrite sent_on_app, U1|]. split; [done|].
        split; [done|]. apply in_or_app. by right.
  - intros fd' Hn. destruct (A10 fd') as (U1 & U2 & U3).
    { intros [?%Hone ?]. apply Hn. split; [subst; left|done]. }
    destruct (B10 fd') as (V1 & V2 & V3).
    { intros [? ?]. apply Hn. split; [by right|tauto]. }
    split; [by rewrite sent_on_app, U1, V1|]. split; [tauto|congruence].
Qed.

Lemma NoDup_seqZ0 n : NoDup (seqZ 0 n).
Proof using Type. apply NoDup_seqZ. Qed.

(** the locked loop over the connections of a service *)
Lemma push_all_run ex dropf s b w : dropper ex dropf -> s ∉ held w ->
  wp (push_all dropf s b) (fun _ => ex && is_client (net w) = true)
    (fun _ w' => exists l, pushed w w' s b (seqZ 0 (nfds (svc_of w s))) l) w.
Proof using L.
  intros Hdrop Hl. unfold push_all. eapply wp_bind_run; [by apply lock_free|].
  eapply wp_bind_run; [reflexivity|]. apply wp_bind.
  eapply wp_mono; [apply (push_loop_run ex); [done|apply NoDup_seqZ0]| |done].
  intros [] w1 (l & P). pose proof (p_held _ _ _ _ _ _ P) as Hh. simpl in Hh.
  unfold wp. erewrite unlock_held by exact Hh. exists l.
  destruct P as [A1 A2 A3 A4 A5 A6 A7 A8 A9 A10]. by split.
Qed.

End pushes.

(** ** What the handlers do to the SpaceWire side *)

(** the packets and commands a log hands to the SpaceWire side *)
Definition spw_out (l : list act) : list act :=
  List.filter (fun a => match a with ASpw _ | ARmapCmd _ _ _ _ => true | _ => false end) l.

Lemma spw_out_app l k : spw_out (l ++ k) = spw_out l ++ spw_out k.
Proof. apply List.filter_app. Qed.

Lemma spw_out_push l : Forall push_act l -> spw_out l = [].
Proof. induction 1 as [|a l Ha _ IH]; [done|]. by destruct a. Qed.

Lemma spw_out_msg l : Forall is_msg l -> spw_out l = [].
Proof. induction 1 as [|a l Ha _ IH]; [done|]. by destruct a. Qed.

(** what every completed handler respects: locks are released, the mode of the
    process and the counters stay, and [o] is what went to SpaceWire *)
Record calm (w w' : world) (o : list act) : Prop := {
  k_log : exists l, log w' = log w ++ l /\ spw_out l = o;
  k_held : held w' = held w;
  k_client : is_client (net w') = is_client (net w);
  k_seq : seq_ok w -> seq_ok w';
  k_dgram : dgram_ok (svc_of w SvcData) -> dgram_ok (svc_of w' SvcData)
}.

Lemma calm_refl w : calm w w [].
Proof. split; try done. exists []. by rewrite app_nil_r. Qed.

Lemma calm_trans w1 w2 w3 o1 o2 : calm w1 w2 o1 -> calm w2 w3 o2 -> calm w1 w3 (o1 ++ o2).
Proof.
  intros [(l & A1 & A2) A3 A4 A5 A6] [(k & B1 & B2) B3 B4 B5 B6].
  split; [|congruence|congruence|auto|auto].
  exists (l ++ k). rewrite B1, A1, app_assoc. split; [done|]. by rewrite spw_out_app, A2, B2.
Qed.

Lemma calm_pushed {K : Kernel} w w' s b fds l : pushed w w' s b fds l -> calm w w' [].
Proof.
  intros [A1 A2 A3 A4 A5 A6 A7 A8 A9 A10]. split; try done.
  - exists l. split; [done|]. by apply spw_out_push.
  - intros [H1 H2]. destruct (decide (s = SvcData)) as [->|Hne].
    + destruct A8 as (_ & _ & E1 & E2). unfold dgram_ok. by rewrite E1, E2.
    + unfold dgram_ok. by rewrite A7 by done.
Qed.

Lemma calm_chatty w w' : chatty w w' -> calm w w' [].
Proof.
  intros [A1 A2 A3 A4 A5 A6 (l & A7 & A8)]. split; try done.
  - exists l. split; [done|]. by apply spw_out_msg.
  - by rewrite A4.
Qed.

Lemma calm_act w a : calm w (w_log w [a]) (spw_out [a]).
Proof. split; try done. by exists [a]. Qed.

Lemma calm_tick w : calm w (w_tick w) [].
Proof. apply calm_chatty, chatty_tick. Qed.

Section handlers.
Context {K : Kernel} {L : KernelLive K}.

(** the envelope of a packet, or nothing if memory is short *)
Lemma gresb_wrap_run b w :
  gresb_wrap b w =
  Ret (if k_malloc (tick w)
       then Some (take (Z.to_nat (GRESB_HDR_SIZE + zlen b mod 16777216)) (gresb_frame b))
       else None) (w_tick w).
Proof using Type.
  unfold gresb_wrap. erewrite mbind_run by reflexivity. destruct (k_malloc (tick w)); [|done].
  pose proof (create_frame (replicate (Z.to_nat (GRESB_HDR_SIZE + zlen b)) 0) b []) as Hc.
  rewrite app_nil_r in Hc. rewrite Hc.
  2: { unfold GRESB_HDR_SIZE. pose proof (zlen_nonneg b). unfold zlen at 1.
       rewrite length_replicate. lia. }
  erewrite mbind_run by reflexivity. rewrite host_size_frame.
  pose proof (Z.mod_pos_bound (zlen b) 16777216). pose proof (zlen_nonneg b).
  pose proof (Z.mod_le (zlen b) 16777216). unfold GRESB_HDR_SIZE.
  erewrite mbind_run by reflexivity. rewrite rdn_in; [reflexivity|lia|lia|].
  rewrite zlen_frame_gresb. unfold GRESB_HDR_SIZE. lia.
Qed.
(** nothing is pushed, at most something is printed *)
Lemma pushed_none w w' s b : chatty w w' -> exists l, pushed w w' s b [] l.
Proof using Type.
  intros [A1 A2 A3 A4 A5 A6 (l & A7 & A8)]. exists l.
  assert (Hl : forall fd, sent_on fd l = []).
  { intros fd. clear A7. induction A8 as [|a l Ha _ IH]; [done|]. by destruct a. }
  split; rewrite ?A4; try done.
  - eapply Forall_impl; [exact A8|]. by intros [].
  - intros fd Hin. by apply elem_of_nil in Hin.
  - intros fd _. split; [done|]. by rewrite A4, A1.
Qed.

Lemma pushed_tick w w' s b fds l : pushed (w_tick w) w' s b fds l -> pushed w w' s b fds l.
Proof using Type. intros [A1 A2 A3 A4 A5 A6 A7 A8 A9 A10]. by split. Qed.

(** [out] is what a service gets of the packet [b] *)
Definition wrapped (wrap : bool) (b : list Z) : list Z := if wrap then gresb_frame b else b.

Definition service_got (w w' : world) (s : svc_id) (open wrap : bool) (b : list Z) : Prop :=
  exists p fds l, pushed w w' s p fds l /\
    (open = true -> (wrap = true -> (forall t, k_malloc t = true) /\ zlen b < 16777216) ->
     p = wrapped wrap b /\ fds = seqZ 0 (nfds (svc_of w s))).

Lemma gresb_wrap_some b d : zlen b < 16777216 ->
  d = take (Z.to_nat (GRESB_HDR_SIZE + zlen b mod 16777216)) (gresb_frame b) -> d = gresb_frame b.
Proof using Type.
  intros Hb ->. pose proof (zlen_nonneg b). rewrite Z.mod_small by lia.
  rewrite <- zlen_frame_gresb. apply take_ge. unfold zlen. lia.
Qed.

Lemma wrap_none w s b m : k_malloc (tick w) = false ->
  service_got w (w_log (w_tick w) [AMsg m []]) s true true b.
Proof using Type.
  intros Em. destruct (pushed_none w (w_log (w_tick w) [AMsg m []]) s []) as (l & P).
  { eapply chatty_trans; [apply chatty_tick|apply chatty_msg]. }
  exists [], [], l. split; [exact P|]. intros _ Hw. destruct (Hw eq_refl) as [Hm _].
  by rewrite Hm in Em.
Qed.

Lemma plain_push_run s b w : s ∉ held w ->
  wp (push_all conn_drop_locked s b) (fun _ => is_client (net w) = true)
    (fun _ w' => service_got w w' s true false b) w.
Proof using L.
  intros Hl. eapply wp_mono; [apply (push_all_run true); [apply conn_dropper|exact Hl]| |by intros].
  intros [] w1 (l & P). by eexists _, _, l.
Qed.

Lemma wrapped_push_run s b w : s ∉ held w -> k_malloc (tick w) = true ->
  wp (push_all conn_drop_locked s
        (take (Z.to_nat (GRESB_HDR_SIZE + zlen b mod 16777216)) (gresb_frame b)))
    (fun _ => is_client (net w) = true)
    (fun _ w' => service_got w w' s true true b) (w_tick w).
Proof using L.
  intros Hl Hm. eapply wp_mono; [apply (push_all_run true); [apply conn_dropper|exact Hl]| |by intros].
  intros [] w1 (l & P). apply pushed_tick in P. eexists _, _, l. split; [exact P|].
  intros _ Hw. destruct (Hw eq_refl) as [_ Hb]. split; [by eapply gresb_wrap_some|done].
Qed.

(** wrap and push; a failed allocation is reported and nothing is sent *)
Lemma wrap_push_run s b m w : s ∉ held w ->
  wp (out ← gresb_wrap b;
      match out with
      | None => emit_act (AMsg m [])
      | Some d => push_all conn_drop_locked s d
      end) (fun _ => is_client (net w) = true)
    (fun _ w' => service_got w w' s true true b) w.
Proof using L.
  intros Hl. eapply wp_bind_run; [apply gresb_wrap_run|].
  destruct (k_malloc (tick w)) eqn:Em; [by apply wrapped_push_run|by apply wrap_none].
Qed.

Lemma service_none w s wrap b : service_got w w s false wrap b.
Proof using Type.
  destruct (pushed_none w w s [] (chatty_refl w)) as (l & P). by exists [], [], l.
Qed.

Lemma service_calm w w' s o wrap b : service_got w w' s o wrap b -> calm w w' [].
Proof using Type. intros (p & fds & l & P & _). by eapply calm_pushed. Qed.

Lemma sniff_push_run cfg b w : SvcSniff ∉ held w ->
  wp (sniff_push cfg b) (fun _ => is_client (net w) = true)
    (fun _ w' => service_got w w' SvcSniff (c_true (sock_fd (svc_of w SvcSniff))) (sniff_gresb cfg) b) w.
Proof using L.
  intros Hl. unfold sniff_push. eapply wp_bind_run; [reflexivity|]. fold (svc_of w SvcSniff).
  destruct (c_true (sock_fd (svc_of w SvcSniff))); cbn beta iota delta [negb].
  2: { apply wp_ret. apply service_none. }
  destruct (sniff_gresb cfg); [by apply wrap_push_run|by apply plain_push_run].
Qed.

Lemma gresb_push_rx_run cfg b w : SvcGresbRx ∉ held w ->
  wp (gresb_push_rx_clients cfg b) (fun _ => is_client (net w) = true)
    (fun _ w' => service_got w w' SvcGresbRx
       (bool_decide (mode cfg = MODE_SERVER) && c_true (sock_fd (svc_of w SvcGresbRx))) true b) w.
Proof using L.
  intros Hl. unfold gresb_push_rx_clients. eapply wp_bind_run; [reflexivity|].
  fold (svc_of w SvcGresbRx).
  destruct (bool_decide (mode cfg = MODE_SERVER)), (c_true (sock_fd (svc_of w SvcGresbRx)));
    cbn beta iota delta [negb orb andb]; try (apply wp_ret; apply service_none).
  by apply wrap_push_run.
Qed.

End handlers.

(** ** Several pushes in a row *)

Section chains.
Context {K : Kernel}.

(** A chain of pushes: service, payload, descriptors and log of each. *)
Inductive pushes : world -> world -> list (svc_id * list Z * list Z * list act) -> Prop :=
| pushes_nil w : pushes w w []
| pushes_cons w w1 w2 s p fds l k :
    pushed w w1 s p fds l -> pushes w1 w2 k -> pushes w w2 ((s, p, fds, l) :: k).

Definition chain_svcs (k : list (svc_id * list Z * list Z * list act)) : list svc_id :=
  map (fun x => x.1.1.1) k.
Definition chain_log (k : list (svc_id * list Z * list Z * list act)) : list act :=
  concat (map snd k).

Definition disjoint_tables (w : world) : Prop := forall s s' fd,
  fd ∈ conn_set (svc_of w s) -> fd ∈ conn_set (svc_of w s') -> s = s'.

(** the connection has received all of [p], or it was dropped on the way *)
Definition got (w' : world) (s : svc_id) (p : list Z) (l : list act) (fd : Z) : Prop :=
  (sent_on fd l = p /\ fd ∈ conn_set (svc_of w' s)) \/
  ((send_fails /\ exists rest, rest <> [] /\ p = sent_on fd l ++ rest) /\
   ~ (fd ∈ conn_set (svc_of w' s)) /\ rx w' !! fd = None).

Lemma pushed_sub w w' s p fds l fd s' :
  pushed w w' s p fds l -> fd ∈ conn_set (svc_of w' s') -> fd ∈ conn_set (svc_of w s').
Proof using Type.
  intros P Hin. destruct (decide (s' = s)) as [->|Hne].
  - destruct (decide (fd ∈ conn_set (svc_of w s))); [done|].
    apply (p_others _ _ _ _ _ _ P fd); [tauto|done].
  - by rewrite (p_other _ _ _ _ _ _ P) in Hin.
Qed.

Lemma pushed_disjoint w w' s p fds l :
  pushed w w' s p fds l -> disjoint_tables w -> disjoint_tables w'.
Proof using Type.
  intros P Hd s1 s2 fd H1 H2. eapply (Hd s1 s2 fd); by eapply pushed_sub.
Qed.

Lemma pushes_log w w' k : pushes w w' k -> log w' = log w ++ chain_log k.
Proof using Type.
  induction 1 as [|w w1 w2 s p fds l k P _ IH]; [by rewrite app_nil_r|].
  unfold chain_log in *. simpl. by rewrite IH, (p_log _ _ _ _ _ _ P), app_assoc.
Qed.

Lemma pushes_calm w w' k : pushes w w' k -> calm w w' [].
Proof using Type.
  induction 1 as [|w w1 w2 s p fds l k P _ IH]; [apply calm_refl|].
  apply (calm_trans w w1 w2 [] []); [by eapply calm_pushed|done].
Qed.

Lemma pushes_untouched w w' k fd : pushes w w' k ->
  (forall s, s ∈ chain_svcs k -> ~ (fd ∈ conn_set (svc_of w s))) ->
  sent_on fd (chain_log k) = [] /\ rx w' !! fd = rx w !! fd.
Proof using Type.
  induction 1 as [|w w1 w2 s p fds l k P _ IH]; intros Hn; [done|].
  destruct (p_others _ _ _ _ _ _ P fd) as (U1 & U2 & U3).
  { intros [_ Hin]. by apply (Hn s); [left|]. }
  destruct IH as [I1 I2].
  { intros s' Hs' Hin. apply (Hn s'); [by right|]. by eapply pushed_sub. }
  unfold chain_log in *. simpl. rewrite sent_on_app, U1, I1. split; [done|congruence].
Qed.

Lemma pushes_other w w' k s : pushes w w' k -> s ∉ chain_svcs k -> svc_of w' s = svc_of w s.
Proof using Type.
  induction 1 as [|w w1 w2 s1 p fds l k P _ IH]; [done|].
  unfold chain_svcs in *. simpl. intros [Hne Hn]%not_elem_of_cons.
  by rewrite IH, (p_other _ _ _ _ _ _ P) by done.
Qed.

Lemma pushes_got w w' k s p fds l fd :
  pushes w w' k -> NoDup (chain_svcs k) -> disjoint_tables w ->
  In (s, p, fds, l) k -> fd ∈ fds -> fd ∈ conn_set (svc_of w s) -> got w' s p (chain_log k) fd.
Proof using Type.
  induction 1 as [|w w1 w2 s1 p1 fds1 l1 k P C IH]; intros Hnd Hd Hin Hfd Hm; [done|].
  unfold chain_svcs in Hnd. simpl in Hnd. apply NoDup_cons in Hnd as [Hnin Hnd].
  destruct Hin as [[= -> -> -> ->]|Hin].
  - assert (Hoth : forall s', s' ∈ chain_svcs k -> ~ (fd ∈ conn_set (svc_of w1 s'))).
    { intros s' Hs' Hx. assert (s' = s) as ->; [|done].
      apply (Hd s' s fd); [by eapply pushed_sub|done]. }
    destruct (pushes_untouched _ _ _ fd C Hoth) as [U1 U2].
    unfold got, chain_log in *. simpl. rewrite sent_on_app, U1, app_nil_r, (pushes_other _ _ _ s C Hnin).
    destruct (p_members _ _ _ _ _ _ P fd Hfd Hm) as [(D1 & D2 & _)|(D1 & D2 & D3 & _)]; [by left|].
    right. split; [done|]. split; [done|congruence].
  - assert (Hne : s <> s1).
    { intros ->. apply Hnin. apply list_elem_of_In, in_map_iff. by exists (s1, p, fds, l). }
    destruct (p_others _ _ _ _ _ _ P fd) as (U1 & _ & _).
    { intros [_ Hx]. apply Hne. by apply (Hd s s1 fd). }
    assert (Hg : got w2 s p (chain_log k) fd).
    { apply IH; try done; [by eapply pushed_disjoint|]. by rewrite (p_other _ _ _ _ _ _ P). }
    unfold got, chain_log in *. simpl. by rewrite sent_on_app, U1.
Qed.

End chains.
