(* ===== verification/NetSpec.v ===== *)
(** * What the handlers of src/net.c deliver

    The definitions of Net.v, end to end: a packet from SpaceWire reaches the
    clients of every service, a packet from the network reaches SpaceWire, the
    remote memory commands of the simplified protocol, and the polling step.
    All theorems hold for every kernel, hence for every behaviour of the
    sockets, unless a class says otherwise. *)

From Stdlib Require Import String List.
From stdpp Require Import base tactics option list list_numbers gmap sets sorting.
From Stdlib Require Import ZArith Lia Bool.
From S2P Require Import Prelude.
From S2P Require Import Gresb.
From S2P Require Import Rmap.
From S2P Require Import Pus.
From S2P Require Import Sys.
From S2P Require Import NetConn.
From S2P Require Import NetRecv.
From S2P Require Import Net.

Local Open Scope Z_scope.

(** ** SpaceWire to network *)

(** memory for the envelope of [b], whose size fits the field of 24 bits *)
Definition can_wrap {K : Kernel} (b : list Z) : Prop :=
  (forall t, k_malloc t = true) /\ zlen b < 16777216.

(** every connection of [s] in the polled range got [p], see [got] *)
Definition all_got {K : Kernel} (w w' : world) (s : svc_id) (p : list Z) (l : list act) : Prop :=
  forall fd, 0 <= fd < nfds (svc_of w s) -> fd ∈ conn_set (svc_of w s) -> got w' s p l fd.

(** which services a packet from SpaceWire is pushed to in the stream modes *)
Definition push_targets (cfg : bridge_cfg) (w : world) : list (svc_id * bool) :=
  (if c_true (sock_fd (svc_of w SvcSniff)) then [(SvcSniff, sniff_gresb cfg)] else []) ++
  [(SvcData, enable_gresb cfg)] ++
  (if enable_gresb cfg && bool_decide (mode cfg = MODE_SERVER)
      && c_true (sock_fd (svc_of w SvcGresbRx)) then [(SvcGresbRx, true)] else []).

Section forward.
Context {K : Kernel} {L : KernelLive K}.


(** a push that a failed allocation has prevented *)
Lemma service_failed t w s o b : k_malloc t = false -> service_got w w s o true b.
Proof using Type.
  intros Ht. destruct (pushed_none w w s [] (chatty_refl w)) as (l & P).
  exists [], [], l. split; [exact P|]. intros _ Hw. destruct (Hw eq_refl) as [Hm _].
  by rewrite Hm in Ht.
Qed.

Lemma calm_ex w w' o : calm w w' o -> is_client (net w') = true -> is_client (net w) = true.
Proof using Type. intros C. by rewrite (k_client _ _ _ C). Qed.

Lemma match_stream {A} (m : net_mode) (x y : A) : m <> MODE_DGRAM ->
  match m with MODE_SERVER => y | MODE_CLIENT => y | MODE_DGRAM => x end = y.
Proof using Type. by destruct m. Qed.

Lemma forward_run cfg b w : mode cfg <> MODE_DGRAM -> held w = [] ->
  wp (net_forward_to_clients cfg b) (fun _ => is_client (net w) = true)
    (fun _ w3 => exists w1 w2,
       service_got w w1 SvcSniff (c_true (sock_fd (svc_of w SvcSniff))) (sniff_gresb cfg) b /\
       service_got w1 w2 SvcData true (enable_gresb cfg) b /\
       service_got w2 w3 SvcGresbRx
         (enable_gresb cfg && bool_decide (mode cfg = MODE_SERVER)
          && c_true (sock_fd (svc_of w2 SvcGresbRx))) true b) w.
Proof using L.
  intros Hmode Hheld. unfold net_forward_to_clients. apply wp_bind.
  eapply wp_mono; [apply sniff_push_run; rewrite Hheld; apply not_elem_of_nil| |done].
  intros [] w1 S1. pose proof (service_calm _ _ _ _ _ _ S1) as C1.
  assert (H1 : held w1 = []) by (by rewrite (k_held _ _ _ C1)).
  assert (Hgoal : wp (if enable_gresb cfg then
        out ← gresb_wrap b;
        match out with
        | None => emit_act (AMsg "Error creating GRESB packet, dropping the SpW packet\n" [])
        | Some d => _ ← push_all conn_drop_locked SvcData d; gresb_push_rx_clients cfg b
        end
      else push_all conn_drop_locked SvcData b) (fun _ => is_client (net w1) = true)
    (fun _ w3 => exists w2,
       service_got w1 w2 SvcData true (enable_gresb cfg) b /\
       service_got w2 w3 SvcGresbRx
         (enable_gresb cfg && bool_decide (mode cfg = MODE_SERVER)
          && c_true (sock_fd (svc_of w2 SvcGresbRx))) true b) w1).
  { destruct (enable_gresb cfg).
    - eapply wp_bind_run; [apply gresb_wrap_run|]. destruct (k_malloc (tick w1)) eqn:Em.
      + apply wp_bind. eapply wp_mono; [apply wrapped_push_run; [|done]| |done].
        { rewrite H1. apply not_elem_of_nil. }
        intros [] w2 S2. pose proof (service_calm _ _ _ _ _ _ S2) as C2.
        eapply wp_mono; [apply gresb_push_rx_run| |].
        * rewrite (k_held _ _ _ C2), H1. apply not_elem_of_nil.
        * intros [] w3 S3. by exists w2.
        * intros w'. by apply (calm_ex _ _ _ C2).
      + unfold wp, emit_act. eexists. split; [by apply wrap_none|]. by eapply service_failed.
    - eapply wp_mono; [apply plain_push_run| |done].
      { rewrite H1. apply not_elem_of_nil. }
      intros [] w2 S2. exists w2. split; [done|]. apply service_none. }
  rewrite (match_stream (mode cfg) _ _ Hmode).
  eapply wp_mono; [exact Hgoal| |].
  - intros [] w3 (w2 & S2 & S3). by exists w1, w2.
  - intros w'. by apply (calm_ex _ _ _ C1).
Qed.

End forward.

Lemma In_list {A} (x : A) l : In x l -> x ∈ l.
Proof. by rewrite list_elem_of_In. Qed.

Lemma chain3_nodup p1 f1 l1 p2 f2 l2 p3 f3 l3 :
  NoDup (chain_svcs [(SvcSniff, p1, f1, l1); (SvcData, p2, f2, l2); (SvcGresbRx, p3, f3, l3)]).
Proof. by apply (bool_decide_unpack _), I. Qed.

Lemma in_seqZ0 fd n : 0 <= fd < n -> fd ∈ seqZ 0 n.
Proof. intros H. apply elem_of_seqZ. lia. Qed.

(** where a packet from SpaceWire has gone in the stream modes *)
Definition forward_post {K : Kernel} (cfg : bridge_cfg) (b : list Z) (w w' : world) : Prop :=
  exists l, log w' = log w ++ l /\ held w' = held w /\ spw_out l = [] /\
    (forall s wrap, In (s, wrap) (push_targets cfg w) -> (wrap = true -> can_wrap b) ->
       all_got w w' s (wrapped wrap b) l) /\
    (forall fd, (forall s, In s [SvcSniff; SvcData; SvcGresbRx] ->
                   ~ (fd ∈ conn_set (svc_of w s))) ->
       sent_on fd l = [] /\ rx w' !! fd = rx w !! fd).

Lemma forward_delivers_run {K : Kernel} {L : KernelLive K} (cfg : bridge_cfg) (b : list Z) (w : world) :
  mode cfg <> MODE_DGRAM -> held w = [] -> disjoint_tables w ->
  wp (net_forward_to_clients cfg b) (fun _ => is_client (net w) = true)
    (fun _ => forward_post cfg b w) w.
Proof.
  intros Hmode Hheld Hd.
  eapply wp_mono; [by apply forward_run| |done].
  intros [] w3 (w1 & w2 & (p1 & f1 & l1 & P1 & A1) & (p2 & f2 & l2 & P2 & A2) & (p3 & f3 & l3 & P3 & A3)).
  pose proof (pushes_cons _ _ _ _ _ _ _ _ P1 (pushes_cons _ _ _ _ _ _ _ _ P2
    (pushes_cons _ _ _ _ _ _ _ _ P3 (pushes_nil w3)))) as C.
  pose proof (pushes_calm _ _ _ C) as [(l & Hl & Ho) Hh _ _ _]. exists l.
  assert (El : l = chain_log [(SvcSniff, p1, f1, l1); (SvcData, p2, f2, l2); (SvcGresbRx, p3, f3, l3)]).
  { apply (app_inv_head (log w)). by rewrite <- Hl, (pushes_log _ _ _ C). }
  split; [done|]. split; [done|]. split; [done|]. subst l.
  pose proof (p_other _ _ _ _ _ _ P1) as O1. pose proof (p_other _ _ _ _ _ _ P2) as O2.
  assert (E2 : svc_of w2 SvcGresbRx = svc_of w SvcGresbRx) by (by rewrite O2, O1).
  rewrite E2 in A3. rewrite O1 in A2 by done.
  split.
  - intros s wrap Hin Hw fd Hfd Hm. unfold push_targets in Hin.
    assert (Hget : forall p fds l', In (s, p, fds, l') [(SvcSniff, p1, f1, l1);
        (SvcData, p2, f2, l2); (SvcGresbRx, p3, f3, l3)] ->
        p = wrapped wrap b /\ fds = seqZ 0 (nfds (svc_of w s)) ->
        got w3 s (wrapped wrap b) (chain_log [(SvcSniff, p1, f1, l1); (SvcData, p2, f2, l2);
          (SvcGresbRx, p3, f3, l3)]) fd).
    { intros p fds l' Hin' [-> ->]. eapply pushes_got; [exact C|apply chain3_nodup|done|exact Hin'| |done].
      by apply in_seqZ0. }
    apply in_app_or in Hin as [Hin|Hin]; [|apply in_app_or in Hin as [Hin|Hin]].
    + destruct (c_true _); [|done]. destruct Hin as [[= <- <-]|[]].
      eapply Hget; [by left|]. by apply A1.
    + destruct Hin as [[= <- <-]|[]]. eapply Hget; [right; by left|]. by apply A2.
    + destruct (enable_gresb cfg && _ && _) eqn:E; [|done]. destruct Hin as [[= <- <-]|[]].
      eapply Hget; [do 2 right; by left|]. by apply A3.
  - intros fd Hfd. eapply pushes_untouched; [exact C|]. intros s Hs. apply Hfd.
    by apply list_elem_of_In in Hs.
Qed.

(** C14: A packet from SpaceWire in the stream modes, for every kernel that does not
    interrupt a [send] for ever ([KernelLive]).  Every connection of the data
    service in the polled range, that is with a number below [nfds], gets the whole
    packet, in a GRESB envelope when those are enabled; so does every connection of
    the sniffer port in its range when the port is open, and every GRESB receive client
    in its range in server mode; where there is an envelope, it is presupposed that
    allocations succeed and that the size fits its field.  Of these clients, one
    receives a proper prefix only when the kernel fails a [send]; it is then closed and
    removed from its table.  Nothing is said of a connection whose number is not below
    [nfds] ([accepted_at_bound_deaf] has one).  Descriptors outside these tables are
    left alone, all mutexes are released, nothing goes back to SpaceWire; only in
    client mode may the process end instead. *)
Theorem forward_delivers {K : Kernel} {L : KernelLive K} (cfg : bridge_cfg) (b : list Z)
    (w : world) (Hmode : mode cfg <> MODE_DGRAM) (Hheld : held w = []) (Hd : disjoint_tables w) :
  wp (net_forward_to_clients cfg b) (fun _ => is_client (net w) = true)
    (fun _ => forward_post cfg b w) w.
Proof.
  by apply forward_delivers_run.
Qed.

#[export] Instance quiet_kernel_live : KernelLive quiet_kernel.
Proof. intros t. exists 0%nat. split; [simpl; lia|discriminate]. Qed.

(** a server with two data clients, an RMAP client and a sniffer *)
Definition ex_svcs (s : svc_id) : net_service :=
  match s with
  | SvcData => mk_svc 3 {[5; 6]} 7 [] 0
  | SvcRmap => mk_svc 10 {[11]} 12 [] 0
  | SvcSniff => mk_svc 4 {[8]} 9 [] 0
  | _ => svc_empty
  end.

Definition w_ex (st : list Z) : world :=
  mk_world 0 (<[5 := st]> (<[6 := []]> (<[11 := st]> (<[8 := []]> ∅)))) [((1, 5000), st)] []
    (mk_net false 0 [] 0 [] 0 ex_svcs) [].

Definition ex_gresb_cfg : bridge_cfg :=
  ex_net_cfg MODE_SERVER 0 false false false false true true false false false 0.

Lemma w_ex_disjoint st : disjoint_tables (w_ex st).
Proof.
  intros s s' fd. unfold svc_of, w_ex. destruct s, s'; simpl; try done;
    rewrite ?elem_of_union, ?elem_of_singleton; intros H1 H2;
    try (by apply not_elem_of_empty in H1); try (by apply not_elem_of_empty in H2); exfalso; lia.
Qed.

Lemma forward_delivers_witness :
  wp (net_forward_to_clients (K := quiet_kernel) ex_gresb_cfg [1; 2; 3]) (fun _ => False)
    (fun _ w' => exists l, log w' = l /\
       got (K := quiet_kernel) w' SvcData (gresb_frame [1; 2; 3]) l 6 /\
       got (K := quiet_kernel) w' SvcSniff [1; 2; 3] l 8 /\ sent_on 11 l = []) (w_ex []).
Proof.
  eapply wp_mono; [apply (forward_delivers (K := quiet_kernel) ex_gresb_cfg [1; 2; 3] (w_ex []))| |].
  - discriminate.
  - reflexivity.
  - apply w_ex_disjoint.
  - intros [] w' (l & Hl & _ & _ & Hg & Hn). exists l. split; [exact Hl|]. split; [|split].
    + apply (Hg SvcData true); [right; by left| |vm_compute; by split|vm_compute; reflexivity].
      intros _. split; [done|]. reflexivity.
    + apply (Hg SvcSniff false); [by left|discriminate|vm_compute; by split|vm_compute; reflexivity].
    + apply Hn. intros s [<-|[<-|[<-|[]]]]; vm_compute; discriminate.
  - discriminate.
Defined.

(** ** Datagrams *)

(** the datagrams of a log *)
Definition sendto_out (l : list act) : list act :=
  List.filter (fun a => match a with ASendTo _ _ _ => true | _ => false end) l.

Lemma sendto_out_app l k : sendto_out (l ++ k) = sendto_out l ++ sendto_out k.
Proof. apply List.filter_app. Qed.

Lemma sendto_out_push l : Forall push_act l -> sendto_out l = [].
Proof. induction 1 as [|a l Ha _ IH]; [done|]. by destruct a. Qed.

(** one datagram for each client at most, and in the order of the list; for
    each client exactly when the kernel takes them all *)
Definition dgrams {K : Kernel} (fd : Z) (b : list Z) (cs : list client) (l : list act) : Prop :=
  sublist (sendto_out l) (map (fun c => ASendTo fd c b) cs) /\
  ((forall t, k_sendto t = true) -> sendto_out l = map (fun c => ASendTo fd c b) cs).

Lemma sendto_loop_run {K : Kernel} fd b cs w :
  exists w' l, sendto_loop fd b cs w = Ret () w' /\ same_state w w' /\ log w' = log w ++ l /\
    spw_out l = [] /\ dgrams fd b cs l.
Proof.
  revert w. induction cs as [|c cs IH]; intros w; cbn [sendto_loop].
  { exists w, []. rewrite app_nil_r. by repeat split. }
  unfold mbind at 1, M_bind at 1, sendto. destruct (k_sendto (tick w)) eqn:E.
  - rewrite (proj2 (Z.ltb_ge _ _)) by apply zlen_nonneg. erewrite mbind_run by reflexivity.
    destruct (IH (w_tick (w_log w [ASendTo fd c b]))) as (w' & l & -> & Hs & Hl & Ho & [H1 H2]).
    exists w', (ASendTo fd c b :: l). split; [done|]. split; [exact Hs|].
    split; [rewrite Hl; simpl; by rewrite <- app_assoc|]. split; [done|].
    split; simpl; [by apply sublist_skip|]. intros Hk. by rewrite H2.
  - simpl Z.ltb. cbv iota. erewrite mbind_run by reflexivity.
    destruct (IH (w_log (w_tick w) [AMsg "sendto" []])) as (w' & l & -> & Hs & Hl & Ho & [H1 H2]).
    exists w', (AMsg "sendto" [] :: l). split; [done|]. split; [exact Hs|].
    split; [rewrite Hl; simpl; by rewrite <- app_assoc|]. split; [done|].
    split; simpl; [by apply sublist_cons|]. intros Hk. by rewrite Hk in E.
Qed.

Lemma dgram_send_all_run {K : Kernel} s b w : s ∉ held w ->
  exists w' l, dgram_send_all s b w = Ret () w' /\ same_state w w' /\ log w' = log w ++ l /\
    spw_out l = [] /\ dgrams (sock_fd (svc_of w s)) b (clients (svc_of w s)) l.
Proof.
  intros Hl. unfold dgram_send_all. erewrite mbind_run by (by apply lock_free).
  erewrite mbind_run by reflexivity.
  destruct (sendto_loop_run (sock_fd (svc_of w s)) b (clients (svc_of w s)) (w_held w (s :: held w)))
    as (w' & l & Hr & (S1 & S2 & S3 & S4) & Hlog & Ho & Hd).
  erewrite mbind_run by exact Hr. erewrite unlock_held by exact S3.
  exists (w_held w' (held w)), l. do 3 (split; [done|]). by split.
Qed.

(** A packet from SpaceWire in the datagram mode: with the sniffer port
    closed, the packet, in a GRESB envelope when those are enabled, is sent
    once to every registered client, in the order of registration, whatever
    other clients do; a failed [sendto] loses that datagram only. *)
Theorem forward_datagrams {K : Kernel} {L : KernelLive K} (cfg : bridge_cfg) (b : list Z)
    (w : world) (Hmode : mode cfg = MODE_DGRAM) (Hheld : held w = [])
    (Hsniff : sock_fd (svc_of w SvcSniff) = 0) (Hmem : enable_gresb cfg = true -> can_wrap b) :
  exists w' l, net_forward_to_clients cfg b w = Ret () w' /\ log w' = log w ++ l /\
    same_state w w' /\ spw_out l = [] /\
    dgrams (sock_fd (svc_of w SvcData)) (wrapped (enable_gresb cfg) b) (clients (svc_of w SvcData)) l.
Proof.
  unfold net_forward_to_clients. rewrite Hmode.
  assert (Hs : sniff_push cfg b w = Ret () w).
  { unfold sniff_push. erewrite mbind_run by reflexivity. fold (svc_of w SvcSniff). by rewrite Hsniff. }
  erewrite mbind_run by exact Hs.
  destruct (enable_gresb cfg) eqn:Eg.
  - destruct (Hmem eq_refl) as [Hm Hb]. erewrite mbind_run by apply gresb_wrap_run.
    rewrite Hm. cbv iota. rewrite (gresb_wrap_some b _ Hb eq_refl).
    destruct (dgram_send_all_run SvcData (gresb_frame b) (w_tick w)) as (w' & l & Hr & Hst & Hl & Ho & Hd).
    { simpl. rewrite Hheld. apply not_elem_of_nil. }
    erewrite mbind_run by exact Hr. exists w', l. split; [|by do 3 (split; [done|])].
    unfold gresb_push_rx_clients. erewrite mbind_run by reflexivity. rewrite Hmode. done.
  - destruct (dgram_send_all_run SvcData b w) as (w' & l & Hr & Hst & Hl & Ho & Hd).
    { rewrite Hheld. apply not_elem_of_nil. }
    exists w', l. by do 4 (split; [done|]).
Qed.

(** a datagram bridge with two clients *)
Definition w_dgram (b : list Z) : world :=
  mk_world 0 ∅ [((1, 5000), b)] []
    (mk_net false 0 [] 0 [] 0
       (fun s => match s with SvcData => mk_svc 3 ∅ 0 [(1, 5000); (2, 5000)] 4 | _ => svc_empty end)) [].

Definition ex_dgram_cfg : bridge_cfg :=
  ex_net_cfg MODE_DGRAM 0 false false false false false false false false false 0.

Lemma forward_datagrams_witness :
  exists w' l, net_forward_to_clients (K := quiet_kernel) ex_dgram_cfg [9] (w_dgram []) = Ret () w' /\
    sendto_out l = [ASendTo 3 (1, 5000) [9]; ASendTo 3 (2, 5000) [9]] /\ log w' = l.
Proof.
  destruct (forward_datagrams (K := quiet_kernel) ex_dgram_cfg [9] (w_dgram []))
    as (w' & l & Hr & Hl & _ & _ & [_ Hd]).
  - reflexivity.
  - reflexivity.
  - reflexivity.
  - discriminate.
  - exists w', l. split; [exact Hr|]. split; [|exact Hl]. by apply Hd.
Defined.

(** ** Network to SpaceWire *)

(** what the packets of a stream look like in each configuration *)
Definition net_frame (cfg : bridge_cfg) (wire pkt : list Z) : Prop :=
  if interpret_pus cfg then pus_frame wire pkt
  else if interpret_fee cfg then fee_frame wire pkt
  else if enable_gresb cfg then gresb_wire wire pkt
  else raw_frame wire pkt.

(** nothing but output, and none of it to the network *)
Definition printed (w w' : world) (o : list act) : Prop :=
  rx w' = rx w /\ dgq w' = dgq w /\ held w' = held w /\ net w' = net w /\ tick w' = tick w /\
  exists l, log w' = log w ++ l /\ spw_out l = o /\ forall fd, sent_on fd l = [].

Definition not_send (a : act) : Prop := match a with ASend _ _ => False | _ => True end.

Lemma sent_on_one fd a : not_send a -> sent_on fd [a] = [].
Proof. by destruct a. Qed.

Lemma sent_on_msgs fd l : Forall is_msg l -> sent_on fd l = [].
Proof. induction 1 as [|a l Ha _ IH]; [done|]. by destruct a. Qed.

Lemma printed_act w a o : not_send a -> spw_out [a] = o -> printed w (w_log w [a]) o.
Proof.
  intros Ha Ho. do 5 (split; [done|]). exists [a]. do 2 (split; [done|]).
  intros fd. by apply sent_on_one.
Qed.

Lemma printed_trans w1 w2 w3 o1 o2 : printed w1 w2 o1 -> printed w2 w3 o2 -> printed w1 w3 (o1 ++ o2).
Proof.
  intros (A1 & A2 & A3 & A4 & A5 & l & A6 & A7 & A8) (B1 & B2 & B3 & B4 & B5 & k & B6 & B7 & B8).
  do 5 (split; [congruence|]). exists (l ++ k). split; [by rewrite B6, A6, app_assoc|].
  split; [by rewrite spw_out_app, A7, B7|]. intros fd. by rewrite sent_on_app, A8, B8.
Qed.

Lemma printed_refl w : printed w w [].
Proof. do 5 (split; [done|]). exists []. by rewrite app_nil_r. Qed.

Lemma printed_calm w w' o : printed w w' o -> calm w w' o.
Proof.
  intros (A1 & A2 & A3 & A4 & A5 & l & A6 & A7 & _).
  split; try done; unfold seq_ok, dgram_ok, svc_of; rewrite ?A4; try done. by exists l.
Qed.

Lemma emit_dbg_run l w : exists w', emit_all (map dbg_act l) w = Ret () w' /\ printed w w' [].
Proof.
  revert w. induction l as [|d l IH]; intros w; simpl.
  { exists w. split; [done|apply printed_refl]. }
  erewrite mbind_run by reflexivity. destruct (IH (w_log w [dbg_act d])) as (w' & Hr & Hp).
  exists w'. split; [exact Hr|]. eapply (printed_trans _ _ _ [] []); [|exact Hp].
  by apply printed_act.
Qed.

Lemma parse_rmap_run b w : bytes b -> exists w', parse_rmap b w = Ret () w' /\ printed w w' [].
Proof.
  intros Hb. unfold parse_rmap. destruct (rmap_parse_pkt_in b (zlen b) Hb) as [out E]; [lia|].
  rewrite E. erewrite mbind_run by reflexivity. apply emit_dbg_run.
Qed.

(** the printouts and the transmission of a packet *)
Lemma spw_tail_run fn dir b w : bytes b ->
  exists w', (_ ← emit_act (ADebug fn dir b); _ ← parse_rmap b; spw_send_packet b) w = Ret () w' /\
    printed w w' [ASpw b].
Proof.
  intros Hb. erewrite mbind_run by reflexivity.
  destruct (parse_rmap_run b (w_log w [ADebug fn dir b]) Hb) as (w1 & Hr & Hp).
  erewrite mbind_run by exact Hr. eexists. split; [reflexivity|].
  eapply (printed_trans w w1 _ [] [ASpw b]); [|by apply printed_act].
  eapply (printed_trans w _ w1 [] []); [|exact Hp]. by apply printed_act.
Qed.

Lemma net_frame_bytes cfg wire pkt : bytes wire -> net_frame cfg wire pkt -> bytes pkt.
Proof.
  unfold net_frame, pus_frame, fee_frame, raw_frame, gresb_wire. intros Hb.
  destruct (interpret_pus cfg); [by intros [<- _]|].
  destruct (interpret_fee cfg); [by intros [<- _]|].
  destruct (enable_gresb cfg); [|by intros [<- _]].
  intros (h & -> & _). by apply bytes_app in Hb as [].
Qed.

Section to_spw.
Context {K : Kernel} {L : KernelLive K} (cfg : bridge_cfg) (s : svc_id) (fd : Z).
Context (w : world) (st : list Z).
Context (Hopen : rx w !! fd = Some st) (Hbytes : bytes st) (Hheld : held w = []).
Context (Hd : disjoint_tables w) (Hm : fd ∈ conn_set (svc_of w s)) (Hs : s <> SvcSniff).

(** what a sniffer gets of a packet *)
Definition sniffed (w' : world) (pkt : list Z) (l : list act) : Prop :=
  c_true (sock_fd (svc_of w SvcSniff)) = true -> (sniff_gresb cfg = true -> can_wrap pkt) ->
  all_got w w' SvcSniff (wrapped (sniff_gresb cfg) pkt) l.

(** the outcome of a handler: the next packet of the stream is forwarded (or
    only observed, in monitor mode), or the connection is gone *)
Definition to_spw (P : list Z -> list Z -> Prop) (w' : world) : Prop :=
  held w' = [] /\ exists l, log w' = log w ++ l /\
  ((exists wire rest pkt, st = wire ++ rest /\ P wire pkt /\
      spw_out l = (if enable_monitor cfg then [] else [ASpw pkt]) /\
      rx w' !! fd = Some rest /\ fd ∈ conn_set (svc_of w' s) /\ sniffed w' pkt l) \/
   (spw_out l = [] /\ rx w' !! fd = None /\ ~ (fd ∈ conn_set (svc_of w' s)))).

Lemma lost_to_spw P w1 : lost w w1 s fd -> to_spw P w1.
Proof using Hheld.
  intros [L1 L2 L3 L4 L5 _ (l & L6 & L7)]. split; [by rewrite L3|].
  exists (l ++ [AClose fd]). split; [done|]. right.
  split; [by rewrite spw_out_app, (spw_out_msg l)|]. split; [rewrite L1; apply lookup_delete_eq|].
  rewrite L4, decide_True by done. simpl. rewrite elem_of_difference, elem_of_singleton. tauto.
Qed.

(** a packet was received, shown to the sniffers and printed or transmitted *)
Lemma got_to_spw (P : list Z -> list Z -> Prop) wire rest pkt o w1 w2 w3 :
  st = wire ++ rest -> P wire pkt -> quiet w w1 fd rest ->
  service_got w1 w2 SvcSniff (c_true (sock_fd (svc_of w1 SvcSniff))) (sniff_gresb cfg) pkt ->
  printed w2 w3 o -> o = (if enable_monitor cfg then [] else [ASpw pkt]) -> to_spw P w3.
Proof using All.
  intros He HP [Q1 Q2 Q3 Q4 Q5 _ (l1 & Q6 & Q7)] (p & fds & l2 & P2 & A)
    (B1 & B2 & B3 & B4 & B5 & l3 & B6 & B7 & B8) Ho.
  assert (Hns : ~ (fd ∈ conn_set (svc_of w1 SvcSniff))).
  { rewrite Q4. intros Hx. apply Hs. by apply (Hd s SvcSniff fd). }
  destruct (p_others _ _ _ _ _ _ P2 fd ltac:(tauto)) as (_ & _ & U).
  assert (Esv : forall s', svc_of w3 s' = svc_of w2 s') by (intros s'; unfold svc_of; by rewrite B4).
  split; [by rewrite B3, (p_held _ _ _ _ _ _ P2), Q3|].
  exists (l1 ++ l2 ++ l3). split; [by rewrite B6, (p_log _ _ _ _ _ _ P2), Q6, <- !app_assoc|].
  left. exists wire, rest, pkt. split; [done|]. split; [done|]. split.
  { by rewrite !spw_out_app, (spw_out_msg l1 Q7), (spw_out_push l2 (p_acts _ _ _ _ _ _ P2)), B7. }
  split; [rewrite B1, U, Q1; apply lookup_insert_eq|].
  split; [by rewrite Esv, (p_other _ _ _ _ _ _ P2 s Hs), Q4|].
  intros Ho1 Hw fd' Hfd' Hm'. rewrite Q4 in A. destruct (A Ho1 Hw) as [-> ->].
  assert (Hse : sent_on fd' (l1 ++ l2 ++ l3) = sent_on fd' l2).
  { by rewrite !sent_on_app, (sent_on_msgs fd' l1 Q7), B8, app_nil_r. }
  unfold got. rewrite Hse, Esv, B1.
  destruct (p_members _ _ _ _ _ _ P2 fd') as [(D1 & D2 & _)|(D1 & D2 & D3 & _)];
    [rewrite ?Q4; by apply in_seqZ0|by rewrite Q4|by left|by right].
Qed.

Lemma service_client w1 w2 s' o wrap b : service_got w1 w2 s' o wrap b ->
  is_client (net w2) = is_client (net w1).
Proof using Type. intros S. by rewrite (k_client _ _ _ (service_calm _ _ _ _ _ _ S)). Qed.

(** the part of the two handlers behind the receive *)
Lemma forward_tail_run P (r : option (list Z)) fn w1 :
  (forall wire pkt, bytes wire -> P wire pkt -> bytes pkt) ->
  recv_post P w s fd r w1 ->
  wp (match r with
      | None => mret ()
      | Some b =>
          _ ← sniff_push cfg b;
          if enable_monitor cfg then mret () else
          _ ← emit_act (ADebug fn "NET->SPW" b); _ ← parse_rmap b; spw_send_packet b
      end) (fun _ => is_client (net w) = true) (fun _ => to_spw P) w1.
Proof using All.
  intros HPb. destruct r as [pkt|].
  2: { intros [Hlost _]. apply wp_ret. by apply lost_to_spw. }
  intros (wire & rest & He & HP & Q). rewrite Hopen in He. injection He as He.
  assert (Hpkt : bytes pkt).
  { apply (HPb wire); [|done]. rewrite He in Hbytes. by apply bytes_app in Hbytes as []. }
  apply wp_bind. eapply wp_mono; [apply sniff_push_run| |].
  { rewrite (q_held _ _ _ _ Q), Hheld. apply not_elem_of_nil. }
  - intros [] w2 S2. destruct (enable_monitor cfg) eqn:Em.
    + apply wp_ret. eapply got_to_spw; [done..|apply printed_refl|by rewrite Em].
    + destruct (spw_tail_run fn "NET->SPW" pkt w2 Hpkt) as (w3 & Hr & Hp).
      unfold wp. rewrite Hr. eapply got_to_spw; [done..|exact Hp|by rewrite Em].
  - intros w'. by rewrite (q_client _ _ _ _ Q).
Qed.

End to_spw.

(** C1: The handler of the data connections in the stream modes, for every
    kernel: it terminates without an access out of bounds and with all mutexes
    released, and either the next packet of the stream, framed as configured,
    is sent to SpaceWire exactly once and unchanged (not at all in monitor
    mode), shown whole to every sniffer, and the octets behind it are left for
    the next call; or nothing is sent and the connection is closed and
    forgotten. In client mode the process may end instead. *)
Theorem net_to_spw_forwards {K : Kernel} {L : KernelLive K} (cfg : bridge_cfg) (s : svc_id)
    (fd : Z) (w : world) (st : list Z)
  (Hmode : mode cfg <> MODE_DGRAM) (Ho : rx w !! fd = Some st) (Hb : bytes st)
  (Hh : held w = []) (Hseq : seq_ok w) (Hd : disjoint_tables w)
  (Hm : fd ∈ conn_set (svc_of w s)) (Hs : s <> SvcSniff) :
  wp (net_to_spw cfg s fd) (fun _ => is_client (net w) = true)
    (fun _ => to_spw cfg s fd w st (net_frame cfg)) w.
Proof.
  assert (Hl : s ∉ held w) by (rewrite Hh; apply not_elem_of_nil).
  unfold net_to_spw. rewrite decide_False by done.
  apply wp_bind, wp_bind. eapply wp_mono with (Q := recv_post (net_frame cfg) w s fd).
  - unfold net_frame. destruct (interpret_pus cfg); [by apply (recv_pus_sound s fd w st)|].
    destruct (interpret_fee cfg); [by apply (recv_fee_sound s fd w st)|].
    destruct (enable_gresb cfg); [by apply (recv_gresb_sound s fd w st)|].
    by apply (recv_raw_sound s fd w st).
  - intros r w1 Hr. apply wp_ret.
    pose proof (forward_tail_run cfg s fd w st Ho Hb Hh Hd Hm Hs (net_frame cfg) r
      (if enable_gresb cfg then "spw_debug_print" else "pus_debug_print") w1
      (net_frame_bytes cfg) Hr) as Ht. destruct r; exact Ht.
  - by intros w' [Hc _].
Qed.

Lemma gresb_wire_bytes wire pkt : bytes wire -> gresb_wire wire pkt -> bytes pkt.
Proof. intros Hb (h & -> & _). by apply bytes_app in Hb as []. Qed.

(** The handler of the GRESB transmit connections does the same with the
    payloads of the GRESB packets on its stream, in whatever mode the bridge
    interprets the data connections. *)
Theorem gresb_tx_to_spw_forwards {K : Kernel} {L : KernelLive K} (cfg : bridge_cfg) (s : svc_id)
    (fd : Z) (w : world) (st : list Z)
  (Ho : rx w !! fd = Some st) (Hb : bytes st) (Hh : held w = []) (Hd : disjoint_tables w)
  (Hm : fd ∈ conn_set (svc_of w s)) (Hs : s <> SvcSniff) :
  wp (gresb_tx_to_spw cfg s fd) (fun _ => is_client (net w) = true)
    (fun _ => to_spw cfg s fd w st gresb_wire) w.
Proof.
  assert (Hl : s ∉ held w) by (rewrite Hh; apply not_elem_of_nil).
  unfold gresb_tx_to_spw. apply wp_bind.
  eapply wp_mono; [by apply (recv_gresb_sound s fd w st)| |by intros w' [Hc _]].
  intros r w1 Hr. by apply (forward_tail_run cfg s fd w st Ho Hb Hh Hd Hm Hs gresb_wire r
    "spw_debug_print" w1 gresb_wire_bytes).
Qed.

Lemma w_ex_seq st : seq_ok (w_ex st).
Proof. vm_compute. split; split; discriminate. Qed.

Definition ex_stream : list Z := [8; 1; 0xc0; 0; 0; 1; 9; 8; 77].

Lemma net_to_spw_forwards_witness :
  wp (net_to_spw (K := quiet_kernel) ex_cfg SvcData 5) (fun _ => False)
    (fun _ => to_spw (K := quiet_kernel) ex_cfg SvcData 5 (w_ex ex_stream) ex_stream pus_frame)
    (w_ex ex_stream).
Proof.
  eapply wp_mono; [apply (net_to_spw_forwards (K := quiet_kernel) ex_cfg SvcData 5 (w_ex ex_stream) ex_stream)| |].
  - discriminate.
  - vm_compute. reflexivity.
  - apply bytes_check. reflexivity.
  - reflexivity.
  - apply w_ex_seq.
  - apply w_ex_disjoint.
  - vm_compute. reflexivity.
  - discriminate.
  - by intros [] w'.
  - discriminate.
Defined.

Lemma gresb_tx_to_spw_forwards_witness :
  wp (gresb_tx_to_spw (K := quiet_kernel) ex_cfg SvcData 5) (fun _ => False)
    (fun _ => to_spw (K := quiet_kernel) ex_cfg SvcData 5 (w_ex [0; 0; 0; 1; 9; 8]) [0; 0; 0; 1; 9; 8] gresb_wire)
    (w_ex [0; 0; 0; 1; 9; 8]).
Proof.
  eapply wp_mono; [apply (gresb_tx_to_spw_forwards (K := quiet_kernel) ex_cfg SvcData 5
    (w_ex [0; 0; 0; 1; 9; 8]) [0; 0; 0; 1; 9; 8])| |].
  - vm_compute. reflexivity.
  - apply bytes_check. reflexivity.
  - reflexivity.
  - apply w_ex_disjoint.
  - vm_compute. reflexivity.
  - discriminate.
  - by intros [] w'.
  - discriminate.
Defined.

(** ** A whole stream *)

(** the receive function [net_to_spw] chooses for a stream *)
Definition stream_recv (cfg : bridge_cfg) {K : Kernel} (s : svc_id) (fd : Z) : M (option (list Z)) :=
  if interpret_pus cfg then recv_pus_packet cfg s fd
  else if interpret_fee cfg then recv_fee_packet s fd
  else if enable_gresb cfg then recv_gresb_packet s fd
  else recv_raw_packet s fd.

(** the packets of a stream that can be told apart whatever its segmentation *)
Definition sure_frame (cfg : bridge_cfg) (wire pkt : list Z) : Prop :=
  if interpret_pus cfg then pus_frame wire pkt
  else if interpret_fee cfg then fee_data_frame wire pkt
  else if enable_gresb cfg then gresb_wire wire pkt else False.

#[export] Instance stream_framing cfg :
  Framing (fun K s fd => stream_recv cfg s fd) (sure_frame cfg).
Proof.
  unfold stream_recv, sure_frame. intros K W G s fd w wire pkt rest Ho Hb HP.
  destruct (interpret_pus cfg); [by apply (pus_framing cfg K W G s fd w)|].
  destruct (interpret_fee cfg); [by apply (fee_framing K W G s fd w)|].
  destruct (enable_gresb cfg); [by apply (gresb_framing K W G s fd w)|done].
Qed.

Section stream.
Context {K : Kernel} (W : Z) {G : KernelGood K W} (cfg : bridge_cfg) (s : svc_id) (fd : Z).
Context (Hmode : mode cfg <> MODE_DGRAM) (Hmon : enable_monitor cfg = false).

(** one packet *)
Lemma net_to_spw_good w wire pkt rest :
  rx w !! fd = Some (wire ++ rest) -> bytes wire -> sure_frame cfg wire pkt -> bytes pkt ->
  2 * zlen wire + 1 <= W -> seq_ok w -> s ∉ held w -> sock_fd (svc_of w SvcSniff) = 0 ->
  exists w', net_to_spw cfg s fd w = Ret () w' /\ rx w' !! fd = Some rest /\ seq_ok w' /\
    held w' = held w /\ (forall s', svc_of w' s' = svc_of w s') /\
    exists l, log w' = log w ++ l /\ spw_out l = [ASpw pkt].
Proof using All.
  intros Ho Hb HP Hpb HW Hseq Hl Hsn.
  destruct (stream_framing cfg K W G s fd w wire pkt rest Ho Hb HP HW Hseq Hl)
    as (w1 & Hr & [Q1 Q2 Q3 Q4 Q5 _ (l1 & Q6 & Q7)] & Hs1).
  unfold net_to_spw. rewrite decide_False by done. fold (stream_recv cfg s fd).
  erewrite mbind_run by (erewrite mbind_run by exact Hr; reflexivity). cbn beta iota.
  assert (Hsp : sniff_push cfg pkt w1 = Ret () w1).
  { unfold sniff_push. erewrite mbind_run by reflexivity. fold (svc_of w1 SvcSniff). by rewrite Q4, Hsn. }
  erewrite mbind_run by exact Hsp. erewrite mbind_run by reflexivity. rewrite Hmon.
  destruct (spw_tail_run (if enable_gresb cfg then "spw_debug_print" else "pus_debug_print")
    "NET->SPW" pkt w1 Hpb) as (w2 & Hr2 & B1 & B2 & B3 & B4 & B5 & l2 & B6 & B7 & _).
  exists w2. split; [exact Hr2|]. split; [rewrite B1, Q1; apply lookup_insert_eq|].
  split; [unfold seq_ok; by rewrite B4|]. split; [congruence|].
  split; [intros s'; unfold svc_of at 1; by rewrite B4, <- Q4|].
  exists (l1 ++ l2). split; [by rewrite B6, Q6, app_assoc|]. by rewrite spw_out_app, (spw_out_msg l1 Q7).
Qed.

Lemma serve_stream wires pkts : Forall2 (sure_frame cfg) wires pkts ->
  Forall bytes wires -> Forall bytes pkts -> Forall (fun x => 2 * zlen x + 1 <= W) wires ->
  forall w rest, rx w !! fd = Some (concat wires ++ rest) -> seq_ok w -> s ∉ held w ->
  sock_fd (svc_of w SvcSniff) = 0 ->
  exists w', serve (net_to_spw cfg) s (replicate (length wires) fd) w = Ret () w' /\
    rx w' !! fd = Some rest /\ exists l, log w' = log w ++ l /\ spw_out l = map ASpw pkts.
Proof using All.
  induction 1 as [|wire pkt wires pkts HP _ IH]; intros Hb Hpb HW w rest Ho Hseq Hl Hsn; simpl in *.
  { exists w. do 2 (split; [done|]). exists []. by rewrite app_nil_r. }
  inversion_clear Hb as [|? ? Hb1 Hbs]. inversion_clear Hpb as [|? ? Hp1 Hps].
  inversion_clear HW as [|? ? HW1 HWs]. rewrite <- app_assoc in Ho.
  destruct (net_to_spw_good w wire pkt _ Ho Hb1 HP Hp1 HW1 Hseq Hl Hsn)
    as (w1 & Hr & Ho1 & Hseq1 & Hh1 & Hsv & l1 & Hl1 & Hsp1).
  erewrite mbind_run by exact Hr.
  destruct (IH Hbs Hps HWs w1 rest Ho1 Hseq1) as (w2 & Hr2 & Ho2 & l2 & Hl2 & Hsp2);
    [by rewrite Hh1|by rewrite Hsv|].
  exists w2. split; [exact Hr2|]. split; [done|]. exists (l1 ++ l2).
  split; [by rewrite Hl2, Hl1, app_assoc|]. by rewrite spw_out_app, Hsp1, Hsp2.
Qed.

End stream.

Lemma sure_frame_bytes cfg wire pkt : bytes wire -> sure_frame cfg wire pkt -> bytes pkt.
Proof.
  unfold sure_frame, pus_frame, fee_data_frame, fee_frame. intros Hb.
  destruct (interpret_pus cfg); [by intros [<- _]|].
  destruct (interpret_fee cfg); [by intros [[<- _] _]|].
  destruct (enable_gresb cfg); [by apply gresb_wire_bytes|done].
Qed.

(** End to end: the packets a network client has written back to back,
    PUS packets, FEE data packets or GRESB packets as configured, are sent to
    SpaceWire as exactly these packets in this order, by as many calls of the
    handler, however the network cuts the stream into pieces; what follows on
    the stream stays there. *)
Theorem stream_to_spw {K : Kernel} (W : Z) {G : KernelGood K W} (cfg : bridge_cfg) (s : svc_id)
    (fd : Z) (w : world) (wires pkts : list (list Z)) (rest : list Z)
  (Hmode : mode cfg <> MODE_DGRAM) (Hmon : enable_monitor cfg = false)
  (Hsn : sock_fd (svc_of w SvcSniff) = 0)
  (HP : Forall2 (sure_frame cfg) wires pkts)
  (Hb : Forall bytes wires) (HW : Forall (fun x => 2 * zlen x + 1 <= W) wires)
  (Ho : rx w !! fd = Some (concat wires ++ rest)) (Hseq : seq_ok w) (Hl : s ∉ held w) :
  exists w', serve (net_to_spw cfg) s (replicate (length wires) fd) w = Ret () w' /\
    rx w' !! fd = Some rest /\ exists l, log w' = log w ++ l /\ spw_out l = map ASpw pkts.
Proof.
  eapply (serve_stream W); try done. clear - HP Hb.
  induction HP; [done|]. inversion_clear Hb. constructor; [by eapply sure_frame_bytes|auto].
Qed.

Lemma stream_to_spw_witness :
  exists w', serve (net_to_spw (K := quiet_kernel) ex_cfg) SvcData [7; 7]
      (w_pus ([8; 1; 0xc0; 0; 0; 1; 9; 8] ++ [8; 1; 0xc0; 1; 0; 0; 7] ++ [5])) = Ret () w' /\
    rx w' !! 7 = Some [5].
Proof.
  destruct (stream_to_spw (K := quiet_kernel) 100 ex_cfg SvcData 7
    (w_pus ([8; 1; 0xc0; 0; 0; 1; 9; 8] ++ [8; 1; 0xc0; 1; 0; 0; 7] ++ [5]))
    [[8; 1; 0xc0; 0; 0; 1; 9; 8]; [8; 1; 0xc0; 1; 0; 0; 7]]
    [[8; 1; 0xc0; 0; 0; 1; 9; 8]; [8; 1; 0xc0; 1; 0; 0; 7]] [5]) as (w' & Hr & Hx & _).
  - discriminate.
  - reflexivity.
  - reflexivity.
  - repeat constructor.
  - repeat (apply Forall_cons_2; [apply bytes_check; reflexivity|]). apply Forall_nil_2.
  - repeat (apply Forall_cons_2; [vm_compute; discriminate|]). apply Forall_nil_2.
  - vm_compute. reflexivity.
  - vm_compute. split; split; discriminate.
  - vm_compute. apply not_elem_of_nil.
  - exists w'. split; [exact Hr|exact Hx].
Defined.

(** ** Datagrams to SpaceWire *)

Lemma recv_dgram_run {K : Kernel} w :
  exists r w', recv_dgram_packet w = Ret r w' /\ rx w' = rx w /\ held w' = held w /\
    net w' = net w /\ log w' = log w /\
    match r with
    | None => dgq w' = dgq w
    | Some (b, c) => dgq w = (c, b) :: dgq w' /\ b <> []
    end.
Proof.
  unfold recv_dgram_packet, mbind at 1, M_bind at 1, fionread_dgram.
  assert (Hnone : exists r w', (mret None : M (option (list Z * client))) (w_tick w) = Ret r w' /\
    rx w' = rx w /\ held w' = held w /\ net w' = net w /\ log w' = log w /\
    match r with
    | None => dgq w' = dgq w
    | Some (b, c) => dgq w = (c, b) :: dgq w' /\ b <> []
    end) by (by exists None, (w_tick w)).
  destruct (k_peek (tick w)) as [a| | |]; try exact Hnone.
  destruct (dgq w) as [|[c b] q] eqn:Eq; [exact Hnone|].
  cbn beta iota. destruct b as [|x b]; [exact Hnone|].
  rewrite (proj2 (Z.eqb_neq (zlen (x :: b)) 0)) by zl.
  change ((0 <? 0) || false) with false. cbv iota.
  erewrite mbind_run by reflexivity. cbn [tick w_tick].
  destruct (k_malloc (S (tick w))); cbn beta iota delta [negb]; [|by exists None, (w_tick (w_tick w))].
  unfold mbind, M_bind, recvfrom. cbn [tick w_tick dgq]. rewrite Eq.
  destruct (k_queue (S (S (tick w)))); try (by eexists None, _).
  cbn beta iota zeta. rewrite (take_ge (x :: b)) by (unfold zlen; lia).
  rewrite (proj2 (Z.leb_gt _ _)) by zl. eexists (Some (x :: b, c)), _. split; [reflexivity|].
  do 4 (split; [done|]). done.
Qed.

Section dgram.
Context {K : Kernel} {L : KernelLive K} (cfg : bridge_cfg) (fd : Z) (w : world).
Context (Hmode : mode cfg = MODE_DGRAM) (Hheld : held w = []).
Context (Hbytes : Forall (fun d => bytes d.2) (dgq w)) (Hdg : dgram_ok (svc_of w SvcData)).

(** a datagram was taken and handled *)
Definition dgram_done (c : client) (b : list Z) (w' : world) : Prop :=
  dgq w = (c, b) :: dgq w' /\ b <> [] /\ held w' = [] /\ dgram_ok (svc_of w' SvcData) /\
  (forall c', c' ∈ clients (svc_of w' SvcData) -> c' = c \/ c' ∈ clients (svc_of w SvcData)) /\
  (forall c', c' ∈ clients (svc_of w SvcData) -> c' ∈ clients (svc_of w' SvcData)) /\
  ((forall t, k_malloc t = true) -> c ∈ clients (svc_of w' SvcData)) /\
  exists l, log w' = log w ++ l /\ spw_out l = (if enable_monitor cfg then [] else [ASpw b]).

Lemma dgram_finish c b o w1 w2 w3 w4 :
  net w1 = net w -> log w1 = log w -> held w1 = held w -> dgq w = (c, b) :: dgq w1 -> b <> [] ->
  service_got w1 w2 SvcSniff (c_true (sock_fd (svc_of w1 SvcSniff))) (sniff_gresb cfg) b ->
  dgram_add_client SvcData c w2 = Ret () w3 -> printed w3 w4 o ->
  o = (if enable_monitor cfg then [] else [ASpw b]) -> dgram_done c b w4.
Proof using Hheld Hdg.
  intros A1 A2 A3 A4 A5 (p & fds & l2 & P & _) Hadd (B1 & B2 & B3 & B4 & B5 & l4 & B6 & B7 & _) ->.
  assert (Hh2 : held w2 = []) by (by rewrite (p_held _ _ _ _ _ _ P), A3).
  assert (Hc : svc_of w2 SvcData = svc_of w SvcData).
  { rewrite (p_other _ _ _ _ _ _ P) by done. unfold svc_of. by rewrite A1. }
  destruct (dgram_add_client_run w2 SvcData c) as (w3' & v' & Hr & Hl3 & _ & Hq & Hh3 & Hsv & _ & _ & Hok & Hcl & Hm).
  { rewrite Hh2. apply not_elem_of_nil. } { by rewrite Hc. }
  rewrite Hr in Hadd. injection Hadd as ->.
  assert (E4 : svc_of w4 SvcData = v').
  { unfold svc_of at 1. rewrite B4. fold (svc_of w3 SvcData). by rewrite Hsv, decide_True. }
  rewrite Hc in Hcl. unfold dgram_done. rewrite E4.
  split; [by rewrite B2, Hq, (p_dgq _ _ _ _ _ _ P)|]. split; [done|]. split; [by rewrite B3, Hh3|].
  split; [done|]. split; [|split; [|split; [done|]]].
  - intros c'. destruct Hcl as [->|[_ ->]]; [by right|]. rewrite elem_of_app, list_elem_of_singleton. tauto.
  - intros c'. destruct Hcl as [->|[_ ->]]; [done|]. rewrite elem_of_app. tauto.
  - exists (l2 ++ l4). split; [by rewrite B6, Hl3, (p_log _ _ _ _ _ _ P), A2, app_assoc|].
    by rewrite spw_out_app, (spw_out_push l2 (p_acts _ _ _ _ _ _ P)), B7.
Qed.

End dgram.



(** An empty datagram is never consumed: FIONREAD reports no octets, so the
    handler returns without receiving it, and it stays at the head of the queue.
    However often the handler is called from then on, nothing is sent to
    SpaceWire, nobody is registered, and the datagrams behind it are not
    reached. *)
Theorem empty_datagram_blocks {K : Kernel} (cfg : bridge_cfg) (s : svc_id) (fd : Z) (w : world)
  (c : client) (q : list (client * list Z)) (n : nat)
  (Hmode : mode cfg = MODE_DGRAM) (Hq : dgq w = (c, []) :: q) :
  exists w', serve (net_to_spw cfg) s (replicate n fd) w = Ret () w' /\
    dgq w' = dgq w /\ log w' = log w /\ net w' = net w.
Proof.
  revert w Hq. induction n as [|n IH]; intros w Hq; simpl; [by exists w|].
  destruct (recv_dgram_run w) as (r & w1 & Hr & R1 & R2 & R3 & R4 & R5).
  assert (Hone : net_to_spw cfg s fd w = Ret () w1 /\ dgq w1 = dgq w).
  { unfold net_to_spw. rewrite decide_True by done. destruct r as [[b c']|].
    - destruct R5 as [R5 R6]. rewrite Hq in R5. injection R5. congruence.
    - split; [|done]. erewrite mbind_run by (erewrite mbind_run by exact Hr; reflexivity). done. }
  destruct Hone as [Hr1 Hq1]. erewrite mbind_run by exact Hr1.
  destruct (IH w1) as (w' & Hr' & H1 & H2 & H3); [by rewrite Hq1|].
  exists w'. split; [exact Hr'|]. repeat split; congruence.
Qed.

Lemma empty_datagram_blocks_witness :
  exists w', serve (net_to_spw (K := quiet_kernel) ex_dgram_cfg) SvcData [3; 3; 3]
      (w_dgq (w_dgram []) [((1, 5000), []); ((2, 5000), [7])]) = Ret () w' /\
    dgq w' = [((1, 5000), []); ((2, 5000), [7])].
Proof.
  destruct (empty_datagram_blocks (K := quiet_kernel) ex_dgram_cfg SvcData 3
    (w_dgq (w_dgram []) [((1, 5000), []); ((2, 5000), [7])]) (1, 5000) [((2, 5000), [7])] 3)
    as (w' & Hr & Hq & _).
  - reflexivity.
  - reflexivity.
  - exists w'. split; [exact Hr|exact Hq].
Defined.

(** ** The simplified RMAP protocol *)

Definition word32 (b : list Z) (i : Z) : Z :=
  octet b i * 16777216 + octet b (i + 1) * 65536 + octet b (i + 2) * 256 + octet b (i + 3).

(** a request on the stream, ten octets and as many data as they announce,
    whether reading or writing, and the command it stands for *)
Definition rmap_request (wire : list Z) (c : act) : Prop :=
  zlen wire = 10 + word32 wire 6 /\ word32 wire 6 <= MAX_SPW_PACKET_SIZE /\
  c = ARmapCmd (octet wire 0) (negb (octet wire 1 =? 0)) (word32 wire 2)
        (if octet wire 1 =? 0 then [] else drop 10 wire).

Section request.
Context (x0 x1 x2 x3 x4 x5 x6 x7 x8 x9 : Z) (d : list Z).
Context (Hb : bytes [x0; x1; x2; x3; x4; x5; x6; x7; x8; x9]).

Lemma request_byte x : In x [x0; x1; x2; x3; x4; x5; x6; x7; x8; x9] -> is_byte x.
Proof using Hb. intros Hx. apply list_elem_of_In in Hx. by eapply Forall_forall in Hx. Qed.

Lemma request_addr : get_be32 [x0; x1; x2; x3; x4; x5; x6; x7; x8; x9] 2
  = Some (x2 * 16777216 + x3 * 65536 + x4 * 256 + x5).
Proof using Hb.
  unfold get_be32. simpl. f_equal. apply be32_lor; apply request_byte; simpl; tauto.
Qed.

Lemma request_size : get_be32 [x0; x1; x2; x3; x4; x5; x6; x7; x8; x9] 6
  = Some (x6 * 16777216 + x7 * 65536 + x8 * 256 + x9).
Proof using Hb.
  unfold get_be32. simpl. f_equal. apply be32_lor; apply request_byte; simpl; tauto.
Qed.

Lemma request_size_pos : 0 <= x6 * 16777216 + x7 * 65536 + x8 * 256 + x9.
Proof using Hb.
  assert (is_byte x6 /\ is_byte x7 /\ is_byte x8 /\ is_byte x9) as (H6 & H7 & H8 & H9)
    by (repeat split; try (apply request_byte; simpl; tauto)).
  unfold is_byte in *. lia.
Qed.

End request.

Lemma ten_octets (b : list Z) : zlen b = 10 ->
  exists x0 x1 x2 x3 x4 x5 x6 x7 x8 x9, b = [x0; x1; x2; x3; x4; x5; x6; x7; x8; x9].
Proof.
  unfold zlen. intros H.
  destruct b as [|x0 [|x1 [|x2 [|x3 [|x4 [|x5 [|x6 [|x7 [|x8 [|x9 [|x10 b]]]]]]]]]]];
    simpl in H; try lia. by repeat eexists.
Qed.

(** the outcome of a request *)
Definition rmap_post (w : world) (s : svc_id) (fd : Z) (w' : world) : Prop :=
  lost w w' s fd \/
  exists wire rest c w1, rx w !! fd = Some (wire ++ rest) /\ rmap_request wire c /\
    quiet w w1 fd rest /\ w' = w_log w1 [c].

Section rmap.
Context {K : Kernel} (s : svc_id) (fd : Z) (w : world) (st : list Z).
Context (Ho : rx w !! fd = Some st) (Hb : bytes st) (Hl : s ∉ held w).

Lemma wp_rmap_drop e w1 rest : quiet w w1 fd rest ->
  wp (rmap_conn_drop s fd e) (fun _ => False) (fun _ => rmap_post w s fd) w1.
Proof using Hl.
  intros Q. unfold wp. rewrite rmap_conn_drop_run by (by rewrite (q_held _ _ _ _ Q)).
  left. eapply dropped_lost; [exact Q|]. by destruct e.
Qed.

Lemma quiet_log w1 rest m a : quiet w w1 fd rest -> quiet w (w_log w1 [AMsg m a]) fd rest.
Proof using Type. intros Q. eapply quiet_chatty; [exact Q|apply chatty_msg]. Qed.

Lemma rmap_net_to_spw_run :
  wp (rmap_net_to_spw s fd) (fun _ => False) (fun _ => rmap_post w s fd) w.
Proof using All.
  unfold rmap_net_to_spw.
  destruct (recv_peek_run fd 10 w st Ho) as (r & b & Hr & Hc); [lia|].
  eapply wp_bind_run; [exact Hr|]. cbn beta iota.
  pose proof (adv_tick fd st w Ho) as A1.
  destruct (Z.eqb_spec r 10) as [->|Hne]; cbn beta iota delta [negb].
  2: { eapply wp_rmap_drop. by apply adv_quiet. }
  destruct Hc as [[_ ?]|(rest & -> & Hz & _)]; [lia|]. symmetry in Hz.
  destruct (ten_octets b Hz) as (x0 & x1 & x2 & x3 & x4 & x5 & x6 & x7 & x8 & x9 & ->).
  set (b := [x0; x1; x2; x3; x4; x5; x6; x7; x8; x9]) in *.
  apply bytes_app in Hb as Hbb. destruct Hbb as [Hbb _].
  eapply wp_bind_lift; [reflexivity|]. eapply wp_bind_lift; [reflexivity|].
  eapply wp_bind_lift; [by apply request_addr|]. eapply wp_bind_lift; [by apply request_size|].
  pose proof (request_size_pos _ _ _ _ _ _ _ _ _ _ Hbb) as Hpos.
  set (size := x6 * 16777216 + x7 * 65536 + x8 * 256 + x9) in *.
  set (a := x2 * 16777216 + x3 * 65536 + x4 * 256 + x5).
  destruct (Z.gtb_spec size MAX_SPW_PACKET_SIZE) as [|Hmax].
  { eapply wp_bind_run; [reflexivity|]. eapply wp_rmap_drop. by apply quiet_log, adv_quiet. }
  eapply wp_bind_run; [reflexivity|].
  pose proof (adv_trans _ _ _ _ _ _ A1 (adv_tick fd _ _ (adv_rx _ _ _ _ A1))) as A2.
  destruct (k_malloc _); cbn beta iota delta [negb]; [|eapply wp_rmap_drop; by apply adv_quiet].
  destruct (recv_exact_run fd (size + 10) _ _ (adv_rx _ _ _ _ A2))
    as (n & rec & rest' & w2 & Hr2 & A3 & He & Hc2); [lia|].
  eapply wp_bind_run; [exact Hr2|]. cbn beta iota.
  pose proof (adv_trans _ _ _ _ _ _ A2 A3) as A4. apply adv_quiet in A4 as Q.
  destruct (Z.leb_spec n 0); [by eapply wp_rmap_drop|].
  destruct (Z.eqb_spec n (size + 10)) as [->|]; cbn beta iota delta [negb]; [|by eapply wp_rmap_drop].
  destruct Hc2 as [[_ Hn]|[? _]]; [|lia].
  assert (Hd : exists d, rec = b ++ d /\ zlen d = size).
  { exists (drop 10 rec). apply (f_equal (take 10)) in He.
    rewrite !take_app_le in He by (unfold zlen in Hn; simpl; lia).
    split; [|unfold zlen in *; rewrite length_drop; lia].
    rewrite <- (take_drop 10 rec) at 1. f_equal. by rewrite <- He. }
  destruct Hd as (d & -> & Hd).
  assert (Hreq : forall c, c = ARmapCmd x0 (negb (x1 =? 0)) a (if x1 =? 0 then [] else d) ->
    rmap_post w s fd (w_log w2 [c])).
  { intros c ->. right. exists (b ++ d), rest', (ARmapCmd x0 (negb (x1 =? 0)) a (if x1 =? 0 then [] else d)), w2.
    split; [by rewrite Ho, He|]. split; [|done]. split; [|done]. change (word32 (b ++ d) 6) with size. rewrite zlen_app, Hd. lia. }
  unfold c_true. destruct (Z.eqb_spec x1 0) as [E|E]; cbn beta iota delta [negb].
  - unfold wp, emit_act. by apply Hreq.
  - assert (Hrd : rdn (b ++ d) 10 size = Some d).
    { rewrite rdn_in by (try lia; rewrite zlen_app; lia). f_equal. simpl. subst size.
      rewrite <- Hd. apply take_ge. unfold zlen. lia. }
    eapply wp_bind_lift; [exact Hrd|]. unfold wp, emit_act. by apply Hreq.
Qed.

End rmap.

Lemma rmap_request_good {K : Kernel} (W : Z) {G : KernelGood K W} (s : svc_id) (fd : Z) (w : world)
    (wire rest : list Z) (c : act) :
  rx w !! fd = Some (wire ++ rest) -> bytes wire -> rmap_request wire c -> 2 * zlen wire + 1 <= W ->
  wp (rmap_net_to_spw s fd) (fun _ => False)
    (fun _ w' => exists w1, adv fd rest w w1 /\ w' = w_log w1 [c]) w.
Proof.
  intros Ho Hb (Hz & Hmax & Hc) HW.
  assert (Hsplit : exists h d, wire = h ++ d /\ zlen h = 10).
  { exists (take 10 wire), (drop 10 wire). split; [by rewrite take_drop|].
    assert (Hp : 0 <= word32 wire 6).
    { assert (Hoc : forall i, 0 <= octet wire i).
      { intros i. unfold octet. destruct (rd wire i) as [v|] eqn:E; [|done].
        apply (rd_bytes _ _ _ Hb) in E. unfold is_byte in E. simpl. lia. }
      unfold word32. pose proof (Hoc 6). pose proof (Hoc (6 + 1)). pose proof (Hoc (6 + 2)).
      pose proof (Hoc (6 + 3)). lia. }
    unfold zlen in *. rewrite length_take. lia. }
  destruct Hsplit as (h & d & -> & Hh).
  destruct (ten_octets h Hh) as (x0 & x1 & x2 & x3 & x4 & x5 & x6 & x7 & x8 & x9 & ->).
  apply bytes_app in Hb as [Hbh _].
  set (b := [x0; x1; x2; x3; x4; x5; x6; x7; x8; x9]) in *.
  pose proof (request_size_pos _ _ _ _ _ _ _ _ _ _ Hbh) as Hpos.
  set (size := x6 * 16777216 + x7 * 65536 + x8 * 256 + x9) in *.
  set (a := x2 * 16777216 + x3 * 65536 + x4 * 256 + x5) in *.
  change (word32 (b ++ d) 6) with size in Hz, Hmax. rewrite zlen_app, Hh in Hz.
  unfold rmap_net_to_spw.
  apply (wp_header_good W (fun _ => False) _ (fun n => negb (n =? 10)) (fun n => rmap_conn_drop s fd (n <? 0))
    _ 10 fd w ((b ++ d) ++ rest)); try done; try (rewrite !zlen_app, Hh; pose proof (zlen_nonneg rest); lia).
  change (take (Z.to_nat 10) ((b ++ d) ++ rest)) with b.
  eapply wp_bind_lift; [reflexivity|]. eapply wp_bind_lift; [reflexivity|].
  eapply wp_bind_lift; [by apply request_addr|]. eapply wp_bind_lift; [by apply request_size|].
  fold size a. rewrite Z.gtb_ltb, (proj2 (Z.ltb_ge _ _)) by done.
  apply (wp_malloc_good W).
  pose proof (adv_tick fd _ w Ho) as A1.
  pose proof (adv_trans _ _ _ _ _ _ A1 (adv_tick fd _ _ (adv_rx _ _ _ _ A1))) as A2.
  destruct (recv_exact_good W fd _ (b ++ d) rest (adv_rx _ _ _ _ A2) HW) as (w2 & Hr & A3).
  rewrite zlen_app, Hh in Hr. replace (10 + zlen d) with (size + 10) in Hr by lia.
  eapply wp_bind_run; [exact Hr|]. cbn beta iota.
  rewrite (proj2 (Z.leb_gt _ _)) by lia. rewrite Z.eqb_refl. cbn beta iota delta [negb].
  pose proof (adv_trans _ _ _ _ _ _ A2 A3) as A4.
  change (c = ARmapCmd x0 (negb (x1 =? 0)) a (if x1 =? 0 then [] else d)) in Hc.
  unfold c_true. destruct (x1 =? 0); cbn beta iota delta [negb] in *.
  - exists w2. by rewrite Hc.
  - assert (Hrd : rdn (b ++ d) 10 size = Some d).
    { rewrite rdn_in by (try lia; rewrite zlen_app, Hh; lia). f_equal. simpl.
      apply take_ge. unfold zlen in Hz. lia. }
    eapply wp_bind_lift; [exact Hrd|]. exists w2. split; [done|]. by rewrite Hc.
Qed.

(** With a cooperative network every request is answered by its command.
    The octets the size field announces are taken from the stream for reads as
    well as for writes, although a read carries no payload: the octets behind
    the header of a read request, up to that size, are swallowed, be they the
    next requests of the client. *)
Theorem rmap_request_served {K : Kernel} (W : Z) {G : KernelGood K W} (s : svc_id) (fd : Z)
    (w : world) (wire rest : list Z) (c : act)
  (Ho : rx w !! fd = Some (wire ++ rest)) (Hb : bytes wire) (Hr : rmap_request wire c)
  (HW : 2 * zlen wire + 1 <= W) :
  exists w', rmap_net_to_spw s fd w = Ret () w' /\ rx w' !! fd = Some rest /\
    log w' = log w ++ [c] /\ held w' = held w /\ net w' = net w.
Proof.
  pose proof (rmap_request_good W s fd w wire rest c Ho Hb Hr HW) as H. unfold wp in H.
  destruct (rmap_net_to_spw s fd w) as [[] w'|w'|]; [|done|done].
  destruct H as (w1 & A & ->). exists (w_log w1 [c]). split; [done|].
  split; [exact (adv_rx _ _ _ _ A)|]. destruct A as (_ & _ & A3 & A4 & A5).
  split; [simpl; by rewrite A5|]. by split.
Qed.

(** a read of five octets, followed by another read request of no size *)
Lemma rmap_request_served_witness :
  exists w', rmap_net_to_spw (K := quiet_kernel) SvcRmap 11
      (w_ex ([0xfe; 0; 0; 0; 16; 0; 0; 0; 0; 5] ++ [0xfe; 0; 0; 0; 32; 0; 0; 0; 0; 0])) = Ret () w' /\
    log w' = [ARmapCmd 0xfe false 0x1000 []] /\ rx w' !! 11 = Some [0; 0; 0; 0; 0].
Proof.
  destruct (rmap_request_served (K := quiet_kernel) 100 SvcRmap 11
    (w_ex ([0xfe; 0; 0; 0; 16; 0; 0; 0; 0; 5] ++ [0xfe; 0; 0; 0; 32; 0; 0; 0; 0; 0]))
    [0xfe; 0; 0; 0; 16; 0; 0; 0; 0; 5; 0xfe; 0; 0; 0; 32] [0; 0; 0; 0; 0]
    (ARmapCmd 0xfe false 0x1000 [])) as (w' & Hr & Hx & Hl & _).
  - vm_compute. reflexivity.
  - apply bytes_check. reflexivity.
  - split; [reflexivity|]. split; [vm_compute; discriminate|]. reflexivity.
  - vm_compute. discriminate.
  - exists w'. split; [exact Hr|]. split; [exact Hl|exact Hx].
Defined.

(** a command of the simplified protocol as the manual defines it: the target, the
    operation, the address and the size, and the payload of a write *)
Definition rmap_wire (dst op a : Z) (d : list Z) : list Z :=
  [dst; op] ++ be32_bytes a ++ be32_bytes (zlen d) ++ d.

Lemma word32_be32 l x r i : 0 <= x < 4294967296 -> i = zlen l -> word32 (l ++ be32_bytes x ++ r) i = x.
Proof.
  intros Hx ->. pose proof (zlen_nonneg l).
  assert (E : forall k, 0 <= k -> octet (l ++ be32_bytes x ++ r) (zlen l + k) = octet (be32_bytes x ++ r) k).
  { intros k Hk. unfold octet. rewrite rd_app_r by lia. by replace (zlen l + k - zlen l) with k by lia. }
  unfold word32. rewrite !E by lia. rewrite <- (Z.add_0_r (zlen l)) at 1. rewrite E by lia. apply be32_id, Hx.
Qed.

Lemma rmap_wire_request dst op a d : 0 <= a < 4294967296 -> zlen d <= MAX_SPW_PACKET_SIZE ->
  (op = 0 -> d = []) -> rmap_request (rmap_wire dst op a d) (ARmapCmd dst (negb (op =? 0)) a d).
Proof.
  intros Ha Hd Ho. pose proof (zlen_nonneg d). unfold MAX_SPW_PACKET_SIZE, RMAP_MAX_DATA_LEN in Hd.
  assert (E2 : word32 (rmap_wire dst op a d) 2 = a) by (by apply (word32_be32 [dst; op])).
  assert (E6 : word32 (rmap_wire dst op a d) 6 = zlen d).
  { apply (word32_be32 ([dst; op] ++ be32_bytes a)); [lia|done]. }
  unfold rmap_request. rewrite E2, E6. split; [|split; [unfold MAX_SPW_PACKET_SIZE, RMAP_MAX_DATA_LEN; lia|]].
  - unfold rmap_wire. rewrite !zlen_app. change (zlen (be32_bytes ?x)) with 4. change (zlen [dst; op]) with 2. lia.
  - change (octet (rmap_wire dst op a d) 0) with dst. change (octet (rmap_wire dst op a d) 1) with op.
    destruct (Z.eqb_spec op 0) as [E|E]; [by rewrite (Ho E)|done].
Qed.

(** a request is determined by the octets of the stream *)
Lemma word32_prefix l r i : 0 <= i -> i + 4 <= zlen l -> word32 (l ++ r) i = word32 l i.
Proof. intros Hi Hl. unfold word32, octet. by rewrite !rd_app_l by lia. Qed.

Lemma rmap_request_unique wire wire' rest rest' c c' : wire ++ rest = wire' ++ rest' ->
  bytes (wire ++ rest) -> rmap_request wire c -> rmap_request wire' c' -> wire' = wire /\ rest' = rest /\ c' = c.
Proof.
  intros E Hb (Hz & _ & ->) (Hz' & _ & ->).
  assert (Hpos : forall l r, l ++ r = wire ++ rest -> 0 <= word32 l 6).
  { intros l r El. assert (Hl : bytes l) by (rewrite <- El in Hb; by apply bytes_app in Hb as [? _]).
    assert (Ho : forall i, 0 <= octet l i).
    { intros i. unfold octet. destruct (rd l i) as [v|] eqn:Ev; [|done]. apply (rd_bytes _ _ _ Hl) in Ev. apply Ev. }
    unfold word32. pose proof (Ho 6). pose proof (Ho (6 + 1)). pose proof (Ho (6 + 2)). pose proof (Ho (6 + 3)). lia. }
  pose proof (Hpos wire rest eq_refl) as H1. pose proof (Hpos wire' rest' (eq_sym E)) as H2.
  assert (E6 : word32 wire 6 = word32 wire' 6).
  { rewrite <- (word32_prefix wire rest 6), E by lia. apply word32_prefix; lia. }
  assert (El : length wire = length wire') by (unfold zlen in *; lia).
  apply app_inj_1 in E as [-> ->]; done.
Qed.

(** C33: The handler of the simplified RMAP protocol serves the commands of the manual:
    a write with its size and payload of at most 2^24 - 1 octets, and a read whose size
    is 0.  Whatever the kernel does, it ends without an access out of bounds and
    without ending the process, and either the command has been issued once, with its
    target, direction, address and payload, and the octets behind it are what is left
    of the stream; or no command is issued and the connection is closed and
    forgotten.  If the kernel delivers the header whole, runs into no timeout and
    allocations succeed, it is the former.  Not included are a read with a size, whose
    octets are taken from the stream although it has no payload
    ([rmap_request_served]), and a size above the maximum, which closes the connection
    ([rmap_oversize_closes]): there the manual and the comments say otherwise. *)
Theorem rmap_net_to_spw_serves {K : Kernel} s fd w dst op a d rest
  (Ho : rx w !! fd = Some (rmap_wire dst op a d ++ rest)) (Hb : bytes (rmap_wire dst op a d ++ rest))
  (Ha : 0 <= a < 4294967296) (Hd : zlen d <= MAX_SPW_PACKET_SIZE) (Hop : op = 0 -> d = []) (Hl : s ∉ held w) :
  (exists w', rmap_net_to_spw s fd w = Ret () w' /\
    (lost w w' s fd \/
     exists w1, quiet w w1 fd rest /\ w' = w_log w1 [ARmapCmd dst (negb (op =? 0)) a d])) /\
  forall W (G : KernelGood K W), 2 * (10 + zlen d) + 1 <= W ->
    exists w', rmap_net_to_spw s fd w = Ret () w' /\ rx w' !! fd = Some rest /\
      log w' = log w ++ [ARmapCmd dst (negb (op =? 0)) a d] /\ held w' = held w /\ net w' = net w.
Proof.
  pose proof (rmap_wire_request dst op a d Ha Hd Hop) as Hr. split.
  - pose proof (rmap_net_to_spw_run s fd w _ Ho Hb Hl) as H. unfold wp in H.
    destruct (rmap_net_to_spw s fd w) as [[] w'|w'|]; [|done|done]. exists w'. split; [done|].
    destruct H as [H|(wire & rest' & c & w1 & E & Hr' & Q & ->)]; [by left|right].
    rewrite Ho in E. apply (inj Some) in E. destruct (rmap_request_unique _ _ _ _ _ _ E Hb Hr Hr') as (_ & -> & ->). by exists w1.
  - intros W G HW. apply bytes_app in Hb as [Hb _]. assert (Hz : zlen (rmap_wire dst op a d) = 10 + zlen d).
    { unfold rmap_wire. rewrite !zlen_app. change (zlen (be32_bytes ?x)) with 4. change (zlen [dst; op]) with 2. lia. }
    pose proof (rmap_request_good W s fd w _ rest _ Ho Hb Hr ltac:(rewrite Hz; lia)) as H. unfold wp in H.
    destruct (rmap_net_to_spw s fd w) as [[] w'|w'|]; [|done|done]. destruct H as (w1 & A & ->).
    exists (w_log w1 [ARmapCmd dst (negb (op =? 0)) a d]). split; [done|]. split; [exact (adv_rx _ _ _ _ A)|].
    destruct A as (_ & _ & A3 & A4 & A5). split; [simpl; by rewrite A5|]. by split.
Qed.

Lemma rmap_net_to_spw_serves_witness :
  exists w', rmap_net_to_spw (K := quiet_kernel) SvcRmap 11 (w_ex [0xfe; 1; 0; 0; 16; 0; 0; 0; 0; 2; 7; 8; 9])
    = Ret () w' /\ rx w' !! 11 = Some [9] /\ log w' = [ARmapCmd 0xfe true 0x1000 [7; 8]].
Proof.
  destruct (rmap_net_to_spw_serves (K := quiet_kernel) SvcRmap 11
    (w_ex [0xfe; 1; 0; 0; 16; 0; 0; 0; 0; 2; 7; 8; 9]) 0xfe 1 0x1000 [7; 8] [9]) as [_ H].
  - vm_compute. reflexivity.
  - apply bytes_check. reflexivity.
  - lia.
  - vm_compute. discriminate.
  - discriminate.
  - vm_compute. apply not_elem_of_nil.
  - destruct (H 100 _ ltac:(vm_compute; discriminate)) as (w' & H1 & H2 & H3 & _).
    exists w'. split; [exact H1|]. split; [exact H2|exact H3].
Defined.

(** A size above the maximum closes the connection; the header of spw_bridge.c says
    that the upper octet of the size is ignored. *)
Theorem rmap_oversize_closes : exists w',
  rmap_net_to_spw (K := quiet_kernel) SvcRmap 11 (w_ex [0xfe; 1; 0; 0; 16; 0; 1; 0; 0; 2; 7; 8]) = Ret () w' /\
  rx w' !! 11 = None /\ forall dst wr a d, ARmapCmd dst wr a d ∉ log w'.
Proof.
  eexists. split; [vm_compute; reflexivity|]. split; [reflexivity|]. intros dst wr a d H. simpl in H.
  repeat (apply elem_of_cons in H as [H|H]; [discriminate H|]). by apply elem_of_nil in H.
Qed.

(** ** Replies of the targets *)

(** the message a client gets for an RMAP packet: ten octets and its data *)
Definition reply_message (p : rmap_pkt) : list Z :=
  [dst p; Z.land (ri_cmd (instruction p)) RMAP_CMD_BIT_WRITE] ++
  be32_bytes (addr p) ++ be32_bytes (data_len p) ++ path_bytes (data p) (data_len p).

Lemma wr_at (a : list Z) x l i v : i = zlen a -> is_byte v -> wr (a ++ x :: l) i v = Some (a ++ v :: l).
Proof.
  intros -> Hv. rewrite wr_in by (pose proof (zlen_nonneg a); pose proof (zlen_nonneg l); zl).
  rewrite u8_small by done. f_equal. unfold zlen. rewrite Nat2Z.id.
  rewrite insert_app_r_alt by lia. by rewrite Nat.sub_diag.
Qed.

Lemma seqZ_S i n : seqZ i (Z.of_nat (S n)) = i :: seqZ (i + 1) (Z.of_nat n).
Proof. rewrite seqZ_cons by lia. f_equal. unfold Z.succ. f_equal. lia. Qed.

(** the loop that copies the data behind the ten octets *)
Definition copy_step (d : ptr) (tmp : option (list Z)) (i : Z) : option (list Z) :=
  tmp ← tmp; v ← load d i; wr tmp (10 + i) v.

Lemma copy_loop d1 d2 pre : bytes d2 -> zlen pre = 10 + zlen d1 ->
  foldl (copy_step (At (d1 ++ d2))) (Some (pre ++ replicate (length d2) 0))
    (seqZ (zlen d1) (Z.of_nat (length d2))) = Some (pre ++ d2).
Proof.
  revert d1 pre. induction d2 as [|v d2 IH]; intros d1 pre Hb Hp.
  { simpl. by rewrite app_nil_r. }
  apply bytes_cons in Hb as [Hv Hb]. cbn [length]. rewrite seqZ_S.
  assert (E : copy_step (At (d1 ++ v :: d2)) (Some (pre ++ replicate (S (length d2)) 0)) (zlen d1)
    = Some ((pre ++ [v]) ++ replicate (length d2) 0)).
  { unfold copy_step. simpl. rewrite rd_app_r by lia. rewrite Z.sub_diag. simpl.
    rewrite wr_at by done. by rewrite <- app_assoc. }
  cbn [foldl]. rewrite E. replace (d1 ++ v :: d2) with ((d1 ++ [v]) ++ d2) by by rewrite <- app_assoc.
  replace (zlen d1 + 1) with (zlen (d1 ++ [v])) by zl.
  rewrite IH; [by rewrite <- app_assoc|done|zl].
Qed.

Lemma copy_loop_fails d l : foldl (copy_step d) None l = None.
Proof. by induction l. Qed.

Definition reply_head (p : rmap_pkt) : list Z :=
  [dst p; Z.land (ri_cmd (instruction p)) RMAP_CMD_BIT_WRITE] ++
  be32_bytes (addr p) ++ be32_bytes (data_len p).

Lemma wr_byte b i v : is_byte v -> wr b i (u8 v) = wr b i v.
Proof. intros H. by rewrite u8_small. Qed.

Lemma write_bit_byte i : is_byte i -> is_byte (Z.land (ri_cmd i) RMAP_CMD_BIT_WRITE).
Proof.
  intros Hi. pose proof (ri_cmd_range i Hi) as Hr.
  assert (H : forallb (fun x => (0 <=? Z.land x RMAP_CMD_BIT_WRITE) && (Z.land x RMAP_CMD_BIT_WRITE <? 256))
    (seqZ 0 16) = true) by reflexivity.
  rewrite forallb_forall in H. specialize (H (ri_cmd i)). unfold is_byte.
  assert (Hin : In (ri_cmd i) (seqZ 0 16)) by (apply list_elem_of_In, elem_of_seqZ; lia).
  apply H in Hin. lia.
Qed.

Lemma pseudo_reply_head p n m : n = 10 + Z.of_nat m -> is_byte (dst p) -> is_byte (instruction p) ->
  pseudo_reply p n =
  foldl (copy_step (data p)) (Some (reply_head p ++ replicate m 0)) (seqZ 0 (data_len p)).
Proof.
  intros -> Hd Hi. pose proof (write_bit_byte _ Hi) as Hw. unfold pseudo_reply.
  replace (replicate (Z.to_nat (10 + Z.of_nat m)) 0)
    with (0 :: 0 :: 0 :: 0 :: 0 :: 0 :: 0 :: 0 :: 0 :: 0 :: replicate m 0)
    by (by replace (Z.to_nat (10 + Z.of_nat m)) with (10 + m)%nat by lia).
  cbv zeta. do 10 (rewrite wr_in by (unfold zlen; simpl; lia);
    cbn [mbind option_bind Z.to_nat Pos.to_nat Pos.iter_op Nat.add insert list_insert]).
  fold (copy_step (data p)).
  assert (Hu : forall x, u8 (u8 x) = u8 x) by (intros; apply u8_small, u8_byte).
  rewrite !Hu, !u8_div, (u8_small _ Hw), (u8_small _ Hd) by lia. reflexivity.
Qed.

Lemma pseudo_reply_write p len : decoded p len ->
  pseudo_reply p (10 + data_len p) = Some (reply_message p).
Proof.
  intros D. pose proof (dec_len _ _ D) as Hlen.
  assert (Hi : is_byte (dst p) /\ is_byte (instruction p)).
  { pose proof (dec_octets _ _ D) as Ho. rewrite !bytes_cons in Ho. tauto. }
  rewrite (pseudo_reply_head p _ (Z.to_nat (data_len p))) by (lia || apply Hi).
  assert (Hm : reply_message p = reply_head p ++ path_bytes (data p) (data_len p)) by reflexivity.
  rewrite Hm. destruct (dec_data _ _ D) as [[E1 E2]|(d & E1 & E2 & E3)].
  - by rewrite E1, E2.
  - rewrite E1, <- E2. unfold zlen. rewrite Nat2Z.id.
    pose proof (copy_loop [] d (reply_head p) E3 eq_refl) as H.
    change (zlen (@nil Z)) with 0 in H. rewrite app_nil_l in H. rewrite H.
    cbn [path_bytes]. by rewrite Nat2Z.id, take_ge by lia.
Qed.

(** without room for the data the loop stores behind the buffer *)
Lemma pseudo_reply_read p len : decoded p len -> 0 < data_len p -> pseudo_reply p 10 = None.
Proof.
  intros D Hpos.
  assert (Hi : is_byte (dst p) /\ is_byte (instruction p)).
  { pose proof (dec_octets _ _ D) as Ho. rewrite !bytes_cons in Ho. tauto. }
  rewrite (pseudo_reply_head p _ 0) by (lia || apply Hi).
  destruct (dec_data _ _ D) as [[E1 _]|(d & E1 & E2 & _)]; [lia|].
  rewrite seqZ_cons by lia. cbn [foldl].
  assert (E : copy_step (data p) (Some (reply_head p ++ replicate 0 0)) 0 = None).
  { unfold copy_step. rewrite E1. simpl. destruct d as [|v d]; [rewrite zlen_nil in E2; lia|].
    simpl. by rewrite wr_out. }
  by rewrite E, copy_loop_fails.
Qed.

(** the packet behind the path header, as the sink hands it on *)
Definition payload (cfg : bridge_cfg) (b : list Z) : list Z := tail_from b (skip_header_bytes cfg).

Lemma payload_bytes cfg b : bytes b -> bytes (payload cfg b).
Proof. intros H. by apply Forall_drop. Qed.

(** the packet can be taken for an RMAP packet [p] *)
Definition parses (cfg : bridge_cfg) (b : list Z) (p : rmap_pkt) : Prop :=
  exists al cnt, rmap_pkt_from_buffer al 0 (At (payload cfg b)) (zlen (payload cfg b)) = Some (cnt, Some p).

(** the messages of a reply for which the buffer of the message is large enough *)
Definition fits (p : rmap_pkt) : Prop := is_write p = true \/ data_len p = 0.

(** calls to the kernel and printouts *)
Definition silent (w w' : world) : Prop :=
  rx w' = rx w /\ held w' = held w /\
  ((forall s, svc_of w' s = svc_of w s) /\ is_client (net w') = is_client (net w)) /\
  exists l, log w' = log w ++ l /\ spw_out l = [] /\ forall fd, sent_on fd l = [].

Lemma silent_tick w : silent w (w_tick w).
Proof. do 3 (split; [done|]). exists []. by rewrite app_nil_r. Qed.

Lemma silent_printed w w' : printed w w' [] -> silent w w'.
Proof.
  intros (A1 & A2 & A3 & A4 & A5 & A6). unfold silent, svc_of. rewrite A4. by do 3 (split; [done|]).
Qed.

Lemma silent_chatty w w' : chatty w w' -> silent w w'.
Proof.
  intros [C1 C2 C3 C4 C5 C6 (l & C7 & C8)]. do 3 (split; [done|]). exists l.
  split; [done|]. split; [by apply spw_out_msg|]. intros fd. by apply sent_on_msgs.
Qed.

Lemma silent_trans w1 w2 w3 : silent w1 w2 -> silent w2 w3 -> silent w1 w3.
Proof.
  intros (A1 & A2 & A3 & l & A4 & A5 & A6) (B1 & B2 & B3 & k & B4 & B5 & B6).
  destruct A3 as [A3 A7], B3 as [B3 B7].
  do 2 (split; [congruence|]). split; [split; [intros s; by rewrite B3|congruence]|].
  exists (l ++ k). rewrite B4, A4, app_assoc. split; [done|]. split; [by rewrite spw_out_app, A5, B5|]. intros fd. by rewrite sent_on_app, A6, B6.
Qed.

(** [m] is what the RMAP clients got, if anything *)
Definition reply_post {K : Kernel} (w : world) (m : list Z -> Prop) (w' : world) : Prop :=
  held w' = held w /\ exists l, log w' = log w ++ l /\ spw_out l = [] /\
    (forall d, m d -> all_got w w' SvcRmap d l) /\
    (forall fd, ~ (fd ∈ conn_set (svc_of w SvcRmap)) -> sent_on fd l = [] /\ rx w' !! fd = rx w !! fd).

Lemma reply_silent {K : Kernel} w m w' : silent w w' -> (forall d, ~ m d) -> reply_post w m w'.
Proof.
  intros (A1 & A2 & A3 & l & A4 & A5 & A6) Hm. split; [done|]. exists l. split; [done|].
  split; [done|]. split; [by intros d Hd%Hm|]. intros fd _. by rewrite A1.
Qed.

Lemma reply_push {K : Kernel} {L : KernelLive K} w m d w1 : silent w w1 -> SvcRmap ∉ held w ->
  (forall d', m d' -> d' = d) ->
  wp (push_all rmap_conn_drop_locked SvcRmap d) (fun _ => False) (fun _ => reply_post w m) w1.
Proof.
  intros (A1 & A2 & A3 & l & A4 & A5 & A6) Hl Hm.
  eapply wp_mono; [apply (push_all_run false); [apply rmap_dropper|by rewrite A2]| |done].
  intros [] w2 (k & P). assert (Es : svc_of w1 SvcRmap = svc_of w SvcRmap) by apply A3.
  assert (Hso : forall fd, sent_on fd (l ++ k) = sent_on fd k) by (intros; by rewrite sent_on_app, A6).
  split; [by rewrite (p_held _ _ _ _ _ _ P)|]. exists (l ++ k).
  split; [by rewrite (p_log _ _ _ _ _ _ P), A4, app_assoc|].
  split; [by rewrite spw_out_app, A5, (spw_out_push k (p_acts _ _ _ _ _ _ P))|].
  split.
  - intros d' Hd fd Hfd Hin. rewrite (Hm d' Hd). unfold got. rewrite Hso.
    destruct (p_members _ _ _ _ _ _ P fd) as [(D1 & D2 & _)|(D1 & D2 & D3 & _)];
      [rewrite Es; by apply in_seqZ0|by rewrite Es|by left|by right].
  - intros fd Hn. rewrite Hso, <- A1. rewrite <- Es in Hn.
    by destruct (p_others _ _ _ _ _ _ P fd ltac:(tauto)) as (U1 & _ & U2).
Qed.

(** the message of the reply, when memory suffices for its structure *)
Definition reply_of {K : Kernel} (cfg : bridge_cfg) (b d : list Z) : Prop :=
  (forall t, k_malloc t = true) /\ exists p cnt,
    rmap_pkt_from_buffer (mk_allocs true true true) 0 (At (payload cfg b)) (zlen (payload cfg b))
      = Some (cnt, Some p) /\ d = reply_message p.

(** a read reply with data, which the buffer of the message has no room for *)
Definition too_long (cfg : bridge_cfg) (b : list Z) : Prop :=
  exists p, parses cfg b p /\ is_write p = false /\ 0 < data_len p.

Lemma fits_not_long cfg b : (forall p, parses cfg b p -> fits p) -> ~ too_long cfg b.
Proof. intros Hf (p & Hp & Hw & Hd). destruct (Hf p Hp) as [H|H]; [congruence|lia]. Qed.

Lemma rmap_reply_run {K : Kernel} {L : KernelLive K} (cfg : bridge_cfg) (b : list Z) (w : world)
  (Hb : bytes b) (Hl : SvcRmap ∉ held w) :
  wp_unless (too_long cfg b) (rmap_reply_to_clients cfg b) (fun _ => False)
    (fun _ => reply_post w (reply_of cfg b)) w.
Proof.
  pose proof (payload_bytes cfg b Hb) as Hpb. unfold rmap_reply_to_clients.
  do 3 (eapply wp_unless_run; [reflexivity|]). cbv zeta. fold (payload cfg b).
  set (al := mk_allocs _ _ _).
  destruct (from_buffer_safe al 0 (payload cfg b) (zlen (payload cfg b)) Hpb) as (cnt & r & Hr & Hdec); [lia|].
  eapply wp_unless_lift; [exact Hr|]. cbn beta iota.
  assert (Hof : forall d, reply_of cfg b d -> exists p, r = Some p /\ d = reply_message p).
  { intros d (Hm & p & cnt' & Hp & ->). unfold al in Hr. rewrite !Hm, Hp in Hr.
    injection Hr as _ <-. by exists p. }
  pose proof (silent_trans _ _ _ (silent_trans _ _ _ (silent_tick w) (silent_tick _)) (silent_tick _)) as C0.
  destruct r as [p|]; [|right; apply wp_ret, reply_silent; [done|by intros d (? & ? & _)%Hof]].
  destruct (Hdec p eq_refl) as [_ D].
  destruct (parse_rmap_run (payload cfg b) (w_tick (w_tick (w_tick w))) Hpb) as (w1 & Hr1 & Hp1).
  eapply wp_unless_run; [exact Hr1|]. eapply wp_unless_run; [reflexivity|].
  pose proof (silent_trans _ _ _ (silent_trans _ _ _ C0 (silent_printed _ _ Hp1)) (silent_tick w1)) as C1.
  destruct (k_malloc (tick w1)) eqn:Em; cbn beta iota delta [negb].
  2: { right. apply wp_ret, reply_silent; [done|]. intros d [Hm _]. by rewrite Hm in Em. }
  destruct (is_write p) eqn:Ew; [|destruct (decide (data_len p = 0)) as [Ez|Ez]].
  - unfold is_write in Ew. rewrite Ew. replace (1 + 1 + 4 + 4 + data_len p) with (10 + data_len p) by lia.
    eapply wp_unless_lift; [by eapply pseudo_reply_write|]. right. eapply reply_push; [done|done|].
    by intros d (p' & [= <-] & ->)%Hof.
  - unfold is_write in Ew. rewrite Ew. replace (1 + 1 + 4 + 4) with (10 + data_len p) by lia.
    eapply wp_unless_lift; [by eapply pseudo_reply_write|]. right. eapply reply_push; [done|done|].
    by intros d (p' & [= <-] & ->)%Hof.
  - assert (Hpos : 0 < data_len p) by (destruct (dec_data _ _ D) as [[E1 _]|(d & _ & E2 & _)]; [done|pose proof (zlen_nonneg d); lia]).
    left. split; [|exists p; split; [by exists al, cnt|done]].
    unfold is_write in Ew. rewrite Ew. change (1 + 1 + 4 + 4) with 10. by rewrite (pseudo_reply_read p _ D Hpos).
Qed.

Lemma rmap_reply_delivers_run {K : Kernel} {L : KernelLive K} (cfg : bridge_cfg) (b : list Z) (w : world)
  (Hb : bytes b) (Hl : SvcRmap ∉ held w) (Hfit : forall p, parses cfg b p -> fits p) :
  wp (rmap_reply_to_clients cfg b) (fun _ => False) (fun _ => reply_post w (reply_of cfg b)) w.
Proof. eapply wp_unless_not; [by apply rmap_reply_run|by apply fits_not_long]. Qed.

(** A packet that is taken for an RMAP reply, for every kernel: unless it
    is a read with data (see the next theorem), every RMAP client in the polled
    range gets the ten octets describing it with its data behind them, or is
    dropped because the kernel fails a [send], when memory suffices; nobody
    else gets anything, nothing is sent to SpaceWire, and the mutex is released.
    The process goes on, in client mode, too. *)
Theorem rmap_reply_delivers {K : Kernel} {L : KernelLive K} (cfg : bridge_cfg) (b : list Z) (w : world)
  (Hb : bytes b) (Hl : SvcRmap ∉ held w) (Hfit : forall p, parses cfg b p -> fits p) :
  wp (rmap_reply_to_clients cfg b) (fun _ => False) (fun _ => reply_post w (reply_of cfg b)) w.
Proof. by apply rmap_reply_delivers_run. Qed.

(** The reply to a read command that carries data writes beyond its
    message buffer: the ten octets allocated leave no room for the data, and the
    loop that copies them stores behind the buffer from the first octet on. *)
Theorem rmap_read_reply_overflow {K : Kernel} (cfg : bridge_cfg) (b : list Z) (w : world)
    (cnt : Z) (p : rmap_pkt)
  (Hb : bytes b) (Hm : forall t, k_malloc t = true)
  (Hp : rmap_pkt_from_buffer (mk_allocs true true true) 0 (At (payload cfg b))
          (zlen (payload cfg b)) = Some (cnt, Some p))
  (Hread : is_write p = false) (Hdata : 0 < data_len p) :
  rmap_reply_to_clients cfg b w = Stuck.
Proof.
  unfold rmap_reply_to_clients. do 3 (erewrite mbind_run by reflexivity).
  cbv zeta. fold (payload cfg b). rewrite !Hm, Hp. erewrite mbind_run by reflexivity. cbn beta iota.
  pose proof (payload_bytes cfg b Hb) as Hpb.
  destruct (parse_rmap_run (payload cfg b) (w_tick (w_tick (w_tick w))) Hpb) as (w1 & Hr1 & _).
  erewrite mbind_run by exact Hr1. erewrite mbind_run by reflexivity. rewrite Hm.
  cbn beta iota delta [negb].
  destruct (from_buffer_safe (mk_allocs true true true) 0 (payload cfg b) (zlen (payload cfg b)) Hpb)
    as (cnt' & r & Hr & Hdec); [lia|].
  rewrite Hp in Hr. injection Hr as <- <-. destruct (Hdec p eq_refl) as [_ D].
  unfold is_write in Hread. rewrite Hread.
  change (1 + 1 + 4 + 4) with 10. by rewrite (pseudo_reply_read p _ D Hdata).
Qed.

(** the reply to a write and the reply to a read of two octets *)
Definition ex_write_reply : list Z := [0x30; 1; 0x2c; 0; 0xfe; 0; 1; 0x55].
Definition ex_read_reply : list Z := [0x30; 1; 0x0c; 0; 0xfe; 0; 1; 0; 0; 0; 2; 0x77; 7; 9; 0x11].

Lemma rmap_reply_delivers_witness :
  wp (rmap_reply_to_clients (K := quiet_kernel) ex_cfg ex_write_reply) (fun _ => False)
    (fun _ w' => exists l, log w' = l /\
       got (K := quiet_kernel) w' SvcRmap [0x30; 8; 0; 0; 0; 0; 0; 0; 0; 0] l 11 /\
       sent_on 5 l = []) (w_ex []).
Proof.
  eapply wp_mono; [apply (rmap_reply_delivers (K := quiet_kernel) ex_cfg ex_write_reply (w_ex []))| |].
  - apply bytes_check. reflexivity.
  - vm_compute. apply not_elem_of_nil.
  - intros p (al & cnt & Hp). left. destruct al as [[] [] []]; vm_compute in Hp; try discriminate;
      by injection Hp as _ <-.
  - intros [] w' (_ & l & Hl & _ & Hg & Hn). exists l. split; [exact Hl|]. split.
    + apply (Hg [0x30; 8; 0; 0; 0; 0; 0; 0; 0; 0]); [|vm_compute; by split|vm_compute; reflexivity].
      split; [done|]. eexists _, _. split; [vm_compute; reflexivity|reflexivity].
    + apply Hn. vm_compute. discriminate.
  - done.
Defined.

Lemma rmap_read_reply_overflow_witness :
  rmap_reply_to_clients (K := quiet_kernel) ex_cfg ex_read_reply (w_ex []) = Stuck.
Proof.
  eapply (rmap_read_reply_overflow (K := quiet_kernel) ex_cfg ex_read_reply (w_ex [])).
  - apply bytes_check. reflexivity.
  - done.
  - vm_compute. reflexivity.
  - vm_compute. reflexivity.
  - vm_compute. reflexivity.
Defined.

(** ** The sink of the SpaceWire side *)

Lemma crc_valid_some p : bytes p -> exists v, pus_pkt_crc_valid bridge_lut (At p) (zlen p) = Some v.
Proof.
  intros Hp. rewrite bridge_lut_eq. destruct (Z.leb_spec (zlen p) 2) as [Hz|Hz].
  - unfold pus_pkt_crc_valid, Ecss.PUS_ECSS_CRC_LEN. rewrite (proj2 (Z.leb_le _ _)) by done. by eexists.
  - rewrite crc_valid_steps by done. by eexists.
Qed.

Lemma check_seq_rx_run {K : Kernel} cfg p w :
  bytes p -> seq_ok w -> exists w', check_seq_rx cfg p w = Ret () w' /\ chatty w w'.
Proof.
  intros Hp [Ht Hr]. unfold check_seq_rx. erewrite mbind_run by reflexivity.
  erewrite mbind_run by reflexivity.
  destruct (check_pus_sequence_run (pus_debug cfg) (k_malloc (tick w)) p
    (pus_seq_rx (net w)) (pus_seq_rx_n (net w)) Hp Hr) as (seq' & msgs & E & Hs).
  cbn [net w_tick]. rewrite E. erewrite mbind_run by reflexivity. cbn beta iota.
  erewrite mbind_run by reflexivity.
  match goal with |- context [emit_all _ ?w1] =>
    destruct (emit_all_run (map seq_act msgs) w1 (seq_acts_msg msgs)) as (w' & -> & Hc) end.
  exists w'. split; [done|]. eapply chatty_trans; [|exact Hc].
  split; try done; simpl.
  - intros _. unfold seq_ok. simpl. split; [exact Ht|lia].
  - exists []. by rewrite app_nil_r.
Qed.

Lemma silent_seq w w' : printed w w' [] -> seq_ok w -> seq_ok w'.
Proof. intros (_ & _ & _ & A & _). unfold seq_ok. by rewrite A. Qed.

Section sink.
Context {K : Kernel} {L : KernelLive K} (cfg : bridge_cfg).

Lemma reply_post_silent w w1 w2 (m : list Z -> Prop) :
  silent w w1 -> reply_post w1 m w2 -> reply_post w m w2.
Proof using Type.
  intros (A1 & A2 & [A3 _] & l & A4 & A5 & A6) (B1 & k & B2 & B3 & B4 & B5).
  assert (Hso : forall fd, sent_on fd (l ++ k) = sent_on fd k) by (intros; by rewrite sent_on_app, A6).
  split; [congruence|]. exists (l ++ k). split; [by rewrite B2, A4, app_assoc|].
  split; [by rewrite spw_out_app, A5, B3|]. split.
  - intros d Hd fd Hfd Hm. rewrite <- A3 in Hfd, Hm. unfold got. rewrite Hso. by apply (B4 d Hd).
  - intros fd Hn. rewrite Hso, <- A1. rewrite <- A3 in Hn. by apply B5.
Qed.

Lemma forward_post_silent b w w1 w2 :
  silent w w1 -> forward_post cfg b w1 w2 -> forward_post cfg b w w2.
Proof using Type.
  intros (A1 & A2 & [A3 _] & l & A4 & A5 & A6) (k & B1 & B2 & B3 & B4 & B5).
  assert (Hso : forall fd, sent_on fd (l ++ k) = sent_on fd k) by (intros; by rewrite sent_on_app, A6).
  exists (l ++ k). split; [by rewrite B1, A4, app_assoc|]. split; [congruence|].
  split; [by rewrite spw_out_app, A5, B3|]. split.
  - intros s wrap Hin Hw fd Hfd Hm. unfold got. rewrite Hso. rewrite <- A3 in Hfd, Hm.
    apply (B4 s wrap); try done. unfold push_targets in *. by rewrite !A3.
  - intros fd Hn. rewrite Hso, <- A1. apply B5. intros s. rewrite A3. apply Hn.
Qed.

(** printouts and checks in front of the routing *)
Lemma sink_checks p w : bytes p ->
  exists w', printed w w' [] /\ forall k : M (), (_ ← debug_print cfg "SPW->NET" p;
    _ ← (if interpret_pus cfg && crc_check cfg then
           v ← lift (pus_pkt_crc_valid bridge_lut (At p) (zlen p));
           if c_true v then mret () else emit_act (AMsg "CRC error on SPW->NET packet\n" [])
         else mret ());
    _ ← parse_rmap p; k) w = k w'.
Proof using Type.
  intros Hp.
  set (w1 := w_log w [ADebug (if enable_gresb cfg then "spw_debug_print" else "pus_debug_print") "SPW->NET" p]). assert (P1 : printed w w1 []) by (by apply printed_act).
  assert (H2 : exists w2, (if interpret_pus cfg && crc_check cfg then
           v ← lift (pus_pkt_crc_valid bridge_lut (At p) (zlen p));
           if c_true v then mret () else emit_act (AMsg "CRC error on SPW->NET packet\n" [])
         else mret ()) w1 = Ret () w2 /\ printed w1 w2 []).
  { destruct (interpret_pus cfg && crc_check cfg); [|exists w1; split; [done|apply printed_refl]].
    destruct (crc_valid_some p Hp) as [v Hv]. rewrite Hv. erewrite mbind_run by reflexivity.
    destruct (c_true v); eexists; (split; [reflexivity|]); [apply printed_refl|by apply printed_act]. }
  destruct H2 as (w2 & Hr2 & P2). destruct (parse_rmap_run p w2 Hp) as (w3 & Hr3 & P3). exists w3.
  split; [apply (printed_trans _ _ _ [] [] (printed_trans _ _ _ [] [] P1 P2) P3)|].
  intros k. erewrite mbind_run by reflexivity. erewrite mbind_run by exact Hr2.
  by erewrite mbind_run by exact Hr3.
Qed.

End sink.

(** the sink takes a packet for an RMAP reply by the octet behind the first *)
Definition rmap_route (cfg : bridge_cfg) (b : list Z) : bool :=
  enable_rmap cfg && (zlen b >? skip_header_bytes cfg + 1) &&
  (octet b (skip_header_bytes cfg + 1) =? 1).

Lemma route_octet (cfg : bridge_cfg) (b : list Z) w :
  0 <= skip_header_bytes cfg -> skip_header_bytes cfg < zlen b ->
  exists x, (if enable_rmap cfg && (zlen b >? skip_header_bytes cfg + 1)
             then lift (rd b (skip_header_bytes cfg + 1)) else mret 0) w = Ret x w /\
    (x =? 1) = rmap_route cfg b.
Proof.
  intros Hs Hz. unfold rmap_route, octet. destruct (enable_rmap cfg); [|by exists 0].
  destruct (Z.gtb_spec (zlen b) (skip_header_bytes cfg + 1)) as [Hl|Hl]; [|by exists 0].
  destruct (rd_in b (skip_header_bytes cfg + 1)) as [x Hx]; [lia|]. exists x. by rewrite Hx.
Qed.

(** what the sink does with a packet *)
Definition sink_post {K : Kernel} (cfg : bridge_cfg) (b : list Z) (w w' : world) : Prop :=
  if zlen b <=? skip_header_bytes cfg then silent w w'
  else if rmap_route cfg b then reply_post w (reply_of cfg b) w'
  else forward_post cfg (payload cfg b) w w'.

Lemma wp_unless_eq (U : Prop) {A} (m m' : M A) EX (Q : A -> world -> Prop) w w' :
  m w = m' w' -> wp_unless U m' EX Q w' -> wp_unless U m EX Q w.
Proof. unfold wp_unless, wp. by intros ->. Qed.

(** [F] is what the forwarding does *)
Lemma sink_run_unless {K : Kernel} {L : KernelLive K} (cfg : bridge_cfg) (b : list Z) (w : world)
  (F : world -> world -> Prop) (Hskip : 0 <= skip_header_bytes cfg) (Hb : bytes b)
  (Hh : held w = []) (Hseq : seq_ok w) (Hd : disjoint_tables w)
  (Hfwd : forall w1, held w1 = [] -> disjoint_tables w1 ->
     wp (net_forward_to_clients cfg (payload cfg b)) (fun _ => is_client (net w1) = true) (fun _ => F w1) w1)
  (Hsilent : forall w1 w2, silent w w1 -> F w1 w2 -> F w w2) :
  wp_unless (rmap_route cfg b = true /\ too_long cfg b) (net_pkt_sink cfg b) (fun _ => is_client (net w) = true)
    (fun _ w' => if zlen b <=? skip_header_bytes cfg then silent w w'
       else if rmap_route cfg b then reply_post w (reply_of cfg b) w' else F w w') w.
Proof.
  unfold net_pkt_sink. destruct (Z.leb_spec (zlen b) (skip_header_bytes cfg)) as [Hz|Hz].
  { right. unfold wp, emit_act. apply silent_printed. by apply printed_act. }
  pose proof (payload_bytes cfg b Hb) as Hp. cbv zeta. fold (payload cfg b).
  destruct (sink_checks cfg (payload cfg b) w Hp) as (w1 & P1 & Hk).
  apply (wp_unless_eq _ _ _ _ _ _ _ (Hk _)). clear Hk. pose proof (silent_printed _ _ P1) as C1.
  destruct (route_octet cfg b w1 Hskip Hz) as (x & Hx & Hroute).
  eapply wp_unless_run; [exact Hx|]. rewrite Hroute.
  assert (Hcl : is_client (net w1) = is_client (net w)) by apply C1.
  assert (Hh1 : held w1 = []) by (destruct C1 as (_ & -> & _); done).
  destruct (rmap_route cfg b) eqn:Er.
  - eapply wp_unless_mono; [apply rmap_reply_run; [done|]|done| |done].
    + rewrite Hh1. apply not_elem_of_nil.
    + intros [] w2. by apply reply_post_silent.
  - right. assert (H2 : exists w2, (if interpret_pus cfg then check_seq_rx cfg (payload cfg b) else mret ()) w1
        = Ret () w2 /\ chatty w1 w2).
    { destruct (interpret_pus cfg); [|exists w1; split; [done|apply chatty_refl]].
      apply check_seq_rx_run; [done|]. by apply (silent_seq w). }
    destruct H2 as (w2 & Hr2 & C2). eapply wp_bind_run; [exact Hr2|].
    pose proof (silent_trans _ _ _ C1 (silent_chatty _ _ C2)) as (_ & S2 & [S3 S4] & _).
    eapply wp_mono; [apply Hfwd; [by rewrite S2|]| |].
    + intros s s' fd. rewrite !S3. apply Hd.
    + intros [] w3. apply Hsilent. by eapply silent_trans; [|apply silent_chatty].
    + intros w3. by rewrite S4.
Qed.

Lemma sink_run_with {K : Kernel} {L : KernelLive K} (cfg : bridge_cfg) (b : list Z) (w : world)
  (F : world -> world -> Prop) (Hskip : 0 <= skip_header_bytes cfg) (Hb : bytes b)
  (Hh : held w = []) (Hseq : seq_ok w) (Hd : disjoint_tables w)
  (Hfit : rmap_route cfg b = true -> forall p, parses cfg b p -> fits p)
  (Hfwd : forall w1, held w1 = [] -> disjoint_tables w1 ->
     wp (net_forward_to_clients cfg (payload cfg b)) (fun _ => is_client (net w1) = true) (fun _ => F w1) w1)
  (Hsilent : forall w1 w2, silent w w1 -> F w1 w2 -> F w w2) :
  wp (net_pkt_sink cfg b) (fun _ => is_client (net w) = true)
    (fun _ w' => if zlen b <=? skip_header_bytes cfg then silent w w'
       else if rmap_route cfg b then reply_post w (reply_of cfg b) w' else F w w') w.
Proof.
  eapply wp_unless_not; [by apply sink_run_unless|]. intros [Hr Ht]. by eapply fits_not_long; [apply Hfit|].
Qed.

Lemma net_pkt_sink_run {K : Kernel} {L : KernelLive K} (cfg : bridge_cfg) (b : list Z) (w : world)
  (Hmode : mode cfg <> MODE_DGRAM) (Hskip : 0 <= skip_header_bytes cfg) (Hb : bytes b)
  (Hh : held w = []) (Hseq : seq_ok w) (Hd : disjoint_tables w)
  (Hfit : rmap_route cfg b = true -> forall p, parses cfg b p -> fits p) :
  wp (net_pkt_sink cfg b) (fun _ => is_client (net w) = true) (fun _ w' => sink_post cfg b w w') w.
Proof.
  apply sink_run_with; try done.
  - intros w1 H1 H2. by apply forward_delivers_run.
  - intros w1 w2. apply forward_post_silent.
Qed.

(** in every mode, the forwarding comes to an end *)
Lemma forward_ends {K : Kernel} {L : KernelLive K} cfg b w : held w = [] -> disjoint_tables w ->
  wp (net_forward_to_clients cfg b) (fun _ => is_client (net w) = true) (fun _ _ => True) w.
Proof.
  intros Hh Hd. destruct (decide (mode cfg = MODE_DGRAM)) as [Hm|Hm].
  2: { eapply wp_mono; [by apply forward_delivers_run|done|done]. }
  unfold net_forward_to_clients. rewrite Hm. apply wp_bind.
  eapply wp_mono; [apply sniff_push_run; rewrite Hh; apply not_elem_of_nil| |done].
  intros [] w1 S1. pose proof (service_calm _ _ _ _ _ _ S1) as C1.
  assert (Hdg : forall d w', held w' = [] -> exists w'', dgram_send_all SvcData d w' = Ret () w'').
  { intros d w' H. destruct (dgram_send_all_run SvcData d w') as (w'' & l & -> & _); [|by eexists].
    rewrite H. apply not_elem_of_nil. }
  pose proof (k_held _ _ _ C1) as Hh1. rewrite Hh in Hh1. destruct (enable_gresb cfg).
  - eapply wp_bind_run; [apply gresb_wrap_run|]. destruct (if k_malloc _ then _ else _) as [d|]; [|done].
    destruct (Hdg d (w_tick w1) Hh1) as [w2 E2]. eapply wp_bind_run; [exact E2|].
    unfold gresb_push_rx_clients. eapply wp_bind_run; [reflexivity|]. rewrite Hm. done.
  - destruct (Hdg b w1 Hh1) as [w2 E2]. unfold wp. by rewrite E2.
Qed.

(** and so does the sink *)
Lemma sink_ends {K : Kernel} {L : KernelLive K} cfg b w : 0 <= skip_header_bytes cfg -> bytes b ->
  held w = [] -> seq_ok w -> disjoint_tables w -> (rmap_route cfg b = true -> forall p, parses cfg b p -> fits p) ->
  wp (net_pkt_sink cfg b) (fun _ => is_client (net w) = true) (fun _ _ => True) w.
Proof.
  intros H1 H2 H3 H4 H5 H6. eapply wp_mono; [apply (sink_run_with cfg b w (fun _ _ => True)); try done|done|done].
  intros w1 Hw1 Hd1. by apply forward_ends.
Qed.


Definition ex_rmap_cfg : bridge_cfg :=
  ex_net_cfg MODE_SERVER 1 true false false true false false false false true 0.


(** ** Polling *)

(** the descriptors of one round of the poll loop *)
Definition poll_fds {K : Kernel} (s : svc_id) (w : world) : list Z :=
  match k_select (tick w) with
  | None => []
  | Some r =>
      filter (fun fd => fd ∈ conn_set (svc_of w s) ∩ r) (seqZ 0 (nfds (svc_of w s)))
  end.

Lemma filter_ext_in {A} (P Q : A -> Prop) (DP : forall x, Decision (P x)) (DQ : forall x, Decision (Q x))
    (l : list A) : (forall x, x ∈ l -> P x <-> Q x) -> filter P l = filter Q l.
Proof.
  induction l as [|x l IH]; intros H; [done|]. rewrite !filter_cons.
  rewrite IH by (intros; apply H; by right). specialize (H x ltac:(left)).
  destruct (decide (P x)), (decide (Q x)); tauto.
Qed.

Lemma filter_none {A} (P : A -> Prop) (D : forall x, Decision (P x)) (l : list A) :
  (forall x, ~ P x) -> filter P l = [].
Proof. intros H. induction l as [|x l IH]; [done|]. by rewrite filter_cons_False by apply H. Qed.

Lemma serve_nil handle s w : serve handle s [] w = Ret () w.
Proof. done. Qed.

Lemma poll_step_run {K : Kernel} handle s w : s ∉ held w ->
  poll_step true handle s w = serve handle s (poll_fds s w) (w_tick w).
Proof.
  intros Hl. unfold poll_step. cbn beta iota delta [negb].
  erewrite mbind_run by (by apply lock_free). erewrite mbind_run by reflexivity. cbv zeta.
  erewrite mbind_run by (by apply unlock_held). erewrite mbind_run by reflexivity.
  unfold poll_fds. set (c := conn_set (svc_of w s)). set (n := nfds (svc_of w s)).
  change (svcs (net (w_held w (s :: held w))) s) with (svc_of w s).
  change (tick (w_held (w_held w (s :: held w)) (held w))) with (tick w). fold c n.
  assert (Hid : w_tick (w_held (w_held w (s :: held w)) (held w)) = w_tick w) by (by destruct w).
  rewrite Hid. destruct (k_select (tick w)) as [r|]; [|rewrite bool_decide_true by done; done].
  set (rs := filter (fun fd => fd < n) (c ∩ r)).
  assert (Hrs : forall fd, fd ∈ rs <-> fd < n /\ fd ∈ c ∩ r) by (intros; apply (elem_of_filter (fun x => x < n))).
  assert (Hfilter : forall P, (forall fd, P fd <-> fd ∈ rs) -> forall (D : forall fd, Decision (P fd)),
    filter P (seqZ 0 n) = filter (fun fd => fd ∈ c ∩ r) (seqZ 0 n)).
  { intros P HP D. apply filter_ext_in. intros fd Hfd%elem_of_seqZ. rewrite HP, Hrs. intuition lia. }
  destruct (bool_decide (rs = ∅)) eqn:Ee.
  - apply bool_decide_eq_true in Ee.
    assert (Hnil : filter (fun fd => fd ∈ rs) (seqZ 0 n) = []).
    { apply filter_none. intros x. rewrite Ee. apply not_elem_of_empty. }
    rewrite (Hfilter (fun fd => fd ∈ rs)) in Hnil by done. by rewrite Hnil.
  - erewrite mbind_run by (by apply lock_free). erewrite mbind_run by reflexivity.
    erewrite mbind_run by (by apply unlock_held).
    assert (Hid2 : w_held (w_held (w_tick w) (s :: held (w_tick w))) (held (w_tick w)) = w_tick w)
      by (by destruct w).
    change (svcs (net (w_held (w_tick w) (s :: held (w_tick w)))) s) with (svc_of w s). fold c.
    rewrite Hid2. f_equal. apply Hfilter. intros fd.
    rewrite (elem_of_filter (fun x => x ∈ c)), !Hrs, elem_of_intersection. tauto.
Qed.

Lemma seqZ_sorted n : StronglySorted Z.lt (seqZ 0 n).
Proof.
  assert (H : forall k m, StronglySorted Z.lt (seqZ m (Z.of_nat k))).
  { induction k as [|k IH]; intros m; [constructor|]. rewrite seqZ_S. constructor; [apply IH|].
    apply Forall_forall. intros x Hx%elem_of_seqZ. lia. }
  destruct (Z.le_gt_cases 0 n); [rewrite <- (Z2Nat.id n) by done; apply H|].
  destruct n; try lia. constructor.
Qed.

Lemma filter_sorted (P : Z -> Prop) (D : forall x, Decision (P x)) (l : list Z) :
  StronglySorted Z.lt l -> StronglySorted Z.lt (filter P l).
Proof.
  induction 1 as [|x l Hl IH Hx]; [constructor|]. rewrite filter_cons.
  destruct (decide (P x)); [|done]. constructor; [done|].
  rewrite Forall_forall in *. intros y [_ Hy]%list_elem_of_filter. by apply Hx.
Qed.

(** C35: One round of the poll loop of a service, for every kernel: it takes
    and releases the mutex, and then runs the handler once, in ascending order,
    for exactly those descriptors below [nfds] that [select] has reported and
    that are connections of the service; while the SpaceWire link is not ready
    it does nothing. *)
Theorem poll_step_serves {K : Kernel} (handle : svc_id -> Z -> M ()) (s : svc_id) (w : world)
    (Hl : s ∉ held w) :
  poll_step false handle s w = Ret () w /\
  poll_step true handle s w = serve handle s (poll_fds s w) (w_tick w) /\
    StronglySorted Z.lt (poll_fds s w) /\
    (forall fd, fd ∈ poll_fds s w <-> 0 <= fd < nfds (svc_of w s) /\ fd ∈ conn_set (svc_of w s) /\
       exists r, k_select (tick w) = Some r /\ fd ∈ r).
Proof.
  split; [done|]. split; [by apply poll_step_run|].
  unfold poll_fds. destruct (k_select (tick w)) as [r|].
  - split; [apply filter_sorted, seqZ_sorted|]. intros fd.
    rewrite list_elem_of_filter, elem_of_seqZ, elem_of_intersection. split.
    + intros [[Hc Hr] Hn]. split; [lia|]. split; [done|]. by exists r.
    + intros (Hn & Hc & r' & [= <-] & Hr). split; [done|lia].
  - split; [constructor|]. intros fd. split; [intros H; by apply not_elem_of_nil in H|].
    by intros (_ & _ & r & ? & _).
Qed.

(** [select] reports descriptors 5 and 7, of which 5 is a connection *)
Definition ready_kernel : Kernel :=
  {| k_queue := fun _ => Queued 0; k_peek := fun _ => Queued 63; k_send := fun _ => Accepted 0;
     k_sendto := fun _ => true; k_clock := fun _ => (0, 0); k_malloc := fun _ => true;
     k_select := fun _ => Some {[5; 7]}; k_socket := fun _ => 3; k_setup := fun _ => true;
     k_intr_max := 0 |}.

Lemma poll_step_serves_witness :
  exists fds, poll_step (K := ready_kernel) true
      (fun s fd => conn_drop s fd false) SvcData (w_ex [])
    = serve (fun s fd => conn_drop s fd false) SvcData fds (w_tick (w_ex [])) /\ 5 ∈ fds.
Proof.
  destruct (poll_step_serves (K := ready_kernel)
    (fun s fd => conn_drop s fd false) SvcData (w_ex [])) as (_ & Hr & _ & Hin).
  - apply not_elem_of_nil.
  - eexists. split; [exact Hr|]. apply Hin. split; [vm_compute; by split|].
    split; [vm_compute; reflexivity|]. exists {[5; 7]}. split; [reflexivity|vm_compute; reflexivity].
Defined.

Section discard.
Context {K : Kernel} (s : svc_id) (fd : Z) (w : world) (st : list Z).
Context (Ho : rx w !! fd = Some st) (Hl : s ∉ held w).

Definition discard_post (w' : world) : Prop :=
  (exists d rest, st = d ++ rest /\ adv fd rest w w') \/
  (lost w w' s fd /\ is_client (net w) = false).

Lemma discard_drop e w1 rest : adv fd rest w w1 ->
  wp (conn_drop s fd e) (client_end w s fd) (fun _ => discard_post) w1.
Proof using Hl.
  intros Ha. pose proof (dropped_lost w w1 s fd _ rest (adv_quiet _ _ _ _ Ha) (drop_act_msg fd e)) as Hlost.
  destruct Ha as (_ & _ & A3 & A4 & _). unfold wp.
  rewrite conn_drop_run by by rewrite A3. unfold after_drop. simpl. rewrite A4.
  destruct (is_client (net w)) eqn:Hc; [split; [done|]; eauto|by right].
Qed.

Lemma discard_loop_run fuel : forall w1 d rest, st = d ++ rest -> adv fd rest w w1 ->
  (length rest < fuel)%nat ->
  wp (discard_loop fuel s fd) (client_end w s fd) (fun _ => discard_post) w1.
Proof using Hl.
  induction fuel as [|fuel IH]; intros w1 d rest He Ha Hf; [lia|]. cbn [discard_loop].
  unfold wp, mbind, M_bind, recv_dontwait.
  destruct (recv_cases fd 4096 w1 rest (adv_rx _ _ _ _ Ha)) as [(e & Hr & He0)|(b & rest' & w2 & -> & Hb & Hr & Ha2)];
    [lia| |]; rewrite Hr; cbn beta iota.
  - pose proof (adv_trans _ _ _ _ _ _ Ha (adv_tick fd rest w1 (adv_rx _ _ _ _ Ha))) as Ha'.
    destruct (Z.ltb_spec e 0).
    + destruct (k_queue (tick w1)); try (by apply (discard_drop true _ rest)).
      left. by exists d, rest.
    + rewrite (proj2 (Z.eqb_eq e 0)) by lia. by apply (discard_drop false _ rest).
  - rewrite (proj2 (Z.ltb_ge _ _)), (proj2 (Z.eqb_neq _ _)) by lia.
    apply (IH w2 (d ++ b) rest'); [by rewrite <- app_assoc|by eapply adv_trans|].
    rewrite length_app in Hf. unfold zlen in Hb. lia.
Qed.

End discard.

(** The handler of the connections that only receive, for every kernel: it
    ends, sends nothing anywhere, and either it has thrown away octets of the
    stream and left the others, or the connection is closed and forgotten; in
    client mode the process ends in that case, also when it is a mere sniffer
    that has disconnected. *)
Theorem gresb_rx_discard_drains {K : Kernel} (s : svc_id) (fd : Z) (w : world) (st : list Z)
    (Ho : rx w !! fd = Some st) (Hl : s ∉ held w) :
  wp (gresb_rx_discard s fd) (client_end w s fd) (fun _ => discard_post s fd w st) w.
Proof.
  unfold gresb_rx_discard. unfold wp at 1. rewrite Ho.
  apply (discard_loop_run s fd w st Hl (S (length st)) w [] st); [done| |lia].
  split; [|done]. by rewrite insert_id.
Qed.

Lemma gresb_rx_discard_drains_witness :
  wp (gresb_rx_discard (K := quiet_kernel) SvcSniff 8) (fun _ => False)
    (fun _ => discard_post SvcSniff 8 (w_ex []) []) (w_ex []).
Proof.
  eapply wp_mono; [apply (gresb_rx_discard_drains (K := quiet_kernel) SvcSniff 8 (w_ex []) [])| |].
  - vm_compute. reflexivity.
  - apply not_elem_of_nil.
  - done.
  - by intros w' [? _].
Defined.

(** A connection whose descriptor equals [nfds] when it is accepted, as it
    is for the second of two clients that connect in a row (the first has made
    [nfds] its descriptor plus one, the next one is what the kernel hands out),
    is registered but [nfds] stays: no round of the poll loop ever serves it,
    and no packet is ever sent to it, as long as no higher descriptor is
    accepted. *)
Theorem accepted_at_bound_deaf {K : Kernel} {L : KernelLive K} (s : svc_id) (fd : Z) (q : list Z)
    (w : world) (Hl : s ∉ held w) (Hfd : fd < FD_SETSIZE) (Hn : nfds (svc_of w s) = fd) :
  exists w', accept_step s (AcceptFd fd q) w = Ret () w' /\
    fd ∈ conn_set (svc_of w' s) /\ rx w' !! fd = Some q /\ nfds (svc_of w' s) = fd /\
    (forall handle, exists fds, poll_step true handle s w' = serve handle s fds (w_tick w') /\
       ~ (fd ∈ fds)) /\
    (forall b, wp (push_all conn_drop_locked s b) (fun _ => is_client (net w') = true)
       (fun _ w2 => exists l, log w2 = log w' ++ l /\ sent_on fd l = []) w').
Proof.
  destruct (accept_step_run w s fd q Hl) as (w' & Hr & Hw). exists w'. split; [exact Hr|].
  rewrite (proj2 (Z.leb_gt _ _)) in Hw by done. destruct Hw as (_ & Hx & _ & Hh & _ & _ & Hs).
  specialize (Hs s). rewrite svc_accepted, decide_True in Hs by done. unfold registered in Hs.
  rewrite Hn, Z.gtb_ltb, Z.ltb_irrefl in Hs. rewrite Hs. simpl in Hx, Hh |- *.
  split; [apply elem_of_union; right; by apply elem_of_singleton|].
  split; [rewrite Hx; apply lookup_insert_eq|]. split; [done|].
  assert (Hl' : s ∉ held w') by (by rewrite Hh).
  assert (Hn' : nfds (svc_of w' s) = fd) by (by rewrite Hs). split.
  - intros handle. exists (poll_fds s w'). split; [by apply poll_step_run|].
    unfold poll_fds. destruct (k_select (tick w')); [|apply not_elem_of_nil].
    rewrite list_elem_of_filter, elem_of_seqZ, Hn'. lia.
  - intros b. eapply wp_mono; [by apply (push_all_run true), Hl'; apply conn_dropper| |done].
    intros [] w2 (l & P). exists l. split; [apply (p_log _ _ _ _ _ _ P)|].
    apply (p_others _ _ _ _ _ _ P fd). rewrite elem_of_seqZ, Hn'. lia.
Qed.

(** the first client has descriptor 7, the second 8 *)
Lemma accepted_at_bound_deaf_witness :
  exists w', accept_step SvcData (AcceptFd 8 [1; 2]) w_one = Ret () w' /\
    8 ∈ conn_set (svc_of w' SvcData) /\ nfds (svc_of w' SvcData) = 8.
Proof.
  destruct (accepted_at_bound_deaf (K := quiet_kernel) SvcData 8 [1; 2] w_one)
    as (w' & Hr & Hin & _ & Hn & _).
  - vm_compute. apply not_elem_of_nil.
  - reflexivity.
  - vm_compute. reflexivity.
  - exists w'. split; [exact Hr|]. split; [exact Hin|exact Hn].
Defined.
