(* ===== verification/NetStart.v ===== *)
(** * Start and stop of the network side (src/net.c)

    [net_start] opens the sockets of the configured services and creates their
    threads, [net_stop] cancels the threads, closes the sockets and joins the
    threads.  A thread is named by the service it works for and by what it does:
    [true] accepts connections, [false] polls them. *)

From Stdlib Require Import String List.
From stdpp Require Import base tactics option list list_numbers gmap sets.
From Stdlib Require Import ZArith Lia Bool.
From S2P Require Import Prelude.
From S2P Require Import CString.
From S2P Require Import Gresb.
From S2P Require Import Sys.
From S2P Require Import NetConn.
From S2P Require Import NetRecv.
From S2P Require Import Net.

Local Open Scope Z_scope.

(** ** Threads *)

Definition thread : Type := svc_id * bool.

(** the thread handles of [struct net_state]; [None] is the zero [calloc] left *)
Record net_threads : Type := mk_threads {
  th_main : option thread;
  th_poll : option thread;
  th_rmap_accept : option thread;
  th_rmap_poll : option thread;
  th_gresb_tx_accept : option thread;
  th_gresb_tx_poll : option thread;
  th_gresb_rx_accept : option thread;
  th_gresb_rx_poll : option thread;
  th_sniff_accept : option thread;
  th_sniff_poll : option thread
}.

(** cancelling or joining a handle that names no thread is undefined *)
Definition pthread_cancel (t : option thread) : M () :=
  match t with Some (s, a) => emit_act (ACancel s a) | None => stuck end.

Definition pthread_join (t : option thread) : M () :=
  match t with Some (s, a) => emit_act (AJoin s a) | None => stuck end.

(** ** Start *)

Definition net_calloc : net_state := mk_net false 0 [] 0 [] 0 (fun _ => svc_empty).

(** [snprintf(url, sizeof(url), "%s:%u", ...)] with 256 octets *)
Definition make_url (h : string) (p : Z) : string :=
  substring 0 255 (h ++ String colon (dec p)).

Definition DEFAULT_ADDR : string := "0.0.0.0".

Definition with_sock_fd (v : net_service) (fd : Z) : net_service :=
  mk_svc fd (conn_set v) (nfds v) (clients v) (clients_cap v).

Section start.
Context {K : Kernel}.

Definition pthread_create (s : svc_id) (accept : bool) : M (option thread) :=
  ok ← setup_call;
  if negb ok then _ ← emit_act (AMsg "Epic fail in pthread_create: %s\n" []); exit_failure
  else _ ← emit_act (AThread s accept); mret (Some (s, accept)).

Definition set_sock_fd (s : svc_id) (fd : Z) : M () :=
  v ← get_svc s; put_svc s (with_sock_fd v fd).

(** a listening socket for service [s]; the order of the two statements
    [st->s.sock_fd = bind_server_socket(url, &st->s.conn_set)] *)
Definition open_service (s : svc_id) (url : string) : M () :=
  fd ← bind_server_socket url s;
  set_sock_fd s fd.

(** the data service; [q] is what the server will send in client mode *)
Definition start_data (cfg : bridge_cfg) (q : list Z) : M (option thread * option thread) :=
  let url := make_url (host cfg) (port cfg) in
  match mode cfg with
  | MODE_SERVER =>
      _ ← open_service SvcData url;
      main ← pthread_create SvcData true;
      poll ← pthread_create SvcData false;
      _ ← emit_act (AMsg "Started in SERVER mode\n" []);
      mret (main, poll)
  | MODE_DGRAM =>
      fd ← bind_dgram_socket url;
      _ ← set_sock_fd SvcData fd;
      _ ← fd_zero SvcData;
      _ ← fd_set SvcData fd;
      v ← get_svc SvcData;
      _ ← put_svc SvcData (with_nfds v (fd + 1));
      main ← pthread_create SvcData false;
      _ ← emit_act (AMsg "Started in DGRAM mode\n" []);
      mret (main, None)
  | MODE_CLIENT =>
      fd ← connect_client_socket SvcData url q;
      n ← get_net;
      _ ← put_net (mk_net (is_client n) fd (pus_seq_tx n) (pus_seq_tx_n n) (pus_seq_rx n)
                     (pus_seq_rx_n n) (svcs n));
      if fd <? 0 then
        _ ← emit_act (AMsg "Failed to connect to %s\n" []); exit_failure
      else
      n ← get_net;
      _ ← put_net (mk_net true (client_sock n) (pus_seq_tx n) (pus_seq_tx_n n) (pus_seq_rx n)
                     (pus_seq_rx_n n) (svcs n));
      main ← pthread_create SvcData false;
      _ ← emit_act (AMsg "Started in CLIENT mode\n" []);
      mret (main, None)
  end.

(** the accepting and the polling thread of a service *)
Definition start_pair (s : svc_id) (msg : string) : M (option thread * option thread) :=
  a ← pthread_create s true;
  p ← pthread_create s false;
  _ ← emit_act (AMsg msg []);
  mret (a, p).

Definition start_gresb (cfg : bridge_cfg)
  : M (option thread * option thread * (option thread * option thread)) :=
  if enable_gresb cfg && bool_decide (mode cfg = MODE_SERVER) then
    _ ← open_service SvcGresbTx (make_url (host cfg) (gresb_get_virtual_link_tx_port (gresb_link cfg)));
    _ ← open_service SvcGresbRx (make_url (host cfg) (gresb_get_virtual_link_rx_port (gresb_link cfg)));
    ta ← pthread_create SvcGresbTx true;
    tp ← pthread_create SvcGresbTx false;
    r ← start_pair SvcGresbRx "Started GRESB virtual link %u server\n";
    mret (ta, tp, r)
  else mret (None, None, (None, None)).

Definition start_sniff (cfg : bridge_cfg) : M (option thread * option thread) :=
  if enable_sniff cfg then
    let h := if decide (mode cfg = MODE_CLIENT) then DEFAULT_ADDR else host cfg in
    _ ← open_service SvcSniff (make_url h GRESB_SNIFF_PORT);
    start_pair SvcSniff "Started sniffer on port %u\n"
  else mret (None, None).

Definition start_rmap (cfg : bridge_cfg) : M (option thread * option thread) :=
  if enable_rmap cfg then
    _ ← open_service SvcRmap (make_url (host cfg) (rmap_port cfg));
    start_pair SvcRmap "Started RMAP SERVER\n"
  else mret (None, None).

Definition net_start (cfg : bridge_cfg) (q : list Z) : M net_threads :=
  ok ← malloc;
  if negb ok then _ ← emit_act (AMsg "calloc" []); exit_failure else
  _ ← put_net net_calloc;
  '(main, poll) ← start_data cfg q;
  '(ta, tp, (ra, rp)) ← start_gresb cfg;
  '(sa, sp) ← start_sniff cfg;
  '(ma, mp) ← start_rmap cfg;
  mret (mk_threads main poll ma mp ta tp ra rp sa sp).

(** the handlers the services are given *)
Definition handle_pkt (cfg : bridge_cfg) (s : svc_id) : Z -> M () :=
  match s with
  | SvcData => net_to_spw cfg s
  | SvcRmap => rmap_net_to_spw s
  | SvcGresbTx => gresb_tx_to_spw cfg s
  | SvcGresbRx | SvcSniff => gresb_rx_discard s
  end.

(** ** Stop *)

Definition gresb_on (cfg : bridge_cfg) : bool :=
  enable_gresb cfg && bool_decide (mode cfg = MODE_SERVER).

(** one of the two passes over the threads *)
Definition each_thread (f : option thread -> M ()) (cfg : bridge_cfg) (t : net_threads) : M () :=
  _ ← f (th_main t);
  _ ← (match th_poll t with Some _ => f (th_poll t) | None => mret () end);
  _ ← (if enable_rmap cfg then _ ← f (th_rmap_accept t); f (th_rmap_poll t) else mret ());
  _ ← (if gresb_on cfg then
         _ ← f (th_gresb_tx_accept t); _ ← f (th_gresb_tx_poll t);
         _ ← f (th_gresb_rx_accept t); f (th_gresb_rx_poll t)
       else mret ());
  if enable_sniff cfg then _ ← f (th_sniff_accept t); f (th_sniff_poll t) else mret ().

Definition close_if (fd : Z) : M () := if c_true fd then close fd else mret ().

Definition close_service (s : svc_id) : M () := v ← get_svc s; close_if (sock_fd v).

Definition net_stop (cfg : bridge_cfg) (t : net_threads) : M () :=
  _ ← each_thread pthread_cancel cfg t;
  _ ← close_service SvcData;
  _ ← close_service SvcRmap;
  _ ← (if gresb_on cfg then _ ← close_service SvcGresbTx; close_service SvcGresbRx else mret ());
  _ ← (if enable_sniff cfg then close_service SvcSniff else mret ());
  n ← get_net;
  _ ← close_if (client_sock n);
  each_thread pthread_join cfg t.

(** destroying a mutex that is held is undefined *)
Definition mutex_destroy (s : svc_id) : M () := fun w =>
  if decide (s ∈ held w) then Stuck else Ret () w.

(** nothing reads the state after it was freed *)
Definition net_release (cfg : bridge_cfg) : M () :=
  _ ← mutex_destroy SvcData;
  _ ← mutex_destroy SvcRmap;
  _ ← (if gresb_on cfg then _ ← mutex_destroy SvcGresbTx; mutex_destroy SvcGresbRx else mret ());
  _ ← (if enable_sniff cfg then mutex_destroy SvcSniff else mret ());
  put_net net_calloc.

End start.

(** ** Specification *)

(** the threads a configuration asks for, in the order of their creation *)
Definition data_threads (cfg : bridge_cfg) : list thread :=
  if decide (mode cfg = MODE_SERVER) then [(SvcData, true); (SvcData, false)]
  else [(SvcData, false)].

Definition both (s : svc_id) : list thread := [(s, true); (s, false)].

Definition threads_of (cfg : bridge_cfg) : list thread :=
  data_threads cfg ++ (if gresb_on cfg then both SvcGresbTx ++ both SvcGresbRx else []) ++
  (if enable_sniff cfg then both SvcSniff else []) ++ (if enable_rmap cfg then both SvcRmap else []).

(** the sockets it asks for: service, address and port *)
Definition endpoint : Type := svc_id * string * Z.

Definition data_endpoints (cfg : bridge_cfg) : list endpoint :=
  if decide (mode cfg = MODE_CLIENT) then [] else [(SvcData, host cfg, port cfg)].

Definition gresb_endpoints (cfg : bridge_cfg) : list endpoint :=
  if gresb_on cfg then
    [(SvcGresbTx, host cfg, GRESB_VLINK_TX (gresb_link cfg));
     (SvcGresbRx, host cfg, GRESB_VLINK_RX (gresb_link cfg))]
  else [].

Definition sniff_endpoints (cfg : bridge_cfg) : list endpoint :=
  if enable_sniff cfg then
    [(SvcSniff, if decide (mode cfg = MODE_CLIENT) then DEFAULT_ADDR else host cfg, 3064)]
  else [].

Definition rmap_endpoints (cfg : bridge_cfg) : list endpoint :=
  if enable_rmap cfg then [(SvcRmap, host cfg, rmap_port cfg)] else [].

Definition endpoints_of (cfg : bridge_cfg) : list endpoint :=
  data_endpoints cfg ++ gresb_endpoints cfg ++ sniff_endpoints cfg ++ rmap_endpoints cfg.

(** what a log says about threads and sockets *)
Definition created (l : list act) : list thread :=
  omap (fun a => match a with AThread s b => Some (s, b) | _ => None end) l.
Definition cancelled (l : list act) : list thread :=
  omap (fun a => match a with ACancel s b => Some (s, b) | _ => None end) l.
Definition joined (l : list act) : list thread :=
  omap (fun a => match a with AJoin s b => Some (s, b) | _ => None end) l.
Definition bound (l : list act) : list (Z * string * Z) :=
  omap (fun a => match a with ABind fd h p => Some (fd, h, p) | _ => None end) l.
Definition closed (l : list act) : list Z :=
  omap (fun a => match a with AClose fd => Some fd | _ => None end) l.

Definition sock (w : world) (s : svc_id) : Z := sock_fd (svcs (net w) s).

Definition bound_at (w : world) (es : list endpoint) : list (Z * string * Z) :=
  map (fun e : endpoint => let '(s, h, p) := e in (sock w s, h, p)) es.

(** a host name [net_start] can make a URL of *)
Definition host_ok (h : string) : Prop :=
  h <> EmptyString /\ colon_free h = true /\ (String.length h <= 127)%nat.

Definition cfg_ok (cfg : bridge_cfg) : Prop :=
  host_ok (host cfg) /\ 0 < port cfg < 65536 /\ 0 < rmap_port cfg < 65536 /\
  0 <= gresb_link cfg <= GRESB_VLINK_MAX.

(** [started w w' ss ts es]: between [w] and [w'] the threads [ts] were created,
    the endpoints [es] were opened, nothing was closed or cancelled, and only the
    services [ss] got a socket *)
Record started (w w' : world) (ss : list svc_id) (ts : list thread) (es : list endpoint) : Prop := {
  sd_log : exists l, log w' = log w ++ l /\ created l = ts /\ bound l = bound_at w' es /\
    cancelled l = [] /\ joined l = [] /\ closed l = [];
  sd_held : held w' = held w;
  sd_sock : forall s, s ∉ ss -> sock w' s = sock w s;
  sd_client : SvcData ∉ ss -> client_sock (net w') = client_sock (net w)
}.

Lemma started_refl w : started w w [] [] [].
Proof. split; [|done|done|done]. exists []. by rewrite app_nil_r. Qed.

Lemma bound_at_ext w w' es : (forall s h p, In (s, h, p) es -> sock w' s = sock w s) ->
  bound_at w' es = bound_at w es.
Proof.
  intros H. apply map_ext_in. intros [[s h] p] Hin. by rewrite (H s h p Hin).
Qed.

Lemma started_trans w w1 w2 ss ss' ts ts' es es' :
  started w w1 ss ts es -> started w1 w2 ss' ts' es' ->
  (forall s h p, In (s, h, p) es -> s ∉ ss') ->
  started w w2 (ss ++ ss') (ts ++ ts') (es ++ es').
Proof.
  intros [(l & El & Et & Eb & Ec & Ej & Ex) Hh Hs Hc]
    [(l' & El' & Et' & Eb' & Ec' & Ej' & Ex') Hh' Hs' Hc'] Hd.
  split; [|congruence| |].
  - exists (l ++ l'). split; [by rewrite El', El, app_assoc|].
    unfold created, bound, cancelled, joined, closed in *. rewrite !omap_app, Et, Et', Eb, Eb', Ec, Ec', Ej, Ej', Ex, Ex'.
    split; [done|]. split; [|done]. unfold bound_at at 3. rewrite map_app. f_equal.
    symmetry. apply (bound_at_ext w1 w2). intros s h p Hin. apply Hs'. by eapply Hd.
  - intros s Hin. rewrite elem_of_app in Hin. rewrite Hs', Hs; naive_solver.
  - intros Hin. rewrite elem_of_app in Hin. rewrite Hc', Hc; naive_solver.
Qed.

(** a step that logs nothing, or a message *)
Lemma started_msg w w' ss l : held w' = held w -> log w' = log w ++ l ->
  Forall (fun a => is_msg a) l -> (forall s, s ∉ ss -> sock w' s = sock w s) ->
  (SvcData ∉ ss -> client_sock (net w') = client_sock (net w)) ->
  started w w' ss [] [].
Proof.
  intros Hh Hl Ha Hs Hc. split; [|done|done|done]. exists l. split; [done|]. clear Hl.
  induction Ha as [|a l Ha _ IH]; [done|]. by destruct a.
Qed.

(** ** URLs *)

Lemma length_dec_loop fuel : forall n r, (String.length (dec_loop fuel n r) <= fuel + String.length r)%nat.
Proof.
  induction fuel as [|fuel IH]; intros n r; [done|]. cbn [dec_loop].
  destruct (_ =? _); [simpl; lia|]. eapply Nat.le_trans; [apply IH|]. simpl. lia.
Qed.

Lemma substring_all n s : (String.length s <= n)%nat -> substring 0 n s = s.
Proof.
  revert n. induction s as [|c s IH]; intros [|n] Hn; simpl in *; try done; [lia|]. f_equal. apply IH. lia.
Qed.

Lemma length_append s r : String.length (s ++ r) = (String.length s + String.length r)%nat.
Proof. induction s; simpl; [done|]. by f_equal. Qed.

Lemma make_url_whole h p : host_ok h -> make_url h p = (h ++ String colon (dec p))%string.
Proof.
  intros (_ & _ & Hl). apply substring_all. rewrite length_append. cbn [String.length].
  pose proof (length_dec_loop 20 p EmptyString) as H. fold (dec p) in H. cbn [String.length] in H. lia.
Qed.

(** the address that [net_start] writes into a URL is the one the socket
    functions read from it *)
Lemma url_roundtrip {K : Kernel} h p w : host_ok h -> 0 <= p < 65536 -> k_malloc (tick w) = true ->
  sockaddr_from_url (make_url h p) w = Ret (h, p) (w_tick w).
Proof.
  intros Hh Hp Hm. rewrite make_url_whole by done. destruct Hh as (Hne & Hc & _).
  unfold sockaddr_from_url. erewrite mbind_run by reflexivity. rewrite Hm. cbn beta iota delta [negb].
  destruct h as [|c h]; [done|]. rewrite strtok_first by done. rewrite strtok_dec by lia.
  rewrite atoi_dec by lia. rewrite u16_small by (unfold is_u16; lia). done.
Qed.

Lemma sockaddr_cases {K : Kernel} h p w : host_ok h -> 0 <= p < 65536 ->
  sockaddr_from_url (make_url h p) w = Ret (h, p) (w_tick w) \/
  exists w', sockaddr_from_url (make_url h p) w = Exit w'.
Proof.
  intros Hh Hp. destruct (k_malloc (tick w)) eqn:E; [left; by apply url_roundtrip|right].
  unfold sockaddr_from_url. erewrite mbind_run by reflexivity. rewrite E. by eexists.
Qed.

(** ** Start, step by step *)

Section start_spec.
Context {K : Kernel}.

Lemma create_wp {B} (k : option thread -> M B) s a (Q : B -> world -> Prop) w :
  (forall w', started w w' [] [(s, a)] [] -> wp (k (Some (s, a))) (fun _ => True) Q w') ->
  wp (pthread_create s a ≫= k) (fun _ => True) Q w.
Proof.
  intros H. apply wp_bind. unfold pthread_create. eapply wp_bind_run; [reflexivity|].
  destruct (k_setup (tick w)); cbn beta iota delta [negb]; [|exact I].
  apply (H (w_log (w_tick w) [AThread s a])). split; [|done|done|done]. by exists [AThread s a].
Qed.

Lemma msg_wp {B} (k : () -> M B) m ar EX (Q : B -> world -> Prop) w :
  (forall w', started w w' [] [] [] -> wp (k ()) EX Q w') ->
  wp (emit_act (AMsg m ar) ≫= k) EX Q w.
Proof.
  intros H. eapply wp_bind_run; [reflexivity|]. apply H. apply (started_msg _ _ _ [AMsg m ar]); try done.
  by constructor.
Qed.

Lemma bind_server_cases h p s w : host_ok h -> 0 <= p < 65536 ->
  (exists w', bind_server_socket (make_url h p) s w = Exit w') \/
  (exists fd n, bind_server_socket (make_url h p) s w =
     Ret fd (w_log (mk_world n (rx w) (dgq w) (held w)
       (set_svcs (net w) (upd_svc (svcs (net w)) s (with_conn_set (svcs (net w) s) ∅))) (log w))
       [ABind fd h p])).
Proof.
  intros Hh Hp. unfold bind_server_socket.
  destruct (sockaddr_cases h p w Hh Hp) as [E|[w' E]].
  2: { left. exists w'. unfold mbind, M_bind. by rewrite E. }
  rewrite (mbind_run _ _ _ _ _ E). cbn beta iota. erewrite mbind_run by reflexivity.
  set (fd := k_socket (tick (w_tick w))). erewrite mbind_run by reflexivity.
  destruct (fd <? 0); [left; by eexists|]. erewrite mbind_run by reflexivity.
  match goal with |- context [k_setup ?t] => destruct (k_setup t) end; cbn beta iota delta [negb];
    [|left; by eexists]. erewrite mbind_run by reflexivity.
  match goal with |- context [k_setup ?t] => destruct (k_setup t) end; cbn beta iota delta [negb];
    [|left; by eexists].
  right. exists fd. eexists. reflexivity.
Qed.

Lemma open_wp {B} (k : () -> M B) s h p (Q : B -> world -> Prop) w :
  host_ok h -> 0 <= p < 65536 ->
  (forall w', started w w' [s] [] [(s, h, p)] -> client_sock (net w') = client_sock (net w) ->
     wp (k ()) (fun _ => True) Q w') ->
  wp (open_service s (make_url h p) ≫= k) (fun _ => True) Q w.
Proof.
  intros Hh Hp H. apply wp_bind. unfold open_service. apply wp_bind.
  destruct (bind_server_cases h p s w Hh Hp) as [[w' E]|(fd & n & E)]; unfold wp at 1; rewrite E; [done|].
  unfold set_sock_fd. eapply wp_bind_run; [reflexivity|]. eapply wp_run; [reflexivity|].
  apply H; [|done]. split.
  - exists [ABind fd h p]. split; [done|]. split; [done|]. split; [|done].
    unfold bound_at, sock. simpl. by rewrite upd_svc_eq.
  - done.
  - intros s' Hs'. unfold sock. simpl. by rewrite !upd_svc_ne by set_solver.
  - done.
Qed.

(** *** The four parts *)

Lemma start_pair_wp s m w :
  wp (start_pair s m) (fun _ => True)
    (fun r w' => r = (Some (s, true), Some (s, false)) /\ started w w' [] (both s) []) w.
Proof.
  unfold start_pair.
  apply create_wp. intros w1 S1. apply create_wp. intros w2 S2. apply msg_wp. intros w3 S3.
  apply wp_ret. split; [done|]. apply (started_trans w w1 w3 [] [] _ [(s, false)] [] [] S1); [|set_solver].
  apply (started_trans w1 w2 w3 [] [] _ [] [] [] S2 S3). set_solver.
Qed.

(** the next part of a sequence *)
Lemma wp_next {A B} (m : M A) (f : A -> M B) (P : A -> world -> Prop) EX (Q : B -> world -> Prop) w :
  wp m EX P w -> (forall a w', P a w' -> wp (f a) EX Q w') -> wp (m ≫= f) EX Q w.
Proof. intros Hm Hf. apply wp_bind. by eapply wp_mono. Qed.

(** the socket of the client and of the datagram mode is put into an [fd_set] without
    the test [accept_connections] makes *)
Definition beyond_set (cfg : bridge_cfg) : Prop :=
  mode cfg <> MODE_SERVER /\ exists t, FD_SETSIZE <= k_socket t.

Definition pair_if (b : bool) (s : svc_id) : option thread * option thread :=
  if b then (Some (s, true), Some (s, false)) else (None, None).

Definition data_pair (cfg : bridge_cfg) : option thread * option thread :=
  if decide (mode cfg = MODE_SERVER) then (Some (SvcData, true), Some (SvcData, false))
  else (Some (SvcData, false), None).

Ltac started_tac :=
  eapply started_msg with (l := []); [done|by rewrite app_nil_r|done| |].

Lemma gresb_ports cfg : 0 <= gresb_link cfg <= GRESB_VLINK_MAX ->
  gresb_get_virtual_link_tx_port (gresb_link cfg) = GRESB_VLINK_TX (gresb_link cfg) /\
  gresb_get_virtual_link_rx_port (gresb_link cfg) = GRESB_VLINK_RX (gresb_link cfg) /\
  0 <= GRESB_VLINK_TX (gresb_link cfg) < 65536 /\ 0 <= GRESB_VLINK_RX (gresb_link cfg) < 65536.
Proof.
  intros H. unfold gresb_get_virtual_link_tx_port, gresb_get_virtual_link_rx_port, GRESB_VLINK_TX,
    GRESB_VLINK_RX, GRESB_VLINK_PORT_BASE, GRESB_VLINK_MAX in *.
  destruct (Z.gtb_spec (gresb_link cfg) 5); lia.
Qed.

Lemma start_gresb_wp cfg w : cfg_ok cfg ->
  wp (start_gresb cfg) (fun _ => True)
    (fun r w' => r = (pair_if (gresb_on cfg) SvcGresbTx, pair_if (gresb_on cfg) SvcGresbRx) /\
       started w w' [SvcGresbTx; SvcGresbRx]
         (if gresb_on cfg then both SvcGresbTx ++ both SvcGresbRx else []) (gresb_endpoints cfg)) w.
Proof.
  intros (Hh & _ & _ & Hl). unfold start_gresb, gresb_endpoints. fold (gresb_on cfg).
  destruct (gresb_on cfg); unfold pair_if.
  2: { apply wp_ret. split; [done|]. by started_tac. }
  destruct (gresb_ports cfg Hl) as (-> & -> & Ht & Hr).
  apply open_wp; [done|done|]. intros w1 S1 _. apply open_wp; [done|done|]. intros w2 S2 _.
  apply create_wp. intros w3 S3. apply create_wp. intros w4 S4.
  eapply wp_next; [apply start_pair_wp|]. intros r w5 [-> S5]. apply wp_ret. split; [done|].
  apply (started_trans w w1 w5 [SvcGresbTx] [SvcGresbRx] [] _ [_] [_] S1); [|set_solver].
  apply (started_trans w1 w2 w5 [SvcGresbRx] [] [] _ [_] [] S2); [|set_solver].
  apply (started_trans w2 w3 w5 [] [] [_] _ [] [] S3); [|set_solver].
  apply (started_trans w3 w4 w5 [] [] [_] _ [] [] S4 S5). set_solver.
Qed.

Lemma started_weaken w w' ss ss' ts es : started w w' ss ts es -> (forall s, s ∈ ss -> s ∈ ss') ->
  started w w' ss' ts es.
Proof. intros [? ? Hs Hc] Hss. split; [done|done| |]; intros; [apply Hs|apply Hc]; auto. Qed.

(** a service with one socket and its two threads *)
Lemma start_service_wp s h p m w : host_ok h -> 0 <= p < 65536 ->
  wp (_ ← open_service s (make_url h p); start_pair s m) (fun _ => True)
    (fun r w' => r = pair_if true s /\ started w w' [s] (both s) [(s, h, p)]) w.
Proof.
  intros Hh Hp. apply open_wp; [done|done|]. intros w1 S1 _.
  eapply wp_mono; [apply start_pair_wp| |done]. intros r w2 [-> S2]. split; [done|].
  apply (started_trans w w1 w2 [s] [] [] _ [_] [] S1 S2). set_solver.
Qed.

Lemma start_sniff_wp cfg w : cfg_ok cfg ->
  wp (start_sniff cfg) (fun _ => True)
    (fun r w' => r = pair_if (enable_sniff cfg) SvcSniff /\
       started w w' [SvcSniff] (if enable_sniff cfg then both SvcSniff else []) (sniff_endpoints cfg)) w.
Proof.
  intros (Hh & _). unfold start_sniff, sniff_endpoints. destruct (enable_sniff cfg).
  - apply start_service_wp; [|done]. destruct (decide _); [|done]. by split; [|split; [|vm_compute; lia]].
  - apply wp_ret. split; [done|]. by started_tac.
Qed.

Lemma start_rmap_wp cfg w : cfg_ok cfg ->
  wp (start_rmap cfg) (fun _ => True)
    (fun r w' => r = pair_if (enable_rmap cfg) SvcRmap /\
       started w w' (if enable_rmap cfg then [SvcRmap] else [])
         (if enable_rmap cfg then both SvcRmap else []) (rmap_endpoints cfg)) w.
Proof.
  intros (Hh & _ & Hp & _). unfold start_rmap, rmap_endpoints. destruct (enable_rmap cfg).
  - apply start_service_wp; [done|lia].
  - apply wp_ret. split; [done|]. by started_tac.
Qed.

Lemma bind_dgram_cases h p w : host_ok h -> 0 <= p < 65536 ->
  (exists w', bind_dgram_socket (make_url h p) w = Exit w') \/
  (exists fd n, (0 <= fd /\ exists t, fd = k_socket t) /\ bind_dgram_socket (make_url h p) w =
     Ret fd (w_log (mk_world n (rx w) (dgq w) (held w) (net w) (log w)) [ABind fd h p])).
Proof.
  intros Hh Hp. unfold bind_dgram_socket.
  destruct (sockaddr_cases h p w Hh Hp) as [E|[w' E]].
  2: { left. exists w'. unfold mbind, M_bind. by rewrite E. }
  rewrite (mbind_run _ _ _ _ _ E). cbn beta iota. erewrite mbind_run by reflexivity.
  set (fd := k_socket (tick (w_tick w))).
  destruct (Z.ltb_spec fd 0); [left; by eexists|]. erewrite mbind_run by reflexivity.
  match goal with |- context [k_setup ?t] => destruct (k_setup t) end; cbn beta iota delta [negb];
    [|left; by eexists].
  right. exists fd. eexists. split; [split; [done|by eexists]|reflexivity].
Qed.

Lemma grow_nfds_sock s fd w : exists w', grow_nfds s fd w = Ret () w' /\
  log w' = log w /\ held w' = held w /\ (forall s', sock w' s' = sock w s') /\
  client_sock (net w') = client_sock (net w).
Proof.
  unfold grow_nfds. erewrite mbind_run by reflexivity. destruct (_ >? _); [|by eexists].
  eexists. split; [reflexivity|]. split; [done|]. split; [done|]. split; [|done].
  intros s'. unfold sock. simpl. destruct (decide (s' = s)) as [-> |]; [by rewrite upd_svc_eq|by rewrite upd_svc_ne].
Qed.

Lemma connect_wp h p s q w : host_ok h -> 0 <= p < 65536 ->
  wp_unless (exists t, FD_SETSIZE <= k_socket t) (connect_client_socket s (make_url h p) q) (fun _ => True)
    (fun fd w' => fd < 0 \/ started w w' [] [] [] /\ In (AConnect fd h p) (log w')) w.
Proof.
  intros Hh Hp. unfold connect_client_socket.
  destruct (sockaddr_cases h p w Hh Hp) as [E|[w' E]]; [|right; unfold wp, mbind, M_bind; by rewrite E].
  set (fd := k_socket (tick (w_tick w))). destruct (FD_SETSIZE <=? fd) eqn:Efd.
  { destruct (k_setup (tick (w_tick (w_tick w)))) eqn:Es; [left|right].
    - split; [|exists (tick (w_tick w)); fold fd; lia]. rewrite (mbind_run _ _ _ _ _ E). erewrite mbind_run by reflexivity.
      fold fd. rewrite (proj2 (Z.ltb_ge _ _)) by (unfold FD_SETSIZE in Efd; lia).
      erewrite mbind_run by reflexivity. rewrite Es. cbn beta iota delta [negb].
      do 3 (erewrite mbind_run by reflexivity). unfold mbind, M_bind, fd_set. by rewrite Efd.
    - eapply wp_bind_run; [exact E|]. eapply wp_bind_run; [reflexivity|]. fold fd. destruct (fd <? 0) eqn:El; [left; simpl; lia|].
      eapply wp_bind_run; [reflexivity|]. rewrite Es. cbn beta iota delta [negb]. left. simpl. lia. }
  right. eapply wp_bind_run; [exact E|].
  eapply wp_bind_run; [reflexivity|]. fold fd. destruct (Z.ltb_spec fd 0); [by left|].
  eapply wp_bind_run; [reflexivity|].
  match goal with |- context [k_setup ?t] => destruct (k_setup t) end; cbn beta iota delta [negb];
    [|left; simpl; lia].
  eapply wp_bind_run; [reflexivity|]. eapply wp_bind_run; [reflexivity|].
  eapply wp_bind_run; [reflexivity|]. eapply wp_bind_run; [by apply fd_set_run|].
  match goal with |- wp (_ ≫= _) _ _ ?w => destruct (grow_nfds_sock s fd w) as (w4 & Eg & Hl & Hd & Hs & Hc) end.
  eapply wp_bind_run; [exact Eg|]. apply wp_ret. right. split.
  - split; [|by rewrite Hd| |by rewrite Hc].
    + exists [AConnect fd h p]. by rewrite Hl.
    + intros s' _. rewrite Hs. unfold sock. simpl.
      destruct (decide (s' = s)) as [-> |]; [|by rewrite !upd_svc_ne].
      repeat (rewrite upd_svc_eq; simpl). unfold svc_of. simpl. by repeat (rewrite !upd_svc_eq; simpl).
  - rewrite Hl. simpl. apply in_or_app. right. by left.
Qed.

Lemma start_data_wp cfg q w : cfg_ok cfg ->
  wp_unless (beyond_set cfg) (start_data cfg q) (fun _ => True)
    (fun r w' => r = data_pair cfg /\
       started w w' [SvcData] (data_threads cfg) (data_endpoints cfg) /\
       (mode cfg <> MODE_CLIENT -> client_sock (net w') = client_sock (net w)) /\
       (mode cfg = MODE_CLIENT -> sock w' SvcData = sock w SvcData)) w.
Proof.
  intros (Hh & Hp & _). unfold start_data, data_pair, data_threads, data_endpoints.
  destruct (mode cfg) eqn:Em; repeat case_decide; try congruence.
  - right. apply open_wp; [done|lia|]. intros w1 S1 C1. apply create_wp. intros w2 S2. apply create_wp. intros w3 S3.
    apply msg_wp. intros w4 S4. apply wp_ret. split; [done|].
    assert (S : started w1 w4 [] (both SvcData) []).
    { apply (started_trans w1 w2 w4 [] [] [_] _ [] [] S2); [|set_solver].
      apply (started_trans w2 w3 w4 [] [] [_] [] [] [] S3 S4). set_solver. }
    split; [|split; [|done]].
    + apply (started_trans w w1 w4 [SvcData] [] [] _ [_] [] S1 S). set_solver.
    + intros _. destruct S as [_ _ _ Hc]. rewrite Hc by set_solver. done.
  - eapply wp_unless_next; [eapply wp_unless_mono; [by apply connect_wp; [|lia]|intros Ht; by split; [rewrite Em|]|intros ?? X; exact X|done]|].
    intros fd w1 Hc. eapply wp_bind_run; [reflexivity|].
    eapply wp_bind_run; [reflexivity|]. destruct (Z.ltb_spec fd 0); [exact I|].
    destruct Hc as [Hc|[S1 _]]; [lia|].
    eapply wp_bind_run; [reflexivity|]. eapply wp_bind_run; [reflexivity|].
    apply create_wp. intros w2 S2. apply msg_wp. intros w3 S3. apply wp_ret. split; [done|].
    assert (S : started w w3 [SvcData] [(SvcData, false)] []).
    { eapply (started_trans w w1 w3 [] [SvcData] [] _ [] []); [exact S1| |set_solver].
      eapply (started_trans w1 _ w3 [SvcData] [] [] _ [] []); [| |set_solver].
      2: { eapply (started_trans _ w2 w3 [] [] [_] [] [] []); [exact S2|exact S3|set_solver]. }
      started_tac; [done|set_solver]. }
    split; [done|]. split; [done|]. intros _.
    destruct S1 as [_ _ Hs1 _], S2 as [_ _ Hs2 _], S3 as [_ _ Hs3 _].
    rewrite Hs3, Hs2 by set_solver. rewrite <- (Hs1 SvcData) by set_solver. done.
  - destruct (bind_dgram_cases (host cfg) (port cfg) w Hh ltac:(lia)) as [[w' E]|(fd & n & (_ & t & Ht) & E)];
      [right; unfold wp, mbind, M_bind; by rewrite E|].
    destruct (FD_SETSIZE <=? fd) eqn:Efd.
    { left. split; [|split; [by rewrite Em|exists t; lia]]. rewrite (mbind_run _ _ _ _ _ E).
      do 2 (erewrite mbind_run by reflexivity). unfold mbind, M_bind, fd_set. by rewrite Efd. }
    right. eapply wp_bind_run; [exact E|]. do 2 (eapply wp_bind_run; [reflexivity|]).
    eapply wp_bind_run; [by apply fd_set_run|]. do 2 (eapply wp_bind_run; [reflexivity|]).
    apply create_wp. intros w2 S2. apply msg_wp. intros w3 S3. apply wp_ret. split; [done|].
    assert (S : forall w1, started w w1 [SvcData] [] [(SvcData, host cfg, port cfg)] ->
      started w1 w2 [] [(SvcData, false)] [] ->
      started w w3 [SvcData] [(SvcData, false)] [(SvcData, host cfg, port cfg)]).
    { intros w1 S1 S2'. apply (started_trans w w1 w3 [SvcData] [] [] _ [_] [] S1); [|set_solver].
      apply (started_trans w1 w2 w3 [] [] [_] [] [] [] S2' S3). set_solver. }
    split; [|split; [|done]].
    + apply (S _) in S2; [done|]. split.
      * exists [ABind fd (host cfg) (port cfg)]. split; [done|]. split; [done|]. split; [|done].
        unfold bound_at, sock. simpl. by repeat (rewrite !upd_svc_eq; simpl).
      * done.
      * intros s' Hs'. unfold sock. simpl. by rewrite !upd_svc_ne by set_solver.
      * done.
    + intros _. destruct S2 as [_ _ _ Hc], S3 as [_ _ _ Hc']. rewrite Hc', Hc by set_solver. done.
Qed.

(** the handles [net_start] returns *)
Definition threads_rec (cfg : bridge_cfg) : net_threads :=
  mk_threads (data_pair cfg).1 (data_pair cfg).2
    (pair_if (enable_rmap cfg) SvcRmap).1 (pair_if (enable_rmap cfg) SvcRmap).2
    (pair_if (gresb_on cfg) SvcGresbTx).1 (pair_if (gresb_on cfg) SvcGresbTx).2
    (pair_if (gresb_on cfg) SvcGresbRx).1 (pair_if (gresb_on cfg) SvcGresbRx).2
    (pair_if (enable_sniff cfg) SvcSniff).1 (pair_if (enable_sniff cfg) SvcSniff).2.

Definition on_net (w : world) (n : net_state) : world := w_net (w_tick w) n.

Lemma net_start_run cfg q w : cfg_ok cfg ->
  wp_unless (beyond_set cfg) (net_start cfg q) (fun _ => True)
    (fun t w' => t = threads_rec cfg /\
       started (on_net w net_calloc) w'
         ([SvcData; SvcGresbTx; SvcGresbRx; SvcSniff] ++ if enable_rmap cfg then [SvcRmap] else [])
         (threads_of cfg) (endpoints_of cfg) /\
       (mode cfg = MODE_CLIENT -> sock w' SvcData = 0) /\
       (mode cfg <> MODE_CLIENT -> client_sock (net w') = 0)) w.
Proof.
  intros Hok. unfold net_start, wp_unless, wp. rewrite (mbind_run malloc _ w (k_malloc (tick w)) (w_tick w)) by reflexivity.
  destruct (k_malloc (tick w)); cbn beta iota delta [negb]; [|by right].
  rewrite (mbind_run (put_net net_calloc) _ (w_tick w) () (on_net w net_calloc)) by reflexivity.
  eapply (wp_unless_next (beyond_set cfg)); [by apply start_data_wp|]. intros r w1 (-> & S1 & C1 & D1).
  destruct (data_pair cfg) as [main poll] eqn:Ed.
  eapply wp_next; [by apply start_gresb_wp|]. intros r w2 (-> & S2).
  destruct (pair_if (gresb_on cfg) SvcGresbTx) as [ta tp] eqn:Et.
  destruct (pair_if (gresb_on cfg) SvcGresbRx) as [ra rp] eqn:Er.
  eapply wp_next; [by apply start_sniff_wp|]. intros r w3 (-> & S3).
  destruct (pair_if (enable_sniff cfg) SvcSniff) as [sa sp] eqn:Es.
  eapply wp_next; [by apply start_rmap_wp|]. intros r w4 (-> & S4).
  destruct (pair_if (enable_rmap cfg) SvcRmap) as [ma mp] eqn:Em.
  assert (S34 : started w2 w4 ([SvcSniff] ++ if enable_rmap cfg then [SvcRmap] else [])
    ((if enable_sniff cfg then both SvcSniff else []) ++ (if enable_rmap cfg then both SvcRmap else []))
    (sniff_endpoints cfg ++ rmap_endpoints cfg)).
  { apply (started_trans w2 w3 w4 [SvcSniff] _ _ _ _ _ S3 S4). unfold sniff_endpoints.
    intros s h p Hin. destruct (enable_sniff cfg); simpl in Hin; [|done].
    destruct Hin as [Hin|[]]. simplify_eq. destruct (enable_rmap cfg); set_solver. }
  assert (S24 : started w1 w4 ([SvcGresbTx; SvcGresbRx; SvcSniff] ++ if enable_rmap cfg then [SvcRmap] else [])
    ((if gresb_on cfg then both SvcGresbTx ++ both SvcGresbRx else []) ++
     (if enable_sniff cfg then both SvcSniff else []) ++ (if enable_rmap cfg then both SvcRmap else []))
    (gresb_endpoints cfg ++ sniff_endpoints cfg ++ rmap_endpoints cfg)).
  { apply (started_trans w1 w2 w4 [SvcGresbTx; SvcGresbRx] _ _ _ _ _ S2 S34). unfold gresb_endpoints.
    intros s h p Hin. destruct (gresb_on cfg); simpl in Hin; [|done].
    destruct Hin as [Hin|[Hin|[]]]; simplify_eq; destruct (enable_rmap cfg); set_solver. }
  assert (Hs : sock w4 SvcData = sock w1 SvcData /\ client_sock (net w4) = client_sock (net w1)).
  { destruct S24 as [_ _ Hs Hc]. rewrite Hs, Hc by (destruct (enable_rmap cfg); set_solver). done. }
  destruct Hs as [Hs Hc].
  apply wp_ret. split; [unfold threads_rec; by rewrite Ed, Et, Er, Es, Em|].
  split; [|split].
  - apply (started_trans _ w1 w4 [SvcData] _ _ _ _ _ S1 S24). unfold data_endpoints.
    intros s h p Hin. destruct (decide _); simpl in Hin; [done|].
    destruct Hin as [Hin|[]]. simplify_eq. destruct (enable_rmap cfg); set_solver.
  - intros E. by rewrite Hs, D1.
  - intros E. by rewrite Hc, C1.
Qed.

(** ** Stop *)

(** the order of the two passes over the threads *)
Definition stop_order (cfg : bridge_cfg) : list thread :=
  data_threads cfg ++ (if enable_rmap cfg then both SvcRmap else []) ++
  (if gresb_on cfg then both SvcGresbTx ++ both SvcGresbRx else []) ++
  (if enable_sniff cfg then both SvcSniff else []).

Lemma w_log_log w l k : w_log (w_log w l) k = w_log w (l ++ k).
Proof. unfold w_log. simpl. by rewrite app_assoc. Qed.

Lemma w_log_nil w : w_log w [] = w.
Proof. destruct w. unfold w_log. simpl. by rewrite app_nil_r. Qed.

Lemma each_thread_run f (g : svc_id -> bool -> act) cfg w :
  (forall s a w, f (Some (s, a)) w = Ret () (w_log w [g s a])) ->
  each_thread f cfg (threads_rec cfg) w = Ret () (w_log w (map (fun t : thread => g t.1 t.2) (stop_order cfg))).
Proof.
  intros Hf. unfold each_thread, threads_rec, stop_order, data_pair, data_threads, pair_if, both. simpl.
  destruct (decide (mode cfg = MODE_SERVER)), (enable_rmap cfg), (gresb_on cfg), (enable_sniff cfg); simpl;
    unfold mbind, M_bind; repeat (rewrite !Hf; simpl); rewrite ?w_log_log; done.
Qed.

Lemma close_if_run fd w : exists r n, close_if fd w =
  Ret () (w_log (mk_world n r (dgq w) (held w) (net w) (log w)) (if c_true fd then [AClose fd] else [])).
Proof.
  unfold close_if. destruct (c_true fd).
  - by exists (delete fd (rx w)), (S (tick w)).
  - exists (rx w), (tick w). destruct w. unfold w_log. simpl. by rewrite app_nil_r.
Qed.

(** only octets and calls differ, and [l] was logged *)
Definition logged (w w' : world) (l : list act) : Prop :=
  log w' = log w ++ l /\ held w' = held w /\ net w' = net w.

Lemma close_service_run s w : exists w', close_service s w = Ret () w' /\
  logged w w' (if c_true (sock w s) then [AClose (sock w s)] else []).
Proof.
  unfold close_service. erewrite mbind_run by reflexivity.
  destruct (close_if_run (sock_fd (svcs (net w) s)) w) as (r & n & ->). eexists. split; [reflexivity|done].
Qed.

Definition nonzero (l : list Z) : list Z := filter (fun fd => fd <> 0) l.

(** the descriptors [net_stop] closes *)
Definition socks (cfg : bridge_cfg) (w : world) : list Z :=
  [sock w SvcData; sock w SvcRmap] ++ (if gresb_on cfg then [sock w SvcGresbTx; sock w SvcGresbRx] else []) ++
  (if enable_sniff cfg then [sock w SvcSniff] else []) ++ [client_sock (net w)].

Lemma nonzero_cons fd l : map AClose (nonzero (fd :: l)) = (if c_true fd then [AClose fd] else []) ++ map AClose (nonzero l).
Proof.
  unfold nonzero, c_true. rewrite filter_cons. destruct (Z.eqb_spec fd 0); case_decide; try done; lia.
Qed.

Lemma logged_trans w w1 w2 l k : logged w w1 l -> logged w1 w2 k -> logged w w2 (l ++ k).
Proof. intros (El & Eh & En) (El' & Eh' & En'). split; [|split]; try congruence. by rewrite El', El, app_assoc. Qed.

Lemma logged_sock w w' l s : logged w w' l -> sock w' s = sock w s.
Proof. intros (_ & _ & En). unfold sock. by rewrite En. Qed.

(** closing a descriptor unless it is 0, at the end of a sequence of closings *)
Lemma close_next fd l w0 w : logged w0 w (map AClose (nonzero l)) -> exists w', close_if fd w = Ret () w' /\
  logged w0 w' (map AClose (nonzero (l ++ [fd]))).
Proof.
  intros L. destruct (close_if_run fd w) as (r & n & E). eexists. split; [exact E|].
  unfold nonzero. rewrite filter_app, map_app. apply (logged_trans _ w _ _ _ L).
  pose proof (nonzero_cons fd []) as Hn. unfold nonzero in Hn. rewrite Hn.
  split; [|done]. simpl. by rewrite app_nil_r.
Qed.

Lemma close_service_next s l w0 w : logged w0 w (map AClose (nonzero l)) -> exists w', close_service s w = Ret () w' /\
  logged w0 w' (map AClose (nonzero (l ++ [sock w0 s]))).
Proof.
  intros L. unfold close_service. erewrite mbind_run by reflexivity.
  rewrite <- (logged_sock _ _ _ s L). by apply close_next.
Qed.

Lemma net_stop_run cfg w : exists w', net_stop cfg (threads_rec cfg) w = Ret () w' /\
  logged w w' (map (fun t : thread => ACancel t.1 t.2) (stop_order cfg) ++ map AClose (nonzero (socks cfg w)) ++
    map (fun t : thread => AJoin t.1 t.2) (stop_order cfg)).
Proof.
  unfold net_stop. rewrite (mbind_run _ _ _ _ _ (each_thread_run pthread_cancel ACancel cfg w (fun _ _ _ => eq_refl))).
  set (w0 := w_log w _).
  assert (L : logged w0 w0 (map AClose (nonzero []))) by (split; [by rewrite app_nil_r|done]).
  destruct (close_service_next SvcData _ _ _ L) as (w1 & E1 & L1). rewrite (mbind_run _ _ _ _ _ E1).
  destruct (close_service_next SvcRmap _ _ _ L1) as (w2 & E2 & L2). rewrite (mbind_run _ _ _ _ _ E2).
  set (lg := if gresb_on cfg then [sock w0 SvcGresbTx; sock w0 SvcGresbRx] else []).
  assert (H3 : exists w3, (if gresb_on cfg then _ ← close_service SvcGresbTx; close_service SvcGresbRx else mret ()) w2
      = Ret () w3 /\ logged w0 w3 (map AClose (nonzero ([sock w0 SvcData; sock w0 SvcRmap] ++ lg)))).
  { unfold lg. destruct (gresb_on cfg); [|by exists w2].
    destruct (close_service_next SvcGresbTx _ _ _ L2) as (w3 & E3 & L3). rewrite (mbind_run _ _ _ _ _ E3).
    exact (close_service_next SvcGresbRx _ _ _ L3). }
  destruct H3 as (w3 & E3 & L3). rewrite (mbind_run _ _ _ _ _ E3).
  set (ls := if enable_sniff cfg then [sock w0 SvcSniff] else []).
  assert (H4 : exists w4, (if enable_sniff cfg then close_service SvcSniff else mret ()) w3 = Ret () w4 /\
      logged w0 w4 (map AClose (nonzero (([sock w0 SvcData; sock w0 SvcRmap] ++ lg) ++ ls)))).
  { unfold ls. destruct (enable_sniff cfg); [by apply close_service_next|exists w3; by rewrite app_nil_r]. }
  destruct H4 as (w4 & E4 & L4). rewrite (mbind_run _ _ _ _ _ E4). erewrite mbind_run by reflexivity.
  destruct (close_next (client_sock (net w4)) _ _ _ L4) as (w5 & E5 & L5). rewrite (mbind_run _ _ _ _ _ E5).
  rewrite (each_thread_run pthread_join AJoin cfg _ (fun _ _ _ => eq_refl)).
  eexists. split; [reflexivity|]. apply (logged_trans w w0); [done|].
  apply (logged_trans w0 w5); [|done].
  destruct L4 as (_ & _ & En). rewrite En in L5. unfold lg, ls in L5.
  rewrite <- !app_assoc in L5. exact L5.
Qed.

Lemma net_release_run cfg w : held w = [] -> net_release cfg w = Ret () (w_net w net_calloc).
Proof.
  intros H. assert (Hd : forall s, mutex_destroy s w = Ret () w).
  { intros s. unfold mutex_destroy. rewrite H. by rewrite decide_False by (apply not_elem_of_nil). }
  unfold net_release. rewrite (mbind_run _ _ _ _ _ (Hd SvcData)), (mbind_run _ _ _ _ _ (Hd SvcRmap)).
  assert (H1 : (if gresb_on cfg then _ ← mutex_destroy SvcGresbTx; mutex_destroy SvcGresbRx else mret ()) w = Ret () w).
  { destruct (gresb_on cfg); [|done]. by rewrite (mbind_run _ _ _ _ _ (Hd SvcGresbTx)). }
  assert (H2 : (if enable_sniff cfg then mutex_destroy SvcSniff else mret ()) w = Ret () w) by by destruct (enable_sniff cfg).
  by rewrite (mbind_run _ _ _ _ _ H1), (mbind_run _ _ _ _ _ H2).
Qed.

End start_spec.

(** ** The whole life of the network side *)

Lemma omap_cancels l : omap (fun a => match a with ACancel s b => Some (s, b) | _ => None end)
  (map (fun t : thread => ACancel t.1 t.2) l) = l.
Proof. induction l as [|[s b] l IH]; simpl; [done|]. by f_equal. Qed.

Lemma omap_joins l : omap (fun a => match a with AJoin s b => Some (s, b) | _ => None end)
  (map (fun t : thread => AJoin t.1 t.2) l) = l.
Proof. induction l as [|[s b] l IH]; simpl; [done|]. by f_equal. Qed.

Lemma omap_none {A B C} (f : A -> option C) (g : B -> A) l : (forall b, f (g b) = None) -> omap f (map g l) = [].
Proof. intros H. induction l as [|b l IH]; simpl; [done|]. by rewrite H. Qed.

Lemma omap_closes l : omap (fun a => match a with AClose fd => Some fd | _ => None end) (map AClose l) = l.
Proof. induction l as [|fd l IH]; simpl; [done|]. by f_equal. Qed.

Lemma stop_log cs fds :
  let l := map (fun t : thread => ACancel t.1 t.2) cs ++ map AClose fds ++ map (fun t : thread => AJoin t.1 t.2) cs in
  cancelled l = cs /\ joined l = cs /\ closed l = fds.
Proof.
  unfold cancelled, joined, closed. cbv zeta. rewrite !omap_app.
  rewrite omap_cancels, omap_joins, omap_closes, !omap_none by done. by rewrite !app_nil_r.
Qed.

Lemma stop_order_perm cfg : stop_order cfg ≡ₚ threads_of cfg.
Proof.
  unfold stop_order, threads_of. apply Permutation_app_head. rewrite Permutation_app_comm.
  by rewrite <- app_assoc.
Qed.

Definition fds_of (bs : list (Z * string * Z)) : list Z := map (fun b => b.1.1) bs.

Lemma socks_perm cfg w : (enable_rmap cfg = false -> sock w SvcRmap = 0) ->
  (mode cfg = MODE_CLIENT -> sock w SvcData = 0) ->
  nonzero (socks cfg w) ≡ₚ nonzero (fds_of (bound_at w (endpoints_of cfg)) ++ [client_sock (net w)]).
Proof.
  intros Hr Hd. unfold socks, endpoints_of, data_endpoints, gresb_endpoints, sniff_endpoints, rmap_endpoints.
  assert (H0 : forall l, nonzero (0 :: l) = nonzero l) by (intros l; apply filter_cons_False; lia).
  assert (Hp : forall a b l, nonzero (a :: b :: l) ≡ₚ nonzero (b :: a :: l)).
  { intros a b l. apply filter_Permutation. constructor. }
  destruct (decide (mode cfg = MODE_CLIENT)) as [E|E]; [rewrite Hd by done|];
    destruct (enable_rmap cfg); try rewrite Hr by done; destruct (gresb_on cfg), (enable_sniff cfg); simpl;
    rewrite ?H0; try done; apply filter_Permutation; solve_Permutation.
Qed.

(** C28: the network side starts what the configuration asks for and stops all of
    it. For every kernel net_start either ends the process or returns with the
    threads of the configured services created, once each and in order, and
    their sockets bound to the configured addresses and ports (the ports of the
    GRESB link, 3064 for the sniffer), each socket recorded in its service.
    net_stop then terminates; it cancels exactly these threads, closes exactly
    the sockets opened (a descriptor 0 is taken for none) and the connection to
    the server, and joins exactly these threads, the joins after everything
    else. No handle that names no thread is cancelled or joined. The one way to fail
    is the socket of the client and of the datagram mode, which is put into an
    [fd_set] without a test of its number. *)
Theorem net_start_stop {K : Kernel} cfg q w : cfg_ok cfg ->
  wp_unless (beyond_set cfg) (net_start cfg q) (fun _ => True) (fun t w1 =>
    (exists l, log w1 = log w ++ l /\ created l = threads_of cfg /\
       bound l = bound_at w1 (endpoints_of cfg) /\ closed l = []) /\
    exists w2 l1 l2, net_stop cfg t w1 = Ret () w2 /\ log w2 = log w1 ++ l1 ++ l2 /\
      cancelled (l1 ++ l2) ≡ₚ threads_of cfg /\ joined l1 = [] /\ joined l2 ≡ₚ threads_of cfg /\
      closed (l1 ++ l2) ≡ₚ
        nonzero (fds_of (bound_at w1 (endpoints_of cfg)) ++ [client_sock (net w1)])) w.
Proof.
  intros Hok. eapply wp_unless_mono; [by apply net_start_run|done| |done]. intros t w1 (-> & S & Hd & _).
  assert (Hr : enable_rmap cfg = false -> sock w1 SvcRmap = 0).
  { intros E. destruct S as [_ _ Hs _]. rewrite E in Hs. by rewrite Hs by set_solver. }
  destruct S as [(l & El & Et & Eb & _ & _ & Ex) _ _ _]. split; [by exists l|].
  destruct (net_stop_run cfg w1) as (w2 & E & (El2 & _ & _)).
  destruct (stop_log (stop_order cfg) (nonzero (socks cfg w1))) as (Ec & Ej & Exx).
  exists w2, (map (fun t : thread => ACancel t.1 t.2) (stop_order cfg) ++ map AClose (nonzero (socks cfg w1))),
    (map (fun t : thread => AJoin t.1 t.2) (stop_order cfg)).
  split; [exact E|]. split; [by rewrite El2, <- !app_assoc|]. rewrite <- app_assoc, Ec, Exx.
  split; [apply stop_order_perm|]. unfold joined at 1 2. rewrite omap_app, omap_joins, !omap_none by done.
  split; [done|]. split; [apply stop_order_perm|]. by apply socks_perm.
Qed.

(** *** A concrete start *)

(** sockets get the numbers from 5 on *)
#[local] Instance count_kernel : Kernel := {|
  k_queue _ := WouldBlock; k_peek _ := WouldBlock; k_send _ := SendFailed; k_sendto _ := false;
  k_clock _ := (0, 0); k_malloc _ := true; k_select _ := None; k_socket t := 5 + Z.of_nat t;
  k_setup _ := true; k_intr_max := 0
|}.

Definition ex_start_cfg (m : net_mode) : bridge_cfg :=
  ex_net_cfg m 0 false false false true true true false false true 3.

Lemma ex_start_ok m : cfg_ok (ex_start_cfg m).
Proof. repeat split; simpl; try lia; try done. Qed.

Definition w_start : world := mk_world 0 ∅ [] [] net_calloc [].

Definition returns {A} (r : result A) : bool := match r with Ret _ _ => true | _ => false end.

Lemma wp_returns {A} U (m : M A) (Q : A -> world -> Prop) w :
  wp_unless U m (fun _ => True) Q w -> returns (m w) = true -> exists a w', m w = Ret a w' /\ Q a w'.
Proof. intros [[-> _]|H]; [done|]. unfold wp in H. destruct (m w) as [a w'|w'|]; [eauto|done|done]. Qed.

Lemma net_start_stop_witness : exists t w1,
  net_start (ex_start_cfg MODE_SERVER) [] w_start = Ret t w1 /\
  bound (log w1) = bound_at w1 (endpoints_of (ex_start_cfg MODE_SERVER)) /\
  exists w2, net_stop (ex_start_cfg MODE_SERVER) t w1 = Ret () w2.
Proof.
  assert (Hr : returns (net_start (ex_start_cfg MODE_SERVER) [] w_start) = true) by (vm_compute; reflexivity).
  destruct (wp_returns _ _ _ _ (net_start_stop (ex_start_cfg MODE_SERVER) [] w_start
    (ex_start_ok MODE_SERVER)) Hr) as (t & w1 & E & (l & El & _ & Eb & _) & (w2 & l1 & l2 & E2 & _)).
  exists t, w1. split; [exact E|]. split; [|exists w2; exact E2].
  rewrite El. exact Eb.
Defined.

(** In client mode the RMAP service is bound to the address of the server the
    bridge connects to, which is not an address of this host; the sniffer is
    bound to [DEFAULT_ADDR] there. *)
Theorem net_client_rmap_binds_remote {K : Kernel} cfg q w : cfg_ok cfg ->
  mode cfg = MODE_CLIENT -> enable_rmap cfg = true ->
  wp_unless (beyond_set cfg) (net_start cfg q) (fun _ => True) (fun _ w' =>
    exists l, log w' = log w ++ l /\ exists fd, In (fd, host cfg, rmap_port cfg) (bound l)) w.
Proof.
  intros Hok Em Er. eapply wp_unless_mono; [by apply net_start_run|done| |done]. intros t w1 (-> & S & _).
  destruct S as [(l & El & _ & Eb & _) _ _ _]. exists l. split; [done|].
  exists (sock w1 SvcRmap). rewrite Eb. unfold endpoints_of, rmap_endpoints. rewrite Er.
  unfold bound_at. rewrite !map_app, !in_app_iff. right. right. right. by left.
Qed.

Lemma net_client_rmap_binds_remote_witness : exists t w1,
  net_start (ex_start_cfg MODE_CLIENT) [] w_start = Ret t w1 /\
  exists l fd, In (fd, host (ex_start_cfg MODE_CLIENT), 2345) (bound l).
Proof.
  assert (Hr : returns (net_start (ex_start_cfg MODE_CLIENT) [] w_start) = true) by (vm_compute; reflexivity).
  destruct (wp_returns _ _ _ _ (net_client_rmap_binds_remote (ex_start_cfg MODE_CLIENT) [] w_start
    (ex_start_ok MODE_CLIENT) eq_refl eq_refl) Hr) as (t & w1 & E & l & _ & fd & H).
  exists t, w1. split; [exact E|]. exists l, fd. exact H.
Defined.
