(* ===== verification/NetConc.v ===== *)
(** * The threads of the network side, step by step (src/net.c)

    In [NetConn] and [Net] the functions that work on the table of a service run
    in one go.  Here they are cut where another thread can come in between: a
    step is one access to a table, one call that concerns a descriptor, or one
    operation on a mutex.  The accept thread and the poll thread of every service
    and any number of threads that push packets to the clients share the
    descriptors and the tables.  The lemmas on undisturbed threads show that
    the steps are the functions of [NetConn] and [Net].

    This is the server: a client has one connection for each of its services
    and ends with the first it loses.  What a handler finds on a connection is
    part of the event that runs it; its octets are the subject of [NetRecv]. *)

From Stdlib Require Import String List.
From stdpp Require Import base tactics option list list_numbers gmap sets.
From Stdlib Require Import ZArith Lia Bool.
From S2P Require Import Prelude.
From S2P Require Import CString.
From S2P Require Import Pus.
From S2P Require Import Sys.
From S2P Require Import NetConn.
From S2P Require Import NetRecv.
From S2P Require Import Net.

Local Open Scope Z_scope.

(** ** Program counters *)

(** [accept_connections], behind [accept] *)
Inductive accept_pc : Type :=
| AcWait
| AcMsg (fd : Z)
| AcRefuse (fd : Z)
| AcLock (fd : Z)
| AcSet (fd : Z)
| AcGrow (fd : Z)
| AcUnlock.

(** [conn_drop] and [rmap_conn_drop] *)
Inductive drop_pc : Type := DrMsg | DrClose | DrLock | DrClr | DrUnlock | DrExit.

(** the loops over the connections of a service, with [conn_drop_locked] *)
Inductive push_pc : Type :=
| PuLock
| PuBegin
| PuAt (fds : list Z)
| PuSend (fd : Z) (fds : list Z)
| PuMsg (fd : Z) (fds : list Z)
| PuClose (fd : Z) (fds : list Z)
| PuClr (fd : Z) (fds : list Z)
| PuExit (fds : list Z)
| PuUnlock.

(** [poll_socket], from where the link is ready; [fds] are the descriptors it still
    has to serve *)
Inductive poll_pc : Type :=
| PoTop
| PoCopy
| PoUnlock1 (readset : gset Z) (n : Z)
| PoSelect (readset : gset Z) (n : Z)
| PoLock2 (readset : gset Z) (n : Z)
| PoCheck (readset : gset Z) (n : Z)
| PoUnlock2 (fds : list Z)
| PoServe (fds : list Z)
| PoDrop (pc : drop_pc) (fd : Z) (error : bool) (fds : list Z)
| PoPush (b : list Z) (pc : push_pc) (fds : list Z). (* [sniff_push] *)

Inductive thread : Type :=
| TAccept (s : svc_id) (pc : accept_pc)
| TPoll (s : svc_id) (pc : poll_pc)
| TPush (p : option (svc_id * list Z * push_pc)).

Section steps.
Context {K : Kernel}.

(** a mutex is given back, whatever other threads hold *)
Definition give (s : svc_id) : M () := fun w =>
  if decide (s ∈ held w) then Ret () (w_held w (filter (fun s' => s' <> s) (held w))) else Stuck.

Definition accept_pc_step (s : svc_id) (pc : accept_pc) : M accept_pc :=
  match pc with
  | AcWait => mret AcWait
  | AcMsg fd =>
      _ ← emit_act (AMsg "New incoming connection\n" []);
      mret (if FD_SETSIZE <=? fd then AcRefuse fd else AcLock fd)
  | AcRefuse fd =>
      _ ← emit_act (AMsg "connection refused: fd %d above FD_SETSIZE\n" [fd]);
      _ ← close fd; mret AcWait
  | AcLock fd => _ ← lock s; mret (AcSet fd)
  | AcSet fd => _ ← fd_set s fd; mret (AcGrow fd)
  | AcGrow fd => _ ← grow_nfds s fd; mret AcUnlock
  | AcUnlock => _ ← give s; mret AcWait
  end.

(** the drop functions of the RMAP service have a message of their own and do
    not end a client *)
Definition is_rmap (s : svc_id) : bool := bool_decide (s = SvcRmap).
Definition drop_say (s : svc_id) (fd : Z) (error : bool) : M () :=
  if is_rmap s then rmap_drop_msg fd error else drop_msg fd error.
Definition drop_exit (s : svc_id) : M () := if is_rmap s then mret () else client_exit.

Definition drop_pc_step (s : svc_id) (fd : Z) (error : bool) (pc : drop_pc) : M (option drop_pc) :=
  match pc with
  | DrMsg => _ ← drop_say s fd error; mret (Some DrClose)
  | DrClose => _ ← close fd; mret (Some DrLock)
  | DrLock => _ ← lock s; mret (Some DrClr)
  | DrClr => _ ← fd_clr s fd; mret (Some DrUnlock)
  | DrUnlock => _ ← give s; mret (Some DrExit)
  | DrExit => _ ← drop_exit s; mret None
  end.

Definition push_pc_step (s : svc_id) (b : list Z) (pc : push_pc) : M (option push_pc) :=
  match pc with
  | PuLock => _ ← lock s; mret (Some PuBegin)
  | PuBegin => v ← get_svc s; mret (Some (PuAt (seqZ 0 (nfds v))))
  | PuAt [] => mret (Some PuUnlock)
  | PuAt (fd :: fds) =>
      member ← fd_isset s fd;
      mret (Some (if negb member then PuAt fds else PuSend fd fds))
  | PuSend fd fds => r ← send_all fd b; mret (Some (if r =? -1 then PuMsg fd fds else PuAt fds))
  | PuMsg fd fds => _ ← drop_say s fd true; mret (Some (PuClose fd fds))
  | PuClose fd fds => _ ← close fd; mret (Some (PuClr fd fds))
  | PuClr fd fds => _ ← fd_clr s fd; mret (Some (PuExit fds))
  | PuExit fds => _ ← drop_exit s; mret (Some (PuAt fds))
  | PuUnlock => _ ← give s; mret None
  end.

Definition poll_pc_step (s : svc_id) (pc : poll_pc) : M poll_pc :=
  match pc with
  | PoTop => _ ← lock s; mret PoCopy
  | PoCopy => v ← get_svc s; mret (PoUnlock1 (conn_set v) (nfds v))
  | PoUnlock1 rs n => _ ← give s; mret (PoSelect rs n)
  | PoSelect rs n =>
      rs ← select n rs; mret (if bool_decide (rs = ∅) then PoTop else PoLock2 rs n)
  | PoLock2 rs n => _ ← lock s; mret (PoCheck rs n)
  | PoCheck rs n =>
      v ← get_svc s;
      mret (PoUnlock2 (filter (fun fd => fd ∈ filter (fun fd => fd ∈ conn_set v) rs) (seqZ 0 n)))
  | PoUnlock2 fds => _ ← give s; mret (PoServe fds)
  | PoServe [] => mret PoTop
  | PoServe fds => mret (PoServe fds) (* see [NHandle] *)
  | PoDrop dp fd e fds =>
      dp ← drop_pc_step s fd e dp;
      mret (match dp with Some dp => PoDrop dp fd e fds | None => PoServe fds end)
  | PoPush b pp fds =>
      pp ← push_pc_step SvcSniff b pp;
      mret (match pp with Some pp => PoPush b pp fds | None => PoServe fds end)
  end.

Definition thread_step (th : thread) : M thread :=
  match th with
  | TAccept s pc => pc ← accept_pc_step s pc; mret (TAccept s pc)
  | TPoll s pc => pc ← poll_pc_step s pc; mret (TPoll s pc)
  | TPush None => mret (TPush None)
  | TPush (Some (s, b, pc)) =>
      pc ← push_pc_step s b pc;
      mret (TPush (match pc with Some pc => Some (s, b, pc) | None => None end))
  end.
End steps.

(** ** What the next step of a thread concerns *)

(** the push a thread is in *)
Definition pushing (th : thread) : option (svc_id * push_pc) :=
  match th with
  | TPush (Some (s, _, pc)) => Some (s, pc)
  | TPoll _ (PoPush _ pc _) => Some (SvcSniff, pc)
  | _ => None
  end.

(** in front of [pthread_mutex_lock] *)
Definition at_lock (th : thread) : option svc_id :=
  match th with
  | TAccept s (AcLock _) => Some s
  | TPoll s (PoTop | PoLock2 _ _ | PoDrop DrLock _ _ _) => Some s
  | _ => match pushing th with Some (s, PuLock) => Some s | _ => None end
  end.

(** inside the mutex of [s] *)
Definition inside (th : thread) : option svc_id :=
  match th with
  | TAccept s (AcSet _ | AcGrow _ | AcUnlock) => Some s
  | TPoll s (PoCopy | PoUnlock1 _ _ | PoCheck _ _ | PoUnlock2 _ | PoDrop (DrClr | DrUnlock) _ _ _) => Some s
  | _ => match pushing th with Some (_, PuLock) | None => None | Some (s, _) => Some s end
  end.

(** the descriptor the next step closes *)
Definition closing (th : thread) : option Z :=
  match th with
  | TAccept _ (AcRefuse fd) => Some fd
  | TPoll _ (PoDrop DrClose fd _ _) => Some fd
  | _ => match pushing th with Some (_, PuClose fd _) => Some fd | _ => None end
  end.

(** it has nothing to do but to wait for an event of its own *)
Definition waiting (th : thread) : bool :=
  match th with
  | TAccept _ AcWait | TPush None | TPoll _ (PoServe (_ :: _)) => true
  | _ => false
  end.

(** ** Configurations *)

(** [origin]: the service whose [accept] has returned an open descriptor, which
    is no state of the program *)
Record conf : Type := mk_conf { wd : world; origin : gmap Z svc_id; pool : list thread }.

(** what a handler does with the connection: it is done with it, it drops it, or
    it has read a packet, which goes to the sniffers *)
Inductive handled : Type := HDone | HDrop (error : bool) | HSniff (b : list Z).

Inductive event : Type :=
| NStep (i : nat)
| NAccept (i : nat) (fd : Z) (q : list Z)
| NHandle (i : nat) (h : handled)
| NPush (i : nat) (s : svc_id) (b : list Z).

Inductive outcome : Type := NNext (c : conf) | NOver (w : world) | NBroken.

Definition with_thread (c : conf) (i : nat) (th : thread) : conf := mk_conf (wd c) (origin c) (<[i := th]> (pool c)).

Definition serve_first (h : handled) (fd : Z) (fds : list Z) : poll_pc :=
  match h with
  | HDone => PoServe fds
  | HDrop e => PoDrop DrMsg fd e fds
  | HSniff b => PoPush b PuLock fds
  end.

(** the kernel returns a descriptor that is not open *)
Definition net_step {K : Kernel} (ev : event) (c : conf) : option outcome :=
  match ev with
  | NStep i =>
      th ← pool c !! i;
      if waiting th then None else
      if match at_lock th with Some s => bool_decide (s ∈ held (wd c)) | None => false end then None else
      Some (match thread_step th (wd c) with
            | Ret th' w =>
                NNext (mk_conf w (match closing th with Some fd => delete fd (origin c) | None => origin c end)
                         (<[i := th']> (pool c)))
            | Exit w => NOver w
            | Stuck => NBroken
            end)
  | NAccept i fd q =>
      th ← pool c !! i;
      match th, rx (wd c) !! fd with
      | TAccept s AcWait, None =>
          if fd <? 0 then None else
          Some (NNext (mk_conf (w_rx (wd c) (<[fd := q]> (rx (wd c)))) (<[fd := s]> (origin c))
                         (<[i := TAccept s (AcMsg fd)]> (pool c))))
      | _, _ => None
      end
  | NHandle i h =>
      th ← pool c !! i;
      match th with
      | TPoll s (PoServe (fd :: fds)) => Some (NNext (with_thread c i (TPoll s (serve_first h fd fds))))
      | _ => None
      end
  | NPush i s b =>
      th ← pool c !! i;
      match th with
      | TPush None => Some (NNext (with_thread c i (TPush (Some (s, b, PuLock)))))
      | _ => None
      end
  end.

(** ** References by number *)

(** the descriptors a thread will read, send on, close or clear by their number,
    whatever has happened to them, and for which service; what [poll_socket] has
    copied but not checked yet is none of them *)
Definition push_refs (p : push_pc) : list Z :=
  match p with PuSend fd _ | PuMsg fd _ | PuClose fd _ | PuClr fd _ => [fd] | _ => [] end.

Definition refs (th : thread) : list (svc_id * Z) :=
  match th with
  | TAccept _ _ => []
  | TPoll s (PoUnlock2 fds | PoServe fds) => map (pair s) fds
  | TPoll s (PoDrop (DrMsg | DrClose | DrLock | DrClr) fd _ fds) => map (pair s) (fd :: fds)
  | TPoll s (PoDrop _ _ _ fds) => map (pair s) fds
  | TPoll s (PoPush _ p fds) => map (pair SvcSniff) (push_refs p) ++ map (pair s) fds
  | TPoll _ _ => []
  | TPush (Some (s, _, p)) => map (pair s) (push_refs p)
  | TPush None => []
  end.

(** a number that no table and no thread refers to *)
Definition unused (c : conf) (fd : Z) : Prop :=
  (forall s, fd ∉ conn_set (svc_of (wd c) s)) /\
  (forall i th s, pool c !! i = Some th -> (s, fd) ∉ refs th).

(** what can be reached; [fresh]: [accept] returns numbers without references only *)
Inductive reachable {K : Kernel} (fresh : bool) (c0 : conf) : conf -> Prop :=
| reach_start : reachable fresh c0 c0
| reach_step ev c c' : reachable fresh c0 c -> net_step ev c = Some (NNext c') ->
    (fresh = true -> forall i fd q, ev = NAccept i fd q -> unused c fd) -> reachable fresh c0 c'.

(** a server whose ports are open, without connections, and threads that have not
    begun *)
Definition idle_thread (th : thread) : bool :=
  match th with TAccept _ AcWait | TPoll _ PoTop | TPush None => true | _ => false end.

Record opened (c : conf) : Prop := {
  op_rx : rx (wd c) = ∅;
  op_origin : origin c = ∅;
  op_held : held (wd c) = [];
  op_server : is_client (net (wd c)) = false;
  op_tables : forall s, conn_set (svc_of (wd c) s) = ∅ /\ 0 <= nfds (svc_of (wd c) s) <= FD_SETSIZE;
  op_idle : forall i th, pool c !! i = Some th -> idle_thread th = true
}.

Fixpoint net_run {K : Kernel} (l : list event) (c : conf) : option conf :=
  match l with
  | [] => Some c
  | ev :: l => match net_step ev c with Some (NNext c') => net_run l c' | _ => None end
  end.

(** ** The steps of a thread that is not disturbed *)

Section alone.
Context {K : Kernel}.

(** [step] until [stop] holds *)
Fixpoint until {B} (n : nat) (step : B -> M B) (stop : B -> bool) (b : B) : M B :=
  match n with
  | O => stuck
  | S n => b ← step b; if stop b then mret b else until n step stop b
  end.

(** [step] until the function returns *)
Fixpoint finish {B} (n : nat) (step : B -> M (option B)) (b : B) : M () :=
  match n with
  | O => stuck
  | S n => b ← step b; match b with Some b => finish n step b | None => mret () end
  end.

Definition accept_over (pc : accept_pc) : bool := match pc with AcWait => true | _ => false end.
Definition poll_over (pc : poll_pc) : bool := match pc with PoServe _ | PoTop => true | _ => false end.
Definition to_serve (pc : poll_pc) : list Z := match pc with PoServe fds => fds | _ => [] end.

Lemma lock_cases s w : s ∈ held w /\ lock s w = Stuck \/ s ∉ held w /\ lock s w = Ret () (w_held w (s :: held w)).
Proof using Type. unfold lock. destruct (decide (s ∈ held w)); [by left|by right]. Qed.

Lemma unlock_top s h w : held w = s :: h -> unlock s w = Ret () (w_held w h).
Proof using Type. intros E. unfold unlock. rewrite E. by rewrite decide_True. Qed.

Lemma give_top s h w : held w = s :: h -> s ∉ h -> give s w = Ret () (w_held w h).
Proof using Type.
  intros E Hn. unfold give. rewrite E, decide_True by (by left). do 2 f_equal.
  rewrite filter_cons_False by (intros H; by apply H). clear E. induction h as [|x h IH]; [done|].
  apply not_elem_of_cons in Hn as [Hx Hn]. by rewrite filter_cons_True, IH.
Qed.

(** what is done inside the mutex leaves the list of held ones *)
Lemma give_unlock s h w : s ∉ h -> held w = s :: h -> give s w = unlock s w.
Proof using Type. intros Hn E. by rewrite (give_top s h), (unlock_top s h). Qed.

Lemma m_assoc {B C D} (m : M B) (f : B -> M C) (g : C -> M D) w :
  ((m ≫= f) ≫= g) w = (m ≫= (fun x => f x ≫= g)) w.
Proof using Type. unfold mbind, M_bind. by destruct (m w). Qed.

Lemma m_ret {B C} (x : B) (f : B -> M C) w : (mret x ≫= f) w = f x w.
Proof using Type. done. Qed.

Lemma m_run {B C} (m : M B) (f : B -> M C) w x w' : m w = Ret x w' -> (m ≫= f) w = f x w'.
Proof using Type. unfold mbind, M_bind. by intros ->. Qed.

Lemma until_S {B} n (step : B -> M B) stop b w :
  until (S n) step stop b w = (b ← step b; if stop b then mret b else until n step stop b) w.
Proof using Type. done. Qed.

Lemma finish_S {B} n (step : B -> M (option B)) b w :
  finish (S n) step b w = (b ← step b; match b with Some b => finish n step b | None => mret () end) w.
Proof using Type. done. Qed.

Lemma grow_held s fd w : exists w', grow_nfds s fd w = Ret () w' /\ held w' = held w.
Proof using Type. rewrite grow_nfds_run. eexists. split; [reflexivity|]. by destruct (_ >? _). Qed.

(** a new connection: the accept thread does what [accept_step] does *)
Lemma accept_steps s fd q w :
  until 5 (accept_pc_step s) accept_over (AcMsg fd) (w_rx w (<[fd := q]> (rx w))) =
  (_ ← accept_step s (AcceptFd fd q); mret AcWait) w.
Proof using Type.
  unfold accept_step. rewrite until_S. cbn [accept_pc_step].
  rewrite !m_assoc. erewrite (m_run _ _ _ ()) by reflexivity. erewrite (m_run (fun w => Ret () _)) by reflexivity.
  rewrite m_assoc. erewrite (m_run (emit_act _)) by reflexivity. rewrite m_ret.
  set (w1 := w_log _ _). destruct (FD_SETSIZE <=? fd) eqn:Efd; cbn [accept_over].
  { rewrite until_S. cbn [accept_pc_step]. rewrite !m_assoc. by repeat (erewrite m_run by reflexivity). }
  rewrite until_S. cbn [accept_pc_step]. rewrite !m_assoc.
  destruct (lock_cases s w1) as [[_ El]|[Hn El]]; [unfold mbind, M_bind; by rewrite El|].
  rewrite (m_run _ _ _ _ _ El), (m_run (lock s) _ _ _ _ El), m_ret. cbn [accept_over].
  rewrite until_S. cbn [accept_pc_step]. rewrite !m_assoc. set (w2 := w_held _ _).
  assert (Ef : exists w3, fd_set s fd w2 = Ret () w3 /\ held w3 = s :: held w1) by (eexists; split; [by apply fd_set_run|done]).
  destruct Ef as (w3 & Ef & Eh). rewrite (m_run _ _ _ _ _ Ef), (m_run (fd_set s fd) _ _ _ _ Ef), m_ret. cbn [accept_over].
  rewrite until_S. cbn [accept_pc_step]. rewrite !m_assoc. destruct (grow_held s fd w3) as (w4 & Eg & Eh4).
  rewrite (m_run _ _ _ _ _ Eg), (m_run (grow_nfds s fd) _ _ _ _ Eg), m_ret. cbn [accept_over].
  rewrite until_S. cbn [accept_pc_step]. rewrite m_assoc. rewrite Eh in Eh4.
  unfold mbind, M_bind. rewrite (give_unlock s (held w1) w4 Hn Eh4), (unlock_top s (held w1) w4 Eh4). done.
Qed.
(** the drop function of a service *)
Definition drop_of (s : svc_id) : Z -> bool -> M () := if is_rmap s then rmap_conn_drop s else conn_drop s.
Definition dropper_of (s : svc_id) : svc_id -> Z -> bool -> M () :=
  if is_rmap s then rmap_conn_drop_locked else conn_drop_locked.

Lemma drop_of_parts s fd e w :
  drop_of s fd e w = (_ ← drop_say s fd e; _ ← close fd; _ ← conn_del s fd; drop_exit s) w.
Proof using Type.
  unfold drop_of, drop_say, drop_exit. destruct (is_rmap s); [|done]. unfold rmap_conn_drop.
  unfold mbind, M_bind. destruct (rmap_drop_msg fd e w); [|done|done]. destruct (close fd w0); [|done|done].
  by destruct (conn_del s fd w1) as [[]| |].
Qed.

Lemma drop_locked_parts s fd e w :
  dropper_of s s fd e w = (_ ← drop_say s fd e; _ ← close fd; _ ← fd_clr s fd; drop_exit s) w.
Proof using Type.
  unfold dropper_of, drop_say, drop_exit. destruct (is_rmap s); [|done]. unfold rmap_conn_drop_locked.
  unfold mbind, M_bind. destruct (rmap_drop_msg fd e w); [|done|done]. destruct (close fd w0); [|done|done].
  by destruct (fd_clr s fd w1) as [[]| |].
Qed.

Lemma say_run s fd e w : exists w', drop_say s fd e w = Ret () w' /\ held w' = held w.
Proof using Type. unfold drop_say. destruct (is_rmap s); (eexists; split; [reflexivity|]); done. Qed.

(** dropping a connection: the steps are [conn_drop], or [rmap_conn_drop] *)
Lemma drop_steps s fd e w : finish 6 (drop_pc_step s fd e) DrMsg w = drop_of s fd e w.
Proof using Type.
  rewrite drop_of_parts, finish_S. cbn [drop_pc_step]. rewrite m_assoc.
  destruct (say_run s fd e w) as (w1 & E1 & _). rewrite !(m_run _ _ _ _ _ E1), m_ret.
  rewrite finish_S. cbn [drop_pc_step]. rewrite m_assoc.
  assert (E2 : exists w2, close fd w1 = Ret () w2) by (by eexists). destruct E2 as [w2 E2].
  rewrite !(m_run _ _ _ _ _ E2), m_ret.
  rewrite finish_S. cbn [drop_pc_step]. rewrite m_assoc. unfold conn_del. rewrite m_assoc.
  destruct (lock_cases s w2) as [[_ El]|[Hn El]]; [unfold mbind, M_bind; by rewrite El|].
  rewrite !(m_run (lock s) _ _ _ _ El), m_ret. set (w3 := w_held _ _).
  rewrite finish_S. cbn [drop_pc_step]. rewrite !m_assoc.
  assert (E4 : exists w4, fd_clr s fd w3 = Ret () w4 /\ held w4 = s :: held w2) by (by eexists).
  destruct E4 as (w4 & E4 & Eh). rewrite !(m_run _ _ _ _ _ E4), m_ret.
  rewrite finish_S. cbn [drop_pc_step]. rewrite m_assoc.
  assert (Eg : give s w4 = Ret () (w_held w4 (held w2))) by (by apply give_top).
  assert (Eu : unlock s w4 = Ret () (w_held w4 (held w2))) by (by apply (unlock_top s)).
  rewrite (m_run (give s) _ _ _ _ Eg), (m_run (unlock s) _ _ _ _ Eu), m_ret.
  rewrite finish_S. cbn [drop_pc_step]. rewrite m_assoc. unfold mbind, M_bind, mret, M_ret.
  by destruct (drop_exit s _) as [[]| |].
Qed.

Lemma send_held fuel fd b w r w' : send_loop fuel fd b w = Ret r w' -> held w' = held w.
Proof using Type.
  revert b w. induction fuel as [|fuel IH]; intros [|x b] w; simpl; try done; [by intros [= <- <-]..|].
  unfold mbind, M_bind, send. destruct (k_send (tick w)) as [a| |].
  - destruct (_ =? -1) eqn:E; [apply Z.eqb_eq in E; unfold zlen in E; lia|]. intros H. by rewrite (IH _ _ H).
  - simpl. intros H. by rewrite (IH _ _ H).
  - simpl. by intros [= <- <-].
Qed.

Lemma exit_held s w : match drop_exit s w with Ret _ w' => held w' = held w | _ => True end.
Proof using Type.
  unfold drop_exit. destruct (is_rmap s); [done|]. unfold client_exit, mbind, M_bind, get_net.
  by destruct (is_client (net w)).
Qed.

(** the loop over the connections, with enough steps *)
Lemma push_at_steps s b fds n w h : (6 * length fds + 2 <= n)%nat -> held w = s :: h -> s ∉ h ->
  finish n (push_pc_step s b) (PuAt fds) w = (_ ← push_loop (dropper_of s) s b fds; unlock s) w.
Proof using Type.
  revert n w h. induction fds as [|fd fds IH]; intros n w h Hn Hh Hs.
  - destruct n as [|[|n]]; [simpl in Hn; lia..|]. rewrite finish_S. cbn [push_pc_step push_loop]. rewrite !m_ret.
    rewrite finish_S. cbn [push_pc_step]. rewrite m_assoc. unfold mbind, M_bind.
    rewrite (give_top s h w Hh Hs), (unlock_top s h w Hh). done.
  - simpl in Hn. do 6 (destruct n as [|n]; [lia|]). rewrite finish_S. cbn [push_pc_step push_loop].
    unfold push_one. rewrite !m_assoc.
    assert (Ei : fd_isset s fd w = Ret (bool_decide (fd ∈ conn_set (svc_of w s))) w) by done.
    rewrite !(m_run _ _ _ _ _ Ei), m_ret. destruct (negb _).
    { rewrite m_ret. eapply (IH _ w h); [lia|done..]. }
    rewrite finish_S. cbn [push_pc_step]. rewrite !m_assoc. unfold send_all.
    destruct (send_loop (length b * S k_intr_max) fd b w) as [r w1|w1|] eqn:Es; [|unfold mbind, M_bind; by rewrite Es..].
    rewrite !(m_run _ _ _ _ _ Es), m_ret. pose proof (send_held _ _ _ _ _ _ Es) as Eh1. rewrite Hh in Eh1.
    destruct (r =? -1); [|rewrite m_ret; eapply (IH _ w1 h); [lia|done..]].
    rewrite finish_S. cbn [push_pc_step]. rewrite m_assoc.
    assert (Ed : forall f : () -> M (), (dropper_of s s fd true ≫= f) w1 =
      ((_ ← drop_say s fd true; _ ← close fd; _ ← fd_clr s fd; drop_exit s) ≫= f) w1).
    { intros f. unfold mbind at 1, M_bind at 1. rewrite drop_locked_parts. done. }
    rewrite Ed. clear Ed. rewrite !m_assoc.
    destruct (say_run s fd true w1) as (w2 & E2 & Eh2). rewrite !(m_run _ _ _ _ _ E2), m_ret.
    rewrite finish_S. cbn [push_pc_step]. rewrite !m_assoc.
    assert (E3 : exists w3, close fd w2 = Ret () w3 /\ held w3 = held w2) by (by eexists). destruct E3 as (w3 & E3 & Eh3).
    rewrite !(m_run _ _ _ _ _ E3), m_ret. rewrite finish_S. cbn [push_pc_step]. rewrite !m_assoc.
    assert (E4 : exists w4, fd_clr s fd w3 = Ret () w4 /\ held w4 = held w3) by (by eexists). destruct E4 as (w4 & E4 & Eh4).
    rewrite !(m_run _ _ _ _ _ E4), m_ret. rewrite finish_S. cbn [push_pc_step]. rewrite !m_assoc.
    pose proof (exit_held s w4) as Ex. destruct (drop_exit s w4) as [[] w5|w5|] eqn:E5; [|unfold mbind, M_bind; by rewrite E5..].
    rewrite !(m_run _ _ _ _ _ E5), m_ret. eapply (IH _ w5 h); [lia|congruence|done].
Qed.

(** pushing a packet to the clients of a service: the steps are [push_all] *)
Lemma push_steps s b w n : (6 * Z.to_nat (nfds (svc_of w s)) + 4 <= n)%nat ->
  finish n (push_pc_step s b) PuLock w = push_all (dropper_of s) s b w.
Proof using Type.
  intros Hn. do 2 (destruct n as [|n]; [lia|]). rewrite finish_S. cbn [push_pc_step]. rewrite m_assoc. unfold push_all.
  destruct (lock_cases s w) as [[_ El]|[Hs El]]; [unfold mbind, M_bind; by rewrite El|].
  rewrite !(m_run (lock s) _ _ _ _ El), m_ret. rewrite finish_S. cbn [push_pc_step]. rewrite m_assoc.
  set (w1 := w_held _ _). assert (Eg : get_svc s w1 = Ret (svc_of w s) w1) by done.
  rewrite !(m_run _ _ _ _ _ Eg), m_ret. eapply (push_at_steps s b _ _ _ (held w)); [|done|done].
  rewrite length_seqZ. lia.
Qed.

(** a round of [poll_socket]: the steps as far as the handlers, and these *)
Lemma poll_round_steps handle s w :
  (pc ← until 7 (poll_pc_step s) poll_over PoTop; serve handle s (to_serve pc)) w = poll_step true handle s w.
Proof using Type.
  unfold poll_step. cbn [negb]. unfold mbind at 1, M_bind at 1. rewrite until_S. cbn [poll_pc_step]. rewrite m_assoc.
  destruct (lock_cases s w) as [[_ El]|[Hs El]]; [unfold mbind, M_bind; by rewrite El|].
  rewrite !(m_run (lock s) _ _ _ _ El), m_ret. cbn [poll_over]. set (w1 := w_held _ _).
  rewrite until_S. cbn [poll_pc_step]. rewrite m_assoc.
  assert (Eg : get_svc s w1 = Ret (svc_of w s) w1) by done. rewrite !(m_run _ _ _ _ _ Eg), m_ret. cbn [poll_over].
  rewrite until_S. cbn [poll_pc_step]. rewrite m_assoc.
  assert (Eg1 : give s w1 = Ret () (w_held w1 (held w))) by (by apply give_top).
  assert (Eu : unlock s w1 = Ret () (w_held w1 (held w))) by (by apply (unlock_top s)).
  rewrite (m_run (give s) _ _ _ _ Eg1), (m_run (unlock s) _ _ _ _ Eu), m_ret. cbn [poll_over]. set (w2 := w_held _ _).
  rewrite until_S. cbn [poll_pc_step]. rewrite m_assoc.
  assert (Es : exists rs w3, select (nfds (svc_of w s)) (conn_set (svc_of w s)) w2 = Ret rs w3 /\
    held w3 = held w /\ svc_of w3 s = svc_of w s) by (by do 2 eexists).
  destruct Es as (rs & w3 & Es & Eh3 & Ev3). rewrite !(m_run _ _ _ _ _ Es), m_ret.
  destruct (bool_decide (rs = ∅)); [done|]. cbn [poll_over].
  rewrite until_S. cbn [poll_pc_step]. rewrite m_assoc.
  assert (El3 : lock s w3 = Ret () (w_held w3 (s :: held w3))) by (unfold lock; by rewrite decide_False by (by rewrite Eh3)).
  rewrite !(m_run (lock s) _ _ _ _ El3), m_ret. cbn [poll_over]. set (w4 := w_held w3 _).
  rewrite until_S. cbn [poll_pc_step]. rewrite m_assoc.
  assert (Eg4 : get_svc s w4 = Ret (svc_of w3 s) w4) by done. rewrite !(m_run _ _ _ _ _ Eg4), m_ret. cbn [poll_over].
  rewrite until_S. cbn [poll_pc_step]. rewrite m_assoc.
  assert (Eg5 : give s w4 = Ret () (w_held w4 (held w3))) by (apply give_top; [done|by rewrite Eh3]).
  assert (Eu5 : unlock s w4 = Ret () (w_held w4 (held w3))) by (by apply (unlock_top s)).
  rewrite (m_run (give s) _ _ _ _ Eg5), (m_run (unlock s) _ _ _ _ Eu5), m_ret. done.
Qed.
End alone.

(** ** The property *)

(** A thread that is not disturbed does what the functions of the code do when
    they run in one go: from the return of [accept] to the next call, from the
    message to the end of a drop, from the lock to the unlock of a push, and one
    round of [poll_socket] as far as its handlers, for every kernel and world, a
    mutex that is held included. *)
Theorem undisturbed_threads {K : Kernel} (s : svc_id) (w : world) :
  (forall fd q, until 5 (accept_pc_step s) accept_over (AcMsg fd) (w_rx w (<[fd := q]> (rx w))) =
     (_ ← accept_step s (AcceptFd fd q); mret AcWait) w) /\
  (forall fd e, finish 6 (drop_pc_step s fd e) DrMsg w = drop_of s fd e w) /\
  (forall b, finish (6 * Z.to_nat (nfds (svc_of w s)) + 4) (push_pc_step s b) PuLock w =
     push_all (dropper_of s) s b w) /\
  (forall handle, (pc ← until 7 (poll_pc_step s) poll_over PoTop; serve handle s (to_serve pc)) w =
     poll_step true handle s w).
Proof.
  split; [intros; apply accept_steps|]. split; [intros; apply drop_steps|].
  split; [intros; by apply push_steps|]. intros. apply poll_round_steps.
Qed.
