(* ===== verification/NetConcInv.v ===== *)
(** * Who owns which descriptor on the network side

    The invariants of the configurations of [NetConc].  [sound] holds in every run:
    the mutexes exclude, and tables and loops stay inside an [fd_set].  [owned] holds
    as long as [accept] returns no number that is still referred to: every entry of
    a table is an open connection of its service or is being dropped, every open
    connection is in the table of its service or about to be, and what a thread
    refers to is a connection of its service or closed. *)

From Stdlib Require Import String List.
From stdpp Require Import base tactics option list list_numbers gmap sets.
From Stdlib Require Import ZArith Lia Bool.
From S2P Require Import Prelude.
From S2P Require Import CString.
From S2P Require Import Pus.
From S2P Require Import Sys.
From S2P Require Import NetConn.
From S2P Require Import NetRecv.
From S2P Require Import Net.
From S2P Require Import NetConc.

Local Open Scope Z_scope.

(** ** What a step does to the shared state *)

Inductive effect : Type :=
| ENone
| ELock (s : svc_id)
| EGive (s : svc_id)
| EAdd (s : svc_id) (fd : Z)
| EGrow (s : svc_id) (fd : Z)
| EDel (s : svc_id) (fd : Z)
| EClose (fd : Z).

Definition push_effect (s : svc_id) (pc : push_pc) : effect :=
  match pc with
  | PuLock => ELock s
  | PuClose fd _ => EClose fd
  | PuClr fd _ => EDel s fd
  | PuUnlock => EGive s
  | _ => ENone
  end.

Definition effect_of (th : thread) : effect :=
  match th with
  | TAccept s pc =>
      match pc with
      | AcRefuse fd => EClose fd
      | AcLock _ => ELock s
      | AcSet fd => EAdd s fd
      | AcGrow fd => EGrow s fd
      | AcUnlock => EGive s
      | _ => ENone
      end
  | TPoll s pc =>
      match pc with
      | PoTop | PoLock2 _ _ | PoDrop DrLock _ _ _ => ELock s
      | PoUnlock1 _ _ | PoUnlock2 _ | PoDrop DrUnlock _ _ _ => EGive s
      | PoDrop DrClose fd _ _ => EClose fd
      | PoDrop DrClr fd _ _ => EDel s fd
      | PoPush _ p _ => push_effect SvcSniff p
      | _ => ENone
      end
  | TPush (Some (s, _, p)) => push_effect s p
  | TPush None => ENone
  end.

Definition tab (w : world) (s : svc_id) : gset Z := conn_set (svc_of w s).

(** the services after a step *)
Definition svc_after (e : effect) (w : world) (s : svc_id) : net_service :=
  let v := svc_of w s in
  match e with
  | EAdd s' fd => if decide (s = s') then with_conn_set v (conn_set v ∪ {[fd]}) else v
  | EGrow s' fd => if decide (s = s') then (if fd >? nfds v then with_nfds v (fd + 1) else v) else v
  | EDel s' fd => if decide (s = s') then clr_conn v fd else v
  | _ => v
  end.

Record did (e : effect) (w w' : world) : Prop := {
  di_client : is_client (net w') = is_client (net w);
  di_held : held w' = match e with
                      | ELock s => s :: held w
                      | EGive s => filter (fun s' => s' <> s) (held w)
                      | _ => held w
                      end;
  di_rx : rx w' = match e with EClose fd => delete fd (rx w) | _ => rx w end;
  di_svc : forall s, svc_of w' s = svc_after e w s
}.

(** ** What a step makes of the thread *)

(** about to be entered in the table, or refused *)
Definition registering (th : thread) : option (svc_id * Z) :=
  match th with
  | TAccept s (AcMsg fd | AcRefuse fd | AcLock fd | AcSet fd) => Some (s, fd)
  | _ => None
  end.

(** closed and not cleared yet *)
Definition dropping (th : thread) : option (svc_id * Z) :=
  match th with
  | TPoll s (PoDrop (DrLock | DrClr) fd _ _) => Some (s, fd)
  | _ => match pushing th with Some (s, PuClr fd _) => Some (s, fd) | _ => None end
  end.

Definition in_set (fd : Z) : Prop := 0 <= fd < FD_SETSIZE.

Definition push_bounds (pc : push_pc) : Prop :=
  match pc with
  | PuAt fds | PuExit fds => Forall in_set fds
  | PuSend fd fds | PuMsg fd fds | PuClose fd fds | PuClr fd fds => in_set fd /\ Forall in_set fds
  | _ => True
  end.

(** the indices of [fd_set]s *)
Definition bounds (th : thread) : Prop :=
  match th with
  | TAccept _ (AcMsg fd | AcRefuse fd) => 0 <= fd
  | TAccept _ (AcLock fd | AcSet fd | AcGrow fd) => in_set fd
  | TPoll _ (PoUnlock1 _ n | PoSelect _ n | PoLock2 _ n | PoCheck _ n) => n <= FD_SETSIZE
  | TPoll _ (PoUnlock2 fds | PoServe fds) => Forall in_set fds
  | TPoll _ (PoDrop _ fd _ fds) => in_set fd /\ Forall in_set fds
  | TPoll _ (PoPush _ p fds) => push_bounds p /\ Forall in_set fds
  | TPush (Some (_, _, p)) => push_bounds p
  | _ => True
  end.

(** the steps to the end of the section a thread is in, at most *)
Definition push_work (pc : push_pc) : Z :=
  match pc with
  | PuLock => 0
  | PuBegin => 6 * FD_SETSIZE + 3
  | PuAt fds => 6 * zlen fds + 2
  | PuSend _ fds => 6 * zlen fds + 7
  | PuMsg _ fds => 6 * zlen fds + 6
  | PuClose _ fds => 6 * zlen fds + 5
  | PuClr _ fds => 6 * zlen fds + 4
  | PuExit fds => 6 * zlen fds + 3
  | PuUnlock => 1
  end.

Definition work (th : thread) : Z :=
  match th with
  | TAccept _ (AcSet _) => 3
  | TAccept _ (AcGrow _) | TPoll _ (PoCopy | PoCheck _ _ | PoDrop DrClr _ _ _) => 2
  | TAccept _ AcUnlock | TPoll _ (PoUnlock1 _ _ | PoUnlock2 _ | PoDrop DrUnlock _ _ _) => 1
  | TPoll _ (PoPush _ p _) | TPush (Some (_, _, p)) => push_work p
  | _ => 0
  end.

(** one message, of six steps, for each number an [fd_set] can hold *)
Definition section_bound : Z := 6 * FD_SETSIZE + 3.

Record went (w : world) (th th' : thread) : Prop := {
  go_inside : inside th' = match effect_of th with ELock s => Some s | EGive _ => None | _ => inside th end;
  go_refs : forall s fd, (s, fd) ∈ refs th' -> (s, fd) ∈ refs th \/ fd ∈ tab w s;
  go_dropping : forall x, dropping th = Some x -> dropping th' = Some x \/ effect_of th = EDel (fst x) (snd x);
  go_closed : forall fd, effect_of th = EClose fd ->
    (exists s, registering th = Some (s, fd)) \/ exists s, (s, fd) ∈ refs th /\ dropping th' = Some (s, fd);
  go_dropped : forall x, dropping th' = Some x -> dropping th = Some x \/ effect_of th = EClose (snd x);
  go_registering : forall x, registering th' = Some x ->
    registering th = Some x /\ effect_of th <> EAdd (fst x) (snd x) /\ effect_of th <> EClose (snd x);
  go_registered : forall s fd, registering th = Some (s, fd) ->
    registering th' = Some (s, fd) \/ effect_of th = EAdd s fd \/ effect_of th = EClose fd;
  go_bounds : (forall s, 0 <= nfds (svc_of w s) <= FD_SETSIZE) -> bounds th -> bounds th';
  go_work : (forall s, nfds (svc_of w s) <= FD_SETSIZE) -> inside th <> None -> inside th' <> None -> work th' < work th;
  go_enter : forall s, effect_of th = ELock s -> work th' <= section_bound
}.

(** what the effects have to do with the mutex and with the thread *)
Lemma effect_inside th : match effect_of th with
  | ELock _ => inside th = None
  | EGive s | EAdd s _ | EGrow s _ | EDel s _ => inside th = Some s
  | _ => True
  end.
Proof.
  destruct th as [s []|s [| | | | | | | |[]|b []]|[[[s b] []]|]]; simpl; done.
Qed.

Lemma outside_work th : inside th = None -> work th = 0.
Proof. by destruct th as [s []|s [| | | | | | | |[]|b []]|[[[s b] []]|]]. Qed.

Lemma effect_lock th s : effect_of th = ELock s <-> at_lock th = Some s.
Proof.
  destruct th as [s' []|s' [| | | | | | | |[]|b []]|[[[s' b] []]|]]; simpl; split; congruence.
Qed.

Lemma effect_add th s fd : effect_of th = EAdd s fd -> registering th = Some (s, fd).
Proof. by destruct th as [s' []|s' [| | | | | | | |[]|b []]|[[[s' b] []]|]]; simpl; intros [= <- <-]. Qed.

Lemma effect_del th s fd : effect_of th = EDel s fd -> dropping th = Some (s, fd).
Proof. by destruct th as [s' []|s' [| | | | | | | |[]|b []]|[[[s' b] []]|]]; simpl; intros [= <- <-]. Qed.

Lemma effect_close th fd : effect_of th = EClose fd <-> closing th = Some fd.
Proof.
  destruct th as [s' []|s' [| | | | | | | |[]|b []]|[[[s' b] []]|]]; simpl; split; congruence.
Qed.

Lemma dropping_inside th s fd : dropping th = Some (s, fd) -> (s, fd) ∈ refs th.
Proof.
  destruct th as [s' []|s' [| | | | | | | |[]|b []]|[[[s' b] []]|]]; simpl; intros [= <- <-]; set_solver.
Qed.

(** how a push goes on *)
Definition push_next (w : world) (s : svc_id) (pc : push_pc) (o : option push_pc) : Prop :=
  match pc with
  | PuLock => o = Some PuBegin
  | PuBegin => o = Some (PuAt (seqZ 0 (nfds (svc_of w s))))
  | PuAt [] => o = Some PuUnlock
  | PuAt (fd :: fds) => o = Some (PuAt fds) \/ o = Some (PuSend fd fds) /\ fd ∈ tab w s
  | PuSend fd fds => o = Some (PuMsg fd fds) \/ o = Some (PuAt fds)
  | PuMsg fd fds => o = Some (PuClose fd fds)
  | PuClose fd fds => o = Some (PuClr fd fds)
  | PuClr fd fds => o = Some (PuExit fds)
  | PuExit fds => o = Some (PuAt fds)
  | PuUnlock => o = None
  end.

(** [went] of one program counter, by evaluation *)
Ltac went_case :=
  first [ done
        | (split; [done|split; congruence])
        | (by left) | (by right) | (by right; left) | (by right; right)
        | (right; eexists; split; [|reflexivity]; simpl; set_solver)
        | (left; eexists; done) ].
Ltac went_tac :=
  split; simpl;
  [ done
  | intros; unfold tab in *; try set_solver
  | intros ? [= <-]; went_case
  | intros ? [= <-]; went_case
  | intros ? [= <-]; went_case
  | intros ? [= <-]; went_case
  | intros ? ? [= <- <-]; went_case
  | intros; try done; try tauto
  | intros; try done; unfold zlen; simpl length; try lia
  | intros; by try discriminate ].

Section steps.
Context {K : Kernel} {L : KernelLive K}.

Lemma did_none w w' : is_client (net w') = is_client (net w) -> held w' = held w -> rx w' = rx w ->
  (forall s, svc_of w' s = svc_of w s) -> did ENone w w'.
Proof using Type. by split. Qed.

Lemma lock_did s w : s ∉ held w -> exists w', lock s w = Ret () w' /\ did (ELock s) w w'.
Proof using Type. intros H. unfold lock. rewrite decide_False by done. eexists. by split. Qed.

Lemma give_did s w : s ∈ held w -> exists w', give s w = Ret () w' /\ did (EGive s) w w'.
Proof using Type. intros H. unfold give. rewrite decide_True by done. eexists. by split. Qed.

Lemma close_did fd w : exists w', close fd w = Ret () w' /\ did (EClose fd) w w'.
Proof using Type. eexists. by split. Qed.

Lemma svc_upd w s v s' : svc_of (w_svc w s v) s' = if decide (s' = s) then v else svc_of w s'.
Proof using Type. done. Qed.

Lemma set_did s fd w : in_set fd -> exists w', fd_set s fd w = Ret () w' /\ did (EAdd s fd) w w'.
Proof using Type.
  intros [_ H]. rewrite fd_set_run by lia.
  exists (w_svc w s (with_conn_set (svc_of w s) (conn_set (svc_of w s) ∪ {[fd]}))). split; [done|].
  split; try done. intros s'. rewrite svc_upd. simpl. destruct (decide (s' = s)) as [->|]; done.
Qed.

Lemma clr_did s fd w : exists w', fd_clr s fd w = Ret () w' /\ did (EDel s fd) w w'.
Proof using Type.
  exists (w_svc w s (clr_conn (svc_of w s) fd)). split; [done|].
  split; try done. intros s'. rewrite svc_upd. simpl. destruct (decide (s' = s)) as [->|]; done.
Qed.

Lemma grow_did s fd w : exists w', grow_nfds s fd w = Ret () w' /\ did (EGrow s fd) w w'.
Proof using Type.
  rewrite grow_nfds_run. eexists. split; [reflexivity|]. destruct (fd >? nfds (svc_of w s)) eqn:E.
  - split; try done. intros s'. rewrite svc_upd. simpl. destruct (decide (s' = s)) as [->|]; [by rewrite E|done].
  - split; try done. intros s'. simpl. destruct (decide (s' = s)) as [->|]; [by rewrite E|done].
Qed.

Lemma say_did s fd e w : exists w', drop_say s fd e w = Ret () w' /\ did ENone w w'.
Proof using Type. unfold drop_say. destruct (is_rmap s); eexists; (split; [reflexivity|by split]). Qed.

Lemma exit_did s w : is_client (net w) = false -> drop_exit s w = Ret () w.
Proof using Type.
  intros H. unfold drop_exit. destruct (is_rmap s); [done|]. unfold client_exit, mbind, M_bind, get_net. by rewrite H.
Qed.

Lemma send_did fd b w : exists r w', send_all fd b w = Ret r w' /\ did ENone w w'.
Proof using L.
  destruct (send_all_run fd b w) as (r & w' & l & E & (E1 & _ & E3 & E4) & _). exists r, w'. split; [done|].
  split; try done; unfold svc_of; by rewrite E4.
Qed.

Lemma push_goes s b pc w : is_client (net w) = false -> (push_effect s pc = ELock s -> s ∉ held w) ->
  (push_effect s pc = EGive s -> s ∈ held w) ->
  exists o w', push_pc_step s b pc w = Ret o w' /\ did (push_effect s pc) w w' /\ push_next w s pc o.
Proof using L.
  intros Hc Hl Hg. destruct pc as [| |[|fd fds]|fd fds|fd fds|fd fds|fd fds|fds|]; cbn [push_pc_step push_effect push_next] in *.
  - destruct (lock_did s w (Hl eq_refl)) as (w' & E & D). rewrite (m_run _ _ _ _ _ E). by do 2 eexists.
  - do 2 eexists. split; [reflexivity|]. split; [by split|done].
  - do 2 eexists. split; [reflexivity|]. split; [by split|done].
  - eexists _, w. split; [reflexivity|]. split; [by split|].
    unfold tab, svc_of. destruct (bool_decide_reflect (fd ∈ conn_set (svcs (net w) s))); [by right|by left].
  - destruct (send_did fd b w) as (r & w' & E & D). rewrite (m_run _ _ _ _ _ E). do 2 eexists.
    split; [reflexivity|]. split; [done|]. destruct (r =? -1); [by left|by right].
  - destruct (say_did s fd true w) as (w' & E & D). rewrite (m_run _ _ _ _ _ E). by do 2 eexists.
  - destruct (close_did fd w) as (w' & E & D). rewrite (m_run _ _ _ _ _ E). by do 2 eexists.
  - destruct (clr_did s fd w) as (w' & E & D). rewrite (m_run _ _ _ _ _ E). by do 2 eexists.
  - rewrite (m_run _ _ _ _ _ (exit_did s w Hc)). do 2 eexists. split; [reflexivity|]. split; [by split|done].
  - destruct (give_did s w (Hg eq_refl)) as (w' & E & D). rewrite (m_run _ _ _ _ _ E). by do 2 eexists.
Qed.

Lemma seq_bounds n : n <= FD_SETSIZE -> Forall in_set (seqZ 0 n).
Proof using Type. intros H. apply Forall_forall. intros x Hx%elem_of_seqZ. unfold in_set. lia. Qed.

Lemma seq_work n : n <= FD_SETSIZE -> 6 * Z.of_nat (length (seqZ 0 n)) + 2 < 6 * FD_SETSIZE + 3.
Proof using Type. rewrite length_seqZ. unfold FD_SETSIZE. lia. Qed.

Lemma push_went w s b pc o : push_next w s pc o ->
  went w (TPush (Some (s, b, pc))) (TPush (match o with Some pc => Some (s, b, pc) | None => None end)).
Proof using K L.
  destruct pc as [| |[|fd fds]|fd fds|fd fds|fd fds|fd fds|fds|]; simpl; intros H.
  - subst o. went_tac.
  - subst o. went_tac; [apply seq_bounds; naive_solver|by apply seq_work].
  - subst o. went_tac.
  - destruct H as [->|[-> Hi]]; went_tac; rewrite ->Forall_cons in *; naive_solver.
  - destruct H as [->| ->]; went_tac.
  - subst o. went_tac.
  - subst o. went_tac.
  - subst o. went_tac.
  - subst o. went_tac.
  - subst o. went_tac.
Qed.

Lemma push_poll_went w s b pc fds o : push_next w SvcSniff pc o ->
  went w (TPoll s (PoPush b pc fds)) (TPoll s (match o with Some pc => PoPush b pc fds | None => PoServe fds end)).
Proof using K L.
  destruct pc as [| |[|fd fds']|fd fds'|fd fds'|fd fds'|fd fds'|fds'|]; simpl; intros H.
  - subst o. went_tac.
  - subst o. went_tac; [split; [apply seq_bounds|]; naive_solver|by apply seq_work].
  - subst o. went_tac.
  - destruct H as [->|[-> Hi]]; went_tac; rewrite ->Forall_cons in *; naive_solver.
  - destruct H as [->| ->]; went_tac.
  - subst o. went_tac.
  - subst o. went_tac.
  - subst o. went_tac.
  - subst o. went_tac.
  - subst o. went_tac.
Qed.

(** the calls an accept thread and a drop function make *)
Lemma accept_goes s pc w : (effect_of (TAccept s pc) = ELock s -> s ∉ held w) ->
  (effect_of (TAccept s pc) = EGive s -> s ∈ held w) -> pc <> AcWait -> bounds (TAccept s pc) ->
  exists pc' w', accept_pc_step s pc w = Ret pc' w' /\ did (effect_of (TAccept s pc)) w w' /\
    went w (TAccept s pc) (TAccept s pc').
Proof using K L.
  intros Hl Hg Hn Hb. destruct pc as [|fd|fd|fd|fd|fd|]; cbn [accept_pc_step effect_of] in *; [done|..].
  - do 2 eexists. split; [reflexivity|]. split; [by split|].
    destruct (FD_SETSIZE <=? fd) eqn:E; went_tac; simpl in *; unfold in_set; lia.
  - do 2 eexists. split; [reflexivity|]. split; [by split|went_tac].
  - destruct (lock_did s w (Hl eq_refl)) as (w' & E & D). rewrite (m_run _ _ _ _ _ E). do 2 eexists.
    split; [reflexivity|]. split; [done|went_tac].
  - destruct (set_did s fd w Hb) as (w' & E & D). rewrite (m_run _ _ _ _ _ E). do 2 eexists.
    split; [reflexivity|]. split; [done|went_tac].
  - destruct (grow_did s fd w) as (w' & E & D). rewrite (m_run _ _ _ _ _ E). do 2 eexists.
    split; [reflexivity|]. split; [done|went_tac].
  - destruct (give_did s w (Hg eq_refl)) as (w' & E & D). rewrite (m_run _ _ _ _ _ E). do 2 eexists.
    split; [reflexivity|]. split; [done|went_tac].
Qed.

Lemma poll_goes s pc w : is_client (net w) = false -> (effect_of (TPoll s pc) = ELock s -> s ∉ held w) ->
  (effect_of (TPoll s pc) = EGive s -> s ∈ held w) ->
  (effect_of (TPoll s pc) = ELock SvcSniff -> SvcSniff ∉ held w) ->
  (effect_of (TPoll s pc) = EGive SvcSniff -> SvcSniff ∈ held w) ->
  waiting (TPoll s pc) = false -> bounds (TPoll s pc) ->
  exists pc' w', poll_pc_step s pc w = Ret pc' w' /\ did (effect_of (TPoll s pc)) w w' /\
    went w (TPoll s pc) (TPoll s pc').
Proof using L.
  intros Hc Hl Hg Hl' Hg' Hn Hb. destruct pc as [| |rs n|rs n|rs n|rs n|fds|[|fd fds]|dp fd e fds|b p fds];
    cbn [poll_pc_step effect_of] in *; [..|done| |].
  - destruct (lock_did s w (Hl eq_refl)) as (w' & E & D). rewrite (m_run _ _ _ _ _ E). do 2 eexists.
    split; [reflexivity|]. split; [done|went_tac].
  - do 2 eexists. split; [reflexivity|]. split; [by split|]. went_tac. naive_solver.
  - destruct (give_did s w (Hg eq_refl)) as (w' & E & D). rewrite (m_run _ _ _ _ _ E). do 2 eexists.
    split; [reflexivity|]. split; [done|went_tac].
  - unfold select. do 2 eexists. split; [reflexivity|]. split; [by split|].
    destruct (bool_decide _); went_tac.
  - destruct (lock_did s w (Hl eq_refl)) as (w' & E & D). rewrite (m_run _ _ _ _ _ E). do 2 eexists.
    split; [reflexivity|]. split; [done|went_tac].
  - do 2 eexists. split; [reflexivity|]. split; [by split|]. went_tac.
    + right. apply list_elem_of_fmap in H as (x & [= -> ->] & H). apply list_elem_of_filter in H. set_solver.
    + apply Forall_forall. intros x Hx%list_elem_of_filter.
      pose proof (proj1 (Forall_forall _ _) (seq_bounds n Hb)) as Hf. apply Hf, Hx.
  - destruct (give_did s w (Hg eq_refl)) as (w' & E & D). rewrite (m_run _ _ _ _ _ E). do 2 eexists.
    split; [reflexivity|]. split; [done|went_tac].
  - do 2 eexists. split; [reflexivity|]. split; [by split|went_tac].
  - destruct dp; cbn [drop_pc_step].
    + destruct (say_did s fd e w) as (w' & E & D). rewrite m_assoc, (m_run _ _ _ _ _ E). do 2 eexists.
      split; [reflexivity|]. split; [done|went_tac].
    + destruct (close_did fd w) as (w' & E & D). rewrite m_assoc, (m_run _ _ _ _ _ E). do 2 eexists.
      split; [reflexivity|]. split; [done|went_tac].
    + destruct (lock_did s w (Hl eq_refl)) as (w' & E & D). rewrite m_assoc, (m_run _ _ _ _ _ E). do 2 eexists.
      split; [reflexivity|]. split; [done|went_tac].
    + destruct (clr_did s fd w) as (w' & E & D). rewrite m_assoc, (m_run _ _ _ _ _ E). do 2 eexists.
      split; [reflexivity|]. split; [done|went_tac].
    + destruct (give_did s w (Hg eq_refl)) as (w' & E & D). rewrite m_assoc, (m_run _ _ _ _ _ E). do 2 eexists.
      split; [reflexivity|]. split; [done|went_tac].
    + rewrite m_assoc, (m_run _ _ _ _ _ (exit_did s w Hc)). do 2 eexists.
      split; [reflexivity|]. split; [by split|went_tac].
  - destruct (push_goes SvcSniff b p w Hc Hl' Hg') as (o & w' & E & D & N). rewrite (m_run _ _ _ _ _ E).
    do 2 eexists. split; [reflexivity|]. split; [done|]. by apply push_poll_went.
Qed.

(** the calls cannot fail, and every step is one of the effects *)
Lemma net_thread_goes th w : is_client (net w) = false -> waiting th = false -> bounds th ->
  (forall s, at_lock th = Some s -> s ∉ held w) -> (forall s, inside th = Some s -> s ∈ held w) ->
  exists th' w', thread_step th w = Ret th' w' /\ did (effect_of th) w w' /\ went w th th'.
Proof using L.
  intros Hc Hw Hb Hl Hi.
  assert (Hl' : forall s, effect_of th = ELock s -> s ∉ held w) by (intros s E; by apply Hl, effect_lock).
  assert (Hg' : forall s, effect_of th = EGive s -> s ∈ held w).
  { intros s E. apply Hi. pose proof (effect_inside th) as H. by rewrite E in H. }
  destruct th as [s pc|s pc|[[[s b] pc]|]]; cbn [thread_step]; [..|done].
  - destruct (accept_goes s pc w) as (pc' & w' & E & D & W); [naive_solver..|by intros ->|done|].
    rewrite (m_run _ _ _ _ _ E). by do 2 eexists.
  - destruct (poll_goes s pc w) as (pc' & w' & E & D & W); [naive_solver..|].
    rewrite (m_run _ _ _ _ _ E). by do 2 eexists.
  - destruct (push_goes s b pc w Hc) as (o & w' & E & D & N); [naive_solver..|].
    rewrite (m_run _ _ _ _ _ E). do 2 eexists. split; [reflexivity|]. split; [done|]. by apply push_went.
Qed.
End steps.
