(* ===== verification/NetConcSafe.v ===== *)
(** * The invariants of the network side hold in every run

    [sound] for every kernel and [owned] for a kernel that does not hand out a
    number somebody still refers to; every step of [NetConc] preserves them. *)

From Stdlib Require Import String List.
From stdpp Require Import base tactics option list list_numbers gmap sets.
From Stdlib Require Import ZArith Lia Bool.
From S2P Require Import Prelude.
From S2P Require Import CString.
From S2P Require Import Pus.
From S2P Require Import Sys.
From S2P Require Import NetConn.
From S2P Require Import NetRecv.
From S2P Require Import Net.
From S2P Require Import NetConc.
From S2P Require Import NetConcInv.

Local Open Scope Z_scope.

(** ** The invariants *)

Record sound (c : conf) : Prop := {
  so_server : is_client (net (wd c)) = false;
  so_origin : forall fd, origin c !! fd = None <-> rx (wd c) !! fd = None;
  so_held : forall s, s ∈ held (wd c) <-> exists i th, pool c !! i = Some th /\ inside th = Some s;
  so_alone : forall i j th th' s, pool c !! i = Some th -> pool c !! j = Some th' ->
    inside th = Some s -> inside th' = Some s -> i = j;
  so_tab : forall s fd, fd ∈ tab (wd c) s -> in_set fd;
  so_nfds : forall s, 0 <= nfds (svc_of (wd c) s) <= FD_SETSIZE;
  so_bounds : forall i th, pool c !! i = Some th -> bounds th;
  so_work : forall i th, pool c !! i = Some th -> work th <= section_bound
}.

Record owned (c : conf) : Prop := {
  ow_tab : forall s fd, fd ∈ tab (wd c) s ->
    origin c !! fd = Some s \/
    origin c !! fd = None /\ exists i th, pool c !! i = Some th /\ dropping th = Some (s, fd);
  ow_one : forall s s' fd, fd ∈ tab (wd c) s -> fd ∈ tab (wd c) s' -> s = s';
  ow_open : forall s fd, origin c !! fd = Some s ->
    fd ∈ tab (wd c) s \/ exists i th, pool c !! i = Some th /\ registering th = Some (s, fd);
  ow_refs : forall i th s fd, pool c !! i = Some th -> (s, fd) ∈ refs th ->
    origin c !! fd = None \/ origin c !! fd = Some s;
  ow_dropping : forall i th s fd, pool c !! i = Some th -> dropping th = Some (s, fd) -> origin c !! fd = None;
  ow_registering : forall i th s fd, pool c !! i = Some th -> registering th = Some (s, fd) ->
    origin c !! fd = Some s /\ (forall s', fd ∉ tab (wd c) s') /\
    (forall j th' s', pool c !! j = Some th' -> (s', fd) ∉ refs th') /\
    (forall j th' s', pool c !! j = Some th' -> registering th' = Some (s', fd) -> i = j)
}.

(** ** The steps by their effects *)

Definition origin_after (e : effect) (o : gmap Z svc_id) : gmap Z svc_id :=
  match e with EClose fd => delete fd o | _ => o end.

Record moves (i : nat) (th th' : thread) (c c' : conf) : Prop := {
  mo_th : pool c !! i = Some th;
  mo_did : did (effect_of th) (wd c) (wd c');
  mo_went : went (wd c) th th';
  mo_free : forall s, effect_of th = ELock s -> s ∉ held (wd c);
  mo_origin : origin c' = origin_after (effect_of th) (origin c);
  mo_pool : pool c' = <[i := th']> (pool c)
}.

Record accepts (i : nat) (s : svc_id) (fd : Z) (q : list Z) (c c' : conf) : Prop := {
  ac_th : pool c !! i = Some (TAccept s AcWait);
  ac_free : rx (wd c) !! fd = None;
  ac_fd : 0 <= fd;
  ac_conf : c' = mk_conf (w_rx (wd c) (<[fd := q]> (rx (wd c)))) (<[fd := s]> (origin c))
                   (<[i := TAccept s (AcMsg fd)]> (pool c))
}.

Section safe.
Context {K : Kernel} {L : KernelLive K}.

Lemma handle_went w s fd fds h : went w (TPoll s (PoServe (fd :: fds))) (TPoll s (serve_first h fd fds)).
Proof using K L.
  destruct h as [|e|b]; went_tac; rewrite ->Forall_cons in *; naive_solver.
Qed.

Lemma push_begins w s b : went w (TPush None) (TPush (Some (s, b, PuLock))).
Proof using K L. went_tac. Qed.

(** a thread that need not wait can go on *)
Lemma thread_moves i th c : sound c -> pool c !! i = Some th -> waiting th = false ->
  (forall s, at_lock th = Some s -> s ∉ held (wd c)) ->
  exists c' th', net_step (NStep i) c = Some (NNext c') /\ moves i th th' c c'.
Proof using L.
  intros S Hth Hw Hl.
  assert (Hi : forall s, inside th = Some s -> s ∈ held (wd c)).
  { intros s E. apply (so_held c S). by do 2 eexists. }
  destruct (net_thread_goes th (wd c) (so_server c S) Hw (so_bounds c S i th Hth) Hl Hi) as (th' & w' & E & D & W).
  assert (H : net_step (NStep i) c = Some (NNext (mk_conf w'
    (match closing th with Some fd => delete fd (origin c) | None => origin c end) (<[i := th']> (pool c))))).
  { simpl. rewrite Hth. simpl. rewrite Hw, E. destruct (at_lock th) as [s|]; [|done].
    by rewrite bool_decide_eq_false_2 by (by apply Hl). }
  eexists _, th'. split; [exact H|]. split; simpl; try done.
  - intros s Es. by apply Hl, effect_lock.
  - destruct (closing th) as [fd|] eqn:Ec.
    + apply effect_close in Ec. by rewrite Ec.
    + destruct (effect_of th) eqn:Ee; try done. apply effect_close in Ee. congruence.
Qed.

(** no step breaks the program or ends it *)
Lemma sound_step ev c o : sound c -> net_step ev c = Some o -> exists c', o = NNext c' /\
  ((exists i th th', moves i th th' c c') \/ exists i s fd q, ev = NAccept i fd q /\ accepts i s fd q c c').
Proof using L.
  intros S H. destruct ev as [i|i fd q|i h|i s b]; simpl in H;
    apply bind_Some in H as (th & Hth & H).
  - destruct (waiting th) eqn:Hw; [done|].
    assert (Hl : forall s, at_lock th = Some s -> s ∉ held (wd c)).
    { intros s E. rewrite E in H. by destruct (bool_decide_reflect (s ∈ held (wd c))). }
    destruct (thread_moves i th c S Hth Hw Hl) as (c' & th' & E & M). simpl in E. rewrite Hth in E. simpl in E.
    rewrite Hw in E. rewrite H in E. injection E as ->. exists c'. split; [done|]. left. by exists i, th, th'.
  - destruct th as [s []| |]; try done. destruct (rx (wd c) !! fd) eqn:E; [done|].
    destruct (fd <? 0) eqn:El; [done|]. injection H as <-. eexists. split; [reflexivity|].
    right. exists i, s, fd, q. split; [done|]. split; [done..|lia|done].
  - destruct th as [|s [| | | | | | |[|fd fds]| |]|]; try done. injection H as <-. eexists.
    split; [reflexivity|]. left. exists i. do 2 eexists. split; [exact Hth|by split|apply handle_went|done..].
  - destruct th as [| |[]]; try done. injection H as <-. eexists.
    split; [reflexivity|]. left. exists i. do 2 eexists. split; [exact Hth|by split|apply push_begins|done..].
Qed.

(** ** The pool after a step *)

Lemma moves_pool i th th' c c' j t : moves i th th' c c' ->
  pool c' !! j = Some t <-> j = i /\ t = th' \/ j <> i /\ pool c !! j = Some t.
Proof using Type.
  intros M. rewrite (mo_pool _ _ _ _ _ M), list_lookup_insert_Some.
  pose proof (lookup_lt_Some _ _ _ (mo_th _ _ _ _ _ M)). naive_solver.
Qed.

Lemma accepts_pool i s fd q c c' j t : accepts i s fd q c c' ->
  pool c' !! j = Some t <-> j = i /\ t = TAccept s (AcMsg fd) \/ j <> i /\ pool c !! j = Some t.
Proof using Type.
  intros M. rewrite (ac_conf _ _ _ _ _ _ M). simpl. rewrite list_lookup_insert_Some.
  pose proof (lookup_lt_Some _ _ _ (ac_th _ _ _ _ _ _ M)). naive_solver.
Qed.

Lemma tab_after e w w' s : did e w w' -> tab w' s = match e with
  | EAdd s' fd => if decide (s = s') then tab w s ∪ {[fd]} else tab w s
  | EDel s' fd => if decide (s = s') then tab w s ∖ {[fd]} else tab w s
  | _ => tab w s
  end.
Proof using Type.
  intros D. unfold tab. rewrite (di_svc _ _ _ D). destruct e; simpl; try done; [|destruct (decide _); [by destruct (_ >? _)|done]|];
    by destruct (decide _).
Qed.

Lemma inside_after w th th' s : went w th th' ->
  inside th' = Some s <-> effect_of th = ELock s \/ inside th = Some s /\ effect_of th <> EGive s.
Proof using Type.
  intros W. rewrite (go_inside _ _ _ W). pose proof (effect_inside th) as E.
  destruct (effect_of th); naive_solver.
Qed.

Lemma held_after e w w' s : did e w w' -> s ∈ held w' <-> e = ELock s \/ s ∈ held w /\ e <> EGive s.
Proof using Type.
  intros D. rewrite (di_held _ _ _ D). destruct e; rewrite ?elem_of_cons, ?list_elem_of_filter; naive_solver.
Qed.

Lemma effect_bounds th : bounds th -> match effect_of th with EAdd _ fd | EGrow _ fd => in_set fd | _ => True end.
Proof using Type. by destruct th as [s' []|s' [| | | | | | | |[]|b []]|[[[s' b] []]|]]. Qed.

Lemma nfds_after e w w' : did e w w' -> match e with EGrow _ fd => in_set fd | _ => True end ->
  (forall s, 0 <= nfds (svc_of w s) <= FD_SETSIZE) -> forall s, 0 <= nfds (svc_of w' s) <= FD_SETSIZE.
Proof using Type.
  intros D He H s. specialize (H s). rewrite (di_svc _ _ _ D). unfold in_set in He.
  destruct e; simpl; try done; destruct (decide _); try done. destruct (fd >? nfds (svc_of w s)); simpl; lia.
Qed.

(** ** The mutexes and the bounds *)

Lemma sound_alone i th th' c c' j t s : sound c -> moves i th th' c c' -> j <> i -> pool c !! j = Some t ->
  inside th' = Some s -> inside t = Some s -> False.
Proof using Type.
  intros S M Hj Ht Hth' Hs. apply (inside_after _ _ _ _ (mo_went _ _ _ _ _ M)) in Hth' as [El|[Hi _]].
  - apply (mo_free _ _ _ _ _ M s El). apply (so_held c S). by exists j, t.
  - apply Hj. exact (so_alone c S j i t th s Ht (mo_th _ _ _ _ _ M) Hs Hi).
Qed.

Lemma sound_held i th th' c c' s : sound c -> moves i th th' c c' ->
  s ∈ held (wd c') <-> exists j t, pool c' !! j = Some t /\ inside t = Some s.
Proof using Type.
  intros S M. pose proof (mo_went _ _ _ _ _ M) as W. pose proof (mo_th _ _ _ _ _ M) as Hth.
  rewrite (held_after _ _ _ _ (mo_did _ _ _ _ _ M)). setoid_rewrite (moves_pool _ _ _ _ _ _ _ M).
  assert (Hi : inside th' = Some s -> exists j t, (j = i /\ t = th' \/ j <> i /\ pool c !! j = Some t) /\ inside t = Some s)
    by (intros H; exists i, th'; auto).
  split.
  - intros [El|[Hs Hg]]; [apply Hi, (inside_after _ _ _ _ W); by left|].
    apply (so_held c S) in Hs as (j & t & Ht & Hs). destruct (decide (j = i)) as [->|Hj].
    + apply Hi, (inside_after _ _ _ _ W). right. split; [congruence|done].
    + exists j, t. auto.
  - intros (j & t & [[-> ->]|[Hj Ht]] & Hs).
    + apply (inside_after _ _ _ _ W) in Hs as [El|[Hs Hg]]; [by left|right]. split; [|done].
      apply (so_held c S). by exists i, th.
    + right. split; [apply (so_held c S); by exists j, t|]. intros Eg. apply Hj.
      pose proof (effect_inside th) as E. rewrite Eg in E. exact (so_alone c S j i t th s Ht Hth Hs E).
Qed.

Lemma sound_moves i th th' c c' : sound c -> moves i th th' c c' -> sound c'.
Proof using K L.
  intros S M. pose proof (mo_did _ _ _ _ _ M) as D. pose proof (mo_went _ _ _ _ _ M) as W.
  pose proof (mo_th _ _ _ _ _ M) as Hth. pose proof (effect_bounds th (so_bounds c S i th Hth)) as B.
  split.
  - rewrite (di_client _ _ _ D). apply S.
  - intros fd. rewrite (di_rx _ _ _ D), (mo_origin _ _ _ _ _ M). unfold origin_after.
    destruct (effect_of th); try apply S. rewrite !lookup_delete_None. pose proof (so_origin c S fd). tauto.
  - intros s. by apply (sound_held i th th' c).
  - intros j k t t' s Hj%(moves_pool _ _ _ _ _ _ _ M) Hk%(moves_pool _ _ _ _ _ _ _ M) Hs Hs'.
    destruct Hj as [[-> ->]|[Hj Ht]], Hk as [[-> ->]|[Hk Ht']]; [done|..].
    + by destruct (sound_alone _ _ _ _ _ k t' s S M Hk Ht' Hs Hs').
    + by destruct (sound_alone _ _ _ _ _ j t s S M Hj Ht Hs' Hs).
    + exact (so_alone c S j k t t' s Ht Ht' Hs Hs').
  - intros s fd. rewrite (tab_after _ _ _ _ D). pose proof (so_tab c S s fd).
    destruct (effect_of th); try done; destruct (decide _); set_solver.
  - apply (nfds_after _ _ _ D); [by destruct (effect_of th)|apply S].
  - intros j t [[-> ->]|[_ Ht]]%(moves_pool _ _ _ _ _ _ _ M); [|by apply (so_bounds c S j)].
    apply (go_bounds _ _ _ W); [apply S|by apply (so_bounds c S i)].
  - intros j t [[-> ->]|[_ Ht]]%(moves_pool _ _ _ _ _ _ _ M); [|by apply (so_work c S j)].
    pose proof (so_work c S i th Hth) as Hw. destruct (inside th') as [s|] eqn:E; [|by rewrite outside_work].
    apply (inside_after _ _ _ _ W) in E as E'. destruct E' as [El|[Hi _]]; [by apply (go_enter _ _ _ W s)|].
    assert (work th' < work th); [|lia]. apply (go_work _ _ _ W); [intros s'; apply S|congruence..].
Qed.

Lemma sound_accepts i s fd q c c' : sound c -> accepts i s fd q c c' -> sound c'.
Proof using Type.
  intros S M. pose proof (ac_th _ _ _ _ _ _ M) as Hth.
  assert (P : forall j t s', pool c' !! j = Some t -> inside t = Some s' -> pool c !! j = Some t /\ j <> i)
    by (intros j t s' [[-> ->]|[? ?]]%(accepts_pool _ _ _ _ _ _ _ _ M) E; done).
  assert (Q : forall j t s', pool c !! j = Some t -> inside t = Some s' -> pool c' !! j = Some t).
  { intros j t s' Ht E. apply (accepts_pool _ _ _ _ _ _ _ _ M). right. split; [|done]. intros ->.
    rewrite Hth in Ht. by injection Ht as <-. }
  pose proof (accepts_pool _ _ _ _ _ _ : forall j t, accepts i s fd q c c' -> _) as R.
  split.
  - rewrite (ac_conf _ _ _ _ _ _ M). apply S.
  - intros fd'. rewrite (ac_conf _ _ _ _ _ _ M). simpl. rewrite !lookup_insert_None. pose proof (so_origin c S fd'). tauto.
  - intros s'. assert (held (wd c') = held (wd c)) as -> by by rewrite (ac_conf _ _ _ _ _ _ M).
    rewrite (so_held c S s'). split; intros (j & t & Ht & E); exists j, t; (split; [|done]).
    + by apply (Q j t s').
    + by apply (P j t s').
  - intros j k t t' s' Hj Hk E E'. apply (so_alone c S j k t t' s'); [by apply (P j t s')|by apply (P k t' s')|done..].
  - intros s' fd'. rewrite (ac_conf _ _ _ _ _ _ M). apply (so_tab c S s' fd').
  - intros s'. rewrite (ac_conf _ _ _ _ _ _ M). apply (so_nfds c S s').
  - intros j t [[-> ->]|[_ Ht]]%(R _ _ M); [apply M|by apply (so_bounds c S j)].
  - intros j t [[-> ->]|[_ Ht]]%(R _ _ M); [done|by apply (so_work c S j)].
Qed.

(** ** Descriptors and their services *)

Lemma origin_close e o fd : e = EClose fd -> origin_after e o !! fd = None.
Proof using Type. intros ->. apply lookup_delete_eq. Qed.

Lemma origin_keep e o fd : e <> EClose fd -> origin_after e o !! fd = o !! fd.
Proof using Type. intros H. destruct e; try done. apply lookup_delete_ne. congruence. Qed.

Lemma origin_cases e o fd :
  e = EClose fd /\ origin_after e o !! fd = None \/ e <> EClose fd /\ origin_after e o !! fd = o !! fd.
Proof using Type.
  destruct e as [| | | | | |fd']; try (right; split; [done|by apply origin_keep]).
  destruct (decide (fd' = fd)) as [->|]; [left|right]; (split; [congruence|]).
  - by apply origin_close.
  - apply origin_keep. congruence.
Qed.

Lemma origin_none e o fd : o !! fd = None -> origin_after e o !! fd = None.
Proof using Type. intros H. destruct (origin_cases e o fd) as [[_ ->]|[_ ->]]; done. Qed.

Lemma tab_grows e w w' s fd : did e w w' -> fd ∈ tab w' s ->
  e = EAdd s fd \/ fd ∈ tab w s /\ e <> EDel s fd.
Proof using Type.
  intros D. rewrite (tab_after _ _ _ _ D). destruct e; try (intros H; right; split; [exact H|discriminate]).
  - destruct (decide (s = s0)) as [->|]; [|intros H; right; split; [exact H|discriminate]].
    rewrite elem_of_union, elem_of_singleton. intros [H| ->]; [right; split; [exact H|discriminate]|by left].
  - destruct (decide (s = s0)) as [->|]; [|intros H; right; split; [exact H|congruence]].
    rewrite elem_of_difference, elem_of_singleton. intros [H Hn]. right. split; [exact H|congruence].
Qed.

Lemma tab_keeps e w w' s fd : did e w w' -> e = EAdd s fd \/ fd ∈ tab w s /\ e <> EDel s fd -> fd ∈ tab w' s.
Proof using K L.
  intros D. rewrite (tab_after _ _ _ _ D). intros [->|[H Hn]].
  - rewrite decide_True by done. set_solver.
  - destruct e; try done; (destruct (decide _) as [->|]; [|done]); [set_solver|].
    apply elem_of_difference. split; [done|]. rewrite elem_of_singleton. congruence.
Qed.

Section moved.
Context (i : nat) (th th' : thread) (c c' : conf).
Context (O : owned c) (M : moves i th th' c c').

Lemma moved_refs s fd : (s, fd) ∈ refs th' -> origin c !! fd = None \/ origin c !! fd = Some s.
Proof using O M.
  intros H. apply (go_refs _ _ _ (mo_went _ _ _ _ _ M)) in H as [H|H].
  - by apply (ow_refs c O i th _ _ (mo_th _ _ _ _ _ M)).
  - destruct (ow_tab c O s fd H) as [E|[E _]]; auto.
Qed.

Lemma moved_tab s fd : fd ∈ tab (wd c') s -> origin c' !! fd = Some s \/
  origin c' !! fd = None /\ exists j t, pool c' !! j = Some t /\ dropping t = Some (s, fd).
Proof using O M.
  pose proof (mo_th _ _ _ _ _ M) as Hth. pose proof (mo_went _ _ _ _ _ M) as W.
  rewrite (mo_origin _ _ _ _ _ M). setoid_rewrite (moves_pool _ _ _ _ _ _ _ M).
  intros [E|[H Hn]]%(tab_grows _ _ _ _ _ (mo_did _ _ _ _ _ M)).
  - left. rewrite origin_keep by congruence. by apply (ow_registering c O i th s fd Hth), effect_add.
  - destruct (ow_tab c O s fd H) as [Ho|(Ho & j & t & Ht & Hd)].
    + destruct (origin_cases (effect_of th) (origin c) fd) as [[E ->]|[_ ->]]; [right|by left]. split; [done|].
      apply (go_closed _ _ _ W) in E as [(s' & Er)|(s' & Er & Ed)].
      * by destruct (proj1 (proj2 (ow_registering c O i th s' fd Hth Er)) s).
      * assert (s' = s) as -> by (destruct (ow_refs c O i th s' fd Hth Er) as [E|E]; rewrite Ho in E; by inversion E).
        exists i, th'. auto.
    + right. split; [by apply origin_none|]. destruct (decide (j = i)) as [->|Hj]; [|exists j, t; auto].
      rewrite Hth in Ht. injection Ht as ->. exists i, th'. split; [auto|].
      by destruct (go_dropping _ _ _ W (s, fd) Hd).
Qed.

Lemma moved_one s s' fd : fd ∈ tab (wd c') s -> fd ∈ tab (wd c') s' -> s = s'.
Proof using O M.
  assert (R : forall r, effect_of th = EAdd r fd -> forall r', fd ∉ tab (wd c) r').
  { intros r E. by apply (ow_registering c O i th r fd (mo_th _ _ _ _ _ M)), effect_add. }
  intros [E|[H _]]%(tab_grows _ _ _ _ _ (mo_did _ _ _ _ _ M)) [E'|[H' _]]%(tab_grows _ _ _ _ _ (mo_did _ _ _ _ _ M)).
  - congruence.
  - by destruct (R s E s').
  - by destruct (R s' E' s).
  - by apply (ow_one c O s s' fd).
Qed.

Lemma moved_open s fd : origin c' !! fd = Some s ->
  fd ∈ tab (wd c') s \/ exists j t, pool c' !! j = Some t /\ registering t = Some (s, fd).
Proof using K L M O c c' i th th'.
  pose proof (mo_th _ _ _ _ _ M) as Hth. pose proof (mo_did _ _ _ _ _ M) as D.
  rewrite (mo_origin _ _ _ _ _ M). setoid_rewrite (moves_pool _ _ _ _ _ _ _ M).
  destruct (origin_cases (effect_of th) (origin c) fd) as [[_ ->]|[Hn ->]]; [done|].
  intros Ho. destruct (ow_open c O s fd Ho) as [H|(j & t & Ht & Hr)].
  - left. apply (tab_keeps _ _ _ _ _ D). right. split; [done|]. intros E%effect_del.
    rewrite (ow_dropping c O i th s fd Hth E) in Ho. done.
  - destruct (decide (j = i)) as [->|Hj]; [|right; exists j, t; auto].
    rewrite Hth in Ht. injection Ht as ->.
    destruct (go_registered _ _ _ (mo_went _ _ _ _ _ M) s fd Hr) as [E|[E|E]]; [|left|done].
    + right. exists i, th'. auto.
    + apply (tab_keeps _ _ _ _ _ D). by left.
Qed.

Lemma moved_registering j t s fd : pool c' !! j = Some t -> registering t = Some (s, fd) ->
  origin c' !! fd = Some s /\ (forall s', fd ∉ tab (wd c') s') /\
  (forall k t' s', pool c' !! k = Some t' -> (s', fd) ∉ refs t') /\
  (forall k t' s', pool c' !! k = Some t' -> registering t' = Some (s', fd) -> j = k).
Proof using O M.
  pose proof (mo_th _ _ _ _ _ M) as Hth. pose proof (mo_went _ _ _ _ _ M) as W.
  intros Ht Hr. apply (moves_pool _ _ _ _ _ _ _ M) in Ht.
  assert (B : exists t0, pool c !! j = Some t0 /\ registering t0 = Some (s, fd) /\
    (j = i -> effect_of th <> EAdd s fd /\ effect_of th <> EClose fd)).
  { destruct Ht as [[-> ->]|[Hj Ht]]; [|by exists t].
    apply (go_registering _ _ _ W) in Hr as (Hr & H1 & H2). by exists th. }
  clear t Ht Hr. destruct B as (t & Ht & Hr & Hi).
  destruct (ow_registering c O j t s fd Ht Hr) as (Ho & Htab & Href & Hone).
  assert (Hc : effect_of th <> EClose fd).
  { destruct (decide (j = i)) as [->|Hj]; [by apply Hi|]. intros E.
    apply (go_closed _ _ _ W) in E as [(s' & Er)|(s' & Er & _)]; [by apply Hj, (Hone i th s')|by apply (Href i th s')]. }
  assert (Ha : forall s', effect_of th <> EAdd s' fd).
  { intros s' E. pose proof (effect_add _ _ _ E) as Er. assert (j = i) as -> by (by apply (Hone i th s')).
    rewrite Hth in Ht. injection Ht as <-. rewrite Er in Hr. injection Hr as ->. by destruct (Hi eq_refl) as [H _]. }
  split; [by rewrite (mo_origin _ _ _ _ _ M), origin_keep|]. split; [|split].
  - intros s' [E|[E _]]%(tab_grows _ _ _ _ _ (mo_did _ _ _ _ _ M)); [by apply (Ha s')|by apply (Htab s')].
  - intros k t' s' [[-> ->]|[Hk Hk']]%(moves_pool _ _ _ _ _ _ _ M) Hr'; [|by apply (Href k t' s')].
    apply (go_refs _ _ _ W) in Hr' as [H|H]; [by apply (Href i th s')|by apply (Htab s')].
  - intros k t' s' [[-> ->]|[Hk Hk']]%(moves_pool _ _ _ _ _ _ _ M) Hr'; [|by apply (Hone k t' s')].
    apply (go_registering _ _ _ W) in Hr' as [Hr' _]. by apply (Hone i th s').
Qed.

Lemma owned_moves : owned c'.
Proof using K L M O c c' i th th'.
  pose proof (mo_went _ _ _ _ _ M) as W. split.
  - exact moved_tab.
  - exact moved_one.
  - exact moved_open.
  - intros j t s fd Ht Hr. assert (H : origin c !! fd = None \/ origin c !! fd = Some s).
    { apply (moves_pool _ _ _ _ _ _ _ M) in Ht as [[-> ->]|[_ Ht]]; [by apply moved_refs|].
      by apply (ow_refs c O j t). }
    rewrite (mo_origin _ _ _ _ _ M). destruct (origin_cases (effect_of th) (origin c) fd) as [[_ ->]|[_ ->]]; auto.
  - intros j t s fd [[-> ->]|[_ Ht]]%(moves_pool _ _ _ _ _ _ _ M) Hd; rewrite (mo_origin _ _ _ _ _ M).
    + apply (go_dropped _ _ _ W) in Hd as [Hd|E]; [|by apply origin_close].
      apply origin_none. exact (ow_dropping c O i th s fd (mo_th _ _ _ _ _ M) Hd).
    + apply origin_none. exact (ow_dropping c O j t s fd Ht Hd).
  - exact moved_registering.
Qed.
End moved.

Lemma owned_accepts i s fd q c c' : sound c -> owned c -> unused c fd -> accepts i s fd q c c' -> owned c'.
Proof using Type.
  intros S O [U1 U2] M. pose proof (ac_th _ _ _ _ _ _ M) as Hth.
  pose proof (fun j t => accepts_pool i s fd q c c' j t M) as P.
  assert (No : origin c !! fd = None) by (apply (so_origin c S), (ac_free _ _ _ _ _ _ M)).
  assert (Eo : origin c' = <[fd := s]> (origin c)) by by rewrite (ac_conf _ _ _ _ _ _ M).
  assert (Et : forall s', tab (wd c') s' = tab (wd c) s') by (intros s'; by rewrite (ac_conf _ _ _ _ _ _ M)).
  assert (Nd : forall j t s', pool c !! j = Some t -> dropping t <> Some (s', fd))
    by (intros j t s' Ht Hd%dropping_inside; by apply (U2 j t s')).
  assert (Q : forall j t, pool c !! j = Some t -> j <> i \/ registering t = None /\ dropping t = None).
  { intros j t Ht. destruct (decide (j = i)) as [->|]; [right|by left]. rewrite Hth in Ht. by injection Ht as <-. }
  split.
  - intros s' fd'. rewrite Et, Eo. intros H. assert (fd' <> fd) by (intros ->; by apply (U1 s')).
    rewrite lookup_insert_ne by done. destruct (ow_tab c O s' fd' H) as [|(E & j & t & Ht & Hd)]; [by left|right].
    split; [done|]. exists j, t. split; [|done]. apply P. right. destruct (Q j t Ht) as [|[_ E']]; [done|congruence].
  - intros s1 s2 fd'. rewrite !Et. apply (ow_one c O).
  - intros s' fd'. rewrite Et, Eo, lookup_insert_Some. intros [[<- <-]|[Hn H]].
    + right. exists i, (TAccept s (AcMsg fd)). split; [apply P; auto|done].
    + destruct (ow_open c O s' fd' H) as [|(j & t & Ht & Hr)]; [by left|right]. exists j, t. split; [|done].
      apply P. right. destruct (Q j t Ht) as [|[E' _]]; [done|congruence].
  - intros j t s' fd' [[-> ->]|[_ Ht]]%P Hr; [by apply not_elem_of_nil in Hr|].
    rewrite Eo, lookup_insert_ne by (intros ->; by apply (U2 j t s')). by apply (ow_refs c O j t).
  - intros j t s' fd' [[-> ->]|[_ Ht]]%P Hd; [done|].
    rewrite Eo, lookup_insert_ne by (intros ->; by apply (Nd j t s')). by apply (ow_dropping c O j t s').
  - intros j t s' fd' Hj Hr. setoid_rewrite Et. setoid_rewrite P. rewrite Eo.
    apply P in Hj as [[-> ->]|[Hj Ht]].
    + simpl in Hr. injection Hr as <- <-. rewrite lookup_insert_eq. split; [done|]. split; [done|]. split.
      * intros k t' s' [[-> ->]|[Hk Hk']]; [apply not_elem_of_nil|by apply (U2 k)].
      * intros k t' s' [[-> ->]|[Hk Hk']] Hr; [done|].
        destruct (ow_registering c O k t' s' fd Hk' Hr) as [E _]. congruence.
    + destruct (ow_registering c O j t s' fd' Ht Hr) as (E & H1 & H2 & H3).
      assert (fd' <> fd) by congruence. rewrite lookup_insert_ne by done. split; [done|]. split; [done|]. split.
      * intros k t' s'' [[-> ->]|[Hk Hk']]; [apply not_elem_of_nil|by apply (H2 k)].
      * intros k t' s'' [[-> ->]|[Hk Hk']] Hr'; [|by apply (H3 k t' s'')]. simpl in Hr'. congruence.
Qed.

(** ** Every run *)

Lemma opened_sound c : opened c -> sound c.
Proof using K L.
  intros [H1 H2 H3 H4 H5 H6]. assert (I : forall i th s, pool c !! i = Some th -> inside th <> Some s).
  { intros i th s Ht. apply H6 in Ht. by destruct th as [s' []|s' []|[]]. }
  split.
  - done.
  - intros fd. by rewrite H1, H2.
  - intros s. rewrite H3. split; [by intros H%not_elem_of_nil|]. intros (i & th & Ht & E). by destruct (I i th s).
  - intros i j th th' s Ht _ E. by destruct (I i th s).
  - intros s fd. unfold tab. rewrite (proj1 (H5 s)). set_solver.
  - intros s. apply H5.
  - intros i th Ht. apply H6 in Ht. by destruct th as [s' []|s' []|[]].
  - intros i th Ht. apply H6 in Ht. by destruct th as [s' []|s' []|[]].
Qed.

Lemma opened_owned c : opened c -> owned c.
Proof using K L.
  intros [H1 H2 H3 H4 H5 H6].
  assert (I : forall i th, pool c !! i = Some th -> refs th = [] /\ dropping th = None /\ registering th = None).
  { intros i th Ht. apply H6 in Ht. by destruct th as [s' []|s' []|[]]. }
  split.
  - intros s fd. unfold tab. rewrite (proj1 (H5 s)). set_solver.
  - intros s s' fd. unfold tab. rewrite (proj1 (H5 s)). set_solver.
  - intros s fd. by rewrite H2.
  - intros i th s fd Ht. destruct (I i th Ht) as [-> _]. by intros H%not_elem_of_nil.
  - intros i th s fd Ht. by destruct (I i th Ht) as (_ & -> & _).
  - intros i th s fd Ht. by destruct (I i th Ht) as (_ & _ & ->).
Qed.

Lemma reachable_sound b c0 c : opened c0 -> reachable b c0 c -> sound c.
Proof using L.
  intros H0. induction 1 as [|ev c c' R IH Hs F]; [by apply opened_sound|].
  destruct (sound_step _ _ _ IH Hs) as (c1 & [= <-] & [(i & th & th' & M)|(i & s & fd & q & _ & M)]).
  - by apply (sound_moves i th th' c).
  - by apply (sound_accepts i s fd q c).
Qed.

Lemma reachable_owned c0 c : opened c0 -> reachable true c0 c -> owned c.
Proof using L.
  intros H0. induction 1 as [|ev c c' R IH Hs F]; [by apply opened_owned|].
  pose proof (reachable_sound _ _ _ H0 R) as S.
  destruct (sound_step _ _ _ S Hs) as (c1 & [= <-] & [(i & th & th' & M)|(i & s & fd & q & -> & M)]).
  - by apply (owned_moves i th th' c).
  - apply (owned_accepts i s fd q c); [done..| |done]. by apply (F eq_refl i fd q).
Qed.
End safe.
