(* ===== verification/NetConcSpec.v ===== *)
(** * What the tables of the network side promise to their threads

    The properties of the runs of [NetConc]: the mutexes exclude and are given
    back, whatever numbers the kernel hands out; descriptors stay with their
    service as long as no number is handed out that a thread or a table still
    refers to; and what goes wrong when one is. *)

From Stdlib Require Import String List.
From stdpp Require Import base tactics option list list_numbers gmap sets.
From Stdlib Require Import ZArith Lia Bool.
From S2P Require Import Prelude.
From S2P Require Import CString.
From S2P Require Import Pus.
From S2P Require Import Sys.
From S2P Require Import NetConn.
From S2P Require Import NetRecv.
From S2P Require Import Net.
From S2P Require Import NetConc.
From S2P Require Import NetConcInv.
From S2P Require Import NetConcSafe.

Local Open Scope Z_scope.

(** a thread is past the accept of a connection, or about to clear one it closed *)
Definition busy (th : thread) : bool :=
  match registering th, dropping th with None, None => false | _, _ => true end.

(** thread [i] gives the mutex of [s] back by at most [n] steps of its own *)
Definition leaves {K : Kernel} (c : conf) (s : svc_id) (i : nat) (n : Z) : Prop :=
  exists k c', Z.of_nat k <= n /\ net_run (repeat (NStep i) k) c = Some c' /\ s ∉ held (wd c').

Section spec.
Context {K : Kernel} {L : KernelLive K}.

Lemma inside_ready th s : inside th = Some s -> waiting th = false /\ at_lock th = None.
Proof using Type. by destruct th as [s' []|s' [| | | | | | | |[]|b []]|[[[s' b] []]|]]. Qed.

Lemma work_pos th s : inside th = Some s -> 1 <= work th.
Proof using Type.
  destruct th as [s' []|s' [| | | | | | | |[]|b []]|[[[s' b] []]|]]; simpl; try done; intros _;
    unfold zlen, FD_SETSIZE; lia.
Qed.

(** the thread inside a mutex gives it back by its own steps *)
Lemma section_ends m i th s c : (Z.to_nat (work th) <= m)%nat -> sound c -> pool c !! i = Some th -> inside th = Some s ->
  exists n c', Z.of_nat n <= work th /\ net_run (repeat (NStep i) n) c = Some c' /\ s ∉ held (wd c').
Proof using L.
  revert th c. induction m as [|m IH]; intros th c Hm S Hth Hi; pose proof (work_pos th s Hi) as Hp; [lia|].
  destruct (inside_ready th s Hi) as [Hw Hl].
  destruct (thread_moves i th c S Hth Hw) as (c' & th' & E & M); [by rewrite Hl|].
  pose proof (mo_went _ _ _ _ _ M) as W. pose proof (sound_moves _ _ _ _ _ S M) as S'.
  assert (Hth' : pool c' !! i = Some th') by (apply (moves_pool _ _ _ _ _ _ _ M); auto).
  assert (C : effect_of th = EGive s \/ inside th' = Some s).
  { pose proof (effect_inside th) as Ee. rewrite (go_inside _ _ _ W). destruct (effect_of th); naive_solver. }
  destruct C as [Eg|Hi'].
  - exists 1%nat, c'. split; [lia|]. split; [cbn [repeat net_run]; by rewrite E|].
    rewrite (held_after _ _ _ _ (mo_did _ _ _ _ _ M)), Eg. naive_solver.
  - assert (Hlt : work th' < work th) by (apply (go_work _ _ _ W); [intros s'; apply S|congruence..]).
    pose proof (work_pos th' s Hi') as Hp'.
    destruct (IH th' c') as (n & c2 & Hn & Hr & Hf); [lia|done..|].
    exists (Datatypes.S n), c2. split; [lia|]. split; [|done]. cbn [repeat net_run]. by rewrite E.
Qed.

(** only the thread inside the mutex changes a table *)
Lemma written_inside c i c' s : sound c -> net_step (NStep i) c = Some (NNext c') ->
  svc_of (wd c') s <> svc_of (wd c) s -> exists th, pool c !! i = Some th /\ inside th = Some s.
Proof using L.
  intros S E Hn. assert (H := E). simpl in H. apply bind_Some in H as (th & Hth & H). destruct (waiting th) eqn:Hw; [done|].
  assert (Hl : forall s', at_lock th = Some s' -> s' ∉ held (wd c)).
  { intros s' El. rewrite El in H. by destruct (bool_decide_reflect (s' ∈ held (wd c))). }
  destruct (thread_moves i th c S Hth Hw Hl) as (c1 & th' & E1 & M). rewrite E in E1. injection E1 as ->.
  exists th. split; [done|]. pose proof (effect_inside th) as Ei.
  rewrite (di_svc _ _ _ (mo_did _ _ _ _ _ M)) in Hn.
  destruct (effect_of th); simpl in Hn; try done; destruct (decide _); congruence.
Qed.
End spec.

(** ** The properties *)

(** C7: Whatever the threads of the network side do, in whatever order, and
    whatever numbers the kernel gives to new connections: every step that can be
    made leads on, so that nothing ends the server and no mutex is unlocked by a
    thread that has not locked it; two threads are never inside
    the mutex of one service; a table changes only by a step of the thread inside
    its mutex; the tables hold numbers an [fd_set] can hold and [nfds] stays in
    its range; and a thread inside a mutex leaves it by a bounded number of steps of
    its own, which no other thread has to make possible. *)
Theorem net_mutexes_sound {K : Kernel} {L : KernelLive K} (fresh : bool) (c0 c : conf)
    (Hopen : opened c0) (Hrun : reachable fresh c0 c) :
  (forall ev o, net_step ev c = Some o -> exists c', o = NNext c') /\
  (forall i j th th' s, pool c !! i = Some th -> pool c !! j = Some th' ->
     inside th = Some s -> inside th' = Some s -> i = j) /\
  (forall i c' s, net_step (NStep i) c = Some (NNext c') -> svc_of (wd c') s <> svc_of (wd c) s ->
     exists th, pool c !! i = Some th /\ inside th = Some s) /\
  (forall s, (forall fd, fd ∈ conn_set (svc_of (wd c) s) -> 0 <= fd < FD_SETSIZE) /\
     0 <= nfds (svc_of (wd c) s) <= FD_SETSIZE) /\
  (forall s, s ∈ held (wd c) -> exists i, leaves c s i section_bound).
Proof.
  pose proof (reachable_sound _ _ _ Hopen Hrun) as S. split; [|split; [|split; [|split]]].
  - intros ev o Ho. destruct (sound_step ev c o S Ho) as (c' & -> & _). by exists c'.
  - apply S.
  - intros i c' s. by apply written_inside.
  - intros s. split; [intros fd; apply (so_tab c S)|apply S].
  - intros s Hs. apply (so_held c S) in Hs as (i & th & Hth & Hi).
    destruct (section_ends _ i th s c (le_n _) S Hth Hi) as (n & c' & Hn & Hr & Hf).
    exists i, n, c'. split; [|done]. pose proof (so_work c S i th Hth). lia.
Qed.

(** C8: As long as [accept] returns no number that a table or a thread still refers
    to, every descriptor stays with its service, however the threads are
    interleaved: what a thread is going to read, send on, close or clear for a service
    is a connection of that service or closed; what a table lists is an open connection
    of its service, or a closed one that the thread which closed it is about to
    clear; no number is in two tables; no connection is lost, it is in the table of its
    service or its accept thread is about to enter or to refuse it; and between
    these actions the tables list exactly the open connections. *)
Theorem descriptors_owned {K : Kernel} {L : KernelLive K} (c0 c : conf)
    (Hopen : opened c0) (Hrun : reachable true c0 c) :
  (forall i th s fd, pool c !! i = Some th -> (s, fd) ∈ refs th ->
     origin c !! fd = None \/ origin c !! fd = Some s) /\
  (forall s fd, fd ∈ conn_set (svc_of (wd c) s) ->
     origin c !! fd = Some s \/
     rx (wd c) !! fd = None /\ exists i th, pool c !! i = Some th /\ dropping th = Some (s, fd)) /\
  (forall s s' fd, fd ∈ conn_set (svc_of (wd c) s) -> fd ∈ conn_set (svc_of (wd c) s') -> s = s') /\
  (forall s fd, origin c !! fd = Some s -> fd ∈ conn_set (svc_of (wd c) s) \/
     exists i th, pool c !! i = Some th /\ registering th = Some (s, fd)) /\
  (Forall (fun th => busy th = false) (pool c) ->
     forall s fd, fd ∈ conn_set (svc_of (wd c) s) <-> origin c !! fd = Some s).
Proof.
  pose proof (reachable_sound _ _ _ Hopen Hrun) as S. pose proof (reachable_owned _ _ Hopen Hrun) as O.
  split; [|split; [|split; [|split]]].
  - apply O.
  - intros s fd Hfd. destruct (ow_tab c O s fd Hfd) as [E|[E Hd]]; [by left|right].
    split; [by apply (so_origin c S)|done].
  - apply (ow_one c O).
  - apply (ow_open c O).
  - intros Hb s fd. rewrite Forall_lookup in Hb.
    assert (B : forall i th, pool c !! i = Some th -> registering th = None /\ dropping th = None).
    { intros i th Hth. specialize (Hb i th Hth). unfold busy in Hb. by destruct (registering th), (dropping th). }
    split.
    + intros Hfd. destruct (ow_tab c O s fd Hfd) as [|(_ & i & th & Hth & Hd)]; [done|].
      destruct (B i th Hth). congruence.
    + intros Ho. destruct (ow_open c O s fd Ho) as [|(i & th & Hth & Hr)]; [done|].
      destruct (B i th Hth). congruence.
Qed.

(** ** Numbers that are handed out again *)

(** no client can be sent to, and descriptor 5 is ready *)
Definition deaf_kernel : Kernel :=
  {| k_queue := fun _ => Queued 0; k_peek := fun _ => Queued 63; k_send := fun _ => SendFailed;
     k_sendto := fun _ => true; k_clock := fun _ => (0, 0); k_malloc := fun _ => true;
     k_select := fun _ => Some {[5]}; k_socket := fun _ => 3; k_setup := fun _ => true;
     k_intr_max := 0 |}.

#[export] Instance deaf_kernel_live : KernelLive deaf_kernel.
Proof. intros t. exists 0%nat. split; [simpl; lia|discriminate]. Qed.

(** the threads of the data port, the accept thread of the RMAP port and a thread
    that forwards packets from SpaceWire *)
Definition ex_threads : conf :=
  mk_conf (mk_world 0 ∅ [] [] (mk_net false (-1) [] 0 [] 0 (fun _ => svc_empty)) []) ∅
    [TAccept SvcData AcWait; TPoll SvcData PoTop; TPush None; TAccept SvcRmap AcWait].

Definition ex_packet : list Z := [8; 1; 0xc0; 0; 0; 0; 7].

(** a data client connects, and the poll thread finds it ready *)
Definition ex_connect (i : nat) : list event := NAccept i 5 ex_packet :: repeat (NStep i) 5.
Definition ex_found : list event := ex_connect 0 ++ repeat (NStep 1) 7.

(** a send to it fails, so that it is dropped, and an RMAP client gets its number *)
Definition ex_stale : list event :=
  ex_found ++ [NPush 2 SvcData ex_packet] ++ repeat (NStep 2) 14 ++ ex_connect 3.

(** its handler drops it, and an RMAP client gets its number before it is cleared *)
Definition ex_crossed : list event :=
  ex_found ++ [NHandle 1 (HDrop false); NStep 1; NStep 1] ++ ex_connect 3 ++
  [NPush 2 SvcData ex_packet] ++ repeat (NStep 2) 8.

Lemma ex_threads_opened : opened ex_threads.
Proof.
  split; try reflexivity.
  - intros s. split; [reflexivity|]. vm_compute. by split.
  - intros i th Hth. apply list_elem_of_lookup_2 in Hth. simpl in Hth. unfold ex_threads in Hth. simpl in Hth.
    by repeat (apply elem_of_cons in Hth as [->|Hth]; [reflexivity|]); apply not_elem_of_nil in Hth.
Qed.

Definition no_accept (ev : event) : bool := match ev with NAccept _ _ _ => false | _ => true end.

Lemma run_reachable {K : Kernel} fresh c0 c c' l : reachable fresh c0 c -> net_run l c = Some c' ->
  (fresh = true -> forallb no_accept l = true) -> reachable fresh c0 c'.
Proof.
  revert c. induction l as [|ev l IH]; intros c R H F; [by injection H as <-|]. cbn [net_run] in H.
  destruct (net_step ev c) as [[c1| |]|] eqn:E; try done. apply (IH c1); [|done|].
  - apply (reach_step fresh c0 ev c c1 R E). intros Hf i fd q ->. by specialize (F Hf).
  - intros Hf. specialize (F Hf). simpl in F. by apply andb_prop in F as [_ F].
Qed.

Lemma run_app {K : Kernel} l l' c c1 : net_run l c = Some c1 -> net_run (l ++ l') c = net_run l' c1.
Proof.
  revert c. induction l as [|ev l IH]; intros c H; [by injection H as ->|]. cbn [net_run app] in *.
  destruct (net_step ev c) as [[]|]; try done. by apply IH.
Qed.

Lemma opened_unused c fd : opened c -> unused c fd.
Proof.
  intros [_ _ _ _ H5 H6]. split.
  - intros s. rewrite (proj1 (H5 s)). set_solver.
  - intros i th s Hth. apply H6 in Hth. destruct th as [s' []|s' []|[]]; try done; apply not_elem_of_nil.
Qed.

(** a connection and what happens without a further one *)
Lemma reach_fresh {K : Kernel} i fd q l c0 c : opened c0 -> net_run (NAccept i fd q :: l) c0 = Some c ->
  forallb no_accept l = true -> reachable true c0 c.
Proof.
  intros H0 H Hl. cbn [net_run] in H. destruct (net_step (NAccept i fd q) c0) as [[c1| |]|] eqn:E; try done.
  apply (run_reachable true c0 c1 c l); [|done|done].
  apply (reach_step true c0 (NAccept i fd q) c0 c1); [constructor|done|].
  intros _ i' fd' q' [= <- <- <-]. by apply opened_unused.
Qed.

(** When a number is handed out again too soon, services are mixed up, with no
    more than a client that fails or leaves at the wrong moment. In the first run a
    packet cannot be sent to a data client while [poll_socket] is about to serve it;
    the client is dropped, an RMAP client connects and is given its number, and the
    handler of the data port runs on the connection of the RMAP client, and closes it
    if it finds it wanting, although the table of the RMAP port lists it. In the
    second run [conn_drop] has closed the connection of a data client and not yet
    cleared it when the RMAP client connects: the next packet from SpaceWire is
    sent to the RMAP client. *)
Theorem stale_numbers_cross :
  (exists c, net_run (K := deaf_kernel) ex_stale ex_threads = Some c /\
     pool c !! 1%nat = Some (TPoll SvcData (PoServe [5])) /\ origin c !! 5 = Some SvcRmap /\
     exists c', net_run (K := deaf_kernel) ([NHandle 1 (HDrop false)] ++ repeat (NStep 1) 2) c = Some c' /\
       5 ∈ conn_set (svc_of (wd c') SvcRmap) /\ rx (wd c') !! 5 = None) /\
  (exists c, net_run (K := deaf_kernel) ex_crossed ex_threads = Some c /\
     pool c !! 2%nat = Some (TPush (Some (SvcData, ex_packet, PuSend 5 []))) /\ origin c !! 5 = Some SvcRmap).
Proof.
  split.
  - eexists. split; [vm_compute; reflexivity|]. split; [reflexivity|]. split; [vm_compute; reflexivity|].
    eexists. split; [vm_compute; reflexivity|]. split; [|reflexivity].
    unfold svc_of. simpl. set_solver.
  - eexists. split; [vm_compute; reflexivity|]. split; [reflexivity|]. vm_compute. reflexivity.
Qed.

Lemma ex_found_run : exists c, net_run (K := deaf_kernel) ex_found ex_threads = Some c /\
  pool c !! 1%nat = Some (TPoll SvcData (PoServe [5])) /\ Forall (fun th => busy th = false) (pool c) /\
  origin c !! 5 = Some SvcData.
Proof.
  eexists. split; [vm_compute; reflexivity|]. split; [reflexivity|]. split; [|vm_compute; reflexivity].
  repeat (constructor; [reflexivity|]). constructor.
Qed.

Lemma ex_crossed_run : exists c, net_run (K := deaf_kernel) ex_crossed ex_threads = Some c /\ SvcData ∈ held (wd c).
Proof. eexists. split; [vm_compute; reflexivity|]. simpl. apply list_elem_of_here. Qed.

(** a thread is in front of sending to a foreign connection: the mutex is given back all the same *)
Lemma net_mutexes_sound_witness : exists c i n c', reachable (K := deaf_kernel) false ex_threads c /\
  SvcData ∈ held (wd c) /\ net_run (K := deaf_kernel) (repeat (NStep i) n) c = Some c' /\ SvcData ∉ held (wd c').
Proof.
  destruct ex_crossed_run as (c & Hr & Hh).
  assert (R : reachable (K := deaf_kernel) false ex_threads c)
    by (by apply (run_reachable false ex_threads ex_threads c ex_crossed); [constructor| |]).
  destruct (net_mutexes_sound (K := deaf_kernel) false ex_threads c ex_threads_opened R) as (_ & _ & _ & _ & H).
  destruct (H SvcData Hh) as (i & n & c' & _ & Hn & Hf). exists c, i, n, c'.
  exact (conj R (conj Hh (conj Hn Hf))).
Defined.

(** the poll thread of the data port has found its client, and nobody is busy *)
Lemma descriptors_owned_witness : exists c, reachable (K := deaf_kernel) true ex_threads c /\
  pool c !! 1%nat = Some (TPoll SvcData (PoServe [5])) /\ 5 ∈ conn_set (svc_of (wd c) SvcData).
Proof.
  destruct ex_found_run as (c & Hr & Hp & Hb & Ho).
  assert (R : reachable (K := deaf_kernel) true ex_threads c)
    by (by apply (reach_fresh 0 5 ex_packet (repeat (NStep 0) 5 ++ repeat (NStep 1) 7)); [apply ex_threads_opened| |]).
  destruct (descriptors_owned (K := deaf_kernel) ex_threads c ex_threads_opened R) as (_ & _ & _ & _ & H).
  exists c. exact (conj R (conj Hp (proj2 (H Hb SvcData 5) Ho))).
Defined.
