(* ===== verification/Locks.v ===== *)
(** * Threads, mutexes and cancellation

    The control flow of a C function as far as the synchronisation of the
    threads goes: the mutexes it takes and gives back, the calls at which a
    pending cancellation strikes, the test of the shutdown flag, and the process
    ending in [exit].  Every other condition is a choice, so a program of this
    file has at least the runs of the function.  A system is a pool of threads
    with their programs, the owners of the mutexes, and main with the straight
    sequence of what it does for the shutdown.  Calls return, but for the wait for a
    packet: from the moment the device falls silent, which may be any, it returns only
    to a thread whose wait main has cancelled.

    Three checks on programs are executable, and sound for every interleaving:
    - [ty]: mutexes are not nested, given back where they were taken, and no call
      for which [ok] fails is made with a mutex held;
    - [esc] and [live]: from every point of the program, some path of passable
      steps leads to a step looked for, or to the end of the program.  *)

From Stdlib Require Import List.
From stdpp Require Import base tactics option list relations functions.
From Stdlib Require Import Lia Bool.
From S2P Require Import Prelude.

(** ** Programs *)

(** [svc->lock] of the five services, and [pus_op_lock] *)
Inductive mutex : Type := LData | LRmap | LGresbTx | LGresbRx | LSniff | LOp.

#[export] Instance mutex_eq_dec : EqDecision mutex.
Proof. solve_decision. Defined.

Inductive call : Type :=
| CSend | CRecv | CClose | CAccept | CSelect | CSleep (* of POSIX *)
| CPrint (* stdio *)
| CStar (* the STAR API *)
| CWait. (* of it, the wait for a packet, which has no timeout *)

#[export] Instance call_eq_dec : EqDecision call.
Proof. solve_decision. Defined.

Inductive prog : Type :=
| Skip
| Lock (m : mutex)
| Unlock (m : mutex)
| Call (c : call)
| Exit (* [exit] *)
| Seq (p q : prog)
| Alt (p q : prog) (* a condition that is not modelled *)
| IfStop (p q : prog) (* a test of [shutdown] *)
| Loop (p : prog) (* [while (1)] *)
| Break
| Continue
| Fn (p : prog) (* the call of a function *)
| Return.

Declare Scope prog_scope.
Delimit Scope prog_scope with prog.
Bind Scope prog_scope with prog.
Notation "p ;; q" := (Seq p q) (at level 100, q at level 200, right associativity) : prog_scope.
Open Scope prog_scope.

(** where a program continues: behind its end, behind the end of the loop body,
    in the calling function *)
Inductive frame : Type :=
| FSeq (q : prog)
| FLoop (p : prog)
| FFn.

Definition conf : Type := prog * list frame.

Inductive label : Type :=
| LTau
| LLock (m : mutex)
| LUnlock (m : mutex)
| LCall (c : call)
| LExit
| LStop (b : bool).

(** the steps a thread can take *)
Definition moves (c : conf) : list (label * conf) :=
  match c with
  | (Skip, []) => []
  | (Skip, FSeq q :: k) => [(LTau, (q, k))]
  | (Skip, FLoop p :: k) => [(LTau, (p, FLoop p :: k))]
  | (Skip, FFn :: k) => [(LTau, (Skip, k))]
  | (Lock m, k) => [(LLock m, (Skip, k))]
  | (Unlock m, k) => [(LUnlock m, (Skip, k))]
  | (Call c, k) => [(LCall c, (Skip, k))]
  | (Exit, k) => [(LExit, (Skip, k))]
  | (Seq p q, k) => [(LTau, (p, FSeq q :: k))]
  | (Alt p q, k) => [(LTau, (p, k)); (LTau, (q, k))]
  | (IfStop p q, k) => [(LStop true, (p, k)); (LStop false, (q, k))]
  | (Loop p, k) => [(LTau, (p, FLoop p :: k))]
  | (Break, FSeq _ :: k) => [(LTau, (Break, k))]
  | (Break, FLoop _ :: k) => [(LTau, (Skip, k))]
  | (Break, _) => []
  | (Continue, FSeq _ :: k) => [(LTau, (Continue, k))]
  | (Continue, FLoop p :: k) => [(LTau, (p, FLoop p :: k))]
  | (Continue, _) => []
  | (Fn p, k) => [(LTau, (p, FFn :: k))]
  | (Return, FFn :: k) => [(LTau, (Skip, k))]
  | (Return, _ :: k) => [(LTau, (Return, k))]
  | (Return, []) => [(LTau, (Skip, []))]
  end.

(** [c] steps to [c'] *)
Definition move (l : label) (c c' : conf) : Prop := In (l, c') (moves c).

(** ** Systems *)

Record tstate : Type := mk_tstate {
  at_conf : conf;
  pending : bool; (* [pthread_cancel] was called *)
  dead : bool (* cancelled *)
}.

(** what main does *)
Inductive mact : Type :=
| MStop (* [shutdown = true] *)
| MLock (m : mutex)
| MUnlock (m : mutex)
| MCall (c : call)
| MCancel (t : nat)
| MWake (t : nat) (* [STAR_cancelTransferOperationWaits] *)
| MJoin (t : nat)
| MDestroy (m : mutex). (* undefined for a locked mutex *)

(** an owner is 0, which is main, or [S t] *)
Record sys : Type := mk_sys {
  owner : mutex -> option nat;
  stop : bool;
  halted : bool; (* [exit] was called *)
  pool : list tstate;
  todo : list mact;
  silent : bool; (* from here on the device does not answer *)
  woken : list nat (* the threads whose wait for a packet main has cancelled *)
}.

(** the cancellation points: POSIX leaves open whether the functions of stdio
    are, and nothing is known of the STAR API; [e] says that they are *)
Definition cancels (e : bool) (c : call) : bool :=
  match c with CPrint | CStar | CWait => e | _ => true end.

Definition finished (c : conf) : bool :=
  match c with (Skip, []) => true | _ => false end.

Definition gone (th : tstate) : bool := dead th || finished (at_conf th).

Definition with_owner (s : sys) (m : mutex) (o : option nat) : sys :=
  mk_sys (<[m := o]> (owner s)) (stop s) (halted s) (pool s) (todo s) (silent s) (woken s).
Definition with_stop (s : sys) : sys :=
  mk_sys (owner s) true (halted s) (pool s) (todo s) (silent s) (woken s).
Definition with_halted (s : sys) : sys :=
  mk_sys (owner s) (stop s) true (pool s) (todo s) (silent s) (woken s).
Definition with_thread (s : sys) (t : nat) (th : tstate) : sys :=
  mk_sys (owner s) (stop s) (halted s) (<[t := th]> (pool s)) (todo s) (silent s) (woken s).
Definition with_todo (s : sys) (l : list mact) : sys :=
  mk_sys (owner s) (stop s) (halted s) (pool s) l (silent s) (woken s).
Definition with_silent (s : sys) : sys :=
  mk_sys (owner s) (stop s) (halted s) (pool s) (todo s) true (woken s).
Definition with_woken (s : sys) (t : nat) : sys :=
  mk_sys (owner s) (stop s) (halted s) (pool s) (todo s) (silent s) (t :: woken s).

(** a wait for a packet returns: the device may answer, or main has cancelled it *)
Definition wait_returns (o : nat) (s : sys) : bool :=
  negb (silent s) || bool_decide (o ∈ S <$> woken s).

(** what a step of thread [o] does to the shared state; [None]: it has to wait *)
Definition effect (o : nat) (l : label) (s : sys) : option sys :=
  match l with
  | LTau => Some s
  | LCall CWait => if wait_returns o s then Some s else None
  | LCall _ => Some s
  | LLock m => match owner s m with None => Some (with_owner s m (Some o)) | Some _ => None end
  | LUnlock m => if decide (owner s m = Some o) then Some (with_owner s m None) else None
  | LExit => Some (with_halted s)
  | LStop b => if Bool.eqb (stop s) b then Some s else None
  end.

Definition at_cancel (e : bool) (c : conf) : bool :=
  match c with (Call c, _) => cancels e c | _ => false end.

Definition main_step (s : sys) : option sys :=
  match todo s with
  | [] => None
  | a :: r =>
      let s' := with_todo s r in
      match a with
      | MStop => Some (with_stop s')
      | MLock m => effect 0 (LLock m) s'
      | MUnlock m => effect 0 (LUnlock m) s'
      | MCall _ => Some s'
      | MCancel t =>
          match pool s !! t with
          | Some th => Some (with_thread s' t (mk_tstate (at_conf th) true (dead th)))
          | None => None
          end
      | MWake t => Some (with_woken s' t)
      | MJoin t =>
          match pool s !! t with
          | Some th => if gone th then Some s' else None
          | None => None
          end
      | MDestroy m => match owner s m with None => Some s' | Some _ => None end
      end
  end.

Inductive event : Type :=
| Step (t j : nat) (* thread [t] takes its [j]th step *)
| Die (t : nat) (* a pending cancellation strikes *)
| Main
| Mute. (* the device falls silent *)

Definition sys_step (e : bool) (ev : event) (s : sys) : option sys :=
  if halted s then None else
  match ev with
  | Step t j =>
      th ← pool s !! t;
      if dead th then None else
      '(l, c) ← moves (at_conf th) !! j;
      s' ← effect (S t) l s;
      Some (with_thread s' t (mk_tstate c (pending th) false))
  | Die t =>
      th ← pool s !! t;
      if pending th && negb (dead th) && at_cancel e (at_conf th)
      then Some (with_thread s t (mk_tstate (at_conf th) true true))
      else None
  | Main => main_step s
  | Mute => Some (with_silent s)
  end.

Fixpoint sys_run (e : bool) (l : list event) (s : sys) : option sys :=
  match l with [] => Some s | ev :: l => s' ← sys_step e ev s; sys_run e l s' end.

Definition steps_to (e : bool) (s s' : sys) : Prop := exists ev, sys_step e ev s = Some s'.

Definition reach (e : bool) : relation sys := rtc (steps_to e).

Definition start_thread (p : prog) : tstate := mk_tstate (p, []) false false.

Definition sys_start (ps : list prog) (m : list mact) : sys :=
  mk_sys (fun _ => None) false false (start_thread <$> ps) m false [].

(** ** The checks *)

Definition held : Type := option mutex.

Inductive res : Type := Bad | Never | At (h : held).

#[export] Instance res_eq_dec : EqDecision res.
Proof. solve_decision. Defined.

Definition merge (r1 r2 : res) : res :=
  match r1, r2 with
  | Bad, _ | _, Bad => Bad
  | Never, r | r, Never => r
  | At h, At h' => if decide (h = h') then At h else Bad
  end.

Section ty.
Variable ok : held -> call -> bool.

(** what is held behind [p], which starts with [h], in a loop entered with [hl],
    in a function entered with [hf] *)
Fixpoint ty (hf : held) (hl : option held) (p : prog) (h : held) : res :=
  match p with
  | Skip => At h
  | Lock m => match h with None => At (Some m) | Some _ => Bad end
  | Unlock m => if decide (h = Some m) then At None else Bad
  | Call c => if ok h c then At h else Bad
  | Exit => At h
  | Seq p q => match ty hf hl p h with At h' => ty hf hl q h' | r => r end
  | Alt p q => merge (ty hf hl p h) (ty hf hl q h)
  | IfStop p q => match h with None => merge (ty hf hl p h) (ty hf hl q h) | Some _ => Bad end
  | Loop p => match ty hf (Some h) p h with
              | Bad => Bad
              | Never => At h
              | At h' => if decide (h' = h) then At h else Bad
              end
  | Break | Continue => if decide (hl = Some h) then Never else Bad
  | Fn p => match ty h None p h with
            | Bad => Bad
            | Never => At h
            | At h' => if decide (h' = h) then At h else Bad
            end
  | Return => if decide (h = hf) then Never else Bad
  end.

(** a thread function: nothing is held at the start, nor at the end *)
Definition ty_thread (p : prog) : bool :=
  match ty None None p None with At None | Never => true | _ => false end.

(** main: joining and locking with nothing held *)
Fixpoint ty_main (h : held) (l : list mact) : bool :=
  match l with
  | [] => bool_decide (h = None)
  | MLock m :: l => bool_decide (h = None) && ty_main (Some m) l
  | MUnlock m :: l => bool_decide (h = Some m) && ty_main None l
  | MJoin _ :: l | MDestroy _ :: l => bool_decide (h = None) && ty_main h l
  | _ :: l => ty_main h l
  end.
End ty.

(** the ways out of a program *)
Record exits : Type := mk_exits { e_goal : bool; e_norm : bool; e_brk : bool; e_cont : bool; e_ret : bool }.

Definition no_exit : exits := mk_exits false false false false false.
Definition or_exits (x y : exits) : exits :=
  mk_exits (e_goal x || e_goal y) (e_norm x || e_norm y) (e_brk x || e_brk y)
    (e_cont x || e_cont y) (e_ret x || e_ret y).
Definition any_exit (x : exits) : bool := e_goal x || e_norm x || e_brk x || e_cont x || e_ret x.

(** the program goes on behind its end only *)
Fixpoint plain (p : prog) : bool :=
  match p with
  | Loop _ | Break | Continue | Return => false
  | Seq p q | Alt p q | IfStop p q => plain p && plain q
  | Fn p => plain p
  | _ => true
  end.

(** whatever is chosen, the program comes to [exit] *)
Fixpoint must_exit (p : prog) : bool :=
  match p with
  | Exit => true
  | Seq p q => must_exit p || plain p && must_exit q
  | Alt p q | IfStop p q => must_exit p && must_exit q
  | Loop p | Fn p => must_exit p
  | _ => false
  end.

Fixpoint doomed_frames (k : list frame) : bool :=
  match k with
  | [] => false
  | FSeq q :: k => must_exit q || plain q && doomed_frames k
  | FLoop p :: _ => must_exit p
  | FFn :: k => doomed_frames k
  end.

(** the thread is on its way to [exit] *)
Definition doomed (c : conf) : bool := must_exit (fst c) || plain (fst c) && doomed_frames (snd c).

Section esc.
(** the steps looked for, and the ones that may be taken on the way *)
Variables goal pass : label -> bool.

Definition esc_label (l : label) : exits :=
  if goal l then mk_exits true false false false false
  else if pass l then mk_exits false true false false false else no_exit.

(** a program that must exit leads nowhere *)
Fixpoint esc (p : prog) : exits :=
  if must_exit p then no_exit else
  match p with
  | Skip => mk_exits false true false false false
  | Lock m => esc_label (LLock m)
  | Unlock m => esc_label (LUnlock m)
  | Call c => esc_label (LCall c)
  | Exit => no_exit
  | Seq p q => let x := esc p in
      or_exits (mk_exits (e_goal x) false (e_brk x) (e_cont x) (e_ret x))
        (if e_norm x then esc q else no_exit)
  | Alt p q => or_exits (esc p) (esc q)
  | IfStop p q =>
      or_exits (mk_exits (goal (LStop true) || goal (LStop false)) false false false false)
        (or_exits (if pass (LStop true) then esc p else no_exit)
           (if pass (LStop false) then esc q else no_exit))
  | Loop p => let x := esc p in mk_exits (e_goal x) (e_brk x) false false (e_ret x)
  | Break => mk_exits false false true false false
  | Continue => mk_exits false false false true false
  | Fn p => let x := esc p in mk_exits (e_goal x) (e_norm x || e_ret x) false false false
  | Return => mk_exits false false false false true
  end.

(** every part of the program has a way out, unless it was chosen to call [exit];
    [b]: it is in a loop *)
Fixpoint live (b : bool) (p : prog) : bool :=
  any_exit (esc p) &&
  match p with
  | Seq p q => live b p && live b q
  | Alt p q | IfStop p q => (must_exit p || live b p) && (must_exit q || live b q)
  | Loop p => live true p
  | Fn p => live false p
  | Break | Continue => b
  | _ => true
  end.
End esc.

(** ** The discipline is kept by every step *)

Section keep.
Variable ok : held -> call -> bool.

(** frames continued with [r], in a loop entered with [hl], a function entered
    with [hf] *)
Inductive okk : list frame -> res -> option held -> held -> Prop :=
| okk_nil r : r = At None \/ r = Never -> okk [] r None None
| okk_seq q k r r' hl hf :
    r = Never \/ (exists h, r = At h /\ ty ok hf hl q h = r') ->
    r' <> Bad -> okk k r' hl hf -> okk (FSeq q :: k) r hl hf
| okk_loop p k r h hl hf :
    r = Never \/ r = At h ->
    ty ok hf (Some h) p h = Never \/ ty ok hf (Some h) p h = At h ->
    okk k (At h) hl hf -> okk (FLoop p :: k) r (Some h) hf
| okk_fn k r h hl hf :
    r = Never \/ r = At h -> okk k (At h) hl hf -> okk (FFn :: k) r None h.

Definition conf_ok (c : conf) (h : held) : Prop :=
  exists hl hf r, ty ok hf hl (fst c) h = r /\ r <> Bad /\ okk (snd c) r hl hf.

(** what is held after a step *)
Definition after (l : label) (h : held) : held :=
  match l with LLock m => Some m | LUnlock _ => None | _ => h end.

(** the step is in order *)
Definition fits (l : label) (h : held) : Prop :=
  match l with
  | LLock _ | LStop _ => h = None
  | LUnlock m => h = Some m
  | LCall c => ok h c = true
  | _ => True
  end.

Lemma okk_never k r hl hf : okk k r hl hf -> okk k Never hl hf.
Proof.
  intros H. inversion H; subst; econstructor; eauto.
Qed.
Lemma okk_le k r r' hl hf : okk k r hl hf -> r' = Never \/ r' = r -> okk k r' hl hf.
Proof. intros H [-> | ->]; [by eapply okk_never|done]. Qed.

Lemma merge_le r1 r2 r : merge r1 r2 = r -> r <> Bad ->
  (r1 = Never \/ r1 = r) /\ (r2 = Never \/ r2 = r).
Proof. destruct r1, r2; simpl; intros <-; try done; auto. case_decide; naive_solver. Qed.

(** a branch that is taken *)
Lemma conf_ok_branch p k h hl hf r : ty ok hf hl p h = Never \/ ty ok hf hl p h = r ->
  r <> Bad -> okk k r hl hf -> conf_ok (p, k) h.
Proof.
  intros Hp Hr Hk. exists hl, hf, (ty ok hf hl p h). split; [done|]. split; [by destruct Hp as [-> | ->]|].
  by eapply okk_le.
Qed.

Lemma conf_ok_skip k h hl hf r : r = At h -> okk k r hl hf -> conf_ok (Skip, k) h.
Proof. intros -> Hk. by exists hl, hf, (At h). Qed.

(** behind the end of a program *)
Lemma conf_ok_end h k c' l hl hf : okk k (At h) hl hf -> move l (Skip, k) c' ->
  fits l h /\ conf_ok c' (after l h).
Proof.
  intros Hk Hm. inversion Hk; subst; simpl in Hm; [done| | |];
    (cbn in Hm; destruct Hm as [[= <- <-]|[]]); simpl; (split; [done|]).
  - destruct H as [|(h' & [= <-] & Hq)]; [done|]. by exists hl, hf, r'.
  - destruct H as [|[= <-]]; [done|]. exists (Some h), hf, (ty ok hf (Some h) p h). split; [done|].
    split; [by destruct H0 as [-> | ->]|]. econstructor; eauto.
  - destruct H as [|[= <-]]; [done|]. by eapply conf_ok_skip.
Qed.

(** leaving a loop or a function *)
Lemma conf_ok_unwind p h k c' l : p = Break \/ p = Continue \/ p = Return -> conf_ok (p, k) h ->
  move l (p, k) c' -> fits l h /\ conf_ok c' (after l h).
Proof.
  intros Hp (hl & hf & r & Ht & Hr & Hk) Hm. simpl in *.
  assert (r = Never /\ (p = Return -> h = hf) /\ (p <> Return -> hl = Some h)) as (-> & Hf & Hl).
  { destruct Hp as [-> | [-> | ->]]; simpl in Ht; case_decide; subst; done. }
  clear Ht. inversion Hk; subst.
  - destruct Hp as [-> | [-> | ->]]; simpl in Hm; try done. cbn in Hm; destruct Hm as [[= <- <-]|[]].
    simpl. split; [done|]. exists None, None, (At None). rewrite (Hf eq_refl). repeat split; try done.
    constructor; auto.
  - assert (Hc : l = LTau /\ c' = (p, k0)) by (destruct Hp as [-> | [-> | ->]]; (cbn in Hm; destruct Hm as [[= <- <-]|[]]); done).
    destruct Hc as [-> ->]. simpl. split; [done|]. exists hl, hf, Never.
    split; [|split; [done|by eapply okk_never]].
    destruct Hp as [-> | [-> | ->]]; simpl; rewrite decide_True; auto.
  - assert (Hc : l = LTau) by (destruct Hp as [-> | [-> | ->]]; (cbn in Hm; destruct Hm as [[= <- <-]|[]]); done).
    subst l. simpl. split; [done|].
    destruct Hp as [-> | [-> | ->]]; (cbn in Hm; destruct Hm as [[= <-]|[]]).
    + specialize (Hl ltac:(done)). injection Hl as ->. by eapply conf_ok_skip.
    + specialize (Hl ltac:(done)). injection Hl as ->. exists (Some h), hf, (ty ok hf (Some h) p0 h).
      split; [done|]. split; [by destruct H0 as [-> | ->]|]. econstructor; eauto.
    + rewrite (Hf eq_refl). exists hl0, hf, Never. simpl. rewrite decide_True by done.
      split; [done|]. split; [done|]. by eapply okk_never.
  - assert (Hc : p = Return /\ l = LTau /\ c' = (Skip, k0)).
    { destruct Hp as [-> | [-> | ->]]; cbn in Hm; [done|done|]. by destruct Hm as [[= <- <-]|[]]. }
    destruct Hc as (-> & -> & ->). simpl. split; [done|]. rewrite (Hf eq_refl). by eapply conf_ok_skip.
Qed.

(** the step of a thread whose program passed the check is in order, and the
    check goes on to hold *)
Lemma move_ok c h l c' : conf_ok c h -> move l c c' -> fits l h /\ conf_ok c' (after l h).
Proof.
  intros Hc Hm. destruct c as [p k]. pose proof Hc as (hl & hf & r & Ht & Hr & Hk). simpl in *.
  destruct p; simpl in Ht.
  - subst r. by eapply conf_ok_end.
  - cbn in Hm; destruct Hm as [[= <- <-]|[]]. destruct h; [congruence|]. split; [done|]. by eapply conf_ok_skip.
  - cbn in Hm; destruct Hm as [[= <- <-]|[]]. case_decide; [|congruence]. split; [done|]. by eapply conf_ok_skip.
  - cbn in Hm; destruct Hm as [[= <- <-]|[]]. simpl. destruct (ok h c); [|congruence]. split; [done|]. by eapply conf_ok_skip.
  - cbn in Hm; destruct Hm as [[= <- <-]|[]]. split; [done|]. by eapply conf_ok_skip.
  - cbn in Hm; destruct Hm as [[= <- <-]|[]]. split; [done|]. exists hl, hf, (ty ok hf hl p1 h). split; [done|].
    destruct (ty ok hf hl p1 h) eqn:E1.
    + congruence.
    + split; [done|]. econstructor; [by left| |by eapply okk_never]. done.
    + split; [done|]. econstructor; [by right; eexists|by subst r|by subst r].
  - destruct (merge_le _ _ _ Ht Hr) as [H1 H2].
    cbn in Hm; destruct Hm as [[= <- <-]|[[= <- <-]|[]]]; (split; [done|]); by eapply conf_ok_branch.
  - destruct h; [congruence|]. destruct (merge_le _ _ _ Ht Hr) as [H1 H2].
    cbn in Hm; destruct Hm as [[= <- <-]|[[= <- <-]|[]]]; (split; [done|]); by eapply conf_ok_branch.
  - cbn in Hm; destruct Hm as [[= <- <-]|[]]. split; [done|].
    assert (Hb : (ty ok hf (Some h) p h = Never \/ ty ok hf (Some h) p h = At h) /\ r = At h).
    { destruct (ty ok hf (Some h) p h) eqn:E; [congruence|by split; [left|]|].
      case_decide; [|congruence]. subst. split; [by right|done]. }
    destruct Hb as [Hb ->]. exists (Some h), hf, (ty ok hf (Some h) p h). split; [done|].
    split; [by destruct Hb as [-> | ->]|]. econstructor; eauto.
  - eapply conf_ok_unwind; [|exact Hc|exact Hm]; auto.
  - eapply conf_ok_unwind; [|exact Hc|exact Hm]; auto.
  - cbn in Hm; destruct Hm as [[= <- <-]|[]]. split; [done|].
    assert (Hb : (ty ok h None p h = Never \/ ty ok h None p h = At h) /\ r = At h).
    { destruct (ty ok h None p h) eqn:E; [congruence|by split; [left|]|].
      case_decide; [|congruence]. subst. split; [by right|done]. }
    destruct Hb as [Hb ->]. exists None, h, (ty ok h None p h). split; [done|].
    split; [by destruct Hb as [-> | ->]|]. econstructor; eauto.
  - eapply conf_ok_unwind; [|exact Hc|exact Hm]; auto.
Qed.

(** at the end nothing is held *)
Lemma conf_ok_finished c h : conf_ok c h -> finished c = true -> h = None.
Proof.
  intros (hl & hf & r & Ht & Hr & Hk) Hf. destruct c as [p k]. destruct p; try done. destruct k; [|done].
  simpl in *. subst r. inversion Hk; subst. naive_solver.
Qed.

Lemma conf_ok_start p : ty_thread ok p = true -> conf_ok (p, []) None.
Proof.
  unfold ty_thread. intros H. exists None, None, (ty ok None None p None). split; [done|].
  destruct (ty ok None None p None) as [| |[]] eqn:E; try done; (split; [done|]); constructor; auto.
Qed.
End keep.

(** ** Ways out *)

Section ways.
Variables goal pass : label -> bool.
Hypothesis tau : pass LTau = true.

(** a path does not come to a program that must exit *)
Definition path : relation conf :=
  rtc (fun c c' => exists l, pass l = true /\ move l c c' /\ must_exit (fst c') = false).

(** a step looked for is next *)
Definition looking (c : conf) : Prop := exists l c', goal l = true /\ move l c c'.

Definition escapes (c : conf) : Prop := exists c', path c c' /\ (looking c' \/ finished c' = true).

Lemma path_tau c c' c'' : move LTau c c' -> must_exit (fst c') = false -> path c' c'' -> path c c''.
Proof using tau. intros Hm Hx Hp. eapply rtc_l; [|exact Hp]. by exists LTau. Qed.

Lemma path_last c c' : move LTau c c' -> must_exit (fst c') = false -> path c c'.
Proof using tau. intros Hm Hx. by eapply path_tau, rtc_refl. Qed.

Lemma escapes_path c c' : path c c' -> escapes c' -> escapes c.
Proof using Type. intros Hp (c2 & Hp2 & H). exists c2. split; [by eapply rtc_trans|done]. Qed.

Lemma escapes_tau c c' : move LTau c c' -> must_exit (fst c') = false -> escapes c' -> escapes c.
Proof using tau. intros Hm Hx. by apply escapes_path, path_last. Qed.

(** what the exits of a program say *)
Record leads (x : exits) (p : prog) : Prop := {
  ld_goal k : e_goal x = true -> exists c, path (p, k) c /\ looking c;
  ld_norm k : e_norm x = true -> path (p, k) (Skip, k);
  ld_brk k : e_brk x = true -> path (p, k) (Break, k);
  ld_cont k : e_cont x = true -> path (p, k) (Continue, k);
  ld_ret k : e_ret x = true -> path (p, k) (Return, k)
}.

Lemma leads_none p : leads no_exit p.
Proof using Type. by split. Qed.

Lemma leads_or x y p : leads x p -> leads y p -> leads (or_exits x y) p.
Proof using Type.
  intros [] []. split; intros k; simpl; rewrite orb_true_iff; intros [?|?]; auto.
Qed.

(** a program that leads somewhere need not exit *)
Lemma esc_must p : must_exit p = true -> esc goal pass p = no_exit.
Proof using Type. destruct p; simpl; try done; by intros ->. Qed.

Lemma leads_esc_if p q x : (must_exit q = false -> leads x p) -> (must_exit q = true -> x = no_exit) -> leads x p.
Proof using Type. destruct (must_exit q); intros H1 H2; [rewrite H2 by done; apply leads_none|by apply H1]. Qed.

(** a first step, and then what the rest leads to *)
Lemma leads_step p q l : leads (esc goal pass q) q -> pass l = true ->
  (forall k, move l (p, k) (q, k)) -> leads (esc goal pass q) p.
Proof using Type.
  intros Hq Hp Hm. apply (leads_esc_if p q); [|apply esc_must]. intros Hx. destruct Hq.
  assert (H1 : forall k c, path (q, k) c -> path (p, k) c).
  { intros k c Hc. eapply rtc_l; [|exact Hc]. by exists l. }
  split; intros k He; auto. destruct (ld_goal0 k He) as (c & Hc & Hl). eauto.
Qed.

Lemma leads_label l p : (forall k, move l (p, k) (Skip, k)) -> leads (esc_label goal pass l) p.
Proof using Type.
  intros Hm. unfold esc_label. destruct (goal l) eqn:Eg.
  - split; try done. intros k _. exists (p, k). split; [apply rtc_refl|]. by exists l, (Skip, k).
  - destruct (pass l) eqn:Ep; [|apply leads_none]. split; try done. intros k _.
    apply rtc_once. by exists l.
Qed.

Lemma leads_if (b : bool) x p : (b = true -> leads x p) -> leads (if b then x else no_exit) p.
Proof using Type. destruct b; [auto|intros _; apply leads_none]. Qed.

(** going into [p] with frame [f], and out of it again *)
Lemma leads_in p q f k c : must_exit p = false -> (forall k, move LTau (q, k) (p, f :: k)) ->
  path (p, f :: k) c -> path (q, k) c.
Proof using tau. intros Hx Hm Hc. by eapply path_tau; [apply Hm| |exact Hc]. Qed.

Lemma esc_leads p : leads (esc goal pass p) p.
Proof using tau.
  induction p as [|m|m|c| |p IHp q IHq|p IHp q IHq|p IHp q IHq|p IHp| | |p IHp|]; cbn [esc];
    match goal with |- leads (if must_exit ?q then _ else _) _ =>
      apply (leads_esc_if _ q); [intros Hx; rewrite Hx|by intros ->] end;
    try (split; try done; intros k _; apply rtc_refl);
    try (apply leads_label; by left); try apply leads_none.
  - assert (Hp : must_exit p = false) by (simpl in Hx; by destruct (must_exit p)).
    assert (Hin : forall k c, path (p, FSeq q :: k) c -> path (Seq p q, k) c).
    { intros k c. apply leads_in; [done|by left]. }
    destruct IHp. apply leads_or.
    + split; simpl; try done; intros k He.
      * destruct (ld_goal0 (FSeq q :: k) He) as (c & Hc & Hl). eauto.
      * eapply Hin, rtc_trans; [by apply ld_brk0|]. apply path_last; [by left|done].
      * eapply Hin, rtc_trans; [by apply ld_cont0|]. apply path_last; [by left|done].
      * eapply Hin, rtc_trans; [by apply ld_ret0|]. apply path_last; [by left|done].
    + apply leads_if. intros Hn. apply (leads_esc_if _ q); [|apply esc_must]. intros Hq.
      assert (Hpq : forall k c, path (q, k) c -> path (Seq p q, k) c).
      { intros k c Hc. eapply Hin, rtc_trans; [by apply ld_norm0|]. eapply path_tau; [by left|done|done]. }
      destruct IHq. split; intros k He; auto. destruct (ld_goal1 k He) as (c & Hc & Hl). eauto.
  - apply leads_or; (eapply leads_step; [done|exact tau|]); intros k; [by left|by right; left].
  - apply leads_or; [|apply leads_or; apply leads_if; intros Hb].
    + split; try done. intros k. simpl. rewrite orb_true_iff. intros He. exists (IfStop p q, k).
      split; [apply rtc_refl|]. destruct He as [He|He]; eexists _, _; (split; [exact He|]); [by left|by right; left].
    + eapply leads_step; [done|exact Hb|]. intros k. by left.
    + eapply leads_step; [done|exact Hb|]. intros k. by right; left.
  - assert (Hin : forall k c, path (p, FLoop p :: k) c -> path (Loop p, k) c).
    { intros k c. apply leads_in; [done|by left]. }
    destruct IHp. split; simpl; try done; intros k He.
    + destruct (ld_goal0 (FLoop p :: k) He) as (c & Hc & Hl). eauto.
    + eapply Hin, rtc_trans; [by apply ld_brk0|]. apply path_last; [by left|done].
    + eapply Hin, rtc_trans; [by apply ld_ret0|]. apply path_last; [by left|done].
  - assert (Hin : forall k c, path (p, FFn :: k) c -> path (Fn p, k) c).
    { intros k c. apply leads_in; [done|by left]. }
    destruct IHp. split; simpl; try done; intros k He.
    + destruct (ld_goal0 (FFn :: k) He) as (c & Hc & Hl). eauto.
    + apply orb_true_iff in He as [He|He]; eapply Hin, rtc_trans; [by apply ld_norm0| |by apply ld_ret0|];
        (apply path_last; [by left|done]).
Qed.

Fixpoint in_loop (k : list frame) : bool :=
  match k with FSeq _ :: k => in_loop k | FLoop _ :: _ => true | _ => false end.

Fixpoint live_frames (k : list frame) : bool :=
  match k with
  | [] => true
  | FSeq q :: k => live goal pass (in_loop k) q && live_frames k
  | FLoop p :: k => live goal pass true p && any_exit (esc goal pass (Loop p)) && live_frames k
  | FFn :: k => live_frames k
  end.

Definition live_conf (c : conf) : bool := live goal pass (in_loop (snd c)) (fst c) && live_frames (snd c).

Lemma live_exit b p : live goal pass b p = true -> any_exit (esc goal pass p) = true.
Proof using Type. destruct p; simpl; rewrite ?andb_true_iff; tauto. Qed.

Lemma live_must b p : live goal pass b p = true -> must_exit p = false.
Proof using Type.
  intros H%live_exit. destruct (must_exit p) eqn:E; [|done]. by rewrite (esc_must _ E) in H.
Qed.

Lemma live_frames_doomed k : live_frames k = true -> doomed_frames k = false.
Proof using Type.
  induction k as [|[q|p|] k IH]; simpl; [done|..|done]; rewrite ?andb_true_iff.
  - intros [Hq Hk]. rewrite (live_must _ _ Hq), (IH Hk). by rewrite andb_false_r.
  - intros [[Hp _] _]. by apply (live_must _ _ Hp).
Qed.

Lemma live_doomed c : live_conf c = true -> doomed c = false.
Proof using Type.
  unfold live_conf, doomed. rewrite andb_true_iff. intros [Hp Hk].
  rewrite (live_must _ _ Hp), (live_frames_doomed _ Hk). by rewrite andb_false_r.
Qed.

(** a program that is not in a loop is not left by [break] *)
Lemma live_scope p : live goal pass false p = true ->
  e_brk (esc goal pass p) = false /\ e_cont (esc goal pass p) = false.
Proof using Type.
  assert (Hx : forall q, (live goal pass false q = true ->
      e_brk (esc goal pass q) = false /\ e_cont (esc goal pass q) = false) ->
    must_exit q = true \/ live goal pass false q = true ->
    e_brk (esc goal pass q) = false /\ e_cont (esc goal pass q) = false).
  { intros q Hq [H|H]; [|by apply Hq]. by rewrite (esc_must _ H). }
  intros Hl. pose proof (live_must _ _ Hl) as Hm. revert Hl Hm.
  induction p as [| | | | |p IHp q IHq|p IHp q IHq|p IHp q IHq| | | | |]; simpl; auto;
    try (intros _ _; unfold esc_label; by repeat case_match);
    try (intros H; apply andb_true_iff in H as [_ H]; done); intros Hl ->; revert Hl;
    rewrite ?andb_true_iff, ?orb_true_iff; try done; intros (_ & H1 & H2).
  - destruct (IHp H1) as [-> ->], (IHq H2) as [Eq Eq']; eauto using live_must. by destruct (e_norm _).
  - destruct (Hx p) as [Ep Ep'], (Hx q) as [Eq Eq']; eauto using live_must.
    simpl. by rewrite Ep, Ep', Eq, Eq'.
  - destruct (Hx p) as [Ep Ep'], (Hx q) as [Eq Eq']; eauto using live_must.
    by destruct (pass (LStop true)), (pass (LStop false)); simpl; rewrite ?Ep, ?Ep', ?Eq, ?Eq'.
Qed.

(** a program whose continuation escapes, escapes *)
Definition frames_escape (k : list frame) : Prop :=
  escapes (Skip, k) /\ escapes (Return, k) /\
  (in_loop k = true -> escapes (Break, k) /\ escapes (Continue, k)).

Lemma prog_escapes p k : live goal pass (in_loop k) p = true -> frames_escape k -> escapes (p, k).
Proof using tau.
  intros Hp (Hs & Hr & Hb). destruct (esc_leads p). pose proof (live_exit _ _ Hp) as Hx.
  unfold any_exit in Hx. rewrite !orb_true_iff in Hx.
  assert (Hgoal : e_goal (esc goal pass p) = true -> escapes (p, k)).
  { intros Hg. destruct (ld_goal0 k Hg) as (c & Hc & Hl). exists c. auto. }
  destruct (in_loop k) eqn:El; [destruct (Hb eq_refl)|destruct (live_scope _ Hp) as [Hnb Hnc]; rewrite Hnb, Hnc in Hx];
    destruct Hx as [[[[Hx|Hx]|Hx]|Hx]|Hx]; try done; auto; (eapply escapes_path; [eauto|done]).
Qed.

(** from every point of a live program *)
Lemma live_frames_escape k : live_frames k = true -> frames_escape k.
Proof using tau.
  unfold frames_escape. induction k as [|[q|p|] k IH]; simpl.
  - intros _. assert (Hs : escapes (Skip, [])) by (exists (Skip, []); split; [apply rtc_refl|by right]).
    split; [done|]. split; [|done]. eapply escapes_tau; [by left|done|done].
  - rewrite andb_true_iff. intros [Hq Hk]. pose proof (live_must _ _ Hq) as Hmust. destruct (IH Hk) as (Hs & Hr & Hb).
    split; [eapply escapes_tau; [by left|exact Hmust|by apply prog_escapes]|].
    split; [eapply escapes_tau; [by left|done|done]|].
    intros El. destruct (Hb El). split; (eapply escapes_tau; [by left|done|done]).
  - rewrite !andb_true_iff. intros [[Hp Hx] Hk]. pose proof (live_must _ _ Hp) as Hmust.
    destruct (IH Hk) as (Hs & Hr & Hb).
    assert (Hbrk : escapes (Break, FLoop p :: k)) by (eapply escapes_tau; [by left|done|done]).
    assert (Hret : escapes (Return, FLoop p :: k)) by (eapply escapes_tau; [by left|done|done]).
    assert (Hbody : escapes (p, FLoop p :: k)).
    { destruct (esc_leads p). cbn [esc must_exit] in Hx. rewrite Hmust in Hx. unfold any_exit in Hx. simpl in Hx.
      rewrite !orb_true_iff in Hx.
      destruct Hx as [[[[Hx|Hx]|Hx]|Hx]|Hx]; try done; [|eapply escapes_path; [eauto|done]..].
      destruct (ld_goal0 (FLoop p :: k) Hx) as (c & Hc & Hl). exists c. auto. }
    split; [eapply escapes_tau; [by left|exact Hmust|done]|]. split; [done|].
    intros _. split; [done|]. eapply escapes_tau; [by left|exact Hmust|done].
  - intros Hk. destruct (IH Hk) as (Hs & Hr & _).
    split; [eapply escapes_tau; [by left|done|done]|].
    split; [eapply escapes_tau; [by left|done|done]|done].
Qed.

Lemma live_conf_escapes c : live_conf c = true -> escapes c.
Proof using tau.
  destruct c as [p k]. unfold live_conf. simpl. rewrite andb_true_iff. intros [Hp Hk].
  by apply prog_escapes, live_frames_escape.
Qed.

(** being live is kept by every step, but for the choice to exit *)
Lemma live_conf_move l c c' : live_conf c = true -> move l c c' ->
  live_conf c' = true \/ must_exit (fst c') = true.
Proof using Type.
  destruct c as [p k]. unfold live_conf. cbn [fst snd]. rewrite andb_true_iff. intros [Hp Hk] Hm.
  destruct p; cbn in Hm;
    try (destruct k as [|[] k]); repeat (destruct Hm as [Hm|Hm]); try done; injection Hm as <- <-;
    cbn -[esc] in Hp, Hk |- *;
    repeat match goal with
    | H : _ && _ = true |- _ => apply andb_true_iff in H as [? ?]
    | H : _ || _ = true |- _ => apply orb_true_iff in H as [?|?]
    end;
    first
    [ right; done
    | left; repeat match goal with |- _ && _ = true => apply andb_true_iff; split end; done ].
Qed.
End ways.

Lemma doomed_move l c c' : doomed c = true -> move l c c' -> l = LExit \/ doomed c' = true.
Proof.
  destruct c as [p k]. unfold doomed. cbn [fst snd]. intros Hp Hm.
  destruct p; cbn in Hm;
    try (destruct k as [|[] k]); repeat (destruct Hm as [Hm|Hm]); try done; injection Hm as <- <-;
    try (by left); right; cbn in Hp |- *;
    repeat match goal with
    | H : _ && _ = true |- _ => apply andb_true_iff in H as [? ?]
    | H : _ || _ = true |- _ => apply orb_true_iff in H as [?|?]
    end; try done;
    repeat match goal with H : ?b = true |- context [?b] => rewrite H end; rewrite ?orb_true_r; done.
Qed.

(** ** The invariant of a system *)

(** [o] owns what is held *)
Definition holds (s : sys) (o : nat) (h : held) : Prop := forall m, owner s m = Some o <-> h = Some m.

Lemma holds_inj s o h h' : holds s o h -> holds s o h' -> h = h'.
Proof.
  intros H H'. destruct h as [m|].
  - symmetry. by apply (H' m), (H m).
  - destruct h' as [m|]; [|done]. by apply (H m), (H' m).
Qed.

Lemma holds_take s o m h : holds s o None -> (forall o', owner s m <> Some o') ->
  holds (with_owner s m (Some o)) o (Some m) /\
  (forall o', o' <> o -> holds s o' h -> holds (with_owner s m (Some o)) o' h).
Proof.
  intros Hn Hf. unfold holds, with_owner. simpl. split.
  - intros m'. destruct (decide (m = m')) as [<-|Hne]; [by rewrite fn_lookup_insert|].
    rewrite fn_lookup_insert_ne by done. destruct (Hn m'). naive_solver.
  - intros o' Ho Hs m'. destruct (decide (m = m')) as [<-|Hne].
    + rewrite fn_lookup_insert. destruct (Hs m). specialize (Hf o'). naive_solver.
    + by rewrite fn_lookup_insert_ne by done.
Qed.

Lemma holds_give s o m h : holds s o (Some m) ->
  holds (with_owner s m None) o None /\
  (forall o', o' <> o -> holds s o' h -> holds (with_owner s m None) o' h).
Proof.
  intros Hn. assert (Hm : owner s m = Some o) by (by apply Hn).
  unfold holds, with_owner. simpl. split.
  - intros m'. destruct (decide (m = m')) as [<-|Hne]; [by rewrite fn_lookup_insert|].
    rewrite fn_lookup_insert_ne by done. destruct (Hn m'). naive_solver.
  - intros o' Ho Hs m'. destruct (decide (m = m')) as [<-|Hne].
    + rewrite fn_lookup_insert. split; [done|]. intros ->.
      assert (owner s m = Some o') by (by apply Hs). congruence.
    + by rewrite fn_lookup_insert_ne by done.
Qed.

(** what a step of [o] does to the owners *)
Record effect_spec (o : nat) (l : label) (h : held) (s s' : sys) : Prop := {
  ef_self : holds s' o (after l h);
  ef_other o' h' : o' <> o -> holds s o' h' -> holds s' o' h';
  ef_pool : pool s' = pool s;
  ef_todo : todo s' = todo s;
  ef_stop : stop s' = stop s;
  ef_new m o' : owner s' m = Some o' -> o' = o \/ owner s m = Some o'
}.

Lemma effect_ok o l h s s' : effect o l s = Some s' -> holds s o h -> fits (fun _ _ => true) l h ->
  effect_spec o l h s s'.
Proof.
  intros He Hh Hf. destruct l; simpl in He, Hf.
  - injection He as <-. split; auto.
  - destruct (owner s m) eqn:Eo; [done|]. injection He as <-. subst h.
    destruct (holds_take s o m None Hh) as [H1 _]; [by rewrite Eo|].
    split; try done.
    + intros o' h' Ho Hs. by apply holds_take; rewrite ?Eo.
    + intros m' o'. unfold with_owner. simpl. destruct (decide (m = m')) as [<-|Hne].
      * rewrite fn_lookup_insert. naive_solver.
      * rewrite fn_lookup_insert_ne by done. auto.
  - case_decide; [|done]. injection He as <-. subst h.
    destruct (holds_give s o m None Hh) as [H1 _]. split; try done.
    + intros o' h' Ho Hs. by eapply holds_give.
    + intros m' o'. unfold with_owner. simpl. destruct (decide (m = m')) as [<-|Hne].
      * by rewrite fn_lookup_insert.
      * rewrite fn_lookup_insert_ne by done. auto.
  - assert (s' = s) as -> by (destruct c; try case_match; by simplify_eq). split; auto.
  - injection He as <-. split; auto.
  - destruct (eqb (stop s) b); [|done]. injection He as <-. split; auto.
Qed.

Section system.
Variable e : bool.
Variable ok : nat -> held -> call -> bool. (* of a thread *)
Variable cancellable : nat -> bool.

Record thread_inv (s : sys) (t : nat) (th : tstate) : Prop := {
  ti_ok : exists h, conf_ok (ok t) (at_conf th) h /\ holds s (S t) h;
  ti_pending : pending th = true -> cancellable t = true;
  ti_dead : dead th = true -> pending th = true /\ at_cancel e (at_conf th) = true
}.

Record sys_inv (s : sys) : Prop := {
  si_thread t th : pool s !! t = Some th -> thread_inv s t th;
  si_owner t m : owner s m = Some (S t) -> (t < length (pool s))%nat;
  si_main : exists h, ty_main h (todo s) = true /\ holds s 0 h;
  si_cancel t : MCancel t ∈ todo s -> cancellable t = true
}.

Lemma thread_inv_holds s s' t th : (forall h, holds s (S t) h -> holds s' (S t) h) ->
  thread_inv s t th -> thread_inv s' t th.
Proof using Type. intros H [(h & H1 & H2) H3 H4]. split; [exists h; auto|done|done]. Qed.

Lemma fits_weaken f l h : fits f l h -> fits (fun _ _ => true) l h.
Proof using Type. by destruct l. Qed.

(** the step of a thread *)
Lemma thread_step s t th l c s' : sys_inv s -> pool s !! t = Some th -> dead th = false ->
  move l (at_conf th) c -> effect (S t) l s = Some s' ->
  sys_inv (with_thread s' t (mk_tstate c (pending th) false)).
Proof using Type.
  intros [Hth Hown (hm & Hm1 & Hm2) Hcan] Ht Hd Hmv Hef.
  destruct (Hth t th Ht) as [(h & Hc & Hh) Hp _]. destruct (move_ok _ _ _ _ _ Hc Hmv) as [Hf Hc'].
  destruct (effect_ok _ _ _ _ _ Hef Hh (fits_weaken _ _ _ Hf)) as [E1 E2 E3 E4 E5 E6].
  split; simpl; rewrite ?E3, ?E4.
  - intros t' th' [(-> & <- & _)|[Hne Ht']]%list_lookup_insert_Some.
    + split; simpl; [by exists (after l h)|done|done].
    + eapply thread_inv_holds; [|by apply Hth]. intros h' Hh'. apply (E2 (S t')); [congruence|done].
  - intros t' m. rewrite length_insert. intros [[= ->]|Ho]%E6; [by eapply lookup_lt_Some|by eapply Hown].
  - exists hm. split; [done|]. apply (E2 0); [done|done].
  - done.
Qed.

Lemma main_keeps s s' : sys_inv s -> main_step s = Some s' -> sys_inv s'.
Proof using Type.
  intros [Hth Hown (hm & Hm1 & Hm2) Hcan]. unfold main_step.
  destruct (todo s) as [|a r] eqn:Et; [done|].
  assert (Hcan' : forall t, MCancel t ∈ r -> cancellable t = true) by (intros t ?; apply Hcan; by right).
  assert (Hlabel : forall l, fits (fun _ _ => true) l hm -> ty_main (after l hm) r = true ->
    effect 0 l (with_todo s r) = Some s' -> sys_inv s').
  { intros l Hf Hty He. assert (Hh : holds (with_todo s r) 0 hm) by done.
    destruct (effect_ok _ _ _ _ _ He Hh Hf) as [E1 E2 E3 E4 E5 E6].
    split; rewrite ?E3, ?E4; simpl.
    - intros t th Ht. eapply thread_inv_holds; [|by apply Hth]. intros h Hh'. by apply (E2 (S t)).
    - intros t m [[=]|Ho]%E6. by eapply Hown.
    - by exists (after l hm).
    - done. }
  destruct a as [|m|m|c|t|t|t|m]; simpl in Hm1.
  - intros [= <-]. split; simpl; try done; [|by exists hm].
    intros t th Ht. by eapply thread_inv_holds, Hth.
  - apply andb_true_iff in Hm1 as [Hn%bool_decide_eq_true Hm1]. subst hm. by apply (Hlabel (LLock m)).
  - apply andb_true_iff in Hm1 as [Hn%bool_decide_eq_true Hm1]. subst hm. by apply (Hlabel (LUnlock m)).
  - intros [= <-]. by apply (Hlabel LTau).
  - destruct (pool s !! t) as [th|] eqn:Ht; [|done]. intros [= <-]. split; simpl; try done.
    + intros t' th' [(-> & <- & _)|[Hne Ht']]%list_lookup_insert_Some.
      * destruct (Hth t' th Ht) as [H1 H2 H3]. split; simpl; [done| |].
        -- intros _. apply Hcan. by left.
        -- intros Hd. by destruct (H3 Hd).
      * by eapply thread_inv_holds, Hth.
    + intros t' m Ho. rewrite length_insert. by eapply Hown.
    + by exists hm.
  - intros [= <-]. split; simpl; try done; [|by exists hm].
    intros t' th Ht. by eapply thread_inv_holds, Hth.
  - destruct (pool s !! t) as [th|] eqn:Ht; [|done]. destruct (gone th); [|done]. intros [= <-].
    apply andb_true_iff in Hm1 as [_ Hm1]. by apply (Hlabel LTau).
  - destruct (owner s m); [done|]. intros [= <-].
    apply andb_true_iff in Hm1 as [_ Hm1]. by apply (Hlabel LTau).
Qed.

Lemma step_keeps s s' : sys_inv s -> steps_to e s s' -> sys_inv s'.
Proof using Type.
  intros Hi [ev Hs]. unfold sys_step in Hs. destruct (halted s); [done|]. destruct ev as [t j|t| |].
  - destruct (pool s !! t) as [th|] eqn:Ht; [|done]. cbn in Hs. destruct (dead th) eqn:Ed; [done|].
    destruct (moves (at_conf th) !! j) as [[l c]|] eqn:Em; [|done]. cbn in Hs.
    destruct (effect (S t) l s) as [s1|] eqn:Ee; [|done]. injection Hs as <-.
    eapply thread_step; eauto. unfold move. apply list_elem_of_In. by eapply list_elem_of_lookup_2.
  - destruct (pool s !! t) as [th|] eqn:Ht; [|done]. cbn in Hs.
    destruct (pending th) eqn:Ep, (dead th), (at_cancel e (at_conf th)) eqn:Ec; try done. injection Hs as <-.
    destruct Hi as [Hth Hown (hm & Hm1 & Hm2) Hcan]. destruct (Hth t th Ht) as [H1 H2 _].
    split; simpl; try done.
    + intros t' th' [(-> & <- & _)|[Hne Ht']]%list_lookup_insert_Some.
      * split; simpl; [done|auto|auto].
      * by eapply thread_inv_holds, Hth.
    + intros t' m Ho. rewrite length_insert. by eapply Hown.
    + by exists hm.
  - by eapply main_keeps.
  - injection Hs as <-. destruct Hi as [Hth Hown Hm Hcan]. split; simpl; try done.
    intros t th Ht. by eapply thread_inv_holds, Hth.
Qed.

Lemma reach_keeps s s' : sys_inv s -> reach e s s' -> sys_inv s'.
Proof using Type. intros Hi Hr. revert Hi. induction Hr; eauto using step_keeps. Qed.

Lemma start_inv ps m :
  (forall t p, ps !! t = Some p -> ty_thread (ok t) p = true) ->
  ty_main None m = true -> (forall t, MCancel t ∈ m -> cancellable t = true) ->
  sys_inv (sys_start ps m).
Proof using Type.
  intros Hp Hm Hc. split; simpl; [|done| |done].
  - intros t th Ht. apply list_lookup_fmap_Some in Ht as (p & -> & Hpp). split; simpl; try done.
    exists None. split; [by apply conf_ok_start, Hp|done].
  - by exists None.
Qed.
(** ** What the invariant says *)

(** the mutexes are used as they have to be; [weak] says which one a cancelled
    thread can leave locked *)
Record disciplined (weak : mutex -> bool) (s : sys) : Prop := {
  (* one mutex at a time *)
  dc_one o m m' : owner s m = Some o -> owner s m' = Some o -> m = m';
  (* a mutex is given back by its owner, and taken by who holds none *)
  dc_step t th l c : pool s !! t = Some th -> dead th = false -> move l (at_conf th) c ->
    match l with
    | LUnlock m => owner s m = Some (S t)
    | LLock _ => forall m, owner s m <> Some (S t)
    | _ => True
    end;
  (* a thread that has ended holds none *)
  dc_end t th m : pool s !! t = Some th -> finished (at_conf th) = true -> owner s m <> Some (S t);
  (* nor does one that was cancelled, but for the weak ones *)
  dc_dead t th m : pool s !! t = Some th -> dead th = true -> owner s m = Some (S t) -> weak m = true;
  dc_main m : todo s = [] -> owner s m <> Some 0
}.

Lemma inv_disciplined weak s :
  (forall t h c, cancellable t = true -> cancels e c = true -> ok t h c = true ->
     match h with Some m => weak m = true | None => True end) ->
  sys_inv s -> disciplined weak s.
Proof using Type.
  intros Hweak [Hth Hown (hm & Hm1 & Hm2) Hcan].
  assert (Howner : forall o m, owner s m = Some o -> exists h, holds s o h).
  { intros [|t] m Ho; [by exists hm|]. destruct (lookup_lt_is_Some_2 _ _ (Hown _ _ Ho)) as [th Ht].
    destruct (Hth _ _ Ht) as [(h & _ & Hh) _ _]. by exists h. }
  split.
  - intros o m m' Ho Ho'. destruct (Howner o m Ho) as [h Hh]. apply Hh in Ho, Ho'. congruence.
  - intros t th l c Ht Hd Hmv. destruct (Hth _ _ Ht) as [(h & Hc & Hh) _ _].
    destruct (move_ok _ _ _ _ _ Hc Hmv) as [Hf _]. destruct l; simpl in Hf; try done; subst h.
    + intros m' Ho. by apply Hh in Ho.
    + by apply Hh.
  - intros t th m Ht Hf Ho. destruct (Hth _ _ Ht) as [(h & Hc & Hh) _ _].
    rewrite (conf_ok_finished _ _ _ Hc Hf) in Hh. by apply Hh in Ho.
  - intros t th m Ht Hd Ho. destruct (Hth _ _ Ht) as [(h & Hc & Hh) Hp Hdd].
    destruct (Hdd Hd) as [Hpe Hat]. destruct (at_conf th) as [q k]. destruct q; try done.
    destruct (move_ok _ _ _ (LCall c) _ Hc (or_introl eq_refl)) as [Hf _].
    specialize (Hweak t h c (Hp Hpe) Hat Hf). apply Hh in Ho. by rewrite Ho in Hweak.
  - intros m Et Ho. rewrite Et in Hm1. apply bool_decide_eq_true in Hm1. subst hm. by apply Hm2 in Ho.
Qed.
End system.

(** ** Deadlock freedom *)

(** to a step on a mutex, a test of the flag, or a wait for a packet *)
Definition to_sync (l : label) : bool :=
  match l with LLock _ | LUnlock _ | LStop _ | LCall CWait => true | _ => false end.
Definition not_sync (l : label) : bool :=
  match l with LTau => true | LCall c => negb (to_sync (LCall c)) | _ => false end.

(** to a cancellation point, without a wait for a packet *)
Definition to_cancel (l : label) : bool := match l with LCall c => cancels false c | _ => false end.
Definition no_test (l : label) : bool :=
  match l with LStop _ | LExit | LCall CWait => false | _ => true end.

(** to the end, with the flag set and the wait for a packet cancelled *)
Definition to_end (_ : label) : bool := false.
Definition when_stopped (l : label) : bool := match l with LStop b => b | LExit => false | _ => true end.

Section progress.
Variable e : bool.
Variable ok : nat -> held -> call -> bool.
Variable cancellable : nat -> bool.
(** a thread that is cancelled holds nothing *)
Hypothesis no_orphan : forall t h c, cancellable t = true -> cancels e c = true -> ok t h c = true -> h = None.
(** no thread waits for a packet with a mutex locked *)
Hypothesis no_wait : forall t h, ok t h CWait = true -> h = None.

Definition thread_live (t : nat) (c : conf) : Prop :=
  live_conf to_sync not_sync c = true /\
  (if cancellable t then live_conf to_cancel no_test c else live_conf to_end when_stopped c) = true.

(** no thread is on its way to [exit] *)
Definition none_doomed (s : sys) : Prop :=
  forall t th, pool s !! t = Some th -> dead th = false -> doomed (at_conf th) = false.

Definition is_join (a : mact) : bool := match a with MJoin _ => true | _ => false end.

(** every join is behind the cancellation of the thread, or behind [MStop] and the
    end of its wait, and the mutexes are destroyed behind the joins *)
Fixpoint join_ok (n : nat) (stopped : bool) (ws cs : list nat) (l : list mact) : bool :=
  match l with
  | [] => true
  | MStop :: l => join_ok n true ws cs l
  | MWake t :: l => join_ok n stopped (t :: ws) cs l
  | MCancel t :: l => bool_decide (t < n)%nat && join_ok n stopped ws (t :: cs) l
  | MJoin t :: l =>
      bool_decide (t < n)%nat && (if cancellable t then bool_decide (t ∈ cs) else stopped && bool_decide (t ∈ ws))
      && join_ok n stopped ws cs l
  | MDestroy _ :: l => negb (existsb is_join l) && join_ok n stopped ws cs l
  | _ :: l => join_ok n stopped ws cs l
  end.

(** the joins that are left stay in order *)
Definition join_good (s : sys) : Prop :=
  exists cs, join_ok (length (pool s)) (stop s) (woken s) cs (todo s) = true /\
    forall t, t ∈ cs -> exists th, pool s !! t = Some th /\ pending th = true.

Record good (s : sys) : Prop := {
  gd_inv : sys_inv e ok cancellable s;
  gd_live t th : halted s = false -> pool s !! t = Some th ->
    thread_live t (at_conf th) \/ doomed (at_conf th) = true;
  gd_join : join_good s;
  gd_all t th : pool s !! t = Some th -> gone th = true \/ MJoin t ∈ todo s
}.

Lemma live_move t l c c' : thread_live t c -> move l c c' -> must_exit (fst c') = false -> thread_live t c'.
Proof using Type.
  intros [H1 H2] Hm Hx. split.
  - destruct (live_conf_move _ _ _ _ _ H1 Hm); congruence.
  - destruct (cancellable t); destruct (live_conf_move _ _ _ _ _ H2 Hm); congruence.
Qed.

Lemma thread_live_move t l c c' : thread_live t c \/ doomed c = true -> move l c c' -> l <> LExit ->
  thread_live t c' \/ doomed c' = true.
Proof using Type.
  intros [H|Hd] Hm Hl.
  - destruct (must_exit (fst c')) eqn:Ex; [right; unfold doomed; by rewrite Ex|left]. by eapply live_move.
  - right. by destruct (doomed_move _ _ _ Hd Hm).
Qed.

(** what happens to a thread; [x]: the process has ended *)
Definition thread_le (x : bool) (th th' : tstate) : Prop :=
  (pending th = true -> pending th' = true) /\
  (at_conf th' = at_conf th \/
   exists l, move l (at_conf th) (at_conf th') /\ (l = LExit -> x = true)).

(** a step changes one thread at most *)
Definition pool_le (s s' : sys) : Prop :=
  pool s' = pool s \/
  exists t th th', pool s !! t = Some th /\ pool s' = <[t := th']> (pool s) /\ thread_le (halted s') th th'.

Lemma effect_pool o l s s' : effect o l s = Some s' ->
  pool s' = pool s /\ todo s' = todo s /\ stop s' = stop s /\ woken s' = woken s.
Proof using Type. destruct l; simpl; intros H; repeat case_match; by simplify_eq. Qed.

Lemma step_pool s s' : steps_to e s s' -> pool_le s s'.
Proof using Type.
  intros [ev Hs]. unfold sys_step in Hs. destruct (halted s); [done|]. destruct ev as [u j|u| |].
  - destruct (pool s !! u) as [th|] eqn:Hu; [|done]. cbn in Hs. destruct (dead th) eqn:Ed; [done|].
    destruct (moves (at_conf th) !! j) as [[l c]|] eqn:Em; [|done]. cbn in Hs.
    destruct (effect (S u) l s) as [s1|] eqn:Ee; [|done]. injection Hs as <-.
    right. exists u, th. eexists. split; [done|]. simpl. rewrite (proj1 (effect_pool _ _ _ _ Ee)).
    split; [done|]. split; [done|]. right. exists l. split; [apply list_elem_of_In; by eapply list_elem_of_lookup_2|].
    intros ->. simpl in Ee. by injection Ee as <-.
  - destruct (pool s !! u) as [th|] eqn:Hu; [|done]. cbn in Hs. case_match; [|done]. injection Hs as <-.
    right. exists u, th. eexists. split; [done|]. split; [done|]. split; [done|by left].
  - unfold main_step in Hs. destruct (todo s) as [|a r]; [done|].
    destruct a as [|m|m|c|u|u|u|m]; simpl in Hs; repeat case_match; simplify_eq; try by left.
    right. exists u. eexists _, _. split; [done|]. split; [done|]. split; [done|by left].
  - injection Hs as <-. by left.
Qed.

Lemma pool_le_back s s' t th' : pool_le s s' -> pool s' !! t = Some th' ->
  exists th, pool s !! t = Some th /\ thread_le (halted s') th th'.
Proof using Type.
  assert (Hr : forall x th, thread_le x th th) by (split; [done|by left]).
  intros [-> | (u & th & th2 & Hu & -> & Hle)]; [by eauto|].
  intros [(-> & <- & _)|[Hne Ht]]%list_lookup_insert_Some; eauto.
Qed.

Lemma pool_le_on s s' t th : pool_le s s' -> pool s !! t = Some th ->
  exists th', pool s' !! t = Some th' /\ thread_le (halted s') th th'.
Proof using Type.
  assert (Hr : forall x th, thread_le x th th) by (split; [done|by left]).
  intros [-> | (u & th0 & th2 & Hu & -> & Hle)] Ht; [by eauto|].
  destruct (decide (u = t)) as [->|Hne].
  - rewrite Ht in Hu. injection Hu as <-. exists th2. split; [|done].
    apply list_lookup_insert_eq. by eapply lookup_lt_Some.
  - exists th. split; [|done]. by rewrite list_lookup_insert_ne.
Qed.

Lemma pool_le_length s s' : pool_le s s' -> length (pool s') = length (pool s).
Proof using Type. intros [-> | (u & th0 & th2 & Hu & -> & Hle)]; by rewrite ?length_insert. Qed.

Lemma step_running s s' : steps_to e s s' -> halted s = false.
Proof using Type. intros [ev Hs]. unfold sys_step in Hs. by destruct (halted s). Qed.

(** a thread steps: main does not *)
Lemma step_main s s' : steps_to e s s' ->
  (todo s' = todo s /\ stop s' = stop s /\ woken s' = woken s) \/ main_step s = Some s'.
Proof using Type.
  intros [ev Hs]. unfold sys_step in Hs. destruct (halted s); [done|]. destruct ev as [u j|u| |]; [| |by right|left; by injection Hs as <-].
  - left. destruct (pool s !! u) as [th|]; [|done]. cbn in Hs. destruct (dead th); [done|].
    destruct (moves (at_conf th) !! j) as [[l c]|]; [|done]. cbn in Hs.
    destruct (effect (S u) l s) as [s1|] eqn:Ee; [|done]. injection Hs as <-.
    simpl. by destruct (effect_pool _ _ _ _ Ee) as (_ & -> & -> & ->).
  - left. destruct (pool s !! u) as [th|]; [|done]. cbn in Hs. case_match; [|done]. by injection Hs as <-.
Qed.

Lemma join_good_main s s' : main_step s = Some s' -> join_good s -> join_good s'.
Proof using Type.
  intros Hm (cs & Hj & Hcs). unfold main_step in Hm. destruct (todo s) as [|a r] eqn:Et; [done|].
  destruct a as [|m|m|c|u|u|u|m]; simpl in Hm, Hj.
  - injection Hm as <-. by exists cs.
  - destruct (owner s m); [done|]. injection Hm as <-. by exists cs.
  - case_decide; [|done]. injection Hm as <-. by exists cs.
  - injection Hm as <-. by exists cs.
  - apply andb_true_iff in Hj as [_ Hj]. destruct (pool s !! u) as [th|] eqn:Hu; [|done]. injection Hm as <-.
    exists (u :: cs). simpl. rewrite length_insert. split; [done|]. intros t [->|Ht]%elem_of_cons.
    + eexists. split; [apply list_lookup_insert_eq; by eapply lookup_lt_Some|done].
    + destruct (Hcs t Ht) as (th' & H1 & H2). destruct (decide (u = t)) as [->|Hne].
      * eexists. split; [apply list_lookup_insert_eq; by eapply lookup_lt_Some|done].
      * exists th'. by rewrite list_lookup_insert_ne.
  - injection Hm as <-. by exists cs.
  - apply andb_true_iff in Hj as [_ Hj]. destruct (pool s !! u) as [th|]; [|done]. case_match; [|done].
    injection Hm as <-. by exists cs.
  - apply andb_true_iff in Hj as [_ Hj]. destruct (owner s m); [done|]. injection Hm as <-. by exists cs.
Qed.

Lemma join_good_step s s' : steps_to e s s' -> join_good s -> join_good s'.
Proof using Type.
  intros Hs Hj. destruct (step_main _ _ Hs) as [(Et & Es & Ew)|Hm]; [|by eapply join_good_main].
  destruct Hj as (cs & Hj & Hcs). pose proof (step_pool _ _ Hs) as Hp. exists cs.
  rewrite Et, Es, Ew, (pool_le_length _ _ Hp). split; [done|]. intros t Ht.
  destruct (Hcs t Ht) as (th & H1 & H2). destruct (pool_le_on _ _ _ _ Hp H1) as (th' & H3 & H4 & _). eauto.
Qed.

(** a thread that has ended stays so *)
Lemma gone_stays s s' t th th' : steps_to e s s' -> pool s !! t = Some th -> pool s' !! t = Some th' ->
  gone th = true -> gone th' = true.
Proof using Type.
  intros [ev Hs] Ht Ht' Hgo. unfold sys_step in Hs. destruct (halted s); [done|]. destruct ev as [u j|u| |].
  - destruct (pool s !! u) as [th0|] eqn:Hu; [|done]. cbn in Hs. destruct (dead th0) eqn:Ed; [done|].
    destruct (moves (at_conf th0) !! j) as [[l c]|] eqn:Em; [|done]. cbn in Hs.
    destruct (effect (S u) l s) as [s1|] eqn:Ee; [|done]. injection Hs as <-.
    simpl in Ht'. rewrite (proj1 (effect_pool _ _ _ _ Ee)) in Ht'.
    apply list_lookup_insert_Some in Ht' as [(-> & <- & _)|[Hne Ht']]; [|congruence].
    rewrite Ht in Hu. injection Hu as <-. unfold gone in Hgo. rewrite Ed in Hgo. simpl in Hgo.
    destruct (at_conf th) as [q [|f k]]; by destruct q.
  - destruct (pool s !! u) as [th0|] eqn:Hu; [|done]. cbn in Hs. case_match; [|done]. injection Hs as <-.
    simpl in Ht'. apply list_lookup_insert_Some in Ht' as [(-> & <- & _)|[Hne Ht']]; [done|congruence].
  - unfold main_step in Hs. destruct (todo s) as [|a r]; [done|].
    destruct a as [|m|m|c|u|u|u|m]; simpl in Hs; repeat case_match; simplify_eq; simpl in Ht'; try congruence.
    apply list_lookup_insert_Some in Ht' as [(-> & <- & _)|[Hne Ht']]; [|congruence].
    unfold gone in *. simpl. congruence.
  - injection Hs as <-. simpl in Ht'. congruence.
Qed.

Lemma todo_step s s' t : steps_to e s s' -> MJoin t ∈ todo s ->
  MJoin t ∈ todo s' \/ exists th, pool s' !! t = Some th /\ gone th = true.
Proof using Type.
  intros Hs Ht. destruct (step_main _ _ Hs) as [(-> & _)|Hm]; [by left|].
  unfold main_step in Hm. destruct (todo s) as [|a r]; [done|].
  apply elem_of_cons in Ht as [<-|Ht].
  - right. destruct (pool s !! t) as [th|] eqn:Ep; [|done]. destruct (gone th) eqn:Eg; [|done].
    injection Hm as <-. eauto.
  - left. destruct a as [|m|m|c|u|u|u|m]; simpl in Hm; repeat case_match; by simplify_eq.
Qed.

Lemma good_step s s' : good s -> steps_to e s s' -> good s'.
Proof using Type.
  intros [Hi Hl Hj Ha] Hs. pose proof (step_pool _ _ Hs) as Hp.
  split; [by eapply step_keeps| |by eapply join_good_step|].
  - intros t th Hh Ht. assert (Hh0 : halted s = false) by (by eapply step_running).
    destruct (pool_le_back _ _ _ _ Hp Ht) as (th0 & H0 & _ & [-> | (l & Hm & Hx)]); [by apply Hl|].
    eapply thread_live_move; [by apply Hl|exact Hm|]. intros Hle. specialize (Hx Hle). congruence.
  - intros t th Ht. destruct (pool_le_back _ _ _ _ Hp Ht) as (th0 & H0 & _).
    destruct (Ha t th0 H0) as [Hg|Hin]; [left; by eapply gone_stays|].
    destruct (todo_step _ _ _ Hs Hin) as [Hin'|(th' & Ht' & Hg)]; [by right|].
    left. rewrite Ht in Ht'. by injection Ht' as ->.
Qed.

Lemma good_reach s s' : good s -> reach e s s' -> good s'.
Proof using Type. intros Hg Hr. revert Hg. induction Hr; eauto using good_step. Qed.
(** the process runs, and no thread is on its way to [exit] *)
Record ready (s : sys) : Prop := {
  rd_good : good s;
  rd_on : halted s = false;
  rd_free : none_doomed s
}.

(** [s'] is reached by steps of threads that are not cancelled *)
Record helps (s s' : sys) : Prop := {
  hp_reach : reach e s s';
  hp_todo : todo s' = todo s;
  hp_stop : stop s' = stop s;
  hp_woken : woken s' = woken s;
  hp_main : holds s 0 None -> holds s' 0 None;
  hp_thread t th : pool s !! t = Some th ->
    exists c, pool s' !! t = Some (mk_tstate c (pending th) (dead th))
}.

Lemma helps_refl s : helps s s.
Proof using Type. split; auto; [apply rtc_refl|]. intros t [c p d] Ht. by exists c. Qed.

Lemma helps_trans s s1 s2 : helps s s1 -> helps s1 s2 -> helps s s2.
Proof using Type.
  intros [] []. split; auto; try congruence; [by eapply rtc_trans|].
  intros t th Ht. destruct (hp_thread0 t th Ht) as [c Hc]. destruct (hp_thread1 t _ Hc) as [c' Hc']. eauto.
Qed.

Lemma ready_live s t c p : ready s -> pool s !! t = Some (mk_tstate c p false) -> thread_live t c.
Proof using Type.
  intros [Hg Hh Hf] Ht. destruct (gd_live _ Hg _ _ Hh Ht) as [H|H]; [done|].
  by rewrite (Hf _ _ Ht eq_refl) in H.
Qed.

(** one step of a thread that does not have to wait, nor decides to exit *)
Lemma thread_goes s t c p l c' s1 : ready s -> pool s !! t = Some (mk_tstate c p false) ->
  move l c c' -> l <> LExit -> must_exit (fst c') = false -> effect (S t) l s = Some s1 ->
  let s' := with_thread s1 t (mk_tstate c' p false) in
  helps s s' /\ ready s' /\ owner s' = owner s1 /\ pool s' !! t = Some (mk_tstate c' p false) /\
  forall u, u <> t -> pool s' !! u = pool s !! u.
Proof using Type.
  intros Hr Ht Hm Hl Hx He s'. pose proof Hr as [Hg Hh Hf].
  destruct (effect_pool _ _ _ _ He) as (E1 & E2 & E3 & E4).
  assert (Hs : steps_to e s s').
  { apply list_elem_of_In, list_elem_of_lookup_1 in Hm as [j Hj].
    exists (Step t j). unfold sys_step. rewrite Hh, Ht. cbn. rewrite Hj. cbn. by rewrite He. }
  assert (Hlt : (t < length (pool s))%nat) by (by eapply lookup_lt_Some).
  assert (Hself : pool s' !! t = Some (mk_tstate c' p false)).
  { subst s'. simpl. rewrite E1. by apply list_lookup_insert_eq. }
  assert (Hoth : forall u, u <> t -> pool s' !! u = pool s !! u).
  { intros u Hu. subst s'. simpl. rewrite E1. by apply list_lookup_insert_ne. }
  assert (Hon : halted s' = false).
  { subst s'. simpl. destruct l; try done; simpl in He; repeat case_match; by simplify_eq. }
  split; [|split; [split; [by eapply good_step|done|]|done]].
  - split; simpl; [by apply rtc_once|done|done|done| |].
    + intros Hn. destruct (gd_inv _ Hg) as [Hth _ _ _]. destruct (Hth _ _ Ht) as [(h & Hc & Hh') _ _].
      destruct (move_ok _ _ _ _ _ Hc Hm) as [Hfit _].
      by eapply (ef_other _ _ _ _ _ (effect_ok _ _ _ _ _ He Hh' (fits_weaken _ _ _ Hfit)) 0).
    + intros u th Hu. destruct (decide (u = t)) as [->|Hne].
      * rewrite Ht in Hu. injection Hu as <-. by exists c'.
      * exists (at_conf th). rewrite Hoth, Hu by done. by destruct th.
  - intros u th Hu Hd. destruct (decide (u = t)) as [->|Hne].
    + rewrite Hself in Hu. injection Hu as <-. simpl. eapply live_doomed, live_move; [|exact Hm|exact Hx].
      by eapply ready_live.
    + apply (Hf u); [by rewrite <- Hoth|done].
Qed.

Lemma fits_held s t c p d h l c' : good s -> pool s !! t = Some (mk_tstate c p d) -> holds s (S t) h ->
  move l c c' -> fits (ok t) l h.
Proof using Type.
  intros [[Hth _ _ _] _ _ _] Ht Hh Hm. destruct (Hth _ _ Ht) as [(h' & Hc & Hh') _ _].
  rewrite (holds_inj _ _ _ _ Hh Hh').
  by destruct (move_ok _ _ _ _ _ Hc Hm).
Qed.

Lemma owner_holds s t m : good s -> owner s m = Some (S t) ->
  holds s (S t) (Some m) /\ exists c p, pool s !! t = Some (mk_tstate c p false).
Proof using no_orphan no_wait.
  intros Hg Ho. destruct (gd_inv _ Hg) as [Hth Hown _ _].
  destruct (lookup_lt_is_Some_2 _ _ (Hown _ _ Ho)) as [[c p d] Ht].
  destruct (Hth _ _ Ht) as [(h & Hc & Hh) Hp Hd]. assert (h = Some m) as -> by (by apply Hh).
  split; [done|]. exists c, p. destruct d; [|done]. destruct (Hd eq_refl) as [Hpe Hat]. simpl in *.
  destruct c as [q k]. destruct q; try done. simpl in Hat.
  destruct (move_ok _ _ _ (LCall c) _ Hc (or_introl eq_refl)) as [Hf _].
  by specialize (no_orphan t _ c (Hp Hpe) Hat Hf).
Qed.

(** whoever holds a mutex can give it back, without any other thread *)
Lemma release s t m : ready s -> owner s m = Some (S t) ->
  exists s', helps s s' /\ ready s' /\ owner s' m = None /\ forall u, u <> t -> pool s' !! u = pool s !! u.
Proof using no_orphan no_wait.
  intros Hr Ho. destruct (owner_holds _ _ _ (rd_good _ Hr) Ho) as (Hho & c & p & Ht).
  destruct (live_conf_escapes to_sync not_sync eq_refl c) as (c' & Hpath & Hend).
  { by apply (ready_live _ _ _ _ Hr Ht). }
  revert s Hr Ho Hho Ht. induction Hpath as [c|c c1 c' (l & Hl & Hm & Hx) _ IH]; intros s Hr Ho Hho Ht.
  - destruct Hend as [(l & c' & Hl & Hm)|Hf].
    + pose proof (fits_held _ _ _ _ _ _ _ _ (rd_good _ Hr) Ht Hho Hm) as Hfit.
      destruct l as [|m'|m'|[]| |b]; try done; simpl in Hfit; [|by apply no_wait in Hfit]. injection Hfit as ->.
      assert (He : effect (S t) (LUnlock m') s = Some (with_owner s m' None)).
      { simpl. by rewrite decide_True. }
      assert (Hx : must_exit (fst c') = false).
      { destruct c as [q k]. destruct q; cbn in Hm; try (destruct k as [|[] k]); naive_solver. }
      destruct (thread_goes _ _ _ _ _ _ _ Hr Ht Hm ltac:(done) Hx He) as (H1 & H2 & H3 & H4 & H5).
      eexists. split; [exact H1|]. split; [exact H2|]. rewrite H3. split; [apply fn_lookup_insert|done].
    + destruct (gd_inv _ (rd_good _ Hr)) as [Hth _ _ _]. destruct (Hth _ _ Ht) as [(h & Hc & Hh') _ _].
      pose proof (conf_ok_finished _ _ _ Hc Hf) as ->. by apply Hh' in Ho.
  - assert (He : effect (S t) l s = Some s) by (by destruct l as [| | |[]| |]).
    destruct (thread_goes _ _ _ _ _ _ _ Hr Ht Hm ltac:(by intros ->) Hx He) as (H1 & H2 & H3 & H4 & H5).
    edestruct IH as (s' & K1 & K2 & K3 & K4); [done|exact H2|by rewrite H3| |exact H4|].
    { destruct (owner_holds _ t m (rd_good _ H2)) as [K _]; [by rewrite H3|done]. }
    exists s'. split; [by eapply helps_trans|]. split; [done|]. split; [done|].
    intros u Hu. by rewrite K4, H5.
Qed.

(** a mutex that main does not hold can be had *)
Lemma acquire s m : ready s -> holds s 0 None ->
  exists s', helps s s' /\ ready s' /\ owner s' m = None /\
    forall t, owner s m <> Some (S t) -> pool s' !! t = pool s !! t.
Proof using no_orphan no_wait.
  intros Hr Hn. destruct (owner s m) as [[|t]|] eqn:Eo.
  - by apply Hn in Eo.
  - destruct (release s t m Hr Eo) as (s' & H1 & H2 & H3 & H4). exists s'. split; [done|]. split; [done|].
    split; [done|]. intros u Hu. apply H4. intros ->. by apply Hu.
  - exists s. split; [apply helps_refl|]. auto.
Qed.

(** a thread takes a path, the others giving back what it waits for *)
Lemma drive (pass : label -> bool) s t c c' p : ready s -> holds s 0 None ->
  pass LExit = false -> (forall b, pass (LStop b) = true -> stop s = b) ->
  (pass (LCall CWait) = true -> t ∈ woken s) ->
  pool s !! t = Some (mk_tstate c p false) -> path pass c c' ->
  exists s', helps s s' /\ ready s' /\ pool s' !! t = Some (mk_tstate c' p false).
Proof using no_orphan no_wait.
  intros Hr Hn Hpx Hstop Hw Ht Hpath. revert s Hr Hn Hstop Hw Ht.
  induction Hpath as [c|c c1 c' (l & Hl & Hm & Hx) _ IH]; intros s Hr Hn Hstop Hw Ht.
  { exists s. split; [apply helps_refl|]. auto. }
  assert (Hle : l <> LExit) by (intros ->; congruence).
  (* once the step is possible *)
  assert (Hgo : forall s, ready s -> holds s 0 None -> (forall b, pass (LStop b) = true -> stop s = b) ->
    (pass (LCall CWait) = true -> t ∈ woken s) ->
    pool s !! t = Some (mk_tstate c p false) -> (exists s1, effect (S t) l s = Some s1) ->
    exists s', helps s s' /\ ready s' /\ pool s' !! t = Some (mk_tstate c' p false)).
  { clear s Hr Hn Hstop Hw Ht. intros s Hr Hn Hstop Hw Ht [s1 He].
    destruct (thread_goes _ _ _ _ _ _ _ Hr Ht Hm Hle Hx He) as (H1 & H2 & H3 & H4 & H5).
    edestruct IH as (s' & K1 & K2 & K3); [exact H2|by apply H1| | |exact H4|].
    { intros b Hb. rewrite (hp_stop _ _ H1). auto. }
    { intros Hb. rewrite (hp_woken _ _ H1). auto. }
    exists s'. split; [by eapply helps_trans|]. auto. }
  destruct (gd_inv _ (rd_good _ Hr)) as [Hth _ _ _]. destruct (Hth _ _ Ht) as [(h & Hc & Hh') _ _].
  pose proof (fits_held _ _ _ _ _ _ _ _ (rd_good _ Hr) Ht Hh' Hm) as Hfit.
  destruct l as [|m|m|cl| |b]; try (apply (Hgo s); auto; simpl; eauto; fail).
  - destruct (acquire s m Hr Hn) as (s' & H1 & H2 & H3 & H4). simpl in Hfit. subst h.
    destruct (Hgo s' H2) as (s2 & K1 & K2 & K3).
    + by apply H1.
    + intros b Hb. rewrite (hp_stop _ _ H1). auto.
    + intros Hb. rewrite (hp_woken _ _ H1). auto.
    + rewrite H4; [done|]. intros Ho. by apply Hh' in Ho.
    + simpl. rewrite H3. eauto.
    + exists s2. split; [by eapply helps_trans|]. auto.
  - apply (Hgo s); auto. simpl in Hfit |- *. subst h. rewrite decide_True by (by apply Hh'). eauto.
  - apply (Hgo s); auto. destruct cl; simpl; eauto. unfold wait_returns.
    rewrite bool_decide_true by (apply list_elem_of_fmap; eauto). rewrite orb_true_r. eauto.
  - apply (Hgo s); auto. simpl. rewrite (Hstop b Hl), eqb_reflx. eauto.
Qed.

(** a thread main joins comes to its end *)
Lemma ends s t th : ready s -> holds s 0 None -> pool s !! t = Some th ->
  (if cancellable t then pending th = true else stop s = true /\ t ∈ woken s) ->
  exists s', reach e s s' /\ ready s' /\ todo s' = todo s /\
    exists th', pool s' !! t = Some th' /\ gone th' = true.
Proof using no_orphan no_wait.
  intros Hr Hn Ht Hk. destruct th as [c p d]. destruct d.
  { exists s. split; [apply rtc_refl|]. split; [done|]. split; [done|]. by exists (mk_tstate c p true). }
  destruct (ready_live _ _ _ _ Hr Ht) as [_ Hl]. simpl in Hk.
  assert (Hdrive : exists goal pass, pass LTau = true /\ pass LExit = false /\ live_conf goal pass c = true /\
    (forall b, pass (LStop b) = true -> stop s = b) /\ (pass (LCall CWait) = true -> t ∈ woken s) /\
    (forall l, goal l = true -> cancellable t = true /\ exists cl, l = LCall cl /\ cancels e cl = true)).
  { destruct (cancellable t).
    - exists to_cancel, no_test. do 5 (split; [done|]). intros [] Hgl; try done.
      split; [done|]. eexists. split; [done|]. by destruct c0.
    - destruct Hk. exists to_end, when_stopped. do 3 (split; [done|]). split; [by intros [] ?|done]. }
  destruct Hdrive as (goal & pass & Hpt & Hpx & Hlive & Hstop & Hw & Hgoal).
  destruct (live_conf_escapes goal pass Hpt c Hlive) as (c' & Hpath & Hend).
  destruct (drive pass s t c c' p Hr Hn Hpx Hstop Hw Ht Hpath) as (s' & H1 & H2 & Ht').
  destruct Hend as [(l & c2 & Hgl & Hm)|Hf].
  - destruct (Hgoal l Hgl) as (Hcan & cl & -> & Hcl). rewrite Hcan in Hk. simpl in Hk. subst p.
    assert (Hat : at_cancel e c' = true).
    { destruct c' as [q k]. destruct q; cbn in Hm; try (destruct k as [|[] k]); naive_solver. }
    set (s2 := with_thread s' t (mk_tstate c' true true)). pose proof H2 as [Hg2 Hh2 Hf2].
    assert (Hs : steps_to e s' s2).
    { exists (Die t). unfold sys_step. rewrite Hh2, Ht'. cbn. by rewrite Hat. }
    assert (Hf' : none_doomed s2).
    { intros u th [(-> & <- & _)|[Hne Hu]]%list_lookup_insert_Some; [done|]. by apply (Hf2 u). }
    exists s2. split; [eapply rtc_r; [apply H1|done]|]. split; [split; [by eapply good_step|done|done]|].
    split; [apply H1|]. exists (mk_tstate c' true true). split; [|done]. simpl.
    apply list_lookup_insert_eq. by eapply lookup_lt_Some.
  - exists s'. split; [apply H1|]. split; [done|]. split; [apply H1|].
    eexists. split; [done|]. unfold gone. simpl. by rewrite Hf.
Qed.

Lemma main_ready s s' : ready s -> main_step s = Some s' -> ready s'.
Proof using Type.
  intros [Hg Hh Hf] Hm. assert (Hs : steps_to e s s') by (exists Main; unfold sys_step; by rewrite Hh).
  assert (Hon : halted s' = false).
  { unfold main_step in Hm. destruct (todo s) as [|[|m|m|c|u|u|u|m] r]; simpl in Hm; repeat case_match; by simplify_eq. }
  split; [by eapply good_step|done|]. intros t th Ht Hd.
  assert (Hp : exists th0, pool s !! t = Some th0 /\ at_conf th0 = at_conf th /\ dead th0 = dead th).
  { unfold main_step in Hm. destruct (todo s) as [|[|m|m|c|u|u|u|m] r]; simpl in Hm; repeat case_match; simplify_eq;
      try by exists th.
    apply list_lookup_insert_Some in Ht as [(-> & <- & _)|[Hne Ht]]; [by eexists|by exists th]. }
  destruct Hp as (th0 & Hp & Ec & Ed). rewrite <- Ec. eapply Hf; [exact Hp|congruence].
Qed.

(** main comes to its end *)
Lemma main_completes s : ready s -> exists s', reach e s s' /\ ready s' /\ todo s' = [].
Proof using no_orphan no_wait.
  remember (todo s) as l eqn:El. revert s El. induction l as [|a r IH]; intros s El Hr.
  { exists s. split; [apply rtc_refl|]. auto. }
  (* once main's step is possible *)
  assert (Hgo : forall s, ready s -> todo s = a :: r -> (exists s1, main_step s = Some s1 /\ todo s1 = r) ->
    exists s', reach e s s' /\ ready s' /\ todo s' = []).
  { clear s El Hr. intros s Hr Et (s1 & Hs1 & Er).
    assert (Hs : steps_to e s s1) by (exists Main; unfold sys_step; by rewrite (rd_on _ Hr)).
    destruct (IH s1) as (s' & H1 & H2); [done|by eapply main_ready|].
    exists s'. split; [by eapply rtc_l|done]. }
  pose proof (rd_good _ Hr) as Hg.
  destruct (gd_inv _ Hg) as [Hth Hown (h & Hm & Hhm) Hcan]. rewrite <- El in Hm.
  destruct (gd_join _ Hg) as (cs & Hj & Hcs). rewrite <- El in Hj.
  destruct a as [|m|m|cl|t|t|t|m]; simpl in Hm, Hj.
  - apply (Hgo s); auto. unfold main_step. rewrite <- El. eauto.
  - apply andb_true_iff in Hm as [Hn%bool_decide_eq_true _]. subst h.
    destruct (acquire s m Hr Hhm) as (s' & H1 & H2 & H3 & _).
    destruct (Hgo s' H2) as (s2 & K1 & K2).
    + by rewrite (hp_todo _ _ H1).
    + unfold main_step. rewrite (hp_todo _ _ H1), <- El. simpl. rewrite H3. eauto.
    + exists s2. split; [eapply rtc_trans; [apply H1|done]|done].
  - apply andb_true_iff in Hm as [Hn%bool_decide_eq_true _]. subst h.
    apply (Hgo s); auto. unfold main_step. rewrite <- El. simpl. rewrite decide_True by (by apply Hhm). eauto.
  - apply (Hgo s); auto. unfold main_step. rewrite <- El. eauto.
  - apply andb_true_iff in Hj as [Hlt%bool_decide_eq_true _]. apply (Hgo s); auto. unfold main_step. rewrite <- El.
    destruct (lookup_lt_is_Some_2 _ _ Hlt) as [th Ht]. rewrite Ht. eauto.
  - apply (Hgo s); auto. unfold main_step. rewrite <- El. eauto.
  - apply andb_true_iff in Hm as [Hn%bool_decide_eq_true _]. subst h.
    apply andb_true_iff in Hj as [[Hlt%bool_decide_eq_true Hk]%andb_true_iff _].
    destruct (lookup_lt_is_Some_2 _ _ Hlt) as [th Ht].
    destruct (ends s t th Hr Hhm Ht) as (s' & H1 & H2 & H3 & th' & Ht' & Hgone).
    { destruct (cancellable t); [|apply andb_true_iff in Hk as [? ?%bool_decide_eq_true]; done].
      apply bool_decide_eq_true in Hk.
      destruct (Hcs t Hk) as (th' & Ht' & Hp). rewrite Ht in Ht'. by injection Ht' as ->. }
    destruct (Hgo s' H2) as (s2 & K1 & K2).
    + by rewrite H3.
    + unfold main_step. rewrite H3, <- El. simpl. rewrite Ht', Hgone. eauto.
    + exists s2. split; [by eapply rtc_trans|done].
  - apply andb_true_iff in Hm as [Hn%bool_decide_eq_true _]. subst h.
    apply andb_true_iff in Hj as [Hj _]. apply negb_true_iff in Hj.
    apply (Hgo s); auto. unfold main_step. rewrite <- El. simpl.
    assert (Ho : owner s m = None); [|rewrite Ho; eauto].
    destruct (owner s m) as [[|t]|] eqn:Eo; [by apply Hhm in Eo| |done]. exfalso.
    destruct (owner_holds _ _ _ Hg Eo) as (Hho & c & p & Ht).
    destruct (gd_all _ Hg _ _ Ht) as [Hgone|Hin].
    + destruct (Hth _ _ Ht) as [(h & Hc & Hh') _ _].
      pose proof (conf_ok_finished _ _ _ Hc Hgone) as ->. by apply Hh' in Eo.
    + rewrite <- El in Hin. apply elem_of_cons in Hin as [?|Hin]; [done|].
      assert (Hx : existsb is_join r = true); [|congruence].
      apply existsb_exists. exists (MJoin t). split; [by apply list_elem_of_In|done].
Qed.
End progress.

(** ** A hang *)

(** thread [d] was cancelled with [m] locked, thread [t] waits for [m], and main
    for thread [t] *)
Record hung (m : mutex) (d t : nat) (s : sys) : Prop := {
  hu_dead : exists th, pool s !! d = Some th /\ dead th = true;
  hu_owner : owner s m = Some (S d);
  hu_wait : exists k, pool s !! t = Some (mk_tstate (Lock m, k) false false);
  hu_main : exists r, todo s = MJoin t :: r
}.

Lemma hung_effect m d t o l s s1 : hung m d t s -> o <> S d -> effect o l s = Some s1 ->
  owner s1 m = Some (S d).
Proof.
  intros [_ Ho _ _] Hd He. destruct l as [|m'|m'| | |b]; simpl in He.
  - by injection He as <-.
  - destruct (owner s m') eqn:E; [done|]. injection He as <-. simpl.
    rewrite fn_lookup_insert_ne; [done|]. congruence.
  - case_decide as Hm; [|done]. injection He as <-. simpl.
    rewrite fn_lookup_insert_ne; [done|]. congruence.
  - by assert (s1 = s) as -> by (destruct c; try case_match; by simplify_eq).
  - by injection He as <-.
  - by destruct (eqb _ _); [injection He as <-|].
Qed.

Lemma hung_step e m d t s s' : hung m d t s -> steps_to e s s' -> hung m d t s' /\ todo s' = todo s.
Proof.
  intros Hu [ev Hs]. pose proof Hu as [(thd & Hd & Hdd) Ho (k & Ht) (r & Er)].
  assert (Hne : t <> d) by (intros ->; rewrite Hd in Ht; injection Ht as ->; done).
  unfold sys_step in Hs. destruct (halted s); [done|]. destruct ev as [u j|u| |].
  - destruct (pool s !! u) as [th|] eqn:Hu'; [|done]. cbn in Hs. destruct (dead th) eqn:Ed; [done|].
    destruct (moves (at_conf th) !! j) as [[l c]|] eqn:Em; [|done]. cbn in Hs.
    destruct (effect (S u) l s) as [s1|] eqn:Ee; [|done]. injection Hs as <-.
    assert (Hud : u <> d) by (intros ->; rewrite Hd in Hu'; injection Hu' as ->; congruence).
    assert (Hut : u <> t).
    { intros ->. rewrite Ht in Hu'. injection Hu' as <-. destruct j; simpl in Em; [|done].
      injection Em as <- <-. simpl in Ee. by rewrite Ho in Ee. }
    assert (Hes : effect (S u) l s = Some s1 -> pool s1 = pool s /\ todo s1 = todo s).
    { destruct l; simpl; intros H; repeat case_match; by simplify_eq. }
    destruct (Hes Ee) as [Ep Et]. split; [|done]. split; simpl.
    + exists thd. by rewrite Ep, list_lookup_insert_ne.
    + eapply hung_effect; [done| |done]. congruence.
    + exists k. by rewrite Ep, list_lookup_insert_ne.
    + exists r. by rewrite Et.
  - destruct (pool s !! u) as [th|] eqn:Hu'; [|done]. cbn in Hs.
    destruct (pending th) eqn:Ep, (dead th) eqn:Ed, (at_cancel e (at_conf th)); try done. injection Hs as <-.
    assert (Hud : u <> d) by (intros ->; rewrite Hd in Hu'; injection Hu' as ->; congruence).
    assert (Hut : u <> t) by (intros ->; rewrite Ht in Hu'; injection Hu' as <-; done).
    split; [|done]. split; simpl; [|done| |by exists r].
    + exists thd. by rewrite list_lookup_insert_ne.
    + exists k. by rewrite list_lookup_insert_ne.
  - unfold main_step in Hs. rewrite Er, Ht in Hs. done.
  - injection Hs as <-. split; [|done]. by split; [exists thd|done|exists k|exists r].
Qed.

Lemma hung_forever e m d t s s' : hung m d t s -> reach e s s' -> todo s' = todo s.
Proof.
  intros Hu Hr. revert Hu. induction Hr as [|s s1 s2 Hs _ IH]; intros Hu; [done|].
  destruct (hung_step _ _ _ _ _ _ Hu Hs) as [H1 <-]. by apply IH.
Qed.

Lemma run_reach e l s s' : sys_run e l s = Some s' -> reach e s s'.
Proof.
  revert s. induction l as [|ev l IH]; intros s; simpl; [intros [= ->]; apply rtc_refl|].
  destruct (sys_step e ev s) as [s1|] eqn:E; [|done]. cbn. intros H.
  eapply rtc_l; [by exists ev|]. by apply IH.
Qed.
