(* ===== verification/Threads.v ===== *)
(** * The threads of the bridge and their mutexes (src/net.c, src/spw.c, main)

    The control flow of every function of net.c and spw.c that runs in a thread,
    in the language of [Locks]: which mutex it takes and gives back, where it can
    be cancelled, and what it does when a call fails.  Conditions on the
    configuration are the ones of the code; a condition on data is a choice, and
    so is a printout that the keyboard thread can switch on and off.  A function
    of the code without any of this is left out.

    The theorems: the mutexes are used in order in every interleaving, with
    threads cancelled anywhere; without the sniffer port the shutdown can always
    be completed, even if the device has fallen silent; with it, there is a run in
    which main waits for ever. *)

From Stdlib Require Import String List.
From stdpp Require Import base tactics option list relations functions.
From Stdlib Require Import ZArith Lia Bool.
From S2P Require Import Prelude.
From S2P Require Import Sys.
From S2P Require NetStart.
From S2P Require Import Locks.

(** ** Notation for the control flow *)

Definition when (b : bool) (p : prog) : prog := if b then p else Skip.
Definition maybe (p : prog) : prog := Alt p Skip.
(** a loop with a condition *)
Definition loop (p : prog) : prog := Loop (Alt Break p).

Definition print : prog := Call CPrint.

(** the [lock] of a service *)
Definition lock_of (s : svc_id) : mutex :=
  match s with
  | SvcData => LData | SvcRmap => LRmap | SvcGresbTx => LGresbTx | SvcGresbRx => LGresbRx
  | SvcSniff => LSniff
  end.

Section code.
Variable cfg : bridge_cfg.

(** set by [net_start] *)
Definition is_client : bool := bool_decide (mode cfg = MODE_CLIENT).

(** ** net.c: connections *)

Definition send_all : prog := Fn (loop (Call CSend ;; maybe (Alt Continue (print ;; Return)))).

Definition recv_exact : prog := Fn (loop (Call CRecv ;; maybe Return ;; maybe Return)).

Definition conn_del (s : svc_id) : prog := Fn (Lock (lock_of s) ;; Unlock (lock_of s)).

Definition conn_drop (s : svc_id) : prog :=
  Fn (print ;; Call CClose ;; conn_del s ;; when is_client (print ;; Exit)).

Definition conn_drop_locked : prog := Fn (print ;; Call CClose ;; when is_client (print ;; Exit)).

Definition rmap_conn_drop (s : svc_id) : prog := Fn (print ;; Call CClose ;; conn_del s).

Definition rmap_conn_drop_locked : prog := Fn (print ;; Call CClose).

Definition set_net_recv_timeout : prog := Fn (maybe print).
Definition set_net_send_timeout : prog := Fn (maybe print).

Definition accept_connections (s : svc_id) : prog :=
  Loop (Call CAccept ;;
        maybe (maybe Continue ;; print ;; Call CSleep ;; Continue) ;;
        print ;;
        maybe (print ;; Call CClose ;; Continue) ;;
        set_net_recv_timeout ;; set_net_send_timeout ;;
        Lock (lock_of s) ;; Unlock (lock_of s)).

(** ** net.c: receiving *)

Definition check_pus_sequence : prog :=
  Fn (maybe Return ;; loop (maybe Break) ;;
      maybe (maybe (print ;; Return) ;; Return) ;;
      maybe (maybe (print ;; print))).

Definition recv_pus_packet (s : svc_id) : prog :=
  Fn (Call CRecv ;; maybe (conn_drop s ;; Return) ;;
      maybe (conn_drop s ;; Return) ;;
      recv_exact ;; maybe (conn_drop s ;; Return) ;;
      check_pus_sequence ;;
      when (crc_check cfg) (maybe print)).

Definition recv_raw_packet (s : svc_id) : prog :=
  Fn (maybe (conn_drop s ;; Return) ;;
      maybe (conn_drop s ;; Return) ;;
      Call CRecv ;; maybe (conn_drop s ;; Return)).

Definition recv_dgram_packet : prog := Fn (maybe Return ;; maybe Return ;; Call CRecv ;; maybe Return).

Definition recv_fee_packet (s : svc_id) : prog :=
  Fn (Call CRecv ;; maybe (conn_drop s ;; Return) ;;
      maybe (recv_raw_packet s ;; Return) ;;
      maybe (conn_drop s ;; Return) ;;
      recv_exact ;; maybe (conn_drop s ;; Return)).

Definition recv_gresb_packet (s : svc_id) : prog :=
  Fn (Call CRecv ;; maybe (conn_drop s ;; Return) ;;
      maybe (print ;; conn_drop s ;; Return) ;;
      maybe (conn_drop s ;; Return) ;;
      recv_exact ;; maybe (conn_drop s ;; Return) ;;
      maybe (conn_drop s ;; Return)).

(** ** net.c: sending to the clients *)

(** a loop over the connections; [drop] is what follows a failed [send_all] *)
Definition each_client (m : mutex) (drop : prog) : prog :=
  Lock m ;; loop (maybe Continue ;; send_all ;; maybe drop) ;; Unlock m.

Definition dgram_add_client (s : svc_id) : prog :=
  Fn (Lock (lock_of s) ;;
      loop (maybe (Unlock (lock_of s) ;; Return)) ;;
      maybe (maybe (Unlock (lock_of s) ;; Return)) ;;
      Unlock (lock_of s)).

Definition dgram_send_all (s : svc_id) : prog :=
  Fn (Lock (lock_of s) ;; loop (Call CSend ;; maybe print) ;; Unlock (lock_of s)).

(** [sock_fd] of the sniffer is set by [net_start] if the port is enabled *)
Definition sniff_push : prog :=
  Fn (when (negb (enable_sniff cfg)) Return ;;
      when (sniff_gresb cfg) (maybe (print ;; Return)) ;;
      each_client LSniff conn_drop_locked).

Definition gresb_push_rx_clients : prog :=
  Fn (when (negb (NetStart.gresb_on cfg)) Return ;;
      maybe (print ;; Return) ;;
      each_client LGresbRx conn_drop_locked).

Definition net_forward_to_clients : prog :=
  Fn (sniff_push ;;
      when (bool_decide (mode cfg = MODE_DGRAM))
        (if enable_gresb cfg then
           maybe (print ;; Return) ;; dgram_send_all SvcData ;; gresb_push_rx_clients ;; Return
         else dgram_send_all SvcData ;; Return) ;;
      when (enable_gresb cfg) (maybe (print ;; Return)) ;;
      each_client LData conn_drop_locked ;;
      when (enable_gresb cfg) gresb_push_rx_clients).

Definition rmap_reply_to_clients : prog :=
  Fn (maybe Return ;; loop print ;; maybe Return ;; each_client LRmap rmap_conn_drop_locked).

(** [pus_debug_print], [spw_debug_print] and [rmap_parse_pkt] print *)
Definition debug_print : prog := Fn (maybe Return ;; loop print).

Definition net_pkt_sink : prog :=
  Fn (maybe (print ;; Return) ;;
      debug_print ;;
      when (interpret_pus cfg) (when (crc_check cfg) (maybe print)) ;;
      debug_print ;;
      when (enable_rmap cfg) (maybe (rmap_reply_to_clients ;; Return)) ;;
      when (interpret_pus cfg) check_pus_sequence ;;
      net_forward_to_clients).

(** ** spw.c *)

Definition spw_send_packet_chan : prog :=
  Fn (Call CStar ;; maybe (print ;; Exit) ;;
      Call CStar ;; maybe (print ;; Exit) ;;
      Lock LOp ;; Unlock LOp ;;
      Call CStar ;; maybe (print ;; Exit) ;;
      Call CStar ;; maybe (print ;; Exit) ;;
      Call CSleep ;;
      Lock LOp ;; Unlock LOp ;;
      Call CStar ;; Call CStar).

Definition spw_rmap_cmd : prog :=
  Fn (Call CStar ;; maybe (print ;; Return) ;; Call CStar ;; maybe print ;; Call CStar).

Definition spw_pkt_sink_monitor : prog :=
  Fn (debug_print ;; maybe spw_send_packet_chan ;; net_forward_to_clients).

Definition spw_setup_rx_op : prog :=
  Fn (Call CStar ;; maybe (print ;; Exit) ;;
      Lock LOp ;; maybe (Call CStar) ;; Unlock LOp ;;
      Call CStar ;; maybe (print ;; Exit)).

Definition poll_spw : prog :=
  Loop (IfStop Break Skip ;;
        maybe (Call CStar) ;;
        spw_setup_rx_op ;;
        IfStop Break Skip ;;
        Call CWait ;; maybe (print ;; Break) ;;
        IfStop Break Skip ;;
        maybe (print ;; Continue) ;;
        Call CStar ;; Call CStar ;;
        if enable_monitor cfg then spw_pkt_sink_monitor else net_pkt_sink).

(** ** net.c: the handlers and the polling thread *)

Definition net_to_spw (s : svc_id) : prog :=
  Fn ((if bool_decide (mode cfg = MODE_DGRAM) then recv_dgram_packet
       else if interpret_pus cfg then recv_pus_packet s
       else if interpret_fee cfg then recv_fee_packet s
       else if enable_gresb cfg then recv_gresb_packet s
       else recv_raw_packet s) ;;
      maybe Return ;;
      sniff_push ;;
      when (bool_decide (mode cfg = MODE_DGRAM)) (dgram_add_client s) ;;
      when (enable_monitor cfg) Return ;;
      debug_print ;; debug_print ;;
      spw_send_packet_chan).

Definition rmap_net_to_spw (s : svc_id) : prog :=
  Fn (Call CRecv ;; maybe (rmap_conn_drop s ;; Return) ;;
      maybe (print ;; rmap_conn_drop s ;; Return) ;;
      maybe (rmap_conn_drop s ;; Return) ;;
      recv_exact ;; maybe (rmap_conn_drop s ;; Return) ;;
      maybe (rmap_conn_drop s ;; Return) ;;
      spw_rmap_cmd).

Definition gresb_tx_to_spw (s : svc_id) : prog :=
  Fn (recv_gresb_packet s ;; maybe Return ;;
      sniff_push ;;
      when (enable_monitor cfg) Return ;;
      debug_print ;; debug_print ;;
      spw_send_packet_chan).

Definition gresb_rx_discard (s : svc_id) : prog :=
  Fn (Loop (Call CRecv ;;
            maybe (Alt Return (conn_drop s ;; Return)) ;;
            maybe (conn_drop s ;; Return))).

(** the handlers [net_start] gives the services *)
Definition handle_pkt (s : svc_id) : prog :=
  match s with
  | SvcData => net_to_spw s
  | SvcRmap => rmap_net_to_spw s
  | SvcGresbTx => gresb_tx_to_spw s
  | SvcGresbRx | SvcSniff => gresb_rx_discard s
  end.

Definition poll_socket (s : svc_id) : prog :=
  Loop (maybe (Call CSleep ;; Continue) ;;
        Lock (lock_of s) ;; Unlock (lock_of s) ;;
        Call CSelect ;; maybe Continue ;;
        Lock (lock_of s) ;; loop Skip ;; Unlock (lock_of s) ;;
        loop (maybe Continue ;; handle_pkt s)).

(** ** The process *)

Definition net_thread (t : NetStart.thread) : prog :=
  if snd t then accept_connections (fst t) else poll_socket (fst t).

Definition pollers : list prog := poll_spw :: (if enable_monitor cfg then [poll_spw] else []).

(** the threads of [net_start], then the ones of [spw_setup_device] *)
Definition programs : list prog := map net_thread (NetStart.threads_of cfg) ++ pollers.

Fixpoint position (t : NetStart.thread) (l : list NetStart.thread) : nat :=
  match l with [] => 0 | u :: l => if decide (t = u) then 0 else S (position t l) end.

(** the threads in the order of [net_stop] *)
Definition stop_order : list nat :=
  map (fun t => position t (NetStart.threads_of cfg))
    (NetStart.data_threads cfg ++ (if enable_rmap cfg then NetStart.both SvcRmap else []) ++
     (if NetStart.gresb_on cfg then NetStart.both SvcGresbTx ++ NetStart.both SvcGresbRx else []) ++
     (if enable_sniff cfg then NetStart.both SvcSniff else [])).

(** the sockets that are open *)
Definition closes : list mact :=
  map (fun _ => MCall CClose)
    ([SvcData] ++ (if enable_rmap cfg then [SvcRmap] else []) ++
     (if NetStart.gresb_on cfg then [SvcGresbTx; SvcGresbRx] else []) ++
     (if enable_sniff cfg then [SvcSniff] else [])).

Definition net_stop : list mact :=
  map MCancel stop_order ++ closes ++ map MJoin stop_order.

Definition poller_ids : list nat :=
  let n := length (NetStart.threads_of cfg) in n :: (if enable_monitor cfg then [S n] else []).

(** [MWake]: the wait on the operation in the slot of the channel is cancelled.  A
    polling thread that waits, or will, without another test of the flag, has put its
    operation there before; one that has not yet made it finds the flag set *)
Definition spw_stop_poll : list mact :=
  [MStop; MLock LOp] ++ map MWake poller_ids ++ [MUnlock LOp] ++ map MJoin poller_ids.

Definition net_release : list mact :=
  [MDestroy LData; MDestroy LRmap] ++
  (if NetStart.gresb_on cfg then [MDestroy LGresbTx; MDestroy LGresbRx] else []) ++
  (if enable_sniff cfg then [MDestroy LSniff] else []).

Definition spw_dispose_ops : list mact := [MLock LOp; MCall CStar; MUnlock LOp].

Definition spw_release : list mact := [MCall CStar; MDestroy LOp].

(** main behind [pause]: [spw_request_shutdown] and the rest *)
Definition main_stop : list mact :=
  [MStop] ++ net_stop ++ spw_stop_poll ++ net_release ++ spw_dispose_ops ++ spw_release.

Definition bridge : sys := sys_start programs main_stop.

(** the threads [net_stop] cancels *)
Definition is_net (t : nat) : bool := bool_decide (t < length (NetStart.threads_of cfg))%nat.
End code.

(** ** Every configuration, by evaluation *)

(** the mutexes that a cancelled thread may leave locked *)
Definition weak (cfg : bridge_cfg) (m : mutex) : bool := enable_sniff cfg && bool_decide (m = LSniff).

(** which call is allowed with what locked: a wait for a packet with nothing, and
    with a mutex that is not weak, no call at which a thread can be cancelled, if it
    is one ([net]) that is *)
Definition allowed (e : bool) (cfg : bridge_cfg) (net : bool) (h : held) (c : call) : bool :=
  match h with
  | None => true
  | Some m =>
      negb (bool_decide (c = CWait)) && (negb net || weak cfg m || negb (cancels e c))
  end.

Definition ok_call (e : bool) (cfg : bridge_cfg) (t : nat) : held -> call -> bool :=
  allowed e cfg (is_net cfg t).

(** what is checked of a program; [net]: it is cancelled *)
Definition checked (e : bool) (cfg : bridge_cfg) (net : bool) (p : prog) : bool :=
  ty_thread (allowed e cfg net) p &&
  live to_sync not_sync false p &&
  (if net then live to_cancel no_test false p else live to_end when_stopped false p).

Lemma net_thread_checked e cfg t : checked e cfg true (net_thread cfg t) = true.
Proof.
  destruct cfg as [md ? ? ? ? ? ? ? ? ? ? ? ? pus fee ? mon rm gr sn sg ? ? crc ? ? ?], t as [s a].
  destruct a; [destruct md, sn, s, e; vm_compute; reflexivity|].
  destruct s; [destruct md, pus, fee, mon, gr, sn, sg, crc, e; vm_compute; reflexivity
    |destruct md, sn, e; vm_compute; reflexivity
    |destruct md, mon, sn, sg, e; vm_compute; reflexivity
    |destruct md, sn, e; vm_compute; reflexivity..].
Qed.

Lemma poll_spw_checked e cfg : checked e cfg false (poll_spw cfg) = true.
Proof.
  destruct cfg as [md ? ? ? ? ? ? ? ? ? ? ? ? pus fee ? mon rm gr sn sg ? ? crc ? ? ?].
  destruct md, pus, mon, rm, gr, sn, sg, crc, e; vm_compute; reflexivity.
Qed.

(** what is checked of main: it cancels threads of the network side only, joins
    all threads, and each of them behind what makes it end *)
Definition main_checked (cfg : bridge_cfg) : bool :=
  ty_main None (main_stop cfg) &&
  forallb (fun a => match a with MCancel t => is_net cfg t | _ => true end) (main_stop cfg) &&
  join_ok (is_net cfg) (length (programs cfg)) false [] [] (main_stop cfg) &&
  forallb (fun t => existsb (fun a => match a with MJoin u => t =? u | _ => false end) (main_stop cfg))%nat
    (seq 0 (length (programs cfg))).

Lemma main_stop_checked cfg : main_checked cfg = true.
Proof.
  destruct cfg as [md ? ? ? ? ? ? ? ? ? ? ? ? pus fee ? mon rm gr sn sg ? ? crc ? ? ?].
  destruct md, mon, rm, gr, sn; vm_compute; reflexivity.
Qed.

(** the program of thread [t] *)
Lemma programs_lookup cfg t p : programs cfg !! t = Some p ->
  (is_net cfg t = true /\ exists u, p = net_thread cfg u) \/ (is_net cfg t = false /\ p = poll_spw cfg).
Proof.
  unfold programs, is_net. intros [H|[Hle H]]%lookup_app_Some.
  - left. split; [|].
    + apply bool_decide_eq_true. apply lookup_lt_Some in H. by rewrite length_map in H.
    + apply list_lookup_fmap_Some in H as (u & -> & _). by exists u.
  - right. rewrite length_map in Hle, H. split; [apply bool_decide_eq_false; lia|].
    unfold pollers in H. destruct (t - _)%nat as [|n]; [by injection H as <-|].
    destruct (enable_monitor cfg); [|done]. destruct n; [by injection H as <-|done].
Qed.

Lemma program_checked e cfg t p : programs cfg !! t = Some p -> checked e cfg (is_net cfg t) p = true.
Proof.
  intros [[-> [u ->]]|[-> ->]]%programs_lookup; [apply net_thread_checked|apply poll_spw_checked].
Qed.

Section bridge.
Variable e : bool.
Variable cfg : bridge_cfg.

Lemma bridge_inv : sys_inv e (ok_call e cfg) (is_net cfg) (bridge cfg).
Proof using Type.
  pose proof (main_stop_checked cfg) as Hm. unfold main_checked in Hm. rewrite !andb_true_iff in Hm.
  destruct Hm as [[[Hty Hcan] _] _]. apply start_inv; [|done|].
  - intros t p Hp. pose proof (program_checked e cfg t p Hp) as Hc. unfold checked in Hc.
    rewrite !andb_true_iff in Hc. by destruct Hc as [[Hc _] _].
  - intros t Ht. apply (proj1 (forallb_forall _ _) Hcan (MCancel t)). by apply list_elem_of_In.
Qed.

Lemma ok_call_weak t h c : is_net cfg t = true -> cancels e c = true -> ok_call e cfg t h c = true ->
  match h with Some m => weak cfg m = true | None => True end.
Proof using Type.
  unfold ok_call, allowed. intros -> ->. destruct h as [m|]; [|done]. intros [_ H]%andb_true_iff.
  simpl in H. by rewrite orb_false_r in H.
Qed.

Lemma ok_call_wait t h : ok_call e cfg t h CWait = true -> h = None.
Proof using Type. by destruct h. Qed.

Lemma bridge_disciplined_run s : reach e (bridge cfg) s -> disciplined (weak cfg) s.
Proof using Type.
  intros Hr. eapply inv_disciplined; [by apply ok_call_weak|]. eapply reach_keeps; [apply bridge_inv|done].
Qed.

Lemma bridge_good : enable_sniff cfg = false -> good e (ok_call e cfg) (is_net cfg) (bridge cfg).
Proof using Type.
  intros Hs. pose proof (main_stop_checked cfg) as Hm. unfold main_checked in Hm. rewrite !andb_true_iff in Hm.
  destruct Hm as [[[Hty Hcan] Hj] Hall]. split; [apply bridge_inv| | |].
  - simpl. intros t th _ Ht. left. apply list_lookup_fmap_Some in Ht as (p & -> & Hp). simpl.
    pose proof (program_checked e cfg t p Hp) as Hc. unfold checked in Hc. rewrite !andb_true_iff in Hc.
    destruct Hc as [[_ H1] H2]. unfold thread_live, live_conf. simpl. rewrite H1. split; [done|].
    by destruct (is_net cfg t); rewrite H2.
  - exists []. simpl. rewrite length_fmap. split; [done|]. by intros t ?%elem_of_nil.
  - simpl. intros t th Ht. right. apply lookup_lt_Some in Ht. rewrite length_fmap in Ht.
    assert (Hin : In t (seq 0 (length (programs cfg)))) by (apply in_seq; lia).
    pose proof (proj1 (forallb_forall _ _) Hall t Hin) as Hx. apply existsb_exists in Hx as (a & Ha & Hta).
    destruct a; try done. apply Nat.eqb_eq in Hta as ->. by apply list_elem_of_In.
Qed.
End bridge.

(** C9: The mutexes, for every configuration and in every interleaving of the
    threads and of main's shutdown, with threads cancelled wherever POSIX allows
    it: nobody locks a mutex while it holds one, a mutex is unlocked by its owner,
    a thread that returns holds none, and the only mutex that a cancelled thread
    can leave locked is the one of the sniffer port, if that is enabled. *)
Theorem locks_disciplined e cfg s : reach e (bridge cfg) s -> disciplined (weak cfg) s.
Proof. apply bridge_disciplined_run. Qed.

(** C10: Without the sniffer port no interleaving deadlocks the shutdown: whatever
    the threads have done and wherever main is, unless a thread is on its way to
    [exit], the threads can go on so that every join returns, no mutex is locked any
    more when it is destroyed, and main comes to its end without [exit].  This holds
    too when the device never answers again ([silent]): a polling thread that waits
    for a packet then waits until main cancels the wait in [spw_stop_poll], and main
    does so before it joins it.  Every other call is taken to return. *)
Theorem shutdown_completes e cfg s : enable_sniff cfg = false -> reach e (bridge cfg) s ->
  halted s = false -> none_doomed s ->
  exists s', reach e s s' /\ halted s' = false /\ todo s' = [].
Proof.
  intros Hs Hr Hh Hf.
  destruct (main_completes e (ok_call e cfg) (is_net cfg)) with (s := s) as (s' & H1 & H2 & H3).
  - intros t h c Ht Hc Hok. pose proof (ok_call_weak e cfg t h c Ht Hc Hok) as Hw.
    destruct h as [m|]; [|done]. unfold weak in Hw. by rewrite Hs in Hw.
  - apply ok_call_wait.
  - split; [|done|done]. eapply good_reach; [by apply bridge_good|done].
  - exists s'. split; [done|]. split; [apply (rd_on _ _ _ _ H2)|done].
Qed.

(** ** The sniffer port *)

(** a server with the sniffer port *)
Definition sniff_cfg : bridge_cfg :=
  mk_cfg MODE_SERVER 1234 1235 1 2 1 1 0 false 10 0 0 0 false false false false false false true false
    false false false "0.0.0.0" [] None.

(** the steps of thread [t] that follow the choices [cs], up to a call or a
    mutex it has to wait for *)
Fixpoint follow (fuel t : nat) (cs : list nat) (s : sys) : list event * sys :=
  match fuel with
  | O => ([], s)
  | S fuel =>
      match pool s !! t with
      | None => ([], s)
      | Some th =>
          let j := match moves (at_conf th) with
                   | [(LCall _, _)] => match cs with [] => None | _ => Some (0%nat, cs) end
                   | [_] => Some (0%nat, cs)
                   | _ => match cs with [] => None | j :: cs => Some (j, cs) end
                   end in
          match j with
          | None => ([], s)
          | Some (j, cs) =>
              match sys_step false (Step t j) s with
              | None => ([], s)
              | Some s' => let '(l, s2) := follow fuel t cs s' in (Step t j :: l, s2)
              end
          end
      end
  end.

(** A client's packet is being written to a sniffer, a packet from the link waits
    for the mutex of the sniffer port, and main shuts down. *)
Definition hang_events : list event :=
  let '(l0, s) := follow 50 0 [] (bridge sniff_cfg) in
  let '(l2, s) := follow 50 2 [] s in
  let '(l3, s) := follow 50 3 [1]%nat s in
  let '(l1, s) := follow 200 1 [1; 1; 0; 1; 1; 1; 1; 1; 1; 1; 1; 1]%nat s in
  let '(l4, s) := follow 200 4 [1; 1; 1; 1; 1; 1; 1; 1; 1; 1; 0; 0]%nat s in
  l0 ++ l2 ++ l3 ++ l1 ++ l4 ++ repeat Main 5 ++ [Die 0; Die 1; Die 2; Die 3] ++ repeat Main 10.

(** what is looked at in the state that hangs *)
Definition probe (s : sys) : bool * option mact * option nat * option bool * bool :=
  (halted s, head (todo s), owner s LSniff, dead <$> pool s !! 1%nat,
   match pool s !! 4%nat with Some (mk_tstate (Lock LSniff, _) false false) => true | _ => false end).

Lemma run_probe {A} (f : sys -> A) e l s0 x : option_map f (sys_run e l s0) = Some x ->
  exists s, reach e s0 s /\ f s = x.
Proof.
  destruct (sys_run e l s0) as [s|] eqn:E; simpl; intros H; [|discriminate H].
  injection H as H. exists s. split; [by eapply run_reach|done].
Qed.

Lemma hang_state : exists s, reach false (bridge sniff_cfg) s /\
  probe s = (false, Some (MJoin 4), Some 2%nat, Some true, true).
Proof. apply (run_probe probe false hang_events). vm_compute. reflexivity. Qed.

(** C11: With the sniffer port the shutdown can hang: a thread of the network side
    is cancelled in the [send] of [sniff_push], with the mutex of the port locked;
    the polling thread of the link waits for that mutex, and main for the polling
    thread.  From then on main never comes further, whatever happens. *)
Theorem sniffer_hangs_shutdown : exists cfg s t r, enable_sniff cfg = true /\
  reach false (bridge cfg) s /\ halted s = false /\ todo s = MJoin t :: r /\
  forall e s', reach e s s' -> todo s' = MJoin t :: r.
Proof.
  destruct hang_state as (s & Hrs & Hs). unfold probe in Hs.
  simpl in Hs. injection Hs as H1 H2 H3 H4 H5.
  destruct (todo s) as [|a r] eqn:Et; [done|]. injection H2 as ->.
  exists sniff_cfg, s, 4%nat, r. do 2 (split; [done|]). split; [done|]. split; [done|].
  intros e s' Hr. rewrite <- Et. eapply (hung_forever e LSniff 1 4); [|done]. split.
  - destruct (pool s !! 1%nat) as [th|]; [|done]. injection H4 as H4. by exists th.
  - done.
  - destruct (pool s !! 4%nat) as [[[p k] [] []]|]; try done; destruct p as [|[]| | | | | | | | | | |]; try done. by exists k.
  - by exists r.
Qed.

(** ** The theorems apply *)

(** at the state that hangs, with the mutex of the sniffer locked for ever *)
Lemma locks_disciplined_witness : exists s, reach false (bridge sniff_cfg) s /\
  owner s LSniff = Some 2%nat /\ disciplined (weak sniff_cfg) s.
Proof.
  destruct hang_state as (s & Hr & Hs). exists s. split; [exact Hr|]. split; [|exact (locks_disciplined _ _ s Hr)].
  by unfold probe in Hs; injection Hs.
Defined.

(** the same bridge without the port, from its start *)
Definition plain_cfg : bridge_cfg :=
  mk_cfg MODE_SERVER 1234 1235 1 2 1 1 0 false 10 0 0 0 false false false false false false false false
    false false false "0.0.0.0" [] None.

(** the polling thread of the link waits for a packet, and the device falls silent *)
Definition wait_events : list event :=
  fst (follow 100 2 [1; 1; 1; 1; 1; 1]%nat (bridge plain_cfg)) ++ [Mute].

Definition quiet_probe (s : sys) : bool * bool * bool * bool :=
  (halted s, silent s, match pool s !! 2%nat with Some (mk_tstate (Call CWait, _) false false) => true | _ => false end,
   forallb (fun th => dead th || negb (doomed (at_conf th))) (pool s)).

Lemma wait_state : exists s, reach true (bridge plain_cfg) s /\ quiet_probe s = (false, true, true, true).
Proof. apply (run_probe quiet_probe true wait_events). vm_compute. reflexivity. Qed.

Lemma all_free s : forallb (fun th => dead th || negb (doomed (at_conf th))) (pool s) = true -> none_doomed s.
Proof.
  intros H t th Ht Hd. apply list_elem_of_lookup_2, list_elem_of_In in Ht.
  pose proof (proj1 (forallb_forall _ _) H th Ht) as Hx. cbv beta in Hx. rewrite Hd in Hx.
  by destruct (doomed (at_conf th)).
Qed.

(** at that state, which no answer of the device leaves *)
Lemma shutdown_completes_witness : exists s, reach true (bridge plain_cfg) s /\
  quiet_probe s = (false, true, true, true) /\
  exists s', reach true s s' /\ halted s' = false /\ todo s' = [].
Proof.
  destruct wait_state as (s & Hr & Hs). exists s. split; [exact Hr|]. split; [exact Hs|].
  unfold quiet_probe in Hs. injection Hs as H1 H2 H3 H4.
  exact (shutdown_completes true plain_cfg s eq_refl Hr H1 (all_free s H4)).
Defined.
