(* ===== verification/NetSafe.v ===== *)
(** * What every round of the network threads preserves

    The handlers of [Net] one by one and in the order a poll thread calls them:
    connections only disappear, the streams of the ones that stay lose octets at
    their front only, and the invariant of the network side survives. The same
    for the sink that the SpaceWire side calls. *)

From Stdlib Require Import String List.
From stdpp Require Import base tactics option list list_numbers gmap sets.
From Stdlib Require Import ZArith Lia Bool.
From S2P Require Import Prelude.
From S2P Require Import CString.
From S2P Require Import Pus.
From S2P Require Import Sys.
From S2P Require Import NetConn.
From S2P Require Import NetRecv.
From S2P Require Import Net.
From S2P Require Import NetSpec.
From S2P Require Import NetStart.

Local Open Scope Z_scope.

(** ** The invariant *)

Definition octets (q : list (client * list Z)) : Prop := Forall (fun d => bytes d.2) q.

(** between two calls of a thread: no mutex is held, the counters fit, the tables
    are sound, and what the peers send are octets; [dg]: the data service has a
    datagram socket in its table, which is no connection *)
Record net_safe (dg : bool) (w : world) : Prop := {
  ns_held : held w = [];
  ns_seq : seq_ok w;
  ns_range : forall s fd, fd ∈ conn_set (svc_of w s) -> 0 <= fd < FD_SETSIZE /\ fd <= nfds (svc_of w s);
  ns_disjoint : disjoint_tables w;
  ns_open : forall s fd, dg = false \/ s <> SvcData -> fd ∈ conn_set (svc_of w s) ->
    exists st, rx w !! fd = Some st /\ bytes st;
  ns_dgram : dgram_ok (svc_of w SvcData);
  ns_dgq : octets (dgq w)
}.

(** [gone s fd]: the connection may have been dropped *)
Record shrinks (gone : svc_id -> Z -> Prop) (w w' : world) : Prop := {
  sh_held : held w' = held w;
  sh_client : is_client (net w') = is_client (net w);
  sh_seq : seq_ok w -> seq_ok w';
  sh_nfds : forall s, nfds (svc_of w' s) = nfds (svc_of w s);
  sh_conns : forall s fd, fd ∈ conn_set (svc_of w' s) -> fd ∈ conn_set (svc_of w s);
  sh_rx : forall s fd st, fd ∈ conn_set (svc_of w' s) -> rx w !! fd = Some st ->
    exists a st', rx w' !! fd = Some st' /\ st = a ++ st';
  sh_stay : forall s fd, fd ∈ conn_set (svc_of w s) -> fd ∈ conn_set (svc_of w' s) \/ gone s fd;
  sh_dgram : dgram_ok (svc_of w SvcData) -> dgram_ok (svc_of w' SvcData);
  sh_dgq : octets (dgq w) -> octets (dgq w')
}.

Lemma shrinks_refl g w : shrinks g w w.
Proof. split; try done; [|by left]. intros s fd st _ H. by exists [], st. Qed.

Lemma shrinks_trans g w w1 w2 : shrinks g w w1 -> shrinks g w1 w2 -> shrinks g w w2.
Proof.
  intros [A1 A2 A3 A4 A6 A7 A8 A9 A10] [B1 B2 B3 B4 B6 B7 B8 B9 B10].
  split; try congruence; [auto|auto| | |auto|auto].
  - intros s fd st Hin Hst. destruct (A7 s fd st (B6 _ _ Hin) Hst) as (a & st1 & H1 & ->).
    destruct (B7 s fd st1 Hin H1) as (b & st2 & H2 & ->). exists (a ++ b), st2. by rewrite app_assoc.
  - intros s fd Hin. destruct (A8 s fd Hin) as [H|]; [|by right]. destruct (B8 s fd H); [by left|by right].
Qed.

Lemma shrinks_weaken (g g' : svc_id -> Z -> Prop) w w' :
  (forall s fd, g s fd -> g' s fd) -> shrinks g w w' -> shrinks g' w w'.
Proof. intros Hg []. split; try done. intros s fd H. destruct (sh_stay0 s fd H); [by left|right; auto]. Qed.

Lemma net_safe_shrinks g dg w w' : shrinks g w w' -> net_safe dg w -> net_safe dg w'.
Proof.
  intros [S1 S2 S3 S4 S5 S6 S7 S8 S9] [N1 N2 N3 N4 N5 N6 N7]. split; [congruence|auto| | | |auto|auto].
  - intros s fd Hin. rewrite S4. by apply N3, S5.
  - intros s s' fd H1 H2. apply (N4 s s' fd); by apply S5.
  - intros s fd Hs Hin. destruct (N5 s fd Hs (S5 _ _ Hin)) as (st & Hst & Hb).
    destruct (S6 s fd st Hin Hst) as (a & st' & Hst' & ->). exists st'. split; [done|].
    by apply bytes_app in Hb as [].
Qed.

(** ** Steps of the handlers *)

Lemma shrinks_same g w w' : rx w' = rx w -> dgq w' = dgq w -> held w' = held w ->
  (forall s, svc_of w' s = svc_of w s) -> is_client (net w') = is_client (net w) -> (seq_ok w -> seq_ok w') ->
  shrinks g w w'.
Proof.
  intros R D H S C Q. split; try done; rewrite ?D, ?S; try done; try (intros s; by rewrite S).
  - intros s fd st _ Hst. exists [], st. by rewrite R.
  - intros s fd Hin. left. by rewrite S.
Qed.

Lemma shrinks_chatty g w w' : chatty w w' -> shrinks g w w'.
Proof. intros []. by apply shrinks_same. Qed.

Lemma shrinks_printed g w w' o : printed w w' o -> shrinks g w w'.
Proof.
  intros (A1 & A2 & A3 & A4 & _). apply shrinks_same; unfold svc_of, seq_ok; by rewrite ?A1, ?A2, ?A3, ?A4.
Qed.

Lemma shrinks_quiet g w w' fd st a rest : rx w !! fd = Some st -> st = a ++ rest -> quiet w w' fd rest ->
  shrinks g w w'.
Proof.
  intros Hst -> [Q1 Q2 Q3 Q4 Q5 Q6 _]. split; try done; rewrite ?Q2, ?Q4; try done; try (intros s; by rewrite Q4).
  - intros s fd' st _ Hst'. rewrite Q1. destruct (decide (fd' = fd)) as [->|Hne].
    + rewrite lookup_insert_eq. exists a, rest. split; [done|congruence].
    + rewrite lookup_insert_ne by done. by exists [], st.
  - intros s fd' Hin. left. by rewrite Q4.
Qed.

Lemma shrinks_lost (g : svc_id -> Z -> Prop) w w' s fd : disjoint_tables w -> fd ∈ conn_set (svc_of w s) -> g s fd ->
  lost w w' s fd -> shrinks g w w'.
Proof.
  intros Hd Hm Hg [L1 L2 L3 L4 L5 L6 _].
  assert (Hc : forall s' fd', fd' ∈ conn_set (svc_of w' s') <-> fd' ∈ conn_set (svc_of w s') /\ ~ (s' = s /\ fd' = fd)).
  { intros s' fd'. rewrite L4. case_decide as E; [subst s'|naive_solver]. simpl.
    rewrite elem_of_difference, elem_of_singleton. naive_solver. }
  split; try done.
  - intros s'. rewrite L4. by case_decide; subst.
  - intros s' fd' Hin. by apply Hc.
  - intros s' fd' st [Hin Hne]%Hc Hst. rewrite L1, lookup_delete_ne; [by exists [], st|].
    intros <-. apply Hne. split; [|done]. by apply (Hd s' s fd).
  - intros s' fd' Hin. destruct (decide (s' = s /\ fd' = fd)) as [[-> ->]|Hne]; [by right|left; by apply Hc].
  - rewrite L4. by case_decide; subst.
  - by rewrite L2.
Qed.

Section safe.
Context {K : Kernel} {L : KernelLive K}.

(** a push drops connections of its own service only *)
Lemma shrinks_pushed (g : svc_id -> Z -> Prop) w w' s b fds l : disjoint_tables w -> (forall fd, g s fd) ->
  pushed w w' s b fds l -> shrinks g w w'.
Proof using Type.
  intros Hd Hg P. pose proof P as [P1 P2 P3 P4 P5 P6 P7 (P8' & _ & P8 & P9) P10 P11].
  assert (Hrx : forall s' fd, fd ∈ conn_set (svc_of w' s') -> rx w' !! fd = rx w !! fd).
  { intros s' fd Hin. pose proof (pushed_sub _ _ _ _ _ _ _ _ P Hin) as Hin0.
    destruct (decide (fd ∈ fds /\ fd ∈ conn_set (svc_of w s))) as [[H1 H2]|Hn]; [|by apply P11].
    assert (s' = s) as -> by (by apply (Hd s' s fd)).
    destruct (P10 fd H1 H2) as [D|F]; [by apply D|]. by destruct F as (_ & F & _). }
  split; try done.
  - intros s'. destruct (decide (s' = s)) as [->|]; [done|by rewrite P7].
  - intros s' fd. by apply pushed_sub with (1 := P).
  - intros s' fd st Hin Hst. exists [], st. split; [|done]. by rewrite (Hrx s').
  - intros s' fd Hin. destruct (decide (s' = s)) as [->|]; [right; apply Hg|left; by rewrite P7].
  - destruct (decide (SvcData = s)) as [<-|]; [|by rewrite P7]. unfold dgram_ok. by rewrite P8, P9.
  - by rewrite P3.
Qed.

Lemma shrinks_got (g : svc_id -> Z -> Prop) w w' s o wrap b : disjoint_tables w -> (forall fd, g s fd) ->
  service_got w w' s o wrap b -> shrinks g w w'.
Proof using Type. intros Hd Hg (p & fds & l & P & _). by eapply shrinks_pushed. Qed.

Lemma shrinks_disjoint g w w' : shrinks g w w' -> disjoint_tables w -> disjoint_tables w'.
Proof using Type. intros S Hd s s' fd H1 H2. apply (Hd s s' fd); by apply S. Qed.

(** ** The handlers *)

(** a handler drops the connection it was called for, or sniffers *)
Definition handler_gone (s : svc_id) (fd : Z) (s' : svc_id) (fd' : Z) : Prop :=
  (s' = s /\ fd' = fd) \/ (s' = SvcSniff /\ s <> SvcSniff).

Section handler.
Context (cfg : bridge_cfg) (s : svc_id) (fd : Z) (dg : bool) (w : world).
Context (Hsafe : net_safe dg w) (Hm : fd ∈ conn_set (svc_of w s)) (Hconn : dg = false \/ s <> SvcData).

Lemma handler_stream : exists st, rx w !! fd = Some st /\ bytes st.
Proof using Hsafe Hm Hconn. by apply (ns_open _ _ Hsafe s). Qed.

Lemma handler_unlocked : s ∉ held w.
Proof using Hsafe. rewrite (ns_held _ _ Hsafe). apply not_elem_of_nil. Qed.

Lemma lost_safe w' : lost w w' s fd -> shrinks (handler_gone s fd) w w'.
Proof using Hsafe Hm. apply shrinks_lost; [apply Hsafe|done|by left]. Qed.

Lemma recv_safe P r w1 : recv_post P w s fd r w1 -> shrinks (handler_gone s fd) w w1.
Proof using Hsafe Hm.
  destruct r as [pkt|]; [intros (wire & rest & Hw & _ & Q)|intros [Hl _]].
  - by eapply shrinks_quiet.
  - by apply lost_safe.
Qed.

(** the part of the two packet handlers behind the receive *)
Lemma tail_safe P (r : option (list Z)) fn w1 : s <> SvcSniff ->
  (forall wire pkt, bytes wire -> P wire pkt -> bytes pkt) -> recv_post P w s fd r w1 ->
  wp (match r with
      | None => mret ()
      | Some b =>
          _ ← sniff_push cfg b;
          if enable_monitor cfg then mret () else
          _ ← emit_act (ADebug fn "NET->SPW" b); _ ← parse_rmap b; spw_send_packet b
      end) (fun _ => is_client (net w) = true) (fun _ w' => shrinks (handler_gone s fd) w w') w1.
Proof using Hsafe Hm Hconn L.
  intros Hs HPb Hr. pose proof (recv_safe _ _ _ Hr) as S1. destruct r as [pkt|]; [|exact S1].
  assert (Hpkt : bytes pkt).
  { destruct Hr as (wire & rest & Hw & HP & _). destruct handler_stream as (st & Hst & Hb).
    rewrite Hw in Hst. injection Hst as <-. apply bytes_app in Hb as [Hb _]. by eapply HPb. }
  assert (H1 : SvcSniff ∉ held w1).
  { rewrite (sh_held _ _ _ S1), (ns_held _ _ Hsafe). apply not_elem_of_nil. }
  apply wp_bind. eapply wp_mono; [by apply sniff_push_run| |].
  - intros [] w2 Hg. assert (S2 : shrinks (handler_gone s fd) w w2).
    { eapply shrinks_trans; [exact S1|]. eapply shrinks_got; [|by right|exact Hg].
      eapply shrinks_disjoint; [exact S1|apply Hsafe]. }
    destruct (enable_monitor cfg); [exact S2|].
    destruct (spw_tail_run fn "NET->SPW" pkt w2 Hpkt) as (w3 & Hr3 & Hp).
    unfold wp. rewrite Hr3. eapply shrinks_trans; [exact S2|by eapply shrinks_printed].
  - intros w'. by rewrite (sh_client _ _ _ S1).
Qed.

Lemma net_to_spw_safe : mode cfg <> MODE_DGRAM -> s <> SvcSniff ->
  wp (net_to_spw cfg s fd) (fun _ => is_client (net w) = true)
    (fun _ w' => shrinks (handler_gone s fd) w w') w.
Proof using Hsafe Hm Hconn L.
  intros Hmode Hs. unfold net_to_spw. rewrite decide_False by done.
  destruct handler_stream as (st & Hst & Hb). pose proof handler_unlocked as Hl.
  apply wp_bind, wp_bind. eapply wp_mono with (Q := recv_post (net_frame cfg) w s fd).
  - unfold net_frame. destruct (interpret_pus cfg); [apply (recv_pus_sound s fd w st); try done; apply Hsafe|].
    destruct (interpret_fee cfg); [by apply (recv_fee_sound s fd w st)|].
    destruct (enable_gresb cfg); [by apply (recv_gresb_sound s fd w st)|].
    by apply (recv_raw_sound s fd w st).
  - intros r w1 Hr. apply wp_ret.
    pose proof (tail_safe (net_frame cfg) r
      (if enable_gresb cfg then "spw_debug_print" else "pus_debug_print") w1 Hs (net_frame_bytes cfg) Hr) as Ht.
    destruct r; exact Ht.
  - by intros w' [Hc _].
Qed.

Lemma gresb_tx_safe : s <> SvcSniff ->
  wp (gresb_tx_to_spw cfg s fd) (fun _ => is_client (net w) = true)
    (fun _ w' => shrinks (handler_gone s fd) w w') w.
Proof using Hsafe Hm Hconn L.
  intros Hs. destruct handler_stream as (st & Hst & Hb). pose proof handler_unlocked as Hl.
  unfold gresb_tx_to_spw. apply wp_bind. eapply wp_mono; [by apply (recv_gresb_sound s fd w st)| |by intros w' [? _]].
  intros r w1 Hr. by apply (tail_safe gresb_wire); [|apply gresb_wire_bytes|].
Qed.

Lemma rmap_safe :
  wp (rmap_net_to_spw s fd) (fun _ => False) (fun _ w' => shrinks (handler_gone s fd) w w') w.
Proof using Hsafe Hm Hconn.
  destruct handler_stream as (st & Hst & Hb).
  eapply wp_mono; [by apply (rmap_net_to_spw_run s fd w st), handler_unlocked| |done].
  intros [] w' [Hl|(wire & rest & c & w1 & Hw & _ & Q & ->)]; [by apply lost_safe|].
  eapply shrinks_trans; [by eapply shrinks_quiet|]. by apply shrinks_same.
Qed.

Lemma discard_safe :
  wp (gresb_rx_discard s fd) (fun _ => is_client (net w) = true)
    (fun _ w' => shrinks (handler_gone s fd) w w') w.
Proof using Hsafe Hm Hconn.
  destruct handler_stream as (st & Hst & _). unfold gresb_rx_discard. unfold wp at 1. rewrite Hst.
  eapply wp_mono; [apply (discard_loop_run s fd w st handler_unlocked (S (length st)) w [] st); [done| |lia]| |].
  - split; [|done]. by rewrite insert_id.
  - intros [] w' [(d & rest & -> & Ha)|[Hl _]]; [|by apply lost_safe].
    eapply shrinks_quiet; [done|done|by apply adv_quiet].
  - by intros w' [? _].
Qed.

End handler.

(** ** Datagrams *)

(** a datagram was taken from the queue, and nothing else was done *)
Lemma shrinks_taken g w w' d : rx w' = rx w -> dgq w = d :: dgq w' -> held w' = held w -> net w' = net w ->
  shrinks g w w'.
Proof using Type.
  intros R D H N. assert (E : forall s, svc_of w' s = svc_of w s) by (intros s; unfold svc_of; by rewrite N).
  split; rewrite ?E; try done; try (intros s; by rewrite E); try by rewrite N.
  - unfold seq_ok. by rewrite N.
  - intros s fd st _ Hst. exists [], st. by rewrite R.
  - intros s fd Hin. left. by rewrite E.
  - unfold octets. rewrite D. by inversion_clear 1.
Qed.

Lemma add_client_net s c w w' : s ∉ held w -> dgram_add_client s c w = Ret () w' ->
  is_client (net w') = is_client (net w) /\ (seq_ok w -> seq_ok w').
Proof using Type.
  intros Hl. unfold dgram_add_client. erewrite mbind_run by (apply lock_free; exact Hl).
  erewrite mbind_run by reflexivity. destruct (find_client _ c).
  { erewrite unlock_held by reflexivity. by intros [= <-]. }
  cbv zeta. destruct (_ =? _).
  - erewrite mbind_run by reflexivity. destruct (k_malloc _); cbn beta iota delta [negb].
    + destruct (_ <=? _); [done|]. erewrite mbind_run by reflexivity. erewrite unlock_held by reflexivity.
      by intros [= <-].
    + erewrite unlock_held by reflexivity. by intros [= <-].
  - erewrite mbind_run by reflexivity. cbn beta iota delta [negb].
    destruct (_ <=? _); [done|]. erewrite mbind_run by reflexivity. erewrite unlock_held by reflexivity.
    by intros [= <-].
Qed.

Lemma shrinks_registered g s c w : s ∉ held w -> dgram_ok (svc_of w s) ->
  exists w', dgram_add_client s c w = Ret () w' /\ shrinks g w w'.
Proof using Type.
  intros Hl Hd. destruct (dgram_add_client_run w s c Hl Hd) as (w' & v' & Hr & _ & R & D & H & E & C & N & Ok & _).
  exists w'. split; [done|]. destruct (add_client_net s c w w' Hl Hr) as [Hcl Hseq].
  assert (Es : forall s', conn_set (svc_of w' s') = conn_set (svc_of w s') /\ nfds (svc_of w' s') = nfds (svc_of w s')).
  { intros s'. rewrite E. by case_decide; subst. }
  split; rewrite ?D; try done.
  - intros s'. apply Es.
  - intros s' fd. by rewrite (proj1 (Es s')).
  - intros s' fd st _ Hst. exists [], st. by rewrite R.
  - intros s' fd Hin. left. by rewrite (proj1 (Es s')).
  - rewrite E. by case_decide; subst.
Qed.

(** the handler of the datagram mode *)
Lemma dgram_handler_safe cfg fd dg w : mode cfg = MODE_DGRAM -> net_safe dg w ->
  wp (net_to_spw cfg SvcData fd) (fun _ => is_client (net w) = true)
    (fun _ w' => shrinks (handler_gone SvcData fd) w w') w.
Proof using L.
  intros Hmode Hsafe. unfold net_to_spw. rewrite decide_True by done.
  destruct (recv_dgram_run w) as (r & w1 & Hr & R1 & R2 & R3 & R4 & R5).
  apply wp_bind. eapply wp_bind_run; [exact Hr|]. apply wp_ret. destruct r as [[b c]|]; cbn beta iota.
  2: { apply wp_ret. by apply shrinks_same; unfold svc_of, seq_ok; rewrite ?R3. }
  destruct R5 as [R5 _].
  assert (S1 : forall g, shrinks g w w1) by (intros g; by apply (shrinks_taken g w w1 (c, b))).
  pose proof (net_safe_shrinks _ _ _ _ (S1 (fun _ _ => True)) Hsafe) as N1.
  assert (Hb : bytes b).
  { pose proof (ns_dgq _ _ Hsafe) as Hq. unfold octets in Hq. rewrite R5 in Hq. by inversion_clear Hq. }
  assert (Hl : forall s w', held w' = held w -> s ∉ held w').
  { intros s w' ->. rewrite (ns_held _ _ Hsafe). apply not_elem_of_nil. }
  apply wp_bind. eapply wp_mono; [apply sniff_push_run; by apply Hl| |intros w'; by rewrite R3].
  intros [] w2 Hg.
  assert (S2 : shrinks (handler_gone SvcData fd) w w2).
  { eapply shrinks_trans; [apply S1|]. eapply shrinks_got; [apply N1|by right|exact Hg]. }
  destruct (shrinks_registered (handler_gone SvcData fd) SvcData c w2) as (w3 & Hr3 & S3).
  { apply Hl, S2. } { apply S2, Hsafe. }
  eapply wp_bind_run; [exact Hr3|]. pose proof (shrinks_trans _ _ _ _ S2 S3) as S4.
  destruct (enable_monitor cfg); [exact S4|].
  destruct (spw_tail_run (if enable_gresb cfg then "spw_debug_print" else "pus_debug_print")
    "NET->SPW" b w3 Hb) as (w4 & Hr4 & Hp).
  unfold wp, debug_print. rewrite Hr4. eapply shrinks_trans; [exact S4|by eapply shrinks_printed].
Qed.

(** the handler of each service, as [net_start] has installed it *)
Definition in_dgram (cfg : bridge_cfg) : bool := bool_decide (mode cfg = MODE_DGRAM).

Lemma handle_pkt_safe cfg s fd w : net_safe (in_dgram cfg) w -> fd ∈ conn_set (svc_of w s) ->
  wp (handle_pkt cfg s fd) (fun _ => is_client (net w) = true)
    (fun _ w' => shrinks (handler_gone s fd) w w') w.
Proof using L.
  unfold in_dgram. intros Hsafe Hm. destruct s; simpl.
  - case_bool_decide as E; [by eapply dgram_handler_safe|]. by eapply net_to_spw_safe; [exact Hsafe|done|left|..].
  - eapply wp_mono; [by eapply rmap_safe; [exact Hsafe|done|right]| |]; done.
  - by eapply gresb_tx_safe; [exact Hsafe|done|right|..].
  - by eapply discard_safe; [exact Hsafe|done|right].
  - by eapply discard_safe; [exact Hsafe|done|right].
Qed.

(** ** A round of a poll thread *)

Definition may_shrink : world -> world -> Prop := shrinks (fun _ _ => True).

Lemma serve_safe cfg s fds : NoDup fds -> forall w, net_safe (in_dgram cfg) w ->
  (forall fd, fd ∈ fds -> fd ∈ conn_set (svc_of w s)) ->
  wp (serve (handle_pkt cfg) s fds) (fun _ => is_client (net w) = true) (fun _ => may_shrink w) w.
Proof using L.
  induction 1 as [|fd fds Hn _ IH]; intros w Hsafe Hin; cbn [serve]; [apply shrinks_refl|].
  apply wp_bind. eapply wp_mono; [apply handle_pkt_safe; [done|apply Hin; by left]| |done].
  intros [] w1 S1. eapply wp_mono; [apply (IH w1)| |].
  - by eapply net_safe_shrinks.
  - intros fd' Hfd'. destruct (sh_stay _ _ _ S1 s fd') as [|[[_ ->]|[? ?]]]; [apply Hin; by right|done|done|done].
  - intros [] w2 S2. eapply shrinks_trans; [|exact S2]. by eapply shrinks_weaken.
  - intros w2. by rewrite (sh_client _ _ _ S1).
Qed.

Lemma poll_step_safe cfg ready s w : net_safe (in_dgram cfg) w ->
  wp (poll_step ready (handle_pkt cfg) s) (fun _ => is_client (net w) = true) (fun _ => may_shrink w) w.
Proof using L.
  intros Hsafe. destruct ready; [|apply shrinks_refl].
  unfold wp. rewrite poll_step_run by (rewrite (ns_held _ _ Hsafe); apply not_elem_of_nil).
  assert (St : may_shrink w (w_tick w)) by (apply shrinks_chatty, chatty_tick).
  eapply wp_mono; [apply (serve_safe cfg s (poll_fds s w))| |done].
  - unfold poll_fds. destruct (k_select (tick w)); [apply NoDup_filter, NoDup_seqZ|constructor].
  - by eapply net_safe_shrinks.
  - intros fd Hfd. unfold poll_fds in Hfd. destruct (k_select (tick w)); [|by apply elem_of_nil in Hfd].
    apply list_elem_of_filter in Hfd as [Hfd _]. by apply elem_of_intersection in Hfd as [Hfd _].
  - intros [] w' S1. eapply shrinks_trans; [exact St|exact S1].
Qed.

(** ** Accepting *)

(** the descriptor of a new connection is not in use, and its peer sends octets *)
Definition fresh_fd (w : world) (a : accepted) : Prop :=
  match a with
  | AcceptFd fd q => 0 <= fd /\ rx w !! fd = None /\ fd ∉ conn_set (svc_of w SvcData) /\ bytes q
  | _ => True
  end.

#[export] Instance fresh_fd_dec w a : Decision (fresh_fd w a).
Proof using Type. destruct a; unfold fresh_fd; apply _. Defined.

Lemma accept_seq s a w w' : accept_step s a w = Ret () w' -> s ∉ held w -> seq_ok w -> seq_ok w'.
Proof using Type.
  intros Hr Hl Hs. destruct a as [| |fd q]; [by injection Hr as <-|by injection Hr as <-|].
  revert Hr. unfold accept_step. repeat (erewrite mbind_run by reflexivity).
  destruct (FD_SETSIZE <=? fd) eqn:Efd; [repeat (erewrite mbind_run by reflexivity); by intros [= <-]|].
  erewrite mbind_run by (apply lock_free; exact Hl). erewrite mbind_run by (by apply fd_set_run).
  erewrite mbind_run by apply grow_nfds_run. cbv zeta.
  by destruct (_ >? _); erewrite unlock_held by reflexivity; intros [= <-].
Qed.

Lemma accept_safe dg s a w : dg = false \/ s <> SvcData -> net_safe dg w -> fresh_fd w a ->
  exists w', accept_step s a w = Ret () w' /\ net_safe dg w' /\ is_client (net w') = is_client (net w).
Proof using Type.
  intros Hs Hsafe Ha. assert (Hl : s ∉ held w) by (rewrite (ns_held _ _ Hsafe); apply not_elem_of_nil).
  destruct a as [| |fd q]; [by exists w|eexists; split; [reflexivity|]; split; [by destruct Hsafe|done]|].
  destruct Ha as (H0 & Hfree & Hdata & Hq). destruct (accept_step_run w s fd q Hl) as (w' & Hr & W).
  exists w'. split; [done|]. pose proof (accept_seq _ _ _ _ Hr Hl (ns_seq _ _ Hsafe)) as Hseq.
  destruct Hsafe as [N1 N2 N3 N4 N5 N6 N7].
  assert (Hfresh : forall s', fd ∉ conn_set (svc_of w s')).
  { intros s' Hin. destruct (decide (s' = SvcData)) as [->|Hne]; [done|].
    destruct (N5 s' fd (or_intror Hne) Hin) as (st & Hst & _). congruence. }
  assert (Hother : forall s' fd', fd' ∈ conn_set (svc_of w s') -> fd' <> fd) by (intros s' fd' Hin ->; by apply (Hfresh s')).
  destruct W as (_ & E2 & E3 & E4 & _ & E6 & E7). destruct (Z.leb_spec FD_SETSIZE fd) as [Hf|Hf].
  - assert (Es : forall s', svc_of w' s' = svc_of w s') by exact E7.
    split; [|exact E6]. split; [by rewrite E4|done| | | |by rewrite Es|by rewrite E3].
    + intros s' fd'. rewrite Es. apply N3.
    + intros s1 s2 fd'. rewrite !Es. apply N4.
    + intros s' fd' Hc. rewrite Es. intros Hin. rewrite E2. simpl.
      pose proof (Hother _ _ Hin). rewrite lookup_delete_ne, lookup_insert_ne by done. by apply (N5 s').
  - assert (Es : forall s', svc_of w' s' = if decide (s' = s) then registered (svc_of w s) fd else svc_of w s') by exact E7.
    assert (Hmem : forall s' fd', fd' ∈ conn_set (svc_of w' s') ->
      (fd' = fd /\ s' = s) \/ (fd' <> fd /\ fd' ∈ conn_set (svc_of w s'))).
    { intros s' fd'. rewrite Es. case_decide; [subst s'; simpl|intros Hin; right; split; [by eapply Hother|done]].
      rewrite elem_of_union, elem_of_singleton. intros [Hin| ->]; [right; split; [by eapply Hother|done]|by left]. }
    assert (Hn : forall s', nfds (svc_of w s') <= nfds (svc_of w' s')).
    { intros s'. rewrite Es. case_decide; [subst s'; simpl|done]. destruct (Z.gtb_spec fd (nfds (svc_of w s))); lia. }
    split; [|exact E6]. split; [by rewrite E4|done| | | | |by rewrite E3].
    + intros s' fd' [[-> ->]|[Hne Hin]]%Hmem.
      * split; [done|]. rewrite Es, decide_True by done. simpl. destruct (Z.gtb_spec fd (nfds (svc_of w s))); lia.
      * destruct (N3 s' fd' Hin). split; [done|]. specialize (Hn s'). lia.
    + intros s1 s2 fd' [[-> ->]|[Hne Hin]]%Hmem [[Heq ->]|[Hne' Hin']]%Hmem; try done. by apply (N4 s1 s2 fd').
    + intros s' fd' Hc [[-> ->]|[Hne Hin]]%Hmem; rewrite E2; simpl.
      * rewrite lookup_insert_eq. by exists q.
      * rewrite lookup_insert_ne by done. by apply (N5 s').
    + rewrite Es. case_decide; [subst s; exact N6|exact N6].
Qed.

End safe.

(** ** The sink keeps the invariant from packet to packet *)

Definition net_ok (w : world) : Prop := held w = [] /\ seq_ok w /\ disjoint_tables w.

Lemma net_ok_shrinks w w' : may_shrink w w' -> net_ok w -> net_ok w'.
Proof.
  intros S (H1 & H2 & H3). split; [by rewrite (sh_held _ _ _ S)|]. split; [by apply S|].
  by eapply shrinks_disjoint.
Qed.

(** connections may disappear, and the invariant survives *)
Definition keeps {B} (m : M B) : Prop := forall w, net_ok w ->
  match m w with Ret _ w' => may_shrink w w' | _ => True end.

Lemma keeps_bind {B C} (m : M B) (f : B -> M C) : keeps m -> (forall a, keeps (f a)) -> keeps (m ≫= f).
Proof.
  intros Hm Hf w Hw. unfold mbind, M_bind. specialize (Hm w Hw). destruct (m w) as [a w1| |]; [|done|done].
  specialize (Hf a w1 (net_ok_shrinks _ _ Hm Hw)). destruct (f a w1); [|done|done].
  by eapply shrinks_trans.
Qed.

Lemma keeps_ret {B} (a : B) : keeps (mret a).
Proof. intros w _. apply shrinks_refl. Qed.

Lemma keeps_same {B} (m : M B) : (forall w, exists a w', m w = Ret a w' /\ rx w' = rx w /\
  dgq w' = dgq w /\ held w' = held w /\ net w' = net w) -> keeps m.
Proof.
  intros H w _. destruct (H w) as (a & w' & -> & R & Q & D & N). apply shrinks_same; unfold svc_of, seq_ok;
    by rewrite ?R, ?Q, ?D, ?N.
Qed.

Lemma keeps_emit a : keeps (emit_act a).
Proof. apply keeps_same. intros w. by eexists _, _. Qed.

Lemma keeps_get s : keeps (get_svc s).
Proof. apply keeps_same. intros w. by eexists _, _. Qed.

Lemma keeps_lift {B} (o : option B) : keeps (lift o).
Proof. destruct o; [apply keeps_ret|done]. Qed.

Lemma keeps_emit_all l : keeps (emit_all l).
Proof.
  induction l as [|a l IH]; [apply keeps_ret|]. cbn [emit_all]. apply keeps_bind; [apply keeps_emit|done].
Qed.

Create HintDb keeps.
#[export] Hint Resolve keeps_ret keeps_emit keeps_lift keeps_emit_all keeps_get : keeps.

Section keeps.
Context {K : Kernel} {L : KernelLive K}.

Lemma keeps_malloc : keeps malloc.
Proof using Type. intros w _. apply shrinks_chatty, chatty_tick. Qed.

Lemma keeps_push_all ex dropf s b : dropper ex dropf -> keeps (push_all dropf s b).
Proof using L.
  intros Hd w Hw. pose proof (push_all_run ex dropf s b w Hd) as H. unfold wp in H.
  destruct (push_all dropf s b w) as [[] w'| |]; [|done|done].
  destruct H as (l & P); [destruct Hw as [-> _]; apply not_elem_of_nil|].
  eapply shrinks_pushed; [apply Hw|done|exact P].
Qed.

Lemma keeps_wrap b : keeps (gresb_wrap b).
Proof using Type. intros w Hw. rewrite gresb_wrap_run. apply shrinks_chatty, chatty_tick. Qed.

Lemma keeps_wrapped (b : list Z) (m1 : M ()) (f : list Z -> M ()) : keeps m1 -> (forall d, keeps (f d)) ->
  keeps (out ← gresb_wrap b; match out with None => m1 | Some d => f d end).
Proof using Type. intros H1 H2. apply keeps_bind; [apply keeps_wrap|]. by intros [d|]. Qed.

Hint Resolve keeps_malloc : keeps.

Lemma keeps_conn_push s b : keeps (push_all conn_drop_locked s b).
Proof using L. apply (keeps_push_all true), conn_dropper. Qed.

Hint Resolve keeps_conn_push : keeps.

Lemma keeps_sniff cfg b : keeps (sniff_push cfg b).
Proof using L.
  unfold sniff_push. apply keeps_bind; [auto with keeps|]. intros v. destruct (negb _); [auto with keeps|].
  destruct (sniff_gresb cfg); [apply keeps_wrapped|]; auto with keeps.
Qed.

Lemma keeps_gresb_rx cfg b : keeps (gresb_push_rx_clients cfg b).
Proof using L.
  unfold gresb_push_rx_clients. apply keeps_bind; [auto with keeps|]. intros v.
  destruct (_ || _); [|apply keeps_wrapped]; auto with keeps.
Qed.

Lemma keeps_dgram s b : keeps (dgram_send_all s b).
Proof using Type.
  intros w (Hh & _). destruct (dgram_send_all_run s b w) as (w' & l & -> & (R & D & H & N) & _).
  { rewrite Hh. apply not_elem_of_nil. }
  apply shrinks_same; unfold svc_of, seq_ok; by rewrite ?N.
Qed.

Hint Resolve keeps_dgram : keeps.

Lemma keeps_forward cfg b : keeps (net_forward_to_clients cfg b).
Proof using L.
  unfold net_forward_to_clients. apply keeps_bind; [apply keeps_sniff|]. intros [].
  destruct (mode cfg), (enable_gresb cfg); try (auto with keeps); (apply keeps_wrapped; [auto with keeps|intros d]);
    (apply keeps_bind; [auto with keeps|]); intros []; apply keeps_gresb_rx.
Qed.

Lemma keeps_seq_rx cfg p : bytes p -> keeps (check_seq_rx cfg p).
Proof using Type.
  intros Hp w (_ & Hs & _).
  destruct (check_seq_rx_run cfg p w Hp Hs) as (w' & -> & C). by apply shrinks_chatty.
Qed.

Lemma keeps_parse p : keeps (parse_rmap p).
Proof using Type. unfold parse_rmap. apply keeps_bind; auto with keeps. Qed.

Hint Resolve keeps_parse : keeps.

Lemma keeps_reply cfg b : keeps (rmap_reply_to_clients cfg b).
Proof using L.
  unfold rmap_reply_to_clients. do 3 (apply keeps_bind; [auto with keeps|intros ?]). cbv zeta.
  apply keeps_bind; [auto with keeps|]. intros [cnt [pkt|]]; [|auto with keeps].
  apply keeps_bind; [auto with keeps|]. intros [].
  apply keeps_bind; [auto with keeps|]. intros ok. destruct (negb ok); [auto with keeps|].
  apply keeps_bind; [auto with keeps|]. intros tmp. apply (keeps_push_all false), rmap_dropper.
Qed.

Lemma keeps_sink cfg b : bytes b -> keeps (net_pkt_sink cfg b).
Proof using L.
  intros Hb. unfold net_pkt_sink. destruct (zlen b <=? _); [auto with keeps|]. cbv zeta.
  apply keeps_bind; [unfold debug_print; auto with keeps|]. intros []. apply keeps_bind.
  { destruct (_ && _); [|auto with keeps]. apply keeps_bind; [auto with keeps|]. intros v.
    destruct (c_true v); auto with keeps. }
  intros []. apply keeps_bind; [auto with keeps|]. intros []. apply keeps_bind.
  { destruct (_ && _); auto with keeps. }
  intros x. destruct (x =? 1); [apply keeps_reply|]. apply keeps_bind; [|intros []; apply keeps_forward].
  destruct (interpret_pus cfg); [|auto with keeps]. apply keeps_seq_rx. by apply Forall_drop.
Qed.

Lemma keeps_wp {B} (m : M B) EX (Q : B -> world -> Prop) w : keeps m -> net_ok w -> wp m EX Q w ->
  wp m EX (fun a w' => Q a w' /\ may_shrink w w') w.
Proof using Type. intros Hk Hw. specialize (Hk w Hw). unfold wp. by destruct (m w). Qed.
End keeps.

(** ** The network side after its start *)

Lemma net_safe_ok dg w : net_safe dg w -> net_ok w.
Proof. by intros []. Qed.

Lemma keeps_safe {B} (m : M B) dg w b w' : keeps m -> net_safe dg w -> m w = Ret b w' -> net_safe dg w'.
Proof.
  intros Hk Hw Hr. specialize (Hk w (net_safe_ok dg w Hw)). rewrite Hr in Hk. by eapply net_safe_shrinks.
Qed.

Lemma keeps_both {B} (m : M B) dg w b w' : keeps m -> net_safe dg w -> m w = Ret b w' ->
  net_safe dg w' /\ is_client (net w') = is_client (net w).
Proof.
  intros Hk Hw Hr. split; [by eapply keeps_safe|]. specialize (Hk w (net_safe_ok dg w Hw)). rewrite Hr in Hk.
  apply Hk.
Qed.

Lemma keeps_exit {B} : keeps (@exit_failure B).
Proof. by intros w _. Qed.

(** a service is changed; its table may become empty only *)
Lemma keeps_svc s (f : net_service -> net_service) :
  (forall v, nfds (f v) = nfds v /\ (conn_set (f v) = conn_set v \/ conn_set (f v) = ∅) /\
     clients (f v) = clients v /\ clients_cap (f v) = clients_cap v) ->
  keeps (v ← get_svc s; put_svc s (f v)).
Proof.
  intros Hf w Hw.
  assert (E : forall s', svc_of (w_svc w s (f (svc_of w s))) s' = if decide (s' = s) then f (svc_of w s) else svc_of w s') by done.
  change (may_shrink w (w_svc w s (f (svc_of w s)))). destruct (Hf (svc_of w s)) as (Hn & Hc & Hv).
  assert (Hsub : forall s' fd, fd ∈ conn_set (svc_of (w_svc w s (f (svc_of w s))) s') -> fd ∈ conn_set (svc_of w s')).
  { intros s' fd. rewrite E. case_decide as Es; [subst s'|done]. by destruct Hc as [-> | ->]. }
  split; try done; [intros s'; rewrite E; by case_decide; subst| |by right|].
  - intros s' fd st _ Hst. by exists [], st.
  - rewrite E. case_decide; [subst s|done]. unfold dgram_ok. destruct Hv as [-> ->]. done.
Qed.

Section start_safe.
Context {K : Kernel}.

Hint Resolve keeps_malloc keeps_exit : keeps.

Lemma keeps_call : keeps syscall.
Proof using Type. intros w _. apply shrinks_chatty, chatty_tick. Qed.

Lemma keeps_setup : keeps setup_call.
Proof using Type. intros w _. apply shrinks_chatty, chatty_tick. Qed.

Hint Resolve keeps_call keeps_setup : keeps.

Lemma keeps_create s a : keeps (pthread_create s a).
Proof using Type.
  unfold pthread_create. apply keeps_bind; [auto with keeps|]. intros ok.
  destruct (negb ok); apply keeps_bind; auto with keeps.
Qed.

Lemma sockaddr_same url w a w' : sockaddr_from_url url w = Ret a w' ->
  rx w' = rx w /\ dgq w' = dgq w /\ held w' = held w /\ net w' = net w.
Proof using Type.
  unfold sockaddr_from_url. erewrite mbind_run by reflexivity.
  destruct (k_malloc (tick w)); cbn beta iota delta [negb]; [|done].
  destruct (strtok url) as [[addr|] rest]; destruct (strtok rest) as [[prt|] ?]; try done. by intros [= _ <-].
Qed.

Lemma keeps_sockaddr url : keeps (sockaddr_from_url url).
Proof using Type.
  intros w _. destruct (sockaddr_from_url url w) as [a w'| |] eqn:E; [|done|done].
  apply sockaddr_same in E as (R & Q & D & N).
  apply shrinks_same; unfold svc_of, seq_ok; by rewrite ?R, ?Q, ?D, ?N.
Qed.

Hint Resolve keeps_create keeps_sockaddr : keeps.

(** closing a socket on which nothing has arrived is the end of the process *)
Lemma keeps_close_exit {B} fd m : keeps (_ ← close fd; _ ← emit_act m; @exit_failure B).
Proof using Type. by intros w _. Qed.

Lemma keeps_open s url : keeps (open_service s url).
Proof using Type.
  unfold open_service. apply keeps_bind.
  - unfold bind_server_socket. apply keeps_bind; [auto with keeps|]. intros [addr prt].
    apply keeps_bind; [auto with keeps|]. intros t. cbv zeta.
    apply keeps_bind; [by apply keeps_svc; split; [|split; [right|]]|]. intros [].
    destruct (_ <? 0); [apply keeps_bind; auto with keeps|].
    apply keeps_bind; [auto with keeps|]. intros ok. destruct (negb ok); [apply keeps_close_exit|].
    apply keeps_bind; [auto with keeps|]. intros ok'. destruct (negb ok'); [apply keeps_close_exit|].
    apply keeps_bind; auto with keeps.
  - intros fd. by apply keeps_svc; split; [|split; [left|]].
Qed.

Hint Resolve keeps_open : keeps.

Lemma keeps_pair s m : keeps (start_pair s m).
Proof using Type. unfold start_pair. repeat (apply keeps_bind; [auto with keeps|intros ?]). auto with keeps. Qed.

Hint Resolve keeps_pair : keeps.

(** everything behind the data service *)
Lemma keeps_services cfg (main poll : option thread) :
  keeps ('(ta, tp, (ra, rp)) ← start_gresb cfg; '(sa, sp) ← start_sniff cfg; '(ma, mp) ← start_rmap cfg;
         mret (mk_threads main poll ma mp ta tp ra rp sa sp)).
Proof using Type.
  apply keeps_bind.
  { unfold start_gresb. destruct (_ && _); [|auto with keeps].
    repeat (apply keeps_bind; [auto with keeps|intros ?]). auto with keeps. }
  intros [[ta tp] [ra rp]]. apply keeps_bind.
  { unfold start_sniff. destruct (enable_sniff cfg); [|auto with keeps].
    cbv zeta. apply keeps_bind; auto with keeps. }
  intros [sa sp]. apply keeps_bind.
  { unfold start_rmap. destruct (enable_rmap cfg); [apply keeps_bind; auto with keeps|auto with keeps]. }
  intros [ma mp]. auto with keeps.
Qed.

(** the one descriptor in the tables: the connection of a client, or the socket of
    the datagram mode *)
Lemma only_safe dg k q w : held w = [] -> seq_ok w -> 0 <= k < FD_SETSIZE -> k <= nfds (svc_of w SvcData) ->
  (forall s fd, fd ∈ conn_set (svc_of w s) -> s = SvcData /\ fd = k) ->
  (dg = false -> rx w !! k = Some q) -> bytes q -> dgram_ok (svc_of w SvcData) -> octets (dgq w) -> net_safe dg w.
Proof using Type.
  intros Hh Hs Hk Hn Hin Hrx Hq Hd Ho. split; try done.
  - intros s fd [-> ->]%Hin. done.
  - by intros s s' fd [-> _]%Hin [-> _]%Hin.
  - intros s fd [Hdg|Hne] [-> ->]%Hin; [exists q; auto|done].
Qed.

Lemma connect_safe url q w fd w' : (forall s, conn_set (svc_of w s) = ∅) -> net_safe false w -> bytes q ->
  connect_client_socket SvcData url q w = Ret fd w' -> fd < 0 \/ net_safe false w'.
Proof using Type.
  intros Hempty [N1 N2 _ _ _ N6 N7] Hq. unfold connect_client_socket, mbind at 1, M_bind at 1.
  destruct (sockaddr_from_url url w) as [[addr prt] w1| |] eqn:E; [|done|done].
  apply sockaddr_same in E as (R & Q & D & N). erewrite mbind_run by reflexivity. cbv zeta.
  set (k := k_socket (tick w1)) in *.
  destruct (Z.ltb_spec k 0) as [|Hk]; [intros [= <- _]; by left|]. erewrite mbind_run by reflexivity.
  destruct (k_setup _); cbn beta iota delta [negb]; [|intros [= <- _]; left; lia].
  do 3 (erewrite mbind_run by reflexivity). destruct (FD_SETSIZE <=? k) eqn:Ek; [unfold mbind at 1, M_bind at 1, fd_set; by rewrite Ek|].
  assert (Hlow : k < FD_SETSIZE) by lia. erewrite mbind_run by (by apply fd_set_run).
  erewrite mbind_run by apply grow_nfds_run.
  cbv zeta. intros [= <- <-]. right.
  match goal with |- net_safe _ (if ?c then w_svc ?x _ _ else _) => set (w2 := x); set (b := c) end.
  set (w3 := if b then _ else w2).
  assert (Hc : conn_set (svc_of w2 SvcData) = {[k]}).
  { change (∅ ∪ {[k]} = ({[k]} : gset Z)). apply (left_id_L ∅ _). }
  assert (Hne : forall s, s <> SvcData -> conn_set (svc_of w2 s) = ∅).
  { intros s Hs. unfold w2, svc_of. simpl. rewrite !upd_svc_ne by done. rewrite N. apply Hempty. }
  assert (Hcl : dgram_ok (svc_of w2 SvcData)).
  { change (dgram_ok (svcs (net w1) SvcData)). rewrite N. exact N6. }
  assert (Hb : b = (k >? nfds (svc_of w2 SvcData))) by done.
  apply (only_safe _ k q); try done; unfold w3; rewrite Hb.
  - destruct (_ >? _); simpl; by rewrite D.
  - destruct (_ >? _); unfold seq_ok; simpl; by rewrite N.
  - destruct (Z.gtb_spec k (nfds (svc_of w2 SvcData))); [change (k <= k + 1)|]; lia.
  - assert (Hin : forall s fd, fd ∈ conn_set (svc_of w2 s) -> s = SvcData /\ fd = k).
    { intros s fd. destruct (decide (s = SvcData)) as [->|Hs]; [rewrite Hc|rewrite Hne by done]; set_solver. }
    intros s fd. destruct (_ >? _); [|apply Hin]. destruct (decide (s = SvcData)) as [->|Hs]; [exact (Hin SvcData fd)|].
    unfold svc_of. simpl. rewrite upd_svc_ne by done. exact (Hin s fd).
  - intros _. destruct (_ >? _); apply lookup_insert_eq.
  - by destruct (_ >? _).
  - destruct (_ >? _); simpl; by rewrite Q.
Qed.

(** the socket of the datagram mode is put into the table *)
Definition dgram_world (w : world) (fd : Z) : world :=
  w_svc w SvcData (with_nfds (with_conn_set (with_conn_set (with_sock_fd (svc_of w SvcData) fd) ∅) (∅ ∪ {[fd]})) (fd + 1)).

Lemma dgram_world_safe w fd : (forall s, conn_set (svc_of w s) = ∅) -> held w = [] -> seq_ok w ->
  dgram_ok (svc_of w SvcData) -> octets (dgq w) -> 0 <= fd < FD_SETSIZE -> net_safe true (dgram_world w fd).
Proof using Type.
  intros Hempty N1 N2 N6 N7 Hfd. apply (only_safe _ fd []); try done.
  - change (fd <= fd + 1). lia.
  - intros s fd'. unfold dgram_world, svc_of. simpl. destruct (decide (s = SvcData)) as [->|Hs].
    + rewrite upd_svc_eq. change (fd' ∈ (∅ ∪ {[fd]} : gset Z) -> SvcData = SvcData /\ fd' = fd). set_solver.
    + rewrite upd_svc_ne by done. fold (svc_of w s). rewrite Hempty. set_solver.
  - apply Forall_nil_2.
Qed.

Lemma start_data_safe cfg q w r w' : cfg_ok cfg -> (forall s, conn_set (svc_of w s) = ∅) ->
  net_safe (in_dgram cfg) w -> bytes q ->
  start_data cfg q w = Ret r w' ->
  net_safe (in_dgram cfg) w' /\ (mode cfg <> MODE_CLIENT -> is_client (net w') = is_client (net w)).
Proof using Type.
  intros Hok He Hs Hq. unfold start_data, in_dgram in *. destruct (mode cfg) eqn:Em; simpl in *.
  - intros Hr. apply (keeps_both _ false) in Hr as [S C]; [by split| |done].
    repeat (apply keeps_bind; [auto with keeps|intros ?]). auto with keeps.
  - unfold mbind at 1, M_bind at 1.
    destruct (connect_client_socket SvcData _ q w) as [fd w1| |] eqn:E; [|done|done].
    pose proof (connect_safe _ _ _ _ _ He Hs Hq E) as Hc.
    erewrite mbind_run by reflexivity. erewrite mbind_run by reflexivity.
    destruct (Z.ltb_spec fd 0); [done|]. destruct Hc as [|Hs1]; [lia|].
    do 2 (erewrite mbind_run by reflexivity). intros Hr. split; [|done]. eapply keeps_safe; [..|exact Hr].
    + repeat (apply keeps_bind; [auto with keeps|intros ?]). auto with keeps.
    + by destruct Hs1.
  - destruct Hok as (Hh & Hp & _). unfold mbind at 1, M_bind at 1.
    destruct (bind_dgram_cases (host cfg) (port cfg) w Hh ltac:(lia)) as [[w1 E]|(fd & n & [H0 [t Ht]] & E)];
      rewrite E; [done|]. do 2 (erewrite mbind_run by reflexivity).
    destruct (FD_SETSIZE <=? fd) eqn:Ek; [unfold mbind at 1, M_bind at 1, fd_set; by rewrite Ek|].
    assert (Hlow : fd < FD_SETSIZE) by lia. erewrite mbind_run by (by apply fd_set_run).
    do 2 (erewrite mbind_run by reflexivity). intros Hr.
    match type of Hr with ?m ?x = _ => set (w1 := x) in Hr end.
    assert (Hw1 : rx w1 = rx w /\ dgq w1 = dgq w /\ held w1 = held w /\ is_client (net w1) = is_client (net w) /\
      (forall s, svc_of w1 s = svc_of (dgram_world w fd) s)).
    { do 4 (split; [done|]). intros s. unfold w1, dgram_world, svc_of. simpl.
      destruct (decide (s = SvcData)) as [->|Hs']; [by rewrite !upd_svc_eq|by rewrite !upd_svc_ne by done]. }
    destruct Hw1 as (R & Q & D & C & Es).
    apply (keeps_both _ true) in Hr as [S C']; [split; [done|by rewrite C', C]| |].
    + repeat (apply keeps_bind; [auto with keeps|intros ?]). auto with keeps.
    + eapply (net_safe_shrinks (fun _ _ => True) true (dgram_world w fd)).
      * apply shrinks_same; try done.
      * apply dgram_world_safe; [done|apply Hs..|done].
Qed.

(** [net_start] establishes the invariant *)
Lemma net_start_safe cfg q w : cfg_ok cfg -> held w = [] -> bytes q -> octets (dgq w) ->
  wp_unless (beyond_set cfg) (net_start cfg q) (fun _ => True)
    (fun t w' => t = threads_rec cfg /\ net_safe (in_dgram cfg) w' /\
       (mode cfg <> MODE_CLIENT -> is_client (net w') = false)) w.
Proof using Type.
  intros Hok Hh Hq Ho. destruct (net_start_run cfg q w Hok) as [?|Hwp]; [by left|right]. unfold wp in *.
  destruct (net_start cfg q w) as [t w'| |] eqn:E; [|done|done]. split; [apply Hwp|]. revert E.
  unfold net_start. erewrite mbind_run by reflexivity.
  destruct (k_malloc (tick w)); cbn beta iota delta [negb]; [|done].
  erewrite mbind_run by reflexivity. set (w0 := w_net _ net_calloc).
  assert (Hd : dgram_ok (svc_of w0 SvcData)) by (split; [apply NoDup_nil_2|done]).
  assert (S0 : net_safe (in_dgram cfg) w0) by (split; try done; intros s; set_solver).
  unfold mbind at 1, M_bind at 1. destruct (start_data cfg q w0) as [[main poll] w1| |] eqn:Ed; [|done|done].
  intros Hr. apply (start_data_safe cfg q w0 (main, poll) w1) in Ed as [S1 C1]; [|done..].
  destruct (keeps_both _ _ _ _ _ (keeps_services cfg main poll) S1 Hr) as [S2 C2]. split; [done|].
  intros Hc. rewrite C2. by apply C1.
Qed.

End start_safe.
