(* ===== verification/Spw.v ===== *)
(** * The SpaceWire side (src/spw.c)

    What spw.c keeps ([struct spw_state]) and what it asks of the STAR API,
    which is not part of the repository: its answers are the members of the
    class [Star], indexed by the number of the call, so that a theorem for every
    instance holds for every behaviour of the device.  Handles are numbers that
    are not used again.  A transfer operation is disposed by the bridge, or, as
    the comments of spw.c say, freed by the API when it is cancelled; using a
    handle after that, or disposing it twice, is stuck, like taking a mutex
    twice.

    A function of spw.c is a computation [SM] over [sworld], which contains the
    [world] of the network side: the sink of a received packet runs there. *)

From Stdlib Require Import String List.
From stdpp Require Import base tactics option list list_numbers gmap sets.
From Stdlib Require Import ZArith Lia Bool.
From S2P Require Import Prelude.
From S2P Require Import CString.
From S2P Require Import Sys.
From S2P Require Import NetConn.
From S2P Require Import NetRecv.
From S2P Require Import Net.

Local Open Scope Z_scope.

(** ** The STAR API *)

(** STAR_TRANSFER_STATUS, as far as spw.c tells its values apart *)
Inductive star_status : Type := StarComplete | StarCancelled | StarOther.

#[export] Instance star_status_eq_dec : EqDecision star_status.
Proof. solve_decision. Defined.

(** STAR_CFG_SPW_LINK_STATUS: the two members spw.c sets, and the other ones *)
Record link_status : Type := mk_link { link_start : Z; link_running : Z; link_rest : Z }.

Class Star : Type := {
  s_create : nat -> bool; (* an address, a packet, an operation, memory, a thread *)
  s_submit : nat -> bool;
  s_wait : nat -> star_status;
  s_data : nat -> list Z; (* the packet of a completed receive operation *)
  s_devices : nat -> option (list Z); (* 0: a device that cannot be enumerated *)
  s_mask : nat -> Z; (* the channels of a device *)
  s_open : nat -> Z; (* the channel opened, or 0 *)
  s_cfg : nat -> Z; (* a CFG_ function: 0 is success *)
  s_word : nat -> Z; (* a value a CFG_ function stores *)
  s_link : nat -> link_status;
  s_stop : nat -> bool; (* another thread has set [shutdown] *)
  s_rmap_write : Z -> Z -> Z -> Z -> list Z -> option (list Z); (* RMAP_BuildWriteCommandPacket *)
  s_rmap_read : Z -> Z -> Z -> Z -> Z -> option (list Z) (* RMAP_BuildReadCommandPacket *)
}.

(** ** State *)

Inductive op_kind : Type :=
| RxOp
| TxOp (address : option (list Z)) (data : list Z).

(** a transfer operation the bridge has created and not disposed; [freed]: the
    API has, on cancelling it *)
Record op : Type := mk_op { op_what : op_kind; op_freed : bool }.

(** The arrays are indexed by 0 and 1. *)
Record spw_state : Type := mk_spw {
  dev_id : Z;
  p_address : option (list Z);
  spw_chan_id : list Z;
  tx_status : star_status;
  shutdown : bool;
  tx_op : list (option nat);
  rx_op : list (option nat)
}.

Definition spw_calloc : spw_state := mk_spw 0 None [0; 0] StarOther false [None; None] [None; None].

Inductive star_direction : Type := DirIn | DirOut | DirInOut.

(** what the bridge asks of the API, and what becomes of a transmission *)
Inductive sact : Type :=
| STx (chan : Z) (address : option (list Z)) (data : list Z) (* a packet submitted *)
| SStatus (s : star_status) (* the outcome of a transmission *)
| SRaw (chan : Z) (data : list Z) (* [STAR_transmitPacket] *)
| SSleep (usec : Z)
| SCancel (o : nat) (* [STAR_cancelTransferOperationWaits] *)
| SReset (dev : Z)
| SLinkSpeed (dev link rate : Z)
| SLink (dev port : Z) (s : link_status)
| SOpen (dev : Z) (dir : star_direction) (chan : Z) (queued : bool) (id : Z)
| SThread (chan : Z)
| SJoin (chan : Z)
| SCloseChan (chan : Z)
| SMsg (s : string) (args : list Z).

Record sworld : Type := mk_sw {
  scall : nat;
  spw : option spw_state; (* [cfg->spw] *)
  ops : gmap nat op;
  items : gset nat; (* stream items and buffers not released yet *)
  addrs : nat; (* addresses not destroyed yet *)
  locked : bool; (* [pus_op_lock] *)
  snet : world;
  slog : list sact
}.

Definition sw_call (w : sworld) : sworld :=
  mk_sw (S (scall w)) (spw w) (ops w) (items w) (addrs w) (locked w) (snet w) (slog w).
Definition sw_spw (w : sworld) (s : option spw_state) : sworld :=
  mk_sw (scall w) s (ops w) (items w) (addrs w) (locked w) (snet w) (slog w).
Definition sw_ops (w : sworld) (o : gmap nat op) : sworld :=
  mk_sw (scall w) (spw w) o (items w) (addrs w) (locked w) (snet w) (slog w).
Definition sw_items (w : sworld) (i : gset nat) : sworld :=
  mk_sw (scall w) (spw w) (ops w) i (addrs w) (locked w) (snet w) (slog w).
Definition sw_addrs (w : sworld) (n : nat) : sworld :=
  mk_sw (scall w) (spw w) (ops w) (items w) n (locked w) (snet w) (slog w).
Definition sw_lock (w : sworld) (b : bool) : sworld :=
  mk_sw (scall w) (spw w) (ops w) (items w) (addrs w) b (snet w) (slog w).
Definition sw_net (w : sworld) (n : world) : sworld :=
  mk_sw (scall w) (spw w) (ops w) (items w) (addrs w) (locked w) n (slog w).
Definition sw_log (w : sworld) (l : list sact) : sworld :=
  mk_sw (scall w) (spw w) (ops w) (items w) (addrs w) (locked w) (snet w) (slog w ++ l).

(** ** Computations *)

Inductive sresult (A : Type) : Type :=
| SRet (a : A) (w : sworld)
| SExit (w : sworld)
| SStuck.

Arguments SRet {A} a w.
Arguments SExit {A} w.
Arguments SStuck {A}.

Definition SM (A : Type) : Type := sworld -> sresult A.

#[export] Instance SM_ret : MRet SM := fun A a w => SRet a w.

#[export] Instance SM_bind : MBind SM := fun A B f m w =>
  match m w with SRet a w' => f a w' | SExit w' => SExit w' | SStuck => SStuck end.

Definition sstuck {A} : SM A := fun _ => SStuck.
Definition sexit {A} : SM A := fun w => SExit w.
Definition slift {A} (o : option A) : SM A :=
  match o with Some a => mret a | None => sstuck end.
Definition say (a : sact) : SM () := fun w => SRet () (sw_log w [a]).
Definition fatal {A} (s : string) (args : list Z) : SM A := fun w => SExit (sw_log w [SMsg s args]).

(** a computation of the network side *)
Definition on_net {A} (m : M A) : SM A := fun w =>
  match m (snet w) with
  | Ret a n => SRet a (sw_net w n)
  | Exit n => SExit (sw_net w n)
  | Stuck => SStuck
  end.

(** the number of the call *)
Definition scallno : SM nat := fun w => SRet (scall w) (sw_call w).

(** [cfg->spw->...]: a null pointer is not dereferenced *)
Definition get_spw : SM spw_state := fun w =>
  match spw w with Some s => SRet s w | None => SStuck end.

Definition put_spw (s : spw_state) : SM () := fun w => SRet () (sw_spw w (Some s)).

Definition op_lock : SM () := fun w => if locked w then SStuck else SRet () (sw_lock w true).
Definition op_unlock : SM () := fun w => if locked w then SRet () (sw_lock w false) else SStuck.

(** an element of one of the arrays *)
Definition slot {A} (l : list A) (chan : Z) : SM A :=
  if chan <? 0 then sstuck else slift (l !! Z.to_nat chan).

Definition with_rx_op (s : spw_state) (chan : Z) (o : option nat) : spw_state :=
  mk_spw (dev_id s) (p_address s) (spw_chan_id s) (tx_status s) (shutdown s) (tx_op s)
    (<[Z.to_nat chan := o]> (rx_op s)).
Definition with_tx_op (s : spw_state) (chan : Z) (o : option nat) : spw_state :=
  mk_spw (dev_id s) (p_address s) (spw_chan_id s) (tx_status s) (shutdown s)
    (<[Z.to_nat chan := o]> (tx_op s)) (rx_op s).
Definition with_tx_status (s : spw_state) (t : star_status) : spw_state :=
  mk_spw (dev_id s) (p_address s) (spw_chan_id s) t (shutdown s) (tx_op s) (rx_op s).
Definition with_shutdown (s : spw_state) (b : bool) : spw_state :=
  mk_spw (dev_id s) (p_address s) (spw_chan_id s) (tx_status s) b (tx_op s) (rx_op s).
Definition with_dev_id (s : spw_state) (d : Z) : spw_state :=
  mk_spw d (p_address s) (spw_chan_id s) (tx_status s) (shutdown s) (tx_op s) (rx_op s).
Definition with_chan_id (s : spw_state) (chan id : Z) : spw_state :=
  mk_spw (dev_id s) (p_address s) (<[Z.to_nat chan := id]> (spw_chan_id s)) (tx_status s)
    (shutdown s) (tx_op s) (rx_op s).
Definition with_address (s : spw_state) (a : option (list Z)) : spw_state :=
  mk_spw (dev_id s) a (spw_chan_id s) (tx_status s) (shutdown s) (tx_op s) (rx_op s).

Definition set_ops (f : gmap nat op -> gmap nat op) : SM () := fun w => SRet () (sw_ops w (f (ops w))).

Section star.
Context {A : Star}.

(** a new transfer operation; [None] is [NULL] *)
Definition star_create_op (k : op_kind) : SM (option nat) := fun w =>
  if s_create (scall w)
  then SRet (Some (scall w)) (sw_call (sw_ops w (<[scall w := mk_op k false]> (ops w))))
  else SRet None (sw_call w).

(** a new stream item or buffer *)
Definition star_create_item : SM (option nat) := fun w =>
  if s_create (scall w) then SRet (Some (scall w)) (sw_call (sw_items w ({[scall w]} ∪ items w)))
  else SRet None (sw_call w).

Definition star_destroy_item (i : nat) : SM () := fun w =>
  if decide (i ∈ items w) then SRet () (sw_items w (items w ∖ {[i]})) else SStuck.

(** an operation that is neither disposed nor freed *)
Definition star_live (o : nat) : SM op := fun w =>
  match ops w !! o with
  | Some x => if op_freed x then SStuck else SRet x w
  | None => SStuck
  end.

Definition star_dispose_op (o : nat) : SM () :=
  _ ← star_live o; set_ops (delete o).

Definition star_submit (chan : Z) (o : nat) : SM bool :=
  x ← star_live o;
  t ← scallno;
  if s_submit t then
    _ ← (match op_what x with TxOp a d => say (STx chan a d) | RxOp => mret () end);
    mret true
  else mret false.

(** the API knows a freed operation still *)
Definition star_known (o : nat) : SM () := fun w =>
  match ops w !! o with Some _ => SRet () w | None => SStuck end.

(** what has become of an operation; a cancelled one is freed *)
Definition star_status_of (o : nat) : SM star_status :=
  x ← star_live o;
  t ← scallno;
  if decide (s_wait t = StarCancelled) then
    _ ← set_ops (insert o (mk_op (op_what x) true));
    mret StarCancelled
  else mret (s_wait t).

(** the return of [STAR_waitOnTransferOperationCompletion]; when it returns is not
    part of the computation: see [needs_device] of SpwConc.v and [CWait] of Locks.v *)
Definition star_wait (o : nat) : SM star_status :=
  x ← star_live o;
  s ← star_status_of o;
  _ ← (match op_what x with TxOp _ _ => say (SStatus s) | RxOp => mret () end);
  mret s.

(** [STAR_getTransferOperationStatus]: of a freed operation too *)
Definition star_get_status (o : nat) : SM star_status := fun w =>
  match ops w !! o with
  | Some x => if op_freed x then SRet StarCancelled w else star_status_of o w
  | None => SStuck
  end.

(** ** Receiving *)

Definition spw_setup_rx_op (chan : Z) : SM nat :=
  o ← star_create_op RxOp;
  match o with
  | None => fatal "Error creating transfer operation\n" []
  | Some o =>
      _ ← op_lock;
      st ← get_spw;
      old ← slot (rx_op st) chan;
      _ ← (match old with Some old => star_dispose_op old | None => mret () end);
      st ← get_spw;
      _ ← put_spw (with_rx_op st chan (Some o));
      _ ← op_unlock;
      st ← get_spw;
      id ← slot (spw_chan_id st) chan;
      ok ← star_submit id o;
      if negb (ok : bool) then fatal "Error during transfer submission\n" [] else mret o
  end.

(** [cfg->spw->shutdown], which other threads may have set *)
Definition get_shutdown : SM bool :=
  t ← scallno;
  st ← get_spw;
  if s_stop t then _ ← put_spw (with_shutdown st true); mret true else mret (shutdown st).

(** [STAR_getPacketData] of the item of a completed operation: the octets, in a
    buffer of their own *)
Definition star_packet (o : nat) : SM (option nat * list Z) :=
  _ ← star_live o;
  t ← scallno;
  b ← star_create_item;
  mret (b, s_data t).

(** how an iteration of [poll_spw] ends; [buf] is the buffer of the last packet *)
Inductive poll_end : Type :=
| PollOn (buf : option nat)
| PollBreak (buf : option nat).

(** one iteration of the loop of [poll_spw] *)
Definition poll_round (sink : option (Z -> list Z -> SM ())) (chan : Z) (buf : option nat)
  : SM poll_end :=
  stop ← get_shutdown;
  if (stop : bool) then mret (PollBreak buf) else
  _ ← (match buf with Some b => star_destroy_item b | None => mret () end);
  o ← spw_setup_rx_op chan;
  stop ← get_shutdown;
  if (stop : bool) then mret (PollBreak None) else
  s ← star_wait o;
  if decide (s = StarCancelled) then
    _ ← say (SMsg "TRANSFER CANCELLED!\n" []); mret (PollBreak None) else
  stop ← get_shutdown;
  if (stop : bool) then mret (PollBreak None) else
  if negb (bool_decide (s = StarComplete)) then
    _ ← say (SMsg "TRANSFER INCOMPLETE!\n" []); mret (PollOn None) else
  '(buf, d) ← star_packet o;
  _ ← (match sink with Some f => f chan d | None => mret () end);
  mret (PollOn buf).

(** [n] iterations of [poll_spw], or fewer if it breaks *)
Fixpoint poll_spw (n : nat) (sink : option (Z -> list Z -> SM ())) (chan : Z) (buf : option nat)
  : SM poll_end :=
  match n with
  | O => mret (PollOn buf)
  | S n =>
      r ← poll_round sink chan buf;
      match r with PollOn buf => poll_spw n sink chan buf | PollBreak buf => mret (PollBreak buf) end
  end.

(** ** Sending *)

Definition spw_send_packet_chan (cfg : bridge_cfg) (chan : Z) (b : list Z) : SM () :=
  st ← get_spw;
  item ← star_create_item;
  match item with
  | None => fatal "Error creating stream item\n" []
  | Some item =>
      o ← star_create_op (TxOp (p_address st) b);
      match o with
      | None => fatal "Error creating transfer operation\n" []
      | Some o =>
          _ ← op_lock;
          st ← get_spw;
          _ ← slot (tx_op st) chan;
          _ ← put_spw (with_tx_op st chan (Some o));
          _ ← op_unlock;
          st ← get_spw;
          id ← slot (spw_chan_id st) chan;
          ok ← star_submit id o;
          if negb (ok : bool) then fatal "Error during transfer submission\n" [] else
          s ← star_wait o;
          st ← get_spw;
          _ ← put_spw (with_tx_status st s);
          if negb (bool_decide (s = StarComplete)) then fatal "Error during transfer\n" [] else
          _ ← say (SSleep (pkt_throttle_usec cfg));
          _ ← op_lock;
          st ← get_spw;
          mine ← slot (tx_op st) chan;
          _ ← (if decide (mine = Some o) then put_spw (with_tx_op st chan None) else mret ());
          _ ← op_unlock;
          _ ← star_dispose_op o;
          star_destroy_item item
      end
  end.

Definition spw_send_packet (cfg : bridge_cfg) (b : list Z) : SM () := spw_send_packet_chan cfg 0 b.

Definition RMAP_DEFAULT_SRC : Z := 0x30.
Definition RMAP_DEFAULT_KEY : Z := 0xab.

(** [write] is the operation octet: a write unless it is zero *)
Definition spw_rmap_cmd (dst : Z) (write : bool) (addr : Z) (data : list Z) : SM () :=
  let pkt := if write then s_rmap_write dst RMAP_DEFAULT_SRC RMAP_DEFAULT_KEY addr data
             else s_rmap_read dst RMAP_DEFAULT_SRC RMAP_DEFAULT_KEY addr 5 in
  match pkt with
  | None => say (SMsg "Failure in  RMAP_Build%sCommandPacket()\n" [Z.b2z write])
  | Some pkt =>
      st ← get_spw;
      id ← slot (spw_chan_id st) 0;
      _ ← say (SRaw id pkt);
      t ← scallno;
      if negb (bool_decide (s_wait t = StarComplete)) then
        say (SMsg "Error transmitting RMAP %s command\n" [Z.b2z write])
      else mret ()
  end.

(** ** Monitor mode *)

(** a null [cfg->spw] is not ready *)
Definition spw_link_ready (cfg : bridge_cfg) : SM bool := fun w =>
  match spw w with
  | None => SRet false w
  | Some st =>
      (id0 ← slot (spw_chan_id st) 0;
       if enable_monitor cfg then
         if c_true id0 then id1 ← slot (spw_chan_id st) 1; mret (c_true id1) else mret false
       else mret (c_true id0)) w
  end.

Definition spw_dir (c c' : Z) : string :=
  ("SPW[" ++ dec c ++ "]->SPW[" ++ dec c' ++ "]")%string.

Definition spw_pkt_sink_monitor {K : Kernel} (cfg : bridge_cfg) (chan : Z) (b : list Z) : SM () :=
  let other := 1 - chan in
  let dir := spw_dir (if chan =? 0 then channel cfg else channel2 cfg)
                     (if chan =? 0 then channel2 cfg else channel cfg) in
  _ ← on_net (emit_act (ADebug "spw_debug_print" dir b));
  ready ← spw_link_ready cfg;
  _ ← (if (ready : bool) then spw_send_packet_chan cfg other b else mret ());
  on_net (net_forward_to_clients cfg b).

(** the function [cfg->pkt_sink] points to *)
Definition pkt_sink_of {K : Kernel} (cfg : bridge_cfg) : option (Z -> list Z -> SM ()) :=
  match pkt_sink cfg with
  | None => None
  | Some SpwPktSinkMonitor => Some (spw_pkt_sink_monitor cfg)
  | Some NetPktSink => Some (fun _ b => on_net (net_pkt_sink cfg b))
  end.


(** ** Setup *)

(** the printout of the detected devices *)
Fixpoint list_devices (i : Z) (devs : list Z) : SM () :=
  match devs with
  | [] => mret ()
  | d :: devs =>
      _ ← (if c_true d then
             t ← scallno;
             if s_create t then say (SMsg "\t[%u]: %s\n" [i])
             else say (SMsg "\t[%u]: invalid device descriptor string\n" [i])
           else say (SMsg "\t[%u]: non-fatal error: cannot enumerate device\n" [i]));
      list_devices (i + 1) devs
  end.

Definition select_device (num : Z) : SM Z :=
  t ← scallno;
  match s_devices t with
  | None => fatal "No SpaceWire devices detected!" []
  | Some devs =>
      _ ← say (SMsg "%u device(s) detected:\n" [zlen devs]);
      _ ← list_devices 0 devs;
      if num >=? zlen devs then
        fatal "Cannot select device with number %u, only %u available\n" [num; zlen devs]
      else
        dev ← slot devs num;
        if negb (c_true dev) then
          fatal "Cannot select device with number %u, failed to enumerate it\n" [num]
        else mret dev
  end.

(** the channels the error message lists *)
Definition available (mask : Z) : list Z :=
  filter (fun i => Z.testbit mask i = true) (seqZ 1 31).

Definition select_channel (chan : Z) : SM Z :=
  t ← scallno;
  let mask := u32 (s_mask t) in
  if (mask =? 0) || (mask =? 1) then fatal "Error: no valid channels on device\n" [] else
  if chan >? 31 then fatal "Invalid channel number %u, valid ones are 0-31\n" [chan] else
  if c_true (Z.land mask (Z.shiftl 1 chan)) then mret chan
  else fatal "Non-existent channel, available channels are: " (available mask).

Definition set_link_speed (dev link rate : Z) : SM () :=
  _ ← say (SMsg "Setting link speed to %g Mbps\n" [rate]);
  t ← scallno;
  if c_true (s_cfg t) then fatal "Failed to set link speed for link %u\n" [link] else
  _ ← say (SLinkSpeed dev (u8 link) (u32 rate));
  t ← scallno;
  say (SMsg "Actual link speed is %u Mbps\n" [s_word t]).

Definition start_link (chan link : Z) : SM () :=
  st ← get_spw;
  t ← scallno;
  port_status ← (if c_true (s_cfg t) then
                   _ ← say (SMsg "Failed to read port status control\n" []); mret 0
                 else mret (s_word t));
  t ← scallno;
  ls ← (if c_true (s_cfg t) then
          _ ← say (SMsg "Failed to read link status, forcing a clean slate\n" []);
          mret (mk_link 0 0 0)
        else mret (s_link t));
  let ls := mk_link 1 1 (link_rest ls) in
  t ← scallno;
  _ ← (if c_true (s_cfg t) then say (SMsg "Failed to set link to running state\n" [])
       else say (SLink (dev_id st) (u8 chan) ls));
  t ← scallno;
  if c_true (s_cfg t) then say (SMsg "Failed to read measured link speed\n" [])
  else say (SMsg "Measured RX link speed %g Mbps\n" [s_word t]).

(** [nchans] *)
Definition nchans (cfg : bridge_cfg) : Z := if enable_monitor cfg then 2 else 1.

(** [STAR_openChannelToLocalDevice], in both directions, for element [i] *)
Definition open_channel (i chan : Z) : SM () :=
  st ← get_spw;
  t ← scallno;
  let id := s_open t in
  _ ← say (SOpen (dev_id st) DirInOut (u8 chan) true id);
  st ← get_spw;
  _ ← put_spw (with_chan_id st i id);
  if negb (c_true id) then fatal "Error opening channel\n" []
  else say (SMsg "Selected channel %u\n" [chan]).

Definition star_create_address (path : list Z) : SM (option (list Z)) := fun w =>
  if s_create (scall w) then SRet (Some path) (sw_call (sw_addrs w (S (addrs w))))
  else SRet None (sw_call w).

(** device and channels: up to the opened channels *)
Definition spw_open (cfg : bridge_cfg) : SM () :=
  t ← scallno;
  if negb (s_create t) then fatal "calloc" [] else
  _ ← put_spw spw_calloc;
  dev ← select_device (dev_num cfg);
  st ← get_spw;
  _ ← put_spw (with_dev_id st dev);
  _ ← (if reset_dev cfg then
         _ ← say (SMsg "Attempting to reset the device, this will have an effect on other ports!\n" []);
         say (SReset dev)
       else mret ());
  _ ← select_channel (channel cfg);
  _ ← (if enable_monitor cfg then
         if channel2 cfg =? channel cfg then
           fatal "monitor mode requires two different channels, refusing to proceed\n" []
         else _ ← select_channel (channel2 cfg); mret ()
       else mret ());
  _ ← set_link_speed dev (link_id cfg) (sig_rate cfg);
  _ ← (if enable_monitor cfg then set_link_speed dev (channel2 cfg) (sig_rate cfg) else mret ());
  _ ← open_channel 0 (channel cfg);
  if enable_monitor cfg then open_channel 1 (channel2 cfg) else mret ().

(** the routing path: none in monitor mode *)
Definition spw_make_address (cfg : bridge_cfg) : SM () :=
  p ← (if enable_monitor cfg then mret []
       else
         p ← slift (rdn (path cfg) 0 (path_len cfg));
         _ ← say (SMsg "Using path of %u nodes: " (path_len cfg :: p));
         mret p);
  a ← star_create_address p;
  st ← get_spw;
  put_spw (with_address st a).

Definition start_poll_thread (i : Z) : SM () :=
  t ← scallno;
  if negb (s_create t) then fatal "Epic fail in pthread_create: %s\n" []
  else say (SThread i).

Definition spw_setup_device (cfg : bridge_cfg) : SM () :=
  _ ← spw_open cfg;
  _ ← spw_make_address cfg;
  _ ← start_poll_thread 0;
  if enable_monitor cfg then start_poll_thread 1 else mret ().

Definition spw_start_link (cfg : bridge_cfg) : SM () :=
  _ ← start_link (channel cfg) (link_id cfg);
  if enable_monitor cfg then start_link (channel2 cfg) (channel2 cfg) else mret ().

(** ** Shutdown *)

Definition spw_request_shutdown : SM () :=
  st ← get_spw; put_spw (with_shutdown st true).

(** [f] for every channel *)
Definition each_chan (cfg : bridge_cfg) (f : Z -> SM ()) : SM () :=
  _ ← f 0; if enable_monitor cfg then f 1 else mret ().

Definition cancel_rx (chan : Z) : SM () :=
  st ← get_spw;
  o ← slot (rx_op st) chan;
  match o with
  | None => mret ()
  | Some o => _ ← star_known o; say (SCancel o)
  end.

Definition spw_stop_poll (cfg : bridge_cfg) : SM () :=
  _ ← spw_request_shutdown;
  _ ← op_lock;
  _ ← each_chan cfg cancel_rx;
  _ ← op_unlock;
  each_chan cfg (fun i => say (SJoin i)).

(** an operation of a slot, unless it was cancelled *)
Definition dispose_slot (o : option nat) : SM () :=
  match o with
  | None => mret ()
  | Some o => s ← star_get_status o; if decide (s = StarCancelled) then mret () else star_dispose_op o
  end.

Definition dispose_chan (chan : Z) : SM () :=
  st ← get_spw;
  o ← slot (rx_op st) chan;
  _ ← dispose_slot o;
  st ← get_spw;
  o ← slot (tx_op st) chan;
  dispose_slot o.

Definition spw_dispose_ops (cfg : bridge_cfg) : SM () :=
  _ ← op_lock;
  _ ← each_chan cfg dispose_chan;
  op_unlock.

Definition close_chan (chan : Z) : SM () :=
  st ← get_spw;
  id ← slot (spw_chan_id st) chan;
  if c_true id then say (SCloseChan id) else mret ().

Definition destroy_address : SM () := fun w => SRet () (sw_addrs w (pred (addrs w))).
Definition free_spw : SM () := fun w => SRet () (sw_spw w None).

Definition spw_release (cfg : bridge_cfg) : SM () :=
  st ← get_spw;
  _ ← (match p_address st with
       | Some _ => destroy_address
       | None => mret ()
       end);
  _ ← each_chan cfg close_chan;
  free_spw.

End star.

(** ** The calls of the network side *)

(** [spw_send_packet] and [spw_rmap_cmd] are actions of the log of the network
    side; [replay] runs them. *)
Section replay.
Context {A : Star}.

Definition replay_act (cfg : bridge_cfg) (a : act) : SM () :=
  match a with
  | ASpw b => spw_send_packet cfg b
  | ARmapCmd dst w addr data => spw_rmap_cmd dst w addr data
  | _ => mret ()
  end.

Fixpoint replay (cfg : bridge_cfg) (l : list act) : SM () :=
  match l with [] => mret () | a :: l => _ ← replay_act cfg a; replay cfg l end.
End replay.
