(* ===== verification/SpwSpec.v ===== *)
(** * What the SpaceWire side does

    Theorems on [Spw]: sending transmits the packet once and leaves nothing
    behind; the polling thread hands every received packet to the sink, in
    order, with a bounded number of handles; the setup opens the channels asked
    for; monitor mode copies packets verbatim; the shutdown releases what was
    created. *)

From Stdlib Require Import String List Sorted.
From stdpp Require Import base tactics option list list_numbers gmap sets.
From Stdlib Require Import ZArith Lia Bool.
From S2P Require Import Prelude.
From S2P Require Import CString.
From S2P Require Import Sys.
From S2P Require Import NetConn.
From S2P Require Import NetRecv.
From S2P Require Import Net.
From S2P Require Import NetSpec.
From S2P Require Import Spw.

Local Open Scope Z_scope.

(** ** Weakest preconditions, as for the network side *)

Definition swp {A} (m : SM A) (EX : sworld -> Prop) (Q : A -> sworld -> Prop) (w : sworld) : Prop :=
  match m w with
  | SRet a w' => Q a w'
  | SExit w' => EX w'
  | SStuck => False
  end.

Lemma swp_ret {A} (a : A) EX (Q : A -> sworld -> Prop) w : Q a w -> swp (mret a) EX Q w.
Proof. done. Qed.

Lemma swp_bind {A B} (m : SM A) (f : A -> SM B) EX (Q : B -> sworld -> Prop) w :
  swp m EX (fun a w' => swp (f a) EX Q w') w -> swp (m ≫= f) EX Q w.
Proof. unfold swp, mbind, SM_bind. by destruct (m w). Qed.

Lemma swp_mono {A} (m : SM A) (EX EX' : sworld -> Prop) (Q Q' : A -> sworld -> Prop) w :
  swp m EX Q w -> (forall a w', Q a w' -> Q' a w') -> (forall w', EX w' -> EX' w') ->
  swp m EX' Q' w.
Proof. unfold swp. destruct (m w); naive_solver. Qed.

(** the next part of a sequence *)
Lemma swp_next {A B} (m : SM A) (f : A -> SM B) (P : A -> sworld -> Prop) EX (Q : B -> sworld -> Prop) w :
  swp m EX P w -> (forall a w', P a w' -> swp (f a) EX Q w') -> swp (m ≫= f) EX Q w.
Proof. intros Hm Hf. apply swp_bind. by eapply swp_mono. Qed.

Lemma swp_next2 {A B C} (m : SM A) (f : A -> SM B) (g : B -> SM C) (P : B -> sworld -> Prop) EX
    (Q : C -> sworld -> Prop) w :
  swp (m ≫= f) EX P w -> (forall a w', P a w' -> swp (g a) EX Q w') ->
  swp (m ≫= (fun x => f x ≫= g)) EX Q w.
Proof.
  unfold swp, mbind, SM_bind. destruct (m w) as [a w1| |]; [|done|done].
  destruct (f a w1); naive_solver.
Qed.

Lemma swp_run {A B} (m : SM A) (f : A -> SM B) EX (Q : B -> sworld -> Prop) w a w' :
  m w = SRet a w' -> swp (f a) EX Q w' -> swp (m ≫= f) EX Q w.
Proof. intros H Hf. apply swp_bind. unfold swp at 1. by rewrite H. Qed.

Lemma swp_eq {A} (m : SM A) EX (Q : A -> sworld -> Prop) w a w' :
  m w = SRet a w' -> Q a w' -> swp m EX Q w.
Proof. unfold swp. by intros ->. Qed.

Lemma swp_net {A} (m : M A) (EX : world -> Prop) (Q : A -> world -> Prop) w :
  wp m EX Q (snet w) ->
  swp (on_net m) (fun w' => exists n, w' = sw_net w n /\ EX n) (fun a w' => exists n, w' = sw_net w n /\ Q a n) w.
Proof. unfold wp, swp, on_net. destruct (m (snet w)); naive_solver. Qed.

(** ** States *)

(** a state of the subsystem with its arrays, at rest: no handle will be given
    out twice, and the mutex is free *)
Record at_rest (w : sworld) (st : spw_state) : Prop := {
  ar_spw : spw w = Some st;
  ar_chan : length (spw_chan_id st) = 2%nat;
  ar_tx : length (tx_op st) = 2%nat;
  ar_rx : length (rx_op st) = 2%nat;
  ar_lock : locked w = false;
  ar_ops : forall o, (scall w <= o)%nat -> ops w !! o = None;
  ar_items : forall i, (scall w <= i)%nat -> i ∉ items w
}.

Definition chan_ok (c : Z) : Prop := c = 0 \/ c = 1.

Definition chan_id (st : spw_state) (c : Z) : Z := nth (Z.to_nat c) (spw_chan_id st) 0.

Lemma slot_run {B} (l : list B) c w : length l = 2%nat -> chan_ok c ->
  exists x, l !! Z.to_nat c = Some x /\ slot l c w = SRet x w.
Proof.
  intros Hl Hc. assert (Hx : exists x, l !! Z.to_nat c = Some x).
  { apply lookup_lt_is_Some. destruct Hc as [-> | ->]; simpl; lia. }
  destruct Hx as [x Hx]. exists x. split; [done|]. unfold slot.
  assert (E : c <? 0 = false) by (destruct Hc as [-> | ->]; done). by rewrite E, Hx.
Qed.

Lemma chan_id_run st c w : length (spw_chan_id st) = 2%nat -> chan_ok c ->
  slot (spw_chan_id st) c w = SRet (chan_id st c) w.
Proof.
  intros Hl Hc. destruct (slot_run (spw_chan_id st) c w Hl Hc) as (x & Hx & ->).
  unfold chan_id. by rewrite (nth_lookup_Some _ _ _ _ Hx).
Qed.

(** only the number of the call, the log, the state and the network differ *)
Record kept (w w' : sworld) : Prop := {
  kp_ops : ops w' = ops w;
  kp_items : items w' = items w;
  kp_addrs : addrs w' = addrs w;
  kp_lock : locked w' = locked w;
  kp_call : (scall w <= scall w')%nat
}.

Lemma kept_refl w : kept w w.
Proof. by split. Qed.

Lemma kept_trans w w1 w2 : kept w w1 -> kept w1 w2 -> kept w w2.
Proof. intros [] []. split; try congruence. lia. Qed.

Section spec.
Context {A : Star}.

(** the device does what it is asked *)
Definition cooperative : Prop :=
  forall t, s_create t = true /\ s_submit t = true /\ s_wait t = StarComplete.

(** nobody asks the threads to stop *)
Definition running (st : spw_state) : Prop := shutdown st = false /\ forall t, s_stop t = false.

Lemma not_cooperative t : s_create t = false \/ s_submit t = false \/ s_wait t <> StarComplete ->
  ~ cooperative.
Proof. intros H Hc. destruct (Hc t) as (H1 & H2 & H3). rewrite H1, H2, H3 in H. naive_solver. Qed.

Lemma star_live_run o k w : ops w !! o = Some (mk_op k false) -> star_live o w = SRet (mk_op k false) w.
Proof. unfold star_live. by intros ->. Qed.

Lemma status_run o k w : ops w !! o = Some (mk_op k false) ->
  star_status_of o w = if decide (s_wait (scall w) = StarCancelled)
    then SRet StarCancelled (sw_ops (sw_call w) (<[o := mk_op k true]> (ops w)))
    else SRet (s_wait (scall w)) (sw_call w).
Proof.
  intros H. unfold star_status_of, mbind, SM_bind. rewrite (star_live_run _ _ _ H). simpl. by case_decide.
Qed.

(** waiting for a receive operation, and for a transmission *)
Lemma wait_rx_run o w : ops w !! o = Some (mk_op RxOp false) -> star_wait o w = star_status_of o w.
Proof.
  intros H. unfold star_wait, mbind, SM_bind. rewrite (star_live_run _ _ _ H). by destruct (star_status_of o w).
Qed.

Lemma wait_tx_run o a d w : ops w !! o = Some (mk_op (TxOp a d) false) ->
  star_wait o w = if decide (s_wait (scall w) = StarCancelled)
    then SRet StarCancelled (sw_log (sw_ops (sw_call w) (<[o := mk_op (TxOp a d) true]> (ops w))) [SStatus StarCancelled])
    else SRet (s_wait (scall w)) (sw_log (sw_call w) [SStatus (s_wait (scall w))]).
Proof.
  intros H. unfold star_wait, mbind, SM_bind. rewrite (star_live_run _ _ _ H). rewrite (status_run _ _ _ H).
  by case_decide.
Qed.

(** ** Sending *)

(** the state after a packet was sent on channel [c] *)
Definition after_send (st : spw_state) (c : Z) : spw_state :=
  with_tx_op (with_tx_status st StarComplete) c None.

(** what a packet sent leaves in the log *)
Definition sent_log (cfg : bridge_cfg) (st : spw_state) (c : Z) (b : list Z) : list sact :=
  [STx (chan_id st c) (p_address st) b; SStatus StarComplete; SSleep (pkt_throttle_usec cfg)].

Lemma send_chan_run cfg c b w st : at_rest w st -> chan_ok c ->
  swp (spw_send_packet_chan cfg c b) (fun _ => ~ cooperative)
    (fun _ w' => kept w w' /\ spw w' = Some (after_send st c) /\ snet w' = snet w /\
       slog w' = slog w ++ sent_log cfg st c b) w.
Proof.
  intros [Hs Hc Ht Hr Hl Ho Hi] Hch. destruct w as [n sp os it ad lk nw lg]. simpl in *. subst sp lk.
  unfold spw_send_packet_chan. eapply swp_run; [reflexivity|].
  eapply swp_bind. unfold swp at 1, star_create_item. simpl. destruct (s_create n) eqn:En; [|apply (not_cooperative n); tauto].
  eapply swp_bind. unfold swp at 1, star_create_op. simpl.
  destruct (s_create (S n)) eqn:En'; [|apply (not_cooperative (S n)); tauto].
  unfold sw_call, sw_items, sw_ops. simpl.
  eapply swp_run; [reflexivity|]. eapply swp_run; [reflexivity|].
  destruct (slot_run (tx_op st) c (mk_sw (S (S n)) (Some st) (<[S n:=mk_op (TxOp (p_address st) b) false]> os)
    ({[n]} ∪ it) ad true nw lg) Ht Hch) as (old & _ & E).
  eapply swp_run; [exact E|].
  eapply swp_run; [reflexivity|]. eapply swp_run; [reflexivity|]. eapply swp_run; [reflexivity|].
  eapply swp_run; [by apply chan_id_run|].
  unfold sw_lock, sw_spw. simpl.
  eapply swp_bind. unfold star_submit. eapply swp_run; [apply star_live_run; simpl; apply lookup_insert_eq|].
  eapply swp_run; [reflexivity|].
  match goal with |- context [s_submit ?t] =>
    destruct (s_submit t) eqn:Esub; [|apply (not_cooperative t); tauto] end.
  simpl op_what. cbv iota.
  eapply swp_run; [reflexivity|]. apply swp_ret. cbn beta iota delta [negb].
  eapply swp_bind. unfold swp at 1. rewrite (wait_tx_run (S n) (p_address st) b) by (simpl; apply lookup_insert_eq).
  set (t := scall _). destruct (s_wait t) eqn:Ew; case_decide; try congruence.
  2: { eapply swp_run; [reflexivity|]. eapply swp_run; [reflexivity|]. apply (not_cooperative t). rewrite Ew. by right; right. }
  2: { eapply swp_run; [reflexivity|]. eapply swp_run; [reflexivity|]. apply (not_cooperative t). rewrite Ew. by right; right. }
  eapply swp_run; [reflexivity|]. eapply swp_run; [reflexivity|]. cbn beta iota delta [negb bool_decide].
  unfold sw_call, sw_log, sw_spw, sw_lock. simpl.
  eapply swp_run; [reflexivity|]. eapply swp_run; [reflexivity|]. eapply swp_run; [reflexivity|].
  unfold sw_log, sw_lock. simpl.
  assert (Hlt : (Z.to_nat c < length (tx_op st))%nat) by (destruct Hch as [-> | ->]; simpl; lia).
  eapply swp_run.
  { unfold slot. assert (E' : c <? 0 = false) by (destruct Hch as [-> | ->]; done). rewrite E'.
    simpl. rewrite list_lookup_insert_eq by done. reflexivity. }
  rewrite decide_True by done.
  eapply swp_run; [reflexivity|]. eapply swp_run; [reflexivity|].
  unfold star_dispose_op. eapply swp_bind.
  eapply swp_run; [apply star_live_run; simpl; apply lookup_insert_eq|]. eapply swp_eq; [reflexivity|].
  unfold star_destroy_item, sw_ops. simpl. unfold swp. rewrite decide_True by set_solver.
  split; [split; simpl; try done; [|set_solver|lia]|split; [|split; [done|]]].
  - rewrite delete_insert_eq. apply delete_id, Ho. lia.
  - unfold after_send, with_tx_op, with_tx_status. simpl. by rewrite list_insert_insert_eq.
  - by rewrite <- !app_assoc.
Qed.

Lemma after_send_rest w w' st c : at_rest w st -> kept w w' -> spw w' = Some (after_send st c) ->
  at_rest w' (after_send st c).
Proof.
  intros [] [] Hs. split; simpl; rewrite ?length_insert; try done; try congruence.
  - intros o Ho. rewrite kp_ops0. apply ar_ops0. lia.
  - intros i Hi. rewrite kp_items0. apply ar_items0. lia.
Qed.

(** ** Receiving *)

(** no transmission is under way *)
Definition tx_clear (st : spw_state) : Prop := Forall (fun o => o = None) (tx_op st).

(** what the polling threads rely on is the same in both states *)
Definition same_rx (st st' : spw_state) : Prop :=
  rx_op st' = rx_op st /\ spw_chan_id st' = spw_chan_id st /\ p_address st' = p_address st /\
  (running st -> running st') /\ (tx_clear st -> tx_clear st').

Lemma same_rx_refl st : same_rx st st.
Proof. done. Qed.

Lemma same_rx_send st c : same_rx st (after_send st c).
Proof. do 4 (split; [done|]). intros H. by apply Forall_insert. Qed.

Lemma same_rx_trans st st1 st2 : same_rx st st1 -> same_rx st1 st2 -> same_rx st st2.
Proof.
  intros (? & ? & ? & ? & ?) (? & ? & ? & ? & ?). split; [congruence|]. split; [congruence|].
  split; [congruence|auto].
Qed.

(** a step that changes nothing a polling thread relies on, nor the network *)
Record idle (w w' : sworld) (st' : spw_state) : Prop := {
  id_rest : at_rest w' st';
  id_kept : kept w w';
  id_net : snet w' = snet w
}.

Lemma get_shutdown_run w st : at_rest w st ->
  exists b w' st', get_shutdown w = SRet b w' /\ idle w w' st' /\ same_rx st st' /\ slog w' = slog w /\
    (running st -> b = false).
Proof.
  intros [Hs Hc Ht Hr Hl Ho Hi]. destruct w as [n sp os it ad lk nw lg]. simpl in *. subst sp lk.
  unfold get_shutdown, mbind, SM_bind, scallno, get_spw, sw_call. simpl.
  destruct (s_stop n) eqn:En.
  - assert (Hno : ~ running st) by (intros [_ H]; by rewrite H in En).
    exists true. eexists _, (with_shutdown st true). split; [reflexivity|]. split; [|split; [done|by split]].
    split; [split; simpl; try done; intros; [apply Ho|apply Hi]; lia|split; simpl; try done; lia|done].
  - exists (shutdown st). eexists _, st. split; [reflexivity|]. split; [|split; [done|split; [done|by intros []]]].
    split; [split; simpl; try done; intros; [apply Ho|apply Hi]; lia|split; simpl; try done; lia|done].
Qed.

Definition drop_op (o : option nat) (m : gmap nat op) : gmap nat op :=
  match o with Some o => delete o m | None => m end.

Definition set_of (b : option nat) : gset nat := match b with Some b => {[b]} | None => ∅ end.

(** the receive operation of channel [c] *)
Definition rx_slot (st : spw_state) (c : Z) : option nat := default None (rx_op st !! Z.to_nat c).

(** the operation of the channel is live, and so is the buffer of the thread *)
Record owned (w : sworld) (st : spw_state) (c : Z) (buf : option nat) : Prop := {
  ow_op : forall o, rx_slot st c = Some o -> ops w !! o = Some (mk_op RxOp false);
  ow_buf : set_of buf ⊆ items w
}.

Lemma dispose_run o x w : ops w !! o = Some (mk_op x false) ->
  star_dispose_op o w = SRet () (sw_ops w (delete o (ops w))).
Proof. intros H. unfold star_dispose_op, mbind, SM_bind. by rewrite (star_live_run _ _ _ H). Qed.

Lemma setup_rx_run w st c buf : at_rest w st -> owned w st c buf -> chan_ok c ->
  swp (spw_setup_rx_op c) (fun _ => ~ cooperative)
    (fun o w' => at_rest w' (with_rx_op st c (Some o)) /\
       ops w' = <[o := mk_op RxOp false]> (drop_op (rx_slot st c) (ops w)) /\
       items w' = items w /\ addrs w' = addrs w /\ snet w' = snet w /\ slog w' = slog w /\
       (scall w <= o)%nat /\ (scall w <= scall w')%nat) w.
Proof.
  intros [Hs Hc Ht Hr Hl Ho Hi] [Hop _] Hch. destruct w as [n sp os it ad lk nw lg]. simpl in *. subst sp lk.
  destruct (slot_run (rx_op st) c (mk_sw (S n) (Some st) (<[n := mk_op RxOp false]> os) it ad true nw lg) Hr Hch)
    as (old & Hold & Eold).
  assert (Eslot : rx_slot st c = old) by (unfold rx_slot; by rewrite Hold).
  unfold spw_setup_rx_op. eapply swp_bind. unfold swp at 1, star_create_op. simpl.
  destruct (s_create n) eqn:En; [|apply (not_cooperative n); tauto]. unfold sw_call, sw_ops. simpl.
  eapply swp_run; [reflexivity|]. eapply swp_run; [reflexivity|]. eapply swp_run; [exact Eold|].
  assert (Hd : (match old with Some old => star_dispose_op old | None => mret () end)
      (mk_sw (S n) (Some st) (<[n := mk_op RxOp false]> os) it ad true nw lg) =
      SRet () (mk_sw (S n) (Some st) (<[n := mk_op RxOp false]> (drop_op old os)) it ad true nw lg)).
  { destruct old as [old|]; [|done].
    pose proof (Hop old Eslot) as Hlive.
    assert (Hne : n <> old) by (intros ->; rewrite Ho in Hlive by lia; done).
    erewrite dispose_run; [|simpl; rewrite lookup_insert_ne by done; exact Hlive].
    unfold sw_ops. simpl. by rewrite delete_insert_ne by done. }
  eapply swp_run; [exact Hd|].
  eapply swp_run; [reflexivity|]. eapply swp_run; [reflexivity|]. eapply swp_run; [reflexivity|].
  eapply swp_run; [reflexivity|]. eapply swp_run; [by apply chan_id_run|].
  unfold sw_lock, sw_spw. simpl.
  unfold star_submit. eapply swp_bind. eapply swp_run; [apply star_live_run; simpl; apply lookup_insert_eq|].
  eapply swp_run; [reflexivity|].
  match goal with |- context [s_submit ?t] =>
    destruct (s_submit t) eqn:Esub; [|apply (not_cooperative t); tauto] end.
  simpl op_what. cbv iota.
  eapply swp_run; [reflexivity|]. apply swp_ret. cbn beta iota delta [negb]. apply swp_ret.
  rewrite Eslot. simpl. split; [|repeat split; try done; lia]. split; simpl; try done.
  - by rewrite length_insert.
  - intros o Hn. rewrite lookup_insert_ne by lia. destruct old; simpl; [|apply Ho; lia].
    rewrite lookup_delete_None. right. apply Ho. lia.
  - intros i Hn. apply Hi. lia.
Qed.

(** [new_op w st w' st' c buf buf' fr]: the operation of channel [c] was replaced
    by a new one, [fr] says whether that was freed; the buffer of the last packet
    was replaced by [buf'] *)
Record new_op (w : sworld) (st : spw_state) (w' : sworld) (st' : spw_state) (c : Z)
    (buf buf' : option nat) (fr : bool) : Prop := {
  no_rest : at_rest w' st';
  no_op : exists o, rx_op st' = <[Z.to_nat c := Some o]> (rx_op st) /\
    ops w' = <[o := mk_op RxOp fr]> (drop_op (rx_slot st c) (ops w)) /\ (scall w <= o)%nat;
  no_chan : spw_chan_id st' = spw_chan_id st;
  no_address : p_address st' = p_address st;
  no_running : running st -> running st';
  no_items : items w' = set_of buf' ∪ (items w ∖ set_of buf);
  no_addrs : addrs w' = addrs w;
  no_call : (scall w <= scall w')%nat;
  no_tx : tx_clear st -> tx_clear st';
  no_fresh : forall b, buf' = Some b -> (scall w <= b)%nat
}.

Lemma rx_slot_insert st st' c o : length (rx_op st) = 2%nat -> chan_ok c ->
  rx_op st' = <[Z.to_nat c := Some o]> (rx_op st) -> rx_slot st' c = Some o.
Proof.
  intros Hl Hc E. unfold rx_slot. rewrite E, list_lookup_insert_eq; [done|].
  destruct Hc as [-> | ->]; simpl; lia.
Qed.

Lemma new_op_idle w st w1 st1 w2 st2 c buf buf' fr : new_op w st w1 st1 c buf buf' fr ->
  idle w1 w2 st2 -> same_rx st1 st2 -> new_op w st w2 st2 c buf buf' fr.
Proof.
  intros [Hr (o & H1 & H2 & H3) H4 H5 H9 H6 H7 H8 H10 H11] [Hr2 [K1 K2 K3 K4 K5] _] (E1 & E2 & E3 & E4 & E5).
  split; try done; try congruence; [|auto|lia|auto]. exists o. split; [congruence|]. by rewrite K1.
Qed.

(** nothing but the flag was looked at, or the operation was replaced *)
Definition stopped (w : sworld) (st : spw_state) (w' : sworld) (st' : spw_state) (c : Z)
    (buf buf' : option nat) : Prop :=
  (idle w w' st' /\ same_rx st st' /\ buf' = buf) \/ exists fr, new_op w st w' st' c buf buf' fr.

(** only messages were printed *)
Definition say_only (w w' : sworld) : Prop :=
  snet w' = snet w /\ exists l, slog w' = slog w ++ l /\
    Forall (fun a => match a with SMsg _ _ => True | _ => False end) l.

Lemma say_only_refl w w' : snet w' = snet w -> slog w' = slog w -> say_only w w'.
Proof. intros Hn Hl. split; [done|]. exists []. by rewrite app_nil_r. Qed.

Lemma say_only_trans w w1 w2 : say_only w w1 -> say_only w1 w2 -> say_only w w2.
Proof.
  intros (A1 & l & A2 & A3) (B1 & k & B2 & B3). split; [congruence|]. exists (l ++ k).
  rewrite B2, A2, app_assoc. split; [done|]. by apply Forall_app.
Qed.

Lemma say_only_msg w w' s a : snet w' = snet w -> slog w' = slog w ++ [SMsg s a] -> say_only w w'.
Proof. intros Hn Hl. split; [done|]. exists [SMsg s a]. split; [done|]. by apply Forall_cons_2. Qed.

(** what a sink promises: it leaves the SpaceWire side as it was *)
Record sink_frame (w : sworld) (st : spw_state) (w' : sworld) : Prop := {
  sf_rest : exists st', at_rest w' st' /\ same_rx st st';
  sf_kept : kept w w'
}.

(** the packets [bs] were handed to a sink, one after the other; [R] is what the
    sink does with one *)
Inductive handed (R : list Z -> sworld -> sworld -> Prop) : sworld -> list (list Z) -> sworld -> Prop :=
| handed_nil w w' : say_only w w' -> handed R w [] w'
| handed_cons w w1 w2 w3 b bs :
    say_only w w1 -> R b w1 w2 -> handed R w2 bs w3 -> handed R w (b :: bs) w3.

Lemma handed_say R w w1 bs w2 : say_only w w1 -> handed R w1 bs w2 -> handed R w bs w2.
Proof.
  intros H1 H. revert H1. destruct H as [w' w'' H2 | w' w3 w4 w5 b bs' H2 H3 H4]; intros H1.
  - apply handed_nil. by eapply say_only_trans.
  - eapply handed_cons; [by eapply say_only_trans|exact H3|exact H4].
Qed.

Section channel.
Context (c : Z) (c_ok : chan_ok c).

Lemma free_buf_run w st buf : at_rest w st -> owned w st c buf ->
  exists w', (match buf with Some b => star_destroy_item b | None => mret () end) w = SRet () w' /\
    at_rest w' st /\ owned w' st c None /\ ops w' = ops w /\ items w' = items w ∖ set_of buf /\
    addrs w' = addrs w /\ snet w' = snet w /\ slog w' = slog w /\ scall w' = scall w.
Proof using c_ok.
  intros Hr Ho. destruct buf as [b|]; simpl.
  - exists (sw_items w (items w ∖ {[b]})). unfold star_destroy_item.
    destruct Ho as [Ho Hb]. simpl in Hb. rewrite decide_True by set_solver. split; [done|].
    destruct Hr. split; [split; simpl; try done; set_solver|]. split; [|done].
    split; [done|]. simpl. set_solver.
  - exists w. split; [done|]. split; [done|]. split; [done|]. repeat split; try done. set_solver.
Qed.

Lemma call_idle w st : at_rest w st -> idle w (sw_call w) st.
Proof using c_ok.
  intros [Hs Hc Ht Hr Hl Ho Hi]. split; [split; simpl; try done|split; simpl; try done; lia|done].
  - intros o Hn. apply Ho. lia.
  - intros i Hn. apply Hi. lia.
Qed.

Lemma new_op_live w st w' st' buf buf' : at_rest w st ->
  new_op w st w' st' c buf buf' false ->
  exists o, rx_slot st' c = Some o /\ ops w' !! o = Some (mk_op RxOp false) /\ (scall w <= o)%nat.
Proof using c_ok.
  intros Hr [_ (o & E1 & E2 & Hn)]. exists o.
  split; [eapply rx_slot_insert; [by destruct Hr|done|exact E1]|]. split; [|done].
  by rewrite E2, lookup_insert_eq.
Qed.

(** the iteration up to the submitted operation *)
Lemma poll_head_run w st buf : at_rest w st -> owned w st c buf ->
  swp (_ ← (match buf with Some b => star_destroy_item b | None => mret () end); spw_setup_rx_op c)
    (fun _ => ~ cooperative)
    (fun o w' => exists st', new_op w st w' st' c buf None false /\ rx_slot st' c = Some o /\
       snet w' = snet w /\ slog w' = slog w) w.
Proof using c_ok.
  intros Hr Hown.
  destruct (free_buf_run w st buf Hr Hown) as (w1 & E1 & Hr1 & Hown1 & O1 & I1 & A1 & N1 & L1 & C1).
  eapply swp_run; [exact E1|]. eapply swp_mono; [by eapply setup_rx_run| |done].
  intros o w2 (Hr2 & O2 & I2 & A2 & N2 & L2 & Hn & C2). exists (with_rx_op st c (Some o)).
  split; [|split; [|split; congruence]].
  - split; simpl; try done; try congruence; [|set_solver].
    exists o. split; [done|]. split; [congruence|lia].
  - eapply (rx_slot_insert st); [by destruct Hr|done|done].
Qed.

(** waiting for the operation *)
Lemma poll_wait_run w st w1 st1 o buf : at_rest w st ->
  new_op w st w1 st1 c buf None false -> rx_slot st1 c = Some o ->
  exists s w2, star_wait o w1 = SRet s w2 /\ snet w2 = snet w1 /\ slog w2 = slog w1 /\
    new_op w st w2 st1 c buf None (bool_decide (s = StarCancelled)) /\
    (cooperative -> s = StarComplete).
Proof using c_ok.
  intros Hr N1 Es. destruct (new_op_live w st w1 st1 buf None Hr N1) as (o' & Eo & Ho & Hn).
  assert (o' = o) as -> by congruence. rewrite (wait_rx_run _ _ Ho), (status_run _ _ _ Ho).
  destruct N1 as [Hr1 (o1 & E1 & E2 & E3) N3 N4 N8 N5 N6 N7 N9 N10].
  assert (o1 = o) as ->.
  { pose proof (rx_slot_insert st st1 c o1 ltac:(by destruct Hr) c_ok E1). congruence. }
  assert (Hlt : (o < scall w1)%nat).
  { destruct (decide (o < scall w1)%nat); [done|]. rewrite (ar_ops _ _ Hr1 o) in Ho by lia. done. }
  destruct Hr1 as [Hs Hch Ht Hrx Hl Hop Hi]. case_decide.
  - eexists _, _. split; [reflexivity|]. split; [done|]. split; [done|].
    rewrite bool_decide_eq_true_2 by done.
    split; [|intros Hco; destruct (Hco (scall w1)) as (_ & _ & ?); congruence].
    split; simpl; try done; [|exists o|lia].
    + split; simpl; try done; intros i Hin; [|apply Hi; lia].
      rewrite lookup_insert_ne by lia. apply Hop. lia.
    + by rewrite E2, insert_insert_eq.
  - eexists _, _. split; [reflexivity|]. split; [done|]. split; [done|].
    rewrite bool_decide_eq_false_2 by done. split; [|intros Hco; by apply (Hco (scall w1))]. split; simpl; try done; [|by exists o|lia].
    split; simpl; try done; intros i Hin; [apply Hop|apply Hi]; lia.
Qed.

Lemma new_op_from w st w1 st1 w2 st2 buf buf' fr : idle w w1 st1 -> same_rx st st1 ->
  new_op w1 st1 w2 st2 c buf buf' fr -> new_op w st w2 st2 c buf buf' fr.
Proof using c_ok.
  intros [_ [K1 K2 K3 K4 K5] _] (E1 & E2 & E3 & E4 & E5) [Hr (o & H1 & H2 & H3) H4 H5 H9 H6 H7 H8 H10 H11].
  split; try done; try congruence; [|auto|lia|auto|intros b Hb; specialize (H11 b Hb); lia]. exists o. split; [congruence|]. split; [|lia].
  rewrite H2, K1. unfold rx_slot. by rewrite E1.
Qed.

Lemma owned_idle w st w1 st1 buf : idle w w1 st1 -> same_rx st st1 -> owned w st c buf ->
  owned w1 st1 c buf.
Proof using c_ok.
  intros [_ [K1 K2 K3 K4 K5] _] (E1 & E2 & E3 & _) [O1 O2]. split; [|by rewrite K2].
  intros o. unfold rx_slot. rewrite E1, K1. apply O1.
Qed.

(** ** The polling thread *)

(** at most one operation of the channel and one buffer of the thread, whatever
    has been received; nothing else was touched *)
Record tidy (w : sworld) (st : spw_state) (buf : option nat) (w' : sworld) (st' : spw_state)
    (buf' : option nat) : Prop := {
  td_rest : at_rest w' st';
  td_ops : drop_op (rx_slot st' c) (ops w') = drop_op (rx_slot st c) (ops w);
  td_items : items w' ⊆ set_of buf' ∪ (items w ∖ set_of buf);
  td_addrs : addrs w' = addrs w;
  td_chan : spw_chan_id st' = spw_chan_id st;
  td_address : p_address st' = p_address st;
  td_running : running st -> running st';
  td_call : (scall w <= scall w')%nat
}.

Lemma tidy_refl w st buf : at_rest w st -> tidy w st buf w st buf.
Proof using c_ok.
  intros Hr. split; try done. intros x Hx. rewrite elem_of_union, elem_of_difference.
  destruct (decide (x ∈ set_of buf)); [by left|by right].
Qed.

Lemma tidy_trans w st buf w1 st1 buf1 w2 st2 buf2 :
  tidy w st buf w1 st1 buf1 -> tidy w1 st1 buf1 w2 st2 buf2 -> tidy w st buf w2 st2 buf2.
Proof using c_ok.
  intros [A1 A2 A3 A4 A5 A6 A8 A7] [B1 B2 B3 B4 B5 B6 B8 B7].
  split; try done; try congruence; [set_solver|auto|lia].
Qed.

Lemma tidy_idle w st buf w' st' : idle w w' st' -> same_rx st st' -> tidy w st buf w' st' buf.
Proof using c_ok.
  intros [Hr [K1 K2 K3 K4 K5] _] (E1 & E2 & E3 & E4 & _). split; try done.
  - unfold rx_slot. by rewrite K1, E1.
  - rewrite K2. intros x Hx. rewrite elem_of_union, elem_of_difference.
    destruct (decide (x ∈ set_of buf)); [by left|by right].
Qed.

Lemma tidy_new_op w st buf w' st' buf' fr : at_rest w st -> new_op w st w' st' c buf buf' fr ->
  tidy w st buf w' st' buf'.
Proof using c_ok.
  intros Hr [N1 (o & E1 & E2 & E3) N3 N4 N8 N5 N6 N7 _ _]. split; try done; [|by rewrite N5].
  rewrite (rx_slot_insert st st' c o ltac:(by destruct Hr) c_ok E1). simpl. rewrite E2, delete_insert_eq.
  apply delete_id. destruct (rx_slot st c); simpl; [|by apply (ar_ops _ _ Hr)].
  rewrite lookup_delete_None. right. by apply (ar_ops _ _ Hr).
Qed.

Lemma tidy_stopped w st w' st' buf buf' : at_rest w st -> stopped w st w' st' c buf buf' ->
  tidy w st buf w' st' buf'.
Proof using c_ok.
  intros Hr [(H1 & H2 & ->)|(fr & H)]; [by apply tidy_idle|by eapply tidy_new_op].
Qed.

Lemma owned_new_op w st w' st' buf buf' : at_rest w st -> new_op w st w' st' c buf buf' false ->
  owned w' st' c buf'.
Proof using c_ok.
  intros Hr N. destruct (new_op_live w st w' st' buf buf' Hr N) as (o & E1 & E2 & _).
  split; [|rewrite (no_items _ _ _ _ _ _ _ _ N); set_solver]. intros o' Ho'. congruence.
Qed.

(** the calls that returned the packets, in the order of time *)
Definition in_order (n : nat) (ts : list nat) (n' : nat) : Prop :=
  StronglySorted lt ts /\ Forall (fun t => (n <= t < n')%nat) ts.

Lemma in_order_cons n t n1 ts n2 : (n <= t < n1)%nat -> (n1 <= n2)%nat -> in_order n1 ts n2 ->
  in_order n (t :: ts) n2.
Proof using c_ok.
  intros Ht H12 [H1 H2]. split.
  - apply SSorted_cons; [done|]. eapply Forall_impl; [exact H2|]. simpl. lia.
  - apply Forall_cons_2; [lia|]. eapply Forall_impl; [exact H2|]. simpl. lia.
Qed.

Lemma in_order_weak n n1 ts n2 : (n <= n1)%nat -> in_order n1 ts n2 -> in_order n ts n2.
Proof using c_ok. intros Hn [H1 H2]. split; [done|]. eapply Forall_impl; [exact H2|]. simpl. lia. Qed.

Section sink.
Context (ids : list Z) (address : option (list Z)).
Context (sink : Z -> list Z -> SM ()) (EX : Prop) (P : world -> Prop) (R : list Z -> sworld -> sworld -> Prop).
Definition wired (st : spw_state) : Prop := spw_chan_id st = ids /\ p_address st = address.

Hypothesis sink_ok : forall w st t, at_rest w st -> wired st -> P (snet w) ->
  swp (sink c (s_data t)) (fun _ => EX \/ ~ cooperative)
    (fun _ w' => sink_frame w st w' /\ P (snet w') /\ R (s_data t) w w') w.

(** one iteration: what it hands to the sink *)
Definition round_post (w : sworld) (st : spw_state) (buf : option nat) (r : poll_end)
    (w' : sworld) : Prop :=
  match r with
  | PollBreak buf' =>
      exists st', stopped w st w' st' c buf buf' /\ say_only w w' /\ ~ (cooperative /\ running st)
  | PollOn buf' =>
      exists st', new_op w st w' st' c buf buf' false /\
        (say_only w w' /\ buf' = None /\ ~ cooperative \/
         exists t w1, (scall w <= t < scall w')%nat /\ say_only w w1 /\ R (s_data t) w1 w' /\
           P (snet w'))
  end.

(** a completed operation: the packet goes to the sink *)
Lemma poll_tail_run w st w1 st1 o buf : at_rest w st -> wired st ->
  new_op w st w1 st1 c buf None false -> rx_slot st1 c = Some o -> P (snet w1) -> say_only w w1 ->
  swp ('(buf, d) ← star_packet o; _ ← sink c d; mret (PollOn buf)) (fun _ => EX \/ ~ cooperative)
    (round_post w st buf) w1.
Proof using c_ok sink_ok.
  intros Hr [Hw1 Hw2] N1 Es HP HL. destruct (new_op_live w st w1 st1 buf None Hr N1) as (o' & Eo & Ho & Hn).
  assert (o' = o) as -> by congruence. unfold star_packet. eapply swp_bind.
  eapply swp_run; [by apply star_live_run|]. eapply swp_run; [reflexivity|].
  set (t := scall w1). set (w2 := sw_call w1).
  assert (Hw3 : exists buf' w3, star_create_item w2 = SRet buf' w3 /\ at_rest w3 st1 /\
    (forall b, buf' = Some b -> (scall w1 <= b)%nat) /\ ops w3 = ops w1 /\ items w3 = set_of buf' ∪ items w1 /\ addrs w3 = addrs w1 /\
    scall w3 = S (S (scall w1)) /\ snet w3 = snet w1 /\ slog w3 = slog w1).
  { destruct N1 as [[Hs Hch Htx Hrx Hl Hop Hi]]. unfold star_create_item, w2. simpl.
    destruct (s_create _); eexists _, _; (split; [reflexivity|]); simpl;
      (split; [split; simpl; try done|split; [intros b [= <-]; lia || done|repeat split; try done; set_solver]]).
    all: intros i Hi'; try (apply Hop; lia); try (apply Hi; lia).
    assert (i ∉ items w1) by (apply Hi; lia). assert (i <> S (scall w1)) by lia. set_solver. }
  destruct Hw3 as (buf' & w3 & E3 & Hr3 & F3 & O3 & I3 & A3 & C3 & M3 & L3).
  eapply swp_run; [exact E3|]. apply swp_ret. cbn beta iota. eapply swp_bind.
  assert (Hw : wired st1) by (destruct N1; split; congruence).
  eapply swp_mono; [exact (sink_ok w3 st1 t Hr3 Hw ltac:(by rewrite M3))| |done].
  intros [] w5 ([(st5 & Hr5 & S5) [K1 K2 K3 K4 K5]] & HP5 & HR). apply swp_ret.
  exists st5. split.
  - destruct N1 as [_ (o1 & E1 & E2 & E4) N3 N4 N8 N5 N6 N7 N9 _]. destruct S5 as (S1 & S2 & S3' & S4 & S6).
    assert (Ei : items w5 = set_of buf' ∪ (items w ∖ set_of buf)).
    { rewrite K2, I3, N5. cbn [set_of]. by rewrite (left_id_L ∅ _). }
    split; try done; try congruence; [|auto|lia|auto|intros b Hb; specialize (F3 b Hb); lia].
    exists o1. split; [congruence|]. split; [congruence|lia].
  - right. exists t, w3. split; [destruct N1; unfold t; lia|]. split; [|done].
    eapply say_only_trans; [exact HL|]. by apply say_only_refl.
Qed.

(** an iteration that ends before a packet has arrived *)
Lemma round_break w st w' st' buf buf' : stopped w st w' st' c buf buf' ->
  snet w' = snet w -> slog w' = slog w -> ~ running st -> round_post w st buf (PollBreak buf') w'.
Proof using Type.
  intros Hs Hn Hl Hr. exists st'. split; [done|]. split; [by apply say_only_refl|tauto].
Qed.

Lemma poll_round_run w st buf : at_rest w st -> wired st -> owned w st c buf -> P (snet w) ->
  swp (poll_round (Some sink) c buf) (fun _ => EX \/ ~ cooperative) (round_post w st buf) w.
Proof using c_ok sink_ok.
  intros Hr Hwired Hown HP. unfold poll_round.
  destruct (get_shutdown_run w st Hr) as (b1 & w1 & st1 & E1 & I1 & S1 & L1 & R1).
  pose proof (id_net _ _ _ I1) as M1.
  eapply swp_run; [exact E1|]. destruct b1.
  { apply swp_ret, (round_break w st w1 st1); [by left|done|done|]. intros Hrun. by specialize (R1 Hrun). }
  eapply swp_next2.
  { eapply swp_mono; [apply (poll_head_run w1 st1); [apply I1|by eapply owned_idle]|by intros|by right]. }
  cbn beta. intros o w2 (st2 & N2 & Es2 & M2 & L2). apply (new_op_from w st) in N2; [|done|done].
  destruct (get_shutdown_run w2 st2 (no_rest _ _ _ _ _ _ _ _ N2)) as (b3 & w3 & st3 & E3 & I3 & S3 & L3 & R3).
  pose proof (id_net _ _ _ I3) as M3. pose proof (new_op_idle _ _ _ _ _ _ _ _ _ _ N2 I3 S3) as N3.
  eapply swp_run; [exact E3|]. destruct b3.
  { apply swp_ret, (round_break w st w3 st3); [right; by exists false|congruence|congruence|].
    intros Hrun. apply (no_running _ _ _ _ _ _ _ _ N2) in Hrun. by specialize (R3 Hrun). }
  assert (Es3 : rx_slot st3 c = Some o) by (unfold rx_slot; by rewrite (proj1 S3)).
  destruct (poll_wait_run w st w3 st3 o buf Hr N3 Es3) as (s & w4 & E4 & M4 & L4 & N4 & C4).
  eapply swp_run; [exact E4|]. case_decide as Hs.
  { eapply swp_run; [reflexivity|]. apply swp_ret. exists st3.
    split; [right; exists true; rewrite bool_decide_eq_true_2 in N4 by done; by destruct N4 as [[]]|].
    split; [eapply say_only_msg; simpl; [congruence|]; by rewrite L4, L3, L2, L1|].
    intros [Hco _]. specialize (C4 Hco). congruence. }
  rewrite bool_decide_eq_false_2 in N4 by done.
  destruct (get_shutdown_run w4 st3 (no_rest _ _ _ _ _ _ _ _ N4)) as (b5 & w5 & st5 & E5 & I5 & S5 & L5 & R5).
  pose proof (id_net _ _ _ I5) as M5. pose proof (new_op_idle _ _ _ _ _ _ _ _ _ _ N4 I5 S5) as N5.
  assert (L05 : slog w5 = slog w) by congruence. assert (M05 : snet w5 = snet w) by congruence.
  eapply swp_run; [exact E5|]. destruct b5.
  { apply swp_ret, (round_break w st w5 st5); [right; by exists false|done|done|].
    intros Hrun. apply (no_running _ _ _ _ _ _ _ _ N4) in Hrun. by specialize (R5 Hrun). }
  case_bool_decide; cbn beta iota delta [negb].
  - apply (poll_tail_run w st w5 st5); [done|done|done| |by rewrite M05|by apply say_only_refl].
    unfold rx_slot. by rewrite (proj1 S5).
  - eapply swp_run; [reflexivity|]. apply swp_ret. exists st5.
    split; [by destruct N5 as [[]]|]. left. split; [|split; [done|by intros Hco%C4]].
    eapply say_only_msg; simpl; [done|]. by rewrite L05.
Qed.

(** after some iterations: the packets [s_data t], for the calls [ts], were handed
    to the sink *)
Definition poll_post (n : nat) (w : sworld) (st : spw_state) (buf : option nat) (r : poll_end)
    (w' : sworld) : Prop :=
  exists st' ts buf', tidy w st buf w' st' buf' /\ in_order (scall w) ts (scall w') /\
    handed R w (map s_data ts) w' /\
    (r = PollBreak buf' \/ r = PollOn buf' /\ owned w' st' c buf') /\
    (cooperative -> running st -> r = PollOn buf' /\ length ts = n).

Lemma poll_spw_run n : forall w st buf, at_rest w st -> wired st -> owned w st c buf -> P (snet w) ->
  swp (poll_spw n (Some sink) c buf) (fun _ => EX \/ ~ cooperative)
    (poll_post n w st buf) w.
Proof using c_ok sink_ok.
  induction n as [|n IH]; intros w st buf Hr Hw Hown HP; cbn [poll_spw].
  { apply swp_ret. exists st, [], buf. split; [by apply tidy_refl|]. split; [by split; [apply SSorted_nil|]|].
    split; [by apply handed_nil, say_only_refl|]. split; [by right|done]. }
  eapply swp_next; [by apply (poll_round_run w st)|]. intros r w1 H1. destruct r as [buf1|buf1].
  - destruct H1 as (st1 & N1 & Hcase). pose proof (tidy_new_op _ _ _ _ _ _ _ Hr N1) as T1.
    pose proof (owned_new_op _ _ _ _ _ _ Hr N1) as Hown1.
    assert (HP1 : P (snet w1)).
    { destruct Hcase as [[[-> _] _]|(t & w0 & _ & _ & _ & H)]; done. }
    assert (Hw1 : wired st1) by (destruct Hw, T1; split; congruence).
    eapply swp_mono; [apply (IH w1 st1); [apply T1|done|done|done]| |done].
    intros r w2 (st2 & ts & buf2 & T2 & O2 & D2 & Hend & Hco).
    pose proof (td_call _ _ _ _ _ _ T1). pose proof (td_call _ _ _ _ _ _ T2).
    destruct Hcase as [(Hsay & _ & Hnc)|(t & w0 & Ht & Hsay & HR & _)].
    + exists st2, ts, buf2. split; [by eapply tidy_trans|]. split; [by eapply in_order_weak|].
      split; [by eapply handed_say|]. split; [done|]. tauto.
    + exists st2, (t :: ts), buf2. split; [by eapply tidy_trans|].
      split; [by eapply in_order_cons|]. split; [by eapply handed_cons|]. split; [done|].
      intros H1 H2. destruct Hco as [-> <-]; [done|by apply T1|done].
  - destruct H1 as (st1 & S1 & Hsay & Hnc). apply swp_ret. exists st1, [], buf1.
    split; [by apply tidy_stopped|]. split; [by split; [apply SSorted_nil|]|].
    split; [by apply handed_nil|]. split; [by left|]. tauto.
Qed.

End sink.
End channel.
End spec.
