(* ===== verification/SpwLife.v ===== *)
(** * The life of the SpaceWire side

    From [spw_setup_device], which opens the device and creates the polling
    threads, to [spw_release]: what was opened, what is set up, and that
    nothing but the last packet buffer of a thread is left at the end. *)

From Stdlib Require Import String List.
From stdpp Require Import base tactics option list list_numbers gmap sets.
From Stdlib Require Import ZArith Lia Bool.
From S2P Require Import Prelude.
From S2P Require Import CString.
From S2P Require Import Sys.
From S2P Require Import NetConn.
From S2P Require Import NetRecv.
From S2P Require Import Net.
From S2P Require Import Spw.
From S2P Require Import SpwSpec.

Local Open Scope Z_scope.

(** ** Computations that talk to the device *)

(** a log without the messages *)
Definition effects (l : list sact) : list sact :=
  List.filter (fun a => match a with SMsg _ _ => false | _ => true end) l.

Lemma effects_app l k : effects (l ++ k) = effects l ++ effects k.
Proof. apply List.filter_app. Qed.

(** neither the state nor the network side changes *)
Record talked (w w' : sworld) : Prop := {
  tk_kept : kept w w';
  tk_spw : spw w' = spw w;
  tk_net : snet w' = snet w
}.

Lemma talked_refl w : talked w w.
Proof. split; [apply kept_refl|done|done]. Qed.

Lemma talked_trans w w1 w2 : talked w w1 -> talked w1 w2 -> talked w w2.
Proof. intros [] []. split; [by eapply kept_trans|congruence|congruence]. Qed.

(** [m] ends the process, or returns [a] with the effects [e] and [Q a e] *)
Definition does {B} (m : SM B) (Q : B -> list sact -> Prop) : Prop := forall w,
  swp m (fun _ => True)
    (fun a w' => talked w w' /\ exists l, slog w' = slog w ++ l /\ Q a (effects l)) w.

Lemma does_ret {B} (a : B) (Q : B -> list sact -> Prop) : Q a [] -> does (mret a) Q.
Proof. intros H w. split; [apply talked_refl|]. exists []. by rewrite app_nil_r. Qed.

Lemma does_bind {B C} (m : SM B) (f : B -> SM C) P (Q : C -> list sact -> Prop) :
  does m P -> (forall a e, P a e -> does (f a) (fun b e' => Q b (e ++ e'))) -> does (m ≫= f) Q.
Proof.
  intros Hm Hf w. eapply swp_next; [apply Hm|]. intros a w1 (T1 & l1 & L1 & H1).
  eapply swp_mono; [apply (Hf a _ H1)| |done]. intros b w2 (T2 & l2 & L2 & H2).
  split; [by eapply talked_trans|]. exists (l1 ++ l2). by rewrite L2, L1, app_assoc, effects_app.
Qed.

Lemma does_mono {B} (m : SM B) (P Q : B -> list sact -> Prop) :
  does m P -> (forall a e, P a e -> Q a e) -> does m Q.
Proof. intros Hm H w. eapply swp_mono; [apply Hm| |done]. naive_solver. Qed.

Lemma does_say a : does (say a) (fun _ e => e = effects [a]).
Proof. intros w. split; [by split|]. by exists [a]. Qed.

Lemma does_msg s l : does (say (SMsg s l)) (fun _ e => e = []).
Proof. apply does_say. Qed.

Lemma does_call : does scallno (fun _ e => e = []).
Proof. intros w. split; [split; [split; simpl; try done; lia|done|done]|]. exists []. by rewrite app_nil_r. Qed.

Lemma does_fatal {B} s l (Q : B -> list sact -> Prop) : does (fatal s l) Q.
Proof. done. Qed.

(** one more step of a sequence that has no effect but a message or a call *)
Lemma does_seq {B C} (m : SM B) (f : B -> SM C) (Q : C -> list sact -> Prop) :
  does m (fun _ e => e = []) -> (forall a, does (f a) Q) -> does (m ≫= f) Q.
Proof. intros Hm Hf. eapply does_bind; [exact Hm|]. intros a e ->. apply Hf. Qed.

Create HintDb does.
#[export] Hint Resolve does_msg does_call does_fatal : does.

Ltac dstep := apply does_seq; [by eauto with does|intros ?].

(** [since w0 st e w]: the state is [st] now, and the effects since [w0] are [e] *)
Record since (w0 : sworld) (st : spw_state) (e : list sact) (w : sworld) : Prop := {
  si_kept : kept w0 w;
  si_spw : spw w = Some st;
  si_net : snet w = snet w0;
  si_log : exists l, slog w = slog w0 ++ l /\ effects l = e
}.

Lemma since_does {B C} (m : SM B) (f : B -> SM C) P (Q : C -> sworld -> Prop) w0 st e w :
  since w0 st e w -> does m P ->
  (forall a e' w1, P a e' -> since w0 st (e ++ e') w1 -> swp (f a) (fun _ => True) Q w1) ->
  swp (m ≫= f) (fun _ => True) Q w.
Proof.
  intros [S1 S2 S3 (l & S4 & S5)] Hm Hf. eapply swp_next; [apply Hm|].
  intros a w1 ([T1 T2 T3] & k & L & H). eapply Hf; [exact H|].
  split; [by eapply kept_trans|congruence|congruence|]. exists (l ++ k).
  by rewrite L, S4, app_assoc, effects_app, S5.
Qed.

(** the same for a step without effects *)
Lemma since_seq {B C} (m : SM B) (f : B -> SM C) (P : B -> Prop) (Q : C -> sworld -> Prop) w0 st e w :
  since w0 st e w -> does m (fun a e' => e' = [] /\ P a) ->
  (forall a w1, P a -> since w0 st e w1 -> swp (f a) (fun _ => True) Q w1) ->
  swp (m ≫= f) (fun _ => True) Q w.
Proof.
  intros S Hm Hf. eapply since_does; [exact S|exact Hm|]. intros a e' w1 [-> H]. rewrite app_nil_r. auto.
Qed.

Lemma since_get {C} (f : spw_state -> SM C) EX (Q : C -> sworld -> Prop) w0 st e w :
  since w0 st e w -> swp (f st) EX Q w -> swp (get_spw ≫= f) EX Q w.
Proof. intros S H. eapply swp_run; [|exact H]. unfold get_spw. by rewrite (si_spw _ _ _ _ S). Qed.

Lemma since_put {C} st' (f : () -> SM C) (Q : C -> sworld -> Prop) w0 st e w :
  since w0 st e w -> (forall w1, since w0 st' e w1 -> swp (f ()) (fun _ => True) Q w1) ->
  swp (put_spw st' ≫= f) (fun _ => True) Q w.
Proof.
  intros [S1 S2 S3 S4] H. eapply swp_run; [reflexivity|]. apply H. split; try done.
  destruct S1. by split.
Qed.

Section life.
Context {A : Star}.

(** ** Setup *)

Lemma list_devices_does i devs : does (list_devices i devs) (fun _ e => e = []).
Proof.
  revert i. induction devs as [|d devs IH]; intros i; cbn [list_devices]; [by apply does_ret|].
  apply does_seq; [|intros []; apply IH]. destruct (c_true d); [|apply does_msg].
  dstep. destruct (s_create _); apply does_msg.
Qed.

Lemma slot_does {B} (l : list B) i x (Q : B -> list sact -> Prop) :
  0 <= i -> l !! Z.to_nat i = Some x -> Q x [] -> does (slot l i) Q.
Proof.
  intros Hi Hx HQ. unfold slot. rewrite (proj2 (Z.ltb_ge _ _)) by done. rewrite Hx. by apply does_ret.
Qed.

Lemma select_device_does num : 0 <= num ->
  does (select_device num) (fun dev e => e = [] /\ c_true dev = true /\
    exists t devs, s_devices t = Some devs /\ devs !! Z.to_nat num = Some dev).
Proof.
  intros Hn. unfold select_device. eapply does_seq; [apply does_call|]. intros t.
  destruct (s_devices t) as [devs|] eqn:Ed; [|apply does_fatal].
  dstep. apply does_seq; [apply list_devices_does|]. intros [].
  rewrite Z.geb_leb. destruct (Z.leb_spec (zlen devs) num) as [Hz|Hz]; [apply does_fatal|].
  assert (Hx : exists x, devs !! Z.to_nat num = Some x).
  { apply lookup_lt_is_Some. unfold zlen in Hz. lia. }
  destruct Hx as [x Hx]. eapply does_bind.
  { by apply (slot_does devs num x (fun y e => y = x /\ e = [])). }
  intros y e [-> ->]. destruct (c_true x) eqn:Ex; cbn beta iota delta [negb]; [|apply does_fatal].
  apply does_ret. split; [done|]. split; [done|]. by exists t, devs.
Qed.

(** the device has the channel *)
Definition has_channel (chan : Z) : Prop :=
  chan <= 31 /\ exists t, c_true (Z.land (u32 (s_mask t)) (Z.shiftl 1 chan)) = true.

Lemma select_channel_does chan :
  does (select_channel chan) (fun c e => e = [] /\ c = chan /\ has_channel chan).
Proof.
  unfold select_channel. dstep. cbv zeta. destruct (_ || _); [apply does_fatal|].
  rewrite Z.gtb_ltb. destruct (Z.ltb_spec 31 chan); [apply does_fatal|].
  destruct (c_true _) eqn:E; [|apply does_fatal]. apply does_ret. split; [done|]. split; [done|].
  split; [done|by eexists].
Qed.

Lemma set_link_speed_does dev link rate :
  does (set_link_speed dev link rate) (fun _ e => e = [SLinkSpeed dev (u8 link) (u32 rate)]).
Proof.
  unfold set_link_speed. dstep. dstep. destruct (c_true _); [apply does_fatal|].
  eapply does_bind; [apply does_say|]. intros [] e ->. dstep. eapply does_mono; [apply does_msg|].
  by intros [] e ->.
Qed.

Lemma does_pure {B} (m : SM B) (P : B -> Prop) :
  does m (fun a e => e = [] /\ P a) -> does m (fun _ e => e = []).
Proof using Type. intros H. eapply does_mono; [exact H|]. naive_solver. Qed.

Lemma does_call0 : does scallno (fun _ e => e = [] /\ True).
Proof using Type. eapply does_mono; [apply does_call|done]. Qed.

(** [open_channel] for one of the two channels *)
Lemma open_channel_run i chan w0 st e w (Q : () -> sworld -> Prop) : since w0 st e w ->
  (forall id w1, c_true id = true ->
     since w0 (with_chan_id st i id) (e ++ [SOpen (dev_id st) DirInOut (u8 chan) true id]) w1 -> Q () w1) ->
  swp (open_channel i chan) (fun _ => True) Q w.
Proof using Type.
  intros S0 H. unfold open_channel. eapply since_get; [exact S0|].
  eapply (since_seq _ _ (fun _ => True)); [exact S0|apply does_call0|].
  intros t w1 _ S. cbv zeta. eapply since_does; [exact S|apply does_say|]. intros [] e' w1' -> S1.
  eapply since_get; [exact S1|]. eapply since_put; [exact S1|]. intros w2 S2.
  destruct (c_true (s_open t)) eqn:Eo; cbn beta iota delta [negb]; [|exact I].
  destruct S2 as [T1 T2 T3 (l & T4 & T5)]. apply (H (s_open t)); [done|].
  split; try done; [by destruct T1; split|]. eexists. split; [simpl; rewrite T4, <- app_assoc; reflexivity|].
  by rewrite effects_app, T5, app_nil_r.
Qed.

(** the second of two steps is for monitor mode only *)
Definition when (b : bool) {B} (l : list B) : list B := if b then l else [].

(** the state after [spw_open] *)
Definition opened_state (dev id0 : Z) (id1 : option Z) : spw_state :=
  let st := with_chan_id (with_dev_id spw_calloc dev) 0 id0 in
  match id1 with Some id1 => with_chan_id st 1 id1 | None => st end.

(** the channels opened, with what [STAR_openChannelToLocalDevice] has answered *)
Definition opens (cfg : bridge_cfg) (dev id0 : Z) (id1 : option Z) : list sact :=
  SOpen dev DirInOut (u8 (channel cfg)) true id0 ::
  match id1 with Some id1 => [SOpen dev DirInOut (u8 (channel2 cfg)) true id1] | None => [] end.

(** the channels asked for *)
Definition channels_ok (cfg : bridge_cfg) : Prop :=
  has_channel (channel cfg) /\
  (enable_monitor cfg = true -> has_channel (channel2 cfg) /\ channel2 cfg <> channel cfg).

Definition speeds (cfg : bridge_cfg) (dev : Z) : list sact :=
  when (reset_dev cfg) [SReset dev] ++ SLinkSpeed dev (u8 (link_id cfg)) (u32 (sig_rate cfg)) ::
  when (enable_monitor cfg) [SLinkSpeed dev (u8 (channel2 cfg)) (u32 (sig_rate cfg))].

Lemma spw_open_run cfg w : 0 <= dev_num cfg ->
  swp (spw_open cfg) (fun _ => True)
    (fun _ w' => exists dev id0 id1, channels_ok cfg /\ c_true id0 = true /\
       (if enable_monitor cfg then exists id, id1 = Some id /\ c_true id = true else id1 = None) /\
       since w (opened_state dev id0 id1) (speeds cfg dev ++ opens cfg dev id0 id1) w') w.
Proof using Type.
  intros Hn. unfold spw_open, speeds, when. eapply swp_run; [reflexivity|]. destruct (s_create _); [|exact I].
  cbn beta iota delta [negb]. eapply swp_run; [reflexivity|].
  assert (S0 : since w spw_calloc [] (sw_spw (sw_call w) (Some spw_calloc))).
  { split; try done; [split; simpl; try done; lia|]. exists []. by rewrite app_nil_r. }
  eapply (since_seq _ _ (fun dev => True)); [exact S0|eapply does_mono; [by apply select_device_does|naive_solver]|].
  intros dev w1 _ S1. eapply since_get; [exact S1|]. eapply since_put; [exact S1|]. intros w2 S2.
  eapply (since_does _ _ (fun _ e => e = if reset_dev cfg then [SReset dev] else [])); [exact S2| |].
  { destruct (reset_dev cfg); [|by apply does_ret].
    dstep. eapply does_mono; [apply does_say|]. by intros [] e ->. }
  intros [] e3 w3 -> S3. rewrite app_nil_l in S3.
  eapply (since_seq _ _ (fun _ => has_channel (channel cfg))); [exact S3| |].
  { eapply does_mono; [apply select_channel_does|naive_solver]. }
  intros c w4 Hc1 S4.
  eapply (since_seq _ _ (fun _ => channels_ok cfg)); [exact S4| |].
  { unfold channels_ok. destruct (enable_monitor cfg); [|by apply does_ret].
    destruct (Z.eqb_spec (channel2 cfg) (channel cfg)); [apply does_fatal|].
    eapply does_bind; [apply select_channel_does|]. intros c2 e (-> & -> & H2). by apply does_ret. }
  intros [] w5 Hch S5.
  eapply since_does; [exact S5|apply set_link_speed_does|]. intros [] e6 w6 -> S6.
  eapply (since_does _ _ (fun _ e => e = if enable_monitor cfg
    then [SLinkSpeed dev (u8 (channel2 cfg)) (u32 (sig_rate cfg))] else [])); [exact S6| |].
  { destruct (enable_monitor cfg); [apply set_link_speed_does|by apply does_ret]. }
  intros [] e7 w7 -> S7. rewrite <- app_assoc in S7. simpl app in S7 at 2.
  eapply swp_bind. eapply open_channel_run; [exact S7|]. intros id0 w8 Hid0 S8.
  destruct (enable_monitor cfg).
  - eapply open_channel_run; [exact S8|]. intros id1 w9 Hid1 S9.
    exists dev, id0, (Some id1). split; [done|]. split; [done|]. split; [by exists id1|].
    rewrite <- app_assoc in S9. exact S9.
  - apply swp_ret. exists dev, id0, None. done.
Qed.

(** no handle of the API is given out twice, and the mutex is free *)
Definition fresh (w : sworld) : Prop :=
  locked w = false /\ (forall o, (scall w <= o)%nat -> ops w !! o = None) /\
  (forall i, (scall w <= i)%nat -> i ∉ items w).

Lemma since_rest w st e w' : fresh w -> since w st e w' -> length (spw_chan_id st) = 2%nat ->
  length (tx_op st) = 2%nat -> length (rx_op st) = 2%nat -> at_rest w' st.
Proof using Type.
  intros (F1 & F2 & F3) [[K1 K2 K3 K4 K5] S2 S3 _] Hc Ht Hr. split; try done; [congruence| |].
  - intros o Ho. rewrite K1. apply F2. lia.
  - intros i Hi. rewrite K2. apply F3. lia.
Qed.

Lemma opened_lengths dev id0 id1 : let st := opened_state dev id0 id1 in
  length (spw_chan_id st) = 2%nat /\ length (tx_op st) = 2%nat /\ length (rx_op st) = 2%nat.
Proof using Type. by destruct id1. Qed.

Lemma opened_rest w dev id0 id1 e w' : fresh w -> since w (opened_state dev id0 id1) e w' ->
  at_rest w' (opened_state dev id0 id1).
Proof using Type.
  intros F S. destruct (opened_lengths dev id0 id1) as (H1 & H2 & H3). by eapply since_rest.
Qed.

(** both channels of monitor mode are open *)
Lemma opened_ready cfg w dev id0 id1 : at_rest w (opened_state dev id0 id1) -> c_true id0 = true ->
  (if enable_monitor cfg then exists id, id1 = Some id /\ c_true id = true else id1 = None) ->
  spw_link_ready cfg w = SRet true w.
Proof using Type.
  intros Hr H0 H1. unfold spw_link_ready. rewrite (ar_spw _ _ Hr).
  destruct (enable_monitor cfg); [destruct H1 as (id & -> & H1)|subst id1];
    unfold mbind, SM_bind, slot; simpl; rewrite H0; [by rewrite H1|done].
Qed.

(** The link counts as ready before the routing address exists: when
    [spw_setup_device] has opened the channels, [spw_link_ready] is true, and
    a packet that a thread of the network side (they run since [net_start])
    sends now is transmitted without any address. *)
Theorem spw_ready_before_address cfg b w (Hdev : 0 <= dev_num cfg) (Hfresh : fresh w) :
  swp (_ ← spw_open cfg; ready ← spw_link_ready cfg; _ ← spw_send_packet cfg b; mret ready)
    (fun _ => True)
    (fun ready w' => ready = true /\ exists l id, slog w' = slog w ++ l /\ In (STx id None b) l) w.
Proof using Type.
  eapply swp_next; [by apply spw_open_run|]. intros [] w1 (dev & id0 & id1 & _ & H0 & H1 & S).
  pose proof (opened_rest _ _ _ _ _ _ Hfresh S) as Hr. pose proof S as [_ _ _ (l & Hl & _)].
  eapply swp_run; [by eapply opened_ready|].
  eapply swp_next; [eapply swp_mono; [apply (send_chan_run cfg 0 b w1 _ Hr); by left|by intros ?? H; apply H|done]|].
  intros [] w2 (_ & _ & _ & Hl2). apply swp_ret. split; [done|].
  eexists _, _. split; [rewrite Hl2, Hl, <- app_assoc; reflexivity|].
  apply in_or_app. right. left. by destruct id1.
Qed.

(** ** The address and the threads *)

Definition nodes (cfg : bridge_cfg) : list Z :=
  if enable_monitor cfg then [] else take (Z.to_nat (path_len cfg)) (path cfg).

(** what is set up, from a state without operations *)
Record set_up (cfg : bridge_cfg) (w : sworld) (st : spw_state) (w' : sworld) : Prop := {
  su_rest : at_rest w' st;
  su_channels : channels_ok cfg;
  su_ready : spw_link_ready cfg w' = SRet true w';
  su_address : p_address st = None \/ p_address st = Some (nodes cfg);
  su_addrs : addrs w' = (addrs w + match p_address st with Some _ => 1 | None => 0 end)%nat;
  su_none : rx_op st = [None; None] /\ tx_op st = [None; None] /\ shutdown st = false;
  su_ops : ops w' = ops w /\ items w' = items w;
  su_net : snet w' = snet w;
  su_log : exists l, slog w' = slog w ++ l /\
    effects l = speeds cfg (dev_id st) ++
      opens cfg (dev_id st) (chan_id st 0) (if enable_monitor cfg then Some (chan_id st 1) else None) ++
      SThread 0 :: when (enable_monitor cfg) [SThread 1]
}.

Lemma start_poll_does i : does (start_poll_thread i) (fun _ e => e = [SThread i]).
Proof using Type.
  unfold start_poll_thread. dstep. destruct (negb _); [apply does_fatal|].
  eapply does_mono; [apply does_say|]. by intros [] e ->.
Qed.

Lemma nodes_does cfg : 0 <= path_len cfg <= zlen (path cfg) ->
  does (if enable_monitor cfg then mret []
        else p ← slift (rdn (path cfg) 0 (path_len cfg));
             _ ← say (SMsg "Using path of %u nodes: " (path_len cfg :: p));
             mret p) (fun p e => e = [] /\ p = nodes cfg).
Proof using Type.
  intros Hp. unfold nodes. destruct (enable_monitor cfg); [by apply does_ret|].
  rewrite rdn_in by lia. cbn [slift]. eapply does_bind; [by apply (does_ret _ (fun p e => p = take (Z.to_nat (path_len cfg)) (path cfg) /\ e = []))|].
  intros p e [-> ->]. dstep. by apply does_ret.
Qed.

(** the address; its failed creation is not noticed *)
Lemma make_address_run cfg w st : at_rest w st -> 0 <= path_len cfg <= zlen (path cfg) ->
  swp (spw_make_address cfg) (fun _ => True)
    (fun _ w' => exists a, at_rest w' (with_address st a) /\ (a = None \/ a = Some (nodes cfg)) /\
       addrs w' = (addrs w + match a with Some _ => 1 | None => 0 end)%nat /\
       ops w' = ops w /\ items w' = items w /\ snet w' = snet w /\
       exists l, slog w' = slog w ++ l /\ effects l = []) w.
Proof using Type.
  intros Hr Hp. unfold spw_make_address. pose proof (nodes_does cfg Hp w) as Hd.
  eapply swp_next; [exact Hd|]. intros p w1 ([[K1 K2 K3 K4 K5] T2 T3] & l & L1 & He & ->).
  destruct Hr as [Hs Hc Ht Hrx Hl Ho Hi]. unfold swp, mbind, SM_bind, star_create_address, get_spw, put_spw.
  destruct (s_create (scall w1)); simpl; rewrite T2, Hs; eexists;
    (split; [split; simpl; try done; [congruence| |]|]).
  1, 4: intros o Hn; rewrite K1; apply Ho; lia.
  1, 3: intros i Hn; rewrite K2; apply Hi; lia.
  all: split; [by (left + right)|]; simpl; split; [lia|]; do 3 (split; [done|]); by exists l.
Qed.

Lemma setup_device_run cfg w (Hdev : 0 <= dev_num cfg) (Hfresh : fresh w)
    (Hpath : 0 <= path_len cfg <= zlen (path cfg)) :
  swp (spw_setup_device cfg) (fun _ => True) (fun _ w' => exists st, set_up cfg w st w') w.
Proof using Type.
  unfold spw_setup_device. eapply swp_next; [by apply spw_open_run|].
  intros [] w1 (dev & id0 & id1 & Hch & H0 & H1 & S1). pose proof (opened_rest _ _ _ _ _ _ Hfresh S1) as Hr1.
  eapply swp_next; [by apply (make_address_run cfg w1 _ Hr1)|].
  intros [] w2 (a & Hr2 & Ha & A2 & O2 & I2 & N2 & l2 & L2 & E2).
  set (st := with_address (opened_state dev id0 id1) a) in *.
  assert (S2 : since w2 st [] w2).
  { split; [apply kept_refl|apply Hr2|done|]. exists []. by rewrite app_nil_r. }
  eapply since_does; [exact S2|apply start_poll_does|]. intros [] e3 w3 -> S3.
  assert (Hlast : does (if enable_monitor cfg then start_poll_thread 1 else mret ())
    (fun _ e => e = when (enable_monitor cfg) [SThread 1])).
  { unfold when. destruct (enable_monitor cfg); [apply start_poll_does|by apply does_ret]. }
  eapply swp_mono; [apply Hlast| |done]. intros [] w4 ([T1 T2 T3] & l4 & L4 & E4). exists st.
  pose proof S1 as [_ _ M1 (l1 & L1 & E1)]. pose proof S3 as [K3 P3 M3 (l3 & L3 & E3)].
  pose proof (kept_trans _ _ _ K3 T1) as [O4 I4 A4 B4 C4]. pose proof (si_kept _ _ _ _ S1) as [O1 I1 A1 _ _].
  assert (Hr4 : at_rest w4 st).
  { destruct Hr2 as [R1 R2 R3 R4 R5 R6 R7]. split; try done; [congruence|congruence| |].
    - intros o Hn. rewrite O4. apply R6. lia.
    - intros i Hn. rewrite I4. apply R7. lia. }
  assert (Hst : rx_op st = [None; None] /\ tx_op st = [None; None] /\ shutdown st = false /\ dev_id st = dev
    /\ p_address st = a /\ chan_id st 0 = id0 /\ (if enable_monitor cfg then Some (chan_id st 1) else None) = id1).
  { destruct (enable_monitor cfg); [destruct H1 as (id & -> & _)|subst id1]; done. }
  destruct Hst as (Hrx & Htx & Hsd & Hd & Haddr & Hid0 & Hid1). split; try done; rewrite ?Haddr, ?Hd; try done.
  - unfold spw_link_ready. rewrite (ar_spw _ _ Hr4). unfold st.
    destruct (enable_monitor cfg); [destruct H1 as (id & -> & H1)|subst id1];
      unfold mbind, SM_bind, slot; simpl; rewrite H0; [by rewrite H1|done].
  - rewrite A4, A2, A1. done.
  - split; congruence.
  - congruence.
  - exists (l1 ++ l2 ++ l3 ++ l4). rewrite L4, L3, L2, L1, <- !app_assoc. split; [done|].
    by rewrite !effects_app, E1, E2, E3, E4, Hid0, Hid1, <- !app_assoc.
Qed.


(** the links are told to start and to run; a failed call is only reported *)
Definition link_told (dev chan : Z) (e : list sact) : Prop :=
  e = [] \/ exists ls, e = [SLink dev (u8 chan) ls] /\ link_start ls = 1 /\ link_running ls = 1.

Lemma start_link_run chan link w0 st e w (Q : () -> sworld -> Prop) : since w0 st e w ->
  (forall e' w1, link_told (dev_id st) chan e' -> since w0 st (e ++ e') w1 -> Q () w1) ->
  swp (start_link chan link) (fun _ => True) Q w.
Proof using Type.
  intros S H. unfold start_link. eapply since_get; [exact S|].
  assert (Hd : does (
    t ← scallno;
    port_status ← (if c_true (s_cfg t) then
                     _ ← say (SMsg "Failed to read port status control\n" []); mret 0
                   else mret (s_word t));
    t ← scallno;
    ls ← (if c_true (s_cfg t) then
            _ ← say (SMsg "Failed to read link status, forcing a clean slate\n" []);
            mret (mk_link 0 0 0)
          else mret (s_link t));
    let ls := mk_link 1 1 (link_rest ls) in
    t ← scallno;
    _ ← (if c_true (s_cfg t) then say (SMsg "Failed to set link to running state\n" [])
         else say (SLink (dev_id st) (u8 chan) ls));
    t ← scallno;
    if c_true (s_cfg t) then say (SMsg "Failed to read measured link speed\n" [])
    else say (SMsg "Measured RX link speed %g Mbps\n" [s_word t])) (fun _ => link_told (dev_id st) chan)).
  { dstep. apply does_seq; [destruct (c_true _); [dstep|]; by apply does_ret|]. intros ?. dstep.
    apply does_seq; [destruct (c_true _); [dstep|]; by apply does_ret|]. intros ls. cbv zeta. dstep.
    eapply does_bind with (P := fun _ => link_told (dev_id st) chan).
    - destruct (c_true _); (eapply does_mono; [apply does_say|]); intros [] e' ->; [by left|].
      right. by eexists.
    - intros [] e' He. dstep. destruct (c_true _); (eapply does_mono; [apply does_msg|]); intros [] e'' ->;
        by rewrite app_nil_r. }
  destruct S as [S1 S2 S3 (l & S4 & S5)]. eapply swp_mono; [apply Hd| |done].
  intros [] w1 ([T1 T2 T3] & k & L & He). apply (H _ _ He).
  split; [by eapply kept_trans|congruence|congruence|]. exists (l ++ k).
  by rewrite L, S4, app_assoc, effects_app, S5.
Qed.

(** [spw_start_link] touches nothing else *)
Lemma start_links_run cfg w st : spw w = Some st ->
  swp (spw_start_link cfg) (fun _ => True)
    (fun _ w' => exists e1 e2, since w st (e1 ++ e2) w' /\ link_told (dev_id st) (channel cfg) e1 /\
       (if enable_monitor cfg then link_told (dev_id st) (channel2 cfg) e2 else e2 = [])) w.
Proof using Type.
  intros Hs. assert (S : since w st [] w).
  { split; [apply kept_refl|done|done|]. exists []. by rewrite app_nil_r. }
  unfold spw_start_link. apply swp_bind. apply (start_link_run _ _ _ _ _ _ _ S). intros e1 w1 H1 S1.
  destruct (enable_monitor cfg).
  - apply (start_link_run _ _ _ _ _ _ _ S1). intros e2 w2 H2 S2. by exists e1, e2.
  - apply swp_ret. exists e1, []. by rewrite app_nil_r.
Qed.

(** ** Shutdown *)

(** the operations [os] were disposed, or the API has freed them *)
Record disposed (os : list (option nat)) (w w' : sworld) : Prop := {
  dp_spw : spw w' = spw w;
  dp_items : items w' = items w;
  dp_addrs : addrs w' = addrs w;
  dp_lock : locked w' = locked w;
  dp_net : snet w' = snet w;
  dp_log : slog w' = slog w;
  dp_others : forall k, Some k ∉ os -> ops w' !! k = ops w !! k;
  dp_gone : forall k x, Some k ∈ os -> ops w' !! k = Some x -> op_freed x = true
}.

Lemma disposed_app os1 os2 w w1 w2 : disposed os1 w w1 -> disposed os2 w1 w2 ->
  disposed (os1 ++ os2) w w2.
Proof using Type.
  intros [A1 A2 A3 A4 A5 A6 A7 A8] [B1 B2 B3 B4 B5 B6 B7 B8]. split; try congruence.
  - intros k Hk. rewrite elem_of_app in Hk. by rewrite B7, A7 by tauto.
  - intros k x Hk Hx. destruct (decide (Some k ∈ os2)) as [H2|H2]; [by eapply B8|].
    rewrite B7 in Hx by done. apply elem_of_app in Hk as [H1|H1]; [by eapply A8|done].
Qed.

Lemma dispose_slot_run o w : (forall k, o = Some k -> is_Some (ops w !! k)) ->
  exists w', dispose_slot o w = SRet () w' /\ disposed [o] w w'.
Proof using Type.
  intros Hk. destruct o as [k|].
  2: { exists w. split; [done|]. split; try done. intros k x Hin%list_elem_of_singleton. done. }
  destruct (Hk k eq_refl) as [[what fr] Hx]. unfold dispose_slot, mbind, SM_bind, star_get_status.
  rewrite Hx. simpl op_freed. destruct fr.
  - rewrite decide_True by done. exists w. split; [done|]. split; try done.
    intros k' x [= ->]%list_elem_of_singleton Hx'. rewrite Hx in Hx'. by injection Hx' as <-.
  - assert (Hne : forall k', Some k' ∉ [Some k] -> k <> k').
    { intros k' Hn ->. apply Hn, list_elem_of_singleton. done. }
    rewrite (status_run _ _ _ Hx). case_decide as E.
    + rewrite decide_True by done. eexists. split; [reflexivity|]. split; try done; simpl.
      * intros k' Hn%Hne. by rewrite lookup_insert_ne.
      * intros k' x [= ->]%list_elem_of_singleton Hx'. rewrite lookup_insert_eq in Hx'. by injection Hx' as <-.
    + rewrite decide_False by done. rewrite (dispose_run k what) by exact Hx.
      eexists. split; [reflexivity|]. split; try done; simpl.
      * intros k' Hn%Hne. by rewrite lookup_delete_ne.
      * intros k' x [= ->]%list_elem_of_singleton Hx'. by rewrite lookup_delete_eq in Hx'.
Qed.

(** [l] has no handle twice, and the API knows all of them *)
Definition known (l : list (option nat)) (w : sworld) : Prop :=
  NoDup (omap id l) /\ forall k, Some k ∈ l -> is_Some (ops w !! k).

Lemma known_rest os l w w' : known (os ++ l) w -> disposed os w w' -> known l w'.
Proof using Type.
  intros [Hn Hk] D. rewrite omap_app, NoDup_app in Hn. destruct Hn as (_ & Hd & Hn). split; [done|].
  intros k Hin. rewrite (dp_others _ _ _ D).
  - apply Hk, elem_of_app. by right.
  - intros H1. apply (Hd k); apply list_elem_of_omap; by exists (Some k).
Qed.

(** both operations of a channel *)
Lemma dispose_chan_run c st w l ro to : spw w = Some st -> chan_ok c ->
  rx_op st !! Z.to_nat c = Some ro -> tx_op st !! Z.to_nat c = Some to -> known (ro :: to :: l) w ->
  exists w', dispose_chan c w = SRet () w' /\ disposed [ro; to] w w'.
Proof using Type.
  intros Hs Hc Hro Hto K. unfold dispose_chan, get_spw, slot.
  assert (Ec : c <? 0 = false) by (destruct Hc as [-> | ->]; done). rewrite Ec.
  destruct (dispose_slot_run ro w) as (w1 & R1 & D1).
  { intros k ->. apply K. by left. }
  pose proof (known_rest [ro] (to :: l) w w1 K D1) as K1.
  destruct (dispose_slot_run to w1) as (w2 & R2 & D2).
  { intros k ->. apply K1. by left. }
  exists w2. split; [|exact (disposed_app [ro] [to] w w1 w2 D1 D2)].
  unfold mbind, SM_bind. rewrite Hs. cbn [slift]. rewrite Hro. cbn [slift mret SM_ret]. rewrite R1.
  rewrite (dp_spw _ _ _ D1), Hs, Hto. cbn [slift mret SM_ret]. exact R2.
Qed.

(** the elements of the channels in use *)
Definition used (cfg : bridge_cfg) {B} (l : list B) : list B := take (Z.to_nat (nchans cfg)) l.

Definition cancels (os : list (option nat)) : list sact := map SCancel (omap id os).

Definition closes (ids : list Z) : list sact := map SCloseChan (List.filter c_true ids).

Lemma sbind_run {B C} (m : SM B) (f : B -> SM C) w a w' : m w = SRet a w' -> (m ≫= f) w = f a w'.
Proof using Type. unfold mbind, SM_bind. by intros ->. Qed.

Lemma sw_log_nil w : sw_log w [] = w.
Proof using Type. destruct w. unfold sw_log. simpl. by rewrite app_nil_r. Qed.

Lemma sw_log_app w l k : sw_log (sw_log w l) k = sw_log w (l ++ k).
Proof using Type. unfold sw_log. simpl. by rewrite app_assoc. Qed.

Lemma slot_at {B} (l : list B) c x w : chan_ok c -> l !! Z.to_nat c = Some x -> slot l c w = SRet x w.
Proof using Type.
  intros Hc Hx. unfold slot. assert (Ec : c <? 0 = false) by (destruct Hc as [-> | ->]; done).
  by rewrite Ec, Hx.
Qed.

Lemma cancel_rx_run c st w o : chan_ok c -> spw w = Some st -> rx_op st !! Z.to_nat c = Some o ->
  (forall k, o = Some k -> is_Some (ops w !! k)) -> cancel_rx c w = SRet () (sw_log w (cancels [o])).
Proof using Type.
  intros Hc Hs Ho Hk. unfold cancel_rx, get_spw, mbind, SM_bind. rewrite Hs, (slot_at _ _ _ _ Hc Ho).
  destruct o as [k|]; [|by rewrite sw_log_nil].
  destruct (Hk k eq_refl) as [x Hx]. unfold star_known. by rewrite Hx.
Qed.

(** two runs of [f] at most *)
Lemma each_chan_run cfg (f : Z -> SM ()) (g : Z -> list sact) (I : sworld -> Prop) w : I w ->
  (forall c w1, chan_ok c -> c < nchans cfg -> I w1 -> f c w1 = SRet () (sw_log w1 (g c)) /\ I (sw_log w1 (g c))) ->
  each_chan cfg f w = SRet () (sw_log w (concat (map g (seqZ 0 (nchans cfg))))).
Proof using Type.
  intros HI Hf. unfold each_chan, nchans in *. destruct (Hf 0 w (or_introl eq_refl)) as [E0 I0]; [by destruct (enable_monitor cfg)|done|].
  unfold mbind, SM_bind. rewrite E0. destruct (enable_monitor cfg).
  - destruct (Hf 1 _ (or_intror eq_refl) ltac:(done) I0) as [E1 _]. rewrite E1, sw_log_app.
    simpl. by rewrite app_nil_r.
  - simpl. by rewrite app_nil_r.
Qed.

Lemma stop_poll_run cfg w st : at_rest w st -> (forall k, Some k ∈ used cfg (rx_op st) -> is_Some (ops w !! k)) ->
  spw_stop_poll cfg w =
    SRet () (sw_log (sw_spw w (Some (with_shutdown st true)))
      (cancels (used cfg (rx_op st)) ++ map SJoin (seqZ 0 (nchans cfg)))).
Proof using Type.
  intros [Hs Hc Ht Hr Hl Ho Hi] Hk. unfold spw_stop_poll, spw_request_shutdown.
  destruct w as [n sp os it ad lk nw lg]. simpl in Hs, Hl, Hk. subst sp lk.
  set (st' := with_shutdown st true).
  assert (Hslot : forall c, chan_ok c -> c < nchans cfg ->
    exists o, rx_op st !! Z.to_nat c = Some o /\ o ∈ used cfg (rx_op st)).
  { intros c Hc0 Hn. destruct (lookup_lt_is_Some_2 (rx_op st) (Z.to_nat c)) as [o Ho'].
    { destruct Hc0 as [-> | ->]; simpl; lia. }
    exists o. split; [done|]. unfold used. apply (list_elem_of_lookup_2 _ (Z.to_nat c)).
    rewrite lookup_take_lt; [done|]. destruct Hc0 as [-> | ->]; lia. }
  erewrite (sbind_run (_ ← get_spw; _)) by reflexivity.
  erewrite sbind_run by reflexivity. set (w1 := sw_lock _ true).
  erewrite sbind_run.
  2: { apply (each_chan_run cfg cancel_rx (fun c => cancels [nth (Z.to_nat c) (rx_op st) None])
    (fun w => spw w = Some st' /\ ops w = os) w1 ltac:(done)).
       intros c w2 Hc0 Hn [Hs2 Ho2]. destruct (Hslot c Hc0 Hn) as (o & E & Hin).
       rewrite (nth_lookup_Some _ _ _ _ E). split; [|done].
       eapply cancel_rx_run; [done|exact Hs2|exact E|]. intros k ->. rewrite Ho2. by apply Hk. }
  erewrite sbind_run by reflexivity.
  rewrite (fun w => each_chan_run cfg (fun i => say (SJoin i)) (fun c => [SJoin c]) (fun _ => True) w I ltac:(done)).
  unfold sw_log, sw_lock, sw_spw. simpl. f_equal. f_equal. rewrite <- app_assoc. f_equal.
  destruct (rx_op st) as [|r0 [|r1 [|]]]; try done. unfold used, nchans.
  destruct (enable_monitor cfg), r0, r1; done.
Qed.

(** the operations of the channels in use *)
Definition in_use (cfg : bridge_cfg) (st : spw_state) : list (option nat) :=
  concat (used cfg (zip_with (fun r t => [r; t]) (rx_op st) (tx_op st))).

Lemma dispose_ops_run cfg w st : at_rest w st -> known (in_use cfg st) w ->
  exists w', spw_dispose_ops cfg w = SRet () w' /\ disposed (in_use cfg st) w w'.
Proof using Type.
  intros [Hs Hc Ht Hr Hl Ho Hi] K.
  destruct (rx_op st) as [|r0 [|r1 [|]]] eqn:Er; try done. destruct (tx_op st) as [|t0 [|t1 [|]]] eqn:Et; try done.
  unfold in_use, used, nchans in *. rewrite Er, Et in *. set (w1 := sw_lock w true).
  assert (Hfin : forall os w2, disposed os w1 w2 -> op_unlock w2 = SRet () (sw_lock w2 false) /\
    disposed os w (sw_lock w2 false)).
  { intros os w2 [D1 D2 D3 D4 D5 D6 D7 D8]. unfold op_unlock. rewrite D4. split; [done|].
    by split. }
  assert (E1 : op_lock w = SRet () w1) by (unfold op_lock; by rewrite Hl).
  unfold spw_dispose_ops. rewrite (sbind_run _ _ _ _ _ E1). unfold each_chan.
  destruct (enable_monitor cfg); simpl in K |- *.
  - destruct (dispose_chan_run 0 st w1 [r1; t1] r0 t0) as (w2 & R2 & D2);
      [done|by left|by rewrite Er|by rewrite Et|done|].
    destruct (dispose_chan_run 1 st w2 [] r1 t1) as (w3 & R3 & D3);
      [by rewrite (dp_spw _ _ _ D2)|by right|by rewrite Er|by rewrite Et|by apply (known_rest [r0; t0] _ w1)|].
    destruct (Hfin _ _ (disposed_app _ _ _ _ _ D2 D3)) as [Hu Hd]. eexists. split; [|exact Hd].
    erewrite sbind_run; [exact Hu|]. by rewrite (sbind_run _ _ _ _ _ R2).
  - destruct (dispose_chan_run 0 st w1 [] r0 t0) as (w2 & R2 & D2);
      [done|by left|by rewrite Er|by rewrite Et|done|].
    destruct (Hfin _ _ D2) as [Hu Hd]. eexists. split; [|exact Hd].
    erewrite sbind_run; [exact Hu|]. by rewrite (sbind_run _ _ _ _ _ R2).
Qed.

Lemma release_run cfg w st : spw w = Some st -> length (spw_chan_id st) = 2%nat ->
  spw_release cfg w = SRet () (sw_spw (sw_log (match p_address st with
      Some _ => sw_addrs w (pred (addrs w)) | None => w end)
    (closes (used cfg (spw_chan_id st)))) None).
Proof using Type.
  intros Hs Hc. destruct w as [n sp os it ad lk nw lg]. simpl in Hs. subst sp.
  destruct (spw_chan_id st) as [|i0 [|i1 [|]]] eqn:Ec; try done. unfold spw_release, closes, used, nchans.
  erewrite sbind_run by reflexivity.
  set (w1 := match p_address st with Some _ => sw_addrs (mk_sw n (Some st) os it ad lk nw lg) (pred ad)
    | None => mk_sw n (Some st) os it ad lk nw lg end).
  assert (E1 : (match p_address st with Some _ => destroy_address | None => mret () end)
    (mk_sw n (Some st) os it ad lk nw lg) = SRet () w1) by (by unfold w1; destruct (p_address st)).
  rewrite (sbind_run _ _ _ _ _ E1).
  assert (Hclose : forall c id w2, chan_ok c -> spw_chan_id st !! Z.to_nat c = Some id -> spw w2 = Some st ->
    close_chan c w2 = SRet () (sw_log w2 (closes [id]))).
  { intros c id w2 Hc0 Hid Hw2. unfold close_chan, get_spw, mbind, SM_bind, closes.
    rewrite Hw2, (slot_at _ _ _ _ Hc0 Hid). simpl. destruct (c_true id); [done|by rewrite sw_log_nil]. }
  assert (Hw1 : spw w1 = Some st) by (unfold w1; by destruct (p_address st)). unfold each_chan.
  rewrite Ec in Hclose. pose proof (Hclose 0 i0 w1 (or_introl eq_refl) eq_refl Hw1) as C0.
  destruct (enable_monitor cfg); simpl take.
  - pose proof (Hclose 1 i1 (sw_log w1 (closes [i0])) (or_intror eq_refl) eq_refl Hw1) as C1.
    erewrite sbind_run; [|rewrite (sbind_run _ _ _ _ _ C0); exact C1]. unfold free_spw, closes.
    rewrite sw_log_app, <- map_app. simpl. by destruct (c_true i0), (c_true i1).
  - erewrite sbind_run; [|rewrite (sbind_run _ _ _ _ _ C0); reflexivity]. done.
Qed.

(** C26: The three calls that end the SpaceWire side, in the order [main] makes
    them, from any state in which the mutex is free and the operations in the
    slots exist and are different: [spw_stop_poll] cancels the waits on the receive
    operation of every channel in use and then joins the polling threads,
    [spw_dispose_ops] disposes every operation of the slots of these channels that
    the API has not freed itself, each one once (no handle is used after it is
    gone), and [spw_release] destroys the address, closes the channels that are
    open and forgets the state. What is in no slot stays as it is: the packet
    buffers and stream items, which the comment at the end of [poll_spw] wants
    disposed, and a transmit operation whose slot another thread has overwritten. *)
Theorem spw_shutdown_releases cfg w st (Hrest : at_rest w st) (Hknown : known (in_use cfg st) w) :
  exists w', (_ ← spw_stop_poll cfg; _ ← spw_dispose_ops cfg; spw_release cfg) w = SRet () w' /\
    spw w' = None /\ (forall k x, Some k ∈ in_use cfg st -> ops w' !! k = Some x -> op_freed x = true) /\
    (forall k, Some k ∉ in_use cfg st -> ops w' !! k = ops w !! k) /\
    addrs w' = (addrs w - match p_address st with Some _ => 1 | None => 0 end)%nat /\
    items w' = items w /\ locked w' = false /\ snet w' = snet w /\
    slog w' = slog w ++ cancels (used cfg (rx_op st)) ++ map SJoin (seqZ 0 (nchans cfg)) ++
      closes (used cfg (spw_chan_id st)).
Proof using Type.
  assert (Hrx : forall k, Some k ∈ used cfg (rx_op st) -> is_Some (ops w !! k)).
  { intros k Hk. apply Hknown. destruct Hrest as [_ _ Ht Hr _ _ _]. unfold in_use, used, nchans in *.
    destruct (rx_op st) as [|r0 [|r1 [|]]]; try done. destruct (tx_op st) as [|t0 [|t1 [|]]]; try done.
    destruct (enable_monitor cfg); simpl in *; set_solver. }
  rewrite (sbind_run _ _ _ _ _ (stop_poll_run cfg w st Hrest Hrx)).
  set (w1 := sw_log _ _). set (st1 := with_shutdown st true).
  assert (Hr1 : at_rest w1 st1) by (by destruct Hrest).
  destruct (dispose_ops_run cfg w1 st1 Hr1 Hknown) as (w2 & R2 & D2).
  rewrite (sbind_run _ _ _ _ _ R2). pose proof D2 as [E1 E2 E3 E4 E5 E6 E7 E8].
  assert (Hr2 : spw w2 = Some st1) by (by rewrite E1).
  eexists. split; [apply (release_run cfg _ st1 Hr2), Hrest|]. split; [done|].
  change (p_address st1) with (p_address st). change (spw_chan_id st1) with (spw_chan_id st).
  unfold w1 in *. simpl in E2, E3, E4, E5, E6. pose proof (ar_lock _ _ Hrest) as Hlock.
  destruct (p_address st); simpl; rewrite E2, E3, E4, E5, E6, <- !app_assoc, Hlock;
    (split; [exact E8|]); (split; [exact E7|]); (split; [lia|]); done.
Qed.

End life.

(** ** Examples *)

(** a device with two channels on which everything succeeds; every packet it
    receives has three octets *)
#[export] Instance ex_star : Star := {
  s_create _ := true; s_submit _ := true; s_wait _ := StarComplete;
  s_data t := [0xfe; 1; u8 (Z.of_nat t)]; s_devices _ := Some [7]; s_mask _ := 7;
  s_open t := 100 + Z.of_nat t; s_cfg _ := 0; s_word _ := 10; s_link _ := mk_link 0 0 0;
  s_stop _ := false; s_rmap_write _ _ _ _ d := Some (1 :: d); s_rmap_read _ _ _ _ _ := Some [2]
}.

Definition sreturns {B} (r : sresult B) : bool := match r with SRet _ _ => true | _ => false end.

Lemma swp_returns {B} (m : SM B) EX (Q : B -> sworld -> Prop) w : swp m EX Q w -> sreturns (m w) = true ->
  exists a w', m w = SRet a w' /\ Q a w'.
Proof. unfold sreturns, swp. destruct (m w); [|done|done]. intros H _. by eexists _, _. Qed.

(** a network side without connections *)
Definition ex_net : world := mk_world 0 ∅ [] [] (mk_net false 0 [] 0 [] 0 (fun _ => svc_empty)) [].

Definition sw0 : sworld := mk_sw 0 None ∅ ∅ 0 false ex_net [].

Lemma sw0_fresh : fresh sw0.
Proof. split; [done|]. split; [done|]. intros i _. apply not_elem_of_empty. Qed.

Definition ex_spw_cfg (mon : bool) : bridge_cfg :=
  mk_cfg MODE_SERVER 1234 2345 1 2 1 0 0 true 10 2 1 0 false false false mon false false false false
    false false true "0.0.0.0" (5 :: 6 :: replicate 254 0)
    (Some (if mon then SpwPktSinkMonitor else NetPktSink)).


Lemma spw_ready_before_address_witness :
  exists w' l id, (_ ← spw_open (ex_spw_cfg false); ready ← spw_link_ready (ex_spw_cfg false);
    _ ← spw_send_packet (ex_spw_cfg false) [1; 2]; mret ready) sw0 = SRet true w' /\
    slog w' = l /\ In (STx id None [1; 2]) l.
Proof.
  pose proof (spw_ready_before_address (ex_spw_cfg false) [1; 2] sw0 ltac:(done) sw0_fresh) as H.
  destruct (swp_returns _ _ _ _ H ltac:(vm_compute; reflexivity)) as (r & w' & Hr & -> & l & id & Hl & Hin).
  by exists w', l, id.
Defined.

(** two threads with their operations, one of them freed by the API, a transmission
    that was interrupted, and one before it on the same channel *)
Definition ex_busy : spw_state :=
  mk_spw 7 (Some []) [101; 102] StarComplete false [Some 4%nat; None] [Some 2%nat; Some 3%nat].

Definition sw_busy : sworld :=
  mk_sw 9 (Some ex_busy)
    (<[2%nat := mk_op RxOp false]> (<[3%nat := mk_op RxOp true]> (<[4%nat := mk_op (TxOp None [1]) false]>
      (<[5%nat := mk_op (TxOp None [9]) false]> ∅))))
    {[8%nat]} 1 false ex_net [].

Lemma busy_ops k : is_Some (ops sw_busy !! k) <-> k = 2%nat \/ k = 3%nat \/ k = 4%nat \/ k = 5%nat.
Proof.
  unfold sw_busy. simpl. split.
  - intros [x Hx]. rewrite !lookup_insert_Some, lookup_empty in Hx. naive_solver.
  - intros [-> | [-> | [-> | ->]]]; vm_compute; by eexists.
Qed.

Lemma busy_in_use : in_use (ex_spw_cfg true) ex_busy = [Some 2%nat; Some 4%nat; Some 3%nat; None].
Proof. reflexivity. Qed.

Lemma spw_shutdown_releases_witness :
  exists w', (_ ← spw_stop_poll (ex_spw_cfg true); _ ← spw_dispose_ops (ex_spw_cfg true);
    spw_release (ex_spw_cfg true)) sw_busy = SRet () w' /\
    spw w' = None /\ addrs w' = 0%nat /\ items w' = {[8%nat]} /\
    ops w' !! 5%nat = Some (mk_op (TxOp None [9]) false) /\
    slog w' = [SCancel 2; SCancel 3; SJoin 0; SJoin 1; SCloseChan 101; SCloseChan 102].
Proof.
  destruct (spw_shutdown_releases (ex_spw_cfg true) sw_busy ex_busy) as (w' & Hr & H1 & _ & H2 & H3 & H4 & _ & _ & H7).
  - split; try done.
    + intros o Ho. destruct (ops sw_busy !! o) eqn:E; [|done].
      assert (Hs : is_Some (ops sw_busy !! o)) by (by eexists). apply busy_ops in Hs. simpl in Ho. lia.
    + intros i Hi. simpl in *. rewrite elem_of_singleton. lia.
  - split; [by apply (bool_decide_unpack _), I|].
    intros k Hk. apply busy_ops. rewrite busy_in_use, !elem_of_cons, elem_of_nil in Hk. naive_solver.
  - exists w'. split; [exact Hr|]. split; [exact H1|]. split; [exact H3|]. split; [exact H4|]. split; [|exact H7].
    assert (Hn : Some 5%nat ∉ in_use (ex_spw_cfg true) ex_busy).
    { rewrite busy_in_use, !elem_of_cons, elem_of_nil. intros [?|[?|[?|[?|[]]]]]; discriminate. }
    rewrite (H2 5%nat Hn). reflexivity.
Defined.
