(* ===== verification/Bridge.v ===== *)
(** * The two sides together

    The polling thread of spw.c with the two packet sinks the bridge installs,
    [net_pkt_sink] of net.c and [spw_pkt_sink_monitor] of spw.c, and the packets
    of the network handlers on their way through [spw_send_packet]. *)

From Stdlib Require Import String List Sorted.
From stdpp Require Import base tactics option list list_numbers gmap sets.
From Stdlib Require Import ZArith Lia Bool.
From S2P Require Import Prelude.
From S2P Require Import CString.
From S2P Require Import Pus.
From S2P Require Import Sys.
From S2P Require Import NetConn.
From S2P Require Import NetRecv.
From S2P Require Import Net.
From S2P Require Import NetSpec.
From S2P Require Import NetSafe.
From S2P Require Import Spw.
From S2P Require Import SpwSpec.
From S2P Require Import SpwLife.

Local Open Scope Z_scope.

(** ** The sinks under the polling thread *)

Section bridge.
Context {A : Star}.

(** what may be known of the network side besides [net_ok] *)
Definition stable (J : world -> Prop) : Prop := forall n n', may_shrink n n' -> J n -> J n'.

(** the network side as the sinks find it; [cl]: the process is a client *)
Definition net_as (J : world -> Prop) (cl : bool) (n : world) : Prop :=
  net_ok n /\ is_client (net n) = cl /\ J n.

Definition anything (n : world) : Prop := True.

Lemma stable_anything : stable anything.
Proof using Type. done. Qed.

Lemma net_as_shrinks J cl n n' : stable J -> may_shrink n n' -> net_as J cl n -> net_as J cl n'.
Proof using Type.
  intros HJ S (H1 & H2 & H3). split; [by eapply net_ok_shrinks|].
  split; [by rewrite (sh_client _ _ _ S)|by eapply HJ].
Qed.

Lemma at_rest_net w st n : at_rest w st -> at_rest (sw_net w n) st.
Proof using Type. by intros []. Qed.

(** a sink of the network side, called by a polling thread *)
Lemma on_net_sink J cl (m : M ()) (Q : world -> world -> Prop) w st :
  stable J -> at_rest w st -> net_as J cl (snet w) -> keeps m ->
  wp m (fun _ => is_client (net (snet w)) = true) (fun _ => Q (snet w)) (snet w) ->
  swp (on_net m) (fun _ => cl = true \/ ~ cooperative)
    (fun _ w' => sink_frame w st w' /\ net_as J cl (snet w') /\
       slog w' = slog w /\ spw w' = spw w /\ Q (snet w) (snet w')) w.
Proof using Type.
  intros HJ Hr Hn Hk Hwp. pose proof Hn as (Hok & Hcl & _).
  eapply swp_mono; [eapply swp_net, keeps_wp; [exact Hk|exact Hok|exact Hwp]| |].
  - intros [] w' (n & -> & HQ & S). split; [|split; [by eapply net_as_shrinks|done]].
    split; [exists st; split; [by apply at_rest_net|apply same_rx_refl]|by split].
  - intros w' (n & -> & H). left. by rewrite <- Hcl.
Qed.

(** A polling thread has run for [n] iterations. *)
Definition thread_post (R : list Z -> sworld -> sworld -> Prop) (c : Z) (n : nat) (w : sworld)
    (st : spw_state) (r : poll_end) (w' : sworld) : Prop :=
  exists st' ts buf, tidy c w st None w' st' buf /\ in_order (scall w) ts (scall w') /\
    handed R w (map s_data ts) w' /\
    (r = PollBreak buf \/ r = PollOn buf) /\
    (cooperative -> running st -> r = PollOn buf /\ length ts = n).

Lemma poll_thread c sink J cl R n w st : chan_ok c ->
  (forall w1 st1 t, at_rest w1 st1 -> wired (spw_chan_id st) (p_address st) st1 -> net_as J cl (snet w1) ->
     swp (sink c (s_data t)) (fun _ => cl = true \/ ~ cooperative)
       (fun _ w' => sink_frame w1 st1 w' /\ net_as J cl (snet w') /\ R (s_data t) w1 w') w1) ->
  at_rest w st -> rx_slot st c = None -> net_as J cl (snet w) ->
  swp (poll_spw n (Some sink) c None) (fun _ => cl = true \/ ~ cooperative) (thread_post R c n w st) w.
Proof using Type.
  intros Hc Hsink Hr Hrx Hn. eapply swp_mono.
  - apply (poll_spw_run c Hc (spw_chan_id st) (p_address st) sink _ _ _ Hsink n w st None Hr); [by split| |done].
    split; [by rewrite Hrx|set_solver].
  - intros r w' (st' & ts & buf & H1 & H2 & H3 & H4 & H5). exists st', ts, buf.
    split; [done|]. split; [done|]. split; [done|]. split; [|done].
    destruct H4 as [|[]]; [by left|by right].
  - done.
Qed.
Context {K : Kernel} {L : KernelLive K}.

(** a packet the sink of the network side can take *)
Definition sinkable (cfg : bridge_cfg) (b : list Z) : Prop :=
  bytes b /\ (rmap_route cfg b = true -> forall p, parses cfg b p -> fits p).

(** what [net_pkt_sink] does, seen from the SpaceWire side *)
Definition net_sink_post (cfg : bridge_cfg) (b : list Z) (w w' : sworld) : Prop :=
  slog w' = slog w /\ sink_post cfg b (snet w) (snet w').

(** what the monitor sink on channel [c] does: the packet goes to the channel
    with identifier [id] with the address [a], and to the observing clients *)
Definition monitor_post (cfg : bridge_cfg) (id : Z) (a : option (list Z)) (b : list Z) (w w' : sworld)
  : Prop :=
  slog w' = slog w ++ [STx id a b; SStatus StarComplete; SSleep (pkt_throttle_usec cfg)] /\
  forward_post cfg b (snet w) (snet w').

(** [net_pkt_sink] under a polling thread *)
Lemma net_sink_ok cfg J cl w st t : stable J -> mode cfg <> MODE_DGRAM -> 0 <= skip_header_bytes cfg ->
  sinkable cfg (s_data t) -> at_rest w st -> net_as J cl (snet w) ->
  swp (on_net (net_pkt_sink cfg (s_data t))) (fun _ => cl = true \/ ~ cooperative)
    (fun _ w' => sink_frame w st w' /\ net_as J cl (snet w') /\ net_sink_post cfg (s_data t) w w') w.
Proof using L.
  intros HJ Hm Hs [Hb Hf] Hr Hn. pose proof Hn as ((N1 & N2 & N3) & Hcl & _).
  eapply swp_mono; [apply (on_net_sink J cl _ (sink_post cfg (s_data t)) w st HJ Hr Hn)| |done].
  - by apply keeps_sink.
  - by apply net_pkt_sink_run.
  - intros [] w' (F & N' & Hlog & _ & Hp). done.
Qed.

(** C12: The SpaceWire to network direction in the stream modes (TCP server and
    client), for every kernel whose sends make progress, any number of iterations of a
    polling thread, and every device that delivers no RMAP read reply with data while
    the RMAP service is enabled, on which [net_pkt_sink] overflows a buffer: the
    packets the device delivers on the channel go through [net_pkt_sink] one
    after the other, in the order of the completed receive operations, each one
    exactly once, and nothing else is done to the network side or to the log of
    the SpaceWire side; what the sink does with each of them is that of
    [net_pkt_sink_routes]. At every time the thread owns at most one operation and
    one packet buffer, and the other channel, the addresses and the invariant of
    the network side are untouched. With a cooperative device, and as long as
    nobody asks the thread to stop, every iteration forwards a packet; the
    process can end only in client mode or because a call of the device fails. *)
Theorem spw_poll_forwards cfg c n w st (Hc : chan_ok c)
    (Hsink : pkt_sink cfg = Some NetPktSink) (Hmode : mode cfg <> MODE_DGRAM)
    (Hskip : 0 <= skip_header_bytes cfg) (Hdata : forall t, sinkable cfg (s_data t))
    (Hrest : at_rest w st) (Hnew : rx_slot st c = None) (Hnet : net_ok (snet w)) :
  swp (poll_spw n (pkt_sink_of cfg) c None)
    (fun _ => is_client (net (snet w)) = true \/ ~ cooperative)
    (thread_post (net_sink_post cfg) c n w st) w.
Proof using L.
  unfold pkt_sink_of. rewrite Hsink.
  apply (poll_thread _ _ anything); [done| |done|done|by split].
  intros w1 st1 t Hr1 _ Hn1. by apply net_sink_ok.
Qed.

(** ** Monitor mode *)

Lemma ready_run cfg w st : at_rest w st -> enable_monitor cfg = true ->
  spw_link_ready cfg w = SRet (c_true (chan_id st 0) && c_true (chan_id st 1)) w.
Proof using Type.
  intros Hr Hm. unfold spw_link_ready. rewrite (ar_spw _ _ Hr), Hm. unfold mbind, SM_bind.
  rewrite chan_id_run by (by apply Hr || by left).
  destruct (c_true (chan_id st 0)); [|done].
  rewrite chan_id_run by (by apply Hr || by right). done.
Qed.

Lemma other_ok c : chan_ok c -> chan_ok (1 - c).
Proof using Type. intros [-> | ->]; [by right|by left]. Qed.

Lemma silent_debug w a b c : silent w (w_log w [ADebug a b c]).
Proof using Type. by apply silent_printed, printed_act. Qed.

(** [spw_pkt_sink_monitor] under a polling thread, the links being up; [F] is what
    the forwarding does *)
Lemma monitor_sink_with cfg c J cl w st b (F : world -> world -> Prop) : stable J -> chan_ok c ->
  enable_monitor cfg = true -> c_true (chan_id st 0) && c_true (chan_id st 1) = true -> at_rest w st ->
  net_as J cl (snet w) ->
  (forall n, net_ok n -> wp (net_forward_to_clients cfg b) (fun _ => is_client (net n) = true) (fun _ => F n) n) ->
  swp (spw_pkt_sink_monitor cfg c b) (fun _ => cl = true \/ ~ cooperative)
    (fun _ w' => sink_frame w st w' /\ net_as J cl (snet w') /\
       slog w' = slog w ++ sent_log cfg st (1 - c) b /\
       exists n, silent (snet w) n /\ F n (snet w')) w.
Proof using L.
  intros HJ Hc Hmon Hready Hr Hn Hfwd. unfold spw_pkt_sink_monitor. cbv zeta.
  set (dir := spw_dir _ _).
  eapply swp_run; [reflexivity|].
  set (w1 := sw_net w (w_log (snet w) [ADebug "spw_debug_print" dir b])).
  assert (Hr1 : at_rest w1 st) by (by apply at_rest_net).
  assert (Hn1 : net_as J cl (snet w1)).
  { eapply (net_as_shrinks J); [exact HJ| |exact Hn]. by apply shrinks_same. }
  eapply swp_run; [by apply ready_run|]. rewrite Hready. cbv iota.
  eapply swp_next.
  { eapply swp_mono; [apply (send_chan_run cfg (1 - c) b w1 st Hr1 (other_ok c Hc))|by intros|by right]. }
  cbn beta. intros [] w2 (Hk2 & Hs2 & Hn2 & Hl2).
  pose proof (after_send_rest _ _ _ _ Hr1 Hk2 Hs2) as Hr2.
  assert (Hn2' : net_as J cl (snet w2)) by (by rewrite Hn2).
  eapply swp_mono.
  - apply (on_net_sink J cl _ F w2 _ HJ Hr2 Hn2'); [apply keeps_forward|apply Hfwd, Hn2'].
  - intros [] w3 (S & N' & Hlog & _ & Hp). split; [|split; [done|split]].
    + destruct S as [(st3 & Hr3 & S3) Hk3]. split.
      * exists st3. split; [done|]. eapply same_rx_trans; [apply same_rx_send|exact S3].
      * eapply kept_trans; [|exact Hk3]. destruct Hk2. by split.
    + by rewrite Hlog, Hl2.
    + exists (snet w2). split; [|done]. rewrite Hn2. apply silent_debug.
  - done.
Qed.

Lemma monitor_sink_ok cfg c J cl w st b : stable J -> chan_ok c -> mode cfg <> MODE_DGRAM ->
  enable_monitor cfg = true ->
  c_true (chan_id st 0) && c_true (chan_id st 1) = true -> at_rest w st -> net_as J cl (snet w) ->
  swp (spw_pkt_sink_monitor cfg c b) (fun _ => cl = true \/ ~ cooperative)
    (fun _ w' => sink_frame w st w' /\ net_as J cl (snet w') /\
       monitor_post cfg (chan_id st (1 - c)) (p_address st) b w w') w.
Proof using L.
  intros HJ Hc Hm Hmon Hready Hr Hn.
  eapply swp_mono; [apply (monitor_sink_with cfg c J cl w st b (forward_post cfg b)); try done| |done].
  - intros n (N1 & _ & N3). by apply forward_delivers_run.
  - intros [] w' (H1 & H2 & H3 & n & H4 & H5). split; [done|]. split; [done|]. split; [done|].
    by eapply forward_post_silent.
Qed.

(** the two sinks come to an end in every mode *)
Lemma monitor_sink_ends cfg c J cl w st b : stable J -> chan_ok c -> enable_monitor cfg = true ->
  c_true (chan_id st 0) && c_true (chan_id st 1) = true -> at_rest w st -> net_as J cl (snet w) ->
  swp (spw_pkt_sink_monitor cfg c b) (fun _ => cl = true \/ ~ cooperative)
    (fun _ w' => sink_frame w st w' /\ net_as J cl (snet w') /\ True) w.
Proof using L.
  intros HJ Hc Hmon Hready Hr Hn.
  eapply swp_mono; [apply (monitor_sink_with cfg c J cl w st b (fun _ _ => True)); try done| |done].
  - intros n (N1 & _ & N3). by apply forward_ends.
  - by intros [] w' (H1 & H2 & _).
Qed.

Lemma net_sink_ends cfg J cl w st t : stable J -> 0 <= skip_header_bytes cfg -> sinkable cfg (s_data t) ->
  at_rest w st -> net_as J cl (snet w) ->
  swp (on_net (net_pkt_sink cfg (s_data t))) (fun _ => cl = true \/ ~ cooperative)
    (fun _ w' => sink_frame w st w' /\ net_as J cl (snet w') /\ True) w.
Proof using L.
  intros HJ Hs [Hb Hf] Hr Hn. pose proof Hn as ((N1 & N2 & N3) & Hcl & _).
  eapply swp_mono; [apply (on_net_sink J cl _ (fun _ _ => True) w st HJ Hr Hn)| |done].
  - by apply keeps_sink.
  - by apply sink_ends.
  - by intros [] w' (F & N' & _).
Qed.

(** C16: Monitor mode, for every device, every kernel and any number of
    iterations of the polling thread of a channel, in the stream modes and with
    both channels open: every packet the device delivers on the channel is
    transmitted verbatim on the other channel, with the address of the bridge
    (that of monitor mode has no nodes), exactly once and in the order of
    arrival, and after that it goes to the clients that observe the traffic, as
    in [forward_delivers]. The transmission leaves no operation and no stream
    item behind. *)
Theorem monitor_copies cfg c n w st (Hc : chan_ok c)
    (Hsink : pkt_sink cfg = Some SpwPktSinkMonitor) (Hmode : mode cfg <> MODE_DGRAM)
    (Hmon : enable_monitor cfg = true)
    (Hready : c_true (chan_id st 0) && c_true (chan_id st 1) = true)
    (Hrest : at_rest w st) (Hnew : rx_slot st c = None) (Hnet : net_ok (snet w)) :
  swp (poll_spw n (pkt_sink_of cfg) c None)
    (fun _ => is_client (net (snet w)) = true \/ ~ cooperative)
    (thread_post (monitor_post cfg (chan_id st (1 - c)) (p_address st)) c n w st) w.
Proof using L.
  unfold pkt_sink_of. rewrite Hsink. apply (poll_thread _ _ anything); [done| |done|done|by split].
  intros w1 st1 t Hr1 [Hids <-] Hn1. unfold chan_id in *. rewrite <- Hids in *.
  by apply (monitor_sink_ok cfg c).
Qed.

End bridge.

(** ** Network to SpaceWire: the calls of the handlers *)

Section replay.
Context {A : Star}.

(** what a call of the network side puts on the link *)
Definition on_link (st : spw_state) (a : act) : list sact :=
  match a with
  | ASpw b => [STx (chan_id st 0) (p_address st) b]
  | ARmapCmd dst write addr data =>
      match (if write then s_rmap_write dst RMAP_DEFAULT_SRC RMAP_DEFAULT_KEY addr data
             else s_rmap_read dst RMAP_DEFAULT_SRC RMAP_DEFAULT_KEY addr 5) with
      | Some pkt => [SRaw (chan_id st 0) pkt]
      | None => []
      end
  | _ => []
  end.

(** the packets in a log *)
Definition transmitted (l : list sact) : list sact :=
  List.filter (fun a => match a with STx _ _ _ | SRaw _ _ => true | _ => false end) l.

Lemma transmitted_app l k : transmitted (l ++ k) = transmitted l ++ transmitted k.
Proof using Type. apply List.filter_app. Qed.

(** no transmission of a packet has failed *)
Definition completed (l : list sact) : Prop :=
  Forall (fun a => match a with SStatus s => s = StarComplete | _ => True end) l.

(** nothing is left behind, and [l] was transmitted with the identifiers and the
    address of [st] *)
Definition link_post (st : spw_state) (l : list sact) (w w' : sworld) : Prop :=
  exists st', at_rest w' st' /\ same_rx st st' /\ kept w w' /\ snet w' = snet w /\
    exists k, slog w' = slog w ++ k /\ transmitted k = l /\ completed k.

Lemma rmap_cmd_run dst write addr data w st : at_rest w st ->
  swp (spw_rmap_cmd dst write addr data) (fun _ => False)
    (fun _ => link_post st (on_link st (ARmapCmd dst write addr data)) w) w.
Proof using Type.
  intros Hr. unfold spw_rmap_cmd, on_link. cbv zeta. destruct (if write then _ else _) as [pkt|].
  2: { exists st. split; [by destruct Hr|]. split; [apply same_rx_refl|]. split; [by split|]. split; [done|].
       exists [SMsg "Failure in  RMAP_Build%sCommandPacket()\n" [Z.b2z write]]. do 2 (split; [done|]). by repeat constructor. }
  eapply swp_run; [unfold get_spw; by rewrite (ar_spw _ _ Hr)|].
  eapply swp_run; [apply chan_id_run; [apply Hr|by left]|].
  eapply swp_run; [reflexivity|]. eapply swp_run; [reflexivity|].
  assert (Hw : link_post st [SRaw (chan_id st 0) pkt] w (sw_call (sw_log w [SRaw (chan_id st 0) pkt]))).
  { exists st. destruct Hr as [Hs Hc Ht Hrx Hl Ho Hi]. split.
    - split; try done; simpl; intros i Hn; [apply Ho|apply Hi]; lia.
    - split; [apply same_rx_refl|]. split; [split; simpl; try done; lia|]. split; [done|].
      exists [SRaw (chan_id st 0) pkt]. do 2 (split; [done|]). by repeat constructor. }
  destruct (negb _); [|exact Hw].
  destruct Hw as (st' & Hr' & S & Hk & Hn & k & L & T & D). exists st'. split; [by destruct Hr'|].
  split; [done|]. split; [by destruct Hk|]. split; [done|].
  eexists. split; [simpl; simpl in L; rewrite L, <- app_assoc; reflexivity|].
  rewrite transmitted_app, T. split; [done|]. apply Forall_app. split; [done|]. by repeat constructor.
Qed.

Lemma replay_act_run cfg a w st : at_rest w st ->
  swp (replay_act cfg a) (fun _ => ~ cooperative) (fun _ => link_post st (on_link st a) w) w.
Proof using Type.
  intros Hr.
  destruct a as [| | |b|dst write addr data| | | | | | |];
    try (exists st; split; [done|]; split; [apply same_rx_refl|]; split; [apply kept_refl|];
         split; [done|]; exists []; rewrite app_nil_r; split; [done|]; split; [done|by apply Forall_nil_2]).
  - eapply swp_mono; [apply (send_chan_run cfg 0 b w st Hr); by left| |done].
    intros [] w' (Hk & Hs & Hn & L). exists (after_send st 0).
    split; [by eapply after_send_rest|]. split; [apply same_rx_send|]. split; [done|]. split; [done|].
    eexists. split; [exact L|]. split; [done|]. by repeat constructor.
  - eapply swp_mono; [by apply (rmap_cmd_run dst write addr data w st)|done|by intros].
Qed.

Lemma on_link_same st st' a : same_rx st st' -> on_link st' a = on_link st a.
Proof using Type. intros (_ & E1 & E2 & _). unfold on_link, chan_id. by rewrite E1, E2. Qed.

Lemma replay_run cfg l : forall w st, at_rest w st ->
  swp (replay cfg l) (fun _ => ~ cooperative) (fun _ => link_post st (concat (map (on_link st) l)) w) w.
Proof using Type.
  induction l as [|a l IH]; intros w st Hr; cbn [replay].
  { exists st. split; [done|]. split; [apply same_rx_refl|]. split; [apply kept_refl|].
    split; [done|]. exists []. rewrite app_nil_r. split; [done|]. split; [done|by apply Forall_nil_2]. }
  eapply swp_next; [by apply replay_act_run|]. intros [] w1 H1. pose proof H1 as (st1 & R1 & S1 & _).
  eapply swp_mono; [by apply (IH w1 st1)| |done]. intros [] w2 H2. simpl.
  destruct H1 as (st1' & R1' & S1' & K1 & N1 & k1 & L1 & T1 & D1).
  destruct H2 as (st2 & R2 & S2 & K2 & N2 & k2 & L2 & T2 & D2).
  exists st2. split; [done|]. split; [by eapply same_rx_trans|]. split; [by eapply kept_trans|].
  split; [congruence|]. exists (k1 ++ k2). rewrite L2, L1, app_assoc. split; [done|].
  split; [|by apply Forall_app]. rewrite transmitted_app, T1, T2. f_equal. f_equal. apply map_ext. intros x. by apply on_link_same.
Qed.

(** The network to SpaceWire direction, for every device: what the handlers
    of the network side hand over, [spw_send_packet] and [spw_rmap_cmd] put on
    the first channel, each packet exactly once, in the order of the calls,
    with the address of the bridge for packets and without one for RMAP
    commands (a command the RMAP library cannot build is dropped with a
    message); no operation and no stream item is left behind, the mutex is free
    and nothing the polling threads rely on has changed. The process ends only
    if a call of the device fails, and a failed transmission of an RMAP command
    does not end it. *)
Theorem spw_transmits_calls cfg l w st (Hrest : at_rest w st) :
  swp (replay cfg l) (fun _ => ~ cooperative) (fun _ => link_post st (concat (map (on_link st) l)) w) w.
Proof using Type. by apply replay_run. Qed.

Lemma on_link_out st l : concat (map (on_link st) l) = concat (map (on_link st) (spw_out l)).
Proof using Type.
  induction l as [|a l IH]; [done|]. rewrite (spw_out_app [a] l : spw_out (a :: l) = _).
  rewrite map_app, concat_app, <- IH. simpl map at 1. cbn [concat]. f_equal.
  by destruct a; simpl; rewrite ?app_nil_r.
Qed.

Lemma on_link_packets st pkts :
  concat (map (on_link st) (map ASpw pkts)) = map (STx (chan_id st 0) (p_address st)) pkts.
Proof using Type. induction pkts as [|p pkts IH]; [done|]. simpl. by rewrite IH. Qed.


End replay.

(** ** Examples *)

Lemma ex_star_cooperative : cooperative.
Proof. done. Qed.

(** a device with one open channel, and two in monitor mode *)
Definition ex_open (id1 : Z) : spw_state :=
  mk_spw 7 (Some [5]) [101; id1] StarComplete false [None; None] [None; None].

Definition sw_open (id1 : Z) : sworld := mk_sw 5 (Some (ex_open id1)) ∅ ∅ 1 false (w_ex []) [].

Lemma open_rest id1 : at_rest (sw_open id1) (ex_open id1).
Proof. by split. Qed.

Lemma open_running id1 : running (ex_open id1).
Proof. done. Qed.

Lemma ex_sinkable t : sinkable (ex_spw_cfg false) (s_data t).
Proof.
  split; [|done]. unfold s_data, ex_star. apply bytes_cons. split; [done|].
  apply bytes_cons. split; [done|]. apply bytes_cons. split; [|apply Forall_nil_2].
  unfold is_byte, u8. apply Z.mod_pos_bound. lia.
Qed.

Lemma w_ex_ok : net_ok (w_ex []).
Proof. split; [done|]. split; [apply w_ex_seq|apply w_ex_disjoint]. Qed.

Lemma two_calls R n w st r w' c : thread_post R c n w st r w' -> cooperative -> running st -> n = 2%nat ->
  exists t1 t2, handed R w [s_data t1; s_data t2] w' /\ (t1 < t2)%nat.
Proof.
  intros (st' & ts & buf & _ & [Ho _] & Hh & _ & Hco) H1 H2 ->. destruct (Hco H1 H2) as [_ Hl].
  destruct ts as [|t1 [|t2 [|]]]; try done. exists t1, t2. split; [done|].
  inversion_clear Ho as [|? ? _ Hall]. by inversion_clear Hall.
Qed.

Lemma spw_poll_forwards_witness :
  exists r w' t1 t2, poll_spw 2 (pkt_sink_of (K := quiet_kernel) (ex_spw_cfg false)) 0 None (sw_open 0) = SRet r w' /\
    handed (net_sink_post (K := quiet_kernel) (ex_spw_cfg false)) (sw_open 0) [s_data t1; s_data t2] w'.
Proof.
  pose proof (spw_poll_forwards (K := quiet_kernel) (ex_spw_cfg false) 0 2 (sw_open 0) (ex_open 0)
    ltac:(by left) eq_refl ltac:(done) ltac:(done) ex_sinkable (open_rest 0) eq_refl w_ex_ok) as H.
  destruct (swp_returns _ _ _ _ H ltac:(vm_compute; reflexivity)) as (r & w' & Hr & Hp).
  destruct (two_calls _ _ _ _ _ _ _ Hp ex_star_cooperative (open_running 0) eq_refl) as (t1 & t2 & Hh & _).
  exists r, w', t1, t2. split; [exact Hr|exact Hh].
Defined.

Lemma monitor_copies_witness :
  exists r w' t1 t2, poll_spw 2 (pkt_sink_of (K := quiet_kernel) (ex_spw_cfg true)) 1 None (sw_open 102) = SRet r w' /\
    handed (monitor_post (K := quiet_kernel) (ex_spw_cfg true) 101 (Some [5])) (sw_open 102)
      [s_data t1; s_data t2] w'.
Proof.
  pose proof (monitor_copies (K := quiet_kernel) (ex_spw_cfg true) 1 2 (sw_open 102) (ex_open 102)
    ltac:(by right) eq_refl ltac:(done) eq_refl eq_refl (open_rest 102) eq_refl w_ex_ok) as H.
  destruct (swp_returns _ _ _ _ H ltac:(vm_compute; reflexivity)) as (r & w' & Hr & Hp).
  destruct (two_calls _ _ _ _ _ _ _ Hp ex_star_cooperative (open_running 102) eq_refl) as (t1 & t2 & Hh & _).
  exists r, w', t1, t2. split; [exact Hr|exact Hh].
Defined.

Lemma spw_transmits_calls_witness :
  exists w', replay (ex_spw_cfg false) [ASpw [1]; AClose 3; ARmapCmd 9 true 16 [7]; ASpw [2]] (sw_open 0) = SRet () w' /\
    link_post (ex_open 0) [STx 101 (Some [5]) [1]; SRaw 101 [1; 7]; STx 101 (Some [5]) [2]] (sw_open 0) w'.
Proof.
  pose proof (spw_transmits_calls (ex_spw_cfg false)
    [ASpw [1]; AClose 3; ARmapCmd 9 true 16 [7]; ASpw [2]] (sw_open 0) (ex_open 0) (open_rest 0)) as H.
  destruct (swp_returns _ _ _ _ H ltac:(vm_compute; reflexivity)) as ([] & w' & Hr & Hp).
  by exists w'.
Defined.

