(* ===== verification/SpwConc.v ===== *)
(** * The threads of the SpaceWire side, call by call (src/spw.c)

    [Spw] runs a function of spw.c in one go.  Here a thread is a program
    counter, and a step is one access to the shared state or one call: sending
    ([spw_send_packet_chan]) and polling ([poll_spw], [spw_setup_rx_op]) are cut
    where another thread can come in between, with [pus_op_lock] making a thread
    wait instead of being stuck.  [send_steps] shows that the steps of a thread
    that is not disturbed are the function of [Spw].

    A configuration has any number of network threads, each with packets and RMAP
    commands to send, the polling threads, and main with its shutdown, during
    which the network threads are cancelled wherever they make a call. *)

From Stdlib Require Import String List.
From stdpp Require Import base tactics option list list_numbers gmap sets.
From Stdlib Require Import ZArith Lia Bool.
From S2P Require Import Prelude.
From S2P Require Import CString.
From S2P Require Import Sys.
From S2P Require Import NetConn.
From S2P Require Import NetRecv.
From S2P Require Import Net.
From S2P Require Import Spw.

Local Open Scope Z_scope.

(** ** Program counters *)

(** between [STAR_createTxOperation] and [STAR_disposeTransferOperation] *)
Inductive send_at : Type :=
| AtLock1 | AtStore | AtUnlock1 | AtSubmit | AtWait | AtStatus (s : star_status) | AtTest | AtSleep
| AtLock2 | AtClear | AtUnlock2 | AtDispose.

(** [spw_send_packet_chan], with its stream item and operation *)
Inductive send_pc : Type :=
| SdBegin
| SdOp (item : nat) (address : option (list Z))
| SdAt (l : send_at) (item o : nat)
| SdFree (item : nat)
| SdDone.

(** [poll_spw]; [buf] is the buffer of the last packet *)
Inductive rx_pc : Type :=
| RxTop (buf : option nat)
| RxDrop (buf : option nat)
| RxCreate
| RxLock (o : nat)
| RxOld (o : nat)
| RxStore (o : nat)
| RxUnlock (o : nat)
| RxSubmit (o : nat)
| RxTest2 (o : nat)
| RxWait (o : nat)
| RxTest3 (o : nat) (s : star_status)
| RxStatus (o : nat) (s : star_status)
| RxPacket (o : nat)
| RxSink (buf : option nat) (d : list Z)
| RxForward (buf : option nat) (d : list Z) (* monitor mode: behind the transmission *)
| RxEnd (buf : option nat).

(** what a network thread does on the SpaceWire side *)
Inductive job : Type :=
| JSend (b : list Z) (* [spw_send_packet] *)
| JRmap (dst : Z) (write : bool) (addr : Z) (data : list Z). (* [spw_rmap_cmd] *)

Inductive caller : Type :=
| CNet (l : list job)
| CPoll (chan : Z) (pc : rx_pc).

(** a thread: the call of [spw_send_packet_chan] it is in, what it does else, and
    the packets it has submitted, which is no state of the program *)
Record thread : Type := mk_thread {
  frame : option (Z * list Z * send_pc);
  who : caller;
  killed : bool;
  submitted : list (Z * list Z)
}.

Section steps.
Context {A : Star} {K : Kernel}.
Variable cfg : bridge_cfg.

(** ** Sending *)

Definition send_step (chan : Z) (b : list Z) (pc : send_pc) : SM send_pc :=
  match pc with
  | SdBegin =>
      st ← get_spw;
      item ← star_create_item;
      match item with
      | None => fatal "Error creating stream item\n" []
      | Some item => mret (SdOp item (p_address st))
      end
  | SdOp item address =>
      o ← star_create_op (TxOp address b);
      match o with
      | None => fatal "Error creating transfer operation\n" []
      | Some o => mret (SdAt AtLock1 item o)
      end
  | SdAt l item o =>
      match l with
      | AtLock1 => _ ← op_lock; mret (SdAt AtStore item o)
      | AtStore =>
          st ← get_spw;
          _ ← slot (tx_op st) chan;
          _ ← put_spw (with_tx_op st chan (Some o));
          mret (SdAt AtUnlock1 item o)
      | AtUnlock1 => _ ← op_unlock; mret (SdAt AtSubmit item o)
      | AtSubmit =>
          st ← get_spw;
          id ← slot (spw_chan_id st) chan;
          ok ← star_submit id o;
          if negb (ok : bool) then fatal "Error during transfer submission\n" []
          else mret (SdAt AtWait item o)
      | AtWait => s ← star_wait o; mret (SdAt (AtStatus s) item o)
      | AtStatus s =>
          st ← get_spw;
          _ ← put_spw (with_tx_status st s);
          mret (SdAt AtTest item o)
      | AtTest =>
          st ← get_spw;
          if negb (bool_decide (tx_status st = StarComplete)) then fatal "Error during transfer\n" []
          else mret (SdAt AtSleep item o)
      | AtSleep => _ ← say (SSleep (pkt_throttle_usec cfg)); mret (SdAt AtLock2 item o)
      | AtLock2 => _ ← op_lock; mret (SdAt AtClear item o)
      | AtClear =>
          st ← get_spw;
          mine ← slot (tx_op st) chan;
          _ ← (if decide (mine = Some o) then put_spw (with_tx_op st chan None) else mret ());
          mret (SdAt AtUnlock2 item o)
      | AtUnlock2 => _ ← op_unlock; mret (SdAt AtDispose item o)
      | AtDispose => _ ← star_dispose_op o; mret (SdFree item)
      end
  | SdFree item => _ ← star_destroy_item item; mret SdDone
  | SdDone => mret SdDone
  end.

(** ** Polling *)

(** a step of [poll_spw] that stays in the function *)
Definition rx_step (chan : Z) (pc : rx_pc) : SM rx_pc :=
  match pc with
  | RxTop buf =>
      stop ← get_shutdown;
      mret (if (stop : bool) then RxEnd buf else RxDrop buf)
  | RxDrop buf =>
      _ ← (match buf with Some b => star_destroy_item b | None => mret () end);
      mret RxCreate
  | RxCreate =>
      o ← star_create_op RxOp;
      match o with
      | None => fatal "Error creating transfer operation\n" []
      | Some o => mret (RxLock o)
      end
  | RxLock o => _ ← op_lock; mret (RxOld o)
  | RxOld o =>
      st ← get_spw;
      old ← slot (rx_op st) chan;
      _ ← (match old with Some old => star_dispose_op old | None => mret () end);
      mret (RxStore o)
  | RxStore o =>
      st ← get_spw;
      _ ← put_spw (with_rx_op st chan (Some o));
      mret (RxUnlock o)
  | RxUnlock o => _ ← op_unlock; mret (RxSubmit o)
  | RxSubmit o =>
      st ← get_spw;
      id ← slot (spw_chan_id st) chan;
      ok ← star_submit id o;
      if negb (ok : bool) then fatal "Error during transfer submission\n" [] else mret (RxTest2 o)
  | RxTest2 o =>
      stop ← get_shutdown;
      mret (if (stop : bool) then RxEnd None else RxWait o)
  | RxWait o =>
      s ← star_wait o;
      if decide (s = StarCancelled) then
        _ ← say (SMsg "TRANSFER CANCELLED!\n" []); mret (RxEnd None)
      else mret (RxTest3 o s)
  | RxTest3 o s =>
      stop ← get_shutdown;
      mret (if (stop : bool) then RxEnd None else RxStatus o s)
  | RxStatus o s =>
      if negb (bool_decide (s = StarComplete)) then
        _ ← say (SMsg "TRANSFER INCOMPLETE!\n" []); mret (RxTop None)
      else mret (RxPacket o)
  | RxPacket o => '(buf, d) ← star_packet o; mret (RxSink buf d)
  | RxSink buf d | RxForward buf d => mret (RxTop buf) (* see [thread_step] *)
  | RxEnd buf => mret (RxEnd buf)
  end.

(** ** Threads *)

Definition with_frame (th : thread) (f : option (Z * list Z * send_pc)) : thread :=
  mk_thread f (who th) (killed th) (submitted th).
Definition with_who (th : thread) (c : caller) : thread :=
  mk_thread (frame th) c (killed th) (submitted th).
Definition calling (th : thread) (chan : Z) (b : list Z) (c : caller) : thread :=
  mk_thread (Some (chan, b, SdBegin)) c (killed th) (submitted th).
Definition noting (th : thread) (chan : Z) (b : list Z) : thread :=
  mk_thread (frame th) (who th) (killed th) (submitted th ++ [(chan, b)]).

(** the submission is noted *)
Definition is_submit (pc : send_pc) : bool := match pc with SdAt AtSubmit _ _ => true | _ => false end.

(** the packet sinks; that of monitor mode sends on the other channel *)
Definition sink_step (th : thread) (chan : Z) (buf : option nat) (d : list Z) : SM thread :=
  match pkt_sink cfg with
  | None => mret (with_who th (CPoll chan (RxTop buf)))
  | Some NetPktSink =>
      _ ← on_net (net_pkt_sink cfg d); mret (with_who th (CPoll chan (RxTop buf)))
  | Some SpwPktSinkMonitor =>
      _ ← on_net (emit_act (ADebug "spw_debug_print"
            (spw_dir (if chan =? 0 then channel cfg else channel2 cfg)
                     (if chan =? 0 then channel2 cfg else channel cfg)) d));
      ready ← spw_link_ready cfg;
      mret (if (ready : bool) then calling th (1 - chan) d (CPoll chan (RxForward buf d))
            else with_who th (CPoll chan (RxForward buf d)))
  end.

Definition thread_step (th : thread) : SM thread :=
  match frame th with
  | Some (chan, b, SdDone) => mret (with_frame th None)
  | Some (chan, b, pc) =>
      pc' ← send_step chan b pc;
      let th' := with_frame th (Some (chan, b, pc')) in
      mret (if is_submit pc then noting th' chan b else th')
  | None =>
      match who th with
      | CNet [] => mret th
      | CNet (JSend b :: l) => mret (calling th 0 b (CNet l))
      | CNet (JRmap dst write addr data :: l) =>
          _ ← spw_rmap_cmd dst write addr data; mret (with_who th (CNet l))
      | CPoll chan (RxSink buf d) => sink_step th chan buf d
      | CPoll chan (RxForward buf d) =>
          _ ← on_net (net_forward_to_clients cfg d); mret (with_who th (CPoll chan (RxTop buf)))
      | CPoll chan pc => pc' ← rx_step chan pc; mret (with_who th (CPoll chan pc'))
      end
  end.

(** in front of [pthread_mutex_lock] *)
Definition at_lock (th : thread) : bool :=
  match frame th with
  | Some (_, _, SdAt (AtLock1 | AtLock2) _ _) => true
  | Some _ => false
  | None => match who th with CPoll _ (RxLock _) => true | _ => false end
  end.

(** the thread function has returned, or the thread has nothing to send *)
Definition over (th : thread) : bool :=
  match frame th, who th with
  | None, CNet [] | None, CPoll _ (RxEnd _) => true
  | _, _ => false
  end.

Definition is_poller (th : thread) : bool := match who th with CPoll _ _ => true | CNet _ => false end.

(** where a cancellation can strike: [usleep], and the calls of the STAR API *)
Definition killable (th : thread) : bool :=
  match frame th with
  | None => true
  | Some (_, _, SdAt (AtSubmit | AtWait | AtSleep | AtDispose) _ _) => true
  | Some (_, _, (SdBegin | SdOp _ _ | SdFree _)) => true
  | Some _ => false
  end.

(** ** Main *)

(** the shutdown of main on the SpaceWire side; when [MnDispose] is reached all
    threads have been joined, and nothing can come in between any more *)
Inductive main_pc : Type :=
| MnRun (* in [pause] *)
| MnKill (* [net_stop] *)
| MnStop | MnLock | MnCancel (chan : Z) | MnUnlock | MnJoin (* [spw_stop_poll] *)
| MnDispose | MnRelease
| MnEnd.

Definition main_step (pc : main_pc) : SM main_pc :=
  match pc with
  | MnRun => _ ← spw_request_shutdown; mret MnKill
  | MnKill => mret MnStop
  | MnStop => _ ← spw_request_shutdown; mret MnLock
  | MnLock => _ ← op_lock; mret (MnCancel 0)
  | MnCancel chan =>
      _ ← cancel_rx chan;
      mret (if (chan =? 0) && enable_monitor cfg then MnCancel 1 else MnUnlock)
  | MnUnlock => _ ← op_unlock; mret MnJoin
  | MnJoin => _ ← each_chan cfg (fun i => say (SJoin i)); mret MnDispose
  | MnDispose => _ ← spw_dispose_ops cfg; mret MnRelease
  | MnRelease => _ ← spw_release cfg; mret MnEnd
  | MnEnd => mret MnEnd
  end.

(** ** Configurations *)

(** [lost]: the operations and items of the threads that were cancelled, which is
    no state of the program *)
Record conf : Type := mk_conf {
  wd : sworld;
  threads : list thread;
  mpc : main_pc;
  lost : list nat;
  lost_items : list nat
}.

Definition frame_op (th : thread) : list nat :=
  match frame th with Some (_, _, SdAt _ _ o) => [o] | _ => [] end.
Definition frame_item (th : thread) : list nat :=
  match frame th with
  | Some (_, _, (SdOp i _ | SdAt _ i _ | SdFree i)) => [i]
  | _ => []
  end.

Inductive event : Type := EThread (i : nat) | EKill (i : nat) | EMain.

Inductive outcome : Type := Next (c : conf) | Over (w : sworld) | Broken.

Definition outcome_of {B} (r : sresult B) (f : B -> sworld -> conf) : outcome :=
  match r with SRet b w => Next (f b w) | SExit w => Over w | SStuck => Broken end.

(** main has to wait: for the threads, or for the mutex *)
Definition main_waits (c : conf) : bool :=
  match mpc c with
  | MnKill => negb (forallb (fun th => is_poller th || killed th) (threads c))
  | MnLock => locked (wd c)
  | MnJoin => negb (forallb (fun th => negb (is_poller th) || over th) (threads c))
  | MnEnd => true
  | _ => false
  end.

Definition conc_step (ev : event) (c : conf) : option outcome :=
  match ev with
  | EThread i =>
      th ← threads c !! i;
      if killed th || over th || (at_lock th && locked (wd c)) then None
      else Some (outcome_of (thread_step th (wd c)) (fun th' w =>
             mk_conf w (<[i := th']> (threads c)) (mpc c) (lost c) (lost_items c)))
  | EKill i =>
      th ← threads c !! i;
      match mpc c with
      | MnKill =>
          if negb (is_poller th) && negb (killed th) && killable th then
            Some (Next (mk_conf (wd c) (<[i := mk_thread None (who th) true (submitted th)]> (threads c))
                          MnKill (frame_op th ++ lost c) (frame_item th ++ lost_items c)))
          else None
      | _ => None
      end
  | EMain =>
      if main_waits c then None
      else Some (outcome_of (main_step (mpc c) (wd c)) (fun pc w =>
             mk_conf w (threads c) pc (lost c) (lost_items c)))
  end.

(** [ev] is the end of a wait for a packet, without a time limit, that nobody has
    cancelled: it comes when the device has something to report, and may not come at
    all.  A wait whose operation has been given to [STAR_cancelTransferOperationWaits]
    ends by itself, whether it had begun then or not; every other call returns. *)
Definition needs_device (ev : event) (c : conf) : Prop :=
  exists i th ch o, ev = EThread i /\ threads c !! i = Some th /\ frame th = None /\
    who th = CPoll ch (RxWait o) /\ SCancel o ∉ slog (wd c).

(** the API has cancelled a transmission; nobody asks it to *)
Definition tx_cancelled (th : thread) : Prop :=
  exists chan b i o, frame th = Some (chan, b, SdAt (AtStatus StarCancelled) i o).

(** what can be reached, the network side changing as its invariant [net_inv] lets it *)
Inductive reachable (net_inv : world -> Prop) (c0 : conf) : conf -> Prop :=
| reach_start : reachable net_inv c0 c0
| reach_step ev c c' : reachable net_inv c0 c -> conc_step ev c = Some (Next c') ->
    (forall th, th ∈ threads c' -> ~ tx_cancelled th) -> reachable net_inv c0 c'
| reach_net c n : reachable net_inv c0 c -> net_inv n ->
    reachable net_inv c0 (mk_conf (sw_net (wd c) n) (threads c) (mpc c) (lost c) (lost_items c)).

Fixpoint conc_run (l : list event) (c : conf) : option conf :=
  match l with
  | [] => Some c
  | ev :: l => match conc_step ev c with Some (Next c') => conc_run l c' | _ => None end
  end.

(** the threads after [spw_setup_device]; [js]: what the network threads send *)
Definition net_thread (l : list job) : thread := mk_thread None (CNet l) false [].
Definition poll_thread (chan : Z) : thread := mk_thread None (CPoll chan (RxTop None)) false [].

Definition conc_start (w : sworld) (js : list (list job)) : conf :=
  mk_conf w (map net_thread js ++ poll_thread 0 :: (if enable_monitor cfg then [poll_thread 1] else []))
    MnRun [] [].

(** ** The steps of a thread that is not disturbed *)

Fixpoint send_run (n : nat) (chan : Z) (b : list Z) (pc : send_pc) : SM send_pc :=
  match n with O => mret pc | S n => pc' ← send_step chan b pc; send_run n chan b pc' end.

(** [n] steps, and nothing if the function has returned by then *)
Definition send_all_steps (n : nat) (chan : Z) (b : list Z) : SM () :=
  pc ← send_run n chan b SdBegin;
  match pc with SdDone => mret () | _ => sstuck end.
End steps.

(** ** Laws of the computations, for equations between them *)

Lemma sm_assoc {B C D} (m : SM B) (f : B -> SM C) (g : C -> SM D) w :
  ((m ≫= f) ≫= g) w = (m ≫= (fun x => f x ≫= g)) w.
Proof. unfold mbind, SM_bind. by destruct (m w). Qed.

Lemma sm_ret {B C} (x : B) (f : B -> SM C) w : (mret x ≫= f) w = f x w.
Proof. done. Qed.

Lemma sm_fatal {B C} s l (f : B -> SM C) w : (fatal s l ≫= f) w = fatal s l w.
Proof. done. Qed.

Lemma sm_cong {B C} (m : SM B) (f g : B -> SM C) w : (forall x w', f x w' = g x w') -> (m ≫= f) w = (m ≫= g) w.
Proof. intros H. unfold mbind, SM_bind. by destruct (m w). Qed.

Lemma sm_put {B} st (f : () -> SM B) w : (put_spw st ≫= f) w = f () (sw_spw w (Some st)).
Proof. done. Qed.

Lemma sm_get {B} st (f : spw_state -> SM B) w : (get_spw ≫= f) (sw_spw w (Some st)) = f st (sw_spw w (Some st)).
Proof. done. Qed.

(** the same computation on both sides *)
Ltac same :=
  cbn [send_step with_tx_status tx_status]; cbv beta iota zeta;
  match goal with
  | |- ((_ ≫= _) ≫= _) _ = _ => rewrite sm_assoc
  | |- (mret _ ≫= _) _ = _ => rewrite sm_ret
  | |- _ = (mret _ ≫= _) _ => rewrite sm_ret
  | |- (get_spw ≫= _) (sw_spw _ _) = _ => rewrite sm_get
  | |- _ = (get_spw ≫= _) (sw_spw _ _) => rewrite sm_get
  | |- (fatal _ _ ≫= _) _ = _ => rewrite sm_fatal
  | |- context [match ?x with Some _ => _ | None => _ end] => is_var x; destruct x
  | |- ((if negb ?b then _ else _) ≫= _) _ = _ => destruct b; cbn beta iota delta [negb]
  | |- (put_spw _ ≫= _) _ = (put_spw _ ≫= _) _ => rewrite !sm_put
  | |- (?m ≫= _) ?w = (?m ≫= _) ?w => apply sm_cong; intros ? ?
  | |- (?m ≫= _) ?w = ?m ?w => unfold mbind, SM_bind; destruct (m w) as [[]| |]; reflexivity
  | |- ?x = ?x => reflexivity
  end.

(** A send that no other thread disturbs is [spw_send_packet_chan], from every
    state, in every way it can end: the cut into steps adds and drops nothing. *)
Theorem send_steps {A : Star} cfg chan b w :
  send_all_steps cfg 15 chan b w = spw_send_packet_chan cfg chan b w.
Proof.
  unfold send_all_steps, spw_send_packet_chan. cbn [send_run]. repeat same.
Qed.

(** ** The steps of a polling thread that is not disturbed *)

Section poll.
Context {A : Star} {K : Kernel}.
Variable cfg : bridge_cfg.

(** an iteration of [poll_spw] has come to its end *)
Definition round_over (th : thread) : bool :=
  match frame th, who th with None, CPoll _ (RxTop _ | RxEnd _) => true | _, _ => false end.

(** the steps up to the end of the iteration, at most [n] *)
Fixpoint round_steps (n : nat) (th : thread) : SM thread :=
  match n with
  | O => sstuck
  | S n => th' ← thread_step cfg th; if round_over th' then mret th' else round_steps n th'
  end.

Definition pc_after (r : poll_end) : rx_pc := match r with PollOn buf => RxTop buf | PollBreak buf => RxEnd buf end.

Lemma round_steps_S n th w : round_steps (S n) th w =
  (th' ← thread_step cfg th; if round_over th' then mret th' else round_steps n th') w.
Proof using Type. done. Qed.

(** both computations as far as the result of the next call *)
Ltac go :=
  unfold thread_step, sink_step, spw_dir, mbind, SM_bind, mret, SM_ret;
  cbv beta iota zeta delta [frame who round_over with_who with_frame calling noting killed submitted is_submit];
  cbn [rx_step send_step with_tx_status tx_status spw sw_spw pc_after fatal negb bool_decide];
  unfold mbind, SM_bind, mret, SM_ret;
  repeat match goal with H : pkt_sink cfg = _ |- _ => rewrite H end; cbv beta iota zeta.

(** the cases of that call, or of the test of its result *)
Ltac head_call :=
  match goal with
  | |- context [match ?e with SRet _ _ => _ | SExit _ => _ | SStuck => _ end] =>
      lazymatch e with
      | match _ with SRet _ _ => _ | SExit _ => _ | SStuck => _ end => fail
      | _ => idtac
      end;
      match e with
      | context [if ?b then _ else _] => first [is_var b; destruct b | match b with ?x =? 0 => destruct b end]
      | context [match ?o with Some _ => _ | None => _ end] => is_var o; destruct o
      | context [negb ?b] => is_var b; destruct b
      | context [bool_decide ?P] => destruct (bool_decide P)
      | context [decide ?P] => destruct (decide P)
      | context [let '(_, _) := ?p in _] => is_var p; destruct p
      | round_steps _ _ _ => rewrite round_steps_S
      | put_spw _ _ => unfold put_spw
      | get_spw (sw_spw ?w (Some ?st)) => change e with (SRet st (sw_spw w (Some st)))
      | _ =>
          lazymatch e with
          | context [if _ then _ else _] => fail
          | context [match _ with Some _ => _ | None => _ end] => fail
          | _ => destruct e
          end
      end
  end.

(** From the top of the loop, the steps of a polling thread that no other
    thread disturbs are one iteration of [poll_spw], with whichever packet
    sink is configured, the transmission in that of monitor mode included; it ends
    in the same state, at the top again or behind the loop, in every way the calls
    can answer. *)
Theorem poll_steps chan buf kd sub w :
  (th ← round_steps 40 (mk_thread None (CPoll chan (RxTop buf)) kd sub); mret (who th)) w =
  (r ← poll_round (pkt_sink_of cfg) chan buf; mret (CPoll chan (pc_after r))) w.
Proof using Type.
  unfold poll_round, spw_setup_rx_op, pkt_sink_of, spw_pkt_sink_monitor, spw_send_packet_chan.
  destruct (pkt_sink cfg) as [[]|] eqn:Hs; go; repeat (first [done | head_call; go]).
Qed.
End poll.
