(* ===== verification/SpwConcInv.v ===== *)
(** * Who owns what on the SpaceWire side

    The invariant of the configurations of [SpwConc]: who owns which transfer
    operation, packet buffer and stream item, and who is inside the mutex.  [moved]
    is what a step of a thread may do to the shared state; [inv_moved] composes it
    with the other threads. *)

From Stdlib Require Import String List.
From stdpp Require Import base tactics option list list_numbers gmap sets.
From Stdlib Require Import ZArith Lia Bool.
From S2P Require Import Prelude.
From S2P Require Import CString.
From S2P Require Import Sys.
From S2P Require Import NetConn.
From S2P Require Import NetRecv.
From S2P Require Import Net.
From S2P Require Import NetSpec.
From S2P Require Import NetSafe.
From S2P Require Import Spw.
From S2P Require Import SpwSpec.
From S2P Require Import SpwLife.
From S2P Require Import Bridge.
From S2P Require Import SpwConc.

Local Open Scope Z_scope.

(** ** What a thread owns *)

(** a receive operation that is in no slot yet *)
Definition fresh_op (th : thread) : list nat :=
  match who th with CPoll _ (RxLock o | RxOld o | RxStore o) => [o] | _ => [] end.

(** the polling thread of a channel, and whether it has disposed the operation that
    is still in the slot *)
Definition polls (th : thread) (c : Z) : bool :=
  match who th with CPoll c' _ => bool_decide (c' = c) | CNet _ => false end.
Definition storing (th : thread) : bool :=
  match who th with CPoll _ (RxStore _) => true | _ => false end.

Definition slot_op (st : spw_state) (th : thread) : list nat :=
  match who th with
  | CPoll _ (RxStore _) => []
  | CPoll c _ => option_list (rx_slot st c)
  | CNet _ => []
  end.

Definition my_ops (st : spw_state) (th : thread) : list nat :=
  frame_op th ++ fresh_op th ++ slot_op st th.

Definition my_buf (th : thread) : list nat :=
  match who th with
  | CPoll _ (RxTop b | RxDrop b | RxSink b _ | RxForward b _ | RxEnd b) => option_list b
  | _ => []
  end.

Definition my_items (th : thread) : list nat := frame_item th ++ my_buf th.

(** inside [pus_op_lock] *)
Definition in_cs (th : thread) : bool :=
  match frame th with
  | Some (_, _, SdAt (AtStore | AtUnlock1 | AtClear | AtUnlock2) _ _) => true
  | Some _ => false
  | None => match who th with CPoll _ (RxOld _ | RxStore _ | RxUnlock _) => true | _ => false end
  end.

(** between storing its operation and clearing the slot *)
Definition in_window (th : thread) (c : Z) : bool :=
  match frame th with
  | Some (c', _, SdAt (AtUnlock1 | AtSubmit | AtWait | AtStatus _ | AtTest | AtSleep | AtLock2 | AtClear) _ _) =>
      bool_decide (c' = c)
  | _ => false
  end.

Definition tx_slot (st : spw_state) (c : Z) : option nat := default None (tx_op st !! Z.to_nat c).

(** ** Packets *)

Definition sends (l : list sact) : list sact :=
  List.filter (fun a => match a with STx _ _ _ => true | _ => false end) l.

(** the packets of a network thread: those submitted, the one that is being sent, and
    those still to come *)
Definition packets (l : list job) : list (Z * list Z) :=
  omap (fun j => match j with JSend b => Some (0, b) | JRmap _ _ _ _ => None end) l.

Definition pending (th : thread) : list (Z * list Z) :=
  match frame th with
  | Some (c, b, (SdBegin | SdOp _ _ | SdAt (AtLock1 | AtStore | AtUnlock1 | AtSubmit) _ _)) => [(c, b)]
  | _ => []
  end.

Definition job_ok (l0 : list job) (th : thread) : Prop :=
  exists l, who th = CNet l /\
    if killed th then submitted th `prefix_of` packets l0
    else submitted th ++ pending th ++ packets l = packets l0.

Section inv.
Variable cfg : bridge_cfg.
Variables (ids : list Z) (addr : option (list Z)).

Definition tx_live (w : sworld) (o : nat) (b : list Z) : Prop := ops w !! o = Some (mk_op (TxOp addr b) false).
Definition rx_live (w : sworld) (o : nat) : Prop := ops w !! o = Some (mk_op RxOp false).

(** the operation [poll_spw] works with is the one of its slot *)
Definition works_on (pc : rx_pc) : option nat :=
  match pc with
  | RxUnlock o | RxSubmit o | RxTest2 o | RxWait o | RxTest3 o _ | RxStatus o _ | RxPacket o => Some o
  | _ => None
  end.

Definition ended_pc (pc : rx_pc) : bool := match pc with RxEnd _ => true | _ => false end.

(** ** What holds of a thread *)

Record local (w : sworld) (st : spw_state) (th : thread) : Prop := {
  lc_chan : forall c b pc, frame th = Some (c, b, pc) -> chan_ok c;
  lc_addr : forall c b i a, frame th = Some (c, b, SdOp i a) -> a = addr;
  lc_tx : forall c b l i o, frame th = Some (c, b, SdAt l i o) -> tx_live w o b;
  lc_poll : forall c pc, who th = CPoll c pc ->
    chan_ok c /\ killed th = false /\
    (frame th <> None -> exists buf d, pc = RxForward buf d) /\
    (forall o, works_on pc = Some o -> rx_slot st c = Some o) /\
    (forall buf d, pc = RxSink buf d -> sinkable cfg d);
  lc_rx : forall o, o ∈ fresh_op th -> rx_live w o;
  lc_slot : forall c pc o, who th = CPoll c pc -> storing th = false -> rx_slot st c = Some o ->
    exists fr, ops w !! o = Some (mk_op RxOp fr) /\ (ended_pc pc = false -> fr = false);
  lc_ops : NoDup (my_ops st th);
  lc_items : NoDup (my_items th) /\ forall i, i ∈ my_items th -> i ∈ items w;
  lc_cs : in_cs th = true -> locked w = true;
  lc_killed : killed th = true -> frame th = None
}.

(** ** What a step does *)

(** the arrays *)
Record wired (w : sworld) (st : spw_state) : Prop := {
  wi_spw : spw w = Some st;
  wi_ids : spw_chan_id st = ids;
  wi_addr : p_address st = addr;
  wi_tx : length (tx_op st) = 2%nat;
  wi_rx : length (rx_op st) = 2%nat;
  wi_ops : forall k, (scall w <= k)%nat -> ops w !! k = None;
  wi_items : forall k, (scall w <= k)%nat -> k ∉ items w
}.

Record moved (w : sworld) (st : spw_state) (th : thread) (w' : sworld) (st' : spw_state) (th' : thread) : Prop := {
  mv_wired : wired w' st';
  mv_call : (scall w <= scall w')%nat;
  mv_local : local w' st' th';
  mv_ops : forall k, k ∉ my_ops st th -> (k < scall w)%nat -> ops w' !! k = ops w !! k;
  mv_items : forall k, k ∉ my_items th -> k ∈ items w -> k ∈ items w';
  mv_my_ops : forall k, k ∈ my_ops st' th' -> k ∈ my_ops st th \/ (scall w <= k)%nat;
  mv_my_items : forall k, k ∈ my_items th' -> k ∈ my_items th \/ (scall w <= k)%nat;
  mv_slots : forall c, chan_ok c -> polls th c = false -> rx_slot st' c = rx_slot st c;
  mv_polls : forall c, polls th' c = polls th c;
  mv_killed : killed th' = killed th;
  mv_cs : in_cs th' = in_cs th /\ locked w' = locked w \/
    locked w = false /\ locked w' = true /\ in_cs th' = true \/
    in_cs th = true /\ in_cs th' = false /\ locked w' = false;
  mv_tx : forall c o, chan_ok c -> tx_slot st' c = Some o ->
    (tx_slot st c = Some o \/
       o ∈ frame_op th /\ in_window th' c = true /\ tx_slot st' (1 - c) = tx_slot st (1 - c) /\
       forall c', in_window th c' = false) /\
    (exists b, tx_live w' o b) /\
    (o ∈ my_ops st' th' -> o ∈ frame_op th' /\ in_window th' c = true);
  mv_all : forall k, is_Some (ops w' !! k) ->
    is_Some (ops w !! k) /\ (k ∈ my_ops st th -> k ∈ my_ops st' th') \/ k ∈ my_ops st' th';
  mv_log : exists l, submitted th' = submitted th ++ l /\
    sends (slog w') = sends (slog w) ++ map (fun '(c, b) => STx (nth (Z.to_nat c) ids 0) addr b) l;
  mv_jobs : forall l0, job_ok l0 th -> job_ok l0 th';
  mv_net : net_ok (snet w')
}.

(** ** What holds of a configuration *)

Definition main_cs (c : conf) : bool := match mpc c with MnCancel _ | MnUnlock => true | _ => false end.

Record apart (st : spw_state) (a b : thread) : Prop := {
  ap_ops : forall k, k ∈ my_ops st a -> k ∉ my_ops st b;
  ap_items : forall k, k ∈ my_items a -> k ∉ my_items b;
  ap_cs : in_cs a = true -> in_cs b = false;
  ap_polls : forall c, polls a c = true -> polls b c = false
}.

(** who has submitted what, in the order of the link *)
Definition of_thread (i : nat) (h : list (nat * (Z * list Z))) : list (Z * list Z) :=
  omap (fun '(j, x) => if decide (j = i) then Some x else None) h.

Definition on_link (h : list (nat * (Z * list Z))) : list sact :=
  map (fun '(_, (c, b)) => STx (nth (Z.to_nat c) ids 0) addr b) h.

Variables (js : list (list job)) (base : list sact).

Record inv (c : conf) (st : spw_state) : Prop := {
  iv_wired : wired (wd c) st;
  iv_local : forall i th, threads c !! i = Some th -> local (wd c) st th;
  iv_apart : forall i j a b, threads c !! i = Some a -> threads c !! j = Some b -> i <> j -> apart st a b;
  iv_main : main_cs c = true -> locked (wd c) = true /\ forall i th, threads c !! i = Some th -> in_cs th = false;
  iv_locked : locked (wd c) = true -> main_cs c = true \/ exists i th, threads c !! i = Some th /\ in_cs th = true;
  iv_tx : forall ch o, chan_ok ch -> tx_slot st ch = Some o ->
    (exists b, tx_live (wd c) o b) /\ tx_slot st (1 - ch) <> Some o /\
    forall i th, threads c !! i = Some th -> o ∈ my_ops st th -> o ∈ frame_op th /\ in_window th ch = true;
  iv_norx : forall ch, chan_ok ch -> (forall i th, threads c !! i = Some th -> polls th ch = false) ->
    rx_slot st ch = None;
  iv_all : forall k, is_Some (ops (wd c) !! k) ->
    k ∈ lost c \/ exists i th, threads c !! i = Some th /\ k ∈ my_ops st th;
  iv_log : exists h, sends (slog (wd c)) = base ++ on_link h /\
    forall i th, threads c !! i = Some th -> submitted th = of_thread i h;
  iv_jobs : forall i th l0, threads c !! i = Some th -> js !! i = Some l0 -> job_ok l0 th;
  iv_net : net_ok (snet (wd c))
}.

(** the operations of a thread exist *)
Lemma my_known w st th k : local w st th -> k ∈ my_ops st th -> is_Some (ops w !! k).
Proof using Type.
  intros [_ _ Htx Hp Hrx Hs _ _ _ _]. unfold my_ops. rewrite !elem_of_app. intros [Hk|[Hk|Hk]].
  - unfold frame_op in Hk. destruct (frame th) as [[[c b] pc]|] eqn:Ef; [|by apply elem_of_nil in Hk].
    destruct pc; try by apply elem_of_nil in Hk. apply list_elem_of_singleton in Hk as ->.
    rewrite (Htx _ _ _ _ _ eq_refl). by eexists.
  - rewrite (Hrx k Hk). by eexists.
  - unfold slot_op in Hk. destruct (who th) as [|c pc] eqn:Ew; [by apply elem_of_nil in Hk|].
    assert (storing th = false /\ rx_slot st c = Some k) as [Hst Hsl].
    { unfold storing. rewrite Ew. destruct pc, (rx_slot st c); simpl in Hk;
        try (by apply elem_of_nil in Hk); split; try done; by apply list_elem_of_singleton in Hk as ->. }
    destruct (Hs c pc k eq_refl Hst Hsl) as (fr & -> & _). by eexists.
Qed.

Lemma my_old w st th k : wired w st -> local w st th -> k ∈ my_ops st th -> (k < scall w)%nat.
Proof using Type.
  intros Hw Hl Hk. destruct (decide (k < scall w)%nat) as [|Hn]; [done|]. exfalso.
  destruct (my_known _ _ _ _ Hl Hk) as [x Hx]. rewrite (wi_ops _ _ Hw) in Hx by lia. done.
Qed.

(** another thread keeps what it has *)
Lemma slot_op_other w st th w' st' th' a : moved w st th w' st' th' -> local w st a -> apart st th a ->
  my_ops st' a = my_ops st a.
Proof using Type.
  intros M Ha Hap. unfold my_ops. do 2 f_equal. unfold slot_op. destruct (who a) as [|c pc] eqn:Ew; [done|].
  assert (E : rx_slot st' c = rx_slot st c); [|by rewrite E].
  apply (mv_slots _ _ _ _ _ _ M).
  - by apply (lc_poll _ _ _ Ha _ _ Ew).
  - destruct (polls th c) eqn:Ep; [|done]. apply (ap_polls _ _ _ Hap) in Ep. unfold polls in Ep.
    rewrite Ew in Ep. by rewrite bool_decide_eq_true_2 in Ep.
Qed.

Lemma local_other w st th w' st' th' a : wired w st -> moved w st th w' st' th' -> local w st a ->
  apart st th a -> local w' st' a.
Proof using Type.
  intros Hw M Ha Hap. pose proof (slot_op_other _ _ _ _ _ _ _ M Ha Hap) as Emy.
  assert (Hops : forall k, k ∈ my_ops st a -> ops w' !! k = ops w !! k).
  { intros k Hk. apply (mv_ops _ _ _ _ _ _ M); [|by eapply my_old].
    intros Hk'. by apply (ap_ops _ _ _ Hap k). }
  assert (Hslot : forall c pc, who a = CPoll c pc -> rx_slot st' c = rx_slot st c).
  { intros c pc Ew. apply (mv_slots _ _ _ _ _ _ M); [by apply (lc_poll _ _ _ Ha _ _ Ew)|].
    destruct (polls th c) eqn:Ep; [|done]. apply (ap_polls _ _ _ Hap) in Ep. unfold polls in Ep.
    rewrite Ew in Ep. by rewrite bool_decide_eq_true_2 in Ep. }
  destruct Ha as [H1 H2 H3 H4 H5 H6 H7 [H8 H9] H10 H11]. split; try done.
  - intros c b l i o Ef. unfold tx_live. rewrite Hops; [by eapply H3|].
    unfold my_ops, frame_op. rewrite Ef. set_solver.
  - intros c pc Ew. rewrite (Hslot _ _ Ew). by apply H4.
  - intros o Ho. unfold rx_live. rewrite Hops; [by apply H5|]. unfold my_ops. set_solver.
  - intros c pc o Ew Hs. rewrite (Hslot _ _ Ew). intros Ho. rewrite Hops; [by eapply H6|].
    unfold my_ops, slot_op. rewrite Ew. unfold storing in Hs. rewrite Ew in Hs.
    rewrite !elem_of_app. right. right. destruct pc; simpl in Hs; rewrite ?Ho; try done; by apply list_elem_of_singleton.
  - by rewrite Emy.
  - split; [done|]. intros i Hi. apply (mv_items _ _ _ _ _ _ M); [|by apply H9].
    intros Hi'. by apply (ap_items _ _ _ Hap i).
  - intros Hc. specialize (H10 Hc). destruct (mv_cs _ _ _ _ _ _ M) as [[_ ->]|[[E _]|[E _]]]; [done|congruence|].
    apply (ap_cs _ _ _ Hap) in E. congruence.
Qed.
Lemma apart_sym st a b : apart st a b -> apart st b a.
Proof using Type.
  intros [P1 P2 P3 P4]. split.
  - intros k Hb Ha. by apply (P1 k).
  - intros k Hb Ha. by apply (P2 k).
  - intros Hb. destruct (in_cs a) eqn:E; [|done]. by rewrite P3 in Hb.
  - intros c Hb. destruct (polls a c) eqn:E; [|done]. by rewrite (P4 c E) in Hb.
Qed.

(** it stays apart from a thread that has moved *)
Lemma apart_moved w st th w' st' th' a : wired w st -> local w st th -> moved w st th w' st' th' ->
  local w st a -> apart st th a -> (in_cs a = true -> locked w = true) -> apart st' th' a.
Proof using Type.
  intros Hw Hth M Ha Hap Hcs. split.
  - intros k Hk. rewrite (slot_op_other _ _ _ _ _ _ _ M Ha Hap).
    destruct (mv_my_ops _ _ _ _ _ _ M k Hk) as [Hk'|Hge]; [by apply (ap_ops _ _ _ Hap)|].
    intros Hk'. pose proof (my_old _ _ _ _ Hw Ha Hk'). lia.
  - intros k Hk. destruct (mv_my_items _ _ _ _ _ _ M k Hk) as [Hk'|Hge]; [by apply (ap_items _ _ _ Hap)|].
    intros Hk'. by apply (wi_items _ _ Hw k Hge), (lc_items _ _ _ Ha).
  - intros Hc. destruct (mv_cs _ _ _ _ _ _ M) as [[E _]|[(E & _)|(_ & E & _)]]; [|..|congruence].
    + apply (ap_cs _ _ _ Hap). congruence.
    + destruct (in_cs a); [|done]. specialize (Hcs eq_refl). congruence.
  - intros c. rewrite (mv_polls _ _ _ _ _ _ M). apply (ap_polls _ _ _ Hap).
Qed.

Lemma of_thread_app i h k : of_thread i (h ++ k) = of_thread i h ++ of_thread i k.
Proof using Type. apply omap_app. Qed.

Lemma of_thread_tag i j l : of_thread i (map (fun x => (j, x)) l) = if decide (j = i) then l else [].
Proof using Type.
  induction l as [|x l IH]; simpl; [by case_decide|]. unfold of_thread in *. simpl. rewrite IH. by case_decide.
Qed.

Lemma on_link_tag i l : on_link (map (fun x => (i, x)) l) =
  map (fun '(c, b) => STx (nth (Z.to_nat c) ids 0) addr b) l.
Proof using Type. unfold on_link. rewrite map_map. apply map_ext. by intros [c b]. Qed.

Lemma on_link_app h k : on_link (h ++ k) = on_link h ++ on_link k.
Proof using Type. apply map_app. Qed.

(** the slot of a channel that has no thread *)
Lemma polls_lookup (l : list thread) i th th' ch : l !! i = Some th -> (forall c, polls th' c = polls th c) ->
  (forall j a, <[i := th']> l !! j = Some a -> polls a ch = false) ->
  forall j a, l !! j = Some a -> polls a ch = false.
Proof using Type.
  intros Hi Hp H j a Hj. destruct (decide (i = j)) as [<-|Hne].
  - simplify_eq. rewrite <- Hp. apply (H i). apply list_lookup_insert_eq. by eapply lookup_lt_Some.
  - apply (H j). by rewrite list_lookup_insert_ne.
Qed.

(** a step of one thread keeps the invariant *)
Lemma inv_moved c st i th w' st' th' : inv c st -> threads c !! i = Some th ->
  moved (wd c) st th w' st' th' ->
  inv (mk_conf w' (<[i := th']> (threads c)) (mpc c) (lost c) (lost_items c)) st'.
Proof using Type.
  intros V Hi M. destruct V as [V1 V2 V3 V4 V5 V6 V7 V8 V9 V10 V11].
  pose proof (V2 _ _ Hi) as Lth. pose proof (lookup_lt_Some _ _ _ Hi) as Hlt.
  assert (Hcases : forall j a, <[i := th']> (threads c) !! j = Some a ->
    j = i /\ a = th' \/ j <> i /\ threads c !! j = Some a /\ local (wd c) st a /\ apart st th a).
  { intros j a. rewrite list_lookup_insert_Some. intros [(<- & <- & _)|[Hne Hj]]; [by left|].
    right. split; [congruence|]. split; [done|]. split; [by apply (V2 j)|]. by apply (V3 i j). }
  assert (Hmy : forall j a, j <> i -> threads c !! j = Some a -> my_ops st' a = my_ops st a).
  { intros j a Hne Hj. eapply slot_op_other; [exact M|by apply (V2 j)|]. by apply (V3 i j). }
  split; simpl.
  - apply M.
  - intros j a Hj. apply Hcases in Hj as [[-> ->]|(Hne & Hj & La & Pa)]; [apply M|].
    by eapply local_other.
  - intros j k a b Hj Hk Hjk. apply Hcases in Hj as [[-> ->]|(Hne & Hj & La & Pa)];
      apply Hcases in Hk as [[-> ->]|(Hne' & Hk & Lb & Pb)]; [done|..].
    + exact (apart_moved _ _ _ _ _ _ _ V1 Lth M Lb Pb (lc_cs _ _ _ Lb)).
    + apply apart_sym. exact (apart_moved _ _ _ _ _ _ _ V1 Lth M La Pa (lc_cs _ _ _ La)).
    + destruct (V3 j k a b Hj Hk Hjk) as [P1 P2 P3 P4]. split; try done.
      rewrite (Hmy j a Hne Hj), (Hmy k b Hne' Hk). done.
  - intros Hm. destruct (V4 Hm) as [Hl Hcs]. pose proof (Hcs _ _ Hi) as Hci.
    destruct (mv_cs _ _ _ _ _ _ M) as [[E1 E2]|[(E1 & _)|(E1 & _)]]; [|congruence..].
    rewrite E2. split; [done|]. intros j a Hj. apply Hcases in Hj as [[-> ->]|(Hne & Hj & _)]; [congruence|by apply (Hcs j)].
  - intros Hl. destruct (mv_cs _ _ _ _ _ _ M) as [[E1 E2]|[(E1 & E2 & E3)|(E1 & E2 & E3)]]; [| |congruence].
    + rewrite E2 in Hl. destruct (V5 Hl) as [Hm|(j & a & Hj & Ha)]; [by left|right].
      destruct (decide (j = i)) as [->|Hne]; [|by exists j, a; rewrite list_lookup_insert_ne].
      simplify_eq. exists i, th'. rewrite list_lookup_insert_eq by done. split; [done|congruence].
    + right. exists i, th'. by rewrite list_lookup_insert_eq.
  - intros ch o Hch Ho. destruct (mv_tx _ _ _ _ _ _ M ch o Hch Ho) as (Hold & Hlive & Hmine).
    assert (Hch' : chan_ok (1 - ch)) by (by apply other_ok).
    split; [done|]. split.
    + intros Ho'. destruct (mv_tx _ _ _ _ _ _ M (1 - ch) o Hch' Ho') as (Hold' & _ & _).
      assert (Ei : 1 - (1 - ch) = ch) by lia. rewrite Ei in Hold'.
      assert (Hself : forall c0, chan_ok c0 -> tx_slot st c0 = Some o -> o ∈ frame_op th -> in_window th c0 = true).
      { intros c0 Hc0 Hs Hf. apply (proj2 (proj2 (V6 c0 o Hc0 Hs)) i th Hi). unfold my_ops. set_solver. }
      destruct Hold as [Hold|(Hf & Hw & Es & Hno)], Hold' as [Hold'|(Hf' & Hw' & Es' & Hno')].
      * destruct (V6 ch o Hch Hold) as (_ & Hne & _). done.
      * specialize (Hself ch Hch Hold Hf'). by rewrite Hno' in Hself.
      * specialize (Hself (1 - ch) Hch' Hold' Hf). by rewrite Hno in Hself.
      * rewrite Es in Ho'. specialize (Hself (1 - ch) Hch' Ho' Hf). by rewrite Hno in Hself.
    + intros j a Hj Hin. apply Hcases in Hj as [[-> ->]|(Hne & Hj & La & Pa)]; [by apply Hmine|].
      rewrite (Hmy j a Hne Hj) in Hin. destruct Hold as [Hold|(Hf & _)].
      * destruct (V6 ch o Hch Hold) as (_ & _ & H). by apply (H j).
      * exfalso. apply (ap_ops _ _ _ Pa o); [unfold my_ops; set_solver|done].
  - intros ch Hch Hno. pose proof (polls_lookup _ _ _ _ ch Hi (mv_polls _ _ _ _ _ _ M) Hno) as Hno'.
    rewrite (mv_slots _ _ _ _ _ _ M ch Hch); [by apply V7|by apply (Hno' i)].
  - intros k Hk. destruct (mv_all _ _ _ _ _ _ M k Hk) as [[Hk' Hmine]|Hmine].
    + destruct (V8 k Hk') as [Hl|(j & a & Hj & Ha)]; [by left|right].
      destruct (decide (j = i)) as [->|Hne].
      * simplify_eq. exists i, th'. rewrite list_lookup_insert_eq by done. auto.
      * exists j, a. rewrite list_lookup_insert_ne by done. by rewrite (Hmy j a Hne Hj).
    + right. exists i, th'. by rewrite list_lookup_insert_eq.
  - destruct V9 as (h & Hh & Hsub). destruct (mv_log _ _ _ _ _ _ M) as (l & El & Esl).
    exists (h ++ map (fun x => (i, x)) l). split.
    + by rewrite on_link_app, on_link_tag, app_assoc, <- Hh.
    + intros j a Hj. rewrite of_thread_app, of_thread_tag.
      apply Hcases in Hj as [[-> ->]|(Hne & Hj & _)].
      * rewrite decide_True by done. by rewrite El, (Hsub i th Hi).
      * rewrite decide_False, app_nil_r by congruence. by apply Hsub.
  - intros j a l0 Hj Hl0. apply Hcases in Hj as [[-> ->]|(Hne & Hj & _)]; [|by apply (V10 j)].
    apply (mv_jobs _ _ _ _ _ _ M), (V10 i th l0 Hi Hl0).
  - apply M.
Qed.
(** ** The steps of a thread *)

(** what a thread knows of the slots for transmissions *)
Definition tx_known (w : sworld) (st : spw_state) (th : thread) : Prop :=
  forall ch o, chan_ok ch -> tx_slot st ch = Some o ->
    (exists b, tx_live w o b) /\ (o ∈ my_ops st th -> o ∈ frame_op th /\ in_window th ch = true).

(** nothing but the mutex, the number of the call, the status and the log *)
Record quiet (w : sworld) (st : spw_state) (w' : sworld) (st' : spw_state) : Prop := {
  qu_spw : spw w' = Some st';
  qu_ids : spw_chan_id st' = spw_chan_id st;
  qu_addr : p_address st' = p_address st;
  qu_tx : tx_op st' = tx_op st;
  qu_rx : rx_op st' = rx_op st;
  qu_ops : ops w' = ops w;
  qu_items : items w' = items w;
  qu_call : (scall w <= scall w')%nat;
  qu_sends : sends (slog w') = sends (slog w);
  qu_net : net_ok (snet w')
}.

(** a thread that goes on with what it owns *)
Record goes_on (st : spw_state) (th th' : thread) : Prop := {
  go_tx : forall c b l i o, frame th' = Some (c, b, SdAt l i o) -> exists l', frame th = Some (c, b, SdAt l' i o);
  go_chan : forall c b pc, frame th' = Some (c, b, pc) -> chan_ok c;
  go_addr : forall c b i a, frame th' = Some (c, b, SdOp i a) -> a = addr;
  go_frame : frame_op th' = frame_op th;
  go_fresh : fresh_op th' = fresh_op th;
  go_items : my_items th' = my_items th;
  go_window : forall c, in_window th c = true -> in_window th' c = true;
  go_polls : forall c, polls th' c = polls th c;
  go_storing : storing th' = storing th;
  go_poll : forall c pc, who th' = CPoll c pc ->
    exists pc0, who th = CPoll c pc0 /\ (ended_pc pc0 = true -> ended_pc pc = true) /\
    (frame th' <> None -> exists buf d, pc = RxForward buf d) /\
    (forall o, works_on pc = Some o -> rx_slot st c = Some o) /\
    (forall buf d, pc = RxSink buf d -> sinkable cfg d);
  go_killed : killed th = false /\ killed th' = false;
  go_submitted : submitted th' = submitted th;
  go_jobs : forall l0, job_ok l0 th -> job_ok l0 th'
}.

Lemma moved_quiet w st th w' st' th' : wired w st -> local w st th -> tx_known w st th ->
  quiet w st w' st' -> goes_on st th th' ->
  (in_cs th' = in_cs th /\ locked w' = locked w \/
   locked w = false /\ locked w' = true /\ in_cs th' = true \/
   in_cs th = true /\ in_cs th' = false /\ locked w' = false) -> moved w st th w' st' th'.
Proof using Type.
  intros [W1 W2 W3 W4 W5 W6 W7] [L1 L2 L3 L4 L5 L6 L7 [L8 L9] L10 L11] Htx
    [Q1 Q2 Q3 Q4 Q5 Q6 Q7 Q8 Q9 Q10] [G1 G2 G2' G3 G4 G5 G6 G7 G8 G9 [Ga Gb] Gc Gd] Hcs.
  assert (Er : forall c, rx_slot st' c = rx_slot st c) by (intros c; unfold rx_slot; by rewrite Q5).
  assert (Et : forall c, tx_slot st' c = tx_slot st c) by (intros c; unfold tx_slot; by rewrite Q4).
  assert (Emy : my_ops st' th' = my_ops st th).
  { unfold my_ops. rewrite G3, G4. do 2 f_equal. unfold slot_op, polls, storing in *.
    destruct (who th) as [|c pc] eqn:Ew, (who th') as [|c' pc'] eqn:Ew'; try done.
    - destruct (G9 _ _ eq_refl) as (pc0 & E & _). done.
    - specialize (G7 c). rewrite (bool_decide_eq_true_2 (c = c)) in G7; done.
    - destruct (G9 _ _ eq_refl) as (pc0 & [= -> ->] & _). rewrite Er. by destruct pc0, pc'. }
  split.
  - split; try congruence; intros k Hk; rewrite ?Q6, ?Q7; [apply W6|apply W7]; lia.
  - done.
  - split; rewrite ?Emy, ?G5, ?Q7; try done.
    + intros c b l i o Hf. destruct (G1 _ _ _ _ _ Hf) as [l' Hf']. unfold tx_live. rewrite Q6. by eapply L3.
    + intros c pc Ew. destruct (G9 _ _ Ew) as (pc0 & Ew0 & _ & H1 & H2 & H3). rewrite Er.
      split; [by apply (L4 c pc0)|]. done.
    + intros o. rewrite G4. unfold rx_live. rewrite Q6. apply L5.
    + intros c pc o Ew Hs. rewrite Er, Q6. destruct (G9 _ _ Ew) as (pc0 & Ew0 & He & _). intros Ho.
      rewrite G8 in Hs. destruct (L6 c pc0 o Ew0 Hs Ho) as (fr & Ho' & Hfr). exists fr. split; [done|].
      intros He'. apply Hfr. destruct (ended_pc pc0); [|done]. by rewrite He in He'.
    + intros Hc. destruct Hcs as [[E ->]|[(_ & -> & _)|(_ & E & _)]]; [|done|congruence]. apply L10. congruence.
    + congruence.
  - intros k _ _. by rewrite Q6.
  - intros k _. by rewrite Q7.
  - intros k. rewrite Emy. auto.
  - intros k. rewrite G5. auto.
  - intros c _ _. apply Er.
  - done.
  - congruence.
  - done.
  - intros c o Hc. rewrite Et, Emy, G3. intros Ho. destruct (Htx c o Hc Ho) as [[b Hb] Hm]. split; [by left|].
    split; [exists b; unfold tx_live; by rewrite Q6|]. intros Hin. destruct (Hm Hin) as [H1 H2]. auto.
  - intros k. rewrite Q6, Emy. auto.
  - exists []. rewrite Gc, Q9. simpl. by rewrite !app_nil_r.
  - done.
  - done.
Qed.

(** what is known when a thread makes a step *)
Record enabled (w : sworld) (st : spw_state) (th : thread) : Prop := {
  en_wired : wired w st;
  en_local : local w st th;
  en_tx : tx_known w st th;
  en_net : net_ok (snet w);
  en_killed : killed th = false;
  en_lock : at_lock th = true -> locked w = false
}.

(** what a step of a sender changes: its operation, its item, the slot of its channel *)
Record sends_on (w : sworld) (st : spw_state) (th : thread) (w' : sworld) (st' : spw_state) (th' : thread) : Prop := {
  so_wired : wired w' st';
  so_rx : rx_op st' = rx_op st;
  so_call : (scall w <= scall w')%nat;
  so_net : snet w' = snet w;
  so_who : who th' = who th;
  so_killed : killed th' = false;
  so_chan : forall c b pc, frame th' = Some (c, b, pc) -> chan_ok c;
  so_addr : forall c b i a, frame th' = Some (c, b, SdOp i a) -> a = addr;
  so_tx : forall c b l i o, frame th' = Some (c, b, SdAt l i o) -> tx_live w' o b;
  so_ops : forall k, k ∉ frame_op th -> (k < scall w)%nat -> ops w' !! k = ops w !! k;
  so_frame : forall k, k ∈ frame_op th' -> k ∈ frame_op th \/ (scall w <= k)%nat;
  so_all : forall k, is_Some (ops w' !! k) ->
    is_Some (ops w !! k) /\ (k ∈ frame_op th -> k ∈ frame_op th') \/ k ∈ frame_op th';
  so_items : forall k, k ∉ frame_item th -> k ∈ items w -> k ∈ items w';
  so_item : forall k, k ∈ frame_item th' -> k ∈ items w' /\ (k ∈ frame_item th \/ (scall w <= k)%nat);
  so_cs : (in_cs th' = in_cs th /\ locked w' = locked w);
  so_slot : forall c o, chan_ok c -> tx_slot st' c = Some o ->
    (tx_slot st c = Some o /\ (o ∈ frame_op th -> in_window th c = true -> o ∈ frame_op th' /\ in_window th' c = true)) \/
    o ∈ frame_op th /\ o ∈ frame_op th' /\ in_window th' c = true /\ tx_slot st' (1 - c) = tx_slot st (1 - c) /\
      forall c', in_window th c' = false;
  so_log : exists l, submitted th' = submitted th ++ l /\
    sends (slog w') = sends (slog w) ++ map (fun '(c, b) => STx (nth (Z.to_nat c) ids 0) addr b) l;
  so_jobs : forall l0, job_ok l0 th -> job_ok l0 th'
}.

Definition rest_ops (st : spw_state) (th : thread) : list nat := fresh_op th ++ slot_op st th.

Lemma frame_op_le th : NoDup (frame_op th).
Proof using Type.
  unfold frame_op. destruct (frame th) as [[[c b] pc]|]; [|constructor]. destruct pc; try constructor; [|constructor].
  apply not_elem_of_nil.
Qed.

Lemma frame_item_le th : NoDup (frame_item th).
Proof using Type.
  unfold frame_item. destruct (frame th) as [[[c b] pc]|]; [|constructor].
  destruct pc; try constructor; try constructor; apply not_elem_of_nil.
Qed.

Lemma moved_sender w st th w' st' th' : enabled w st th -> frame th <> None -> sends_on w st th w' st' th' ->
  moved w st th w' st' th'.
Proof using Type.
  intros [W Lth T N Hk _] Hfr [S1 S2 S3 S4 S5 S6 S7 S7' S8 S9 S10 S11 S12 S13 S14 S15 S16 S17].
  assert (Er : forall c, rx_slot st' c = rx_slot st c) by (intros c; unfold rx_slot; by rewrite S2).
  assert (Efresh : fresh_op th' = fresh_op th) by (unfold fresh_op; by rewrite S5).
  assert (Erest : rest_ops st' th' = rest_ops st th).
  { unfold rest_ops. rewrite Efresh. f_equal. unfold slot_op. rewrite S5.
    destruct (who th) as [|c pc]; [done|]. by rewrite Er. }
  assert (Emy : my_ops st' th' = frame_op th' ++ rest_ops st th) by (by rewrite <- Erest).
  assert (Emy0 : my_ops st th = frame_op th ++ rest_ops st th) by done.
  assert (Hrest : forall k, k ∈ rest_ops st th -> k ∉ frame_op th /\ (k < scall w)%nat /\ ops w' !! k = ops w !! k).
  { intros k Hin. assert (Hn : k ∉ frame_op th).
    { pose proof (lc_ops _ _ _ Lth) as Hnd. rewrite Emy0, NoDup_app in Hnd. intros Hin'. by apply (proj1 (proj2 Hnd) k). }
    assert (Hlt : (k < scall w)%nat) by (eapply my_old; [exact W|exact Lth|rewrite Emy0; set_solver]). auto. }
  assert (Ebuf : my_buf th' = my_buf th) by (unfold my_buf; by rewrite S5).
  destruct (lc_items _ _ _ Lth) as [Hnd Hitems]. unfold my_items in Hnd, Hitems.
  assert (Hbuf : forall k, k ∈ my_buf th -> k ∉ frame_item th /\ (k < scall w)%nat /\ k ∈ items w').
  { intros k Hin. assert (Hn : k ∉ frame_item th) by (intros Hin'; apply NoDup_app in Hnd as (_ & Hnd & _); by apply (Hnd k)).
    assert (Hk' : k ∈ items w) by (apply Hitems; set_solver). split; [done|].
    split; [|auto]. destruct (decide (k < scall w)%nat) as [|Hge]; [done|]. exfalso. by apply (wi_items _ _ W k); [lia|]. }
  assert (Hst : storing th' = storing th) by (unfold storing; by rewrite S5).
  assert (Hpo : forall c, polls th' c = polls th c) by (intros c; unfold polls; by rewrite S5).
  split; try done.
  - split; try done.
    + intros c pc. rewrite S5, Er. intros Ew. destruct (lc_poll _ _ _ Lth _ _ Ew) as (H1 & _ & H2 & H3 & H4).
      split; [done|]. split; [done|]. split; [|done]. intros _. by apply H2.
    + intros o. rewrite Efresh. intros Ho. unfold rx_live.
      rewrite (proj2 (proj2 (Hrest o ltac:(unfold rest_ops; set_solver)))). by apply (lc_rx _ _ _ Lth).
    + intros c pc o. rewrite S5, Er, Hst. intros Ew Hs Ho. rewrite (proj2 (proj2 (Hrest o ltac:(
        unfold rest_ops, slot_op; rewrite Ew; unfold storing in Hs; rewrite Ew in Hs; rewrite Ho;
        destruct pc; simpl in *; try done; set_solver)))). by apply (lc_slot _ _ _ Lth c pc).
    + rewrite Emy. apply NoDup_app. split; [apply frame_op_le|]. split.
      * intros k Hk1 Hk2. destruct (Hrest k Hk2) as (R1 & R2 & _). destruct (S10 k Hk1); [done|lia].
      * pose proof (lc_ops _ _ _ Lth) as Hnd'. rewrite Emy0 in Hnd'. by apply NoDup_app in Hnd' as (_ & _ & Hnd').
    + split.
      * unfold my_items. rewrite Ebuf. apply NoDup_app. split; [apply frame_item_le|]. split; [|by apply NoDup_app in Hnd as (_ & _ & Hnd)].
        intros k Hk1 Hk2. destruct (Hbuf k Hk2) as (R1 & R2 & _). destruct (S13 k Hk1) as [_ [?|?]]; [done|lia].
      * unfold my_items. rewrite Ebuf. intros k. rewrite elem_of_app. intros [Hk1|Hk1]; [by apply S13|by apply Hbuf].
    + destruct S14 as [E ->]. rewrite E. apply Lth.
    + congruence.
  - intros k. rewrite Emy0. intros Hn Hlt. apply S9; set_solver.
  - intros k Hn. apply S12. unfold my_items in Hn. set_solver.
  - intros k. rewrite Emy, Emy0, !elem_of_app. intros [Hk1|Hk1]; [|by left; right]. destruct (S10 k Hk1); auto.
  - intros k. unfold my_items. rewrite Ebuf, !elem_of_app. intros [Hk1|Hk1]; [|by left; right].
    destruct (S13 k Hk1) as [_ [?|?]]; auto.
  - congruence.
  - by left.
  - intros c o Hc Ho. rewrite Emy, elem_of_app. destruct (S15 c o Hc Ho) as [[Ho' Hkeep]|(H1 & H2 & H3 & H4 & H5)].
    + destruct (T c o Hc Ho') as [[b Hb] Hm]. split; [by left|].
      assert (Hor : o ∈ frame_op th \/ o ∉ frame_op th) by (destruct (decide (o ∈ frame_op th)); auto).
      destruct Hor as [Hin|Hin].
      * destruct (Hm ltac:(rewrite Emy0; set_solver)) as [_ Hw]. destruct (Hkeep Hin Hw) as [Hin' Hw']. split; [|done].
        unfold frame_op in Hin'. destruct (frame th') as [[[c0 b0] pc0]|] eqn:Ef; [|by apply elem_of_nil in Hin'].
        destruct pc0; try by apply elem_of_nil in Hin'. apply list_elem_of_singleton in Hin' as ->.
        exists b0. by apply (S8 c0 b0 l item o0).
      * assert (Hlt : (o < scall w)%nat).
        { destruct (decide (o < scall w)%nat) as [|Hge]; [done|]. unfold tx_live in Hb. rewrite (wi_ops _ _ W) in Hb by lia. done. }
        split; [exists b; unfold tx_live; by rewrite S9|]. intros [Hin'|Hin'].
        -- destruct (S10 o Hin'); [done|lia].
        -- destruct (Hm ltac:(rewrite Emy0; set_solver)). done.
    + split; [right; auto|]. split.
      * unfold frame_op in H2. destruct (frame th') as [[[c0 b0] pc0]|] eqn:Ef; [|by apply elem_of_nil in H2].
        destruct pc0; try by apply elem_of_nil in H2. apply list_elem_of_singleton in H2 as ->.
        exists b0. by apply (S8 c0 b0 l item o0).
      * done.
  - intros k Hk1. rewrite Emy, Emy0, !elem_of_app. destruct (S11 k Hk1) as [[H1 H2]|H1]; [left|right; by left].
    split; [done|]. intros [?|?]; auto.
  - by rewrite S4.
Qed.
End inv.
