(* ===== verification/SpwConcSafe.v ===== *)
(** * All interleavings of the SpaceWire side

    The invariant of [SpwConcInv] holds in every configuration that the threads of
    [SpwConc] can reach, in every order of their steps, with the network threads
    cancelled anywhere and the shutdown of main. *)

From Stdlib Require Import String List.
From stdpp Require Import base tactics option list list_numbers gmap sets.
From Stdlib Require Import ZArith Lia Bool.
From S2P Require Import Prelude.
From S2P Require Import CString.
From S2P Require Import Sys.
From S2P Require Import NetConn.
From S2P Require Import NetRecv.
From S2P Require Import Net.
From S2P Require Import NetSpec.
From S2P Require Import NetSafe.
From S2P Require Import Spw.
From S2P Require Import SpwSpec.
From S2P Require Import SpwLife.
From S2P Require Import Bridge.
From S2P Require Import SpwConc.
From S2P Require Import SpwConcInv.

Local Open Scope Z_scope.

Section steps.
Context {A : Star} {K : Kernel} {L : KernelLive K}.
Variable cfg : bridge_cfg.
Variables (ids : list Z) (addr : option (list Z)).
Context (Hlen : length ids = 2%nat).
Context (Hskip : 0 <= skip_header_bytes cfg) (Hdata : forall t, sinkable cfg (s_data t)).

Local Abbreviation wired := (wired ids addr).
Local Abbreviation local := (local cfg addr).
Local Abbreviation tx_known := (tx_known addr).
Local Abbreviation enabled := (enabled cfg ids addr).
Local Abbreviation goes_on := (goes_on cfg addr).
Local Abbreviation moved := (moved cfg ids addr).

(** ** Sending *)

Definition steps_ok (w : sworld) (st : spw_state) (th : thread) : Prop :=
  swp (thread_step cfg th) (fun _ => True)
    (fun th' w' => ~ tx_cancelled th' -> exists st', moved w st th w' st' th') w.

(** a sender that goes on *)
Lemma sender_goes_on w st th ch b l l' i o : local w st th -> killed th = false ->
  frame th = Some (ch, b, SdAt l i o) ->
  let th' := with_frame th (Some (ch, b, SdAt l' i o)) in
  pending th' = pending th -> (forall c, in_window th c = true -> in_window th' c = true) ->
  goes_on st th th'.
Proof using Type.
  intros Lth Hk Hf th' Hp Hw. subst th'. split; simpl; try done.
  - intros c b0 l0 i0 o0 [= <- <- <- <- <-]. by exists l.
  - intros c b0 pc [= <- <- <-]. by apply (lc_chan _ _ _ _ _ Lth _ _ _ Hf).
  - unfold frame_op. by rewrite Hf.
  - unfold my_items, frame_item. by rewrite Hf.
  - intros c pc Ew. exists pc. split; [done|]. split; [done|].
    destruct (lc_poll _ _ _ _ _ Lth _ _ Ew) as (_ & _ & H1 & H2 & H3). split; [|done].
    intros _. apply H1. by rewrite Hf.
  - intros l0 (l1 & Ew & Hj). exists l1. split; [done|]. simpl in *. rewrite Hk in *. by rewrite Hp.
Qed.

Lemma sender_frame th ch b pc : frame th = Some (ch, b, pc) -> pc <> SdDone ->
  thread_step cfg th = (pc' ← send_step cfg ch b pc;
    let th' := with_frame th (Some (ch, b, pc')) in mret (if is_submit pc then noting th' ch b else th')).
Proof using Type. intros Hf Hpc. unfold thread_step. rewrite Hf. by destruct pc. Qed.

Ltac quiet_parts := split; simpl; rewrite ?app_nil_r; try done; try lia.

Ltac same_sender Hf := eapply sender_goes_on; [eassumption|eassumption|exact Hf| |];
  unfold pending, in_window; simpl; rewrite ?Hf; try done; simpl; auto.

Lemma step_lock1 w st th ch b i o : enabled w st th -> frame th = Some (ch, b, SdAt AtLock1 i o) -> steps_ok w st th.
Proof using Type.
  intros [W Lth T N Hk Hl] Hf. unfold steps_ok. rewrite (sender_frame _ _ _ _ Hf) by done.
  assert (E : locked w = false) by (apply Hl; unfold at_lock; by rewrite Hf).
  simpl. eapply swp_bind, swp_run; [unfold op_lock; rewrite E; reflexivity|]. apply swp_ret, swp_ret. intros _. exists st.
  apply moved_quiet; [exact W|exact Lth|exact T|..].
  - destruct W. by quiet_parts.
  - same_sender Hf.
  - right. left. done.
Qed.

Lemma step_lock2 w st th ch b i o : enabled w st th -> frame th = Some (ch, b, SdAt AtLock2 i o) -> steps_ok w st th.
Proof using Type.
  intros [W Lth T N Hk Hl] Hf. unfold steps_ok. rewrite (sender_frame _ _ _ _ Hf) by done.
  assert (E : locked w = false) by (apply Hl; unfold at_lock; by rewrite Hf).
  simpl. eapply swp_bind, swp_run; [unfold op_lock; rewrite E; reflexivity|]. apply swp_ret, swp_ret. intros _. exists st.
  apply moved_quiet; [exact W|exact Lth|exact T|..].
  - destruct W. by quiet_parts.
  - same_sender Hf.
  - right. left. done.
Qed.

Lemma step_unlock1 w st th ch b i o : enabled w st th -> frame th = Some (ch, b, SdAt AtUnlock1 i o) -> steps_ok w st th.
Proof using Type.
  intros [W Lth T N Hk Hl] Hf. unfold steps_ok. rewrite (sender_frame _ _ _ _ Hf) by done.
  assert (Hc : in_cs th = true) by (unfold in_cs; by rewrite Hf).
  simpl. eapply swp_bind, swp_run; [unfold op_unlock; rewrite (lc_cs _ _ _ _ _ Lth Hc); reflexivity|].
  apply swp_ret, swp_ret. intros _. exists st. apply moved_quiet; [exact W|exact Lth|exact T|..].
  - destruct W. by quiet_parts.
  - same_sender Hf.
  - by right; right.
Qed.

Lemma step_unlock2 w st th ch b i o : enabled w st th -> frame th = Some (ch, b, SdAt AtUnlock2 i o) -> steps_ok w st th.
Proof using Type.
  intros [W Lth T N Hk Hl] Hf. unfold steps_ok. rewrite (sender_frame _ _ _ _ Hf) by done.
  assert (Hc : in_cs th = true) by (unfold in_cs; by rewrite Hf).
  simpl. eapply swp_bind, swp_run; [unfold op_unlock; rewrite (lc_cs _ _ _ _ _ Lth Hc); reflexivity|].
  apply swp_ret, swp_ret. intros _. exists st. apply moved_quiet; [exact W|exact Lth|exact T|..].
  - destruct W. by quiet_parts.
  - same_sender Hf.
  - by right; right.
Qed.

(** the status of the wait, the test and the sleep *)
Lemma step_status w st th ch b s i o : enabled w st th -> frame th = Some (ch, b, SdAt (AtStatus s) i o) ->
  steps_ok w st th.
Proof using Type.
  intros [W Lth T N Hk Hl] Hf. unfold steps_ok. rewrite (sender_frame _ _ _ _ Hf) by done.
  simpl. eapply swp_bind, swp_run; [unfold get_spw; rewrite (wi_spw _ _ _ _ W); reflexivity|].
  eapply swp_run; [reflexivity|]. apply swp_ret, swp_ret. intros _. exists (with_tx_status st s).
  apply moved_quiet; [exact W|exact Lth|exact T|..].
  - destruct W. by quiet_parts.
  - same_sender Hf.
  - left. unfold in_cs. by rewrite Hf.
Qed.

Lemma step_test w st th ch b i o : enabled w st th -> frame th = Some (ch, b, SdAt AtTest i o) -> steps_ok w st th.
Proof using Type.
  intros [W Lth T N Hk Hl] Hf. unfold steps_ok. rewrite (sender_frame _ _ _ _ Hf) by done.
  simpl. eapply swp_bind, swp_run; [unfold get_spw; rewrite (wi_spw _ _ _ _ W); reflexivity|].
  destruct (negb _); [done|]. apply swp_ret, swp_ret. intros _. exists st. apply moved_quiet; [exact W|exact Lth|exact T|..].
  - destruct W. by quiet_parts.
  - same_sender Hf.
  - left. unfold in_cs. by rewrite Hf.
Qed.

Lemma sends_snoc l a : match a with STx _ _ _ => False | _ => True end -> sends (l ++ [a]) = sends l.
Proof using Type. intros H. unfold sends. rewrite List.filter_app. simpl. destruct a; try done; by rewrite app_nil_r. Qed.

Lemma step_sleep w st th ch b i o : enabled w st th -> frame th = Some (ch, b, SdAt AtSleep i o) -> steps_ok w st th.
Proof using Type.
  intros [W Lth T N Hk Hl] Hf. unfold steps_ok. rewrite (sender_frame _ _ _ _ Hf) by done.
  simpl. eapply swp_bind, swp_run; [reflexivity|].
  apply swp_ret, swp_ret. intros _. exists st. apply moved_quiet; [exact W|exact Lth|exact T|..].
  - destruct W. quiet_parts. by apply sends_snoc.
  - same_sender Hf.
  - left. unfold in_cs. by rewrite Hf.
Qed.

Lemma step_wait w st th ch b i o : enabled w st th -> frame th = Some (ch, b, SdAt AtWait i o) -> steps_ok w st th.
Proof using A Hlen K addr cfg ids.
  intros [W Lth T N Hk Hl] Hf. unfold steps_ok. rewrite (sender_frame _ _ _ _ Hf) by done.
  simpl. eapply swp_bind, swp_bind. unfold swp at 1. rewrite (wait_tx_run _ _ _ _ (lc_tx _ _ _ _ _ Lth _ _ _ _ _ Hf)).
  case_decide as Hc; [apply swp_ret, swp_ret; intros Hno; exfalso; apply Hno; by exists ch, b, i, o|].
  apply swp_ret, swp_ret. intros _. exists st. apply moved_quiet; [exact W|exact Lth|exact T|..].
  - destruct W. quiet_parts. by apply sends_snoc.
  - same_sender Hf.
  - left. unfold in_cs. by rewrite Hf.
Qed.

(** the steps of a sender that change what it owns *)
Lemma in_one (x y : nat) (P : Prop) : P -> x ∈ [y] -> x = y /\ P.
Proof using Type. by intros ? ->%list_elem_of_singleton. Qed.

(** the parts of [sends_on] in the common cases *)
Lemma job_pending l0 th th' : killed th = false -> killed th' = false -> who th' = who th ->
  submitted th' ++ pending th' = submitted th ++ pending th -> job_ok l0 th -> job_ok l0 th'.
Proof using Type.
  intros H1 H2 Hw Hp (l & Ew & Hj). exists l. rewrite H1 in Hj. rewrite H2. split; [congruence|].
  by rewrite app_assoc, Hp, <- app_assoc.
Qed.

Ltac on_frame Hf := unfold frame_op, frame_item, in_cs, in_window, pending, tx_slot; simpl; rewrite ?Hf; simpl.

(** what needs no thought: nothing is in an empty list, and members stay *)
Ltac easy_part :=
  solve [ done | lia | by auto
        | intros ? Hin; exfalso; revert Hin; apply not_elem_of_nil
        | intros ? ?; left; split; [done|]; intros Hin; exfalso; revert Hin; apply not_elem_of_nil
        | intros ? ? ? ?; left; split; [done|]; intros Hin; exfalso; revert Hin; apply not_elem_of_nil
        | intros ? ?; left; split; [done|]; by auto
        | intros ? ? ? ?; left; split; [done|]; by auto
        | intros ? ?; split; by auto
        | intros ? Hin; split; [by apply list_elem_of_singleton in Hin as ->|by left]
        | exists []; by rewrite !app_nil_r
        | by intros ? ? ? [= <- <- <-] ].

Lemma my_item_in w st th x i : local w st th -> frame th = Some x -> i ∈ frame_item th -> i ∈ items w.
Proof using Type. intros Lth _ Hin. apply (lc_items _ _ _ _ _ Lth). unfold my_items. apply elem_of_app. by left. Qed.

Lemma step_begin w st th ch b : enabled w st th -> frame th = Some (ch, b, SdBegin) -> steps_ok w st th.
Proof using A Hdata Hlen Hskip K L addr cfg ids.
  intros H Hf. pose proof H as [W Lth T N Hk Hl]. unfold steps_ok. rewrite (sender_frame _ _ _ _ Hf) by done.
  simpl. eapply swp_bind, swp_run; [unfold get_spw; rewrite (wi_spw _ _ _ _ W); reflexivity|].
  eapply swp_bind. unfold swp at 1, star_create_item. destruct (s_create (scall w)); [|done].
  apply swp_ret, swp_ret. intros _. exists st. apply moved_sender; [done|by rewrite Hf|].
  pose proof (lc_chan _ _ _ _ _ Lth _ _ _ Hf) as Hc. destruct W as [W1 W2 W3 W4 W5 W6 W7].
  split; on_frame Hf; try easy_part.
  - split; simpl; try done; intros k Hge; [apply W6; lia|]. pose proof (W7 k ltac:(lia)). set_solver by lia.
  - by intros c b0 i a [= <- <- <- <-].
  - intros k _ Hin. apply elem_of_union. by right.
  - intros k ->%list_elem_of_singleton. split; [set_solver|right; lia].
  - intros l0. apply job_pending; try done. by on_frame Hf.
Qed.

Lemma step_create w st th ch b i a : enabled w st th -> frame th = Some (ch, b, SdOp i a) -> steps_ok w st th.
Proof using A Hdata Hlen Hskip K L addr cfg ids.
  intros H Hf. pose proof H as [W Lth T N Hk Hl]. unfold steps_ok. rewrite (sender_frame _ _ _ _ Hf) by done.
  simpl. eapply swp_bind, swp_bind. unfold swp at 1, star_create_op. destruct (s_create (scall w)); [|done].
  apply swp_ret, swp_ret. intros _. exists st. apply moved_sender; [done|by rewrite Hf|].
  pose proof (lc_chan _ _ _ _ _ Lth _ _ _ Hf) as Hc. destruct W as [W1 W2 W3 W4 W5 W6 W7].
  pose proof (lc_addr _ _ _ _ _ Lth _ _ _ _ Hf) as ->. assert (Hi' : i ∈ items w) by (apply (my_item_in _ _ _ _ _ Lth Hf); on_frame Hf; by apply list_elem_of_singleton).
  split; on_frame Hf; try easy_part.
  - split; simpl; try done; intros k Hge; [rewrite lookup_insert_ne by lia; apply W6; lia|]. apply W7; lia.
  - intros c b0 l i0 o [= <- <- <- <- <-]. unfold tx_live. simpl. apply lookup_insert_eq.
  - intros k _ Hlt. apply lookup_insert_ne. lia.
  - intros k ->%list_elem_of_singleton. right. lia.
  - intros k. destruct (decide (k = scall w)) as [->|Hne]; [intros _; right; set_solver|].
    rewrite lookup_insert_ne by done. intros Hk'. left. split; [done|]. intros Hin. by apply elem_of_nil in Hin.
  - intros l0. apply job_pending; try done. by on_frame Hf.
Qed.

Lemma slot_elem {B} (l : list B) c w : length l = 2%nat -> chan_ok c -> exists x, slot l c w = SRet x w.
Proof using Type. intros Hl Hc. destruct (slot_run l c w Hl Hc) as (x & _ & E). by exists x. Qed.

(** the slots behind an update *)
Lemma tx_slot_insert st c c' o : chan_ok c -> chan_ok c' -> length (tx_op st) = 2%nat ->
  tx_slot (with_tx_op st c o) c' = if decide (c' = c) then o else tx_slot st c'.
Proof using Hlen ids.
  intros Hc Hc' Hl. unfold tx_slot. simpl. case_decide as E.
  - subst. rewrite list_lookup_insert_eq; [done|]. destruct Hc as [-> | ->]; simpl; lia.
  - rewrite list_lookup_insert_ne; [done|]. destruct Hc as [-> | ->], Hc' as [-> | ->]; simpl; lia.
Qed.

Lemma step_store w st th ch b i o : enabled w st th -> frame th = Some (ch, b, SdAt AtStore i o) -> steps_ok w st th.
Proof using A Hdata Hlen Hskip K L addr cfg ids.
  intros H Hf. pose proof H as [W Lth T N Hk Hl]. unfold steps_ok. rewrite (sender_frame _ _ _ _ Hf) by done.
  pose proof (lc_chan _ _ _ _ _ Lth _ _ _ Hf) as Hc. pose proof (lc_tx _ _ _ _ _ Lth _ _ _ _ _ Hf) as Ht.
  assert (Hi' : i ∈ items w) by (apply (my_item_in _ _ _ _ _ Lth Hf); on_frame Hf; by apply list_elem_of_singleton).
  simpl. eapply swp_bind, swp_run; [unfold get_spw; rewrite (wi_spw _ _ _ _ W); reflexivity|].
  destruct (slot_elem (tx_op st) ch w (wi_tx _ _ _ _ W) Hc) as [x Ex]. eapply swp_run; [exact Ex|].
  eapply swp_run; [reflexivity|]. apply swp_ret, swp_ret. intros _. exists (with_tx_op st ch (Some o)).
  apply moved_sender; [done|by rewrite Hf|]. destruct W as [W1 W2 W3 W4 W5 W6 W7].
  assert (Hs : forall c, chan_ok c -> tx_slot (with_tx_op st ch (Some o)) c = if decide (c = ch) then Some o else tx_slot st c)
    by (intros c Hc'; by apply tx_slot_insert).
  split; unfold frame_op, frame_item, in_cs, in_window; simpl; rewrite ?Hf; simpl; try easy_part.
  - split; simpl; rewrite ?length_insert; done.
  - by intros c b0 l i0 o0 [= <- <- <- <- <-].
  - intros c o0 Hc0. rewrite (Hs c Hc0). case_decide as E; [|intros Ho; left; split; [done|]].
    + intros [= <-]. right. subst c. split; [set_solver|]. split; [set_solver|]. split; [by apply bool_decide_eq_true_2|].
      split; [|done]. rewrite (Hs (1 - ch)) by now apply other_ok. rewrite decide_False; [done|lia].
    + done.
  - intros l0. apply job_pending; try done. by on_frame Hf.
Qed.

Lemma step_clear w st th ch b i o : enabled w st th -> frame th = Some (ch, b, SdAt AtClear i o) -> steps_ok w st th.
Proof using A Hlen K addr cfg ids.
  intros H Hf. pose proof H as [W Lth T N Hk Hl]. unfold steps_ok. rewrite (sender_frame _ _ _ _ Hf) by done.
  pose proof (lc_chan _ _ _ _ _ Lth _ _ _ Hf) as Hc. pose proof (lc_tx _ _ _ _ _ Lth _ _ _ _ _ Hf) as Ht.
  assert (Hi' : i ∈ items w) by (apply (my_item_in _ _ _ _ _ Lth Hf); on_frame Hf; by apply list_elem_of_singleton).
  simpl. eapply swp_bind, swp_run; [unfold get_spw; rewrite (wi_spw _ _ _ _ W); reflexivity|].
  destruct (slot_run (tx_op st) ch w (wi_tx _ _ _ _ W) Hc) as (x & Hx & Ex). eapply swp_run; [exact Ex|].
  set (st' := if decide (x = Some o) then with_tx_op st ch None else st).
  assert (E : (if decide (x = Some o) then put_spw (with_tx_op st ch None) else mret ()) w = SRet () (sw_spw w (Some st'))).
  { unfold st'. case_decide; [done|]. destruct w. simpl in *. rewrite <- (wi_spw _ _ _ _ W). done. }
  eapply swp_run; [exact E|]. apply swp_ret, swp_ret. intros _. exists st'.
  apply moved_sender; [done|by rewrite Hf|]. destruct W as [W1 W2 W3 W4 W5 W6 W7].
  assert (Hsame : rx_op st' = rx_op st /\ spw_chan_id st' = spw_chan_id st /\ p_address st' = p_address st /\
    length (tx_op st') = 2%nat).
  { unfold st'. case_decide; simpl; rewrite ?length_insert; done. }
  destruct Hsame as (S1 & S2 & S3 & S4).
  assert (Hs : forall c o', chan_ok c -> tx_slot st' c = Some o' -> tx_slot st c = Some o' /\ (c = ch -> o' <> o)).
  { intros c o' Hc'. unfold st'. case_decide as Ed.
    - rewrite tx_slot_insert by done. case_decide; [done|]. done.
    - intros Ho. split; [done|]. intros -> ->. apply Ed. unfold tx_slot in Ho. by rewrite Hx in Ho. }
  split; unfold frame_op, frame_item, in_cs, in_window; simpl; rewrite ?Hf; simpl; try easy_part.
  - split; simpl; try done; congruence.
  - by intros c b0 l i0 o0 [= <- <- <- <- <-].
  - intros c o0 Hc0 Ho. destruct (Hs c o0 Hc0 Ho) as [Ho' Hne]. left. split; [done|].
    intros ->%list_elem_of_singleton Ew. apply bool_decide_eq_true in Ew. symmetry in Ew. by apply Hne in Ew.
  - intros l0. apply job_pending; try done. by on_frame Hf.
Qed.

Lemma star_submit_run o k w c : ops w !! o = Some (mk_op k false) ->
  star_submit c o w = if s_submit (scall w)
    then SRet true (match k with TxOp a d => sw_log (sw_call w) [STx c a d] | RxOp => sw_call w end)
    else SRet false (sw_call w).
Proof using Type.
  intros H. unfold star_submit, mbind, SM_bind. rewrite (star_live_run _ _ _ H). simpl.
  destruct (s_submit _); [|done]. by destruct k.
Qed.

Lemma step_submit w st th ch b i o : enabled w st th -> frame th = Some (ch, b, SdAt AtSubmit i o) -> steps_ok w st th.
Proof using A Hlen K addr cfg ids.
  intros H Hf. pose proof H as [W Lth T N Hk Hl]. unfold steps_ok. rewrite (sender_frame _ _ _ _ Hf) by done.
  pose proof (lc_chan _ _ _ _ _ Lth _ _ _ Hf) as Hc. pose proof (lc_tx _ _ _ _ _ Lth _ _ _ _ _ Hf) as Ht.
  assert (Hi' : i ∈ items w) by (apply (my_item_in _ _ _ _ _ Lth Hf); on_frame Hf; by apply list_elem_of_singleton).
  simpl. eapply swp_bind, swp_run; [unfold get_spw; rewrite (wi_spw _ _ _ _ W); reflexivity|].
  assert (Hids : length (spw_chan_id st) = 2%nat) by (rewrite (wi_ids _ _ _ _ W); exact Hlen).
  eapply swp_run; [by apply chan_id_run|]. eapply swp_bind. unfold swp at 1. rewrite (star_submit_run _ _ _ _ Ht).
  destruct (s_submit _); [|done]. simpl negb. cbn beta iota delta [negb].
  apply swp_ret, swp_ret. intros _. exists st. apply moved_sender; [done|by rewrite Hf|].
  destruct W as [W1 W2 W3 W4 W5 W6 W7]. split; unfold frame_op, frame_item, in_cs, in_window; simpl; rewrite ?Hf; simpl; try easy_part.
  - split; simpl; try done; intros k Hge; [apply W6|apply W7]; lia.
  - by intros c b0 l i0 o0 [= <- <- <- <- <-].
  - exists [(ch, b)]. split; [done|]. unfold sends. rewrite List.filter_app. simpl. unfold chan_id. by rewrite W2.
  - intros l0. apply job_pending; try done. unfold pending. simpl. rewrite Hf. simpl. by rewrite app_nil_r.
Qed.

(** nobody finds the operation in a slot any more when it is disposed *)
Lemma step_dispose w st th ch b i o : enabled w st th -> frame th = Some (ch, b, SdAt AtDispose i o) -> steps_ok w st th.
Proof using Type.
  intros H Hf. pose proof H as [W Lth T N Hk Hl]. unfold steps_ok. rewrite (sender_frame _ _ _ _ Hf) by done.
  pose proof (lc_chan _ _ _ _ _ Lth _ _ _ Hf) as Hc. pose proof (lc_tx _ _ _ _ _ Lth _ _ _ _ _ Hf) as Ht.
  assert (Hi' : i ∈ items w) by (apply (my_item_in _ _ _ _ _ Lth Hf); on_frame Hf; by apply list_elem_of_singleton).
  simpl. eapply swp_bind, swp_run; [apply (dispose_run _ _ _ Ht)|].
  apply swp_ret, swp_ret. intros _. exists st. apply moved_sender; [done|by rewrite Hf|].
  destruct W as [W1 W2 W3 W4 W5 W6 W7]. split; unfold frame_op, frame_item, in_cs, in_window; simpl; rewrite ?Hf; simpl; try easy_part.
  - split; simpl; try done. intros k Hge. rewrite lookup_delete_None. right. by apply W6.
  - intros k Hk' _. apply lookup_delete_ne. intros ->. apply Hk'. by apply list_elem_of_singleton.
  - intros k [x Hx]. apply lookup_delete_Some in Hx as [Hne Hx]. left. split; [by eexists|].
    intros Hin. exfalso. apply Hne. symmetry. by apply list_elem_of_singleton.
  - intros l0. apply job_pending; try done. by on_frame Hf.
Qed.

Lemma step_free w st th ch b i : enabled w st th -> frame th = Some (ch, b, SdFree i) -> steps_ok w st th.
Proof using Type.
  intros H Hf. pose proof H as [W Lth T N Hk Hl]. unfold steps_ok. rewrite (sender_frame _ _ _ _ Hf) by done.
  pose proof (lc_chan _ _ _ _ _ Lth _ _ _ Hf) as Hc.
  assert (Hi' : i ∈ items w) by (apply (my_item_in _ _ _ _ _ Lth Hf); on_frame Hf; by apply list_elem_of_singleton).
  simpl. eapply swp_bind, swp_run; [unfold star_destroy_item; rewrite decide_True by done; reflexivity|].
  apply swp_ret, swp_ret. intros _. exists st. apply moved_sender; [done|by rewrite Hf|].
  destruct W as [W1 W2 W3 W4 W5 W6 W7]. split; unfold frame_op, frame_item, in_cs, in_window; simpl; rewrite ?Hf; simpl; try easy_part.
  - split; simpl; try done. intros k Hge Hin. apply elem_of_difference in Hin as [Hin _]. by apply (W7 k).
  - intros k Hk' Hin. apply elem_of_difference. split; [done|]. intros ->%elem_of_singleton. apply Hk'. by apply list_elem_of_singleton.
  - intros l0. apply job_pending; try done. by on_frame Hf.
Qed.

(** the function returns *)
Lemma step_done w st th ch b : enabled w st th -> frame th = Some (ch, b, SdDone) -> steps_ok w st th.
Proof using Type.
  intros H Hf. pose proof H as [W Lth T N Hk Hl]. unfold steps_ok, thread_step. rewrite Hf.
  apply swp_ret. intros _. exists st. apply moved_quiet; [exact W|exact Lth|exact T|..].
  - destruct W; by split.
  - split; unfold frame_op, my_items, frame_item, in_window; simpl; rewrite ?Hf; simpl; try done.
    + intros c pc Ew. exists pc. destruct (lc_poll _ _ _ _ _ Lth _ _ Ew) as (_ & _ & H1 & H2 & H3). done.
    + intros l0. apply job_pending; try done. by on_frame Hf.
  - left. unfold in_cs. rewrite Hf. simpl. split; [|done]. destruct (who th) as [|c pc] eqn:Ew; [done|].
    destruct (lc_poll _ _ _ _ _ Lth _ _ Ew) as (_ & _ & H1 & _). rewrite Hf in H1.
    by destruct (H1 ltac:(done)) as (buf & d & ->).
Qed.

Lemma step_sender w st th ch b pc : enabled w st th -> frame th = Some (ch, b, pc) -> steps_ok w st th.
Proof using A Hdata Hlen Hskip K L addr cfg ids.
  destruct pc as [|i a|l i o|i|]; [apply step_begin|apply step_create| |apply step_free|apply step_done].
  destruct l; [apply step_lock1|apply step_store|apply step_unlock1|apply step_submit|apply step_wait|apply step_status
    |apply step_test|apply step_sleep|apply step_lock2|apply step_clear|apply step_unlock2|apply step_dispose].
Qed.

(** ** Polling *)

(** a polling thread that goes on with what it owns *)
Lemma poller_goes_on w st th c pc pc' : local w st th -> killed th = false -> frame th = None -> who th = CPoll c pc ->
  let th' := with_who th (CPoll c pc') in
  fresh_op th' = fresh_op th -> my_buf th' = my_buf th -> storing th' = storing th ->
  (ended_pc pc = true -> ended_pc pc' = true) ->
  (forall o, works_on pc' = Some o -> works_on pc = Some o \/ rx_slot st c = Some o) ->
  (forall buf d, pc' = RxSink buf d -> sinkable cfg d) -> goes_on st th th'.
Proof using Type.
  intros Lth Hk Hf Ew th' H1 H2 H3 H4 H5 H6. subst th'.
  destruct (lc_poll _ _ _ _ _ Lth _ _ Ew) as (P1 & _ & P2 & P3 & P4).
  split; simpl; try done; rewrite ?Hf; try done.
  - unfold my_items. by rewrite H2.
  - intros c'. unfold polls. simpl. by rewrite Ew.
  - intros c' pc0 [= <- <-]. exists pc. split; [done|]. split; [done|]. split; [done|]. split; [|done].
    intros o Ho. destruct (H5 o Ho) as [Ho'|Ho']; [by apply P3|done].
  - intros l0 (l & El & _). by rewrite Ew in El.
Qed.

Lemma poll_thread_step th c pc : frame th = None -> who th = CPoll c pc ->
  match pc with RxSink _ _ | RxForward _ _ => False | _ => True end ->
  thread_step cfg th = (pc' ← rx_step c pc; mret (with_who th (CPoll c pc'))).
Proof using Type. intros Hf Ew Hpc. unfold thread_step. rewrite Hf, Ew. by destruct pc. Qed.

(** [shutdown] may have been set *)
Lemma shutdown_quiet w st : wired w st -> net_ok (snet w) ->
  exists b w' st', get_shutdown w = SRet b w' /\ quiet w st w' st' /\ locked w' = locked w.
Proof using A Hlen addr ids.
  intros [W1 W2 W3 W4 W5 W6 W7] N. unfold get_shutdown, mbind, SM_bind, scallno, get_spw. simpl. rewrite W1.
  destruct (s_stop (scall w)).
  - eexists _, _, (with_shutdown st true). split; [reflexivity|]. split; [|done]. split; simpl; try done. lia.
  - eexists _, _, st. split; [reflexivity|]. split; [|done]. split; simpl; try done. lia.
Qed.

(** the goals of [poller_goes_on] *)
Ltac on_poller Ew := eapply poller_goes_on; [eassumption|eassumption|eassumption|exact Ew|..];
  unfold fresh_op, my_buf, storing; simpl; rewrite ?Ew; try done; try (by intros ? [= ->]; left).

Lemma step_rx_top w st th c buf : enabled w st th -> frame th = None -> who th = CPoll c (RxTop buf) -> steps_ok w st th.
Proof using A Hlen K addr cfg ids.
  intros [W Lth T N Hk Hl] Hf Ew. unfold steps_ok. rewrite (poll_thread_step _ _ _ Hf Ew) by done.
  destruct (shutdown_quiet w st W N) as (b & w' & st' & E & Q & El).
  simpl. eapply swp_bind, swp_run; [exact E|]. apply swp_ret, swp_ret. intros _. exists st'.
  apply moved_quiet; [exact W|exact Lth|exact T|done| |].
  - on_poller Ew; by destruct b.
  - left. unfold in_cs. simpl. rewrite Hf, Ew. by destruct b.
Qed.

Lemma step_rx_lock w st th c o : enabled w st th -> frame th = None -> who th = CPoll c (RxLock o) -> steps_ok w st th.
Proof using Type.
  intros [W Lth T N Hk Hl] Hf Ew. unfold steps_ok. rewrite (poll_thread_step _ _ _ Hf Ew) by done.
  assert (E : locked w = false) by (apply Hl; unfold at_lock; by rewrite Hf, Ew).
  simpl. eapply swp_bind, swp_run; [unfold op_lock; rewrite E; reflexivity|]. apply swp_ret, swp_ret. intros _. exists st.
  apply moved_quiet; [exact W|exact Lth|exact T|by destruct W; quiet_parts| |].
  - on_poller Ew.
  - right. left. unfold in_cs. simpl. by rewrite Hf.
Qed.

Lemma step_rx_unlock w st th c o : enabled w st th -> frame th = None -> who th = CPoll c (RxUnlock o) -> steps_ok w st th.
Proof using Type.
  intros [W Lth T N Hk Hl] Hf Ew. unfold steps_ok. rewrite (poll_thread_step _ _ _ Hf Ew) by done.
  assert (Hc : in_cs th = true) by (unfold in_cs; by rewrite Hf, Ew).
  simpl. eapply swp_bind, swp_run; [unfold op_unlock; rewrite (lc_cs _ _ _ _ _ Lth Hc); reflexivity|].
  apply swp_ret, swp_ret. intros _. exists st.
  apply moved_quiet; [exact W|exact Lth|exact T|by destruct W; quiet_parts| |].
  - on_poller Ew.
  - right. right. split; [done|]. unfold in_cs. simpl. by rewrite Hf.
Qed.

(** the operation a polling thread works on is live *)
Lemma works_live w st th c pc o : local w st th -> who th = CPoll c pc -> works_on pc = Some o -> rx_live w o.
Proof using Type.
  intros Lth Ew Ho. pose proof (proj1 (proj2 (proj2 (proj2 (lc_poll _ _ _ _ _ Lth _ _ Ew)))) o Ho) as Hs.
  destruct (lc_slot _ _ _ _ _ Lth c pc o Ew) as (fr & E & Hfr); [unfold storing; rewrite Ew; by destruct pc|done|].
  unfold rx_live. rewrite E. f_equal. f_equal. apply Hfr. by destruct pc.
Qed.

Lemma step_rx_submit w st th c o : enabled w st th -> frame th = None -> who th = CPoll c (RxSubmit o) -> steps_ok w st th.
Proof using Hlen.
  intros [W Lth T N Hk Hl] Hf Ew. unfold steps_ok. rewrite (poll_thread_step _ _ _ Hf Ew) by done.
  pose proof (works_live _ _ _ _ _ o Lth Ew eq_refl) as Ho. pose proof (proj1 (lc_poll _ _ _ _ _ Lth _ _ Ew)) as Hc.
  simpl. eapply swp_bind, swp_run; [unfold get_spw; rewrite (wi_spw _ _ _ _ W); reflexivity|].
  assert (Hids : length (spw_chan_id st) = 2%nat) by (rewrite (wi_ids _ _ _ _ W); exact Hlen).
  eapply swp_run; [by apply chan_id_run|]. eapply swp_bind. unfold swp at 1. rewrite (star_submit_run _ _ _ _ Ho).
  destruct (s_submit _); [|done]. cbn beta iota delta [negb].
  apply swp_ret, swp_ret. intros _. exists st.
  apply moved_quiet; [exact W|exact Lth|exact T|by destruct W; quiet_parts| |].
  - on_poller Ew.
  - left. unfold in_cs. simpl. by rewrite Hf, Ew.
Qed.

Lemma step_rx_test2 w st th c o : enabled w st th -> frame th = None -> who th = CPoll c (RxTest2 o) -> steps_ok w st th.
Proof using A Hlen K addr cfg ids.
  intros [W Lth T N Hk Hl] Hf Ew. unfold steps_ok. rewrite (poll_thread_step _ _ _ Hf Ew) by done.
  destruct (shutdown_quiet w st W N) as (b & w' & st' & E & Q & El).
  simpl. eapply swp_bind, swp_run; [exact E|]. apply swp_ret, swp_ret. intros _. exists st'.
  apply moved_quiet; [exact W|exact Lth|exact T|done| |].
  - on_poller Ew; destruct b; try done. by intros ? [= ->]; left.
  - left. unfold in_cs. simpl. rewrite Hf, Ew. by destruct b.
Qed.

Lemma step_rx_test3 w st th c o s : enabled w st th -> frame th = None -> who th = CPoll c (RxTest3 o s) -> steps_ok w st th.
Proof using A Hlen K addr cfg ids.
  intros [W Lth T N Hk Hl] Hf Ew. unfold steps_ok. rewrite (poll_thread_step _ _ _ Hf Ew) by done.
  destruct (shutdown_quiet w st W N) as (b & w' & st' & E & Q & El).
  simpl. eapply swp_bind, swp_run; [exact E|]. apply swp_ret, swp_ret. intros _. exists st'.
  apply moved_quiet; [exact W|exact Lth|exact T|done| |].
  - on_poller Ew; destruct b; try done. by intros ? [= ->]; left.
  - left. unfold in_cs. simpl. rewrite Hf, Ew. by destruct b.
Qed.

Lemma step_rx_status w st th c o s : enabled w st th -> frame th = None -> who th = CPoll c (RxStatus o s) -> steps_ok w st th.
Proof using Type.
  intros [W Lth T N Hk Hl] Hf Ew. unfold steps_ok. rewrite (poll_thread_step _ _ _ Hf Ew) by done.
  simpl. destruct (bool_decide _); cbn beta iota delta [negb].
  - eapply swp_bind, swp_ret, swp_ret. intros _. exists st.
    apply moved_quiet; [exact W|exact Lth|exact T|by destruct W; split| |].
    + on_poller Ew.
    + left. unfold in_cs. simpl. by rewrite Hf, Ew.
  - eapply swp_bind, swp_run; [reflexivity|]. apply swp_ret, swp_ret. intros _. exists st.
    apply moved_quiet; [exact W|exact Lth|exact T| | |].
    + destruct W. quiet_parts. by apply sends_snoc.
    + on_poller Ew.
    + left. unfold in_cs. simpl. by rewrite Hf, Ew.
Qed.

(** what a step of a polling thread changes: its operation, the slot of its channel,
    its buffer *)
Record polls_on (w : sworld) (st : spw_state) (th : thread) (w' : sworld) (st' : spw_state) (c : Z) (pc' : rx_pc) : Prop := {
  po_wired : wired w' st';
  po_tx : tx_op st' = tx_op st;
  po_call : (scall w <= scall w')%nat;
  po_net : snet w' = snet w;
  po_sends : sends (slog w') = sends (slog w);
  po_lock : locked w' = locked w;
  po_works : forall o, works_on pc' = Some o -> rx_slot st' c = Some o;
  po_sink : forall buf d, pc' = RxSink buf d -> sinkable cfg d;
  po_fresh : forall o, o ∈ fresh_op (with_who th (CPoll c pc')) -> rx_live w' o;
  po_slot : forall o, storing (with_who th (CPoll c pc')) = false -> rx_slot st' c = Some o ->
    exists fr, ops w' !! o = Some (mk_op RxOp fr) /\ (ended_pc pc' = false -> fr = false);
  po_nodup : NoDup (my_ops st' (with_who th (CPoll c pc')));
  po_mine : forall k, k ∈ my_ops st' (with_who th (CPoll c pc')) -> k ∈ my_ops st th \/ (scall w <= k)%nat;
  po_ops : forall k, k ∉ my_ops st th -> (k < scall w)%nat -> ops w' !! k = ops w !! k;
  po_all : forall k, is_Some (ops w' !! k) -> is_Some (ops w !! k) /\
    (k ∈ my_ops st th -> k ∈ my_ops st' (with_who th (CPoll c pc'))) \/ k ∈ my_ops st' (with_who th (CPoll c pc'));
  po_slots : forall c', chan_ok c' -> c' <> c -> rx_slot st' c' = rx_slot st c';
  po_items : forall k, k ∉ my_items th -> k ∈ items w -> k ∈ items w';
  po_buf : forall k, k ∈ my_buf (with_who th (CPoll c pc')) -> k ∈ items w' /\ (k ∈ my_items th \/ (scall w <= k)%nat);
  po_cs : in_cs (with_who th (CPoll c pc')) = in_cs th
}.

Lemma moved_poller w st th w' st' c pc pc' : enabled w st th -> frame th = None -> who th = CPoll c pc ->
  polls_on w st th w' st' c pc' -> moved w st th w' st' (with_who th (CPoll c pc')).
Proof using Hlen addr cfg ids.
  intros [W Lth T N Hk _] Hf Ew [P1 P2 P3 P4 P5 P6 P7 P8 P9 P10 P11 P12 P13 P14 P15 P16 P17 P18].
  set (th' := with_who th (CPoll c pc')) in *.
  pose proof (proj1 (lc_poll _ _ _ _ _ Lth _ _ Ew)) as Hc.
  assert (Ef : frame th' = None) by done. assert (Efo : frame_op th = []) by (unfold frame_op; by rewrite Hf).
  assert (Eti : my_items th' = my_buf th') by (unfold my_items, frame_item; by rewrite Ef).
  assert (Hno : forall ch o, chan_ok ch -> tx_slot st ch = Some o ->
    (exists b, tx_live addr w o b) /\ o ∉ my_ops st th /\ (o < scall w)%nat).
  { intros ch o Hch Ho. destruct (T ch o Hch Ho) as [[b Hb] Hm]. split; [by exists b|]. split.
    - intros Hin. destruct (Hm Hin) as [Hin' _]. rewrite Efo in Hin'. by apply elem_of_nil in Hin'.
    - destruct (decide (o < scall w)%nat) as [|Hge]; [done|]. unfold tx_live in Hb. rewrite (wi_ops _ _ _ _ W) in Hb by lia. done. }
  split.
  - done.
  - done.
  - split; rewrite ?Ef; try done.
    + intros c0 pc0 [= <- <-]. done.
    + intros c0 pc0 o [= <- <-]. apply P10.
    + rewrite Eti. split; [|by intros i Hi; apply P17]. unfold my_buf. simpl.
      destruct pc'; try constructor; destruct buf; simpl; constructor; try constructor; apply not_elem_of_nil.
    + rewrite P18, P6. apply Lth.
  - done.
  - done.
  - done.
  - intros k. rewrite Eti. apply P17.
  - intros c' Hc' Hp. apply P15; [done|]. intros ->. unfold polls in Hp. rewrite Ew in Hp.
    by rewrite bool_decide_eq_true_2 in Hp.
  - intros c'. unfold polls. by rewrite Ew.
  - done.
  - by left.
  - intros ch o Hch Ho. unfold tx_slot in Ho. rewrite P2 in Ho. destruct (Hno ch o Hch Ho) as ([b Hb] & Hn & Hlt).
    split; [by left|]. split; [exists b; unfold tx_live; by rewrite P13|].
    intros Hin. destruct (P12 o Hin); [done|lia].
  - done.
  - exists []. rewrite P5. by rewrite !app_nil_r.
  - intros l0 (l & El & _). by rewrite Ew in El.
  - by rewrite P4.
Qed.

Lemma poller_ops st th c pc : frame th = None -> who th = CPoll c pc -> my_ops st th = fresh_op th ++ slot_op st th.
Proof using Type. intros Hf Ew. unfold my_ops, frame_op. by rewrite Hf. Qed.

(** what a polling thread owns, by its place *)
Lemma poller_ops_at st th c pc : frame th = None -> who th = CPoll c pc ->
  my_ops st th = match pc with
    | RxStore o => [o]
    | RxLock o | RxOld o => o :: option_list (rx_slot st c)
    | _ => option_list (rx_slot st c)
    end.
Proof using Type.
  intros Hf Ew. unfold my_ops, frame_op, fresh_op, slot_op. rewrite Hf, Ew. by destruct pc.
Qed.

Lemma option_list_nodup {B} (o : option B) : NoDup (option_list o).
Proof using Type. destruct o; constructor; [apply not_elem_of_nil|constructor]. Qed.

Lemma rx_slot_other st c c' o : chan_ok c -> chan_ok c' -> c' <> c -> rx_slot (with_rx_op st c o) c' = rx_slot st c'.
Proof using Hlen ids.
  intros Hc Hc' Hne. unfold rx_slot. simpl. rewrite list_lookup_insert_ne; [done|].
  destruct Hc as [-> | ->], Hc' as [-> | ->]; simpl; lia.
Qed.

Lemma rx_slot_set st c o : chan_ok c -> length (rx_op st) = 2%nat -> rx_slot (with_rx_op st c o) c = o.
Proof using Hlen ids.
  intros Hc Hl. unfold rx_slot. simpl. rewrite list_lookup_insert_eq; [done|]. destruct Hc as [-> | ->]; simpl; lia.
Qed.

(** the facts about the slot of a thread that keeps it *)
Lemma slot_stays w st th c pc o : local w st th -> who th = CPoll c pc -> storing th = false ->
  rx_slot st c = Some o -> exists fr, ops w !! o = Some (mk_op RxOp fr) /\ (ended_pc pc = false -> fr = false).
Proof using Type. intros Lth Ew. by apply (lc_slot _ _ _ _ _ Lth). Qed.

Lemma step_rx_drop w st th c buf : enabled w st th -> frame th = None -> who th = CPoll c (RxDrop buf) -> steps_ok w st th.
Proof using A Hlen K addr cfg ids.
  intros H Hf Ew. pose proof H as [W Lth T N Hk Hl]. unfold steps_ok. rewrite (poll_thread_step _ _ _ Hf Ew) by done.
  simpl.
  assert (E : exists it', (match buf with Some b => star_destroy_item b | None => mret () end) w = SRet () (sw_items w it') /\
    (forall k, k ∈ it' -> k ∈ items w) /\ forall k, k ∉ my_items th -> k ∈ items w -> k ∈ it').
  { destruct buf as [b|]; [|exists (items w); by destruct w].
    exists (items w ∖ {[b]}). assert (Hin : b ∈ my_items th).
    { unfold my_items, my_buf. rewrite Ew. apply elem_of_app. right. by apply list_elem_of_singleton. }
    split; [|split].
    - unfold star_destroy_item. rewrite decide_True; [done|]. by apply (lc_items _ _ _ _ _ Lth).
    - by intros k [? _]%elem_of_difference.
    - intros k Hk' Hi. apply elem_of_difference. split; [done|]. by intros ->%elem_of_singleton. }
  destruct E as (it' & E & Hsub & Hkeep). eapply swp_bind, swp_run; [exact E|]. apply swp_ret, swp_ret. intros _. exists st.
  eapply moved_poller; [exact H|exact Hf|exact Ew|].
  assert (Emy : my_ops st (with_who th (CPoll c RxCreate)) = my_ops st th).
  { by rewrite (poller_ops_at _ _ _ _ Hf Ew), (poller_ops_at st (with_who th (CPoll c RxCreate)) c RxCreate Hf eq_refl). }
  destruct W as [W1 W2 W3 W4 W5 W6 W7]. split; rewrite ?Emy; simpl; try easy_part.
  - split; simpl; try done. intros k Hge Hin. by apply (W7 k Hge), Hsub.
  - intros o _. apply (slot_stays w st th c _ o Lth Ew). unfold storing. by rewrite Ew.
  - apply Lth.
  - unfold in_cs. simpl. by rewrite Hf, Ew.
Qed.

Lemma step_rx_create w st th c : enabled w st th -> frame th = None -> who th = CPoll c RxCreate -> steps_ok w st th.
Proof using A Hlen K addr cfg ids.
  intros H Hf Ew. pose proof H as [W Lth T N Hk Hl]. unfold steps_ok. rewrite (poll_thread_step _ _ _ Hf Ew) by done.
  simpl. eapply swp_bind, swp_bind. unfold swp at 1, star_create_op. destruct (s_create (scall w)); [|done].
  apply swp_ret, swp_ret. intros _. exists st. set (o := scall w). eapply moved_poller; [exact H|exact Hf|exact Ew|].
  pose proof (poller_ops_at st th c _ Hf Ew) as E0.
  pose proof (poller_ops_at st (with_who th (CPoll c (RxLock o))) c _ Hf eq_refl) as E1. simpl in E0, E1.
  assert (Hold : forall k, k ∈ my_ops st th -> k <> o).
  { intros k Hin ->. pose proof (my_old _ _ _ _ _ _ _ W Lth Hin). unfold o in *. lia. }
  destruct W as [W1 W2 W3 W4 W5 W6 W7]. split; rewrite ?E1, ?E0; simpl; try easy_part.
  - split; simpl; try done; intros k Hge; [rewrite lookup_insert_ne by lia; apply W6; lia|]. apply W7; lia.
  - intros k ->%list_elem_of_singleton. unfold rx_live. simpl. apply lookup_insert_eq.
  - intros k _ Hs. rewrite lookup_insert_ne; [|apply not_eq_sym, Hold; rewrite E0, Hs; by apply list_elem_of_singleton].
    apply (slot_stays w st th c _ k Lth Ew); [unfold storing; by rewrite Ew|done].
  - constructor; [|apply option_list_nodup]. intros Hin. apply (Hold o); [by rewrite E0|done].
  - intros k [->|Hin]%elem_of_cons; [right; unfold o; lia|by left].
  - intros k _ Hlt. apply lookup_insert_ne. unfold o. lia.
  - intros k. destruct (decide (k = o)) as [->|Hne]; [intros _; right; by left|].
    rewrite lookup_insert_ne by done. intros Hk'. left. split; [done|]. intros Hin. by right.
  - unfold in_cs. simpl. by rewrite Hf, Ew.
Qed.

(** the old operation is disposed, inside the mutex *)
Lemma step_rx_old w st th c o : enabled w st th -> frame th = None -> who th = CPoll c (RxOld o) -> steps_ok w st th.
Proof using A Hlen K addr cfg ids.
  intros H Hf Ew. pose proof H as [W Lth T N Hk Hl]. unfold steps_ok. rewrite (poll_thread_step _ _ _ Hf Ew) by done.
  pose proof (proj1 (lc_poll _ _ _ _ _ Lth _ _ Ew)) as Hc.
  pose proof (poller_ops_at st th c _ Hf Ew) as E0.
  pose proof (poller_ops_at st (with_who th (CPoll c (RxStore o))) c _ Hf eq_refl) as E1. simpl in E0, E1.
  pose proof (lc_ops _ _ _ _ _ Lth) as Hnd. rewrite E0, NoDup_cons in Hnd. destruct Hnd as [Hnew _].
  assert (Ho : rx_live w o) by (apply (lc_rx _ _ _ _ _ Lth); unfold fresh_op; rewrite Ew; by apply list_elem_of_singleton).
  simpl. eapply swp_bind, swp_run; [unfold get_spw; rewrite (wi_spw _ _ _ _ W); reflexivity|].
  destruct (slot_run (rx_op st) c w (wi_rx _ _ _ _ W) Hc) as (old & Hold & Eold). eapply swp_run; [exact Eold|].
  assert (Es : rx_slot st c = old) by (unfold rx_slot; by rewrite Hold).
  assert (E : (match old with Some old => star_dispose_op old | None => mret () end) w = SRet () (sw_ops w (drop_op old (ops w)))).
  { destruct old as [old|]; [|by destruct w].
    destruct (lc_slot _ _ _ _ _ Lth c _ old Ew) as (fr & Elive & Hfr); [unfold storing; by rewrite Ew|done|].
    rewrite Hfr in Elive by done. by apply (dispose_run _ _ _ Elive). }
  eapply swp_run; [exact E|]. apply swp_ret, swp_ret. intros _. exists st.
  eapply moved_poller; [exact H|exact Hf|exact Ew|]. rewrite Es in *.
  assert (Hkeep : forall k, k ∉ option_list old -> drop_op old (ops w) !! k = ops w !! k).
  { intros k Hn. destruct old as [old|]; [|done]. simpl. apply lookup_delete_ne. intros ->. apply Hn. by apply list_elem_of_singleton. }
  destruct W as [W1 W2 W3 W4 W5 W6 W7]. split; rewrite ?E1, ?E0; simpl; try easy_part.
  - split; simpl; try done. intros k Hge. destruct old; simpl; [rewrite lookup_delete_None; right|]; by apply W6.
  - intros k ->%list_elem_of_singleton. unfold rx_live. simpl. by rewrite Hkeep.
  - apply NoDup_singleton.
  - intros k ->%list_elem_of_singleton. left. by left.
  - intros k Hn _. apply Hkeep. intros Hin. apply Hn. by right.
  - intros k Hk'. destruct (decide (k = o)) as [->|Hne]; [right; by left|left].
    destruct old as [old|]; simpl in Hk' |- *.
    + destruct Hk' as [x Hx]. apply lookup_delete_Some in Hx as [Hne' Hx]. split; [by eexists|].
      rewrite !elem_of_cons. intros [?|[?|Hin]]; [done|congruence|by apply elem_of_nil in Hin].
    + split; [done|]. rewrite !elem_of_cons. intros [?|Hin]; [done|by apply elem_of_nil in Hin].
  - unfold in_cs. simpl. by rewrite Hf, Ew.
Qed.

Lemma step_rx_store w st th c o : enabled w st th -> frame th = None -> who th = CPoll c (RxStore o) -> steps_ok w st th.
Proof using A Hlen K addr cfg ids.
  intros H Hf Ew. pose proof H as [W Lth T N Hk Hl]. unfold steps_ok. rewrite (poll_thread_step _ _ _ Hf Ew) by done.
  pose proof (proj1 (lc_poll _ _ _ _ _ Lth _ _ Ew)) as Hc.
  simpl. eapply swp_bind, swp_run; [unfold get_spw; rewrite (wi_spw _ _ _ _ W); reflexivity|].
  eapply swp_run; [reflexivity|]. apply swp_ret, swp_ret. intros _. set (st' := with_rx_op st c (Some o)). exists st'.
  eapply moved_poller; [exact H|exact Hf|exact Ew|].
  pose proof (poller_ops_at st th c _ Hf Ew) as E0.
  pose proof (poller_ops_at st' (with_who th (CPoll c (RxUnlock o))) c _ Hf eq_refl) as E1.
  assert (Ho : rx_live w o) by (apply (lc_rx _ _ _ _ _ Lth); unfold fresh_op; rewrite Ew; by apply list_elem_of_singleton).
  assert (Es : rx_slot st' c = Some o) by (apply rx_slot_set; [done|apply W]). simpl in E0, E1. rewrite Es in E1. simpl in E1.
  destruct W as [W1 W2 W3 W4 W5 W6 W7]. split; rewrite ?E1, ?E0; simpl; try easy_part.
  - split; simpl; rewrite ?length_insert; done.
  - intros ? [= <-]. done.
  - intros o0 _. rewrite Es. intros [= <-]. by exists false.
  - apply NoDup_singleton.
  - intros c' Hc' Hne. by apply rx_slot_other.
  - unfold in_cs. simpl. by rewrite Hf, Ew.
Qed.

Lemma step_rx_wait w st th c o : enabled w st th -> frame th = None -> who th = CPoll c (RxWait o) -> steps_ok w st th.
Proof using A Hlen K addr cfg ids.
  intros H Hf Ew. pose proof H as [W Lth T N Hk Hl]. unfold steps_ok. rewrite (poll_thread_step _ _ _ Hf Ew) by done.
  pose proof (works_live _ _ _ _ _ o Lth Ew eq_refl) as Ho.
  pose proof (proj1 (proj2 (proj2 (proj2 (lc_poll _ _ _ _ _ Lth _ _ Ew)))) o eq_refl) as Es.
  simpl. eapply swp_bind, swp_bind. unfold swp at 1. rewrite (wait_rx_run _ _ Ho), (status_run _ _ _ Ho).
  case_decide as Hc.
  - rewrite decide_True by done. eapply swp_run; [reflexivity|]. apply swp_ret, swp_ret. intros _. exists st.
    eapply moved_poller; [exact H|exact Hf|exact Ew|].
    pose proof (poller_ops_at st th c _ Hf Ew) as E0.
    pose proof (poller_ops_at st (with_who th (CPoll c (RxEnd None))) c _ Hf eq_refl) as E1. simpl in E0, E1.
    rewrite Es in E0, E1. simpl in E0, E1.
    assert (Hlt : (o < scall w)%nat) by (apply (my_old _ _ _ _ _ _ _ W Lth); rewrite E0; by apply list_elem_of_singleton).
    destruct W as [W1 W2 W3 W4 W5 W6 W7]. split; rewrite ?E1, ?E0; simpl; try easy_part.
    + split; simpl; try done; intros k Hge; [rewrite lookup_insert_ne by lia; apply W6; lia|apply W7; lia].
    + by apply sends_snoc.
    + intros o0 _. rewrite Es. intros [= <-]. exists true. by rewrite lookup_insert_eq.
    + apply NoDup_singleton.
    + intros k Hn _. apply lookup_insert_ne. intros <-. apply Hn. by apply list_elem_of_singleton.
    + intros k Hk'. destruct (decide (k = o)) as [->|Hne]; [right; by apply list_elem_of_singleton|left].
      rewrite lookup_insert_ne in Hk' by done. by split.
    + unfold in_cs. simpl. by rewrite Hf, Ew.
  - rewrite decide_False by done. apply swp_ret, swp_ret. intros _. exists st.
    apply moved_quiet; [exact W|exact Lth|exact T|by destruct W; quiet_parts| |].
    + on_poller Ew.
    + left. unfold in_cs. simpl. by rewrite Hf, Ew.
Qed.

Lemma step_rx_packet w st th c o : enabled w st th -> frame th = None -> who th = CPoll c (RxPacket o) -> steps_ok w st th.
Proof using A Hdata Hlen Hskip K L addr cfg ids.
  intros H Hf Ew. pose proof H as [W Lth T N Hk Hl]. unfold steps_ok. rewrite (poll_thread_step _ _ _ Hf Ew) by done.
  pose proof (works_live _ _ _ _ _ o Lth Ew eq_refl) as Ho.
  assert (E : exists buf w1, star_packet o w = SRet (buf, s_data (scall w)) w1 /\ ops w1 = ops w /\ spw w1 = spw w /\
    (scall w <= scall w1)%nat /\ snet w1 = snet w /\ slog w1 = slog w /\ locked w1 = locked w /\
    (forall k, k ∈ items w1 <-> k ∈ option_list buf \/ k ∈ items w) /\
    forall k, k ∈ option_list buf -> (scall w <= k < scall w1)%nat).
  { unfold star_packet, mbind, SM_bind. rewrite (star_live_run _ _ _ Ho). simpl. unfold star_create_item. simpl.
    destruct (s_create (S (scall w))); eexists _, _; (split; [reflexivity|]); simpl;
      repeat (split; [done || lia|]); (split; [intros k; set_solver|]).
    - intros k ->%list_elem_of_singleton. lia.
    - intros k Hin. by apply elem_of_nil in Hin. }
  destruct E as (buf & w1 & E & Q1 & Q2 & Q3 & Q4 & Q5 & Q6 & Q7 & Q8).
  simpl. eapply swp_bind, swp_run; [exact E|]. apply swp_ret, swp_ret. intros _. exists st.
  eapply moved_poller; [exact H|exact Hf|exact Ew|].
  assert (Emy : my_ops st (with_who th (CPoll c (RxSink buf (s_data (scall w))))) = my_ops st th).
  { by rewrite (poller_ops_at _ _ _ _ Hf Ew), (poller_ops_at st (with_who th (CPoll c (RxSink buf (s_data (scall w))))) c _ Hf eq_refl). }
  destruct W as [W1 W2 W3 W4 W5 W6 W7]. split; rewrite ?Emy; simpl; try easy_part.
  - split; try congruence; intros k Hge; [rewrite Q1; apply W6; lia|]. rewrite Q7. intros [Hin|Hin]; [apply Q8 in Hin; lia|].
    apply (W7 k); [lia|done].
  - by rewrite Q5.
  - intros ? ? [= <- <-]. apply Hdata.
  - intros o0 _ Hs. rewrite Q1. apply (slot_stays w st th c _ o0 Lth Ew); [unfold storing; by rewrite Ew|done].
  - apply Lth.
  - intros k _ _. by rewrite Q1.
  - intros k Hk'. rewrite Q1 in Hk'. left. by split.
  - intros k _ Hin. apply Q7. by right.
  - intros k Hin. change (my_buf (with_who th (CPoll c (RxSink buf (s_data (scall w)))))) with (option_list buf) in Hin.
    split; [apply Q7; by left|]. right. apply Q8 in Hin. lia.
  - unfold in_cs. simpl. by rewrite Hf, Ew.
Qed.

(** ** The sinks, and what a network thread does *)

(** only the network side has changed *)
Lemma net_quiet w st n : wired w st -> net_ok n -> quiet w st (sw_net w n) st.
Proof using Type. intros [W1 W2 W3 W4 W5 W6 W7] N. by split. Qed.

Lemma on_net_runs (m : M ()) (P : world -> Prop) w : net_ok (snet w) -> keeps m ->
  wp m P (fun _ _ => True) (snet w) ->
  swp (on_net m) (fun _ => True) (fun _ w' => exists n, w' = sw_net w n /\ net_ok n) w.
Proof using Type.
  intros N Hk Hwp. eapply swp_mono; [eapply swp_net, keeps_wp; [exact Hk|exact N|exact Hwp]| |done].
  intros [] w' (n & -> & _ & S). exists n. split; [done|]. by eapply net_ok_shrinks.
Qed.

Lemma ready_quiet w st : wired w st -> exists r, spw_link_ready cfg w = SRet r w.
Proof using Hlen.
  intros W. assert (Hids : length (spw_chan_id st) = 2%nat) by (rewrite (wi_ids _ _ _ _ W); exact Hlen).
  unfold spw_link_ready. rewrite (wi_spw _ _ _ _ W). unfold mbind, SM_bind.
  rewrite chan_id_run by (done || by left). destruct (enable_monitor cfg); [|by eexists].
  destruct (c_true _); [|by eexists]. rewrite chan_id_run by (done || by right). by eexists.
Qed.

(** a thread enters [spw_send_packet_chan] *)
Lemma calls_goes_on w st th c b cl : local w st th -> killed th = false -> frame th = None -> chan_ok c ->
  my_buf (with_who th cl) = my_buf th -> fresh_op (with_who th cl) = fresh_op th ->
  storing (with_who th cl) = storing th -> (forall c', polls (with_who th cl) c' = polls th c') ->
  (forall c' pc, cl = CPoll c' pc -> (exists buf d, pc = RxForward buf d) /\ exists pc0, who th = CPoll c' pc0 /\ ended_pc pc0 = false) ->
  (forall l0, job_ok l0 th -> job_ok l0 (calling th c b cl)) ->
  goes_on st th (calling th c b cl).
Proof using Type.
  intros Lth Hk Hf Hc H1 H2 H3 H4 H5 H6. split; simpl; try done.
  - by intros c0 b0 pc [= <- <- <-].
  - unfold frame_op. simpl. by rewrite Hf.
  - unfold my_items, frame_item. simpl. rewrite Hf. exact H1.
  - intros c' Hw. unfold in_window in Hw. by rewrite Hf in Hw.
  - intros c' pc Ecl. destruct (H5 c' pc Ecl) as ((buf & d & ->) & pc0 & E0 & He). exists pc0. split; [done|].
    split; [by rewrite He|]. split; [by intros _; exists buf, d|done].
Qed.

Lemma step_rx_sink w st th c buf d : enabled w st th -> frame th = None -> who th = CPoll c (RxSink buf d) -> steps_ok w st th.
Proof using L Hlen Hskip.
  intros [W Lth T N Hk Hl] Hf Ew. unfold steps_ok, thread_step. rewrite Hf, Ew.
  destruct (lc_poll _ _ _ _ _ Lth _ _ Ew) as (Hc & _ & _ & _ & Hsink). destruct (Hsink _ _ eq_refl) as [Hb Hfits].
  assert (Hend : forall n, net_ok n -> moved w st th (sw_net w n) st (with_who th (CPoll c (RxTop buf)))).
  { intros n Hn. apply moved_quiet; [exact W|exact Lth|exact T|by apply net_quiet| |].
    - on_poller Ew.
    - left. unfold in_cs. simpl. by rewrite Hf, Ew. }
  unfold sink_step. destruct (pkt_sink cfg) as [[]|].
  - eapply swp_next.
    { apply (on_net_runs _ (fun _ => is_client (net (snet w)) = true) w N); [by apply keeps_sink|].
      destruct N as (N1 & N2 & N3). by apply sink_ends. }
    intros [] w1 (n & -> & Hn). apply swp_ret. intros _. exists st. by apply Hend.
  - eapply swp_run; [reflexivity|]. unfold on_net. simpl.
    set (n := w_log (snet w) _). assert (Hn : net_ok n) by (by destruct N).
    assert (W1 : wired (sw_net w n) st) by (by destruct W).
    destruct (ready_quiet _ _ W1) as [r Er]. eapply swp_run; [exact Er|]. apply swp_ret. intros _. exists st.
    apply moved_quiet; [exact W|exact Lth|exact T|by apply net_quiet| |].
    + destruct r.
      * apply (calls_goes_on w); try done; [by apply other_ok|unfold my_buf; simpl; by rewrite Ew|unfold fresh_op; simpl; by rewrite Ew|
          unfold storing; simpl; by rewrite Ew|intros c'; unfold polls; simpl; by rewrite Ew| |].
        -- intros c' pc [= <- <-]. split; [by exists buf, d|]. by exists (RxSink buf d).
        -- intros l0 (l & El & _). by rewrite Ew in El.
      * on_poller Ew.
    + left. unfold in_cs. rewrite Hf, Ew. destruct r; simpl; [done|]. by rewrite Hf.
  - apply swp_ret. intros _. exists st. specialize (Hend (snet w) N).
    by assert (E : sw_net w (snet w) = w) by (by destruct w); rewrite E in Hend.
Qed.

Lemma step_rx_forward w st th c buf d : enabled w st th -> frame th = None -> who th = CPoll c (RxForward buf d) -> steps_ok w st th.
Proof using L.
  intros [W Lth T N Hk Hl] Hf Ew. unfold steps_ok, thread_step. rewrite Hf, Ew.
  eapply swp_next.
  { apply (on_net_runs _ (fun _ => is_client (net (snet w)) = true) w N); [by apply keeps_forward|].
    destruct N as (N1 & N2 & N3). by apply forward_ends. }
  intros [] w1 (n & -> & Hn). apply swp_ret. intros _. exists st.
  apply moved_quiet; [exact W|exact Lth|exact T|by apply net_quiet| |].
  - on_poller Ew.
  - left. unfold in_cs. simpl. by rewrite Hf, Ew.
Qed.

Lemma rmap_cmd_quiet dst wr a data w st : wired w st -> net_ok (snet w) ->
  exists w', spw_rmap_cmd dst wr a data w = SRet () w' /\ quiet w st w' st /\ locked w' = locked w.
Proof using Hlen.
  intros [W1 W2 W3 W4 W5 W6 W7] N. assert (Hids : length (spw_chan_id st) = 2%nat) by (rewrite W2; exact Hlen).
  unfold spw_rmap_cmd. destruct (if wr then _ else _) as [pkt|].
  - unfold mbind, SM_bind, get_spw. rewrite W1. rewrite chan_id_run by (done || by left). unfold say, scallno. simpl.
    destruct (negb _); eexists; (split; [reflexivity|]); (split; [|done]); split; simpl; try done; try lia;
      unfold sends; rewrite ?List.filter_app; simpl; by rewrite ?app_nil_r.
  - eexists. split; [reflexivity|]. split; [|done]. split; simpl; try done. by apply sends_snoc.
Qed.

(** a network thread between two calls *)
Lemma step_net w st th l : enabled w st th -> frame th = None -> who th = CNet l -> l <> [] -> steps_ok w st th.
Proof using Hlen.
  intros [W Lth T N Hk Hl] Hf Ew Hne. unfold steps_ok, thread_step. rewrite Hf, Ew.
  assert (Hgo : forall l', (forall l0, job_ok l0 th -> job_ok l0 (with_who th (CNet l'))) -> goes_on st th (with_who th (CNet l'))).
  { intros l' Hj. split; unfold frame_op, my_items, frame_item, my_buf, fresh_op, storing, polls; simpl; rewrite ?Hf, ?Ew; try done. }
  destruct l as [|[b|dst wr a data] l]; [done|..].
  - apply swp_ret. intros _. exists st. apply moved_quiet; [exact W|exact Lth|exact T|by destruct W| |].
    + apply (calls_goes_on w); unfold my_buf, fresh_op, storing, polls; simpl; rewrite ?Ew; try done; [by left|].
      intros l0 (l1 & El & Hj). rewrite Ew in El. injection El as <-. exists l. split; [done|].
      simpl. rewrite Hk in *. unfold pending in *. simpl. rewrite Hf in Hj. done.
    + left. unfold in_cs. simpl. by rewrite Hf, Ew.
  - destruct (rmap_cmd_quiet dst wr a data w st W N) as (w' & E & Q & El). eapply swp_run; [exact E|].
    apply swp_ret. intros _. exists st. apply moved_quiet; [exact W|exact Lth|exact T|exact Q| |].
    + apply Hgo. intros l0 (l1 & El' & Hj). rewrite Ew in El'. injection El' as <-. exists l. split; [done|].
      simpl. rewrite Hk in *. unfold pending in *. simpl. by rewrite Hf in *.
    + left. unfold in_cs. simpl. by rewrite Hf, Ew.
Qed.

(** every step of every thread *)
Lemma step_ok w st th : enabled w st th -> over th = false -> steps_ok w st th.
Proof using L Hlen Hskip Hdata.
  intros H Ho. destruct (frame th) as [[[c b] pc]|] eqn:Ef; [by eapply step_sender|].
  destruct (who th) as [l|c pc] eqn:Ew; [eapply step_net; [done..|]; intros ->; unfold over in Ho; by rewrite Ef, Ew in Ho|].
  destruct pc; [by eapply step_rx_top|by eapply step_rx_drop|by eapply step_rx_create|by eapply step_rx_lock
    |by eapply step_rx_old|by eapply step_rx_store|by eapply step_rx_unlock|by eapply step_rx_submit|by eapply step_rx_test2
    |by eapply step_rx_wait|by eapply step_rx_test3|by eapply step_rx_status|by eapply step_rx_packet|by eapply step_rx_sink
    |by eapply step_rx_forward|]. unfold over in Ho. by rewrite Ef, Ew in Ho.
Qed.
End steps.
