(* ===== verification/SpwConcProps.v ===== *)
(** * Properties of all interleavings of the SpaceWire side

    Every configuration that is reachable from the start satisfies the invariant of
    [SpwConcInv]; so no order of the steps uses an operation that is gone, leaves
    the mutex in disorder or blocks, and what is on the link is what the threads have
    submitted. *)

From Stdlib Require Import String List.
From stdpp Require Import base tactics option list list_numbers gmap sets.
From Stdlib Require Import ZArith Lia Bool.
From S2P Require Import Prelude.
From S2P Require Import CString.
From S2P Require Import Sys.
From S2P Require Import NetConn.
From S2P Require Import NetRecv.
From S2P Require Import Net.
From S2P Require Import NetSpec.
From S2P Require Import NetSafe.
From S2P Require Import Spw.
From S2P Require Import SpwSpec.
From S2P Require Import SpwLife.
From S2P Require Import Bridge.
From S2P Require Import SpwConc.
From S2P Require Import SpwConcInv.
From S2P Require Import SpwConcSafe.

Local Open Scope Z_scope.

Section run.
Context {A : Star} {K : Kernel} {L : KernelLive K}.
Variable cfg : bridge_cfg.
Variables (ids : list Z) (addr : option (list Z)).
Context (Hlen : length ids = 2%nat).
Context (Hskip : 0 <= skip_header_bytes cfg) (Hdata : forall t, sinkable cfg (s_data t)).
Variables (js : list (list job)) (base : list sact).

Local Abbreviation inv := (inv cfg ids addr js base).

(** the process behind [spw_setup_device] *)
Record started (w : sworld) (st : spw_state) : Prop := {
  sd_wired : wired ids addr w st;
  sd_none : rx_op st = [None; None] /\ tx_op st = [None; None];
  sd_ops : ops w = ∅;
  sd_items : items w = ∅;
  sd_lock : locked w = false;
  sd_log : sends (slog w) = base;
  sd_net : net_ok (snet w)
}.

Lemma start_lookup w i th : threads (conc_start cfg w js) !! i = Some th ->
  (exists l, js !! i = Some l /\ th = net_thread l) \/
  i = length js /\ th = poll_thread 0 \/ i = S (length js) /\ enable_monitor cfg = true /\ th = poll_thread 1.
Proof using Hlen cfg ids js.
  unfold conc_start. simpl. rewrite lookup_app_Some, length_map. intros [Hi|[Hge Hi]].
  - left. change (map net_thread js) with (net_thread <$> js) in Hi. rewrite list_lookup_fmap in Hi.
    destruct (js !! i) as [l|] eqn:E; [|done]. injection Hi as <-. by exists l.
  - right. destruct (i - length js)%nat as [|[|n]] eqn:En; simpl in Hi.
    + left. injection Hi as <-. split; [lia|done].
    + right. destruct (enable_monitor cfg); [|done]. injection Hi as <-. split; [lia|done].
    + destruct (enable_monitor cfg); by destruct n.
Qed.

Lemma conc_start_inv w st : started w st -> inv (conc_start cfg w js) st.
Proof using Hlen addr base cfg ids js.
  intros [W [Er Et] Eo Ei El Eg En].
  assert (Hr : forall c, rx_slot st c = None) by (intros c; unfold rx_slot; rewrite Er; by destruct (Z.to_nat c) as [|[|]]).
  assert (Ht : forall c, tx_slot st c = None) by (intros c; unfold tx_slot; rewrite Et; by destruct (Z.to_nat c) as [|[|]]).
  assert (Hmy : forall c, my_ops st (poll_thread c) = []).
  { intros c. unfold my_ops, slot_op. simpl. by rewrite Hr. }
  assert (Hth : forall i th, threads (conc_start cfg w js) !! i = Some th ->
    my_ops st th = [] /\ my_items th = [] /\ in_cs th = false /\ frame th = None /\ killed th = false /\ submitted th = [] /\
    forall c pc, who th = CPoll c pc -> chan_ok c /\ pc = RxTop None).
  { intros i th [(l & _ & ->)|[[_ ->]|(_ & _ & ->)]]%start_lookup; rewrite ?Hmy; do 6 (split; [done|]);
      intros c pc E; simpl in E; try done; injection E as <- <-; (split; [|done]); [by left|by right]. }
  split.
  - done.
  - intros i th Hi. destruct (Hth i th Hi) as (H1 & H2 & H3 & H4 & H5 & H6 & H7).
    split; rewrite ?H1, ?H2, ?H3, ?H4; try done.
    + intros c pc Ew. destruct (H7 c pc Ew) as [Hc ->]. done.
    + intros o. unfold fresh_op. destruct (who th) as [l|c pc] eqn:Ew; [intros Hin; by apply elem_of_nil in Hin|].
      destruct (H7 c pc eq_refl) as [_ ->]. intros Hin. by apply elem_of_nil in Hin.
    + intros c pc o _ _. by rewrite Hr.
    + constructor.
    + split; [constructor|]. intros k Hin. by apply elem_of_nil in Hin.
  - intros i j a b Hi Hj Hne. destruct (Hth i a Hi) as (A1 & A2 & A3 & _), (Hth j b Hj) as (B1 & B2 & B3 & _).
    split; rewrite ?A1, ?A2, ?A3; try (intros k Hin; by apply elem_of_nil in Hin); [done|].
    intros c. apply start_lookup in Hi, Hj. unfold polls.
    destruct Hi as [(l & _ & ->)|[[E1 ->]|(E1 & _ & ->)]], Hj as [(l' & _ & ->)|[[E2 ->]|(E2 & _ & ->)]]; simpl; try done; try lia.
    + rewrite bool_decide_eq_true, bool_decide_eq_false. lia.
    + rewrite bool_decide_eq_true, bool_decide_eq_false. lia.
  - done.
  - simpl. by rewrite El.
  - intros ch o _. by rewrite Ht.
  - intros ch _ _. apply Hr.
  - intros k. simpl. rewrite Eo, lookup_empty. by intros [].
  - exists []. simpl. rewrite app_nil_r. split; [done|]. intros i th Hi. by destruct (Hth i th Hi) as (_ & _ & _ & _ & _ & -> & _).
  - intros i th l0 Hi Hl. apply start_lookup in Hi as [(l & Hl' & ->)|[[-> ->]|(-> & _ & ->)]].
    + simplify_eq. by eexists.
    + rewrite lookup_ge_None_2 in Hl by lia. done.
    + rewrite lookup_ge_None_2 in Hl by lia. done.
  - done.
Qed.

(** ** Events *)

Lemma inv_enabled c st i th : inv c st -> threads c !! i = Some th -> killed th = false ->
  at_lock th && locked (wd c) = false -> enabled cfg ids addr (wd c) st th.
Proof using Type.
  intros V Hi Hk Hl. split; [apply V|by apply (iv_local _ _ _ _ _ _ _ V i)| |apply V|done|].
  - intros ch o Hch Ho. destruct (iv_tx _ _ _ _ _ _ _ V ch o Hch Ho) as (H1 & _ & H2). split; [done|]. by apply (H2 i).
  - intros E. rewrite E in Hl. done.
Qed.

Lemma thread_event c st i out : inv c st -> conc_step cfg (EThread i) c = Some out ->
  out <> Broken /\ forall c', out = Next c' -> (forall th, th ∈ threads c' -> ~ tx_cancelled th) ->
    mpc c' = mpc c /\ lost c' = lost c /\ (exists st', inv c' st') /\
    exists th th', threads c !! i = Some th /\ killed th = false /\ over th = false /\ killed th' = false /\
      (forall ch, polls th' ch = polls th ch) /\ threads c' = <[i := th']> (threads c).
Proof using L Hlen Hskip Hdata.
  intros V Hstep. simpl in Hstep. destruct (threads c !! i) as [th|] eqn:Hi; [|done]. simpl in Hstep.
  destruct (killed th) eqn:Hk; [done|]. destruct (over th) eqn:Ho; [done|]. simpl in Hstep.
  destruct (at_lock th && locked (wd c)) eqn:Hl; [done|]. injection Hstep as <-.
  pose proof (inv_enabled c st i th V Hi Hk Hl) as He.
  pose proof (step_ok cfg ids addr Hlen Hskip Hdata (wd c) st th He Ho) as Hs. unfold steps_ok, swp in Hs.
  destruct (thread_step cfg th (wd c)) as [th' w'|w'|]; [|done|done]. split; [done|]. intros c' [= <-] Hno.
  destruct Hs as [st' M]. { apply Hno. simpl. apply (list_elem_of_lookup_2 _ i), list_lookup_insert_eq. by eapply lookup_lt_Some. }
  split; [done|]. split; [done|]. split; [exists st'; by eapply inv_moved|]. exists th, th'. do 3 (split; [done|]).
  split; [rewrite (mv_killed _ _ _ _ _ _ _ _ _ M); done|]. split; [apply M|done].
Qed.

(** main, which takes or releases the mutex, or does nothing that a thread notices *)
Lemma local_quiet w st w' st' th : local cfg addr w st th -> quiet w st w' st' ->
  (in_cs th = true -> locked w' = true) -> local cfg addr w' st' th /\ my_ops st' th = my_ops st th.
Proof using Type.
  intros [L1 L2 L3 L4 L5 L6 L7 L8 L9 L10] [Q1 Q2 Q3 Q4 Q5 Q6 Q7 Q8 Q9 Q10] Hcs.
  assert (Er : forall ch, rx_slot st' ch = rx_slot st ch) by (intros ch; unfold rx_slot; by rewrite Q5).
  assert (Emy : my_ops st' th = my_ops st th).
  { unfold my_ops, slot_op. destruct (who th); [done|]. by rewrite Er. }
  split; [|done]. split; rewrite ?Emy, ?Q7; try done.
  - intros ch b l i o Hf. unfold tx_live. rewrite Q6. by eapply L3.
  - intros ch pc Ew. rewrite Er. by apply L4.
  - intros o Ho. unfold rx_live. rewrite Q6. by apply L5.
  - intros ch pc o Ew Hs. rewrite Er, Q6. by apply L6.
Qed.

Lemma inv_main c st w' st' pc' : inv c st -> quiet (wd c) st w' st' ->
  (forall i th, threads c !! i = Some th -> in_cs th = true -> locked w' = true) ->
  let c' := mk_conf w' (threads c) pc' (lost c) (lost_items c) in
  (main_cs c' = true -> locked w' = true /\ forall i th, threads c !! i = Some th -> in_cs th = false) ->
  (locked w' = true -> main_cs c' = true \/ exists i th, threads c !! i = Some th /\ in_cs th = true) ->
  inv c' st'.
Proof using Hlen addr base cfg ids js.
  intros [V1 V2 V3 V4 V5 V6 V7 V8 V9 V10 V11] Q Hcs c' Hm Hlk. subst c'.
  pose proof Q as [Q1 Q2 Q3 Q4 Q5 Q6 Q7 Q8 Q9 Q10].
  assert (Hmy : forall i th, threads c !! i = Some th -> my_ops st' th = my_ops st th).
  { intros i th Hi. by apply (local_quiet (wd c) st w' st' th (V2 i th Hi) Q (Hcs i th Hi)). }
  destruct V1 as [W1 W2 W3 W4 W5 W6 W7]. split; simpl; try done.
  - split; try congruence; intros k Hk; rewrite ?Q6, ?Q7; [apply W6|apply W7]; lia.
  - intros i th Hi. by apply (local_quiet (wd c) st w' st' th (V2 i th Hi) Q (Hcs i th Hi)).
  - intros i j a b Hi Hj Hne. destruct (V3 i j a b Hi Hj Hne) as [P1 P2 P3 P4].
    split; try done. by rewrite (Hmy i a Hi), (Hmy j b Hj).
  - intros ch o Hch. unfold tx_slot. rewrite Q4. intros Ho. destruct (V6 ch o Hch Ho) as ([b Hb] & H2 & H3).
    split; [exists b; unfold tx_live; by rewrite Q6|]. split; [done|]. intros i th Hi. rewrite (Hmy i th Hi). by apply (H3 i).
  - intros ch Hch Hno. unfold rx_slot. rewrite Q5. by apply V7.
  - intros k. rewrite Q6. intros Hk. destruct (V8 k Hk) as [?|(i & th & Hi & Hin)]; [by left|right].
    exists i, th. by rewrite (Hmy i th Hi).
  - rewrite Q9. done.
Qed.

(** a network thread is cancelled *)
Lemma inv_kill c st i th : inv c st -> threads c !! i = Some th -> is_poller th = false -> killable th = true ->
  killed th = false ->
  inv (mk_conf (wd c) (<[i := mk_thread None (who th) true (submitted th)]> (threads c)) (mpc c)
         (frame_op th ++ lost c) (frame_item th ++ lost_items c)) st.
Proof using Type.
  intros V Hi Hp Hk Hkd. pose proof V as [V1 V2 V3 V4 V5 V6 V7 V8 V9 V10 V11].
  destruct (who th) as [l|ch pc] eqn:Ew; [|unfold is_poller in Hp; by rewrite Ew in Hp].
  set (th' := mk_thread None (CNet l) true (submitted th)).
  assert (Hcs : in_cs th = false).
  { unfold in_cs, killable in *. destruct (frame th) as [[[c0 b] [| |[]| |]]|]; try done. by rewrite Ew. }
  assert (Hmy : my_ops st th = frame_op th).
  { unfold my_ops, fresh_op, slot_op. rewrite Ew. by rewrite !app_nil_r. }
  assert (Hcases : forall j a, <[i := th']> (threads c) !! j = Some a ->
    j = i /\ a = th' \/ j <> i /\ threads c !! j = Some a).
  { intros j a. rewrite list_lookup_insert_Some. intros [(<- & <- & _)|[Hne Hj]]; [by left|right; split; [congruence|done]]. }
  split; simpl; try done.
  - intros j a [[-> ->]|[Hne Hj]]%Hcases; [|by apply (V2 j)]. split; try done.
    + intros o Hin. by apply elem_of_nil in Hin.
    + constructor.
    + split; [constructor|]. intros k Hin. by apply elem_of_nil in Hin.
  - intros j k a b [[-> ->]|[Hne Hj]]%Hcases [[-> ->]|[Hne' Hk']]%Hcases Hjk; try done.
    + split; try done; intros x Hin; by apply elem_of_nil in Hin.
    + split; try done; [intros x _ Hin; by apply elem_of_nil in Hin|intros x _ Hin; by apply elem_of_nil in Hin].
    + by apply (V3 j k).
  - intros Hm. destruct (V4 Hm) as [Hl Hno]. split; [done|]. intros j a [[-> ->]|[Hne Hj]]%Hcases; [done|by apply (Hno j)].
  - intros Hl. destruct (V5 Hl) as [?|(j & a & Hj & Ha)]; [by left|right]. exists j, a. split; [|done].
    rewrite list_lookup_insert_ne; [done|]. intros <-. simplify_eq. congruence.
  - intros ch o Hch Ho. destruct (V6 ch o Hch Ho) as (H1 & H2 & H3). do 2 (split; [done|]).
    intros j a [[-> ->]|[Hne Hj]]%Hcases Hin; [by apply elem_of_nil in Hin|by apply (H3 j)].
  - intros ch Hch Hno. apply V7; [done|]. intros j a Hj. destruct (decide (j = i)) as [->|Hne].
    + simplify_eq. unfold polls. by rewrite Ew.
    + apply (Hno j). rewrite list_lookup_insert_ne; [done|congruence].
  - intros k Hk'. rewrite elem_of_app. destruct (V8 k Hk') as [?|(j & a & Hj & Hin)]; [by left; right|].
    destruct (decide (j = i)) as [->|Hne].
    + simplify_eq. left. left. by rewrite <- Hmy.
    + right. exists j, a. split; [|done]. rewrite list_lookup_insert_ne; [done|congruence].
  - destruct V9 as (h & Hh & Hs). exists h. split; [done|]. intros j a [[-> ->]|[Hne Hj]]%Hcases; [by apply (Hs i th)|by apply Hs].
  - intros j a l0 [[-> ->]|[Hne Hj]]%Hcases Hl0; [|by apply (V10 j)].
    destruct (V10 i th l0 Hi Hl0) as (l1 & El & Hj). rewrite Hkd in Hj. exists l. split; [done|]. simpl.
    rewrite <- Hj. by apply prefix_app_r.
Qed.

(** ** The shutdown *)

Definition past_kill (pc : main_pc) : bool := match pc with MnRun | MnKill => false | _ => true end.
Definition past_join (pc : main_pc) : bool := match pc with MnDispose | MnRelease | MnEnd => true | _ => false end.

(** how far main has come, and what that means for the threads *)
Record stage (c : conf) : Prop := {
  sg_net : past_kill (mpc c) = true -> forall i th, threads c !! i = Some th -> is_poller th || killed th = true;
  sg_poll : past_join (mpc c) = true -> forall i th, threads c !! i = Some th -> negb (is_poller th) || over th = true;
  sg_cancel : forall ch, mpc c = MnCancel ch -> chan_ok ch;
  sg_chan : forall i th ch, threads c !! i = Some th -> polls th ch = true -> ch = 0 \/ enable_monitor cfg = true
}.

Lemma polls_poller th th' : (forall ch, polls th' ch = polls th ch) -> is_poller th' = is_poller th.
Proof using Type.
  intros H. unfold is_poller, polls in *. destruct (who th) as [|c pc], (who th') as [|c' pc']; try done.
  - specialize (H c'). by rewrite bool_decide_eq_true_2 in H.
  - specialize (H c). by rewrite (bool_decide_eq_true_2 (c = c)) in H.
Qed.

Lemma stage_thread c c' i th th' : stage c -> threads c !! i = Some th -> killed th = false -> over th = false ->
  (forall ch, polls th' ch = polls th ch) -> mpc c' = mpc c -> threads c' = <[i := th']> (threads c) -> stage c'.
Proof using Type.
  intros [S1 S2 S3 S4] Hi Hk Ho Hp Em Et.
  assert (Hcases : forall j a, threads c' !! j = Some a -> j = i /\ a = th' \/ threads c !! j = Some a).
  { intros j a. rewrite Et, list_lookup_insert_Some. intros [(<- & <- & _)|[Hne Hj]]; [by left|by right]. }
  split; rewrite ?Em; try done.
  - intros Hk' j a [[-> ->]|Hj]%Hcases; [|by apply (S1 Hk' j)]. specialize (S1 Hk' i th Hi).
    rewrite Hk, orb_false_r in S1. by rewrite (polls_poller _ _ Hp), S1.
  - intros Hj' j a [[-> ->]|Hj]%Hcases; [|by apply (S2 Hj' j)]. exfalso. specialize (S2 Hj' i th Hi).
    rewrite Ho, orb_false_r in S2. apply negb_true_iff in S2.
    assert (Hpk : past_kill (mpc c) = true) by (by destruct (mpc c)).
    specialize (S1 Hpk i th Hi). by rewrite S2, Hk in S1.
  - intros j a ch [[-> ->]|Hj]%Hcases; [rewrite Hp|]; eauto.
Qed.

Lemma stage_kill c i th : stage c -> mpc c = MnKill -> threads c !! i = Some th ->
  stage (mk_conf (wd c) (<[i := mk_thread None (who th) true (submitted th)]> (threads c)) MnKill
           (frame_op th ++ lost c) (frame_item th ++ lost_items c)).
Proof using Type.
  intros [S1 S2 S3 S4] Em Hi. split; simpl; try done.
  intros j a ch. rewrite list_lookup_insert_Some. intros [(<- & <- & _)|[Hne Hj]]; [|by eauto].
  intros Hp. by apply (S4 i th).
Qed.

(** nothing that the bridge holds is left but what cancelled threads held *)
Definition clean (c : conf) : Prop :=
  locked (wd c) = false /\ forall k x, ops (wd c) !! k = Some x -> op_freed x = true \/ k ∈ lost c.

Definition told (c : conf) : Prop :=
  exists h, sends (slog (wd c)) = base ++ on_link ids addr h /\
    forall i l, js !! i = Some l -> of_thread i h `prefix_of` packets l.

Definition cinv (c : conf) : Prop :=
  stage c /\ told c /\ length (threads c) = length (threads (conc_start cfg (wd c) js)) /\
  match mpc c with
  | MnRelease => (exists st, spw (wd c) = Some st /\ spw_chan_id st = ids) /\ clean c
  | MnEnd => spw (wd c) = None /\ clean c
  | _ => exists st, inv c st
  end.

Lemma inv_told c st : inv c st -> length (threads c) = length (threads (conc_start cfg (wd c) js)) -> told c.
Proof using Hlen addr base cfg ids js.
  intros V Hl. destruct (iv_log _ _ _ _ _ _ _ V) as (h & Hh & Hs). exists h. split; [done|]. intros i l Hi.
  assert (Hlt : (i < length (threads c))%nat).
  { rewrite Hl. unfold conc_start. simpl. rewrite length_app, length_map. apply lookup_lt_Some in Hi. lia. }
  destruct (lookup_lt_is_Some_2 _ _ Hlt) as [th Hth]. rewrite <- (Hs i th Hth).
  destruct (iv_jobs _ _ _ _ _ _ _ V i th l Hth Hi) as (l1 & _ & Hj). destruct (killed th); [done|].
  rewrite <- Hj. by apply prefix_app_r.
Qed.

(** at the end no thread makes a step *)
Lemma ended_step c i : stage c -> past_join (mpc c) = true -> conc_step cfg (EThread i) c = None.
Proof using Type.
  intros [S1 S2 S3 S4] Hp. simpl. destruct (threads c !! i) as [th|] eqn:Hi; [|done]. simpl.
  assert (Hk : past_kill (mpc c) = true) by (by destruct (mpc c)).
  specialize (S1 Hk i th Hi). specialize (S2 Hp i th Hi).
  destruct (killed th); [done|]. rewrite orb_false_r in S1. rewrite S1 in S2. simpl in S2. by rewrite S2.
Qed.

(** the operation in a slot is its thread's, unless that is inside the mutex *)
Lemma slot_owner c st ch o : inv c st -> chan_ok ch -> (forall i th, threads c !! i = Some th -> in_cs th = false) ->
  rx_slot st ch = Some o -> exists i th, threads c !! i = Some th /\ polls th ch = true /\ o ∈ my_ops st th /\
    exists fr, ops (wd c) !! o = Some (mk_op RxOp fr).
Proof using Type.
  intros V Hch Hcs Ho. destruct (decide (Exists (fun th => polls th ch = true) (threads c))) as [He|Hn].
  - apply Exists_exists in He as (th & Hin & Hp). apply list_elem_of_lookup_1 in Hin as [i Hi].
    exists i, th. do 2 (split; [done|]). specialize (Hcs i th Hi).
    unfold polls in Hp. destruct (who th) as [|c' pc] eqn:Ew; [done|]. apply bool_decide_eq_true in Hp as ->.
    pose proof (iv_local _ _ _ _ _ _ _ V i th Hi) as Lth.
    assert (Hst : storing th = false).
    { unfold storing. rewrite Ew. destruct pc; try done. unfold in_cs in Hcs. rewrite Ew in Hcs.
      destruct (frame th) eqn:Ef; [|done]. destruct (lc_poll _ _ _ _ _ Lth _ _ Ew) as (_ & _ & H & _). rewrite Ef in H.
      by destruct (H ltac:(done)) as (buf & d & ?). }
    split.
    + unfold my_ops, slot_op. unfold storing in Hst. rewrite Ew in *. rewrite !elem_of_app. right. right.
      destruct pc; rewrite ?Ho; try done; by apply list_elem_of_singleton.
    + destruct (lc_slot _ _ _ _ _ Lth ch pc o Ew Hst Ho) as (fr & E & _). by exists fr.
  - exfalso. rewrite (iv_norx _ _ _ _ _ _ _ V ch Hch) in Ho; [done|]. intros i th Hi.
    destruct (polls th ch) eqn:E; [|done]. exfalso. apply Hn, Exists_exists. exists th. split; [|done].
    by eapply list_elem_of_lookup_2.
Qed.

Lemma cancel_run c st ch : inv c st -> main_cs c = true -> chan_ok ch ->
  exists l, cancel_rx ch (wd c) = SRet () (sw_log (wd c) l) /\ sends (slog (wd c) ++ l) = sends (slog (wd c)) /\
    forall o, rx_slot st ch = Some o -> SCancel o ∈ l.
Proof using Type.
  intros V Hm Hch. destruct (iv_main _ _ _ _ _ _ _ V Hm) as [_ Hcs]. pose proof (iv_wired _ _ _ _ _ _ _ V) as W.
  unfold cancel_rx, mbind, SM_bind, get_spw. rewrite (wi_spw _ _ _ _ W).
  destruct (slot_run (rx_op st) ch (wd c) (wi_rx _ _ _ _ W) Hch) as (o & Hx & ->).
  unfold rx_slot. rewrite Hx. simpl.
  destruct o as [o|]; [|exists []; rewrite app_nil_r; split; [by rewrite sw_log_nil|done]].
  destruct (slot_owner c st ch o V Hch Hcs) as (_ & _ & _ & _ & _ & fr & E); [by unfold rx_slot; rewrite Hx|].
  unfold star_known. rewrite E. exists [SCancel o]. split; [done|]. split; [by apply sends_snoc|].
  intros o' [= ->]. by apply list_elem_of_singleton.
Qed.

Lemma stage_main c w' pc' : stage c ->
  (past_kill pc' = true -> past_kill (mpc c) = true \/
     forall i th, threads c !! i = Some th -> is_poller th || killed th = true) ->
  (past_join pc' = true -> past_join (mpc c) = true \/
     forall i th, threads c !! i = Some th -> negb (is_poller th) || over th = true) ->
  (forall ch, pc' = MnCancel ch -> chan_ok ch) ->
  stage (mk_conf w' (threads c) pc' (lost c) (lost_items c)).
Proof using Type.
  intros [S1 S2 S3 S4] H1 H2 H3. split; simpl; try done.
  - intros Hp. destruct (H1 Hp); [by apply S1|done].
  - intros Hp. destruct (H2 Hp); [by apply S2|done].
Qed.

(** nobody has the mutex when all threads have ended *)
Lemma ended_unlocked c st : inv c st -> stage c -> past_join (mpc c) = true -> locked (wd c) = false.
Proof using Type.
  intros V [S1 S2 _ _] Hp. destruct (locked (wd c)) eqn:El; [|done]. exfalso.
  assert (Hk : past_kill (mpc c) = true) by (by destruct (mpc c)).
  destruct (iv_locked _ _ _ _ _ _ _ V El) as [Hm|(i & th & Hi & Hc)].
  - unfold main_cs in Hm. by destruct (mpc c).
  - specialize (S1 Hk i th Hi). specialize (S2 Hp i th Hi). pose proof (iv_local _ _ _ _ _ _ _ V i th Hi) as Lth.
    unfold is_poller in *. destruct (who th) as [l|ch pc] eqn:Ew.
    + simpl in S1. pose proof (lc_killed _ _ _ _ _ Lth S1) as Ef. unfold in_cs in Hc. by rewrite Ef, Ew in Hc.
    + simpl in S2. unfold over in S2. unfold in_cs in Hc. rewrite Ew in *. destruct (frame th); [done|]. by destruct pc.
Qed.

(** in that state the slots hold different operations, which exist *)
Lemma ended_known c st : inv c st -> stage c -> past_join (mpc c) = true -> known (in_use cfg st) (wd c).
Proof using Type.
  intros V S Hp. pose proof (ended_unlocked c st V S Hp) as Hl.
  assert (Hcs : forall i th, threads c !! i = Some th -> in_cs th = false).
  { intros i th Hi. destruct (in_cs th) eqn:E; [|done]. rewrite (lc_cs _ _ _ _ _ (iv_local _ _ _ _ _ _ _ V i th Hi) E) in Hl. done. }
  assert (Hrx : forall ch o, chan_ok ch -> rx_slot st ch = Some o -> exists fr, ops (wd c) !! o = Some (mk_op RxOp fr)).
  { intros ch o Hch Ho. by destruct (slot_owner c st ch o V Hch Hcs Ho) as (_ & _ & _ & _ & _ & H). }
  assert (Htx : forall ch o, chan_ok ch -> tx_slot st ch = Some o -> exists b, ops (wd c) !! o = Some (mk_op (TxOp addr b) false)).
  { intros ch o Hch Ho. by destruct (iv_tx _ _ _ _ _ _ _ V ch o Hch Ho) as (H & _). }
  assert (Hne : forall o, rx_slot st 0 = Some o -> rx_slot st 1 <> Some o).
  { intros o H0 H1.
    destruct (slot_owner c st 0 o V ltac:(by left) Hcs H0) as (i & a & Hi & Ha & Ha' & _).
    destruct (slot_owner c st 1 o V ltac:(by right) Hcs H1) as (j & b & Hj & Hb & Hb' & _).
    destruct (decide (i = j)) as [->|Hij].
    - rewrite Hi in Hj. injection Hj as <-. unfold polls in *. destruct (who a) as [|c' pc]; [done|]. apply bool_decide_eq_true in Ha, Hb. congruence.
    - by apply (ap_ops _ _ _ (iv_apart _ _ _ _ _ _ _ V i j a b Hi Hj Hij) o). }
  assert (Hne' : forall o, tx_slot st 0 = Some o -> tx_slot st 1 <> Some o).
  { intros o Ho. by destruct (iv_tx _ _ _ _ _ _ _ V 0 o ltac:(by left) Ho) as (_ & H & _). }
  assert (Hdiff : forall ch ch' o, chan_ok ch -> chan_ok ch' -> rx_slot st ch = Some o -> tx_slot st ch' <> Some o).
  { intros ch ch' o H1 H2 Hr Ht. destruct (Hrx ch o H1 Hr) as [fr E]. destruct (Htx ch' o H2 Ht) as [b E']. congruence. }
  pose proof (iv_wired _ _ _ _ _ _ _ V) as W. pose proof (wi_tx _ _ _ _ W) as Lt. pose proof (wi_rx _ _ _ _ W) as Lr.
  unfold in_use, used, nchans, tx_slot, rx_slot in *.
  destruct (rx_op st) as [|r0 [|r1 [|]]]; try done. destruct (tx_op st) as [|t0 [|t1 [|]]]; try done.
  assert (C0 : chan_ok 0) by (by left). assert (C1 : chan_ok 1) by (by right).
  pose proof (Hrx 0) as R0. pose proof (Hrx 1) as R1. pose proof (Htx 0) as T0. pose proof (Htx 1) as T1.
  pose proof (Hdiff 0 0) as D00. pose proof (Hdiff 0 1) as D01. pose proof (Hdiff 1 0) as D10. pose proof (Hdiff 1 1) as D11.
  simpl in *. split.
  - destruct (enable_monitor cfg); simpl; destruct r0, t0; simpl; try (destruct r1, t1; simpl);
      repeat (apply NoDup_cons; split); try apply NoDup_nil_2;
      rewrite ?elem_of_cons, ?elem_of_nil; naive_solver.
  - intros k. destruct (enable_monitor cfg); simpl; rewrite !elem_of_cons, elem_of_nil; intros Hk;
      destruct_or? Hk; try done; subst.
    + destruct (R0 k C0 eq_refl) as [? ->]. by eexists.
    + destruct (T0 k C0 eq_refl) as [? ->]. by eexists.
    + destruct (R1 k C1 eq_refl) as [? ->]. by eexists.
    + destruct (T1 k C1 eq_refl) as [? ->]. by eexists.
    + destruct (R0 k C0 eq_refl) as [? ->]. by eexists.
    + destruct (T0 k C0 eq_refl) as [? ->]. by eexists.
Qed.

(** what is left behind [spw_dispose_ops] *)
Lemma ended_dispose c st : inv c st -> stage c -> mpc c = MnDispose ->
  exists w', spw_dispose_ops cfg (wd c) = SRet () w' /\ spw w' = Some st /\ locked w' = false /\
    slog w' = slog (wd c) /\ forall k x, ops w' !! k = Some x -> op_freed x = true \/ k ∈ lost c.
Proof using Hlen.
  intros V S Em. assert (Hp : past_join (mpc c) = true) by (by rewrite Em).
  pose proof (ended_unlocked c st V S Hp) as Hl. pose proof (ended_known c st V S Hp) as Hk.
  pose proof (iv_wired _ _ _ _ _ _ _ V) as W. destruct W as [W1 W2 W3 W4 W5 W6 W7].
  assert (R : at_rest (wd c) st) by (split; try done; by rewrite W2).
  destruct (dispose_ops_run cfg (wd c) st R Hk) as (w' & E & [D1 D2 D3 D4 D5 D6 D7 D8]).
  exists w'. split; [done|]. split; [congruence|]. split; [congruence|]. split; [done|].
  intros k x Hx. destruct (decide (Some k ∈ in_use cfg st)) as [Hin|Hin]; [left; by eapply D8|right].
  rewrite D7 in Hx by done. destruct (iv_all _ _ _ _ _ _ _ V k) as [?|(i & th & Hi & Hmy)]; [by eexists|done|].
  exfalso. apply Hin. destruct S as [S1 S2 _ S4].
  specialize (S1 ltac:(by rewrite Em) i th Hi). specialize (S2 Hp i th Hi).
  pose proof (iv_local _ _ _ _ _ _ _ V i th Hi) as Lth. unfold is_poller in S1, S2.
  destruct (who th) as [l|ch pc] eqn:Ew.
  - simpl in S1. pose proof (lc_killed _ _ _ _ _ Lth S1) as Ef. unfold my_ops, frame_op, fresh_op, slot_op in Hmy.
    rewrite Ef, Ew in Hmy. by apply elem_of_nil in Hmy.
  - simpl in S2. unfold over in S2. rewrite Ew in S2. destruct (frame th) as [[[? ?] ?]|] eqn:Ef; [done|].
    destruct pc; try done. rewrite (poller_ops_at _ _ _ _ Ef Ew) in Hmy.
    pose proof (proj1 (lc_poll _ _ _ _ _ Lth _ _ Ew)) as Hch.
    assert (Hm : ch = 0 \/ enable_monitor cfg = true).
    { apply (S4 i th ch Hi). unfold polls. rewrite Ew. by apply bool_decide_eq_true_2. }
    destruct (rx_slot st ch) as [o|] eqn:Eo; [|by apply elem_of_nil in Hmy]. apply list_elem_of_singleton in Hmy as ->.
    unfold in_use, used, nchans, rx_slot in *. destruct (rx_op st) as [|r0 [|r1 [|]]]; try done.
    destruct (tx_op st) as [|t0 [|t1 [|]]]; try done.
    destruct Hch as [-> | ->]; simpl in Eo; subst.
    + destruct (enable_monitor cfg); simpl; by left.
    + destruct Hm as [?| ->]; [done|]. simpl. rewrite !elem_of_cons. auto.
Qed.

(** main goes on, and the invariant stays *)
Lemma cinv_main c st w' st' pc' : cinv c -> inv c st -> quiet (wd c) st w' st' ->
  (forall i th, threads c !! i = Some th -> in_cs th = true -> locked w' = true) ->
  let c' := mk_conf w' (threads c) pc' (lost c) (lost_items c) in
  (main_cs c' = true -> locked w' = true /\ forall i th, threads c !! i = Some th -> in_cs th = false) ->
  (locked w' = true -> main_cs c' = true \/ exists i th, threads c !! i = Some th /\ in_cs th = true) ->
  match pc' with MnRelease | MnEnd => False | _ => True end -> stage c' -> cinv c'.
Proof using Hlen addr base cfg ids js.
  intros (S & T & Hth & H) V Q H1 c' H2 H3 H4 H5. pose proof (inv_main c st w' st' pc' V Q H1 H2 H3) as V'.
  split; [exact H5|]. split; [by eapply inv_told|]. split; [exact Hth|]. subst c'. simpl. by destruct pc'; try (by exists st').
Qed.

(** it does so without the mutex *)
Lemma cinv_main_same c st w' st' pc' : cinv c -> inv c st -> quiet (wd c) st w' st' -> locked w' = locked (wd c) ->
  let c' := mk_conf w' (threads c) pc' (lost c) (lost_items c) in
  main_cs c' = main_cs c -> match pc' with MnRelease | MnEnd => False | _ => True end -> stage c' -> cinv c'.
Proof using Hlen addr base cfg ids js.
  intros H V Q El c' Em Hpc S. apply (cinv_main c st w' st'); try done.
  - intros i th Hi Hc. rewrite El. by apply (lc_cs _ _ _ _ _ (iv_local _ _ _ _ _ _ _ V i th Hi)).
  - intros Hm. rewrite El. apply (iv_main _ _ _ _ _ _ _ V). rewrite <- Em. exact Hm.
  - rewrite El. intros Hl. destruct (iv_locked _ _ _ _ _ _ _ V Hl) as [Hm|?]; [left|by right].
    rewrite <- Em in Hm. exact Hm.
Qed.

Lemma waits_forall (f : thread -> bool) l : negb (forallb f l) = false -> forall i th, l !! i = Some th -> f th = true.
Proof using Type.
  intros H i th Hi. apply negb_false_iff in H. rewrite forallb_forall in H. apply H, list_elem_of_In.
  by eapply list_elem_of_lookup_2.
Qed.

Lemma each_chan_say (f : Z -> sact) w : (forall ch, match f ch with STx _ _ _ => False | _ => True end) ->
  exists l, each_chan cfg (fun ch => say (f ch)) w = SRet () (sw_log w l) /\ sends (slog w ++ l) = sends (slog w).
Proof using Type.
  intros H. unfold each_chan, mbind, SM_bind, say. destruct (enable_monitor cfg).
  - exists [f 0; f 1]. split; [by rewrite sw_log_app|]. change [f 0; f 1] with ([f 0] ++ [f 1]).
    rewrite app_assoc, sends_snoc by apply H. apply sends_snoc, H.
  - exists [f 0]. split; [done|]. apply sends_snoc, H.
Qed.

Lemma request_quiet w st : wired ids addr w st -> net_ok (snet w) ->
  exists w', spw_request_shutdown w = SRet () w' /\ quiet w st w' (with_shutdown st true) /\ locked w' = locked w.
Proof using Type.
  intros [W1 W2 W3 W4 W5 W6 W7] N. unfold spw_request_shutdown, mbind, SM_bind, get_spw. rewrite W1.
  eexists. split; [reflexivity|]. split; [|done]. by split.
Qed.

Lemma log_quiet w st l : wired ids addr w st -> net_ok (snet w) -> sends (slog w ++ l) = sends (slog w) ->
  quiet w st (sw_log w l) st.
Proof using Type. intros [W1 W2 W3 W4 W5 W6 W7] N E. by split. Qed.

Ltac same_stage S := apply stage_main; [exact S|..]; simpl; try done; try (by left); try (intros ? [= <-]; (by left + by right)).

Lemma main_event c out : cinv c -> conc_step cfg EMain c = Some out ->
  out <> Broken /\ forall c', out = Next c' -> cinv c'.
Proof using Hlen.
  intros C Hstep. unfold conc_step in Hstep. destruct (main_waits c) eqn:Hw; [done|].
  injection Hstep as <-. unfold main_waits in Hw. pose proof C as (S & T & Hth & H).
  assert (E : exists pc' w', main_step cfg (mpc c) (wd c) = SRet pc' w' /\
    cinv (mk_conf w' (threads c) pc' (lost c) (lost_items c))).
  2: { destruct E as (pc' & w' & E & C'). rewrite E. split; [done|]. by intros c' [= <-]. }
  destruct (mpc c) eqn:Em.
  - destruct H as [st V]. destruct (request_quiet _ _ (iv_wired _ _ _ _ _ _ _ V) (iv_net _ _ _ _ _ _ _ V)) as (w' & E & Q & El).
    exists MnKill, w'. unfold main_step. rewrite (sbind_run _ _ _ _ _ E). split; [done|].
    eapply cinv_main_same; [exact C|exact V|exact Q|exact El|unfold main_cs; by rewrite Em|done|same_stage S].
  - destruct H as [st V]. exists MnStop, (wd c). split; [done|]. pose proof (iv_wired _ _ _ _ _ _ _ V) as W.
    assert (Q : quiet (wd c) st (wd c) st) by (destruct W; split; try done; apply V).
    eapply cinv_main_same; [exact C|exact V|exact Q|done|unfold main_cs; by rewrite Em|done|].
    apply stage_main; [exact S| |done|done]. intros _. right. by apply waits_forall.
  - destruct H as [st V]. destruct (request_quiet _ _ (iv_wired _ _ _ _ _ _ _ V) (iv_net _ _ _ _ _ _ _ V)) as (w' & E & Q & El).
    exists MnLock, w'. unfold main_step. rewrite (sbind_run _ _ _ _ _ E). split; [done|].
    eapply cinv_main_same; [exact C|exact V|exact Q|exact El|unfold main_cs; by rewrite Em|done|].
    same_stage S. rewrite Em. by left.
  - destruct H as [st V]. exists (MnCancel 0), (sw_lock (wd c) true). unfold main_step, mbind, SM_bind, op_lock. rewrite Hw.
    split; [done|]. pose proof (iv_wired _ _ _ _ _ _ _ V) as W.
    assert (Hcs : forall i th, threads c !! i = Some th -> in_cs th = false).
    { intros i th Hi. destruct (in_cs th) eqn:Ec; [|done].
      rewrite (lc_cs _ _ _ _ _ (iv_local _ _ _ _ _ _ _ V i th Hi) Ec) in Hw. done. }
    eapply cinv_main; [exact C|exact V| |done|done|by left|done|].
    + destruct W; split; try done; apply V.
    + same_stage S. rewrite Em. by left.
  - destruct H as [st V]. assert (Hm : main_cs c = true) by (unfold main_cs; by rewrite Em).
    destruct (cancel_run c st chan V Hm (sg_cancel _ S chan Em)) as (l & E & Es & _).
    eexists _, (sw_log (wd c) l). unfold main_step. rewrite (sbind_run _ _ _ _ _ E). split; [reflexivity|].
    eapply cinv_main_same; [exact C|exact V|exact (log_quiet _ _ l (iv_wired _ _ _ _ _ _ _ V) (iv_net _ _ _ _ _ _ _ V) Es)|done| | |].
    + unfold main_cs. rewrite Em. simpl. by destruct (_ && _).
    + by destruct (_ && _).
    + apply stage_main; [exact S|rewrite Em; by left|by destruct (_ && _)|].
      destruct (_ && _); intros ch [= <-]. by right.
  - destruct H as [st V]. assert (Hm : main_cs c = true) by (unfold main_cs; by rewrite Em).
    destruct (iv_main _ _ _ _ _ _ _ V Hm) as [Hl Hcs]. exists MnJoin, (sw_lock (wd c) false).
    unfold main_step, mbind, SM_bind, op_unlock. rewrite Hl. split; [done|]. pose proof (iv_wired _ _ _ _ _ _ _ V) as W.
    eapply cinv_main; [exact C|exact V| | |done|done|done|].
    + destruct W; split; try done; apply V.
    + intros i th Hi. by rewrite (Hcs i th Hi).
    + same_stage S. rewrite Em. by left.
  - destruct H as [st V]. destruct (each_chan_say SJoin (wd c)) as (l & E & Es); [done|].
    exists MnDispose, (sw_log (wd c) l). unfold main_step. rewrite (sbind_run _ _ _ _ _ E). split; [done|].
    eapply cinv_main_same; [exact C|exact V|exact (log_quiet _ _ l (iv_wired _ _ _ _ _ _ _ V) (iv_net _ _ _ _ _ _ _ V) Es)|done|unfold main_cs; by rewrite Em|done|].
    apply stage_main; [exact S| | |done]; intros _; [left; by rewrite Em|right; by apply waits_forall].
  - destruct H as [st V]. destruct (ended_dispose c st V S Em) as (w' & E & E1 & E2 & E3 & E4).
    exists MnRelease, w'. unfold main_step. rewrite (sbind_run _ _ _ _ _ E). split; [done|].
    split; [|split; [|split; [exact Hth|]]]; simpl.
    + same_stage S; rewrite Em; by left.
    + destruct T as (h & Hh & Hp). exists h. simpl. by rewrite E3.
    + split; [|by split]. exists st. split; [done|]. apply V.
  - destruct H as [(st & E1 & E2) [Hl Hc]].
    assert (Hids : length (spw_chan_id st) = 2%nat) by (rewrite E2; exact Hlen).
    eexists MnEnd, _. unfold main_step. erewrite sbind_run by (by apply (release_run cfg (wd c) st)). split; [reflexivity|].
    split; [|split; [|split; [exact Hth|]]]; simpl.
    + same_stage S; rewrite Em; by left.
    + destruct T as (h & Hh & Hp). exists h. split; [|done]. simpl. rewrite <- Hh. unfold sends. rewrite List.filter_app.
      assert (En : List.filter (fun a => match a with STx _ _ _ => true | _ => false end) (closes (used cfg (spw_chan_id st))) = []).
      { unfold closes. generalize (List.filter c_true (used cfg (spw_chan_id st))). intros l. by induction l. }
      rewrite En, app_nil_r. by destruct (p_address st).
    + split; [done|]. split; simpl; by destruct (p_address st).
  - done.
Qed.

(** ** Reachable configurations *)

Lemma cinv_start w st : started w st -> cinv (conc_start cfg w js).
Proof using Hlen.
  intros H. pose proof (conc_start_inv w st H) as V. split; [|split; [by apply (inv_told _ st)|split; [done|by exists st]]].
  split; simpl; try done. intros i th ch Hi Hp. apply (start_lookup w) in Hi.
  unfold polls in Hp. destruct Hi as [(l & _ & ->)|[[_ ->]|(_ & Hm & ->)]]; simpl in Hp; [done| |by right].
  apply bool_decide_eq_true in Hp. by left.
Qed.

Lemma inv_net c st n : inv c st -> net_ok n ->
  inv (mk_conf (sw_net (wd c) n) (threads c) (mpc c) (lost c) (lost_items c)) st.
Proof using Hlen addr base cfg ids js.
  intros V N. pose proof (iv_wired _ _ _ _ _ _ _ V) as W. apply (inv_main c st); [done|by destruct W| | |]; simpl.
  - intros i th Hi. by apply (lc_cs _ _ _ _ _ (iv_local _ _ _ _ _ _ _ V i th Hi)).
  - apply (iv_main _ _ _ _ _ _ _ V).
  - apply (iv_locked _ _ _ _ _ _ _ V).
Qed.

Lemma cinv_inv c : cinv c -> match mpc c with MnRelease | MnEnd => False | _ => True end -> exists st, inv c st.
Proof using Type. intros (_ & _ & _ & H). by destruct (mpc c). Qed.

Lemma cinv_event c ev out : cinv c -> conc_step cfg ev c = Some out ->
  out <> Broken /\ forall c', out = Next c' -> (forall th, th ∈ threads c' -> ~ tx_cancelled th) -> cinv c'.
Proof using L Hlen Hskip Hdata.
  intros C Hstep. pose proof C as (S & T & Hth & _). destruct ev as [i|i|].
  - assert (Hpc : match mpc c with MnRelease | MnEnd => False | _ => True end).
    { destruct (mpc c) eqn:Em; try done; rewrite ended_step in Hstep; by rewrite ?Em. }
    destruct (cinv_inv c C Hpc) as [st V]. destruct (thread_event c st i out V Hstep) as [Hb Hn]. split; [done|].
    intros c' E Hc. destruct (Hn c' E Hc) as (E1 & E2 & (st' & V') & th & th' & H1 & H2 & H3 & H4 & H5 & H6).
    assert (Hth' : length (threads c') = length (threads (conc_start cfg (wd c') js))) by (by rewrite H6, length_insert).
    split; [by eapply (stage_thread c c' i th th')|]. split; [by eapply inv_told|]. split; [done|].
    rewrite E1. destruct (mpc c); try done; by exists st'.
  - simpl in Hstep. destruct (threads c !! i) as [th|] eqn:Hi; [|done]. simpl in Hstep.
    destruct (mpc c) eqn:Em; try done. destruct (negb (is_poller th) && negb (killed th) && killable th) eqn:Eb; [|done].
    apply andb_true_iff in Eb as [[Hp%negb_true_iff Hk%negb_true_iff]%andb_true_iff Hkb]. injection Hstep as <-.
    split; [done|]. intros c' [= <-] _. destruct (cinv_inv c C ltac:(by rewrite Em)) as [st V].
    pose proof (inv_kill c st i th V Hi Hp Hkb Hk) as V'. rewrite Em in V'.
    split; [by apply stage_kill|]. split; [eapply inv_told; [exact V'|simpl; by rewrite length_insert]|].
    split; [simpl; by rewrite length_insert|]. by exists st.
  - destruct (main_event c out C Hstep) as [Hb Hn]. split; [done|]. intros c' E _. by apply Hn.
Qed.

Lemma reachable_cinv w st c : started w st -> reachable cfg net_ok (conc_start cfg w js) c -> cinv c.
Proof using L Hlen Hskip Hdata.
  intros Hw. induction 1 as [|ev c c' _ IH Hstep Hno|c n _ IH Hn]; [by eapply cinv_start|by eapply cinv_event|].
  destruct IH as ([S1 S2 S3 S4] & T & Hth & H). split; [by split|]. split; [done|]. split; [done|]. simpl.
  destruct (mpc c) eqn:Em; try done;
    (destruct H as [st' V]; exists st'; pose proof (inv_net c st' n V Hn) as V'; by rewrite Em in V').
Qed.

(** a thread that is inside the mutex goes on *)
Lemma in_cs_steps c st i th : inv c st -> threads c !! i = Some th -> in_cs th = true ->
  exists out, conc_step cfg (EThread i) c = Some out.
Proof using Type.
  intros V Hi Hc. simpl. rewrite Hi. simpl. pose proof (iv_local _ _ _ _ _ _ _ V i th Hi) as Lth.
  assert (Hn : killed th = false /\ over th = false /\ at_lock th = false).
  { unfold in_cs in Hc. destruct (killed th) eqn:Ek.
    - rewrite (lc_killed _ _ _ _ _ Lth Ek) in Hc. destruct (who th) as [|ch pc] eqn:Ew; [done|].
      destruct (lc_poll _ _ _ _ _ Lth _ _ Ew) as (_ & E & _). congruence.
    - unfold over, at_lock. destruct (frame th) as [[[? ?] [| |[] | |]]|]; try done.
      by destruct (who th) as [|ch []]. }
  destruct Hn as (-> & -> & ->). by eexists.
Qed.

(** what main waits for: a thread inside the mutex, a network thread that is not
    cancelled, a polling thread that has not returned *)
Definition delays (c : conf) (th : thread) : bool :=
  in_cs th ||
  match mpc c with
  | MnKill => negb (is_poller th || killed th)
  | MnJoin => is_poller th && negb (over th)
  | _ => false
  end.

(** such a thread can take a step, or can be cancelled, whatever the device does *)
Definition delayer_steps (c : conf) : Prop :=
  exists i th, threads c !! i = Some th /\ delays c th = true /\
    exists ev out, (ev = EThread i \/ ev = EKill i) /\ conc_step cfg ev c = Some out /\ ~ needs_device ev c.

(** the channels whose receive operation [spw_stop_poll] has got to *)
Definition told_chan (pc : main_pc) (ch : Z) : bool :=
  match pc with MnCancel c => (c =? 1) && (ch =? 0) | MnUnlock | MnJoin => true | _ => false end.

(** the polling threads of these channels do not wait for the device any more *)
Definition woken (c : conf) : Prop := forall i th ch o, threads c !! i = Some th ->
  who th = CPoll ch (RxWait o) -> told_chan (mpc c) ch = true -> SCancel o ∈ slog (wd c).

Lemma holder_steps c st i th : inv c st -> threads c !! i = Some th -> in_cs th = true -> delayer_steps c.
Proof using Type.
  intros V Hi Hc. destruct (in_cs_steps c st i th V Hi Hc) as [out E].
  exists i, th. split; [done|]. split; [unfold delays; by rewrite Hc|]. exists (EThread i), out. split; [by left|].
  split; [done|]. intros (j & th1 & ch & o & [= <-] & Hi1 & Hf & Hw & _). assert (th1 = th) as -> by congruence.
  unfold in_cs in Hc. by rewrite Hf, Hw in Hc.
Qed.

(** a thread that has not ended goes on, or the one inside the mutex does, or main is *)
Lemma thread_steps c st i th : inv c st -> threads c !! i = Some th -> killed th = false -> over th = false ->
  main_cs c = false -> delays c th = true -> ~ needs_device (EThread i) c -> delayer_steps c.
Proof using Type.
  intros V Hi Hk Ho Hm Hd Hn. destruct (at_lock th && locked (wd c)) eqn:El.
  - apply andb_true_iff in El as [_ El]. destruct (iv_locked _ _ _ _ _ _ _ V El) as [?|(j & a & Hj & Ha)]; [congruence|].
    by eapply holder_steps.
  - exists i, th. do 2 (split; [done|]). exists (EThread i). simpl. rewrite Hi. simpl. rewrite Hk, Ho, El.
    eexists. split; [by left|]. by split.
Qed.

Lemma forallb_false (f : thread -> bool) l : forallb f l = false -> exists i th, l !! i = Some th /\ f th = false.
Proof using Type.
  induction l as [|th l IH]; simpl; [done|]. destruct (f th) eqn:E; [|intros _; by exists 0%nat, th].
  intros H. destruct (IH H) as (i & a & Hi & Ha). by exists (S i), a.
Qed.

(** what keeps main waiting goes on *)
Lemma wait_steps c st : inv c st -> woken c -> main_waits c = true -> mpc c <> MnEnd -> delayer_steps c.
Proof using Type.
  intros V Hwk Hw He. unfold main_waits in Hw. destruct (mpc c) eqn:Em; try done.
  - apply negb_true_iff, forallb_false in Hw as (i & th & Hi & Hb).
    assert (Hd : delays c th = true) by (unfold delays; by rewrite Em, Hb, orb_true_r).
    apply orb_false_iff in Hb as [Hp Hk]. destruct (killable th) eqn:Ekb.
    + exists i, th. do 2 (split; [done|]). exists (EKill i). simpl. rewrite Hi. simpl. rewrite Em, Hp, Hk, Ekb.
      eexists. split; [by right|]. split; [reflexivity|]. by intros (? & ? & ? & ? & ? & _).
    + apply (thread_steps c st i th V Hi Hk); [|unfold main_cs; by rewrite Em|done|].
      * unfold over, killable in *. by destruct (frame th).
      * intros (j & th1 & ch & o & [= <-] & Hi1 & _ & Hwh & _). assert (th1 = th) as -> by congruence.
        unfold is_poller in Hp. by rewrite Hwh in Hp.
  - destruct (iv_locked _ _ _ _ _ _ _ V Hw) as [Hm|(j & a & Hj & Ha)]; [unfold main_cs in Hm; by rewrite Em in Hm|].
    by eapply holder_steps.
  - apply negb_true_iff, forallb_false in Hw as (i & th & Hi & Hb).
    apply orb_false_iff in Hb as [Hp Ho]. apply negb_false_iff in Hp.
    apply (thread_steps c st i th V Hi); [|done|unfold main_cs; by rewrite Em|unfold delays; by rewrite Em, Hp, Ho, orb_true_r|].
    + unfold is_poller in Hp. destruct (who th) as [|ch pc] eqn:Ew; [done|].
      by apply (lc_poll _ _ _ _ _ (iv_local _ _ _ _ _ _ _ V i th Hi) ch pc).
    + intros (j & th1 & ch & o & [= <-] & Hi1 & _ & Hwh & Hnot). apply Hnot. apply (Hwk i th1 ch o Hi1 Hwh).
      by rewrite Em.
Qed.
End run.
