(* ===== verification/SpwConcSpec.v ===== *)
(** * What all interleavings of the SpaceWire side promise

    The contracts of the threads of spw.c, for every order of their steps from the
    end of [spw_setup_device] to the return of [spw_release]: safety and the order of
    the submissions ([SpwConcEnd] is about the end); and two orders in which the code
    does what it does not mean to. *)

From Stdlib Require Import String List.
From stdpp Require Import base tactics option list list_numbers gmap sets.
From Stdlib Require Import ZArith Lia Bool.
From S2P Require Import Prelude.
From S2P Require Import CString.
From S2P Require Import Sys.
From S2P Require Import NetConn.
From S2P Require Import NetRecv.
From S2P Require Import Net.
From S2P Require Import NetSpec.
From S2P Require Import NetSafe.
From S2P Require Import Spw.
From S2P Require Import SpwSpec.
From S2P Require Import SpwLife.
From S2P Require Import Bridge.
From S2P Require Import SpwConc.
From S2P Require Import SpwConcInv.
From S2P Require Import SpwConcSafe.
From S2P Require Import SpwConcProps.

Local Open Scope Z_scope.

(** ** Schedules *)

Definition cancelled (th : thread) : bool :=
  match frame th with Some (_, _, SdAt (AtStatus StarCancelled) _ _) => true | _ => false end.

(** a schedule, whose events are skipped where they are not possible *)
Fixpoint conc_tries {A : Star} {K : Kernel} (cfg : bridge_cfg) (l : list event) (c : conf) : option conf :=
  match l with
  | [] => Some c
  | ev :: l =>
      match conc_step cfg ev c with
      | None => conc_tries cfg l c
      | Some (Next c') => if existsb cancelled (threads c') then None else conc_tries cfg l c'
      | Some _ => None
      end
  end.

Lemma tries_reachable {A : Star} {K : Kernel} cfg N l c0 c c' : reachable cfg N c0 c ->
  conc_tries cfg l c = Some c' -> reachable cfg N c0 c'.
Proof.
  revert c. induction l as [|ev l IH]; intros c Hr; simpl; [by intros [= <-]|].
  destruct (conc_step cfg ev c) as [[c1| |]|] eqn:Es; try done; [|by apply IH].
  destruct (existsb cancelled (threads c1)) eqn:Eb; [done|]. apply IH. eapply reach_step; [exact Hr|exact Es|].
  intros th Hin (ch & b & i & o & Ef). assert (Ht : existsb cancelled (threads c1) = true); [|congruence].
  apply existsb_exists. exists th. split; [by apply list_elem_of_In|]. unfold cancelled. by rewrite Ef.
Qed.

(** ** From [spw_setup_device] *)

(** the process behind [spw_setup_device], which had no operations before *)
Record ready (cfg : bridge_cfg) (w0 : sworld) (st : spw_state) (w : sworld) : Prop := {
  rd_set_up : set_up cfg w0 st w;
  rd_ops : ops w0 = ∅ /\ items w0 = ∅;
  rd_net : net_ok (snet w)
}.

Lemma ready_started cfg w0 st w : ready cfg w0 st w ->
  started (spw_chan_id st) (p_address st) (sends (slog w)) w st /\ length (spw_chan_id st) = 2%nat.
Proof.
  intros [[[R1 R2 R3 R4 R5 R6 R7] _ _ _ _ [N1 [N2 _]] [O1 O2] _ _] [E1 E2] Hn].
  split; [|done]. split; try done; congruence.
Qed.

Section spec.
Context {A : Star} {K : Kernel} {L : KernelLive K}.
Variable cfg : bridge_cfg.
Context (Hskip : 0 <= skip_header_bytes cfg) (Hdata : forall t, sinkable cfg (s_data t)).
Variables (js : list (list job)) (w0 : sworld) (st : spw_state) (w : sworld).

Lemma ready_cinv (Hready : ready cfg w0 st w) c : reachable cfg net_ok (conc_start cfg w js) c ->
  cinv cfg (spw_chan_id st) (p_address st) js (sends (slog w)) c.
Proof using L Hskip Hdata.
  destruct (ready_started _ _ _ _ Hready) as [Hs Hl]. by eapply reachable_cinv.
Qed.

Lemma past_inv (Hready : ready cfg w0 st w) c : reachable cfg net_ok (conc_start cfg w js) c ->
  match mpc c with MnRelease | MnEnd => False | _ => True end ->
  exists st', inv cfg (spw_chan_id st) (p_address st) js (sends (slog w)) c st'.
Proof using L Hskip Hdata. intros Hr. apply cinv_inv. by apply ready_cinv. Qed.


End spec.

(** ** Examples *)

(** two network threads, one of them with an RMAP command *)
Definition ex_jobs : list (list job) := [[JSend [1; 2]; JSend [3]]; [JRmap 9 true 16 [7]; JSend [4; 5]]].

Definition sw_fresh : sworld := mk_sw 0 None ∅ ∅ 0 false (w_ex []) [].

Definition sw_ready (mon : bool) : sworld :=
  match spw_setup_device (ex_spw_cfg mon) sw_fresh with SRet _ w => w | _ => sw_fresh end.

Definition st_ready (mon : bool) : spw_state :=
  match spw (sw_ready mon) with Some st => st | None => ex_open 0 end.

Lemma ex_ready mon : ready (ex_spw_cfg mon) sw_fresh (st_ready mon) (sw_ready mon).
Proof.
  assert (H : swp (spw_setup_device (ex_spw_cfg mon)) (fun _ => True)
    (fun _ w' => exists st, set_up (ex_spw_cfg mon) sw_fresh st w') sw_fresh).
  { apply setup_device_run; [by destruct mon|split; [done|split; [done|intros i _; apply not_elem_of_empty]]|by destruct mon]. }
  destruct (swp_returns _ _ _ _ H ltac:(destruct mon; vm_compute; reflexivity)) as ([] & w' & Hr & st & Hst).
  assert (E : sw_ready mon = w') by (unfold sw_ready; by rewrite Hr).
  unfold st_ready. rewrite E. rewrite (ar_spw _ _ (su_rest _ _ _ _ Hst)).
  split; [done|done|]. rewrite (su_net _ _ _ _ Hst). apply w_ex_ok.
Qed.

Lemma ex_sinks mon t : sinkable (ex_spw_cfg mon) (s_data t).
Proof. destruct (ex_sinkable t) as [H1 H2]. split; [done|]. by destruct mon. Qed.

(** [n] rounds in which every thread makes a step; main too in the last [k] ones *)
Definition ex_sched (n k : nat) : list event :=
  concat (repeat [EThread 0; EThread 1; EThread 2; EThread 3] n) ++
  concat (repeat [EThread 3; EThread 2; EThread 1; EThread 0; EMain; EKill 0; EKill 1] k).

Definition ex_at (mon : bool) (n k : nat) : conf :=
  let c0 := conc_start (ex_spw_cfg mon) (sw_ready mon) ex_jobs in
  match conc_tries (K := quiet_kernel) (ex_spw_cfg mon) (ex_sched n k) c0 with Some c => c | None => c0 end.

Lemma ex_at_reachable mon n k :
  reachable (K := quiet_kernel) (ex_spw_cfg mon) net_ok (conc_start (ex_spw_cfg mon) (sw_ready mon) ex_jobs) (ex_at mon n k).
Proof.
  unfold ex_at. destruct (conc_tries _ _ _) eqn:E; [|apply reach_start].
  eapply tries_reachable; [apply reach_start|exact E].
Qed.



(** ** Orders in which the code fails *)

(** [ex_star], but call [n] answers that a transfer has failed *)
Definition failing_star (n : nat) : Star := {|
  s_create := s_create; s_submit := s_submit; s_wait t := if decide (t = n) then StarOther else StarComplete;
  s_data := s_data; s_devices := s_devices; s_mask := s_mask; s_open := s_open; s_cfg := s_cfg; s_word := s_word;
  s_link := s_link; s_stop := s_stop; s_rmap_write := s_rmap_write; s_rmap_read := s_rmap_read
|}.

Definition two_senders : conf := conc_start (ex_spw_cfg false) (sw_ready false) [[JSend [1; 2]]; [JSend [3]]].

Definition thread_at (i : nat) (c : option conf) : option (option (Z * list Z * send_pc)) :=
  c ← c; th ← threads c !! i; mret (frame th).

(** [n] steps of thread [i], one pair after the other *)
Definition turns (l : list (nat * nat)) : list event := concat (map (fun '(i, n) => repeat (EThread i) n) l).

Definition ends {A : Star} {K : Kernel} (cfg : bridge_cfg) (ev : event) (c : option conf) : bool :=
  match c with
  | Some c => match conc_step cfg ev c with Some (Over _) => true | _ => false end
  | None => false
  end.

(** [tx_status] is one variable for all threads: when a transmission fails, the
    process ends if its thread goes on alone, but if another thread stores the
    status of its own, complete transmission before the test, the failure is not
    noticed, and the thread returns as if the packet were on the link. *)
Theorem failed_send_unnoticed :
  let A := failing_star 12 in
  let run l := conc_run (A := A) (K := quiet_kernel) (ex_spw_cfg false) (turns l) two_senders in
  thread_at 0 (run [(0, 8)]%nat) = Some (Some (0, [1; 2], SdAt (AtStatus StarOther) 9 10)) /\
  ends (A := A) (K := quiet_kernel) (ex_spw_cfg false) (EThread 0) (run [(0, 9)]%nat) = true /\
  thread_at 0 (run [(0, 8); (1, 8); (0, 1); (1, 1); (0, 8)]%nat) = Some None.
Proof. repeat split. Qed.

(** a slot holds one operation: the second of two threads that send on a channel
    stores its operation over that of the first.  When [net_stop] cancels both in
    [usleep], only the second one is disposed; the first is live still when main
    has released the device. *)
Theorem interrupted_sends_leak :
  let run l := conc_run (K := quiet_kernel) (ex_spw_cfg false) l two_senders in
  let c := run (turns [(0, 10); (1, 10)]%nat ++ [EMain; EKill 0; EKill 1; EMain; EMain; EMain; EMain; EMain] ++
                turns [(2, 1)]%nat ++ [EMain; EMain; EMain]) in
  (c ← c; mret (mpc c)) = Some MnEnd /\
  (c ← c; mret (map_to_list (ops (wd c)))) = Some [(10%nat, mk_op (TxOp (Some [5; 6]) [1; 2]) false)].
Proof. split; vm_compute; reflexivity. Qed.
