(* ===== verification/SpwConcEnd.v ===== *)
(** * The shutdown of the SpaceWire side comes to its end

    From the moment main leaves [pause], every run of the threads and of main is
    bounded, however they are scheduled, and one that cannot go on has released the
    device: [work] counts the steps that are left. *)

From Stdlib Require Import String List.
From stdpp Require Import base tactics option list list_numbers gmap sets.
From Stdlib Require Import ZArith Lia Bool.
From S2P Require Import Prelude.
From S2P Require Import CString.
From S2P Require Import Sys.
From S2P Require Import NetConn.
From S2P Require Import NetRecv.
From S2P Require Import Net.
From S2P Require Import NetSpec.
From S2P Require Import NetSafe.
From S2P Require Import Spw.
From S2P Require Import SpwSpec.
From S2P Require Import SpwLife.
From S2P Require Import Bridge.
From S2P Require Import SpwConc.
From S2P Require Import SpwConcInv.
From S2P Require Import SpwConcSafe.
From S2P Require Import SpwConcProps.
From S2P Require Import SpwConcSpec.

Local Open Scope Z_scope.

(** ** The steps that are left *)

Definition send_work (pc : send_pc) : nat :=
  match pc with
  | SdBegin => 16
  | SdOp _ _ => 15
  | SdAt l _ _ =>
      match l with
      | AtLock1 => 14 | AtStore => 13 | AtUnlock1 => 12 | AtSubmit => 11 | AtWait => 10 | AtStatus _ => 9
      | AtTest => 8 | AtSleep => 7 | AtLock2 => 6 | AtClear => 5 | AtUnlock2 => 4 | AtDispose => 3
      end
  | SdFree _ => 2
  | SdDone => 1
  end.

(** of [poll_spw] when [shutdown] is set, its packet sink included *)
Definition rx_work (pc : rx_pc) : nat :=
  match pc with
  | RxEnd _ => 0
  | RxTop _ => 1
  | RxForward _ _ => 2
  | RxSink _ _ => 19
  | RxPacket _ => 20
  | RxStatus _ _ => 21
  | RxTest3 _ _ => 22
  | RxWait _ => 23
  | RxTest2 _ => 24
  | RxSubmit _ => 25
  | RxUnlock _ => 26
  | RxStore _ => 27
  | RxOld _ => 28
  | RxLock _ => 29
  | RxCreate => 30
  | RxDrop _ => 31
  end.

Definition thread_work (th : thread) : nat :=
  (if killed th then 0
   else 1 + match frame th with Some (_, _, pc) => send_work pc | None => 0 end +
        match who th with CNet l => 18 * length l | CPoll _ pc => rx_work pc end)%nat.

Definition main_work (pc : main_pc) : nat :=
  match pc with
  | MnRun => 10 | MnKill => 9 | MnStop => 8 | MnLock => 7
  | MnCancel c => if c =? 0 then 6 else 5
  | MnUnlock => 4 | MnJoin => 3 | MnDispose => 2 | MnRelease => 1 | MnEnd => 0
  end.

Definition work (c : conf) : nat := (sum_list_with thread_work (threads c) + main_work (mpc c))%nat.

(** ** The flag stays set *)

Definition shut (w : sworld) : Prop := forall st, spw w = Some st -> shutdown st = true.

Definition more (w w' : sworld) : Prop := exists l, slog w' = slog w ++ l.

Lemma more_refl w : more w w.
Proof. exists []. by rewrite app_nil_r. Qed.

Lemma more_same w w' : slog w' = slog w -> more w w'.
Proof. intros E. exists []. by rewrite app_nil_r. Qed.

Lemma more_trans w w1 w2 : more w w1 -> more w1 w2 -> more w w2.
Proof. intros [l E1] [k E2]. exists (l ++ k). by rewrite E2, E1, app_assoc. Qed.

Lemma more_in w w' a : more w w' -> a ∈ slog w -> a ∈ slog w'.
Proof. intros [l ->] H. apply elem_of_app. by left. Qed.

(** the flag stays set, the log grows, and [Q] holds of the result *)
Definition gives {B} (m : SM B) (Q : B -> Prop) : Prop :=
  forall w, shut w -> match m w with SRet b w' => (shut w' /\ more w w') /\ Q b | _ => True end.

Definition any {B} : B -> Prop := fun _ => True.

Section gives.
Context {A : Star} {K : Kernel}.

Lemma gives_bind {B C} (m : SM B) (f : B -> SM C) P Q : gives m P -> (forall b, P b -> gives (f b) Q) -> gives (m ≫= f) Q.
Proof using Type.
  intros Hm Hf w Hw. unfold mbind, SM_bind. specialize (Hm w Hw). destruct (m w) as [b w'|w'|]; [|done|done].
  destruct Hm as [[Hw' H1] Hp]. specialize (Hf b Hp w' Hw'). destruct (f b w') as [c w2| |]; [|done|done].
  destruct Hf as [[H2 H3] H4]. split; [|done]. split; [done|]. by eapply more_trans.
Qed.

Lemma gives_ret {B} (b : B) (Q : B -> Prop) : Q b -> gives (mret b) Q.
Proof using Type. intros H w Hw. split; [split; [done|apply more_refl]|done]. Qed.

Lemma gives_done {B} (b : B) : gives (mret b) any.
Proof using Type. by apply gives_ret. Qed.

Lemma gives_mono {B} (m : SM B) (P Q : B -> Prop) : gives m P -> (forall b, P b -> Q b) -> gives m Q.
Proof using Type. intros Hm H w Hw. specialize (Hm w Hw). destruct (m w); [|done|done]. split; [apply Hm|]. by apply H, Hm. Qed.

Lemma gives_fatal {B} s l (Q : B -> Prop) : gives (fatal s l) Q.
Proof using Type. by intros w Hw. Qed.

Lemma gives_get : gives get_spw (fun st => shutdown st = true).
Proof using Type. intros w Hw. unfold get_spw. destruct (spw w) as [st|] eqn:E; [|done]. split; [split; [done|apply more_refl]|by apply Hw]. Qed.

Lemma gives_put st : shutdown st = true -> gives (put_spw st) any.
Proof using Type. intros H w Hw. split; [|done]. split; [|by apply more_same]. intros st' E. simpl in E. by simplify_eq. Qed.

(** what does not change the state of spw.c *)
Lemma gives_same {B} (m : SM B) :
  (forall w, match m w with SRet _ w' => spw w' = spw w /\ more w w' | _ => True end) -> gives m any.
Proof using Type.
  intros H w Hw. specialize (H w). destruct (m w) as [b w'|w'|]; [|done|done]. destruct H as [H1 H2].
  split; [|done]. split; [|done]. intros st E. rewrite H1 in E. by apply Hw.
Qed.

Ltac same :=
  apply gives_same; intros ?;
  unfold slot, slift, op_lock, op_unlock, on_net, star_create_op, star_create_item, star_destroy_item, star_live,
    star_known, say, scallno, set_ops, sstuck, mret, SM_ret;
  repeat match goal with |- context [if ?b then _ else _] => destruct b 
    | |- context [match ?o with Some _ => _ | None => _ end] => destruct o
    | |- context [match ?m (snet ?w) with _ => _ end] => destruct (m (snet w)) end;
  first [done|split; [done|by apply more_same]|split; [done|by eexists]].

Lemma gives_slot {B} (l : list B) chan : gives (slot l chan) any.
Proof using Type. same. Qed.
Lemma gives_say a : gives (say a) any.
Proof using Type. same. Qed.
Lemma gives_lock : gives op_lock any.
Proof using Type. same. Qed.
Lemma gives_unlock : gives op_unlock any.
Proof using Type. same. Qed.
Lemma gives_call : gives scallno any.
Proof using Type. same. Qed.
Lemma gives_net {B} (m : M B) : gives (on_net m) any.
Proof using Type. same. Qed.
Lemma gives_create k : gives (star_create_op k) any.
Proof using Type. same. Qed.
Lemma gives_item : gives star_create_item any.
Proof using Type. same. Qed.
Lemma gives_destroy i : gives (star_destroy_item i) any.
Proof using Type. same. Qed.
Lemma gives_live o : gives (star_live o) any.
Proof using Type. same. Qed.
Lemma gives_known o : gives (star_known o) any.
Proof using Type. same. Qed.
Lemma gives_ops f : gives (set_ops f) any.
Proof using Type. same. Qed.
Lemma gives_ready cfg : gives (spw_link_ready cfg) any.
Proof using Type.
  apply gives_same. intros w. unfold spw_link_ready. destruct (spw w) as [st|] eqn:E; [|split; [by rewrite E|by apply more_same]].
  unfold mbind, SM_bind, slot, slift, mret, SM_ret. repeat case_match; simplify_eq; try done; (split; [congruence|by apply more_same]).
Qed.
End gives.

Create HintDb gives.
#[export] Hint Resolve gives_slot gives_say gives_lock gives_unlock gives_call gives_net gives_create gives_item
  gives_destroy gives_live gives_known gives_ops gives_ready gives_fatal gives_done : gives.

(** through a computation, call by call *)
Ltac gstep :=
  match goal with
  | |- gives (get_spw ≫= _) _ => eapply gives_bind; [apply gives_get|intros ? ?; cbv beta]
  | |- gives (put_spw _ ≫= _) _ => eapply gives_bind; [apply gives_put; by try done|intros ? _; cbv beta]
  | |- gives (put_spw _) any => apply gives_put; by try done
  | |- gives (mret _) _ => apply gives_ret
  | |- gives (fatal _ _) _ => apply gives_fatal
  | |- gives ((if ?b then _ else _) ≫= _) _ => destruct b
  | |- gives ((match ?o with Some _ => _ | None => _ end) ≫= _) _ => destruct o
  | |- gives ((match ?o with RxOp => _ | TxOp _ _ => _ end) ≫= _) _ => destruct o
  | |- gives (_ ≫= _) _ => eapply gives_bind; [solve [eauto with gives]|intros ? _; cbv beta]
  | |- gives (match ?o with Some _ => _ | None => _ end) _ => destruct o
  | |- gives (if ?b then _ else _) _ => destruct b
  | |- gives (let '(_, _) := ?p in _) _ => destruct p
  | |- gives _ any => solve [eauto with gives]
  end.

Section ends.
Context {A : Star} {K : Kernel} {L : KernelLive K}.
Variable cfg : bridge_cfg.

Lemma gives_submit chan o : gives (star_submit chan o) any.
Proof using Type. unfold star_submit. repeat gstep; done. Qed.

Lemma gives_dispose o : gives (star_dispose_op o) any.
Proof using Type. unfold star_dispose_op. repeat gstep; done. Qed.

Lemma gives_status_of o : gives (star_status_of o) any.
Proof using Type. unfold star_status_of. repeat gstep; done. Qed.

Hint Resolve gives_status_of : gives.

Lemma gives_wait o : gives (star_wait o) any.
Proof using Type. unfold star_wait. repeat gstep; done. Qed.

Lemma gives_packet o : gives (star_packet o) any.
Proof using Type. unfold star_packet. repeat gstep; done. Qed.

Lemma gives_shutdown : gives get_shutdown (fun b => b = true).
Proof using Type.
  unfold get_shutdown. do 2 gstep. destruct (s_stop _); [repeat gstep; done|]. by apply gives_ret.
Qed.

Hint Resolve gives_submit gives_dispose gives_wait gives_packet : gives.

Lemma gives_rmap dst wr addr d : gives (spw_rmap_cmd dst wr addr d) any.
Proof using Type. unfold spw_rmap_cmd. repeat gstep; done. Qed.

Lemma send_work_less chan b pc : pc <> SdDone -> gives (send_step cfg chan b pc) (fun pc' => (send_work pc' < send_work pc)%nat).
Proof using Type.
  intros Hne. destruct pc as [|i a|[] i o|i|]; try done; cbn [send_step]; repeat gstep; simpl; try lia.
Qed.

Lemma rx_work_less chan pc : ended_pc pc = false -> gives (rx_step chan pc) (fun pc' => (rx_work pc' < rx_work pc)%nat).
Proof using Type.
  intros Hne. destruct pc; try done; cbn [rx_step];
    try (eapply gives_bind; [apply gives_shutdown|intros ? ->; cbv beta]); repeat gstep; simpl; try lia.
Qed.

Hint Resolve gives_rmap : gives.

(** a step inside [spw_send_packet_chan] *)
Lemma frame_step th chan b pc : frame th = Some (chan, b, pc) -> pc <> SdDone ->
  thread_step cfg th = (pc' ← send_step cfg chan b pc;
    mret (if is_submit pc then noting (with_frame th (Some (chan, b, pc'))) chan b
          else with_frame th (Some (chan, b, pc')))).
Proof using Type. intros E Hne. unfold thread_step. rewrite E. by destruct pc. Qed.

Lemma thread_work_less th : killed th = false -> over th = false ->
  gives (thread_step cfg th) (fun th' => (thread_work th' < thread_work th)%nat).
Proof using Type.
  intros Hk Ho. destruct th as [f c kd sub]. simpl in Hk. subst kd. unfold over in Ho. simpl in Ho.
  destruct f as [[[chan b] pc]|].
  - assert (pc = SdDone \/ pc <> SdDone) as [->|Hne] by (destruct pc; (by right) || by left); [apply gives_ret; unfold thread_work; simpl; lia|].
    erewrite frame_step by done. eapply gives_bind; [by apply send_work_less|]. intros pc' Hp. apply gives_ret.
    cbv beta in Hp. unfold thread_work. destruct c, (is_submit pc); simpl; lia.
  - unfold thread_step, thread_work. simpl. destruct c as [[|[b|dst wr addr d] l]|chan pc]; [done| | |].
    + apply gives_ret. simpl. lia.
    + gstep. apply gives_ret. simpl. lia.
    + destruct (ended_pc pc) eqn:Ee; [by destruct pc|].
      pose proof (rx_work_less chan pc Ee) as Hr.
      destruct pc; try (eapply gives_bind; [exact Hr|]; intros pc' Hp; cbv beta in *; apply gives_ret; simpl in *; lia).
      * unfold sink_step. repeat gstep; try (match goal with b : bool |- _ => destruct b end); simpl; lia.
      * repeat gstep; simpl; lia.
Qed.
(** ** Main *)

Lemma gives_each f : (forall i, gives (f i) any) -> gives (each_chan cfg f) any.
Proof using Type.
  intros H. unfold each_chan. eapply gives_bind; [apply H|]. intros _ _. destruct (enable_monitor cfg); [apply H|apply gives_done].
Qed.

Lemma gives_status o : gives (star_get_status o) any.
Proof using Type.
  intros w Hw. unfold star_get_status. destruct (ops w !! o) as [x|]; [|done].
  destruct (op_freed x); [split; [split; [done|apply more_refl]|done]|]. by apply gives_status_of.
Qed.

Lemma gives_request : gives spw_request_shutdown any.
Proof using Type. unfold spw_request_shutdown. repeat gstep; done. Qed.

Hint Resolve gives_status gives_request : gives.

Lemma gives_dispose_slot o : gives (dispose_slot o) any.
Proof using Type. unfold dispose_slot. destruct o; repeat gstep; done. Qed.

Hint Resolve gives_dispose_slot : gives.

Lemma gives_dispose_chan chan : gives (dispose_chan chan) any.
Proof using Type. unfold dispose_chan. repeat gstep; done. Qed.

Lemma gives_cancel chan : gives (cancel_rx chan) any.
Proof using Type. unfold cancel_rx. repeat gstep; done. Qed.

Lemma gives_close chan : gives (close_chan chan) any.
Proof using Type. unfold close_chan. repeat gstep; done. Qed.

Lemma gives_address : gives destroy_address any.
Proof using Type. apply gives_same. intros w. split; [done|by apply more_same]. Qed.

Lemma gives_free : gives free_spw any.
Proof using Type. intros w Hw. split; [|done]. split; [by intros st|by apply more_same]. Qed.

Hint Resolve gives_dispose_chan gives_cancel gives_close gives_address gives_free : gives.

Lemma gives_each_say (f : Z -> sact) : gives (each_chan cfg (fun i => say (f i))) any.
Proof using Type. apply gives_each. intros i. apply gives_say. Qed.

Lemma gives_each_close : gives (each_chan cfg close_chan) any.
Proof using Type. apply gives_each. intros i. apply gives_close. Qed.

Lemma gives_dispose_ops : gives (spw_dispose_ops cfg) any.
Proof using Type.
  unfold spw_dispose_ops. gstep. eapply gives_bind; [apply gives_each; intros i; apply gives_dispose_chan|].
  intros _ _. apply gives_unlock.
Qed.

Hint Resolve gives_each_say gives_each_close gives_dispose_ops : gives.

Lemma gives_release : gives (spw_release cfg) any.
Proof using Type. unfold spw_release. repeat gstep; done. Qed.

Hint Resolve gives_release : gives.

Lemma main_work_less pc : pc <> MnEnd -> gives (main_step cfg pc) (fun pc' => (main_work pc' < main_work pc)%nat).
Proof using Type.
  intros Hne. destruct pc as [| | | |chan| | | | |]; try done; cbn [main_step]; repeat gstep; simpl; try lia.
  destruct (chan =? 0); simpl; [|lia]. destruct (enable_monitor cfg); simpl; lia.
Qed.

(** ** Configurations *)

Lemma sum_less (f : thread -> nat) l i th th' : l !! i = Some th -> (f th' < f th)%nat ->
  (sum_list_with f (<[i := th']> l) < sum_list_with f l)%nat.
Proof using Type.
  revert i. induction l as [|a l IH]; intros [|i] Hi Hf; simpl in *; try done; [simplify_eq; lia|].
  specialize (IH i Hi Hf). lia.
Qed.

(** a step leaves less to do *)
Lemma step_less c ev c' : shut (wd c) -> conc_step cfg ev c = Some (Next c') ->
  shut (wd c') /\ (work c' < work c)%nat.
Proof using Type.
  intros Hs Hstep. unfold work. destruct ev as [i|i|]; simpl in Hstep.
  - destruct (threads c !! i) as [th|] eqn:Hi; [|done]. simpl in Hstep.
    destruct (killed th) eqn:Hk; [done|]. destruct (over th) eqn:Ho; [done|]. simpl in Hstep.
    destruct (at_lock th && locked (wd c)); [done|]. injection Hstep as Hstep.
    pose proof (thread_work_less th Hk Ho (wd c) Hs) as H. destruct (thread_step cfg th (wd c)) as [th' w'|w'|]; [|done|done].
    injection Hstep as <-. destruct H as [[H1 _] H2]. split; [done|]. simpl. pose proof (sum_less thread_work _ _ _ _ Hi H2). lia.
  - destruct (threads c !! i) as [th|] eqn:Hi; [|done]. simpl in Hstep. destruct (mpc c) eqn:Em; try done.
    destruct (negb (is_poller th) && negb (killed th) && killable th) eqn:Eb; [|done]. injection Hstep as <-.
    split; [done|]. simpl. apply andb_true_iff in Eb as [[_ Hk%negb_true_iff]%andb_true_iff _].
    pose proof (sum_less thread_work _ _ th (mk_thread None (who th) true (submitted th)) Hi) as H.
    unfold thread_work at 1 2 in H. rewrite Hk in H. simpl in H. lia.
  - destruct (main_waits c) eqn:Hw; [done|]. injection Hstep as Hstep.
    assert (Hne : mpc c <> MnEnd) by (intros E; unfold main_waits in Hw; by rewrite E in Hw).
    pose proof (main_work_less (mpc c) Hne (wd c) Hs) as H. destruct (main_step cfg (mpc c) (wd c)) as [pc w'|w'|]; [|done|done].
    injection Hstep as <-. destruct H as [[H1 _] H2]. split; [done|]. simpl. lia.
Qed.

(** main sets the flag when it leaves [pause] *)
Lemma pause_shut c c' : mpc c = MnRun -> conc_step cfg EMain c = Some (Next c') -> shut (wd c').
Proof using Type.
  intros Em Hstep. simpl in Hstep. unfold main_waits in Hstep. rewrite Em in Hstep. injection Hstep as Hstep.
  simpl in Hstep. unfold spw_request_shutdown, mbind, SM_bind, get_spw in Hstep.
  destruct (spw (wd c)) as [st|]; [|done]. injection Hstep as <-. intros st' [= <-]. done.
Qed.

Lemma step_mpc c ev c' : conc_step cfg ev c = Some (Next c') -> ev = EMain \/ mpc c' = mpc c.
Proof using Type.
  intros Hstep. destruct ev as [i|i|]; [right|right|by left]; simpl in Hstep;
    (destruct (threads c !! i) as [th|]; [|done]); simpl in Hstep.
  - destruct (_ || _); [done|]. injection Hstep as Hstep. destruct (thread_step cfg th (wd c)); [|done|done]. by injection Hstep as <-.
  - destruct (mpc c) eqn:Em; try done. destruct (_ && _); [|done]. by injection Hstep as <-.
Qed.

Lemma reachable_shut N c0 c : mpc c0 = MnRun -> reachable cfg N c0 c -> mpc c <> MnRun -> shut (wd c).
Proof using Type.
  intros E0. induction 1 as [|ev c c' _ IH Hstep _|c n _ IH Hn]; [done| |done]. intros Hne.
  assert (mpc c = MnRun \/ mpc c <> MnRun) as [Em|Hm] by (destruct (mpc c); (by left) || by right).
  - destruct (step_mpc c ev c' Hstep) as [->|E]; [by apply (pause_shut c)|congruence].
  - by apply (step_less c ev c' (IH Hm)).
Qed.

(** ** The waits of the polling threads *)

(** with the flag set no thread begins to wait for a packet *)
Definition no_new_wait (th th' : thread) : Prop :=
  forall ch o, who th' = CPoll ch (RxWait o) -> who th = CPoll ch (RxWait o).

Lemma rx_no_wait chan pc : ended_pc pc = false -> gives (rx_step chan pc) (fun pc' => forall o, pc' <> RxWait o).
Proof using Type.
  intros Hne. destruct pc; try done; cbn [rx_step];
    try (eapply gives_bind; [apply gives_shutdown|intros ? ->; cbv beta]); repeat gstep; done.
Qed.

Lemma thread_no_wait th : over th = false -> gives (thread_step cfg th) (no_new_wait th).
Proof using Type.
  intros Ho. destruct th as [f c kd sub]. unfold over in Ho. simpl in Ho. destruct f as [[[chan b] pc]|].
  - assert (pc = SdDone \/ pc <> SdDone) as [->|Hne] by (destruct pc; (by right) || by left); [apply gives_ret; by intros ch o|].
    erewrite frame_step by done. eapply gives_bind; [by apply send_work_less|]. intros pc' _. apply gives_ret.
    destruct (is_submit pc); by intros ch o.
  - unfold thread_step. simpl. destruct c as [[|[b|dst wr addr d] l]|chan pc]; [done| | |].
    + apply gives_ret. by intros ch o.
    + gstep. apply gives_ret. by intros ch o.
    + destruct (ended_pc pc) eqn:Ee; [by destruct pc|].
      pose proof (rx_no_wait chan pc Ee) as Hr.
      destruct pc; try (eapply gives_bind; [exact Hr|]; intros pc' Hp; cbv beta in *; apply gives_ret; intros ch0 o0 [= -> ->]; by destruct (Hp o0)).
      * unfold sink_step. repeat gstep; try (match goal with b : bool |- _ => destruct b end); by intros ch0 o0.
      * repeat gstep; by intros ch0 o0.
Qed.

Lemma woken_thread c i th th' w' : woken c -> threads c !! i = Some th -> no_new_wait th th' -> more (wd c) w' ->
  woken (mk_conf w' (<[i := th']> (threads c)) (mpc c) (lost c) (lost_items c)).
Proof using Type.
  intros H Hi Hno Hm j a ch o. simpl. rewrite list_lookup_insert_Some. intros [(<- & <- & _)|[_ Hj]] Ew Ht.
  - eapply more_in; [exact Hm|]. apply (H i th ch o Hi); [by apply Hno|done].
  - eapply more_in; [exact Hm|]. by apply (H j a ch o Hj).
Qed.

(** a step of main: it cancels the waits of a channel *)
Lemma woken_main ids addr js1 base c st w' pc' : shut (wd c) -> inv cfg ids addr js1 base c st -> stage cfg c -> woken c ->
  main_step cfg (mpc c) (wd c) = SRet pc' w' -> woken (mk_conf w' (threads c) pc' (lost c) (lost_items c)).
Proof using Type.
  intros Hs V S H Hstep i th ch o Hi Ew Ht. simpl in *.
  assert (Hne : mpc c <> MnEnd) by (intros E; rewrite E in Hstep; by injection Hstep as <- _).
  pose proof (main_work_less (mpc c) Hne (wd c) Hs) as Hg. rewrite Hstep in Hg. destruct Hg as [[_ Hm] _].
  destruct (told_chan (mpc c) ch) eqn:Etold; [eapply more_in; [exact Hm|]; by apply (H i th ch o)|].
  pose proof (iv_local _ _ _ _ _ _ _ V i th Hi) as Lth.
  pose proof (proj1 (proj2 (proj2 (proj2 (lc_poll _ _ _ _ _ Lth _ _ Ew)))) o eq_refl) as Es.
  assert (Hp : polls th ch = true) by (unfold polls; rewrite Ew; by apply bool_decide_eq_true_2).
  destruct (mpc c) as [| | | |c0| | | | |] eqn:Em; try done; cbn [main_step] in Hstep;
    try (unfold mbind, SM_bind in Hstep; destruct (spw_request_shutdown (wd c)); [|done|done]; injection Hstep as <- _; done);
    try (unfold mbind, SM_bind in Hstep; destruct (op_lock (wd c)); [|done|done]; injection Hstep as <- _; done);
    try (injection Hstep as <- _; done);
    try (unfold mbind, SM_bind in Hstep; match type of Hstep with match ?m with _ => _ end = _ => destruct m end; [|done|done];
      injection Hstep as <- _; done).
  assert (Hmcs : main_cs c = true) by (unfold main_cs; by rewrite Em).
  destruct (cancel_run cfg ids addr js1 base c st c0 V Hmcs (sg_cancel _ _ S c0 Em)) as (l & E & _ & Hl).
  rewrite (sbind_run _ _ _ _ _ E) in Hstep. injection Hstep as <- <-. simpl. apply elem_of_app. right. apply Hl.
  assert (ch = c0) as ->; [|done].
  destruct (sg_cancel _ _ S c0 Em) as [-> | ->]; simpl in *.
  - destruct (sg_chan _ _ S i th ch Hi Hp) as [?|Hmon]; [done|]. rewrite Hmon in Ht. simpl in Ht. lia.
  - assert (Hch : chan_ok ch) by apply (lc_poll _ _ _ _ _ Lth _ _ Ew). by destruct Hch as [-> | ->].
Qed.

(** [n] steps, the network side changing in between *)
Inductive runs (N : world -> Prop) (c : conf) : nat -> conf -> Prop :=
| runs_start : runs N c 0 c
| runs_step n ev c1 c2 : runs N c n c1 -> conc_step cfg ev c1 = Some (Next c2) ->
    (forall th, th ∈ threads c2 -> ~ tx_cancelled th) -> runs N c (S n) c2
| runs_net n c1 m : runs N c n c1 -> N m ->
    runs N c n (mk_conf (sw_net (wd c1) m) (threads c1) (mpc c1) (lost c1) (lost_items c1)).

Lemma runs_reachable N c0 c n c' : reachable cfg N c0 c -> runs N c n c' -> reachable cfg N c0 c'.
Proof using Type. intros Hc. induction 1; [done|by eapply reach_step|by apply reach_net]. Qed.

Lemma runs_less N c n c' : shut (wd c) -> runs N c n c' -> shut (wd c') /\ (n + work c' <= work c)%nat.
Proof using Type.
  intros Hs. induction 1 as [|n ev c1 c2 _ [IH1 IH2] Hstep _|n c1 m _ [IH1 IH2] Hm]; [done| |done].
  destruct (step_less c1 ev c2 IH1 Hstep) as [H1 H2]. split; [done|lia].
Qed.

Context (Hskip : 0 <= skip_header_bytes cfg) (Hdata : forall t, sinkable cfg (s_data t)).
Variables (js : list (list job)) (w0 : sworld) (st : spw_state) (w : sworld).

(** the waits of the channels [spw_stop_poll] has got to are cancelled *)
Lemma reachable_woken (Hready : ready cfg w0 st w) c : reachable cfg net_ok (conc_start cfg w js) c -> woken c.
Proof using L Hskip Hdata.
  induction 1 as [|ev c c' Hc IH Hstep _|c n Hc IH Hn]; [by intros i th ch o _ _ Ht| |exact IH].
  pose proof (ready_cinv cfg Hskip Hdata js w0 st w Hready c Hc) as C.
  assert (mpc c = MnRun \/ mpc c <> MnRun) as [Em|Hm] by (destruct (mpc c); (by left) || by right).
  { destruct (step_mpc c ev c' Hstep) as [->|E]; [|intros i th ch o _ _ Ht; by rewrite E, Em in Ht].
    simpl in Hstep. destruct (main_waits c); [done|]. rewrite Em in Hstep. injection Hstep as Hstep.
    simpl in Hstep. unfold mbind, SM_bind in Hstep. destruct (spw_request_shutdown (wd c)); [|done|done].
    injection Hstep as <-. by intros i th ch o _ _ Ht. }
  pose proof (reachable_shut net_ok (conc_start cfg w js) c eq_refl Hc Hm) as Hs.
  destruct ev as [i|i|]; simpl in Hstep.
  - destruct (threads c !! i) as [th|] eqn:Hi; [|done]. simpl in Hstep.
    destruct (killed th); [done|]. destruct (over th) eqn:Ho; [done|]. simpl in Hstep.
    destruct (at_lock th && locked (wd c)); [done|]. injection Hstep as Hstep.
    pose proof (thread_no_wait th Ho (wd c) Hs) as Hg. destruct (thread_step cfg th (wd c)) as [th' w'|w'|]; [|done|done].
    injection Hstep as <-. destruct Hg as [[_ Hmore] Hno]. by eapply woken_thread.
  - destruct (threads c !! i) as [th|] eqn:Hi; [|done]. simpl in Hstep. destruct (mpc c) eqn:Em; try done.
    destruct (_ && _); [|done]. injection Hstep as <-. by intros j a ch o _ _ Ht.
  - destruct (main_waits c); [done|]. injection Hstep as Hstep.
    destruct (main_step cfg (mpc c) (wd c)) as [pc w'|w'|] eqn:E; [|done|done]. injection Hstep as <-.
    destruct (decide (told_chan pc 0 = true \/ told_chan pc 1 = true)) as [Ht|Hn].
    + assert (Hpc : match mpc c with MnRelease | MnEnd => False | _ => True end).
      { destruct (mpc c); try done; cbn [main_step] in E; [|by injection E as <- _; destruct Ht].
        unfold mbind, SM_bind in E. destruct (spw_release cfg (wd c)); [|done|done]. injection E as <- _. by destruct Ht. }
      destruct (past_inv cfg Hskip Hdata js w0 st w Hready c Hc Hpc) as [st' V].
      by eapply (woken_main _ _ _ _ c st' w' pc Hs V (proj1 C) IH).
    + intros i th ch o _ _ Ht. exfalso. apply Hn. simpl in Ht. destruct pc; try done; [|by left|by left].
      apply andb_true_iff in Ht as [Ht ->%Z.eqb_eq]. left. simpl. by rewrite Ht.
Qed.

End ends.

(** ** Example *)

Lemma tries_runs {A : Star} {K : Kernel} cfg N l c n c1 c2 : runs cfg N c n c1 -> conc_tries cfg l c1 = Some c2 ->
  exists m, runs cfg N c m c2.
Proof.
  revert n c1. induction l as [|ev l IH]; intros n c1 Hr; simpl; [intros [= <-]; by exists n|].
  destruct (conc_step cfg ev c1) as [[c3| |]|] eqn:Es; try done; [|by eapply IH].
  destruct (existsb cancelled (threads c3)) eqn:Eb; [done|]. eapply IH, runs_step; [exact Hr|exact Es|].
  intros th Hin (ch & b & i & o & Ef). assert (Ht : existsb cancelled (threads c3) = true); [|congruence].
  apply existsb_exists. exists th. split; [by apply list_elem_of_In|]. unfold cancelled. by rewrite Ef.
Qed.

(** the signal comes in the middle of the traffic *)
Definition ex_stopping : conf := ex_at true 9 1.

Definition ex_stopped : conf :=
  match conc_tries (K := quiet_kernel) (ex_spw_cfg true) (ex_sched 0 60) ex_stopping with Some c => c | None => ex_stopping end.

