(* ===== verification/Options.v ===== *)
(** * Options (src/spw_bridge.c)

    [parse_options] and the handlers of the options, on the results of [getopt].
    The address resolver is the class [Resolver]; C strings, [strtol] and
    [strtok] are those of [CString]. A computation yields a configuration, ends
    the process with an exit code, or is stuck (a null [optarg] is dereferenced,
    or a node is stored outside of the path); in the first two cases with the
    messages printed. *)

From Stdlib Require Import String Ascii List.
From stdpp Require Import base tactics option list list_numbers.
From Stdlib Require Import ZArith Lia Bool.
From S2P Require Import Prelude.
From S2P Require Import CString.
From S2P Require Import Gresb.
From S2P Require Import Sys.
From S2P Require Import NetStart.

Local Open Scope Z_scope.

(** ** Assignments to the members of the configuration *)

Definition set_mode (c : bridge_cfg) (x : net_mode) : bridge_cfg :=
    mk_cfg x (port c) (rmap_port c) (channel c) (channel2 c) (link_id c) (gresb_link c) (dev_num c)
    (reset_dev c) (sig_rate c) (path_len c) (skip_header_bytes c) (pkt_throttle_usec c)
    (interpret_pus c) (interpret_fee c) (interpret_rmap c) (enable_monitor c) (enable_rmap c)
    (enable_gresb c) (enable_sniff c) (sniff_gresb c) (pus_debug c) (debug_short c) (crc_check c)
    (host c) (path c) (pkt_sink c).
Definition set_port (c : bridge_cfg) (x : Z) : bridge_cfg :=
    mk_cfg (mode c) x (rmap_port c) (channel c) (channel2 c) (link_id c) (gresb_link c) (dev_num c)
    (reset_dev c) (sig_rate c) (path_len c) (skip_header_bytes c) (pkt_throttle_usec c)
    (interpret_pus c) (interpret_fee c) (interpret_rmap c) (enable_monitor c) (enable_rmap c)
    (enable_gresb c) (enable_sniff c) (sniff_gresb c) (pus_debug c) (debug_short c) (crc_check c)
    (host c) (path c) (pkt_sink c).
Definition set_rmap_port (c : bridge_cfg) (x : Z) : bridge_cfg :=
    mk_cfg (mode c) (port c) x (channel c) (channel2 c) (link_id c) (gresb_link c) (dev_num c)
    (reset_dev c) (sig_rate c) (path_len c) (skip_header_bytes c) (pkt_throttle_usec c)
    (interpret_pus c) (interpret_fee c) (interpret_rmap c) (enable_monitor c) (enable_rmap c)
    (enable_gresb c) (enable_sniff c) (sniff_gresb c) (pus_debug c) (debug_short c) (crc_check c)
    (host c) (path c) (pkt_sink c).
Definition set_channel (c : bridge_cfg) (x : Z) : bridge_cfg :=
    mk_cfg (mode c) (port c) (rmap_port c) x (channel2 c) (link_id c) (gresb_link c) (dev_num c)
    (reset_dev c) (sig_rate c) (path_len c) (skip_header_bytes c) (pkt_throttle_usec c)
    (interpret_pus c) (interpret_fee c) (interpret_rmap c) (enable_monitor c) (enable_rmap c)
    (enable_gresb c) (enable_sniff c) (sniff_gresb c) (pus_debug c) (debug_short c) (crc_check c)
    (host c) (path c) (pkt_sink c).
Definition set_channel2 (c : bridge_cfg) (x : Z) : bridge_cfg :=
    mk_cfg (mode c) (port c) (rmap_port c) (channel c) x (link_id c) (gresb_link c) (dev_num c)
    (reset_dev c) (sig_rate c) (path_len c) (skip_header_bytes c) (pkt_throttle_usec c)
    (interpret_pus c) (interpret_fee c) (interpret_rmap c) (enable_monitor c) (enable_rmap c)
    (enable_gresb c) (enable_sniff c) (sniff_gresb c) (pus_debug c) (debug_short c) (crc_check c)
    (host c) (path c) (pkt_sink c).
Definition set_link_id (c : bridge_cfg) (x : Z) : bridge_cfg :=
    mk_cfg (mode c) (port c) (rmap_port c) (channel c) (channel2 c) x (gresb_link c) (dev_num c)
    (reset_dev c) (sig_rate c) (path_len c) (skip_header_bytes c) (pkt_throttle_usec c)
    (interpret_pus c) (interpret_fee c) (interpret_rmap c) (enable_monitor c) (enable_rmap c)
    (enable_gresb c) (enable_sniff c) (sniff_gresb c) (pus_debug c) (debug_short c) (crc_check c)
    (host c) (path c) (pkt_sink c).
Definition set_gresb_link (c : bridge_cfg) (x : Z) : bridge_cfg :=
    mk_cfg (mode c) (port c) (rmap_port c) (channel c) (channel2 c) (link_id c) x (dev_num c)
    (reset_dev c) (sig_rate c) (path_len c) (skip_header_bytes c) (pkt_throttle_usec c)
    (interpret_pus c) (interpret_fee c) (interpret_rmap c) (enable_monitor c) (enable_rmap c)
    (enable_gresb c) (enable_sniff c) (sniff_gresb c) (pus_debug c) (debug_short c) (crc_check c)
    (host c) (path c) (pkt_sink c).
Definition set_dev_num (c : bridge_cfg) (x : Z) : bridge_cfg :=
    mk_cfg (mode c) (port c) (rmap_port c) (channel c) (channel2 c) (link_id c) (gresb_link c) x
    (reset_dev c) (sig_rate c) (path_len c) (skip_header_bytes c) (pkt_throttle_usec c)
    (interpret_pus c) (interpret_fee c) (interpret_rmap c) (enable_monitor c) (enable_rmap c)
    (enable_gresb c) (enable_sniff c) (sniff_gresb c) (pus_debug c) (debug_short c) (crc_check c)
    (host c) (path c) (pkt_sink c).
Definition set_reset_dev (c : bridge_cfg) (x : bool) : bridge_cfg :=
    mk_cfg (mode c) (port c) (rmap_port c) (channel c) (channel2 c) (link_id c) (gresb_link c)
    (dev_num c) x (sig_rate c) (path_len c) (skip_header_bytes c) (pkt_throttle_usec c)
    (interpret_pus c) (interpret_fee c) (interpret_rmap c) (enable_monitor c) (enable_rmap c)
    (enable_gresb c) (enable_sniff c) (sniff_gresb c) (pus_debug c) (debug_short c) (crc_check c)
    (host c) (path c) (pkt_sink c).
Definition set_sig_rate (c : bridge_cfg) (x : Z) : bridge_cfg :=
    mk_cfg (mode c) (port c) (rmap_port c) (channel c) (channel2 c) (link_id c) (gresb_link c)
    (dev_num c) (reset_dev c) x (path_len c) (skip_header_bytes c) (pkt_throttle_usec c)
    (interpret_pus c) (interpret_fee c) (interpret_rmap c) (enable_monitor c) (enable_rmap c)
    (enable_gresb c) (enable_sniff c) (sniff_gresb c) (pus_debug c) (debug_short c) (crc_check c)
    (host c) (path c) (pkt_sink c).
Definition set_path_len (c : bridge_cfg) (x : Z) : bridge_cfg :=
    mk_cfg (mode c) (port c) (rmap_port c) (channel c) (channel2 c) (link_id c) (gresb_link c)
    (dev_num c) (reset_dev c) (sig_rate c) x (skip_header_bytes c) (pkt_throttle_usec c)
    (interpret_pus c) (interpret_fee c) (interpret_rmap c) (enable_monitor c) (enable_rmap c)
    (enable_gresb c) (enable_sniff c) (sniff_gresb c) (pus_debug c) (debug_short c) (crc_check c)
    (host c) (path c) (pkt_sink c).
Definition set_skip_header_bytes (c : bridge_cfg) (x : Z) : bridge_cfg :=
    mk_cfg (mode c) (port c) (rmap_port c) (channel c) (channel2 c) (link_id c) (gresb_link c)
    (dev_num c) (reset_dev c) (sig_rate c) (path_len c) x (pkt_throttle_usec c) (interpret_pus c)
    (interpret_fee c) (interpret_rmap c) (enable_monitor c) (enable_rmap c) (enable_gresb c)
    (enable_sniff c) (sniff_gresb c) (pus_debug c) (debug_short c) (crc_check c) (host c) (path c)
    (pkt_sink c).
Definition set_pkt_throttle_usec (c : bridge_cfg) (x : Z) : bridge_cfg :=
    mk_cfg (mode c) (port c) (rmap_port c) (channel c) (channel2 c) (link_id c) (gresb_link c)
    (dev_num c) (reset_dev c) (sig_rate c) (path_len c) (skip_header_bytes c) x (interpret_pus c)
    (interpret_fee c) (interpret_rmap c) (enable_monitor c) (enable_rmap c) (enable_gresb c)
    (enable_sniff c) (sniff_gresb c) (pus_debug c) (debug_short c) (crc_check c) (host c) (path c)
    (pkt_sink c).
Definition set_interpret_pus (c : bridge_cfg) (x : bool) : bridge_cfg :=
    mk_cfg (mode c) (port c) (rmap_port c) (channel c) (channel2 c) (link_id c) (gresb_link c)
    (dev_num c) (reset_dev c) (sig_rate c) (path_len c) (skip_header_bytes c) (pkt_throttle_usec c)
    x (interpret_fee c) (interpret_rmap c) (enable_monitor c) (enable_rmap c) (enable_gresb c)
    (enable_sniff c) (sniff_gresb c) (pus_debug c) (debug_short c) (crc_check c) (host c) (path c)
    (pkt_sink c).
Definition set_interpret_fee (c : bridge_cfg) (x : bool) : bridge_cfg :=
    mk_cfg (mode c) (port c) (rmap_port c) (channel c) (channel2 c) (link_id c) (gresb_link c)
    (dev_num c) (reset_dev c) (sig_rate c) (path_len c) (skip_header_bytes c) (pkt_throttle_usec c)
    (interpret_pus c) x (interpret_rmap c) (enable_monitor c) (enable_rmap c) (enable_gresb c)
    (enable_sniff c) (sniff_gresb c) (pus_debug c) (debug_short c) (crc_check c) (host c) (path c)
    (pkt_sink c).
Definition set_interpret_rmap (c : bridge_cfg) (x : bool) : bridge_cfg :=
    mk_cfg (mode c) (port c) (rmap_port c) (channel c) (channel2 c) (link_id c) (gresb_link c)
    (dev_num c) (reset_dev c) (sig_rate c) (path_len c) (skip_header_bytes c) (pkt_throttle_usec c)
    (interpret_pus c) (interpret_fee c) x (enable_monitor c) (enable_rmap c) (enable_gresb c)
    (enable_sniff c) (sniff_gresb c) (pus_debug c) (debug_short c) (crc_check c) (host c) (path c)
    (pkt_sink c).
Definition set_enable_monitor (c : bridge_cfg) (x : bool) : bridge_cfg :=
    mk_cfg (mode c) (port c) (rmap_port c) (channel c) (channel2 c) (link_id c) (gresb_link c)
    (dev_num c) (reset_dev c) (sig_rate c) (path_len c) (skip_header_bytes c) (pkt_throttle_usec c)
    (interpret_pus c) (interpret_fee c) (interpret_rmap c) x (enable_rmap c) (enable_gresb c)
    (enable_sniff c) (sniff_gresb c) (pus_debug c) (debug_short c) (crc_check c) (host c) (path c)
    (pkt_sink c).
Definition set_enable_rmap (c : bridge_cfg) (x : bool) : bridge_cfg :=
    mk_cfg (mode c) (port c) (rmap_port c) (channel c) (channel2 c) (link_id c) (gresb_link c)
    (dev_num c) (reset_dev c) (sig_rate c) (path_len c) (skip_header_bytes c) (pkt_throttle_usec c)
    (interpret_pus c) (interpret_fee c) (interpret_rmap c) (enable_monitor c) x (enable_gresb c)
    (enable_sniff c) (sniff_gresb c) (pus_debug c) (debug_short c) (crc_check c) (host c) (path c)
    (pkt_sink c).
Definition set_enable_gresb (c : bridge_cfg) (x : bool) : bridge_cfg :=
    mk_cfg (mode c) (port c) (rmap_port c) (channel c) (channel2 c) (link_id c) (gresb_link c)
    (dev_num c) (reset_dev c) (sig_rate c) (path_len c) (skip_header_bytes c) (pkt_throttle_usec c)
    (interpret_pus c) (interpret_fee c) (interpret_rmap c) (enable_monitor c) (enable_rmap c) x
    (enable_sniff c) (sniff_gresb c) (pus_debug c) (debug_short c) (crc_check c) (host c) (path c)
    (pkt_sink c).
Definition set_enable_sniff (c : bridge_cfg) (x : bool) : bridge_cfg :=
    mk_cfg (mode c) (port c) (rmap_port c) (channel c) (channel2 c) (link_id c) (gresb_link c)
    (dev_num c) (reset_dev c) (sig_rate c) (path_len c) (skip_header_bytes c) (pkt_throttle_usec c)
    (interpret_pus c) (interpret_fee c) (interpret_rmap c) (enable_monitor c) (enable_rmap c)
    (enable_gresb c) x (sniff_gresb c) (pus_debug c) (debug_short c) (crc_check c) (host c) (path c)
    (pkt_sink c).
Definition set_sniff_gresb (c : bridge_cfg) (x : bool) : bridge_cfg :=
    mk_cfg (mode c) (port c) (rmap_port c) (channel c) (channel2 c) (link_id c) (gresb_link c)
    (dev_num c) (reset_dev c) (sig_rate c) (path_len c) (skip_header_bytes c) (pkt_throttle_usec c)
    (interpret_pus c) (interpret_fee c) (interpret_rmap c) (enable_monitor c) (enable_rmap c)
    (enable_gresb c) (enable_sniff c) x (pus_debug c) (debug_short c) (crc_check c) (host c) (path
    c) (pkt_sink c).
Definition set_pus_debug (c : bridge_cfg) (x : bool) : bridge_cfg :=
    mk_cfg (mode c) (port c) (rmap_port c) (channel c) (channel2 c) (link_id c) (gresb_link c)
    (dev_num c) (reset_dev c) (sig_rate c) (path_len c) (skip_header_bytes c) (pkt_throttle_usec c)
    (interpret_pus c) (interpret_fee c) (interpret_rmap c) (enable_monitor c) (enable_rmap c)
    (enable_gresb c) (enable_sniff c) (sniff_gresb c) x (debug_short c) (crc_check c) (host c) (path
    c) (pkt_sink c).
Definition set_debug_short (c : bridge_cfg) (x : bool) : bridge_cfg :=
    mk_cfg (mode c) (port c) (rmap_port c) (channel c) (channel2 c) (link_id c) (gresb_link c)
    (dev_num c) (reset_dev c) (sig_rate c) (path_len c) (skip_header_bytes c) (pkt_throttle_usec c)
    (interpret_pus c) (interpret_fee c) (interpret_rmap c) (enable_monitor c) (enable_rmap c)
    (enable_gresb c) (enable_sniff c) (sniff_gresb c) (pus_debug c) x (crc_check c) (host c) (path
    c) (pkt_sink c).
Definition set_crc_check (c : bridge_cfg) (x : bool) : bridge_cfg :=
    mk_cfg (mode c) (port c) (rmap_port c) (channel c) (channel2 c) (link_id c) (gresb_link c)
    (dev_num c) (reset_dev c) (sig_rate c) (path_len c) (skip_header_bytes c) (pkt_throttle_usec c)
    (interpret_pus c) (interpret_fee c) (interpret_rmap c) (enable_monitor c) (enable_rmap c)
    (enable_gresb c) (enable_sniff c) (sniff_gresb c) (pus_debug c) (debug_short c) x (host c) (path
    c) (pkt_sink c).
Definition set_host (c : bridge_cfg) (x : string) : bridge_cfg :=
    mk_cfg (mode c) (port c) (rmap_port c) (channel c) (channel2 c) (link_id c) (gresb_link c)
    (dev_num c) (reset_dev c) (sig_rate c) (path_len c) (skip_header_bytes c) (pkt_throttle_usec c)
    (interpret_pus c) (interpret_fee c) (interpret_rmap c) (enable_monitor c) (enable_rmap c)
    (enable_gresb c) (enable_sniff c) (sniff_gresb c) (pus_debug c) (debug_short c) (crc_check c) x
    (path c) (pkt_sink c).
Definition set_path (c : bridge_cfg) (x : list Z) : bridge_cfg :=
    mk_cfg (mode c) (port c) (rmap_port c) (channel c) (channel2 c) (link_id c) (gresb_link c)
    (dev_num c) (reset_dev c) (sig_rate c) (path_len c) (skip_header_bytes c) (pkt_throttle_usec c)
    (interpret_pus c) (interpret_fee c) (interpret_rmap c) (enable_monitor c) (enable_rmap c)
    (enable_gresb c) (enable_sniff c) (sniff_gresb c) (pus_debug c) (debug_short c) (crc_check c)
    (host c) x (pkt_sink c).
Definition set_pkt_sink (c : bridge_cfg) (x : option sink_fn) : bridge_cfg :=
    mk_cfg (mode c) (port c) (rmap_port c) (channel c) (channel2 c) (link_id c) (gresb_link c)
    (dev_num c) (reset_dev c) (sig_rate c) (path_len c) (skip_header_bytes c) (pkt_throttle_usec c)
    (interpret_pus c) (interpret_fee c) (interpret_rmap c) (enable_monitor c) (enable_rmap c)
    (enable_gresb c) (enable_sniff c) (sniff_gresb c) (pus_debug c) (debug_short c) (crc_check c)
    (host c) (path c) x.

(** ** Results *)

Definition msg : Type := string * list Z.

Inductive ores (B : Type) : Type :=
| ORet (b : B) (out : list msg)
| OExit (code : Z) (out : list msg)
| OStuck.

Arguments ORet {B} b out.
Arguments OExit {B} code out.
Arguments OStuck {B}.

#[export] Instance ores_ret : MRet ores := fun B b => ORet b [].

#[export] Instance ores_bind : MBind ores := fun B C f m =>
  match m with
  | ORet b out =>
      match f b with
      | ORet c out' => ORet c (out ++ out')
      | OExit n out' => OExit n (out ++ out')
      | OStuck => OStuck
      end
  | OExit n out => OExit n out
  | OStuck => OStuck
  end.

Definition oprint (s : string) (args : list Z) : ores () := ORet () [(s, args)].
Definition oexit {B} (n : Z) : ores B := OExit n [].
Definition olift {B} (o : option B) : ores B := match o with Some b => mret b | None => OStuck end.

Definition EXIT_FAILURE : Z := 1.

(** [getaddrinfo]: [None] is an error, otherwise the list of the addresses; an
    AF_INET one in the notation of [inet_ntop], [None] for another family.
    [freeaddrinfo] frees a list, or what is left of one behind some of its nodes; for
    a null pointer POSIX does not define it, and [r_free_null] says that it returns *)
Class Resolver : Type := {
  r_getaddrinfo : string -> option (list (option string));
  r_free_null : bool
}.

(** what [getopt] has found: the option, [optarg], and [argv[optind]] *)
Record found : Type := mk_found { f_opt : ascii; f_arg : option string; f_next : option string }.

(** [snprintf(host, sizeof(host), "%s", s)] *)
Definition host_of (s : string) : string := substring 0 127 s.

(** ** The handlers *)

Section options.
Context {Rs : Resolver}.

Definition parse_port (arg : string) : ores (option Z) :=
  let tmp := (strtol arg 0).1 in
  if (tmp <? 1) || (tmp >? 65535) then
    _ ← oprint "invalid port %ld, valid ones are 1-65535\n" [tmp]; mret None
  else mret (Some (u32 tmp)).

(** the loop of [parse_path] over the tokens of the argument *)
Fixpoint parse_nodes (nodes : list string) (p : list Z) (len max_nodes : Z) : ores (list Z * Z) :=
  match nodes with
  | [] => mret (p, len)
  | n :: nodes =>
      if len >=? max_nodes then
        _ ← oprint "too many path nodes for -n, keeping the first %zu\n" [max_nodes]; mret (p, len)
      else
      let tmp := (strtol n 16).1 in
      _ ← (if (tmp <? 0) || (tmp >? 255) then oprint "path node %s out of range, truncating\n" []
           else mret ());
      p ← olift (wr p len (u8 tmp));
      parse_nodes nodes p (u16 (len + 1)) max_nodes
  end.

Definition parse_path (arg : string) (p : list Z) (len max_nodes : Z) : ores (list Z * Z) :=
  parse_nodes (tokens (S (String.length arg)) arg) p len max_nodes.

(** where the loop leaves [res]: at the first address of the family AF_INET, or null *)
Fixpoint inet_rest (l : list (option string)) : list (option string) :=
  match l with None :: l => inet_rest l | _ => l end.

Definition first_inet (l : list (option string)) : option string :=
  match inet_rest l with a :: _ => a | [] => None end.

(** of the moved pointer; an empty list is the null pointer *)
Definition freeaddrinfo (l : list (option string)) : ores () :=
  match l with [] => if r_free_null then mret () else OStuck | _ => mret () end.

Definition resolve_host_addr (arg host : string) : ores string :=
  match r_getaddrinfo arg with
  | None => _ ← oprint "error in getaddrinfo: %s\n" []; oexit EXIT_FAILURE
  | Some res =>
      let host := match (strtok arg).1 with Some node => host_of node | None => host end in
      let host := match first_inet res with Some a => a | None => host end in
      _ ← freeaddrinfo (inet_rest res);
      mret host
  end.

Definition DEFAULT_PORT : Z := 1234.
Definition DEFAULT_CHAN : Z := 1.
Definition DEFAULT_RMAP_PORT : Z := 2345.
Definition DEFAULT_LINK_SPEED : Z := 10.

(** [p] is what the uninitialised member [path] holds *)
Definition bridge_cfg_init (p : list Z) : bridge_cfg :=
  mk_cfg MODE_SERVER DEFAULT_PORT DEFAULT_RMAP_PORT DEFAULT_CHAN 0 DEFAULT_CHAN 0 0 false
    DEFAULT_LINK_SPEED 0 0 0 false false false false false false false false false false true
    DEFAULT_ADDR p None.

Definition opt_dev_num (c : bridge_cfg) (arg : string) : ores bridge_cfg :=
  mret (set_dev_num c (u32 (strtol arg 0).1)).

Definition opt_channel (c : bridge_cfg) (arg : string) : ores bridge_cfg :=
  let c := set_channel c (u32 (strtol arg 0).1) in
  mret (set_link_id c (channel c)).

Definition opt_path (c : bridge_cfg) (arg : string) : ores bridge_cfg :=
  '(p, len) ← parse_path arg (path c) (path_len c) (zlen (path c));
  mret (set_path_len (set_path c p) len).

Definition opt_port (c : bridge_cfg) (arg : string) : ores bridge_cfg :=
  p ← parse_port arg;
  match p with Some p => mret (set_port c p) | None => oexit EXIT_FAILURE end.

Definition opt_source (c : bridge_cfg) (arg : string) : ores bridge_cfg :=
  h ← resolve_host_addr arg (host c);
  mret (set_host c h).

(** [optarg] after [strtok] has put a null character behind the first token *)
Fixpoint cut_first (s : string) : string :=
  match s with
  | String a r => if Ascii.eqb a colon then String a (cut_first r) else (cut_colon s).1
  | EmptyString => s
  end.

Definition opt_client (c : bridge_cfg) (arg : string) : ores bridge_cfg :=
  let c := set_mode c MODE_CLIENT in
  match strtok arg with
  | (None, _) => _ ← oprint "error: -r requires a host, use <address>:<port>\n" []; oexit EXIT_FAILURE
  | (Some node, rest) =>
      let c := set_host c (host_of node) in
      match (strtok rest).1 with
      | None => _ ← oprint "error: -r requires a port, use <address>:<port>\n" []; oexit EXIT_FAILURE
      | Some p =>
          p ← parse_port p;
          match p with
          | None => oexit EXIT_FAILURE
          | Some p =>
              let c := set_port c p in
              h ← resolve_host_addr (cut_first arg) (host c);
              mret (set_host c h)
          end
      end
  end.

Definition opt_skip_header (c : bridge_cfg) (arg : string) : ores bridge_cfg :=
  let tmp := (strtol arg 0).1 in
  let tmp := if tmp <? 0 then 0 else tmp in
  mret (set_skip_header_bytes c (u64 tmp)).

Definition opt_throttle (c : bridge_cfg) (arg : string) : ores bridge_cfg :=
  let tmp := (strtol arg 0).1 in
  tmp ← (if tmp <? 0 then
           _ ← oprint "invalid throttle delay %ld us, using 0\n" [tmp]; mret 0
         else mret tmp);
  mret (set_pkt_throttle_usec c (u32 tmp)).

(** the rate is a [double]; the ones that pass the check are exact *)
Definition opt_link_speed (c : bridge_cfg) (arg : string) : ores bridge_cfg :=
  let c := set_sig_rate c (strtoul arg 0).1 in
  if (sig_rate c <? 2) || (sig_rate c >? 400) then
    _ ← oprint "\nInvalid link rate %g Mbps, must be between 2 and 400\n\n" [sig_rate c]; oexit (-1)
  else mret c.

Definition opt_link_id (c : bridge_cfg) (arg : string) : ores bridge_cfg :=
  let tmp := (strtol arg 0).1 in
  if (tmp <? 0) || (tmp >? 255) then
    _ ← oprint "invalid link id %ld, valid ones are 0-255\n" [tmp]; oexit EXIT_FAILURE
  else mret (set_link_id c (u32 tmp)).

Definition opt_pus (c : bridge_cfg) : ores bridge_cfg := mret (set_interpret_pus c true).
Definition opt_pus_debug (c : bridge_cfg) : ores bridge_cfg := mret (set_pus_debug c true).
Definition opt_short_debug (c : bridge_cfg) : ores bridge_cfg := mret (set_debug_short c true).
Definition opt_no_crc (c : bridge_cfg) : ores bridge_cfg := mret (set_crc_check c false).
Definition opt_fee (c : bridge_cfg) : ores bridge_cfg := mret (set_interpret_fee c true).
Definition opt_udp (c : bridge_cfg) : ores bridge_cfg := mret (set_mode c MODE_DGRAM).
Definition opt_rmap_debug (c : bridge_cfg) : ores bridge_cfg := mret (set_interpret_rmap c true).
Definition opt_reset (c : bridge_cfg) : ores bridge_cfg := mret (set_reset_dev c true).

Definition opt_gresb (c : bridge_cfg) (arg : option string) : ores bridge_cfg :=
  c ← match arg with
      | None => mret c
      | Some arg =>
          let '(link, endp) := strtol arg 0 in
          if negb (String.eqb endp EmptyString) || (link <? 0) || (link >? GRESB_VLINK_MAX) then
            _ ← oprint "error: -G requires a virtual link id 0-%d, use -G3\n" [GRESB_VLINK_MAX];
            oexit EXIT_FAILURE
          else mret (set_gresb_link c (u32 link))
      end;
  mret (set_enable_gresb c true).

Definition opt_sniff (c : bridge_cfg) (arg : option string) : ores bridge_cfg :=
  c ← match arg with
      | None => mret c
      | Some arg =>
          if negb (String.eqb arg "g") then
            _ ← oprint "error: -W only accepts format 'g' for the GRESB container, use -Wg\n" [];
            oexit EXIT_FAILURE
          else mret (set_sniff_gresb c true)
      end;
  mret (set_enable_sniff c true).

Definition opt_rmap (c : bridge_cfg) (next : option string) : ores bridge_cfg :=
  let c := match next with
           | None => c
           | Some arg =>
               let '(p, endp) := strtol arg 0 in
               if String.eqb endp EmptyString && (p >? 0) && (p <=? 65535)
               then set_rmap_port c (u32 p) else c
           end in
  mret (set_enable_rmap c true).

Definition monitor_error : ores bridge_cfg :=
  _ ← oprint "error: -M requires CHANNEL1:CHANNEL2, use e.g. -M 1:2\n" []; oexit EXIT_FAILURE.

(** [endp == chans] only when [strtol] has found no number *)
Definition opt_monitor (c : bridge_cfg) (arg : string) : ores bridge_cfg :=
  let '(chan1, endp) := strtol arg 0 in
  match endp with
  | String a chans =>
      if negb (Ascii.eqb a colon) || String.eqb endp arg then monitor_error else
      let '(chan2, endp) := strtol chans 0 in
      if negb (String.eqb endp EmptyString) || String.eqb endp chans then monitor_error else
      let c := set_channel c (u32 chan1) in
      let c := set_channel2 c (u32 chan2) in
      let c := set_link_id c (u32 chan1) in
      mret (set_enable_monitor c true)
  | EmptyString => monitor_error
  end.

Definition print_usage (c : bridge_cfg) : ores () := oprint "Usage" [].

(** the cases of the [switch] *)
Definition opt_step (c : bridge_cfg) (f : found) : ores bridge_cfg :=
  let with_arg (h : bridge_cfg -> string -> ores bridge_cfg) := arg ← olift (f_arg f); h c arg in
  match f_opt f with
  | "i" => with_arg opt_dev_num
  | "c" => with_arg opt_channel
  | "n" => with_arg opt_path
  | "p" => with_arg opt_port
  | "s" => with_arg opt_source
  | "r" => with_arg opt_client
  | "d" => with_arg opt_skip_header
  | "t" => with_arg opt_throttle
  | "S" => with_arg opt_link_speed
  | "L" => with_arg opt_link_id
  | "P" => opt_pus c
  | "D" => opt_pus_debug c
  | "N" => opt_short_debug c
  | "C" => opt_no_crc c
  | "F" => opt_fee c
  | "G" => opt_gresb c (f_arg f)
  | "u" => opt_udp c
  | "R" => opt_rmap c (f_next f)
  | "M" => with_arg opt_monitor
  | "E" => opt_rmap_debug c
  | "X" => opt_reset c
  | "W" => opt_sniff c (f_arg f)
  | _ => _ ← print_usage c; oexit 0
  end%char.

Fixpoint parse_options (c : bridge_cfg) (fs : list found) : ores bridge_cfg :=
  match fs with
  | [] => mret c
  | f :: fs => c ← opt_step c f; parse_options c fs
  end.

(** what [main] installs behind the options *)
Definition install_sink (c : bridge_cfg) : bridge_cfg :=
  set_pkt_sink c (Some (if enable_monitor c then SpwPktSinkMonitor else NetPktSink)).

End options.
