(* ===== verification/OptionsSpec.v ===== *)
(** * What the options do

    Every configuration [parse_options] returns satisfies what the rest of the
    bridge relies on; the path and the address of a remote target are read back
    as they were written. *)

From Stdlib Require Import String Ascii List.
From stdpp Require Import base tactics option list list_numbers.
From Stdlib Require Import ZArith Lia Bool.
From S2P Require Import Prelude.
From S2P Require Import CString.
From S2P Require Import Gresb.
From S2P Require Import Sys.
From S2P Require Import NetStart.
From S2P Require Import Options.

Local Open Scope Z_scope.

(** ** Postconditions *)

Definition opost {B} (m : ores B) (Q : B -> Prop) : Prop :=
  match m with ORet b _ => Q b | OExit _ _ => True | OStuck => False end.

Lemma opost_ret {B} (b : B) (Q : B -> Prop) : Q b -> opost (mret b) Q.
Proof. done. Qed.

Lemma opost_bind {B C} (m : ores B) (f : B -> ores C) P (Q : C -> Prop) :
  opost m P -> (forall b, P b -> opost (f b) Q) -> opost (m ≫= f) Q.
Proof.
  intros Hm Hf. destruct m as [b out| |]; [|done|done]. specialize (Hf b Hm). unfold mbind, ores_bind.
  by destruct (f b).
Qed.

Lemma opost_mono {B} (m : ores B) (P Q : B -> Prop) : opost m P -> (forall b, P b -> Q b) -> opost m Q.
Proof. destruct m; naive_solver. Qed.

(** a message in front *)
Lemma opost_print {B} s l (m : ores B) Q : opost m Q -> opost (_ ← oprint s l; m) Q.
Proof. intros H. by apply (opost_bind _ _ (fun _ => True)). Qed.

(** ** What every configuration satisfies *)

Record cfg_typed (c : bridge_cfg) : Prop := {
  ct_port : 0 < port c < 65536;
  ct_rmap_port : 0 < rmap_port c < 65536;
  ct_channel : 0 <= channel c < 4294967296;
  ct_channel2 : 0 <= channel2 c < 4294967296;
  ct_link_id : 0 <= link_id c < 4294967296;
  ct_gresb : 0 <= gresb_link c <= GRESB_VLINK_MAX;
  ct_dev : 0 <= dev_num c < 4294967296;
  ct_rate : 2 <= sig_rate c <= 400;
  ct_path : bytes (path c) /\ zlen (path c) = 256;
  ct_len : 0 <= path_len c <= 256;
  ct_skip : 0 <= skip_header_bytes c <= LONG_MAX;
  ct_throttle : 0 <= pkt_throttle_usec c < 4294967296;
  ct_host : host_ok (host c)
}.

(** [inet_ntop] writes dotted decimal numbers; either [freeaddrinfo] takes a null
    pointer, as the one of glibc does, or every name that resolves has an AF_INET
    address *)
Record ResolverOk (Rs : Resolver) : Prop := {
  rk_host s l a : r_getaddrinfo s = Some l -> In (Some a) l -> host_ok a;
  rk_free s l : r_getaddrinfo s = Some l -> r_free_null = true \/ inet_rest l <> []
}.

(** [getopt] sets [optarg] for the options that have an argument *)
Definition has_arg (a : ascii) : bool :=
  existsb (Ascii.eqb a) (list_ascii_of_string "icnpsrdtSLM").

Definition getopt_ok (f : found) : Prop := has_arg (f_opt f) = true -> is_Some (f_arg f).

(** ** Strings *)

Lemma strtol_range s b : LONG_MIN <= (strtol s b).1 <= LONG_MAX.
Proof.
  unfold strtol, LONG_MIN, LONG_MAX. destruct (scan b s) as [[[neg n] r]|]; simpl; [|lia].
  destruct neg; lia.
Qed.

Lemma u32_range x : 0 <= u32 x < 4294967296.
Proof. unfold u32. apply Z.mod_pos_bound. lia. Qed.

Lemma length_substring n s : (String.length (substring 0 n s) <= n)%nat.
Proof. revert n. induction s as [|a s IH]; intros [|n]; simpl; try lia. specialize (IH n). lia. Qed.

Lemma colon_free_substring n s : colon_free s = true -> colon_free (substring 0 n s) = true.
Proof.
  revert n. induction s as [|a s IH]; intros [|n]; try done. cbn [substring].
  rewrite !colon_free_cons. intros [-> H]%andb_true_iff. by rewrite IH.
Qed.

Lemma cut_colon_free s : colon_free (cut_colon s).1 = true.
Proof.
  induction s as [|a s IH]; [done|]. cbn [cut_colon]. destruct (Ascii.eqb a colon) eqn:E; [done|].
  destruct (cut_colon s) as [t r]. simpl in *. by rewrite colon_free_cons, E, IH.
Qed.

Lemma skip_colons_head s a r : skip_colons s = String a r -> Ascii.eqb a colon = false.
Proof.
  induction s as [|b s IH]; [done|]. cbn [skip_colons]. destruct (Ascii.eqb b colon) eqn:E; [done|].
  by intros [= <- _].
Qed.

(** a token is not empty and has no colon *)
Lemma strtok_token s t r : strtok s = (Some t, r) -> t <> EmptyString /\ colon_free t = true.
Proof.
  unfold strtok. destruct (skip_colons s) as [|a s'] eqn:E; [done|]. apply skip_colons_head in E.
  pose proof (cut_colon_free (String a s')) as Hf. destruct (cut_colon (String a s')) as [t' r'] eqn:Ec.
  intros [= <- <-]. split; [|done]. cbn [cut_colon] in Ec. rewrite E in Ec.
  destruct (cut_colon s') as [t1 r1]. injection Ec as <- _. discriminate.
Qed.

Lemma host_of_ok t : t <> EmptyString -> colon_free t = true -> host_ok (host_of t).
Proof.
  intros Hn Hc. unfold host_of. split; [by destruct t|].
  split; [by apply colon_free_substring|apply length_substring].
Qed.

Section options.
Context {Rs : Resolver} (Hrs : ResolverOk Rs).

Lemma first_inet_in l a : first_inet l = Some a -> In (Some a) l.
Proof using Type.
  unfold first_inet. induction l as [|[b|] l IH]; [done| |]; simpl; [intros [= ->]; by left|auto].
Qed.

Lemma resolve_ok arg h : host_ok h -> opost (resolve_host_addr arg h) host_ok.
Proof using Hrs.
  intros Hh. unfold resolve_host_addr. destruct (r_getaddrinfo arg) as [res|] eqn:E; [|done].
  cbv zeta. apply (opost_bind _ _ (fun _ => True)).
  { unfold freeaddrinfo. destruct (rk_free _ Hrs _ _ E) as [-> |Hn]; by destruct (inet_rest res). }
  intros [] _. apply opost_ret. destruct (first_inet res) as [a|] eqn:Ef.
  - eapply Hrs; [exact E|by apply first_inet_in].
  - destruct (strtok arg) as [[t|] r] eqn:Et; [|done]. apply strtok_token in Et as [].
    by apply host_of_ok.
Qed.

Lemma parse_port_ok arg : opost (parse_port arg) (fun p => forall x, p = Some x -> 0 < x < 65536).
Proof using Type.
  unfold parse_port. cbv zeta. destruct (_ || _) eqn:E; [by apply opost_print, opost_ret|].
  apply orb_false_iff in E as [E1 E2]. apply opost_ret. intros x [= <-]. unfold u32.
  rewrite Z.gtb_ltb in E2. apply Z.ltb_ge in E1, E2. rewrite Z.mod_small; lia.
Qed.

Lemma parse_nodes_ok nodes : forall p len, bytes p -> zlen p = 256 -> 0 <= len <= 256 ->
  opost (parse_nodes nodes p len 256)
    (fun '(p', len') => bytes p' /\ zlen p' = 256 /\ 0 <= len' <= 256).
Proof using Type.
  induction nodes as [|n nodes IH]; intros p len Hb Hz Hl; cbn [parse_nodes]; [done|].
  rewrite Z.geb_leb. destruct (Z.leb_spec 256 len); [by apply opost_print, opost_ret|]. cbv zeta.
  apply (opost_bind _ _ (fun _ => True)); [by destruct (_ || _)|]. intros [] _.
  rewrite wr_in by lia. cbn [olift]. apply (opost_bind _ _ (fun p' => bytes p' /\ zlen p' = 256)).
  - apply opost_ret. split; [|unfold zlen in *; by rewrite length_insert].
    apply Forall_insert; [done|]. apply u8_byte.
  - intros p' [Hb' Hz']. apply IH; [done|done|]. unfold u16. rewrite Z.mod_small by lia. lia.
Qed.

(** a member is changed, the other ones are kept *)
Ltac typed H := destruct H; split; simpl; try done; try apply u32_range.

Lemma opt_dev_num_ok c arg : cfg_typed c -> opost (opt_dev_num c arg) cfg_typed.
Proof using Type. intros H. apply opost_ret. typed H. Qed.

Lemma opt_channel_ok c arg : cfg_typed c -> opost (opt_channel c arg) cfg_typed.
Proof using Type. intros H. apply opost_ret. typed H. Qed.

Lemma opt_path_ok c arg : cfg_typed c -> opost (opt_path c arg) cfg_typed.
Proof using Type.
  intros H. unfold opt_path, parse_path. rewrite (proj2 (ct_path _ H)).
  eapply opost_bind; [apply parse_nodes_ok; apply H|]. intros [p len] (H1 & H2 & H3).
  apply opost_ret. by typed H.
Qed.

Lemma opt_port_ok c arg : cfg_typed c -> opost (opt_port c arg) cfg_typed.
Proof using Type.
  intros H. unfold opt_port. eapply opost_bind; [apply parse_port_ok|]. intros [x|] Hx; [|done].
  apply opost_ret. specialize (Hx x eq_refl). by typed H.
Qed.

Lemma opt_source_ok c arg : cfg_typed c -> opost (opt_source c arg) cfg_typed.
Proof using Hrs.
  intros H. unfold opt_source. eapply opost_bind; [by apply resolve_ok, H|]. intros h Hh.
  apply opost_ret. by typed H.
Qed.

Lemma opt_client_ok c arg : cfg_typed c -> opost (opt_client c arg) cfg_typed.
Proof using Hrs.
  intros H. unfold opt_client. cbv zeta. destruct (strtok arg) as [[node|] rest] eqn:E; [|done].
  apply strtok_token in E as [E1 E2]. pose proof (host_of_ok node E1 E2) as Hn.
  destruct ((strtok rest).1) as [p|]; [|done].
  eapply opost_bind; [apply parse_port_ok|]. intros [x|] Hx; [|done]. specialize (Hx x eq_refl).
  eapply opost_bind; [by apply resolve_ok|]. intros h Hh. apply opost_ret. by typed H.
Qed.

Lemma opt_skip_header_ok c arg : cfg_typed c -> opost (opt_skip_header c arg) cfg_typed.
Proof using Type.
  intros H. apply opost_ret. pose proof (strtol_range arg 0) as [_ Hr].
  assert (Hs : 0 <= u64 (if (strtol arg 0).1 <? 0 then 0 else (strtol arg 0).1) <= LONG_MAX).
  { unfold LONG_MAX, u64 in *. destruct (Z.ltb_spec (strtol arg 0).1 0); rewrite Z.mod_small; lia. }
  by typed H.
Qed.

Lemma opt_throttle_ok c arg : cfg_typed c -> opost (opt_throttle c arg) cfg_typed.
Proof using Type.
  intros H. unfold opt_throttle. cbv zeta. apply (opost_bind _ _ (fun _ => True)); [by destruct (_ <? _)|].
  intros x _. apply opost_ret. typed H.
Qed.

Lemma opt_link_speed_ok c arg : cfg_typed c -> opost (opt_link_speed c arg) cfg_typed.
Proof using Type.
  intros H. unfold opt_link_speed. cbv zeta. set (x := (strtoul arg 0).1). cbn [sig_rate set_sig_rate].
  destruct (_ || _) eqn:E; [done|]. apply orb_false_iff in E as [E1 E2].
  rewrite Z.gtb_ltb in E2. apply Z.ltb_ge in E1, E2. apply opost_ret. by typed H.
Qed.

Lemma opt_link_id_ok c arg : cfg_typed c -> opost (opt_link_id c arg) cfg_typed.
Proof using Type.
  intros H. unfold opt_link_id. cbv zeta. destruct (_ || _); [done|]. apply opost_ret. typed H.
Qed.

Lemma opt_gresb_ok c arg : cfg_typed c -> opost (opt_gresb c arg) cfg_typed.
Proof using Type.
  intros H. unfold opt_gresb. apply (opost_bind _ _ cfg_typed).
  - destruct arg as [arg|]; [|done]. destruct (strtol arg 0) as [link endp].
    destruct (_ || _) eqn:E; [done|]. apply orb_false_iff in E as [E E3]. apply orb_false_iff in E as [_ E2].
    rewrite Z.gtb_ltb in E3. apply Z.ltb_ge in E2, E3.
    assert (Hl : 0 <= u32 link <= GRESB_VLINK_MAX).
    { unfold u32, GRESB_VLINK_MAX in *. rewrite Z.mod_small; lia. }
    apply opost_ret. by typed H.
  - intros c' H'. apply opost_ret. typed H'.
Qed.

Lemma opt_sniff_ok c arg : cfg_typed c -> opost (opt_sniff c arg) cfg_typed.
Proof using Type.
  intros H. unfold opt_sniff. apply (opost_bind _ _ cfg_typed).
  - destruct arg as [arg|]; [|done]. destruct (negb _); [done|]. apply opost_ret. typed H.
  - intros c' H'. apply opost_ret. typed H'.
Qed.

Lemma opt_rmap_ok c next : cfg_typed c -> opost (opt_rmap c next) cfg_typed.
Proof using Type.
  intros H. unfold opt_rmap. cbv zeta. apply opost_ret.
  assert (Hc : cfg_typed (match next with
           | None => c
           | Some arg => let '(p, endp) := strtol arg 0 in
               if String.eqb endp EmptyString && (p >? 0) && (p <=? 65535)
               then set_rmap_port c (u32 p) else c end)).
  { destruct next as [arg|]; [|done]. destruct (strtol arg 0) as [p endp].
    destruct (_ && _ && _) eqn:E; [|done]. apply andb_true_iff in E as [E E3].
    apply andb_true_iff in E as [_ E2]. apply Z.leb_le in E3. rewrite Z.gtb_ltb in E2. apply Z.ltb_lt in E2.
    assert (Hp : 0 < u32 p < 65536) by (unfold u32; rewrite Z.mod_small; lia). by typed H. }
  typed Hc.
Qed.

Lemma opt_monitor_ok c arg : cfg_typed c -> opost (opt_monitor c arg) cfg_typed.
Proof using Type.
  intros H. unfold opt_monitor. destruct (strtol arg 0) as [chan1 [|a chans]]; [done|].
  destruct (_ || _); [done|]. destruct (strtol chans 0) as [chan2 endp]. destruct (_ || _); [done|].
  apply opost_ret. typed H.
Qed.

Lemma with_arg_ok (h : bridge_cfg -> string -> ores bridge_cfg) c o :
  (forall arg, opost (h c arg) cfg_typed) -> is_Some o ->
  opost (arg ← olift o; h c arg) cfg_typed.
Proof using Type.
  intros H [arg ->]. by apply (opost_bind _ _ (fun _ => True)).
Qed.

Lemma opt_step_ok c f : cfg_typed c -> getopt_ok f -> opost (opt_step c f) cfg_typed.
Proof using Hrs.
  intros H Hf. unfold getopt_ok in Hf. unfold opt_step. cbv zeta.
  destruct f as [a arg next]. cbn [f_opt f_arg f_next] in *.
  destruct a as [[] [] [] [] [] [] [] []]; try done; try (apply opost_ret; by typed H).
  all: first [ by apply opt_gresb_ok | by apply opt_sniff_ok | by apply opt_rmap_ok | idtac ].
  all: specialize (Hf eq_refl).
  all: apply with_arg_ok; [intros x|exact Hf].
  all: first [ by apply opt_dev_num_ok | by apply opt_channel_ok | by apply opt_path_ok
    | by apply opt_port_ok | by apply opt_source_ok | by apply opt_client_ok
    | by apply opt_skip_header_ok | by apply opt_throttle_ok | by apply opt_link_speed_ok
    | by apply opt_link_id_ok | by apply opt_monitor_ok ].
Qed.

Lemma parse_options_ok fs : forall c, cfg_typed c -> Forall getopt_ok fs ->
  opost (parse_options c fs) cfg_typed.
Proof using Hrs.
  induction fs as [|f fs IH]; intros c H Hf; cbn [parse_options]; [done|].
  inversion_clear Hf. eapply opost_bind; [by apply opt_step_ok|]. intros c' H'. by apply IH.
Qed.

Lemma init_typed p : bytes p -> zlen p = 256 -> cfg_typed (bridge_cfg_init p).
Proof using Type. intros Hb Hz. split; simpl; try done; split; simpl; [done|]; split; [done|lia]. Qed.

(** ** The link whose speed is set *)

(** what is returned, if it returns *)
Definition oret {B} (m : ores B) (Q : B -> Prop) : Prop := match m with ORet b _ => Q b | _ => True end.

Lemma oret_bind {B C} (m : ores B) (f : B -> ores C) (Q : C -> Prop) :
  (forall b, oret (f b) Q) -> oret (m ≫= f) Q.
Proof using Type.
  intros Hf. destruct m as [b out| |]; [|done|done]. specialize (Hf b). unfold mbind, ores_bind.
  by destruct (f b).
Qed.

(** one argument of -L, in its range *)
Definition link_arg (f : found) (x : Z) : Prop :=
  f_opt f = "L"%char /\ exists a, f_arg f = Some a /\ x = (strtol a 0).1 /\ 0 <= x <= 255.

(** an option leaves the link and the channel alone, or sets both to the same, or
    sets the link to its argument *)
Definition link_step (f : found) (c c' : bridge_cfg) : Prop :=
  link_id c' = link_id c /\ channel c' = channel c \/ link_id c' = channel c' \/ link_arg f (link_id c').

Ltac link_kept := repeat (apply oret_bind; intros ?); by left.

Lemma opt_client_link f c arg : oret (opt_client c arg) (link_step f c).
Proof using Type.
  unfold opt_client. cbv zeta. destruct (strtok arg) as [[node|] rest]; [|done].
  destruct ((strtok rest).1) as [p|]; [|done]. apply oret_bind. intros [x|]; [|done]. link_kept.
Qed.

Lemma opt_monitor_link f c arg : oret (opt_monitor c arg) (link_step f c).
Proof using Type.
  unfold opt_monitor. destruct (strtol arg 0) as [chan1 [|a chans]]; [done|].
  destruct (_ || _); [done|]. destruct (strtol chans 0) as [chan2 endp]. destruct (_ || _); [done|].
  right. by left.
Qed.

Lemma opt_link_id_link c a next : oret (opt_link_id c a) (link_step (mk_found "L" (Some a) next) c).
Proof using Type.
  unfold opt_link_id. cbv zeta. destruct (_ || _) eqn:E; [done|]. apply orb_false_iff in E as [E1 E2].
  rewrite Z.gtb_ltb in E2. apply Z.ltb_ge in E1, E2. right. right. split; [done|]. exists a. split; [done|].
  simpl. unfold u32. rewrite Z.mod_small; lia.
Qed.

Lemma opt_gresb_link f c arg : oret (opt_gresb c arg) (link_step f c).
Proof using Type.
  unfold opt_gresb. destruct arg as [arg|]; [|by left]. destruct (strtol arg 0) as [link endp].
  destruct (_ || _); [done|]. by left.
Qed.

Lemma opt_sniff_link f c arg : oret (opt_sniff c arg) (link_step f c).
Proof using Type. unfold opt_sniff. destruct arg as [arg|]; [|by left]. destruct (negb _); [done|]. by left. Qed.

Lemma opt_rmap_link f c next : oret (opt_rmap c next) (link_step f c).
Proof using Type.
  unfold opt_rmap. cbv zeta. left. destruct next as [arg|]; [|done]. destruct (strtol arg 0) as [p endp].
  by destruct (_ && _ && _).
Qed.

Lemma opt_port_link f c arg : oret (opt_port c arg) (link_step f c).
Proof using Type. unfold opt_port. apply oret_bind. intros [x|]; [by left|done]. Qed.

Lemma opt_path_link f c arg : oret (opt_path c arg) (link_step f c).
Proof using Type. unfold opt_path. apply oret_bind. intros [p len]. by left. Qed.

Lemma opt_link_speed_link f c arg : oret (opt_link_speed c arg) (link_step f c).
Proof using Type. unfold opt_link_speed. cbv zeta. destruct (_ || _); [done|]. by left. Qed.

Lemma oret_arg (h : bridge_cfg -> string -> ores bridge_cfg) c x (Q : bridge_cfg -> Prop) :
  oret (h c x) Q -> oret (arg ← olift (Some x); h c arg) Q.
Proof using Type. intros H. unfold mbind, ores_bind. cbn [olift]. simpl. by destruct (h c x). Qed.

Lemma opt_step_link c f : oret (opt_step c f) (link_step f c).
Proof using Type.
  unfold opt_step. cbv zeta. destruct f as [a arg next]. cbn [f_opt f_arg f_next].
  destruct a as [[] [] [] [] [] [] [] []]; try done; try by left.
  all: first [ apply opt_gresb_link | apply opt_sniff_link | apply opt_rmap_link | idtac ].
  all: destruct arg as [x|]; [|done]; apply oret_arg.
  all: first [ by left | by (right; left) | apply opt_path_link | apply opt_port_link | apply opt_client_link
    | apply opt_link_speed_link | apply opt_monitor_link | apply opt_link_id_link
    | unfold opt_source, opt_throttle; cbv zeta; link_kept ].
Qed.

(** [parse_options] takes the options one after the other *)
Lemma parse_options_link fs : forall c, oret (parse_options c fs) (fun c' =>
  link_id c' = link_id c /\ channel c' = channel c \/ link_id c' = channel c' \/
  exists f, f ∈ fs /\ link_arg f (link_id c')).
Proof using Type.
  induction fs as [|f fs IH]; intros c; cbn [parse_options]; [by left|].
  pose proof (opt_step_link c f) as Hf. destruct (opt_step c f) as [c1 out| |]; [|done|done]. simpl in Hf.
  specialize (IH c1). unfold mbind, ores_bind. destruct (parse_options c1 fs) as [c2 out'| |]; [|done|done].
  destruct IH as [[E1 E2]|[E|(g & Hg & Hl)]]; [|by (right; left)|].
  - simpl. rewrite E1, E2. destruct Hf as [H|[H|H]]; [by left|by (right; left)|right; right].
    exists f. split; [by left|done].
  - right. right. exists g. split; [by right|done].
Qed.

(** C30: Whatever options are given, in whatever order and however often, and
    whatever their arguments are, [parse_options] follows no null pointer and
    stores no node outside of the path, as far as [freeaddrinfo] takes what
    [resolve_host_addr] gives it ([ResolverOk]); it ends the process, or it returns
    a configuration in which the ports, the channels, the rate, the virtual
    link and the length of the path are in their ranges and the address is not
    empty, has no colon and fits its buffer.  The link whose speed is set is the
    channel, or the argument of an option -L, and that is from 0 to 255. *)
Theorem parse_options_typed fs p (Hb : bytes p) (Hz : zlen p = 256) (Hf : Forall getopt_ok fs) :
  match parse_options (bridge_cfg_init p) fs with
  | ORet c _ => cfg_typed c /\
      (link_id c = channel c \/
       exists f a, f ∈ fs /\ f_opt f = "L"%char /\ f_arg f = Some a /\
         link_id c = (strtol a 0).1 /\ 0 <= link_id c <= 255)
  | OExit _ _ => True
  | OStuck => False
  end.
Proof using Hrs.
  pose proof (parse_options_ok fs _ (init_typed p Hb Hz) Hf) as H1.
  pose proof (parse_options_link fs (bridge_cfg_init p)) as H2. revert H1 H2.
  destruct (parse_options _ fs) as [c out| |]; simpl; [|done|done]. intros H1 H2. split; [done|].
  destruct H2 as [[-> ->]|[H|(f & Hin & Ho & a & Ha & Hx & Hr)]]; [by left|by left|].
  right. by exists f, a.
Qed.

End options.

(** [freeaddrinfo] gets the pointer behind the loop: the addresses in front of the
    first AF_INET one stay allocated, and if there is none it gets null. *)
Theorem resolve_frees_rest {Rs : Resolver} arg h l : r_getaddrinfo arg = Some l ->
  (exists k, l = replicate k None ++ inet_rest l /\ (inet_rest l = [] \/ exists a r, inet_rest l = Some a :: r)) /\
  (inet_rest l = [] -> r_free_null = false -> resolve_host_addr arg h = OStuck).
Proof.
  intros E. split.
  - clear E. induction l as [|[a|] l (k & IH & Hr)]; [by exists 0%nat; split; [|left]|exists 0%nat|exists (S k)].
    + split; [done|]. right. by eexists _, _.
    + split; [simpl; by f_equal|done].
  - intros Hn Hf. unfold resolve_host_addr. rewrite E. cbv zeta. unfold mbind, ores_bind, freeaddrinfo. by rewrite Hn, Hf.
Qed.

Lemma resolve_frees_rest_witness : resolve_host_addr (Rs := {| r_getaddrinfo := fun _ => Some [None]; r_free_null := false |})
  "mars" "" = OStuck.
Proof.
  apply (resolve_frees_rest (Rs := {| r_getaddrinfo := fun _ => Some [None]; r_free_null := false |}) "mars" "" [None]);
    reflexivity.
Defined.

(** ** The path *)

(** [printf("%x", b)] of an octet *)
Definition hex_digit (d : Z) : ascii := ascii_of_N (Z.to_N (if d <? 10 then 48 + d else 87 + d)).

Definition hex (b : Z) : string :=
  if b <? 16 then String (hex_digit b) EmptyString
  else String (hex_digit (b / 16)) (String (hex_digit (b mod 16)) EmptyString).

(** what [print_path] of spw.c prints behind the number of nodes *)
Fixpoint join (ts : list string) : string :=
  match ts with [] => EmptyString | t :: ts => (t ++ String colon (join ts))%string end.

Definition path_text (nodes : list Z) : string := String colon (join (map hex nodes)).

Definition hex_good (b : Z) : bool :=
  let '(v, r) := strtol (hex b) 16 in
  (v =? b) && colon_free (hex b) && negb (String.eqb (hex b) EmptyString).

Lemma hex_all : forallb hex_good (seqZ 0 256) = true.
Proof. vm_compute. reflexivity. Qed.

Lemma hex_ok b : is_byte b ->
  (strtol (hex b) 16).1 = b /\ colon_free (hex b) = true /\ hex b <> EmptyString.
Proof.
  intros Hb. pose proof hex_all as H. rewrite forallb_forall in H. specialize (H b).
  unfold hex_good in H. destruct (strtol (hex b) 16) as [v r].
  assert (Hin : In b (seqZ 0 256)) by (apply list_elem_of_In, elem_of_seqZ; unfold is_byte in Hb; lia).
  specialize (H Hin). apply andb_true_iff in H as [H H3]. apply andb_true_iff in H as [H1 H2].
  apply Z.eqb_eq in H1. apply negb_true_iff, String.eqb_neq in H3. done.
Qed.

Lemma tokens_join ts : forall fuel, (length ts < fuel)%nat ->
  Forall (fun t => t <> EmptyString /\ colon_free t = true) ts -> tokens fuel (join ts) = ts.
Proof.
  induction ts as [|t ts IH]; intros [|fuel] Hf Ht; simpl in Hf; try lia; [done|].
  inversion_clear Ht as [|? ? [Hn Hc] Hts]. cbn [tokens join]. destruct t as [|a t]; [done|].
  rewrite strtok_first by done. by rewrite IH by (done || lia).
Qed.

Lemma length_join ts : (length ts <= String.length (join ts))%nat.
Proof.
  induction ts as [|t ts IH]; [done|]. cbn [join length]. rewrite length_append. cbn [String.length]. lia.
Qed.

Lemma tokens_colon fuel s : tokens fuel (String colon s) = tokens fuel s.
Proof. by destruct fuel. Qed.

Lemma tokens_path nodes : bytes nodes ->
  tokens (S (String.length (path_text nodes))) (path_text nodes) = map hex nodes.
Proof.
  intros Hb. unfold path_text at 2. rewrite tokens_colon. apply tokens_join.
  - unfold path_text. cbn [String.length]. pose proof (length_join (map hex nodes)). lia.
  - induction Hb as [|b nodes Hb _ IH]; [done|]. constructor; [|done]. by destruct (hex_ok b Hb) as (_ & ? & ?).
Qed.

Lemma take_insert_next (p : list Z) n b : (n < length p)%nat -> take (S n) (<[n := b]> p) = take n p ++ [b].
Proof.
  intros Hn. rewrite (take_S_r _ _ b) by (by apply list_lookup_insert_eq). by rewrite take_insert_ge by lia.
Qed.

Lemma parse_nodes_run nodes : forall p len, bytes nodes -> zlen p = 256 -> 0 <= len ->
  len + zlen nodes <= 256 ->
  parse_nodes (map hex nodes) p len 256 =
    ORet (take (Z.to_nat len) p ++ nodes ++ drop (Z.to_nat (len + zlen nodes)) p, len + zlen nodes) [].
Proof.
  induction nodes as [|b nodes IH]; intros p len Hb Hz Hl Hn.
  { cbn [map parse_nodes]. rewrite zlen_nil, Z.add_0_r, app_nil_l, take_drop. done. }
  inversion_clear Hb as [|? ? Hb1 Hbs]. rewrite zlen_cons in Hn |- *. pose proof (zlen_nonneg nodes).
  cbn [map parse_nodes]. rewrite Z.geb_leb, (proj2 (Z.leb_gt 256 len)) by lia. cbv zeta.
  destruct (hex_ok b Hb1) as (-> & _ & _). pose proof Hb1 as Hr. unfold is_byte in Hr.
  rewrite (proj2 (Z.ltb_ge b 0)), Z.gtb_ltb, (proj2 (Z.ltb_ge 255 b)) by lia. cbn [orb].
  rewrite wr_in by lia. rewrite !u8_small by (rewrite ?u8_small by done; done).
  assert (E : u16 (len + 1) = len + 1) by (apply u16_small; unfold is_u16; lia). rewrite E.
  set (p' := <[Z.to_nat len := b]> p). unfold zlen in Hz.
  assert (Hz' : zlen p' = 256) by (unfold p', zlen; by rewrite length_insert).
  cbn [olift]. unfold mbind, ores_bind, mret, ores_ret.
  rewrite (IH p' (len + 1)) by (done || lia). rewrite app_nil_l. f_equal.
  f_equal; [|lia]. rewrite Z2Nat.inj_add, Nat.add_1_r by lia. unfold p'.
  rewrite take_insert_next by lia. rewrite <- app_assoc. f_equal. cbn [app]. f_equal. f_equal.
  rewrite drop_insert_lt by lia. f_equal. lia.
Qed.

(** The path printed when the device is set up is accepted by the option
    -n: parsing the text of a path (":5:fe:...:") puts exactly these nodes behind
    the ones already set, as long as they fit, and prints nothing; so a path
    given once is read back, and -n given twice appends. *)
Theorem opt_path_appends c nodes (Hn : bytes nodes) (Hz : zlen (path c) = 256) (Hl : 0 <= path_len c)
    (Hfit : path_len c + zlen nodes <= 256) :
  exists c', opt_path c (path_text nodes) = ORet c' [] /\
    path_len c' = path_len c + zlen nodes /\
    path c' = take (Z.to_nat (path_len c)) (path c) ++ nodes ++
              drop (Z.to_nat (path_len c + zlen nodes)) (path c).
Proof.
  unfold opt_path, parse_path. rewrite tokens_path, Hz by done. rewrite parse_nodes_run by done.
  eexists. split; [reflexivity|]. done.
Qed.

Definition ex_init : bridge_cfg := bridge_cfg_init (replicate 256 0).

Lemma opt_path_appends_witness :
  path_text [5; 0xfe] = ":5:fe:"%string /\
  exists c', opt_path ex_init ":5:fe:" = ORet c' [] /\ path_len c' = 2 /\ take 2 (path c') = [5; 0xfe].
Proof.
  split; [reflexivity|].
  destruct (opt_path_appends ex_init [5; 0xfe]) as (c' & E & Hl & Hp).
  - apply bytes_check. reflexivity.
  - reflexivity.
  - done.
  - done.
  - exists c'. split; [exact E|]. split; [exact Hl|]. by rewrite Hp.
Defined.

(** ** The remote target *)

(** a positive number has no leading zero *)
Lemma dec_loop_head_pos fuel : forall n r, 0 < n < 10 ^ Z.of_nat (S fuel) ->
  exists d t, dec_loop (S fuel) n r = String (digit d) t /\ 0 < d < 10.
Proof.
  induction fuel as [|fuel IH]; intros n r Hn; cbn [dec_loop].
  - exists (n mod 10), r. change (10 ^ Z.of_nat 1) with 10 in Hn. rewrite Z.mod_small by lia.
    split; [by destruct (_ =? _)|lia].
  - destruct (Z.eqb_spec (n / 10) 0) as [E|E].
    + exists (n mod 10), r. split; [done|]. dlia.
    + apply (IH (n / 10)). rewrite Nat2Z.inj_succ, Z.pow_succ_r in Hn by lia. dlia.
Qed.

(** [strtol] with base 0 reads a positive decimal number as one *)
Lemma strtol_dec n : 0 < n <= LONG_MAX -> strtol (dec n) 0 = (n, EmptyString).
Proof.
  unfold LONG_MAX. intros Hn. assert (Hs : scan 0 (dec n) = scan 10 (dec n)).
  { unfold dec. destruct (dec_loop_head_pos 19 n EmptyString) as (d & t & -> & Hd).
    { change (10 ^ Z.of_nat 20) with 100000000000000000000. lia. }
    unfold scan. cbn [skip_space].
    assert (Es : is_space (digit d) = false) by (unfold is_space; rewrite digit_code by lia; lia).
    rewrite Es. unfold sign. rewrite digit_code by lia.
    rewrite (proj2 (Z.eqb_neq (48 + d) 45)), (proj2 (Z.eqb_neq (48 + d) 43)) by lia.
    assert (Eb : base_of 0 (String (digit d) t) = (10, String (digit d) t)).
    { unfold base_of, hex_prefix. simpl (_ || _). cbv iota. rewrite digit_code by lia.
      rewrite (proj2 (Z.eqb_neq (48 + d) 48)) by lia. cbn [andb]. by destruct t as [|? [|? ?]]. }
    by rewrite Eb. }
  unfold strtol. rewrite Hs, scan_dec by lia. unfold LONG_MIN, LONG_MAX. f_equal. lia.
Qed.

Lemma parse_port_dec n : 0 < n < 65536 -> parse_port (dec n) = ORet (Some n) [].
Proof.
  intros Hn. unfold parse_port. rewrite strtol_dec by (unfold LONG_MAX; lia). cbn [fst]. cbv zeta.
  rewrite (proj2 (Z.ltb_ge n 1)), Z.gtb_ltb, (proj2 (Z.ltb_ge 65535 n)) by lia. cbn [orb].
  unfold u32. by rewrite Z.mod_small by lia.
Qed.

Lemma cut_first_url h r : colon_free h = true -> h <> EmptyString ->
  cut_first (h ++ String colon r) = h.
Proof.
  destruct h as [|a h]; [done|]. intros Hc _. pose proof Hc as Ha. rewrite colon_free_cons in Ha.
  apply andb_true_iff in Ha as [Ha _]. apply negb_true_iff in Ha.
  assert (E : cut_first (String a h ++ String colon r) = (cut_colon (String a h ++ String colon r)).1).
  { simpl. by rewrite Ha. }
  by rewrite E, cut_colon_app.
Qed.

(** The option -r with the text "address:port": when the address resolves,
    the bridge is in client mode, the port is the one written, and the host is
    the first IPv4 address the resolver knows, or the address as it was given;
    nothing is printed and no other member changes.  When the address does not
    resolve, the process ends with the failure code.  When it resolves to addresses of
    other families only, [freeaddrinfo] gets the null pointer the loop ended with. *)
Theorem opt_client_sets {Rs : Resolver} c h p (Hh : host_ok h) (Hp : 0 < p < 65536) :
  opt_client c (make_url h p) =
    match r_getaddrinfo h with
    | Some res =>
        if r_free_null || negb (bool_decide (inet_rest res = [])) then
          ORet (set_host (set_port (set_mode c MODE_CLIENT) p) (default h (first_inet res))) []
        else OStuck
    | None => OExit EXIT_FAILURE [("error in getaddrinfo: %s\n"%string, [])]
    end.
Proof.
  rewrite make_url_whole by done. destruct Hh as (Hn & Hc & Hl). unfold opt_client.
  destruct h as [|a h]; [done|]. rewrite strtok_first, strtok_dec by (done || lia). cbn [fst].
  rewrite parse_port_dec by lia. rewrite cut_first_url by done.
  unfold mbind, ores_bind, resolve_host_addr. destruct (r_getaddrinfo (String a h)) as [res|]; [|done].
  cbn [mret ores_ret oprint olift]. rewrite strtok_last by done. cbn [fst].
  unfold host_of, freeaddrinfo, first_inet. rewrite substring_all by lia.
  destruct (inet_rest res) as [|[x|] l]; [by destruct r_free_null|by rewrite orb_true_r..].
Qed.

(** a resolver that knows one name, with an IPv6 and an IPv4 address *)
#[export] Instance ex_resolver : Resolver :=
  {| r_getaddrinfo := fun s => if String.eqb s "mars" then Some [None; Some "10.0.0.7"%string] else None;
     r_free_null := false |}.

Lemma opt_client_sets_witness :
  opt_client ex_init "mars:4000" =
    ORet (set_host (set_port (set_mode ex_init MODE_CLIENT) 4000) "10.0.0.7") [].
Proof.
  assert (Hh : host_ok "mars") by (split; [discriminate|]; split; [reflexivity|simpl; lia]).
  exact (opt_client_sets ex_init "mars" 4000 Hh ltac:(lia)).
Defined.

Lemma ex_resolver_ok : ResolverOk ex_resolver.
Proof.
  split.
  - intros s l a. simpl. destruct (String.eqb s "mars"); [|done].
    intros [= <-] [|[[= <-]|[]]]; [done|]. split; [discriminate|]. split; [reflexivity|simpl; lia].
  - intros s l. simpl. destruct (String.eqb s "mars"); [|done]. intros [= <-]. by right.
Qed.

Definition ex_found (a : ascii) (arg : string) : found := mk_found a (Some arg) None.

Lemma parse_options_typed_witness : exists c,
  parse_options ex_init [ex_found "c" "2"; ex_found "L" "3"; ex_found "n" "05:fe"; ex_found "r" "mars:4000"] = ORet c [] /\
    cfg_typed c /\ channel c = 2 /\ link_id c = 3 /\
    exists f a, f ∈ [ex_found "c" "2"; ex_found "L" "3"; ex_found "n" "05:fe"; ex_found "r" "mars:4000"] /\
      f_opt f = "L"%char /\ f_arg f = Some a /\ link_id c = (strtol a 0).1.
Proof.
  assert (Hf : Forall getopt_ok [ex_found "c" "2"; ex_found "L" "3"; ex_found "n" "05:fe"; ex_found "r" "mars:4000"]).
  { repeat (apply Forall_cons_2; [by intros _; eexists|]). apply Forall_nil_2. }
  pose proof (parse_options_typed ex_resolver_ok [ex_found "c" "2"; ex_found "L" "3"; ex_found "n" "05:fe";
    ex_found "r" "mars:4000"] (replicate 256 0) (bytes_check (replicate 256 0) eq_refl) eq_refl Hf) as H.
  fold ex_init in H.
  destruct (parse_options ex_init _) as [c out| |] eqn:E; vm_compute in E; try discriminate.
  injection E as <- <-. eexists. split; [reflexivity|]. destruct H as [H1 [H2|(f & a & H2 & H3 & H4 & H5 & _)]].
  - vm_compute in H2. discriminate H2.
  - split; [exact H1|]. split; [reflexivity|]. split; [reflexivity|]. exists f, a. split; [exact H2|].
    split; [exact H3|]. split; [exact H4|exact H5].
Defined.
