(* ===== verification/Debug.v ===== *)
(** * The debug printouts

    [pus_debug_print] of src/spw_bridge.c and [spw_debug_print] of src/spw.c,
    which net.c and spw.c call with every packet. The result is what is printed,
    a format string and its arguments per call of [printf] (the time stamp of
    the first line is left out); [None] is a read outside of the packet. *)

From Stdlib Require Import String List.
From stdpp Require Import base tactics option list list_numbers.
From Stdlib Require Import ZArith Lia Bool.
From S2P Require Import Prelude.
From S2P Require Import Ccsds.
From S2P Require Import Crc16.
From S2P Require Import Bitman.
From S2P Require Import Ecss.
From S2P Require Import Rmap.
From S2P Require Import Pus.
From S2P Require Import Sys.
From S2P Require Import NetConn.
From S2P Require Import NetRecv.

Local Open Scope Z_scope.
Local Open Scope cmem_scope.

Definition line : Type := string * list Z.

(** the loop of both payload printouts: the octets [is] behind [off] *)
Fixpoint dump_loop (pkt : ptr) (off : Z) (is_ : list Z) : option (list line) :=
  match is_ with
  | [] => Some []
  | i :: is_ =>
      x ← pkt.[off + i];
      out ← dump_loop pkt off is_;
      Some (("%02x "%string, [x]) ::
            (if Z.land i 0xf =? 0xf then [("\n"%string, [])] else []) ++ out)
  end.

(** a payload of [n] octets behind [off] *)
Definition dump (pkt : ptr) (off n : Z) : option (list line) :=
  out ← dump_loop pkt off (seqZ 0 n);
  Some (("  payload (%zu bytes):\n"%string, [n]) :: out ++
        (if c_true n && c_true (Z.land n 0xf) then [("\n"%string, [])] else []) ++ [("\n"%string, [])]).

Definition rmap_line (p : rmap_pkt) : line :=
  ("  RMAP: %s %s dst=0x%02x key=0x%02x src=0x%02x tr_id=%u addr=0x%08x data_len=%u hdr_crc=0x%02x data_crc=0x%02x\n"%string,
   [ri_cmd_resp (instruction p); Z.land (ri_cmd (instruction p)) RMAP_CMD_BIT_WRITE; dst p; key p; src p;
    tr_id p; addr p; data_len p; hdr_crc p; data_crc p]).

(** the decoded header, on request *)
Definition rmap_lines (cfg : bridge_cfg) (al : allocs) (pkt : ptr) (len : Z) : option (list line) :=
  if interpret_rmap cfg then
    '(_, p) ← rmap_pkt_from_buffer al 0 pkt len;
    Some (match p with Some p => [rmap_line p] | None => [] end)
  else Some [].

Definition spw_debug_print (cfg : bridge_cfg) (al : allocs) (dir : string) (pkt : ptr) (len : Z)
  : option (list line) :=
  if negb (pus_debug cfg) then Some [] else
  r ← rmap_lines cfg al pkt len;
  d ← (if debug_short cfg then Some [] else dump pkt 0 len);
  Some ((dir, []) :: r ++ d).

(** the secondary header of a PUS C packet *)
Definition pus_c_lines (tmtc : Z) (pkt : ptr) : option (list line) :=
  if c_true tmtc then
    st ← ecss_get_service_type pkt;
    sst ← ecss_get_sub_service_type pkt;
    id ← ecss_get_source_id pkt;
    a3 ← ecss_get_exec_compl_ack pkt;
    a2 ← ecss_get_exec_progr_ack pkt;
    a1 ← ecss_get_exec_start_ack pkt;
    a0 ← ecss_get_pkt_accept_ack pkt;
    Some [("  PUS-C: ST=%u SST=%u source_id=0x%04x ACK=0b%u%u%u%u\n"%string, [st; sst; id; a3; a2; a1; a0])]
  else
    tref ← ecss_get_sc_time_ref_status pkt;
    st ← ecss_get_service_type pkt;
    sst ← ecss_get_sub_service_type pkt;
    cnt ← ecss_get_msg_type_cntr pkt;
    id ← ecss_get_destination_id pkt;
    '(ret, ts) ← ecss_get_timestamp pkt (At (replicate (Z.to_nat PUS_C_TM_TIME_OCTETS) 0));
    tl ← (if ret <? 0 then Some ("unavailable"%string, [])
          else match ts with NULL => None | At ts => Some ("%02x:%02x:%02x:%02x:%02x:%02x"%string, ts) end);
    Some [("  PUS-C: ST=%u SST=%u MTC=%u DEST_ID=0x%04X T_REF_STS=%u%u%u%u TS="%string,
           [st; sst; cnt; id; Z.land (Z.shiftr tref 3) 1; Z.land (Z.shiftr tref 2) 1;
            Z.land (Z.shiftr tref 1) 1; Z.land tref 1]); tl; ("\n"%string, [])].

(** the payload, as far as it was received *)
Definition pus_payload (pkt : ptr) (len : Z) : option (list line) :=
  pld_len ← ecss_get_pld_size pkt;
  bits ← ecss_get_payload_offset pkt;
  let pld_off := bits / 8 in
  if pld_off >=? len then
    Some [("  payload missing (%zu declared, header offset %zu)\n"%string, [pld_len; pld_off])]
  else
  let avail := len - pld_off in
  let short := pld_len >? avail in
  d ← dump pkt pld_off (if short then avail else pld_len);
  Some ((if short then [("  payload truncated: %zu declared, %zu received\n"%string, [pld_len; avail])]
         else []) ++ d).

(** a PUS C packet *)
Definition pus_c_print (cfg : bridge_cfg) (L : lut) (tmtc : Z) (pkt : ptr) (len : Z) : option (list line) :=
  h ← pus_c_lines tmtc pkt;
  c ← (if crc_check cfg then
         v ← pus_pkt_crc_valid L pkt len; Some [("  CRC=%s\n"%string, [v])]
       else Some []);
  d ← (if debug_short cfg then Some [("\n"%string, [])] else pus_payload pkt len);
  Some (h ++ c ++ d).

Definition pus_debug_print (cfg : bridge_cfg) (L : lut) (dir : string) (pkt : ptr) (len : Z)
  : option (list line) :=
  if negb (pus_debug cfg) || negb (interpret_pus cfg) then Some [] else
  if len <? 6 then Some [(dir, []); ("  short packet (%zu bytes), not a CCSDS packet\n"%string, [len])] else
  tmtc ← ccsds_get_pkt_type pkt;
  apid ← ccsds_get_apid pkt;
  flags ← ccsds_get_seq_flags pkt;
  cnt ← ccsds_get_seq_cnt pkt;
  n ← ccsds_get_data_len pkt;
  let front := [(dir, []); ("  CCSDS: type=%s APID=0x%03X seq_flags=%u seq_count=%u data_len=%u\n"%string,
                            [tmtc; apid; flags; cnt; n])] in
  valid ← ecss_is_pkt_valid pkt;
  if negb (c_true valid) then Some (front ++ [("  not a valid ECSS PUS packet\n"%string, [])]) else
  v ← ecss_get_pkt_version pkt;
  if negb (v =? PUS_C_VERSION) then Some (front ++ [("  not a PUS-C packet (PUS version %u)\n"%string, [v])])
  else
  out ← pus_c_print cfg L tmtc pkt len;
  Some (front ++ out).
