(* ===== verification/DebugSpec.v ===== *)
(** * What the debug printouts read

    [spw_debug_print] reads the packet only, and prints every octet of it once.
    [pus_debug_print] looks at the secondary header whatever the length of the
    packet is; the theorem says exactly when it stays inside the packet. *)

From Stdlib Require Import String List.
From stdpp Require Import base tactics option list list_numbers.
From Stdlib Require Import ZArith Lia Bool.
From S2P Require Import Prelude.
From S2P Require Import Ccsds.
From S2P Require Import Crc16.
From S2P Require Import Bitman.
From S2P Require Import Ecss.
From S2P Require Import Rmap.
From S2P Require Import Pus.
From S2P Require Import Sys.
From S2P Require Import NetConn.
From S2P Require Import NetRecv.
From S2P Require Import NetSpec.
From S2P Require Import Debug.

Local Open Scope Z_scope.

(** ** The payload printout *)

(** the octets a printout shows *)
Definition dumped (out : list line) : list Z :=
  concat (map (fun l => if String.eqb l.1 "%02x " then l.2 else []) out).

Lemma dumped_app l k : dumped (l ++ k) = dumped l ++ dumped k.
Proof. unfold dumped. by rewrite map_app, concat_app. Qed.

Lemma dumped_cons x l : dumped (x :: l) = (if String.eqb x.1 "%02x " then x.2 else []) ++ dumped l.
Proof. done. Qed.

Lemma load_at b i x : 0 <= i -> b !! Z.to_nat i = Some x -> load (At b) i = Some x.
Proof. intros Hi Hx. unfold load, rd. by rewrite (proj2 (Z.leb_le 0 i)) by done. Qed.

Lemma dump_loop_run b off n : forall i, 0 <= off -> 0 <= i -> off + i + Z.of_nat n <= zlen b ->
  exists out, dump_loop (At b) off (seqZ i (Z.of_nat n)) = Some out /\
    dumped out = take n (drop (Z.to_nat (off + i)) b).
Proof.
  induction n as [|n IH]; intros i Ho Hi Hn; [by exists []|].
  rewrite seqZ_cons by lia. replace (Z.pred (Z.of_nat (S n))) with (Z.of_nat n) by lia. cbn [dump_loop].
  destruct (lookup_lt_is_Some_2 b (Z.to_nat (off + i))) as [x Hx]; [unfold zlen in Hn; lia|].
  rewrite (load_at b (off + i) x) by (done || lia). cbn [mbind option_bind].
  destruct (IH (Z.succ i)) as (out & E & Hd); [done|lia|lia|]. rewrite E. cbn [mbind option_bind].
  eexists. split; [reflexivity|]. rewrite (drop_S _ x) by done. cbn [take].
  rewrite dumped_cons, dumped_app, Hd. cbn [fst snd].
  replace (Z.to_nat (off + Z.succ i)) with (S (Z.to_nat (off + i))) by lia.
  by destruct (_ =? _).
Qed.

Lemma dump_run b off n : 0 <= off -> 0 <= n -> off + n <= zlen b ->
  exists out, dump (At b) off n = Some out /\ dumped out = take (Z.to_nat n) (drop (Z.to_nat off) b).
Proof.
  intros Ho Hn Hl. unfold dump.
  destruct (dump_loop_run b off (Z.to_nat n) 0) as (out & E & Hd); [done|done|lia|].
  rewrite Z2Nat.id in E by done. rewrite E. cbn [mbind option_bind]. eexists. split; [reflexivity|].
  rewrite dumped_cons, !dumped_app, Hd, Z.add_0_r. cbn [fst snd String.eqb Ascii.eqb Bool.eqb].
  by destruct (_ && _); rewrite app_nil_r.
Qed.

(** [spw_debug_print] never reads outside of the packet, whatever it
    contains and whether memory suffices to decode it or not; unless the short
    form is on, the payload printout shows every octet of the packet exactly
    once and in order. *)
Theorem spw_debug_print_dumps cfg al dir b (Hb : bytes b) (Hcolon : String.eqb dir "%02x " = false) :
  exists out, spw_debug_print cfg al dir (At b) (zlen b) = Some out /\
    dumped out = if pus_debug cfg && negb (debug_short cfg) then b else [].
Proof.
  unfold spw_debug_print. destruct (pus_debug cfg); [|by exists []]. cbn [negb andb].
  assert (Hr : exists r, rmap_lines cfg al (At b) (zlen b) = Some r /\ dumped r = []).
  { unfold rmap_lines. destruct (interpret_rmap cfg); [|by exists []].
    destruct (from_buffer_safe al 0 b (zlen b) Hb) as (cnt & p & -> & _); [lia|]. cbn [mbind option_bind].
    eexists. split; [reflexivity|]. by destruct p. }
  destruct Hr as (r & -> & Hr). cbn [mbind option_bind].
  destruct (debug_short cfg); cbn [mbind option_bind negb].
  - eexists. split; [reflexivity|]. rewrite dumped_cons, dumped_app, Hr. cbn [fst]. by rewrite Hcolon.
  - pose proof (zlen_nonneg b). destruct (dump_run b 0 (zlen b)) as (out & -> & Ho); [lia|lia|lia|].
    cbn [mbind option_bind]. eexists. split; [reflexivity|].
    rewrite dumped_cons, dumped_app, Hr, Ho. cbn [fst]. rewrite Hcolon. unfold zlen.
    by rewrite Nat2Z.id, drop_0, firstn_all.
Qed.

(** ** The PUS printout *)

(** the octets of a packet that [pus_debug_print] relies on, given the primary
    header and the version nibble of the secondary one *)
Definition needed (h : spp_hdr) (v : Z) : Z :=
  if negb (spp_ver h =? 0) || (spp_sec h =? 0) then 6
  else if negb (v =? 2) then 7
  else 6 + sec_size (spp_type h).

Lemma is_some_bind {B C} (o : option B) (f : B -> option C) :
  is_Some (o ≫= f) <-> exists b, o = Some b /\ is_Some (f b).
Proof.
  destruct o as [b|]; cbn [mbind option_bind]; split.
  - intros H. by exists b.
  - intros (b' & [= ->] & H). done.
  - intros [? H]. discriminate.
  - by intros (b' & H & _).
Qed.

Lemma rd_some r i : 0 <= i -> is_Some (rd r i) <-> i < zlen r.
Proof.
  intros Hi. split.
  - intros [x Hx]. destruct (Z.lt_ge_cases i (zlen r)); [done|]. by rewrite rd_out in Hx.
  - intros H. destruct (rd_in r i) as [x ->]; [lia|by eexists].
Qed.

Lemma be16_some r k : 0 <= k -> is_Some (be16_at r k) <-> k + 1 < zlen r.
Proof.
  intros Hk. unfold be16_at. rewrite is_some_bind. split.
  - intros (hi & _ & H). rewrite is_some_bind in H. destruct H as (lo & H & _).
    apply (rd_some r (k + 1)); [lia|by eexists].
  - intros H. destruct (rd_in r k) as [hi Hhi]; [lia|]. exists hi. split; [done|].
    destruct (rd_in r (k + 1)) as [lo ->]; [lia|by eexists].
Qed.

(** the secondary header of a telecommand *)
Lemma tc_lines_some f r : prim f 1 ->
  is_Some (pus_c_lines 1 (At (f ++ r))) <-> 5 <= zlen r.
Proof.
  intros Hp. unfold pus_c_lines. change (c_true 1) with true. cbv iota.
  unfold ecss_get_exec_compl_ack, ecss_get_exec_progr_ack, ecss_get_exec_start_ack, ecss_get_pkt_accept_ack.
  rewrite (st_sec f 1), (sst_sec f 1), src_sec, ack_sec by done. split.
  - intros H. do 2 (apply is_some_bind in H as (? & _ & H)). apply is_some_bind in H as (? & H & _).
    assert (Hs : is_Some (be16_at r 3)) by (by eexists). apply be16_some in Hs; lia.
  - intros Hl. destruct (rd_in r 1) as [x1 ->]; [lia|]. destruct (rd_in r 2) as [x2 ->]; [lia|].
    destruct (be16_some r 3) as [_ H3]; [done|]. destruct H3 as [x3 ->]; [lia|].
    destruct (rd_in r 0) as [x0 ->]; [lia|]. cbn [mbind option_bind].
    set (a := Z.shiftr _ 0). destruct (a =? u8 (-1)); [by eexists|].
    destruct (c_true (Z.land a PUS_ACK_EXEC_COMPL)), (c_true (Z.land a PUS_ACK_EXEC_PROGR)),
      (c_true (Z.land a PUS_ACK_EXEC_START)), (c_true (Z.land a PUS_ACK_PKT_ACCEPT)); by eexists.
Qed.

(** the secondary header of a telemetry packet *)
Lemma tm_lines_some f r : prim f 0 -> ecss_get_pkt_version (At (f ++ r)) = Some 2 ->
  is_Some (pus_c_lines 0 (At (f ++ r))) <-> 13 <= zlen r.
Proof.
  intros Hp Hv. unfold pus_c_lines. change (c_true 0) with false. cbv iota.
  rewrite tref_sec, (st_sec f 0), (sst_sec f 0), cnt_sec, dest_sec by done. split.
  - intros H. do 5 (apply is_some_bind in H as (? & _ & H)). apply is_some_bind in H as (y & H & _).
    rewrite timestamp_sec in H by done. unfold rdn in H. destruct (Z.leb_spec (7 + 6) (zlen r)); [lia|].
    by rewrite andb_false_r in H.
  - intros Hl. destruct (rd_in r 0) as [x0 ->]; [lia|]. destruct (rd_in r 1) as [x1 ->]; [lia|].
    destruct (rd_in r 2) as [x2 ->]; [lia|].
    destruct (proj2 (be16_some r 3 ltac:(lia)) ltac:(lia)) as [x3 ->].
    destruct (proj2 (be16_some r 5 ltac:(lia)) ltac:(lia)) as [x5 ->]. cbn [mbind option_bind].
    rewrite timestamp_sec by done. rewrite rdn_in by lia. cbn [mbind option_bind].
    set (ts := take _ (drop _ r)). assert (Hts : zlen ts = 6).
    { unfold ts, zlen in *. rewrite length_take, length_drop. lia. }
    assert (Hw : wrn (replicate (Z.to_nat PUS_C_TM_TIME_OCTETS) 0) 0 ts = Some ts).
    { unfold wrn. rewrite Hts. simpl. f_equal. rewrite drop_ge; [by rewrite app_nil_r|].
      unfold zlen in Hts. simpl. lia. }
    rewrite Hw. cbn [mbind option_bind]. by eexists.
Qed.

Lemma decode_front f r h : length f = 6%nat -> spp_decode f = Some h -> spp_decode (f ++ r) = Some h.
Proof. intros Hl Hd. do 6 (destruct f as [|? f]; [done|]). destruct f; [|done]. exact Hd. Qed.

Lemma primary_fields b h : spp_decode b = Some h ->
  is_Some (ccsds_get_apid (At b)) /\ is_Some (ccsds_get_seq_flags (At b)) /\
  is_Some (ccsds_get_seq_cnt (At b)).
Proof.
  intros Hd. destruct (spp_decode_inv _ _ Hd) as (b0 & b1 & b2 & b3 & b4 & b5 & r' & ->).
  unfold ccsds_get_apid, ccsds_get_seq_flags, ccsds_get_seq_cnt. eval_mem.
  split; [by eexists|]. split; by eexists.
Qed.

Lemma payload_some f x r h : bytes (f ++ x :: r) -> length f = 6%nat -> spp_decode f = Some h ->
  is_Some (pus_payload (At (f ++ x :: r)) (zlen (f ++ x :: r))).
Proof.
  intros Hb Hl Hd. destruct (ecss_sizes_run f h x r Hb Hl Hd) as (_ & _ & Hsz & _ & Hoff).
  unfold pus_payload. rewrite Hsz, Hoff. cbn [mbind option_bind].
  set (n := if pus_valid h (x / 16) then _ else 0).
  assert (Hn : 0 <= n).
  { unfold n, u64. destruct (pus_valid h (x / 16)); [|done]. apply Z.mod_pos_bound. lia. }
  replace (8 * (6 + sec_size (spp_type h)) / 8) with (6 + sec_size (spp_type h)) by dlia.
  assert (0 < sec_size (spp_type h)) by (unfold sec_size; destruct (_ =? _); lia).
  set (off := 6 + sec_size (spp_type h)) in *. rewrite Z.geb_leb.
  destruct (Z.leb_spec (zlen (f ++ x :: r)) off); [by eexists|]. rewrite Z.gtb_ltb.
  destruct (Z.ltb_spec (zlen (f ++ x :: r) - off) n).
  - destruct (dump_run (f ++ x :: r) off (zlen (f ++ x :: r) - off)) as (out & -> & _); [lia|lia|lia|].
    by eexists.
  - destruct (dump_run (f ++ x :: r) off n) as (out & -> & _); [lia|lia|lia|]. by eexists.
Qed.

Lemma pus_c_print_some cfg t f x r h : bytes (f ++ x :: r) -> length f = 6%nat -> spp_decode f = Some h ->
  is_Some (pus_c_print cfg bridge_lut t (At (f ++ x :: r)) (zlen (f ++ x :: r))) <->
  is_Some (pus_c_lines t (At (f ++ x :: r))).
Proof.
  intros Hb Hl Hd. unfold pus_c_print. rewrite is_some_bind. split; [intros (l & -> & _); by eexists|].
  intros [l Hlines]. exists l. split; [done|].
  destruct (crc_valid_some _ Hb) as [v Hv]. rewrite Hv.
  destruct (payload_some f x r h Hb Hl Hd) as [p Hp]. rewrite Hp.
  destruct (crc_check cfg), (debug_short cfg); by eexists.
Qed.

(** the PUS C header of either type *)
Lemma pus_c_lines_some f r t h : prim f t -> t = spp_type h -> t = 0 \/ t = 1 ->
  ecss_get_pkt_version (At (f ++ r)) = Some 2 ->
  is_Some (pus_c_lines t (At (f ++ r))) <-> sec_size (spp_type h) <= zlen r.
Proof.
  intros Hp <- [-> | ->] Hv; [by apply tm_lines_some|by apply tc_lines_some].
Qed.

Lemma is_some_map {B C} (o : option B) (f : B -> C) : is_Some (o ≫= fun x => Some (f x)) <-> is_Some o.
Proof. destruct o; split; by intros [? ?]. Qed.

(** the version nibble behind the primary header *)
Definition version_nibble (r : list Z) : Z := match r with x :: _ => x / 16 | [] => 0 end.

(** what follows the primary header *)
Definition second_half (cfg : bridge_cfg) (tmtc : Z) (pkt : ptr) (len : Z) (front : list line)
  : option (list line) :=
  valid ← ecss_is_pkt_valid pkt;
  if negb (c_true valid) then Some (front ++ [("  not a valid ECSS PUS packet\n"%string, [])]) else
  v ← ecss_get_pkt_version pkt;
  if negb (v =? PUS_C_VERSION) then Some (front ++ [("  not a PUS-C packet (PUS version %u)\n"%string, [v])])
  else
  out ← pus_c_print cfg bridge_lut tmtc pkt len;
  Some (front ++ out).

Lemma second_half_alone cfg t f h front : bytes f -> length f = 6%nat -> spp_decode f = Some h ->
  is_Some (second_half cfg t (At f) 6 front) <-> needed h 0 <= 6.
Proof.
  intros Hb Hl Hd. destruct (spp_access _ _ Hb Hd) as (Ever & Esec & _ & _).
  assert (Hz : zlen f = 6) by (unfold zlen; by rewrite Hl).
  unfold second_half, needed, ecss_is_pkt_valid, ecss_get_pkt_version. rewrite Ever, Esec.
  cbn [mbind option_bind ccsds_get_payload]. unfold c_true.
  destruct (spp_ver h =? 0); cbn [negb orb]; [|split; [done|by eexists]].
  destruct (spp_sec h =? 0); cbn [negb mbind option_bind Z.eqb]; [split; [done|by eexists]|].
  unfold load. rewrite (rd_out f) by (rewrite Hz; done). cbn [mbind option_bind].
  split; [by intros [? ?]|done].
Qed.

Lemma second_half_some cfg f x r h front : bytes (f ++ x :: r) -> length f = 6%nat ->
  spp_decode f = Some h ->
  is_Some (second_half cfg (spp_type h) (At (f ++ x :: r)) (zlen (f ++ x :: r)) front) <->
  needed h (x / 16) <= 7 + zlen r.
Proof.
  intros Hb Hl Hd. pose proof (decode_front f (x :: r) h Hl Hd) as Hd'.
  destruct (ecss_sizes_run f h x r Hb Hl Hd) as (Hval & _).
  destruct (spp_access _ _ Hb Hd') as (_ & Esec & _ & _).
  pose proof (spp_decode_wf _ _ Hb Hd') as (_ & Hty & Hsec & _).
  pose proof (zlen_nonneg r). unfold second_half, needed. rewrite Hval. cbn [mbind option_bind].
  unfold pus_valid. destruct (spp_ver h =? 0) eqn:Ev; cbn [andb negb orb]; [|split; [lia|by eexists]].
  destruct (Z.eqb_spec (spp_sec h) 0) as [Es|Es]; cbn [orb Z.b2z c_true Z.eqb negb].
  { unfold ecss_get_pkt_version. rewrite Esec, Es. split; [lia|by eexists]. }
  assert (Hp : prim f (spp_type h)).
  { exists h. apply bytes_app in Hb as [? _]. repeat split; try done. lia. }
  assert (Hx : is_byte x) by (apply bytes_app in Hb as [_ Hb]; by apply bytes_cons in Hb as [? _]).
  pose proof (first_version f _ x r Hp Hx) as Hv. rewrite Hv.
  destruct (Z.eqb_spec (x / 16) 2) as [E2|E2]; cbn [negb].
  2: { destruct (x / 16 =? 1); cbn [orb Z.b2z c_true Z.eqb negb mbind option_bind].
       - unfold PUS_C_VERSION. rewrite (proj2 (Z.eqb_neq (x / 16) 2)) by done. split; [lia|by eexists].
       - split; [lia|by eexists]. }
  rewrite orb_true_r. cbn [Z.b2z c_true Z.eqb negb mbind option_bind].
  unfold PUS_C_VERSION. rewrite E2. cbn [Z.eqb Pos.eqb negb].
  rewrite (is_some_map _ (fun out => front ++ out)), (pus_c_print_some _ _ f x r h) by done.
  rewrite (pus_c_lines_some f (x :: r) _ h) by (done || lia || by rewrite Hv, E2). rewrite zlen_cons. lia.
Qed.

(** C34: [pus_debug_print] stays inside a packet of at least six octets exactly
    if the packet is long enough for what its first octets announce: six octets
    if it has another CCSDS version or no secondary header, seven if its PUS
    version is not C, and otherwise the whole secondary header of its type. The
    length is never compared with that: a shorter packet, which any SpaceWire
    node can send, is read behind its end. *)
Theorem pus_debug_print_reads cfg dir f r h (Hon : pus_debug cfg && interpret_pus cfg = true)
    (Hb : bytes (f ++ r)) (Hl : length f = 6%nat) (Hd : spp_decode f = Some h) :
  is_Some (pus_debug_print cfg bridge_lut dir (At (f ++ r)) (zlen (f ++ r))) <->
  needed h (version_nibble r) <= zlen (f ++ r).
Proof.
  apply andb_true_iff in Hon as [Hon1 Hon2]. unfold pus_debug_print. rewrite Hon1, Hon2. cbn [negb orb].
  assert (Hz : zlen (f ++ r) = 6 + zlen r) by (rewrite zlen_app; unfold zlen; rewrite Hl; done).
  pose proof (zlen_nonneg r) as Hr0. rewrite (proj2 (Z.ltb_ge (zlen (f ++ r)) 6)) by lia.
  pose proof (decode_front f r h Hl Hd) as Hd'.
  destruct (spp_access _ _ Hb Hd') as (_ & _ & Ety & Elen).
  destruct (primary_fields _ h Hd') as ([a1 E1] & [a2 E2] & [a3 E3]).
  rewrite Ety, E1, E2, E3, Elen. cbn [mbind option_bind].
  destruct r as [|x r].
  - rewrite !app_nil_r in *. rewrite Hz. change (6 + zlen (@nil Z)) with 6. by apply second_half_alone.
  - etransitivity; [by apply second_half_some|]. rewrite Hz, zlen_cons. cbn [version_nibble]. lia.
Qed.

(** a PUS C telecommand with seven octets *)
Definition ex_debug_cfg : bridge_cfg :=
  ex_net_cfg MODE_SERVER 0 true false false false false false false true true 0.

Lemma pus_debug_print_reads_witness :
  pus_debug_print ex_debug_cfg bridge_lut "" (At [0x18; 0; 0; 0; 0; 0; 0x2f]) 7 = None /\
  is_Some (pus_debug_print ex_debug_cfg bridge_lut "" (At [0x18; 0; 0; 0; 0; 0; 0x2f; 1; 2; 3; 4]) 11).
Proof.
  split.
  - destruct (pus_debug_print ex_debug_cfg bridge_lut "" (At [0x18; 0; 0; 0; 0; 0; 0x2f]) 7) eqn:E; [|done].
    pose proof (proj1 (pus_debug_print_reads ex_debug_cfg "" [0x18; 0; 0; 0; 0; 0] [0x2f] (mk_spp 0 1 1 0 0 0 0)
      eq_refl ltac:(apply bytes_check; reflexivity) eq_refl eq_refl)) as H.
    exfalso. assert (Hs : is_Some (pus_debug_print ex_debug_cfg bridge_lut ""
      (At ([0x18; 0; 0; 0; 0; 0] ++ [0x2f])) (zlen ([0x18; 0; 0; 0; 0; 0] ++ [0x2f])))) by (exists l; exact E).
    apply H in Hs. vm_compute in Hs. by apply Hs.
  - apply (proj2 (pus_debug_print_reads ex_debug_cfg "" [0x18; 0; 0; 0; 0; 0] [0x2f; 1; 2; 3; 4] (mk_spp 0 1 1 0 0 0 0)
      eq_refl ltac:(apply bytes_check; reflexivity) eq_refl eq_refl)). vm_compute. discriminate.
Defined.

Lemma spw_debug_print_dumps_witness : exists out,
  spw_debug_print ex_debug_cfg (mk_allocs true true true) "NET->SPW" (At [1; 2; 3]) 3 = Some out /\
  dumped out = [1; 2; 3].
Proof.
  apply (spw_debug_print_dumps ex_debug_cfg (mk_allocs true true true) "NET->SPW" [1; 2; 3]);
    [apply bytes_check; reflexivity|reflexivity].
Defined.
