(* ===== verification/Kbd.v ===== *)
(** * The keyboard monitor (src/kbd.c)

    A detached thread that puts the terminal into single-key mode, toggles two
    members of the configuration, and restores the terminal at the end of the
    input; [kbd_stop] restores it from the main thread. The thread is a sequence
    of steps, so that [kbd_stop] can come between any two of them. *)

From Stdlib Require Import String Ascii List.
From stdpp Require Import base tactics option list list_numbers.
From Stdlib Require Import ZArith Lia Bool.
From S2P Require Import Prelude.
From S2P Require Import Sys.
From S2P Require Import Options.

Local Open Scope Z_scope.

(** the members of [struct termios] that kbd.c changes, and the other ones *)
Record termios : Type := mk_termios { c_lflag : Z; c_vmin : Z; c_vtime : Z; c_rest : Z }.

Definition ICANON : Z := 2.
Definition ECHO : Z := 8.

(** where the thread is: before [tcgetattr], before [tcsetattr], in the loop, or
    at its end *)
Inductive kbd_pc : Type := KbdStart | KbdSaved | KbdReading | KbdEnded.

(** the terminal, the two static variables, and the thread *)
Record kbd : Type := mk_kbd {
  term : termios;
  kbd_old_term : termios;
  kbd_term_saved : bool;
  pc : kbd_pc
}.

(** [ok]: what [tcsetattr] answers *)
Definition kbd_restore_term (ok : bool) (k : kbd) : kbd :=
  if kbd_term_saved k && ok then mk_kbd (kbd_old_term k) (kbd_old_term k) true (pc k) else k.

Definition kbd_stop (ok : bool) (k : kbd) : kbd := kbd_restore_term ok k.

Definition with_pc (k : kbd) (p : kbd_pc) : kbd := mk_kbd (term k) (kbd_old_term k) (kbd_term_saved k) p.

(** what the thread meets: the answers of [isatty] and [tcgetattr], of
    [tcsetattr], a key, and the end of the input *)
Inductive kbd_event : Type :=
| KbdOpen (tty got : bool)
| KbdRaw (ok : bool)
| KbdKey (ch : Z)
| KbdEof (ok : bool).

Definition kbd_open (tty got : bool) (k : kbd) : kbd :=
  if negb tty then with_pc k KbdEnded else
  if negb got then with_pc k KbdEnded else
  mk_kbd (term k) (term k) true KbdSaved.

(** single-key mode *)
Definition kbd_new_term (t : termios) : termios :=
  mk_termios (Z.land (c_lflag t) (u32 (Z.lnot (Z.lor ICANON ECHO)))) 1 0 (c_rest t).

Definition kbd_raw (ok : bool) (k : kbd) : kbd :=
  if negb ok then with_pc k KbdEnded
  else mk_kbd (kbd_new_term (kbd_old_term k)) (kbd_old_term k) (kbd_term_saved k) KbdReading.

Definition is_key (lower upper : ascii) (ch : Z) : bool :=
  (ch =? Z.of_nat (nat_of_ascii lower)) || (ch =? Z.of_nat (nat_of_ascii upper)).

(** the body of the loop: the configuration and what is printed *)
Definition kbd_key (cfg : bridge_cfg) (ch : Z) : bridge_cfg * list msg :=
  if is_key "d" "D" ch then
    let cfg := set_pus_debug cfg (negb (pus_debug cfg)) in
    (cfg, [("PUS debug %s\n"%string, [Z.b2z (pus_debug cfg)])])
  else if negb (is_key "s" "S" ch) then (cfg, [])
  else
    let cfg := set_debug_short cfg (negb (debug_short cfg)) in
    (cfg, [("short debug form %s\n"%string, [Z.b2z (debug_short cfg)])]).

(** one step of [kbd_monitor]; an event the thread does not wait for does
    not happen *)
Definition kbd_monitor (k : kbd) (cfg : bridge_cfg) (e : kbd_event) : kbd * bridge_cfg * list msg :=
  match pc k, e with
  | KbdStart, KbdOpen tty got => (kbd_open tty got k, cfg, [])
  | KbdSaved, KbdRaw ok => (kbd_raw ok k, cfg, [])
  | KbdReading, KbdKey ch => let '(cfg, out) := kbd_key cfg ch in (k, cfg, out)
  | KbdReading, KbdEof ok => (with_pc (kbd_restore_term ok k) KbdEnded, cfg, [])
  | _, _ => (k, cfg, [])
  end.

Fixpoint kbd_run (es : list kbd_event) (k : kbd) (cfg : bridge_cfg) : kbd * bridge_cfg :=
  match es with
  | [] => (k, cfg)
  | e :: es => let '(k, cfg, _) := kbd_monitor k cfg e in kbd_run es k cfg
  end.

(** the state when [kbd_start] creates the thread *)
Definition kbd_init (t : termios) : kbd := mk_kbd t (mk_termios 0 0 0 0) false KbdStart.

(** ** What it does *)

(** only the two flags of the printouts can differ *)
Definition kbd_same (cfg cfg' : bridge_cfg) : Prop :=
  exists b1 b2, cfg' = set_debug_short (set_pus_debug cfg b1) b2.

Lemma kbd_same_refl cfg : kbd_same cfg cfg.
Proof. exists (pus_debug cfg), (debug_short cfg). by destruct cfg. Qed.

Lemma kbd_same_trans c1 c2 c3 : kbd_same c1 c2 -> kbd_same c2 c3 -> kbd_same c1 c3.
Proof. intros (a & b & ->) (a' & b' & ->). by exists a', b'. Qed.

Lemma kbd_key_same cfg ch : kbd_same cfg (kbd_key cfg ch).1.
Proof.
  unfold kbd_key. destruct (is_key "d" "D" ch); [|destruct (is_key "s" "S" ch)]; simpl.
  - exists (negb (pus_debug cfg)), (debug_short cfg). by destruct cfg.
  - exists (pus_debug cfg), (negb (debug_short cfg)). by destruct cfg.
  - apply kbd_same_refl.
Qed.

Lemma kbd_monitor_same k cfg e : kbd_same cfg (kbd_monitor k cfg e).1.2.
Proof.
  unfold kbd_monitor. destruct (pc k), e; try apply kbd_same_refl.
  pose proof (kbd_key_same cfg ch) as H. by destruct (kbd_key cfg ch).
Qed.

Lemma kbd_run_same es : forall k cfg, kbd_same cfg (kbd_run es k cfg).2.
Proof.
  induction es as [|e es IH]; intros k cfg; cbn [kbd_run]; [apply kbd_same_refl|].
  pose proof (kbd_monitor_same k cfg e) as H. destruct (kbd_monitor k cfg e) as [[k' cfg'] out].
  eapply kbd_same_trans; [exact H|apply IH].
Qed.

(** [t] is how the terminal was found: it is saved or untouched, and changed
    only while the thread reads, or if [tcsetattr] fails *)
Definition kbd_inv (t : termios) (k : kbd) : Prop :=
  match pc k with
  | KbdStart => term k = t /\ kbd_term_saved k = false
  | KbdSaved => term k = t /\ kbd_old_term k = t /\ kbd_term_saved k = true
  | KbdReading => kbd_old_term k = t /\ kbd_term_saved k = true
  | KbdEnded => if kbd_term_saved k then kbd_old_term k = t else term k = t
  end.

Lemma kbd_monitor_inv t k cfg e : kbd_inv t k -> kbd_inv t (kbd_monitor k cfg e).1.1.
Proof.
  unfold kbd_inv, kbd_monitor. destruct (pc k) eqn:Ep, e; simpl; rewrite ?Ep; try done.
  - intros [Ht Hs]. unfold kbd_open. destruct tty, got; simpl; rewrite ?Hs; done.
  - intros (Ht & Ho & Hs). unfold kbd_raw. destruct ok; simpl; rewrite ?Hs; done.
  - destruct (kbd_key cfg ch). simpl. by rewrite Ep.
  - intros [Ho Hs]. unfold kbd_restore_term. rewrite Hs. destruct ok; simpl; rewrite ?Hs; done.
Qed.

Lemma kbd_run_inv t es : forall k cfg, kbd_inv t k -> kbd_inv t (kbd_run es k cfg).1.
Proof.
  induction es as [|e es IH]; intros k cfg H; [done|]. cbn [kbd_run].
  apply (kbd_monitor_inv t k cfg e) in H. destruct (kbd_monitor k cfg e) as [[k' cfg'] out]. by apply IH.
Qed.

Lemma kbd_stop_term t k : kbd_inv t k -> term (kbd_stop true k) = t.
Proof.
  unfold kbd_inv, kbd_stop, kbd_restore_term. destruct (pc k); intros H; destruct (kbd_term_saved k) eqn:E;
    simpl; naive_solver.
Qed.

(** a thread that reads does not change the terminal any more *)
Definition kbd_settled (t : termios) (k : kbd) : Prop :=
  kbd_inv t k /\ term k = t /\ (pc k = KbdReading \/ pc k = KbdEnded).

Lemma kbd_monitor_settled t k cfg e : kbd_settled t k -> kbd_settled t (kbd_monitor k cfg e).1.1.
Proof.
  intros (Hi & Ht & Hp). split; [by apply kbd_monitor_inv|].
  unfold kbd_monitor, kbd_inv in *. destruct Hp as [Ep|Ep]; rewrite Ep in *; destruct e; simpl; try (by split; [|left]);
    try (by split; [|right]).
  - destruct (kbd_key cfg ch). simpl. by split; [|left].
  - destruct Hi as [Ho Hs]. unfold kbd_restore_term. rewrite Hs. split; [|by right]. by destruct ok.
Qed.

Lemma kbd_run_settled t es : forall k cfg, kbd_settled t k -> kbd_settled t (kbd_run es k cfg).1.
Proof.
  induction es as [|e es IH]; intros k cfg H; [done|]. cbn [kbd_run].
  apply (kbd_monitor_settled t k cfg e) in H. destruct (kbd_monitor k cfg e) as [[k' cfg'] out]. by apply IH.
Qed.

Lemma kbd_stop_inv t ok k : kbd_inv t k -> kbd_inv t (kbd_stop ok k).
Proof.
  unfold kbd_stop, kbd_restore_term, kbd_inv. destruct (pc k) eqn:Ep, (kbd_term_saved k) eqn:Es, ok; simpl;
    rewrite ?Ep, ?Es; naive_solver.
Qed.

Lemma kbd_stop_settled t k : kbd_inv t k -> pc k = KbdReading \/ pc k = KbdEnded -> kbd_settled t (kbd_stop true k).
Proof.
  intros Hi Hp. split; [by apply kbd_stop_inv|]. split; [by apply kbd_stop_term|].
  unfold kbd_stop, kbd_restore_term. by destruct (_ && _).
Qed.

(** how often one of two keys was pressed *)
Definition presses (lower upper : ascii) (chs : list Z) : nat := length (filter (fun ch => is_key lower upper ch = true) chs).

Definition toggled (b : bool) (n : nat) : bool := xorb b (Nat.odd n).

Lemma toggled_S b n : toggled (negb b) n = toggled b (S n).
Proof. unfold toggled. rewrite Nat.odd_succ, <- Nat.negb_odd. by destruct b, (Nat.odd n). Qed.

Lemma kbd_keys_run chs : forall k cfg, pc k = KbdReading -> kbd_run (map KbdKey chs) k cfg =
  (k, set_debug_short (set_pus_debug cfg (toggled (pus_debug cfg) (presses "d" "D" chs)))
        (toggled (debug_short cfg) (presses "s" "S" chs))).
Proof.
  induction chs as [|ch chs IH]; intros k cfg Hp; simpl.
  { unfold toggled, presses. simpl. rewrite !xorb_false_r. by destruct cfg. }
  unfold kbd_monitor. rewrite Hp. unfold kbd_key, presses. rewrite !filter_cons.
  assert (Hds : is_key "d" "D" ch = true -> is_key "s" "S" ch = false).
  { unfold is_key. change (Z.of_nat (nat_of_ascii "d")) with 100. change (Z.of_nat (nat_of_ascii "D")) with 68.
    change (Z.of_nat (nat_of_ascii "s")) with 115. change (Z.of_nat (nat_of_ascii "S")) with 83.
    rewrite orb_true_iff, orb_false_iff, !Z.eqb_eq, !Z.eqb_neq. lia. }
  destruct (is_key "d" "D" ch); [|destruct (is_key "s" "S" ch)]; cbn beta iota delta [negb].
  - rewrite Hds by done. rewrite IH by done. rewrite decide_True, decide_False by done. simpl.
    fold (presses "d" "D" chs). fold (presses "s" "S" chs). by rewrite toggled_S.
  - rewrite IH by done. rewrite decide_False, decide_True by done. simpl.
    fold (presses "d" "D" chs). fold (presses "s" "S" chs). by rewrite toggled_S.
  - rewrite IH by done. by rewrite !decide_False by done.
Qed.

(** C37: Whatever the thread has done until [kbd_stop] is called (any sequence of
    keys, failing calls, the end of the input), the terminal has afterwards the
    attributes it was found with; it keeps them if the thread had reached its
    loop. The keys 'd' and 's' toggle the two flags, each one as often as it is
    pressed, and nothing else of the configuration ever changes. *)
Theorem kbd_restores t es es' chs cfg :
  let '(k, cfg1) := kbd_run es (kbd_init t) cfg in
  term (kbd_stop true k) = t /\
  (pc k = KbdReading \/ pc k = KbdEnded -> term (kbd_run es' (kbd_stop true k) cfg1).1 = t) /\
  kbd_same cfg cfg1 /\
  (pc k = KbdReading -> (kbd_run (map KbdKey chs) k cfg1).2 =
     set_debug_short (set_pus_debug cfg1 (toggled (pus_debug cfg1) (presses "d" "D" chs)))
       (toggled (debug_short cfg1) (presses "s" "S" chs))).
Proof.
  pose proof (kbd_run_inv t es (kbd_init t) cfg ltac:(done)) as Hi.
  pose proof (kbd_run_same es (kbd_init t) cfg) as Hs.
  destruct (kbd_run es (kbd_init t) cfg) as [k cfg1]. simpl in Hi, Hs.
  split; [by apply kbd_stop_term|]. split; [|split; [done|intros Hp; by rewrite kbd_keys_run]].
  intros Hp. by apply kbd_run_settled, kbd_stop_settled.
Qed.

(** [kbd_stop] can come between the two calls of the thread: the terminal then
    ends up in single-key mode, without echo. *)
Theorem kbd_stop_early t cfg :
  let k := (kbd_run [KbdOpen true true] (kbd_init t) cfg).1 in
  let k' := (kbd_run [KbdRaw true] (kbd_stop true k) cfg).1 in
  term (kbd_stop true k) = t /\ term k' = kbd_new_term t /\ Z.testbit (c_lflag (term k')) 3 = false.
Proof.
  split; [done|]. split; [done|].
  change (Z.testbit (Z.land (c_lflag t) (u32 (Z.lnot (Z.lor ICANON ECHO)))) 3 = false).
  rewrite Z.land_spec. apply andb_false_r.
Qed.

Lemma kbd_restores_witness :
  let '(k, cfg1) := kbd_run [KbdOpen true true; KbdRaw true; KbdKey 100] (kbd_init (mk_termios 10 0 0 7)) (bridge_cfg_init []) in
  term k = mk_termios 0 1 0 7 /\ pus_debug cfg1 = true /\ term (kbd_stop true k) = mk_termios 10 0 0 7 /\
  term (kbd_run [KbdKey 115; KbdEof true] (kbd_stop true k) cfg1).1 = mk_termios 10 0 0 7.
Proof.
  pose proof (kbd_restores (mk_termios 10 0 0 7) [KbdOpen true true; KbdRaw true; KbdKey 100]
    [KbdKey 115; KbdEof true] [] (bridge_cfg_init [])) as H.
  destruct (kbd_run _ _ _) as [k cfg1] eqn:E. destruct H as (H1 & H2 & _).
  assert (Ek : kbd_run [KbdOpen true true; KbdRaw true; KbdKey 100] (kbd_init (mk_termios 10 0 0 7)) (bridge_cfg_init [])
    = (mk_kbd (mk_termios 0 1 0 7) (mk_termios 10 0 0 7) true KbdReading, set_pus_debug (bridge_cfg_init []) true))
    by (vm_compute; reflexivity).
  rewrite E in Ek. injection Ek as Ek Ec.
  split; [by rewrite Ek|]. split; [by rewrite Ec|]. split; [exact H1|]. apply H2. left. by rewrite Ek.
Defined.
