(* ===== verification/Main.v ===== *)
(** * The program (src/spw_bridge.c)

    [main]: the options, the two sides and the keyboard thread are started, the
    threads run until [pause] returns, and everything is stopped and released.
    The threads take turns: an accepted connection, a round of a poll thread with
    the transmissions it causes, an iteration of a polling thread of the
    SpaceWire side with its sink, and a step of the keyboard thread are the
    [event]s, and a list of them is one of the orders in which they can happen.
    A round is not interrupted by another one; that [shutdown] is set in the
    middle of an iteration is part of [Spw].  As long as [cfg->spw] has no value, a
    round that reads it is undefined. *)

From Stdlib Require Import String Ascii List.
From stdpp Require Import base tactics option list list_numbers gmap sets.
From Stdlib Require Import ZArith Lia Bool.
From S2P Require Import Prelude.
From S2P Require Import CString.
From S2P Require Import Pus.
From S2P Require Import Sys.
From S2P Require Import NetConn.
From S2P Require Import NetRecv.
From S2P Require Import Net.
From S2P Require Import NetSpec.
From S2P Require Import NetStart.
From S2P Require Import NetSafe.
From S2P Require Import Spw.
From S2P Require Import SpwSpec.
From S2P Require Import SpwLife.
From S2P Require Import Bridge.
From S2P Require Import Options.
From S2P Require Import OptionsSpec.
From S2P Require Import Kbd.

Local Open Scope Z_scope.

(** ** State *)

(** a polling thread: not created or ended, or between two iterations *)
Inductive rx_thread : Type :=
| RxEnded
| RxPolling (buf : option nat).

(** the configuration, the threads of the network side, the polling threads of the
    two channels, and the keyboard thread *)
Record bridge : Type := mk_bridge {
  b_cfg : bridge_cfg;
  b_threads : net_threads;
  b_rx : list rx_thread;
  b_kbd : kbd
}.

Definition with_threads (b : bridge) (t : net_threads) : bridge := mk_bridge (b_cfg b) t (b_rx b) (b_kbd b).
Definition with_rx (b : bridge) (l : list rx_thread) : bridge := mk_bridge (b_cfg b) (b_threads b) l (b_kbd b).
Definition with_kbd (b : bridge) (k : kbd) : bridge := mk_bridge (b_cfg b) (b_threads b) (b_rx b) k.

Definition no_threads : net_threads := mk_threads None None None None None None None None None None.

(** the threads that run *)
Definition thread_list (t : net_threads) : list thread :=
  omap id [th_main t; th_poll t; th_rmap_accept t; th_rmap_poll t; th_gresb_tx_accept t; th_gresb_tx_poll t;
    th_gresb_rx_accept t; th_gresb_rx_poll t; th_sniff_accept t; th_sniff_poll t].

(** what a thread does next *)
Inductive event : Type :=
| EvAccept (s : svc_id) (a : accepted)
| EvPoll (s : svc_id)
| EvReceive (chan : Z)
| EvKey (e : kbd_event).

Section main.
Context {K : Kernel} {A : Star}.

(** the calls a computation of the network side makes *)
Definition calls_of (m : M ()) : SM (list act) := fun w =>
  match m (snet w) with
  | Ret _ n => SRet (drop (length (log (snet w))) (log n)) (sw_net w n)
  | Exit n => SExit (sw_net w n)
  | Stuck => SStuck
  end.

(** an accepting thread; a new connection has a descriptor of its own *)
Definition accept_event (b : bridge) (s : svc_id) (a : accepted) : SM () := fun w =>
  if decide ((s, true) ∈ thread_list (b_threads b) /\ fresh_fd (snet w) a)
  then Spw.on_net (accept_step s a) w else SRet () w.

(** a round of a poll thread: it runs the handlers, which call
    [spw_send_packet] and [spw_rmap_cmd] *)
Definition poll_event (b : bridge) (s : svc_id) : SM () :=
  if decide ((s, false) ∈ thread_list (b_threads b)) then
    ready ← spw_link_ready (b_cfg b);
    l ← calls_of (poll_step ready (handle_pkt (b_cfg b)) s);
    replay (b_cfg b) l
  else mret ().

Definition receive_event (b : bridge) (chan : Z) : SM bridge :=
  if decide (0 <= chan) then
    match b_rx b !! Z.to_nat chan with
    | Some (RxPolling buf) =>
        r ← poll_round (pkt_sink_of (b_cfg b)) chan buf;
        mret (with_rx b (<[Z.to_nat chan :=
          match r with PollOn buf => RxPolling buf | PollBreak _ => RxEnded end]> (b_rx b)))
    | _ => mret b
    end
  else mret b.

Fixpoint say_all (l : list msg) : SM () :=
  match l with [] => mret () | m :: l => _ ← say (SMsg m.1 m.2); say_all l end.

Definition key_event (b : bridge) (e : kbd_event) : SM bridge :=
  let '(k, cfg, out) := kbd_monitor (b_kbd b) (b_cfg b) e in
  _ ← say_all out;
  mret (mk_bridge cfg (b_threads b) (b_rx b) k).

Definition bridge_event (b : bridge) (e : event) : SM bridge :=
  match e with
  | EvAccept s a => _ ← accept_event b s a; mret b
  | EvPoll s => _ ← poll_event b s; mret b
  | EvReceive chan => receive_event b chan
  | EvKey e => key_event b e
  end.

Fixpoint bridge_run (b : bridge) (es : list event) : SM bridge :=
  match es with [] => mret b | e :: es => b ← bridge_event b e; bridge_run b es end.

(** before [spw_setup_device] has stored it, the member [spw] of the configuration is
    what the stack of [main] held: null if [z].  A poll thread reads it at once, in
    [spw_link_ready] *)
Definition early_event (z : bool) (b : bridge) (e : event) : SM bridge :=
  match e with
  | EvPoll s =>
      if z then bridge_event b e
      else if decide ((s, false) ∈ thread_list (b_threads b)) then sstuck else mret b
  | _ => bridge_event b e
  end.

Fixpoint early_run (z : bool) (b : bridge) (es : list event) : SM bridge :=
  match es with [] => mret b | e :: es => b ← early_event z b e; early_run z b es end.

Definition is_poll (e : event) : bool := match e with EvPoll _ => true | _ => false end.

(** ** [main] *)

(** the thread, or none if it cannot be created; [t] is the terminal *)
Definition kbd_start (t : termios) : SM kbd :=
  n ← scallno;
  if negb (s_create n) then _ ← say (SMsg "kbd monitor: %s\n" []); mret (with_pc (kbd_init t) KbdEnded)
  else mret (kbd_init t).

(** up to [pause]; [es] and [es']: what happens before the device is set up, and
    before the links are started; [q] is what the server sends in client mode, and
    [z] is of [early_event] *)
Definition main_start (z : bool) (cfg : bridge_cfg) (q : list Z) (t : termios) (es es' : list event) : SM bridge :=
  th ← Spw.on_net (net_start cfg q);
  k ← kbd_start t;
  b ← early_run z (mk_bridge cfg th [RxEnded; RxEnded] k) es;
  _ ← spw_setup_device (b_cfg b);
  let b := with_rx b [RxPolling None; if enable_monitor (b_cfg b) then RxPolling None else RxEnded] in
  b ← bridge_run b es';
  _ ← spw_start_link (b_cfg b);
  _ ← say (SMsg "Ready...\n" []);
  mret b.

(** behind [pause]; [ok]: what [tcsetattr] answers, [es] and [es']: what still
    happens before [net_stop] and after it *)
Definition main_stop (ok : bool) (b : bridge) (es es' : list event) : SM bridge :=
  let b := with_kbd b (kbd_stop ok (b_kbd b)) in
  _ ← spw_request_shutdown;
  b ← bridge_run b es;
  _ ← Spw.on_net (net_stop (b_cfg b) (b_threads b));
  b ← bridge_run (with_threads b no_threads) es';
  _ ← spw_stop_poll (b_cfg b);
  let b := with_rx b [RxEnded; RxEnded] in
  _ ← Spw.on_net (net_release (b_cfg b));
  _ ← spw_dispose_ops (b_cfg b);
  _ ← spw_release (b_cfg b);
  mret b.

(** the events of the phases of a run *)
Record schedule : Type := mk_schedule {
  at_setup : list event;
  at_links : list event;
  at_pause : list event;
  at_stop : list event;
  at_join : list event
}.

(** [fs] is what [getopt] has found, [p] what the member [path] held; the bridge
    when [pause] returns and at the end *)
Definition bridge_main {Rs : Resolver} (z : bool) (p : list Z) (fs : list found) (q : list Z) (t : termios) (ok : bool)
    (s : schedule) : SM (bridge * bridge) :=
  match parse_options (bridge_cfg_init p) fs with
  | OStuck => sstuck
  | OExit _ out => _ ← say_all out; sexit
  | ORet cfg out =>
      _ ← say_all out;
      b ← main_start z (install_sink cfg) q t (at_setup s) (at_links s);
      b ← bridge_run b (at_pause s);
      b' ← main_stop ok b (at_stop s) (at_join s);
      mret (b, b')
  end.

End main.

(** ** Invariants *)

(** the configurations of the theorems: what the options have produced, and a device
    whose packets the sink of the network side can take *)
Record cfg_good {A : Star} (cfg : bridge_cfg) : Prop := {
  cg_typed : cfg_typed cfg;
  cg_sink : pkt_sink cfg = Some (if enable_monitor cfg then SpwPktSinkMonitor else NetPktSink);
  cg_data : forall t, sinkable cfg (s_data t)
}.

(** the keys do not matter to all of this *)
Lemma cfg_good_same {A : Star} cfg cfg' : kbd_same cfg cfg' -> cfg_good cfg ->
  cfg_good cfg' /\ threads_rec cfg' = threads_rec cfg /\ enable_monitor cfg' = enable_monitor cfg /\
  in_dgram cfg' = in_dgram cfg.
Proof.
  intros (b1 & b2 & ->) [T S D]. split; [|done]. split; [by destruct T|done|]. exact D.
Qed.

Lemma typed_ok cfg : cfg_typed cfg -> cfg_ok cfg.
Proof. intros []. done. Qed.

(** ** The operations and the buffers of the polling threads *)

Section slots.
Context {A : Star}.

(** the operations are the ones of the channels *)
Definition slots_ok (w : sworld) (st : spw_state) : Prop :=
  (forall k, is_Some (ops w !! k) <-> exists c, chan_ok c /\ rx_slot st c = Some k) /\
  forall c k, chan_ok c -> rx_slot st c = Some k -> rx_slot st (1 - c) <> Some k.

(** those of the threads that have not ended are live, and so are their buffers *)
Definition rx_ok (w : sworld) (st : spw_state) (l : list rx_thread) : Prop :=
  length l = 2%nat /\
  (forall c buf, chan_ok c -> l !! Z.to_nat c = Some (RxPolling buf) -> owned w st c buf) /\
  forall buf buf', l !! 0%nat = Some (RxPolling buf) -> l !! 1%nat = Some (RxPolling buf') ->
    set_of buf ## set_of buf'.

Lemma other_involutive c : 1 - (1 - c) = c.
Proof using Type. lia. Qed.

Lemma chan_cases c c' : chan_ok c -> chan_ok c' -> c' = c \/ c' = 1 - c.
Proof using Type. intros [-> | ->] [-> | ->]; auto. Qed.

Lemma chan_index c c' : chan_ok c -> chan_ok c' -> c' <> c -> Z.to_nat c' <> Z.to_nat c.
Proof using Type. intros [-> | ->] [-> | ->] H; simpl; lia. Qed.

Lemma drop_op_some o (m : gmap nat op) k : is_Some (drop_op o m !! k) -> is_Some (m !! k) /\ o <> Some k.
Proof using Type.
  unfold drop_op. destruct o as [k'|]; [|done]. intros [x Hx]. apply lookup_delete_Some in Hx as [Hne Hx].
  split; [by eexists|congruence].
Qed.

(** the operation of a channel was replaced; the other one was left alone *)
Lemma slots_new_op w st w' st' c buf buf' fr : at_rest w st -> chan_ok c -> slots_ok w st ->
  new_op w st w' st' c buf buf' fr ->
  slots_ok w' st' /\ forall c', chan_ok c' -> c' <> c -> rx_slot st' c' = rx_slot st c' /\
    forall k, rx_slot st c' = Some k -> ops w' !! k = ops w !! k.
Proof using Type.
  intros Hr Hc [S1 S2] [N1 (o & N2 & N3 & N4) _ _ _ _ _ _ _ _].
  pose proof (rx_slot_insert st st' c o (ar_rx _ _ Hr) Hc N2) as Eo.
  assert (Eother : forall c', chan_ok c' -> c' <> c -> rx_slot st' c' = rx_slot st c').
  { intros c' Hc' Hne. unfold rx_slot. rewrite N2, list_lookup_insert_ne; [done|].
    by apply not_eq_sym, chan_index. }
  assert (Hold : forall c' k, chan_ok c' -> c' <> c -> rx_slot st c' = Some k -> k <> o /\ ops w' !! k = ops w !! k).
  { intros c' k Hc' Hne Hk. assert (Hko : k <> o).
    { intros ->. pose proof (ar_ops _ _ Hr o N4) as Hn. destruct (proj2 (S1 o)) as [x Hx]; [by exists c'|congruence]. }
    split; [done|]. rewrite N3, lookup_insert_ne by done. unfold drop_op.
    destruct (rx_slot st c) as [k'|] eqn:Ek; [|done]. rewrite lookup_delete_ne; [done|].
    intros ->. apply (S2 c k Hc Ek). destruct (chan_cases c c' Hc Hc') as [->| ->]; done. }
  split; [split|intros c' Hc' Hne; split; [by apply Eother|intros k Hk; by apply (Hold c')]].
  - intros k. split.
    + rewrite N3. intros Hk. destruct (decide (k = o)) as [->|Hko]; [by exists c|].
      rewrite lookup_insert_ne in Hk by done.
      apply drop_op_some in Hk as [(c' & Hc' & Hs)%S1 Hne]. exists c'. split; [done|].
      rewrite Eother; [done|done|]. by intros ->.
    + intros (c' & Hc' & Hs). destruct (decide (c' = c)) as [->|Hne].
      * assert (k = o) as -> by congruence. rewrite N3, lookup_insert_eq. by eexists.
      * rewrite Eother in Hs by done. rewrite (proj2 (Hold c' k Hc' Hne Hs)). apply S1. by exists c'.
  - intros c' k Hc' Hs Hs'. assert (Hne : 1 - c' <> c') by lia.
    destruct (chan_cases c c' Hc Hc') as [->| ->].
    + assert (k = o) as -> by congruence. rewrite Eother in Hs' by (by apply other_ok || done).
      by apply (Hold (1 - c) o) in Hs' as [? _]; [|apply other_ok|].
    + rewrite other_involutive in *. assert (k = o) as -> by congruence. rewrite Eother in Hs by done.
      by apply (Hold (1 - c) o) in Hs as [? _].
Qed.

Lemma rx_insert (l : list rx_thread) c c' t t' : chan_ok c -> chan_ok c' ->
  <[Z.to_nat c := t]> l !! Z.to_nat c' = Some t' -> c' = c /\ t' = t \/ c' <> c /\ l !! Z.to_nat c' = Some t'.
Proof using Type.
  intros Hc Hc'. rewrite list_lookup_insert_Some. intros [(Hi & -> & _)|[Hi H]].
  - left. split; [|done]. destruct (decide (c' = c)) as [|Hne]; [done|]. by apply (chan_index c c' Hc Hc') in Hne.
  - right. split; [|done]. by intros ->.
Qed.

(** and so does the thread of the other channel *)
Lemma rx_new_op w st w' st' c buf buf' fr t l : at_rest w st -> chan_ok c -> slots_ok w st -> rx_ok w st l ->
  l !! Z.to_nat c = Some (RxPolling buf) -> new_op w st w' st' c buf buf' fr ->
  (t = RxEnded \/ t = RxPolling buf' /\ fr = false) -> rx_ok w' st' (<[Z.to_nat c := t]> l).
Proof using Type.
  intros Hr Hc Hs (R1 & R2 & R3) Hb N Ht. destruct (slots_new_op _ _ _ _ _ _ _ _ Hr Hc Hs N) as [_ Hother].
  assert (Happ : forall c' buf1, chan_ok c' -> c' <> c -> l !! Z.to_nat c' = Some (RxPolling buf1) ->
    set_of buf ## set_of buf1).
  { intros c' buf1 Hc' Hne Hb'. destruct Hc as [-> | ->], Hc' as [-> | ->]; try done; [by apply R3|].
    symmetry. by apply R3. }
  assert (Hnew : forall c' buf1, chan_ok c' -> l !! Z.to_nat c' = Some (RxPolling buf1) -> set_of buf' ## set_of buf1).
  { intros c' buf1 Hc' Hb' x Hx Hx'. destruct buf' as [y|]; [|done]. simpl in Hx.
    apply elem_of_singleton in Hx as ->. apply (ow_buf _ _ _ _ (R2 c' buf1 Hc' Hb')) in Hx'.
    revert Hx'. apply (ar_items _ _ Hr). by apply (no_fresh _ _ _ _ _ _ _ _ N). }
  split; [by rewrite length_insert|]. split.
  - intros c' buf1 Hc' Hb'. apply rx_insert in Hb' as [[-> <-]|[Hne Hb']]; [..|done|done].
    + destruct Ht as [|[[= ->] ->]]; [done|]. eapply (owned_new_op c Hc w st); [done|exact N].
    + destruct (R2 c' buf1 Hc' Hb') as [O1 O2]. destruct (Hother c' Hc' Hne) as [E1 E2]. split.
      * intros k. rewrite E1. intros Hk. rewrite (E2 k Hk). by apply O1.
      * rewrite (no_items _ _ _ _ _ _ _ _ N). specialize (Happ c' buf1 Hc' Hne Hb'). set_solver.
  - intros buf1 buf2 H1 H2. apply (rx_insert l c 0) in H1; [|done|by left]. apply (rx_insert l c 1) in H2; [|done|by right].
    destruct H1 as [[E1 H1]|[E1 H1]], H2 as [[E2 H2]|[E2 H2]]; try lia.
    + destruct Ht as [->|[-> _]]; [done|]. injection H1 as ->. apply (Hnew 1); [by right|done].
    + destruct Ht as [->|[-> _]]; [done|]. injection H2 as ->. symmetry. apply (Hnew 0); [by left|done].
    + by apply R3.
Qed.

(** the operations of the channels in use *)
Lemma in_use_slots c w st : at_rest w st -> tx_clear st -> slots_ok w st ->
  (enable_monitor c = false -> rx_slot st 1 = None) ->
  known (in_use c st) w /\ (forall k, is_Some (ops w !! k) -> Some k ∈ in_use c st) /\
  (forall k, Some k ∈ used c (rx_op st) -> is_Some (ops w !! k)).
Proof using Type.
  intros [_ _ Ht Hr _ _ _] Htx [S1 S2] H1. unfold in_use, used, nchans, tx_clear, rx_slot in *.
  destruct (rx_op st) as [|r0 [|r1 [|]]]; try done. destruct (tx_op st) as [|t0 [|t1 [|]]]; try done.
  apply Forall_cons in Htx as [-> Htx]. apply Forall_cons in Htx as [-> _].
  assert (Hslots : forall k, is_Some (ops w !! k) <-> r0 = Some k \/ r1 = Some k).
  { intros k. rewrite S1. split; [intros (c' & [-> | ->] & E); auto|].
    intros [E|E]; [exists 0|exists 1]; (split; [by (left + right)|done]). }
  assert (Hne : forall k, r0 = Some k -> r1 <> Some k) by (intros k; by apply (S2 0 k); left).
  destruct (enable_monitor c); simpl in *.
  - split; [|split]; [|intros k; rewrite Hslots, ?elem_of_cons, ?elem_of_nil; naive_solver|intros k; rewrite Hslots, ?elem_of_cons, ?elem_of_nil; naive_solver].
    split; [|intros k; rewrite Hslots, ?elem_of_cons, ?elem_of_nil; naive_solver].
    destruct r0 as [k0|], r1 as [k1|]; simpl; repeat constructor; set_solver.
  - specialize (H1 eq_refl). simpl in H1. subst r1.
    split; [|split]; [|intros k; rewrite Hslots, ?elem_of_cons, ?elem_of_nil; naive_solver|intros k; rewrite Hslots, ?elem_of_cons, ?elem_of_nil; naive_solver].
    split; [|intros k; rewrite Hslots, ?elem_of_cons, ?elem_of_nil; naive_solver]. destruct r0 as [k0|]; simpl; repeat constructor; set_solver.
Qed.

End slots.

Section safe.
Context {K : Kernel} {L : KernelLive K} {A : Star}.
Context (cfg : bridge_cfg) (cl : bool) (KI : kbd -> Prop).
Context (Hcfg : cfg_good cfg) (HKI : forall k c e, KI k -> KI (kbd_monitor k c e).1.1).

(** the process ends only in client mode, when the server closes the connection,
    or because a call of the device fails *)
Definition exits : Prop := cl = true \/ ~ cooperative.

(** what holds of the network side until [net_stop], and behind it *)
Definition net_side (up : bool) : world -> Prop := if up then net_safe (in_dgram cfg) else anything.

Lemma stable_side up : stable (net_side up).
Proof using Type. destruct up; [|done]. intros n n' S. by apply (net_safe_shrinks (fun _ _ => True)). Qed.

(** what holds from [net_start] on *)
Record common (up : bool) (b : bridge) (n : world) : Prop := {
  co_cfg : kbd_same cfg (b_cfg b);
  co_kbd : KI (b_kbd b);
  co_net : net_as (net_side up) cl n;
  co_threads : b_threads b = if up then threads_rec cfg else no_threads
}.

(** before the device is set up *)
Record before (b : bridge) (w : sworld) : Prop := {
  be_common : common true b (snet w);
  be_spw : spw w = None;
  be_ops : ops w = ∅;
  be_items : items w = ∅;
  be_addrs : addrs w = 0%nat;
  be_lock : locked w = false;
  be_rx : b_rx b = [RxEnded; RxEnded]
}.

(** while the polling threads run *)
Record bridge_ok (up : bool) (b : bridge) (w : sworld) (st : spw_state) : Prop := {
  bo_common : common up b (snet w);
  bo_rest : at_rest w st;
  bo_tx : tx_clear st;
  bo_ready : enable_monitor cfg = true -> c_true (chan_id st 0) && c_true (chan_id st 1) = true;
  bo_slots : slots_ok w st;
  bo_one : enable_monitor cfg = false -> rx_slot st 1 = None /\ b_rx b !! 1%nat = Some RxEnded;
  bo_rx : rx_ok w st (b_rx b);
  bo_addrs : addrs w = match p_address st with Some _ => 1%nat | None => 0%nat end
}.

Lemma common_good up b n : common up b n ->
  cfg_good (b_cfg b) /\ threads_rec (b_cfg b) = threads_rec cfg /\ enable_monitor (b_cfg b) = enable_monitor cfg /\
  in_dgram (b_cfg b) = in_dgram cfg.
Proof using Hcfg. intros []. by apply cfg_good_same. Qed.

(** ** Steps *)

(** what the other channel's thread and the shutdown rely on stays *)
Lemma bridge_ok_kept up b w st w' st' : bridge_ok up b w st -> at_rest w' st' -> kept w w' ->
  net_as (net_side up) cl (snet w') -> rx_op st' = rx_op st -> spw_chan_id st' = spw_chan_id st ->
  p_address st' = p_address st -> tx_clear st' -> bridge_ok up b w' st'.
Proof using Type.
  intros [[C1 C2 C3 C4] B2 B3 B4 [S1 S2] B6 (R1 & R2 & R3) B8] Hr [K1 K2 K3 K4 K5] Hn E1 E2 E3 Ht.
  assert (Es : forall c, rx_slot st' c = rx_slot st c) by (intros c; unfold rx_slot; by rewrite E1).
  split; try done.
  - unfold chan_id. by rewrite E2.
  - split; [|intros c k; rewrite !Es; apply S2]. intros k. rewrite K1. setoid_rewrite Es. apply S1.
  - intros Hm. rewrite Es. by apply B6.
  - split; [done|]. split; [|done]. intros c buf Hc Hb. destruct (R2 c buf Hc Hb) as [O1 O2].
    split; [|by rewrite K2]. intros o. rewrite Es, K1. apply O1.
  - by rewrite K3, E3.
Qed.

Lemma bridge_ok_same up b w st w' st' : bridge_ok up b w st -> at_rest w' st' -> kept w w' ->
  net_as (net_side up) cl (snet w') -> same_rx st st' -> bridge_ok up b w' st'.
Proof using Type.
  intros H Hr Hk Hn (E1 & E2 & E3 & _ & E4). eapply bridge_ok_kept; try done. by apply E4, H.
Qed.

Lemma bridge_ok_net up b w st n : bridge_ok up b w st -> net_as (net_side up) cl n ->
  bridge_ok up b (sw_net w n) st.
Proof using A KI cfg cl.
  intros H Hn. eapply bridge_ok_same; [exact H|by apply at_rest_net, H|by split|done|apply same_rx_refl].
Qed.

(** a polling thread has replaced its operation, and has ended or goes on *)
Lemma bridge_ok_new_op up b w st w' st' c buf buf' fr t : bridge_ok up b w st -> chan_ok c ->
  b_rx b !! Z.to_nat c = Some (RxPolling buf) -> new_op w st w' st' c buf buf' fr ->
  net_as (net_side up) cl (snet w') -> (t = RxEnded \/ t = RxPolling buf' /\ fr = false) ->
  bridge_ok up (with_rx b (<[Z.to_nat c := t]> (b_rx b))) w' st'.
Proof using Hcfg.
  intros [[C1 C2 C3 C4] B2 B3 B4 B5 B6 B7 B8] Hc Hb N Hn Ht.
  destruct (slots_new_op _ _ _ _ _ _ _ _ B2 Hc B5 N) as [Hs Hother].
  pose proof N as [N1 _ N5 N6 _ _ N9 _ N11 _].
  split; simpl; try done; [auto|unfold chan_id; by rewrite N5| |by apply (rx_new_op w st w' st' c buf buf' fr)|by rewrite N9, N6].
  intros Hm. destruct (B6 Hm) as [H1 H2].
  assert (Hc1 : 1 <> c) by (intros <-; change (Z.to_nat 1) with 1%nat in Hb; congruence).
  rewrite (proj1 (Hother 1 ltac:(by right) Hc1)). split; [done|]. rewrite list_lookup_insert_ne; [done|].
  apply not_eq_sym, (chan_index c 1 Hc); [by right|done].
Qed.

(** ** Events *)

(** only the network side has changed *)
Definition net_step (up : bool) (w w' : sworld) : Prop :=
  exists n, w' = sw_net w n /\ net_as (net_side up) cl n.

Lemma sw_net_id w : sw_net w (snet w) = w.
Proof using Type. by destruct w. Qed.

Lemma net_step_refl up b w : common up b (snet w) -> net_step up w w.
Proof using Type. intros []. exists (snet w). by rewrite sw_net_id. Qed.

(** nobody accepts connections on the datagram socket *)
Lemma accepts_stream c s : (s, true) ∈ thread_list (threads_rec c) -> in_dgram c = false \/ s <> SvcData.
Proof using Type.
  unfold in_dgram. case_bool_decide as E; [|by left]. intros Hin. right. intros ->. revert Hin.
  unfold thread_list, threads_rec, data_pair, pair_if. rewrite E. simpl.
  destruct (enable_rmap c), (gresb_on c), (enable_sniff c); simpl; rewrite ?elem_of_cons, ?elem_of_nil; naive_solver.
Qed.

Lemma accept_event_ok up b w s a : common up b (snet w) ->
  swp (accept_event b s a) (fun _ => exits) (fun _ => net_step up w) w.
Proof using Type.
  intros Hc. unfold swp, accept_event. case_decide as Hd; [|by eapply net_step_refl].
  destruct Hd as [Hin Hf], Hc as [_ _ (H1 & H2 & H3) Ht]. destruct up.
  - rewrite Ht in Hin.
    destruct (accept_safe _ s a (snet w) (accepts_stream cfg s Hin) H3 Hf) as (n & E & Hn & Hcl). unfold Spw.on_net. rewrite E.
    exists n. split; [done|]. split; [by eapply net_safe_ok|]. by rewrite Hcl.
  - rewrite Ht in Hin. by apply elem_of_nil in Hin.
Qed.

Lemma poll_calls_ok up b w s ready : common up b (snet w) -> (s, false) ∈ thread_list (b_threads b) ->
  swp (calls_of (poll_step ready (handle_pkt (b_cfg b)) s)) (fun _ => exits) (fun _ => net_step up w) w.
Proof using L Hcfg.
  intros Hc Hin. destruct (common_good _ _ _ Hc) as (_ & _ & _ & Ed). destruct Hc as [_ _ Hn Ht]. destruct up.
  - pose proof Hn as (_ & Hcl & Hsafe). unfold net_side in Hsafe. rewrite <- Ed in Hsafe.
    pose proof (poll_step_safe (b_cfg b) ready s (snet w) Hsafe) as H.
    unfold wp in H. unfold swp, calls_of. destruct (poll_step _ _ _ _) as [[] n|n|]; [|by left; rewrite <- Hcl|done].
    exists n. split; [done|]. by eapply (net_as_shrinks _ _ _ _ (stable_side true)).
  - rewrite Ht in Hin. by apply elem_of_nil in Hin.
Qed.

Lemma ready_total c w st : at_rest w st -> exists r, spw_link_ready c w = SRet r w.
Proof using Type.
  intros Hr. unfold spw_link_ready. rewrite (ar_spw _ _ Hr). unfold mbind, SM_bind.
  rewrite chan_id_run by (by apply Hr || by left). destruct (enable_monitor c); [|by eexists].
  destruct (c_true _); [|by eexists]. rewrite chan_id_run by (by apply Hr || by right). by eexists.
Qed.

Lemma poll_event_ok up b w st s : bridge_ok up b w st ->
  swp (poll_event b s) (fun _ => exits) (fun _ w' => exists st', bridge_ok up b w' st') w.
Proof using L Hcfg.
  intros H. unfold poll_event. case_decide; [|by exists st].
  destruct (ready_total (b_cfg b) w st (bo_rest _ _ _ _ H)) as [r Hr]. eapply swp_run; [exact Hr|].
  eapply swp_next; [by apply (poll_calls_ok up b w s r (bo_common _ _ _ _ H))|].
  intros l w1 (n & -> & Hn). pose proof (bridge_ok_net _ _ _ _ _ H Hn) as H1.
  eapply swp_mono; [apply (replay_run (b_cfg b) l _ st (bo_rest _ _ _ _ H1))| |by right].
  intros [] w2 (st2 & R2 & S2 & K2 & N2 & _). exists st2. eapply bridge_ok_same; try done.
  by rewrite N2.
Qed.

(** the sink under a polling thread *)
Lemma sink_total up c cfg' ids a : cfg_good cfg' -> chan_ok c ->
  (enable_monitor cfg' = true -> c_true (nth 0 ids 0) && c_true (nth 1 ids 0) = true) ->
  exists f, pkt_sink_of cfg' = Some f /\ forall w st t, at_rest w st -> wired ids a st ->
    net_as (net_side up) cl (snet w) ->
    swp (f c (s_data t)) (fun _ => exits)
      (fun _ w' => sink_frame w st w' /\ net_as (net_side up) cl (snet w') /\ True) w.
Proof using L.
  intros [T S D] Hc Hready. unfold pkt_sink_of. rewrite S. destruct (enable_monitor cfg') eqn:Em.
  - eexists. split; [reflexivity|]. intros w st t Hr [Hi _] Hn.
    apply (monitor_sink_ends cfg' c (net_side up) cl w st); try done; [apply stable_side|].
    unfold chan_id. rewrite Hi. by apply Hready.
  - eexists. split; [reflexivity|]. intros w st t Hr _ Hn.
    apply (net_sink_ends cfg' (net_side up) cl w st t); try done; [apply stable_side|apply T].
Qed.

Lemma say_only_net up w w' : say_only w w' -> net_as (net_side up) cl (snet w) -> net_as (net_side up) cl (snet w').
Proof using Type. by intros [-> _]. Qed.

Lemma with_rx_same b l : l = b_rx b -> with_rx b l = b.
Proof using Type. intros ->. by destruct b. Qed.

(** a thread that ends without a new operation *)
Lemma bridge_ok_end up b w st c : bridge_ok up b w st -> chan_ok c ->
  bridge_ok up (with_rx b (<[Z.to_nat c := RxEnded]> (b_rx b))) w st.
Proof using Type.
  intros [[C1 C2 C3 C4] B2 B3 B4 B5 B6 (R1 & R2 & R3) B8] Hc.
  assert (Hrx : forall c' buf, chan_ok c' -> <[Z.to_nat c := RxEnded]> (b_rx b) !! Z.to_nat c' = Some (RxPolling buf) ->
    b_rx b !! Z.to_nat c' = Some (RxPolling buf)).
  { intros c' buf Hc' H. by apply (rx_insert _ c c') in H as [[_ ?]|[_ ?]]. }
  split; simpl; try done.
  - intros Hm. destruct (B6 Hm) as [H1 H2]. split; [done|].
    apply list_lookup_insert_Some. destruct (decide (Z.to_nat c = 1%nat)); [left|by right].
    split; [done|]. split; [done|]. rewrite R1. lia.
  - split; [by rewrite length_insert|]. split; [intros c' buf Hc' Hb; by apply R2, Hrx|].
    intros buf buf' H0 H1. apply R3; [apply (Hrx 0)|apply (Hrx 1)]; by (left + right + done).
Qed.

Lemma receive_event_ok up b w st c : bridge_ok up b w st ->
  swp (receive_event b c) (fun _ => exits) (fun b' w' => exists st', bridge_ok up b' w' st') w.
Proof using A Hcfg K KI L cfg cl.
  intros H. unfold receive_event. case_decide as H0; [|by exists st].
  destruct (b_rx b !! Z.to_nat c) as [[|buf]|] eqn:Eb; [by exists st| |by exists st].
  assert (Hc : chan_ok c).
  { pose proof (lookup_lt_Some _ _ _ Eb) as Hlt. rewrite (proj1 (bo_rx _ _ _ _ H)) in Hlt. unfold chan_ok. lia. }
  pose proof (bo_common _ _ _ _ H) as Hco. destruct (common_good _ _ _ Hco) as (Hg & _ & Em & _).
  destruct (sink_total up c (b_cfg b) (spw_chan_id st) (p_address st) Hg Hc) as (f & Ef & Hf).
  { rewrite Em. apply (bo_ready _ _ _ _ H). }
  rewrite Ef. eapply swp_next.
  { eapply (poll_round_run c Hc (spw_chan_id st) (p_address st) f (cl = true) (net_as (net_side up) cl)
      (fun _ _ _ => True) Hf w st buf); [apply H|by split| |apply Hco].
    by apply (proj1 (proj2 (bo_rx _ _ _ _ H))). }
  intros [buf'|buf'] w' Hp; apply swp_ret.
  - destruct Hp as (st' & N & Hcase). exists st'. eapply bridge_ok_new_op; [exact H|done|exact Eb|exact N| |by right].
    destruct Hcase as [(Hsay & _)|(t & w1 & _ & _ & _ & Hn)]; [|done]. eapply say_only_net; [exact Hsay|apply Hco].
  - destruct Hp as (st' & Hs & Hsay & _). exists st'.
    pose proof (say_only_net up _ _ Hsay (co_net _ _ _ Hco)) as Hn.
    destruct Hs as [([I1 I2 I3] & S & _)|(fr & N)].
    + apply bridge_ok_end; [|done]. by eapply bridge_ok_same.
    + eapply bridge_ok_new_op; [exact H|done|exact Eb|exact N|done|by left].
Qed.

Lemma say_all_run l : forall w, exists k, say_all l w = SRet () (sw_log w k).
Proof using Type.
  induction l as [|m l IH]; intros w; cbn [say_all]; [exists []; by rewrite sw_log_nil|].
  unfold mbind, SM_bind, say. destruct (IH (sw_log w [SMsg m.1 m.2])) as [k ->].
  eexists. by rewrite sw_log_app.
Qed.

Lemma key_event_run b e w up : common up b (snet w) -> exists b' k, key_event b e w = SRet b' (sw_log w k) /\
  common up b' (snet w) /\ b_rx b' = b_rx b.
Proof using HKI.
  intros [C1 C2 C3 C4]. unfold key_event. pose proof (kbd_monitor_same (b_kbd b) (b_cfg b) e) as Hs.
  pose proof (HKI (b_kbd b) (b_cfg b) e C2) as Hk.
  destruct (kbd_monitor _ _ _) as [[k c] out]. destruct (say_all_run out w) as [l E].
  eexists _, l. split; [rewrite (sbind_run _ _ _ _ _ E); reflexivity|]. split; [|done].
  split; simpl; try done. by eapply kbd_same_trans.
Qed.

Lemma log_rest w st l : at_rest w st -> at_rest (sw_log w l) st.
Proof using Type. by intros []. Qed.

Lemma bridge_event_ok up b w st e : bridge_ok up b w st ->
  swp (bridge_event b e) (fun _ => exits) (fun b' w' => exists st', bridge_ok up b' w' st') w.
Proof using L Hcfg HKI.
  intros H. destruct e as [s a|s|c|e]; simpl.
  - eapply swp_next; [apply (accept_event_ok up b w s a), H|]. intros [] w1 (n & -> & Hn). apply swp_ret. exists st.
    by eapply bridge_ok_net.
  - eapply swp_next; [by apply (poll_event_ok up b w st)|]. by intros [] w1 H1.
  - by apply (receive_event_ok up b w st).
  - destruct (key_event_run b e w up) as (b' & k & E & Hc & Erx); [apply H|].
    eapply swp_eq; [exact E|]. exists st. destruct H as [_ B2 B3 B4 B5 B6 B7 B8].
    split; rewrite ?Erx; try done; [by apply log_rest|]. destruct B7 as (R1 & R2 & R3).
    split; [done|]. split; [|done]. intros c buf Hc' Hb. by destruct (R2 c buf Hc' Hb).
Qed.

Lemma bridge_run_ok up es : forall b w st, bridge_ok up b w st ->
  swp (bridge_run b es) (fun _ => exits) (fun b' w' => exists st', bridge_ok up b' w' st') w.
Proof using L Hcfg HKI.
  induction es as [|e es IH]; intros b w st H; cbn [bridge_run]; [by exists st|].
  eapply swp_next; [by apply (bridge_event_ok up b w st)|]. intros b1 w1 (st1 & H1). by apply (IH b1 w1 st1).
Qed.

(** before the device is set up, a poll thread finds the link not ready *)
Lemma before_event_ok b w e : before b w ->
  swp (bridge_event b e) (fun _ => exits) before w.
Proof using L HKI.
  intros [B1 B2 B3 B4 B5 B6 B7]. destruct e as [s a|s|c|e]; simpl.
  - eapply swp_next; [by apply (accept_event_ok true)|]. intros [] w1 (n & -> & Hn). apply swp_ret.
    split; try done. by destruct B1.
  - unfold poll_event. case_decide; [|by split].
    assert (E : spw_link_ready (b_cfg b) w = SRet false w) by (unfold spw_link_ready; by rewrite B2).
    eapply swp_bind, swp_run; [exact E|]. eapply swp_run.
    { unfold calls_of. simpl. rewrite drop_all, sw_net_id. reflexivity. }
    by split.
  - unfold receive_event. rewrite B7. case_decide; [|by split].
    destruct (Z.to_nat c) as [|[|n]]; by split.
  - destruct (key_event_run b e w true B1) as (b' & k & E & Hc & Erx).
    eapply swp_eq; [exact E|]. split; try done. by rewrite Erx.
Qed.

Lemma early_run_ok z es : z = true \/ Forall (fun e => is_poll e = false) es ->
  forall b w, before b w -> swp (early_run z b es) (fun _ => exits) before w.
Proof using L HKI.
  intros Hz. induction es as [|e es IH]; intros b w H; cbn [early_run]; [done|].
  assert (Hes : z = true \/ Forall (fun e => is_poll e = false) es).
  { destruct Hz as [|Hz]; [by left|]. apply Forall_cons_1 in Hz. right. apply Hz. }
  assert (E : early_event z b e = bridge_event b e).
  { destruct Hz as [-> |Hz]; [by destruct e|]. apply Forall_cons_1 in Hz as [He _]. by destruct e. }
  rewrite E. eapply swp_next; [by apply before_event_ok|]. intros b1 w1 H1. by apply IH.
Qed.

(** ** The end *)

(** what is left when the bridge has ended: no operation but those that the API has
    freed itself, no address, no mutex *)
Record released (w : sworld) : Prop := {
  re_spw : spw w = None;
  re_ops : forall k x, ops w !! k = Some x -> op_freed x = true;
  re_addrs : addrs w = 0%nat;
  re_lock : locked w = false;
  re_net : held (snet w) = [] /\ net (snet w) = net_calloc
}.

Lemma shutdown_rest w st : at_rest w st ->
  at_rest (sw_spw w (Some (with_shutdown st true))) (with_shutdown st true).
Proof using Type. by intros []. Qed.

(** behind [net_stop] *)
Lemma stop_tail up b w st : bridge_ok up b w st -> exists w',
  (_ ← spw_stop_poll (b_cfg b); _ ← Spw.on_net (net_release (b_cfg b)); _ ← spw_dispose_ops (b_cfg b);
   spw_release (b_cfg b)) w = SRet () w' /\ released w'.
Proof using Hcfg.
  intros [Hco B2 B3 B4 B5 B6 B7 B8]. destruct (common_good _ _ _ Hco) as (_ & _ & Em & _).
  destruct (in_use_slots (b_cfg b) w st B2 B3 B5) as (Hknown & Hall & Hused); [rewrite Em; apply B6|].
  rewrite (sbind_run _ _ _ _ _ (stop_poll_run (b_cfg b) w st B2 Hused)).
  set (w1 := sw_log _ _). set (st1 := with_shutdown st true).
  assert (Hr1 : at_rest w1 st1) by (by apply log_rest, shutdown_rest).
  assert (Hh : held (snet w1) = []) by apply Hco.
  set (w2 := sw_net w1 (w_net (snet w1) net_calloc)).
  assert (E2 : Spw.on_net (net_release (b_cfg b)) w1 = SRet () w2).
  { unfold Spw.on_net. by rewrite (net_release_run _ _ Hh). }
  rewrite (sbind_run _ _ _ _ _ E2). assert (Hr2 : at_rest w2 st1) by (by apply at_rest_net).
  destruct (dispose_ops_run (b_cfg b) w2 st1 Hr2 Hknown) as (w3 & E3 & D3).
  rewrite (sbind_run _ _ _ _ _ E3). destruct D3 as [D1 D2 D3 D4 D5 D6 D7 D8].
  rewrite (release_run (b_cfg b) w3 st1); [|by rewrite D1; apply Hr2|apply Hr2].
  eexists. split; [reflexivity|]. change (p_address st1) with (p_address st).
  assert (Hops : forall k x, ops w3 !! k = Some x -> op_freed x = true).
  { intros k x Hx. destruct (decide (Some k ∈ in_use (b_cfg b) st)) as [Hin|Hin]; [by eapply D8|].
    rewrite D7 in Hx by done. exfalso. apply Hin, Hall. by exists x. }
  assert (Hlock : locked w3 = false) by (rewrite D4; apply Hr2).
  destruct (p_address st); split; simpl; try done; rewrite ?D3, ?D5; simpl; try done; lia.
Qed.

(** [spw_request_shutdown] *)
Lemma request_ok up b w st : bridge_ok up b w st -> exists w', spw_request_shutdown w = SRet () w' /\
  bridge_ok up b w' (with_shutdown st true).
Proof using Type.
  intros H. eexists. split; [unfold spw_request_shutdown, get_spw, mbind, SM_bind; rewrite (ar_spw _ _ (bo_rest _ _ _ _ H)); reflexivity|].
  eapply bridge_ok_kept; [exact H|apply shutdown_rest, H|by split|apply H|done..|apply H].
Qed.

(** [net_stop]: the threads of the network side are gone *)
Lemma stop_net_ok b w st : bridge_ok true b w st -> exists w',
  Spw.on_net (net_stop (b_cfg b) (b_threads b)) w = SRet () w' /\ bridge_ok false (with_threads b no_threads) w' st.
Proof using Hcfg.
  intros H. pose proof (bo_common _ _ _ _ H) as Hco. destruct (common_good _ _ _ Hco) as (_ & Et & _).
  destruct Hco as [C1 C2 (N1 & N2 & N3) C4].
  destruct (net_stop_run (b_cfg b) (snet w)) as (n & E & (_ & Hh & Hn)).
  exists (sw_net w n). split; [unfold Spw.on_net; by rewrite C4, <- Et, E|].
  destruct H as [_ B2 B3 B4 B5 B6 (R1 & R2 & R3) B8]. split; try done; [|by apply at_rest_net|].
  - split; simpl; try done. split; [|split; [by rewrite Hn|done]].
    destruct N1 as (M1 & M2 & M3). split; [by rewrite Hh|]. unfold seq_ok, disjoint_tables, svc_of in *.
    by rewrite Hn.
  - split; [done|]. split; [|done]. intros c buf Hc Hb. by destruct (R2 c buf Hc Hb).
Qed.

End safe.

(** ** From the start to the end *)

Section whole.
Context {K : Kernel} {L : KernelLive K} {A : Star}.
Context (cfg : bridge_cfg) (Hcfg : cfg_good cfg).

Lemma bridge_ok_kbd (KI KI' : kbd -> Prop) cl up b w st k : bridge_ok cfg cl KI up b w st -> KI' k ->
  bridge_ok cfg cl KI' up (with_kbd b k) w st.
Proof using Type. by intros [[] ]. Qed.

(** what the keyboard thread can no longer change when [kbd_stop] has returned
    is as it was in the end *)
Lemma main_stop_run (KI KI' : kbd -> Prop) cl ok b w st es es' : bridge_ok cfg cl KI true b w st ->
  KI' (kbd_stop ok (b_kbd b)) -> (forall k c e, KI' k -> KI' (kbd_monitor k c e).1.1) ->
  swp (main_stop ok b es es') (fun _ => exits cl) (fun b' w' => released w' /\ KI' (b_kbd b')) w.
Proof using L Hcfg.
  intros H Hk Hstep. apply (bridge_ok_kbd KI KI' cl true b w st _) in Hk as H0; [|done]. unfold main_stop. cbv zeta.
  destruct (request_ok cfg cl KI' true _ w st H0) as (w1 & E1 & H1). eapply swp_run; [exact E1|].
  eapply swp_next; [by eapply (bridge_run_ok cfg cl KI' Hcfg Hstep true)|]. intros b2 w2 (st2 & H2).
  destruct (stop_net_ok cfg cl KI' Hcfg b2 w2 st2 H2) as (w3 & E3 & H3). eapply swp_run; [exact E3|].
  eapply swp_next; [by eapply (bridge_run_ok cfg cl KI' Hcfg Hstep false)|]. intros b4 w4 (st4 & H4).
  destruct (stop_tail cfg cl KI' Hcfg false b4 w4 st4 H4) as (w5 & E5 & R5).
  assert (E : (_ ← spw_stop_poll (b_cfg b4); _ ← Spw.on_net (net_release (b_cfg b4));
    _ ← spw_dispose_ops (b_cfg b4); _ ← spw_release (b_cfg b4); mret (with_rx b4 [RxEnded; RxEnded])) w4 =
    SRet (with_rx b4 [RxEnded; RxEnded]) w5).
  { revert E5. unfold mbind, SM_bind. destruct (spw_stop_poll _ w4) as [[] x| |]; [|done|done].
    destruct (Spw.on_net _ x) as [[] y| |]; [|done|done]. destruct (spw_dispose_ops _ y) as [[] z| |]; [|done|done].
    by intros ->. }
  eapply swp_eq; [exact E|]. split; [done|]. apply H4.
Qed.

Lemma kept_rest w st w' : at_rest w st -> kept w w' -> spw w' = Some st -> at_rest w' st.
Proof using Type.
  intros [R1 R2 R3 R4 R5 R6 R7] [K1 K2 K3 K4 K5] Hs. split; try done; [congruence| |].
  - intros o Ho. rewrite K1. apply R6. lia.
  - intros i Hi. rewrite K2. apply R7. lia.
Qed.

(** the state of the process when [main] is called; that nothing is stored in
    [cfg->spw] yet is not that it is null, see [early_event] *)
Record process_start (w : sworld) : Prop := {
  ps_spw : spw w = None;
  ps_ops : ops w = ∅;
  ps_items : items w = ∅;
  ps_addrs : addrs w = 0%nat;
  ps_lock : locked w = false;
  ps_net : held (snet w) = [];
  ps_dgq : octets (dgq (snet w)) (* what has arrived already *)
}.

Lemma kbd_start_run t w : exists k l, kbd_start t w = SRet k (sw_log (sw_call w) l) /\ kbd_inv t k.
Proof using Type.
  unfold kbd_start, mbind, SM_bind, scallno. simpl. destruct (s_create (scall w)); cbn beta iota delta [negb].
  - exists (kbd_init t), []. by rewrite sw_log_nil.
  - by exists (with_pc (kbd_init t) KbdEnded), [SMsg "kbd monitor: %s\n" []].
Qed.

(** the polling threads that [spw_setup_device] has created *)
Lemma set_up_ok cl KI b w st w' : before cfg cl KI b w -> set_up (b_cfg b) w st w' ->
  bridge_ok cfg cl KI true
    (with_rx b [RxPolling None; if enable_monitor (b_cfg b) then RxPolling None else RxEnded]) w' st.
Proof using Hcfg.
  intros [[C1 C2 C3 C4] B2 B3 B4 B5 B6 B7] [S1 S2 S3 S4 S5 (S6 & S7 & _) [S8 S9] S10 _].
  destruct (cfg_good_same cfg _ C1 Hcfg) as (_ & _ & Em & _).
  assert (Hslot : forall c, rx_slot st c = None).
  { intros c. unfold rx_slot. rewrite S6. by destruct (Z.to_nat c) as [|[|]]. }
  split; try done.
  - split; simpl; try done. by rewrite S10.
  - unfold tx_clear. rewrite S7. by repeat apply Forall_cons_2.
  - intros Hm. rewrite <- Em in Hm. rewrite (ready_run (b_cfg b) w' st S1 Hm) in S3. by injection S3.
  - split.
    + intros k. rewrite S8, B3, lookup_empty. split; [by intros []|]. intros (c & _ & Hc). by rewrite Hslot in Hc.
    + intros c k _. by rewrite Hslot.
  - intros Hm. split; [done|]. simpl. by rewrite Em, Hm.
  - split; [done|]. split; [|simpl; intros ? ? [= <-]; destruct (enable_monitor _); by intros [= <-]].
    intros c buf _ Hb. split; [intros o; by rewrite Hslot|]. simpl in Hb.
    destruct (Z.to_nat c) as [|[|]]; simpl in Hb; [by injection Hb as <-| |done].
    destruct (enable_monitor _); [by injection Hb as <-|done].
  - by rewrite S5, B5.
Qed.

(** the sockets fit into an [fd_set] *)
Lemma low_sockets : (mode cfg <> MODE_SERVER -> forall n, k_socket n < FD_SETSIZE) -> ~ beyond_set cfg.
Proof using Type. intros Hlow [Hm [n Hn]]. specialize (Hlow Hm n). lia. Qed.

Lemma main_start_run z q t es es' w : process_start w -> bytes q ->
  z = true \/ Forall (fun e => is_poll e = false) es ->
  (mode cfg <> MODE_SERVER -> forall n, k_socket n < FD_SETSIZE) ->
  swp (main_start z cfg q t es es') (fun _ => True)
    (fun b w' => exists cl st, (mode cfg <> MODE_CLIENT -> cl = false) /\
       bridge_ok cfg cl (kbd_inv t) true b w' st) w.
Proof using L Hcfg.
  intros [P1 P2 P3 P4 P5 P6 P7] Hq Hz Hlow. pose proof Hcfg as [T _ _].
  pose proof (fun k c e => kbd_monitor_inv t k c e) as Hstep. unfold main_start.
  eapply swp_next.
  { eapply swp_mono; [eapply swp_net, wp_unless_not; [by apply (net_start_safe cfg q (snet w) (typed_ok _ T) P6 Hq P7)|by apply low_sockets]
      |intros a w' H; exact H|done]. }
  intros th w1 (n & -> & -> & Hs & Hc). destruct (kbd_start_run t (sw_net w n)) as (k & l & Ek & Hk).
  eapply swp_run; [exact Ek|]. set (cl := is_client (net n)).
  assert (B : before cfg cl (kbd_inv t) (mk_bridge cfg (threads_rec cfg) [RxEnded; RxEnded] k)
    (sw_log (sw_call (sw_net w n)) l)).
  { split; try done. split; simpl; [apply kbd_same_refl|done| |done]. split; [by eapply net_safe_ok|done]. }
  eapply swp_next; [eapply swp_mono; [by apply (early_run_ok cfg cl _ Hstep)|intros ?? H; exact H|done]|].
  intros b w2 B2. destruct (cfg_good_same cfg _ (co_cfg _ _ _ _ _ _ (be_common _ _ _ _ _ B2)) Hcfg) as ([T2 _ _] & _ & Em & _).
  pose proof B2 as [_ _ O2 I2 _ L2 _].
  eapply swp_next; [apply (setup_device_run (b_cfg b) w2)|].
  - apply T2.
  - split; [done|]. rewrite O2, I2. split; [by intros o _|]. intros i _. apply not_elem_of_empty.
  - destruct (ct_path _ T2) as [_ ->]. apply T2.
  - intros [] w3 (st & Hst). pose proof (set_up_ok _ _ _ _ _ _ B2 Hst) as H3.
    eapply swp_next; [eapply swp_mono; [by eapply (bridge_run_ok cfg cl _ Hcfg Hstep true)|intros ?? H; exact H|done]|].
    intros b4 w4 (st4 & H4). pose proof (bo_rest _ _ _ _ _ _ _ H4) as Hr4.
    eapply swp_next; [apply (start_links_run (b_cfg b4) w4 st4), Hr4|].
    intros [] w5 (e1 & e2 & [K5 S5 N5 _] & _). eapply swp_run; [reflexivity|]. apply swp_ret.
    exists cl, st4. split; [done|]. pose proof (kept_rest _ _ _ Hr4 K5 S5) as Hr5.
    eapply bridge_ok_same; [exact H4|by apply log_rest| | |apply same_rx_refl].
    + destruct K5. by split.
    + simpl. rewrite N5. apply H4.
Qed.

End whole.

(** ** Properties *)

(** A round of a poll thread before [spw_setup_device] has stored [cfg->spw] is
    undefined: [spw_link_ready] tests the member, which neither [main] nor
    [bridge_cfg_init] sets, and [net_start] has created the thread already. *)
Theorem early_poll_undefined {K : Kernel} {L : KernelLive K} {A : Star} cfg q t es es' w : cfg_typed cfg ->
  process_start w -> bytes q ->
  match main_start false cfg q t (EvPoll SvcData :: es) es' w with SRet _ _ => False | _ => True end.
Proof.
  intros T [_ _ _ _ _ P6 P7] Hq. unfold main_start.
  destruct (Spw.on_net (net_start cfg q) w) as [th w1|w1|] eqn:E; unfold mbind, SM_bind; rewrite E; try done.
  unfold Spw.on_net in E. destruct (net_start cfg q (snet w)) as [th' n|n|] eqn:En; [|done|done]. injection E as <- <-.
  destruct (net_start_safe cfg q (snet w) (typed_ok _ T) P6 Hq P7) as [[Hs _]|Hwp]; [congruence|].
  unfold wp in Hwp. rewrite En in Hwp. destruct Hwp as [-> _].
  destruct (kbd_start_run t (sw_net w n)) as (k & l & Ek & _). rewrite Ek.
  cbn [early_run early_event]. rewrite decide_True; [done|]. simpl b_threads.
  unfold thread_list, threads_rec, data_pair. apply list_elem_of_In.
  case_decide; simpl; auto.
Qed.


(** ** Examples *)

(** a kernel that has always something to read on descriptors 3 and 7 *)
Definition loud_kernel : Kernel :=
  {| k_queue := fun _ => Queued 0; k_peek := fun _ => Queued 63; k_send := fun _ => Accepted 0;
     k_sendto := fun _ => true; k_clock := fun _ => (0, 0); k_malloc := fun _ => true;
     k_select := fun _ => Some {[3; 7]}; k_socket := fun _ => 3; k_setup := fun _ => true;
     k_intr_max := 0 |}.

#[export] Instance loud_kernel_live : KernelLive loud_kernel.
Proof. intros t. exists 0%nat. split; [simpl; lia|discriminate]. Qed.

(** a client sends two PUS packets, one before the links are started; two packets
    arrive from the device; the keys switch the printouts on *)
Definition ex_packet1 : list Z := [8; 1; 0xc0; 0; 0; 1; 9; 8].
Definition ex_packet2 : list Z := [8; 1; 0xc0; 1; 0; 0; 7].

Definition ex_schedule : schedule := mk_schedule
  [EvAccept SvcData (AcceptFd 7 (ex_packet1 ++ ex_packet2)); EvKey (KbdOpen true true)]
  [EvPoll SvcData; EvKey (KbdRaw true); EvReceive 0]
  [EvReceive 0; EvPoll SvcData; EvKey (KbdKey 100); EvPoll SvcData]
  [EvReceive 0] [EvReceive 0].

(** no poll thread runs before the device is set up *)
Lemma ex_schedule_late : false = true \/ Forall (fun e => is_poll e = false) (at_setup ex_schedule).
Proof. right. by repeat apply Forall_cons_2. Qed.

Definition ex_options : list found :=
  [ex_found "c"%char "1"; ex_found "n"%char "05:06"; mk_found "P"%char None None].

Definition ex_term : termios := mk_termios 10 0 0 7.

Definition ex_path : list Z := replicate 256 0.

Definition ex_main_cfg : bridge_cfg :=
  install_sink (set_interpret_pus (set_path_len (set_path (bridge_cfg_init ex_path) (5 :: 6 :: replicate 254 0)) 2) true).

Lemma sw0_process : process_start sw0.
Proof. split; try done. apply Forall_nil_2. Qed.

Lemma ex_main_sinkable n : sinkable ex_main_cfg (s_data n).
Proof. split; [apply (ex_sinkable n)|done]. Qed.

Lemma ex_options_parse : parse_options (bridge_cfg_init ex_path) ex_options =
  ORet (set_interpret_pus (set_path_len (set_path (bridge_cfg_init ex_path) (5 :: 6 :: replicate 254 0)) 2) true) [].
Proof. vm_compute. reflexivity. Qed.

