(* ===== verification/Signals.v ===== *)
(** * The signals of main (src/spw_bridge.c)

    [main] as the sequence of its calls, and the actions of the process: what a
    signal does depends on how far [main] has come, which waits in [pause] for one
    that is handled.  A signal that is sent to the process is delivered to one of
    its threads, [main] or another, as the program masks signals in none of them,
    and the handler runs there; [pause] returns only if that is [main].  A call may
    be in progress for ever: that it returns is an event.  What the calls do is in
    [Main], and whether they return in [SpwConcEnd] and [Threads].  *)

From Stdlib Require Import String List.
From stdpp Require Import base tactics option list sets.
From Stdlib Require Import ZArith Lia Bool.
From S2P Require Import Prelude.

Local Open Scope Z_scope.

(** [SigOther]: a signal the program does not deal with, whose default action ends it *)
Inductive signal : Type := SIGINT | SIGTERM | SIGHUP | SIGPIPE | SigOther (no : Z).

#[export] Instance signal_eq_dec : EqDecision signal.
Proof. solve_decision. Defined.

Definition signo (s : signal) : Z :=
  match s with SIGINT => 2 | SIGTERM => 15 | SIGHUP => 1 | SIGPIPE => 13 | SigOther no => no end.

(** a line of output *)
Definition text : Type := (string * list Z)%type.

Inductive action : Type :=
| SigDfl
| SigIgn
| SigHandler (f : Z -> text).

(** the calls of [main]; [SetAction] are the calls of [sigaction] and [signal] *)
Inductive call : Type :=
| BridgeCfgInit | ParseOptions | CrcInitLookupTable | InstallSink | NetStart | SetAction (s : signal) | KbdStart
| SpwSetupDevice | SpwStartLink | Ready | Pause | KbdStop | SpwRequestShutdown | NetStop | SpwStopPoll
| NetRelease | SpwDisposeOps | SpwRelease.

#[export] Instance call_eq_dec : EqDecision call.
Proof. solve_decision. Defined.

(** [todo]: the call [main] is in, and the ones behind it *)
Record process : Type := mk_process {
  actions : signal -> action;
  todo : list call;
  out : list text;
  ended_by : option signal
}.

Definition with_actions (p : process) (f : signal -> action) : process :=
  mk_process f (todo p) (out p) (ended_by p).
Definition with_todo (p : process) (l : list call) : process :=
  mk_process (actions p) l (out p) (ended_by p).

Definition set_action (f : signal -> action) (s : signal) (a : action) : signal -> action :=
  fun s' => if decide (s' = s) then a else f s'.

Definition sigint_handler (s : Z) : text := ("\nCaught signal %d\n"%string, [s]).

(** the action a call of [setup_signals] sets; the mask of the handlers is empty, and
    no flags are set *)
Definition new_action (s : signal) : action :=
  match s with SIGPIPE => SigIgn | _ => SigHandler sigint_handler end.

Definition setup_signals : list call :=
  [SetAction SIGINT; SetAction SIGTERM; SetAction SIGHUP; SetAction SIGPIPE].

Definition main_calls : list call :=
  [BridgeCfgInit; ParseOptions; CrcInitLookupTable; InstallSink; NetStart] ++ setup_signals ++
  [KbdStart; SpwSetupDevice; SpwStartLink; Ready; Pause; KbdStop; SpwRequestShutdown; NetStop; SpwStopPoll;
   NetRelease; SpwDisposeOps; SpwRelease].

(** the thread a signal is delivered to *)
Inductive thread : Type := InMain | InOther.

#[export] Instance thread_eq_dec : EqDecision thread.
Proof. solve_decision. Defined.

Inductive event : Type :=
| Returns (* from the call [main] is in *)
| Signal (t : thread) (s : signal).

(** there are no other threads before [net_start] *)
Definition exists_thread (t : thread) (p : process) : bool :=
  match t with InMain => true | InOther => bool_decide (InstallSink ∉ todo p) end.

(** [None]: it cannot happen; [pause] returns behind a handler that has run in [main] *)
Definition process_step (p : process) (ev : event) : option process :=
  match ended_by p, todo p with
  | Some _, _ | None, [] => None
  | None, c :: l =>
      match ev with
      | Returns =>
          match c with
          | Pause => None
          | SetAction s => Some (with_todo (with_actions p (set_action (actions p) s (new_action s))) l)
          | _ => Some (with_todo p l)
          end
      | Signal t s =>
          if negb (exists_thread t p) then None else
          match actions p s with
          | SigDfl => Some (mk_process (actions p) (todo p) (out p) (Some s))
          | SigIgn => Some p
          | SigHandler f =>
              Some (mk_process (actions p) (match c, t with Pause, InMain => l | _, _ => c :: l end)
                (out p ++ [f (signo s)]) None)
          end
      end
  end.

Fixpoint process_run (p : process) (l : list event) : option process :=
  match l with [] => Some p | ev :: l => p ← process_step p ev; process_run p l end.

Definition process_init : process := mk_process (fun _ => SigDfl) main_calls [] None.

(** ** Invariant *)

Definition handled (s : signal) : bool := match s with SIGINT | SIGTERM | SIGHUP => true | _ => false end.

(** a signal that the program deals with *)
Definition known (s : signal) : bool := match s with SigOther _ => false | _ => true end.

(** [main] is behind the call [c] *)
Definition behind (c : call) (p : process) : Prop := c ∉ todo p.

(** the actions when [n] calls have returned *)
Definition action_at (n : nat) (s : signal) : action :=
  if decide (SetAction s ∈ take n main_calls) then new_action s else SigDfl.

(** [n]: how many calls have returned *)
Record process_inv (n : nat) (p : process) : Prop := {
  pi_todo : todo p = drop n main_calls;
  pi_actions : forall s, actions p s = action_at n s;
  pi_ended : forall s, ended_by p = Some s -> SetAction s ∉ take n main_calls;
  pi_out : (13 < n)%nat -> exists s, handled s = true /\ sigint_handler (signo s) ∈ out p
}.

Lemma process_init_inv : process_inv 0 process_init.
Proof. split; [done|done|done|]. lia. Qed.

(** the call [main] is in *)
Lemma todo_drop n c l : drop n main_calls = c :: l -> main_calls !! n = Some c /\ l = drop (S n) main_calls.
Proof.
  intros H. assert (main_calls !! n = Some c) as Hc.
  { rewrite <- (Nat.add_0_r n), <- lookup_drop, H. done. }
  split; [done|]. rewrite (drop_S _ c n Hc) in H. congruence.
Qed.

(** the calls are all different *)
Lemma call_index c n m : main_calls !! n = Some c -> main_calls !! m = Some c -> n = m.
Proof. apply NoDup_lookup. refine (bool_decide_unpack _ _). by vm_compute. Qed.

Lemma behind_index c n i p : main_calls !! i = Some c -> todo p = drop n main_calls -> behind c p <-> (i < n)%nat.
Proof.
  intros Hi Hp. unfold behind. rewrite Hp. split.
  - intros H. destruct (decide (i < n)%nat) as [|Hn]; [done|]. exfalso. apply H.
    apply (list_elem_of_lookup_2 _ (i - n)). rewrite lookup_drop. replace (n + (i - n))%nat with i by lia. done.
  - intros Hn [j Hj]%list_elem_of_lookup_1. rewrite lookup_drop in Hj.
    pose proof (call_index _ _ _ Hi Hj). lia.
Qed.

(** the calls that set an action *)
Lemma set_action_calls s : SetAction s ∈ main_calls <-> known s = true.
Proof.
  split; [|destruct s; try done; intros _; refine (bool_decide_unpack _ _); by vm_compute].
  intros H. destruct s; try done. exfalso. by repeat (apply elem_of_cons in H as [H|H]; [done|]); apply elem_of_nil in H.
Qed.

Lemma behind_taken n p s : todo p = drop n main_calls -> known s = true -> behind (SetAction s) p ->
  SetAction s ∈ take n main_calls.
Proof.
  intros Hp Hs Hb. apply set_action_calls in Hs. rewrite <- (take_drop n main_calls) in Hs.
  apply elem_of_app in Hs as [|Hs]; [done|]. by rewrite <- Hp in Hs.
Qed.

(** a call returns *)
Lemma action_at_S n c s : main_calls !! n = Some c ->
  action_at (S n) s = if decide (c = SetAction s) then new_action s else action_at n s.
Proof.
  intros Hc. unfold action_at. rewrite (take_S_r _ _ _ Hc). case_decide as H1; case_decide as H2; try done.
  - apply elem_of_app in H1 as [H1|H1%list_elem_of_singleton]; [by rewrite decide_True|congruence].
  - exfalso. apply H1. subst c. apply elem_of_app. right. by apply list_elem_of_singleton.
  - rewrite decide_False; [done|]. intros H. apply H1. apply elem_of_app. by left.
Qed.

Lemma new_action_handler s f : new_action s = SigHandler f -> SetAction s ∈ main_calls -> handled s = true /\ f = sigint_handler.
Proof. intros Hf Hs%set_action_calls. by destruct s; simplify_eq/=. Qed.

Lemma action_at_handler n s f : action_at n s = SigHandler f -> handled s = true /\ f = sigint_handler.
Proof.
  unfold action_at. case_decide as H; [|done]. intros Hf. apply (new_action_handler s); [done|].
  rewrite <- (take_drop n main_calls). apply elem_of_app. by left.
Qed.

Lemma step_returns p p' n : process_step p Returns = Some p' -> process_inv n p -> process_inv (S n) p'.
Proof.
  unfold process_step. intros Hstep [Hn Ha He Ho]. destruct (ended_by p) eqn:Ee; [done|].
  destruct (todo p) as [|c l] eqn:Et; [done|].
  destruct (todo_drop n c l (eq_sym Hn)) as [Hc ->].
  assert (Hp : c <> Pause) by (by intros ->).
  assert (Hp' : p' = mk_process (match c with SetAction s => set_action (actions p) s (new_action s) | _ => actions p end)
    (drop (S n) main_calls) (out p) None) by (destruct c; simplify_eq; unfold with_todo, with_actions; simpl; by rewrite Ee).
  subst p'. split; simpl; [done| |done|].
  - intros s. rewrite (action_at_S n c s Hc), <- Ha. unfold set_action.
    destruct c; try (by rewrite decide_False). repeat case_decide; congruence.
  - intros H13. apply Ho. destruct (decide (n = 13%nat)) as [->|]; [|lia]. by injection Hc as <-.
Qed.

Lemma step_signal p p' n t s : process_step p (Signal t s) = Some p' -> process_inv n p ->
  exists m, process_inv m p' /\ (n <= m)%nat.
Proof.
  unfold process_step. intros Hstep [Hn Ha He Ho]. destruct (ended_by p) eqn:Ee; [done|].
  destruct (todo p) as [|c l] eqn:Et; [done|]. destruct (negb (exists_thread t p)); [done|].
  destruct (todo_drop n c l (eq_sym Hn)) as [Hc ->]. destruct (actions p s) as [| |f] eqn:Es; simplify_eq.
  - exists n. split; [|lia]. split; simpl; try done. intros s' [= <-]. rewrite Ha in Es.
    unfold action_at in Es. case_decide; [by destruct s|done].
  - exists n. split; [|lia]. split; try done; congruence.
  - rewrite Ha in Es. destruct (action_at_handler n s f Es) as [Hh ->].
    assert (Hout : exists s', handled s' = true /\ sigint_handler (signo s') ∈ out p ++ [sigint_handler (signo s)])
      by (exists s; set_solver).
    destruct (decide (c = Pause /\ t = InMain)) as [[-> ->]|Hp].
    + exists (S n). split; [|lia]. split; simpl; try done.
      intros s'. rewrite (action_at_S n Pause s' Hc). rewrite decide_False by done. apply Ha.
    + exists n. split; [|lia]. split; try done. cbn [todo]. rewrite <- Hn.
      destruct c, t; try done. by destruct Hp.
Qed.

Lemma process_run_inv l : forall p p' n, process_run p l = Some p' -> process_inv n p ->
  exists m, process_inv m p' /\ (n <= m)%nat.
Proof.
  induction l as [|ev l IH]; intros p p' n H Hi; cbn [process_run] in H.
  - simplify_eq. by exists n.
  - destruct (process_step p ev) as [p1|] eqn:E; [|done]. simpl in H.
    assert (exists m, process_inv m p1 /\ (n <= m)%nat) as (m & Hm & Hle).
    { destruct ev as [|t s]; [exists (S n); split; [by eapply step_returns|lia]|by eapply step_signal]. }
    destruct (IH p1 p' m H Hm) as (k & Hk & Hle'). exists k. split; [done|lia].
Qed.

(** behind [setup_signals] a signal the program deals with does not end it *)
Lemma signal_step p n t s c l : process_inv n p -> (8 < n)%nat -> ended_by p = None -> todo p = c :: l ->
  known s = true -> exists p', process_step p (Signal t s) = Some p' /\ ended_by p' = None /\
    todo p' = (if decide (c = Pause /\ t = InMain /\ handled s = true) then l else c :: l) /\
    out p' = if handled s then out p ++ [sigint_handler (signo s)] else out p.
Proof.
  intros Hi Hn He Ht Hs. pose proof (pi_todo _ _ Hi) as Hp. unfold process_step. rewrite He, Ht.
  assert (Hex : exists_thread t p = true).
  { destruct t; [done|]. apply bool_decide_eq_true. apply (behind_index InstallSink n 3 p eq_refl Hp). lia. }
  rewrite Hex, (pi_actions _ _ Hi). unfold action_at. rewrite decide_True.
  2: { apply (behind_taken n p s Hp Hs).
    destruct s; try done; [apply (behind_index _ n 5 p eq_refl Hp)|apply (behind_index _ n 6 p eq_refl Hp)
      |apply (behind_index _ n 7 p eq_refl Hp)|apply (behind_index _ n 8 p eq_refl Hp)]; lia. }
  cbn beta iota delta [negb].
  destruct s; try done; simpl; (eexists; split; [reflexivity|]); simpl; rewrite ?He, ?Ht; (split; [done|]); (split; [|done]).
  all: destruct t; [destruct (decide (c = Pause)) as [->|Hc]|];
    [rewrite ?decide_True by done; try done; rewrite decide_False by naive_solver; done
    |rewrite decide_False by naive_solver; by destruct c
    |rewrite decide_False by naive_solver; by destruct c].
Qed.

(** ** Properties *)

(** C38: Whatever signals arrive, in whatever state of [main], at whichever thread:
    one of SIGINT, SIGTERM, SIGHUP and SIGPIPE ends the process only before the call
    of [setup_signals] that sets its action; [main] leaves [pause] only for one of the
    first three, which it has reported.  While it is in [pause], each of them that is
    delivered to [main] takes it on to [kbd_stop], and the calls that are left then
    are those of the shutdown, in this order; one that is delivered to another
    thread is reported, and [main] stays in [pause].  Behind [pause] the same
    signals do not change what [main] still has to call, and each call that returns
    is followed by the next one: whether it returns is not said here. *)
Theorem signals_end_pause evs p : process_run process_init evs = Some p ->
  (forall s, ended_by p = Some s -> known s = true -> ~ behind (SetAction s) p) /\
  (behind Pause p -> exists s, handled s = true /\ sigint_handler (signo s) ∈ out p) /\
  (forall l, todo p = Pause :: l -> ended_by p = None ->
     l = [KbdStop; SpwRequestShutdown; NetStop; SpwStopPoll; NetRelease; SpwDisposeOps; SpwRelease] /\
     process_step p Returns = None /\
     forall s t, handled s = true -> exists p', process_step p (Signal t s) = Some p' /\ ended_by p' = None /\
       out p' = out p ++ [sigint_handler (signo s)] /\
       todo p' = match t with InMain => l | InOther => Pause :: l end) /\
  (behind Pause p -> ended_by p = None -> forall c l, todo p = c :: l ->
     (exists p', process_step p Returns = Some p' /\ ended_by p' = None /\ todo p' = l) /\
     forall s t, known s = true ->
       exists p', process_step p (Signal t s) = Some p' /\ ended_by p' = None /\ todo p' = todo p).
Proof.
  intros H. destruct (process_run_inv _ _ _ _ H process_init_inv) as (n & Hi & _).
  pose proof (pi_todo _ _ Hi) as Hp.
  pose proof (behind_index Pause n 13 p eq_refl Hp) as B13. split_and!.
  - intros s Hs Hk Hb. by apply (pi_ended _ _ Hi s Hs), (behind_taken n p).
  - intros Hb%B13. by apply (pi_out _ _ Hi).
  - intros l Ht He. rewrite Ht in Hp. destruct (todo_drop n _ _ (eq_sym Hp)) as [Hn Hl].
    pose proof (call_index _ n 13 Hn eq_refl) as ->. split; [by rewrite Hl|].
    split; [unfold process_step; by rewrite He, Ht|]. intros s t Hs.
    destruct (signal_step p 13 t s Pause l Hi ltac:(lia) He Ht ltac:(by destruct s)) as (p' & H1 & H2 & H3 & H4).
    rewrite Hs in H4. exists p'. split; [done|]. split; [done|]. split; [done|]. rewrite H3.
    destruct t; [by rewrite decide_True|by rewrite decide_False by naive_solver].
  - intros Hb%B13 He c l Ht. rewrite Ht in Hp. destruct (todo_drop n _ _ (eq_sym Hp)) as [Hn _].
    assert (Hc : c <> Pause) by (intros ->; pose proof (call_index _ n 13 Hn eq_refl); lia). split.
    + unfold process_step. rewrite He, Ht. destruct c; try done; by eexists.
    + intros s t Hs. destruct (signal_step p n t s c l Hi ltac:(lia) He Ht Hs) as (p' & H1 & H2 & H3 & _).
      exists p'. split; [done|]. split; [done|]. rewrite H3, Ht. by rewrite decide_False by naive_solver.
Qed.

(** A signal that arrives while [main] is still setting up the keyboard, the device
    or the links is reported, but it does not end the bridge: [main] goes on into
    [pause] and waits there for another one. *)
Theorem signal_before_pause_lost :
  Forall (fun s => Forall (fun k => exists p,
    process_run process_init (replicate (9 + k) Returns ++ Signal InMain s :: replicate (4 - k) Returns) = Some p /\
    sigint_handler (signo s) ∈ out p /\ head (todo p) = Some Pause /\ process_step p Returns = None)
    [0; 1; 2; 3]%nat) [SIGINT; SIGTERM; SIGHUP].
Proof.
  repeat first [apply Forall_nil_2 | apply Forall_cons_2];
    (eexists; split; [vm_compute; reflexivity|]); (split; [|done]); simpl; set_solver.
Qed.

(** a run with signals at all times, up to the return of [main] *)
Definition ex_signals : list event :=
  replicate 13 Returns ++ [Signal InMain SIGPIPE; Signal InOther SIGINT].

Lemma signals_end_pause_witness : exists p, process_run process_init ex_signals = Some p /\
  head (todo p) = Some Pause /\
  exists p', process_step p (Signal InMain SIGTERM) = Some p' /\ ended_by p' = None /\
    todo p' = [KbdStop; SpwRequestShutdown; NetStop; SpwStopPoll; NetRelease; SpwDisposeOps; SpwRelease].
Proof.
  assert (H : exists p l, process_run process_init ex_signals = Some p /\ todo p = Pause :: l /\ ended_by p = None)
    by (do 2 eexists; split; [reflexivity|split; reflexivity]).
  destruct H as (p & l & E & Ht & He). exists p. split; [exact E|]. split; [by rewrite Ht|].
  destruct (signals_end_pause ex_signals p E) as (_ & _ & H & _). destruct (H l Ht He) as (Hl & _ & Hs).
  destruct (Hs SIGTERM InMain eq_refl) as (p' & H1 & H2 & _ & H3). exists p'. split; [exact H1|].
  split; [exact H2|]. rewrite H3. exact Hl.
Defined.
